(* ===== verification/_CoqProject ===== *)
-Q . S2P
Prelude.v
PyStr.v
Json.v
JsonFacts.v
Sha256.v
Store.v
Cards.v
CardOwners.v
WriteAuthorizations.v
WriteAuthorizationFacts.v
WriteAuthorizationDemo.v
FieldSubmissions.v
FieldSubmissionFacts.v
TaskStateRules.v
TaskStateRuleFacts.v
Operations.v
OperationFacts.v
AuthChallenges.v
AuthChallengeFacts.v
Interactions.v
InteractionFacts.v
InteractionProjection.v
InteractionDemo.v
TaskPlans.v
TaskPlanFacts.v
ResourceBudget.v
ResourceBudgetFacts.v
InputValidation.v
InputValidationFacts.v
Transforms.v
TransformFacts.v
TransformHandlerFacts.v
Capabilities.v
PlanningPolicy.v
PlanValidation.v
PlanValidationFacts.v
PlanCreation.v
PlanningCatalog.v
PlanningCatalogFacts.v
PlanningDemo.v
CapabilityEngine.v
CapabilityEngineFacts.v
ControlledWrites.v
ControlledWriteFacts.v
Procedures.v
PlanRuntime.v
PlanRuntimeFacts.v
PlanRuntimeSafety.v
UserPermissions.v
UserGrants.v
UserGrantFacts.v
UserToolFacts.v
McpIdentities.v
McpIdentityFacts.v
SkillJobs.v
SkillJobFacts.v
HostContract.v
HostContractFacts.v
HostProfileFacts.v
Sessions.v
SessionFacts.v
TaskTables.v
TaskBatches.v
TaskLedger.v
TaskOutbox.v
TaskContinuations.v
TaskArtifacts.v
TaskFrames.v
TaskSteps.v
TaskDemo.v
RuntimeGovernance.v
RuntimeReports.v
AdminStores.v
RuntimeGovernanceFacts.v
RuntimeEvaluationFacts.v
TaskOutboxFacts.v
TaskLedgerFacts.v
TaskBatchFacts.v
AdminFacts.v
