(* ===== verification/Prelude.v ===== *)
(** * AgentBridge: verification of the central capability and governance layer

    AgentBridge lets an agent act in business systems under the control of a user.
    The agent's request becomes an operation with an idempotency key; where a human
    has to decide, the server opens a trusted card (a login form, a form of fields,
    an authorization of a prepared write), the user acts on the card in a browser, and
    the agent's next call consumes the outcome.  An interaction is the opaque public name
    of such a card, a task collects operations, interactions and plans, and a plan may run
    deterministic transforms between its capability calls, each input checked against
    a schema.  What runs leaves its traces in a runtime ledger, which administrators read and act on; they can also
    pause writes.  The modelled code is under [src/agentbridge/core/] and [src/agentbridge/admin/].

    ** Shared files
    - [Prelude] (this file): exceptions, the [result] and [tx] monads with their
      inversion and stepping lemmas (tactic [tx_inv], rewrite base [tx]), transactions
      that commit on return and roll back on an exception, reachability, stable sorting.
    - [PyStr]: strings as UTF-8 bytes with Python's character operations; what
      depends on the Unicode database is the class [UnicodeTables], instantiated for the
      ASCII range in the demonstrations.
    - [Json], [JsonFacts]: JSON values as [json.loads] gives them (objects are ordered
      association lists), Python truth, equality and [str], the canonical text of
      [json.dumps(sort_keys=True)], a parser, and their round trip.
    - [Sha256]: the digest of [hashlib.sha256], executable.
    - [Store]: datetimes, tables as finite maps, [SELECT]/[UPDATE]/[INSERT] on them with
      row counts and unique indexes, [hmac.compare_digest], URL splitting as the
      class [UrlTables].
    - [Cards]: the presentation and card session tables that authorizations and field
      submissions keep alike; [CardOwners]: the class of stores whose rows own cards or a
      slot, with the invariants and lifecycle lemmas these stores share.

    ** Components (files under [src/agentbridge/core/] on the right)
    - [WriteAuthorizations], [..Facts], [..Demo]: [write_authorizations.py].
    - [FieldSubmissions], [..Facts]: [field_submissions.py].
    - [Operations], [OperationFacts]: [operations.py].
    - [TaskStateRules], [TaskStateRuleFacts]: [task_state_rules.py].
    - [AuthChallenges], [AuthChallengeFacts]: [auth_challenges.py].
    - [Interactions], [InteractionFacts], [InteractionProjection], [..Demo]: [interactions.py]
      and what it reads of the three card stores.
    - [TaskPlans], [TaskPlanFacts]: [task_plans.py], the stored plans.
    - [ResourceBudget], [..Facts]: [mcp/resource_budget.py], admission of connections and requests.
    - [InputValidation], [InputValidationFacts]: [input_validation.py].
    - [Transforms], [TransformFacts], [TransformHandlerFacts]:
      [transforms.py], and the evidence schema of [query_contracts.py].
    - [Capabilities]: [capability.py], the registry of capabilities.
    - [PlanningPolicy], [PlanningCatalog], [PlanningCatalogFacts]: [planning_policy.py],
      [planning_catalog.py] and what [central_service.py] does with them for a user.
    - [PlanValidation], [PlanValidationFacts], [PlanCreation], [PlanningDemo]:
      [task_plan_validation.py], the compiler of proposals, and its composition with the store of plans.
    - [CapabilityEngine], [..Facts]: [capability_runtime.py].
    - [ControlledWrites], [..Facts]: [controlled_write_executor.py], over the stores
      of authorizations, field submissions, plans and operations.
    - [Procedures]: a state monad whose exceptions keep the state, for code over several stores.
    - [PlanRuntime], [PlanRuntimeFacts], [PlanRuntimeSafety]:
      [task_plan_runtime.py] and the projections of plans in [task_projections.py].
    - [UserPermissions]: [user_permission_catalog.json] and the tools of [mcp/central.py] that
      hosts see, as data; [UserGrants], [UserGrantFacts], [UserToolFacts]: [user_grants.py];
      [McpIdentities], [McpIdentityFacts]: [mcp_identities.py].
    - [SkillJobs], [SkillJobFacts]: [skill_job_queue.py], [skill_job_executor.py] and
      the parts of [skill_authoring.py] and [skill_workbench.py] that read or complete a job.
    - [HostContract], [HostContractFacts] (leases), [HostProfileFacts] (levels): [host_contract.py].
    - [Sessions], [SessionFacts]: [sessions.py], the sessions with the business systems.
    - [tasks.py], the task hub, over one record of twelve tables ([TaskTables], with the events and what they
      tell): [TaskLedger] (endpoints, tasks, observations, ends), [TaskBatches], [TaskOutbox] (deliveries and the
      timeline), [TaskContinuations] (maintenance, lists, selections), [TaskArtifacts] (files and reports of their
      delivery).  [TaskSteps] has one step per method, [TaskFrames] what a method leaves alone; the theorems are in
      [TaskLedgerFacts], [TaskBatchFacts] and [TaskOutboxFacts], and [TaskDemo] replays a recorded sequence of
      src/tests/fixtures/task_state_sequences.json.
    - [RuntimeGovernance]: [runtime_governance.py], the ledger of traces, stages, signals, incidents and recovery actions,
      with the detection of incidents; [RuntimeReports]: its service levels, observations and retention, the latency
      counters of [runtime_diagnostics.py], and a round of the worker of [mcp/central.py]; [RuntimeGovernanceFacts]
      (what every call does, as a relation), [RuntimeEvaluationFacts] (detection, redaction, recovery).
    - [AdminStores], [AdminFacts]: [admin/stores.py], the handlers of [admin/application.py] for accounts, incidents,
      recovery and policies, and the signing in and out of [admin/server.py]; they compose with the ledger, the task
      hub and, by the policies, with [ControlledWrites].

    Concrete inputs are in a module [..Demo] at the end of the file of the theorems, or in a file [..Demo] of their own.

    A store's state is a record of its tables; a method is its body in [tx], run by [method]
    or [transaction].  The clock, fresh identifiers and tokens are arguments, one per
    reading, so no theorem depends on the clock being monotone unless it says so.  A
    callback a method runs inside its transaction is an argument of the same monad.

    ** Theorem groups
    - Writes: a commit runs only what a user authorized, once, in the session in which it was prepared,
      and a cancelled plan excludes it; it writes what its function writes for the plan that was prepared, and a failure
      after a write is told as a named refusal, as a warning to confirm or else as unknown.
    - Plans: a proposal that compiles is a valid plan whose write comes last; the runtime ends, invokes no step twice,
      passes only recorded results on, stops before the write on incomplete sources, and never repeats a write
      when it recovers; stored plans keep their invariant.
    - Invariants of every reachable store: digests match what they digest, states agree with their
      timestamps and operations, at most one live row per slot, cards only of existing rows, grants
      explained by their log, jobs with at most three attempts and a claim while they run.
    - Safety along histories: what is consumed is what was prepared or submitted, an approval
      needs the token of a card of that authorization, nothing is consumed, claimed or
      decided twice, settled rows stay as they are, keys give one operation, updates of grants are not lost,
      revoked tokens stay dead, a worker that has lost its claim changes nothing.
    - Hosts: a host that has lost a coordinator lease stays out, a lease excludes the others until it runs out,
      and a host gets exactly the level that it declares and the project approves.
    - Sessions: an active session is the expected principal, one session per principal; what an activation does
      on every input, and how a rebinding between its transactions is overtaken.
    - Task hub: the invariants of tasks, of their links, which go back to records of the same user, of batches and
      their counters, of deliveries; a task that has ended stays so except for operations and batches; a completion may be
      repeated; what a claim takes and how long it excludes the others, and how a late report has something delivered
      twice.
    - Runtime ledger and administration: the invariant of the ledger; calls that do not overtake one another never forget
      the boundary of a commit, while an update that goes by an overtaken row may; a run of the detection opens and
      closes what it should, and what a person has settled stays settled; a recovery action runs once; a pause stops the
      writes it covers; and an account may be made without its audit.
    - Refinement and equivalence: the exact condition and effect of transitions; validation against a
      declarative reading of its schemas; the tools that are offered against those that can be called.
    - Liveness: the whole path from preparation to commit succeeds when everybody does what they
      should; lemmas add that a compiled plan starts and that a worker's round settles its job.
    - Transforms: the contract of [invoke]; each handler is equivalent to a reference
      definition (first occurrences by key, longest prefix that fits); handlers keep their
      output contract on every accepted input, except the merge of no source, whose
      failure is proved.

    ** Bounds and fuel
    Loops of the code are structural recursions where they can be.  The JSON parser and the decimal printer
    run on fuel bounded by the length of their input; the round trip lemmas prove that it
    is enough.  The topological order runs as many rounds as there are steps, which its theorem proves
    to be enough.  The loop of [PlanRuntime.advance] runs on fuel, and [advance_bounded] proves that
    the open steps of the plan and two more iterations end it.  Integers of Python are unbounded, so they
    are [Z]; the digest computes on 32-bit words with the wrap-around written out.  Floats of JSON are
    decimals that are only compared; the ratios, percentiles and durations of the ledger are computed on IEEE doubles
    ([SpecFloat]), rounded as Python rounds them.

    ** Not modelled
    Of [tasks.py]: the diagnostics of [inspect_runtime], the cursors of [list_user_events], the join over four
    stores of [operation_before_interaction], and the creation and migration of the schema.  Beyond it:
    [write_workflow.py] with [write_catalog.py], tables of constants and of adapter functions; the lifecycle of drafts
    and reviews of [skill_authoring.py], around a language model; the creation of the schema of
    [runtime_governance.py] and [admin/stores.py], the text that encodes a password hash, and the overviews and the
    handlers for tokens, grants, skills and database sources of [admin/application.py].  Left out:
    adapters, browsers, brokers, databases and front ends, which are input and output around these
    parts, and most of [central_service.py], which dispatches to them.  Threads are not modelled: each
    transaction is one step, as SQLite's immediate transactions make it, and reads
    outside a transaction are given their own snapshot where the code has them
    ([Operations.create], [McpIdentities.verify], [SkillJobs.cancel], [SkillJobs.active], [HostContract.release_coordinator_lease],
    [HostContract.require_registration], [Sessions.activate] and the other methods of the sessions, [TaskOutbox.claim_outbox],
    [RuntimeGovernance.update_trace] and [RuntimeGovernance.finish_span]).  These reads are taken together with the write
    that follows: the status in [TaskLedger.record_analysis_phase], which only appends an event; the links that
    [TaskContinuations.run_startup_maintenance] fills in; and in the runtime ledger the trace that [ensure_trace]
    continues, which may have ended since, the state before a transition, which is only logged, and the keys that
    [start_recovery_action] and [start_observation] look up, where the unique index refuses what was overtaken.  A
    call of several transactions ([Procedures]) runs them one after the other. *)

From stdpp Require Export base tactics list gmap strings fin_maps.
From Stdlib Require Export ZArith Lia Sorted.

#[export] Set Default Goal Selector "!".
#[export] Set Warnings "-clear-no-such-hyp".

(** ** Exceptions

    A Python exception is its class and its message.  The classes are those
    the modelled files raise or catch; [sqlite3.IntegrityError] is what the
    database raises on a violated uniqueness constraint. *)

Inductive exc_class : Type :=
  | ValueError | TypeError | KeyError | RuntimeError | IndexError
  | PermissionError | JSONDecodeError | AttributeError | StopIteration
  | SqliteIntegrityError
  | OperationConflictError
  | WriteAuthorizationNotFound | WriteAuthorizationStateError
  | WriteAuthorizationAccessDenied | WriteAuthorizationIntegrityError
  | FieldSubmissionNotFound | FieldSubmissionStateError
  | FieldSubmissionAccessDenied | FieldSubmissionIntegrityError
  | ChallengeNotFound | ChallengeStateError | ChallengeAccessDenied
  | InteractionNotFound | InteractionIntegrityError
  | TaskPlanNotFound | TaskPlanConflict | TaskPlanIntegrityError
  | TaskPlanCommitInProgress | UserGrantConflict | TokenEditConflict
  | SessionPrincipalMismatch | HostContractError | HostRegistrationRequired | HostLeaseConflict
  | TaskNotFound | TaskIntegrityError
  | TransformRejected (code : string)
  | PlanValidationError (code : string) (step_key : option string).

Record exn : Type := Exn { exn_class : exc_class; exn_message : string }.

#[export] Instance exc_class_eq_dec : EqDecision exc_class.
Proof. solve_decision. Defined.
#[export] Instance exn_eq_dec : EqDecision exn.
Proof. solve_decision. Defined.

(** [type(exc).__name__] for the exceptions of the stores *)
Definition class_name (c : exc_class) : string :=
  match c with
  | ValueError => "ValueError" | TypeError => "TypeError" | KeyError => "KeyError"
  | RuntimeError => "RuntimeError" | IndexError => "IndexError" | PermissionError => "PermissionError"
  | JSONDecodeError => "JSONDecodeError" | AttributeError => "AttributeError"
  | StopIteration => "StopIteration" | SqliteIntegrityError => "IntegrityError"
  | OperationConflictError => "OperationConflictError"
  | WriteAuthorizationNotFound => "WriteAuthorizationNotFound"
  | WriteAuthorizationStateError => "WriteAuthorizationStateError"
  | WriteAuthorizationAccessDenied => "WriteAuthorizationAccessDenied"
  | WriteAuthorizationIntegrityError => "WriteAuthorizationIntegrityError"
  | FieldSubmissionNotFound => "FieldSubmissionNotFound"
  | FieldSubmissionStateError => "FieldSubmissionStateError"
  | FieldSubmissionAccessDenied => "FieldSubmissionAccessDenied"
  | FieldSubmissionIntegrityError => "FieldSubmissionIntegrityError"
  | ChallengeNotFound => "ChallengeNotFound" | ChallengeStateError => "ChallengeStateError"
  | ChallengeAccessDenied => "ChallengeAccessDenied" | InteractionNotFound => "InteractionNotFound"
  | InteractionIntegrityError => "InteractionIntegrityError" | TaskPlanNotFound => "TaskPlanNotFound"
  | TaskPlanConflict => "TaskPlanConflict" | TaskPlanIntegrityError => "TaskPlanIntegrityError"
  | TaskPlanCommitInProgress => "TaskPlanCommitInProgress" | UserGrantConflict => "UserGrantConflict"
  | TokenEditConflict => "TokenEditConflict" | SessionPrincipalMismatch => "SessionPrincipalMismatch"
  | HostContractError => "HostContractError" | HostRegistrationRequired => "HostRegistrationRequired"
  | HostLeaseConflict => "HostLeaseConflict" | TaskNotFound => "TaskNotFound"
  | TaskIntegrityError => "TaskIntegrityError"
  | TransformRejected _ => "TransformRejected" | PlanValidationError _ _ => "PlanValidationError"
  end.

(** ** Fallible computations *)

Inductive result (A : Type) : Type :=
  | Ok (a : A)
  | Raise (e : exn).
Arguments Ok {_} _.
Arguments Raise {_} _.

#[export] Instance result_ret : MRet result := fun A a => Ok a.
#[export] Instance result_bind : MBind result := fun A B k m =>
  match m with Ok a => k a | Raise e => Raise e end.
#[export] Instance result_throw : MThrow exn result := fun A e => Raise e.

#[export] Instance result_eq_dec `{EqDecision A} : EqDecision (result A).
Proof. solve_decision. Defined.

(** [x ← m; k] with the computation elaborated before its continuation, so
    that the type of [x] is known in [k]. *)
Definition pbind {Mo : Type -> Type} `{MBind Mo} {A B} (m : Mo A) (k : A -> Mo B) : Mo B :=
  mbind k m.

Declare Scope py_scope.
Delimit Scope py_scope with py.
Notation "x ← y ; z" := (pbind y (fun x => z))
  (at level 20, y at level 100, z at level 200, only parsing) : py_scope.
Notation "' x ← y ; z" := (pbind y (fun x => z))
  (at level 20, x pattern, y at level 100, z at level 200, only parsing) : py_scope.
Notation "x ;; z" := (pbind x (fun _ => z))
  (at level 100, z at level 200, only parsing, right associativity) : py_scope.
Open Scope py_scope.

(** ** Transactions

    [tx S A] runs against a database state [S].  A raised exception carries
    no state: the connection context manager of every store commits when its
    body returns and rolls back when it raises, so the state a caller sees
    after a failed body is the state before it ([transaction] below). *)

Definition tx (S A : Type) : Type := S -> result (A * S).

#[export] Instance tx_ret S : MRet (tx S) := fun A a s => Ok (a, s).
#[export] Instance tx_bind S : MBind (tx S) := fun A B k m s =>
  match m s with Ok (a, s') => k a s' | Raise e => Raise e end.
#[export] Instance tx_throw S : MThrow exn (tx S) := fun A e s => Raise e.

Definition gets {S A} (f : S -> A) : tx S A := fun s => Ok (f s, s).
Definition modify {S} (f : S -> S) : tx S unit := fun s => Ok (tt, f s).
Definition lift {S A} (r : result A) : tx S A := fun s =>
  match r with Ok a => Ok (a, s) | Raise e => Raise e end.

Definition raise {Mo : Type -> Type} `{MThrow exn Mo} {A}
  (cls : exc_class) (msg : string) : Mo A := mthrow (Exn cls msg).

Definition raise_if {Mo : Type -> Type} `{MThrow exn Mo, MRet Mo}
  (b : bool) (cls : exc_class) (msg : string) : Mo unit :=
  if b then raise cls msg else mret tt.

(** [with self._connect() as connection: ...]: commit or roll back. *)
Definition transaction {S A} (m : tx S A) (s : S) : result A * S :=
  match m s with
  | Ok (a, s') => (Ok a, s')
  | Raise e => (Raise e, s)
  end.

(** The state a transaction leaves behind. *)
Definition after {S A} (m : tx S A) (s : S) : S := snd (transaction m s).

(** ** Inversion of computations

    The [tx] rewrite base turns "this body returned" into what each of its
    steps did; [tx_inv H] applies it and destructs the result. *)

Section TxInversion.
  Context {S A B : Type}.
Implicit Types (s t : S).

Lemma tx_bind_Ok (m : tx S A) (k : A -> tx S B) s b t :
  (x ← m; k x) s = Ok (b, t) <-> exists a s1, m s = Ok (a, s1) /\ k a s1 = Ok (b, t).
Proof.
  change ((x ← m; k x) s) with
    (match m s with Ok (a, s') => k a s' | Raise e => Raise e end).
  destruct (m s) as [[a s1]|e]; naive_solver.
Qed.

Lemma tx_bind_Raise (m : tx S A) (k : A -> tx S B) s e :
  (x ← m; k x) s = Raise e <->
  m s = Raise e \/ exists a s1, m s = Ok (a, s1) /\ k a s1 = Raise e.
Proof.
  change ((x ← m; k x) s) with
    (match m s with Ok (a, s') => k a s' | Raise e => Raise e end).
  destruct (m s) as [[a s1]|e1]; naive_solver.
Qed.

Lemma tx_bind_run (m : tx S A) (k : A -> tx S B) s a s1 :
  m s = Ok (a, s1) -> (x ← m; k x) s = k a s1.
Proof. intros H. unfold pbind, mbind, tx_bind. by rewrite H. Qed.

Lemma tx_bind_fail (m : tx S A) (k : A -> tx S B) s e :
  m s = Raise e -> (x ← m; k x) s = Raise e.
Proof. intros H. unfold pbind, mbind, tx_bind. by rewrite H. Qed.

Lemma tx_ret_Ok (a b : A) s t : (mret a : tx S A) s = Ok (b, t) <-> b = a /\ t = s.
Proof. unfold mret, tx_ret. naive_solver. Qed.

Lemma tx_gets_Ok (f : S -> A) s b t : gets f s = Ok (b, t) <-> b = f s /\ t = s.
Proof. unfold gets. naive_solver. Qed.

Lemma tx_modify_Ok (f : S -> S) s u t : modify f s = Ok (u, t) <-> t = f s.
Proof. destruct u. unfold modify. naive_solver. Qed.

Lemma tx_lift_Ok (r : result A) s b t : lift r s = Ok (b, t) <-> r = Ok b /\ t = s.
Proof. unfold lift. destruct r; naive_solver. Qed.

Lemma tx_raise_Ok cls msg s (b : A) t : (raise cls msg : tx S A) s = Ok (b, t) <-> False.
Proof. unfold raise, mthrow, tx_throw. naive_solver. Qed.

Lemma tx_raise_if_Ok (b : bool) cls msg s u t :
  (raise_if b cls msg : tx S unit) s = Ok (u, t) <-> b = false /\ t = s.
Proof. destruct u, b; unfold raise_if, mret, tx_ret; cbn; naive_solver. Qed.

Lemma tx_raise_if_false cls msg s :
  (raise_if false cls msg : tx S unit) s = Ok (tt, s).
Proof. done. Qed.
End TxInversion.

Section ResultInversion.
  Context {A B : Type}.

Lemma result_bind_Ok (m : result A) (k : A -> result B) b :
  (x ← m; k x) = Ok b <-> exists a, m = Ok a /\ k a = Ok b.
Proof. destruct m; unfold pbind, mbind, result_bind; naive_solver. Qed.

Lemma result_bind_run (m : result A) (k : A -> result B) a :
  m = Ok a -> (x ← m; k x) = k a.
Proof. by intros ->. Qed.

Lemma result_bind_fail (m : result A) (k : A -> result B) e :
  m = Raise e -> (x ← m; k x) = Raise e.
Proof. by intros ->. Qed.

Lemma result_raise_if_Ok (b : bool) cls msg u :
  (raise_if b cls msg : result unit) = Ok u <-> b = false.
Proof. destruct b, u; unfold raise_if, raise, mret, mthrow, result_ret, result_throw; naive_solver. Qed.

Lemma result_raise_if_bind b cls msg (k : unit -> result A) a :
  (u ← raise_if b cls msg; k u) = Ok a <-> b = false /\ k tt = Ok a.
Proof. destruct b; split; try done; by intros [? ?]. Qed.

Lemma result_ret_Ok (a b : A) : (mret a : result A) = Ok b <-> b = a.
Proof. unfold mret, result_ret. naive_solver. Qed.

Lemma result_raise_Ok cls msg (b : A) : (raise cls msg : result A) = Ok b <-> False.
Proof. unfold raise, mthrow, result_throw. naive_solver. Qed.
End ResultInversion.

(** The same, for a first step followed by the rest of the body. *)
Section TxSteps.
  Context {S A B : Type}.
Implicit Types (s : S) (x : B * S).

Lemma tx_raise_if_bind b cls msg (k : unit -> tx S B) s x :
  (u ← raise_if b cls msg; k u) s = Ok x <-> b = false /\ k tt s = Ok x.
Proof. destruct b; split; try done; by intros [? ?]. Qed.

Lemma tx_lift_bind (r : result A) (k : A -> tx S B) s x :
  (a ← lift r; k a) s = Ok x <-> exists a, r = Ok a /\ k a s = Ok x.
Proof.
  destruct r as [a|e]; split; try done.
  - intros H. by exists a.
  - by intros (b & [= <-] & H).
  - by intros (b & H & _).
Qed.

Lemma tx_gets_bind (f : S -> A) (k : A -> tx S B) s x :
  (a ← gets f; k a) s = Ok x <-> k (f s) s = Ok x.
Proof. done. Qed.

Lemma tx_modify_bind f (k : unit -> tx S B) s x :
  (u ← modify f; k u) s = Ok x <-> k tt (f s) = Ok x.
Proof. done. Qed.

Lemma tx_ret_bind (a : A) (k : A -> tx S B) s x :
  (b ← mret a; k b) s = Ok x <-> k a s = Ok x.
Proof. done. Qed.

Lemma tx_raise_bind cls msg (k : A -> tx S B) s x :
  (b ← raise cls msg; k b) s = Ok x <-> False.
Proof. done. Qed.
End TxSteps.

Create Rewrite HintDb tx.
#[export] Hint Rewrite @tx_ret_Ok @tx_gets_Ok @tx_modify_Ok @tx_lift_Ok
  @tx_raise_Ok @tx_raise_if_Ok @result_bind_Ok @result_raise_if_Ok @result_ret_Ok
  @result_raise_Ok : tx.

(** [tx_inv H] breaks "the body returned" into what its steps did, one step
    at a time ([tx_inv1]); [tx_run] is its converse on a goal. *)
Ltac tx_inv1 H :=
  lazymatch type of H with
  | pbind (raise_if _ _ _) _ _ = Ok _ =>
      let G := fresh "G" in rewrite tx_raise_if_bind in H; destruct H as [G H]
  | pbind (lift _) _ _ = Ok _ =>
      let a := fresh "a" in let G := fresh "E" in rewrite tx_lift_bind in H; destruct H as (a & G & H)
  | pbind (gets _) _ _ = Ok _ => rewrite tx_gets_bind in H
  | pbind (modify _) _ _ = Ok _ => rewrite tx_modify_bind in H
  | pbind (mret _) _ _ = Ok _ => rewrite tx_ret_bind in H
  | pbind (raise _ _) _ _ = Ok _ => rewrite tx_raise_bind in H; destruct H
  | raise _ _ _ = Ok _ => discriminate H
  | mret _ _ = Ok _ => injection H; clear H; intros; subst
  | Ok _ = Ok _ => injection H; clear H; intros; subst
  end; cbv beta zeta in *.

Ltac tx_inv H := repeat tx_inv1 H.

Ltac tx_run1 :=
  lazymatch goal with
  | |- pbind (raise_if _ _ _) _ _ = Ok _ => rewrite tx_raise_if_bind; split
  | |- pbind (lift _) _ _ = Ok _ => rewrite tx_lift_bind; eexists; split
  | |- pbind (gets _) _ _ = Ok _ => rewrite tx_gets_bind
  | |- pbind (modify _) _ _ = Ok _ => rewrite tx_modify_bind
  | |- pbind (mret _) _ _ = Ok _ => rewrite tx_ret_bind
  end; cbv beta zeta.

(** Case analysis on the innermost [match] or [if] of a hypothesis or goal. *)
Ltac case_on H :=
  match type of H with
  | context [match ?x with _ => _ end] =>
      lazymatch x with
      | context [match _ with _ => _ end] => fail
      | _ => destruct x eqn:?
      end
  end.

(** Are two terms equal?  Rewrites the first by the second when they are. *)
Ltac split_eq a b := destruct (base.decide (a = b)) as [->|?].

Ltac bool_simpl :=
  repeat match goal with
  | H : andb _ _ = true |- _ => apply andb_true_iff in H; destruct H
  | H : orb _ _ = false |- _ => apply orb_false_iff in H; destruct H
  | H : negb _ = true |- _ => apply negb_true_iff in H
  | H : negb _ = false |- _ => apply negb_false_iff in H
  | H : String.eqb _ _ = true |- _ => apply String.eqb_eq in H
  | H : String.eqb _ _ = false |- _ => apply String.eqb_neq in H
  | H : bool_decide _ = true |- _ => apply bool_decide_eq_true in H
  | H : bool_decide _ = false |- _ => apply bool_decide_eq_false in H
  | H : Z.leb _ _ = true |- _ => apply Z.leb_le in H
  | H : Z.leb _ _ = false |- _ => apply Z.leb_gt in H
  | H : Z.ltb _ _ = true |- _ => apply Z.ltb_lt in H
  | H : Z.ltb _ _ = false |- _ => apply Z.ltb_ge in H
  end.

Lemma transaction_Ok {S A} (m : tx S A) s a s' :
  transaction m s = (Ok a, s') <-> m s = Ok (a, s').
Proof. unfold transaction. destruct (m s) as [[? ?]|]; naive_solver. Qed.

(** A body that raises leaves no trace in the database. *)
Lemma transaction_Raise {S A} (m : tx S A) s e s' :
  transaction m s = (Raise e, s') <-> m s = Raise e /\ s' = s.
Proof. unfold transaction. destruct (m s) as [[? ?]|]; naive_solver. Qed.

Lemma after_cases {S A} (m : tx S A) s :
  after m s = s \/ exists a, m s = Ok (a, after m s).
Proof.
  unfold after, transaction. destruct (m s) as [[a s']|e]; cbn; eauto.
Qed.

(** A property every returning body keeps is kept by the transaction. *)
Lemma after_preserves {S A} (P : S -> Prop) (m : tx S A) s :
  (forall a s', m s = Ok (a, s') -> P s') -> P s -> P (after m s).
Proof.
  intros Hm Hs. destruct (after_cases m s) as [->|[a Ha]]; eauto.
Qed.

(** ** Reachability

    Interleavings are sequences of transactions: SQLite serialises writers
    ([BEGIN IMMEDIATE]), so a state is reachable when some sequence of steps
    leads to it from the initial one. *)

Inductive reachable {S} (init : S -> Prop) (step : S -> S -> Prop) : S -> Prop :=
  | reachable_init s : init s -> reachable init step s
  | reachable_step s t : reachable init step s -> step s t -> reachable init step t.

Lemma reachable_invariant {S} (init : S -> Prop) (step : S -> S -> Prop) (I : S -> Prop) :
  (forall s, init s -> I s) ->
  (forall s t, I s -> step s t -> I t) ->
  forall s, reachable init step s -> I s.
Proof. intros H0 H1 s Hs. induction Hs; eauto. Qed.

(** ** Lists *)

(** [name for name, value in required.items() if not ...] and the like. *)
Definition names_where {A} (p : A -> bool) (l : list (string * A)) : list string :=
  map fst (List.filter (fun kv => p (snd kv)) l).

Fixpoint assoc {A} (k : string) (l : list (string * A)) : option A :=
  match l with
  | [] => None
  | (k', a) :: l' => if String.eqb k k' then Some a else assoc k l'
  end.

(** [d.get(k, default)] on a dictionary written in the source. *)
Definition dict_get {A} (d : list (string * A)) (k : string) (default : A) : A :=
  match assoc k d with Some a => a | None => default end.

(** [x in {...}] for a set of strings written in the source. *)
Definition str_in (x : string) (l : list string) : bool :=
  existsb (String.eqb x) l.

Lemma str_in_spec x l : str_in x l = true <-> In x l.
Proof.
  unfold str_in. rewrite existsb_exists. split.
  - intros (y & Hy & ->%String.eqb_eq). done.
  - intros H. exists x. by rewrite String.eqb_refl.
Qed.

Lemma str_in_false x l : str_in x l = false <-> ~ In x l.
Proof. rewrite <- str_in_spec. destruct (str_in x l); naive_solver. Qed.

(** [[f(x) for x in l]], stopping at the first exception. *)
Fixpoint map_result {A B} (f : A -> result B) (l : list A) : result (list B) :=
  match l with
  | [] => Ok []
  | x :: l' => y ← f x; ys ← map_result f l'; Ok (y :: ys)
  end.

(** Insertion sort by a key, stable, as [sorted] and [ORDER BY] use it. *)
Section Sort.
  Context {A : Type} (leb : A -> A -> bool).

Fixpoint insert_by (x : A) (l : list A) : list A :=
  match l with
  | [] => [x]
  | y :: l' => if leb x y then x :: l else y :: insert_by x l'
  end.

Fixpoint sort_by (l : list A) : list A :=
  match l with
  | [] => []
  | x :: l' => insert_by x (sort_by l')
  end.

Lemma insert_by_perm x l : insert_by x l ≡ₚ x :: l.
Proof.
  induction l as [|y l IH]; cbn; [done|].
  destruct (leb x y); [done|]. rewrite IH. apply perm_swap.
Qed.

Lemma sort_by_perm l : sort_by l ≡ₚ l.
Proof. induction l as [|x l IH]; cbn; [done|]. by rewrite insert_by_perm, IH. Qed.

Lemma sort_by_length l : length (sort_by l) = length l.
Proof. by rewrite sort_by_perm. Qed.

  Hypothesis leb_total : forall x y, leb x y = true \/ leb y x = true.
  Hypothesis leb_trans : forall x y z, leb x y = true -> leb y z = true -> leb x z = true.

Definition sorted_by (l : list A) : Prop := StronglySorted (fun x y => leb x y = true) l.

Lemma insert_by_sorted x l : sorted_by l -> sorted_by (insert_by x l).
Proof.
  unfold sorted_by. induction 1 as [|y l Hs IH Hall]; cbn; [repeat constructor|].
  destruct (leb x y) eqn:E.
  - constructor; [by constructor|]. constructor; [done|].
    eapply Forall_impl; [exact Hall|]. eauto.
  - constructor; [done|]. rewrite insert_by_perm. constructor; [|done].
    destruct (leb_total x y); congruence.
Qed.

Lemma sort_by_sorted l : sorted_by (sort_by l).
Proof. induction l; cbn; [constructor|]. by apply insert_by_sorted. Qed.

Lemma sort_by_id l : sorted_by l -> sort_by l = l.
Proof.
    unfold sorted_by. induction 1 as [|x l Hs IH Hall]; cbn; [done|]. rewrite IH.
    destruct Hall as [|y l Hy]; cbn; [done|]. by rewrite Hy.
  Qed.
End Sort.

Lemma StronglySorted_app_inv {A} (R : A -> A -> Prop) l1 l2 :
  StronglySorted R (l1 ++ l2) ->
  StronglySorted R l1 /\ forall x y, In x l1 -> In y l2 -> R x y.
Proof.
  induction l1 as [|x l1 IH]; cbn; [split; [constructor|done]|].
  intros [Hs Hall]%StronglySorted_inv. destruct (IH Hs) as [H1 H2].
  apply List.Forall_app in Hall as [Ha Hb]. split; [by constructor|].
  intros a b [<-|Ha'] Hb'; [|by apply H2].
  rewrite List.Forall_forall in Hb. auto.
Qed.

Lemma StronglySorted_mono {A} (R Q : A -> A -> Prop) l :
  (forall x y, R x y -> Q x y) -> StronglySorted R l -> StronglySorted Q l.
Proof.
  intros HRQ. induction 1 as [|x l _ IH Hall]; constructor; [done|].
  eapply List.Forall_impl; [|exact Hall]. eauto.
Qed.

Lemma tx_raise_if_false_bind {S B} cls msg (k : unit -> tx S B) s :
  (u ← raise_if false cls msg; k u) s = k tt s.
Proof. done. Qed.
