(* ===== verification/PyStr.v ===== *)
(** * Python strings

    A [str] is the [string] of its UTF-8 bytes.  Equality, concatenation,
    substring search and (UTF-8 being order preserving) code-point ordering are
    then the byte operations; the operations that count or classify characters
    ([len], slicing, [strip], [split]) go through [chars], the list of the
    characters, each one the string of its own bytes.

    What needs the Unicode character database ([lower], [casefold], and the
    quoting of [repr], which escapes unprintable characters) is not written
    out: it is the parameter class [UnicodeTables]. *)

From Stdlib Require Import Ascii.
From S2P Require Import Prelude.

Open Scope string_scope.

#[global] Arguments String.append !_ _ / : simpl nomatch.

Class UnicodeTables : Type := {
  str_lower : string -> string;
  str_upper : string -> string;
  str_casefold : string -> string;
  str_repr : string -> string;
}.

(** The subclasses of [KeyError], whose text is the representation of their one argument *)
Definition key_error (c : exc_class) : bool :=
  match c with
  | KeyError | WriteAuthorizationNotFound | FieldSubmissionNotFound | ChallengeNotFound | InteractionNotFound
  | TaskPlanNotFound | TaskNotFound => true
  | _ => false
  end.

(** [str(exc)] *)
Definition exn_str `{UnicodeTables} (e : exn) : string :=
  if key_error (exn_class e) then str_repr (exn_message e) else exn_message e.

(** ** Characters *)

Definition byte_code (a : ascii) : N := N_of_ascii a.

(** A UTF-8 continuation byte, 10xxxxxx. *)
Definition is_cont (a : ascii) : bool :=
  ((128 <=? byte_code a) && (byte_code a <? 192))%N.

Fixpoint chars (s : string) : list string :=
  match s with
  | EmptyString => []
  | String c s' =>
      match chars s' with
      | (String d _ as x) :: l => if is_cont d then String c x :: l else String c "" :: x :: l
      | l => String c "" :: l
      end
  end.

Definition join_chars (l : list string) : string := foldr String.append "" l.

Definition py_len (s : string) : Z := Z.of_nat (length (chars s)).

(** [s[:n]] *)
Definition py_take (n : nat) (s : string) : string := join_chars (firstn n (chars s)).

(** [bool(s)] and [not s] *)
Definition truthy (s : string) : bool := negb (String.eqb s "").

(** The code point of a character. *)
Definition codepoint (c : string) : N :=
  match c with
  | EmptyString => 0
  | String a EmptyString => byte_code a
  | String a (String b EmptyString) =>
      (byte_code a mod 32) * 64 + byte_code b mod 64
  | String a (String b (String d EmptyString)) =>
      ((byte_code a mod 16) * 64 + byte_code b mod 64) * 64 + byte_code d mod 64
  | String a (String b (String d (String e _))) =>
      (((byte_code a mod 8) * 64 + byte_code b mod 64) * 64 + byte_code d mod 64) * 64
      + byte_code e mod 64
  end%N.

(** [str.isspace] of a character. *)
Definition is_space (c : string) : bool :=
  let n := codepoint c in
  (((9 <=? n) && (n <=? 13)) || ((28 <=? n) && (n <=? 32))
   || (n =? 133) || (n =? 160) || (n =? 5760)
   || ((8192 <=? n) && (n <=? 8202)) || (n =? 8232) || (n =? 8233)
   || (n =? 8239) || (n =? 8287) || (n =? 12288))%N.

Fixpoint drop_while {A} (p : A -> bool) (l : list A) : list A :=
  match l with
  | [] => []
  | x :: l' => if p x then drop_while p l' else l
  end.

Definition rdrop_while {A} (p : A -> bool) (l : list A) : list A :=
  rev (drop_while p (rev l)).

(** [s.strip()] *)
Definition py_strip (s : string) : string :=
  join_chars (rdrop_while is_space (drop_while is_space (chars s))).

(** [s.rstrip(c)] for a one-character [c] *)
Definition py_rstrip (c s : string) : string :=
  join_chars (rdrop_while (String.eqb c) (chars s)).

(** [s.split()]: the maximal runs of characters that are not white space. *)
Fixpoint split_ws (cur : list string) (l : list string) : list string :=
  match l with
  | [] => match cur with [] => [] | _ => [join_chars cur] end
  | c :: l' =>
      if is_space c
      then match cur with [] => split_ws [] l' | _ => join_chars cur :: split_ws [] l' end
      else split_ws (cur ++ [c])%list l'
  end.

Definition py_split (s : string) : list string := split_ws [] (chars s).

(** [sep.join(l)] *)
Definition py_join (sep : string) (l : list string) : string := String.concat sep l.

(** [s.startswith(p)] and [p in s] *)
Fixpoint startswith (p s : string) : bool :=
  match p, s with
  | EmptyString, _ => true
  | String a p', String b s' => Ascii.eqb a b && startswith p' s'
  | String _ _, EmptyString => false
  end.

Fixpoint contains (p s : string) : bool :=
  startswith p s ||
  match s with EmptyString => false | String _ s' => contains p s' end.

Fixpoint str_drop (n : nat) (s : string) : string :=
  match n, s with
  | O, _ => s
  | S n', String _ s' => str_drop n' s'
  | S _, EmptyString => ""
  end.

(** [s.partition(p)]: the text before and after the first occurrence. *)
Fixpoint partition (p s : string) : option (string * string) :=
  if startswith p s then Some ("", str_drop (String.length p) s)
  else match s with
       | EmptyString => None
       | String c s' =>
           match partition p s' with
           | Some (a, b) => Some (String c a, b)
           | None => None
           end
       end.

(** [s.rpartition(p)] *)
Fixpoint rpartition (p s : string) : option (string * string) :=
  match s with
  | EmptyString => if startswith p s then Some ("", "") else None
  | String c s' =>
      match rpartition p s' with
      | Some (a, b) => Some (String c a, b)
      | None => if startswith p s then Some ("", str_drop (String.length p) s) else None
      end
  end.

(** [s.split(p, 1)[0]] and [s.rsplit(p, 1)[0]] *)
Definition split1_head (p s : string) : string :=
  match partition p s with Some (a, _) => a | None => s end.
Definition rsplit1_head (p s : string) : string :=
  match rpartition p s with Some (a, _) => a | None => s end.

(** ** [str] ordering, by code points *)

Definition str_leb (s t : string) : bool :=
  match String.compare s t with Gt => false | _ => true end.

(** ** Decimal printing of integers *)

Definition digit_char (d : N) : string := String (ascii_of_N (48 + d)) "".

(** Decimal digits of a non-negative number, most significant first. *)
Fixpoint digits_fuel (fuel : nat) (n : N) (acc : string) : string :=
  match fuel with
  | O => acc
  | S f =>
      let acc' := digit_char (n mod 10) +:+ acc in
      if (n <? 10)%N then acc' else digits_fuel f (n / 10)%N acc'
  end.

Definition str_of_N (n : N) : string := digits_fuel (S (N.to_nat (N.log2 n))) n "".

(** [str(n)] *)
Definition str_of_Z (z : Z) : string :=
  match z with
  | Z0 => "0"
  | Zpos p => str_of_N (Npos p)
  | Zneg p => "-" +:+ str_of_N (Npos p)
  end.

Definition str_of_nat (n : nat) : string := str_of_N (N.of_nat n).

(** [s.isascii()] *)
Fixpoint is_ascii_str (s : string) : bool :=
  match s with
  | EmptyString => true
  | String a s' => (byte_code a <? 128)%N && is_ascii_str s'
  end.

(** ** Lemmas *)

Lemma append_nil_r s : s +:+ "" = s.
Proof. induction s as [|a s IH]; cbn; [done|]. by rewrite IH. Qed.

Lemma append_assoc s t u : (s +:+ t) +:+ u = s +:+ (t +:+ u).
Proof. induction s as [|a s IH]; cbn; [done|]. by rewrite IH. Qed.

Lemma join_chars_app l1 l2 : join_chars (l1 ++ l2)%list = join_chars l1 +:+ join_chars l2.
Proof. unfold join_chars. induction l1 as [|x l1 IH]; cbn; [done|]. by rewrite IH, append_assoc. Qed.

(** The characters of a string put together are the string. *)
Lemma join_chars_chars s : join_chars (chars s) = s.
Proof.
  induction s as [|c s IH]; cbn; [done|].
  destruct (chars s) as [|[|d x] l] eqn:E; cbn in *; [by subst..|].
  destruct (is_cont d); cbn; by rewrite <- IH.
Qed.

Lemma chars_nonempty s c : In c (chars s) -> c <> "".
Proof.
  revert c. induction s as [|a s IH]; cbn; [done|]. intros c.
  destruct (chars s) as [|[|d x] l]; cbn in *.
  - intros [<-|[]]. done.
  - intros [<-|H]; [done|]. apply IH. tauto.
  - destruct (is_cont d); cbn; intros [<-|H]; try done; apply IH; tauto.
Qed.

Lemma is_ascii_append s t : is_ascii_str (s +:+ t) = is_ascii_str s && is_ascii_str t.
Proof. induction s as [|a s IH]; cbn; [done|]. by rewrite IH, andb_assoc. Qed.

Lemma truthy_true s : truthy s = true <-> s <> "".
Proof. unfold truthy. rewrite negb_true_iff, String.eqb_neq. done. Qed.

Lemma truthy_false s : truthy s = false <-> s = "".
Proof. unfold truthy. rewrite negb_false_iff, String.eqb_eq. done. Qed.

Lemma str_leb_total s t : str_leb s t = true \/ str_leb t s = true.
Proof.
  unfold str_leb. rewrite (String.compare_antisym t s).
  destruct (String.compare s t); cbn; tauto.
Qed.

Lemma str_leb_refl s : str_leb s s = true.
Proof. destruct (str_leb_total s s); done. Qed.

Lemma str_leb_antisym s t : str_leb s t = true -> str_leb t s = true -> s = t.
Proof.
  unfold str_leb. rewrite (String.compare_antisym t s).
  destruct (String.compare s t) eqn:E; cbn; try done.
  intros _ _. by apply String.compare_eq_iff.
Qed.

Lemma str_leb_trans s t u : str_leb s t = true -> str_leb t u = true -> str_leb s u = true.
Proof.
  revert t u. induction s as [|a s IH]; intros [|b t] [|c u]; unfold str_leb; cbn; try done.
  unfold Ascii.compare.
  destruct (N.compare_spec (N_of_ascii a) (N_of_ascii b)) as [E1|E1|E1];
  destruct (N.compare_spec (N_of_ascii b) (N_of_ascii c)) as [E2|E2|E2];
  destruct (N.compare_spec (N_of_ascii a) (N_of_ascii c)) as [E3|E3|E3];
    try done; try lia.
  intros H1 H2. exact (IH t u H1 H2).
Qed.

Example py_split_ex : py_split "  ab   c " = ["ab"; "c"].
Proof. reflexivity. Qed.
Example py_len_ex : py_len "系统" = 2%Z.
Proof. reflexivity. Qed.
Example py_take_ex : py_take 1 "系统" = "系".
Proof. reflexivity. Qed.
Example str_of_Z_ex : map str_of_Z [0; -12; 1000%Z]%Z = ["0"; "-12"; "1000"].
Proof. reflexivity. Qed.

(** ** Slices *)

(** A character is a byte and the continuation bytes after it; only the first
    character of a text may start with a continuation byte. *)
Fixpoint all_cont (s : string) : Prop :=
  match s with EmptyString => True | String d s' => is_cont d = true /\ all_cont s' end.

Definition chunk (c : string) : Prop :=
  match c with EmptyString => False | String _ s => all_cont s end.

Definition starts_char (c : string) : Prop :=
  match c with EmptyString => False | String d _ => is_cont d = false end.

Definition chunks (l : list string) : Prop :=
  Forall chunk l /\ Forall starts_char (tl l).

Lemma chunks_chars s : chunks (chars s).
Proof.
  induction s as [|c s IH]; cbn; [split; constructor|].
  destruct (chars s) as [|[|d x] l] eqn:E; destruct IH as [H1 H2]; cbn in *.
  - split; repeat constructor.
  - inversion H1 as [|? ? Hx _]. destruct Hx.
  - inversion H1 as [|? ? Hx Hl]; subst. destruct (is_cont d) eqn:Hd; split; cbn.
    + by constructor.
    + done.
    + by repeat constructor.
    + by constructor.
Qed.

Lemma chars_app_chunk c x l :
  all_cont x -> chars (join_chars l) = l -> Forall starts_char l ->
  chars (String c (x +:+ join_chars l)) = String c x :: l.
Proof.
  intros Hx Hl Hs. revert c. induction x as [|d x IH]; intros c.
  - cbn [String.append chars]. rewrite Hl. destruct l as [|[|d y] l]; [done|by inversion Hs|].
    inversion Hs as [|? ? Hd _]; subst. cbn in Hd. by rewrite Hd.
  - destruct Hx as [Hd Hx]. change (String d x +:+ join_chars l) with (String d (x +:+ join_chars l)).
    change (chars (String c ?s)) with
      (match chars s with
       | (String d _ as x) :: l => if is_cont d then String c x :: l else String c "" :: x :: l
       | l => String c "" :: l
       end).
    rewrite (IH Hx d). by rewrite Hd.
Qed.

Lemma chars_join l : chunks l -> chars (join_chars l) = l.
Proof.
  intros [Hc Hs]. destruct l as [|x l]; [done|]. cbn in Hs.
  revert x Hc. induction l as [|y l IH]; intros [|c x] Hc; inversion Hc as [|? ? Hx Hl]; subst;
    try destruct Hx.
  - apply (chars_app_chunk c x []); [done|done|constructor].
  - inversion Hs as [|? ? Hy Hs']; subst.
    apply (chars_app_chunk c x (y :: l)); [done|by apply IH|done].
Qed.

Lemma chunks_firstn n l : chunks l -> chunks (firstn n l).
Proof.
  intros [Hc Hs]. split; [by apply Forall_take|].
  destruct l as [|x l], n as [|n]; cbn in *; [constructor..|]. by apply Forall_take.
Qed.

Lemma chars_py_take n s : chars (py_take n s) = firstn n (chars s).
Proof. apply chars_join, chunks_firstn, chunks_chars. Qed.

Lemma py_len_take n s : (py_len (py_take n s) <= Z.of_nat n)%Z.
Proof. unfold py_len. rewrite chars_py_take, length_firstn. lia. Qed.

Lemma py_take_take n s : py_take n (py_take n s) = py_take n s.
Proof. unfold py_take at 1. rewrite chars_py_take, firstn_firstn, Nat.min_id. done. Qed.

Lemma truthy_append s t : truthy (s +:+ t) = truthy s || truthy t.
Proof. by destruct s. Qed.

Lemma truthy_py_take n s : truthy s = true -> truthy (py_take (S n) s) = true.
Proof.
  intros Hs. unfold py_take. destruct (chars s) as [|c l] eqn:E.
  - rewrite <- (join_chars_chars s), E in Hs. done.
  - cbn [firstn join_chars foldr]. rewrite truthy_append.
    assert (c <> "") by (apply (chars_nonempty s); rewrite E; by left).
    apply orb_true_iff. left. by apply truthy_true.
Qed.

(** ** Separators, replacement and digits *)

(** [s.split(c)] for a character [c] of one byte *)
Fixpoint split_on (c : ascii) (s : string) : list string :=
  match s with
  | EmptyString => [""]
  | String a s' =>
      if Ascii.eqb a c then "" :: split_on c s'
      else match split_on c s' with x :: l => String a x :: l | [] => [String a ""] end
  end.

(** [s.replace(String a (String b ""), new)] *)
Fixpoint replace2 (a b : ascii) (new s : string) : string :=
  match s with
  | String x ((String y s'') as s') =>
      if Ascii.eqb x a && Ascii.eqb y b then new +:+ replace2 a b new s''
      else String x (replace2 a b new s')
  | _ => s
  end.

(** [s.endswith(p)] *)
Definition endswith (p s : string) : bool :=
  String.eqb (str_drop (String.length s - String.length p) s) p.

(** [unicodedata.decimal(c)] of the characters that have one, and [c.isdigit()], which is
    true of more characters. *)
Class UnicodeDigits : Type := {
  decimal_value : string -> option Z;
  is_digit_char : string -> bool;
}.

Section Digits.
Context `{UnicodeDigits}.

(** [s.isdigit()] *)
Definition str_isdigit (s : string) : bool :=
  match chars s with [] => false | l => forallb is_digit_char l end.

(** [int(s)] of a text whose characters are all digits; the interpreter refuses more than 4300. *)
Definition int_of_digits (s : string) : result Z :=
  raise_if (4300 <? py_len s)%Z ValueError "Exceeds the limit (4300 digits) for integer string conversion";;
  fold_left (fun acc c => n ← acc;
      match decimal_value c with
      | Some d => Ok (n * 10 + d)%Z
      | None => raise ValueError "invalid literal for int() with base 10"
      end) (chars s) (Ok 0%Z).
End Digits.

(** The digits of the ASCII range. *)
Definition ascii_digits : UnicodeDigits := {|
  decimal_value := fun c =>
    match c with
    | String a "" =>
        let n := byte_code a in
        if ((48 <=? n) && (n <=? 57))%N then Some (Z.of_N (n - 48)) else None
    | _ => None
    end;
  is_digit_char := fun c =>
    match c with
    | String a "" => let n := byte_code a in ((48 <=? n) && (n <=? 57))%N
    | _ => false
    end |}.

Example split_on_ex : split_on "/" "/items/0" = [""; "items"; "0"].
Proof. reflexivity. Qed.
Example replace2_ex : replace2 "~" "1" "/" "a~1b~~1" = "a/b~/".
Proof. reflexivity. Qed.
Example endswith_ex : map (endswith ".v1") ["proposal.v1"; "proposal.v2"; "v1"] = [true; false; false].
Proof. reflexivity. Qed.

(** ** Stripped texts *)

Lemma drop_while_split {A} (p : A -> bool) l : exists m, l = (m ++ drop_while p l)%list.
Proof.
  induction l as [|x l [m IH]]; [by exists []|]. cbn. destruct (p x); [|by exists []].
  exists (x :: m). cbn. by rewrite <- IH.
Qed.

Lemma drop_while_head {A} (p : A -> bool) l x l' : drop_while p l = x :: l' -> p x = false.
Proof. induction l as [|y l IH]; cbn; [done|]. destruct (p y) eqn:E; [done|]. by intros [= <- _]. Qed.

Lemma drop_while_id {A} (p : A -> bool) l : (forall x l', l = x :: l' -> p x = false) -> drop_while p l = l.
Proof. destruct l as [|x l]; [done|]. cbn. intros H. by rewrite (H x l eq_refl). Qed.

Lemma rdrop_while_split {A} (p : A -> bool) l : exists m, l = (rdrop_while p l ++ m)%list.
Proof.
  destruct (drop_while_split p (rev l)) as [m E]. exists (rev m). unfold rdrop_while.
  rewrite <- rev_app_distr, <- E. by rewrite rev_involutive.
Qed.

Lemma rdrop_while_twice {A} (p : A -> bool) l : rdrop_while p (rdrop_while p l) = rdrop_while p l.
Proof.
  unfold rdrop_while. rewrite rev_involutive. f_equal. apply drop_while_id. intros x l' E.
  by apply (drop_while_head p (rev l) x l').
Qed.

Lemma chunks_app_l l m : chunks (l ++ m)%list -> chunks l.
Proof.
  intros [H1 H2]. apply Forall_app in H1 as [H1 _]. split; [done|]. destruct l as [|c l]; [constructor|].
  cbn in *. by apply Forall_app in H2 as [H2 _].
Qed.

Lemma chunks_app_r l m : chunks (l ++ m)%list -> chunks m.
Proof.
  intros [H1 H2]. apply Forall_app in H1 as [_ H1]. split; [done|]. destruct l as [|c l]; [done|].
  cbn in H2. apply Forall_app in H2 as [_ H2]. destruct m; [constructor|]. by inversion H2.
Qed.

(** Stripping a stripped text changes nothing. *)
Lemma py_strip_strip s : py_strip (py_strip s) = py_strip s.
Proof.
  unfold py_strip. set (l := drop_while is_space (chars s)).
  destruct (rdrop_while_split is_space l) as [m Em]. destruct (drop_while_split is_space (chars s)) as [k Ek].
  assert (Hchunks : chunks (rdrop_while is_space l)).
  { apply (chunks_app_l _ m). rewrite <- Em. apply (chunks_app_r k). unfold l. rewrite <- Ek. apply chunks_chars. }
  rewrite (chars_join _ Hchunks), (drop_while_id _ (rdrop_while is_space l)), rdrop_while_twice; [done|].
  intros x l' E. apply (drop_while_head is_space (chars s) x (l' ++ m)). fold l. rewrite Em, E. done.
Qed.

(** Printable ASCII characters other than the space are one byte each and no white space. *)
Definition graphic (a : ascii) : bool := ((33 <=? byte_code a) && (byte_code a <? 127))%N.

Fixpoint all_graphic (s : string) : bool :=
  match s with EmptyString => true | String a s' => graphic a && all_graphic s' end.

Lemma graphic_char a : graphic a = true -> is_space (String a "") = false /\ is_cont a = false.
Proof. destruct a as [[] [] [] [] [] [] [] []]; vm_compute; by split. Qed.

Lemma chars_graphic s : all_graphic s = true ->
  chars s = map (fun a => String a "") (String.list_ascii_of_string s).
Proof.
  induction s as [|a s IH]; [done|]. intros [Ha Hs]%andb_true_iff.
  change (chars (String a s)) with
    (match chars s with
     | (String d _ as x) :: l => if is_cont d then String a x :: l else String a "" :: x :: l
     | l => String a "" :: l
     end). rewrite (IH Hs). destruct s as [|b s]; [done|]. cbn [String.list_ascii_of_string map].
  apply andb_true_iff in Hs as [Hb _]. by destruct (graphic_char b Hb) as [_ ->].
Qed.

Lemma py_strip_graphic s : all_graphic s = true -> py_strip s = s.
Proof.
  intros Hs. unfold py_strip.
  assert (Hall : forall c, In c (chars s) -> is_space c = false).
  { rewrite (chars_graphic s Hs). intros c (a & <- & Hin)%in_map_iff. apply graphic_char.
    revert Hin Hs. clear. induction s as [|b s IH]; [done|]. cbn. intros [->|Hin] [Hb Hs]%andb_true_iff; [done|by apply IH]. }
  rewrite drop_while_id by (intros x l' E; apply Hall; rewrite E; by left).
  unfold rdrop_while. rewrite drop_while_id, rev_involutive; [apply join_chars_chars|].
  intros x l' E. apply Hall. apply in_rev. rewrite E. by left.
Qed.

Lemma py_len_graphic s : all_graphic s = true -> py_len s = Z.of_nat (String.length s).
Proof.
  intros Hs. unfold py_len. rewrite (chars_graphic s Hs), length_map. f_equal.
  clear. induction s as [|a s IH]; cbn; [done|]. by rewrite IH.
Qed.
