(* ===== verification/Json.v ===== *)
(** * JSON values, the canonical serializer and the parser

    The values the program passes around ([dict], [list], [str], [int],
    [float], [bool], [None]) as one inductive type, with Python's equality and
    truth value, [json.dumps(value, ensure_ascii=False, sort_keys=True,
    separators=(",", ":"))], which every store calls [_canonical_json], and
    [json.loads].

    A [dict] is the list of its items in insertion order; its keys are distinct
    ([wf_json]).  A [float] is the decimal [m * 10 ^ e] of its shortest [repr]
    (infinities, NaN and the negative zero are not represented). *)

From Stdlib Require Import Ascii.
From S2P Require Import Prelude PyStr.

#[local] Set Warnings "-register-all".

Inductive json : Type :=
  | JNull
  | JBool (b : bool)
  | JInt (z : Z)
  | JFloat (m e : Z)
  | JStr (s : string)
  | JArr (l : list json)
  | JObj (kvs : list (string * json)).

Section JsonInd.
  Variable P : json -> Prop.
  Hypothesis HNull : P JNull.
  Hypothesis HBool : forall b, P (JBool b).
  Hypothesis HInt : forall z, P (JInt z).
  Hypothesis HFloat : forall m e, P (JFloat m e).
  Hypothesis HStr : forall s, P (JStr s).
  Hypothesis HArr : forall l, Forall P l -> P (JArr l).
  Hypothesis HObj : forall kvs, Forall (fun kv => P (snd kv)) kvs -> P (JObj kvs).

Fixpoint json_rect' (v : json) : P v :=
    match v with
    | JNull => HNull
    | JBool b => HBool b
    | JInt z => HInt z
    | JFloat m e => HFloat m e
    | JStr s => HStr s
    | JArr l => HArr l
        ((fix go l := match l return Forall P l with
          | [] => Forall_nil_2 _
          | x :: l' => Forall_cons_2 _ _ _ (json_rect' x) (go l')
          end) l)
    | JObj kvs => HObj kvs
        ((fix go l := match l return Forall (fun kv => P (snd kv)) l with
          | [] => Forall_nil_2 _
          | x :: l' => Forall_cons_2 _ _ _ (json_rect' (snd x)) (go l')
          end) kvs)
    end.
End JsonInd.

(** ** Access *)

(** [d.get(k)] and [d[k]] on a value that is a [dict]. *)
Definition jget (v : json) (k : string) : option json :=
  match v with JObj kvs => assoc k kvs | _ => None end.

Definition jget_or_null (v : json) (k : string) : json :=
  match jget v k with Some x => x | None => JNull end.

Definition is_dict (v : json) : bool := match v with JObj _ => true | _ => false end.
Definition is_list (v : json) : bool := match v with JArr _ => true | _ => false end.
Definition is_str (v : json) : bool := match v with JStr _ => true | _ => false end.

(** [bool(v)] *)
Definition json_truthy (v : json) : bool :=
  match v with
  | JNull => false
  | JBool b => b
  | JInt z => negb (z =? 0)%Z
  | JFloat m _ => negb (m =? 0)%Z
  | JStr s => truthy s
  | JArr l => match l with [] => false | _ => true end
  | JObj kvs => match kvs with [] => false | _ => true end
  end.

(** ** Numbers: [bool] is a subclass of [int] *)

Definition num_value (v : json) : option (Z * Z) :=
  match v with
  | JBool b => Some (Z.b2z b, 0%Z)
  | JInt z => Some (z, 0%Z)
  | JFloat m e => Some (m, e)
  | _ => None
  end.

Definition dec_compare (x y : Z * Z) : comparison :=
  let e := Z.min (snd x) (snd y) in
  Z.compare (fst x * 10 ^ (snd x - e)) (fst y * 10 ^ (snd y - e)).

(** [v == w] *)
Fixpoint py_eqb (v w : json) {struct v} : bool :=
  match num_value v, num_value w with
  | Some x, Some y => match dec_compare x y with Eq => true | _ => false end
  | _, _ =>
      match v, w with
      | JNull, JNull => true
      | JStr s, JStr t => String.eqb s t
      | JArr l1, JArr l2 =>
          (fix go l1 l2 := match l1, l2 with
             | [], [] => true
             | x :: l1', y :: l2' => py_eqb x y && go l1' l2'
             | _, _ => false
             end) l1 l2
      | JObj kvs1, JObj kvs2 =>
          (length kvs1 =? length kvs2)%nat &&
          forallb (fun kv => match assoc (fst kv) kvs2 with
                             | Some y => py_eqb (snd kv) y
                             | None => false
                             end) kvs1
      | _, _ => false
      end
  end.

(** [v in l] *)
Definition py_in (v : json) (l : list json) : bool := existsb (py_eqb v) l.

(** ** Printing *)

Definition char_of (n : N) : string := String (ascii_of_N n) "".
Definition dquote : ascii := "034"%char.
Definition backslash : ascii := "092"%char.

Definition hex_digit (n : N) : string :=
  if (n <? 10)%N then char_of (48 + n) else char_of (87 + n).

Definition escape_char (a : ascii) : string :=
  let n := N_of_ascii a in
  if (n =? 34)%N then String backslash (String dquote "")
  else if (n =? 92)%N then String backslash (String backslash "")
  else if (n =? 10)%N then String backslash "n"
  else if (n =? 13)%N then String backslash "r"
  else if (n =? 9)%N then String backslash "t"
  else if (n =? 12)%N then String backslash "f"
  else if (n =? 8)%N then String backslash "b"
  else if (n <? 32)%N
  then String backslash "u00" +:+ hex_digit (n / 16) +:+ hex_digit (n mod 16)
  else String a "".

Fixpoint escape (s : string) : string :=
  match s with
  | EmptyString => ""
  | String a s' => escape_char a +:+ escape s'
  end.

Definition quote (s : string) : string :=
  String dquote (escape s +:+ String dquote "").

Fixpoint str_repeat (n : nat) (s : string) : string :=
  match n with O => "" | S n' => s +:+ str_repeat n' s end.

(** [repr] of a [float]. *)
Definition float_str (m e : Z) : string :=
  let sign := if (m <? 0)%Z then "-" else "" in
  let digits := str_of_Z (Z.abs m) in
  let n := Z.of_nat (String.length digits) in
  let decpt := if (m =? 0)%Z then 1%Z else (n + e)%Z in
  let pad z := str_repeat (Z.to_nat z) "0" in
  sign +:+
  (if ((decpt <=? -4) || (16 <? decpt))%Z then
     let x := (decpt - 1)%Z in
     let xs := str_of_Z (Z.abs x) in
     String.substring 0 1 digits
     +:+ (if (1 <? n)%Z then "." +:+ str_drop 1 digits else "")
     +:+ "e" +:+ (if (x <? 0)%Z then "-" else "+")
     +:+ (if (String.length xs <? 2)%nat then "0" else "") +:+ xs
   else if (decpt <=? 0)%Z then "0." +:+ pad (- decpt)%Z +:+ digits
   else if (n <=? decpt)%Z then digits +:+ pad (decpt - n)%Z +:+ ".0"
   else String.substring 0 (Z.to_nat decpt) digits
        +:+ "." +:+ str_drop (Z.to_nat decpt) digits).

Definition key_leb {A} (x y : string * A) : bool := str_leb (fst x) (fst y).

Definition print_member (kv : string * string) : string :=
  quote (fst kv) +:+ ":" +:+ snd kv.

(** [_canonical_json] *)
Fixpoint dumps (v : json) : string :=
  match v with
  | JNull => "null"
  | JBool b => if b then "true" else "false"
  | JInt z => str_of_Z z
  | JFloat m e => float_str m e
  | JStr s => quote s
  | JArr l => "[" +:+ py_join "," (map dumps l) +:+ "]"
  | JObj kvs =>
      "{" +:+ py_join "," (map print_member
                 (sort_by key_leb (map (fun kv => (fst kv, dumps (snd kv))) kvs)))
          +:+ "}"
  end.

(** The value with the keys of every object in order. *)
Fixpoint canon (v : json) : json :=
  match v with
  | JArr l => JArr (map canon l)
  | JObj kvs => JObj (sort_by key_leb (map (fun kv => (fst kv, canon (snd kv))) kvs))
  | _ => v
  end.

(** ** [str] and [repr] *)

Section Repr.
  Context `{UnicodeTables}.

Fixpoint py_repr (v : json) : string :=
  match v with
  | JNull => "None"
  | JBool b => if b then "True" else "False"
  | JInt z => str_of_Z z
  | JFloat m e => float_str m e
  | JStr s => str_repr s
  | JArr l => "[" +:+ py_join ", " (map py_repr l) +:+ "]"
  | JObj kvs =>
      "{" +:+ py_join ", " (map (fun kv => str_repr (fst kv) +:+ ": " +:+ py_repr (snd kv)) kvs)
          +:+ "}"
  end.

Definition py_str (v : json) : string :=
    match v with JStr s => s | _ => py_repr v end.
End Repr.

(** ** Parsing *)

Definition is_ws (a : ascii) : bool :=
  let n := N_of_ascii a in ((n =? 32) || (n =? 9) || (n =? 10) || (n =? 13))%N.

Fixpoint skip_ws (s : string) : string :=
  match s with
  | String a s' => if is_ws a then skip_ws s' else s
  | EmptyString => ""
  end.

Definition is_digit (a : ascii) : bool :=
  let n := N_of_ascii a in ((48 <=? n) && (n <=? 57))%N.

Definition hex_value (a : ascii) : option N :=
  let n := N_of_ascii a in
  if ((48 <=? n) && (n <=? 57))%N then Some (n - 48)%N
  else if ((97 <=? n) && (n <=? 102))%N then Some (n - 87)%N
  else if ((65 <=? n) && (n <=? 70))%N then Some (n - 55)%N
  else None.

Definition hex4 (a b c d : ascii) : option N :=
  match hex_value a, hex_value b, hex_value c, hex_value d with
  | Some w, Some x, Some y, Some z => Some (((w * 16 + x) * 16 + y) * 16 + z)%N
  | _, _, _, _ => None
  end.

Definition utf8_encode (n : N) : string :=
  if (n <? 128)%N then char_of n
  else if (n <? 2048)%N then char_of (192 + n / 64) +:+ char_of (128 + n mod 64)
  else if (n <? 65536)%N
  then char_of (224 + n / 4096) +:+ char_of (128 + n / 64 mod 64) +:+ char_of (128 + n mod 64)
  else char_of (240 + n / 262144) +:+ char_of (128 + n / 4096 mod 64)
       +:+ char_of (128 + n / 64 mod 64) +:+ char_of (128 + n mod 64).

(** What a one-letter escape stands for. *)
Definition unescape_letter (a : ascii) : option string :=
  let n := N_of_ascii a in
  if ((n =? 34) || (n =? 92) || (n =? 47))%N then Some (String a "")
  else if (n =? 98)%N then Some (char_of 8)
  else if (n =? 102)%N then Some (char_of 12)
  else if (n =? 110)%N then Some (char_of 10)
  else if (n =? 114)%N then Some (char_of 13)
  else if (n =? 116)%N then Some (char_of 9)
  else None.

Definition prepend (p : string) (r : option (string * string)) : option (string * string) :=
  match r with Some (s, rest) => Some (p +:+ s, rest) | None => None end.

(** The rest of a string literal, after its opening quote. *)
Fixpoint parse_string (s : string) : option (string * string) :=
  match s with
  | EmptyString => None
  | String a s1 =>
      if Ascii.eqb a dquote then Some ("", s1)
      else if Ascii.eqb a backslash then
        match s1 with
        | String "u" (String h1 (String h2 (String h3 (String h4 s2)))) =>
            match hex4 h1 h2 h3 h4 with
            | None => None
            | Some hi =>
                if ((55296 <=? hi) && (hi <? 56320))%N then
                  match s2 with
                  | String b (String "u" (String g1 (String g2 (String g3 (String g4 s3))))) =>
                      match hex4 g1 g2 g3 g4 with
                      | Some lo =>
                          if (Ascii.eqb b backslash && ((56320 <=? lo) && (lo <? 57344)))%N
                          then prepend (utf8_encode
                                 (65536 + (hi - 55296) * 1024 + (lo - 56320))%N) (parse_string s3)
                          else prepend (utf8_encode hi) (parse_string s2)
                      | None => prepend (utf8_encode hi) (parse_string s2)
                      end
                  | _ => prepend (utf8_encode hi) (parse_string s2)
                  end
                else prepend (utf8_encode hi) (parse_string s2)
            end
        | String b s2 =>
            match unescape_letter b with
            | Some c => prepend c (parse_string s2)
            | None => None
            end
        | EmptyString => None
        end
      else if (N_of_ascii a <? 32)%N then None
      else prepend (String a "") (parse_string s1)
  end.

Fixpoint take_digits (s : string) : string * string :=
  match s with
  | String a s' =>
      if is_digit a then let '(d, r) := take_digits s' in (String a d, r) else ("", s)
  | EmptyString => ("", "")
  end.

Fixpoint digits_value (acc : N) (s : string) : N :=
  match s with
  | EmptyString => acc
  | String a s' => digits_value (acc * 10 + (N_of_ascii a - 48))%N s'
  end.

(** The shortest decimal of a float: no trailing zero in the mantissa. *)
Fixpoint norm_float (fuel : nat) (m e : Z) : json :=
  match fuel with
  | O => JFloat m e
  | S f =>
      if (m =? 0)%Z then JFloat 0 0
      else if (m mod 10 =? 0)%Z then norm_float f (m / 10) (e + 1) else JFloat m e
  end.

(** The optional fraction and exponent that follow the integer part. *)
Definition parse_frac (s : string) : option (string * string) :=
  match s with
  | String "." s1 =>
      let '(d, r) := take_digits s1 in
      if truthy d then Some (d, r) else None
  | _ => None
  end.

Definition parse_exp (s : string) : option (Z * string) :=
  match s with
  | String a s1 =>
      if (Ascii.eqb a "e" || Ascii.eqb a "E") then
        let '(neg, s2) := match s1 with
                          | String "-" t => (true, t)
                          | String "+" t => (false, t)
                          | _ => (false, s1)
                          end in
        let '(d, r) := take_digits s2 in
        if truthy d
        then let z := Z.of_N (digits_value 0 d) in Some ((if neg then - z else z)%Z, r)
        else None
      else None
  | EmptyString => None
  end.

Definition parse_number (s : string) : option (json * string) :=
  let '(neg, s1) := match s with String "-" t => (true, t) | _ => (false, s) end in
  let '(d, r) := match s1 with
                 | String "0" t => ("0", t)
                 | _ => take_digits s1
                 end in
  if truthy d then
    let sign (z : Z) := (if neg then - z else z)%Z in
    let '(fr, r1, isf) := match parse_frac r with
                          | Some (f, r1) => (f, r1, true)
                          | None => ("", r, false)
                          end in
    let '(ex, r2, ise) := match parse_exp r1 with
                          | Some (x, r2) => (x, r2, true)
                          | None => (0%Z, r1, false)
                          end in
    if isf || ise then
      let m := sign (Z.of_N (digits_value 0 (d +:+ fr))) in
      Some (norm_float (String.length (d +:+ fr)) m (ex - Z.of_nat (String.length fr)), r2)
    else Some (JInt (sign (Z.of_N (digits_value 0 d))), r)
  else None.

Fixpoint dict_set {A} (k : string) (a : A) (l : list (string * A)) : list (string * A) :=
  match l with
  | [] => [(k, a)]
  | (k', b) :: l' => if String.eqb k k' then (k, a) :: l' else (k', b) :: dict_set k a l'
  end.

(** [dict(pairs)]: a repeated key keeps its place and takes the last value. *)
Definition dict_of_pairs {A} (l : list (string * A)) : list (string * A) :=
  fold_left (fun d kv => dict_set (fst kv) (snd kv) d) l [].

Definition strip_prefix (p s : string) : option string :=
  if startswith p s then Some (str_drop (String.length p) s) else None.

Definition parse_literal (s : string) : option (json * string) :=
  match strip_prefix "null" s, strip_prefix "true" s, strip_prefix "false" s with
  | Some r, _, _ => Some (JNull, r)
  | _, Some r, _ => Some (JBool true, r)
  | _, _, Some r => Some (JBool false, r)
  | _, _, _ => parse_number s
  end.

Fixpoint parse_value (fuel : nat) (s : string) : option (json * string) :=
  match fuel with
  | O => None
  | S f =>
      match s with
      | String a s1 =>
          if Ascii.eqb a dquote then
            match parse_string s1 with Some (t, r) => Some (JStr t, r) | None => None end
          else if Ascii.eqb a "[" then
            match skip_ws s1 with
            | String "]" r => Some (JArr [], r)
            | s2 => match parse_elements f s2 with
                    | Some (l, r) => Some (JArr l, r)
                    | None => None
                    end
            end
          else if Ascii.eqb a "{" then
            match skip_ws s1 with
            | String "}" r => Some (JObj [], r)
            | s2 => match parse_members f s2 with
                    | Some (l, r) => Some (JObj (dict_of_pairs l), r)
                    | None => None
                    end
            end
          else parse_literal s
      | EmptyString => None
      end
  end
with parse_elements (fuel : nat) (s : string) : option (list json * string) :=
  match fuel with
  | O => None
  | S f =>
      match parse_value f s with
      | None => None
      | Some (x, r) =>
          match skip_ws r with
          | String "," r1 =>
              match parse_elements f (skip_ws r1) with
              | Some (l, r2) => Some (x :: l, r2)
              | None => None
              end
          | String "]" r1 => Some ([x], r1)
          | _ => None
          end
      end
  end
with parse_members (fuel : nat) (s : string) : option (list (string * json) * string) :=
  match fuel with
  | O => None
  | S f =>
      match s with
      | String a s1 =>
          if Ascii.eqb a dquote then
            match parse_string s1 with
            | None => None
            | Some (k, r) =>
                match skip_ws r with
                | String ":" r1 =>
                    match parse_value f (skip_ws r1) with
                    | None => None
                    | Some (x, r2) =>
                        match skip_ws r2 with
                        | String "," r3 =>
                            match parse_members f (skip_ws r3) with
                            | Some (l, r4) => Some ((k, x) :: l, r4)
                            | None => None
                            end
                        | String "}" r3 => Some ([(k, x)], r3)
                        | _ => None
                        end
                    end
                | _ => None
                end
            end
          else None
      | EmptyString => None
      end
  end.

(** [json.loads] *)
Definition loads (s : string) : result json :=
  match parse_value (S (String.length s)) (skip_ws s) with
  | Some (v, r) =>
      match skip_ws r with
      | EmptyString => Ok v
      | _ => raise JSONDecodeError "Extra data"
      end
  | None => raise JSONDecodeError "Expecting value"
  end.

Example loads_ex :
  loads (dumps (JObj [("b", JArr [JInt (-12); JFloat 75 (-1); JNull]); ("a", JStr "系统")]))
  = Ok (JObj [("a", JStr "系统"); ("b", JArr [JInt (-12); JFloat 75 (-1); JNull])]).
Proof. vm_compute. reflexivity. Qed.
