(* ===== verification/JsonFacts.v ===== *)
(** * The canonical serializer: round trip and injectivity

    [loads (dumps v)] is [v] with the keys of its objects in order, for every
    well-formed value without floats; equal canonical texts therefore come
    from values equal up to key order. *)

From Stdlib Require Import Ascii.
From S2P Require Import Prelude PyStr Json.

(** Distinct keys in every object, and no float. *)
Fixpoint wf_json (v : json) : Prop :=
  match v with
  | JFloat _ _ => False
  | JArr l => (fix go l := match l with [] => True | x :: l' => wf_json x /\ go l' end) l
  | JObj kvs =>
      NoDup (map fst kvs) /\
      (fix go l := match l with [] => True | x :: l' => wf_json (snd x) /\ go l' end) kvs
  | _ => True
  end.

Lemma wf_JArr l : wf_json (JArr l) <-> Forall wf_json l.
Proof.
  induction l as [|x l IH]; [split; constructor|].
  rewrite Forall_cons. cbn in *. by rewrite IH.
Qed.

Lemma wf_JObj kvs :
  wf_json (JObj kvs) <-> NoDup (map fst kvs) /\ Forall (fun kv => wf_json (snd kv)) kvs.
Proof.
  enough (H : (fix go (l : list (string * json)) : Prop :=
             match l with [] => True | x :: l' => wf_json (snd x) /\ go l' end) kvs
          <-> Forall (fun kv => wf_json (snd kv)) kvs).
  { cbn [wf_json]. by rewrite H. }
  induction kvs as [|x l IH]; [split; constructor|]. rewrite Forall_cons, <- IH. done.
Qed.

(** The same predicate, decided. *)
Fixpoint wf_jsonb (v : json) : bool :=
  match v with
  | JFloat _ _ => false
  | JArr l => (fix go l := match l with [] => true | x :: l' => wf_jsonb x && go l' end) l
  | JObj kvs =>
      bool_decide (NoDup (map fst kvs)) &&
      (fix go l := match l with [] => true | x :: l' => wf_jsonb (snd x) && go l' end) kvs
  | _ => true
  end.

Lemma wf_jsonb_ok v : wf_jsonb v = true -> wf_json v.
Proof.
  induction v as [| | | | |l IH|kvs IH] using json_rect'; try done.
  - rewrite wf_JArr. cbn. induction IH as [|x l Hx _ IHl]; [done|].
    intros H. apply andb_prop in H as [H1 H2]. constructor; auto.
  - rewrite wf_JObj. cbn. intros H. apply andb_prop in H as [H1 H2].
    split; [by apply bool_decide_eq_true_1 in H1|]. clear H1.
    induction IH as [|x l Hx _ IHl]; [done|].
    apply andb_prop in H2 as [H1 H2]. constructor; auto.
Qed.

(** ** Strings *)

Lemma escape_char_parse a s rest r :
  parse_string s = Some (r, rest) ->
  parse_string (escape_char a +:+ s) = Some (String a r, rest).
Proof.
  intros H.
  destruct a as [[] [] [] [] [] [] [] []];
    match goal with |- context [escape_char ?c] =>
      let e := eval vm_compute in (escape_char c) in change (escape_char c) with e
    end; cbn; rewrite H; reflexivity.
Qed.

Lemma parse_quote s rest :
  parse_string (escape s +:+ String dquote rest) = Some (s, rest).
Proof.
  induction s as [|a s IH]; [reflexivity|].
  cbn [escape]. rewrite append_assoc. by apply escape_char_parse.
Qed.

(** ** Numbers *)

Fixpoint all_digits (s : string) : bool :=
  match s with String a s' => is_digit a && all_digits s' | EmptyString => true end.

Definition not_digit_head (s : string) : Prop :=
  match s with String a _ => is_digit a = false | EmptyString => True end.

Lemma take_digits_app d rest :
  all_digits d = true -> not_digit_head rest -> take_digits (d +:+ rest) = (d, rest).
Proof.
  induction d as [|a d IH]; cbn; intros Hd Hr.
  - destruct rest as [|b rest]; cbn in *; [done|]. by rewrite Hr.
  - apply andb_true_iff in Hd as [Ha Hd]. by rewrite Ha, IH.
Qed.

Lemma digits_value_app v d1 d2 : digits_value v (d1 +:+ d2) = digits_value (digits_value v d1) d2.
Proof. revert v. induction d1 as [|a d1 IH]; intros v; cbn; [done|]. apply IH. Qed.

Lemma all_digits_app d1 d2 : all_digits (d1 +:+ d2) = all_digits d1 && all_digits d2.
Proof. induction d1 as [|a d1 IH]; cbn; [done|]. by rewrite IH, andb_assoc. Qed.

Lemma N_of_ascii_digit d : (d < 10)%N -> N_of_ascii (ascii_of_N (48 + d)) = (48 + d)%N.
Proof. intros. apply N_ascii_embedding. lia. Qed.

Lemma is_digit_digit d : (d < 10)%N -> is_digit (ascii_of_N (48 + d)) = true.
Proof.
  intros H. unfold is_digit. rewrite N_of_ascii_digit by done.
  rewrite andb_true_iff, !N.leb_le. lia.
Qed.

(** What [str] prints of a natural number: its decimal digits, the leading one
    zero only for zero itself. *)
Definition prints (n : N) (d : string) : Prop :=
  all_digits d = true /\ digits_value 0 d = n /\
  exists a d', d = String a d' /\ (a = "0"%char -> n = 0%N /\ d' = "").

Lemma prints_digit n : (n < 10)%N -> prints n (digit_char n).
Proof.
  intros Hn. unfold digit_char. split_and!.
  - cbn [all_digits]. by rewrite is_digit_digit.
  - cbn. rewrite N_of_ascii_digit by done. lia.
  - do 2 eexists. split; [done|]. intros H. split; [|done].
    apply (f_equal N_of_ascii) in H. rewrite N_of_ascii_digit in H by done. cbn in H. lia.
Qed.

Lemma prints_snoc n d k :
  (0 < n)%N -> (k < 10)%N -> prints n d -> prints (n * 10 + k) (d +:+ digit_char k).
Proof.
  intros Hn Hk (H1 & H2 & a & d' & -> & H3). unfold digit_char. split_and!.
  - rewrite all_digits_app, H1. cbn [all_digits andb]. by rewrite is_digit_digit.
  - rewrite digits_value_app, H2. cbn. rewrite N_of_ascii_digit by done. lia.
  - exists a, (d' +:+ String (ascii_of_N (48 + k)) ""). split; [done|].
    intros Ha. destruct (H3 Ha). lia.
Qed.

Lemma digits_fuel_prints fuel : forall n acc, (n < 2 ^ N.of_nat fuel)%N -> (0 < fuel)%nat ->
  exists d, digits_fuel fuel n acc = d +:+ acc /\ prints n d.
Proof.
  induction fuel as [|f IH]; intros n acc Hn Hf; [lia|]. cbn [digits_fuel].
  destruct (N.ltb_spec n 10).
  - exists (digit_char (n mod 10)). split; [done|].
    rewrite N.mod_small by done. by apply prints_digit.
  - assert (Hdiv := N.div_mod n 10 ltac:(lia)).
    assert (Hmod := N.mod_lt n 10 ltac:(lia)).
    assert (n / 10 < 2 ^ N.of_nat f)%N.
    { replace (N.of_nat (S f)) with (N.succ (N.of_nat f)) in Hn by lia.
      rewrite N.pow_succ_r' in Hn. apply N.Div0.div_lt_upper_bound. lia. }
    destruct (IH (n / 10)%N (digit_char (n mod 10) +:+ acc)) as (d & Hd & Hp); [done| |].
    { destruct f; [|lia]. cbn in *. lia. }
    exists (d +:+ digit_char (n mod 10)). split; [by rewrite Hd, append_assoc|].
    assert (E : n = (n / 10 * 10 + n mod 10)%N) by lia. rewrite E at 1.
    apply prints_snoc; [lia|lia|done].
Qed.

Lemma str_of_N_prints n : prints n (str_of_N n).
Proof.
  destruct (digits_fuel_prints (S (N.to_nat (N.log2 n))) n "") as (d & Hd & Hp); [|lia|].
  - replace (N.of_nat (S (N.to_nat (N.log2 n)))) with (N.succ (N.log2 n)) by lia.
    destruct (N.eq_dec n 0) as [->|]; [reflexivity|]. apply N.log2_spec. lia.
  - unfold str_of_N. rewrite Hd, append_nil_r. done.
Qed.

(** A number ends where no digit, fraction or exponent follows. *)
Definition number_end (s : string) : Prop :=
  not_digit_head s /\ parse_frac s = None /\ parse_exp s = None.

Lemma parse_number_nat n rest :
  number_end rest ->
  match str_of_N n with String "-" _ => False | _ => True end /\
  (match str_of_N n +:+ rest with
   | String "0" t => ("0", t)
   | _ => take_digits (str_of_N n +:+ rest)
   end) = (str_of_N n, rest).
Proof.
  intros (Hr & _ & _). destruct (str_of_N_prints n) as (H1 & H2 & a & d' & E & H3).
  rewrite E in *. assert (Ha : is_digit a = true) by (cbn in H1; by destruct (is_digit a)).
  pose proof (take_digits_app _ _ H1 Hr) as Ht. cbn [String.append] in *.
  destruct (Ascii.eqb_spec a "0") as [->|Ha0].
  - destruct (H3 eq_refl) as [-> ->]. done.
  - split; destruct a as [[] [] [] [] [] [] [] []]; done.
Qed.

Lemma parse_number_int z rest :
  number_end rest -> parse_number (str_of_Z z +:+ rest) = Some (JInt z, rest).
Proof.
  intros Hr. destruct (Hr) as (_ & Hf & He).
  assert (Hgo : forall n, truthy (str_of_N n) = true /\ digits_value 0 (str_of_N n) = n).
  { intros n. destruct (str_of_N_prints n) as (_ & H2 & a & d' & E & _). by rewrite E in *. }
  unfold parse_number. destruct z as [|p|p]; cbn [str_of_Z].
  - cbn. by rewrite Hf, He.
  - destruct (parse_number_nat (Npos p) rest Hr) as [Hm Hd]. destruct (Hgo (Npos p)) as [Ht Hv].
    assert (Hs : match str_of_N (N.pos p) +:+ rest with
                 | String "-" t => (true, t)
                 | _ => (false, str_of_N (N.pos p) +:+ rest) end
               = (false, str_of_N (N.pos p) +:+ rest)).
    { destruct (str_of_N (N.pos p)) as [|a d'] eqn:E; [done|].
      destruct a as [[] [] [] [] [] [] [] []]; done. }
    rewrite Hs, Hd, Ht, Hf, He. cbn [orb]. by rewrite Hv.
  - destruct (parse_number_nat (Npos p) rest Hr) as [Hm Hd]. destruct (Hgo (Npos p)) as [Ht Hv].
    change (("-" +:+ str_of_N (N.pos p)) +:+ rest) with (String "-" (str_of_N (N.pos p) +:+ rest)).
    cbn iota. rewrite Hd, Ht, Hf, He. cbn [orb]. by rewrite Hv.
Qed.

Lemma parse_value_number f a t :
  is_digit a || Ascii.eqb a "-" = true ->
  parse_value (S f) (String a t) = parse_number (String a t).
Proof. destruct a as [[] [] [] [] [] [] [] []]; try discriminate 1; intros _; reflexivity. Qed.

Lemma str_of_Z_head z :
  exists a t, str_of_Z z = String a t /\ is_digit a || Ascii.eqb a "-" = true.
Proof.
  destruct z as [|p|p]; cbn [str_of_Z].
  - do 2 eexists. done.
  - destruct (str_of_N_prints (Npos p)) as (H & _ & a & d' & E & _). rewrite E in *.
    do 2 eexists. split; [done|]. cbn in H. by destruct (is_digit a).
  - do 2 eexists. done.
Qed.

(** ** Objects *)

Lemma dict_set_fresh {A} k (a : A) l : ~ In k (map fst l) -> dict_set k a l = (l ++ [(k, a)])%list.
Proof.
  induction l as [|[k' b] l IH]; cbn; intros H; [done|].
  destruct (String.eqb_spec k k') as [->|]; [tauto|]. by rewrite IH by tauto.
Qed.

Lemma dict_of_pairs_nodup {A} (l : list (string * A)) : NoDup (map fst l) -> dict_of_pairs l = l.
Proof.
  intros Hl. unfold dict_of_pairs.
  enough (H : forall acc, NoDup (map fst (acc ++ l)) ->
            fold_left (fun d kv => dict_set (fst kv) (snd kv) d) l acc = (acc ++ l)%list)
    by (by apply H).
  clear Hl. induction l as [|[k a] l IH]; intros acc H; cbn; [by rewrite app_nil_r|].
  rewrite dict_set_fresh; [rewrite IH; rewrite <- app_assoc; done|].
  rewrite map_app in H. apply NoDup_app in H as (_ & H & _). cbn in H.
  intros Hk. apply (H k); [by apply list_elem_of_In|]. left.
Qed.

Lemma insert_by_map {A B} (f : A -> B) la lb x l :
  (forall a b, lb (f a) (f b) = la a b) ->
  insert_by lb (f x) (map f l) = map f (insert_by la x l).
Proof.
  intros H. induction l as [|y l IH]; cbn; [done|]. rewrite H.
  destruct (la x y); cbn; [done|]. by rewrite IH.
Qed.

Lemma sort_by_map {A B} (f : A -> B) la lb l :
  (forall a b, lb (f a) (f b) = la a b) -> sort_by lb (map f l) = map f (sort_by la l).
Proof.
  intros H. induction l as [|y l IH]; cbn; [done|]. rewrite IH. by apply insert_by_map.
Qed.

Definition canon_member (kv : string * json) : string * json := (fst kv, canon (snd kv)).
Definition text_member (kv : string * json) : string := quote (fst kv) +:+ ":" +:+ dumps (snd kv).

Lemma dumps_JObj kvs :
  dumps (JObj kvs) = "{" +:+ py_join "," (map text_member (sort_by key_leb kvs)) +:+ "}".
Proof.
  cbn [dumps]. rewrite (sort_by_map _ key_leb) by done. rewrite map_map. done.
Qed.

Lemma canon_JObj kvs : canon (JObj kvs) = JObj (map canon_member (sort_by key_leb kvs)).
Proof. cbn [canon]. f_equal. by apply sort_by_map. Qed.

Lemma dict_of_canon_members kvs :
  NoDup (map fst kvs) ->
  dict_of_pairs (map canon_member (sort_by key_leb kvs)) = map canon_member (sort_by key_leb kvs).
Proof.
  intros H. apply dict_of_pairs_nodup. rewrite map_map. cbn.
  change (fun x : string * json => fst x) with (@fst string json).
  by rewrite (Permutation_map fst (sort_by_perm key_leb kvs)).
Qed.

(** ** Dictionaries *)

Lemma assoc_In {A} k (a : A) l : assoc k l = Some a -> In (k, a) l.
Proof.
  induction l as [|[k' b] l IH]; cbn; [done|]. destruct (String.eqb_spec k k') as [->|].
  - intros [= ->]. by left.
  - intros H. right. by apply IH.
Qed.

Lemma In_assoc {A} k (a : A) l : NoDup (map fst l) -> In (k, a) l -> assoc k l = Some a.
Proof.
  induction l as [|[k' b] l IH]; cbn; [done|]. intros [Hk Hl]%NoDup_cons [[= -> ->]|Hin].
  - by rewrite String.eqb_refl.
  - destruct (String.eqb_spec k k') as [->|]; [|by apply IH]. destruct Hk. apply list_elem_of_In, in_map_iff.
    by exists (k', a).
Qed.

Lemma assoc_keys {A} k (l : list (string * A)) : In k (map fst l) <-> exists a, assoc k l = Some a.
Proof.
  induction l as [|[k' b] l IH]; cbn; [by split; [|intros [? ?]]|].
  destruct (String.eqb_spec k k') as [->|Hne]; [split; [by exists b|by left]|].
  rewrite <- IH. split; [intros [->|?]; done|by right].
Qed.

Lemma assoc_dict_set {A} k k' (a : A) l :
  assoc k (dict_set k' a l) = if String.eqb k k' then Some a else assoc k l.
Proof.
  induction l as [|[k2 b] l IH]; cbn; [done|]. destruct (String.eqb_spec k' k2) as [->|Hne]; cbn.
  - by destruct (String.eqb k k2).
  - rewrite IH. destruct (String.eqb_spec k k2) as [->|]; [|done].
    destruct (String.eqb_spec k2 k'); [congruence|done].
Qed.

(** A canonical object has the members of the object. *)
Lemma assoc_canon k kvs : NoDup (map fst kvs) ->
  assoc k (map canon_member (sort_by key_leb kvs)) = canon <$> assoc k kvs.
Proof.
  intros Hnd. pose proof (sort_by_perm key_leb kvs) as Hp. set (l := sort_by key_leb kvs) in *.
  assert (Hl : assoc k (map canon_member l) = canon <$> assoc k l).
  { clear. induction l as [|[k' v] l IH]; cbn; [done|]. by destruct (String.eqb k k'). }
  rewrite Hl. f_equal.
  assert (Hndl : NoDup (map fst l)) by (by rewrite Hp).
  apply option_eq. intros v. split; intros H%assoc_In; apply In_assoc; try done.
  - apply list_elem_of_In. rewrite <- Hp. by apply list_elem_of_In.
  - apply list_elem_of_In. rewrite Hp. by apply list_elem_of_In.
Qed.

(** ** Values *)

(** What may follow a value in a canonical text. *)
Definition stop (s : string) : Prop :=
  match s with
  | EmptyString => True
  | String a _ => a = ","%char \/ a = "]"%char \/ a = "}"%char
  end.

Lemma stop_number_end s : stop s -> number_end s.
Proof. destruct s as [|a s]; [done|]. intros [->|[->| ->]]; done. Qed.

Definition value_head (a : ascii) : bool :=
  negb (is_ws a) && negb (Ascii.eqb a "]") && negb (Ascii.eqb a "}") && negb (Ascii.eqb a ",").

Lemma dumps_head v : wf_json v -> exists a t, dumps v = String a t /\ value_head a = true.
Proof.
  destruct v as [|[]|z|m e|s|l|kvs]; intros Hv; try (do 2 eexists; split; [reflexivity|reflexivity]).
  - destruct (str_of_Z_head z) as (a & t & E & H). exists a, t. split; [done|].
    destruct a as [[] [] [] [] [] [] [] []]; done.
  - destruct Hv.
Qed.

Lemma skip_ws_head a t : value_head a = true -> skip_ws (String a t) = String a t.
Proof. unfold value_head. cbn. by destruct (is_ws a). Qed.

Lemma skip_ws_dumps v rest : wf_json v -> skip_ws (dumps v +:+ rest) = dumps v +:+ rest.
Proof. intros Hv. destruct (dumps_head v Hv) as (a & t & -> & H). by apply skip_ws_head. Qed.

Lemma length_append s t : String.length (s +:+ t) = (String.length s + String.length t)%nat.
Proof. induction s as [|a s IH]; cbn; [done|]. by rewrite IH. Qed.

Definition parses (v : json) : Prop := forall fuel rest,
  (String.length (dumps v) < fuel)%nat -> stop rest ->
  parse_value fuel (dumps v +:+ rest) = Some (canon v, rest).

Lemma py_join_cons2 sep x y l :
  py_join sep (x :: y :: l) = x +:+ (sep +:+ py_join sep (y :: l)).
Proof. done. Qed.

Lemma py_join_head sep x l rest :
  exists t, py_join sep (x :: l) +:+ rest = x +:+ t.
Proof. destruct l; [by exists rest|]. rewrite py_join_cons2, append_assoc. eauto. Qed.

Lemma skip_ws_join x l rest :
  wf_json x ->
  skip_ws (py_join "," (map dumps (x :: l)) +:+ rest) = py_join "," (map dumps (x :: l)) +:+ rest.
Proof.
  intros Hx. cbn [map]. destruct (py_join_head "," (dumps x) (map dumps l) rest) as [t ->].
  by apply skip_ws_dumps.
Qed.

Lemma length_dumps_pos v : wf_json v -> (0 < String.length (dumps v))%nat.
Proof. intros Hv. destruct (dumps_head v Hv) as (a & t & -> & _). cbn. lia. Qed.

Lemma parse_elements_ok l fuel rest :
  l <> [] -> Forall wf_json l -> Forall parses l ->
  (S (String.length (py_join "," (map dumps l))) < fuel)%nat ->
  parse_elements fuel (py_join "," (map dumps l) +:+ String "]" rest) = Some (map canon l, rest).
Proof.
  intros Hne Hwf Hp. revert fuel. induction Hwf as [|x l Hx Hwf IH]; [done|]. clear Hne.
  inversion_clear Hp as [|? ? Hpx Hpl]. intros [|f] Hf; [lia|].
  destruct l as [|y l].
  - cbn in *. rewrite Hpx; [done|lia|cbn; tauto].
  - specialize (IH ltac:(done) Hpl). pose proof (length_dumps_pos x Hx).
    inversion Hwf as [|? ? Hy _]; subst.
    pose proof (skip_ws_join y l (String "]" rest) Hy) as Hs.
    cbn [map] in *. rewrite py_join_cons2 in *. rewrite !length_append in Hf.
    cbn [String.length] in Hf.
    set (tail := py_join "," (dumps y :: map dumps l)) in *. clearbody tail.
    rewrite !append_assoc. cbn [parse_elements].
    rewrite Hpx; [|lia|cbn; tauto].
    change (skip_ws ("," +:+ tail +:+ String "]" rest))
      with (String "," (tail +:+ String "]" rest)). cbn iota.
    rewrite Hs, IH; [done|lia].
Qed.

Lemma quote_parse k rest :
  exists s1, quote k +:+ rest = String dquote s1 /\ parse_string s1 = Some (k, rest).
Proof.
  unfold quote. eexists. cbn. split; [done|]. rewrite append_assoc. apply parse_quote.
Qed.

Lemma skip_ws_members y l rest :
  skip_ws (py_join "," (map text_member (y :: l)) +:+ rest)
  = py_join "," (map text_member (y :: l)) +:+ rest.
Proof.
  cbn [map]. destruct (py_join_head "," (text_member y) (map text_member l) rest) as [t ->].
  unfold text_member, quote. done.
Qed.

Lemma parse_members_step k x f rest :
  wf_json x -> parses x -> (String.length (dumps x) < f)%nat -> stop rest ->
  parse_members (S f) (text_member (k, x) +:+ rest) =
  match skip_ws rest with
  | String "," r3 =>
      match parse_members f (skip_ws r3) with
      | Some (l, r4) => Some ((k, canon x) :: l, r4)
      | None => None
      end
  | String "}" r3 => Some ([(k, canon x)], r3)
  | _ => None
  end.
Proof.
  intros Hx Hpx Hf Hr. unfold text_member. cbn [fst snd]. rewrite !append_assoc.
  destruct (quote_parse k (":" +:+ (dumps x +:+ rest))) as (s1 & -> & Hk).
  cbn [parse_members]. rewrite Ascii.eqb_refl, Hk.
  change (skip_ws (":" +:+ (dumps x +:+ rest))) with (String ":" (dumps x +:+ rest)). cbn iota.
  rewrite skip_ws_dumps by done. by rewrite Hpx.
Qed.

Lemma parse_members_ok l fuel rest :
  l <> [] -> Forall (fun kv => wf_json (snd kv)) l -> Forall (fun kv => parses (snd kv)) l ->
  (S (String.length (py_join "," (map text_member l))) < fuel)%nat ->
  parse_members fuel (py_join "," (map text_member l) +:+ String "}" rest)
  = Some (map canon_member l, rest).
Proof.
  intros Hne Hwf Hp. revert fuel. induction Hwf as [|[k x] l Hx Hwf IH]; [done|]. clear Hne.
  inversion_clear Hp as [|? ? Hpx Hpl]. cbn [snd] in *. intros [|f] Hf; [lia|].
  assert (Hlen : (String.length (dumps x) < String.length (text_member (k, x)))%nat).
  { unfold text_member, quote. cbn. rewrite !length_append. cbn. lia. }
  destruct l as [|y l].
  - cbn [map] in *. change (py_join "," [text_member (k, x)]) with (text_member (k, x)) in *.
    rewrite parse_members_step; [done|done|done|lia|cbn; tauto].
  - specialize (IH ltac:(done) Hpl).
    pose proof (skip_ws_members y l (String "}" rest)) as Hs.
    cbn [map] in *. rewrite py_join_cons2 in *. rewrite !length_append in Hf.
    cbn [String.length] in Hf.
    set (tail := py_join "," (text_member y :: map text_member l)) in *. clearbody tail.
    rewrite !append_assoc. rewrite parse_members_step; [|done|done|lia|cbn; tauto].
    change (skip_ws ("," +:+ tail +:+ String "}" rest))
      with (String "," (tail +:+ String "}" rest)). cbn iota.
    rewrite Hs, IH; [done|lia].
Qed.

Lemma parses_all v : wf_json v -> parses v.
Proof.
  induction v as [|b|z|m e|s|l IH|kvs IH] using json_rect'; intros Hv [|f] rest Hf Hr; try lia.
  - reflexivity.
  - destruct b; reflexivity.
  - cbn [dumps canon]. destruct (str_of_Z_head z) as (a & t & E & Ha).
    rewrite <- (parse_number_int z rest) by (by apply stop_number_end).
    rewrite E. by apply parse_value_number.
  - destruct Hv.
  - cbn [dumps canon]. destruct (quote_parse s rest) as (s1 & -> & Hs).
    cbn [parse_value]. by rewrite Ascii.eqb_refl, Hs.
  - rewrite wf_JArr in Hv. cbn [dumps canon] in *. rewrite !append_assoc.
    change ("]" +:+ rest) with (String "]" rest).
    rewrite !length_append in Hf. cbn [String.length String.append] in *.
    destruct l as [|x l]; [reflexivity|].
    assert (Hp : Forall parses (x :: l)).
    { apply Forall_forall. intros y Hy. rewrite Forall_forall in Hv, IH. by apply IH, Hv. }
    pose proof (parse_elements_ok (x :: l) f rest ltac:(done) Hv Hp ltac:(lia)) as He.
    destruct (dumps_head x) as (a & t & E & Ha); [by inversion Hv|].
    set (txt := py_join "," (map dumps (x :: l)) +:+ String "]" rest) in *.
    assert (Ht : exists t', txt = String a t').
    { subst txt. cbn [map py_join String.concat]. rewrite E. destruct (map dumps l); eexists; done. }
    destruct Ht as [t' Ht]. change ("[" +:+ txt) with (String "[" txt). cbn [parse_value].
    change (Ascii.eqb "[" dquote) with false. change (Ascii.eqb "[" "[") with true. cbn iota.
    rewrite Ht in *. rewrite skip_ws_head by done.
    destruct a as [[] [] [] [] [] [] [] []]; try discriminate Ha; cbn iota; by rewrite He.
  - rewrite wf_JObj in Hv. destruct Hv as [Hnd Hv].
    rewrite dumps_JObj, canon_JObj in *. rewrite !append_assoc.
    change ("}" +:+ rest) with (String "}" rest).
    rewrite !length_append in Hf. cbn [String.length String.append] in *.
    rewrite <- (dict_of_canon_members kvs Hnd).
    destruct (sort_by key_leb kvs) as [|x l] eqn:El; [reflexivity|].
    assert (Hperm : x :: l ≡ₚ kvs) by (rewrite <- El; apply sort_by_perm).
    assert (Hwf : Forall (fun kv => wf_json (snd kv)) (x :: l)) by (by rewrite Hperm).
    assert (Hp : Forall (fun kv => parses (snd kv)) (x :: l)).
    { rewrite Hperm. apply Forall_forall. intros y Hy. rewrite Forall_forall in Hv, IH.
      by apply IH, Hv. }
    pose proof (parse_members_ok (x :: l) f rest ltac:(done) Hwf Hp ltac:(lia)) as He.
    set (txt := py_join "," (map text_member (x :: l)) +:+ String "}" rest) in *.
    assert (Ht : exists t', txt = String dquote t').
    { subst txt. cbn [map].
      destruct (py_join_head "," (text_member x) (map text_member l) (String "}" rest)) as [t ->].
      unfold text_member, quote. eexists. reflexivity. }
    destruct Ht as [t' Ht]. change ("{" +:+ txt) with (String "{" txt). cbn [parse_value].
    change (Ascii.eqb "{" dquote) with false. change (Ascii.eqb "{" "[") with false.
    change (Ascii.eqb "{" "{") with true. cbn iota.
    rewrite Ht in *. rewrite skip_ws_head by done.
    unfold dquote in *. cbn iota. by rewrite He.
Qed.

(** The parser reads back what the canonical serializer wrote. *)
Lemma loads_dumps v : wf_json v -> loads (dumps v) = Ok (canon v).
Proof.
  intros Hv. unfold loads. pose proof (skip_ws_dumps v "" Hv) as Hs.
  pose proof (parses_all v Hv (S (String.length (dumps v))) "" ltac:(lia) I) as Hp.
  rewrite append_nil_r in *. rewrite Hs, Hp. reflexivity.
Qed.

(** Canonical texts are equal only for values equal up to key order. *)
Lemma dumps_inj v w : wf_json v -> wf_json w -> dumps v = dumps w -> canon v = canon w.
Proof.
  intros Hv Hw E. pose proof (loads_dumps v Hv) as H1. pose proof (loads_dumps w Hw) as H2.
  rewrite E in H1. congruence.
Qed.
