(* ===== verification/Sha256.v ===== *)
(** * SHA-256

    [hashlib.sha256(text.encode("utf-8")).hexdigest()], which the stores use
    for plan, schema and token hashes.  Words are [N] kept below [2 ^ 32]; the
    constants are the first 32 bits of the fractional parts of the square and
    cube roots of the first primes (FIPS 180-4).  The examples at the end are
    published test vectors. *)

From Stdlib Require Import Ascii.
From S2P Require Import Prelude PyStr Json.

Open Scope N_scope.

Definition w32 (x : N) : N := N.land x 4294967295.
Definition add32 (x y : N) : N := w32 (x + y).
Definition rotr (n x : N) : N := N.lor (N.shiftr x n) (w32 (N.shiftl x (32 - n))).
Definition not32 (x : N) : N := N.lxor x 4294967295.

Definition round_constants : list N :=
  [1116352408; 1899447441; 3049323471; 3921009573; 961987163; 1508970993; 2453635748;
   2870763221; 3624381080; 310598401; 607225278; 1426881987; 1925078388; 2162078206;
   2614888103; 3248222580; 3835390401; 4022224774; 264347078; 604807628; 770255983;
   1249150122; 1555081692; 1996064986; 2554220882; 2821834349; 2952996808; 3210313671;
   3336571891; 3584528711; 113926993; 338241895; 666307205; 773529912; 1294757372;
   1396182291; 1695183700; 1986661051; 2177026350; 2456956037; 2730485921; 2820302411;
   3259730800; 3345764771; 3516065817; 3600352804; 4094571909; 275423344; 430227734;
   506948616; 659060556; 883997877; 958139571; 1322822218; 1537002063; 1747873779;
   1955562222; 2024104815; 2227730452; 2361852424; 2428436474; 2756734187; 3204031479;
   3329325298].

Record hash_state : Type := HashState { ha : N; hb : N; hc : N; hd : N; he : N; hf : N; hg : N; hh : N }.

Definition initial_hash : hash_state :=
  HashState 1779033703 3144134277 1013904242 2773480762
            1359893119 2600822924 528734635 1541459225.

Definition big_sigma0 x := N.lxor (rotr 2 x) (N.lxor (rotr 13 x) (rotr 22 x)).
Definition big_sigma1 x := N.lxor (rotr 6 x) (N.lxor (rotr 11 x) (rotr 25 x)).
Definition small_sigma0 x := N.lxor (rotr 7 x) (N.lxor (rotr 18 x) (N.shiftr x 3)).
Definition small_sigma1 x := N.lxor (rotr 17 x) (N.lxor (rotr 19 x) (N.shiftr x 10)).
Definition choose x y z := N.lxor (N.land x y) (N.land (not32 x) z).
Definition majority x y z := N.lxor (N.land x y) (N.lxor (N.land x z) (N.land y z)).

Definition round (s : hash_state) (kw : N * N) : hash_state :=
  let t1 := w32 (hh s + big_sigma1 (he s) + choose (he s) (hf s) (hg s) + fst kw + snd kw) in
  let t2 := add32 (big_sigma0 (ha s)) (majority (ha s) (hb s) (hc s)) in
  HashState (add32 t1 t2) (ha s) (hb s) (hc s) (add32 (hd s) t1) (he s) (hf s) (hg s).

(** The message schedule; [ws] holds the words so far, the latest first. *)
Fixpoint schedule (n : nat) (ws : list N) : list N :=
  match n with
  | O => ws
  | S n' =>
      let w := w32 (small_sigma1 (nth 1 ws 0) + nth 6 ws 0
                    + small_sigma0 (nth 14 ws 0) + nth 15 ws 0) in
      schedule n' (w :: ws)
  end.

Definition compress (s : hash_state) (block : list N) : hash_state :=
  let ws := rev (schedule 48 (rev block)) in
  let r := fold_left round (combine round_constants ws) s in
  HashState (add32 (ha s) (ha r)) (add32 (hb s) (hb r)) (add32 (hc s) (hc r))
            (add32 (hd s) (hd r)) (add32 (he s) (he r)) (add32 (hf s) (hf r))
            (add32 (hg s) (hg r)) (add32 (hh s) (hh r)).

Fixpoint bytes_of (s : string) : list N :=
  match s with String a s' => N_of_ascii a :: bytes_of s' | EmptyString => [] end.

Fixpoint be_bytes (n : nat) (x : N) : list N :=
  match n with
  | O => []
  | S n' => be_bytes n' (x / 256) ++ [x mod 256]
  end.

(** Padding: 0x80, zeros up to 56 modulo 64, and the bit length. *)
Definition pad (bs : list N) : list N :=
  let n := length bs in
  bs ++ 128 :: repeat 0 ((119 - n mod 64) mod 64)%nat ++ be_bytes 8 (8 * N.of_nat n).

Fixpoint words (bs : list N) : list N :=
  match bs with
  | a :: b :: c :: d :: r => (((a * 256 + b) * 256 + c) * 256 + d) :: words r
  | _ => []
  end.

Fixpoint compress_all (fuel : nat) (s : hash_state) (ws : list N) : hash_state :=
  match fuel, ws with
  | S f, _ :: _ => compress_all f (compress s (firstn 16 ws)) (skipn 16 ws)
  | _, _ => s
  end.

Definition hex_byte (x : N) : string := hex_digit (x / 16) +:+ hex_digit (x mod 16).

Definition sha256_hex (text : string) : string :=
  let ws := words (pad (bytes_of text)) in
  let r := compress_all (length ws) initial_hash ws in
  join_chars (map hex_byte (flat_map (be_bytes 4)
    [ha r; hb r; hc r; hd r; he r; hf r; hg r; hh r])).

Close Scope N_scope.

Example sha256_empty :
  sha256_hex "" = "e3b0c44298fc1c149afbf4c8996fb92427ae41e4649b934ca495991b7852b855".
Proof. vm_compute. reflexivity. Qed.

Example sha256_abc :
  sha256_hex "abc" = "ba7816bf8f01cfea414140de5dae2223b00361a396177a9cb410ff61f20015ad".
Proof. vm_compute. reflexivity. Qed.

Example sha256_two_blocks :
  sha256_hex "abcdbcdecdefdefgefghfghighijhijkijkljklmklmnlmnomnopnopq"
  = "248d6a61d20638b8e5c026930c3e6039a33ce45964ff2167f6ecedd419db06c1".
Proof. vm_compute. reflexivity. Qed.

Lemma hex_digit_ascii n : (n < 16)%N -> is_ascii_str (hex_digit n) = true.
Proof.
  intros Hn. assert (H : In n (map N.of_nat (seq 0 16))).
  { apply in_map_iff. exists (N.to_nat n). rewrite in_seq. lia. }
  cbn in H. decompose [or] H; subst; done.
Qed.

Lemma be_bytes_bound n x y : In y (be_bytes n x) -> (y < 256)%N.
Proof.
  revert x. induction n as [|n IH]; intros x; cbn; [done|].
  rewrite in_app_iff. intros [Hy|[<-|[]]]; [eauto|]. by apply N.mod_lt.
Qed.

Lemma hex_bytes_ascii l :
  (forall y, In y l -> (y < 256)%N) -> is_ascii_str (join_chars (map hex_byte l)) = true.
Proof.
  induction l as [|x l IH]; intros Hl; [done|].
  assert (x < 256)%N by (apply Hl; by left).
  cbn. rewrite is_ascii_append. unfold hex_byte. rewrite is_ascii_append.
  rewrite !hex_digit_ascii; [|by apply N.mod_lt|by apply N.Div0.div_lt_upper_bound].
  cbn. apply IH. intros y Hy. apply Hl. by right.
Qed.

(** A digest is made of hexadecimal digits. *)
Lemma sha256_hex_ascii s : is_ascii_str (sha256_hex s) = true.
Proof.
  apply hex_bytes_ascii. intros y Hy. apply in_flat_map in Hy as (w & _ & Hy).
  by eapply be_bytes_bound.
Qed.

Lemma hex_digit_graphic n : (n < 16)%N ->
  all_graphic (hex_digit n) = true /\ String.length (hex_digit n) = 1%nat.
Proof.
  intros Hn. assert (H : In n (map N.of_nat (seq 0 16))).
  { apply in_map_iff. exists (N.to_nat n). rewrite in_seq. lia. }
  cbn in H. decompose [or] H; subst; done.
Qed.

Lemma all_graphic_append s t : all_graphic (s +:+ t) = all_graphic s && all_graphic t.
Proof. induction s as [|a s IH]; cbn; [done|]. by rewrite IH, andb_assoc. Qed.

Lemma string_length_append s t : String.length (s +:+ t) = (String.length s + String.length t)%nat.
Proof. induction s as [|a s IH]; cbn; [done|]. by rewrite IH. Qed.

Lemma hex_bytes_shape l : (forall y, In y l -> (y < 256)%N) ->
  all_graphic (join_chars (map hex_byte l)) = true /\
  String.length (join_chars (map hex_byte l)) = (2 * length l)%nat.
Proof.
  induction l as [|x l IH]; intros Hl; [done|]. destruct IH as [H1 H2]; [intros y Hy; apply Hl; by right|].
  assert (Hx : (x < 256)%N) by (apply Hl; by left).
  destruct (hex_digit_graphic (x / 16)) as [G1 L1]; [by apply N.Div0.div_lt_upper_bound|].
  destruct (hex_digit_graphic (x mod 16)) as [G2 L2]; [by apply N.mod_lt|].
  cbn [map]. unfold hex_byte at 1 3. cbn [join_chars foldr]. fold (join_chars (map hex_byte l)).
  rewrite !all_graphic_append, !string_length_append, G1, G2, H1, H2, L1, L2. split; [done|]. cbn [length]. lia.
Qed.

Lemma be_bytes_length n x : length (be_bytes n x) = n.
Proof. revert x. induction n as [|n IH]; intros x; cbn; [done|]. rewrite length_app, IH. cbn. lia. Qed.

(** A digest has 64 characters. *)
Lemma sha256_hex_shape s : all_graphic (sha256_hex s) = true /\ String.length (sha256_hex s) = 64%nat.
Proof.
  unfold sha256_hex. cbv zeta. set (bytes := flat_map _ _).
  destruct (hex_bytes_shape bytes) as [H1 H2].
  - intros y Hy. apply in_flat_map in Hy as (w & _ & Hy). by eapply be_bytes_bound.
  - split; [exact H1|]. rewrite H2. unfold bytes. cbn [flat_map]. by rewrite !length_app, !be_bytes_length.
Qed.

#[global] Opaque sha256_hex.
