(* ===== verification/Store.v ===== *)
(** * What the SQLite stores share

    Tables, the connection context manager, the clock, the digests of
    [hashlib]/[hmac] the stores call, and [urllib.parse.urlparse].

    A table is a [gmap] from its primary key to the row's other columns.  Text
    columns that hold [_format_time] of an aware datetime hold the instant
    itself, in microseconds: [isoformat] in UTC and [fromisoformat] are inverse,
    and their text order is the order of the instants. *)

From Stdlib Require Import Ascii.
From S2P Require Import Prelude PyStr Json Sha256.

(** ** Tables *)

Section Tables.
  Context {R : Type}.
Implicit Types (t : gmap string R) (p : R -> bool) (f : R -> R).

  (** [UPDATE t SET .. WHERE p] *)
Definition update_where p f t : gmap string R :=
  (fun r => if p r then f r else r) <$> t.

  (** [UPDATE t SET .. WHERE key = k AND p], with [cursor.rowcount] *)
Definition update_key k p f t : gmap string R * nat :=
  match t !! k with
  | Some r => if p r then (<[k := f r]> t, 1%nat) else (t, 0%nat)
  | None => (t, 0%nat)
  end.

  (** [SELECT * FROM t WHERE p], and its first row *)
Definition select_where p t : list (string * R) :=
  List.filter (fun kr => p (snd kr)) (map_to_list t).

Definition select_one p t : option (string * R) :=
  List.find (fun kr => p (snd kr)) (map_to_list t).

Definition exists_where p t : bool :=
  match select_one p t with Some _ => true | None => false end.

  (** [INSERT INTO t], where [clash] holds of a row with which a UNIQUE
      constraint forbids the new one. *)
Definition insert_row k (clash : R -> bool) (r : R) t : result (gmap string R) :=
  match t !! k with
  | Some _ => raise SqliteIntegrityError "UNIQUE constraint failed"
  | None =>
      if exists_where clash t
      then raise SqliteIntegrityError "UNIQUE constraint failed"
      else Ok (<[k := r]> t)
  end.

Lemma lookup_update_where p f t k :
  update_where p f t !! k = (fun r => if p r then f r else r) <$> t !! k.
Proof. apply lookup_fmap. Qed.

Lemma select_where_In p t k r :
  In (k, r) (select_where p t) <-> t !! k = Some r /\ p r = true.
Proof.
  unfold select_where. rewrite filter_In. cbn.
  by rewrite <- list_elem_of_In, elem_of_map_to_list.
Qed.

Lemma filter_keys_NoDup {A} (q : string * A -> bool) (l : list (string * A)) :
  NoDup (map fst l) -> NoDup (map fst (List.filter q l)).
Proof.
  induction l as [|x l IH]; cbn; [done|]. intros [Hx Hl]%NoDup_cons.
  destruct (q x); cbn; [|auto]. apply NoDup_cons. split; [|auto].
  rewrite list_elem_of_In in *. intros Hin. apply Hx.
  apply in_map_iff in Hin as (y & <- & Hy%filter_In). apply in_map, Hy.
Qed.

Lemma select_where_NoDup p t : NoDup (map fst (select_where p t)).
Proof. apply filter_keys_NoDup. apply NoDup_fst_map_to_list. Qed.

Lemma select_one_Some p t k r :
  select_one p t = Some (k, r) -> t !! k = Some r /\ p r = true.
Proof.
  intros [H Hp]%find_some. split; [|done].
  by rewrite <- list_elem_of_In, elem_of_map_to_list in H.
Qed.

Lemma select_one_None p t : select_one p t = None -> forall k r, t !! k = Some r -> p r = false.
Proof.
  intros H k r Hk. unfold select_one in H.
  apply (find_none _ _ H (k, r)). by apply list_elem_of_In, elem_of_map_to_list.
Qed.

Lemma select_one_unique p t k r :
  t !! k = Some r -> p r = true ->
  (forall k' r', t !! k' = Some r' -> p r' = true -> k' = k) ->
  select_one p t = Some (k, r).
Proof.
  intros Hk Hp Hu. destruct (select_one p t) as [[k' r']|] eqn:E.
  - apply select_one_Some in E as [E1 E2]. assert (k' = k) as -> by eauto. congruence.
  - rewrite (select_one_None _ _ E _ _ Hk) in Hp. done.
Qed.

Lemma exists_where_true p t :
  exists_where p t = true <-> exists k r, t !! k = Some r /\ p r = true.
Proof.
  unfold exists_where. destruct (select_one p t) as [[k r]|] eqn:E; split; try done.
  - intros _. exists k, r. by apply select_one_Some.
  - intros (k & r & H & Hp). by rewrite (select_one_None _ _ E _ _ H) in Hp.
Qed.

Lemma exists_where_false p t :
  exists_where p t = false <-> forall k r, t !! k = Some r -> p r = false.
Proof.
  rewrite <- not_true_iff_false, exists_where_true. split.
  - intros H k r Hk. destruct (p r) eqn:Hp; [|done]. destruct H. by exists k, r.
  - intros H (k & r & Hk & Hp). by rewrite (H _ _ Hk) in Hp.
Qed.

Lemma insert_row_Ok k clash r t t' :
  insert_row k clash r t = Ok t' <->
  t !! k = None /\ exists_where clash t = false /\ t' = <[k := r]> t.
Proof.
  unfold insert_row. destruct (t !! k); cbn; [naive_solver|].
  destruct (exists_where clash t); cbn; naive_solver.
Qed.

Lemma update_key_hit k p f t r :
    t !! k = Some r -> p r = true -> update_key k p f t = (<[k := f r]> t, 1%nat).
  Proof. intros H Hp. unfold update_key. by rewrite H, Hp. Qed.
End Tables.

(** ** The connection *)

(** A method: its work inside [with self._connect() as connection], then what
    it does with the result after the commit. *)
Definition method {S A B} (body : tx S A) (k : A -> result B) (s : S) : result B * S :=
  let '(r, s') := transaction body s in (r ≫= k, s').

Lemma method_state {S A B} (body : tx S A) (k : A -> result B) s :
  snd (method body k s) = after body s.
Proof. unfold method, after. by destruct (transaction body s). Qed.

Lemma method_Ok {S A B} (body : tx S A) (k : A -> result B) s b s' :
  method body k s = (Ok b, s') <-> exists a, body s = Ok (a, s') /\ k a = Ok b.
Proof.
  unfold method, transaction, mbind, result_bind.
  destruct (body s) as [[a s1]|e]; split.
  - intros [= H <-]. eauto.
  - intros (a' & [= <- <-] & <-). done.
  - done.
  - intros (a' & H & _). done.
Qed.

(** ** The clock *)

Definition instant : Type := Z.

Inductive datetime : Type :=
  | Aware (utc : instant)
  | Naive (local : Z).

Arguments Aware utc%_Z.
Arguments Naive local%_Z.

Definition as_utc (what : string) (d : datetime) : result instant :=
  match d with
  | Aware t => Ok t
  | Naive _ => raise ValueError (what +:+ " clock must return timezone-aware datetime")
  end.

Lemma as_utc_Ok what d t : as_utc what d = Ok t <-> d = Aware t.
Proof. destruct d; cbn; split; (congruence || done). Qed.

Definition seconds (n : Z) : Z := (n * 1000000)%Z.

(** ** Digests *)

(** [hmac.compare_digest] on [str] arguments. *)
Definition compare_digest (a b : string) : result bool :=
  if is_ascii_str a && is_ascii_str b then Ok (String.eqb a b)
  else raise TypeError "comparing strings with non-ASCII characters is not supported".

Lemma compare_digest_true a b : compare_digest a b = Ok true -> a = b.
Proof.
  unfold compare_digest. destruct (is_ascii_str a && is_ascii_str b); [|done].
  intros [= H]. by apply String.eqb_eq.
Qed.

Lemma compare_digest_refl a : is_ascii_str a = true -> compare_digest a a = Ok true.
Proof. intros H. unfold compare_digest. by rewrite H, String.eqb_refl. Qed.

(** [f"sha256:{digest}"] of a canonical text *)
Definition json_hash (text : string) : string := "sha256:" +:+ sha256_hex text.

Lemma json_hash_ascii text : is_ascii_str (json_hash text) = true.
Proof. unfold json_hash. rewrite is_ascii_append. apply sha256_hex_ascii. Qed.

(** [a or ''] on an optional text column *)
Definition or_empty (o : option string) : string :=
  match o with Some s => s | None => "" end.

Definition opt_truthy (o : option string) : bool :=
  match o with Some s => truthy s | None => false end.

(** [o or default] *)
Definition or_default (o : option string) (default : string) : string :=
  match o with Some s => if truthy s then s else default | None => default end.

(** [COALESCE(a, b)] *)
Definition coalesce {A} (a : option A) (b : A) : option A :=
  match a with Some x => Some x | None => Some b end.

(** ** URLs *)

Record parse_result : Type := ParseResult {
  url_scheme : string;
  url_netloc : string;
  url_path : string;
  url_query : string;
  url_fragment : string;
}.

(** What [urlsplit] asks of the [ipaddress] and [unicodedata] modules about a
    network location. *)
Class UrlTables : Type := { netloc_ok : string -> bool }.

Definition ascii_lower_char (a : ascii) : ascii :=
  let n := N_of_ascii a in
  if ((65 <=? n) && (n <=? 90))%N then ascii_of_N (n + 32) else a.

Fixpoint ascii_lower (s : string) : string :=
  match s with String a s' => String (ascii_lower_char a) (ascii_lower s') | EmptyString => "" end.

Definition is_alpha (a : ascii) : bool :=
  let n := N_of_ascii a in
  (((65 <=? n) && (n <=? 90)) || ((97 <=? n) && (n <=? 122)))%N.

Definition is_scheme_char (a : ascii) : bool :=
  is_alpha a || is_digit a || Ascii.eqb a "+" || Ascii.eqb a "-" || Ascii.eqb a ".".

Fixpoint str_forallb (p : ascii -> bool) (s : string) : bool :=
  match s with String a s' => p a && str_forallb p s' | EmptyString => true end.

Fixpoint str_filter (p : ascii -> bool) (s : string) : string :=
  match s with
  | String a s' => if p a then String a (str_filter p s') else str_filter p s'
  | EmptyString => ""
  end.

Fixpoint str_drop_while (p : ascii -> bool) (s : string) : string :=
  match s with
  | String a s' => if p a then str_drop_while p s' else s
  | EmptyString => ""
  end.

(** The text up to the first character of [p], and the rest from it on. *)
Fixpoint str_break (p : ascii -> bool) (s : string) : string * string :=
  match s with
  | String a s' => if p a then ("", s) else let '(u, v) := str_break p s' in (String a u, v)
  | EmptyString => ("", "")
  end.

(** [urlparse(url)]; the parameters of the last path segment are dropped from
    [path], as [urlparse] does for the schemes that use them. *)
Definition urlparse `{UrlTables} (raw : string) : result parse_result :=
  let url := str_drop_while (fun a => (N_of_ascii a <=? 32)%N) raw in
  let url := str_filter (fun a => negb ((N_of_ascii a =? 9) || (N_of_ascii a =? 10)
                                        || (N_of_ascii a =? 13))%N) url in
  let '(scheme, url) :=
    match partition ":" url with
    | Some (String a s as head, rest) =>
        if is_alpha a && str_forallb is_scheme_char head
        then (ascii_lower head, rest) else ("", url)
    | _ => ("", url)
    end in
  let '(netloc, url) :=
    if startswith "//" url
    then str_break (fun a => Ascii.eqb a "/" || Ascii.eqb a "?" || Ascii.eqb a "#") (str_drop 2 url)
    else ("", url) in
  raise_if (negb (Bool.eqb (contains "[" netloc) (contains "]" netloc)))
    ValueError "Invalid IPv6 URL";;
  raise_if (negb (netloc_ok netloc)) ValueError "netloc is invalid";;
  let '(url, fragment) := match partition "#" url with Some p => p | None => (url, "") end in
  let '(url, query) := match partition "?" url with Some p => p | None => (url, "") end in
  let path :=
    if str_in scheme [""; "ftp"; "hdl"; "prospero"; "http"; "https"; "shttp"; "rtsp"; "rtsps";
                      "sip"; "sips"; "mms"; "sftp"; "tel"] && contains ";" url
    then match rpartition "/" url with
         | Some (dir, last) => dir +:+ "/" +:+ split1_head ";" last
         | None => split1_head ";" url
         end
    else url in
  Ok (ParseResult scheme netloc path query fragment).

(** [parsed.username or parsed.password] *)
Definition has_userinfo (netloc : string) : bool :=
  match rpartition "@" netloc with
  | None => false
  | Some (userinfo, _) =>
      match partition ":" userinfo with
      | Some (username, password) => truthy username || truthy password
      | None => truthy userinfo
      end
  end.

(** ** Concrete tables, for evaluating the model on ASCII inputs *)

Definition ascii_upper_char (a : ascii) : ascii :=
  let n := N_of_ascii a in
  if ((97 <=? n) && (n <=? 122))%N then ascii_of_N (n - 32) else a.

Fixpoint ascii_upper (s : string) : string :=
  match s with String a s' => String (ascii_upper_char a) (ascii_upper s') | EmptyString => "" end.

Definition ascii_tables : UnicodeTables :=
  {| str_lower := ascii_lower; str_upper := ascii_upper; str_casefold := ascii_lower;
     str_repr := fun s => "'" +:+ s +:+ "'" |}.

Definition plain_urls : UrlTables := {| netloc_ok := fun _ => true |}.

(** The result and the state of a method that is known to return. *)
Ltac run_ok E v :=
  match goal with
  | |- context [fst ?call] => destruct call as [[v|] ?] eqn:E; [|vm_compute in E; discriminate E]
  end.
