(* ===== verification/Cards.v ===== *)
(** * Presentations and card sessions of a trusted card

    Write authorizations and field submissions are shown to the user through
    the same two child tables: a presentation per endpoint, and a card session
    per rendered page, which holds the digest of its CSRF token.  [owner] is the
    [authorization_id] or the [submission_id].  A [Settled] presentation is
    stored as ['decided'] by the first and as ['submitted'] by the second. *)

From S2P Require Import Prelude PyStr Json Sha256 Store.

Inductive presentation_state : Type := PActive | PExpired | PSettled.
Inductive session_state : Type := CPending | CConsumed | CExpired.

#[export] Instance presentation_state_eq_dec : EqDecision presentation_state.
Proof. solve_decision. Defined.
#[export] Instance session_state_eq_dec : EqDecision session_state.
Proof. solve_decision. Defined.

Record presentation_row : Type := PresentationRow {
  pr_owner : string;
  pr_user_subject : string;
  pr_endpoint_id : string;
  pr_card_url : string;
  pr_state : presentation_state;
  pr_created_at : instant;
  pr_updated_at : instant;
  pr_expires_at : instant;
  pr_opened_at : option instant;
  pr_settled_at : option instant;
}.

Record card_session_row : Type := CardSessionRow {
  cs_owner : string;
  cs_presentation_id : option string;
  cs_endpoint_id : option string;
  cs_csrf_hash : string;
  cs_state : session_state;
  cs_created_at : instant;
  cs_expires_at : instant;
  cs_consumed_at : option instant;
}.

Record cards : Type := Cards {
  presentations : gmap string presentation_row;
  card_sessions : gmap string card_session_row;
}.

Definition no_cards : cards := Cards ∅ ∅.

Definition _token_hash (token : string) : string := sha256_hex token.

(** ** Row updates *)

Definition set_presentation (st : presentation_state) (now : instant)
    (settled : option instant) (r : presentation_row) : presentation_row :=
  {| pr_owner := pr_owner r; pr_user_subject := pr_user_subject r;
     pr_endpoint_id := pr_endpoint_id r; pr_card_url := pr_card_url r;
     pr_state := st; pr_created_at := pr_created_at r; pr_updated_at := now;
     pr_expires_at := pr_expires_at r; pr_opened_at := pr_opened_at r;
     pr_settled_at := settled |}.

Definition open_row (now : instant) (r : presentation_row) : presentation_row :=
  {| pr_owner := pr_owner r; pr_user_subject := pr_user_subject r;
     pr_endpoint_id := pr_endpoint_id r; pr_card_url := pr_card_url r;
     pr_state := pr_state r; pr_created_at := pr_created_at r; pr_updated_at := now;
     pr_expires_at := pr_expires_at r; pr_opened_at := coalesce (pr_opened_at r) now;
     pr_settled_at := pr_settled_at r |}.

Definition set_session (st : session_state) (consumed : option instant)
    (r : card_session_row) : card_session_row :=
  {| cs_owner := cs_owner r; cs_presentation_id := cs_presentation_id r;
     cs_endpoint_id := cs_endpoint_id r; cs_csrf_hash := cs_csrf_hash r;
     cs_state := st; cs_created_at := cs_created_at r; cs_expires_at := cs_expires_at r;
     cs_consumed_at := consumed |}.

(** ** Statements *)

(** Expire the active presentations and pending sessions of the owners [own]. *)
Definition expire_cards (own : string -> bool) (now : instant) (c : cards) : cards :=
  {| presentations :=
       update_where (fun r => bool_decide (pr_state r = PActive) && own (pr_owner r))
         (fun r => set_presentation PExpired now (pr_settled_at r) r) (presentations c);
     card_sessions :=
       update_where (fun r => bool_decide (cs_state r = CPending) && own (cs_owner r))
         (fun r => set_session CExpired (cs_consumed_at r) r) (card_sessions c) |}.

(** Consume the pending sessions and settle every presentation of [owner]. *)
Definition settle_cards (owner : string) (now : instant) (c : cards) : cards :=
  {| presentations :=
       update_where (fun r => String.eqb (pr_owner r) owner)
         (set_presentation PSettled now (Some now)) (presentations c);
     card_sessions :=
       update_where (fun r => String.eqb (cs_owner r) owner && bool_decide (cs_state r = CPending))
         (set_session CConsumed (Some now)) (card_sessions c) |}.

(** The pending session of [owner], rendered for [pid], with digest [hash]. *)
Definition find_session (owner : string) (pid : option string) (hash : string) (c : cards)
  : option card_session_row :=
  snd <$> select_one (fun r => String.eqb (cs_owner r) owner
                      && bool_decide (cs_presentation_id r = pid)
                      && String.eqb (cs_csrf_hash r) hash
                      && bool_decide (cs_state r = CPending)) (card_sessions c).

Definition find_presentation (owner pid : string) (c : cards) : option presentation_row :=
  match presentations c !! pid with
  | Some r => if String.eqb (pr_owner r) owner then Some r else None
  | None => None
  end.

Definition find_endpoint (owner endpoint : string) (c : cards) : option (string * presentation_row) :=
  select_one (fun r => String.eqb (pr_owner r) owner && String.eqb (pr_endpoint_id r) endpoint)
    (presentations c).

(** [INSERT INTO .._presentations]; [UNIQUE (owner, endpoint_id)] *)
Definition insert_presentation (pid : string) (r : presentation_row) (c : cards) : result cards :=
  t ← insert_row pid (fun q => String.eqb (pr_owner q) (pr_owner r)
                               && String.eqb (pr_endpoint_id q) (pr_endpoint_id r))
        r (presentations c);
  Ok (Cards t (card_sessions c)).

(** [INSERT INTO .._card_sessions]; [csrf_hash] is UNIQUE *)
Definition insert_session (sid : string) (r : card_session_row) (c : cards) : result cards :=
  t ← insert_row sid (fun q => String.eqb (cs_csrf_hash q) (cs_csrf_hash r)) r (card_sessions c);
  Ok (Cards (presentations c) t).

(** [SET opened_at = COALESCE(opened_at, ?), updated_at = ? WHERE presentation_id = ?] *)
Definition open_presentation (pid : string) (now : instant) (c : cards) : cards :=
  Cards (fst (update_key pid (fun _ => true) (open_row now) (presentations c))) (card_sessions c).

(** The check of a submitted card: the session exists, the cookie is not empty,
    token and cookie agree, and the digest agrees; [or] stops at the first
    failure, so a [compare_digest] that raises is reached only then. *)
Definition csrf_rejected (session : option card_session_row) (token cookie hash : string)
  : result bool :=
  match session with
  | None => Ok true
  | Some s =>
      if negb (truthy cookie) then Ok true
      else same ← compare_digest token cookie;
           if negb same then Ok true
           else same_hash ← compare_digest (cs_csrf_hash s) hash; Ok (negb same_hash)
  end.

Lemma csrf_accepted session token cookie hash :
  csrf_rejected session token cookie hash = Ok false ->
  exists s, session = Some s /\ cookie <> "" /\ token = cookie /\ cs_csrf_hash s = hash.
Proof.
  unfold csrf_rejected. destruct session as [s|]; [|done].
  destruct (truthy cookie) eqn:Hc; cbn; [|done].
  destruct (compare_digest token cookie) as [[]|] eqn:H1; cbn; try done.
  destruct (compare_digest (cs_csrf_hash s) hash) as [[]|] eqn:H2; cbn; try done.
  intros _. exists s. split_and!; [done|by apply truthy_true|..]; by apply compare_digest_true.
Qed.

Lemma csrf_accepts s token hash :
  token <> "" -> is_ascii_str token = true -> is_ascii_str hash = true -> cs_csrf_hash s = hash ->
  csrf_rejected (Some s) token token hash = Ok false.
Proof.
  intros Ht Ha Hh <-. unfold csrf_rejected.
  rewrite (proj2 (truthy_true token)) by done. cbn.
  rewrite compare_digest_refl by done. cbn. by rewrite compare_digest_refl.
Qed.

(** ** Live cards belong to live owners *)

Definition live_cards (live : string -> Prop) (c : cards) : Prop :=
  (forall k r, presentations c !! k = Some r -> pr_state r = PActive -> live (pr_owner r)) /\
  (forall k r, card_sessions c !! k = Some r -> cs_state r = CPending -> live (cs_owner r)).

Lemma live_no_cards live : live_cards live no_cards.
Proof. split; intros k r H; cbn in H; by rewrite lookup_empty in H. Qed.

#[export] Instance live_cards_proper :
  Proper (pointwise_relation string iff ==> eq ==> iff) live_cards.
Proof.
  intros l1 l2 H c ? <-. unfold live_cards, pointwise_relation in *.
  split; intros [H1 H2]; split; intros k r Hk Hs; apply H; eauto.
Qed.

Lemma live_cards_mono (l1 l2 : string -> Prop) c :
  (forall o, l1 o -> l2 o) -> live_cards l1 c -> live_cards l2 c.
Proof. intros H [H1 H2]. split; eauto. Qed.

Lemma live_expire live own now c :
  live_cards live c -> live_cards (fun o => live o /\ own o = false) (expire_cards own now c).
Proof.
  intros [H1 H2]. split; intros k r; cbn [presentations card_sessions expire_cards];
    rewrite lookup_update_where, fmap_Some; intros (q & Hq & ->) Hs;
    case_bool_decide as Hst; cbn in *.
  - destruct (own (pr_owner q)) eqn:Ho; cbn in *; [done|]. eauto.
  - done.
  - destruct (own (cs_owner q)) eqn:Ho; cbn in *; [done|]. eauto.
  - done.
Qed.

Lemma live_settle live owner now c :
  live_cards live c -> live_cards (fun o => live o /\ o <> owner) (settle_cards owner now c).
Proof.
  intros [H1 H2]. split; intros k r; cbn [presentations card_sessions settle_cards];
    rewrite lookup_update_where, fmap_Some; intros (q & Hq & ->) Hs.
  - destruct (String.eqb_spec (pr_owner q) owner); cbn in *; [done|]. eauto.
  - destruct (String.eqb_spec (cs_owner q) owner); cbn in *.
    + case_bool_decide; done.
    + eauto.
Qed.

Lemma live_insert_presentation live pid r c c' :
  insert_presentation pid r c = Ok c' -> (pr_state r = PActive -> live (pr_owner r)) ->
  live_cards live c -> live_cards live c'.
Proof.
  unfold insert_presentation. rewrite result_bind_Ok.
  intros (t & (_ & _ & ->)%insert_row_Ok & [= <-]) Hr [H1 H2]. split; cbn; [|done].
  intros k q. destruct (decide (k = pid)) as [->|]; simplify_map_eq; eauto.
  intros [= <-]. done.
Qed.

Lemma live_insert_session live sid r c c' :
  insert_session sid r c = Ok c' -> (cs_state r = CPending -> live (cs_owner r)) ->
  live_cards live c -> live_cards live c'.
Proof.
  unfold insert_session. rewrite result_bind_Ok.
  intros (t & (_ & _ & ->)%insert_row_Ok & [= <-]) Hr [H1 H2]. split; cbn; [done|].
  intros k q. destruct (decide (k = sid)) as [->|]; simplify_map_eq; eauto.
  intros [= <-]. done.
Qed.

Lemma live_open live pid now c : live_cards live c -> live_cards live (open_presentation pid now c).
Proof.
  intros [H1 H2]. split; cbn; [|done]. intros k r. unfold update_key.
  destruct (presentations c !! pid) as [q|] eqn:Hq; cbn; [|eauto].
  destruct (decide (k = pid)) as [->|]; simplify_map_eq; [|eauto].
  intros [= <-]. cbn. eauto.
Qed.

Create HintDb cards discriminated.
#[export] Hint Resolve live_no_cards live_open : cards.
