(* ===== verification/CardOwners.v ===== *)
(** * Rows that own trusted cards

    What write authorizations and field submissions have in common as tables:
    every row has an immutable contract, a state of which some are live, a slot
    (user, capability, supersession key) of which at most one row is live, and
    cards that are open only while the row is pending.  [CardOwner] is the
    interface; the two stores instantiate it and get the invariant and the
    transition lemmas below. *)

From S2P Require Import Prelude Store Cards.

Class CardOwner (R C St : Type) : Type := {
  owner_contract : R -> C;
  owner_state : R -> St;
  owner_slot : C -> string * string * string;
  owner_expires : C -> instant;
  st_live : St -> bool;
  st_pending : St;
  pending_live : st_live st_pending = true;
}.

Section Owners.
Context {R C St : Type} {CO : CardOwner R C St}.
Implicit Types (r q : R) (t : gmap string R) (c : cards).

Definition live_row r : bool := st_live (owner_state r).
Definition slot_of r : string * string * string := owner_slot (owner_contract r).

Definition pending_in t (id : string) : Prop :=
  exists r, t !! id = Some r /\ owner_state r = st_pending.

(** At most one live row per slot. *)
Definition one_live t : Prop :=
  forall id1 id2 r1 r2, t !! id1 = Some r1 -> t !! id2 = Some r2 ->
    live_row r1 = true -> live_row r2 = true -> slot_of r1 = slot_of r2 -> id1 = id2.

Record owners_ok t c : Prop := {
  ok_slots : one_live t;
  ok_cards : live_cards (pending_in t) c;
}.

Lemma owners_ok_empty : owners_ok ∅ no_cards.
Proof. split; [|apply live_no_cards]. intros ? ? ? ?. by rewrite lookup_empty. Qed.

(** Rewriting one row without reviving it or moving it, provided the cards of
    [id] are retired unless the row is still pending. *)
Lemma owners_touch t c id r r' c' :
  owners_ok t c -> t !! id = Some r ->
  owner_contract r' = owner_contract r -> (live_row r' = true -> live_row r = true) ->
  live_cards (fun o => pending_in t o /\ (o = id -> owner_state r' = st_pending)) c' ->
  owners_ok (<[id := r']> t) c'.
Proof.
  intros [Hslots Hcards] Hr Hk Hlive Hc'.
  assert (Hback : forall k q, <[id := r']> t !! k = Some q -> live_row q = true ->
      exists q0, t !! k = Some q0 /\ slot_of q = slot_of q0 /\ live_row q0 = true).
  { intros k q. split_eq k id; simplify_map_eq; [|eauto].
    intros [= <-] Hl. exists r. unfold slot_of. rewrite Hk. auto. }
  split.
  - intros k1 k2 q1 q2 H1 H2 L1 L2 E.
    destruct (Hback _ _ H1 L1) as (p1 & P1 & S1 & M1).
    destruct (Hback _ _ H2 L2) as (p2 & P2 & S2 & M2).
    rewrite S1, S2 in E. eauto.
  - eapply live_cards_mono; [|exact Hc']. cbn. intros o [(q & Hq & Hp) Ho].
    split_eq o id.
    + exists r'. rewrite lookup_insert_eq. naive_solver.
    + exists q. by rewrite lookup_insert_ne by done.
Qed.

Lemma owners_cards t c c' :
  owners_ok t c -> live_cards (pending_in t) c' -> owners_ok t c'.
Proof. intros [H1 _] H2. by split. Qed.

(** Retiring every live row of the new row's slot, their cards, and inserting it. *)
Lemma owners_insert t c id (n : R) (p : R -> bool) (retire : R -> R) own now :
  owners_ok t c -> t !! id = None ->
  (forall q, p q = true <-> slot_of q = slot_of n /\ live_row q = true) ->
  (forall q, p q = true -> owner_contract (retire q) = owner_contract q /\ live_row (retire q) = false) ->
  (forall k q, t !! k = Some q -> p q = true -> own k = true) ->
  owners_ok (<[id := n]> (update_where p retire t)) (expire_cards own now c).
Proof.
  intros [Hslots Hcards] Hn Hp Hretire Hown.
  assert (Hback : forall k q, update_where p retire t !! k = Some q -> live_row q = true ->
      t !! k = Some q /\ slot_of q <> slot_of n).
  { intros k q. rewrite lookup_update_where, fmap_Some. intros (q0 & Hq & ->).
    destruct (p q0) eqn:Ep; [destruct (Hretire _ Ep); congruence|].
    intros Hl. split; [done|]. intros E. assert (p q0 = true) by (by apply Hp). congruence. }
  split.
  - intros k1 k2 q1 q2.
    split_eq k1 id; split_eq k2 id; simplify_map_eq; try done.
    + intros [= <-] H2 _ L2 E. by destruct (Hback _ _ H2 L2).
    + intros H1 [= <-] L1 _ E. by destruct (Hback _ _ H1 L1).
    + intros H1 H2 L1 L2 E. destruct (Hback _ _ H1 L1), (Hback _ _ H2 L2). eauto.
  - eapply live_cards_mono; [|by apply live_expire]. cbn. intros o [(q & Hq & Hs) Ho].
    assert (o <> id) by congruence. exists q.
    rewrite lookup_insert_ne, lookup_update_where, Hq by done. cbn.
    destruct (p q) eqn:Ep; [|done]. by rewrite (Hown _ _ Hq Ep) in Ho.
Qed.

(** ** Transitions *)

(** What a transaction may do to the rows: those present keep their contract and
    change, if at all, along [P]; a new row is pending. *)
Record moves (P : R -> R -> Prop) t t' : Prop := {
  moves_old : forall id r, t !! id = Some r -> exists r',
    t' !! id = Some r' /\ owner_contract r' = owner_contract r /\
    (r' = r \/ P r r');
  moves_new : forall id r', t' !! id = Some r' -> t !! id = None -> owner_state r' = st_pending;
}.

Lemma moves_refl P t : moves P t t.
Proof. split; [eauto 6|congruence]. Qed.

Lemma moves_touch (P : R -> R -> Prop) t id r r' :
  t !! id = Some r -> owner_contract r' = owner_contract r -> P r r' ->
  moves P t (<[id := r']> t).
Proof.
  intros Hr Hk HP. split.
  - intros k q Hq. split_eq k id; simplify_map_eq; eauto 6.
  - intros k q. split_eq k id; simplify_map_eq; congruence.
Qed.

Lemma moves_insert (P : R -> R -> Prop) t id (n : R) (p : R -> bool) (retire : R -> R) :
  t !! id = None -> owner_state n = st_pending ->
  (forall q, p q = true -> owner_contract (retire q) = owner_contract q /\
     P q (retire q)) ->
  moves P t (<[id := n]> (update_where p retire t)).
Proof.
  intros Hn Hs Hp. split.
  - intros k q Hq. assert (k <> id) by congruence.
    rewrite lookup_insert_ne, lookup_update_where, Hq by done. cbn. eexists. split; [done|].
    destruct (p q) eqn:E; [|eauto]. destruct (Hp _ E). eauto.
  - intros k q. split_eq k id; simplify_map_eq; [by intros [= <-]|].
    rewrite lookup_update_where. intros Hq Hk. by rewrite Hk in Hq.
Qed.

Lemma moves_mono (P Q : R -> R -> Prop) t t' :
  (forall x y, P x y -> Q x y) -> moves P t t' -> moves Q t t'.
Proof. intros HPQ [H1 H2]. split; [|done]. intros id r Hr. naive_solver. Qed.

(** Over many transactions: rows are never deleted, contracts never change, and a
    preorder the transitions respect relates a row to what became of it. *)
Lemma moves_star_pre {S} (rows : S -> gmap string R) (step : S -> S -> Prop)
    (P Q : R -> R -> Prop) `{!PreOrder Q} s u id r :
  (forall s u, step s u -> moves P (rows s) (rows u)) ->
  (forall r r', P r r' -> Q r r') ->
  rtc step s u -> rows s !! id = Some r ->
  exists r', rows u !! id = Some r' /\ owner_contract r' = owner_contract r /\ Q r r'.
Proof.
  intros Hstep HP Hst. revert r.
  induction Hst as [s|s u w Hsu _ IH]; intros r Hr; [by exists r|].
  destruct (moves_old _ _ _ (Hstep _ _ Hsu) _ _ Hr) as (r1 & H1 & Hk & Hc).
  destruct (IH _ H1) as (r' & H' & Hk' & HQ). exists r'. split_and!; [done|congruence|].
  destruct Hc as [->|Hc%HP]; [done|by etransitivity].
Qed.

Definition frozen r r' : Prop := live_row r = false -> r' = r.

#[export] Instance frozen_preorder : PreOrder frozen.
Proof.
  split; [by intros r _|]. unfold frozen. intros r1 r2 r3 H12 H23 Hd.
  rewrite <- (H12 Hd). apply H23. by rewrite (H12 Hd).
Qed.

(** A row in a state the transitions do not leave is final. *)
Lemma moves_star {S} (rows : S -> gmap string R) (step : S -> S -> Prop) (P : R -> R -> Prop)
    s u id r :
  (forall s u, step s u -> moves P (rows s) (rows u)) ->
  (forall r r', P r r' -> live_row r = true) ->
  rtc step s u -> rows s !! id = Some r ->
  exists r', rows u !! id = Some r' /\ owner_contract r' = owner_contract r /\
    (live_row r = false -> r' = r).
Proof.
  intros Hstep HP. apply (moves_star_pre rows step P frozen); [done|].
  intros q q' Hq%HP. unfold frozen. congruence.
Qed.

(** Retiring the cards of [id], or settling them. *)
Lemma live_retire (live : string -> Prop) id now c (P : Prop) :
  live_cards live c ->
  live_cards (fun o => live o /\ (o = id -> P)) (expire_cards (String.eqb id) now c).
Proof.
  intros Hc. eapply live_cards_mono; [|by apply live_expire].
  intros o [Ho Hne]. split; [done|]. intros ->. by rewrite String.eqb_refl in Hne.
Qed.

Lemma live_settle_touch (live : string -> Prop) id now c (P : Prop) :
  live_cards live c -> live_cards (fun o => live o /\ (o = id -> P)) (settle_cards id now c).
Proof. intros Hc. eapply live_cards_mono; [|by apply live_settle]. naive_solver. Qed.
End Owners.

Arguments moves {_ _ _ _} P t t'.
