(* ===== verification/WriteAuthorizations.v ===== *)
(** * Write authorizations (agentbridge/core/write_authorizations.py)

    The plan of a formal write is stored with its digest, shown to the user on
    a trusted card, decided there, and consumed once by the commit. *)

From S2P Require Import Prelude PyStr Json JsonFacts Sha256 Store Cards.

(** ** Data *)

Inductive state : Type := Pending | Approved | Rejected | Consumed | Expired | Superseded.

#[export] Instance state_eq_dec : EqDecision state.
Proof. solve_decision. Defined.

Definition state_text (st : state) : string :=
  match st with
  | Pending => "pending" | Approved => "approved" | Rejected => "rejected"
  | Consumed => "consumed" | Expired => "expired" | Superseded => "superseded"
  end.

(** The columns the trigger [immutable_write_authorization_plan] protects. *)
Record contract : Type := Contract {
  user_subject : string;
  system_id : string;
  session_id : string;
  capability_name : string;
  capability_version : string;
  prepare_operation_id : string;
  supersession_key : string;
  plan_json : string;
  plan_hash : string;
  summary_json : string;
  card_url : string;
  created_at : instant;
  expires_at : instant;
}.

(** A row of [write_authorizations] without its key. *)
Record row : Type := Row {
  row_contract :> contract;
  csrf_hash : option string;
  row_state : state;
  commit_operation_id : option string;
  updated_at : instant;
  decided_at : option instant;
  consumed_at : option instant;
  decided_endpoint_id : option string;
}.

(** What the store's methods return: the row without [csrf_hash] and
    [plan_json], [summary] decoded, the plan only when asked for. *)
Record view : Type := View {
  v_authorization_id : string;
  v_user_subject : string;
  v_system_id : string;
  v_session_id : string;
  v_capability_name : string;
  v_capability_version : string;
  v_prepare_operation_id : string;
  v_supersession_key : string;
  v_plan_hash : string;
  v_card_url : string;
  v_state : state;
  v_commit_operation_id : option string;
  v_created_at : instant;
  v_updated_at : instant;
  v_expires_at : instant;
  v_decided_at : option instant;
  v_consumed_at : option instant;
  v_decided_endpoint_id : option string;
  v_summary : json;
  v_plan : option json;
}.

Record create_args : Type := CreateArgs {
  a_user_subject : string;
  a_system_id : string;
  a_session_id : string;
  a_capability_name : string;
  a_capability_version : string;
  a_prepare_operation_id : string;
  a_supersession_key : string;
  a_plan : json;
  a_summary : json;
  a_card_base_url : string;
  a_ttl_seconds : Z;
}.

Record consume_args : Type := ConsumeArgs {
  c_user_subject : string;
  c_system_id : string;
  c_session_id : string;
  c_capability_name : string;
  c_capability_version : string;
  c_commit_operation_id : string;
}.

Definition _canonical_json (v : json) : string := dumps v.
Definition _json_hash (canonical_json : string) : string := json_hash canonical_json.
Definition _as_utc (d : datetime) : result instant := as_utc "write authorization" d.

Definition _validate_card_base_url `{UnicodeTables, UrlTables} (value : string) : result string :=
  parsed ← urlparse value;
  raise_if (negb (str_in (url_scheme parsed) ["http"; "https"] && truthy (url_netloc parsed)))
    ValueError "write authorization card base URL must be http(s)";;
  raise_if (has_userinfo (url_netloc parsed) || truthy (url_query parsed)
            || truthy (url_fragment parsed))
    ValueError "write authorization card base URL is invalid";;
  Ok (ascii_lower (url_scheme parsed) +:+ "://" +:+ str_lower (url_netloc parsed)
      +:+ py_rstrip "/" (url_path parsed)).

Definition _card_base_url (card_url : string) : result string :=
  raise_if (negb (contains "/authorize/" card_url))
    WriteAuthorizationIntegrityError "write authorization card URL is invalid";;
  Ok (rsplit1_head "/authorize/" card_url).

Definition _authorization_from_row (include_plan : bool) (ir : string * row) : result view :=
  let '(id, r) := ir in
  plan ← loads (plan_json r);
  summary ← loads (summary_json r);
  Ok {| v_authorization_id := id; v_user_subject := user_subject r;
        v_system_id := system_id r; v_session_id := session_id r;
        v_capability_name := capability_name r; v_capability_version := capability_version r;
        v_prepare_operation_id := prepare_operation_id r;
        v_supersession_key := supersession_key r; v_plan_hash := plan_hash r;
        v_card_url := card_url r; v_state := row_state r;
        v_commit_operation_id := commit_operation_id r; v_created_at := created_at r;
        v_updated_at := updated_at r; v_expires_at := expires_at r;
        v_decided_at := decided_at r; v_consumed_at := consumed_at r;
        v_decided_endpoint_id := decided_endpoint_id r; v_summary := summary;
        v_plan := if include_plan then Some plan else None |}.

(** ** Row updates *)

Definition superseded_row (now : instant) (decided : option instant) (r : row) : row :=
  {| row_contract := r; csrf_hash := None; row_state := Superseded;
     commit_operation_id := commit_operation_id r; updated_at := now; decided_at := decided;
     consumed_at := consumed_at r; decided_endpoint_id := decided_endpoint_id r |}.

Definition expired_row (now : instant) (r : row) : row :=
  {| row_contract := r; csrf_hash := None; row_state := Expired;
     commit_operation_id := commit_operation_id r; updated_at := now;
     decided_at := coalesce (decided_at r) now; consumed_at := consumed_at r;
     decided_endpoint_id := decided_endpoint_id r |}.

Definition decided_row (st : state) (now : instant) (endpoint : option string) (r : row) : row :=
  {| row_contract := r; csrf_hash := None; row_state := st;
     commit_operation_id := commit_operation_id r; updated_at := now; decided_at := Some now;
     consumed_at := consumed_at r; decided_endpoint_id := endpoint |}.

Definition consumed_row (operation : string) (now : instant) (r : row) : row :=
  {| row_contract := r; csrf_hash := csrf_hash r; row_state := Consumed;
     commit_operation_id := Some operation; updated_at := now; decided_at := decided_at r;
     consumed_at := Some now; decided_endpoint_id := decided_endpoint_id r |}.

(** [state IN ('pending', 'approved')] *)
Definition is_live (r : row) : bool :=
  match row_state r with Pending | Approved => true | _ => false end.

(** ** The store

    [others] stands for the other tables of the same database file, which a
    callback of [consume] or [supersede] reads and writes through the same
    connection. *)

Section Store.
Context {O : Type} `{UnicodeTables, UrlTables}.

Record store : Type := MkStore {
  authorizations : gmap string row;
  card_tables : cards;
  others : O;
}.

Definition set_authorizations (t : gmap string row) (s : store) : store :=
  MkStore t (card_tables s) (others s).
Definition set_cards (c : cards) (s : store) : store :=
  MkStore (authorizations s) c (others s).

Definition _select (id : string) : tx store row :=
  t ← gets authorizations;
  match t !! id with
  | Some r => mret r
  | None => raise WriteAuthorizationNotFound ("write authorization not found: " +:+ id)
  end.

Definition _select_presentation (id pid : string) : tx store presentation_row :=
  c ← gets card_tables;
  match find_presentation id pid c with
  | Some p => mret p
  | None => raise WriteAuthorizationNotFound "write authorization presentation not found"
  end.

(** [clock] is the second reading of the clock, taken inside the method. *)
Definition _expire_if_needed (id : string) (r : row) (clock : datetime) : tx store row :=
  now ← lift (_as_utc clock);
  if is_live r && (expires_at r <=? now)%Z then
    modify (fun s => set_authorizations (<[id := expired_row now r]> (authorizations s)) s);;
    modify (fun s => set_cards (expire_cards (String.eqb id) now (card_tables s)) s);;
    _select id
  else mret r.

(** The rows a new authorization supersedes. *)
Definition same_slot (user capability key : string) (r : row) : bool :=
  String.eqb (user_subject r) user && String.eqb (capability_name r) capability
  && String.eqb (supersession_key r) key && is_live r.

(** [authorization_id IN (SELECT .. WHERE user_subject = ? AND capability_name = ?
    AND state = 'superseded')] *)
Definition superseded_for (user capability : string) (t : gmap string row) (id : string) : bool :=
  match (t !! id : option row) with
  | Some r => String.eqb (user_subject r) user && String.eqb (capability_name r) capability
              && bool_decide (row_state r = Superseded)
  | None => false
  end.

(** The row [create] inserts. *)
Definition new_row (a : create_args) (key base_url : string) (now : instant) (id : string) : row :=
  let plan_json := _canonical_json (a_plan a) in
  {| row_contract :=
       {| user_subject := a_user_subject a; system_id := a_system_id a;
          session_id := a_session_id a; capability_name := a_capability_name a;
          capability_version := a_capability_version a;
          prepare_operation_id := a_prepare_operation_id a; supersession_key := key;
          plan_json := plan_json; plan_hash := _json_hash plan_json;
          summary_json := _canonical_json (a_summary a);
          card_url := base_url +:+ "/authorize/" +:+ id;
          created_at := now; expires_at := (now + seconds (a_ttl_seconds a))%Z |};
     csrf_hash := None; row_state := Pending; commit_operation_id := None;
     updated_at := now; decided_at := None; consumed_at := None;
     decided_endpoint_id := None |}.

Definition create_body (a : create_args) (clock : datetime) (authorization_id : string)
  : tx store (string * row) :=
  let missing := names_where (fun v => negb (truthy (py_strip v)))
    [("user_subject", a_user_subject a); ("system_id", a_system_id a);
     ("session_id", a_session_id a); ("capability_name", a_capability_name a);
     ("capability_version", a_capability_version a);
     ("prepare_operation_id", a_prepare_operation_id a)] in
  raise_if (bool_decide (missing <> [])) ValueError
    ("write authorization is missing: " +:+ py_join ", " missing);;
  raise_if (negb (is_dict (a_plan a) && is_dict (a_summary a))) TypeError
    "write authorization plan and summary must be objects";;
  raise_if ((a_ttl_seconds a <? 30) || (1800 <? a_ttl_seconds a))%Z ValueError
    "write authorization TTL must be between 30 and 1800 seconds";;
  let key := py_strip (a_supersession_key a) in
  raise_if (128 <? py_len key)%Z ValueError
    "write authorization supersession key is too long";;
  base_url ← lift (_validate_card_base_url (a_card_base_url a));
  now ← lift (_as_utc clock);
  modify (fun s => set_authorizations
    (update_where (same_slot (a_user_subject a) (a_capability_name a) key)
       (superseded_row now (Some now)) (authorizations s)) s);;
  modify (fun s => set_cards
    (expire_cards (superseded_for (a_user_subject a) (a_capability_name a) (authorizations s))
       now (card_tables s)) s);;
  t ← gets authorizations;
  t' ← lift (insert_row authorization_id (fun _ => false)
                (new_row a key base_url now authorization_id) t);
  modify (set_authorizations t');;
  r ← _select authorization_id;
  mret (authorization_id, r).

Definition create a clock authorization_id : store -> result view * store :=
  method (create_body a clock authorization_id) (_authorization_from_row false).

Definition get_body (id : string) (clock : datetime) : tx store (string * row) :=
  r ← _select id;
  r ← _expire_if_needed id r clock;
  mret (id, r).

Definition get id (include_plan : bool) clock : store -> result view * store :=
  method (get_body id clock) (_authorization_from_row include_plan).

Definition create_presentation (id user endpoint : string) (clock1 clock2 : datetime)
    (presentation_id : string) : tx store (string * presentation_row) :=
  let user := py_strip user in
  let endpoint := py_strip endpoint in
  raise_if (negb (truthy user && truthy endpoint)) ValueError
    "write authorization presentation identity is required";;
  now ← lift (_as_utc clock1);
  r ← _select id;
  a ← _expire_if_needed id r clock2;
  raise_if (negb (String.eqb (user_subject a) user)) WriteAuthorizationNotFound
    ("write authorization not found: " +:+ id);;
  c ← gets card_tables;
  match find_endpoint id endpoint c with
  | Some existing => mret existing
  | None =>
      base ← lift (_card_base_url (card_url a));
      c ← gets card_tables;
      c' ← lift (insert_presentation presentation_id
        {| pr_owner := id; pr_user_subject := user; pr_endpoint_id := endpoint;
           pr_card_url := base +:+ "/authorize/" +:+ id +:+ "/present/" +:+ presentation_id;
           pr_state := match row_state a with
                       | Pending => PActive
                       | Expired | Superseded => PExpired
                       | _ => PSettled
                       end;
           pr_created_at := now; pr_updated_at := now; pr_expires_at := expires_at a;
           pr_opened_at := None; pr_settled_at := None |} c);
      modify (set_cards c');;
      p ← _select_presentation id presentation_id;
      mret (presentation_id, p)
  end.

Definition get_presentation (id pid : string) : tx store presentation_row :=
  _select_presentation id pid.

Definition issue_csrf (id : string) (presentation_id : option string) (clock1 clock2 : datetime)
    (token card_session_id : string) : tx store string :=
  now ← lift (_as_utc clock1);
  r ← _select id;
  r ← _expire_if_needed id r clock2;
  raise_if (negb (bool_decide (row_state r = Pending))) WriteAuthorizationStateError
    ("write authorization is not pending: " +:+ state_text (row_state r));;
  endpoint_id ← match presentation_id with
    | None => mret None
    | Some pid =>
        p ← _select_presentation id pid;
        modify (fun s => set_cards (open_presentation pid now (card_tables s)) s);;
        mret (Some (pr_endpoint_id p))
    end;
  c ← gets card_tables;
  c' ← lift (insert_session card_session_id
    {| cs_owner := id; cs_presentation_id := presentation_id; cs_endpoint_id := endpoint_id;
       cs_csrf_hash := _token_hash token; cs_state := CPending; cs_created_at := now;
       cs_expires_at := expires_at r; cs_consumed_at := None |} c);
  modify (set_cards c');;
  mret token.

Definition decide_body (id decision csrf_token csrf_cookie : string)
    (presentation_id : option string) (clock1 clock2 : datetime) : tx store (string * row) :=
  raise_if (negb (str_in decision ["approve"; "reject"])) ValueError
    "write authorization decision must be approve or reject";;
  now ← lift (_as_utc clock1);
  r ← _select id;
  r ← _expire_if_needed id r clock2;
  raise_if (negb (bool_decide (row_state r = Pending))) WriteAuthorizationStateError
    ("write authorization is not pending: " +:+ state_text (row_state r));;
  let supplied_hash := if truthy csrf_token then _token_hash csrf_token else "" in
  match presentation_id with
  | None => mret tt
  | Some pid => _select_presentation id pid;; mret tt
  end;;
  session ← gets (fun s => find_session id presentation_id supplied_hash (card_tables s));
  rejected ← lift (csrf_rejected session csrf_token csrf_cookie supplied_hash);
  raise_if rejected WriteAuthorizationAccessDenied
    "write authorization card CSRF validation failed";;
  let st := if String.eqb decision "approve" then Approved else Rejected in
  t ← gets authorizations;
  let '(t', rowcount) :=
    update_key id (fun r => bool_decide (row_state r = Pending))
      (decided_row st now (session ≫= cs_endpoint_id)) t in
  modify (set_authorizations t');;
  raise_if (negb (rowcount =? 1)%nat) WriteAuthorizationStateError
    "write authorization could not be decided";;
  modify (fun s => set_cards (settle_cards id now (card_tables s)) s);;
  r ← _select id;
  mret (id, r).

Definition decide id decision csrf_token csrf_cookie presentation_id clock1 clock2
  : store -> result view * store :=
  method (decide_body id decision csrf_token csrf_cookie presentation_id clock1 clock2)
    (_authorization_from_row false).

Definition run_callback (callback : option (tx store unit)) : tx store unit :=
  match callback with Some f => f | None => mret tt end.

Definition supersede (id user : string) (pending_only : bool)
    (before_supersede : option (tx store unit)) (clock : datetime) : tx store unit :=
  r ← _select id;
  raise_if (negb (String.eqb (user_subject r) user)) WriteAuthorizationAccessDenied
    "write authorization belongs to another user";;
  raise_if (pending_only && negb (bool_decide (row_state r = Pending \/ row_state r = Superseded)))
    WriteAuthorizationStateError "write authorization is no longer pending";;
  if negb (is_live r) then mret tt
  else
    run_callback before_supersede;;
    now ← lift (_as_utc clock);
    modify (fun s => set_authorizations
      (fst (update_key id (fun _ => true)
              (fun r => superseded_row now (decided_at r) r) (authorizations s))) s);;
    modify (fun s => set_cards (expire_cards (String.eqb id) now (card_tables s)) s).

Definition bindings_match (a : consume_args) (r : row) : bool :=
  String.eqb (user_subject r) (c_user_subject a)
  && String.eqb (system_id r) (c_system_id a)
  && String.eqb (session_id r) (c_session_id a)
  && String.eqb (capability_name r) (c_capability_name a)
  && String.eqb (capability_version r) (c_capability_version a).

Definition consume_body (id : string) (a : consume_args)
    (before_consume : option (tx store unit)) (clock1 clock2 : datetime)
  : tx store (string * row) :=
  now ← lift (_as_utc clock1);
  r ← _select id;
  r ← _expire_if_needed id r clock2;
  raise_if (negb (bool_decide (row_state r = Approved))) WriteAuthorizationStateError
    ("write authorization is not approved: " +:+ state_text (row_state r));;
  raise_if (negb (bindings_match a r)) WriteAuthorizationAccessDenied
    "write authorization is not bound to this user, session, or capability";;
  intact ← lift (compare_digest (plan_hash r) (_json_hash (plan_json r)));
  raise_if (negb intact) WriteAuthorizationIntegrityError
    "write authorization plan integrity check failed";;
  run_callback before_consume;;
  t ← gets authorizations;
  let '(t', rowcount) :=
    update_key id (fun r => bool_decide (row_state r = Approved))
      (consumed_row (c_commit_operation_id a) now) t in
  modify (set_authorizations t');;
  raise_if (negb (rowcount =? 1)%nat) WriteAuthorizationStateError
    "write authorization could not be consumed";;
  r ← _select id;
  mret (id, r).

Definition consume id a before_consume clock1 clock2 : store -> result view * store :=
  method (consume_body id a before_consume clock1 clock2) (_authorization_from_row true).

(** One transaction of the store, whatever its arguments and outcome.  A
    callback of [consume] or [supersede] may do anything to [others]. *)
Definition frames (callback : option (tx store unit)) : Prop :=
  forall s u s', run_callback callback s = Ok (u, s') ->
    authorizations s' = authorizations s /\ card_tables s' = card_tables s.

Inductive step (s : store) : store -> Prop :=
  | step_create a clock id : step s (snd (create a clock id s))
  | step_get id include_plan clock : step s (snd (get id include_plan clock s))
  | step_create_presentation id user endpoint clock1 clock2 pid :
      step s (after (create_presentation id user endpoint clock1 clock2 pid) s)
  | step_issue_csrf id pid clock1 clock2 token sid :
      step s (after (issue_csrf id pid clock1 clock2 token sid) s)
  | step_decide id decision token cookie pid clock1 clock2 :
      step s (snd (decide id decision token cookie pid clock1 clock2 s))
  | step_supersede id user pending_only callback clock :
      frames callback -> step s (after (supersede id user pending_only callback clock) s)
  | step_consume id a callback clock1 clock2 :
      frames callback -> step s (snd (consume id a callback clock1 clock2 s)).

Definition initial (s : store) : Prop := authorizations s = ∅ /\ card_tables s = no_cards.

End Store.

Arguments store : clear implicits.
