(* ===== verification/WriteAuthorizationFacts.v ===== *)
(** * Write authorizations: specifications, invariant, transitions *)

From S2P Require Import Prelude PyStr Json JsonFacts Sha256 Store Cards CardOwners.
From S2P Require Import WriteAuthorizations.

#[export] Instance authorization_owner : CardOwner row contract state := {|
  owner_contract := row_contract;
  owner_state := row_state;
  owner_slot := fun k => (user_subject k, capability_name k, supersession_key k);
  owner_expires := expires_at;
  st_live := fun st => match st with Pending | Approved => true | _ => false end;
  st_pending := Pending;
  pending_live := eq_refl;
|}.

Section Facts.
Context {O : Type} `{UnicodeTables, UrlTables}.
Implicit Types (s t u : store O) (r : row).

(** ** What a returning body did *)

Lemma _select_Ok id s r s' :
  _select id s = Ok (r, s') <-> authorizations s !! id = Some r /\ s' = s.
Proof.
  unfold _select. rewrite tx_bind_Ok. setoid_rewrite tx_gets_Ok. split.
  - intros (? & ? & [-> ->] & Hk). destruct (authorizations s !! id) eqn:E; autorewrite with tx in Hk; naive_solver.
  - intros [E ->]. do 2 eexists. split; [done|]. by rewrite E.
Qed.

Lemma _select_presentation_Ok id pid s p s' :
  _select_presentation id pid s = Ok (p, s') <->
  find_presentation id pid (card_tables s) = Some p /\ s' = s.
Proof.
  unfold _select_presentation. rewrite tx_bind_Ok. setoid_rewrite tx_gets_Ok. split.
  - intros (? & ? & [-> ->] & Hk). destruct (find_presentation _ _ _) eqn:E; autorewrite with tx in Hk; naive_solver.
  - intros [E ->]. do 2 eexists. split; [done|]. by rewrite E.
Qed.

(** The store after the expiry check of [id] at [now]. *)
Definition expire_store (id : string) (now : instant) (s : store O) : store O :=
  match authorizations s !! id with
  | Some r =>
      if is_live r && (expires_at r <=? now)%Z
      then MkStore (<[id := expired_row now r]> (authorizations s))
             (expire_cards (String.eqb id) now (card_tables s)) (others s)
      else s
  | None => s
  end.

Lemma _expire_if_needed_Ok id r clock s r' s' :
  authorizations s !! id = Some r ->
  _expire_if_needed id r clock s = Ok (r', s') <->
  exists now, clock = Aware now /\ s' = expire_store id now s /\ authorizations s' !! id = Some r'.
Proof.
  intros Hr. unfold _expire_if_needed, expire_store. rewrite Hr.
  destruct clock as [now|]; [|split; [done|naive_solver]].
  erewrite tx_bind_run by reflexivity.
  transitivity (s' = (if is_live r && (expires_at r <=? now)%Z
      then MkStore (<[id := expired_row now r]> (authorizations s))
             (expire_cards (String.eqb id) now (card_tables s)) (others s)
      else s) /\ authorizations s' !! id = Some r'); [|naive_solver].
  case_match.
  - do 2 (erewrite tx_bind_run by reflexivity). rewrite _select_Ok. naive_solver.
  - rewrite tx_ret_Ok. naive_solver congruence.
Qed.

Lemma select_bind {B} id (k : row -> tx (store O) B) s x :
  (r ← _select id; k r) s = Ok x <->
  exists r, authorizations s !! id = Some r /\ k r s = Ok x.
Proof.
  destruct x as [x s']. rewrite tx_bind_Ok. setoid_rewrite _select_Ok. split.
  - intros (r & ? & [Hr ->] & Hk). eauto.
  - intros (r & Hr & Hk). eauto.
Qed.

Lemma select_presentation_bind {B} id pid (k : presentation_row -> tx (store O) B) s x :
  (p ← _select_presentation id pid; k p) s = Ok x <->
  exists p, find_presentation id pid (card_tables s) = Some p /\ k p s = Ok x.
Proof.
  destruct x as [x s']. rewrite tx_bind_Ok. setoid_rewrite _select_presentation_Ok. split.
  - intros (p & ? & [Hp ->] & Hk). eauto.
  - intros (p & Hp & Hk). eauto.
Qed.

(** [row = self._expire_if_needed(connection, self._select(connection, id))] *)
Lemma fetch_bind {B} id clock (k : row -> tx (store O) B) s x :
  (r ← _select id; r' ← _expire_if_needed id r clock; k r') s = Ok x <->
  exists now r, clock = Aware now /\
    authorizations (expire_store id now s) !! id = Some r /\
    k r (expire_store id now s) = Ok x.
Proof.
  destruct x as [x s']. rewrite select_bind. setoid_rewrite tx_bind_Ok. split.
  - intros (r & Hr & r' & s1 & H1 & Hk).
    apply (_expire_if_needed_Ok _ _ _ _ _ _ Hr) in H1 as (now & -> & -> & H2). eauto 6.
  - intros (now & r & -> & Hr & Hk).
    destruct (authorizations s !! id) as [r0|] eqn:E.
    + exists r0. split; [done|]. exists r, (expire_store id now s). split; [|done].
      apply _expire_if_needed_Ok; eauto.
    + unfold expire_store in Hr. rewrite E in Hr. congruence.
Qed.

(** The store after a successful [create]. *)
Definition created (a : create_args) (base : string) (now : instant) (id : string) (s : store O)
  : store O :=
  let key := py_strip (a_supersession_key a) in
  let t := update_where (same_slot (a_user_subject a) (a_capability_name a) key)
             (superseded_row now (Some now)) (authorizations s) in
  MkStore (<[id := new_row a key base now id]> t)
    (expire_cards (superseded_for (a_user_subject a) (a_capability_name a) t) now (card_tables s))
    (others s).

Definition valid_create (a : create_args) : Prop :=
  names_where (fun v => negb (truthy (py_strip v)))
    [("user_subject", a_user_subject a); ("system_id", a_system_id a);
     ("session_id", a_session_id a); ("capability_name", a_capability_name a);
     ("capability_version", a_capability_version a);
     ("prepare_operation_id", a_prepare_operation_id a)] = [] /\
  is_dict (a_plan a) = true /\ is_dict (a_summary a) = true /\
  (30 <= a_ttl_seconds a <= 1800)%Z /\
  (py_len (py_strip (a_supersession_key a)) <= 128)%Z.

Lemma create_body_Ok a clock id s ir s' :
  create_body a clock id s = Ok (ir, s') <->
  exists now base, valid_create a /\ clock = Aware now /\
    _validate_card_base_url (a_card_base_url a) = Ok base /\
    authorizations s !! id = None /\
    s' = created a base now id s /\
    ir = (id, new_row a (py_strip (a_supersession_key a)) base now id).
Proof.
  unfold create_body, valid_create. set (missing := names_where _ _). split.
  - intros Hb. tx_inv Hb. apply as_utc_Ok in E0 as ->.
    apply insert_row_Ok in E1 as (Hn & _ & ->).
    apply select_bind in Hb as (r & Hr & Hb). tx_inv Hb.
    cbn in Hr. rewrite lookup_insert_eq in Hr. injection Hr as <-.
    cbn in Hn. rewrite lookup_update_where, fmap_None in Hn. bool_simpl. do 2 eexists. split_and!; try done; try lia.
    by apply dec_stable.
  - intros (now & base & (H1 & H2 & H3 & H4 & H5) & -> & Hbase & Hn & -> & ->).
    repeat first [tx_run1 | eassumption | reflexivity].
    + by rewrite bool_decide_eq_false_2 by tauto.
    + by rewrite H2, H3.
    + apply orb_false_iff. rewrite !Z.ltb_ge. lia.
    + by apply Z.ltb_ge.
    + apply insert_row_Ok. split_and!; [|by apply exists_where_false|reflexivity].
      cbn. by rewrite lookup_update_where, Hn.
    + apply select_bind. eexists. split; [|reflexivity]. apply lookup_insert_eq.
Qed.

(** ** The invariant *)

(** Each row alone: its plan digest is that of its plan, the legacy token column
    stays empty, and the bookkeeping columns agree with the state. *)
Record row_ok (r : row) : Prop := {
  ok_hash : plan_hash r = _json_hash (plan_json r);
  ok_csrf : csrf_hash r = None;
  ok_pending : row_state r = Pending -> decided_at r = None;
  ok_decided : row_state r = Approved \/ row_state r = Rejected \/ row_state r = Consumed ->
               is_Some (decided_at r);
  ok_consumed : row_state r = Consumed <-> is_Some (commit_operation_id r);
  ok_consumed_at : row_state r = Consumed <-> is_Some (consumed_at r);
}.

(** Every row is well formed, and the rows own their slots and cards: at most one
    pending or approved authorization per user, capability and supersession key,
    and open cards only under a pending one. *)
Record Inv s : Prop := {
  inv_rows : forall id r, authorizations s !! id = Some r -> row_ok r;
  inv_owners : owners_ok (authorizations s) (card_tables s);
}.

Lemma Inv_initial s : initial s -> Inv s.
Proof.
  intros [Ha Hc]. split; rewrite Ha; [intros id r; by rewrite lookup_empty|].
  rewrite Hc. apply owners_ok_empty.
Qed.

(** Rewriting one row without reviving it keeps the invariant, provided the
    cards of [id] are retired unless the row is still pending. *)
Lemma Inv_touch s id r r' c' o' :
  Inv s -> authorizations s !! id = Some r ->
  row_contract r' = row_contract r -> row_ok r' ->
  (is_live r' = true -> is_live r = true) ->
  live_cards (fun o => pending_in (authorizations s) o /\ (o = id -> row_state r' = Pending)) c' ->
  Inv (MkStore (<[id := r']> (authorizations s)) c' o').
Proof.
  intros [Hrows Howners] Hr Hk Hok Hlive Hc'. split; cbn.
  - intros k q. split_eq k id; simplify_map_eq; [by intros [= <-]|eauto].
  - by eapply owners_touch.
Qed.

Lemma Inv_cards s c' :
  Inv s -> live_cards (pending_in (authorizations s)) c' -> Inv (set_cards c' s).
Proof. intros [H1 H2] Hc. split; [done|]. by eapply owners_cards. Qed.

Lemma is_live_spec r : is_live r = true <-> row_state r = Pending \/ row_state r = Approved.
Proof. unfold is_live. destruct (row_state r); naive_solver. Qed.

Lemma row_ok_expired now r : row_ok r -> is_live r = true -> row_ok (expired_row now r).
Proof.
  intros [H1 H2 H3 H4 H5 H6] Hl%is_live_spec. split; cbn; try done.
  - naive_solver.
  - rewrite <- H5. naive_solver congruence.
  - rewrite <- H6. naive_solver congruence.
Qed.

Lemma row_ok_superseded now d r : row_ok r -> is_live r = true -> row_ok (superseded_row now d r).
Proof.
  intros [H1 H2 H3 H4 H5 H6] Hl%is_live_spec. split; cbn; try done.
  - naive_solver.
  - rewrite <- H5. naive_solver congruence.
  - rewrite <- H6. naive_solver congruence.
Qed.

Lemma row_ok_decided st now e r :
  row_ok r -> row_state r = Pending -> st = Approved \/ st = Rejected ->
  row_ok (decided_row st now e r).
Proof.
  intros [H1 H2 H3 H4 H5 H6] Hp Hst. split; cbn; try done.
  - naive_solver.
  - rewrite <- H5. naive_solver congruence.
  - rewrite <- H6. naive_solver congruence.
Qed.

Lemma row_ok_consumed op now r :
  row_ok r -> row_state r = Approved -> row_ok (consumed_row op now r).
Proof. intros [H1 H2 H3 H4 H5 H6] Hp. split; cbn; try done; eauto. Qed.

Lemma row_ok_new a key base now id : row_ok (new_row a key base now id).
Proof. split; cbn; try done; try naive_solver; split; try done; by intros [? ?]. Qed.

Lemma Inv_expire id now s : Inv s -> Inv (expire_store id now s).
Proof.
  intros HI. unfold expire_store. destruct (authorizations s !! id) as [r|] eqn:Hr; [|done].
  destruct (is_live r && _) eqn:E; [|done]. bool_simpl.
  eapply Inv_touch; try done.
  - apply row_ok_expired; [|done]. by eapply inv_rows.
  - apply live_retire, HI.
Qed.

Lemma same_slot_spec a key base now id r :
  same_slot (a_user_subject a) (a_capability_name a) key r = true <->
  slot_of r = slot_of (new_row a key base now id) /\ live_row r = true.
Proof.
  unfold same_slot. rewrite !andb_true_iff, !String.eqb_eq. change (live_row r) with (is_live r).
  unfold slot_of. cbn. split; [intros (((-> & ->) & ->) & Hl); auto|intros [[= -> -> ->] Hl]; auto].
Qed.

Lemma same_slot_live user capability key r : same_slot user capability key r = true -> is_live r = true.
Proof. unfold same_slot. by intros [_ ?]%andb_prop. Qed.

Lemma superseded_for_slot user capability key (f : row -> row) (t : gmap string row) id r :
  t !! id = Some r -> same_slot user capability key r = true ->
  row_contract (f r) = row_contract r -> row_state (f r) = Superseded ->
  superseded_for user capability (update_where (same_slot user capability key) f t) id = true.
Proof.
  intros Hr Hs Hc Hst. unfold superseded_for. rewrite lookup_update_where, Hr. cbn.
  rewrite Hs, Hc, Hst. unfold same_slot in Hs.
  by destruct (String.eqb (user_subject r) user), (String.eqb (capability_name r) capability).
Qed.

Lemma Inv_created a base now id s : Inv s -> authorizations s !! id = None -> Inv (created a base now id s).
Proof.
  intros [Hrows Howners] Hn. unfold created. cbv zeta. split; cbn.
  - intros k q. split_eq k id; simplify_map_eq; [intros [= <-]; apply row_ok_new|].
    rewrite lookup_update_where, fmap_Some. intros (q0 & Hq & ->).
    destruct (same_slot _ _ _ q0) eqn:Hs; [|by eauto].
    apply row_ok_superseded; [by eauto|]. by eapply same_slot_live.
  - apply owners_insert; try done.
    + intros q. apply same_slot_spec.
    + intros k q Hq Hs. by eapply superseded_for_slot.
Qed.

(** ** The other bodies *)

Lemma get_body_Ok id clock s ir s' :
  get_body id clock s = Ok (ir, s') <->
  exists now r, clock = Aware now /\ s' = expire_store id now s /\
    authorizations s' !! id = Some r /\ ir = (id, r).
Proof.
  unfold get_body. rewrite fetch_bind. split.
  - intros (now & r & -> & Hr & Hb). tx_inv Hb. eauto 6.
  - intros (now & r & -> & -> & Hr & ->). eauto 6.
Qed.

Lemma create_presentation_Ok id user endpoint clock1 clock2 pid s x s' :
  create_presentation id user endpoint clock1 clock2 pid s = Ok (x, s') ->
  exists now1 now2 (r : row), clock1 = Aware now1 /\ clock2 = Aware now2 /\
    let s1 := expire_store id now2 s in
    authorizations s1 !! id = Some r /\ user_subject r = py_strip user /\
    (s' = s1 \/ exists p c', pr_owner p = id /\
       (pr_state p = PActive <-> row_state r = Pending) /\
       insert_presentation pid p (card_tables s1) = Ok c' /\ s' = set_cards c' s1).
Proof.
  intros Hb. unfold create_presentation in Hb. tx_inv Hb. apply as_utc_Ok in E as ->.
  apply fetch_bind in Hb as (now2 & r & -> & Hr & Hb). tx_inv Hb. bool_simpl.
  exists a, now2, r. split_and!; try done.
  destruct (find_endpoint _ _ _) as [existing|].
  - tx_inv Hb. by left.
  - tx_inv Hb. apply select_presentation_bind in Hb as (p & Hp & Hb). tx_inv Hb.
    right. do 2 eexists. split_and!; [| |exact E0|done]; [done|].
    cbn. destruct (row_state r); split; congruence.
Qed.

Lemma issue_csrf_Ok id pid clock1 clock2 token sid s x s' :
  issue_csrf id pid clock1 clock2 token sid s = Ok (x, s') ->
  exists now1 now2 (r : row) c (q : card_session_row) c', clock1 = Aware now1 /\ clock2 = Aware now2 /\
    let s1 := expire_store id now2 s in
    authorizations s1 !! id = Some r /\ row_state r = Pending /\
    c = match pid with Some p => open_presentation p now1 (card_tables s1)
                     | None => card_tables s1 end /\
    cs_owner q = id /\ cs_state q = CPending /\ cs_csrf_hash q = _token_hash token /\
    cs_presentation_id q = pid /\
    insert_session sid q c = Ok c' /\ s' = set_cards c' s1 /\ x = token.
Proof.
  intros Hb. unfold issue_csrf in Hb. tx_inv Hb. apply as_utc_Ok in E as ->.
  apply fetch_bind in Hb as (now2 & r & -> & Hr & Hb). tx_inv Hb. bool_simpl.
  destruct pid as [pid|].
  - apply tx_bind_Ok in Hb as (e & s2 & He & Hb).
    apply select_presentation_bind in He as (p & Hp & He). tx_inv He. tx_inv Hb.
    eexists a, now2, r, _, _, _. cbv zeta.
    split_and!; [done|done|exact Hr|done|reflexivity|..|exact E|done|done]; done.
  - tx_inv Hb. eexists a, now2, r, _, _, _. cbv zeta.
    split_and!; [done|done|exact Hr|done|reflexivity|..|exact E|done|done]; done.
Qed.

Lemma decide_body_Ok id decision token cookie pid clock1 clock2 s ir s' :
  decide_body id decision token cookie pid clock1 clock2 s = Ok (ir, s') ->
  exists now1 now2 (r : row) session, clock1 = Aware now1 /\ clock2 = Aware now2 /\
    let s1 := expire_store id now2 s in
    let r' := decided_row (if String.eqb decision "approve" then Approved else Rejected)
                now1 (cs_endpoint_id session) r in
    (decision = "approve" \/ decision = "reject") /\
    authorizations s1 !! id = Some r /\ row_state r = Pending /\
    find_session id pid (_token_hash token) (card_tables s1) = Some session /\
    token <> "" /\ cookie = token /\
    ir = (id, r') /\
    s' = MkStore (<[id := r']> (authorizations s1)) (settle_cards id now1 (card_tables s1)) (others s1).
Proof.
  intros Hb. unfold decide_body in Hb. tx_inv Hb.
  apply negb_false_iff, str_in_spec in G. apply as_utc_Ok in E as ->.
  apply fetch_bind in Hb as (now2 & r & -> & Hr & Hb). tx_inv Hb. bool_simpl.
  apply tx_bind_Ok in Hb as (u & s2 & Hp & Hb).
  assert (s2 = expire_store id now2 s) as ->.
  { destruct pid as [p|]; [|by injection Hp as _ ->].
    apply select_presentation_bind in Hp as (? & _ & Hp). by injection Hp as _ ->. }
  clear Hp u. tx_inv Hb. subst.
  destruct (csrf_accepted _ _ _ _ E) as (session & Hs & Hc & -> & Hh).
  rewrite (proj2 (truthy_true cookie)) in * by done.
  rewrite (update_key_hit _ _ _ _ _ Hr) in Hb by (by apply bool_decide_eq_true).
  tx_inv Hb. apply select_bind in Hb as (r' & Hr' & Hb). tx_inv Hb.
  cbn in Hr'. rewrite lookup_insert_eq in Hr'. injection Hr' as <-.
  exists a, now2, r, session. rewrite Hs. cbn in G. split_and!; try done.
  destruct G as [<-|[<-|[]]]; [by left|by right].
Qed.

Lemma supersede_Ok id user pending_only callback clock s x s' :
  supersede id user pending_only callback clock s = Ok (x, s') ->
  exists r : row, authorizations s !! id = Some r /\ user_subject r = user /\
    (pending_only = true -> row_state r = Pending \/ row_state r = Superseded) /\
    ((is_live r = false /\ s' = s) \/
     (is_live r = true /\ exists now s1, clock = Aware now /\
        run_callback callback s = Ok (tt, s1) /\
        (forall r1, authorizations s1 !! id = Some r1 ->
         s' = MkStore (<[id := superseded_row now (decided_at r1) r1]> (authorizations s1))
                (expire_cards (String.eqb id) now (card_tables s1)) (others s1)))).
Proof.
  intros Hb. unfold supersede in Hb. apply select_bind in Hb as (r & Hr & Hb).
  tx_inv Hb. bool_simpl. exists r. split_and!; [done|done| |].
  - intros ->. cbn in G0. bool_simpl. done.
  - destruct (is_live r); cbn in Hb; [right|left; by tx_inv Hb].
    split; [done|]. apply tx_bind_Ok in Hb as ([] & s1 & Hcb & Hb). tx_inv Hb.
    apply as_utc_Ok in E as ->. apply tx_modify_Ok in Hb as ->.
    exists a, s1. split_and!; [done|done|]. intros r1 Hr1.
    unfold set_cards, set_authorizations. cbn. by rewrite (update_key_hit _ _ _ _ r1).
Qed.

Lemma consume_body_Ok id a callback clock1 clock2 s ir s' :
  frames callback ->
  consume_body id a callback clock1 clock2 s = Ok (ir, s') ->
  exists now1 now2 (r : row) s2, clock1 = Aware now1 /\ clock2 = Aware now2 /\
    let s1 := expire_store id now2 s in
    let r' := consumed_row (c_commit_operation_id a) now1 r in
    authorizations s1 !! id = Some r /\ row_state r = Approved /\
    bindings_match a r = true /\ plan_hash r = _json_hash (plan_json r) /\
    run_callback callback s1 = Ok (tt, s2) /\
    ir = (id, r') /\
    s' = MkStore (<[id := r']> (authorizations s1)) (card_tables s1) (others s2).
Proof.
  intros Hf Hb. unfold consume_body in Hb. tx_inv Hb. apply as_utc_Ok in E as ->.
  apply fetch_bind in Hb as (now2 & r & -> & Hr & Hb). tx_inv Hb. bool_simpl.
  subst. apply compare_digest_true in E.
  apply tx_bind_Ok in Hb as ([] & s2 & Hcb & Hb).
  destruct (Hf _ _ _ Hcb) as [Ha Hc]. tx_inv Hb.
  rewrite Ha, (update_key_hit _ _ _ _ _ Hr) in Hb by (by apply bool_decide_eq_true).
  tx_inv Hb. apply select_bind in Hb as (r' & Hr' & Hb). tx_inv Hb.
  cbn in Hr'. rewrite lookup_insert_eq in Hr'. injection Hr' as <-.
  exists a0, now2, r, s2. split_and!; try done. unfold set_authorizations. by rewrite Hc.
Qed.

Lemma Inv_unexpired id now s r : Inv s -> authorizations (expire_store id now s) !! id = Some r -> row_ok r.
Proof. intros HI Hr. by eapply inv_rows; [apply Inv_expire|]. Qed.

(** Every transaction keeps the invariant. *)
Lemma Inv_step s t : Inv s -> step s t -> Inv t.
Proof.
  intros HI Hst. destruct Hst; unfold create, get, decide, consume; rewrite ?method_state;
    (apply after_preserves; [|exact HI]); intros x s'.
  - destruct x as [i r]. intros (now & base & _ & _ & _ & Hn & -> & _)%create_body_Ok.
    by apply Inv_created.
  - destruct x as [i r]. intros (now & r' & _ & -> & _)%get_body_Ok. by apply Inv_expire.
  - intros (now1 & now2 & r & _ & _ & Hr & _ & Hs)%create_presentation_Ok.
    assert (HI1 := Inv_expire id now2 s HI). cbv zeta in *.
    destruct Hs as [->|(p & c' & Ho & Hp & Hi & ->)]; [done|].
    apply Inv_cards; [done|]. eapply live_insert_presentation; [exact Hi| |apply HI1].
    intros Ha. rewrite Ho. exists r. split; [done|]. by apply Hp.
  - intros (now1 & now2 & r & c & q & c' & _ & _ & Hr & Hp & Hc & Ho & _ & _ & _ & Hi & -> & _)%issue_csrf_Ok.
    assert (HI1 := Inv_expire id now2 s HI). cbv zeta in *.
    apply Inv_cards; [done|]. eapply live_insert_session; [exact Hi| |].
    + intros _. rewrite Ho. by exists r.
    + subst c. destruct pid; [apply live_open|]; apply HI1.
  - destruct x as [i r].
    intros (now1 & now2 & r0 & ss & _ & _ & _ & Hr & Hp & _ & _ & _ & _ & ->)%decide_body_Ok.
    assert (HI1 := Inv_expire id now2 s HI).
    eapply Inv_touch; [done|exact Hr|done| | |].
    + apply row_ok_decided; [by eapply inv_rows|done|]. destruct (String.eqb _ _); tauto.
    + intros _. apply is_live_spec. tauto.
    + apply live_settle_touch, HI1.
  - intros (r & Hr & _ & _ & [[_ ->]|(Hl & now & s1 & _ & Hcb & Hs)])%supersede_Ok; [done|].
    destruct (H1 _ _ _ Hcb) as [Ha Hc]. rewrite Ha in Hs. rewrite (Hs _ Hr), Hc.
    eapply Inv_touch; [done|exact Hr|done| |done|].
    + apply row_ok_superseded; [by eapply inv_rows|done].
    + apply live_retire, HI.
  - destruct x as [i r].
    intros (now1 & now2 & r0 & s2 & _ & _ & Hr & Hp & _ & _ & _ & _ & ->)%consume_body_Ok; [|done].
    assert (HI1 := Inv_expire id now2 s HI).
    eapply Inv_touch; [done|exact Hr|done| |done|].
    + apply row_ok_consumed; [by eapply inv_rows|done].
    + eapply live_cards_mono; [|apply HI1]. intros o Ho. split; [done|]. intros ->.
      destruct Ho as (q & Hq & Hqp). cbn in Hqp. congruence.
Qed.

(** ** Transitions *)

Definition changes (P : state -> state -> Prop) s t : Prop :=
  moves (fun r r' => P (row_state r) (row_state r')) (authorizations s) (authorizations t).

Lemma changes_mono (P Q : state -> state -> Prop) s t :
  (forall x y, P x y -> Q x y) -> changes P s t -> changes Q s t.
Proof. intros HPQ. apply moves_mono. eauto. Qed.

Lemma changes_same P s t u :
  changes P s t -> authorizations u = authorizations t -> changes P s u.
Proof. unfold changes. by intros ? ->. Qed.

(** The expiry check ends a live authorization and does nothing else. *)
Definition expires (x y : state) : Prop := (x = Pending \/ x = Approved) /\ y = Expired.
Definition supersedes (x y : state) : Prop := (x = Pending \/ x = Approved) /\ y = Superseded.
Definition decides (x y : state) : Prop := x = Pending /\ (y = Approved \/ y = Rejected).
Definition consumes (x y : state) : Prop := x = Approved /\ y = Consumed.

Lemma changes_expire id now s : changes expires s (expire_store id now s).
Proof.
  unfold expire_store. destruct (authorizations s !! id) as [r|] eqn:Hr; [|apply moves_refl].
  destruct (is_live r && _) eqn:E; [|apply moves_refl]. bool_simpl.
  apply (moves_touch _ _ _ r); [done|done|]. split; [|done]. by apply is_live_spec.
Qed.

(** A live row that survives the expiry check was not touched by it. *)
Lemma expire_store_live id now s r :
  authorizations (expire_store id now s) !! id = Some r -> is_live r = true ->
  expire_store id now s = s /\ (now < expires_at r)%Z.
Proof.
  unfold expire_store. destruct (authorizations s !! id) as [r0|] eqn:Hr; [|congruence].
  destruct (is_live r0 && (expires_at r0 <=? now)%Z) eqn:E; cbn.
  - rewrite lookup_insert_eq. by intros [= <-].
  - rewrite Hr. intros [= <-] Hl. rewrite Hl in E. cbn in E. split; [done|].
    by apply Z.leb_gt in E.
Qed.

Lemma changes_created a base now id s :
  authorizations s !! id = None -> changes supersedes s (created a base now id s).
Proof.
  intros Hn. apply moves_insert; [done|done|]. intros q Hq%same_slot_live. split; [done|].
  split; [|done]. by apply is_live_spec.
Qed.

Lemma changes_decide id decision token cookie pid clock1 clock2 s ir s' :
  decide_body id decision token cookie pid clock1 clock2 s = Ok (ir, s') -> changes decides s s'.
Proof.
  destruct ir. intros (now1 & now2 & r0 & ss & _ & _ & _ & Hr & Hp & _ & _ & _ & _ & ->)%decide_body_Ok.
  destruct (expire_store_live _ _ _ _ Hr) as [E _]; [by apply is_live_spec; left|].
  rewrite E in *. apply (moves_touch _ _ _ r0); [done|done|]. split; [done|].
  cbn. destruct (String.eqb _ _); tauto.
Qed.

Lemma changes_consume id a callback clock1 clock2 s ir s' :
  frames callback ->
  consume_body id a callback clock1 clock2 s = Ok (ir, s') -> changes consumes s s'.
Proof.
  intros Hf. destruct ir.
  intros (now1 & now2 & r0 & s2 & _ & _ & Hr & Hp & _ & _ & _ & _ & ->)%consume_body_Ok; [|done].
  destruct (expire_store_live _ _ _ _ Hr) as [E _]; [by apply is_live_spec; right|].
  rewrite E in *. by apply (moves_touch _ _ _ r0).
Qed.

Lemma changes_supersede id user pending_only callback clock s x s' :
  frames callback ->
  supersede id user pending_only callback clock s = Ok (x, s') -> changes supersedes s s'.
Proof.
  intros Hf (r & Hr & _ & _ & [[_ ->]|(Hl & now & s1 & _ & Hcb & Hs)])%supersede_Ok;
    [apply moves_refl|].
  destruct (Hf _ _ _ Hcb) as [Ha Hc]. rewrite Ha in Hs. rewrite (Hs _ Hr).
  apply (moves_touch _ _ _ r); [done|done|]. split; [|done]. by apply is_live_spec.
Qed.

(** The edges of the life cycle. *)
Definition edge (x y : state) : Prop :=
  expires x y \/ supersedes x y \/ decides x y \/ consumes x y.

Lemma changes_after {A} (P : state -> state -> Prop) (m : tx (store O) A) s :
  (forall x s', m s = Ok (x, s') -> changes P s s') -> changes P s (after m s).
Proof.
  intros Hm. destruct (after_cases m s) as [->|[x Hx]]; [apply moves_refl|eauto].
Qed.

(** Which steps are not decisions, and what those do. *)
Lemma step_cases s t : step s t ->
  changes (fun x y => expires x y \/ supersedes x y \/ consumes x y) s t \/
  exists id decision token cookie pid clock1 clock2,
    t = after (decide_body id decision token cookie pid clock1 clock2) s.
Proof.
  intros Hst. destruct Hst; unfold create, get, decide, consume; rewrite ?method_state;
    [..|right; by eauto 8| |]; left; try (apply changes_after; intros x s').
  - destruct x. intros (now & base & _ & _ & _ & Hn & -> & _)%create_body_Ok.
    eapply changes_mono; [|by apply changes_created]. tauto.
  - destruct x. intros (now & r' & _ & -> & _)%get_body_Ok.
    eapply changes_mono; [|apply changes_expire]. tauto.
  - intros (now1 & now2 & r & _ & _ & Hr & _ & Hs)%create_presentation_Ok.
    eapply changes_same with (t := expire_store id now2 s).
    + eapply changes_mono; [|apply changes_expire]. tauto.
    + by destruct Hs as [->|(p & c' & _ & _ & _ & ->)].
  - intros (now1 & now2 & r & c & q & c' & _ & _ & _ & _ & _ & _ & _ & _ & _ & _ & -> & _)%issue_csrf_Ok.
    eapply changes_same with (t := expire_store id now2 s); [|done].
    eapply changes_mono; [|apply changes_expire]. tauto.
  - intros Hs. eapply changes_mono; [|by eapply changes_supersede]. tauto.
  - intros Hs. eapply changes_mono; [|by eapply changes_consume]. tauto.
Qed.

Lemma step_changes s t : step s t -> changes edge s t.
Proof.
  intros [Hc|(id & dn & tok & ck & pid & c1 & c2 & ->)]%step_cases.
  - eapply changes_mono; [|exact Hc]. unfold edge. tauto.
  - apply changes_after. intros x s' Hx.
    eapply changes_mono; [|by eapply changes_decide]. unfold edge. tauto.
Qed.

Lemma edge_live x y : edge x y -> st_live x = true.
Proof. unfold edge, expires, supersedes, decides, consumes. destruct x; naive_solver. Qed.

Lemma steps_contract s t id r :
  rtc step s t -> authorizations s !! id = Some r ->
  exists r', authorizations t !! id = Some r' /\ row_contract r' = row_contract r /\
    (is_live r = false -> r' = r).
Proof.
  exact (moves_star authorizations step _ s t id r step_changes
           (fun q q' => edge_live (row_state q) (row_state q'))).
Qed.

(** ** Functional specification of [consume] *)

(** The row after the expiry check. *)
Definition checked (now : instant) (r : row) : row :=
  if is_live r && (expires_at r <=? now)%Z then expired_row now r else r.

(** What [consume] does to the row of [id] when no callback is given. *)
Definition consume_outcome (id : string) (a : consume_args) (now1 now2 : instant) (o : option row)
  : result row :=
  match o with
  | None => raise WriteAuthorizationNotFound ("write authorization not found: " +:+ id)
  | Some r0 =>
      let r := checked now2 r0 in
      if negb (bool_decide (row_state r = Approved))
      then raise WriteAuthorizationStateError
             ("write authorization is not approved: " +:+ state_text (row_state r))
      else if negb (bindings_match a r)
      then raise WriteAuthorizationAccessDenied
             "write authorization is not bound to this user, session, or capability"
      else if negb (String.eqb (plan_hash r) (_json_hash (plan_json r)))
      then raise WriteAuthorizationIntegrityError
             "write authorization plan integrity check failed"
      else Ok (consumed_row (c_commit_operation_id a) now1 r)
  end.

Lemma expire_store_lookup id now s :
  authorizations (expire_store id now s) !! id = checked now <$> authorizations s !! id.
Proof.
  unfold expire_store, checked. destruct (authorizations s !! id) as [r|] eqn:Hr; [|done].
  cbn. destruct (is_live r && _); cbn; [by rewrite lookup_insert_eq|by rewrite Hr].
Qed.

Lemma fetch_run {B} id clock (k : row -> tx (store O) B) s :
  (r ← _select id; r' ← _expire_if_needed id r clock; k r') s =
  match authorizations s !! id, clock with
  | None, _ => raise WriteAuthorizationNotFound ("write authorization not found: " +:+ id)
  | Some r, Aware now => k (checked now r) (expire_store id now s)
  | Some r, Naive _ =>
      raise ValueError "write authorization clock must return timezone-aware datetime"
  end.
Proof.
  destruct (authorizations s !! id) as [r|] eqn:Hr.
  - assert (Hsel : _select id s = Ok (r, s)) by (by apply _select_Ok).
    erewrite tx_bind_run by exact Hsel. destruct clock as [now|]; [|done].
    assert (He : _expire_if_needed id r (Aware now) s = Ok (checked now r, expire_store id now s)).
    { apply _expire_if_needed_Ok; [done|]. exists now. split_and!; [done|done|].
      by rewrite expire_store_lookup, Hr. }
    by erewrite tx_bind_run by exact He.
  - unfold _select, pbind, mbind, tx_bind, gets. by rewrite Hr.
Qed.

(** C19. [consume], without a callback and with a working clock, does exactly what
    [consume_outcome] says of the row of [id]: on success that row alone is replaced
    by its consumed form; on each of the four refusals (unknown, not approved after
    the expiry check, bound to someone else, digest mismatch) the exception is
    raised and the database is as it was, the expiry included. *)
Theorem consume_refines id a now1 now2 s
  (Hascii : forall r : row, authorizations s !! id = Some r -> is_ascii_str (plan_hash r) = true) :
  transaction (consume_body id a None (Aware now1) (Aware now2)) s =
  match consume_outcome id a now1 now2 (authorizations s !! id) with
  | Ok r => (Ok (id, r), set_authorizations (<[id := r]> (authorizations s)) s)
  | Raise e => (Raise e, s)
  end.
Proof.
  unfold transaction, consume_body. cbn [_as_utc as_utc].
  erewrite tx_bind_run by reflexivity. rewrite fetch_run.
  destruct (authorizations s !! id) as [r0|] eqn:Hr0; [|done]. cbn zeta.
  specialize (Hascii _ eq_refl). unfold consume_outcome.
  set (r := checked now2 r0). set (s1 := expire_store id now2 s).
  destruct (bool_decide (row_state r = Approved)) eqn:Hst; [|done].
  destruct (bindings_match a r) eqn:Hb; [|done].
  assert (Hsame : s1 = s /\ r = r0).
  { subst r s1. unfold checked, expire_store in *. rewrite Hr0.
    destruct (is_live r0 && _); [|done]. bool_simpl. done. }
  destruct Hsame as [-> ->]. cbn [negb]. bool_simpl.
  rewrite !tx_raise_if_false_bind.
  assert (Hcmp : compare_digest (plan_hash r0) (_json_hash (plan_json r0))
                 = Ok (String.eqb (plan_hash r0) (_json_hash (plan_json r0)))).
  { unfold compare_digest, _json_hash. by rewrite Hascii, json_hash_ascii. }
  rewrite Hcmp. destruct (String.eqb _ _); [|done].
  cbn [negb]. do 4 (erewrite tx_bind_run by reflexivity).
  rewrite (update_key_hit _ _ _ _ _ Hr0) by (by apply bool_decide_eq_true).
  do 2 (erewrite tx_bind_run by reflexivity).
  erewrite tx_bind_run by (apply _select_Ok; split; [apply lookup_insert_eq|reflexivity]).
  done.
Qed.

(** ** Properties *)

(** C18. In every state some interleaving of the store's operations reaches from an
    empty database: each row's [plan_hash] is the digest of its [plan_json] and its
    bookkeeping columns agree with its state; a user has at most one pending or
    approved authorization per capability and supersession key; and an active
    presentation or a pending card session belongs to a pending authorization. *)
Theorem authorizations_invariant s (Hs : reachable initial step s) : Inv s.
Proof. eapply reachable_invariant; [apply Inv_initial|apply Inv_step|exact Hs]. Qed.

(** One transaction never deletes an authorization nor changes a column the
    trigger protects; it changes the state of a row, if at all, along the edges of
    the life cycle (a pending or approved one expires or is superseded, a pending
    one is approved or rejected, an approved one is consumed), so the rejected,
    consumed, expired and superseded states are final; and a row it adds is pending. *)
Theorem authorization_lifecycle s t (Hst : step s t) :
  (forall id r, authorizations s !! id = Some r -> exists r',
     authorizations t !! id = Some r' /\ row_contract r' = row_contract r /\
     (r' = r \/ edge (row_state r) (row_state r')) /\ (is_live r = false -> r' = r)) /\
  (forall id r', authorizations t !! id = Some r' -> authorizations s !! id = None ->
     row_state r' = Pending).
Proof.
  destruct (step_changes _ _ Hst) as [H1 H2]. split; [|done]. intros id r Hr.
  destruct (H1 _ _ Hr) as (r' & Hr' & Hk & He).
  destruct (steps_contract s t id r) as (q & Hq & _ & Hd); [by apply rtc_once|done|].
  exists r'. split_and!; try done. intros Hl. specialize (Hd Hl). congruence.
Qed.

(** An authorization is consumed at most once: after a consume that returned,
    whatever transactions follow, every further consume of it, by anyone, with any
    callback, is refused as not approved and leaves the database alone. *)
Theorem consume_once id a callback clock1 clock2 s v s1 t a' callback' now1 now2
  (Hf : frames callback)
  (Hc : consume id a callback clock1 clock2 s = (Ok v, s1))
  (Hst : rtc step s1 t) :
  consume id a' callback' (Aware now1) (Aware now2) t =
  (Raise (Exn WriteAuthorizationStateError "write authorization is not approved: consumed"), t).
Proof.
  apply method_Ok in Hc as ([i r0] & Hb & _).
  apply consume_body_Ok in Hb as (m1 & m2 & r & s2 & _ & _ & _ & _ & _ & _ & _ & [= _ _] & ->); [|done].
  destruct (steps_contract _ _ id (consumed_row (c_commit_operation_id a) m1 r) Hst)
    as (r' & Hr' & _ & Hd); [apply lookup_insert_eq|].
  rewrite (Hd eq_refl) in Hr'. unfold consume, method, transaction, consume_body.
  cbn [_as_utc as_utc]. erewrite tx_bind_run by reflexivity. rewrite fetch_run, Hr'. done.
Qed.

(** The plan a commit receives is the plan the prepare step stored, up to the
    order of object keys, for the same user, system, session and capability, and
    within the time to live of the authorization, whatever happened between. *)
Theorem consumed_plan_is_prepared_plan a clock id s0 v0 s1 s2 c callback clock1 clock2 v s3
  (Hwf : wf_json (a_plan a))
  (Hcreate : create a clock id s0 = (Ok v0, s1))
  (Hst : rtc step s1 s2)
  (Hf : frames callback)
  (Hconsume : consume id c callback clock1 clock2 s2 = (Ok v, s3)) :
  v_plan v = Some (canon (a_plan a)) /\ v_state v = Consumed /\
  c_user_subject c = a_user_subject a /\ c_system_id c = a_system_id a /\
  c_session_id c = a_session_id a /\ c_capability_name c = a_capability_name a /\
  c_capability_version c = a_capability_version a /\
  exists prepared checked, clock = Aware prepared /\ clock2 = Aware checked /\
    (checked < prepared + seconds (a_ttl_seconds a))%Z.
Proof.
  apply method_Ok in Hcreate as ([i0 r0] & Hb0 & _).
  apply create_body_Ok in Hb0 as (now & base & _ & -> & _ & _ & -> & [= -> ->]).
  apply method_Ok in Hconsume as ([i r3] & Hb & Hv).
  apply consume_body_Ok in Hb as (m1 & m2 & r & s4 & _ & -> & Hr & Hp & Hm & _ & _ & [= -> ->] & _); [|done].
  destruct (steps_contract _ _ id _ Hst (lookup_insert_eq _ _ _)) as (r1 & Hr1 & Hk & _).
  destruct (expire_store_live _ _ _ _ Hr) as [E Hexp]; [by apply is_live_spec; right|].
  rewrite E in Hr. assert (r1 = r) as -> by congruence.
  unfold bindings_match in Hm. bool_simpl. rewrite Hk in *. cbn in *.
  unfold _authorization_from_row in Hv. cbn [row_contract consumed_row] in Hv. rewrite Hk in Hv.
  unfold new_row in Hv. cbn [plan_json row_contract] in Hv. unfold _canonical_json in Hv.
  rewrite (loads_dumps _ Hwf) in Hv. apply result_bind_Ok in Hv as (p & [= <-] & Hv).
  apply result_bind_Ok in Hv as (sm & _ & [= <-]). cbn. split_and!; try done. eauto.
Qed.

(** Only a decision on the trusted card approves: when a transaction leaves an
    authorization approved that was not, it was a [decide] with 'approve' whose token
    equals its cookie and is not empty, and whose digest is that of a pending card
    session of this very authorization and presentation; it retires every card
    session of the authorization. *)
Theorem approval_needs_card s t id r
  (Hst : step s t)
  (Hwas : forall r0, authorizations s !! id = Some r0 -> row_state r0 <> Approved)
  (Hr : authorizations t !! id = Some r) (Happ : row_state r = Approved) :
  exists token pid clock1 clock2 k session,
    t = after (decide_body id "approve" token token pid clock1 clock2) s /\
    card_sessions (card_tables s) !! k = Some session /\
    cs_owner session = id /\ cs_presentation_id session = pid /\
    cs_state session = CPending /\ cs_csrf_hash session = _token_hash token /\ token <> "" /\
    forall k' q, card_sessions (card_tables t) !! k' = Some q -> cs_owner q = id ->
      cs_state q <> CPending.
Proof.
  apply step_cases in Hst as [[Hold Hnew]|(id' & dn & tok & ck & pid & c1 & c2 & ->)].
  - exfalso. destruct (authorizations s !! id) as [r0|] eqn:Hr0.
    + destruct (Hold _ _ Hr0) as (r1 & Hr1 & _ & Hc). assert (r1 = r) as -> by congruence.
      specialize (Hwas _ eq_refl). unfold expires, supersedes, consumes in Hc.
      destruct Hc as [->|Hc]; [done|]. cbn in Hc. rewrite Happ in Hc. naive_solver.
    + specialize (Hnew _ _ Hr Hr0). cbn in Hnew. congruence.
  - destruct (after_cases (decide_body id' dn tok ck pid c1 c2) s) as [E|[[i r1] Hb]].
    { exfalso. rewrite E in Hr. by eapply Hwas. }
    pose proof Hb as (m1 & m2 & q & ss & _ & _ & Hdn & Hq & Hp & Hss & Htok & -> & _ & Ht)%decide_body_Ok.
    destruct (expire_store_live _ _ _ _ Hq) as [E _]; [by apply is_live_spec; left|].
    rewrite E in *. rewrite Ht in Hr. cbn in Hr. destruct (base.decide (id = id')) as [->|Hne].
    2: { exfalso. rewrite lookup_insert_ne in Hr by done. by eapply Hwas. }
    rewrite lookup_insert_eq in Hr. injection Hr as <-. cbn in Happ.
    destruct Hdn as [->| ->]; [|done].
    unfold find_session in Hss. apply fmap_Some in Hss as ([k ss'] & Hk & Hs). cbn in Hs. subst ss'.
    apply select_one_Some in Hk as [Hk Hks]. bool_simpl.
    exists tok, pid, c1, c2, k, ss. split_and!; try done.
    rewrite Ht. cbn. intros k' qq. rewrite lookup_update_where, fmap_Some.
    intros (q0 & Hq0 & ->). destruct (String.eqb_spec (cs_owner q0) id'); cbn; [|done].
    case_bool_decide; cbn; done.
Qed.

Lemma expire_store_fresh id now s r :
  authorizations s !! id = Some r -> (now < expires_at r)%Z -> expire_store id now s = s.
Proof.
  intros Hr Hn. unfold expire_store. rewrite Hr.
  destruct (expires_at r <=? now)%Z eqn:E; [apply Z.leb_le in E; lia|]. by rewrite andb_false_r.
Qed.

(** The matching arguments of the commit. *)
Definition commit_args (a : create_args) (operation : string) : consume_args :=
  {| c_user_subject := a_user_subject a; c_system_id := a_system_id a;
     c_session_id := a_session_id a; c_capability_name := a_capability_name a;
     c_capability_version := a_capability_version a; c_commit_operation_id := operation |}.

Lemma issue_csrf_run id now token sid s r :
  authorizations s !! id = Some r -> row_state r = Pending -> (now < expires_at r)%Z ->
  card_sessions (card_tables s) !! sid = None ->
  (forall k q, card_sessions (card_tables s) !! k = Some q -> cs_csrf_hash q <> _token_hash token) ->
  exists q, issue_csrf id None (Aware now) (Aware now) token sid s =
    Ok (token, set_cards (Cards (presentations (card_tables s))
                            (<[sid := q]> (card_sessions (card_tables s)))) s) /\
    cs_owner q = id /\ cs_presentation_id q = None /\ cs_csrf_hash q = _token_hash token /\
    cs_state q = CPending.
Proof.
  intros Hr Hp Hnow Hsid Hfresh.
  set (q := {| cs_owner := id; cs_presentation_id := None; cs_endpoint_id := None;
    cs_csrf_hash := _token_hash token; cs_state := CPending; cs_created_at := now;
    cs_expires_at := expires_at r; cs_consumed_at := None |}).
  exists q. split; [|by split_and!].
  unfold issue_csrf. cbn [_as_utc as_utc]. erewrite tx_bind_run by reflexivity.
  rewrite fetch_run, Hr, (expire_store_fresh _ _ _ r) by done.
  unfold checked. destruct (expires_at r <=? now)%Z eqn:E; [apply Z.leb_le in E; lia|].
  rewrite andb_false_r, bool_decide_eq_true_2 by done. cbn [negb].
  rewrite tx_raise_if_false_bind. do 2 (erewrite tx_bind_run by reflexivity).
  assert (Hins : insert_session sid q (card_tables s)
    = Ok (Cards (presentations (card_tables s)) (<[sid := q]> (card_sessions (card_tables s))))).
  { apply result_bind_Ok. eexists. split; [|reflexivity]. apply insert_row_Ok. split_and!; [done| |done].
    apply exists_where_false. intros k p Hk. apply String.eqb_neq. cbn. eauto. }
  fold q. rewrite Hins. reflexivity.
Qed.

Lemma decide_body_run id now token sid s r q :
  authorizations s !! id = Some r -> row_state r = Pending -> (now < expires_at r)%Z ->
  token <> "" -> is_ascii_str token = true ->
  card_sessions (card_tables s) !! sid = Some q ->
  cs_owner q = id -> cs_presentation_id q = None -> cs_csrf_hash q = _token_hash token ->
  cs_state q = CPending ->
  (forall k p, card_sessions (card_tables s) !! k = Some p ->
     cs_csrf_hash p = _token_hash token -> k = sid) ->
  let r' := decided_row Approved now (cs_endpoint_id q) r in
  decide_body id "approve" token token None (Aware now) (Aware now) s =
    Ok ((id, r'), MkStore (<[id := r']> (authorizations s)) (settle_cards id now (card_tables s)) (others s)).
Proof.
  intros Hr Hp Hnow Htok Hasc Hq Ho Hpid Hh Hst Huniq r'.
  unfold decide_body. cbn [str_in existsb]. rewrite tx_raise_if_false_bind.
  cbn [_as_utc as_utc]. erewrite tx_bind_run by reflexivity.
  rewrite fetch_run, Hr, (expire_store_fresh _ _ _ r) by done.
  unfold checked. destruct (expires_at r <=? now)%Z eqn:E; [apply Z.leb_le in E; lia|].
  rewrite andb_false_r, bool_decide_eq_true_2 by done. cbn [negb].
  rewrite tx_raise_if_false_bind. rewrite (proj2 (truthy_true token) Htok).
  do 2 (erewrite tx_bind_run by reflexivity).
  assert (Hfind : find_session id None (_token_hash token) (card_tables s) = Some q).
  { unfold find_session. erewrite select_one_unique; [reflexivity|exact Hq| |].
    - rewrite Ho, Hpid, Hh, Hst, !String.eqb_refl. done.
    - intros k p Hk Hkp. bool_simpl. eauto. }
  rewrite Hfind, csrf_accepts; [|done|done|apply sha256_hex_ascii|done].
  do 3 (erewrite tx_bind_run by reflexivity).
  rewrite (update_key_hit _ _ _ _ _ Hr) by (by apply bool_decide_eq_true).
  do 3 (erewrite tx_bind_run by reflexivity).
  erewrite tx_bind_run by (apply _select_Ok; split; [apply lookup_insert_eq|reflexivity]).
  done.
Qed.

(** C20. The whole controlled write succeeds: a plan prepared, its card opened and
    approved with the issued token, then committed with the same bindings before the
    deadline, comes back consumed and with the prepared plan in canonical order. *)
Theorem prepare_authorize_commit a id token sid operation s (now t1 t2 t3 : instant) base
  (Hargs : valid_create a) (Hplan : wf_json (a_plan a)) (Hsummary : wf_json (a_summary a))
  (Hbase : _validate_card_base_url (a_card_base_url a) = Ok base)
  (Hid : authorizations s !! id = None)
  (Htok : token <> "") (Hascii : is_ascii_str token = true)
  (Hsid : card_sessions (card_tables s) !! sid = None)
  (Hhash : forall k q, card_sessions (card_tables s) !! k = Some q ->
     cs_csrf_hash q <> _token_hash token)
  (Ht : (Z.max t1 (Z.max t2 t3) < now + seconds (a_ttl_seconds a))%Z) :
  let s1 := snd (create a (Aware now) id s) in
  let s2 := after (issue_csrf id None (Aware t1) (Aware t1) token sid) s1 in
  let s3 := snd (decide id "approve" token token None (Aware t2) (Aware t2) s2) in
  exists v, fst (consume id (commit_args a operation) None (Aware t3) (Aware t3) s3) = Ok v /\
    v_state v = Consumed /\ v_plan v = Some (canon (a_plan a)).
Proof.
  intros s1 s2 s3.
  set (r := new_row a (py_strip (a_supersession_key a)) base now id).
  assert (H1 : create_body a (Aware now) id s = Ok ((id, r), created a base now id s))
    by (apply create_body_Ok; eauto 10).
  assert (E1 : s1 = created a base now id s).
  { subst s1. unfold create. rewrite method_state. unfold after, transaction. by rewrite H1. }
  assert (Hr1 : authorizations s1 !! id = Some r) by (rewrite E1; apply lookup_insert_eq).
  assert (Hsess : forall k q, card_sessions (card_tables s1) !! k = Some q ->
    exists q0, card_sessions (card_tables s) !! k = Some q0 /\ cs_csrf_hash q = cs_csrf_hash q0).
  { rewrite E1. intros k q. cbn. rewrite lookup_update_where, fmap_Some.
    intros (q0 & Hq & ->). exists q0. split; [done|]. by destruct (_ && _). }
  destruct (issue_csrf_run id t1 token sid s1 r) as (q & Hi & Ho & Hp & Hh & Hs); try done.
  { cbn. lia. }
  { destruct (card_sessions (card_tables s1) !! sid) as [q|] eqn:E; [|done].
    destruct (Hsess _ _ E) as (? & ? & _). congruence. }
  { intros k q Hk. destruct (Hsess _ _ Hk) as (q0 & Hq0 & ->). eauto. }
  assert (E2 : s2 = set_cards (Cards (presentations (card_tables s1))
                 (<[sid := q]> (card_sessions (card_tables s1)))) s1).
  { subst s2. unfold after, transaction. by rewrite Hi. }
  assert (Hr2 : authorizations s2 !! id = Some r) by (by rewrite E2).
  assert (Hq2 : card_sessions (card_tables s2) !! sid = Some q)
    by (rewrite E2; apply lookup_insert_eq).
  assert (Huniq : forall k p, card_sessions (card_tables s2) !! k = Some p ->
            cs_csrf_hash p = _token_hash token -> k = sid).
  { rewrite E2. intros k p. cbn. split_eq k sid; [done|]. rewrite lookup_insert_ne by done.
    intros Hk Hph. destruct (Hsess _ _ Hk) as (q0 & Hq0 & Eq0). destruct (Hhash _ _ Hq0). congruence. }
  pose proof (decide_body_run id t2 token sid s2 r q Hr2 eq_refl ltac:(cbn; lia) Htok Hascii
                Hq2 Ho Hp Hh Hs Huniq) as H3. cbv zeta in H3.
  set (r3 := decided_row Approved t2 (cs_endpoint_id q) r) in *.
  assert (Hr3 : authorizations s3 !! id = Some r3).
  { subst s3. unfold decide. rewrite method_state. unfold after, transaction. rewrite H3.
    cbn. apply lookup_insert_eq. }
  pose proof (consume_refines id (commit_args a operation) t3 t3 s3) as H4.
  rewrite Hr3 in H4. specialize (H4 ltac:(by intros ? [= <-]; apply json_hash_ascii)).
  unfold consume_outcome, checked in H4. cbn in H4.
  destruct (now + seconds (a_ttl_seconds a) <=? t3)%Z eqn:E; [apply Z.leb_le in E; lia|].
  rewrite bool_decide_eq_true_2 in H4 by done. unfold bindings_match in H4. cbn in H4. rewrite !String.eqb_refl in H4. cbn in H4.
  unfold consume, method. rewrite H4. cbn -[loads dumps canon]. unfold _canonical_json.
  rewrite !loads_dumps by done. cbn -[canon]. eauto.
Qed.

End Facts.
