(* ===== verification/WriteAuthorizationDemo.v ===== *)
(** The properties of the write authorization store, applied to a concrete write:
    an authorization created, opened on its card, approved and consumed. *)
From S2P Require Import Prelude PyStr Json JsonFacts Sha256 Store Cards.
From S2P Require Import WriteAuthorizations WriteAuthorizationFacts.

Module Demo.
#[local] Existing Instance ascii_tables.
#[local] Existing Instance plain_urls.

Definition args : create_args := {|
  a_user_subject := "u1"; a_system_id := "oa"; a_session_id := "s1";
  a_capability_name := "oa.leave.commit"; a_capability_version := "1";
  a_prepare_operation_id := "op1"; a_supersession_key := " k ";
  a_plan := JObj [("title", JStr "leave"); ("days", JInt 2)];
  a_summary := JObj [("title", JStr "leave")];
  a_card_base_url := "https://Agent.example/cards/"; a_ttl_seconds := 600%Z |}.

Definition s0 : store unit := MkStore ∅ no_cards tt.
Definition s1 := snd (create args (Aware 0) "auth" s0).
Definition s2 := after (issue_csrf "auth" None (Aware 1) (Aware 1) "token" "card") s1.
Definition s3 := snd (decide "auth" "approve" "token" "token" None (Aware 2) (Aware 2) s2).
Definition commit := commit_args args "op2".
Definition s4 := snd (consume "auth" commit None (Aware 3) (Aware 3) s3).

Lemma no_frame : frames (O := unit) None.
Proof. intros s u s' H. by injection H as _ <-. Qed.

Lemma authorizations_invariant_witness : reachable initial step s3 /\ Inv s3.
Proof.
  assert (H : @reachable (store unit) initial (@step _ ascii_tables plain_urls) s3).
  { eapply reachable_step; [|apply step_decide].
    eapply reachable_step; [|apply step_issue_csrf].
    eapply reachable_step; [|apply step_create]. by apply reachable_init. }
  split; [exact H|]. exact (authorizations_invariant _ H).
Defined.

Lemma authorization_lifecycle_witness :
  exists r', authorizations s3 !! "auth" = Some r' /\ row_state r' = Approved /\
    (r' = default r' (authorizations s2 !! "auth") \/ edge Pending (row_state r')).
Proof.
  assert (H : @step unit ascii_tables plain_urls s2 s3) by apply step_decide.
  destruct (authorizations s2 !! "auth") as [r|] eqn:Hr; [|vm_compute in Hr; discriminate Hr].
  destruct (proj1 (authorization_lifecycle _ _ H) _ _ Hr) as (r' & Hr' & _ & He & _).
  assert (Hp : row_state r = Pending) by (vm_compute in Hr; injection Hr as <-; reflexivity).
  exists r'. rewrite <- Hp. split_and!; [done| |naive_solver].
  vm_compute in Hr'. injection Hr' as <-. reflexivity.
Defined.

Lemma consume_once_witness :
  exists v, fst (consume "auth" commit None (Aware 3) (Aware 3) s3) = Ok v /\
  consume "auth" commit None (Aware 4) (Aware 4) s4 =
  (Raise (Exn WriteAuthorizationStateError "write authorization is not approved: consumed"), s4).
Proof.
  unfold s4. set (call := consume _ _ None (Aware 3) (Aware 3) s3).
  destruct call as [[v|e] s'] eqn:E; [|vm_compute in E; discriminate E].
  exists v. split; [done|]. eapply consume_once; [apply no_frame|exact E|apply rtc_refl].
Defined.

Lemma consume_refines_witness :
  transaction (consume_body "auth" commit None (Aware 700000000) (Aware 700000000)) s3 =
  (Raise (Exn WriteAuthorizationStateError "write authorization is not approved: expired"), s3).
Proof.
  rewrite consume_refines.
  - vm_compute. reflexivity.
  - intros r Hr. vm_compute in Hr. injection Hr as <-. vm_compute. reflexivity.
Defined.

Lemma consumed_plan_is_prepared_plan_witness :
  exists v, fst (consume "auth" commit None (Aware 3) (Aware 3) s3) = Ok v /\
    v_plan v = Some (JObj [("days", JInt 2); ("title", JStr "leave")]).
Proof.
  set (call := consume _ _ None (Aware 3) (Aware 3) s3).
  destruct call as [[v|e] s'] eqn:E; [|vm_compute in E; discriminate E].
  exists v. split; [done|].
  destruct (create args (Aware 0) "auth" s0) as [[v0|e0] s0'] eqn:E0; [|vm_compute in E0; discriminate E0].
  assert (Hs : s0' = s1) by (unfold s1; by rewrite E0). subst s0'.
  refine (proj1 (consumed_plan_is_prepared_plan args (Aware 0) "auth" s0 v0 s1 s3 commit None
                   (Aware 3) (Aware 3) v s' _ E0 _ no_frame E)).
  - apply wf_jsonb_ok. reflexivity.
  - eapply rtc_l; [|eapply rtc_l; [|apply rtc_refl]]; [apply step_issue_csrf|apply step_decide].
Defined.

Lemma approval_needs_card_witness :
  exists token session k, card_sessions (card_tables s2) !! k = Some session /\
    cs_csrf_hash session = _token_hash token /\ cs_owner session = "auth".
Proof.
  destruct (authorizations s3 !! "auth") as [r|] eqn:Hr; [|vm_compute in Hr; discriminate Hr].
  destruct (approval_needs_card s2 s3 "auth" r) as (token & pid & c1 & c2 & k & session & H).
  - apply step_decide.
  - intros r0 Hr0. vm_compute in Hr0. injection Hr0 as <-. done.
  - exact Hr.
  - vm_compute in Hr. by injection Hr as <-.
  - exists token, session, k. tauto.
Defined.

Lemma prepare_authorize_commit_witness :
  exists v, fst (consume "auth" commit None (Aware 3) (Aware 3) s3) = Ok v /\
    v_state v = Consumed /\ v_plan v = Some (canon (a_plan args)).
Proof.
  apply (prepare_authorize_commit args "auth" "token" "card" "op2" s0 0%Z 1%Z 2%Z 3%Z
           "https://agent.example/cards").
  - vm_compute. split_and!; try done; discriminate.
  - apply wf_jsonb_ok. reflexivity.
  - apply wf_jsonb_ok. reflexivity.
  - vm_compute. reflexivity.
  - reflexivity.
  - discriminate.
  - reflexivity.
  - reflexivity.
  - intros k q H. exact (False_ind _ (lookup_empty_Some _ _ H)).
  - vm_compute. reflexivity.
Defined.

End Demo.
