(* ===== verification/FieldSubmissions.v ===== *)
(** * Field submissions (agentbridge/core/field_submissions.py)

    A form whose schema is fixed at creation is filled in on a trusted card;
    the submitted values are stored with their digest and consumed once. *)

From S2P Require Import Prelude PyStr Json JsonFacts Sha256 Store Cards.

(** ** Data *)

Inductive state : Type := Pending | Submitted | Consumed | Expired | Superseded.

#[export] Instance state_eq_dec : EqDecision state.
Proof. solve_decision. Defined.

Definition state_text (st : state) : string :=
  match st with
  | Pending => "pending" | Submitted => "submitted" | Consumed => "consumed"
  | Expired => "expired" | Superseded => "superseded"
  end.

(** The columns the trigger [immutable_field_submission_contract] protects. *)
Record contract : Type := Contract {
  user_subject : string;
  system_id : string;
  session_id : string;
  capability_name : string;
  capability_version : string;
  create_operation_id : string;
  supersession_key : string;
  schema_json : string;
  schema_hash : string;
  card_url : string;
  created_at : instant;
  expires_at : instant;
}.

(** A row of [field_submissions] without its key. *)
Record row : Type := Row {
  row_contract :> contract;
  values_json : option string;
  values_hash : option string;
  csrf_hash : option string;
  row_state : state;
  consume_operation_id : option string;
  updated_at : instant;
  submitted_at : option instant;
  consumed_at : option instant;
}.

(** What the store's methods return: the row without [csrf_hash] and
    [values_hash], the schema decoded, the values only when asked for. *)
Record view : Type := View {
  v_submission_id : string;
  v_user_subject : string;
  v_system_id : string;
  v_session_id : string;
  v_capability_name : string;
  v_capability_version : string;
  v_create_operation_id : string;
  v_supersession_key : string;
  v_schema_hash : string;
  v_card_url : string;
  v_state : state;
  v_consume_operation_id : option string;
  v_created_at : instant;
  v_updated_at : instant;
  v_expires_at : instant;
  v_submitted_at : option instant;
  v_consumed_at : option instant;
  v_form_schema : json;
  v_values : option json;
}.

Record create_args : Type := CreateArgs {
  a_user_subject : string;
  a_system_id : string;
  a_session_id : string;
  a_capability_name : string;
  a_capability_version : string;
  a_create_operation_id : string;
  a_supersession_key : string;
  a_form_schema : json;
  a_card_base_url : string;
  a_ttl_seconds : Z;
}.

Record consume_args : Type := ConsumeArgs {
  c_user_subject : string;
  c_system_id : string;
  c_session_id : string;
  c_capability_name : string;
  c_capability_version : string;
  c_consume_operation_id : string;
}.

Definition _canonical_json (v : json) : string := dumps v.
Definition _json_hash (canonical_json : string) : string := json_hash canonical_json.
Definition _as_utc (d : datetime) : result instant := as_utc "field submission" d.

Definition _validate_card_base_url `{UnicodeTables, UrlTables} (value : string) : result string :=
  parsed ← urlparse value;
  raise_if (negb (str_in (url_scheme parsed) ["http"; "https"] && truthy (url_netloc parsed)))
    ValueError "field submission card base URL must be http(s)";;
  raise_if (has_userinfo (url_netloc parsed) || truthy (url_query parsed)
            || truthy (url_fragment parsed))
    ValueError "field submission card base URL is invalid";;
  Ok (ascii_lower (url_scheme parsed) +:+ "://" +:+ str_lower (url_netloc parsed)
      +:+ py_rstrip "/" (url_path parsed)).

Definition _card_base_url (card_url : string) : string :=
  py_rstrip "/" (split1_head "/input/" card_url).

Definition _verify_integrity (include_values : bool) (r : row) : result unit :=
  schema_ok ← compare_digest (schema_hash r) (_json_hash (schema_json r));
  raise_if (negb schema_ok) FieldSubmissionIntegrityError
    "field submission schema integrity check failed";;
  if negb include_values then Ok tt
  else match values_json r with
       | None => Ok tt
       | Some values_json =>
           values_ok ← compare_digest (or_empty (values_hash r)) (_json_hash values_json);
           raise_if (negb values_ok) FieldSubmissionIntegrityError
             "field submission values integrity check failed"
       end.

Definition _submission_from_row (include_values : bool) (ir : string * row) : result view :=
  let '(id, r) := ir in
  form_schema ← loads (schema_json r);
  values ← match values_json r with
    | Some text => if include_values then v ← loads text; Ok (Some v) else Ok None
    | None => Ok None
    end;
  Ok {| v_submission_id := id; v_user_subject := user_subject r;
        v_system_id := system_id r; v_session_id := session_id r;
        v_capability_name := capability_name r; v_capability_version := capability_version r;
        v_create_operation_id := create_operation_id r;
        v_supersession_key := supersession_key r; v_schema_hash := schema_hash r;
        v_card_url := card_url r; v_state := row_state r;
        v_consume_operation_id := consume_operation_id r; v_created_at := created_at r;
        v_updated_at := updated_at r; v_expires_at := expires_at r;
        v_submitted_at := submitted_at r; v_consumed_at := consumed_at r;
        v_form_schema := form_schema; v_values := values |}.

(** ** Row updates *)

(** [SET state = ?, csrf_hash = NULL, updated_at = ?] *)
Definition closed_row (st : state) (now : instant) (r : row) : row :=
  {| row_contract := r; values_json := values_json r; values_hash := values_hash r;
     csrf_hash := None; row_state := st; consume_operation_id := consume_operation_id r;
     updated_at := now; submitted_at := submitted_at r; consumed_at := consumed_at r |}.

Definition submitted_row (text hash : string) (now : instant) (r : row) : row :=
  {| row_contract := r; values_json := Some text; values_hash := Some hash;
     csrf_hash := None; row_state := Submitted; consume_operation_id := consume_operation_id r;
     updated_at := now; submitted_at := Some now; consumed_at := consumed_at r |}.

Definition consumed_row (operation : string) (now : instant) (r : row) : row :=
  {| row_contract := r; values_json := values_json r; values_hash := values_hash r;
     csrf_hash := csrf_hash r; row_state := Consumed; consume_operation_id := Some operation;
     updated_at := now; submitted_at := submitted_at r; consumed_at := Some now |}.

(** The trigger [immutable_submitted_field_values], for the only statement that
    updates the columns it watches (which sets both of them and the state). *)
Definition values_written (r : row) : bool :=
  negb (bool_decide (row_state r = Pending /\ values_json r = None /\ values_hash r = None)).

(** [state IN ('pending', 'submitted')] *)
Definition is_live (r : row) : bool :=
  match row_state r with Pending | Submitted => true | _ => false end.

(** ** The store *)

Section Store.
Context {O : Type} `{UnicodeTables, UrlTables}.

Record store : Type := MkStore {
  submissions : gmap string row;
  card_tables : cards;
  others : O;
}.

Definition set_submissions (t : gmap string row) (s : store) : store :=
  MkStore t (card_tables s) (others s).
Definition set_cards (c : cards) (s : store) : store :=
  MkStore (submissions s) c (others s).

Definition _select (id : string) : tx store row :=
  t ← gets submissions;
  match t !! id with
  | Some r => mret r
  | None => raise FieldSubmissionNotFound ("field submission not found: " +:+ id)
  end.

Definition _select_presentation (id pid : string) : tx store presentation_row :=
  c ← gets card_tables;
  match find_presentation id pid c with
  | Some p => mret p
  | None => raise FieldSubmissionNotFound "field submission presentation not found"
  end.

(** [clock] is the second reading of the clock, taken inside the method. *)
Definition _expire_if_needed (id : string) (r : row) (clock : datetime) : tx store row :=
  now ← lift (_as_utc clock);
  if is_live r && (expires_at r <=? now)%Z then
    modify (fun s => set_submissions (<[id := closed_row Expired now r]> (submissions s)) s);;
    modify (fun s => set_cards (expire_cards (String.eqb id) now (card_tables s)) s);;
    _select id
  else mret r.

(** The rows a new submission supersedes. *)
Definition same_slot (user capability key : string) (r : row) : bool :=
  String.eqb (user_subject r) user && String.eqb (capability_name r) capability
  && String.eqb (supersession_key r) key && is_live r.

(** [submission_id IN (SELECT .. WHERE user_subject = ? AND capability_name = ?
    AND state = 'superseded')] *)
Definition superseded_for (user capability : string) (t : gmap string row) (id : string) : bool :=
  match (t !! id : option row) with
  | Some r => String.eqb (user_subject r) user && String.eqb (capability_name r) capability
              && bool_decide (row_state r = Superseded)
  | None => false
  end.

(** The row [create] inserts. *)
Definition new_row (a : create_args) (key base_url : string) (now : instant) (id : string) : row :=
  let schema_json := _canonical_json (a_form_schema a) in
  {| row_contract :=
       {| user_subject := a_user_subject a; system_id := a_system_id a;
          session_id := a_session_id a; capability_name := a_capability_name a;
          capability_version := a_capability_version a;
          create_operation_id := a_create_operation_id a; supersession_key := key;
          schema_json := schema_json; schema_hash := _json_hash schema_json;
          card_url := base_url +:+ "/input/" +:+ id;
          created_at := now; expires_at := (now + seconds (a_ttl_seconds a))%Z |};
     values_json := None; values_hash := None; csrf_hash := None; row_state := Pending;
     consume_operation_id := None; updated_at := now; submitted_at := None; consumed_at := None |}.

(** [isinstance(fields, list) and fields] for [fields = form_schema.get("fields")] *)
Definition defines_fields (form_schema : json) : bool :=
  let fields := jget_or_null form_schema "fields" in is_list fields && json_truthy fields.

Definition create_body (a : create_args) (clock : datetime) (submission_id : string)
  : tx store (string * row) :=
  let missing := names_where (fun v => negb (truthy (py_strip v)))
    [("user_subject", a_user_subject a); ("system_id", a_system_id a);
     ("session_id", a_session_id a); ("capability_name", a_capability_name a);
     ("capability_version", a_capability_version a);
     ("create_operation_id", a_create_operation_id a)] in
  raise_if (bool_decide (missing <> [])) ValueError
    ("field submission is missing: " +:+ py_join ", " missing);;
  raise_if (negb (is_dict (a_form_schema a))) TypeError
    "field submission schema must be an object";;
  raise_if (negb (defines_fields (a_form_schema a))) ValueError
    "field submission schema must define fields";;
  raise_if ((a_ttl_seconds a <? 30) || (1800 <? a_ttl_seconds a))%Z ValueError
    "field submission TTL must be between 30 and 1800 seconds";;
  let key := py_strip (a_supersession_key a) in
  raise_if (128 <? py_len key)%Z ValueError
    "field submission supersession key is too long";;
  base_url ← lift (_validate_card_base_url (a_card_base_url a));
  now ← lift (_as_utc clock);
  modify (fun s => set_submissions
    (update_where (same_slot (a_user_subject a) (a_capability_name a) key)
       (closed_row Superseded now) (submissions s)) s);;
  modify (fun s => set_cards
    (expire_cards (superseded_for (a_user_subject a) (a_capability_name a) (submissions s))
       now (card_tables s)) s);;
  t ← gets submissions;
  t' ← lift (insert_row submission_id (fun _ => false)
                (new_row a key base_url now submission_id) t);
  modify (set_submissions t');;
  r ← _select submission_id;
  mret (submission_id, r).

Definition create a clock submission_id : store -> result view * store :=
  method (create_body a clock submission_id) (_submission_from_row false).

Definition get_body (id : string) (include_values : bool) (clock : datetime)
  : tx store (string * row) :=
  r ← _select id;
  r ← _expire_if_needed id r clock;
  lift (_verify_integrity include_values r);;
  mret (id, r).

Definition get id (include_values : bool) clock : store -> result view * store :=
  method (get_body id include_values clock) (_submission_from_row include_values).

Definition create_presentation (id user endpoint : string) (clock1 clock2 : datetime)
    (presentation_id : string) : tx store (string * presentation_row) :=
  let user := py_strip user in
  let endpoint := py_strip endpoint in
  raise_if (negb (truthy user && truthy endpoint)) ValueError
    "field submission presentation identity is required";;
  now ← lift (_as_utc clock1);
  r ← _select id;
  a ← _expire_if_needed id r clock2;
  raise_if (negb (String.eqb (user_subject a) user)) FieldSubmissionNotFound
    ("field submission not found: " +:+ id);;
  c ← gets card_tables;
  match find_endpoint id endpoint c with
  | Some existing => mret existing
  | None =>
      c ← gets card_tables;
      c' ← lift (insert_presentation presentation_id
        {| pr_owner := id; pr_user_subject := user; pr_endpoint_id := endpoint;
           pr_card_url := _card_base_url (card_url a) +:+ "/input/" +:+ id
                          +:+ "/present/" +:+ presentation_id;
           pr_state := match row_state a with
                       | Pending => PActive
                       | Expired | Superseded => PExpired
                       | _ => PSettled
                       end;
           pr_created_at := now; pr_updated_at := now; pr_expires_at := expires_at a;
           pr_opened_at := None; pr_settled_at := None |} c);
      modify (set_cards c');;
      p ← _select_presentation id presentation_id;
      mret (presentation_id, p)
  end.

Definition get_presentation (id pid : string) : tx store presentation_row :=
  _select_presentation id pid.

Definition issue_csrf (id : string) (presentation_id : option string) (clock1 clock2 : datetime)
    (token card_session_id : string) : tx store string :=
  now ← lift (_as_utc clock1);
  r ← _select id;
  r ← _expire_if_needed id r clock2;
  lift (_verify_integrity false r);;
  raise_if (negb (bool_decide (row_state r = Pending))) FieldSubmissionStateError
    ("field submission is not pending: " +:+ state_text (row_state r));;
  endpoint_id ← match presentation_id with
    | None => mret None
    | Some pid =>
        p ← _select_presentation id pid;
        modify (fun s => set_cards (open_presentation pid now (card_tables s)) s);;
        mret (Some (pr_endpoint_id p))
    end;
  c ← gets card_tables;
  c' ← lift (insert_session card_session_id
    {| cs_owner := id; cs_presentation_id := presentation_id; cs_endpoint_id := endpoint_id;
       cs_csrf_hash := _token_hash token; cs_state := CPending; cs_created_at := now;
       cs_expires_at := expires_at r; cs_consumed_at := None |} c);
  modify (set_cards c');;
  mret token.

Definition submit_body (id csrf_token csrf_cookie : string) (values : json)
    (presentation_id : option string) (clock1 clock2 : datetime) : tx store (string * row) :=
  raise_if (negb (is_dict values)) TypeError "submitted field values must be an object";;
  let text := _canonical_json values in
  now ← lift (_as_utc clock1);
  r ← _select id;
  r ← _expire_if_needed id r clock2;
  lift (_verify_integrity false r);;
  raise_if (negb (bool_decide (row_state r = Pending))) FieldSubmissionStateError
    ("field submission is not pending: " +:+ state_text (row_state r));;
  let supplied_hash := if truthy csrf_token then _token_hash csrf_token else "" in
  match presentation_id with
  | None => mret tt
  | Some pid => _select_presentation id pid;; mret tt
  end;;
  session ← gets (fun s => find_session id presentation_id supplied_hash (card_tables s));
  rejected ← lift (csrf_rejected session csrf_token csrf_cookie supplied_hash);
  raise_if rejected FieldSubmissionAccessDenied "field submission card CSRF validation failed";;
  t ← gets submissions;
  raise_if (match t !! id with
            | Some r => bool_decide (row_state r = Pending) && values_written r
            | None => false
            end)
    SqliteIntegrityError "submitted field values are immutable";;
  let '(t', rowcount) :=
    update_key id (fun r => bool_decide (row_state r = Pending))
      (submitted_row text (_json_hash text) now) t in
  modify (set_submissions t');;
  raise_if (negb (rowcount =? 1)%nat) FieldSubmissionStateError
    "field submission could not be submitted";;
  modify (fun s => set_cards (settle_cards id now (card_tables s)) s);;
  r ← _select id;
  lift (_verify_integrity true r);;
  mret (id, r).

Definition submit id csrf_token csrf_cookie values presentation_id clock1 clock2
  : store -> result view * store :=
  method (submit_body id csrf_token csrf_cookie values presentation_id clock1 clock2)
    (_submission_from_row false).

Definition run_callback (callback : option (tx store unit)) : tx store unit :=
  match callback with Some f => f | None => mret tt end.

Definition supersede (id user : string) (pending_only : bool)
    (before_supersede : option (tx store unit)) (clock : datetime) : tx store unit :=
  r ← _select id;
  raise_if (negb (String.eqb (user_subject r) user)) FieldSubmissionAccessDenied
    "field submission belongs to another user";;
  raise_if (pending_only && negb (bool_decide (row_state r = Pending \/ row_state r = Superseded)))
    FieldSubmissionStateError "field submission is no longer pending";;
  if negb (is_live r) then mret tt
  else
    run_callback before_supersede;;
    now ← lift (_as_utc clock);
    modify (fun s => set_submissions
      (fst (update_key id (fun _ => true) (closed_row Superseded now) (submissions s))) s);;
    modify (fun s => set_cards (expire_cards (String.eqb id) now (card_tables s)) s).

Definition bindings_match (a : consume_args) (r : row) : bool :=
  String.eqb (user_subject r) (c_user_subject a)
  && String.eqb (system_id r) (c_system_id a)
  && String.eqb (session_id r) (c_session_id a)
  && String.eqb (capability_name r) (c_capability_name a)
  && String.eqb (capability_version r) (c_capability_version a).

Definition consume_body (id : string) (a : consume_args) (clock1 clock2 : datetime)
  : tx store (string * row) :=
  now ← lift (_as_utc clock1);
  r ← _select id;
  r ← _expire_if_needed id r clock2;
  raise_if (negb (bool_decide (row_state r = Submitted))) FieldSubmissionStateError
    ("field submission is not submitted: " +:+ state_text (row_state r));;
  raise_if (negb (bindings_match a r)) FieldSubmissionAccessDenied
    "field submission is not bound to this user, session, or capability";;
  lift (_verify_integrity true r);;
  t ← gets submissions;
  let '(t', rowcount) :=
    update_key id (fun r => bool_decide (row_state r = Submitted))
      (consumed_row (c_consume_operation_id a) now) t in
  modify (set_submissions t');;
  raise_if (negb (rowcount =? 1)%nat) FieldSubmissionStateError
    "field submission could not be consumed";;
  r ← _select id;
  mret (id, r).

Definition consume id a clock1 clock2 : store -> result view * store :=
  method (consume_body id a clock1 clock2) (_submission_from_row true).

(** One transaction of the store, whatever its arguments and outcome.  A
    callback of [supersede] may do anything to [others]. *)
Definition frames (callback : option (tx store unit)) : Prop :=
  forall s u s', run_callback callback s = Ok (u, s') ->
    submissions s' = submissions s /\ card_tables s' = card_tables s.

Inductive step (s : store) : store -> Prop :=
  | step_create a clock id : step s (snd (create a clock id s))
  | step_get id include_values clock : step s (snd (get id include_values clock s))
  | step_create_presentation id user endpoint clock1 clock2 pid :
      step s (after (create_presentation id user endpoint clock1 clock2 pid) s)
  | step_issue_csrf id pid clock1 clock2 token sid :
      step s (after (issue_csrf id pid clock1 clock2 token sid) s)
  | step_submit id token cookie values pid clock1 clock2 :
      step s (snd (submit id token cookie values pid clock1 clock2 s))
  | step_supersede id user pending_only callback clock :
      frames callback -> step s (after (supersede id user pending_only callback clock) s)
  | step_consume id a clock1 clock2 : step s (snd (consume id a clock1 clock2 s)).

Definition initial (s : store) : Prop := submissions s = ∅ /\ card_tables s = no_cards.

End Store.

Arguments store : clear implicits.
