(* ===== verification/FieldSubmissionFacts.v ===== *)
(** * Field submissions: specifications, invariant, transitions *)

From S2P Require Import Prelude PyStr Json JsonFacts Sha256 Store Cards CardOwners.
From S2P Require Import FieldSubmissions.

#[export] Instance submission_owner : CardOwner row contract state := {|
  owner_contract := row_contract;
  owner_state := row_state;
  owner_slot := fun k => (user_subject k, capability_name k, supersession_key k);
  owner_expires := expires_at;
  st_live := fun st => match st with Pending | Submitted => true | _ => false end;
  st_pending := Pending;
  pending_live := eq_refl;
|}.

Section Facts.
Context {O : Type} `{UnicodeTables, UrlTables}.
Implicit Types (s t u : store O) (r : row).

(** ** What a returning body did *)

Lemma fs_select_Ok id s r s' :
  _select id s = Ok (r, s') <-> submissions s !! id = Some r /\ s' = s.
Proof.
  unfold _select. rewrite tx_bind_Ok. setoid_rewrite tx_gets_Ok. split.
  - intros (? & ? & [-> ->] & Hk). destruct (submissions s !! id) eqn:E; autorewrite with tx in Hk; naive_solver.
  - intros [E ->]. do 2 eexists. split; [done|]. by rewrite E.
Qed.

Lemma fs_select_presentation_bind {B} id pid (k : presentation_row -> tx (store O) B) s x :
  (p ← _select_presentation id pid; k p) s = Ok x <->
  exists p, find_presentation id pid (card_tables s) = Some p /\ k p s = Ok x.
Proof.
  unfold _select_presentation, pbind, mbind, tx_bind, gets.
  destruct (find_presentation _ _ _) as [p|]; cbn; naive_solver.
Qed.

(** The row, and the store, after the expiry check of [id] at [now]. *)
Definition checked (now : instant) (r : row) : row :=
  if is_live r && (expires_at r <=? now)%Z then closed_row Expired now r else r.

Definition expire_store (id : string) (now : instant) (s : store O) : store O :=
  match submissions s !! id with
  | Some r =>
      if is_live r && (expires_at r <=? now)%Z
      then MkStore (<[id := closed_row Expired now r]> (submissions s))
             (expire_cards (String.eqb id) now (card_tables s)) (others s)
      else s
  | None => s
  end.

Lemma fs_expire_store_lookup id now s :
  submissions (expire_store id now s) !! id = checked now <$> submissions s !! id.
Proof.
  unfold expire_store, checked. destruct (submissions s !! id) as [r|] eqn:Hr; [|done].
  cbn. destruct (is_live r && _); cbn; [by rewrite lookup_insert_eq|by rewrite Hr].
Qed.

Lemma fs_select_run id s r : submissions s !! id = Some r -> _select id s = Ok (r, s).
Proof. intros Hr. by apply fs_select_Ok. Qed.

(** [row = self._expire_if_needed(connection, self._select(connection, id))] *)
Lemma fs_fetch_run {B} id clock (k : row -> tx (store O) B) s :
  (r ← _select id; r' ← _expire_if_needed id r clock; k r') s =
  match submissions s !! id, clock with
  | None, _ => raise FieldSubmissionNotFound ("field submission not found: " +:+ id)
  | Some r, Aware now => k (checked now r) (expire_store id now s)
  | Some r, Naive _ =>
      raise ValueError "field submission clock must return timezone-aware datetime"
  end.
Proof.
  destruct (submissions s !! id) as [r|] eqn:Hr.
  - erewrite tx_bind_run by (by apply fs_select_run). destruct clock as [now|]; [|done].
    unfold checked, expire_store. rewrite Hr. unfold _expire_if_needed.
    destruct (is_live r && _) eqn:E.
    + erewrite tx_bind_run; [done|]. erewrite tx_bind_run by reflexivity. rewrite E.
      do 2 (erewrite tx_bind_run by reflexivity). apply fs_select_run. apply lookup_insert_eq.
    + erewrite tx_bind_run; [done|]. erewrite tx_bind_run by reflexivity. by rewrite E.
  - unfold _select, pbind, mbind, tx_bind, gets. by rewrite Hr.
Qed.

Lemma fs_fetch_bind {B} id clock (k : row -> tx (store O) B) s x :
  (r ← _select id; r' ← _expire_if_needed id r clock; k r') s = Ok x <->
  exists now r, clock = Aware now /\
    submissions (expire_store id now s) !! id = Some r /\
    k r (expire_store id now s) = Ok x.
Proof.
  rewrite fs_fetch_run. destruct (submissions s !! id) as [r0|] eqn:Hr.
  - destruct clock as [now|]; split.
    + intros Hk. exists now, (checked now r0). by rewrite fs_expire_store_lookup, Hr.
    + intros (? & r & [= <-] & Hl & Hk). rewrite fs_expire_store_lookup, Hr in Hl. by injection Hl as <-.
    + done.
    + by intros (? & ? & ? & _).
  - split; [done|]. intros (now & r & -> & Hl & _). by rewrite fs_expire_store_lookup, Hr in Hl.
Qed.

Lemma fs_select_bind {B} id (k : row -> tx (store O) B) s x :
  (r ← _select id; k r) s = Ok x <->
  exists r, submissions s !! id = Some r /\ k r s = Ok x.
Proof.
  destruct x as [x s']. rewrite tx_bind_Ok. setoid_rewrite fs_select_Ok. split.
  - intros (r & ? & [Hr ->] & Hk). eauto.
  - intros (r & Hr & Hk). eauto.
Qed.

(** A live row that survives the expiry check was not touched by it. *)
Lemma fs_expire_store_live id now s r :
  submissions (expire_store id now s) !! id = Some r -> is_live r = true ->
  expire_store id now s = s /\ (now < expires_at r)%Z.
Proof.
  unfold expire_store. destruct (submissions s !! id) as [r0|] eqn:Hr; [|congruence].
  destruct (is_live r0 && (expires_at r0 <=? now)%Z) eqn:E; cbn.
  - rewrite lookup_insert_eq. by intros [= <-].
  - rewrite Hr. intros [= <-] Hl. rewrite Hl in E. cbn in E. split; [done|].
    by apply Z.leb_gt in E.
Qed.

Lemma fs_expire_store_fresh id now s r :
  submissions s !! id = Some r -> (now < expires_at r)%Z ->
  expire_store id now s = s /\ checked now r = r.
Proof.
  intros Hr Hn. unfold expire_store, checked. rewrite Hr.
  destruct (expires_at r <=? now)%Z eqn:E; [apply Z.leb_le in E; lia|]. by rewrite andb_false_r.
Qed.

(** The store after a successful [create]. *)
Definition created (a : create_args) (base : string) (now : instant) (id : string) (s : store O)
  : store O :=
  let key := py_strip (a_supersession_key a) in
  let t := update_where (same_slot (a_user_subject a) (a_capability_name a) key)
             (closed_row Superseded now) (submissions s) in
  MkStore (<[id := new_row a key base now id]> t)
    (expire_cards (superseded_for (a_user_subject a) (a_capability_name a) t) now (card_tables s))
    (others s).

Definition valid_create (a : create_args) : Prop :=
  names_where (fun v => negb (truthy (py_strip v)))
    [("user_subject", a_user_subject a); ("system_id", a_system_id a);
     ("session_id", a_session_id a); ("capability_name", a_capability_name a);
     ("capability_version", a_capability_version a);
     ("create_operation_id", a_create_operation_id a)] = [] /\
  is_dict (a_form_schema a) = true /\ defines_fields (a_form_schema a) = true /\
  (30 <= a_ttl_seconds a <= 1800)%Z /\
  (py_len (py_strip (a_supersession_key a)) <= 128)%Z.

Lemma fs_create_body_Ok a clock id s ir s' :
  create_body a clock id s = Ok (ir, s') <->
  exists now base, valid_create a /\ clock = Aware now /\
    _validate_card_base_url (a_card_base_url a) = Ok base /\
    submissions s !! id = None /\
    s' = created a base now id s /\
    ir = (id, new_row a (py_strip (a_supersession_key a)) base now id).
Proof.
  unfold create_body, valid_create. set (missing := names_where _ _). split.
  - intros Hb. tx_inv Hb. apply as_utc_Ok in E0 as ->.
    apply insert_row_Ok in E1 as (Hn & _ & ->).
    apply fs_select_bind in Hb as (r & Hr & Hb). tx_inv Hb.
    cbn in Hr. rewrite lookup_insert_eq in Hr. injection Hr as <-.
    cbn in Hn. rewrite lookup_update_where, fmap_None in Hn. bool_simpl.
    do 2 eexists. split_and!; try done; try lia.
    by apply dec_stable.
  - intros (now & base & (H1 & H2 & H3 & H4 & H5) & -> & Hbase & Hn & -> & ->).
    repeat first [tx_run1 | eassumption | reflexivity].
    + by rewrite bool_decide_eq_false_2 by tauto.
    + by rewrite H2.
    + by rewrite H3.
    + apply orb_false_iff. rewrite !Z.ltb_ge. lia.
    + by apply Z.ltb_ge.
    + apply insert_row_Ok. split_and!; [|by apply exists_where_false|reflexivity].
      cbn. by rewrite lookup_update_where, Hn.
    + apply fs_select_bind. eexists. split; [|reflexivity]. apply lookup_insert_eq.
Qed.

(** ** The other bodies *)

Lemma verify_schema (r : row) b : _verify_integrity b r = Ok tt -> schema_hash r = _json_hash (schema_json r).
Proof.
  unfold _verify_integrity. rewrite result_bind_Ok. intros (same & Hs & Hb).
  destruct same; [|done]. by apply compare_digest_true in Hs.
Qed.

Lemma verify_values r text :
  _verify_integrity true r = Ok tt -> values_json r = Some text ->
  or_empty (values_hash r) = _json_hash text.
Proof.
  unfold _verify_integrity. intros Hv Ht. rewrite Ht in Hv.
  apply result_bind_Ok in Hv as (b & _ & Hv). apply result_bind_Ok in Hv as ([] & _ & Hv).
  cbn in Hv. apply result_bind_Ok in Hv as ([] & Hs & Hv); [|done].
  by apply compare_digest_true in Hs.
Qed.

Lemma fs_get_body_Ok id include_values clock s ir s' :
  get_body id include_values clock s = Ok (ir, s') <->
  exists now r, clock = Aware now /\ s' = expire_store id now s /\
    submissions s' !! id = Some r /\ _verify_integrity include_values r = Ok tt /\ ir = (id, r).
Proof.
  unfold get_body. rewrite fs_fetch_bind. split.
  - intros (now & r & -> & Hr & Hb). tx_inv Hb. destruct a. eauto 8.
  - intros (now & r & -> & -> & Hr & Hv & ->). exists now, r. split_and!; [done|done|].
    apply tx_lift_bind. eauto.
Qed.

Lemma fs_create_presentation_Ok id user endpoint clock1 clock2 pid s x s' :
  create_presentation id user endpoint clock1 clock2 pid s = Ok (x, s') ->
  exists now1 now2 (r : row), clock1 = Aware now1 /\ clock2 = Aware now2 /\
    let s1 := expire_store id now2 s in
    submissions s1 !! id = Some r /\ user_subject r = py_strip user /\
    (s' = s1 \/ exists p c', pr_owner p = id /\
       (pr_state p = PActive <-> row_state r = Pending) /\
       insert_presentation pid p (card_tables s1) = Ok c' /\ s' = set_cards c' s1).
Proof.
  intros Hb. unfold create_presentation in Hb. tx_inv Hb. apply as_utc_Ok in E as ->.
  apply fs_fetch_bind in Hb as (now2 & r & -> & Hr & Hb). tx_inv Hb. bool_simpl.
  exists a, now2, r. split_and!; try done.
  destruct (find_endpoint _ _ _) as [existing|].
  - tx_inv Hb. by left.
  - tx_inv Hb. apply fs_select_presentation_bind in Hb as (p & Hp & Hb). tx_inv Hb.
    right. do 2 eexists. split_and!; [| |exact E|done]; [done|].
    cbn. destruct (row_state r); split; congruence.
Qed.

Lemma fs_issue_csrf_Ok id pid clock1 clock2 token sid s x s' :
  issue_csrf id pid clock1 clock2 token sid s = Ok (x, s') ->
  exists now1 now2 (r : row) c (q : card_session_row) c', clock1 = Aware now1 /\ clock2 = Aware now2 /\
    let s1 := expire_store id now2 s in
    submissions s1 !! id = Some r /\ row_state r = Pending /\
    c = match pid with Some p => open_presentation p now1 (card_tables s1)
                     | None => card_tables s1 end /\
    cs_owner q = id /\ cs_state q = CPending /\ cs_csrf_hash q = _token_hash token /\
    cs_presentation_id q = pid /\
    insert_session sid q c = Ok c' /\ s' = set_cards c' s1 /\ x = token.
Proof.
  intros Hb. unfold issue_csrf in Hb. tx_inv Hb. apply as_utc_Ok in E as ->.
  apply fs_fetch_bind in Hb as (now2 & r & -> & Hr & Hb). tx_inv Hb. bool_simpl.
  destruct pid as [pid|].
  - apply tx_bind_Ok in Hb as (e & s2 & He & Hb).
    apply fs_select_presentation_bind in He as (p & Hp & He). tx_inv He. tx_inv Hb.
    eexists a, now2, r, _, _, _. cbv zeta.
    split_and!; [done|done|exact Hr|done|reflexivity|..|eassumption|done|done]; done.
  - tx_inv Hb. eexists a, now2, r, _, _, _. cbv zeta.
    split_and!; [done|done|exact Hr|done|reflexivity|..|eassumption|done|done]; done.
Qed.

Lemma submit_body_Ok id token cookie values pid clock1 clock2 s ir s' :
  submit_body id token cookie values pid clock1 clock2 s = Ok (ir, s') ->
  exists now1 now2 (r : row) session, clock1 = Aware now1 /\ clock2 = Aware now2 /\
    let s1 := expire_store id now2 s in
    let text := _canonical_json values in
    let r' := submitted_row text (_json_hash text) now1 r in
    is_dict values = true /\
    submissions s1 !! id = Some r /\ row_state r = Pending /\
    values_json r = None /\ values_hash r = None /\
    find_session id pid (_token_hash token) (card_tables s1) = Some session /\
    token <> "" /\ cookie = token /\
    ir = (id, r') /\
    s' = MkStore (<[id := r']> (submissions s1)) (settle_cards id now1 (card_tables s1)) (others s1).
Proof.
  intros Hb. unfold submit_body in Hb. tx_inv Hb.
  apply negb_false_iff in G. apply as_utc_Ok in E as ->.
  apply fs_fetch_bind in Hb as (now2 & r & -> & Hr & Hb). tx_inv Hb. bool_simpl.
  apply tx_bind_Ok in Hb as (u & s2 & Hp & Hb).
  assert (s2 = expire_store id now2 s) as ->.
  { destruct pid as [p|]; [|by injection Hp as _ ->].
    apply fs_select_presentation_bind in Hp as (? & _ & Hp). by injection Hp as _ ->. }
  clear Hp u. apply tx_gets_bind, tx_lift_bind in Hb as (b & Ec & Hb). tx_inv Hb. subst b.
  destruct (csrf_accepted _ _ _ _ Ec) as (session & Hs & Hc & -> & Hh).
  rewrite (proj2 (truthy_true cookie)) in * by done.
  rewrite Hr in G2. rewrite bool_decide_eq_true_2 in G2 by done.
  unfold values_written in G2. cbn in G2. apply negb_false_iff, bool_decide_eq_true in G2 as (_ & Hv1 & Hv2).
  rewrite (update_key_hit _ _ _ _ _ Hr) in Hb by (by apply bool_decide_eq_true).
  tx_inv Hb. apply fs_select_bind in Hb as (r' & Hr' & Hb). tx_inv Hb.
  cbn in Hr'. rewrite lookup_insert_eq in Hr'. injection Hr' as <-.
  exists a, now2, r, session. rewrite Hs. split_and!; done.
Qed.

Lemma fs_supersede_Ok id user pending_only callback clock s x s' :
  frames callback ->
  supersede id user pending_only callback clock s = Ok (x, s') ->
  exists r : row, submissions s !! id = Some r /\ user_subject r = user /\
    (pending_only = true -> row_state r = Pending \/ row_state r = Superseded) /\
    ((is_live r = false /\ s' = s) \/
     (is_live r = true /\ exists now s1, clock = Aware now /\
        run_callback callback s = Ok (tt, s1) /\
        s' = MkStore (<[id := closed_row Superseded now r]> (submissions s))
               (expire_cards (String.eqb id) now (card_tables s)) (others s1))).
Proof.
  intros Hf Hb. unfold supersede in Hb. apply fs_select_bind in Hb as (r & Hr & Hb).
  tx_inv Hb. bool_simpl. exists r. split_and!; [done|done| |].
  - intros ->. cbn in G0. bool_simpl. done.
  - destruct (is_live r); cbn in Hb; [right|left; by tx_inv Hb].
    split; [done|]. apply tx_bind_Ok in Hb as ([] & s1 & Hcb & Hb). tx_inv Hb.
    apply as_utc_Ok in E as ->. apply tx_modify_Ok in Hb as ->.
    exists a, s1. split_and!; [done|done|]. destruct (Hf _ _ _ Hcb) as [Ha Hc].
    unfold set_cards, set_submissions. cbn. by rewrite Ha, Hc, (update_key_hit _ _ _ _ r).
Qed.

Lemma fs_consume_body_Ok id a clock1 clock2 s ir s' :
  consume_body id a clock1 clock2 s = Ok (ir, s') ->
  exists now1 now2 (r : row), clock1 = Aware now1 /\ clock2 = Aware now2 /\
    let s1 := expire_store id now2 s in
    let r' := consumed_row (c_consume_operation_id a) now1 r in
    submissions s1 !! id = Some r /\ row_state r = Submitted /\
    bindings_match a r = true /\ _verify_integrity true r = Ok tt /\
    ir = (id, r') /\ s' = set_submissions (<[id := r']> (submissions s1)) s1.
Proof.
  intros Hb. unfold consume_body in Hb. tx_inv Hb. apply as_utc_Ok in E as ->.
  apply fs_fetch_bind in Hb as (now2 & r & -> & Hr & Hb). tx_inv Hb. bool_simpl.
  rewrite (update_key_hit _ _ _ _ _ Hr) in Hb by (by apply bool_decide_eq_true).
  tx_inv Hb. apply fs_select_bind in Hb as (r' & Hr' & Hb). tx_inv Hb.
  cbn in Hr'. rewrite lookup_insert_eq in Hr'. injection Hr' as <-.
  exists a0, now2, r. destruct a1. split_and!; done.
Qed.

(** ** The invariant *)

(** Each row alone: the schema digest is that of the schema; values and their digest
    are written together; a row has values exactly when it has been submitted. *)
Record row_ok (r : row) : Prop := {
  ok_schema : schema_hash r = _json_hash (schema_json r);
  ok_csrf : csrf_hash r = None;
  ok_values : values_hash r = _json_hash <$> values_json r;
  ok_submitted_at : is_Some (submitted_at r) <-> is_Some (values_json r);
  ok_pending : row_state r = Pending -> values_json r = None;
  ok_submitted : row_state r = Submitted \/ row_state r = Consumed -> is_Some (values_json r);
  ok_consumed : row_state r = Consumed <-> is_Some (consume_operation_id r);
  ok_consumed_at : row_state r = Consumed <-> is_Some (consumed_at r);
}.

Record Inv s : Prop := {
  inv_rows : forall id r, submissions s !! id = Some r -> row_ok r;
  inv_owners : owners_ok (submissions s) (card_tables s);
}.

Lemma fs_is_live_spec r : is_live r = true <-> row_state r = Pending \/ row_state r = Submitted.
Proof. unfold is_live. destruct (row_state r); naive_solver. Qed.

Lemma same_digest text : compare_digest (_json_hash text) (_json_hash text) = Ok true.
Proof. apply compare_digest_refl, json_hash_ascii. Qed.

(** The integrity check never fails on a well-formed row. *)
Lemma row_ok_verifies r b : row_ok r -> _verify_integrity b r = Ok tt.
Proof.
  intros [H1 _ H3 _ _ _ _ _]. unfold _verify_integrity. rewrite H1, same_digest. cbn.
  destruct b; cbn; [|done]. destruct (values_json r) as [text|]; [|done]. rewrite H3.
  change (or_empty _) with (_json_hash text).
  by rewrite same_digest.
Qed.

Lemma row_ok_closed st now r :
  row_ok r -> is_live r = true -> st = Expired \/ st = Superseded -> row_ok (closed_row st now r).
Proof.
  intros [H1 H2 H3 H4 H5 H6 H7 H8] Hl%fs_is_live_spec Hst. split; cbn; try done.
  - destruct Hst; congruence.
  - destruct Hst; naive_solver congruence.
  - rewrite <- H7. naive_solver congruence.
  - rewrite <- H8. naive_solver congruence.
Qed.

Lemma row_ok_submitted text now r :
  row_ok r -> row_state r = Pending -> row_ok (submitted_row text (_json_hash text) now r).
Proof.
  intros [H1 H2 H3 H4 H5 H6 H7 H8] Hp. split; cbn; try done.
  - rewrite <- H7. naive_solver congruence.
  - rewrite <- H8. naive_solver congruence.
Qed.

Lemma fs_row_ok_consumed op now r :
  row_ok r -> row_state r = Submitted -> row_ok (consumed_row op now r).
Proof. intros [H1 H2 H3 H4 H5 H6 H7 H8] Hp. split; cbn; try done; eauto. Qed.

Lemma fs_row_ok_new a key base now id : row_ok (new_row a key base now id).
Proof. split; cbn; try done; try naive_solver; split; try done; by intros [? ?]. Qed.

Lemma fs_Inv_initial s : initial s -> Inv s.
Proof.
  intros [Ha Hc]. split; rewrite Ha; [intros id r; by rewrite lookup_empty|].
  rewrite Hc. apply owners_ok_empty.
Qed.

Lemma fs_Inv_touch s id r r' c' o' :
  Inv s -> submissions s !! id = Some r ->
  row_contract r' = row_contract r -> row_ok r' ->
  (is_live r' = true -> is_live r = true) ->
  live_cards (fun o => pending_in (submissions s) o /\ (o = id -> row_state r' = Pending)) c' ->
  Inv (MkStore (<[id := r']> (submissions s)) c' o').
Proof.
  intros [Hrows Howners] Hr Hk Hok Hlive Hc'. split; cbn.
  - intros k q. split_eq k id; simplify_map_eq; [by intros [= <-]|eauto].
  - by eapply owners_touch.
Qed.

Lemma fs_Inv_cards s c' :
  Inv s -> live_cards (pending_in (submissions s)) c' -> Inv (set_cards c' s).
Proof. intros [H1 H2] Hc. split; [done|]. by eapply owners_cards. Qed.

Lemma fs_Inv_expire id now s : Inv s -> Inv (expire_store id now s).
Proof.
  intros HI. unfold expire_store. destruct (submissions s !! id) as [r|] eqn:Hr; [|done].
  destruct (is_live r && _) eqn:E; [|done]. bool_simpl.
  eapply fs_Inv_touch; try done.
  - apply row_ok_closed; [|done|tauto]. by eapply inv_rows.
  - apply live_retire, HI.
Qed.

Lemma fs_same_slot_spec a key base now id r :
  same_slot (a_user_subject a) (a_capability_name a) key r = true <->
  slot_of r = slot_of (new_row a key base now id) /\ live_row r = true.
Proof.
  unfold same_slot. rewrite !andb_true_iff, !String.eqb_eq. change (live_row r) with (is_live r).
  unfold slot_of. cbn. split; [intros (((-> & ->) & ->) & Hl); auto|intros [[= -> -> ->] Hl]; auto].
Qed.

Lemma fs_same_slot_live user capability key r : same_slot user capability key r = true -> is_live r = true.
Proof. unfold same_slot. by intros [_ ?]%andb_prop. Qed.

Lemma fs_superseded_for_slot user capability key (f : row -> row) (t : gmap string row) id r :
  t !! id = Some r -> same_slot user capability key r = true ->
  row_contract (f r) = row_contract r -> row_state (f r) = Superseded ->
  superseded_for user capability (update_where (same_slot user capability key) f t) id = true.
Proof.
  intros Hr Hs Hc Hst. unfold superseded_for. rewrite lookup_update_where, Hr. cbn.
  rewrite Hs, Hc, Hst. unfold same_slot in Hs.
  by destruct (String.eqb (user_subject r) user), (String.eqb (capability_name r) capability).
Qed.

Lemma fs_Inv_created a base now id s : Inv s -> submissions s !! id = None -> Inv (created a base now id s).
Proof.
  intros [Hrows Howners] Hn. unfold created. cbv zeta. split; cbn.
  - intros k q. split_eq k id; simplify_map_eq; [intros [= <-]; apply fs_row_ok_new|].
    rewrite lookup_update_where, fmap_Some. intros (q0 & Hq & ->).
    destruct (same_slot _ _ _ q0) eqn:Hs; [|by eauto].
    apply row_ok_closed; [by eauto| |tauto]. by eapply fs_same_slot_live.
  - apply owners_insert; try done.
    + intros q. apply fs_same_slot_spec.
    + intros k q Hq Hs. by eapply fs_superseded_for_slot.
Qed.

(** Every transaction keeps the invariant. *)
Lemma fs_Inv_step s t : Inv s -> step s t -> Inv t.
Proof.
  intros HI Hst. destruct Hst; unfold create, get, submit, consume; rewrite ?method_state;
    (apply after_preserves; [|exact HI]); intros x s'.
  - destruct x as [i r]. intros (now & base & _ & _ & _ & Hn & -> & _)%fs_create_body_Ok.
    by apply fs_Inv_created.
  - destruct x as [i r]. intros (now & r' & _ & -> & _)%fs_get_body_Ok. by apply fs_Inv_expire.
  - intros (now1 & now2 & r & _ & _ & Hr & _ & Hs)%fs_create_presentation_Ok.
    assert (HI1 := fs_Inv_expire id now2 s HI). cbv zeta in *.
    destruct Hs as [->|(p & c' & Ho & Hp & Hi & ->)]; [done|].
    apply fs_Inv_cards; [done|]. eapply live_insert_presentation; [exact Hi| |apply HI1].
    intros Ha. rewrite Ho. exists r. split; [done|]. by apply Hp.
  - intros (now1 & now2 & r & c & q & c' & _ & _ & Hr & Hp & Hc & Ho & _ & _ & _ & Hi & -> & _)%fs_issue_csrf_Ok.
    assert (HI1 := fs_Inv_expire id now2 s HI). cbv zeta in *.
    apply fs_Inv_cards; [done|]. eapply live_insert_session; [exact Hi| |].
    + intros _. rewrite Ho. by exists r.
    + subst c. destruct pid; [apply live_open|]; apply HI1.
  - destruct x as [i r].
    intros (now1 & now2 & r0 & ss & _ & _ & _ & Hr & Hp & _ & _ & _ & _ & _ & _ & ->)%submit_body_Ok.
    assert (HI1 := fs_Inv_expire id now2 s HI).
    eapply fs_Inv_touch; [done|exact Hr|done| | |].
    + apply row_ok_submitted; [by eapply inv_rows|done].
    + intros _. apply fs_is_live_spec. tauto.
    + apply live_settle_touch, HI1.
  - intros (r & Hr & _ & _ & [[_ ->]|(Hl & now & s1 & _ & _ & ->)])%fs_supersede_Ok; [done| |done].
    eapply fs_Inv_touch; [done|exact Hr|done| |done|].
    + apply row_ok_closed; [by eapply inv_rows|done|tauto].
    + apply live_retire, HI.
  - destruct x as [i r].
    intros (now1 & now2 & r0 & _ & _ & Hr & Hp & _ & _ & _ & ->)%fs_consume_body_Ok.
    assert (HI1 := fs_Inv_expire id now2 s HI).
    eapply fs_Inv_touch; [done|exact Hr|done| |done|].
    + apply fs_row_ok_consumed; [by eapply inv_rows|done].
    + eapply live_cards_mono; [|apply HI1]. intros o Ho. split; [done|]. intros ->.
      destruct Ho as (q & Hq & Hqp). cbn in Hqp. congruence.
Qed.

(** ** Transitions *)

Inductive move (r r' : row) : Prop :=
  | move_closes : is_live r = true -> (row_state r' = Expired \/ row_state r' = Superseded) ->
      values_json r' = values_json r -> values_hash r' = values_hash r -> move r r'
  | move_submits : row_state r = Pending -> row_state r' = Submitted ->
      values_json r = None -> move r r'
  | move_consumes : row_state r = Submitted -> row_state r' = Consumed ->
      values_json r' = values_json r -> values_hash r' = values_hash r -> move r r'.

Definition changes s t : Prop := moves move (submissions s) (submissions t).

Lemma fs_changes_expire id now s : changes s (expire_store id now s).
Proof.
  unfold changes, expire_store. destruct (submissions s !! id) as [r|] eqn:Hr; [|apply moves_refl].
  destruct (is_live r && _) eqn:E; [|apply moves_refl]. bool_simpl.
  apply (moves_touch _ _ _ r); [done|done|]. apply move_closes; [done|by left|done|done].
Qed.

Lemma fs_changes_after {A} (m : tx (store O) A) s :
  (forall x s', m s = Ok (x, s') -> changes s s') -> changes s (after m s).
Proof.
  intros Hm. destruct (after_cases m s) as [->|[x Hx]]; [apply moves_refl|eauto].
Qed.

Lemma fs_step_changes s t : step s t -> changes s t.
Proof.
  intros Hst. destruct Hst; unfold create, get, submit, consume; rewrite ?method_state;
    apply fs_changes_after; intros x s'.
  - destruct x. intros (now & base & _ & _ & _ & Hn & -> & _)%fs_create_body_Ok.
    apply moves_insert; [done|done|]. intros q Hq%fs_same_slot_live.
    split; [done|]. apply move_closes; [done|by right|done|done].
  - destruct x. intros (now & r' & _ & -> & _)%fs_get_body_Ok. apply fs_changes_expire.
  - intros (now1 & now2 & r & _ & _ & Hr & _ & Hs)%fs_create_presentation_Ok.
    destruct Hs as [->|(p & c' & _ & _ & _ & ->)]; apply fs_changes_expire.
  - intros (now1 & now2 & r & c & q & c' & _ & _ & _ & _ & _ & _ & _ & _ & _ & _ & -> & _)%fs_issue_csrf_Ok.
    apply fs_changes_expire.
  - destruct x. intros (now1 & now2 & r0 & ss & _ & _ & _ & Hr & Hp & Hv & _ & _ & _ & _ & _ & ->)%submit_body_Ok.
    destruct (fs_expire_store_live _ _ _ _ Hr) as [E _]; [by apply fs_is_live_spec; left|].
    rewrite E in *. apply (moves_touch _ _ _ r0); [done|done|]. by apply move_submits.
  - intros (r & Hr & _ & _ & [[_ ->]|(Hl & now & s1 & _ & _ & ->)])%fs_supersede_Ok;
      [apply moves_refl| |done].
    apply (moves_touch _ _ _ r); [done|done|]. apply move_closes; [done|by right|done|done].
  - destruct x. intros (now1 & now2 & r0 & _ & _ & Hr & Hp & _ & _ & _ & ->)%fs_consume_body_Ok.
    destruct (fs_expire_store_live _ _ _ _ Hr) as [E _]; [by apply fs_is_live_spec; right|].
    rewrite E in *. apply (moves_touch _ _ _ r0); [done|done|]. by apply move_consumes.
Qed.

Lemma fs_move_live r r' : move r r' -> live_row r = true.
Proof. change (live_row r) with (is_live r). rewrite fs_is_live_spec. destruct 1; [|tauto..]. by apply fs_is_live_spec. Qed.

(** Values, once written, stay. *)
Definition keeps_values (r r' : row) : Prop :=
  values_json r = None \/ (values_json r' = values_json r /\ values_hash r' = values_hash r).

#[local] Instance keeps_values_preorder : PreOrder keeps_values.
Proof. split; [by right|]. intros r1 r2 r3 [?|[? ?]] [?|[? ?]]; unfold keeps_values; [tauto..|left;congruence|right; split; congruence]. Qed.

Lemma move_keeps_values r r' : move r r' -> keeps_values r r'.
Proof. unfold keeps_values. destruct 1; tauto. Qed.

Lemma fs_steps_frozen s t id r :
  rtc step s t -> submissions s !! id = Some r ->
  exists r', submissions t !! id = Some r' /\ row_contract r' = row_contract r /\
    (is_live r = false -> r' = r).
Proof. exact (moves_star submissions step move s t id r fs_step_changes fs_move_live). Qed.

Lemma steps_values s t id r :
  rtc step s t -> submissions s !! id = Some r ->
  exists r', submissions t !! id = Some r' /\ row_contract r' = row_contract r /\ keeps_values r r'.
Proof. exact (moves_star_pre submissions step move _ s t id r fs_step_changes move_keeps_values). Qed.

Lemma Inv_steps s t : Inv s -> rtc step s t -> Inv t.
Proof. intros HI Hst. induction Hst; [done|]. eauto using fs_Inv_step. Qed.

(** ** Functional specification of [submit] *)

(** The refusals of [submit] for the row [o] of [id]; the checks the code makes after
    these (digests, the trigger, the row count) are not among them. *)
Definition submit_outcome (id token cookie : string) (values : json) (pid : option string)
    (now1 now2 : instant) (c : cards) (o : option row) : result row :=
  if negb (is_dict values) then raise TypeError "submitted field values must be an object"
  else match o with
  | None => raise FieldSubmissionNotFound ("field submission not found: " +:+ id)
  | Some r0 =>
      let r := checked now2 r0 in
      if negb (bool_decide (row_state r = Pending))
      then raise FieldSubmissionStateError
             ("field submission is not pending: " +:+ state_text (row_state r))
      else if match pid with
              | Some p => negb (bool_decide (is_Some (find_presentation id p c)))
              | None => false
              end
      then raise FieldSubmissionNotFound "field submission presentation not found"
      else
        let hash := if truthy token then _token_hash token else "" in
        rejected ← csrf_rejected (find_session id pid hash c) token cookie hash;
        raise_if rejected FieldSubmissionAccessDenied
          "field submission card CSRF validation failed";;
        let text := _canonical_json values in
        Ok (submitted_row text (_json_hash text) now1 r)
  end.

Lemma fs_checked_pending now r : row_state (checked now r) = Pending ->
  checked now r = r /\ is_live r && (expires_at r <=? now)%Z = false.
Proof. unfold checked. by destruct (is_live r && _). Qed.

Lemma presentation_checked {B} id (pid : option string) (k : unit -> tx (store O) B) s :
  (u ← match pid with
       | None => mret tt
       | Some p => _select_presentation id p;; mret tt
       end; k u) s =
  if match pid with
     | Some p => negb (bool_decide (is_Some (find_presentation id p (card_tables s))))
     | None => false
     end
  then raise FieldSubmissionNotFound "field submission presentation not found"
  else k tt s.
Proof.
  destruct pid as [p|]; [|done].
  unfold _select_presentation, pbind, mbind, tx_bind, gets.
  by destruct (find_presentation _ _ _).
Qed.

Lemma submit_body_run id token cookie values pid now1 now2 s :
  (forall id r, submissions s !! id = Some r -> row_ok r) ->
  transaction (submit_body id token cookie values pid (Aware now1) (Aware now2)) s =
  match submit_outcome id token cookie values pid now1 now2 (card_tables s) (submissions s !! id) with
  | Ok r => (Ok (id, r), MkStore (<[id := r]> (submissions s)) (settle_cards id now1 (card_tables s)) (others s))
  | Raise e => (Raise e, s)
  end.
Proof.
  intros HI. unfold transaction, submit_body, submit_outcome.
  destruct (is_dict values); [|done]. cbn [negb]. rewrite tx_raise_if_false_bind.
  cbn [_as_utc as_utc]. erewrite tx_bind_run by reflexivity. rewrite fs_fetch_run.
  destruct (submissions s !! id) as [r0|] eqn:Hr0; [|done]. cbv zeta.
  assert (Hok : row_ok (checked now2 r0)).
  { unfold checked. destruct (is_live r0 && _) eqn:E; [|by eauto]. bool_simpl.
    apply row_ok_closed; [by eauto|done|tauto]. }
  rewrite (row_ok_verifies _ _ Hok). erewrite tx_bind_run by reflexivity.
  destruct (bool_decide (row_state (checked now2 r0) = Pending)) eqn:Hst; [|done].
  apply bool_decide_eq_true in Hst. destruct (fs_checked_pending _ _ Hst) as [Hsame Hlive].
  rewrite Hsame in *. assert (Hs : expire_store id now2 s = s).
  { unfold expire_store. by rewrite Hr0, Hlive. }
  rewrite Hs. cbn [negb]. rewrite tx_raise_if_false_bind, presentation_checked.
  match goal with |- context [if ?b then raise FieldSubmissionNotFound _ else _] => destruct b end;
    [done|]. erewrite tx_bind_run by reflexivity.
  destruct (csrf_rejected _ _ _ _) as [[]|]; [done| |done].
  do 3 (erewrite tx_bind_run by reflexivity).
  rewrite Hr0, (bool_decide_eq_true_2 _ Hst).
  unfold values_written. rewrite bool_decide_eq_true_2.
  2: { destruct Hok as [_ _ Hv _ Hp _ _ _]. specialize (Hp Hst). by rewrite Hv, Hp. }
  cbn [negb andb]. rewrite tx_raise_if_false_bind.
  rewrite (update_key_hit _ _ _ _ _ Hr0) by (by apply bool_decide_eq_true).
  do 3 (erewrite tx_bind_run by reflexivity).
  erewrite tx_bind_run by (apply fs_select_run; apply lookup_insert_eq).
  rewrite row_ok_verifies by (by apply row_ok_submitted).
  by erewrite tx_bind_run by reflexivity.
Qed.

(** ** Properties *)

(** In every reachable state the digests stored with schemas and values are
    theirs, a row has values exactly when it was submitted, a user has at most one
    live submission per capability and supersession key, open cards belong to
    pending submissions, and therefore no integrity check of the store can fail. *)
Theorem submissions_invariant s (Hs : reachable initial step s) :
  Inv s /\ forall id r b, submissions s !! id = Some r -> _verify_integrity b r = Ok tt.
Proof.
  assert (HI : Inv s) by (eapply reachable_invariant; [apply fs_Inv_initial|apply fs_Inv_step|exact Hs]).
  split; [done|]. intros id r b Hr. apply row_ok_verifies. by eapply inv_rows.
Qed.

(** In every reachable state [submit] is determined by [submit_outcome]: it
    writes the values and their digest, retires the cards of the submission, and
    otherwise raises the refusal and leaves the database alone.  The trigger on
    written values, the row count and the digest checks never interfere. *)
Theorem submit_refines id token cookie values pid now1 now2 s (Hs : reachable initial step s) :
  submit id token cookie values pid (Aware now1) (Aware now2) s =
  match submit_outcome id token cookie values pid now1 now2 (card_tables s) (submissions s !! id) with
  | Ok r => (_submission_from_row false (id, r),
             MkStore (<[id := r]> (submissions s)) (settle_cards id now1 (card_tables s)) (others s))
  | Raise e => (Raise e, s)
  end.
Proof.
  unfold submit, method. rewrite submit_body_run.
  - by destruct (submit_outcome _ _ _ _ _ _ _ _ _).
  - apply (reachable_invariant initial step Inv); [apply fs_Inv_initial|apply fs_Inv_step|exact Hs].
Qed.

(** What is consumed is what was submitted, up to the order of object keys:
    after a submit that returned, and whatever transactions followed, a consume that
    returns gives those values; it names the session, capability and user the form
    was created for; and no later submit of the same form returns. *)
Theorem consumed_values_are_submitted_values id token cookie values pid clock1 clock2 s0 v0 s1 s2
    c clock3 clock4 v s3
  (Hwf : wf_json values)
  (Hsubmit : submit id token cookie values pid clock1 clock2 s0 = (Ok v0, s1))
  (Hst : rtc step s1 s2)
  (Hconsume : consume id c clock3 clock4 s2 = (Ok v, s3)) :
  v_values v = Some (canon values) /\ v_state v = Consumed /\
  c_user_subject c = v_user_subject v0 /\ c_system_id c = v_system_id v0 /\
  c_session_id c = v_session_id v0 /\ c_capability_name c = v_capability_name v0 /\
  c_capability_version c = v_capability_version v0 /\
  forall s4 token' cookie' values' pid' clock5 clock6 v', rtc step s3 s4 ->
    fst (submit id token' cookie' values' pid' clock5 clock6 s4) <> Ok v'.
Proof.
  apply method_Ok in Hsubmit as ([i0 r0] & Hb0 & Hv0).
  apply submit_body_Ok in Hb0 as (m1 & m2 & r & ss & _ & _ & _ & Hr & _ & _ & _ & _ & _ & _ & [= -> ->] & ->).
  apply method_Ok in Hconsume as ([i r3] & Hb & Hv).
  apply fs_consume_body_Ok in Hb as (m3 & m4 & q & _ & -> & Hq & Hp & Hm & _ & [= -> ->] & ->).
  destruct (fs_expire_store_live _ _ _ _ Hq) as [E _]; [by apply fs_is_live_spec; right|].
  rewrite E in *.
  destruct (steps_values _ _ id _ Hst (lookup_insert_eq _ _ _)) as (q' & Hq' & Hk & [Hn|[Hv1 Hv2]]).
  { done. }
  assert (q' = q) as -> by congruence. cbn in Hk, Hv1.
  apply result_bind_Ok in Hv as (fs & _ & Hv). cbn [values_json consumed_row] in Hv. rewrite Hv1 in Hv.
  unfold _canonical_json in Hv. rewrite (loads_dumps _ Hwf) in Hv. cbn -[canon] in Hv.
  apply result_bind_Ok in Hv0 as (fs0 & _ & Hv0). cbn -[canon] in Hv0.
  injection Hv as <-. injection Hv0 as <-. cbn -[canon].
  unfold bindings_match in Hm. bool_simpl. rewrite Hk in *. split_and!; try done.
  intros s4 tk ck vs pd c5 c6 v' Hst' Hsub.
  destruct (fs_steps_frozen _ _ id _ Hst' (lookup_insert_eq _ _ _)) as (r4 & Hr4 & _ & Hd).
  rewrite (Hd eq_refl) in Hr4. clear Hd.
  destruct (submit id tk ck vs pd c5 c6 s4) as [res s5] eqn:Es. cbn in Hsub. subst res.
  apply method_Ok in Es as ([i5 r5] & Hb5 & _).
  apply submit_body_Ok in Hb5 as (m5 & m6 & r6 & ss6 & _ & _ & _ & Hr6 & Hp6 & _).
  rewrite fs_expire_store_lookup, Hr4 in Hr6. by injection Hr6 as <-.
Qed.

(** A submission's contract never changes, a row is never deleted, its written
    values and their digest never change, consumed, expired and superseded
    submissions are final; and a submission is consumed at most once. *)
Theorem submission_lifecycle s t id r (Hst : rtc step s t) (Hr : submissions s !! id = Some r) :
  exists r', submissions t !! id = Some r' /\ row_contract r' = row_contract r /\
    (values_json r <> None -> values_json r' = values_json r /\ values_hash r' = values_hash r) /\
    (is_live r = false -> r' = r) /\
    (row_state r = Consumed -> forall c clock1 clock2,
       fst (consume id c (Aware clock1) (Aware clock2) t) =
       Raise (Exn FieldSubmissionStateError "field submission is not submitted: consumed")).
Proof.
  destruct (steps_values _ _ _ _ Hst Hr) as (r' & Hr' & Hk & Hv).
  destruct (fs_steps_frozen _ _ _ _ Hst Hr) as (r1 & Hr1 & _ & Hd).
  assert (r1 = r') as -> by congruence. exists r'. split_and!; try done.
  - intros Hn. by destruct Hv.
  - intros Hc c c1 c2. assert (r' = r) as -> by (apply Hd; unfold is_live; by rewrite Hc).
    unfold consume, method, transaction, consume_body. cbn [_as_utc as_utc].
    erewrite tx_bind_run by reflexivity. rewrite fs_fetch_run, Hr'.
    unfold checked, is_live. rewrite Hc. cbn [andb]. by rewrite Hc.
Qed.

End Facts.

(** ** Concrete inputs

    The properties of the field submission store, applied to a concrete form:
    created, opened on its card, submitted and consumed. *)

Module FieldSubmissionDemo.
#[local] Existing Instance ascii_tables.
#[local] Existing Instance plain_urls.

Definition args : create_args := {|
  a_user_subject := "u1"; a_system_id := "oa"; a_session_id := "s1";
  a_capability_name := "oa.leave.form"; a_capability_version := "1";
  a_create_operation_id := "op1"; a_supersession_key := "";
  a_form_schema := JObj [("fields", JArr [JObj [("name", JStr "days")]])];
  a_card_base_url := "https://agent.example"; a_ttl_seconds := 900%Z |}.

Definition commit : consume_args := {|
  c_user_subject := "u1"; c_system_id := "oa"; c_session_id := "s1";
  c_capability_name := "oa.leave.form"; c_capability_version := "1";
  c_consume_operation_id := "op2" |}.

Definition values : json := JObj [("reason", JStr "rest"); ("days", JInt 3)].

Definition s0 : store unit := MkStore ∅ no_cards tt.
Definition s1 := snd (create args (Aware 0) "form" s0).
Definition s2 := after (issue_csrf "form" None (Aware 1) (Aware 1) "token" "card") s1.
Definition s3 := snd (submit "form" "token" "token" values None (Aware 2) (Aware 2) s2).
Definition s4 := snd (consume "form" commit (Aware 3) (Aware 3) s3).

Lemma reachable_s2 : @reachable (store unit) initial (@step _ ascii_tables plain_urls) s2.
Proof.
  eapply reachable_step; [|apply step_issue_csrf].
  eapply reachable_step; [|apply step_create]. by apply reachable_init.
Qed.

Lemma submissions_invariant_witness :
  exists r, submissions s3 !! "form" = Some r /\ _verify_integrity true r = Ok tt.
Proof.
  destruct (submissions s3 !! "form") as [r|] eqn:Hr; [|vm_compute in Hr; discriminate Hr].
  exists r. split; [done|].
  refine (proj2 (submissions_invariant s3 _) "form" r true Hr).
  eapply reachable_step; [apply reachable_s2|apply step_submit].
Defined.

Lemma submit_refines_witness :
  submit "form" "forged" "forged" values None (Aware 2) (Aware 2) s2 =
  (Raise (Exn FieldSubmissionAccessDenied "field submission card CSRF validation failed"), s2).
Proof.
  pose proof (@submit_refines unit ascii_tables plain_urls "form" "forged" "forged" values None
                2%Z 2%Z s2 reachable_s2) as H.
  set (o := submit_outcome _ _ _ _ _ _ _ _ _) in H.
  assert (Ho : o = Raise (Exn FieldSubmissionAccessDenied
                            "field submission card CSRF validation failed"))
    by (subst o; vm_compute; reflexivity).
  rewrite Ho in H. exact H.
Defined.

Lemma consumed_values_are_submitted_values_witness :
  exists v, fst (consume "form" commit (Aware 3) (Aware 3) s3) = Ok v /\
    v_values v = Some (JObj [("days", JInt 3); ("reason", JStr "rest")]).
Proof.
  destruct (submit "form" "token" "token" values None (Aware 2) (Aware 2) s2)
    as [[v0|e] s3'] eqn:Es; [|vm_compute in Es; discriminate Es].
  assert (Hs : s3 = s3') by (unfold s3; by rewrite Es).
  destruct (consume "form" commit (Aware 3) (Aware 3) s3) as [[v|e] s4'] eqn:Ec;
    [|vm_compute in Ec; discriminate Ec].
  exists v. split; [done|]. rewrite Hs in Ec.
  refine (proj1 (consumed_values_are_submitted_values "form" "token" "token" values None _ _ s2 v0
                   s3' s3' commit _ _ v s4' _ Es (rtc_refl _ _) Ec)).
  apply wf_jsonb_ok. reflexivity.
Defined.

Lemma submission_lifecycle_witness :
  fst (consume "form" commit (Aware 4) (Aware 4) s4) =
  Raise (Exn FieldSubmissionStateError "field submission is not submitted: consumed").
Proof.
  destruct (submissions s4 !! "form") as [r|] eqn:Hr; [|vm_compute in Hr; discriminate Hr].
  destruct (@submission_lifecycle unit ascii_tables plain_urls s4 s4 "form" r (rtc_refl _ _) Hr)
    as (r' & _ & _ & _ & _ & H).
  apply H. vm_compute in Hr. by injection Hr as <-.
Defined.

(** [_card_base_url] cuts at the first ["/input/"], also when it belongs to the
    path of the configured base URL; the write authorization store cuts at the last. *)
Lemma card_base_url_loses_path :
  _validate_card_base_url "https://agent.example/input/v1" = Ok "https://agent.example/input/v1" /\
  _card_base_url "https://agent.example/input/v1/input/ID" = "https://agent.example".
Proof. split; vm_compute; reflexivity. Qed.

End FieldSubmissionDemo.
