(* ===== verification/TaskStateRules.v ===== *)
(** * Task state decisions (agentbridge/core/task_state_rules.py)

    Pure functions from observed facts to what the task ledger does with them.
    States are the strings the code uses; the tables written in the source are
    association lists with the source's keys in the source's order. *)

From S2P Require Import Prelude PyStr.

Definition TASK_STATUSES : list string :=
  ["active"; "waiting_user"; "running"; "succeeded"; "failed"; "outcome_unknown"; "canceled";
   "expired"; "superseded"; "partially_succeeded"].

Definition ACTIVE_TASK_STATUSES : list string := ["active"; "waiting_user"; "running"].

Definition TERMINAL_TASK_STATUSES : list string :=
  List.filter (fun status => negb (str_in status ACTIVE_TASK_STATUSES)) TASK_STATUSES.

Definition BATCH_STATES : list string :=
  ["running"; "waiting_user"; "paused"; "succeeded"; "partially_succeeded"; "failed";
   "outcome_unknown"; "canceled"; "expired"].

Definition ACTIVE_BATCH_STATES : list string := ["running"; "waiting_user"; "paused"].

Definition BATCH_ITEM_STATES : list string :=
  ["queued"; "preparing"; "waiting_user"; "succeeded"; "failed"; "outcome_unknown"; "canceled";
   "expired"; "skipped"; "superseded"].

Definition _task_status_for_operation (status : string) : string :=
  dict_get [("pending", "running"); ("running", "running");
            ("requires_user_action", "waiting_user"); ("succeeded", "succeeded");
            ("failed", "failed"); ("unknown", "outcome_unknown")] status "active".

Definition _event_type_for_operation (status : string) : string :=
  dict_get [("pending", "task.operation.running"); ("running", "task.operation.running");
            ("requires_user_action", "task.operation.requires_user_action");
            ("succeeded", "task.operation.succeeded"); ("failed", "task.operation.failed");
            ("unknown", "task.operation.outcome_unknown")] status "task.operation.updated".

Definition _task_status_for_interaction (state interaction_type : string)
    (has_current_operation : bool) : string :=
  if String.eqb state "completed" && String.eqb interaction_type "credential"
     && negb has_current_operation
  then "succeeded"
  else dict_get [("pending", "waiting_user"); ("processing", "waiting_user");
                 ("completed", "active"); ("declined", "canceled"); ("expired", "expired");
                 ("failed", "failed"); ("superseded", "superseded")] state "active".

Definition _event_type_for_interaction (state : string) : string :=
  dict_get [("pending", "task.interaction.waiting"); ("processing", "task.interaction.waiting");
            ("completed", "task.interaction.completed"); ("declined", "task.canceled");
            ("expired", "task.interaction.expired"); ("failed", "task.interaction.failed");
            ("superseded", "task.interaction.superseded")] state "task.interaction.updated".

(** The columns of a task row these rules read. *)
Record task_facts : Type := TaskFacts {
  task_status : string;
  current_operation_id : option string;
  current_interaction_id : option string;
}.

Definition _interaction_may_update_task (task : task_facts) (interaction_id : string)
    (newly_linked : bool) : bool :=
  if str_in (task_status task) TERMINAL_TASK_STATUSES then false
  else if newly_linked then true
  else bool_decide (current_interaction_id task = Some interaction_id).

Record TaskObservationDecision : Type := Decision {
  status : string;
  event_type : string;
  update_task : bool;
  emit_event : bool;
  observation_changed : bool;
}.

Definition operation_observation (task_status operation_status : string)
    (batch_state : option string) (newly_linked : bool) : TaskObservationDecision :=
  let status := match batch_state with
    | None => _task_status_for_operation operation_status
    | Some batch =>
        if str_in batch ACTIVE_BATCH_STATES
        then if str_in batch ["waiting_user"; "paused"] then "waiting_user" else "running"
        else batch
    end in
  {| status := status;
     event_type := _event_type_for_operation operation_status;
     update_task := negb (String.eqb task_status "outcome_unknown")
                    || String.eqb status "outcome_unknown";
     emit_event := newly_linked || negb (String.eqb task_status status);
     observation_changed := false |}.

Definition interaction_observation (task : task_facts) (interaction_id state interaction_type : string)
    (newly_linked : bool) (previous_state : option string) : TaskObservationDecision :=
  let has_current_operation := match current_operation_id task with
    | Some operation_id => truthy operation_id
    | None => false
    end in
  let event_type := _event_type_for_interaction state in
  let changed := newly_linked || negb (bool_decide (previous_state = Some state)) in
  let previous := match previous_state with Some previous => previous | None => "" end in
  let event_changed :=
    newly_linked || negb (String.eqb (_event_type_for_interaction previous) event_type) in
  let may_update := _interaction_may_update_task task interaction_id newly_linked in
  {| status := _task_status_for_interaction state interaction_type has_current_operation;
     event_type := event_type;
     update_task := may_update && changed;
     emit_event := may_update && changed && event_changed;
     observation_changed := changed |}.

Definition plan_task_status (task_status : string) (event_type : option string) : option string :=
  if negb (str_in task_status ACTIVE_TASK_STATUSES) then None
  else Some match event_type with
       | Some event =>
           if str_in event ["plan.step.waiting"; "plan.authorization.waiting"]
           then "waiting_user" else "running"
       | None => "running"
       end.

Inductive transition : Type := Apply | Reuse | Reject.

Definition terminal_transition (task_status target_status : string) : transition :=
  if String.eqb task_status target_status then Reuse
  else if str_in task_status ACTIVE_TASK_STATUSES then Apply else Reject.

Definition batch_failure_status (item_state : string) (succeeded_count : Z) : string :=
  if String.eqb item_state "outcome_unknown" then "outcome_unknown"
  else if negb (succeeded_count =? 0)%Z then "partially_succeeded"
  else if str_in item_state ["canceled"; "expired"] then item_state
  else "failed".

Definition batch_task_status (batch_state : string) : string :=
  dict_get [("waiting_user", "waiting_user"); ("running", "running"); ("paused", "waiting_user");
            ("partially_succeeded", "partially_succeeded");
            ("outcome_unknown", "outcome_unknown"); ("failed", "failed");
            ("canceled", "canceled"); ("expired", "expired"); ("succeeded", "succeeded")]
    batch_state "active".

Definition task_finished_at {T} (status : string) (now : T) : result (option T) :=
  raise_if (negb (str_in status TASK_STATUSES)) ValueError ("unsupported task status: " +:+ status);;
  Ok (if str_in status TERMINAL_TASK_STATUSES then Some now else None).
