(* ===== verification/TaskStateRuleFacts.v ===== *)
(** * Task state decisions: which statuses they give and which tasks they move *)

From S2P Require Import Prelude PyStr TaskStateRules.

(** A table lookup gives the default or one of the table's values. *)
Lemma dict_get_In {A} (d : list (string * A)) k default :
  dict_get d k default = default \/ In (dict_get d k default) (map snd d).
Proof.
  unfold dict_get. induction d as [|[k' a] d IH]; cbn; [by left|].
  destruct (String.eqb k k'); [right; by left|]. destruct (assoc k d); cbn in *; tauto.
Qed.

Lemma dict_get_incl (d : list (string * string)) k default l :
  In default l -> Forall (fun v => In v l) (map snd d) -> In (dict_get d k default) l.
Proof.
  intros Hd Hl. destruct (dict_get_In d k default) as [->|H]; [done|].
  rewrite List.Forall_forall in Hl. auto.
Qed.

Ltac in_table := cbn; repeat (first [by left | right]).
Ltac table :=
  apply dict_get_incl; [in_table|];
  repeat first [apply List.Forall_nil | apply List.Forall_cons; [in_table|]].

Lemma active_xor_terminal st : In st TASK_STATUSES ->
  str_in st TERMINAL_TASK_STATUSES = negb (str_in st ACTIVE_TASK_STATUSES).
Proof.
  intros H. unfold TASK_STATUSES in H. cbn in H.
  repeat (destruct H as [<-|H]; [reflexivity|]). destruct H.
Qed.

(** The statuses each rule can decide, given the states the ledger stores. *)
Definition decided (st : string) : Prop :=
  (exists ts os bs nl, st = status (operation_observation ts os bs nl) /\
     (forall b, bs = Some b -> In b BATCH_STATES)) \/
  (exists task id state ty nl prev, st = status (interaction_observation task id state ty nl prev)) \/
  (exists ts ev, plan_task_status ts ev = Some st) \/
  (exists item n, st = batch_failure_status item n) \/
  (exists b, st = batch_task_status b).

Lemma operation_status_known ts os bs nl :
  (forall b, bs = Some b -> In b BATCH_STATES) ->
  In (status (operation_observation ts os bs nl)) TASK_STATUSES.
Proof.
  intros Hb. destruct bs as [b|]; cbn [operation_observation status]; [|table].
  specialize (Hb _ eq_refl). unfold BATCH_STATES in Hb. cbn in Hb.
  repeat (destruct Hb as [<-|Hb]; [in_table|]). destruct Hb.
Qed.

Lemma interaction_status_known task id state ty nl prev :
  In (status (interaction_observation task id state ty nl prev)) TASK_STATUSES.
Proof.
  cbn [interaction_observation status]. unfold _task_status_for_interaction.
  case_match; [in_table|table].
Qed.

Lemma plan_status_known ts ev st : plan_task_status ts ev = Some st -> In st TASK_STATUSES.
Proof.
  unfold plan_task_status. destruct (negb _); [done|]. intros [= <-].
  destruct ev as [e|]; [case_match|]; in_table.
Qed.

Lemma batch_failure_known item n : In (batch_failure_status item n) TASK_STATUSES.
Proof.
  unfold batch_failure_status. do 2 (case_match; [in_table|]).
  destruct (str_in item ["canceled"; "expired"]) eqn:E; [|in_table].
  apply str_in_spec in E. cbn in E. destruct E as [<-|[<-|[]]]; in_table.
Qed.

(** Whatever the observations, every status these rules decide is one of the
    task statuses, so [task_finished_at] never raises on it, and it dates the end of
    the task exactly when the status is not an active one. *)
Theorem decided_status_known {T} st (now : T) (Hst : decided st) :
  In st TASK_STATUSES /\
  task_finished_at st now =
    Ok (if str_in st ACTIVE_TASK_STATUSES then None else Some now).
Proof.
  assert (Hin : In st TASK_STATUSES).
  { destruct Hst as [(ts & os & bs & nl & -> & Hb)|[(task & id & state & ty & nl & prev & ->)|
      [(ts & ev & Hp)|[(item & n & ->)|(b & ->)]]]].
    - by apply operation_status_known.
    - apply interaction_status_known.
    - by eapply plan_status_known.
    - apply batch_failure_known.
    - table. }
  split; [done|]. unfold task_finished_at.
  rewrite (proj2 (str_in_spec _ _) Hin), (active_xor_terminal _ Hin). cbn [negb].
  by destruct (str_in st ACTIVE_TASK_STATUSES).
Qed.

(** What one observation does to the status of a task, as the ledger applies it. *)
Inductive observation (task : task_facts) : string -> Prop :=
  | obs_interaction id state ty nl prev :
      update_task (interaction_observation task id state ty nl prev) = true ->
      observation task (status (interaction_observation task id state ty nl prev))
  | obs_plan ev st : plan_task_status (task_status task) ev = Some st -> observation task st
  | obs_transition target : terminal_transition (task_status task) target = Apply ->
      observation task target
  | obs_operation os bs nl :
      update_task (operation_observation (task_status task) os bs nl) = true ->
      observation task (status (operation_observation (task_status task) os bs nl)).

(** Only operation observations reopen a task that has ended, and not one whose
    outcome is unknown: if an observation changes the status of a task in a terminal
    status, it is an operation observation and the old status is not
    ['outcome_unknown']. *)
Theorem terminal_tasks_reopen task st
  (Hknown : In (task_status task) TASK_STATUSES)
  (Hterm : str_in (task_status task) TERMINAL_TASK_STATUSES = true)
  (Hobs : observation task st) (Hchange : st <> task_status task) :
  task_status task <> "outcome_unknown" /\
  exists os bs nl, st = status (operation_observation (task_status task) os bs nl).
Proof.
  assert (Hact : str_in (task_status task) ACTIVE_TASK_STATUSES = false).
  { rewrite active_xor_terminal in Hterm by done. by apply negb_true_iff. }
  destruct Hobs as [id state ty nl prev Hu|ev st Hp|target Ht|os bs nl Hu].
  - cbn in Hu. unfold _interaction_may_update_task in Hu. by rewrite Hterm in Hu.
  - unfold plan_task_status in Hp. by rewrite Hact in Hp.
  - unfold terminal_transition in Ht. rewrite Hact in Ht. by destruct (String.eqb _ _).
  - split; [|eauto]. intros E. cbn [operation_observation update_task] in Hu.
    rewrite E, String.eqb_refl in Hu. apply String.eqb_eq in Hu.
    apply Hchange. rewrite E at 2. exact Hu.
Qed.

(** Observing the same interaction state again does nothing: neither the task
    nor the event log changes; and an event is logged only with an update of the task. *)
Theorem interaction_observation_idempotent task id state ty nl prev :
  let d := interaction_observation task id state ty nl prev in
  (emit_event d = true -> update_task d = true) /\
  (update_task d = true -> observation_changed d = true) /\
  (nl = false -> prev = Some state -> update_task d = false /\ emit_event d = false).
Proof.
  cbn. split_and!.
  - intros H. by apply andb_true_iff in H as [H _].
  - intros H. by apply andb_true_iff in H as [_ H].
  - intros -> ->. cbn [orb]. rewrite bool_decide_eq_true_2 by done. cbn [negb].
    by rewrite andb_false_r.
Qed.

Lemma decided_status_known_witness :
  In "partially_succeeded" TASK_STATUSES /\
  task_finished_at "partially_succeeded" 7%Z = Ok (Some 7%Z).
Proof.
  assert (H : decided "partially_succeeded").
  { left. exists "running", "succeeded", (Some "partially_succeeded"), false.
    split; [reflexivity|]. intros b [= <-]. cbn. tauto. }
  exact (decided_status_known "partially_succeeded" 7%Z H).
Defined.

Lemma terminal_tasks_reopen_witness :
  exists os bs nl,
    "running" = status (operation_observation "failed" os bs nl).
Proof.
  refine (proj2 (terminal_tasks_reopen (TaskFacts "failed" None None) "running" _ _ _ _)).
  - cbn. tauto.
  - reflexivity.
  - exact (obs_operation (TaskFacts "failed" None None) "running" None true eq_refl).
  - discriminate.
Defined.

Lemma interaction_observation_idempotent_witness :
  update_task (interaction_observation (TaskFacts "waiting_user" None (Some "i")) "i" "pending"
                 "approval" false (Some "pending")) = false.
Proof.
  apply (interaction_observation_idempotent (TaskFacts "waiting_user" None (Some "i")) "i" "pending"
           "approval" false (Some "pending")); reflexivity.
Defined.
