(* ===== verification/Operations.v ===== *)
(** * Operations (agentbridge/core/operations.py)

    Every capability call is recorded as an operation; an idempotency key makes
    a repeated call find the operation of the first one. *)

From S2P Require Import Prelude PyStr Json Sha256 Store.

(** ** Data *)

Inductive op_status : Type := Pending | Running | Succeeded | Failed | Unknown | RequiresUserAction.

#[export] Instance op_status_eq_dec : EqDecision op_status.
Proof. solve_decision. Defined.

Definition status_text (st : op_status) : string :=
  match st with
  | Pending => "pending" | Running => "running" | Succeeded => "succeeded" | Failed => "failed"
  | Unknown => "unknown" | RequiresUserAction => "requires_user_action"
  end.

(** The columns no statement updates. *)
Record identity : Type := Identity {
  request_id : string;
  user_subject : string;
  capability_name : string;
  capability_version : string;
  input_summary_json : string;
  input_hash : string;
  idempotency_key : option string;
  created_at : instant;
}.

(** The columns [_update] sets, all of them each time. *)
Record progress : Type := Progress {
  op_state : op_status;
  result_json : option string;
  error_code : option string;
  error_message : option string;
  next_action_json : option string;
  updated_at : instant;
  finished_at : option instant;
}.

Record row : Type := Row { row_identity :> identity; row_progress : progress }.

Record error_view : Type := ErrorView { e_code : string; e_message : string }.

Record view : Type := View {
  v_operation_id : string;
  v_request_id : string;
  v_user_subject : string;
  v_capability_name : string;
  v_capability_version : string;
  v_input_hash : string;
  v_idempotency_key : option string;
  v_status : op_status;
  v_error_code : option string;
  v_error_message : option string;
  v_created_at : instant;
  v_updated_at : instant;
  v_finished_at : option instant;
  v_input_summary : json;
  v_result : json;
  v_next_action : json;
  v_error : option error_view;
}.

Record create_args : Type := CreateArgs {
  a_user_subject : string;
  a_capability_name : string;
  a_capability_version : string;
  a_input_summary : json;
  a_input_identity : option json;
  a_idempotency_key : option string;
  a_request_id : option string;
}.

(** A table of operations is the whole state of the store. *)
Abbreviation store := (gmap string row) (only parsing).

Definition _canonical_json (v : json) : string := dumps v.

Definition _decode_json (value : option string) : result json :=
  match value with Some text => loads text | None => Ok JNull end.

Definition _operation_from_row (ir : string * row) : result view :=
  let '(id, r) := ir in
  let p := row_progress r in
  input_summary ← loads (input_summary_json r);
  result ← _decode_json (result_json p);
  next_action ← _decode_json (next_action_json p);
  Ok {| v_operation_id := id; v_request_id := request_id r; v_user_subject := user_subject r;
        v_capability_name := capability_name r; v_capability_version := capability_version r;
        v_input_hash := input_hash r; v_idempotency_key := idempotency_key r;
        v_status := op_state p; v_error_code := error_code p; v_error_message := error_message p;
        v_created_at := created_at r; v_updated_at := updated_at p; v_finished_at := finished_at p;
        v_input_summary := input_summary; v_result := result; v_next_action := next_action;
        v_error := if opt_truthy (error_code p) || opt_truthy (error_message p)
                   then Some {| e_code := or_default (error_code p) "OPERATION_ERROR";
                                e_message := or_default (error_message p) "Operation failed." |}
                   else None |}.

(** ** Creation *)

Definition same_key (user name version key : string) (r : row) : bool :=
  String.eqb (user_subject r) user && String.eqb (capability_name r) name
  && String.eqb (capability_version r) version
  && bool_decide (idempotency_key r = Some key).

Definition _find_idempotent (user name version : string) (key : option string) (t : store)
  : option (string * row) :=
  match key with
  | None => None
  | Some key => select_one (same_key user name version key) t
  end.

Definition _reuse (existing : string * row) (hash : string) : result (view * bool) :=
  operation ← _operation_from_row existing;
  raise_if (negb (String.eqb (v_input_hash operation) hash)) OperationConflictError
    "idempotency key was already used with different capability input";;
  Ok (operation, true).

Definition create_hash (a : create_args) : string :=
  sha256_hex (_canonical_json (match a_input_identity a with
                               | Some identity => identity
                               | None => a_input_summary a
                               end)).

Definition normalized_key (a : create_args) : option string :=
  match a_idempotency_key a with
  | Some key => let stripped := py_strip key in if truthy stripped then Some stripped else None
  | None => None
  end.

Definition find_for (a : create_args) (t : store) : option (string * row) :=
  _find_idempotent (a_user_subject a) (a_capability_name a) (a_capability_version a)
    (normalized_key a) t.

Definition new_row (a : create_args) (now : instant) (request_uuid : string) : row :=
  {| row_identity :=
       {| request_id := or_default (a_request_id a) request_uuid;
          user_subject := a_user_subject a; capability_name := a_capability_name a;
          capability_version := a_capability_version a;
          input_summary_json := _canonical_json (a_input_summary a);
          input_hash := create_hash a; idempotency_key := normalized_key a; created_at := now |};
     row_progress :=
       {| op_state := Pending; result_json := None; error_code := None; error_message := None;
          next_action_json := None; updated_at := now; finished_at := None |} |}.

(** The unique index [operations_idempotency], on rows with a key. *)
Definition index_clash (a : create_args) (r : row) : bool :=
  match normalized_key a with
  | Some key => same_key (a_user_subject a) (a_capability_name a) (a_capability_version a) key r
  | None => false
  end.

(** The INSERT, and the second lookup when it violates a constraint. *)
Definition insert_or_reuse (a : create_args) (now : instant) (operation_id request_uuid : string)
  : tx store (result (view * bool)) := fun t =>
  match insert_row operation_id (index_clash a) (new_row a now request_uuid) t with
  | Ok t' =>
      match (t' !! operation_id : option row) with
      | Some r => Ok (operation ← _operation_from_row (operation_id, r); Ok (operation, false), t')
      | None => raise KeyError "operation not found"
      end
  | Raise e =>
      match find_for a t with
      | None => Raise e
      | Some existing => found ← _reuse existing (create_hash a); Ok (Ok found, t)
      end
  end.

(** [create] reads outside a transaction and opens one with its INSERT, so other
    connections may commit in between: [seen] is the table its SELECT reads and
    [t] the table when the INSERT starts. *)
Definition create (a : create_args) (now : instant) (operation_id request_uuid : string)
    (seen t : store) : result (view * bool) * store :=
  if negb (truthy (a_user_subject a))
  then (raise ValueError "user_subject is required", t)
  else match find_for a seen with
       | Some existing => (_reuse existing (create_hash a), t)
       | None => method (insert_or_reuse a now operation_id request_uuid) id t
       end.

(** ** Progress *)

Definition _update (id : string) (p : progress) : tx store (string * row) :=
  t ← gets (fun t : store => t);
  let '(t', rowcount) := update_key id (fun _ => true) (fun r : row => Row r p) t in
  modify (fun _ : store => t');;
  raise_if (negb (rowcount =? 1)%nat) KeyError ("operation not found: " +:+ id);;
  match (t' !! id : option row) with
  | Some r => mret (id, r)
  | None => raise KeyError "operation not found"
  end.

Definition running (now : instant) : progress := Progress Running None None None None now None.
Definition succeeded (result : json) (now : instant) : progress :=
  Progress Succeeded (Some (_canonical_json result)) None None None now (Some now).
Definition failed (code message : string) (now : instant) : progress :=
  Progress Failed None (Some code) (Some message) None now (Some now).
Definition unknown (code message : string) (now : instant) : progress :=
  Progress Unknown None (Some code) (Some message) None now (Some now).
Definition requires_user_action (code message : string) (next_action : json) (now : instant)
  : progress :=
  Progress RequiresUserAction None (Some code) (Some message)
    (Some (_canonical_json next_action)) now (Some now).

Definition mark_running id now := method (_update id (running now)) _operation_from_row.
Definition mark_succeeded id result now :=
  method (_update id (succeeded result now)) _operation_from_row.
Definition mark_failed id code message now :=
  method (_update id (failed code message now)) _operation_from_row.
Definition mark_unknown id code message now :=
  method (_update id (unknown code message now)) _operation_from_row.
Definition mark_requires_user_action id code message next_action now :=
  method (_update id (requires_user_action code message next_action now)) _operation_from_row.

(** ** Reading *)

Definition get (id : string) (t : store) : result view :=
  match t !! id with
  | Some r => _operation_from_row (id, r)
  | None => raise KeyError ("operation not found: " +:+ id)
  end.

Definition find_idempotent (user name version key : string) (t : store) : result (option view) :=
  let normalized := py_strip key in
  if negb (truthy normalized) then Ok None
  else match _find_idempotent user name version (Some normalized) t with
       | Some existing => v ← _operation_from_row existing; Ok (Some v)
       | None => Ok None
       end.

(** [ORDER BY created_at DESC] *)
Definition newer (x y : string * row) : bool := (created_at (snd y) <=? created_at (snd x))%Z.

Definition list_limit (limit : Z) : Z := Z.min (Z.max limit 1) 1000.

(** The selected rows; [list_operations] below decodes them. *)
Definition list_rows (user : option string) (limit : Z) (t : store) : list (string * row) :=
  take (Z.to_nat (list_limit limit))
    (sort_by newer (select_where
       (fun r : row => match user with
                 | Some u => if truthy u then String.eqb (user_subject r) u else true
                 | None => true
                 end) t)).

Definition list_operations (user : option string) (limit : Z) (t : store) : result (list view) :=
  map_result _operation_from_row (list_rows user limit t).

(** ** Transactions of the store *)

Inductive step (t : store) : store -> Prop :=
  | step_insert a now operation_id request_uuid :
      step t (after (insert_or_reuse a now operation_id request_uuid) t)
  | step_running id now : step t (snd (mark_running id now t))
  | step_succeeded id result now : step t (snd (mark_succeeded id result now t))
  | step_failed id code message now : step t (snd (mark_failed id code message now t))
  | step_unknown id code message now : step t (snd (mark_unknown id code message now t))
  | step_requires id code message next_action now :
      step t (snd (mark_requires_user_action id code message next_action now t)).
