(* ===== verification/OperationFacts.v ===== *)
(** * Operations: idempotent creation under interleaving, outcomes, listing *)

From S2P Require Import Prelude PyStr Json JsonFacts Sha256 Store Operations.

Implicit Types (t u : store) (r : row).

(** ** The invariant *)

(** The columns [_update] sets agree with the status. *)
Definition progress_ok (p : progress) : Prop :=
  match op_state p with
  | Pending | Running =>
      result_json p = None /\ error_code p = None /\ error_message p = None /\
      next_action_json p = None /\ finished_at p = None
  | Succeeded =>
      is_Some (result_json p) /\ error_code p = None /\ error_message p = None /\
      next_action_json p = None /\ finished_at p = Some (updated_at p)
  | Failed | Unknown =>
      result_json p = None /\ is_Some (error_code p) /\ is_Some (error_message p) /\
      next_action_json p = None /\ finished_at p = Some (updated_at p)
  | RequiresUserAction =>
      result_json p = None /\ is_Some (error_code p) /\ is_Some (error_message p) /\
      is_Some (next_action_json p) /\ finished_at p = Some (updated_at p)
  end.

(** What the unique index guarantees. *)
Definition one_per_key t : Prop :=
  forall id1 id2 (r1 r2 : row), t !! id1 = Some r1 -> t !! id2 = Some r2 ->
    is_Some (idempotency_key r1) -> idempotency_key r1 = idempotency_key r2 ->
    user_subject r1 = user_subject r2 -> capability_name r1 = capability_name r2 ->
    capability_version r1 = capability_version r2 -> id1 = id2.

Record Inv t : Prop := {
  inv_progress : forall id r, t !! id = Some r -> progress_ok (row_progress r);
  inv_keys : one_per_key t;
}.

Lemma same_key_spec user name version key r :
  same_key user name version key r = true <->
  user_subject r = user /\ capability_name r = name /\ capability_version r = version /\
  idempotency_key r = Some key.
Proof.
  unfold same_key. rewrite !andb_true_iff, !String.eqb_eq, bool_decide_eq_true. tauto.
Qed.

(** ** What the statements do *)

Lemma insert_or_reuse_Ok a now id uuid t x t' :
  insert_or_reuse a now id uuid t = Ok (x, t') ->
  (t !! id = None /\ exists_where (index_clash a) t = false /\
   t' = <[id := new_row a now uuid]> t /\
   x = (v ← _operation_from_row (id, new_row a now uuid); Ok (v, false))) \/
  (t' = t /\ exists existing, find_for a t = Some existing /\
   _reuse existing (create_hash a) = x).
Proof.
  unfold insert_or_reuse.
  destruct (insert_row id (index_clash a) (new_row a now uuid) t) as [t1|e] eqn:E.
  - apply insert_row_Ok in E as (Hn & Hc & ->). rewrite lookup_insert_eq. intros [= <- <-]. left. auto.
  - destruct (find_for a t) as [existing|]; [|done]. cbn.
    destruct (_reuse existing (create_hash a)) as [found|] eqn:Er; [|done].
    intros [= <- <-]. right. eauto.
Qed.

Lemma _update_run id p t :
  _update id p t = match (t !! id : option row) with
                   | Some r => Ok ((id, Row r p), <[id := Row r p]> t)
                   | None => raise KeyError ("operation not found: " +:+ id)
                   end.
Proof.
  unfold _update. erewrite tx_bind_run by reflexivity. unfold update_key.
  destruct (t !! id) as [r|] eqn:Hr; [|done].
  erewrite tx_bind_run by reflexivity. cbn [Nat.eqb negb]. rewrite tx_raise_if_false_bind.
  by rewrite lookup_insert_eq.
Qed.

Inductive marks : progress -> Prop :=
  | marks_running now : marks (running now)
  | marks_succeeded result now : marks (succeeded result now)
  | marks_failed code message now : marks (failed code message now)
  | marks_unknown code message now : marks (unknown code message now)
  | marks_requires code message next now : marks (requires_user_action code message next now).

Lemma marks_ok p : marks p -> progress_ok p.
Proof. destruct 1; unfold progress_ok; cbn; split_and!; eauto. Qed.

Lemma op_step_cases t u : step t u ->
  (exists a now id uuid x, insert_or_reuse a now id uuid t = Ok (x, u)) \/ u = t \/
  (exists id p r, marks p /\ t !! id = Some r /\ u = <[id := Row r p]> t).
Proof.
  intros Hst. destruct Hst;
    unfold mark_running, mark_succeeded, mark_failed, mark_unknown, mark_requires_user_action;
    rewrite ?method_state;
    match goal with |- context [after ?m t] =>
      destruct (after_cases m t) as [E|[x Hx]]; [by rewrite E; right; left|] end;
    [left; eauto 6|..]; rewrite _update_run in Hx;
    (destruct (t !! id) as [r|] eqn:Hr; [|done]); injection Hx as _ <-; right; right;
    exists id; eexists _, r; (split; [constructor|done]).
Qed.

Lemma index_clash_spec a r key : normalized_key a = Some key ->
  index_clash a r = true <->
  user_subject r = a_user_subject a /\ capability_name r = a_capability_name a /\
  capability_version r = a_capability_version a /\ idempotency_key r = Some key.
Proof. intros Hk. unfold index_clash. rewrite Hk. apply same_key_spec. Qed.

Lemma op_Inv_step t u : Inv t -> step t u -> Inv u.
Proof.
  intros [Hp Hk] [(a & now & id & uuid & x & Hi)|[->|(id & p & r & Hm & Hr & ->)]]%op_step_cases.
  - apply insert_or_reuse_Ok in Hi as [(Hn & Hc & -> & _)|[-> _]]; [|by split]. split.
    + intros k q. split_eq k id; simplify_map_eq; [intros [= <-]; by cbn|eauto].
    + assert (Hnew : forall (k : string) (q : row), t !! k = Some q -> is_Some (normalized_key a) ->
        idempotency_key q = normalized_key a -> user_subject q = a_user_subject a ->
        capability_name q = a_capability_name a -> capability_version q = a_capability_version a -> False).
      { intros k q Hq [key Hkey] E1 E2 E3 E4.
        rewrite exists_where_false in Hc. specialize (Hc _ _ Hq).
        assert (index_clash a q = true) by (apply (index_clash_spec _ _ _ Hkey); split_and!; congruence).
        congruence. }
      intros k1 k2 q1 q2. split_eq k1 id; split_eq k2 id; simplify_map_eq.
      * done.
      * intros [= <-] H2. cbn. intros. edestruct (Hnew _ _ H2); congruence.
      * intros H1 [= <-]. cbn. intros. edestruct (Hnew _ _ H1); congruence.
      * intros H1 H2. by apply Hk.
  - by split.
  - split.
    + intros k q. split_eq k id; simplify_map_eq; [intros [= <-]; by apply marks_ok|eauto].
    + assert (Hback : forall (k : string) (q : row), <[id := Row r p]> t !! k = Some q ->
        exists q0, t !! k = Some q0 /\ row_identity q = row_identity q0).
      { intros k q. split_eq k id; simplify_map_eq; [intros [= <-]; eauto|eauto]. }
      intros k1 k2 q1 q2 (p1 & P1 & E1)%Hback (p2 & P2 & E2)%Hback.
      rewrite E1, E2. by apply Hk.
Qed.

Definition initial t : Prop := t = ∅.

Lemma op_Inv_initial t : initial t -> Inv t.
Proof. intros ->. split; [intros ? ?|intros ? ? ? ?]; by rewrite lookup_empty. Qed.

(** Operations are never deleted and keep their identity. *)
Lemma step_identity t u id r : step t u -> t !! id = Some r ->
  exists r', u !! id = Some r' /\ row_identity r' = row_identity r.
Proof.
  intros [(a & now & id' & uuid & x & Hi)|[->|(id' & p & q & _ & Hq & ->)]]%op_step_cases Hr; [|eauto|].
  - apply insert_or_reuse_Ok in Hi as [(Hn & _ & -> & _)|[-> _]]; [|eauto].
    exists r. rewrite lookup_insert_ne by congruence. done.
  - split_eq id id'; simplify_map_eq; eauto.
Qed.

Lemma steps_identity t u id r : rtc step t u -> t !! id = Some r ->
  exists r', u !! id = Some r' /\ row_identity r' = row_identity r.
Proof.
  intros Hst. revert r. induction Hst as [|t w u Hs _ IH]; intros r Hr; [eauto|].
  destruct (step_identity _ _ _ _ Hs Hr) as (r1 & H1 & E1).
  destruct (IH _ H1) as (r2 & H2 & E2). exists r2. split; congruence.
Qed.

Lemma find_for_Some a t id r : find_for a t = Some (id, r) ->
  t !! id = Some r /\ is_Some (normalized_key a) /\ idempotency_key r = normalized_key a /\
  user_subject r = a_user_subject a /\ capability_name r = a_capability_name a /\
  capability_version r = a_capability_version a.
Proof.
  unfold find_for, _find_idempotent. destruct (normalized_key a) as [key|]; [|done].
  intros [Hr Hk]%select_one_Some. apply same_key_spec in Hk. naive_solver.
Qed.

Lemma find_for_unique a t id r :
  Inv t -> t !! id = Some r -> is_Some (normalized_key a) ->
  idempotency_key r = normalized_key a -> user_subject r = a_user_subject a ->
  capability_name r = a_capability_name a -> capability_version r = a_capability_version a ->
  find_for a t = Some (id, r).
Proof.
  intros [_ Hk] Hr [key Hkey] E1 E2 E3 E4. unfold find_for, _find_idempotent. rewrite Hkey in *.
  apply select_one_unique; [done|by apply same_key_spec|].
  intros id' r' Hr' (F2 & F3 & F4 & F1)%same_key_spec.
  apply (Hk id' id r' r); try done; [by rewrite F1|congruence..].
Qed.

Lemma reuse_id existing hash v reused :
  _reuse existing hash = Ok (v, reused) ->
  reused = true /\ v_operation_id v = fst existing /\ v_input_hash v = hash /\
  input_hash (snd existing) = hash.
Proof.
  unfold _reuse. destruct existing as [id r]. intros Hb.
  apply result_bind_Ok in Hb as (w & Hw & Hb). apply result_bind_Ok in Hb as ([] & Hc & [= <- <-]).
  apply result_raise_if_Ok in Hc. bool_simpl.
  unfold _operation_from_row in Hw. repeat (apply result_bind_Ok in Hw as (? & _ & Hw)).
  injection Hw as <-. done.
Qed.

(** What a create that returned leaves in the table: the operation it named. *)
Lemma create_Ok a now id uuid seen t v reused t' :
  create a now id uuid seen t = (Ok (v, reused), t') -> rtc step seen t ->
  step t t' /\ v_input_hash v = create_hash a /\
  exists r, t' !! v_operation_id v = Some r /\ input_hash r = v_input_hash v /\
    idempotency_key r = normalized_key a /\ user_subject r = a_user_subject a /\
    capability_name r = a_capability_name a /\ capability_version r = a_capability_version a.
Proof.
  intros Hc Hseen. unfold create in Hc.
  destruct (truthy (a_user_subject a)); [|done]. cbn [negb] in Hc.
  assert (Hself : forall existing t1, find_for a t1 = Some existing -> rtc step t1 t ->
      _reuse existing (create_hash a) = Ok (v, reused) ->
      v_input_hash v = create_hash a /\
      exists r, t !! v_operation_id v = Some r /\ input_hash r = v_input_hash v /\
        idempotency_key r = normalized_key a /\ user_subject r = a_user_subject a /\
        capability_name r = a_capability_name a /\ capability_version r = a_capability_version a).
  { intros [i r] t1 Hf Hst (-> & Hi & Hh & Hr)%reuse_id. cbn in *. split; [done|]. rewrite Hi.
    destruct (find_for_Some _ _ _ _ Hf) as (Hrow & _ & F1 & F2 & F3 & F4).
    destruct (steps_identity _ _ _ _ Hst Hrow) as (r' & Hr' & E).
    exists r'. rewrite E. split_and!; congruence. }
  destruct (find_for a seen) as [existing|] eqn:Hf.
  - injection Hc as Hc <-. split; [|by eapply Hself].
    assert (Hrun : step t (after (insert_or_reuse a now (fst existing) uuid) t)) by constructor.
    destruct existing as [i r]. destruct (find_for_Some _ _ _ _ Hf) as (Hrow & _).
    destruct (steps_identity _ _ _ _ Hseen Hrow) as (r' & Hr' & E). cbn [fst] in Hrun.
    assert (after (insert_or_reuse a now i uuid) t = t) as Ht; [|by rewrite Ht in Hrun].
    destruct (after_cases (insert_or_reuse a now i uuid) t) as [->|[x Hx]]; [done|].
    apply insert_or_reuse_Ok in Hx as [(Hn & _)|[-> _]]; [congruence|done].
  - assert (Hst : step t t').
    { pose proof (f_equal snd Hc) as Ht. rewrite method_state in Ht. cbn in Ht. subst t'. constructor. }
    split; [done|]. apply method_Ok in Hc as (x & Hx & Hv). unfold Datatypes.id in Hv. subst x.
    apply insert_or_reuse_Ok in Hx as [(Hn & _ & -> & Hv)|(-> & existing & Hfe & Hv)].
    + symmetry in Hv. apply result_bind_Ok in Hv as (w & Hw & [= <- <-]).
      unfold _operation_from_row in Hw. repeat (apply result_bind_Ok in Hw as (? & _ & Hw)).
      injection Hw as <-. cbn. split; [done|]. eexists. rewrite lookup_insert_eq. by split_and!.
    + by eapply Hself; [|apply rtc_refl|].
Qed.

(** ** Listing *)

Lemma newer_total x y : newer x y = true \/ newer y x = true.
Proof. unfold newer. rewrite !Z.leb_le. lia. Qed.

Lemma newer_trans x y z : newer x y = true -> newer y z = true -> newer x z = true.
Proof. unfold newer. rewrite !Z.leb_le. lia. Qed.

Definition listed (user : option string) (r : row) : Prop :=
  match user with Some u => truthy u = true -> user_subject r = u | None => True end.

Lemma list_rows_source user t ir :
  In ir (sort_by newer (select_where
       (fun r : row => match user with
                 | Some u => if truthy u then String.eqb (user_subject r) u else true
                 | None => true
                 end) t)) <-> t !! fst ir = Some (snd ir) /\ listed user (snd ir).
Proof.
  destruct ir as [id r]. cbn [fst snd]. unfold listed.
  rewrite <- list_elem_of_In, sort_by_perm, list_elem_of_In, select_where_In.
  destruct user as [u|]; [|tauto]. destruct (truthy u); [rewrite String.eqb_eq|]; naive_solver.
Qed.

(** ** Properties *)

(** In every reachable table an idempotency key names at most one operation of
    a user's capability and version, and the columns of every operation agree with
    its status: a result only on success, an error only on failure, unknown outcome or
    required action, a next action only with the latter, an end only when ended. *)
Theorem operations_invariant t (Ht : reachable initial step t) : Inv t.
Proof. eapply reachable_invariant; [apply op_Inv_initial|apply op_Inv_step|exact Ht]. Qed.

(** A second create with the key finds the operation of the first. *)
Lemma created_again a now1 id1 uuid1 seen1 t1 v reused t1' b now2 id2 uuid2 seen2 t2
  (HI : Inv t2)
  (Hcreate : create a now1 id1 uuid1 seen1 t1 = (Ok (v, reused), t1'))
  (Hseen1 : rtc step seen1 t1) (Hlater : rtc step t1' t2) (Hseen2 : rtc step seen2 t2)
  (Hkey : is_Some (normalized_key a)) (Hkeys : normalized_key b = normalized_key a)
  (Huser : a_user_subject b = a_user_subject a)
  (Hname : a_capability_name b = a_capability_name a)
  (Hversion : a_capability_version b = a_capability_version a) :
  exists u (r : row), (u = seen2 \/ u = t2) /\ u !! v_operation_id v = Some r /\
    input_hash r = create_hash a /\
    create b now2 id2 uuid2 seen2 t2 = (_reuse (v_operation_id v, r) (create_hash b), t2) /\
    (forall w reused', _reuse (v_operation_id v, r) (create_hash b) = Ok (w, reused') ->
       v_operation_id w = v_operation_id v /\ reused' = true /\ create_hash b = create_hash a).
Proof.
  assert (Hu : truthy (a_user_subject a) = true).
  { unfold create in Hcreate. by destruct (truthy (a_user_subject a)). }
  destruct (create_Ok _ _ _ _ _ _ _ _ _ Hcreate Hseen1)
    as (_ & Hv & r1 & Hr1 & Hh & F1 & F2 & F3 & F4).
  destruct (steps_identity _ _ _ _ Hlater Hr1) as (r2 & Hr2 & E2).
  assert (Hconc : forall r : row, input_hash r = create_hash a -> forall w reused',
      _reuse (v_operation_id v, r) (create_hash b) = Ok (w, reused') ->
      v_operation_id w = v_operation_id v /\ reused' = true /\ create_hash b = create_hash a).
  { intros r Hr w reused' (-> & Hi & _ & Hhash)%reuse_id. cbn in *. split_and!; congruence. }
  assert (Hfind : find_for b t2 = Some (v_operation_id v, r2)).
  { apply find_for_unique; try done; [by rewrite Hkeys|rewrite E2; congruence..]. }
  unfold create. rewrite Huser, Hu. cbn [negb].
  destruct (find_for b seen2) as [[i r]|] eqn:Hs.
  - destruct (find_for_Some _ _ _ _ Hs) as (Hrow & _ & G1 & G2 & G3 & G4).
    destruct (steps_identity _ _ _ _ Hseen2 Hrow) as (r' & Hr' & E').
    assert (i = v_operation_id v) as ->.
    { apply (inv_keys _ HI i (v_operation_id v) r' r2); rewrite ?E', ?E2; try done;
        [by rewrite G1, Hkeys|congruence..]. }
    exists seen2, r. assert (r' = r2) as -> by congruence.
    assert (Hri : input_hash r = create_hash a) by congruence.
    split_and!; try done; [by left|by apply Hconc].
  - exists t2, r2. assert (Hri : input_hash r2 = create_hash a) by congruence.
    split_and!; try done; [by right| |by apply Hconc].
    unfold method, transaction, insert_or_reuse.
    assert (Hclash : forall n, exists e, insert_row id2 (index_clash b) n t2 = Raise e).
    { intros n. unfold insert_row. destruct (t2 !! id2); [by eexists|].
      assert (exists_where (index_clash b) t2 = true) as ->; [|by eexists].
      apply exists_where_true. exists (v_operation_id v), r2. split; [done|].
      destruct Hkey as [key Hkey].
      apply (index_clash_spec _ _ key); [congruence|]. rewrite E2. split_and!; congruence. }
    destruct (Hclash (new_row b now2 uuid2)) as [e ->]. rewrite Hfind.
    by destruct (_reuse _ _).
Qed.

(** Idempotent creation, under any interleaving: let a create with a key have
    returned an operation, and let a second one with the same user, capability,
    version and (stripped) key read the table at any time, even before the first one
    inserted, and reach its own INSERT after the first one committed.  Then it
    inserts nothing, and answers with that same operation when the inputs have the
    same digest and with a conflict when they do not. *)
Theorem create_idempotent a now1 id1 uuid1 seen1 t1 v reused t1' b now2 id2 uuid2 seen2 t2
  (Ht : reachable initial step t2)
  (Hcreate : create a now1 id1 uuid1 seen1 t1 = (Ok (v, reused), t1'))
  (Hseen1 : rtc step seen1 t1) (Hlater : rtc step t1' t2) (Hseen2 : rtc step seen2 t2)
  (Hkey : is_Some (normalized_key a)) (Hkeys : normalized_key b = normalized_key a)
  (Huser : a_user_subject b = a_user_subject a)
  (Hname : a_capability_name b = a_capability_name a)
  (Hversion : a_capability_version b = a_capability_version a) :
  exists u (r : row), (u = seen2 \/ u = t2) /\ u !! v_operation_id v = Some r /\
    input_hash r = create_hash a /\
    create b now2 id2 uuid2 seen2 t2 = (_reuse (v_operation_id v, r) (create_hash b), t2) /\
    (forall w reused', _reuse (v_operation_id v, r) (create_hash b) = Ok (w, reused') ->
       v_operation_id w = v_operation_id v /\ reused' = true /\ create_hash b = create_hash a).
Proof.
  eapply created_again; try done. eapply reachable_invariant; [apply op_Inv_initial|apply op_Inv_step|exact Ht].
Qed.

(** A create without an operation to reuse inserts a pending operation that
    carries the caller's input and has neither result nor error. *)
Theorem create_fresh a now id uuid t
  (Huser : truthy (a_user_subject a) = true) (Hwf : wf_json (a_input_summary a))
  (Hnone : find_for a t = None) (Hid : t !! id = None) :
  exists v, create a now id uuid t t = (Ok (v, false), <[id := new_row a now uuid]> t) /\
    v_operation_id v = id /\ v_status v = Pending /\ v_user_subject v = a_user_subject a /\
    v_input_summary v = canon (a_input_summary a) /\ v_input_hash v = create_hash a /\
    v_idempotency_key v = normalized_key a /\ v_result v = JNull /\ v_error v = None.
Proof.
  unfold create. rewrite Huser, Hnone. cbn [negb].
  unfold method, transaction, insert_or_reuse.
  assert (Hins : insert_row id (index_clash a) (new_row a now uuid) t
                 = Ok (<[id := new_row a now uuid]> t)).
  { apply insert_row_Ok. split_and!; [done| |done]. apply exists_where_false. intros k r Hr.
    unfold find_for, _find_idempotent in Hnone. unfold index_clash.
    destruct (normalized_key a) as [key|]; [|done]. by eapply select_one_None. }
  rewrite Hins, lookup_insert_eq. unfold _operation_from_row. cbn -[loads dumps canon].
  unfold _canonical_json. rewrite (loads_dumps _ Hwf). eexists. split; [reflexivity|].
  by split_and!.
Qed.

(** The last outcome reported wins, whatever was stored before: after
    [mark_succeeded] the operation reads back as succeeded with that result and no
    error, after [mark_failed] as failed with that error and no result; the other
    operations and the identity columns are untouched, and an unknown identifier
    raises [KeyError] and changes nothing. *)
Theorem outcome_recorded id result code message now t
  (Hresult : wf_json result) (Hcode : truthy code = true) (Hmessage : truthy message = true) :
  match (t !! id : option row) with
  | None => mark_succeeded id result now t
              = (Raise (Exn KeyError ("operation not found: " +:+ id)), t)
  | Some r => forall summary, loads (input_summary_json r) = Ok summary ->
      (exists v, mark_succeeded id result now t = (Ok v, <[id := Row r (succeeded result now)]> t) /\
         get id (snd (mark_succeeded id result now t)) = Ok v /\
         v_status v = Succeeded /\ v_result v = canon result /\ v_error v = None /\
         v_finished_at v = Some now /\ v_input_summary v = summary) /\
      (exists v, mark_failed id code message now t = (Ok v, <[id := Row r (failed code message now)]> t) /\
         get id (snd (mark_failed id code message now t)) = Ok v /\
         v_status v = Failed /\ v_result v = JNull /\
         v_error v = Some (ErrorView code message) /\ v_finished_at v = Some now)
  end.
Proof.
  destruct (t !! id) as [r|] eqn:Hr.
  - intros summary Hs. unfold mark_succeeded, mark_failed, method, transaction.
    rewrite !_update_run, Hr. cbn [snd]. unfold get. rewrite !lookup_insert_eq.
    unfold _operation_from_row, _canonical_json. cbn -[loads dumps canon].
    unfold _canonical_json. rewrite Hs. cbn -[loads dumps canon]. rewrite (loads_dumps _ Hresult).
    split; (eexists; split; [reflexivity|]); split_and!; try done.
    cbn. by rewrite Hcode, Hmessage.
  - unfold mark_succeeded, method, transaction. by rewrite _update_run, Hr.
Qed.

(** [list] returns, newest first, at most 1000 operations of the user asked for;
    it returns them all when they fit the limit, which is at least 1, and otherwise
    no operation left out is newer than one returned. *)
Theorem list_newest_first user limit t :
  let rows := list_rows user limit t in
  (length rows <= Z.to_nat (list_limit limit))%nat /\ (1 <= list_limit limit <= 1000)%Z /\
  StronglySorted (fun x y : string * row => (created_at (snd y) <= created_at (snd x))%Z) rows /\
  (forall id r, In (id, r) rows -> t !! id = Some r /\ listed user r) /\
  (forall id r, t !! id = Some r -> listed user r -> ~ In (id, r) rows ->
     length rows = Z.to_nat (list_limit limit) /\
     forall x, In x rows -> (created_at r <= created_at (snd x))%Z).
Proof.
  cbv zeta. unfold list_rows. set (n := Z.to_nat (list_limit limit)).
  set (all := sort_by newer _).
  assert (Hsorted : StronglySorted (fun x y => newer x y = true) (take n all ++ drop n all)).
  { rewrite take_drop. subst all. apply sort_by_sorted; [apply newer_total|apply newer_trans]. }
  destruct (StronglySorted_app_inv _ _ _ Hsorted) as [Hs Hle].
  split_and!.
  - rewrite length_take. lia.
  - unfold list_limit. lia.
  - unfold list_limit. lia.
  - eapply StronglySorted_mono; [|exact Hs]. intros x y. apply Z.leb_le.
  - intros id r Hin. apply (list_rows_source user t (id, r)). fold all.
    rewrite <- (take_drop n all). apply in_or_app. by left.
  - intros id r Hr Hl Hout.
    assert (Hall : In (id, r) all) by (by apply (list_rows_source user t (id, r))).
    rewrite <- (take_drop n all) in Hall. apply in_app_or in Hall as [|Hdrop]; [done|].
    split.
    + rewrite length_take. assert (length (drop n all) <> 0)%nat by (by destruct (drop n all)).
      rewrite length_drop in *. lia.
    + intros x Hx. by apply Z.leb_le, (Hle x (id, r)).
Qed.

(** ** Concrete inputs

    The properties of the operation store, applied to two racing calls. *)

Module Demo.

Definition args : create_args := {|
  a_user_subject := "u1"; a_capability_name := "oa.leave.prepare"; a_capability_version := "1";
  a_input_summary := JObj [("days", JInt 2)]; a_input_identity := None;
  a_idempotency_key := Some " k1 "; a_request_id := None |}.

Definition t1 : gmap string row := snd (create args 5%Z "op-1" "rq-1" ∅ ∅).

Lemma step_t1 : step ∅ t1.
Proof.
  assert (H : step ∅ (after (insert_or_reuse args 5%Z "op-1" "rq-1") ∅)) by constructor.
  assert (E : after (insert_or_reuse args 5%Z "op-1" "rq-1") ∅ = t1) by (vm_compute; reflexivity).
  by rewrite E in H.
Qed.

Lemma op_reachable_t1 : reachable initial step t1.
Proof. eapply reachable_step; [by apply reachable_init|apply step_t1]. Qed.

Lemma operations_invariant_witness : reachable initial step t1 /\ Inv t1.
Proof. split; [exact op_reachable_t1|]. exact (operations_invariant t1 op_reachable_t1). Defined.

(** The second call read the empty table before the first one inserted. *)
Lemma create_idempotent_witness :
  exists v w, fst (create args 5%Z "op-1" "rq-1" ∅ ∅) = Ok (v, false) /\
    create args 6%Z "op-2" "rq-2" ∅ t1 = (Ok (w, true), t1) /\
    v_operation_id w = v_operation_id v.
Proof.
  destruct (create args 5%Z "op-1" "rq-1" ∅ ∅) as [[[v reused]|e] t] eqn:E;
    [|vm_compute in E; discriminate E].
  assert (Ht : t = t1) by (unfold t1; by rewrite E). rewrite Ht in E.
  destruct (create_idempotent args 5%Z "op-1" "rq-1" ∅ ∅ v reused t1 args 6%Z "op-2" "rq-2" ∅ t1
              op_reachable_t1 E (rtc_refl _ _) (rtc_refl _ _) (rtc_once _ _ step_t1)
              (ex_intro _ "k1" eq_refl) eq_refl eq_refl eq_refl eq_refl)
    as (u & r & Hu & Hr & Hh & Hc & Hw).
  destruct (create args 6%Z "op-2" "rq-2" ∅ t1) as [[[w reused']|e] t'] eqn:E2;
    [|vm_compute in E2; discriminate E2].
  injection Hc as Hc ->. symmetry in Hc. destruct (Hw _ _ Hc) as (Hi & -> & _).
  exists v, w. split; [|split; [reflexivity|exact Hi]].
  assert (Hf : reused = false) by (vm_compute in E; by injection E as _ <-). by rewrite Hf.
Defined.

Lemma create_fresh_witness :
  exists v, fst (create args 5%Z "op-1" "rq-1" ∅ ∅) = Ok (v, false) /\
    v_idempotency_key v = Some "k1".
Proof.
  destruct (create_fresh args 5%Z "op-1" "rq-1" ∅) as (v & E & _ & _ & _ & _ & _ & Hk & _).
  - reflexivity.
  - apply wf_jsonb_ok. reflexivity.
  - vm_compute. reflexivity.
  - reflexivity.
  - exists v. split; [exact (f_equal fst E)|]. rewrite Hk. reflexivity.
Defined.

Lemma outcome_recorded_witness :
  exists v, fst (mark_succeeded "op-1" (JArr [JInt 1]) 9%Z t1) = Ok v /\ v_result v = JArr [JInt 1].
Proof.
  pose proof (outcome_recorded "op-1" (JArr [JInt 1]) "C" "m" 9%Z t1) as H.
  destruct (t1 !! "op-1") as [r|] eqn:Hr; [|vm_compute in Hr; discriminate Hr].
  destruct (H ltac:(apply wf_jsonb_ok; reflexivity) eq_refl eq_refl (JObj [("days", JInt 2)]))
    as [(v & E & _ & _ & Hv & _) _].
  - vm_compute in Hr. injection Hr as <-. vm_compute. reflexivity.
  - exists v. split; [exact (f_equal fst E)|]. rewrite Hv. reflexivity.
Defined.

End Demo.
