(* ===== verification/AuthChallenges.v ===== *)
(** * Authentication challenges (agentbridge/core/auth_challenges.py)

    A login form a user fills in on a trusted card: one challenge at a time is
    open per session, it is claimed once with a CSRF token, and ends as succeeded,
    failed, expired or superseded. *)

From Stdlib Require Import Ascii.
From S2P Require Import Prelude PyStr Json Sha256 Store.

(** ** Data *)

Inductive state : Type := Pending | Processing | Succeeded | Failed | Expired | Superseded.

#[export] Instance state_eq_dec : EqDecision state.
Proof. solve_decision. Defined.

Definition state_text (st : state) : string :=
  match st with
  | Pending => "pending" | Processing => "processing" | Succeeded => "succeeded"
  | Failed => "failed" | Expired => "expired" | Superseded => "superseded"
  end.

(** The columns no statement updates. *)
Record contract : Type := Contract {
  challenge_type : string;
  user_subject : string;
  system_id : string;
  system_name : string;
  session_id : string;
  expected_principal_ref : option string;
  origin : string;
  page_fingerprint : string;
  nonce : string;
  fields_json : string;
  card_url : string;
  created_at : instant;
  expires_at : instant;
}.

(** A row of [auth_challenges] without its key. *)
Record row : Type := Row {
  row_contract :> contract;
  csrf_hash : option string;
  row_state : state;
  error_code : option string;
  error_message : option string;
  result_json : option string;
  updated_at : instant;
  claimed_at : option instant;
  completed_at : option instant;
}.

(** What the methods return: the row without its key columns [csrf_hash],
    [fields_json] and [result_json], with those two decoded. *)
Record view : Type := View {
  v_challenge_id : string;
  v_contract : contract;
  v_state : state;
  v_error_code : option string;
  v_error_message : option string;
  v_updated_at : instant;
  v_claimed_at : option instant;
  v_completed_at : option instant;
  v_fields : json;
  v_result : option json;
  v_error : option (string * option string);
}.

Record create_args : Type := CreateArgs {
  a_user_subject : string;
  a_system_id : string;
  a_session_id : string;
  a_origin : string;
  a_page_fingerprint : string;
  a_nonce : option string;
  a_fields : json;
  a_card_base_url : string;
  a_system_name : string;
  a_expected_principal_ref : option string;
  a_ttl_seconds : Z;
  a_challenge_type : string;
}.

Definition _canonical_json (v : json) : string := dumps v.
Definition _token_hash (token : string) : string := sha256_hex token.
Definition _as_utc (d : datetime) : result instant := as_utc "challenge" d.

(** ** Validation *)

(** [[a-z]] and [[a-z0-9_]] *)
Definition is_lower (a : ascii) : bool :=
  let n := N_of_ascii a in ((97 <=? n) && (n <=? 122))%N.
Definition is_name_char (a : ascii) : bool := is_lower a || is_digit a || Ascii.eqb a "_".

(** [re.fullmatch(r"[a-z][a-z0-9_]{0,63}", name)] *)
Definition name_matches (name : string) : bool :=
  match name with
  | String a rest => is_lower a && str_forallb is_name_char rest && (String.length rest <=? 63)%nat
  | EmptyString => false
  end.

Section Validation.
Context `{UnicodeTables, UrlTables}.

(** [str(field.get(key) or default)] *)
Definition text_or (field : json) (key default : string) : string :=
  let value := jget_or_null field key in
  if json_truthy value then py_str value else default.

Definition normalized_field (field : json) : json :=
  let name := text_or field "name" "" in
  JObj [("name", JStr name);
        ("label", JStr (py_take 80 (text_or field "label" name)));
        ("input_type", JStr (text_or field "input_type" ""));
        ("autocomplete", JStr (py_take 80 (text_or field "autocomplete" "off")));
        ("required", JBool (match jget field "required" with
                            | Some v => json_truthy v
                            | None => true
                            end))].

Fixpoint validate_fields_from (seen : list string) (fields : list json) : result (list json) :=
  match fields with
  | [] => Ok []
  | field :: rest =>
      raise_if (negb (is_dict field)) ValueError "authentication field must be an object";;
      let name := text_or field "name" "" in
      let input_type := text_or field "input_type" "" in
      raise_if (negb (name_matches name) || str_in name seen) ValueError
        ("invalid authentication field name: " +:+ name);;
      raise_if (negb (str_in input_type ["text"; "password"; "otp"])) ValueError
        ("invalid authentication field type: " +:+ input_type);;
      normalized ← validate_fields_from (name :: seen) rest;
      Ok (normalized_field field :: normalized)
  end.

Definition _validate_fields (fields : json) (allow_empty : bool) : result json :=
  match fields with
  | JArr l =>
      raise_if (bool_decide (l = []) && negb allow_empty) ValueError
        "authentication challenge fields are required";;
      normalized ← validate_fields_from [] l;
      Ok (JArr normalized)
  | _ => raise ValueError "authentication challenge fields are required"
  end.

Definition _validate_origin (value : string) : result string :=
  parsed ← urlparse value;
  raise_if (negb (str_in (url_scheme parsed) ["http"; "https"] && truthy (url_netloc parsed)))
    ValueError "challenge origin must be http(s)";;
  raise_if (negb (str_in (url_path parsed) [""; "/"]) || truthy (url_query parsed)
            || truthy (url_fragment parsed))
    ValueError "challenge origin must not include a path";;
  Ok (ascii_lower (url_scheme parsed) +:+ "://" +:+ str_lower (url_netloc parsed)).

Definition _validate_card_base_url (value : string) : result string :=
  parsed ← urlparse value;
  raise_if (negb (str_in (url_scheme parsed) ["http"; "https"] && truthy (url_netloc parsed)))
    ValueError "authentication card base URL must be http(s)";;
  raise_if (truthy (url_query parsed) || truthy (url_fragment parsed))
    ValueError "authentication card base URL must not include query or fragment";;
  let path := py_rstrip "/" (url_path parsed) in
  Ok (ascii_lower (url_scheme parsed) +:+ "://" +:+ str_lower (url_netloc parsed) +:+ path).
End Validation.

Definition _challenge_from_row (ir : string * row) : result view :=
  let '(id, r) := ir in
  fields ← loads (fields_json r);
  result ← match result_json r with
    | Some text => if truthy text then v ← loads text; Ok (Some v) else Ok None
    | None => Ok None
    end;
  Ok {| v_challenge_id := id; v_contract := r; v_state := row_state r;
        v_error_code := error_code r; v_error_message := error_message r;
        v_updated_at := updated_at r; v_claimed_at := claimed_at r;
        v_completed_at := completed_at r; v_fields := fields; v_result := result;
        v_error := match error_code r with
                   | Some code => if truthy code then Some (code, error_message r) else None
                   | None => None
                   end |}.

(** What [_create] has normalized before it opens its transaction. *)
Record prepared : Type := Prepared {
  p_origin : string;
  p_card_base_url : string;
  p_fields_json : string;
  p_now : instant;
}.

Definition _challenge_contract_matches (a : create_args) (p : prepared) (r : row) : bool :=
  String.eqb (challenge_type r) (a_challenge_type a)
  && String.eqb (user_subject r) (a_user_subject a)
  && String.eqb (system_id r) (a_system_id a)
  && String.eqb (system_name r) (a_system_name a)
  && String.eqb (or_empty (expected_principal_ref r)) (or_empty (a_expected_principal_ref a))
  && String.eqb (origin r) (p_origin p)
  && String.eqb (page_fingerprint r) (a_page_fingerprint a)
  && String.eqb (fields_json r) (p_fields_json p)
  && String.eqb (rsplit1_head "/" (card_url r)) (p_card_base_url p +:+ "/auth").

(** ** Row updates *)

Definition superseded_row (now : instant) (r : row) : row :=
  {| row_contract := r; csrf_hash := csrf_hash r; row_state := Superseded;
     error_code := error_code r; error_message := error_message r; result_json := result_json r;
     updated_at := now; claimed_at := claimed_at r; completed_at := Some now |}.

Definition token_row (hash : string) (now : instant) (r : row) : row :=
  {| row_contract := r; csrf_hash := Some hash; row_state := row_state r;
     error_code := error_code r; error_message := error_message r; result_json := result_json r;
     updated_at := now; claimed_at := claimed_at r; completed_at := completed_at r |}.

Definition claimed_row (now : instant) (r : row) : row :=
  {| row_contract := r; csrf_hash := None; row_state := Processing;
     error_code := error_code r; error_message := error_message r; result_json := result_json r;
     updated_at := now; claimed_at := Some now; completed_at := completed_at r |}.

Definition finished_row (st : state) (result : option json) (code message : option string)
    (now : instant) (r : row) : row :=
  {| row_contract := r; csrf_hash := csrf_hash r; row_state := st;
     error_code := code; error_message := message; result_json := _canonical_json <$> result;
     updated_at := now; claimed_at := claimed_at r; completed_at := Some now |}.

Definition expired_row (now : instant) (r : row) : row :=
  {| row_contract := r; csrf_hash := None; row_state := Expired;
     error_code := Some "CHALLENGE_EXPIRED"; error_message := Some "Authentication challenge expired.";
     result_json := result_json r; updated_at := now; claimed_at := claimed_at r;
     completed_at := Some now |}.

(** [state IN ('pending', 'processing')] *)
Definition is_active (r : row) : bool :=
  match row_state r with Pending | Processing => true | _ => false end.

(** ** The store *)

Abbreviation store := (gmap string row) (only parsing).

Section Store.
Context `{UnicodeTables, UrlTables}.

Definition _select (id : string) : tx store row :=
  t ← gets (fun t : store => t);
  match (t !! id : option row) with
  | Some r => mret r
  | None => raise ChallengeNotFound ("authentication challenge not found: " +:+ id)
  end.

Definition _expire_if_needed (id : string) (r : row) (clock : datetime) : tx store row :=
  now ← lift (_as_utc clock);
  if is_active r && (expires_at r <=? now)%Z then
    modify (fun t : store => fst (update_key id (fun _ => true) (expired_row now) t));;
    _select id
  else mret r.

(** [[self._expire_if_needed(connection, row) for row in active_rows]]; the clock
    is read for each row. *)
Fixpoint expire_each (clock : nat -> datetime) (n : nat) (rows : list (string * row))
  : tx store (list (string * row)) :=
  match rows with
  | [] => mret []
  | (id, r) :: rest =>
      r' ← _expire_if_needed id r (clock n);
      rest' ← expire_each clock (S n) rest;
      mret ((id, r') :: rest')
  end.

(** [ORDER BY created_at DESC] *)
Definition newer (x y : string * row) : bool := (created_at (snd y) <=? created_at (snd x))%Z.

Definition active_in (session : string) (r : row) : bool :=
  String.eqb (session_id r) session && is_active r.

Definition new_row (a : create_args) (p : prepared) (fresh_nonce id : string) : row :=
  {| row_contract :=
       {| challenge_type := a_challenge_type a; user_subject := a_user_subject a;
          system_id := a_system_id a; system_name := a_system_name a;
          session_id := a_session_id a; expected_principal_ref := a_expected_principal_ref a;
          origin := p_origin p; page_fingerprint := a_page_fingerprint a;
          nonce := or_default (a_nonce a) fresh_nonce; fields_json := p_fields_json p;
          card_url := p_card_base_url p +:+ "/auth/" +:+ id;
          created_at := p_now p; expires_at := (p_now p + seconds (a_ttl_seconds a))%Z |};
     csrf_hash := None; row_state := Pending; error_code := None; error_message := None;
     result_json := None; updated_at := p_now p; claimed_at := None; completed_at := None |}.

(** Before [with self._connect()]. *)
Definition prepare (a : create_args) (clock : datetime) : result prepared :=
  raise_if (negb (truthy (a_user_subject a)) || negb (truthy (a_system_id a))
            || negb (truthy (a_session_id a)))
    ValueError "challenge user, system, and session are required";;
  origin ← _validate_origin (a_origin a);
  card_base_url ← _validate_card_base_url (a_card_base_url a);
  raise_if (negb (str_in (a_challenge_type a) ["legacy_form_login"; "interactive_browser_login"]))
    ValueError "unsupported authentication challenge type";;
  fields ← _validate_fields (a_fields a)
             (String.eqb (a_challenge_type a) "interactive_browser_login");
  raise_if (negb (truthy (a_page_fingerprint a)))
    ValueError "challenge page fingerprint is required";;
  raise_if ((a_ttl_seconds a <? 30) || (900 <? a_ttl_seconds a))%Z ValueError
    "challenge TTL must be between 30 and 900 seconds";;
  now ← _as_utc clock;
  Ok (Prepared origin card_base_url (_canonical_json fields) now).

Definition _create_body (a : create_args) (reuse_active : bool) (clock : nat -> datetime)
    (challenge_id fresh_nonce : string) : tx store ((string * row) * bool) :=
  p ← lift (prepare a (clock 0%nat));
  t ← gets (fun t : store => t);
  active_rows ← expire_each clock 1
                  (sort_by newer (select_where (active_in (a_session_id a)) t));
  let active_rows := List.filter (fun ir => is_active (snd ir)) active_rows in
  match (if reuse_active
         then List.find (fun ir => _challenge_contract_matches a p (snd ir)) active_rows
         else None) with
  | Some reusable => mret (reusable, true)
  | None =>
      raise_if (existsb (fun ir => bool_decide (row_state (snd ir) = Processing)) active_rows)
        ChallengeStateError "an authentication challenge is already processing";;
      modify (fun t : store =>
        update_where (fun r : row => String.eqb (session_id r) (a_session_id a)
                               && bool_decide (row_state r = Pending))
          (superseded_row (p_now p)) t);;
      t ← gets (fun t : store => t);
      t' ← lift (insert_row challenge_id (fun _ => false) (new_row a p fresh_nonce challenge_id) t);
      modify (fun _ : store => t');;
      r ← _select challenge_id;
      mret ((challenge_id, r), false)
  end.

Definition _create a reuse_active clock challenge_id fresh_nonce
  : store -> result (view * bool) * store :=
  method (_create_body a reuse_active clock challenge_id fresh_nonce)
    (fun '(ir, reused) => v ← _challenge_from_row ir; Ok (v, reused)).

Definition create a clock challenge_id fresh_nonce (t : store) : result view * store :=
  let '(res, t') := _create a false clock challenge_id fresh_nonce t in
  ('(v, _) ← res; Ok v, t').

Definition create_or_reuse a clock challenge_id fresh_nonce :=
  _create a true clock challenge_id fresh_nonce.

Definition get_body (id : string) (clock : datetime) : tx store (string * row) :=
  r ← _select id;
  r ← _expire_if_needed id r clock;
  mret (id, r).

Definition get id clock : store -> result view * store :=
  method (get_body id clock) _challenge_from_row.

Definition issue_csrf (id : string) (clock1 clock2 : datetime) (token : string) : tx store string :=
  now ← lift (_as_utc clock1);
  r ← _select id;
  r ← _expire_if_needed id r clock2;
  raise_if (negb (bool_decide (row_state r = Pending))) ChallengeStateError
    ("authentication challenge is not pending: " +:+ state_text (row_state r));;
  modify (fun t : store => fst (update_key id (fun _ => true) (token_row (_token_hash token) now) t));;
  mret token.

(** The token check of [claim]; [or] stops at the first failure. *)
Definition token_rejected (expected token cookie supplied : string) : result bool :=
  if negb (truthy expected) then Ok true
  else if negb (truthy cookie) then Ok true
  else same ← compare_digest token cookie;
       if negb same then Ok true
       else same_hash ← compare_digest expected supplied; Ok (negb same_hash).

Definition claim_body (id csrf_token csrf_cookie : string) (clock1 clock2 : datetime)
  : tx store (string * row) :=
  now ← lift (_as_utc clock1);
  r ← _select id;
  r ← _expire_if_needed id r clock2;
  raise_if (negb (bool_decide (row_state r = Pending))) ChallengeStateError
    ("authentication challenge is not pending: " +:+ state_text (row_state r));;
  let supplied_hash := if truthy csrf_token then _token_hash csrf_token else "" in
  rejected ← lift (token_rejected (or_empty (csrf_hash r)) csrf_token csrf_cookie supplied_hash);
  raise_if rejected ChallengeAccessDenied "authentication card CSRF validation failed";;
  t ← gets (fun t : store => t);
  let '(t', rowcount) :=
    update_key id (fun r => bool_decide (row_state r = Pending)) (claimed_row now) t in
  modify (fun _ : store => t');;
  raise_if (negb (rowcount =? 1)%nat) ChallengeStateError
    "authentication challenge could not be claimed";;
  r ← _select id;
  mret (id, r).

Definition claim id csrf_token csrf_cookie clock1 clock2 : store -> result view * store :=
  method (claim_body id csrf_token csrf_cookie clock1 clock2) _challenge_from_row.

Definition _finish_body (id : string) (st : state) (result : option json)
    (code message : option string) (clock : datetime) : tx store (string * row) :=
  now ← lift (_as_utc clock);
  r ← _select id;
  raise_if (negb (bool_decide (row_state r = Processing))) ChallengeStateError
    ("authentication challenge is not processing: " +:+ state_text (row_state r));;
  modify (fun t : store =>
    fst (update_key id (fun _ => true) (finished_row st result code message now) t));;
  r ← _select id;
  mret (id, r).

Definition _finish id st result code message clock : store -> Prelude.result view * store :=
  method (_finish_body id st result code message clock) _challenge_from_row.

Definition complete id (result : json) clock := _finish id Succeeded (Some result) None None clock.

Definition fail id (code message : string) clock (t : store) : Prelude.result view * store :=
  if negb (truthy code) || negb (truthy message)
  then (raise ValueError "challenge failure code and message are required", t)
  else _finish id Failed None (Some code) (Some message) clock t.

(** One transaction of the store, whatever its arguments and outcome. *)
Inductive step (t : store) : store -> Prop :=
  | step_create a reuse_active clock id fresh_nonce :
      step t (snd (_create a reuse_active clock id fresh_nonce t))
  | step_get id clock : step t (snd (get id clock t))
  | step_issue_csrf id clock1 clock2 token : step t (after (issue_csrf id clock1 clock2 token) t)
  | step_claim id token cookie clock1 clock2 : step t (snd (claim id token cookie clock1 clock2 t))
  | step_complete id result clock : step t (snd (complete id result clock t))
  | step_fail id code message clock : step t (snd (fail id code message clock t)).

End Store.

Definition initial (t : store) : Prop := t = ∅.
