(* ===== verification/AuthChallengeFacts.v ===== *)
(** * Authentication challenges: invariant, transitions, claims, field validation *)

From Stdlib Require Import Ascii.
From S2P Require Import Prelude PyStr Json JsonFacts Sha256 Store Cards CardOwners AuthChallenges.

(** A challenge is its own card: its slot is the session, and it has no card rows. *)
#[export] Instance challenge_owner : CardOwner row contract state := {|
  owner_contract := row_contract;
  owner_state := row_state;
  owner_slot := fun k => (session_id k, "", "");
  owner_expires := expires_at;
  st_live := fun st => match st with Pending | Processing => true | _ => false end;
  st_pending := Pending;
  pending_live := eq_refl;
|}.

Section Facts.
Context `{UnicodeTables, UrlTables}.
Implicit Types (t u : gmap string row) (r : row).

(** ** The expiry check *)

Definition checked (now : instant) (r : row) : row :=
  if is_active r && (expires_at r <=? now)%Z then expired_row now r else r.

Definition expire_table (id : string) (now : instant) t : gmap string row :=
  match t !! id with
  | Some r => if is_active r && (expires_at r <=? now)%Z then <[id := expired_row now r]> t else t
  | None => t
  end.

Lemma expire_table_lookup id now t : expire_table id now t !! id = checked now <$> t !! id.
Proof.
  unfold expire_table, checked. destruct (t !! id) as [r|] eqn:Hr; [|done].
  cbn. destruct (is_active r && _); cbn; [by rewrite lookup_insert_eq|by rewrite Hr].
Qed.

Lemma select_run id t r : t !! id = Some r -> _select id t = Ok (r, t).
Proof. intros Hr. unfold _select, pbind, mbind, tx_bind, gets. by rewrite Hr. Qed.

Lemma ac_select_bind {B} id (k : row -> tx (gmap string row) B) t x :
  (r ← _select id; k r) t = Ok x <-> exists r, t !! id = Some r /\ k r t = Ok x.
Proof.
  unfold _select, pbind, mbind, tx_bind, gets. destruct (t !! id) as [r|]; cbn; naive_solver.
Qed.

Lemma _expire_run id r clock t : t !! id = Some r ->
  _expire_if_needed id r clock t =
  match clock with
  | Aware now => Ok (checked now r, expire_table id now t)
  | Naive _ => raise ValueError "challenge clock must return timezone-aware datetime"
  end.
Proof.
  intros Hr. destruct clock as [now|]; [|done]. unfold checked, expire_table, _expire_if_needed.
  rewrite Hr. erewrite tx_bind_run by reflexivity.
  destruct (is_active r && _); [|done]. erewrite tx_bind_run by reflexivity.
  rewrite (update_key_hit _ _ _ _ _ Hr) by done. apply select_run, lookup_insert_eq.
Qed.

Lemma ac_fetch_run {B} id clock (k : row -> tx (gmap string row) B) t :
  (r ← _select id; r' ← _expire_if_needed id r clock; k r') t =
  match (t !! id : option row), clock with
  | None, _ => raise ChallengeNotFound ("authentication challenge not found: " +:+ id)
  | Some r, Aware now => k (checked now r) (expire_table id now t)
  | Some r, Naive _ => raise ValueError "challenge clock must return timezone-aware datetime"
  end.
Proof.
  destruct (t !! id) as [r|] eqn:Hr.
  - erewrite tx_bind_run by (by apply select_run).
    pose proof (_expire_run id r clock t Hr) as He. destruct clock as [now|].
    + by erewrite tx_bind_run by exact He.
    + by erewrite tx_bind_fail by exact He.
  - unfold _select, pbind, mbind, tx_bind, gets. by rewrite Hr.
Qed.

Lemma ac_fetch_bind {B} id clock (k : row -> tx (gmap string row) B) t x :
  (r ← _select id; r' ← _expire_if_needed id r clock; k r') t = Ok x <->
  exists now r, clock = Aware now /\ expire_table id now t !! id = Some r /\
    k r (expire_table id now t) = Ok x.
Proof.
  rewrite ac_fetch_run. destruct (t !! id) as [r0|] eqn:Hr.
  - destruct clock as [now|]; split.
    + intros Hk. exists now, (checked now r0). by rewrite expire_table_lookup, Hr.
    + intros (? & r & [= <-] & Hl & Hk). rewrite expire_table_lookup, Hr in Hl. by injection Hl as <-.
    + done.
    + by intros (? & ? & ? & _).
  - split; [done|]. intros (now & r & -> & Hl & _). by rewrite expire_table_lookup, Hr in Hl.
Qed.

(** [u] is [t] with some active rows past their deadline expired. *)
Definition only_expires t u : Prop :=
  forall k, u !! k = t !! k \/
    exists r now, t !! k = Some r /\ is_active r = true /\ (expires_at r <= now)%Z /\
      u !! k = Some (expired_row now r).

Lemma only_expires_refl t : only_expires t t.
Proof. by left. Qed.

Lemma only_expires_table id now t : only_expires t (expire_table id now t).
Proof.
  unfold expire_table. destruct (t !! id) as [r|] eqn:Hr; [|by left].
  destruct (is_active r && _) eqn:E; [|by left]. bool_simpl.
  intros k. split_eq k id; [right|left; by rewrite lookup_insert_ne].
  exists r, now. by rewrite lookup_insert_eq.
Qed.

Lemma expired_not_active now r : is_active (expired_row now r) = false.
Proof. done. Qed.

Lemma only_expires_trans t u w : only_expires t u -> only_expires u w -> only_expires t w.
Proof.
  intros H1 H2 k. destruct (H2 k) as [->|(r & now & Hr & Ha & Hn & Hw)]; [done|].
  destruct (H1 k) as [E|(r0 & now0 & Hr0 & _ & _ & Hu)].
  - right. exists r, now. rewrite <- E. done.
  - rewrite Hu in Hr. injection Hr as <-. done.
Qed.

Lemma only_expires_active t u k r :
  only_expires t u -> u !! k = Some r -> is_active r = true -> t !! k = Some r.
Proof.
  intros H1 Hr Ha. destruct (H1 k) as [<-|(r0 & now0 & _ & _ & _ & Hu)]; [done|].
  rewrite Hu in Hr. injection Hr as <-. done.
Qed.

Lemma expire_each_Ok clock n rows t out u :
  NoDup (map fst rows) -> (forall id r, In (id, r) rows -> t !! id = Some r) ->
  expire_each clock n rows t = Ok (out, u) ->
  only_expires t u /\ map fst out = map fst rows /\
  (forall id r, In (id, r) out -> u !! id = Some r) /\
  (forall k, ~ In k (map fst rows) -> u !! k = t !! k).
Proof.
  revert n t out. induction rows as [|[id r] rows IH]; intros n t out Hnd Hrows Hb; cbn in Hb.
  { injection Hb as <- <-. split_and!; [apply only_expires_refl|done|done|done]. }
  cbn [map fst] in Hnd. apply NoDup_cons in Hnd as [Hid Hnd]. rewrite list_elem_of_In in Hid.
  apply tx_bind_Ok in Hb as (r' & t1 & He & Hb).
  assert (Hr : t !! id = Some r) by (apply Hrows; by left).
  rewrite (_expire_run _ _ _ _ Hr) in He. destruct (clock n) as [now|]; [|done].
  injection He as <- <-.
  apply tx_bind_Ok in Hb as (rest' & t2 & Hrest & Hb). injection Hb as <- <-.
  assert (Hframe : forall k, k <> id -> expire_table id now t !! k = t !! k).
  { intros k Hk. unfold expire_table. rewrite Hr. destruct (is_active r && _); [|done].
    by rewrite lookup_insert_ne. }
  destruct (IH (S n) (expire_table id now t) rest') as (H1 & H2 & H3 & H4); [done| |done|].
  { intros k q Hq. rewrite Hframe; [apply Hrows; by right|].
    intros ->. apply Hid. by apply (in_map fst) in Hq. }
  split_and!.
  - eapply only_expires_trans; [apply only_expires_table|exact H1].
  - cbn. by rewrite H2.
  - intros k q [[= <- <-]|Hq]; [|auto].
    rewrite H4 by done. by rewrite expire_table_lookup, Hr.
  - intros k Hk. cbn in Hk. rewrite H4 by tauto. apply Hframe. intros ->. tauto.
Qed.

(** ** The invariant *)

(** The bookkeeping columns agree with the state. *)
Definition row_ok (r : row) : Prop :=
  match row_state r with
  | Pending =>
      claimed_at r = None /\ result_json r = None /\ error_code r = None /\ completed_at r = None
  | Processing =>
      csrf_hash r = None /\ is_Some (claimed_at r) /\ result_json r = None /\
      error_code r = None /\ completed_at r = None
  | Succeeded =>
      csrf_hash r = None /\ is_Some (claimed_at r) /\ is_Some (result_json r) /\
      error_code r = None /\ is_Some (completed_at r)
  | Failed =>
      csrf_hash r = None /\ is_Some (claimed_at r) /\ result_json r = None /\
      is_Some (error_code r) /\ is_Some (completed_at r)
  | Expired =>
      csrf_hash r = None /\ result_json r = None /\ error_code r = Some "CHALLENGE_EXPIRED" /\
      is_Some (completed_at r)
  | Superseded =>
      claimed_at r = None /\ result_json r = None /\ error_code r = None /\ is_Some (completed_at r)
  end.

Record Inv t : Prop := {
  inv_rows : forall id r, t !! id = Some r -> row_ok r;
  inv_sessions : one_live t;
}.

Lemma is_active_spec r : is_active r = true <-> row_state r = Pending \/ row_state r = Processing.
Proof. unfold is_active. destruct (row_state r); intuition congruence. Qed.

Lemma is_active_false r : is_active r = false <-> row_state r <> Pending /\ row_state r <> Processing.
Proof. unfold is_active. destruct (row_state r); intuition congruence. Qed.

Ltac row_ok_tac Hp :=
  unfold row_ok; cbn; rewrite ?Hp; cbn; intros; split_and!;
  first [done | tauto | by eexists | intuition eauto].

Lemma ac_row_ok_expired now r : row_ok r -> is_active r = true -> row_ok (expired_row now r).
Proof. intros Hok Ha%is_active_spec. revert Hok. destruct Ha as [Hp|Hp]; row_ok_tac Hp. Qed.

Lemma ac_row_ok_superseded now r : row_ok r -> row_state r = Pending -> row_ok (superseded_row now r).
Proof. intros Hok Hp. revert Hok. row_ok_tac Hp. Qed.

Lemma row_ok_token hash now r : row_ok r -> row_state r = Pending -> row_ok (token_row hash now r).
Proof. intros Hok Hp. revert Hok. row_ok_tac Hp. Qed.

Lemma row_ok_claimed now r : row_ok r -> row_state r = Pending -> row_ok (claimed_row now r).
Proof. intros Hok Hp. revert Hok. row_ok_tac Hp. Qed.

Lemma row_ok_succeeded v now r :
  row_ok r -> row_state r = Processing -> row_ok (finished_row Succeeded (Some v) None None now r).
Proof. intros Hok Hp. revert Hok. row_ok_tac Hp. Qed.

Lemma row_ok_failed code message now r :
  row_ok r -> row_state r = Processing ->
  row_ok (finished_row Failed None (Some code) (Some message) now r).
Proof. intros Hok Hp. revert Hok. row_ok_tac Hp. Qed.

Lemma ac_row_ok_new a p n id : row_ok (new_row a p n id).
Proof. by unfold row_ok. Qed.

(** ** What a returning body did *)

Definition active_rows (a : create_args) t : list (string * row) :=
  sort_by newer (select_where (active_in (a_session_id a)) t).

Lemma active_rows_In a t id r : In (id, r) (active_rows a t) <->
  t !! id = Some r /\ session_id r = a_session_id a /\ is_active r = true.
Proof.
  unfold active_rows. rewrite <- list_elem_of_In, sort_by_perm, list_elem_of_In, select_where_In.
  unfold active_in. rewrite andb_true_iff, String.eqb_eq. tauto.
Qed.

Lemma active_rows_NoDup a t : NoDup (map fst (active_rows a t)).
Proof. unfold active_rows. rewrite sort_by_perm. apply select_where_NoDup. Qed.

(** The rows the loop leaves active are the active rows of the session. *)
Lemma still_active a clock t out t1 :
  expire_each clock 1 (active_rows a t) t = Ok (out, t1) ->
  only_expires t t1 /\ forall id r,
    In (id, r) (List.filter (fun ir => is_active (snd ir)) out) <->
    t1 !! id = Some r /\ session_id r = a_session_id a /\ is_active r = true.
Proof.
  intros He. destruct (expire_each_Ok _ _ _ _ _ _ (active_rows_NoDup a t)
    (fun id r Hin => proj1 (proj1 (active_rows_In a t id r) Hin)) He) as (H1 & H2 & H3 & _).
  split; [done|]. intros id r. rewrite filter_In. cbn [snd]. split.
  - intros [Hin Ha]. assert (Hr := H3 _ _ Hin). split_and!; [done| |done].
    pose proof (only_expires_active _ _ _ _ H1 Hr Ha) as Ht.
    assert (Hid : In id (map fst (active_rows a t))) by (rewrite <- H2; apply (in_map fst) in Hin; done).
    apply in_map_iff in Hid as ([k q] & Hk & Hq). cbn in Hk. subst k.
    apply active_rows_In in Hq as (Hq & Hs & _). congruence.
  - intros (Hr & Hs & Ha). split; [|done].
    pose proof (only_expires_active _ _ _ _ H1 Hr Ha) as Ht.
    assert (Hid : In id (map fst out)).
    { rewrite H2. apply (in_map fst _ (id, r)), active_rows_In. done. }
    apply in_map_iff in Hid as ([k q] & Hk & Hq). cbn in Hk. subst k.
    rewrite (H3 _ _ Hq) in Hr. by injection Hr as <-.
Qed.

Definition pending_in_session (session : string) (r : row) : bool :=
  String.eqb (session_id r) session && bool_decide (row_state r = Pending).

Inductive create_outcome (a : create_args) (reuse_active : bool) (p : prepared) (id n : string)
    t1 : ((string * row) * bool) -> gmap string row -> Prop :=
  | outcome_reused k r :
      reuse_active = true -> t1 !! k = Some r -> session_id r = a_session_id a ->
      is_active r = true -> _challenge_contract_matches a p r = true ->
      create_outcome a reuse_active p id n t1 ((k, r), true) t1
  | outcome_created :
      (forall k r, t1 !! k = Some r -> session_id r = a_session_id a -> row_state r <> Processing) ->
      (reuse_active = true -> forall k r, t1 !! k = Some r -> session_id r = a_session_id a ->
         is_active r = true -> _challenge_contract_matches a p r = false) ->
      t1 !! id = None ->
      create_outcome a reuse_active p id n t1 ((id, new_row a p n id), false)
        (<[id := new_row a p n id]>
           (update_where (pending_in_session (a_session_id a)) (superseded_row (p_now p)) t1)).

Lemma ac_create_body_Ok a reuse_active clock id n t x u :
  _create_body a reuse_active clock id n t = Ok (x, u) ->
  exists p t1, prepare a (clock 0%nat) = Ok p /\ only_expires t t1 /\
    create_outcome a reuse_active p id n t1 x u.
Proof.
  intros Hb. unfold _create_body in Hb. tx_inv Hb.
  apply tx_bind_Ok in Hb as (out & t1 & He & Hb). cbv zeta in Hb.
  destruct (still_active _ _ _ _ _ He) as [H1 Hact].
  exists a0, t1. split_and!; [done|done|]. set (rows := List.filter _ out) in *.
  destruct (if reuse_active then List.find _ rows else None) as [[k r]|] eqn:Ef.
  - destruct reuse_active; [|done]. tx_inv Hb. apply find_some in Ef as [Hin Hm].
    apply Hact in Hin as (Hr & Hs & Ha). by constructor.
  - tx_inv Hb. apply insert_row_Ok in E0 as (Hn & _ & ->).
    apply ac_select_bind in Hb as (r & Hr & Hb). tx_inv Hb.
    rewrite lookup_insert_eq in Hr. injection Hr as <-.
    rewrite lookup_update_where, fmap_None in Hn. constructor; [|intros ->|done].
    + intros k r Hr Hs Hp.
      assert (Hin : In (k, r) rows).
      { apply Hact. split_and!; [done|done|]. apply is_active_spec. tauto. }
      apply not_true_iff_false in G. apply G, existsb_exists.
      exists (k, r). split; [done|]. by apply bool_decide_eq_true.
    + intros k r Hr Hs Ha. apply (find_none _ _ Ef (k, r)). apply Hact. done.
Qed.

Lemma ac_get_body_Ok id clock t x u :
  get_body id clock t = Ok (x, u) ->
  exists now r, clock = Aware now /\ u = expire_table id now t /\ u !! id = Some r /\ x = (id, r).
Proof.
  unfold get_body. rewrite ac_fetch_bind. intros (now & r & -> & Hr & Hb). tx_inv Hb. eauto 6.
Qed.

Lemma ac_issue_csrf_Ok id clock1 clock2 token t x u :
  issue_csrf id clock1 clock2 token t = Ok (x, u) ->
  exists now1 now2 r, clock1 = Aware now1 /\ clock2 = Aware now2 /\
    let t1 := expire_table id now2 t in
    t1 !! id = Some r /\ row_state r = Pending /\ x = token /\
    u = <[id := token_row (_token_hash token) now1 r]> t1.
Proof.
  intros Hb. unfold issue_csrf in Hb. tx_inv Hb. apply as_utc_Ok in E as ->.
  apply ac_fetch_bind in Hb as (now2 & r & -> & Hr & Hb). tx_inv Hb. bool_simpl.
  exists a, now2, r. rewrite (update_key_hit _ _ _ _ _ Hr) by done. done.
Qed.

Lemma token_accepted expected token cookie supplied :
  token_rejected expected token cookie supplied = Ok false ->
  expected <> "" /\ cookie <> "" /\ token = cookie /\ expected = supplied.
Proof.
  unfold token_rejected.
  destruct (truthy expected) eqn:He; cbn [negb]; [|done].
  destruct (truthy cookie) eqn:Hc; cbn [negb]; [|done].
  intros Hb. apply result_bind_Ok in Hb as ([] & H1 & Hb); cbn in Hb; [|done].
  apply result_bind_Ok in Hb as ([] & H2 & Hb); [|done].
  apply compare_digest_true in H1, H2. apply truthy_true in He, Hc. done.
Qed.

Lemma claim_body_Ok id token cookie clock1 clock2 t x u :
  claim_body id token cookie clock1 clock2 t = Ok (x, u) ->
  exists now1 now2 r, clock1 = Aware now1 /\ clock2 = Aware now2 /\
    let t1 := expire_table id now2 t in
    t1 !! id = Some r /\ row_state r = Pending /\ token <> "" /\ cookie = token /\
    csrf_hash r = Some (_token_hash token) /\
    x = (id, claimed_row now1 r) /\ u = <[id := claimed_row now1 r]> t1.
Proof.
  intros Hb. unfold claim_body in Hb. tx_inv Hb. apply as_utc_Ok in E as ->.
  apply ac_fetch_bind in Hb as (now2 & r & -> & Hr & Hb). tx_inv Hb. bool_simpl. subst.
  apply token_accepted in E as (He & Hc & -> & Hh).
  rewrite (proj2 (truthy_true cookie) Hc) in Hh.
  rewrite (update_key_hit _ _ _ _ _ Hr) in Hb by (by apply bool_decide_eq_true).
  tx_inv Hb. apply ac_select_bind in Hb as (r' & Hr' & Hb). tx_inv Hb.
  rewrite lookup_insert_eq in Hr'. injection Hr' as <-.
  exists a, now2, r. destruct (csrf_hash r) as [h|]; cbn in *; [|done]. subst h. split_and!; done.
Qed.

Lemma finish_body_Ok id st result code message clock t x u :
  _finish_body id st result code message clock t = Ok (x, u) ->
  exists now r, clock = Aware now /\ t !! id = Some r /\ row_state r = Processing /\
    let r' := finished_row st result code message now r in
    x = (id, r') /\ u = <[id := r']> t.
Proof.
  intros Hb. unfold _finish_body in Hb. tx_inv Hb. apply as_utc_Ok in E as ->.
  apply ac_select_bind in Hb as (r & Hr & Hb). tx_inv Hb. bool_simpl.
  rewrite (update_key_hit _ _ _ _ _ Hr) in Hb by done.
  apply ac_select_bind in Hb as (r' & Hr' & Hb). cbn [fst] in Hr', Hb. tx_inv Hb.
  rewrite lookup_insert_eq in Hr'. injection Hr' as <-. eauto 7.
Qed.

(** ** The invariant is kept *)

Lemma ac_Inv_initial t : initial t -> Inv t.
Proof. intros ->. split; [intros ? ?|intros ? ? ? ?]; by rewrite lookup_empty. Qed.

Lemma one_live_touch t id r r' :
  one_live t -> t !! id = Some r -> row_contract r' = row_contract r ->
  (is_active r' = true -> is_active r = true) -> one_live (<[id := r']> t).
Proof.
  intros Ho Hr Hk Hl. assert (Hok : owners_ok t no_cards) by (split; [done|apply live_no_cards]).
  refine (ok_slots _ _ (owners_touch t no_cards id r r' no_cards Hok Hr Hk Hl _)).
  apply live_no_cards.
Qed.

Lemma ac_Inv_touch t id r r' :
  Inv t -> t !! id = Some r -> row_contract r' = row_contract r -> row_ok r' ->
  (is_active r' = true -> is_active r = true) -> Inv (<[id := r']> t).
Proof.
  intros [Hrows Ho] Hr Hk Hok Hl. split; [|by eapply one_live_touch].
  intros k q. split_eq k id; simplify_map_eq; [by intros [= <-]|eauto].
Qed.

Lemma Inv_expires t u : Inv t -> only_expires t u -> Inv u.
Proof.
  intros [Hrows Ho] He. split.
  - intros k q Hq. destruct (He k) as [E|(r & now & Hr & Ha & _ & Hu)]; [rewrite E in Hq; eauto|].
    assert (q = expired_row now r) as -> by congruence. apply ac_row_ok_expired; eauto.
  - intros k1 k2 q1 q2 H1 H2 L1 L2.
    apply (only_expires_active _ _ _ _ He) in H1, H2; [eauto|done..].
Qed.

Lemma ac_Inv_created a p n id t :
  Inv t -> t !! id = None ->
  (forall k r, t !! k = Some r -> session_id r = a_session_id a -> row_state r <> Processing) ->
  Inv (<[id := new_row a p n id]>
         (update_where (pending_in_session (a_session_id a)) (superseded_row (p_now p)) t)).
Proof.
  intros [Hrows Ho] Hn Hproc. split.
  - intros k q. split_eq k id; simplify_map_eq; [intros [= <-]; apply ac_row_ok_new|].
    rewrite lookup_update_where, fmap_Some. intros (q0 & Hq & ->).
    destruct (pending_in_session _ q0) eqn:E; [|eauto].
    unfold pending_in_session in E. bool_simpl. apply ac_row_ok_superseded; eauto.
  - set (live_here := fun r => String.eqb (session_id r) (a_session_id a) && is_active r).
    assert (Hext : update_where (pending_in_session (a_session_id a)) (superseded_row (p_now p)) t
                 = update_where live_here (superseded_row (p_now p)) t).
    { apply map_eq. intros k. rewrite !lookup_update_where.
      destruct (t !! k) as [q|] eqn:Hq; [|done]. cbn. f_equal.
      unfold pending_in_session, live_here. destruct (String.eqb_spec (session_id q) (a_session_id a)) as [Es|];
        [|done]. specialize (Hproc _ _ Hq Es). unfold is_active.
      destruct (row_state q); done. }
    rewrite Hext. assert (Hok : owners_ok t no_cards) by (split; [done|apply live_no_cards]).
    refine (ok_slots _ _ (owners_insert t no_cards id _ live_here _ (fun _ => true) 0%Z Hok Hn _ _ _)).
    + intros q. unfold live_here, slot_of. rewrite andb_true_iff, String.eqb_eq. cbn.
      split; [intros [-> Ha]; auto|intros [[= ->] Ha]; auto].
    + done.
    + done.
Qed.

Lemma ac_Inv_step t u : Inv t -> step t u -> Inv u.
Proof.
  intros HI Hst. destruct Hst; unfold _create, get, claim, complete, fail, _finish.
  6: destruct (negb (truthy code) || negb (truthy message)); [exact HI|].
  all: rewrite ?method_state; (apply after_preserves; [|exact HI]); intros x t'.
  - intros (p & t1 & _ & He & Ho)%ac_create_body_Ok.
    assert (HI1 := Inv_expires _ _ HI He). destruct Ho; [done|]. by apply ac_Inv_created.
  - intros (now & r & _ & -> & _)%ac_get_body_Ok. eapply Inv_expires; [done|apply only_expires_table].
  - intros (now1 & now2 & r & _ & _ & Hr & Hp & _ & ->)%ac_issue_csrf_Ok.
    assert (HI1 := Inv_expires _ _ HI (only_expires_table id now2 t)).
    eapply ac_Inv_touch; [done|exact Hr|done| |done].
    apply row_ok_token; [by eapply inv_rows|done].
  - intros (now1 & now2 & r & _ & _ & Hr & Hp & _ & _ & _ & _ & ->)%claim_body_Ok.
    assert (HI1 := Inv_expires _ _ HI (only_expires_table id now2 t)).
    eapply ac_Inv_touch; [done|exact Hr|done| |].
    + apply row_ok_claimed; [by eapply inv_rows|done].
    + intros _. apply is_active_spec. tauto.
  - intros (now & r & _ & Hr & Hp & _ & ->)%finish_body_Ok.
    eapply ac_Inv_touch; [done|exact Hr|done| |done].
    apply row_ok_succeeded; [by eapply inv_rows|done].
  - intros (now & r & _ & Hr & Hp & _ & ->)%finish_body_Ok.
    eapply ac_Inv_touch; [done|exact Hr|done| |done].
    apply row_ok_failed; [by eapply inv_rows|done].
Qed.

(** ** Transitions *)

Inductive move (r : row) : row -> Prop :=
  | move_expires now : is_active r = true -> (expires_at r <= now)%Z -> move r (expired_row now r)
  | move_supersedes now : row_state r = Pending -> move r (superseded_row now r)
  | move_token hash now : row_state r = Pending -> move r (token_row hash now r)
  | move_claims now : row_state r = Pending -> is_Some (csrf_hash r) -> move r (claimed_row now r)
  | move_finishes st result code message now :
      row_state r = Processing -> st = Succeeded \/ st = Failed ->
      move r (finished_row st result code message now r).

Lemma move_live r r' : move r r' -> live_row r = true.
Proof.
  change (live_row r) with (is_active r). rewrite is_active_spec.
  destruct 1; [by apply is_active_spec|tauto..].
Qed.

Lemma move_contract r r' : move r r' -> owner_contract r' = owner_contract r.
Proof. by destruct 1. Qed.

Lemma moves_expires t u : only_expires t u -> moves move t u.
Proof.
  intros He. split.
  - intros k r Hr. destruct (He k) as [E|(q & now & Hq & Ha & Hn & Hu)].
    + exists r. rewrite E. auto.
    + assert (q = r) as -> by congruence. eexists. split_and!; [exact Hu|done|right].
      by apply move_expires.
  - intros k r Hu Ht. destruct (He k) as [E|(q & now & Hq & _)]; congruence.
Qed.

Lemma moves_created a p n id t t1 :
  only_expires t t1 -> t1 !! id = None ->
  moves move t (<[id := new_row a p n id]>
    (update_where (pending_in_session (a_session_id a)) (superseded_row (p_now p)) t1)).
Proof.
  intros He Hn.
  assert (Hi : moves move t1 (<[id := new_row a p n id]>
    (update_where (pending_in_session (a_session_id a)) (superseded_row (p_now p)) t1))).
  { apply moves_insert; [done|done|]. intros q Hq. unfold pending_in_session in Hq. bool_simpl.
    split; [done|]. by apply move_supersedes. }
  split.
  - intros k r Hr. destruct (He k) as [E|(q & now & Hq & Ha & Hnow & Hu)].
    + apply (moves_old _ _ _ Hi). congruence.
    + assert (q = r) as -> by congruence.
      destruct (moves_old _ _ _ Hi _ _ Hu) as (r2 & H2 & C2 & [->|M2%move_live]); [|done].
      eexists. split_and!; [exact H2|done|right]. by apply move_expires.
  - intros k r Hk Ht. destruct (t1 !! k) as [q|] eqn:Hq.
    + destruct (He k) as [E|(q' & now & Hq' & _)]; congruence.
    + eapply moves_new; eauto.
Qed.


Lemma expire_table_live id now t r :
  expire_table id now t !! id = Some r -> is_active r = true ->
  expire_table id now t = t /\ (now < expires_at r)%Z.
Proof.
  unfold expire_table. destruct (t !! id) as [r0|] eqn:Hr; [|congruence].
  destruct (is_active r0 && (expires_at r0 <=? now)%Z) eqn:E; cbn.
  - rewrite lookup_insert_eq. by intros [= <-].
  - rewrite Hr. intros [= <-] Hl. rewrite Hl in E. cbn in E. split; [done|].
    by apply Z.leb_gt in E.
Qed.

Lemma moves_after {A} (m : tx (gmap string row) A) t :
  (forall x u, m t = Ok (x, u) -> moves move t u) -> moves move t (after m t).
Proof. intros Hm. destruct (after_cases m t) as [->|[x Hx]]; [apply moves_refl|eauto]. Qed.

Lemma step_moves t u : step t u -> moves move t u.
Proof.
  intros Hst. destruct Hst; unfold _create, get, claim, complete, fail, _finish.
  6: destruct (negb (truthy code) || negb (truthy message)); [apply moves_refl|].
  all: rewrite ?method_state; apply moves_after; intros x t'.
  - intros (p & t1 & _ & He & Ho)%ac_create_body_Ok. destruct Ho.
    + by apply moves_expires.
    + by apply moves_created.
  - intros (now & r & _ & -> & _)%ac_get_body_Ok. apply moves_expires, only_expires_table.
  - intros (now1 & now2 & r & _ & _ & Hr & Hp & _ & ->)%ac_issue_csrf_Ok.
    destruct (expire_table_live _ _ _ _ Hr) as [E _]; [by apply is_active_spec; left|].
    rewrite E in *. apply (moves_touch _ _ _ r); [done|done|]. by apply move_token.
  - intros (now1 & now2 & r & _ & _ & Hr & Hp & _ & _ & Hc & _ & ->)%claim_body_Ok.
    destruct (expire_table_live _ _ _ _ Hr) as [E _]; [by apply is_active_spec; left|].
    rewrite E in *. apply (moves_touch _ _ _ r); [done|done|]. apply move_claims; [done|by eexists].
  - intros (now & r & _ & Hr & Hp & _ & ->)%finish_body_Ok.
    apply (moves_touch _ _ _ r); [done|done|]. apply move_finishes; tauto.
  - intros (now & r & _ & Hr & Hp & _ & ->)%finish_body_Ok.
    apply (moves_touch _ _ _ r); [done|done|]. apply move_finishes; tauto.
Qed.

(** A challenge that has left the pending state never returns to it. *)
Definition stays_claimed (r r' : row) : Prop := row_state r <> Pending -> row_state r' <> Pending.

#[local] Instance stays_claimed_preorder : PreOrder stays_claimed.
Proof. unfold stays_claimed. split; [by intros r ?|]. intros r1 r2 r3 H1 H2 H3. auto. Qed.

Lemma move_stays_claimed r r' : move r r' -> stays_claimed r r'.
Proof.
  unfold stays_claimed. destruct 1 as [| | | |st result code message now Hp [->| ->]]; cbn; congruence.
Qed.

Lemma steps_claimed t u id r :
  rtc step t u -> t !! id = Some r ->
  exists r', u !! id = Some r' /\ row_contract r' = row_contract r /\ stays_claimed r r'.
Proof. exact (moves_star_pre (fun t => t) step move _ t u id r step_moves move_stays_claimed). Qed.

Lemma steps_frozen t u id r :
  rtc step t u -> t !! id = Some r ->
  exists r', u !! id = Some r' /\ row_contract r' = row_contract r /\
    (is_active r = false -> r' = r).
Proof. exact (moves_star (fun t => t) step move t u id r step_moves move_live). Qed.

(** ** Functional specification of [claim] *)

Definition claim_outcome (id token cookie : string) (now1 now2 : instant) (o : option row)
  : result row :=
  match o with
  | None => raise ChallengeNotFound ("authentication challenge not found: " +:+ id)
  | Some r0 =>
      let r := checked now2 r0 in
      if negb (bool_decide (row_state r = Pending))
      then raise ChallengeStateError
             ("authentication challenge is not pending: " +:+ state_text (row_state r))
      else
        rejected ← token_rejected (or_empty (csrf_hash r)) token cookie
                     (if truthy token then _token_hash token else "");
        raise_if rejected ChallengeAccessDenied "authentication card CSRF validation failed";;
        Ok (claimed_row now1 r)
  end.

Lemma checked_pending now r : row_state (checked now r) = Pending ->
  checked now r = r /\ is_active r && (expires_at r <=? now)%Z = false.
Proof. unfold checked. by destruct (is_active r && _). Qed.

(** ** Field validation *)

Lemma truthy_str_of_Z z : truthy (str_of_Z z) = true.
Proof. destruct (str_of_Z_head z) as (a & t & -> & _). done. Qed.

Lemma truthy_float_str m e : truthy (float_str m e) = true.
Proof.
  unfold float_str. rewrite truthy_append. apply orb_true_iff. right.
  repeat case_match; rewrite ?truthy_append, ?truthy_str_of_Z, ?orb_true_r; cbn;
    rewrite ?orb_true_r; done.
Qed.

Lemma truthy_py_str v : json_truthy v = true -> truthy (py_str v) = true.
Proof.
  destruct v as [|[]|z|m e|s|l|kvs]; cbn; try done; intros _.
  - apply truthy_str_of_Z.
  - apply truthy_float_str.
Qed.

Lemma text_or_string field key default s :
  jget field key = Some (JStr s) -> text_or field key default = if truthy s then s else default.
Proof. intros Hj. unfold text_or, jget_or_null. rewrite Hj. done. Qed.

Lemma truthy_text_or field key default :
  truthy default = true -> truthy (text_or field key default) = true.
Proof.
  intros Hd. unfold text_or. destruct (json_truthy _) eqn:E; [by apply truthy_py_str|done].
Qed.

Lemma name_matches_truthy name : name_matches name = true -> truthy name = true.
Proof. by destruct name. Qed.

Definition field_name (field : json) : string := text_or field "name" "".

(** What [_validate_fields] promises of one normalized field. *)
Definition field_ok (field : json) : Prop :=
  exists name label input_type autocomplete required,
    field = JObj [("name", JStr name); ("label", JStr label); ("input_type", JStr input_type);
                  ("autocomplete", JStr autocomplete); ("required", JBool required)] /\
    name_matches name = true /\ In input_type ["text"; "password"; "otp"] /\
    label <> "" /\ (py_len label <= 80)%Z /\ autocomplete <> "" /\ (py_len autocomplete <= 80)%Z.

Lemma normalized_name field : name_matches (field_name field) = true ->
  field_name (normalized_field field) = field_name field.
Proof.
  intros Hm. unfold field_name at 1. erewrite text_or_string by reflexivity.
  fold (field_name field). by rewrite (name_matches_truthy _ Hm).
Qed.

Lemma normalized_ok field :
  name_matches (field_name field) = true ->
  str_in (text_or field "input_type" "") ["text"; "password"; "otp"] = true ->
  field_ok (normalized_field field).
Proof.
  intros Hm Ht%str_in_spec. unfold normalized_field. fold (field_name field).
  do 5 eexists. split; [reflexivity|]. split_and!; [done|done| | | |].
  - apply truthy_true, truthy_py_take, truthy_text_or, name_matches_truthy, Hm.
  - apply (py_len_take 80).
  - by apply truthy_true, truthy_py_take, truthy_text_or.
  - apply (py_len_take 80).
Qed.

(** Normalizing what has been normalized changes nothing. *)
Lemma normalized_twice field :
  name_matches (field_name field) = true ->
  str_in (text_or field "input_type" "") ["text"; "password"; "otp"] = true ->
  normalized_field (normalized_field field) = normalized_field field.
Proof.
  intros Hm Ht. pose proof (normalized_name field Hm) as Hn. unfold field_name in Hn.
  unfold normalized_field at 1. rewrite Hn.
  assert (Hlabel : text_or (normalized_field field) "label" (text_or field "name" "")
    = py_take 80 (text_or field "label" (text_or field "name" ""))).
  { erewrite text_or_string by reflexivity.
    rewrite truthy_py_take; [done|]. by apply truthy_text_or, name_matches_truthy. }
  assert (Htype : text_or (normalized_field field) "input_type" "" = text_or field "input_type" "").
  { erewrite text_or_string by reflexivity. by destruct (truthy _) eqn:E; [|apply truthy_false in E]. }
  assert (Hauto : text_or (normalized_field field) "autocomplete" "off"
    = py_take 80 (text_or field "autocomplete" "off")).
  { erewrite text_or_string by reflexivity. rewrite truthy_py_take; [done|]. by apply truthy_text_or. }
  rewrite Hlabel, Htype, Hauto, !py_take_take. reflexivity.
Qed.

Lemma validate_fields_from_Ok seen fields out :
  validate_fields_from seen fields = Ok out ->
  out = map normalized_field fields /\ Forall field_ok out /\
  NoDup (map field_name out) /\ Forall (fun name => ~ In name seen) (map field_name out) /\
  validate_fields_from seen out = Ok out.
Proof.
  revert seen out. induction fields as [|field fields IH]; intros seen out Hv;
    cbn [validate_fields_from] in Hv.
  { injection Hv as <-. split_and!; (constructor || done). }
  apply result_bind_Ok in Hv as (u1 & _ & Hv). apply result_bind_Ok in Hv as (u2 & H2 & Hv).
  apply result_bind_Ok in Hv as (u3 & H3 & Hv). apply result_bind_Ok in Hv as (rest & Hr & [= <-]).
  apply result_raise_if_Ok in H2, H3. apply orb_false_iff in H2 as [Hm Hfresh].
  apply negb_false_iff in Hm, H3. fold (field_name field) in *.
  destruct (IH _ _ Hr) as (-> & Hok & Hnd & Hseen & Hagain).
  pose proof (normalized_name _ Hm) as Hname. pose proof (normalized_ok _ Hm H3) as Hf.
  rewrite List.Forall_forall in Hseen. cbn [map]. rewrite Hname. split_and!.
  - done.
  - by constructor.
  - apply NoDup_cons. split; [|done]. rewrite list_elem_of_In. intros Hin.
    apply (Hseen _ Hin). by left.
  - apply List.Forall_cons; [by apply str_in_false|]. apply List.Forall_forall.
    intros x Hx Hs. apply (Hseen _ Hx). by right.
  - cbn [validate_fields_from]. fold (field_name (normalized_field field)). rewrite Hname, Hm, Hfresh.
    assert (Ht : text_or (normalized_field field) "input_type" "" = text_or field "input_type" "").
    { erewrite text_or_string by reflexivity. by destruct (truthy _) eqn:E; [|apply truthy_false in E]. }
    rewrite Ht, H3, normalized_twice by done. cbn [is_dict normalized_field negb orb].
    unfold pbind at 1 2 3. cbn. by rewrite Hagain.
Qed.

(** ** Properties *)

(** In every reachable table at most one challenge of a session is pending or
    processing, and the bookkeeping columns of each challenge agree with its state. *)
Theorem challenges_invariant t (Ht : reachable initial step t) : Inv t.
Proof. eapply reachable_invariant; [apply ac_Inv_initial|apply ac_Inv_step|exact Ht]. Qed.

(** In every reachable state [create] and [create_or_reuse], when they return,
    answer with a challenge of the session that is then its only open one; a reused
    one was already open and matches the request, and then nothing but expiries
    happened; a new one is pending, and a session whose open challenge is being
    processed never gets one. *)
Theorem created_challenge_is_the_open_one a reuse_active clock id n t v reused u
  (Ht : reachable initial step t)
  (Hcreate : _create a reuse_active clock id n t = (Ok (v, reused), u)) :
  exists p (r : row), prepare a (clock 0%nat) = Ok p /\
    u !! v_challenge_id v = Some r /\ is_active r = true /\ session_id r = a_session_id a /\
    (forall (k : string) (q : row), u !! k = Some q -> session_id q = a_session_id a -> is_active q = true ->
       k = v_challenge_id v) /\
    (if reused
     then reuse_active = true /\ t !! v_challenge_id v = Some r /\ only_expires t u /\
          _challenge_contract_matches a p r = true
     else v_challenge_id v = id /\ r = new_row a p n id /\ v_state v = Pending /\
          forall (k : string) (q : row), t !! k = Some q -> session_id q = a_session_id a ->
            row_state q = Processing -> exists now, u !! k = Some (expired_row now q)).
Proof.
  assert (HI : Inv t) by (eapply reachable_invariant; [apply ac_Inv_initial|apply ac_Inv_step|exact Ht]).
  assert (HIu : Inv u).
  { apply (ac_Inv_step t); [done|]. replace u with (snd (_create a reuse_active clock id n t))
      by (by rewrite Hcreate). constructor. }
  apply method_Ok in Hcreate as ([[i r] reused'] & Hb & Hv).
  apply result_bind_Ok in Hv as (w & Hw & [= -> ->]).
  assert (Hid : v_challenge_id v = i).
  { unfold _challenge_from_row in Hw. repeat (apply result_bind_Ok in Hw as (? & _ & Hw)).
    by injection Hw as <-. }
  assert (Hst : v_state v = row_state r).
  { unfold _challenge_from_row in Hw. repeat (apply result_bind_Ok in Hw as (? & _ & Hw)).
    by injection Hw as <-. }
  apply ac_create_body_Ok in Hb as (p & t1 & Hp & He & Ho). exists p, r.
  assert (Hopen : u !! i = Some r -> is_active r = true -> session_id r = a_session_id a ->
    forall (k : string) (q : row), u !! k = Some q -> session_id q = a_session_id a -> is_active q = true -> k = i).
  { intros Hr Ha Hs k q Hq Hsq Haq. eapply (inv_sessions u HIu); [exact Hq|exact Hr|done|done|].
    unfold slot_of. cbn. congruence. }
  rewrite Hid. inversion Ho as [k q Hre Hr Hs Ha Hm|Hproc Hnomatch Hn]; subst.
  - split_and!; try done; [by apply Hopen|by eapply only_expires_active].
  - rewrite lookup_insert_eq in *. split_and!; try done; [by apply Hopen|].
    intros k q Hq Hs Hpq. destruct (He k) as [E|(q' & now & Hq' & _ & _ & Hu)].
    + rewrite Hq in E. by destruct (Hproc _ _ E Hs).
    + assert (q' = q) as -> by congruence. exists now.
      assert (k <> v_challenge_id v) by congruence.
      rewrite lookup_insert_ne, lookup_update_where, Hu by done. cbn. f_equal.
      unfold pending_in_session. cbn. by rewrite andb_false_r.
Qed.

(** [claim] does exactly what [claim_outcome] says of the row of the challenge:
    the row alone becomes processing and loses its token digest when the challenge is
    pending, unexpired and the token and cookie agree with that digest; otherwise the
    refusal is raised and the table is as it was. *)
Theorem claim_refines id token cookie now1 now2 t :
  transaction (claim_body id token cookie (Aware now1) (Aware now2)) t =
  match claim_outcome id token cookie now1 now2 (t !! id) with
  | Ok r => (Ok (id, r), <[id := r]> t)
  | Raise e => (Raise e, t)
  end.
Proof.
  unfold transaction, claim_body. cbn [_as_utc as_utc].
  erewrite tx_bind_run by reflexivity. rewrite ac_fetch_run.
  destruct (t !! id) as [r0|] eqn:Hr0; [|done]. unfold claim_outcome.
  destruct (bool_decide (row_state (checked now2 r0) = Pending)) eqn:Hst; [|done].
  apply bool_decide_eq_true in Hst. destruct (checked_pending _ _ Hst) as [Hsame Hlive].
  rewrite Hsame in *. assert (Hs : expire_table id now2 t = t).
  { unfold expire_table. by rewrite Hr0, Hlive. }
  rewrite Hs. cbn [negb]. rewrite tx_raise_if_false_bind.
  destruct (token_rejected _ _ _ _) as [[]|]; [done| |done].
  do 3 (erewrite tx_bind_run by reflexivity).
  rewrite (update_key_hit _ _ _ _ _ Hr0) by (by apply bool_decide_eq_true).
  do 2 (erewrite tx_bind_run by reflexivity).
  by erewrite tx_bind_run by (apply select_run; apply lookup_insert_eq).
Qed.

(** A challenge is claimed at most once, and only with the token issued last
    for it: whatever transactions follow a claim that returned, no further claim of
    that challenge returns; and the accepted token is not empty, equals the cookie,
    and its digest is the one stored with the pending, unexpired challenge. *)
Theorem claim_once id token cookie clock1 clock2 t v u w token' cookie' clock3 clock4 v'
  (Hclaim : claim id token cookie clock1 clock2 t = (Ok v, u)) (Hst : rtc step u w) :
  fst (claim id token' cookie' clock3 clock4 w) <> Ok v' /\
  exists r now, t !! id = Some r /\ row_state r = Pending /\ clock2 = Aware now /\
    (now < expires_at r)%Z /\ token <> "" /\ cookie = token /\
    csrf_hash r = Some (_token_hash token).
Proof.
  apply method_Ok in Hclaim as ([i r1] & Hb & _).
  apply claim_body_Ok in Hb as (n1 & n2 & r & _ & -> & Hr & Hp & Ht & Hc & Hh & _ & ->).
  destruct (expire_table_live _ _ _ _ Hr) as [E Hn]; [by apply is_active_spec; left|].
  rewrite E in *. split; [|eauto 10].
  intros Hagain. destruct (steps_claimed _ _ id _ Hst (lookup_insert_eq _ _ _)) as (r' & Hr' & _ & Hs).
  specialize (Hs ltac:(done)).
  destruct (claim id token' cookie' clock3 clock4 w) as [res w'] eqn:Ec. cbn in Hagain. subst res.
  apply method_Ok in Ec as ([i' r2] & Hb & _).
  apply claim_body_Ok in Hb as (n3 & n4 & q & _ & _ & Hq & Hpq & _).
  destruct (expire_table_live _ _ _ _ Hq) as [E' _]; [by apply is_active_spec; left|].
  rewrite E' in Hq. congruence.
Qed.

(** One transaction never deletes a challenge or changes its contract, changes
    a row only along the edges of [move], and leaves succeeded, failed, expired and
    superseded challenges as they are; a challenge it adds is pending. *)
Theorem challenge_lifecycle t u (Hst : step t u) :
  (forall id r, t !! id = Some r -> exists r', u !! id = Some r' /\
     row_contract r' = row_contract r /\ (r' = r \/ move r r') /\ (is_active r = false -> r' = r)) /\
  (forall id r', u !! id = Some r' -> t !! id = None -> row_state r' = Pending).
Proof.
  destruct (step_moves _ _ Hst) as [H1 H2]. split; [|exact H2]. intros id r Hr.
  destruct (H1 _ _ Hr) as (r' & Hr' & Hk & Hm). exists r'. split_and!; try done.
  intros Ha. destruct Hm as [|Hm%move_live]; [done|].
  change (live_row r) with (is_active r) in Hm. congruence.
Qed.

(** Field validation is a normal form: what it accepts it turns into fields with
    distinct, well-formed names, a known input type and non-empty labels and
    autocomplete hints of at most 80 characters, one per input field and in order;
    and it accepts its own output unchanged. *)
Theorem fields_normal_form fields allow_empty out
  (Hv : _validate_fields fields allow_empty = Ok out) :
  exists l l', fields = JArr l /\ out = JArr l' /\ length l' = length l /\
    Forall field_ok l' /\ NoDup (map field_name l') /\ (allow_empty = false -> l' <> []) /\
    _validate_fields out allow_empty = Ok out.
Proof.
  destruct fields as [| | | | |l|]; try done. cbn in Hv.
  apply result_bind_Ok in Hv as (u & He & Hv). apply result_bind_Ok in Hv as (l' & Hl & [= <-]).
  apply result_raise_if_Ok in He.
  destruct (validate_fields_from_Ok _ _ _ Hl) as (E & Hok & Hnd & _ & Hagain).
  exists l, l'. split_and!; try done.
  - by rewrite E, length_map.
  - intros ->. cbn in He. rewrite andb_true_r in He. apply bool_decide_eq_false in He.
    subst l'. by destruct l.
  - cbn. assert (Hempty : bool_decide (l' = []) = bool_decide (l = [])).
    { apply bool_decide_ext. subst l'. by destruct l. }
    by rewrite Hempty, He, Hagain.
Qed.

End Facts.

(** ** Concrete inputs

    The properties of the challenge store, applied to a login form that is created, opened, claimed and completed. *)

Module Demo.
#[local] Existing Instance ascii_tables.
#[local] Existing Instance plain_urls.

Definition args : create_args := {|
  a_user_subject := "u1"; a_system_id := "oa"; a_session_id := "s1";
  a_origin := "https://OA.example/"; a_page_fingerprint := "fp"; a_nonce := None;
  a_fields := JArr [JObj [("name", JStr "user"); ("input_type", JStr "text")];
                    JObj [("name", JStr "pass"); ("input_type", JStr "password");
                          ("label", JStr "Password")]];
  a_card_base_url := "https://agent.example"; a_system_name := "OA";
  a_expected_principal_ref := None; a_ttl_seconds := 300%Z;
  a_challenge_type := "legacy_form_login" |}.

Definition at_times (z : Z) (n : nat) : datetime := Aware (z + Z.of_nat n).

Definition t1 : gmap string row := snd (_create args false (at_times 0) "c1" "n1" ∅).
Definition t2 := after (issue_csrf "c1" (Aware 1) (Aware 1) "token") t1.
Definition t3 := snd (claim "c1" "token" "token" (Aware 2) (Aware 2) t2).

Lemma reachable_t1 : reachable initial step t1.
Proof. eapply reachable_step; [by apply reachable_init|apply step_create]. Qed.

Lemma reachable_t2 : reachable initial step t2.
Proof. eapply reachable_step; [apply reachable_t1|apply step_issue_csrf]. Qed.

Lemma challenges_invariant_witness : reachable initial step t2 /\ Inv t2.
Proof. split; [apply reachable_t2|]. exact (challenges_invariant t2 reachable_t2). Defined.

Lemma created_challenge_is_the_open_one_witness :
  exists v, fst (create_or_reuse args (at_times 5) "c2" "n2" t2) = Ok (v, true) /\
    exists r, t2 !! v_challenge_id v = Some r /\ is_active r = true.
Proof.
  destruct (_create args true (at_times 5) "c2" "n2" t2) as [[[v reused]|e] u] eqn:E;
    [|vm_compute in E; discriminate E].
  destruct (created_challenge_is_the_open_one args true (at_times 5) "c2" "n2" t2 v reused u
              reachable_t2 E) as (p & r & _ & _ & Ha & _ & _ & Hr).
  assert (Hreused : reused = true) by (vm_compute in E; by injection E as _ <-).
  rewrite Hreused in E, Hr. destruct Hr as (_ & Hr & _).
  exists v. split; [exact (f_equal fst E)|]. by exists r.
Defined.

Lemma claim_once_witness :
  exists v, fst (claim "c1" "token" "token" (Aware 2) (Aware 2) t2) = Ok v /\
    forall v', fst (claim "c1" "token" "token" (Aware 3) (Aware 3) t3) <> Ok v'.
Proof.
  destruct (claim "c1" "token" "token" (Aware 2) (Aware 2) t2) as [[v|e] u] eqn:E;
    [|vm_compute in E; discriminate E].
  assert (Hu : t3 = u) by (unfold t3; by rewrite E).
  exists v. split; [reflexivity|]. intros v'. rewrite Hu.
  exact (proj1 (claim_once "c1" "token" "token" _ _ t2 v u u "token" "token" _ _ v' E (rtc_refl _ _))).
Defined.

Lemma challenge_lifecycle_witness :
  exists r', t3 !! "c1" = Some r' /\ row_state r' = Processing.
Proof.
  assert (Hst : step t2 t3) by apply step_claim.
  destruct (t2 !! "c1") as [r|] eqn:Hr; [|vm_compute in Hr; discriminate Hr].
  destruct (proj1 (challenge_lifecycle t2 t3 Hst) "c1" r Hr) as (r' & Hr' & _).
  exists r'. split; [exact Hr'|]. vm_compute in Hr'. injection Hr' as <-. reflexivity.
Defined.

Lemma fields_normal_form_witness :
  exists out, _validate_fields (a_fields args) false = Ok out /\
    _validate_fields out false = Ok out.
Proof.
  destruct (_validate_fields (a_fields args) false) as [out|e] eqn:E;
    [|vm_compute in E; discriminate E].
  exists out. split; [reflexivity|].
  destruct (fields_normal_form _ _ _ E) as (l & l' & _ & _ & _ & _ & _ & _ & Hagain). exact Hagain.
Defined.

End Demo.
