(* ===== verification/Interactions.v ===== *)
(** * Interactions (agentbridge/core/interactions.py)

    An opaque identifier and a uniform envelope for each trusted-card record: a
    login challenge, a field submission or a write authorization. *)

From S2P Require Import Prelude PyStr Json Store.

Definition INTERACTION_SCHEMA_VERSION : string := "agentbridge.interaction.v1".
Definition INTERACTION_TYPES : list string :=
  ["credential"; "business_input"; "execution_authorization"].

(** A row of [interactions] without its key; a trigger forbids every update.  The
    two times are the texts the caller passed. *)
Record row : Type := Row {
  interaction_type : string;
  user_subject : string;
  system_id : string;
  session_id : string;
  operation_id : option string;
  resource_id : string;
  title : string;
  message : string;
  display_json : string;
  resume_json : string;
  created_at : string;
  expires_at : string;
}.

Record view : Type := View {
  v_interaction_id : string;
  v_row : row;
  v_display : json;
  v_resume_spec : json;
}.

Record register_args : Type := RegisterArgs {
  a_interaction_type : string;
  a_user_subject : string;
  a_system_id : string;
  a_session_id : string;
  a_resource_id : string;
  a_title : string;
  a_message : string;
  a_display : json;
  a_resume_spec : json;
  a_created_at : string;
  a_expires_at : string;
  a_operation_id : option string;
}.

Abbreviation store := (gmap string row) (only parsing).

Definition _canonical_json (v : json) : string := dumps v.

(** The view without its columns [display_json] and [resume_json]; the others are
    those of [v_row]. *)
Definition _interaction_from_row (ir : string * row) : result view :=
  let '(id, r) := ir in
  display ← loads (display_json r);
  resume_spec ← loads (resume_json r);
  Ok {| v_interaction_id := id; v_row := r; v_display := display; v_resume_spec := resume_spec |}.

Definition new_row (a : register_args) : row :=
  {| interaction_type := a_interaction_type a; user_subject := a_user_subject a;
     system_id := a_system_id a; session_id := a_session_id a; operation_id := a_operation_id a;
     resource_id := a_resource_id a; title := a_title a; message := a_message a;
     display_json := _canonical_json (a_display a); resume_json := _canonical_json (a_resume_spec a);
     created_at := a_created_at a; expires_at := a_expires_at a |}.

(** [any(row[name] != value ...)] over the columns of [expected]. *)
Definition differs (a : register_args) (r : row) : bool :=
  negb (String.eqb (user_subject r) (a_user_subject a))
  || negb (String.eqb (system_id r) (a_system_id a))
  || negb (String.eqb (session_id r) (a_session_id a))
  || negb (bool_decide (operation_id r = a_operation_id a))
  || negb (String.eqb (title r) (a_title a))
  || negb (String.eqb (message r) (a_message a))
  || negb (String.eqb (display_json r) (_canonical_json (a_display a)))
  || negb (String.eqb (resume_json r) (_canonical_json (a_resume_spec a)))
  || negb (String.eqb (created_at r) (a_created_at a))
  || negb (String.eqb (expires_at r) (a_expires_at a)).

Definition _verify_existing (a : register_args) (r : row) : result unit :=
  raise_if (differs a r) InteractionIntegrityError
    "existing interaction does not match its trusted resource".

Definition _select (id : string) : tx store row :=
  t ← gets (fun t : store => t);
  match (t !! id : option row) with
  | Some r => mret r
  | None => raise InteractionNotFound ("interaction not found: " +:+ id)
  end.

Definition for_resource (type resource : string) (r : row) : bool :=
  String.eqb (interaction_type r) type && String.eqb (resource_id r) resource.

(** Before [with self._connect()]. *)
Definition check_register (a : register_args) : result unit :=
  raise_if (negb (str_in (a_interaction_type a) INTERACTION_TYPES)) ValueError
    ("unsupported interaction type: " +:+ a_interaction_type a);;
  let missing := names_where (fun v => negb (truthy (py_strip v)))
    [("user_subject", a_user_subject a); ("system_id", a_system_id a);
     ("session_id", a_session_id a); ("resource_id", a_resource_id a); ("title", a_title a);
     ("message", a_message a); ("created_at", a_created_at a); ("expires_at", a_expires_at a)] in
  raise_if (bool_decide (missing <> [])) ValueError
    ("interaction is missing: " +:+ py_join ", " missing);;
  raise_if (negb (is_dict (a_display a))) TypeError "interaction display must be an object";;
  raise_if (negb (is_dict (a_resume_spec a)) || negb (json_truthy (jget_or_null (a_resume_spec a) "kind")))
    ValueError "interaction resume specification is required".

Definition register_body (a : register_args) (interaction_id : string) : tx store (string * row) :=
  lift (check_register a);;
  t ← gets (fun t : store => t);
  match select_one (for_resource (a_interaction_type a) (a_resource_id a)) t with
  | Some existing =>
      lift (_verify_existing a (snd existing));;
      mret existing
  | None =>
      t' ← lift (insert_row interaction_id (for_resource (a_interaction_type a) (a_resource_id a))
                   (new_row a) t);
      modify (fun _ : store => t');;
      r ← _select interaction_id;
      mret (interaction_id, r)
  end.

Definition register a interaction_id : store -> result view * store :=
  method (register_body a interaction_id) _interaction_from_row.

Definition get (id user : string) (t : store) : result view :=
  '(r, _) ← _select id t;
  raise_if (negb (String.eqb (user_subject r) user)) InteractionNotFound
    ("interaction not found: " +:+ id);;
  _interaction_from_row (id, r).

Definition find_by_resource (type resource user : string) (t : store) : result view :=
  match select_one (for_resource type resource) t with
  | Some (id, r) =>
      raise_if (negb (String.eqb (user_subject r) user)) InteractionNotFound
        ("interaction not found for " +:+ type +:+ " resource");;
      _interaction_from_row (id, r)
  | None => raise InteractionNotFound ("interaction not found for " +:+ type +:+ " resource")
  end.

(** [ORDER BY created_at DESC], on the text *)
Definition newer (x y : string * row) : bool := str_leb (created_at (snd y)) (created_at (snd x)).

Definition list_where (p : row -> bool) (limit : Z) (t : store) : result (list view) :=
  raise_if ((limit <? 1) || (500 <? limit))%Z ValueError
    "interaction list limit must be between 1 and 500";;
  map_result _interaction_from_row (take (Z.to_nat limit) (sort_by newer (select_where p t))).

Definition list_for_user (user : string) := list_where (fun r => String.eqb (user_subject r) user).
Definition list_all := list_where (fun _ => true).

(** ** Projection *)

Definition mappings : list (string * list (string * (string * bool * bool))) :=
  [("credential",
    [("pending", ("pending", false, false));
     ("processing", ("processing", false, false));
     ("succeeded", ("completed", true, false));
     ("failed", ("failed", false, true));
     ("expired", ("expired", false, true));
     ("superseded", ("superseded", false, true))]);
   ("business_input",
    [("pending", ("pending", false, false));
     ("submitted", ("completed", true, false));
     ("consumed", ("completed", false, true));
     ("expired", ("expired", false, true));
     ("superseded", ("superseded", false, true))]);
   ("execution_authorization",
    [("pending", ("pending", false, false));
     ("approved", ("completed", true, false));
     ("rejected", ("declined", false, true));
     ("consumed", ("completed", false, true));
     ("expired", ("expired", false, true));
     ("superseded", ("superseded", false, true))])].

(** The state shown, whether the caller can resume, whether it is over. *)
Definition _project_state (type resource_state : string) : result (string * bool * bool) :=
  match assoc type mappings ≫= assoc resource_state with
  | Some projected => Ok projected
  | None => raise InteractionIntegrityError
              ("unsupported " +:+ type +:+ " resource state: " +:+ resource_state)
  end.

Definition opt_json (o : option string) : json :=
  match o with Some s => JStr s | None => JNull end.

(** [resource] enters with its [state] and its [card_url]. *)
Definition build_interaction_envelope (record : view) (resource_state resource_card_url : string)
  : result json :=
  let r := v_row record in
  '(state, ready, resume_completed) ← _project_state (interaction_type r) resource_state;
  Ok (JObj
    [("schemaVersion", JStr INTERACTION_SCHEMA_VERSION);
     ("interactionId", JStr (v_interaction_id record));
     ("type", JStr (interaction_type r));
     ("state", JStr state);
     ("title", JStr (title r));
     ("message", JStr (message r));
     ("operationId", opt_json (operation_id r));
     ("presentation", JObj
       [("owner", JStr "agentbridge");
        ("preferred", JStr "embedded_secure_web_app");
        ("fallback", JStr "url");
        ("url", JStr resource_card_url);
        ("modelMustNotCollectValues", JBool true)]);
     ("display", v_display record);
     ("expiresAt", JStr (expires_at r));
     ("poll", JObj
       [("tool", JStr "agentbridge_interaction_get");
        ("recommendedIntervalSeconds", JInt 2)]);
     ("resume", JObj
       [("tool", JStr "agentbridge_interaction_resume");
        ("ready", JBool ready);
        ("completed", JBool resume_completed)])]).

(** ** Transactions of the store *)

Inductive step (t : store) : store -> Prop :=
  | step_register a id : step t (snd (register a id t)).

Definition initial (t : store) : Prop := t = ∅.
