(* ===== verification/InteractionFacts.v ===== *)
(** * Interactions: idempotent registration, ownership, projection of the resources *)

From S2P Require Import Prelude PyStr Json JsonFacts Store CardOwners.
From S2P Require Import WriteAuthorizations WriteAuthorizationFacts.
From S2P Require Import FieldSubmissions FieldSubmissionFacts.
From S2P Require Import AuthChallenges AuthChallengeFacts.
From S2P Require Import TaskStateRules Interactions.

Implicit Types (t u w : gmap string row) (r : row).

Lemma for_resource_spec type resource r :
  for_resource type resource r = true <-> interaction_type r = type /\ resource_id r = resource.
Proof. unfold for_resource. by rewrite andb_true_iff, !String.eqb_eq. Qed.

Lemma differs_false a r :
  interaction_type r = a_interaction_type a -> resource_id r = a_resource_id a ->
  differs a r = false <-> r = new_row a.
Proof.
  intros Ht Hr. unfold differs. rewrite !orb_false_iff, !negb_false_iff, !String.eqb_eq, bool_decide_eq_true.
  split.
  - intros (((((((((? & ?) & ?) & ?) & ?) & ?) & ?) & ?) & ?) & ?).
    destruct r; unfold new_row; cbn in *. congruence.
  - intros ->. cbn. tauto.
Qed.

Lemma in_select_bind {B} id (k : row -> tx (gmap string row) B) t x :
  (r ← _select id; k r) t = Ok x <-> exists r, t !! id = Some r /\ k r t = Ok x.
Proof.
  unfold _select, pbind, mbind, tx_bind, gets. destruct (t !! id) as [r|]; cbn; naive_solver.
Qed.

(** ** The invariant *)

(** [UNIQUE (interaction_type, resource_id)] *)
Definition Inv t : Prop := forall id1 id2 r1 r2,
  t !! id1 = Some r1 -> t !! id2 = Some r2 ->
  interaction_type r1 = interaction_type r2 -> resource_id r1 = resource_id r2 -> id1 = id2.

Lemma register_body_Ok a id t x u :
  register_body a id t = Ok (x, u) ->
  check_register a = Ok tt /\
  ((u = t /\ t !! fst x = Some (snd x) /\ snd x = new_row a) \/
   (x = (id, new_row a) /\ t !! id = None /\ u = <[id := new_row a]> t /\
    forall k q, t !! k = Some q -> for_resource (a_interaction_type a) (a_resource_id a) q = false)).
Proof.
  intros Hb. unfold register_body in Hb. tx_inv Hb. destruct a0. split; [done|].
  destruct (select_one _ t) as [[k q]|] eqn:Es.
  - tx_inv Hb. left. destruct (select_one_Some _ _ _ _ Es) as [Hq [H1 H2]%for_resource_spec].
    unfold _verify_existing in E0. apply result_raise_if_Ok in E0.
    split_and!; [done|done|]. cbn in *. by apply differs_false.
  - tx_inv Hb. right. apply insert_row_Ok in E0 as (Hn & _ & ->).
    apply in_select_bind in Hb as (r & Hr & Hb). tx_inv Hb.
    rewrite lookup_insert_eq in Hr. injection Hr as <-.
    split_and!; [done|done|done|]. by apply select_one_None.
Qed.

Lemma in_Inv_step t u : Inv t -> step t u -> Inv u.
Proof.
  intros HI Hst. destruct Hst as [a id]. unfold register. rewrite method_state.
  apply after_preserves; [|done]. intros x t' [_ [(-> & _)|(_ & Hn & -> & Hno)]]%register_body_Ok; [done|].
  assert (Hfresh : forall k q, t !! k = Some q -> interaction_type q = a_interaction_type a ->
    resource_id q = a_resource_id a -> False).
  { intros k q Hq H1 H2. specialize (Hno _ _ Hq). apply not_true_iff_false in Hno.
    by apply Hno, for_resource_spec. }
  intros k1 k2 q1 q2. split_eq k1 id; split_eq k2 id; simplify_map_eq.
  - done.
  - intros [= <-] H2. cbn. intros E1 E2. by destruct (Hfresh _ _ H2).
  - intros H1 [= <-]. cbn. intros E1 E2. by destruct (Hfresh _ _ H1).
  - apply HI.
Qed.

Lemma in_Inv_initial t : initial t -> Inv t.
Proof. intros -> ? ? ? ?. by rewrite lookup_empty. Qed.

Lemma steps_immutable t u id r : rtc step t u -> t !! id = Some r -> u !! id = Some r.
Proof.
  intros Hst. revert r. induction Hst as [|t w u Hs _ IH]; intros r Hr; [done|]. apply IH. clear IH.
  destruct Hs as [a k]. unfold register. rewrite method_state.
  destruct (after_cases (register_body a k) t) as [->|[x Hx]]; [done|].
  apply register_body_Ok in Hx as [_ [(-> & _)|(_ & Hn & -> & _)]]; [done|].
  rewrite lookup_insert_ne by congruence. done.
Qed.

Lemma register_existing a id' t id r :
  Inv t -> check_register a = Ok tt -> t !! id = Some r ->
  interaction_type r = a_interaction_type a -> resource_id r = a_resource_id a ->
  register a id' t =
    if differs a r
    then (Raise (Exn InteractionIntegrityError
                   "existing interaction does not match its trusted resource"), t)
    else (_interaction_from_row (id, r), t).
Proof.
  intros HI Hc Hr H1 H2. unfold register, method, transaction, register_body. rewrite Hc.
  do 2 (erewrite tx_bind_run by reflexivity).
  rewrite (select_one_unique _ t id r Hr).
  - unfold _verify_existing. cbn [snd]. by destruct (differs a r).
  - by apply for_resource_spec.
  - intros k q Hq [E1 E2]%for_resource_spec. eapply HI; [exact Hq|exact Hr|congruence..].
Qed.

(** ** Properties of the store *)

(** One identifier per trusted resource, forever: after a registration that
    returned, and whatever registrations follow, registering the same contract again
    gives the same interaction and changes nothing, and registering a different
    contract for the same resource is refused and changes nothing. *)
Theorem registration_idempotent a id t v u w b id'
  (Ht : reachable initial step t)
  (Hreg : register a id t = (Ok v, u)) (Hst : rtc step u w)
  (Hcheck : check_register b = Ok tt)
  (Htype : a_interaction_type b = a_interaction_type a)
  (Hres : a_resource_id b = a_resource_id a) :
  register a id' w = (Ok v, w) /\
  (new_row b = new_row a -> register b id' w = (Ok v, w)) /\
  (new_row b <> new_row a -> register b id' w =
     (Raise (Exn InteractionIntegrityError
               "existing interaction does not match its trusted resource"), w)).
Proof.
  assert (Hw : Inv w).
  { assert (HI : Inv u).
    { apply (in_Inv_step t).
      - by eapply reachable_invariant; [apply in_Inv_initial|apply in_Inv_step|].
      - replace u with (snd (register a id t)) by (by rewrite Hreg). constructor. }
    clear -HI Hst. induction Hst; [done|]. eauto using in_Inv_step. }
  apply method_Ok in Hreg as ([i r] & Hb & Hv).
  assert (Hrow : u !! i = Some (new_row a) /\ r = new_row a /\ check_register a = Ok tt).
  { apply register_body_Ok in Hb as [Hc [(-> & Hr & Hn)|([= -> ->] & _ & -> & _)]]; cbn in *.
    - subst r. done.
    - by rewrite lookup_insert_eq. }
  destruct Hrow as (Hr & -> & Hca). apply (steps_immutable _ _ _ _ Hst) in Hr.
  assert (Ha : differs a (new_row a) = false) by (by apply differs_false).
  rewrite (register_existing a id' w i (new_row a)), Ha, Hv by done.
  rewrite (register_existing b id' w i (new_row a)), Hv by done.
  pose proof (differs_false b (new_row a)) as Hd. cbn in Hd.
  split_and!; [done|intros E|intros E].
  - by rewrite (proj2 (Hd (eq_sym Htype) (eq_sym Hres))).
  - destruct (differs b (new_row a)) eqn:Eb; [done|].
    destruct E. symmetry. by apply (Hd (eq_sym Htype) (eq_sym Hres)).
Qed.

(** An interaction is shown only to its user, and another user cannot tell it
    from one that does not exist: [get] of it is [get] in a table without it. *)
Theorem interaction_isolation id user t :
  (forall v, get id user t = Ok v ->
     v_interaction_id v = id /\ user_subject (v_row v) = user /\ t !! id = Some (v_row v)) /\
  (forall r, t !! id = Some r -> user_subject r <> user ->
     get id user t = get id user (delete id t) /\
     get id user t = Raise (Exn InteractionNotFound ("interaction not found: " +:+ id))).
Proof.
  unfold get, _select, pbind, mbind, tx_bind, gets. rewrite lookup_delete_eq.
  destruct (t !! id) as [r|] eqn:Hr; cbn -[loads]; split.
  - intros v. destruct (String.eqb_spec (user_subject r) user) as [E|]; cbn -[loads]; [|done].
    unfold result_bind. intros Hv.
    destruct (loads (display_json r)); [|done]. destruct (loads (resume_json r)); [|done].
    injection Hv as <-. done.
  - intros r' [= <-] Hne. by destruct (String.eqb_spec (user_subject r) user).
  - done.
  - done.
Qed.
