(* ===== verification/InteractionProjection.v ===== *)
(** * Interaction envelopes over the three stores of trusted cards

    What an envelope says of a login challenge, a field submission or a write
    authorization, in terms of the states and transitions of those stores, and what
    the task ledger makes of it. *)

From S2P Require Import Prelude PyStr Json JsonFacts Store Cards CardOwners.
From S2P Require Import WriteAuthorizations WriteAuthorizationFacts.
From S2P Require Import FieldSubmissions FieldSubmissionFacts.
From S2P Require Import AuthChallenges AuthChallengeFacts.
From S2P Require Import TaskStateRules Interactions InteractionFacts.

(** A resource of one of the three kinds, in one of its states. *)
Inductive resource : Type :=
  | Credential (st : AuthChallenges.state)
  | BusinessInput (st : FieldSubmissions.state)
  | Authorization (st : WriteAuthorizations.state).

Definition kind (x : resource) : string :=
  match x with
  | Credential _ => "credential"
  | BusinessInput _ => "business_input"
  | Authorization _ => "execution_authorization"
  end.

Definition text (x : resource) : string :=
  match x with
  | Credential st => AuthChallenges.state_text st
  | BusinessInput st => FieldSubmissions.state_text st
  | Authorization st => WriteAuthorizations.state_text st
  end.

(** The user still has to act; the caller can go on; nothing more will happen. *)
Definition waits (x : resource) : bool :=
  match x with
  | Credential AuthChallenges.Pending | Credential AuthChallenges.Processing
  | BusinessInput FieldSubmissions.Pending | Authorization WriteAuthorizations.Pending => true
  | _ => false
  end.

Definition can_resume (x : resource) : bool :=
  match x with
  | Credential AuthChallenges.Succeeded | BusinessInput FieldSubmissions.Submitted
  | Authorization WriteAuthorizations.Approved => true
  | _ => false
  end.

(** Every state of the three stores has a projection: it says that the user is
    being waited for exactly in the pending and processing states, that the caller
    can resume exactly when the form was submitted, the write approved or the login
    succeeded, and that the interaction is over exactly in the remaining states; and
    the task ledger has a rule of its own for each projected state, which ends the
    task exactly when the user declined or the resource failed, expired or was
    superseded (or, for a login outside any operation, when it succeeded). *)
Theorem resource_projection x has_operation :
  exists st, _project_state (kind x) (text x)
    = Ok (st, can_resume x, negb (waits x) && negb (can_resume x)) /\
  (waits x = true <-> st = "pending" \/ st = "processing") /\
  _event_type_for_interaction st <> "task.interaction.updated" /\
  (str_in (_task_status_for_interaction st (kind x) has_operation) TERMINAL_TASK_STATUSES = true <->
     In st ["declined"; "failed"; "expired"; "superseded"] \/
     (x = Credential AuthChallenges.Succeeded /\ has_operation = false)).
Proof.
  destruct x as [[]|[]|[]]; eexists; (split; [reflexivity|]);
    (split; [cbn; intuition discriminate|]); (split; [discriminate|]);
    destruct has_operation; vm_compute; intuition (congruence || discriminate).
Qed.

(** What an envelope calls completed is final: the row behind it is the same
    after any further transactions of its store, so the envelope stays as it is. *)
Theorem completed_is_final {O} `{UnicodeTables, UrlTables} type st ready :
  (forall (s t : WriteAuthorizations.store O) id r, rtc WriteAuthorizations.step s t ->
     authorizations s !! id = Some r -> type = "execution_authorization" ->
     _project_state type (WriteAuthorizations.state_text (WriteAuthorizations.row_state r))
       = Ok (st, ready, true) ->
     authorizations t !! id = Some r) /\
  (forall (s t : FieldSubmissions.store O) id r, rtc FieldSubmissions.step s t ->
     submissions s !! id = Some r -> type = "business_input" ->
     _project_state type (FieldSubmissions.state_text (FieldSubmissions.row_state r))
       = Ok (st, ready, true) ->
     submissions t !! id = Some r) /\
  (forall (s t : gmap string AuthChallenges.row) id r, rtc AuthChallenges.step s t ->
     s !! id = Some r -> type = "credential" ->
     _project_state type (AuthChallenges.state_text (AuthChallenges.row_state r))
       = Ok (st, ready, true) ->
     t !! id = Some r).
Proof.
  split_and!; intros s t id r Hst Hr -> Hp.
  - destruct (WriteAuthorizationFacts.steps_contract s t id r Hst Hr) as (r' & Hr' & _ & Hf).
    rewrite Hf in Hr'; [done|]. unfold WriteAuthorizations.is_live.
    by destruct (WriteAuthorizations.row_state r).
  - destruct (FieldSubmissionFacts.fs_steps_frozen s t id r Hst Hr) as (r' & Hr' & _ & Hf).
    rewrite Hf in Hr'; [done|]. unfold FieldSubmissions.is_live.
    by destruct (FieldSubmissions.row_state r).
  - destruct (AuthChallengeFacts.steps_frozen s t id r Hst Hr) as (r' & Hr' & _ & Hf).
    rewrite Hf in Hr'; [done|]. unfold AuthChallenges.is_active.
    by destruct (AuthChallenges.row_state r).
Qed.
