(* ===== verification/InteractionDemo.v ===== *)
(** The properties of interactions, applied to a registered write authorization. *)

From S2P Require Import Prelude PyStr Json JsonFacts Store.
From S2P Require Import WriteAuthorizations WriteAuthorizationFacts WriteAuthorizationDemo.
From S2P Require Import Interactions InteractionFacts InteractionProjection.

Module Demo.

Definition args : register_args := {|
  a_interaction_type := "execution_authorization"; a_user_subject := "u1"; a_system_id := "oa";
  a_session_id := "s1"; a_resource_id := "auth"; a_title := "Leave"; a_message := "Approve?";
  a_display := JObj []; a_resume_spec := JObj [("kind", JStr "write")];
  a_created_at := "2026-01-01"; a_expires_at := "2026-01-02"; a_operation_id := None |}.

Definition t1 : gmap string row := snd (register args "i1" ∅).

Lemma registration_idempotent_witness :
  exists v, fst (register args "i1" ∅) = Ok v /\ register args "i2" t1 = (Ok v, t1).
Proof.
  destruct (register args "i1" ∅) as [[v|e] u] eqn:E; [|vm_compute in E; discriminate E].
  assert (Hu : u = t1) by (unfold t1; by rewrite E). rewrite Hu in E.
  exists v. split; [reflexivity|].
  refine (proj1 (registration_idempotent args "i1" ∅ v t1 t1 args "i2" _ E (rtc_refl _ _) _
                   eq_refl eq_refl)).
  - by apply reachable_init.
  - vm_compute. reflexivity.
Defined.

#[local] Existing Instance ascii_tables.
#[local] Existing Instance plain_urls.
Definition consumed := WriteAuthorizationDemo.Demo.s4.
Definition later := snd (WriteAuthorizations.get "auth" false (Aware 700000000) consumed).

Lemma completed_is_final_witness :
  exists r, authorizations consumed !! "auth" = Some r /\ authorizations later !! "auth" = Some r.
Proof.
  destruct (authorizations consumed !! "auth") as [r|] eqn:Hr; [|vm_compute in Hr; discriminate Hr].
  exists r. split; [reflexivity|].
  refine (proj1 (@completed_is_final unit ascii_tables plain_urls "execution_authorization"
            "completed" false) consumed later "auth" r _ Hr eq_refl _).
  - apply rtc_once. apply WriteAuthorizations.step_get.
  - vm_compute in Hr. injection Hr as <-. reflexivity.
Defined.

End Demo.
