(* ===== verification/TaskPlans.v ===== *)
(** * Task plans (agentbridge/core/task_plans.py)

    A task's plan and its steps: created as validated, advanced one step at a
    time, and closed by completion, failure or cancellation.  The store also guards
    the consumption of an execution authorization that a step waits for. *)

From S2P Require Import Prelude PyStr Json Sha256 Store.
From S2P Require Interactions.

(** ** Data *)

Inductive plan_state : Type :=
  | PValidated | PRunning | PWaiting | PSucceeded | PFailed | PUnknown | PCanceled.

Inductive step_state : Type :=
  | SQueued | SRunning | SWaiting | SSucceeded | SFailed | SUnknown | SCanceled | SSkipped.

#[export] Instance plan_state_eq_dec : EqDecision plan_state.
Proof. solve_decision. Defined.
#[export] Instance step_state_eq_dec : EqDecision step_state.
Proof. solve_decision. Defined.

Definition plan_state_text (st : plan_state) : string :=
  match st with
  | PValidated => "validated" | PRunning => "running" | PWaiting => "waiting_user"
  | PSucceeded => "succeeded" | PFailed => "failed" | PUnknown => "outcome_unknown"
  | PCanceled => "canceled"
  end.

Definition step_state_text (st : step_state) : string :=
  match st with
  | SQueued => "queued" | SRunning => "running" | SWaiting => "waiting_user"
  | SSucceeded => "succeeded" | SFailed => "failed" | SUnknown => "outcome_unknown"
  | SCanceled => "canceled" | SSkipped => "skipped"
  end.

(** [ACTIVE_PLAN_STATES]; the others are [TERMINAL_PLAN_STATES]. *)
Definition plan_active (st : plan_state) : bool :=
  match st with PValidated | PRunning | PWaiting => true | _ => false end.

(** [ACTIVE_STEP_STATES] *)
Definition step_active (st : step_state) : bool :=
  match st with SQueued | SRunning | SWaiting => true | _ => false end.

(** Has the step begun without having ended? *)
Definition in_progress (st : step_state) : bool :=
  match st with SRunning | SWaiting => true | _ => false end.

(** The columns of [task_plans] that no statement updates.  Those added by
    [_migrate_v2] are NULL in older rows. *)
Record plan_contract : Type := PlanContract {
  parent_task_id : string;
  user_subject : string;
  proposal_source : string;
  goal : string;
  proposal_summary_json : string;
  plan_hash : string;
  revision : Z;
  risk_summary_json : string;
  coordinator_lease_version : option Z;
  idempotency_key : option string;
  schema_version : option string;
  temporal_context_json : option string;
  authority_snapshot_json : option string;
  operation_key_prefix : option string;
  created_at : instant;
}.

Record plan_row : Type := PlanRow {
  the_plan :> plan_contract;
  row_state : plan_state;
  current_step_key : option string;
  terminal_reason : option string;
  result_projection_json : option string;
  effect_outcome : option string;
  commit_operation_id : option string;
  updated_at : instant;
  finished_at : option instant;
}.

(** The columns of [task_plan_steps] that no statement updates. *)
Record step_contract : Type := StepContract {
  plan_id : string;
  step_key : string;
  ordinal : Z;
  step_kind : string;
  title : string;
  capability_name : option string;
  transform_name : option string;
  target_version : string;
  depends_on_json : string;
  arguments_json : string;
  binding_json : string;
  effect : string;
  system_id : string;
}.

Record step_row : Type := StepRow {
  the_step :> step_contract;
  st_state : step_state;
  attempt_count : Z;
  operation_id : option string;
  interaction_id : option string;
  input_hash : option string;
  output_hash : option string;
  error_code : option string;
  error_message : option string;
  started_at : option instant;
  st_updated_at : instant;
  st_finished_at : option instant;
}.

(** What validation hands over: the dict [compiled_plan], and the dicts of its list
    [steps]. *)
Record compiled_step : Type := CompiledStep {
  cs_step_key : string;
  cs_ordinal : Z;
  cs_kind : string;
  cs_title : json;
  cs_capability_name : option string;
  cs_transform_name : option string;
  cs_version : json;
  cs_depends_on : json;
  cs_arguments : json;
  cs_bindings : json;
  cs_effect : string;
  cs_system_id : string;
}.

Record compiled_plan : Type := CompiledPlan {
  cp_goal : json;
  cp_plan_hash : json;
  cp_steps : list compiled_step;
  cp_risk_summary : json;
  cp_proposal_schema_version : json;
  cp_temporal_context : json;
  cp_authority_snapshot : json;
}.

Record create_args : Type := CreateArgs {
  a_user_subject : string;
  a_parent_task_id : string;
  a_compiled_plan : compiled_plan;
  a_proposal_source : string;
  a_coordinator_lease_version : option Z;
  a_idempotency_key : option string;
}.

(** ** Reading rows *)

Definition _canonical_json (v : json) : string := dumps v.
Definition _json (value : option string) : result json :=
  match value with Some text => loads text | None => Ok JNull end.
Definition json_hash (v : json) : string := sha256_hex (_canonical_json v).

(** A step's dict: the columns of [sv_row], with the decoded ones in place of their
    texts; [arguments] is there for private readers only. *)
Record step_view : Type := StepView {
  sv_step_id : string;
  sv_row : step_row;
  sv_depends_on : json;
  sv_bindings : json;
  sv_arguments : option json;
}.

Definition _step_from_row (include_private : bool) (ir : string * step_row) : result step_view :=
  let '(id, r) := ir in
  depends_on ← _json (Some (depends_on_json r));
  bindings ← _json (Some (binding_json r));
  arguments ← (if include_private
               then v ← _json (Some (arguments_json r)); Ok (Some v)
               else Ok None);
  Ok (StepView id r depends_on bindings arguments).

Record plan_view : Type := PlanView {
  pv_plan_id : string;
  pv_row : plan_row;
  pv_proposal_summary : json;
  pv_risk_summary : json;
  pv_temporal_context : json;
  pv_authority_snapshot : json;
  pv_result_projection : json;
  pv_steps : list step_view;
  pv_step_counts : list (string * Z);
}.

Definition _plan_from_row (ir : string * plan_row) : result plan_view :=
  let '(id, r) := ir in
  proposal_summary ← _json (Some (proposal_summary_json r));
  risk_summary ← _json (Some (risk_summary_json r));
  temporal_context ← _json (temporal_context_json r);
  authority_snapshot ← _json (authority_snapshot_json r);
  result_projection ← _json (result_projection_json r);
  Ok (PlanView id r proposal_summary risk_summary temporal_context authority_snapshot
        result_projection [] []).

(** [counts[state] = counts.get(state, 0) + 1] *)
Fixpoint count_states (counts : list (string * Z)) (steps : list step_view) : list (string * Z) :=
  match steps with
  | [] => counts
  | step :: rest =>
      let key := step_state_text (st_state (sv_row step)) in
      count_states (dict_set key (dict_get counts key 0%Z + 1)%Z counts) rest
  end.

Definition with_steps (steps : list step_view) (p : plan_view) : plan_view :=
  {| pv_plan_id := pv_plan_id p; pv_row := pv_row p; pv_proposal_summary := pv_proposal_summary p;
     pv_risk_summary := pv_risk_summary p; pv_temporal_context := pv_temporal_context p;
     pv_authority_snapshot := pv_authority_snapshot p;
     pv_result_projection := pv_result_projection p;
     pv_steps := steps; pv_step_counts := count_states [] steps |}.

(** The key of the operation that one attempt of a step records. *)
Definition step_idempotency_key (p : plan_view) (st : step_view) : string :=
  let prefix := or_default (operation_key_prefix (pv_row p))
                  ("task-plan:" +:+ plan_hash (pv_row p)) in
  prefix +:+ ":" +:+ step_key (sv_row st) +:+ ":attempt:" +:+ str_of_Z (attempt_count (sv_row st)).

(** ** Updates of a row *)

Definition plan_with (r : plan_row) (st : plan_state) (current reason outcome commit : option string)
    (now : instant) (finished : option instant) : plan_row :=
  {| the_plan := r; row_state := st; current_step_key := current; terminal_reason := reason;
     result_projection_json := result_projection_json r; effect_outcome := outcome;
     commit_operation_id := commit; updated_at := now; finished_at := finished |}.

(** [SET state = 'running', current_step_key = ?, updated_at = ?] *)
Definition plan_running (current : option string) (now : instant) (r : plan_row) : plan_row :=
  plan_with r PRunning current (terminal_reason r) (effect_outcome r) (commit_operation_id r) now
    (finished_at r).

(** The plan's part of [_update_step] *)
Definition plan_stepped (st : plan_state) (current : option string) (clear_commit : bool)
    (now : instant) (r : plan_row) : plan_row :=
  plan_with r st current (terminal_reason r) (effect_outcome r)
    (if clear_commit then None else commit_operation_id r) now (finished_at r).

Definition plan_failed (st : plan_state) (reason key : string) (outcome : option string)
    (now : instant) (r : plan_row) : plan_row :=
  plan_with r st (Some key) (Some reason) outcome (commit_operation_id r) now (Some now).

Definition plan_succeeded (reason : string) (outcome : option string) (now : instant)
    (r : plan_row) : plan_row :=
  plan_with r PSucceeded None (Some reason) outcome (commit_operation_id r) now (Some now).

Definition plan_canceled (reason : string) (now : instant) (r : plan_row) : plan_row :=
  plan_with r PCanceled None (Some reason) (effect_outcome r) (commit_operation_id r) now (Some now).

(** [SET commit_operation_id = ?, state = 'running', updated_at = ?] *)
Definition plan_committing (operation : string) (now : instant) (r : plan_row) : plan_row :=
  plan_with r PRunning (current_step_key r) (terminal_reason r) (effect_outcome r) (Some operation)
    now (finished_at r).

Definition plan_projected (projection : string) (now : instant) (r : plan_row) : plan_row :=
  {| the_plan := r; row_state := row_state r; current_step_key := current_step_key r;
     terminal_reason := terminal_reason r; result_projection_json := Some projection;
     effect_outcome := effect_outcome r; commit_operation_id := commit_operation_id r;
     updated_at := now; finished_at := finished_at r |}.

(** [SET state = .., updated_at = ?, finished_at = ?] *)
Definition step_closed (st : step_state) (now : instant) (r : step_row) : step_row :=
  {| the_step := r; st_state := st; attempt_count := attempt_count r;
     operation_id := operation_id r; interaction_id := interaction_id r;
     input_hash := input_hash r; output_hash := output_hash r; error_code := error_code r;
     error_message := error_message r; started_at := started_at r; st_updated_at := now;
     st_finished_at := Some now |}.

(** [begin_next_step]'s update *)
Definition step_begun (now : instant) (r : step_row) : step_row :=
  {| the_step := r; st_state := SRunning; attempt_count := (attempt_count r + 1)%Z;
     operation_id := operation_id r; interaction_id := interaction_id r;
     input_hash := input_hash r; output_hash := output_hash r; error_code := None;
     error_message := None; started_at := coalesce (started_at r) now; st_updated_at := now;
     st_finished_at := st_finished_at r |}.

(** The guard's update of the current step *)
Definition step_resumed (now : instant) (r : step_row) : step_row :=
  {| the_step := r; st_state := SRunning; attempt_count := attempt_count r;
     operation_id := operation_id r; interaction_id := interaction_id r;
     input_hash := input_hash r; output_hash := output_hash r; error_code := error_code r;
     error_message := error_message r; started_at := started_at r; st_updated_at := now;
     st_finished_at := st_finished_at r |}.

(** [COALESCE(?, column)] on a nullable column *)
Definition coalesce_col {A} (a b : option A) : option A :=
  match a with Some x => Some x | None => b end.

(** The step's part of [_update_step] *)
Definition step_moved (st : step_state) (operation : string) (interaction input output : option string)
    (now : instant) (finished : option instant) (r : step_row) : step_row :=
  {| the_step := r; st_state := st; attempt_count := attempt_count r;
     operation_id := Some operation; interaction_id := interaction;
     input_hash := coalesce_col input (input_hash r);
     output_hash := coalesce_col output (output_hash r);
     error_code := None; error_message := None; started_at := started_at r; st_updated_at := now;
     st_finished_at := finished |}.

Definition step_failed (st : step_state) (operation : option string) (code message : string)
    (now : instant) (r : step_row) : step_row :=
  {| the_step := r; st_state := st; attempt_count := attempt_count r;
     operation_id := coalesce_col operation (operation_id r); interaction_id := None;
     input_hash := input_hash r; output_hash := output_hash r; error_code := Some code;
     error_message := Some message; started_at := started_at r; st_updated_at := now;
     st_finished_at := Some now |}.

(** Back in the queue; [clear_error] for a recovery. *)
Definition step_reset (clear_error : bool) (now : instant) (r : step_row) : step_row :=
  {| the_step := r; st_state := SQueued; attempt_count := attempt_count r;
     operation_id := None; interaction_id := None; input_hash := None; output_hash := None;
     error_code := if clear_error then None else error_code r;
     error_message := if clear_error then None else error_message r;
     started_at := started_at r; st_updated_at := now; st_finished_at := None |}.

(** ** The store

    [interactions] is the table of the interaction store in the same database; only
    the guard reads it.  No statement here makes a row active that was not, so the
    partial unique index on active plans can only be violated by an INSERT. *)

Record store : Type := MkStore {
  plans : gmap string plan_row;
  plan_steps : gmap string step_row;
  interactions : gmap string Interactions.row;
}.

Definition set_plans (t : gmap string plan_row) (s : store) : store :=
  MkStore t (plan_steps s) (interactions s).
Definition set_steps (t : gmap string step_row) (s : store) : store :=
  MkStore (plans s) t (interactions s).

(** [UPDATE task_plans SET .. WHERE plan_id = ?] *)
Definition update_plan (id : string) (f : plan_row -> plan_row) : tx store unit :=
  modify (fun s => set_plans (fst (update_key id (fun _ => true) f (plans s))) s).

(** [UPDATE task_plan_steps SET .. WHERE step_id = ?] *)
Definition update_step (id : string) (p : step_row -> bool) (f : step_row -> step_row) : tx store unit :=
  modify (fun s => set_steps (fst (update_key id p f (plan_steps s))) s).

(** [UPDATE task_plan_steps SET .. WHERE plan_id = ? AND ..] *)
Definition update_steps (p : step_row -> bool) (f : step_row -> step_row) : tx store unit :=
  modify (fun s => set_steps (update_where p f (plan_steps s)) s).

Definition is_step (id key : string) (r : step_row) : bool :=
  String.eqb (plan_id r) id && String.eqb (step_key r) key.

Definition in_states (id : string) (p : step_state -> bool) (r : step_row) : bool :=
  String.eqb (plan_id r) id && p (st_state r).

Definition queued (st : step_state) : bool := bool_decide (st = SQueued).

(** [ORDER BY ordinal] *)
Definition by_ordinal (x y : string * step_row) : bool := (ordinal (snd x) <=? ordinal (snd y))%Z.

Definition steps_of (id : string) (t : gmap string step_row) : list (string * step_row) :=
  sort_by by_ordinal (select_where (fun r : step_row => String.eqb (plan_id r) id) t).

Definition _snapshot (ir : string * plan_row) : tx store plan_view :=
  plan ← lift (_plan_from_row ir);
  rows ← gets (fun s => steps_of (fst ir) (plan_steps s));
  steps ← lift (map_result (_step_from_row false) rows);
  mret (with_steps steps plan).

Definition _select_plan (id : string) : tx store plan_row :=
  t ← gets plans;
  match t !! id with
  | Some r => mret r
  | None => raise TaskPlanNotFound ("task plan not found: " +:+ id)
  end.

Definition _select_owned_plan (id user : string) : tx store plan_row :=
  r ← _select_plan id;
  raise_if (negb (String.eqb (user_subject r) user)) TaskPlanNotFound
    ("task plan not found: " +:+ id);;
  mret r.

Definition _select_step (id key : string) : tx store (string * step_row) :=
  t ← gets plan_steps;
  match select_one (is_step id key) t with
  | Some step => mret step
  | None => raise TaskPlanIntegrityError ("task plan step not found: " +:+ key)
  end.

(** [self._snapshot(connection, self._select_plan(connection, plan_id))] *)
Definition refreshed (id : string) : tx store plan_view :=
  r ← _select_plan id; _snapshot (id, r).

(** ** Creation *)

Section Create.
Context `{UnicodeTables}.

Definition _required_text (value : json) (name : string) (maximum : Z) : result string :=
  let normalized := py_strip (if json_truthy value then py_str value else "") in
  raise_if (negb (truthy normalized)) ValueError (name +:+ " is required");;
  raise_if (maximum <? py_len normalized)%Z ValueError (name +:+ " is too long");;
  Ok normalized.

(** [str(value or default)] *)
Definition text_or (value : json) (default : string) : string :=
  if json_truthy value then py_str value else default.

(** [value or default] *)
Definition json_or (value default : json) : json := if json_truthy value then value else default.

Definition new_step (plan : string) (step : compiled_step) (now : instant) : step_row :=
  {| the_step :=
       {| plan_id := plan; step_key := cs_step_key step; ordinal := cs_ordinal step;
          step_kind := cs_kind step;
          title := py_take 240 (text_or (cs_title step) (cs_step_key step));
          capability_name := cs_capability_name step; transform_name := cs_transform_name step;
          target_version := py_take 40 (text_or (cs_version step) "1");
          depends_on_json := _canonical_json (json_or (cs_depends_on step) (JArr []));
          arguments_json := _canonical_json (json_or (cs_arguments step) (JObj []));
          binding_json := _canonical_json (json_or (cs_bindings step) (JObj []));
          effect := cs_effect step; system_id := cs_system_id step |};
     st_state := SQueued; attempt_count := 0; operation_id := None; interaction_id := None;
     input_hash := None; output_hash := None; error_code := None; error_message := None;
     started_at := None; st_updated_at := now; st_finished_at := None |}.

(** The two UNIQUE constraints of [task_plan_steps] *)
Definition step_clash (new old : step_row) : bool :=
  String.eqb (plan_id old) (plan_id new)
  && (String.eqb (step_key old) (step_key new) || (ordinal old =? ordinal new)%Z).

(** [fresh n] is the identifier of the [n]th step. *)
Fixpoint insert_steps (plan : string) (fresh : nat -> string) (n : nat) (now : instant)
    (steps : list compiled_step) : tx store unit :=
  match steps with
  | [] => mret tt
  | step :: rest =>
      t ← gets plan_steps;
      t' ← lift (insert_row (fresh n) (step_clash (new_step plan step now)) (new_step plan step now) t);
      modify (set_steps t');;
      insert_steps plan fresh (S n) now rest
  end.

(** What [create] has read and checked before it opens its connection. *)
Record prepared : Type := Prepared {
  p_user_subject : string;
  p_parent_task_id : string;
  p_proposal_source : string;
  p_goal : string;
  p_plan_hash : string;
  p_key : option string;
}.

Definition prepare (a : create_args) : result prepared :=
  let c := a_compiled_plan a in
  user ← _required_text (JStr (a_user_subject a)) "user_subject" 256;
  task ← _required_text (JStr (a_parent_task_id a)) "parent_task_id" 128;
  source ← _required_text (JStr (a_proposal_source a)) "proposal_source" 80;
  raise_if (negb (str_in source ["agent_host"; "template"; "central_planner"])) ValueError
    "unsupported proposal source";;
  goal ← _required_text (cp_goal c) "goal" 500;
  hash ← _required_text (cp_plan_hash c) "plan_hash" 64;
  raise_if (bool_decide (cp_steps c = [])) ValueError "compiled plan steps are required";;
  let stripped := py_strip (or_empty (a_idempotency_key a)) in
  raise_if (256 <? py_len stripped)%Z ValueError "plan idempotency key is too long";;
  Ok (Prepared user task source goal hash (if truthy stripped then Some stripped else None)).

Definition same_plan_key (user task key : string) (r : plan_row) : bool :=
  String.eqb (user_subject r) user && String.eqb (parent_task_id r) task
  && bool_decide (idempotency_key r = Some key).

Definition active_for (task : string) (r : plan_row) : bool :=
  String.eqb (parent_task_id r) task && plan_active (row_state r).

(** [COALESCE(MAX(revision), 0)] over the plans of the task *)
Definition last_revision (task : string) (t : gmap string plan_row) : Z :=
  match select_where (fun r : plan_row => String.eqb (parent_task_id r) task) t with
  | [] => 0
  | (_, r) :: rest =>
      fold_right (fun (kr : string * plan_row) m => Z.max (revision (snd kr)) m) (revision r) rest
  end.

Definition new_plan (a : create_args) (p : prepared) (id : string) (number : Z) (now : instant)
  : plan_row :=
  let c := a_compiled_plan a in
  {| the_plan :=
       {| parent_task_id := p_parent_task_id p; user_subject := p_user_subject p;
          proposal_source := p_proposal_source p; goal := p_goal p;
          proposal_summary_json := _canonical_json
            (JObj [("schemaVersion", JStr "agentbridge.task-plan.summary.v1");
                   ("goal", JStr (p_goal p));
                   ("stepCount", JInt (Z.of_nat (length (cp_steps c))))]);
          plan_hash := p_plan_hash p; revision := number;
          risk_summary_json := _canonical_json (json_or (cp_risk_summary c) (JObj []));
          coordinator_lease_version := a_coordinator_lease_version a;
          idempotency_key := p_key p;
          schema_version :=
            Some (text_or (cp_proposal_schema_version c) "agentbridge.task-plan.proposal.v1");
          temporal_context_json := Some (_canonical_json (cp_temporal_context c));
          authority_snapshot_json := Some (_canonical_json (cp_authority_snapshot c));
          operation_key_prefix := Some ("task-plan:" +:+ id +:+ ":" +:+ str_of_Z number);
          created_at := now |};
     row_state := PValidated; current_step_key := None; terminal_reason := None;
     result_projection_json := None; effect_outcome := None; commit_operation_id := None;
     updated_at := now; finished_at := None |}.

(** The unique indexes of [task_plans] *)
Definition plan_clash (new old : plan_row) : bool :=
  match idempotency_key new with
  | Some key => same_plan_key (user_subject new) (parent_task_id new) key old
  | None => false
  end
  || active_for (parent_task_id new) old.

(** The work on the first connection: the snapshot of the plan that the key names, or the
    identifier of the new plan. *)
Definition create_body (a : create_args) (p : prepared) (now : instant) (id : string)
    (fresh : nat -> string) : tx store (plan_view + string) :=
  t ← gets plans;
  let lookup : option (string * plan_row) :=
    p_key p ≫= (fun key => select_one (same_plan_key (p_user_subject p) (p_parent_task_id p) key) t) in
  match lookup with
  | Some existing =>
      raise_if (negb (String.eqb (plan_hash (snd existing)) (p_plan_hash p))) TaskPlanConflict
        "plan idempotency key was reused with different content";;
      view ← _snapshot existing;
      mret (inl view)
  | None =>
      raise_if (exists_where (active_for (p_parent_task_id p)) t) TaskPlanConflict
        "task already has an active plan";;
      let row := new_plan a p id (last_revision (p_parent_task_id p) t + 1)%Z now in
      t' ← lift (insert_row id (plan_clash row) row t);
      modify (set_plans t');;
      insert_steps id fresh 0 now (cp_steps (a_compiled_plan a));;
      _select_plan id;;
      mret (inr id)
  end.

(** The snapshot of a new plan is read over a second connection, after the commit of the
    first: [reread] is the store that connection sees. *)
Definition create (a : create_args) (now : instant) (id : string) (fresh : nat -> string)
    (reread : store -> store) (s : store) : result (plan_view * bool) * store :=
  match prepare a with
  | Raise e => (Raise e, s)
  | Ok p =>
      match transaction (create_body a p now id fresh) s with
      | (Ok (inl view), s') => (Ok (view, true), s')
      | (Ok (inr new), s') =>
          (view ← fst (transaction (refreshed new) (reread s')); Ok (view, false), s')
      | (Raise e, s') => (Raise e, s')
      end
  end.
End Create.

(** ** Progress *)

(** [states.get(dep) == "succeeded"] *)
Definition dep_done (steps : list (string * step_row)) (dep : json) : bool :=
  match dep with
  | JStr key =>
      existsb (fun ir : string * step_row =>
                 String.eqb (step_key (snd ir)) key && bool_decide (st_state (snd ir) = SSucceeded))
        steps
  | _ => false
  end.

(** [_json(row["depends_on_json"])], iterated over *)
Definition deps_of (r : step_row) : result (list json) :=
  v ← _json (Some (depends_on_json r));
  match v with JArr l => Ok l | _ => raise TypeError "dependencies must be a list" end.

(** The first queued row, in the order given, whose dependencies have succeeded. *)
Fixpoint first_ready (all rows : list (string * step_row)) : result (option (string * step_row)) :=
  match rows with
  | [] => Ok None
  | row :: rest =>
      if bool_decide (st_state (snd row) = SQueued)
      then deps ← deps_of (snd row);
           if forallb (dep_done all) deps then Ok (Some row) else first_ready all rest
      else first_ready all rest
  end.

(** From the SELECT of all steps on. *)
Definition begin_queued (id : string) (now : instant) : tx store (option (step_view * bool)) :=
  rows ← gets (fun s => steps_of id (plan_steps s));
  selected ← lift (first_ready rows rows);
  match selected with
  | None => mret None
  | Some (sid, step) =>
      update_step sid (fun r => queued (st_state r)) (step_begun now);;
      update_plan id (plan_running (Some (step_key step)) now);;
      begun ← _select_step id (step_key step);
      view ← lift (_step_from_row true begun);
      mret (Some (view, true))
  end.

(** The step [plan["current_step_key"]] names, if any. *)
Definition current_step (id : string) (plan : plan_row) : tx store (option (string * step_row)) :=
  match current_step_key plan with
  | Some key =>
      if truthy key then step ← _select_step id key; mret (Some step) else mret None
  | None => mret None
  end.

(** The step in progress or the next one, and whether it was just started. *)
Definition begin_next_step (id user : string) (now : instant) : tx store (option (step_view * bool)) :=
  plan ← _select_owned_plan id user;
  if negb (plan_active (row_state plan)) then mret None
  else
    current ← current_step id plan;
    match current with
    | Some step =>
        if in_progress (st_state (snd step))
        then view ← lift (_step_from_row true step); mret (Some (view, false))
        else begin_queued id now
    | None => begin_queued id now
    end.

(** What a method does when the plan is terminal, and otherwise. *)
Definition on_active_plan (id user : string) (body : plan_row -> tx store plan_view)
  : tx store plan_view :=
  plan ← _select_owned_plan id user;
  if negb (plan_active (row_state plan)) then _snapshot (id, plan) else body plan.

Definition _update_step (id user key : string) (st : step_state) (plan_st : plan_state)
    (operation : string) (interaction input output : option string)
    (terminal clear_current : bool) (now : instant) : tx store plan_view :=
  on_active_plan id user (fun plan =>
    '(sid, step) ← _select_step id key;
    raise_if (negb (in_progress (st_state step))) TaskPlanIntegrityError
      ("step cannot transition from " +:+ step_state_text (st_state step) +:+ " to "
       +:+ step_state_text st);;
    update_step sid (fun _ => true)
      (step_moved st operation interaction input output now (if terminal then Some now else None));;
    update_plan id (plan_stepped plan_st (if clear_current then None else Some key)
                      (bool_decide (st = SWaiting)) now);;
    refreshed id).

Definition mark_step_waiting id user key operation interaction input_hash :=
  _update_step id user key SWaiting PWaiting operation (Some interaction) input_hash None false false.

Definition mark_step_succeeded id user key operation input_hash output_hash :=
  _update_step id user key SSucceeded PRunning operation None input_hash output_hash true true.

(** The two states [mark_step_failed] accepts. *)
Definition failure_states (state : string) : option (step_state * plan_state) :=
  if String.eqb state "failed" then Some (SFailed, PFailed)
  else if String.eqb state "outcome_unknown" then Some (SUnknown, PUnknown) else None.

(** [str(value or "")[:80] or None] *)
Definition outcome_text (outcome : option string) : option string :=
  let text := py_take 80 (or_empty outcome) in if truthy text then Some text else None.

Definition mark_step_failed (id user key : string) (operation : option string)
    (state code message : string) (outcome : option string) (now : instant) : tx store plan_view :=
  match failure_states state with
  | None => raise ValueError "unsupported failed step state"
  | Some (st, plan_st) =>
      on_active_plan id user (fun plan =>
        _select_step id key;;
        update_steps (is_step id key)
          (step_failed st operation (py_take 120 code) (py_take 500 message) now);;
        update_steps (in_states id queued) (step_closed SCanceled now);;
        update_plan id (plan_failed plan_st (py_take 120 code) key (outcome_text outcome) now);;
        refreshed id)
  end.

Definition for_interaction (id interaction : string) (r : step_row) : bool :=
  String.eqb (plan_id r) id && bool_decide (interaction_id r = Some interaction).

Definition reset_step_after_session (id user interaction : string) (now : instant)
  : tx store plan_view :=
  on_active_plan id user (fun plan =>
    t ← gets plan_steps;
    match select_one (for_interaction id interaction) t with
    | None => raise TaskPlanIntegrityError "interaction is not bound to this plan"
    | Some (sid, _) =>
        update_step sid (fun _ => true) (step_reset false now);;
        update_plan id (plan_running None now);;
        refreshed id
    end).

(** [int(step["attempt_count"]) != int(expected_attempt_count)] among the guards *)
Definition reset_running_step_for_recovery (id user key : string) (expected : Z) (now : instant)
  : tx store plan_view :=
  on_active_plan id user (fun plan =>
    '(sid, step) ← _select_step id key;
    if negb (bool_decide (current_step_key plan = Some key))
       || negb (bool_decide (st_state step = SRunning))
       || negb (attempt_count step =? expected)%Z
    then _snapshot (id, plan)
    else
      update_step sid (fun _ => true) (step_reset true now);;
      update_plan id (plan_running None now);;
      refreshed id).

(** ** Closing *)

Definition complete (id user reason : string) (skip_queued : bool) (outcome : option string)
    (now : instant) : tx store plan_view :=
  plan ← _select_owned_plan id user;
  if bool_decide (row_state plan = PSucceeded) then _snapshot (id, plan)
  else
    raise_if (negb (plan_active (row_state plan))) TaskPlanIntegrityError
      "terminal plan cannot be completed";;
    (if skip_queued then update_steps (in_states id queued) (step_closed SSkipped now) else mret tt);;
    remaining ← gets (fun s => exists_where (in_states id step_active) (plan_steps s));
    raise_if remaining TaskPlanIntegrityError "plan still has active steps";;
    update_plan id (plan_succeeded (py_take 120 reason) (outcome_text outcome) now);;
    refreshed id.

Definition set_result_projection (id user : string) (projection : json) (now : instant)
  : tx store plan_view :=
  _select_owned_plan id user;;
  update_plan id (plan_projected (_canonical_json projection) now);;
  refreshed id.

Definition cancel (id user reason : string) (now : instant) : tx store plan_view :=
  on_active_plan id user (fun plan =>
    raise_if (opt_truthy (commit_operation_id plan)) TaskPlanCommitInProgress
      "计划已进入提交边界，须等待权威核验，不能标记为已取消。";;
    update_steps (in_states id step_active) (step_closed SCanceled now);;
    update_plan id (plan_canceled (py_take 120 reason) now);;
    refreshed id).

(** ** The guard of an authorization's consumption *)

(** Does the interaction stand for this execution authorization? *)
Definition authorizes (authorization : string) (r : Interactions.row) : bool :=
  String.eqb (Interactions.resource_id r) authorization
  && String.eqb (Interactions.interaction_type r) "execution_authorization".

(** The plan has a step whose interaction stands for the authorization. *)
Definition waits_for (authorization id : string) (s : store) : bool :=
  exists_where (fun r : step_row =>
    String.eqb (plan_id r) id
    && match interaction_id r with
       | Some i => match interactions s !! i with Some ir => authorizes authorization ir | None => false end
       | None => false
       end) (plan_steps s).

(** The joined SELECT.  A consistent database has at most one such plan; where it has
    several, the one fetched is the first by key order here. *)
Definition guarded_plan (authorization user : string) (s : store) : option (string * plan_row) :=
  List.find (fun ir : string * plan_row => waits_for authorization (fst ir) s && String.eqb (user_subject (snd ir)) user)
    (map_to_list (plans s)).

Definition guard_authorization_consumption (authorization user operation : string)
    (validate : plan_view -> result unit) (now : instant) : tx store unit :=
  found ← gets (guarded_plan authorization user);
  match found with
  | None => mret tt
  | Some (id, plan) =>
      raise_if (negb (plan_active (row_state plan))) TaskPlanIntegrityError
        "任务计划已结束，不能消费执行授权。";;
      raise_if (opt_truthy (commit_operation_id plan)) TaskPlanCommitInProgress
        "任务计划已有提交在途，不能再次提交。";;
      view ← _snapshot (id, plan);
      lift (validate view);;
      update_plan id (plan_committing operation now);;
      match current_step_key plan with
      | Some key => update_steps (is_step id key) (step_resumed now)
      | None => mret tt
      end
  end.

(** ** Reading *)

Definition get (id user : string) : tx store plan_view :=
  r ← _select_owned_plan id user; _snapshot (id, r).

(** [ORDER BY revision DESC] *)
Definition newer (x y : string * plan_row) : bool := (revision (snd y) <=? revision (snd x))%Z.

Definition first_of (rows : list (string * plan_row)) : tx store (option plan_view) :=
  match rows with
  | [] => mret None
  | row :: _ => view ← _snapshot row; mret (Some view)
  end.

Definition get_for_task (task user : string) (active_only : bool) : tx store (option plan_view) :=
  rows ← gets (fun s => sort_by newer (select_where (fun r : plan_row =>
    String.eqb (parent_task_id r) task && String.eqb (user_subject r) user
    && (negb active_only || plan_active (row_state r))) (plans s)));
  first_of rows.

(** Plans of the user joined with their steps that have this interaction. *)
Definition with_interaction (interaction user : string) (s : store) : list (string * plan_row) :=
  List.filter (fun ir : string * plan_row => exists_where (for_interaction (fst ir) interaction) (plan_steps s)
                         && String.eqb (user_subject (snd ir)) user) (map_to_list (plans s)).

Definition find_by_interaction (interaction user : string) : tx store (option plan_view) :=
  rows ← gets (fun s => sort_by newer (with_interaction interaction user s));
  first_of rows.

Definition step_for_interaction (interaction user : string)
  : tx store (option (plan_view * step_view)) :=
  rows ← gets (fun s => sort_by newer (with_interaction interaction user s));
  match rows with
  | [] => mret None
  | (id, r) :: _ =>
      t ← gets plan_steps;
      plan ← _select_owned_plan id user;
      plan_view ← _snapshot (id, plan);
      match select_one (for_interaction id interaction) t with
      | Some step => view ← lift (_step_from_row true step); mret (Some (plan_view, view))
      | None => mret None
      end
  end.

Definition step_output_operation (id user key : string) : tx store string :=
  _select_owned_plan id user;;
  step ← _select_step id key;
  raise_if (negb (bool_decide (st_state (snd step) = SSucceeded)) || negb (opt_truthy (operation_id (snd step))))
    TaskPlanIntegrityError ("step output is unavailable: " +:+ key);;
  mret (or_empty (operation_id (snd step))).

Fixpoint snapshots (rows : list (string * plan_row)) : tx store (list plan_view) :=
  match rows with
  | [] => mret []
  | row :: rest => view ← _snapshot row; views ← snapshots rest; mret (view :: views)
  end.

Definition plan_limit (limit : Z) : Z := Z.min (Z.max limit 1) 500.

(** [ORDER BY updated_at DESC LIMIT ?] *)
Definition list_plans (user : option string) (limit : Z) : tx store (list plan_view) :=
  rows ← gets (fun s => take (Z.to_nat (plan_limit limit))
    (sort_by (fun x y : string * plan_row => (updated_at (snd y) <=? updated_at (snd x))%Z)
       (select_where (fun r : plan_row => match user with
          | Some u => if truthy u then String.eqb (user_subject r) u else true
          | None => true
          end) (plans s))));
  snapshots rows.

(** The waiting plans last, then by [updated_at] and [created_at] *)
Definition recovery_first (x y : string * plan_row) : bool :=
  let rank r := if bool_decide (row_state r = PWaiting) then 1%Z else 0%Z in
  let a := snd x in let b := snd y in
  if negb (rank a =? rank b)%Z then (rank a <=? rank b)%Z
  else if negb (updated_at a =? updated_at b)%Z then (updated_at a <=? updated_at b)%Z
  else (created_at a <=? created_at b)%Z.

Definition recovery_candidates (limit : Z) : tx store (list plan_view) :=
  rows ← gets (fun s => take (Z.to_nat (plan_limit limit))
    (sort_by recovery_first (select_where (fun r : plan_row => plan_active (row_state r)) (plans s))));
  snapshots rows.

(** ** Transactions *)

Section Steps.
Context `{UnicodeTables}.

(** What validation guarantees of the plans it compiles: no step key is empty, and every
    dependency is the key of a step with a smaller ordinal. *)
Definition valid_plan (c : compiled_plan) : Prop :=
  forall st, In st (cp_steps c) ->
    truthy (cs_step_key st) = true /\
    exists deps, json_or (cs_depends_on st) (JArr []) = JArr (map JStr deps) /\
      forall dep, In dep deps -> exists st', In st' (cp_steps c) /\ cs_step_key st' = dep /\
        (cs_ordinal st' < cs_ordinal st)%Z.

(** One transaction of the store, or one of the interaction store. *)
Inductive step (s : store) : store -> Prop :=
  | step_create a p now id fresh :
      valid_plan (a_compiled_plan a) -> prepare a = Ok p ->
      step s (after (create_body a p now id fresh) s)
  | step_begin id user now : step s (after (begin_next_step id user now) s)
  | step_waiting id user key operation interaction input now :
      step s (after (mark_step_waiting id user key operation interaction input now) s)
  | step_succeeded id user key operation input output now :
      step s (after (mark_step_succeeded id user key operation input output now) s)
  | step_mark_failed id user key operation state code message outcome now :
      step s (after (mark_step_failed id user key operation state code message outcome now) s)
  | step_reset_session id user interaction now :
      step s (after (reset_step_after_session id user interaction now) s)
  | step_recover id user key expected now :
      step s (after (reset_running_step_for_recovery id user key expected now) s)
  | step_complete id user reason skip_queued outcome now :
      step s (after (complete id user reason skip_queued outcome now) s)
  | step_project id user projection now :
      step s (after (set_result_projection id user projection now) s)
  | step_cancel id user reason now : step s (after (cancel id user reason now) s)
  | step_guard authorization user operation validate now :
      step s (after (guard_authorization_consumption authorization user operation validate now) s)
  | step_interactions t : step s (MkStore (plans s) (plan_steps s) t).
End Steps.

Definition initial (s : store) : Prop := plans s = ∅ /\ plan_steps s = ∅.
