(* ===== verification/TaskPlanFacts.v ===== *)
(** * Task plans: order of the steps, closing, idempotent creation *)

From S2P Require Import Prelude PyStr Json JsonFacts Sha256 Store TaskPlans.

Implicit Types (s t : store) (p : plan_row) (r : step_row).

(** ** What the statements do *)

Lemma lookup_update_key {R} k (q : R -> bool) f (t : gmap string R) i :
  fst (update_key k q f t) !! i =
  (fun x : R => if String.eqb i k && q x then f x else x) <$> t !! i.
Proof.
  unfold update_key. destruct (String.eqb_spec i k) as [->|Hi]; cbn [andb].
  - destruct (t !! k) as [x|] eqn:E; cbn; [|by rewrite E].
    destruct (q x) eqn:Hq; cbn; [by rewrite lookup_insert_eq|by rewrite E].
  - transitivity (t !! i); [|by destruct (t !! i)].
    destruct (t !! k) as [x|]; [|done]. destruct (q x); [|done]. cbn. by rewrite lookup_insert_ne.
Qed.

Lemma update_key_all {R} k (f : R -> R) (t : gmap string R) (x : R) :
  t !! k = Some x -> fst (update_key k (fun _ => true) f t) = <[k := f x]> t.
Proof. intros Hk. by rewrite (update_key_hit k (fun _ => true) f t x Hk eq_refl). Qed.

Lemma select_plan_Ok id s x s' :
  _select_plan id s = Ok (x, s') <-> s' = s /\ plans s !! id = Some x.
Proof.
  unfold _select_plan. rewrite tx_gets_bind. destruct (plans s !! id) as [p|].
  - rewrite tx_ret_Ok. naive_solver.
  - split; [done|]. by intros [_ ?].
Qed.

Lemma tp_select_owned_Ok id user s x s' :
  _select_owned_plan id user s = Ok (x, s') <->
  s' = s /\ plans s !! id = Some x /\ user_subject x = user.
Proof.
  unfold _select_owned_plan. rewrite tx_bind_Ok. setoid_rewrite select_plan_Ok.
  setoid_rewrite tx_raise_if_bind. setoid_rewrite tx_ret_Ok. split.
  - intros (a & s1 & [-> Ha] & Hu & -> & ->). by apply negb_false_iff, String.eqb_eq in Hu.
  - intros (-> & Hx & Hu). exists x, s. rewrite Hu, String.eqb_refl. done.
Qed.

Lemma is_step_spec id key r : is_step id key r = true <-> plan_id r = id /\ step_key r = key.
Proof. unfold is_step. by rewrite andb_true_iff, !String.eqb_eq. Qed.

Lemma select_step_Ok id key s x s' :
  _select_step id key s = Ok (x, s') <->
  s' = s /\ select_one (is_step id key) (plan_steps s) = Some x.
Proof.
  unfold _select_step. rewrite tx_gets_bind. destruct (select_one _ _) as [y|].
  - rewrite tx_ret_Ok. naive_solver.
  - split; [done|]. by intros [_ ?].
Qed.

Lemma select_step_row id key s i r s' :
  _select_step id key s = Ok ((i, r), s') ->
  s' = s /\ plan_steps s !! i = Some r /\ plan_id r = id /\ step_key r = key.
Proof. intros [-> [Hi Hr%is_step_spec]%select_one_Some]%select_step_Ok. tauto. Qed.

Lemma snapshot_state x s v s' : _snapshot x s = Ok (v, s') -> s' = s.
Proof. intros H. unfold _snapshot in H. by tx_inv H. Qed.

Lemma refreshed_state id s v s' : refreshed id s = Ok (v, s') -> s' = s.
Proof.
  intros (r & s1 & [-> _]%select_plan_Ok & H)%tx_bind_Ok. by apply snapshot_state in H.
Qed.

(** The plan [id] was active, its row becomes [f] of it, and [g] rewrites the steps. *)
Definition effect_on (id : string) (f : plan_row -> plan_row) (g : string -> step_row -> step_row) s s'
  : Prop :=
  exists p, plans s !! id = Some p /\ plan_active (row_state p) = true /\
    plans s' = <[id := f p]> (plans s) /\
    (forall i, plan_steps s' !! i = g i <$> plan_steps s !! i) /\
    interactions s' = interactions s.

Definition at_step (k : string) (q : step_row -> bool) (f : step_row -> step_row)
  : string -> step_row -> step_row := fun i r => if String.eqb i k && q r then f r else r.
Definition at_steps (q : step_row -> bool) (f : step_row -> step_row)
  : string -> step_row -> step_row := fun _ r => if q r then f r else r.

Lemma on_active_Ok id user body s v s' :
  on_active_plan id user body s = Ok (v, s') ->
  s' = s \/ exists p, plans s !! id = Some p /\ plan_active (row_state p) = true /\
    body p s = Ok (v, s').
Proof.
  unfold on_active_plan. intros (p & s1 & (-> & Hp & _)%tp_select_owned_Ok & H)%tx_bind_Ok.
  destruct (plan_active (row_state p)) eqn:Ha; cbn [negb] in H.
  - right. by exists p.
  - left. by apply snapshot_state in H.
Qed.

(** One update of the steps, one of the plan, and the snapshot. *)
Lemma run_update_step id f k q h s v s' p :
  plans s !! id = Some p -> plan_active (row_state p) = true ->
  (update_step k q h;; update_plan id f;; refreshed id) s = Ok (v, s') ->
  effect_on id f (at_step k q h) s s'.
Proof.
  intros Hp Ha. unfold update_step, update_plan. rewrite !tx_modify_bind.
  intros ->%refreshed_state. exists p. cbn [set_plans set_steps plans plan_steps interactions].
  rewrite (update_key_all id f (plans s) p Hp). split; [done|]. split; [done|]. split; [done|].
  split; [|done]. intros i. apply lookup_update_key.
Qed.

Lemma run_update_steps id f q h s v s' p :
  plans s !! id = Some p -> plan_active (row_state p) = true ->
  (update_steps q h;; update_plan id f;; refreshed id) s = Ok (v, s') ->
  effect_on id f (at_steps q h) s s'.
Proof.
  intros Hp Ha. unfold update_steps, update_plan. rewrite !tx_modify_bind.
  intros ->%refreshed_state. exists p. cbn [set_plans set_steps plans plan_steps interactions].
  rewrite (update_key_all id f (plans s) p Hp). split; [done|]. split; [done|]. split; [done|].
  split; [|done]. intros i. apply lookup_update_where.
Qed.

Lemma run_update_plan id f s v s' p :
  plans s !! id = Some p -> plan_active (row_state p) = true ->
  (update_plan id f;; refreshed id) s = Ok (v, s') -> effect_on id f (fun _ r => r) s s'.
Proof.
  intros Hp Ha. unfold update_plan. rewrite tx_modify_bind.
  intros ->%refreshed_state. exists p. cbn [set_plans plans plan_steps interactions].
  rewrite (update_key_all id f (plans s) p Hp). split; [done|]. split; [done|]. split; [done|].
  split; [|done]. intros i. by destruct (plan_steps s !! i).
Qed.

Lemma update_step_Ok id key st plan_st operation interaction input output terminal clear now user s v s' :
  _update_step id user key st plan_st operation interaction input output terminal clear now s
    = Ok (v, s') ->
  s' = s \/ exists i r, plan_steps s !! i = Some r /\ plan_id r = id /\ step_key r = key /\
    in_progress (st_state r) = true /\
    effect_on id
      (plan_stepped plan_st (if clear then None else Some key) (bool_decide (st = SWaiting)) now)
      (at_step i (fun _ => true)
         (step_moved st operation interaction input output now (if terminal then Some now else None)))
      s s'.
Proof.
  unfold _update_step. intros [->|(p & Hp & Ha & H)]%on_active_Ok; [by left|right].
  apply tx_bind_Ok in H as ([i r] & s1 & Hr & H).
  apply select_step_row in Hr as (-> & Hi & Hid & Hkey).
  apply tx_raise_if_bind in H as [Hin%negb_false_iff H].
  exists i, r. split; [exact Hi|]. split; [exact Hid|]. split; [exact Hkey|]. split; [exact Hin|].
  exact (run_update_step _ _ _ _ _ _ _ _ _ Hp Ha H).
Qed.

Lemma mark_failed_Ok id user key operation state code message outcome now s v s' :
  mark_step_failed id user key operation state code message outcome now s = Ok (v, s') ->
  s' = s \/ exists st plan_st, failure_states state = Some (st, plan_st) /\
    effect_on id (plan_failed plan_st (py_take 120 code) key (outcome_text outcome) now)
      (fun i r => at_steps (in_states id queued) (step_closed SCanceled now) i
         (at_steps (is_step id key)
            (step_failed st operation (py_take 120 code) (py_take 500 message) now) i r)) s s'.
Proof.
  unfold mark_step_failed. destruct (failure_states state) as [[st plan_st]|]; [|done].
  intros [->|(p & Hp & Ha & H)]%on_active_Ok; [by left|right].
  apply tx_bind_Ok in H as ([i r] & s1 & [-> _]%select_step_Ok & H).
  exists st, plan_st. split; [done|]. unfold update_steps in H. rewrite tx_modify_bind in H.
  rewrite tx_modify_bind in H. unfold update_plan in H. rewrite tx_modify_bind in H.
  apply refreshed_state in H as ->. exists p. cbn [set_plans set_steps plans plan_steps interactions].
  rewrite (update_key_all id _ (plans s) p Hp). split; [done|]. split; [done|]. split; [done|].
  split; [|done]. intros j. rewrite !lookup_update_where. by destruct (plan_steps s !! j).
Qed.
Lemma reset_session_Ok id user interaction now s v s' :
  reset_step_after_session id user interaction now s = Ok (v, s') ->
  s' = s \/ exists i r, plan_steps s !! i = Some r /\ plan_id r = id /\
    interaction_id r = Some interaction /\
    effect_on id (plan_running None now) (at_step i (fun _ => true) (step_reset false now)) s s'.
Proof.
  unfold reset_step_after_session. intros [->|(p & Hp & Ha & H)]%on_active_Ok; [by left|right].
  rewrite tx_gets_bind in H. destruct (select_one _ _) as [[i r]|] eqn:E; [|done].
  apply select_one_Some in E as [Hi Hr]. unfold for_interaction in Hr.
  apply andb_true_iff in Hr as [Hid%String.eqb_eq Hint%bool_decide_eq_true].
  exists i, r. split; [done|]. split; [done|]. split; [done|].
  exact (run_update_step _ _ _ _ _ _ _ _ _ Hp Ha H).
Qed.

Lemma recover_Ok id user key expected now s v s' :
  reset_running_step_for_recovery id user key expected now s = Ok (v, s') ->
  s' = s \/ exists i r, plan_steps s !! i = Some r /\ plan_id r = id /\ step_key r = key /\
    st_state r = SRunning /\
    effect_on id (plan_running None now) (at_step i (fun _ => true) (step_reset true now)) s s'.
Proof.
  unfold reset_running_step_for_recovery. intros [->|(p & Hp & Ha & H)]%on_active_Ok; [by left|].
  apply tx_bind_Ok in H as ([i r] & s1 & Hr & H).
  apply select_step_row in Hr as (-> & Hi & Hid & Hkey). cbn beta iota in H.
  destruct (_ || _ || _) eqn:E; [left; by apply snapshot_state in H|right].
  bool_simpl. exists i, r. split; [done|]. split; [done|]. split; [done|].
  split; [assumption|].
  exact (run_update_step _ _ _ _ _ _ _ _ _ Hp Ha H).
Qed.

Lemma complete_Ok id user reason skip outcome now s v s' :
  complete id user reason skip outcome now s = Ok (v, s') ->
  s' = s \/ exists g, (g = (fun _ r => r) \/ g = at_steps (in_states id queued) (step_closed SSkipped now)) /\
    (forall i r, plan_steps s' !! i = Some r -> plan_id r = id -> step_active (st_state r) = false) /\
    effect_on id (plan_succeeded (py_take 120 reason) (outcome_text outcome) now) g s s'.
Proof.
  unfold complete. intros (p & s1 & (-> & Hp & _)%tp_select_owned_Ok & H)%tx_bind_Ok.
  destruct (bool_decide _) eqn:E; [left; by apply snapshot_state in H|right].
  apply tx_raise_if_bind in H as [Ha%negb_false_iff H].
  apply tx_bind_Ok in H as (u & s1 & Hs & H). rewrite tx_gets_bind in H.
  apply tx_raise_if_bind in H as [Hnone H].
  assert (Hcases : exists g, (g = (fun _ r => r) \/ g = at_steps (in_states id queued) (step_closed SSkipped now)) /\
    plans s1 = plans s /\ interactions s1 = interactions s /\
    forall i, plan_steps s1 !! i = g i <$> plan_steps s !! i).
  { destruct skip.
    - unfold update_steps, modify in Hs. injection Hs as _ <-. eexists. split; [by right|].
      cbn. split; [done|]. split; [done|]. intros i. apply lookup_update_where.
    - apply tx_ret_Ok in Hs as [_ ->]. eexists. split; [by left|]. split; [done|]. split; [done|].
      intros i. by destruct (plan_steps s !! i). }
  destruct Hcases as (g & Hg & Hps & His & Hss). exists g. split; [done|].
  rewrite <- Hps in Hp. pose proof (run_update_plan _ _ _ _ _ _ Hp Ha H) as (p' & Hp' & _ & He1 & He2 & He3).
  rewrite Hp in Hp'. injection Hp' as <-. split.
  - intros i r Hi Hid. rewrite He2 in Hi. destruct (plan_steps s1 !! i) as [r'|] eqn:Er; [|done].
    injection Hi as <-. pose proof (proj1 (exists_where_false _ _) Hnone _ _ Er) as Hn.
    unfold in_states in Hn. by rewrite Hid, String.eqb_refl in Hn.
  - exists p. rewrite <- Hps, <- His. split; [done|]. split; [done|]. split; [done|]. split; [|done].
    intros i. rewrite He2, Hss. by destruct (plan_steps s !! i).
Qed.

Lemma cancel_Ok id user reason now s v s' :
  cancel id user reason now s = Ok (v, s') ->
  s' = s \/
    ((exists p, plans s !! id = Some p /\ opt_truthy (commit_operation_id p) = false) /\
     effect_on id (plan_canceled (py_take 120 reason) now)
      (at_steps (in_states id step_active) (step_closed SCanceled now)) s s').
Proof.
  unfold cancel. intros [->|(p & Hp & Ha & H)]%on_active_Ok; [by left|right].
  apply tx_raise_if_bind in H as [Hc H]. split; [by exists p|].
  exact (run_update_steps _ _ _ _ _ _ _ _ Hp Ha H).
Qed.

Lemma guarded_plan_Some authorization user s id p :
  guarded_plan authorization user s = Some (id, p) ->
  plans s !! id = Some p /\ waits_for authorization id s = true /\ user_subject p = user.
Proof.
  unfold guarded_plan. intros [Hin Hp]%find_some. cbn [fst snd] in Hp.
  apply andb_true_iff in Hp as [Hw Hu%String.eqb_eq].
  by rewrite <- list_elem_of_In, elem_of_map_to_list in Hin.
Qed.

(** What the guard does to the step that the plan is at. *)
Definition resumes (id : string) (p : plan_row) (now : instant) : string -> step_row -> step_row :=
  match current_step_key p with
  | Some key => at_steps (is_step id key) (step_resumed now)
  | None => fun _ r => r
  end.

Lemma guard_Ok authorization user operation validate now s u s' :
  guard_authorization_consumption authorization user operation validate now s = Ok (u, s') ->
  (guarded_plan authorization user s = None /\ s' = s) \/
  exists id p v, guarded_plan authorization user s = Some (id, p) /\
    opt_truthy (commit_operation_id p) = false /\ _snapshot (id, p) s = Ok (v, s) /\
    validate v = Ok tt /\
    effect_on id (plan_committing operation now) (resumes id p now) s s'.
Proof.
  unfold guard_authorization_consumption. rewrite tx_gets_bind.
  destruct (guarded_plan authorization user s) as [[id p]|] eqn:E.
  2:{ intros [_ ->]%tx_ret_Ok. by left. }
  intros H. right. apply tx_raise_if_bind in H as [Ha%negb_false_iff H].
  apply tx_raise_if_bind in H as [Hc H]. apply tx_bind_Ok in H as (v & s1 & Hv & H).
  pose proof (snapshot_state _ _ _ _ Hv) as ->. apply tx_lift_bind in H as ([] & Hval & H).
  apply guarded_plan_Some in E as (Hp & _). exists id, p, v.
  split; [done|]. split; [done|]. split; [done|]. split; [done|].
  unfold update_plan in H. rewrite tx_modify_bind in H. exists p. split; [done|]. split; [done|].
  unfold resumes. destruct (current_step_key p) as [key|].
  - unfold update_steps, modify in H. injection H as _ <-. cbn.
    rewrite (update_key_all id _ (plans s) p Hp). split; [done|]. split; [|done].
    intros i. apply lookup_update_where.
  - apply tx_ret_Ok in H as [_ ->]. cbn. rewrite (update_key_all id _ (plans s) p Hp).
    split; [done|]. split; [|done]. intros i. by destruct (plan_steps s !! i).
Qed.
(** Nothing of plan [id] is in progress as far as its row tells. *)
Definition idle (id : string) p s : Prop :=
  forall key i r, current_step_key p = Some key -> truthy key = true ->
    select_one (is_step id key) (plan_steps s) = Some (i, r) -> in_progress (st_state r) = false.

Lemma first_ready_Some all rows i r :
  first_ready all rows = Ok (Some (i, r)) ->
  In (i, r) rows /\ st_state r = SQueued /\
  exists deps, deps_of r = Ok deps /\ forallb (dep_done all) deps = true.
Proof.
  induction rows as [|[j x] rows IH]; [done|]. cbn [first_ready snd].
  destruct (bool_decide (st_state x = SQueued)) eqn:E.
  - apply bool_decide_eq_true in E. intros (deps & Hd & H)%result_bind_Ok.
    destruct (forallb (dep_done all) deps) eqn:Hall.
    + injection H as <- <-. split; [by left|]. split; [done|]. by exists deps.
    + apply IH in H as (Hin & H). split; [by right|done].
  - intros H%IH. destruct H as (Hin & H). split; [by right|done].
Qed.

Lemma steps_of_In id (m : gmap string step_row) i r :
  In (i, r) (steps_of id m) <-> m !! i = Some r /\ plan_id r = id.
Proof.
  unfold steps_of. rewrite <- list_elem_of_In, sort_by_perm, list_elem_of_In, select_where_In.
  by rewrite String.eqb_eq.
Qed.

Lemma begin_queued_Ok id now s x s' p :
  plans s !! id = Some p -> plan_active (row_state p) = true ->
  begin_queued id now s = Ok (x, s') ->
  (s' = s /\ x = None /\ first_ready (steps_of id (plan_steps s)) (steps_of id (plan_steps s)) = Ok None) \/
  exists i r deps v, x = Some (v, true) /\ plan_steps s !! i = Some r /\ plan_id r = id /\
    st_state r = SQueued /\ deps_of r = Ok deps /\
    forallb (dep_done (steps_of id (plan_steps s))) deps = true /\
    effect_on id (plan_running (Some (step_key r)) now)
      (at_step i (fun r => queued (st_state r)) (step_begun now)) s s'.
Proof.
  intros Hp Ha. unfold begin_queued. rewrite tx_gets_bind. intros (sel & Hsel & H)%tx_lift_bind.
  destruct sel as [[i r]|].
  2:{ left. apply tx_ret_Ok in H as [-> ->]. done. }
  right. apply first_ready_Some in Hsel as (Hin & Hq & deps & Hd & Hall).
  apply steps_of_In in Hin as [Hi Hid].
  unfold update_step, update_plan in H. rewrite !tx_modify_bind in H.
  apply tx_bind_Ok in H as (y & s1 & [-> _]%select_step_Ok & H).
  apply tx_lift_bind in H as (v & _ & H). apply tx_ret_Ok in H as [-> ->].
  exists i, r, deps, v. split; [done|]. split; [done|]. split; [done|]. split; [done|]. split; [done|].
  split; [done|]. exists p. cbn. rewrite (update_key_all id _ (plans s) p Hp).
  split; [done|]. split; [done|]. split; [done|]. split; [|done]. intros j. apply lookup_update_key.
Qed.

Lemma begin_next_Ok id user now s x s' :
  begin_next_step id user now s = Ok (x, s') ->
  s' = s \/ exists p i r deps v, x = Some (v, true) /\ plans s !! id = Some p /\ idle id p s /\
    plan_steps s !! i = Some r /\ plan_id r = id /\ st_state r = SQueued /\ deps_of r = Ok deps /\
    forallb (dep_done (steps_of id (plan_steps s))) deps = true /\
    effect_on id (plan_running (Some (step_key r)) now)
      (at_step i (fun r => queued (st_state r)) (step_begun now)) s s'.
Proof.
  unfold begin_next_step. intros (p & s1 & (-> & Hp & _)%tp_select_owned_Ok & H)%tx_bind_Ok.
  destruct (plan_active (row_state p)) eqn:Ha; cbn [negb] in H.
  2:{ left. by apply tx_ret_Ok in H as [_ ->]. }
  apply tx_bind_Ok in H as (cur & s1 & Hcur & H).
  assert (Hs1 : s1 = s /\ (forall key, current_step_key p = Some key -> truthy key = true ->
                            cur = select_one (is_step id key) (plan_steps s))).
  { unfold current_step in Hcur. destruct (current_step_key p) as [key|].
    2:{ by apply tx_ret_Ok in Hcur as [_ ->]. }
    destruct (truthy key) eqn:Hk.
    - apply tx_bind_Ok in Hcur as (y & s2 & [-> Hy]%select_step_Ok & Hret).
      apply tx_ret_Ok in Hret as [-> ->]. split; [done|]. by intros ? [= <-].
    - apply tx_ret_Ok in Hcur as [_ ->]. split; [done|]. intros ? [= <-]. congruence. }
  destruct Hs1 as [-> Hkey].
  assert (Hq : idle id p s -> begin_queued id now s = Ok (x, s') -> s' = s \/ exists p i r deps v,
    x = Some (v, true) /\ plans s !! id = Some p /\ idle id p s /\
    plan_steps s !! i = Some r /\ plan_id r = id /\ st_state r = SQueued /\ deps_of r = Ok deps /\
    forallb (dep_done (steps_of id (plan_steps s))) deps = true /\
    effect_on id (plan_running (Some (step_key r)) now)
      (at_step i (fun r => queued (st_state r)) (step_begun now)) s s').
  { intros Hidle [(-> & _)|(i & r & deps & v & Hr)]%(begin_queued_Ok _ _ _ _ _ p Hp Ha); [by left|].
    right. exists p, i, r, deps, v. destruct Hr as (? & ? & ? & ? & ? & ? & ?). tauto. }
  destruct cur as [[j y]|].
  - cbn [snd] in H. destruct (in_progress (st_state y)) eqn:Hin.
    + left. apply tx_lift_bind in H as (v & _ & H). by apply tx_ret_Ok in H as [_ ->].
    + apply Hq; [|exact H]. intros key i r Hc Ht Hsel. rewrite <- (Hkey key Hc Ht) in Hsel.
      by injection Hsel as <- <-.
  - apply Hq; [|exact H]. intros key i r Hc Ht Hsel. rewrite <- (Hkey key Hc Ht) in Hsel. done.
Qed.
(** ** The invariant *)

Definition steps_unique (m : gmap string step_row) : Prop :=
  forall i j r1 r2, m !! i = Some r1 -> m !! j = Some r2 -> plan_id r1 = plan_id r2 ->
    step_key r1 = step_key r2 \/ ordinal r1 = ordinal r2 -> i = j.

(** Some step of the plan has this key and has succeeded. *)
Definition key_done (m : gmap string step_row) (id key : string) : Prop :=
  exists j (x : step_row), m !! j = Some x /\ plan_id x = id /\ step_key x = key /\ st_state x = SSucceeded.

(** The stored dependencies, decoded: keys of steps of the plan with smaller ordinals. *)
Definition deps_ordered (m : gmap string step_row) r : Prop :=
  exists deps, deps_of r = Ok (map JStr deps) /\ forall dep, In dep deps ->
    exists j (x : step_row), m !! j = Some x /\ plan_id x = plan_id r /\ step_key x = dep /\ (ordinal x < ordinal r)%Z.

Definition deps_done (m : gmap string step_row) r : Prop :=
  exists deps, deps_of r = Ok (map JStr deps) /\ Forall (key_done m (plan_id r)) deps.

(** A step of an active plan: it is in progress only if the plan is at it, it has begun only
    after everything it depends on succeeded, and only then may it have an interaction. *)
Record step_ok (m : gmap string step_row) (current : option string) r : Prop := {
  ok_state : st_state r = SQueued \/ in_progress (st_state r) = true \/ st_state r = SSucceeded;
  ok_current : in_progress (st_state r) = true -> current = Some (step_key r);
  ok_deps : st_state r <> SQueued -> deps_done m r;
  ok_interaction : is_Some (interaction_id r) -> in_progress (st_state r) = true;
}.

(** A plan and its steps. *)
Definition plan_ok (m : gmap string step_row) (id : string) p : Prop :=
  if plan_active (row_state p)
  then finished_at p = None /\
       (forall key, current_step_key p = Some key -> exists i r, m !! i = Some r /\ plan_id r = id /\
          step_key r = key /\ in_progress (st_state r) = true) /\
       forall i r, m !! i = Some r -> plan_id r = id -> step_ok m (current_step_key p) r
  else is_Some (finished_at p) /\
       forall i r, m !! i = Some r -> plan_id r = id ->
         match row_state p with
         | PSucceeded | PCanceled => step_active (st_state r) = false
         | _ => st_state r <> SQueued
         end.

Record Inv s : Prop := {
  inv_unique : steps_unique (plan_steps s);
  inv_rows : forall i r, plan_steps s !! i = Some r ->
    truthy (step_key r) = true /\ is_Some (plans s !! plan_id r) /\ deps_ordered (plan_steps s) r;
  inv_plans : forall id p, plans s !! id = Some p -> plan_ok (plan_steps s) id p;
  inv_active : forall id1 id2 p1 p2, plans s !! id1 = Some p1 -> plans s !! id2 = Some p2 ->
    parent_task_id p1 = parent_task_id p2 ->
    plan_active (row_state p1) = true -> plan_active (row_state p2) = true -> id1 = id2;
  inv_keys : forall id1 id2 p1 p2, plans s !! id1 = Some p1 -> plans s !! id2 = Some p2 ->
    parent_task_id p1 = parent_task_id p2 -> user_subject p1 = user_subject p2 ->
    is_Some (idempotency_key p1) -> idempotency_key p1 = idempotency_key p2 -> id1 = id2;
  inv_revisions : forall id1 id2 p1 p2, plans s !! id1 = Some p1 -> plans s !! id2 = Some p2 ->
    parent_task_id p1 = parent_task_id p2 -> revision p1 = revision p2 -> id1 = id2;
}.

(** [g] keeps the contracts of the steps and changes only steps of plan [id]. *)
Definition local_to (id : string) (m : gmap string step_row) (g : string -> step_row -> step_row) : Prop :=
  forall i r, m !! i = Some r -> the_step (g i r) = the_step r /\ (plan_id r <> id -> g i r = r).

Lemma lookup_rewritten (m m' : gmap string step_row) g i r :
  (forall i, m' !! i = g i <$> m !! i) -> m' !! i = Some r ->
  exists x : step_row, m !! i = Some x /\ r = g i x.
Proof. intros E Hi. rewrite E in Hi. destruct (m !! i) as [x|]; [|done]. injection Hi as <-. by exists x. Qed.

Lemma deps_of_contract r1 r2 : the_step r1 = the_step r2 -> deps_of r1 = deps_of r2.
Proof. intros E. unfold deps_of. by rewrite E. Qed.

Lemma deps_ordered_rewritten id (m m' : gmap string step_row) g i r :
  local_to id m g -> (forall i, m' !! i = g i <$> m !! i) -> m !! i = Some r -> deps_ordered m r -> deps_ordered m' (g i r).
Proof.
  intros Hg E Hi (deps & Hd & Hall). destruct (Hg i r Hi) as [Hc _]. exists deps.
  rewrite (deps_of_contract _ _ Hc). split; [done|]. intros dep Hdep.
  destruct (Hall dep Hdep) as (j & x & Hj & Hid & Hk & Ho). exists j, (g j x).
  destruct (Hg j x Hj) as [Hcx _]. rewrite E, Hj, Hcx, Hc. done.
Qed.

(** Dependencies that were done stay done when [g] keeps what has succeeded. *)
Lemma deps_done_rewritten id (m m' : gmap string step_row) g i r :
  local_to id m g -> (forall i, m' !! i = g i <$> m !! i) -> m !! i = Some r ->
  (forall i (x : step_row), m !! i = Some x -> plan_id x = plan_id r -> st_state x = SSucceeded -> st_state (g i x) = SSucceeded) ->
  deps_done m r -> deps_done m' (g i r).
Proof.
  intros Hg E Hi Hs (deps & Hd & Hall). destruct (Hg i r Hi) as [Hc _]. exists deps.
  rewrite (deps_of_contract _ _ Hc). split; [done|]. rewrite Hc.
  eapply Forall_impl; [exact Hall|]. intros key (j & x & Hj & Hid & Hk & Hst).
  exists j, (g j x). destruct (Hg j x Hj) as [Hcx _]. rewrite E, Hj, Hcx. eauto.
Qed.

(** Other plans do not notice. *)
Lemma plan_ok_frame id id' (m m' : gmap string step_row) g p :
  local_to id m g -> (forall i, m' !! i = g i <$> m !! i) -> id' <> id ->
  plan_ok m id' p -> plan_ok m' id' p.
Proof.
  intros Hg E Hne. assert (Hrow : forall i r, m' !! i = Some r -> plan_id r = id' -> m !! i = Some r).
  { intros i r Hi Hid. destruct (lookup_rewritten m m' g i r E Hi) as (x & Hx & ->).
    destruct (Hg i x Hx) as [Hc Hk]. rewrite Hc in Hid. by rewrite Hk, Hx by congruence. }
  assert (Hkeep : forall i r, m !! i = Some r -> plan_id r = id' -> m' !! i = Some r).
  { intros i r Hi Hid. rewrite E, Hi. cbn. f_equal. apply (Hg i r Hi). congruence. }
  unfold plan_ok. destruct (plan_active (row_state p)).
  1: intros (Hf & Hcur & Hall); split; [exact Hf|]; split.
  3: intros [Hf Hall]; split; [exact Hf|].
  - intros key Hkey. destruct (Hcur key Hkey) as (i & r & Hi & Hid & Hr). exists i, r. auto.
  - intros i r Hi Hid. pose proof (Hrow i r Hi Hid) as Hm. destruct (Hall i r Hm Hid) as [H1 H2 H3 H4].
    split; [exact H1|exact H2| |exact H4]. intros Hq.
    assert (Hgr : g i r = r) by (apply Hg; congruence). rewrite <- Hgr.
    apply (deps_done_rewritten id m m' g i r Hg E Hm); [|by apply H3].
    intros j x Hj Hx Hst. destruct (Hg j x Hj) as [_ Hk]. by rewrite Hk by congruence.
  - intros i r Hi Hid. exact (Hall i r (Hrow i r Hi Hid) Hid).
Qed.

(** What an operation on plan [id] has to show: the plan's new row is right about the
    rewritten steps, and keeps its contract. *)
Lemma Inv_effect id f g s s' :
  effect_on id f g s s' -> local_to id (plan_steps s) g -> (forall p, the_plan (f p) = the_plan p) ->
  (forall p, plans s !! id = Some p -> plan_active (row_state p) = true ->
     plan_ok (plan_steps s) id p -> plan_ok (plan_steps s') id (f p)) ->
  Inv s -> Inv s'.
Proof.
  intros (p & Hp & Ha & Eplans & Esteps & _) Hg Hf Hok [Hu Hr Hpl Hact Hk Hrev].
  assert (Hplan : forall id' q', plans s' !! id' = Some q' -> exists q, plans s !! id' = Some q /\
    the_plan q' = the_plan q /\ (plan_active (row_state q') = true -> plan_active (row_state q) = true)).
  { intros id' q' H'. rewrite Eplans in H'. split_eq id' id.
    - rewrite lookup_insert_eq in H'. injection H' as <-. exists p. auto.
    - rewrite lookup_insert_ne in H' by done. by exists q'. }
  assert (Hown : forall k, is_Some (plans s !! k) -> is_Some (plans s' !! k)).
  { intros k [q Hq]. rewrite Eplans. split_eq k id; [rewrite lookup_insert_eq|rewrite lookup_insert_ne by done]; eauto. }
  constructor.
  - intros i j r1 r2 H1 H2 Hid Hor.
    destruct (lookup_rewritten _ _ _ _ _ Esteps H1) as (x1 & X1 & ->).
    destruct (lookup_rewritten _ _ _ _ _ Esteps H2) as (x2 & X2 & ->).
    destruct (Hg i x1 X1) as [C1 _], (Hg j x2 X2) as [C2 _]. rewrite C1, C2 in *. eauto.
  - intros i r H1. destruct (lookup_rewritten _ _ _ _ _ Esteps H1) as (x & X & ->).
    destruct (Hr i x X) as (Hk1 & Ho1 & Hd1). destruct (Hg i x X) as [C _]. rewrite C.
    split; [done|]. split; [auto|]. by eapply deps_ordered_rewritten.
  - intros id' q' H'. rewrite Eplans in H'. split_eq id' id.
    + rewrite lookup_insert_eq in H'. injection H' as <-. auto.
    + rewrite lookup_insert_ne in H' by done. eapply plan_ok_frame; eauto.
  - intros id1 id2 p1 p2 H1 H2 Ht A1 A2. destruct (Hplan _ _ H1) as (q1 & Q1 & C1 & B1).
    destruct (Hplan _ _ H2) as (q2 & Q2 & C2 & B2). rewrite C1, C2 in *. eauto.
  - intros id1 id2 p1 p2 H1 H2. destruct (Hplan _ _ H1) as (q1 & Q1 & C1 & _).
    destruct (Hplan _ _ H2) as (q2 & Q2 & C2 & _). rewrite C1, C2. eauto.
  - intros id1 id2 p1 p2 H1 H2. destruct (Hplan _ _ H1) as (q1 & Q1 & C1 & _).
    destruct (Hplan _ _ H2) as (q2 & Q2 & C2 & _). rewrite C1, C2. eauto.
Qed.
(** ** Every operation preserves it *)

Lemma effect_on_ext id f g g' s s' :
  (forall i r, plan_steps s !! i = Some r -> g i r = g' i r) -> effect_on id f g s s' ->
  effect_on id f g' s s'.
Proof.
  intros Hg (p & Hp & Ha & E1 & E2 & E3). exists p. split; [done|]. split; [done|]. split; [done|].
  split; [|done]. intros i. rewrite E2. destruct (plan_steps s !! i) as [r|] eqn:Hi; [|done].
  cbn. by rewrite (Hg i r Hi).
Qed.

Lemma at_step_local id k q h (m : gmap string step_row) r0 :
  m !! k = Some r0 -> plan_id r0 = id -> (forall r, the_step (h r) = the_step r) ->
  local_to id m (at_step k q h).
Proof.
  intros Hk Hid Hh i r Hi. unfold at_step. destruct (String.eqb_spec i k) as [->|]; [|done].
  destruct (q r); cbn; [|done]. split; [done|]. congruence.
Qed.

Lemma at_steps_local id q h (m : gmap string step_row) :
  (forall r, q r = true -> plan_id r = id) -> (forall r, the_step (h r) = the_step r) ->
  local_to id m (at_steps q h).
Proof.
  intros Hq Hh i r Hi. unfold at_steps. destruct (q r) eqn:E; [|done]. split; [done|].
  intros Hne. by destruct (Hne (Hq r E)).
Qed.

Lemma in_states_plan id q r : in_states id q r = true -> plan_id r = id.
Proof. unfold in_states. by intros [?%String.eqb_eq _]%andb_true_iff. Qed.

(** One step of an active plan moves, and nothing else of the plan is in progress. *)
Lemma plan_ok_moved id (m m' : gmap string step_row) k q h r0 p p' :
  steps_unique m -> plan_ok m id p -> plan_active (row_state p) = true ->
  (forall i, m' !! i = at_step k q h i <$> m !! i) -> m !! k = Some r0 -> plan_id r0 = id ->
  q r0 = true -> (forall r, the_step (h r) = the_step r) ->
  plan_active (row_state p') = true -> finished_at p' = finished_at p ->
  st_state r0 <> SSucceeded ->
  (forall i r, m !! i = Some r -> plan_id r = id -> i <> k -> in_progress (st_state r) = false) ->
  (st_state (h r0) = SQueued \/ in_progress (st_state (h r0)) = true \/ st_state (h r0) = SSucceeded) ->
  current_step_key p' =
    (if in_progress (st_state (h r0)) then Some (step_key r0) else None) ->
  (st_state (h r0) <> SQueued -> deps_done m r0) ->
  (is_Some (interaction_id (h r0)) -> in_progress (st_state (h r0)) = true) ->
  plan_ok m' id p'.
Proof.
  intros Hu Hok Ha E Hk Hid Hq Hh Ha' Hf Hns Hothers Hst Hcur Hdeps Hint.
  pose proof (at_step_local id k q h m r0 Hk Hid Hh) as Hg.
  unfold plan_ok in *. rewrite Ha in Hok. rewrite Ha'. destruct Hok as (Hfin & _ & Hall).
  assert (Hnew : at_step k q h k r0 = h r0) by (unfold at_step; by rewrite String.eqb_refl, Hq).
  assert (Hsame : forall i r, i <> k -> at_step k q h i r = r).
  { intros i r Hi. unfold at_step. by rewrite (proj2 (String.eqb_neq i k) Hi). }
  assert (Hkeep : forall i (x : step_row), m !! i = Some x -> plan_id x = id ->
    st_state x = SSucceeded -> st_state (at_step k q h i x) = SSucceeded).
  { intros i x Hi Hx Hs. rewrite Hsame; [done|]. intros ->. congruence. }
  split; [congruence|]. split.
  - intros key Hkey. rewrite Hcur in Hkey. destruct (in_progress _) eqn:Hin; [|done].
    injection Hkey as <-. exists k, (h r0). rewrite E, Hk, Hh. cbn. by rewrite Hnew.
  - intros i r Hi Hir. destruct (lookup_rewritten _ _ _ _ _ E Hi) as (x & Hx & ->).
    destruct (Hg i x Hx) as [Hc _]. rewrite Hc in Hir.
    assert (Hdone : forall y, m !! i = Some y -> deps_done m y -> plan_id y = id ->
      deps_done m' (at_step k q h i y)).
    { intros y Hy Hd Hyid. apply (deps_done_rewritten id m m' _ i y Hg E Hy); [|exact Hd].
      intros j z Hj Hz. apply Hkeep; congruence. }
    split_eq i k.
    + rewrite Hk in Hx. injection Hx as <-. rewrite Hnew in *. constructor.
      * exact Hst.
      * intros Hin. by rewrite Hcur, Hin, Hh.
      * intros Hq'. rewrite <- Hnew. apply Hdone; [exact Hk|by apply Hdeps|exact Hid].
      * exact Hint.
    + pose proof (Hothers i x Hx Hir ltac:(assumption)) as Hno.
      destruct (Hall i x Hx Hir) as [H1 H2 H3 H4]. pose proof (Hdone x Hx) as Hdx.
      rewrite Hsame in * by done. constructor.
      * exact H1.
      * congruence.
      * intros Hnq. apply Hdx; auto.
      * intros Hi'. rewrite Hno in H4. by specialize (H4 Hi').
Qed.

(** At most one step of an active plan is in progress. *)
Lemma others_idle s id p k r0 : Inv s -> plans s !! id = Some p -> plan_active (row_state p) = true ->
  plan_steps s !! k = Some r0 -> plan_id r0 = id -> in_progress (st_state r0) = true ->
  forall i r, plan_steps s !! i = Some r -> plan_id r = id -> i <> k -> in_progress (st_state r) = false.
Proof.
  intros HI Hp Ha Hk Hid Hin i r Hi Hir Hne. destruct (in_progress (st_state r)) eqn:E; [|done].
  pose proof (inv_plans _ HI _ _ Hp) as Hok. unfold plan_ok in Hok. rewrite Ha in Hok.
  destruct Hok as (_ & _ & Hall).
  pose proof (ok_current _ _ _ (Hall _ _ Hk Hid) Hin) as C1.
  pose proof (ok_current _ _ _ (Hall _ _ Hi Hir) E) as C2.
  destruct Hne. apply (inv_unique _ HI _ _ _ _ Hi Hk); [congruence|left; congruence].
Qed.

(** A step in progress moves on, as [_update_step] and the resets do. *)
Lemma Inv_moved id f k h s s' r0 :
  Inv s -> effect_on id f (at_step k (fun _ => true) h) s s' ->
  plan_steps s !! k = Some r0 -> plan_id r0 = id -> in_progress (st_state r0) = true ->
  (forall r, the_step (h r) = the_step r) ->
  (forall p, the_plan (f p) = the_plan p /\ plan_active (row_state (f p)) = true /\
     finished_at (f p) = finished_at p /\
     current_step_key (f p) = (if in_progress (st_state (h r0)) then Some (step_key r0) else None)) ->
  (st_state (h r0) = SQueued \/ in_progress (st_state (h r0)) = true \/ st_state (h r0) = SSucceeded) ->
  (is_Some (interaction_id (h r0)) -> in_progress (st_state (h r0)) = true) ->
  Inv s'.
Proof.
  intros HI He Hk Hid Hin Hh Hf Hst Hint. pose proof He as (p0 & Hp0 & Ha0 & _ & E & _).
  eapply Inv_effect; [exact He|by eapply at_step_local|intros p; apply Hf| |exact HI].
  intros p Hp Ha Hok. destruct (Hf p) as (_ & F1 & F2 & F3).
  eapply plan_ok_moved with (r0 := r0) (p := p); try done; [by apply HI| | |].
  - intros Hs. by rewrite Hs in Hin.
  - by eapply others_idle.
  - intros _. unfold plan_ok in Hok. rewrite Ha in Hok. destruct Hok as (_ & _ & Hall).
    apply (ok_deps _ _ _ (Hall _ _ Hk Hid)). intros Hq. by rewrite Hq in Hin.
Qed.
(** The plan ends. *)
Lemma Inv_closed id f g s s' :
  Inv s -> effect_on id f g s s' -> local_to id (plan_steps s) g ->
  (forall p, the_plan (f p) = the_plan p /\ plan_active (row_state (f p)) = false /\
     is_Some (finished_at (f p))) ->
  (forall p i r, plan_steps s' !! i = Some r -> plan_id r = id ->
     match row_state (f p) with
     | PSucceeded | PCanceled => step_active (st_state r) = false
     | _ => st_state r <> SQueued
     end) ->
  Inv s'.
Proof.
  intros HI He Hg Hf Hrows. eapply Inv_effect; [exact He|exact Hg|intros p; apply Hf| |exact HI].
  intros p _ _ _. destruct (Hf p) as (_ & F1 & F2). unfold plan_ok. rewrite F1.
  split; [exact F2|]. intros i r Hi Hid. exact (Hrows p i r Hi Hid).
Qed.

Lemma Inv_update_step id user key st plan_st operation interaction input output terminal clear now s v s' :
  Inv s -> plan_active plan_st = true ->
  (in_progress st = true /\ clear = false \/ st = SSucceeded /\ clear = true /\ interaction = None) ->
  _update_step id user key st plan_st operation interaction input output terminal clear now s
    = Ok (v, s') -> Inv s'.
Proof.
  intros HI Ha Hst [->|(i & r & Hi & Hid & Hkey & Hin & He)]%update_step_Ok; [done|].
  eapply Inv_moved; [exact HI|exact He|exact Hi|exact Hid|exact Hin|done| | |].
  - intros p. cbn. split; [done|]. split; [done|]. split; [done|].
    destruct Hst as [[-> ->]|(-> & -> & _)]; [by rewrite Hkey|done].
  - cbn. destruct Hst as [[-> _]|(-> & _)]; auto.
  - cbn. destruct Hst as [[-> _]|(-> & _ & ->)]; [done|by intros [? ?]].
Qed.

Lemma Inv_reset id clear k now s s' r :
  Inv s -> effect_on id (plan_running None now) (at_step k (fun _ => true) (step_reset clear now)) s s' ->
  plan_steps s !! k = Some r -> plan_id r = id -> in_progress (st_state r) = true -> Inv s'.
Proof.
  intros HI He Hk Hid Hin. eapply Inv_moved; [exact HI|exact He|exact Hk|exact Hid|exact Hin|done| | |].
  - done.
  - by left.
  - by intros [? ?].
Qed.

Lemma dep_done_key id (m : gmap string step_row) dep :
  dep_done (steps_of id m) (JStr dep) = true -> key_done m id dep.
Proof.
  cbn. intros ([i x] & Hin & Hx)%existsb_exists. cbn [snd] in Hx.
  apply andb_true_iff in Hx as [Hk%String.eqb_eq Hs%bool_decide_eq_true].
  apply steps_of_In in Hin as [Hi Hid]. by exists i, x.
Qed.

Lemma Inv_begin id user now s x s' :
  Inv s -> begin_next_step id user now s = Ok (x, s') -> Inv s'.
Proof.
  intros HI [->|(p & i & r & deps & v & _ & Hp & Hidle & Hi & Hid & Hq & Hd & Hall & He)]%begin_next_Ok;
    [done|].
  pose proof He as (p' & Hp' & Ha & _ & E & _). rewrite Hp in Hp'. injection Hp' as <-.
  eapply Inv_effect; [exact He|by eapply at_step_local|done| |exact HI].
  intros p' Hp' _ Hok. rewrite Hp in Hp'. injection Hp' as <-.
  pose proof Hok as Hok'. unfold plan_ok in Hok'. rewrite Ha in Hok'. destruct Hok' as (_ & Hcur & Hsteps).
  assert (Hnone : forall j (y : step_row), plan_steps s !! j = Some y -> plan_id y = id -> in_progress (st_state y) = false).
  { intros j y Hj Hy. destruct (in_progress (st_state y)) eqn:Hin; [|done].
    pose proof (ok_current _ _ _ (Hsteps _ _ Hj Hy) Hin) as Hc.
    destruct (inv_rows _ HI _ _ Hj) as (Ht & _). rewrite <- Hin.
    apply (Hidle (step_key y) j y Hc Ht). apply select_one_unique; [done|by apply is_step_spec|].
    intros k z Hz [Hzid Hzk]%is_step_spec. apply (inv_unique _ HI _ _ _ _ Hz Hj); [congruence|by left]. }
  assert (Hqueued : queued (st_state r) = true) by (unfold queued; by rewrite Hq).
  eapply plan_ok_moved with (r0 := r) (p := p); try done.
  - apply HI.
  - by rewrite Hq.
  - intros j y Hj Hy _. by apply (Hnone j y).
  - auto.
  - intros _. destruct (inv_rows _ HI _ _ Hi) as (_ & _ & ks & Hks & _).
    rewrite Hks in Hd. injection Hd as <-. exists ks. split; [done|]. rewrite Hid.
    apply List.Forall_forall. intros k Hk. apply dep_done_key.
    apply (proj1 (forallb_forall _ _) Hall). by apply in_map.
Qed.

(** What the guard rewrites is the one step that the plan is at. *)
Lemma Inv_guard authorization user operation validate now s u s' :
  Inv s -> guard_authorization_consumption authorization user operation validate now s = Ok (u, s') ->
  Inv s'.
Proof.
  intros HI [[_ ->]|(id & p & v & Hg & _ & _ & _ & He)]%guard_Ok; [done|].
  pose proof He as (p' & Hp & Ha & Eplans & E & _). apply guarded_plan_Some in Hg as (Hp' & _).
  rewrite Hp' in Hp. injection Hp as ->.
  pose proof (inv_plans _ HI _ _ Hp') as Hok. unfold plan_ok in Hok. rewrite Ha in Hok.
  destruct Hok as (Hfin & Hcur & Hsteps). unfold resumes in He, E.
  destruct (current_step_key p') as [key|] eqn:Hkey.
  - destruct (Hcur key eq_refl) as (k & r & Hk & Hid & Hrk & Hin).
    assert (He' : effect_on id (plan_committing operation now) (at_step k (fun _ => true) (step_resumed now)) s s').
    { eapply effect_on_ext; [|exact He]. intros i y Hi. unfold at_steps, at_step.
      destruct (String.eqb_spec i k) as [->|Hne]; cbn.
      - rewrite Hk in Hi. injection Hi as <-.
        by rewrite (proj2 (is_step_spec id key r) (conj Hid Hrk)).
      - destruct (is_step id key y) eqn:Hy; [|done]. apply is_step_spec in Hy as [Hyid Hyk].
        destruct Hne. apply (inv_unique _ HI _ _ _ _ Hi Hk); [congruence|left; congruence]. }
    eapply Inv_effect; [exact He'|by eapply at_step_local|done| |exact HI].
    intros q Hq _ Hok. rewrite Hp' in Hq. injection Hq as <-.
    pose proof He' as (_ & _ & _ & _ & E' & _).
    eapply plan_ok_moved with (r0 := r) (p := p'); try done; [by apply HI| | |by auto| |].
    + intros Hs. by rewrite Hs in Hin.
    + by eapply others_idle.
    + cbn. by rewrite Hkey, Hrk.
    + intros _. apply (ok_deps _ _ _ (Hsteps _ _ Hk Hid)). intros Hs. by rewrite Hs in Hin.
  - eapply Inv_effect; [exact He|done|done| |exact HI].
    intros q Hq _ Hok. rewrite Hp' in Hq. injection Hq as <-. unfold plan_ok. cbn.
    rewrite Hkey. split; [done|]. split; [done|]. intros i r Hi Hid.
    rewrite E in Hi. assert (Hi' : plan_steps s !! i = Some r) by (by destruct (plan_steps s !! i)).
    destruct (Hsteps i r Hi' Hid) as [H1 H2 H3 H4]. constructor; try done.
    intros Hq'. destruct (H3 Hq') as (deps & Hd & Hdall). exists deps. split; [done|].
    eapply Forall_impl; [exact Hdall|]. intros k (j & x & Hj & Hx). exists j, x. by rewrite E, Hj.
Qed.
Lemma Inv_reset_session id user interaction now s v s' :
  Inv s -> reset_step_after_session id user interaction now s = Ok (v, s') -> Inv s'.
Proof.
  intros HI [->|(i & r & Hi & Hid & Hint & He)]%reset_session_Ok; [done|].
  eapply Inv_reset; [exact HI|exact He|exact Hi|exact Hid|].
  destruct He as (p & Hp & Ha & _). pose proof (inv_plans _ HI _ _ Hp) as Hok.
  unfold plan_ok in Hok. rewrite Ha in Hok. destruct Hok as (_ & _ & Hall).
  apply (ok_interaction _ _ _ (Hall _ _ Hi Hid)). by rewrite Hint.
Qed.

Lemma Inv_recover id user key expected now s v s' :
  Inv s -> reset_running_step_for_recovery id user key expected now s = Ok (v, s') -> Inv s'.
Proof.
  intros HI [->|(i & r & Hi & Hid & _ & Hst & He)]%recover_Ok; [done|].
  eapply Inv_reset; [exact HI|exact He|exact Hi|exact Hid|]. by rewrite Hst.
Qed.

Lemma failure_terminal state st plan_st : failure_states state = Some (st, plan_st) ->
  (st = SFailed /\ plan_st = PFailed) \/ (st = SUnknown /\ plan_st = PUnknown).
Proof.
  unfold failure_states. destruct (String.eqb state "failed"); [by intros [= <- <-]; left|].
  destruct (String.eqb state "outcome_unknown"); [|done]. by intros [= <- <-]; right.
Qed.

Lemma Inv_failed id user key operation state code message outcome now s v s' :
  Inv s -> mark_step_failed id user key operation state code message outcome now s = Ok (v, s') ->
  Inv s'.
Proof.
  intros HI [->|(st & plan_st & Hst%failure_terminal & He)]%mark_failed_Ok; [done|].
  pose proof He as (p0 & _ & _ & _ & E & _). eapply Inv_closed; [exact HI|exact He| | |].
  - intros i r Hi. unfold at_steps. destruct (is_step id key r) eqn:Hs.
    + apply is_step_spec in Hs as [Hid _]. destruct (in_states _ _ _); (split; [done|]; intros Hne; by destruct (Hne Hid)).
    + destruct (in_states id queued r) eqn:Hq; [|done]. apply in_states_plan in Hq.
      split; [done|]. intros Hne. by destruct (Hne Hq).
  - intros p. by destruct Hst as [[-> ->]|[-> ->]].
  - intros p i r Hi Hid. destruct (lookup_rewritten _ _ _ _ _ E Hi) as (x & _ & ->).
    assert (Hq : st_state (at_steps (in_states id queued) (step_closed SCanceled now) i
      (at_steps (is_step id key) (step_failed st operation (py_take 120 code) (py_take 500 message) now) i x))
      <> SQueued).
    { set (y := at_steps (is_step id key) _ i x) in *. unfold at_steps in *.
      destruct (in_states id queued y) eqn:Hy; [done|]. intros Hyq. unfold in_states in Hy.
      rewrite Hid, String.eqb_refl in Hy. unfold queued in Hy. by rewrite Hyq in Hy. }
    by destruct Hst as [[-> ->]|[-> ->]].
Qed.

Lemma Inv_complete id user reason skip outcome now s v s' :
  Inv s -> complete id user reason skip outcome now s = Ok (v, s') -> Inv s'.
Proof.
  intros HI [->|(g & Hg & Hnone & He)]%complete_Ok; [done|].
  eapply Inv_closed; [exact HI|exact He| |done|intros p; exact Hnone].
  destruct Hg as [->| ->]; [done|]. apply at_steps_local; [apply in_states_plan|done].
Qed.

Lemma Inv_cancel id user reason now s v s' :
  Inv s -> cancel id user reason now s = Ok (v, s') -> Inv s'.
Proof.
  intros HI [->|[_ He]]%cancel_Ok; [done|]. pose proof He as (p0 & _ & _ & _ & E & _).
  eapply Inv_closed; [exact HI|exact He| |done|].
  - apply at_steps_local; [apply in_states_plan|done].
  - intros p i r Hi Hid. cbn. destruct (lookup_rewritten _ _ _ _ _ E Hi) as (x & _ & ->).
    unfold at_steps in *. destruct (in_states id step_active x) eqn:Hx; [done|].
    unfold in_states in Hx. by rewrite Hid, String.eqb_refl in Hx.
Qed.

Lemma project_Ok id user projection now s v s' :
  set_result_projection id user projection now s = Ok (v, s') ->
  exists p, plans s !! id = Some p /\
    s' = set_plans (<[id := plan_projected (_canonical_json projection) now p]> (plans s)) s.
Proof.
  unfold set_result_projection. intros (p & s1 & (-> & Hp & _)%tp_select_owned_Ok & H)%tx_bind_Ok.
  unfold update_plan in H. rewrite tx_modify_bind in H. apply refreshed_state in H as ->.
  exists p. split; [done|]. by rewrite (update_key_all id _ (plans s) p Hp).
Qed.

(** A plan's row changes only in its projection and [updated_at]. *)
Definition same_progress p p' : Prop :=
  the_plan p' = the_plan p /\ row_state p' = row_state p /\ current_step_key p' = current_step_key p /\
  finished_at p' = finished_at p.

Lemma Inv_project id user projection now s v s' :
  Inv s -> set_result_projection id user projection now s = Ok (v, s') -> Inv s'.
Proof.
  intros HI (p & Hp & ->)%project_Ok. destruct HI as [Hu Hr Hpl Hact Hk Hrev].
  set (p' := plan_projected (_canonical_json projection) now p).
  assert (Hplan : forall id' q', <[id := p']> (plans s) !! id' = Some q' ->
    exists q, plans s !! id' = Some q /\ same_progress q q').
  { intros id' q'. split_eq id' id.
    - rewrite lookup_insert_eq. intros [= <-]. by exists p.
    - rewrite lookup_insert_ne by done. intros H. by exists q'. }
  constructor; cbn [plans plan_steps set_plans]; try done.
  - intros i r Hi. destruct (Hr i r Hi) as (H1 & [q Hq] & H3). split; [done|]. split; [|done].
    split_eq (plan_id r) id; [rewrite lookup_insert_eq|rewrite lookup_insert_ne by done]; eauto.
  - intros id' q' (q & Hq & _ & H1 & H2 & H3)%Hplan. pose proof (Hpl _ _ Hq) as Hok.
    unfold plan_ok in *. by rewrite H1, H2, H3.
  - intros id1 id2 q1' q2' (q1 & Hq1 & -> & -> & _)%Hplan (q2 & Hq2 & -> & -> & _)%Hplan. eauto.
  - intros id1 id2 q1' q2' (q1 & Hq1 & -> & _)%Hplan (q2 & Hq2 & -> & _)%Hplan. eauto.
  - intros id1 id2 q1' q2' (q1 & Hq1 & -> & _)%Hplan (q2 & Hq2 & -> & _)%Hplan. eauto.
Qed.
(** *** Creation *)

Section Create.
Context {tables : UnicodeTables}.

Lemma steps_unique_insert (m m' : gmap string step_row) k r :
  steps_unique m -> insert_row k (step_clash r) r m = Ok m' -> steps_unique m'.
Proof.
  intros Hu (Hk & Hc & ->)%insert_row_Ok. rewrite exists_where_false in Hc.
  assert (Hold : forall i (x : step_row), m !! i = Some x -> plan_id x = plan_id r ->
    step_key x = step_key r \/ ordinal x = ordinal r -> False).
  { intros i x Hi Hid Hor. specialize (Hc i x Hi). unfold step_clash in Hc.
    rewrite Hid, String.eqb_refl in Hc. cbn in Hc. apply orb_false_iff in Hc as [H1 H2].
    apply String.eqb_neq in H1. apply Z.eqb_neq in H2. tauto. }
  intros i j r1 r2 H1 H2 Hid Hor. split_eq i k; [|rewrite lookup_insert_ne in H1 by done].
  - rewrite lookup_insert_eq in H1. injection H1 as <-. split_eq j k; [done|].
    rewrite lookup_insert_ne in H2 by done. destruct (Hold _ _ H2); [done|]. destruct Hor; [left|right]; done.
  - split_eq j k.
    + rewrite lookup_insert_eq in H2. injection H2 as <-. destruct (Hold _ _ H1 Hid Hor).
    + rewrite lookup_insert_ne in H2 by done. eauto.
Qed.

Lemma insert_steps_Ok plan fresh now steps : forall n s u s',
  insert_steps plan fresh n now steps s = Ok (u, s') -> steps_unique (plan_steps s) ->
  plans s' = plans s /\ interactions s' = interactions s /\ steps_unique (plan_steps s') /\
  (forall i r, plan_steps s !! i = Some r -> plan_steps s' !! i = Some r) /\
  (forall i r, plan_steps s' !! i = Some r -> plan_steps s !! i = Some r \/
     exists c, In c steps /\ r = new_step plan c now) /\
  (forall c, In c steps -> exists i, plan_steps s' !! i = Some (new_step plan c now)).
Proof.
  induction steps as [|c steps IH]; intros n s u s'; cbn [insert_steps].
  - intros [_ ->]%tx_ret_Ok Hu. repeat (split; [by auto|]). by intros c [].
  - rewrite tx_gets_bind. intros (m' & Hm & Hrest)%tx_lift_bind Hu. rewrite tx_modify_bind in Hrest.
    pose proof (steps_unique_insert _ _ _ _ Hu Hm) as Hu'.
    apply insert_row_Ok in Hm as (Hk & _ & ->).
    apply IH in Hrest as (E1 & E2 & H3 & H4 & H5 & H6); [|exact Hu']. cbn in *.
    split; [done|]. split; [done|]. split; [done|]. split; [|split].
    + intros i r Hi. apply H4. rewrite lookup_insert_ne; [done|]. congruence.
    + intros i r Hi. destruct (H5 i r Hi) as [Hin|(c' & Hc & ->)].
      * split_eq i (fresh n).
        -- rewrite lookup_insert_eq in Hin. injection Hin as <-. right. exists c. split; [by left|done].
        -- rewrite lookup_insert_ne in Hin by done. by left.
      * right. exists c'. split; [by right|done].
    + intros c' [->|Hc]; [|by apply H6]. exists (fresh n). apply H4. by rewrite lookup_insert_eq.
Qed.

Lemma canon_strings l : canon (JArr (map JStr l)) = JArr (map JStr l).
Proof. cbn. f_equal. induction l as [|x l IH]; [done|]. cbn. by rewrite IH. Qed.

Lemma tp_wf_strings l : wf_json (JArr (map JStr l)).
Proof. apply wf_JArr. induction l; cbn; constructor; done. Qed.

Lemma new_step_deps plan c now deps :
  json_or (cs_depends_on c) (JArr []) = JArr (map JStr deps) ->
  deps_of (new_step plan c now) = Ok (map JStr deps).
Proof.
  intros E. unfold deps_of, new_step. cbn [the_step depends_on_json _json]. rewrite E.
  unfold _canonical_json. rewrite loads_dumps by apply tp_wf_strings. by rewrite canon_strings.
Qed.

Definition max_revision (z : Z) (l : list (string * plan_row)) : Z :=
  fold_right (fun (kr : string * plan_row) m => Z.max (revision (snd kr)) m) z l.

Lemma max_revision_base z l : (z <= max_revision z l)%Z.
Proof.
  induction l as [|y l IH]; [apply Z.le_refl|]. exact (Z.le_trans _ _ _ IH (Z.le_max_r _ _)).
Qed.

Lemma max_revision_In z l id p : In (id, p) l -> (revision p <= max_revision z l)%Z.
Proof.
  induction l as [|y l IH]; [done|]. intros [->|Hp%IH]; [apply (Z.le_max_l (revision p))|].
  exact (Z.le_trans _ _ _ Hp (Z.le_max_r _ _)).
Qed.

Lemma last_revision_bound task (t : gmap string plan_row) id p :
  t !! id = Some p -> parent_task_id p = task -> (revision p <= last_revision task t)%Z.
Proof.
  intros Hp Ht. unfold last_revision.
  assert (Hin : In (id, p) (select_where (fun r : plan_row => String.eqb (parent_task_id r) task) t))
    by (apply select_where_In; rewrite Ht, String.eqb_refl; done).
  destruct (select_where _ t) as [|[i0 p0] rest]; [done|].
  destruct Hin as [[= -> ->]|Hin]; [apply max_revision_base|by eapply max_revision_In].
Qed.

Lemma plan_body_Ok a (pr : prepared) now id fresh s x s' :
  create_body a pr now id fresh s = Ok (x, s') -> steps_unique (plan_steps s) ->
  (s' = s /\ exists existing pl v, x = inl v /\ p_key pr = Some existing /\
     select_one (same_plan_key (p_user_subject pr) (p_parent_task_id pr) existing) (plans s) = Some pl /\
     plan_hash (snd pl) = p_plan_hash pr /\ _snapshot pl s = Ok (v, s)) \/
  (x = inr id /\ plans s !! id = None /\
   let row := new_plan a pr id (last_revision (p_parent_task_id pr) (plans s) + 1)%Z now in
   exists_where (plan_clash row) (plans s) = false /\
   plans s' = <[id := row]> (plans s) /\ interactions s' = interactions s /\
   steps_unique (plan_steps s') /\
   (forall i r, plan_steps s !! i = Some r -> plan_steps s' !! i = Some r) /\
   (forall i r, plan_steps s' !! i = Some r -> plan_steps s !! i = Some r \/
      exists c, In c (cp_steps (a_compiled_plan a)) /\ r = new_step id c now) /\
   (forall c, In c (cp_steps (a_compiled_plan a)) ->
      exists i, plan_steps s' !! i = Some (new_step id c now))).
Proof.
  intros Hb Hu. unfold create_body in Hb. rewrite tx_gets_bind in Hb. cbv zeta in Hb.
  destruct (p_key pr ≫= _) as [pl|] eqn:Hkey.
  - left. apply tx_raise_if_bind in Hb as [Hh%negb_false_iff%String.eqb_eq Hb].
    apply tx_bind_Ok in Hb as (v & s1 & Hv & Hb). pose proof (snapshot_state _ _ _ _ Hv) as ->.
    apply tx_ret_Ok in Hb as [-> ->]. split; [done|].
    destruct (p_key pr) as [key|]; [|done]. cbn in Hkey. by exists key, pl, v.
  - right. apply tx_raise_if_bind in Hb as [_ Hb]. apply tx_lift_bind in Hb as (m' & Hm & Hb).
    rewrite tx_modify_bind in Hb. apply insert_row_Ok in Hm as (Hn & Hc & ->).
    apply tx_bind_Ok in Hb as (u & s1 & Hs1 & Hb). apply tx_bind_Ok in Hb as (r & s2 & [-> _]%select_plan_Ok & Hb).
    apply tx_ret_Ok in Hb as [-> ->].
    apply insert_steps_Ok in Hs1 as (E1 & E2 & E3 & E4 & E5 & E6); [|exact Hu]. cbn in *.
    split; [done|]. split; [done|]. split; [done|]. split; [done|]. split; [done|]. auto.
Qed.
Lemma plan_clash_false new old : plan_clash new old = false ->
  (parent_task_id new = parent_task_id old -> plan_active (row_state old) = false) /\
  (parent_task_id new = parent_task_id old -> user_subject new = user_subject old ->
   is_Some (idempotency_key new) -> idempotency_key new <> idempotency_key old).
Proof.
  unfold plan_clash, active_for. intros [Hk Ha]%orb_false_iff. split.
  - intros Ht. by rewrite Ht, String.eqb_refl in Ha.
  - intros Ht Hu [key Hkey] Heq. rewrite Hkey in Hk. unfold same_plan_key in Hk.
    rewrite Ht, Hu, !String.eqb_refl, <- Heq, Hkey in Hk. cbn in Hk.
    by rewrite bool_decide_eq_true_2 in Hk.
Qed.

(** The new plan's steps, seen from the invariant. *)
Lemma new_step_ok id current c now (m : gmap string step_row) : step_ok m current (new_step id c now).
Proof. constructor; cbn; [by left|done|done|by intros [? ?]]. Qed.

(** Steps that only belong to a new plan leave the other plans as they are. *)
Lemma plan_ok_grown id (m m' : gmap string step_row) p :
  (forall i r, m !! i = Some r -> m' !! i = Some r) ->
  (forall i r, m' !! i = Some r -> plan_id r = id -> m !! i = Some r) ->
  plan_ok m id p -> plan_ok m' id p.
Proof.
  intros Hold Hrows Hok. unfold plan_ok in *. destruct (plan_active (row_state p)).
  - destruct Hok as (Hf & Hcur & Hsteps). split; [done|]. split.
    + intros key Hk. destruct (Hcur key Hk) as (i & r & Hi & Hr). exists i, r. split; [by apply Hold|done].
    + intros i r Hi Hid. destruct (Hsteps i r (Hrows i r Hi Hid) Hid) as [H1 H2 H3 H4].
      constructor; try done. intros Hnq. destruct (H3 Hnq) as (deps & Hd & Hdone).
      exists deps. split; [done|]. eapply Forall_impl; [exact Hdone|].
      intros k (j & y & Hj & Hy). exists j, y. split; [by apply Hold|done].
  - destruct Hok as [Hf Hsteps]. split; [done|]. intros i r Hi Hid.
    exact (Hsteps i r (Hrows i r Hi Hid) Hid).
Qed.

(** A symmetric relation of no two plans, extended by a plan it relates to none. *)
Lemma distinct_insert (P : plan_row -> plan_row -> Prop) (t : gmap string plan_row) id row :
  (forall q1 q2, P q1 q2 -> P q2 q1) ->
  (forall id1 id2 q1 q2, t !! id1 = Some q1 -> t !! id2 = Some q2 -> P q1 q2 -> id1 = id2) ->
  (forall id' q, t !! id' = Some q -> ~ P row q) ->
  forall id1 id2 q1 q2, <[id := row]> t !! id1 = Some q1 -> <[id := row]> t !! id2 = Some q2 ->
    P q1 q2 -> id1 = id2.
Proof.
  intros Psym HP Hrow id1 id2 q1 q2.
  split_eq id1 id; [rewrite lookup_insert_eq; intros [= <-]|rewrite lookup_insert_ne by done; intros H1];
    (split_eq id2 id; [rewrite lookup_insert_eq; intros [= <-]|rewrite lookup_insert_ne by done; intros H2]);
    intros HPq; try done.
  - destruct (Hrow _ _ H2 HPq).
  - destruct (Hrow _ _ H1 (Psym _ _ HPq)).
  - eauto.
Qed.

Lemma Inv_create a (pr : prepared) now id fresh s x s' :
  valid_plan (a_compiled_plan a) -> Inv s -> create_body a pr now id fresh s = Ok (x, s') -> Inv s'.
Proof.
  intros Hvalid HI [[-> _]|(_ & Hn & Hc & Eplans & _ & Hu & Hold & Hnew & Hall)]%plan_body_Ok; [done| |apply HI].
  set (row := new_plan a pr id (last_revision (p_parent_task_id pr) (plans s) + 1)%Z now) in *.
  rewrite exists_where_false in Hc.
  assert (Hold' : forall i r, plan_steps s !! i = Some r -> plan_id r <> id).
  { intros i r Hi E. destruct (inv_rows _ HI _ _ Hi) as (_ & [q Hq] & _). congruence. }
  constructor.
  - exact Hu.
  - intros i r Hi. rewrite Eplans. destruct (Hnew i r Hi) as [Hin|(c & Hcin & ->)].
    + destruct (inv_rows _ HI _ _ Hin) as (H1 & Hq & deps & Hd & Hdeps). split; [done|]. split.
      * rewrite lookup_insert_ne; [done|]. by apply not_eq_sym, (Hold' i r).
      * exists deps. split; [done|]. intros dep Hdep. destruct (Hdeps dep Hdep) as (j & y & Hj & Hy).
        exists j, y. split; [by apply Hold|done].
    + destruct (Hvalid c Hcin) as (Ht & deps & Hd & Hdeps). split; [done|]. split.
      * exists row. cbn. by rewrite lookup_insert_eq.
      * exists deps. split; [by apply new_step_deps|]. intros dep Hdep.
        destruct (Hdeps dep Hdep) as (c' & Hc' & Hk & Ho). destruct (Hall c' Hc') as [j Hj].
        by exists j, (new_step id c' now).
  - intros id' q. rewrite Eplans. split_eq id' id.
    + rewrite lookup_insert_eq. intros [= <-]. split; [done|]. split; [done|]. intros i r Hi Hid.
      destruct (Hnew i r Hi) as [Hin|(c & _ & ->)]; [by destruct (Hold' i r Hin)|apply new_step_ok].
    + rewrite lookup_insert_ne by done. intros Hq. apply (plan_ok_grown id' (plan_steps s)); [exact Hold| |by apply HI].
      intros i r Hi Hid. destruct (Hnew i r Hi) as [Hin|(c & _ & ->)]; [done|]. cbn in Hid. congruence.
  - intros id1 id2 q1 q2 H1 H2 Ht A1 A2. rewrite Eplans in H1, H2.
    eapply (distinct_insert (fun q1 q2 => parent_task_id q1 = parent_task_id q2 /\
      plan_active (row_state q1) = true /\ plan_active (row_state q2) = true));
      [..|exact H1|exact H2|done]; [naive_solver|intros; eapply (inv_active _ HI); naive_solver|].
    intros i q Hq (E1 & _ & E3). destruct (plan_clash_false _ _ (Hc _ _ Hq)) as [Hx _].
    by rewrite (Hx E1) in E3.
  - intros id1 id2 q1 q2 H1 H2 Ht Hus Hs Hk. rewrite Eplans in H1, H2.
    eapply (distinct_insert (fun q1 q2 => parent_task_id q1 = parent_task_id q2 /\
      user_subject q1 = user_subject q2 /\ is_Some (idempotency_key q1) /\
      idempotency_key q1 = idempotency_key q2)); [..|exact H1|exact H2|done].
    + intros r1 r2 (E1 & E2 & E3 & E4). rewrite <- E4. auto.
    + intros i1 i2 r1 r2 R1 R2 (E1 & E2 & E3 & E4). by eapply (inv_keys _ HI).
    + intros i q Hq (E1 & E2 & E3 & E4). by apply (plan_clash_false _ _ (Hc _ _ Hq)).
  - intros id1 id2 q1 q2 H1 H2 Ht Hrev. rewrite Eplans in H1, H2.
    eapply (distinct_insert (fun q1 q2 => parent_task_id q1 = parent_task_id q2 /\ revision q1 = revision q2));
      [..|exact H1|exact H2|done].
    + intros r1 r2 [E1 E2]. auto.
    + intros i1 i2 r1 r2 R1 R2 [E1 E2]. by eapply (inv_revisions _ HI).
    + intros i q Hq [E1 E2]. pose proof (last_revision_bound _ _ _ _ Hq (eq_sym E1)) as Hle.
      cbn in Hle, E2. lia.
Qed.

(** ** Reachable stores *)

Lemma tp_Inv_step s s' : Inv s -> step s s' -> Inv s'.
Proof.
  intros HI Hs. destruct Hs; try (apply after_preserves; [intros x t E|exact HI]).
  - by eapply Inv_create.
  - by eapply Inv_begin.
  - unfold mark_step_waiting in E. apply Inv_update_step in E; [exact E|exact HI|done|by left].
  - unfold mark_step_succeeded in E. apply Inv_update_step in E; [exact E|exact HI|done|by right].
  - by eapply Inv_failed.
  - by eapply Inv_reset_session.
  - by eapply Inv_recover.
  - by eapply Inv_complete.
  - by eapply Inv_project.
  - by eapply Inv_cancel.
  - by eapply Inv_guard.
  - destruct HI. by constructor.
Qed.

Lemma tp_Inv_init s : initial s -> Inv s.
Proof.
  intros [Hp Hs]. constructor.
  1: unfold steps_unique.
  all: intros *; rewrite ?Hp, ?Hs, ?lookup_empty; intros; discriminate.
Qed.

(** C21. In every reachable store of task plans: a task has at most one active plan, and its plans
    have distinct revisions and idempotency keys; in an active plan at most one step is
    in progress, it is the one the plan is at, and every step that has begun had all its
    dependencies succeed first; a plan that succeeded or was canceled has no open step,
    and a failed one no queued step. *)
Theorem plans_invariant s : reachable initial step s -> Inv s.
Proof. intros Hr. exact (reachable_invariant initial step Inv tp_Inv_init tp_Inv_step s Hr). Qed.
(** ** What one transaction can change *)

Inductive change s s' : Prop :=
  | change_none : plans s' = plans s -> plan_steps s' = plan_steps s -> change s s'
  | change_effect id f g : effect_on id f g s s' -> local_to id (plan_steps s) g ->
      (forall p, the_plan (f p) = the_plan p) -> change s s'
  | change_project id p projection now : plans s !! id = Some p ->
      plans s' = <[id := plan_projected projection now p]> (plans s) ->
      plan_steps s' = plan_steps s -> change s s'
  | change_create id p : plans s !! id = None -> plans s' = <[id := p]> (plans s) ->
      (forall i r, plan_steps s !! i = Some r -> plan_steps s' !! i = Some r) ->
      (forall i r, plan_steps s' !! i = Some r -> plan_steps s !! i = Some r \/ plan_id r = id) ->
      change s s'.

Lemma change_refl s : change s s.
Proof. by apply change_none. Qed.

Lemma change_begin id user now s x s' : begin_next_step id user now s = Ok (x, s') -> change s s'.
Proof.
  intros [->|(p & i & r & deps & v & _ & Hp & _ & Hi & Hid & _ & _ & _ & He)]%begin_next_Ok;
    [apply change_refl|]. eapply change_effect; [exact He|by eapply at_step_local|done].
Qed.

Lemma change_update id user key st plan_st operation interaction input output terminal clear now s v s' :
  _update_step id user key st plan_st operation interaction input output terminal clear now s
    = Ok (v, s') -> change s s'.
Proof.
  intros [->|(i & r & Hi & Hid & _ & _ & He)]%update_step_Ok; [apply change_refl|].
  eapply change_effect; [exact He|by eapply at_step_local|done].
Qed.

Lemma failed_local id key (h h' : step_row -> step_row) (m : gmap string step_row) :
  (forall r, the_step (h r) = the_step r) -> (forall r, the_step (h' r) = the_step r) ->
  local_to id m (fun i r => at_steps (in_states id queued) h' i (at_steps (is_step id key) h i r)).
Proof.
  intros Hh Hh' i r Hi. unfold at_steps. destruct (is_step id key r) eqn:Hs.
  - apply is_step_spec in Hs as [Hid _]. destruct (in_states _ _ _);
      (split; [by rewrite ?Hh', ?Hh|]; intros Hne; by destruct (Hne Hid)).
  - destruct (in_states id queued r) eqn:Hq; [|done]. apply in_states_plan in Hq.
    split; [done|]. intros Hne. by destruct (Hne Hq).
Qed.

Lemma change_guard authorization user operation validate now s u s' :
  guard_authorization_consumption authorization user operation validate now s = Ok (u, s') -> change s s'.
Proof.
  intros [[_ ->]|(id & p & v & _ & _ & _ & _ & He)]%guard_Ok; [apply change_refl|].
  eapply change_effect; [exact He| |done]. unfold resumes.
  destruct (current_step_key p) as [key|]; [|done].
  apply at_steps_local; [|done]. by intros r [? _]%is_step_spec.
Qed.

Lemma step_change s s' : Inv s -> step s s' -> change s s'.
Proof.
  intros HI Hs.
  destruct Hs; try (apply (after_preserves (change s)); [intros x t E|apply change_refl]).
  - apply plan_body_Ok in E as [[-> _]|(_ & Hn & _ & Ep & _ & _ & Hold & Hnew & _)];
      [apply change_refl| |apply HI].
    eapply change_create; [exact Hn|exact Ep|exact Hold|].
    intros i r [Hi|(c & _ & ->)]%Hnew; [by left|by right].
  - by eapply change_begin.
  - by eapply change_update.
  - by eapply change_update.
  - apply mark_failed_Ok in E as [->|(st & plan_st & _ & He)]; [apply change_refl|].
    eapply change_effect; [exact He|by apply failed_local|done].
  - apply reset_session_Ok in E as [->|(i & r & Hi & Hid & _ & He)]; [apply change_refl|].
    eapply change_effect; [exact He|by eapply at_step_local|done].
  - apply recover_Ok in E as [->|(i & r & Hi & Hid & _ & _ & He)]; [apply change_refl|].
    eapply change_effect; [exact He|by eapply at_step_local|done].
  - apply complete_Ok in E as [->|(g & Hg & _ & He)]; [apply change_refl|].
    eapply change_effect; [exact He| |done].
    destruct Hg as [->| ->]; [done|]. apply at_steps_local; [apply in_states_plan|done].
  - apply project_Ok in E as (p & Hp & ->). by eapply change_project.
  - apply cancel_Ok in E as [->|[_ He]]; [apply change_refl|].
    eapply change_effect; [exact He| |done]. apply at_steps_local; [apply in_states_plan|done].
  - by eapply change_guard.
  - by apply change_none.
Qed.

(** A plan keeps its contract. *)
Lemma change_contract s s' id p : change s s' -> plans s !! id = Some p ->
  exists p', plans s' !! id = Some p' /\ the_plan p' = the_plan p.
Proof.
  intros [E _|id' f g (q & Hq & _ & E & _) _ Hf|id' q pj now Hq E _|id' q Hq E _ _] Hp; rewrite E.
  - by exists p.
  - split_eq id id'; [|rewrite lookup_insert_ne by done; by exists p].
    rewrite lookup_insert_eq. rewrite Hp in Hq. injection Hq as ->. eauto.
  - split_eq id id'; [|rewrite lookup_insert_ne by done; by exists p].
    rewrite lookup_insert_eq. rewrite Hp in Hq. injection Hq as ->. by eexists.
  - rewrite lookup_insert_ne by congruence. by exists p.
Qed.

Lemma steps_Inv s t : Inv s -> rtc step s t -> Inv t.
Proof. intros HI Hst. induction Hst as [|x y z Hxy _ IH]; [done|]. by eapply IH, tp_Inv_step. Qed.

Lemma plans_contract s t id p : Inv s -> rtc step s t -> plans s !! id = Some p ->
  exists p', plans t !! id = Some p' /\ the_plan p' = the_plan p.
Proof.
  intros HI Hst. revert p HI. induction Hst as [x|x y z Hxy _ IH]; intros p HI Hp; [by exists p|].
  destruct (change_contract x y id p (step_change x y HI Hxy) Hp) as (q & Hq & <-).
  apply IH; [by eapply tp_Inv_step|exact Hq].
Qed.

(** Everything about a plan but its projection and [updated_at]. *)
Definition same_outcome p p' : Prop :=
  the_plan p' = the_plan p /\ row_state p' = row_state p /\ current_step_key p' = current_step_key p /\
  terminal_reason p' = terminal_reason p /\ effect_outcome p' = effect_outcome p /\
  commit_operation_id p' = commit_operation_id p /\ finished_at p' = finished_at p.

Lemma change_terminal s s' id p : change s s' -> plans s !! id = Some p ->
  plan_active (row_state p) = false ->
  (exists p', plans s' !! id = Some p' /\ same_outcome p p') /\
  forall i r, plan_id r = id -> plan_steps s !! i = Some r <-> plan_steps s' !! i = Some r.
Proof.
  intros [E1 E2|id' f g (q & Hq & Ha & E & Es & _) Hg Hf|id' q pj now Hq E Es|id' q Hq E Hold Hnew] Hp Hn.
  - rewrite E1, E2. split; [by exists p|done].
  - split_eq id id'; [congruence|]. rewrite E, lookup_insert_ne by done. split; [by exists p|].
    intros i r Hid. rewrite Es. destruct (plan_steps s !! i) as [x|] eqn:Hx; [|done]. cbn.
    destruct (Hg i x Hx) as [Hc Hk]. split; intros [= <-].
    + by rewrite Hk by congruence.
    + rewrite Hc in Hid. by rewrite Hk by congruence.
  - rewrite E, Es. split; [|done]. split_eq id id'; [|rewrite lookup_insert_ne by done; by exists p].
    rewrite lookup_insert_eq. rewrite Hp in Hq. injection Hq as ->. by eexists.
  - rewrite E. rewrite lookup_insert_ne by congruence. split; [by exists p|]. intros i r Hid.
    split; [apply Hold|]. intros [Hi|Hr]%Hnew; [done|congruence].
Qed.

(** A terminal plan is final: whatever transactions follow, the plan keeps its state,
    its reason, its outcome and its commit marker, and its steps stay exactly as they are;
    only its result projection may still be set. *)
Theorem terminal_plan_final s t id p
  (Hs : reachable initial step s) (Hst : rtc step s t)
  (Hp : plans s !! id = Some p) (Hn : plan_active (row_state p) = false) :
  (exists p', plans t !! id = Some p' /\ same_outcome p p') /\
  forall i r, plan_id r = id -> plan_steps s !! i = Some r <-> plan_steps t !! i = Some r.
Proof.
  pose proof (reachable_invariant initial step Inv tp_Inv_init tp_Inv_step s Hs) as HI. clear Hs.
  revert p HI Hp Hn. induction Hst as [x|x y z Hxy _ IH]; intros p HI Hp Hn; [by split; [exists p|]|].
  destruct (change_terminal x y id p (step_change x y HI Hxy) Hp Hn) as [(q & Hq & Hpq) Hsteps].
  destruct Hpq as (E1 & E2 & E3 & E4 & E5 & E6 & E7).
  destruct (IH q (tp_Inv_step x y HI Hxy) Hq ltac:(by rewrite E2)) as [(p' & Hp' & Hqp) Hsteps'].
  split.
  - exists p'. split; [done|]. unfold same_outcome in *. destruct Hqp as (F1 & F2 & F3 & F4 & F5 & F6 & F7).
    by rewrite F1, F2, F3, F4, F5, F6, F7.
  - intros i r Hid. by rewrite Hsteps, Hsteps'.
Qed.
(** ** Progress *)

Lemma exists_min {A} (f : A -> Z) l x : In x l -> exists y, In y l /\ forall z, In z l -> (f y <= f z)%Z.
Proof.
  revert x. induction l as [|a l IH]; intros x; [done|]. intros _. destruct l as [|b l].
  - exists a. split; [by left|]. intros z [->|[]]. apply Z.le_refl.
  - destruct (IH b (or_introl eq_refl)) as (y & Hy & Hmin).
    destruct (Z.le_gt_cases (f a) (f y)).
    + exists a. split; [by left|]. intros z [->|Hz]; [apply Z.le_refl|]. etransitivity; [eassumption|auto].
    + exists y. split; [by right|]. intros z [->|Hz]; [lia|auto].
Qed.

Lemma key_done_dep id (m : gmap string step_row) dep :
  key_done m id dep -> dep_done (steps_of id m) (JStr dep) = true.
Proof.
  intros (j & x & Hj & Hid & Hk & Hs). apply existsb_exists. exists (j, x). cbn [snd].
  split; [by apply steps_of_In|]. by rewrite Hk, String.eqb_refl, bool_decide_eq_true_2.
Qed.

Lemma first_ready_total all rows :
  (forall i r, In (i, r) rows -> exists deps, deps_of r = Ok deps) ->
  exists found, first_ready all rows = Ok found /\
    (found = None -> forall i r deps, In (i, r) rows -> st_state r = SQueued -> deps_of r = Ok deps ->
       forallb (dep_done all) deps = false).
Proof.
  induction rows as [|[i r] rows IH]; intros Hd; [exists None; split; [done|by intros _ ? ? ? []]|].
  destruct IH as (found & Hf & Hn); [intros; eapply Hd; by right|].
  destruct (Hd i r (or_introl eq_refl)) as [deps Hdeps]. cbn [first_ready snd].
  destruct (bool_decide (st_state r = SQueued)) eqn:Hq.
  - rewrite Hdeps. change (pbind (Ok deps) ?k) with (k deps). cbv beta.
    destruct (forallb (dep_done all) deps) eqn:Hall; [by exists (Some (i, r))|].
    exists found. split; [exact Hf|]. intros -> j y ds [[= <- <-]|Hin] Hst Hds; [|by eapply Hn].
    rewrite Hdeps in Hds. by injection Hds as <-.
  - apply bool_decide_eq_false in Hq. exists found. split; [exact Hf|].
    intros -> j y ds [[= <- <-]|Hin] Hst Hds; [done|by eapply Hn].
Qed.

(** In an active plan where nothing is in progress, a queued step is ready unless all
    steps have succeeded. *)
Lemma ready_or_done s id p : Inv s -> plans s !! id = Some p -> plan_active (row_state p) = true ->
  (forall i r, plan_steps s !! i = Some r -> plan_id r = id -> in_progress (st_state r) = false) ->
  exists found, first_ready (steps_of id (plan_steps s)) (steps_of id (plan_steps s)) = Ok found /\
    (found = None -> forall i r, plan_steps s !! i = Some r -> plan_id r = id -> st_state r = SSucceeded).
Proof.
  intros HI Hp Ha Hidle. pose proof (inv_plans _ HI _ _ Hp) as Hok. unfold plan_ok in Hok.
  rewrite Ha in Hok. destruct Hok as (_ & _ & Hsteps). set (all := steps_of id (plan_steps s)).
  destruct (first_ready_total all all) as (found & Hf & Hn).
  { intros i r [Hi _]%steps_of_In. destruct (inv_rows _ HI _ _ Hi) as (_ & _ & deps & Hd & _). eauto. }
  exists found. split; [exact Hf|]. intros ->. specialize (Hn eq_refl).
  assert (Hstate : forall i r, plan_steps s !! i = Some r -> plan_id r = id ->
    st_state r = SQueued \/ st_state r = SSucceeded).
  { intros i r Hi Hid. destruct (ok_state _ _ _ (Hsteps i r Hi Hid)) as [?|[Hin|?]]; [by left| |by right].
    by rewrite (Hidle i r Hi Hid) in Hin. }
  intros i r Hi Hid. destruct (Hstate i r Hi Hid) as [Hq|]; [exfalso|done].
  set (open := List.filter (fun ir : string * step_row => queued (st_state (snd ir))) all).
  assert (Hopen : forall j x, In (j, x) open <-> plan_steps s !! j = Some x /\ plan_id x = id /\ st_state x = SQueued).
  { intros j x. unfold open. rewrite filter_In. unfold all. rewrite steps_of_In. cbn. unfold queued.
    rewrite bool_decide_eq_true. tauto. }
  destruct (exists_min (fun ir : string * step_row => ordinal (snd ir)) open (i, r)) as ([j x] & Hx & Hmin);
    [by apply Hopen|].
  apply Hopen in Hx as (Hj & Hxid & Hxq). destruct (inv_rows _ HI _ _ Hj) as (_ & _ & deps & Hd & Hdeps).
  assert (Hready : forallb (dep_done all) (map JStr deps) = true); [|by rewrite (Hn j x _ ltac:(by apply steps_of_In) Hxq Hd) in Hready].
  apply forallb_forall. intros d (dep & <- & Hdep)%in_map_iff.
  destruct (Hdeps dep Hdep) as (k & y & Hk & Hyid & Hyk & Hyo).
  apply key_done_dep. exists k, y. split; [done|]. split; [congruence|]. split; [done|].
  destruct (Hstate k y Hk ltac:(congruence)) as [Hyq|]; [exfalso|done].
  assert (Hin : In (k, y) open) by (apply Hopen; split; [done|]; split; [congruence|done]).
  specialize (Hmin _ Hin). cbn in Hmin. lia.
Qed.

(** The texts of the plan's steps can be read. *)
Definition readable s id : Prop := forall i r, plan_steps s !! i = Some r -> plan_id r = id ->
  exists bindings arguments, loads (binding_json r) = Ok bindings /\ loads (arguments_json r) = Ok arguments.

Lemma step_from_row_total s id i r : Inv s -> readable s id -> plan_steps s !! i = Some r ->
  plan_id r = id -> exists v, _step_from_row true (i, r) = Ok v /\ sv_row v = r.
Proof.
  intros HI Hread Hi Hid. destruct (Hread i r Hi Hid) as (bindings & arguments & Hb & Ha).
  destruct (inv_rows _ HI _ _ Hi) as (_ & _ & deps & Hd & _). unfold deps_of in Hd.
  apply result_bind_Ok in Hd as (v & Hv & _). unfold _step_from_row. rewrite Hv.
  cbn [_json]. rewrite Hb, Ha. by eexists.
Qed.
Lemma step_from_row_contract i r r' v : the_step r' = the_step r ->
  _step_from_row true (i, r) = Ok v ->
  exists v', _step_from_row true (i, r') = Ok v' /\ sv_step_id v' = i /\ sv_row v' = r'.
Proof.
  intros E. unfold _step_from_row. rewrite E. destruct (_json (Some (depends_on_json r))); [|done].
  destruct (_json (Some (binding_json r))); [|done]. destruct (_json (Some (arguments_json r))); [|done].
  intros _. by eexists.
Qed.

Lemma select_step_unique s id key i r : steps_unique (plan_steps s) -> plan_steps s !! i = Some r ->
  plan_id r = id -> step_key r = key -> _select_step id key s = Ok ((i, r), s).
Proof.
  intros Hu Hi Hid Hk. apply select_step_Ok. split; [done|].
  apply select_one_unique; [done|by apply is_step_spec|].
  intros j x Hj [Hx Hxk]%is_step_spec. apply (Hu _ _ _ _ Hj Hi); [congruence|left; congruence].
Qed.

Lemma current_step_runs s id p : Inv s -> plans s !! id = Some p -> plan_active (row_state p) = true ->
  (exists i r, current_step id p s = Ok (Some (i, r), s) /\ plan_steps s !! i = Some r /\
     plan_id r = id /\ in_progress (st_state r) = true) \/
  (current_step id p s = Ok (None, s) /\
   forall i r, plan_steps s !! i = Some r -> plan_id r = id -> in_progress (st_state r) = false).
Proof.
  intros HI Hp Ha. pose proof (inv_plans _ HI _ _ Hp) as Hok. unfold plan_ok in Hok. rewrite Ha in Hok.
  destruct Hok as (_ & Hcur & Hsteps). unfold current_step. destruct (current_step_key p) as [key|] eqn:Hkey.
  - left. destruct (Hcur key eq_refl) as (i & r & Hi & Hid & Hk & Hin). exists i, r.
    destruct (inv_rows _ HI _ _ Hi) as (Ht & _). rewrite <- Hk, Ht.
    split; [|done]. apply tx_bind_Ok. exists (i, r), s. split; [|done].
    apply select_step_unique; [apply HI|done..].
  - right. split; [done|]. intros i r Hi Hid. destruct (in_progress (st_state r)) eqn:Hin; [|done].
    by pose proof (ok_current _ _ _ (Hsteps i r Hi Hid) Hin).
Qed.

Lemma begin_queued_runs s id p now i r v : Inv s -> plans s !! id = Some p ->
  plan_steps s !! i = Some r -> plan_id r = id -> st_state r = SQueued ->
  _step_from_row true (i, r) = Ok v ->
  first_ready (steps_of id (plan_steps s)) (steps_of id (plan_steps s)) = Ok (Some (i, r)) ->
  exists v' t, begin_queued id now s = Ok (Some (v', true), t) /\ sv_step_id v' = i /\
    plan_steps t !! i = Some (step_begun now r).
Proof.
  intros HI Hp Hi Hid Hq Hv Hf.
  destruct (step_from_row_contract i r (step_begun now r) v eq_refl Hv) as (v' & Hv' & Hsid & _).
  set (s1 := set_steps (fst (update_key i (fun r => queued (st_state r)) (step_begun now) (plan_steps s))) s).
  set (t := set_plans (fst (update_key id (fun _ => true) (plan_running (Some (step_key r)) now) (plans s1))) s1).
  assert (Hg : forall j, plan_steps t !! j = at_step i (fun r => queued (st_state r)) (step_begun now) j <$> plan_steps s !! j)
    by (intros j; apply lookup_update_key).
  assert (Hti : plan_steps t !! i = Some (step_begun now r)).
  { rewrite Hg, Hi. cbn. unfold at_step, queued. by rewrite String.eqb_refl, Hq. }
  assert (Hu : steps_unique (plan_steps t)).
  { intros j k r1 r2 H1 H2. destruct (lookup_rewritten _ _ _ _ _ Hg H1) as (x1 & X1 & ->).
    destruct (lookup_rewritten _ _ _ _ _ Hg H2) as (x2 & X2 & ->).
    pose proof (at_step_local id i (fun r => queued (st_state r)) (step_begun now) _ r Hi Hid (fun _ => eq_refl)) as Hl.
    destruct (Hl j x1 X1) as [-> _], (Hl k x2 X2) as [-> _]. by apply (inv_unique _ HI). }
  exists v', t. split; [|done]. unfold begin_queued. rewrite tx_gets_bind. apply tx_lift_bind.
  exists (Some (i, r)). split; [exact Hf|]. unfold update_step, update_plan. rewrite !tx_modify_bind.
  apply tx_bind_Ok. exists (i, step_begun now r), t. split; [by apply select_step_unique|].
  apply tx_lift_bind. by exists v'.
Qed.

(** The owner's call, in any state that keeps the invariant *)
Lemma progress_runs s id p now (HI : Inv s) (Hp : plans s !! id = Some p)
  (Ha : plan_active (row_state p) = true) (Hread : readable s id) :
  exists x t, begin_next_step id (user_subject p) now s = Ok (x, t) /\
    match x with
    | Some (v, _) => exists r, plan_steps t !! sv_step_id v = Some r /\ in_progress (st_state r) = true
    | None => t = s /\ forall i r, plan_steps s !! i = Some r -> plan_id r = id -> st_state r = SSucceeded
    end.
Proof.
  assert (Hown : _select_owned_plan id (user_subject p) s = Ok (p, s)) by (by apply tp_select_owned_Ok).
  unfold begin_next_step. rewrite (tx_bind_run _ _ _ _ _ Hown), Ha. cbn [negb].
  destruct (current_step_runs s id p HI Hp Ha) as [(i & r & Hcur & Hi & Hid & Hin)|[Hcur Hidle]];
    rewrite (tx_bind_run _ _ _ _ _ Hcur).
  - destruct (step_from_row_total s id i r HI Hread Hi Hid) as (v & Hv & _).
    destruct (step_from_row_contract i r r v eq_refl Hv) as (v' & Hv' & Hsid & _).
    cbn [snd]. rewrite Hin. exists (Some (v', false)), s. split; [|exists r; by rewrite Hsid].
    apply tx_lift_bind. by exists v'.
  - destruct (ready_or_done s id p HI Hp Ha Hidle) as (found & Hf & Hdone). destruct found as [[i r]|].
    + pose proof (first_ready_Some _ _ _ _ Hf) as ([Hi Hid]%steps_of_In & Hq & _).
      destruct (step_from_row_total s id i r HI Hread Hi Hid) as (v & Hv & _).
      destruct (begin_queued_runs s id p now i r v HI Hp Hi Hid Hq Hv Hf) as (v' & t & E & Hsid & Ht).
      exists (Some (v', true)), t. split; [exact E|]. exists (step_begun now r). by rewrite Hsid.
    + exists None, s. split; [|split; [done|by apply Hdone]].
      unfold begin_queued. rewrite tx_gets_bind. apply tx_lift_bind. by exists None.
Qed.

(** A plan never gets stuck: as long as it is active, its owner's next call gives a step in
    progress, the one that already was or the next one whose dependencies have succeeded,
    unless every step has succeeded. *)
Theorem plan_progress s id p now (Hs : reachable initial step s) (Hp : plans s !! id = Some p)
  (Ha : plan_active (row_state p) = true) (Hread : readable s id) :
  exists x t, begin_next_step id (user_subject p) now s = Ok (x, t) /\
    match x with
    | Some (v, _) => exists r, plan_steps t !! sv_step_id v = Some r /\ in_progress (st_state r) = true
    | None => t = s /\ forall i r, plan_steps s !! i = Some r -> plan_id r = id -> st_state r = SSucceeded
    end.
Proof.
  apply progress_runs; [|done..]. exact (reachable_invariant initial step Inv tp_Inv_init tp_Inv_step s Hs).
Qed.

(** ** Creation, once *)

Lemma snapshot_id id p s v s' : _snapshot (id, p) s = Ok (v, s') -> pv_plan_id v = id /\ pv_row v = p.
Proof.
  unfold _snapshot. intros (pl & Hpl & H)%tx_lift_bind. rewrite tx_gets_bind in H.
  apply tx_lift_bind in H as (steps & _ & H). apply tx_ret_Ok in H as [-> _].
  unfold _plan_from_row in Hpl.
  repeat (apply result_bind_Ok in Hpl as (? & _ & Hpl)). injection Hpl as <-. done.
Qed.

Lemma tp_create_Ok a now id fresh reread s v reused s' : create a now id fresh reread s = (Ok (v, reused), s') ->
  exists pr, prepare a = Ok pr /\
    ((reused = true /\ create_body a pr now id fresh s = Ok (inl v, s')) \/
     (reused = false /\ exists new, create_body a pr now id fresh s = Ok (inr new, s') /\ pv_plan_id v = new)).
Proof.
  unfold create. destruct (prepare a) as [pr|]; [|done]. intros H. exists pr. split; [done|].
  unfold transaction in H. destruct (create_body a pr now id fresh s) as [[[w|new] s1]|]; [| |done].
  - injection H as -> <- ->. by left.
  - right. injection H as H ->. unfold transaction in H.
    destruct (refreshed new (reread s')) as [[w t]|] eqn:E; [|done]. injection H as <- <-.
    split; [done|]. exists new. split; [done|].
    apply tx_bind_Ok in E as (r & s1 & [-> _]%select_plan_Ok & E). by apply snapshot_id in E as [? _].
Qed.

Lemma select_by_key t user task key id p : Inv t -> plans t !! id = Some p ->
  user_subject p = user -> parent_task_id p = task -> idempotency_key p = Some key ->
  select_one (same_plan_key user task key) (plans t) = Some (id, p).
Proof.
  intros HI Hp <- <- Hk. apply select_one_unique; [done| |].
  - unfold same_plan_key. by rewrite !String.eqb_refl, Hk, bool_decide_eq_true_2.
  - intros id' p' Hp' Hm. unfold same_plan_key in Hm. apply andb_true_iff in Hm as [Hm Hk'%bool_decide_eq_true].
    apply andb_true_iff in Hm as [Hu%String.eqb_eq Ht%String.eqb_eq].
    apply (inv_keys _ HI _ _ _ _ Hp' Hp); [done|done|by rewrite Hk'|congruence].
Qed.

Lemma reuse_body a pr now id fresh t key pl : p_key pr = Some key ->
  select_one (same_plan_key (p_user_subject pr) (p_parent_task_id pr) key) (plans t) = Some pl ->
  create_body a pr now id fresh t =
    (raise_if (negb (String.eqb (plan_hash (snd pl)) (p_plan_hash pr))) TaskPlanConflict
       "plan idempotency key was reused with different content";;
     view ← _snapshot pl; mret (inl view)) t.
Proof.
  intros Hk Hsel. unfold create_body. rewrite Hk.
  unfold pbind at 1, mbind at 1, tx_bind at 1, gets at 1. cbn [mbind option_bind]. by rewrite Hsel.
Qed.

(** Idempotent creation: when a plan was created with a key, every later request of the same
    user for the same task with that key gives that plan and changes nothing if its content has
    the same digest, and is refused as a conflict otherwise. *)
Theorem plan_created_once a pr now id fresh reread s v s1 t a' pr' now' id' fresh' reread' key
  (Hs : reachable initial step s) (Hvalid : valid_plan (a_compiled_plan a))
  (Hcreate : create a now id fresh reread s = (Ok (v, false), s1)) (Hst : rtc step s1 t)
  (Hpr : prepare a = Ok pr) (Hpr' : prepare a' = Ok pr')
  (Hkey : p_key pr = Some key) (Hkey' : p_key pr' = Some key)
  (Huser : p_user_subject pr' = p_user_subject pr) (Htask : p_parent_task_id pr' = p_parent_task_id pr) :
  if base.decide (p_plan_hash pr' = p_plan_hash pr)
  then forall v' reused t', create a' now' id' fresh' reread' t = (Ok (v', reused), t') ->
         reused = true /\ t' = t /\ pv_plan_id v' = pv_plan_id v
  else create a' now' id' fresh' reread' t =
         (Raise (Exn TaskPlanConflict "plan idempotency key was reused with different content"), t).
Proof.
  pose proof (reachable_invariant initial step Inv tp_Inv_init tp_Inv_step s Hs) as HI.
  apply tp_create_Ok in Hcreate as (pr0 & Hpr0 & [[? _]|(_ & new & Hb & Hid)]); [done|].
  rewrite Hpr in Hpr0. injection Hpr0 as <-. pose proof (Inv_create _ _ _ _ _ _ _ _ Hvalid HI Hb) as HI1.
  apply plan_body_Ok in Hb as [(_ & ? & ? & ? & [=] & _)|([= ->] & _ & _ & Eplans & _)]; [|apply HI].
  destruct (plans_contract s1 t id (new_plan a pr id (last_revision (p_parent_task_id pr) (plans s) + 1)%Z now) HI1 Hst)
    as (p' & Hp' & Hc); [by rewrite Eplans, lookup_insert_eq|].
  assert (Hsel : select_one (same_plan_key (p_user_subject pr') (p_parent_task_id pr') key) (plans t) = Some (id, p')).
  { apply select_by_key; [by eapply steps_Inv|done|..]; rewrite Hc; cbn; congruence. }
  assert (Hbody : create_body a' pr' now' id' fresh' t =
    (raise_if (negb (String.eqb (plan_hash p') (p_plan_hash pr'))) TaskPlanConflict
       "plan idempotency key was reused with different content";;
     view ← _snapshot (id, p'); mret (inl view)) t).
  { exact (reuse_body a' pr' now' id' fresh' t key (id, p') Hkey' Hsel). }
  assert (Hhash : plan_hash p' = p_plan_hash pr) by (by rewrite Hc). rewrite Hhash in Hbody.
  destruct (base.decide (p_plan_hash pr' = p_plan_hash pr)) as [E|E].
  - intros v' reused t' Hc'. apply tp_create_Ok in Hc' as (pr1 & Hpr1 & Hcase).
    rewrite Hpr' in Hpr1. injection Hpr1 as <-. rewrite Hbody in Hcase.
    assert (Hrun : forall x u, (raise_if (negb (String.eqb (p_plan_hash pr) (p_plan_hash pr'))) TaskPlanConflict
       "plan idempotency key was reused with different content";;
       view ← _snapshot (id, p'); mret (inl view)) t = Ok (x : plan_view + string, u) ->
       u = t /\ exists w, x = inl w /\ pv_plan_id w = id).
    { intros x u H1. apply tx_raise_if_bind in H1 as [_ H1]. apply tx_bind_Ok in H1 as (w & u' & Hw & H1).
      apply tx_ret_Ok in H1 as [-> ->]. split; [by apply snapshot_state in Hw|].
      exists w. split; [done|]. by apply snapshot_id in Hw as [? _]. }
    destruct Hcase as [[-> Hr]|(_ & n & Hr & _)]; apply Hrun in Hr as (-> & w & Hw & Hwid); [|done].
    injection Hw as ->. split; [done|]. split; [done|]. congruence.
  - unfold create. rewrite Hpr'. unfold transaction. rewrite Hbody.
    rewrite (proj2 (String.eqb_neq _ _) (not_eq_sym E)). reflexivity.
Qed.
(** ** Round trip *)

Definition wf_step (c : compiled_step) : Prop :=
  wf_json (json_or (cs_depends_on c) (JArr [])) /\ wf_json (json_or (cs_arguments c) (JObj [])) /\
  wf_json (json_or (cs_bindings c) (JObj [])).

(** What creation leaves, in any state that keeps the invariant *)
Lemma stored_steps a pr now id fresh s s1
  (HI : Inv s) (Hvalid : valid_plan (a_compiled_plan a))
  (Hcreate : create_body a pr now id fresh s = Ok (inr id, s1))
  (Hwf : Forall wf_step (cp_steps (a_compiled_plan a))) :
  forall c, In c (cp_steps (a_compiled_plan a)) -> exists i v,
    plan_steps s1 !! i = Some (sv_row v) /\ plan_id (sv_row v) = id /\ step_key (sv_row v) = cs_step_key c /\
    _step_from_row true (i, sv_row v) = Ok v /\
    sv_depends_on v = json_or (cs_depends_on c) (JArr []) /\
    sv_arguments v = Some (canon (json_or (cs_arguments c) (JObj []))) /\
    sv_bindings v = canon (json_or (cs_bindings c) (JObj [])).
Proof.
  apply plan_body_Ok in Hcreate as [(_ & ? & ? & ? & [=] & _)|(_ & _ & _ & _ & _ & _ & _ & _ & Hall)];
    [|apply HI].
  intros c Hc. destruct (Hall c Hc) as [i Hi]. rewrite List.Forall_forall in Hwf.
  destruct (Hwf c Hc) as (W1 & W2 & W3). destruct (Hvalid c Hc) as (_ & deps & Hd & _).
  exists i, (StepView i (new_step id c now) (json_or (cs_depends_on c) (JArr []))
    (canon (json_or (cs_bindings c) (JObj []))) (Some (canon (json_or (cs_arguments c) (JObj []))))).
  split; [done|]. split; [done|]. split; [done|]. split; [|done].
  unfold _step_from_row, new_step. cbn [sv_row the_step depends_on_json binding_json arguments_json _json].
  unfold _canonical_json. rewrite !loads_dumps by assumption. by rewrite Hd, canon_strings.
Qed.

(** C22. What a new plan stores is what is read back: for every step of the compiled plan the
    store has a row of that plan and key, whose texts decode to the step's dependencies,
    arguments and bindings, with the keys of objects in order. *)
Theorem plan_reads_back a pr now id fresh s s1
  (Hs : reachable initial step s) (Hvalid : valid_plan (a_compiled_plan a))
  (Hcreate : create_body a pr now id fresh s = Ok (inr id, s1))
  (Hwf : Forall wf_step (cp_steps (a_compiled_plan a))) :
  forall c, In c (cp_steps (a_compiled_plan a)) -> exists i v,
    plan_steps s1 !! i = Some (sv_row v) /\ plan_id (sv_row v) = id /\ step_key (sv_row v) = cs_step_key c /\
    _step_from_row true (i, sv_row v) = Ok v /\
    sv_depends_on v = json_or (cs_depends_on c) (JArr []) /\
    sv_arguments v = Some (canon (json_or (cs_arguments c) (JObj []))) /\
    sv_bindings v = canon (json_or (cs_bindings c) (JObj [])).
Proof.
  apply (stored_steps a pr now id fresh s); [|done..].
  exact (reachable_invariant initial step Inv tp_Inv_init tp_Inv_step s Hs).
Qed.

End Create.

(** ** Concrete inputs

    The properties of the plan store, applied to a plan of two steps, the second of which
    depends on the first. *)

Module TaskPlanDemo.
#[local] Existing Instance ascii_tables.

Definition read_step : compiled_step := {|
  cs_step_key := "read"; cs_ordinal := 1%Z; cs_kind := "capability"; cs_title := JStr "Read";
  cs_capability_name := Some "oa.pending.list"; cs_transform_name := None; cs_version := JStr "1";
  cs_depends_on := JArr []; cs_arguments := JObj [("limit", JInt 5)]; cs_bindings := JObj [];
  cs_effect := "read"; cs_system_id := "oa" |}.

Definition draft_step : compiled_step := {|
  cs_step_key := "draft"; cs_ordinal := 2%Z; cs_kind := "transform"; cs_title := JNull;
  cs_capability_name := None; cs_transform_name := Some "merge"; cs_version := JStr "2";
  cs_depends_on := JArr [JStr "read"]; cs_arguments := JObj [];
  cs_bindings := JObj [("items", JStr "read")]; cs_effect := "none"; cs_system_id := "" |}.

Definition compiled : compiled_plan := {|
  cp_goal := JStr "Summarise"; cp_plan_hash := JStr "h1"; cp_steps := [read_step; draft_step];
  cp_risk_summary := JObj []; cp_proposal_schema_version := JNull;
  cp_temporal_context := JNull; cp_authority_snapshot := JNull |}.

Definition args : create_args := {|
  a_user_subject := "u1"; a_parent_task_id := "task"; a_compiled_plan := compiled;
  a_proposal_source := "agent_host"; a_coordinator_lease_version := None;
  a_idempotency_key := Some " k " |}.

Definition prepared_args : prepared := Prepared "u1" "task" "agent_host" "Summarise" "h1" (Some "k").

(** The same request with another plan. *)
Definition other_args : create_args := {|
  a_user_subject := "u1"; a_parent_task_id := "task"; a_proposal_source := "agent_host";
  a_compiled_plan := CompiledPlan (JStr "Summarise") (JStr "h2") [read_step] (JObj []) JNull JNull JNull;
  a_coordinator_lease_version := None; a_idempotency_key := Some "k" |}.

Definition fresh (n : nat) : string := match n with 0 => "s0" | 1 => "s1" | _ => "s2" end.

Definition s0 : store := MkStore ∅ ∅ ∅.
Definition s1 : store := after (create_body args prepared_args 5%Z "p" fresh) s0.
Definition s2 : store := after (begin_next_step "p" "u1" 6%Z) s1.
Definition s3 : store := after (mark_step_succeeded "p" "u1" "read" "op" None (Some "out") 7%Z) s2.
Definition s4 : store := after (cancel "p" "u1" "stopped" 8%Z) s3.

Lemma compiled_valid : valid_plan compiled.
Proof.
  intros st [<-|[<-|[]]]; (split; [reflexivity|]).
  - exists []. split; [reflexivity|]. intros dep [].
  - exists ["read"]. split; [reflexivity|]. intros dep [<-|[]]. exists read_step.
    split; [by left|]. split; reflexivity.
Qed.

Lemma tp_reachable_s1 : reachable initial step s1.
Proof.
  eapply reachable_step; [apply (reachable_init initial step s0); split; reflexivity|].
  apply (step_create s0 args prepared_args 5%Z "p" fresh compiled_valid).
  vm_compute. reflexivity.
Qed.

Lemma tp_reachable_s2 : reachable initial step s2.
Proof. eapply reachable_step; [exact tp_reachable_s1|apply step_begin]. Qed.

Lemma reachable_s4 : reachable initial step s4.
Proof.
  eapply reachable_step; [eapply reachable_step; [exact tp_reachable_s2|apply step_succeeded]|apply step_cancel].
Qed.

Lemma plans_invariant_witness : reachable initial step s4 /\ Inv s4.
Proof. split; [exact reachable_s4|]. exact (plans_invariant s4 reachable_s4). Defined.

(** Once canceled, the plan is not begun again. *)
Lemma terminal_plan_final_witness : exists p : plan_row,
  plans s4 !! "p" = Some p /\ row_state p = PCanceled /\
  exists p', plans (after (begin_next_step "p" "u1" 9%Z) s4) !! "p" = Some p' /\ same_outcome p p'.
Proof.
  destruct (plans s4 !! "p") as [p|] eqn:Hp; [|vm_compute in Hp; discriminate Hp].
  assert (Hst : row_state p = PCanceled) by (vm_compute in Hp; injection Hp as <-; reflexivity).
  exists p. split; [reflexivity|]. split; [exact Hst|].
  refine (proj1 (terminal_plan_final s4 _ "p" p reachable_s4 (rtc_once _ _ (step_begin _ "p" "u1" 9%Z)) Hp _)).
  rewrite Hst. reflexivity.
Defined.

(** The second step is only begun once the first has succeeded. *)
Lemma plan_progress_witness : exists (p : plan_row) x t, plans s3 !! "p" = Some p /\
  begin_next_step "p" (user_subject p) 9%Z s3 = Ok (x, t) /\
  option_map (fun v => step_key (sv_row (fst v))) x = Some "draft".
Proof.
  destruct (plans s3 !! "p") as [p|] eqn:Hp; [|vm_compute in Hp; discriminate Hp].
  destruct (plan_progress s3 "p" p 9%Z) as (x & t & E & _).
  - eapply reachable_step; [exact tp_reachable_s2|apply step_succeeded].
  - exact Hp.
  - vm_compute in Hp. injection Hp as <-. reflexivity.
  - assert (Hrows : forall i (r : step_row), plan_steps s3 !! i = Some r ->
      loads (binding_json r) = Ok (JObj []) /\ loads (arguments_json r) = Ok (JObj [("limit", JInt 5)])
      \/ loads (binding_json r) = Ok (JObj [("items", JStr "read")]) /\ loads (arguments_json r) = Ok (JObj [])).
    { intros i r Hi. apply elem_of_map_to_list, list_elem_of_In in Hi. vm_compute in Hi.
      destruct Hi as [Hi|[Hi|[]]]; injection Hi as <- <-;
        first [left; split; vm_compute; reflexivity | right; split; vm_compute; reflexivity]. }
    intros i r Hi _. destruct (Hrows i r Hi) as [[Hb Ha]|[Hb Ha]]; rewrite Hb, Ha; eexists _, _; split; reflexivity.
  - exists p, x, t. split; [reflexivity|]. split; [exact E|].
    vm_compute in Hp. injection Hp as <-. vm_compute in E. injection E as <- _. reflexivity.
Defined.

(** A retry finds the plan; another plan under the same key is refused. *)
Lemma plan_created_once_witness : exists v, fst (create args 5%Z "p" fresh id s0) = Ok (v, false) /\
  create other_args 9%Z "q" fresh id s2 =
    (Raise (Exn TaskPlanConflict "plan idempotency key was reused with different content"), s2).
Proof.
  destruct (create args 5%Z "p" fresh id s0) as [[[v reused]|e] t] eqn:E; [|vm_compute in E; discriminate E].
  assert (Hr : reused = false) by (vm_compute in E; injection E as _ <- _; reflexivity). rewrite Hr in E.
  assert (Ht : t = s1) by (vm_compute in E; injection E as _ <-; vm_compute; reflexivity). rewrite Ht in E.
  exists v. split; [rewrite Hr; reflexivity|].
  pose proof (plan_created_once args prepared_args 5%Z "p" fresh id s0 v s1 s2 other_args
    (Prepared "u1" "task" "agent_host" "Summarise" "h2" (Some "k")) 9%Z "q" fresh id "k"
    (reachable_init initial step s0 (conj eq_refl eq_refl)) compiled_valid E
    (rtc_once _ _ (step_begin _ "p" "u1" 6%Z)) ltac:(vm_compute; reflexivity) ltac:(vm_compute; reflexivity)
    eq_refl eq_refl eq_refl eq_refl) as H.
  exact H.
Defined.

Lemma plan_reads_back_witness : exists i v,
  plan_steps s1 !! i = Some (sv_row v) /\ step_key (sv_row v) = "draft" /\
  sv_depends_on v = JArr [JStr "read"] /\ sv_bindings v = JObj [("items", JStr "read")].
Proof.
  destruct (plan_reads_back args prepared_args 5%Z "p" fresh s0 s1
    (reachable_init initial step s0 (conj eq_refl eq_refl)) compiled_valid) with (c := draft_step)
    as (i & v & Hi & _ & Hk & _ & Hd & _ & Hb).
  - vm_compute. reflexivity.
  - apply List.Forall_forall. intros c [<-|[<-|[]]]; (split; [|split]); apply wf_jsonb_ok; reflexivity.
  - right. left. reflexivity.
  - exists i, v. split; [exact Hi|]. split; [exact Hk|]. split; [exact Hd|]. rewrite Hb. reflexivity.
Defined.

End TaskPlanDemo.
