(* ===== verification/ResourceBudget.v ===== *)
(** * Admission budgets (agentbridge/mcp/resource_budget.py)

    [Protocol]: connections of the HTTP server, their number and their timers.
    [Budget]: requests after authentication, counted per subject and in total.
    Both run on one event loop, so what happens between two awaits is one step. *)

From Stdlib Require Import Ascii.
From Stdlib.Strings Require Import Byte.
From S2P Require Import Prelude PyStr Json.

(** ** [BoundedMcpProtocol] *)

Module Protocol.

(** What [self.cycle] is: the object's identity and the two flags that are read. *)
Record cycle : Type := Cycle { cycle_id : nat; response_complete : bool; more_body : bool }.

Inductive phase_name : Type := header | body.

#[export] Instance phase_name_eq_dec : EqDecision phase_name.
Proof. solve_decision. Defined.

Definition header_seconds : Z := 10.
Definition body_seconds : Z := 60.
Definition write_stall_seconds : Z := 30.
Definition max_connections : Z := 128.
Definition max_peer_connections : Z := 64.

(** An instance of the class.  [client] is the peer's address; a phase names the cycle it
    belongs to; timers are named by their handles. *)
Record connection : Type := Connection {
  client : option string;
  _input_timer : option nat;
  _write_timer : option nat;
  _input_phase : option (phase_name * option nat);
  _admitted : bool;
}.

(** The set [self.connections] that the instances share, and the event loop: the timers that
    have neither fired nor been canceled with their delays, and the next handle. *)
Record server : Type := Server {
  connections : gmap nat connection;
  timers : gmap nat Z;
  next_handle : nat;
}.

(** [__init__] *)
Definition fresh_connection (peer : option string) : connection :=
  Connection peer None None None false.

(** [count] in [connection_made] *)
Definition peer_count (peer : option string) (cs : gmap nat connection) : Z :=
  match peer with
  | None => 0
  | Some host =>
      Z.of_nat (length (List.filter (fun ic => bool_decide (client (snd ic) = Some host)) (map_to_list cs)))
  end.

(** [if timer: timer.cancel()] *)
Definition cancel (timer : option nat) (t : gmap nat Z) : gmap nat Z :=
  match timer with Some h => delete h t | None => t end.

(** The phase [_track_input] computes, with its delay. *)
Definition input_phase (c : option cycle) : option (phase_name * option nat) * Z :=
  match c with
  | None => (Some (header, None), header_seconds)
  | Some cy =>
      if response_complete cy && negb (more_body cy)
      then (Some (header, Some (cycle_id cy)), header_seconds)
      else if more_body cy then (Some (body, Some (cycle_id cy)), body_seconds)
      else (None, 0%Z)
  end.

(** [c] is [self.cycle] at the call. *)
Definition _track_input (i : nat) (c : option cycle) (s : server) : server :=
  match connections s !! i with
  | None => s
  | Some conn =>
      let '(phase, seconds) := input_phase c in
      if bool_decide (phase = _input_phase conn) then s
      else
        let pending := cancel (_input_timer conn) (timers s) in
        let handle := next_handle s in
        let conn' timer :=
          Connection (client conn) timer (_write_timer conn) phase (_admitted conn) in
        match phase with
        | Some _ =>
            Server (<[i := conn' (Some handle)]> (connections s)) (<[handle := seconds]> pending)
              (S handle)
        | None => Server (<[i := conn' None]> (connections s)) pending handle
        end
  end.

Definition set_admitted (conn : connection) : connection :=
  Connection (client conn) (_input_timer conn) (_write_timer conn) (_input_phase conn) true.

(** The super method adds the new instance to the shared set. *)
Definition connection_made (i : nat) (peer : option string) (s : server) : server :=
  let conn := fresh_connection peer in
  let cs := <[i := conn]> (connections s) in
  if (max_connections <? Z.of_nat (size cs))%Z || (max_peer_connections <? peer_count peer cs)%Z
  then Server cs (timers s) (next_handle s)
  else _track_input i None (Server (<[i := set_admitted conn]> cs) (timers s) (next_handle s)).

(** [handle_events] (reached through [data_received]) and [on_response_complete]: the super
    method leaves the cycle [c]. *)
Definition handle_events (i : nat) (c : option cycle) (s : server) : server :=
  match connections s !! i with
  | Some conn => if _admitted conn then _track_input i c s else s
  | None => s
  end.

Definition pause_writing (i : nat) (s : server) : server :=
  match connections s !! i with
  | Some conn =>
      match _write_timer conn with
      | None =>
          let handle := next_handle s in
          Server (<[i := Connection (client conn) (_input_timer conn) (Some handle)
                           (_input_phase conn) (_admitted conn)]> (connections s))
            (<[handle := write_stall_seconds]> (timers s)) (S handle)
      | Some _ => s
      end
  | None => s
  end.

Definition resume_writing (i : nat) (s : server) : server :=
  match connections s !! i with
  | Some conn =>
      match _write_timer conn with
      | Some handle =>
          Server (<[i := Connection (client conn) (_input_timer conn) None (_input_phase conn)
                           (_admitted conn)]> (connections s))
            (delete handle (timers s)) (next_handle s)
      | None => s
      end
  | None => s
  end.

(** The super method takes the instance out of the shared set. *)
Definition connection_lost (i : nat) (s : server) : server :=
  match connections s !! i with
  | Some conn =>
      Server (delete i (connections s)) (cancel (_write_timer conn) (cancel (_input_timer conn) (timers s)))
        (next_handle s)
  | None => s
  end.

Inductive step (s : server) : server -> Prop :=
  | step_made i peer : connections s !! i = None -> step s (connection_made i peer s)
  | step_events i c : step s (handle_events i c s)
  | step_pause i : step s (pause_writing i s)
  | step_resume i : step s (resume_writing i s)
  | step_lost i : step s (connection_lost i s)
  | step_fire h : step s (Server (connections s) (delete h (timers s)) (next_handle s)).

Definition initial (s : server) : Prop := connections s = ∅ /\ timers s = ∅.

End Protocol.

(** ** [McpIdentityBudget] *)

Module Budget.

Definition bytes : Type := list byte.

Record limits : Type := Limits { per_subject : Z; total : Z; max_body_bytes : Z }.

(** [__init__] *)
Definition make (per_subject total max_body_bytes : Z) : result limits :=
  raise_if (Z.min (Z.min per_subject total) max_body_bytes <=? 0)%Z ValueError
    "MCP request budgets must be positive";;
  Ok (Limits per_subject total max_body_bytes).

(** [int(b)] of a header's value: white space around an optional sign and digits, with single
    underscores between them; at most 4300 digits. *)
Definition byte_space (a : ascii) : bool :=
  let n := byte_code a in ((9 <=? n) && (n <=? 13) || (n =? 32))%N.

Fixpoint int_digits (s : string) (acc : Z) (count : nat) (digit : bool) : option (Z * nat) :=
  match s with
  | EmptyString => if digit then Some (acc, count) else None
  | String a s' =>
      if is_digit a then int_digits s' (acc * 10 + Z.of_N (byte_code a - 48))%Z (S count) true
      else if Ascii.eqb a "_" && digit then int_digits s' acc count false
      else None
  end.

Fixpoint byte_strip_left (s : string) : string :=
  match s with String a s' => if byte_space a then byte_strip_left s' else s | _ => s end.
Fixpoint byte_strip_right (s : string) : string :=
  match s with
  | String a s' =>
      match byte_strip_right s' with
      | EmptyString => if byte_space a then "" else String a ""
      | t => String a t
      end
  | _ => s
  end.

Definition py_int (s : string) : result Z :=
  let invalid := raise ValueError ("invalid literal for int() with base 10") in
  let '(sign, digits) :=
    match byte_strip_right (byte_strip_left s) with
    | String a t =>
        if Ascii.eqb a "-" then ((-1)%Z, t) else if Ascii.eqb a "+" then (1%Z, t)
        else (1%Z, String a t)
    | EmptyString => (1%Z, "")
    end in
  match int_digits digits 0 0 false with
  | Some (n, count) =>
      if (4300 <? count)%nat then raise ValueError "Exceeds the limit (4300 digits)"
      else Ok (sign * n)%Z
  | None => invalid
  end.

(** What the call reads of [scope], of the access token and of the identity store: [identity]
    is the subject, or the exception of [resolve_client]. *)
Record request : Type := Request {
  scope_type : string;
  scope_path : option string;
  scope_method : option string;
  scope_headers : list (string * string);
  token : option string;
  identity : result string;
}.

(** An ASGI message; [more_body] and [body] with their defaults. *)
Inductive message : Type :=
  | http_disconnect
  | http_request (body : bytes) (more_body : bool).

(** Where an admitted call waits: for the body, for the 413 response to be sent, or for the
    application, whose [receive] still has the body to deliver or not. *)
Inductive phase : Type :=
  | Reading (body : bytes)
  | Refusing
  | Running (payload : option bytes).

(** What a call has done besides: answered, raised, or been handed to the application without
    admission. *)
Inductive outcome : Type :=
  | Passed
  | Answered (status : Z)
  | Accepted
  | Failed (e : exn).

(** The attributes [active] and [subjects], and the admitted calls that have not returned. *)
Record state : Type := State {
  active : Z;
  subjects : gmap string Z;
  calls : gmap nat (string * phase);
}.

(** [self.subjects.get(subject, 0)] *)
Definition count_of (subject : string) (st : state) : Z :=
  match subjects st !! subject with Some n => n | None => 0 end.

(** The [finally] clause, as the call [i] of [subject] returns. *)
Definition release (i : nat) (subject : string) (st : state) : result state :=
  match subjects st !! subject with
  | None => raise KeyError subject
  | Some n =>
      let count := (n - 1)%Z in
      Ok (State (active st - 1)
            (if (count =? 0)%Z then delete subject (subjects st)
             else <[subject := count]> (subjects st))
            (delete i (calls st)))
  end.

Definition set_phase (i : nat) (subject : string) (p : phase) (st : state) : state :=
  State (active st) (subjects st) (<[i := (subject, p)]> (calls st)).

(** [PermissionError] and [KeyError] of the identity store are answered with 401. *)
Definition invalid_token (e : exn) : bool :=
  match exn_class e with PermissionError | KeyError => true | _ => false end.

(** The headers' [content-length] says more than the limit. *)
Definition too_long (l : limits) (headers : list (string * string)) : result bool :=
  match List.filter (fun nv => String.eqb (fst nv) "content-length") headers with
  | [] => Ok false
  | (_, value) :: _ => n ← py_int value; Ok (max_body_bytes l <? n)%Z
  end.

(** From the answer of the identity store to the next await. *)
Definition arrive (l : limits) (i : nat) (r : request) (st : state) : result (outcome * state) :=
  if negb (String.eqb (scope_type r) "http") || negb (bool_decide (scope_path r = Some "/mcp"))
  then Ok (Passed, st)
  else match token r with
  | None => Ok (Passed, st)
  | Some _ =>
      match identity r with
      | Raise e => Ok (if invalid_token e then Answered 401 else Failed e, st)
      | Ok subject =>
          if (per_subject l <=? count_of subject st)%Z || (total l <=? active st)%Z
          then Ok (Answered 429, st)
          else
            let admitted p :=
              State (active st + 1) (<[subject := (count_of subject st + 1)%Z]> (subjects st))
                (<[i := (subject, p)]> (calls st)) in
            if bool_decide (scope_method r = Some "POST") then
              match too_long l (scope_headers r) with
              | Raise e => st' ← release i subject (admitted (Running None)); Ok (Failed e, st')
              | Ok true => Ok (Accepted, admitted Refusing)
              | Ok false => Ok (Accepted, admitted (Reading []))
              end
            else Ok (Accepted, admitted (Running None))
      end
  end.

(** One turn of the loop that reads the body. *)
Definition read_message (l : limits) (i : nat) (m : message) (st : state) : result state :=
  match calls st !! i with
  | Some (subject, Reading received) =>
      match m with
      | http_disconnect => release i subject st
      | http_request chunk more =>
          if (max_body_bytes l <? Z.of_nat (length received) + Z.of_nat (length chunk))%Z
          then Ok (set_phase i subject Refusing st)
          else
            let received := (received ++ chunk)%list in
            Ok (set_phase i subject
                  (if more then Reading received else Running (Some received)) st)
      end
  | _ => Ok st
  end.

(** The application calls the wrapped [receive]: the body first, then [upstream]. *)
Definition receive (i : nat) (upstream : message) (st : state) : message * state :=
  match calls st !! i with
  | Some (subject, Running (Some payload)) =>
      (http_request payload false, set_phase i subject (Running None) st)
  | _ => (upstream, st)
  end.

(** The awaited call returns, raises or is canceled, and so does ours. *)
Definition leave (i : nat) (st : state) : result state :=
  match calls st !! i with
  | Some (subject, _) => release i subject st
  | None => Ok st
  end.

Inductive step (l : limits) (st : state) : state -> Prop :=
  | step_arrive i r o st' : calls st !! i = None -> arrive l i r st = Ok (o, st') -> step l st st'
  | step_read i m st' : read_message l i m st = Ok st' -> step l st st'
  | step_receive i upstream : step l st (snd (receive i upstream st))
  | step_leave i st' : leave i st = Ok st' -> step l st st'.

Definition initial (st : state) : Prop := active st = 0%Z /\ subjects st = ∅ /\ calls st = ∅.

End Budget.
