(* ===== verification/ResourceBudgetFacts.v ===== *)
(** What the admission budgets guarantee: slots and bodies stay within their limits, slots
    are returned, a body is delivered whole and once, and connections stay within theirs
    without leaving timers behind. *)

From Stdlib.Strings Require Import Byte.
From S2P Require Import Prelude PyStr Json ResourceBudget.

Module BudgetFacts.
Import Budget.
#[local] Open Scope list_scope.

Implicit Types (l : limits) (st : state) (i : nat) (p : phase).

(** ** Counting calls *)

Definition of_subject (subject : string) (ic : nat * (string * phase)) : Prop := fst (snd ic) = subject.
#[local] Instance of_subject_dec subject ic : Decision (of_subject subject ic).
Proof. unfold of_subject. apply _. Defined.

Definition held (subject : string) (c : gmap nat (string * phase)) : Z :=
  Z.of_nat (size (filter (of_subject subject) c)).

Definition one (b : bool) : Z := if b then 1 else 0.

Lemma held_insert subject subject' i p (c : gmap nat (string * phase)) : c !! i = None ->
  held subject (<[i := (subject', p)]> c) = (held subject c + one (bool_decide (subject' = subject)))%Z.
Proof.
  intros Hi. unfold held. case_bool_decide as E; cbn [one].
  - rewrite map_filter_insert_True by done.
    rewrite map_size_insert_None by (apply map_lookup_filter_None_2; by left). lia.
  - rewrite map_filter_insert_False, delete_id by done. lia.
Qed.

Lemma held_delete subject subject' i p (c : gmap nat (string * phase)) : c !! i = Some (subject', p) ->
  held subject (delete i c) = (held subject c - one (bool_decide (subject' = subject)))%Z.
Proof.
  intros Hi. rewrite <- (insert_delete_id c i _ Hi) at 2.
  rewrite held_insert by apply lookup_delete_eq. lia.
Qed.

Lemma held_phase subject subject' i p p' (c : gmap nat (string * phase)) : c !! i = Some (subject', p) ->
  held subject (<[i := (subject', p')]> c) = held subject c.
Proof.
  intros Hi. rewrite <- insert_delete_eq, held_insert by apply lookup_delete_eq.
  rewrite (held_delete _ _ _ _ _ Hi). lia.
Qed.

Lemma held_nonneg subject c : (0 <= held subject c)%Z.
Proof. unfold held. lia. Qed.

Lemma held_pos subject i p (c : gmap nat (string * phase)) : c !! i = Some (subject, p) -> (0 < held subject c)%Z.
Proof.
  intros Hi. pose proof (held_delete subject _ _ _ _ Hi) as H. rewrite bool_decide_true in H by done.
  pose proof (held_nonneg subject (delete i c)). cbn [one] in H. lia.
Qed.

(** ** The invariant *)

Definition body_length (p : phase) : Z :=
  match p with
  | Reading b => Z.of_nat (length b)
  | Running (Some b) => Z.of_nat (length b)
  | _ => 0%Z
  end.

(** The bytes of bodies the server holds. *)
Definition held_bytes st : Z :=
  fold_right Z.add 0%Z (map (fun ic : nat * (string * phase) => body_length (snd (snd ic))) (map_to_list (calls st))).

Record Inv l st : Prop := {
  inv_active : active st = Z.of_nat (size (calls st));
  inv_total : (active st <= total l)%Z;
  inv_counts : forall subject, count_of subject st = held subject (calls st);
  inv_present : forall subject n, subjects st !! subject = Some n -> (0 < n <= per_subject l)%Z;
  inv_bodies : forall i subject p, calls st !! i = Some (subject, p) -> (body_length p <= max_body_bytes l)%Z;
}.

Definition positive l : Prop := (0 < per_subject l /\ 0 < total l /\ 0 < max_body_bytes l)%Z.

Lemma make_positive a b c l : make a b c = Ok l -> positive l /\ l = Limits a b c.
Proof.
  unfold make. intros H. apply result_bind_Ok in H as (u & Hu & [= <-]).
  apply result_raise_if_Ok in Hu. unfold positive. cbn. split; [lia|done].
Qed.

Lemma Inv_init l st : positive l -> initial st -> Inv l st.
Proof.
  intros (Ha & Hb & Hc) (E1 & E2 & E3). split.
  - by rewrite E1, E3.
  - lia.
  - intros subject. unfold count_of, held. by rewrite E2, E3, map_filter_empty.
  - intros subject n. by rewrite E2.
  - intros i subject p. by rewrite E3.
Qed.

Lemma count_of_insert subject subject' n a m c :
  count_of subject (State a (<[subject' := n]> m) c) =
  if bool_decide (subject' = subject) then n else match m !! subject with Some x => x | None => 0%Z end.
Proof.
  unfold count_of. cbn. case_bool_decide as E.
  - by rewrite E, lookup_insert_eq.
  - by rewrite lookup_insert_ne.
Qed.

(** The state after an admission *)
Definition admitted (i : nat) subject p st : state :=
  State (active st + 1) (<[subject := (count_of subject st + 1)%Z]> (subjects st))
    (<[i := (subject, p)]> (calls st)).

Lemma Inv_admitted l i subject p st : Inv l st -> calls st !! i = None ->
  (count_of subject st < per_subject l)%Z -> (active st < total l)%Z -> (body_length p <= max_body_bytes l)%Z ->
  Inv l (admitted i subject p st).
Proof.
  intros [H1 H2 H3 H4 H5] Hi Hs Ht Hp. split; cbn.
  - rewrite map_size_insert_None by done. lia.
  - lia.
  - intros x. unfold admitted. rewrite count_of_insert, held_insert by done. rewrite <- H3.
    unfold count_of at 2. case_bool_decide as E; [subst x|]; cbn [one]; [done|]. lia.
  - intros x n. destruct (base.decide (x = subject)) as [->|Hne].
    + rewrite lookup_insert_eq. intros [= <-]. rewrite H3 in *. pose proof (held_nonneg subject (calls st)). lia.
    + rewrite lookup_insert_ne by done. apply H4.
  - intros j x q. destruct (base.decide (j = i)) as [->|Hne].
    + rewrite lookup_insert_eq. by intros [= <- <-].
    + rewrite lookup_insert_ne by done. apply H5.
Qed.

Lemma release_Ok l i subject p st : Inv l st -> calls st !! i = Some (subject, p) ->
  exists st', release i subject st = Ok st' /\ active st' = (active st - 1)%Z /\
    calls st' = delete i (calls st) /\
    forall x, count_of x st' = (count_of x st - one (bool_decide (subject = x)))%Z.
Proof.
  intros [H1 H2 H3 H4 H5] Hi. unfold release. pose proof (held_pos _ _ _ _ Hi) as Hpos.
  rewrite <- H3 in Hpos. unfold count_of in Hpos.
  destruct (subjects st !! subject) as [n|] eqn:E; [|lia].
  eexists. split; [done|]. split; [done|]. split; [done|]. intros x. unfold count_of; cbn.
  destruct (n - 1 =? 0)%Z eqn:En; case_bool_decide as Ex; subst; cbn [one];
    rewrite ?lookup_delete_eq, ?lookup_insert_eq, ?E by done; try lia.
  - rewrite lookup_delete_ne by done. lia.
  - rewrite lookup_insert_ne by done. lia.
Qed.

Lemma Inv_release l i subject p st st' : Inv l st -> calls st !! i = Some (subject, p) ->
  release i subject st = Ok st' -> Inv l st'.
Proof.
  intros HI Hi Hr. destruct (release_Ok _ _ _ _ _ HI Hi) as (u & Hu & Ha & Hc & Hcount).
  rewrite Hr in Hu. injection Hu as <-. destruct HI as [H1 H2 H3 H4 H5]. split.
  - rewrite Ha, Hc, map_size_delete_Some by (by exists (subject, p)).
    assert (size (calls st) <> 0%nat) by (apply map_size_non_empty_iff; intros E; by rewrite E in Hi). lia.
  - lia.
  - intros x. rewrite Hcount, Hc, H3. by rewrite (held_delete x _ _ _ _ Hi).
  - intros x n. unfold release in Hr. destruct (subjects st !! subject) as [m|] eqn:E; [|done].
    injection Hr as <-. cbn. destruct (m - 1 =? 0)%Z eqn:Em.
    + intros Hx. apply lookup_delete_Some in Hx as [_ Hx]. by apply H4 in Hx.
    + intros Hx. apply lookup_insert_Some in Hx as [[-> <-]|[_ Hx]]; [|by apply H4 in Hx].
      apply H4 in E. lia.
  - intros j x q. rewrite Hc. intros Hj. apply lookup_delete_Some in Hj as [_ Hj]. by apply H5 in Hj.
Qed.

Lemma Inv_set_phase l i subject p p' st : Inv l st -> calls st !! i = Some (subject, p) ->
  (body_length p' <= max_body_bytes l)%Z -> Inv l (set_phase i subject p' st).
Proof.
  intros [H1 H2 H3 H4 H5] Hi Hp. unfold set_phase. split; cbn.
  - rewrite map_size_insert_Some; [done|by exists (subject, p)].
  - done.
  - intros x. rewrite (held_phase x _ _ _ _ _ Hi). apply H3.
  - done.
  - intros j x q Hj. apply lookup_insert_Some in Hj as [[_ [= <- <-]]|[_ Hj]]; [done|by apply H5 in Hj].
Qed.

Lemma arrive_Inv l i r o st st' : Inv l st -> positive l -> calls st !! i = None ->
  arrive l i r st = Ok (o, st') -> Inv l st'.
Proof.
  intros HI (_ & _ & Hmax) Hi. unfold arrive. destruct (negb _ || negb _); [by intros [= _ <-]|].
  destruct (token r); [|by intros [= _ <-]]. destruct (identity r) as [subject|e]; [|by intros [= _ <-]].
  destruct (per_subject l <=? count_of subject st)%Z eqn:Hs; [by intros [= _ <-]|].
  destruct (total l <=? active st)%Z eqn:Ht; [by intros [= _ <-]|]. cbn [orb].
  assert (Hadm : forall p, (body_length p <= max_body_bytes l)%Z -> Inv l (admitted i subject p st))
    by (intros p Hp; apply Inv_admitted; (done || lia)).
  destruct (bool_decide _); [|intros [= _ <-]; apply Hadm; cbn; lia].
  destruct (too_long l (scope_headers r)) as [[]|e].
  - intros [= _ <-]. apply Hadm. cbn. lia.
  - intros [= _ <-]. apply Hadm. cbn. lia.
  - intros H. apply result_bind_Ok in H as (u & Hu & [= _ <-]).
    eapply Inv_release; [apply (Hadm (Running None)); cbn; lia|apply lookup_insert_eq|exact Hu].
Qed.

Lemma read_message_Inv l i m st st' : positive l -> Inv l st -> read_message l i m st = Ok st' -> Inv l st'.
Proof.
  intros (_ & _ & Hmax) HI. unfold read_message.
  destruct (calls st !! i) as [[subject p]|] eqn:Hi; [|by intros [= <-]].
  destruct p as [b| |b]; try by intros [= <-].
  destruct m as [|chunk more]; [intros Hr; by eapply Inv_release|].
  destruct (max_body_bytes l <? _)%Z eqn:E; intros [= <-]; eapply Inv_set_phase; eauto; [cbn; lia|].
  destruct more; cbn; rewrite length_app; lia.
Qed.

Lemma budget_Inv_step l st st' : positive l -> Inv l st -> step l st st' -> Inv l st'.
Proof.
  intros Hl HI Hstep. destruct Hstep as [i r o u Hi Hu|i m u Hu|i up|i u Hu].
  - by eapply arrive_Inv.
  - by eapply read_message_Inv.
  - unfold receive. destruct (calls st !! i) as [[subject [|  |[b|]]]|] eqn:Hi; cbn; try done.
    eapply Inv_set_phase; [done|exact Hi|]. destruct Hl as (_ & _ & ?). cbn. lia.
  - unfold leave in Hu. destruct (calls st !! i) as [[subject p]|] eqn:Hi; [|by injection Hu as <-].
    by eapply Inv_release.
Qed.

Lemma held_bytes_bound l st : Inv l st -> (held_bytes st <= Z.of_nat (size (calls st)) * max_body_bytes l)%Z.
Proof.
  intros HI. unfold held_bytes. rewrite <- length_map_to_list.
  assert (Hall : Forall (fun ic => body_length (snd (snd ic)) <= max_body_bytes l)%Z (map_to_list (calls st))).
  { apply Forall_forall. intros [i [subject p]] Hin. apply elem_of_map_to_list in Hin.
    by apply (inv_bodies _ _ HI) in Hin. }
  induction Hall as [|ic rest Hic _ IH]; cbn [map fold_right length]; lia.
Qed.

Lemma no_calls_no_counts l st : Inv l st -> calls st = ∅ -> active st = 0%Z /\ subjects st = ∅.
Proof.
  intros HI E. split; [by rewrite (inv_active _ _ HI), E|]. apply map_empty. intros subject.
  destruct (subjects st !! subject) as [n|] eqn:Hn; [|done]. exfalso.
  pose proof (inv_counts _ _ HI subject) as Hc. unfold count_of, held in Hc.
  rewrite Hn, E, map_filter_empty, map_size_empty in Hc. apply (inv_present _ _ HI) in Hn. cbn in Hc. lia.
Qed.

(** C30. However requests arrive, read, run and leave: the counters count the calls in flight, each
    subject has at most [per_subject] of them and all together at most [total]; the bodies the
    server holds add up to at most [total * max_body_bytes]; and when no call is left, the
    counters are back where they started. *)
Theorem budget_bounds l a b c st (Hl : make a b c = Ok l) (Hst : reachable initial (step l) st) :
  active st = Z.of_nat (size (calls st)) /\ (active st <= b)%Z /\
  (forall subject, count_of subject st = held subject (calls st) /\ (held subject (calls st) <= a)%Z) /\
  (held_bytes st <= b * c)%Z /\
  (calls st = ∅ -> active st = 0%Z /\ subjects st = ∅).
Proof.
  apply make_positive in Hl as [Hl ->].
  pose proof (reachable_invariant initial (step _) (Inv (Limits a b c)) (fun s => Inv_init _ s Hl)
                (fun s t => budget_Inv_step _ s t Hl) st Hst) as HI.
  destruct Hl as (Ha & Hb & Hc). cbn in Ha, Hb, Hc.
  split; [apply (inv_active _ _ HI)|]. split; [apply (inv_total _ _ HI)|]. split; [|split].
  - intros subject. split; [apply (inv_counts _ _ HI)|]. rewrite <- (inv_counts _ _ HI). unfold count_of.
    destruct (subjects st !! subject) eqn:E; [|lia]. by apply (inv_present _ _ HI) in E as [_ ?].
  - pose proof (held_bytes_bound _ _ HI) as H. pose proof (inv_total _ _ HI) as Ht.
    rewrite (inv_active _ _ HI) in Ht. cbn in H, Ht. nia.
  - by apply no_calls_no_counts with (l := Limits a b c).
Qed.

(** ** Bodies *)

Definition more_of (chunk : bytes) : message := http_request chunk true.

(** The messages up to the last one, read one after the other. *)
Fixpoint read_all l i (ms : list message) st : result state :=
  match ms with
  | [] => Ok st
  | m :: rest => st' ← read_message l i m st; read_all l i rest st'
  end.

Lemma read_chunk l i subject received chunk more st : calls st !! i = Some (subject, Reading received) ->
  (Z.of_nat (length received) + Z.of_nat (length chunk) <= max_body_bytes l)%Z ->
  read_message l i (http_request chunk more) st =
  Ok (set_phase i subject (if more then Reading (received ++ chunk) else Running (Some (received ++ chunk)%list)) st).
Proof. intros Hi Hlen. unfold read_message. rewrite Hi. destruct (max_body_bytes l <? _)%Z eqn:E; [lia|done]. Qed.

Lemma set_phase_twice i subject p q st : set_phase i subject p (set_phase i subject q st) = set_phase i subject p st.
Proof. unfold set_phase. cbn. by rewrite insert_insert_eq. Qed.

Lemma read_all_Ok l i subject chunks : forall received st last,
  calls st !! i = Some (subject, Reading received) ->
  (Z.of_nat (length (received ++ concat chunks ++ last)) <= max_body_bytes l)%Z ->
  read_all l i (map more_of chunks ++ [http_request last false]) st =
  Ok (set_phase i subject (Running (Some (received ++ concat chunks ++ last)%list)) st).
Proof.
  induction chunks as [|chunk chunks IH]; intros received st last Hi Hlen.
  - cbn [map app read_all concat] in *. rewrite length_app in Hlen.
    rewrite (read_chunk _ _ _ _ _ _ _ Hi) by lia. done.
  - cbn [map app read_all concat] in *. unfold more_of at 1. rewrite <- !app_assoc in *. rewrite !length_app in Hlen.
    rewrite (read_chunk _ _ _ _ _ _ _ Hi) by lia.
    cbn [pbind mbind result_bind]. unfold pbind, mbind, result_bind.
    rewrite (IH (received ++ chunk)%list _ last); [by rewrite set_phase_twice, <- app_assoc| |].
    + unfold set_phase; cbn. apply lookup_insert_eq.
    + rewrite !length_app. lia.
Qed.

(** Whatever the chunks: too many bytes end in a refusal. *)
Lemma read_all_refused l i chunks : forall subject received st last,
  calls st !! i = Some (subject, Reading received) -> (Z.of_nat (length received) <= max_body_bytes l)%Z ->
  (max_body_bytes l < Z.of_nat (length (received ++ concat chunks ++ last)))%Z ->
  exists st', read_all l i (map more_of chunks ++ [http_request last false]) st = Ok st' /\
    calls st' !! i = Some (subject, Refusing).
Proof.
  assert (Hstay : forall ms st subject, calls st !! i = Some (subject, Refusing) -> read_all l i ms st = Ok st).
  { induction ms as [|m ms IH]; intros st subject Hi; [done|]. cbn [read_all]. unfold read_message at 1.
    rewrite Hi. unfold pbind, mbind, result_bind. by apply (IH st subject). }
  assert (Hover : forall subject received chunk more st rest, calls st !! i = Some (subject, Reading received) ->
    (max_body_bytes l < Z.of_nat (length received) + Z.of_nat (length chunk))%Z ->
    exists st', read_all l i (http_request chunk more :: rest) st = Ok st' /\ calls st' !! i = Some (subject, Refusing)).
  { intros subject received chunk more st rest Hi Hlen. cbn [read_all]. unfold read_message at 1. rewrite Hi.
    destruct (max_body_bytes l <? _)%Z eqn:E; [|lia]. unfold pbind, mbind, result_bind.
    exists (set_phase i subject Refusing st). split; [eapply Hstay|]; unfold set_phase; cbn; apply lookup_insert_eq. }
  induction chunks as [|chunk chunks IH]; intros subject received st last Hi Hshort Hlong.
  - cbn [map app concat] in *. rewrite length_app in Hlong. by eapply Hover; [exact Hi|lia].
  - cbn [map app concat] in *. unfold more_of at 1. rewrite !length_app in Hlong.
    destruct (max_body_bytes l <? Z.of_nat (length received) + Z.of_nat (length chunk))%Z eqn:E.
    { eapply Hover; [exact Hi|lia]. }
    cbn [read_all]. rewrite (read_chunk _ _ _ _ _ _ _ Hi) by lia. unfold pbind, mbind, result_bind.
    apply (IH subject (received ++ chunk)%list).
    + unfold set_phase; cbn. apply lookup_insert_eq.
    + rewrite length_app. lia.
    + rewrite !length_app. lia.
Qed.

(** The body of an admitted POST: if its chunks fit the limit together, the application receives
    exactly their concatenation, once, and afterwards what the server receives itself; if not,
    the application is not called. *)
Theorem body_delivered l i subject chunks last st
  (Hi : calls st !! i = Some (subject, Reading [])) (Hpos : (0 < max_body_bytes l)%Z) :
  exists st', read_all l i (map more_of chunks ++ [http_request last false]) st = Ok st' /\
  if (Z.of_nat (length (concat chunks ++ last)) <=? max_body_bytes l)%Z
  then forall upstream, exists st'', receive i upstream st' = (http_request (concat chunks ++ last) false, st'') /\
         receive i upstream st'' = (upstream, st'')
  else calls st' !! i = Some (subject, Refusing) /\ forall upstream, receive i upstream st' = (upstream, st').
Proof.
  destruct (Z.leb_spec (Z.of_nat (length (concat chunks ++ last))) (max_body_bytes l)) as [Hle|Hgt].
  - rewrite (read_all_Ok l i subject chunks [] st last Hi Hle). eexists. split; [done|]. intros upstream.
    unfold receive at 1. unfold set_phase at 1. cbn [calls]. rewrite lookup_insert_eq. eexists. split; [done|].
    unfold receive, set_phase. cbn [calls]. by rewrite lookup_insert_eq.
  - destruct (read_all_refused l i chunks subject [] st last Hi ltac:(cbn; lia) Hgt) as (st' & E & Hr).
    exists st'. split; [done|]. split; [done|]. intros upstream. unfold receive. by rewrite Hr.
Qed.

End BudgetFacts.

(** ** Connections *)

Module ProtocolFacts.
Import Protocol.

Implicit Types (s t : server) (conn : connection) (cs : gmap nat connection) (i h : nat).

Definition ids (p : connection -> bool) cs : list nat :=
  map fst (List.filter (fun ic : nat * connection => p (snd ic)) (map_to_list cs)).

Lemma ids_In p cs i : In i (ids p cs) <-> exists conn, cs !! i = Some conn /\ p conn = true.
Proof.
  unfold ids. rewrite in_map_iff. split.
  - intros ([j conn] & <- & Hin). apply filter_In in Hin as [Hin Hp]. exists conn. split; [|done].
    by apply list_elem_of_In, elem_of_map_to_list in Hin.
  - intros (conn & Hi & Hp). exists (i, conn). split; [done|]. apply filter_In. split; [|done].
    by apply list_elem_of_In, elem_of_map_to_list.
Qed.

Lemma filter_fst_NoDup {A} (q : nat * A -> bool) (l : list (nat * A)) :
  NoDup (map fst l) -> NoDup (map fst (List.filter q l)).
Proof.
  induction l as [|x l IH]; [done|]. cbn. intros [Hx Hl]%NoDup_cons. destruct (q x); [|by apply IH].
  cbn. apply NoDup_cons. split; [|by apply IH]. rewrite list_elem_of_In, in_map_iff in *.
  intros (y & Hy & Hin). apply Hx. exists y. split; [done|]. by apply filter_In in Hin as [? _].
Qed.

Lemma ids_le p q cs cs' : (forall i conn', cs' !! i = Some conn' -> q conn' = true ->
    exists conn, cs !! i = Some conn /\ p conn = true) ->
  (length (ids q cs') <= length (ids p cs))%nat.
Proof.
  intros Hsub. apply NoDup_incl_length.
  - apply NoDup_ListNoDup. apply filter_fst_NoDup. apply NoDup_fst_map_to_list.
  - intros i. rewrite !ids_In. intros (conn & Hi & Hq). eauto.
Qed.

Lemma ids_all cs : length (ids (fun _ => true) cs) = size cs.
Proof.
  unfold ids. rewrite length_map, <- length_map_to_list. f_equal.
  induction (map_to_list cs) as [|x l IH]; cbn; [done|]. by rewrite IH.
Qed.

(** The admitted connections, and those of one peer. *)
Definition from_peer (host : string) conn : bool := bool_decide (client conn = Some host).
Definition admitted_from (host : string) conn : bool := _admitted conn && from_peer host conn.

Lemma peer_count_ids host cs : peer_count (Some host) cs = Z.of_nat (length (ids (from_peer host) cs)).
Proof. unfold peer_count, ids. by rewrite length_map. Qed.

(** The timers a connection may have pending, with their delays. *)
Definition owns conn h (delay : Z) : Prop :=
  (_input_timer conn = Some h /\
     match _input_phase conn with
     | Some (header, _) => delay = header_seconds
     | Some (body, _) => delay = body_seconds
     | None => False
     end) \/
  (_write_timer conn = Some h /\ delay = write_stall_seconds).

Record Inv s : Prop := {
  inv_connections : (length (ids _admitted (connections s)) <= 128)%nat;
  inv_peers : forall host, (length (ids (admitted_from host) (connections s)) <= 64)%nat;
  inv_timers : forall h delay, timers s !! h = Some delay ->
    exists i conn, connections s !! i = Some conn /\ owns conn h delay;
}.

(** Steps that keep who is admitted, or lose connections. *)
Lemma Inv_shrink s s' :
  (forall i conn', connections s' !! i = Some conn' -> exists conn, connections s !! i = Some conn /\
     _admitted conn = _admitted conn' /\ client conn = client conn') ->
  (length (ids _admitted (connections s)) <= 128)%nat ->
  (forall host, (length (ids (admitted_from host) (connections s)) <= 64)%nat) ->
  (length (ids _admitted (connections s')) <= 128)%nat /\
  (forall host, (length (ids (admitted_from host) (connections s')) <= 64)%nat).
Proof.
  intros Hsub H1 H2. split; [|intros host]; (etrans; [|first [exact H1|exact (H2 host)]]); apply ids_le;
    intros i conn' Hi Hp; destruct (Hsub i conn' Hi) as (conn & Hi' & Ea & Ec); exists conn; (split; [done|]).
  - by rewrite Ea.
  - unfold admitted_from, from_peer in *. by rewrite Ea, Ec.
Qed.

Lemma input_phase_delay c phase delay : input_phase c = (Some phase, delay) ->
  match phase with (header, _) => delay = header_seconds | (body, _) => delay = body_seconds end.
Proof.
  destruct c as [cy|]; cbn.
  - destruct (response_complete cy && _); [by intros [= <- <-]|]. destruct (more_body cy); [by intros [= <- <-]|done].
  - by intros [= <- <-].
Qed.

Lemma cancel_lookup timer (m : gmap nat Z) h d : cancel timer m !! h = Some d -> m !! h = Some d /\ timer <> Some h.
Proof.
  destruct timer as [h'|]; cbn; [|done]. intros [Hne Hh]%lookup_delete_Some. split; [done|]. congruence.
Qed.

(** Changing one connection and the timers: every pending timer is still somebody's. *)
Lemma timers_update s i conn conn' m n :
  (forall h d, timers s !! h = Some d -> exists j c, connections s !! j = Some c /\ owns c h d) ->
  connections s !! i = Some conn ->
  (forall h d, m !! h = Some d -> owns conn' h d \/ (timers s !! h = Some d /\ (owns conn h d -> owns conn' h d))) ->
  let s' := Server (<[i := conn']> (connections s)) m n in
  forall h d, timers s' !! h = Some d -> exists j c, connections s' !! j = Some c /\ owns c h d.
Proof.
  intros Hall Hi Hm s' h d Hh. destruct (Hm h d Hh) as [Ho|[Ht Ho]].
  - exists i, conn'. split; [apply lookup_insert_eq|done].
  - destruct (Hall h d Ht) as (j & c & Hj & Hc). destruct (base.decide (j = i)) as [->|Hne].
    + exists i, conn'. split; [apply lookup_insert_eq|]. apply Ho. congruence.
    + exists j, c. split; [|done]. unfold s'. cbn. by rewrite lookup_insert_ne.
Qed.

Lemma update_contract s i conn conn' m n : connections s !! i = Some conn ->
  _admitted conn' = _admitted conn -> client conn' = client conn ->
  let s' := Server (<[i := conn']> (connections s)) m n in
  forall j c', connections s' !! j = Some c' -> exists c, connections s !! j = Some c /\
    _admitted c = _admitted c' /\ client c = client c'.
Proof.
  intros Hi Ha Hc s' j c' Hj. cbn in Hj; apply lookup_insert_Some in Hj as [[<- <-]|[_ Hj]]; eauto.
Qed.

Lemma Inv_update s i conn conn' m n : Inv s -> connections s !! i = Some conn ->
  _admitted conn' = _admitted conn -> client conn' = client conn ->
  (forall h d, m !! h = Some d -> owns conn' h d \/ (timers s !! h = Some d /\ (owns conn h d -> owns conn' h d))) ->
  Inv (Server (<[i := conn']> (connections s)) m n).
Proof.
  intros [H1 H2 H3] Hi Ha Hc Hm.
  destruct (Inv_shrink s _ (update_contract s i conn conn' m n Hi Ha Hc) H1 H2) as [K1 K2].
  split; [done|done|]. exact (timers_update s i conn conn' m n H3 Hi Hm).
Qed.

Lemma Inv_track i c s : Inv s -> Inv (_track_input i c s).
Proof.
  intros HI. unfold _track_input. destruct (connections s !! i) as [conn|] eqn:Hi; [|done].
  destruct (input_phase c) as [phase delay] eqn:Hp. case_bool_decide as E; [done|].
  destruct phase as [ph|]; eapply Inv_update; try done; intros h d Hh.
  - apply lookup_insert_Some in Hh as [[<- <-]|[_ Hh]].
    + left. left. split; [done|]. cbn. pose proof (input_phase_delay _ _ _ Hp) as Hd. by destruct ph as [[] ?].
    + apply cancel_lookup in Hh as [Hh Hne]. right. split; [done|]. intros [[? _]|?]; [done|by right].
  - apply cancel_lookup in Hh as [Hh Hne]. right. split; [done|]. intros [[? _]|?]; [done|by right].
Qed.

Lemma Inv_made i peer s : Inv s -> connections s !! i = None -> Inv (connection_made i peer s).
Proof.
  intros [H1 H2 H3] Hi. unfold connection_made. set (cs := <[i := fresh_connection peer]> (connections s)).
  assert (Htimers : forall conn n, let s' := Server (<[i := conn]> (connections s)) (timers s) n in
    forall h d, timers s' !! h = Some d -> exists j c, connections s' !! j = Some c /\ owns c h d).
  { intros conn n s' h d Hh. destruct (H3 h d Hh) as (j & c & Hj & Hc). exists j, c. split; [|done].
    unfold s'. cbn. rewrite lookup_insert_ne; [done|congruence]. }
  assert (Hrefused : Inv (Server cs (timers s) (next_handle s))).
  { split; [etrans; [|exact H1]|intros host; etrans; [|exact (H2 host)]|exact (Htimers _ _)]; apply ids_le;
      intros j c Hj Hc; unfold cs in Hj; cbn in Hj; apply lookup_insert_Some in Hj as [[_ <-]|[_ Hj]]; eauto; done. }
  destruct (max_connections <? _)%Z eqn:Ec; [done|]. destruct (max_peer_connections <? _)%Z eqn:Ep; [done|].
  cbn [orb]. apply Inv_track. unfold cs. rewrite insert_insert_eq.
  assert (Hsub : forall j c, <[i:=set_admitted (fresh_connection peer)]> (connections s) !! j = Some c ->
    exists c0, cs !! j = Some c0 /\ client c0 = client c).
  { intros j c Hj. apply lookup_insert_Some in Hj as [[<- <-]|[Hne Hj]].
    - exists (fresh_connection peer). split; [apply lookup_insert_eq|done].
    - exists c. split; [unfold cs; by rewrite lookup_insert_ne|done]. }
  split; cbn [connections]; [..|exact (Htimers _ _)].
  - unfold max_connections in Ec. assert (size cs <= 128)%nat by lia. etrans; [|eassumption].
    rewrite <- ids_all. apply ids_le. intros j c Hj _. destruct (Hsub j c Hj) as (c0 & ? & _). eauto.
  - intros host. destruct (base.decide (peer = Some host)) as [->|Hne].
    + rewrite peer_count_ids in Ep. unfold max_peer_connections in Ep.
      etrans; [apply (ids_le (from_peer host) _ cs)|lia]. intros j c Hj Hc.
      destruct (Hsub j c Hj) as (c0 & Hc0 & E). exists c0. split; [done|].
      unfold admitted_from, from_peer in *. rewrite E. by apply andb_true_iff in Hc as [_ ?].
    + etrans; [|exact (H2 host)]. apply ids_le. intros j c Hj Hc.
      apply lookup_insert_Some in Hj as [[_ <-]|[_ Hj]]; [|by eauto].
      unfold admitted_from, from_peer in Hc. cbn in Hc. by apply bool_decide_eq_true in Hc.
Qed.

Lemma Inv_delete i conn s n : Inv s -> connections s !! i = Some conn ->
  Inv (Server (delete i (connections s)) (cancel (_write_timer conn) (cancel (_input_timer conn) (timers s))) n).
Proof.
  intros [H1 H2 H3] Hi. split; cbn [connections timers].
  - etrans; [|exact H1]. apply ids_le. intros j c Hj Hc. apply lookup_delete_Some in Hj as [_ Hj]. eauto.
  - intros host. etrans; [|exact (H2 host)]. apply ids_le. intros j c Hj Hc.
    apply lookup_delete_Some in Hj as [_ Hj]. eauto.
  - intros h d Hh. apply cancel_lookup in Hh as [Hh Hw]. apply cancel_lookup in Hh as [Hh Hin].
    destruct (H3 h d Hh) as (j & c & Hj & Hc). exists j, c. split; [|done]. apply lookup_delete_Some.
    split; [|done]. intros ->. rewrite Hi in Hj. injection Hj as <-. by destruct Hc as [[? _]|[? _]].
Qed.

Lemma Inv_protocol_step s t : Inv s -> step s t -> Inv t.
Proof.
  intros HI Hstep. destruct Hstep as [i peer Hi|i c|i|i|i|h].
  - by apply Inv_made.
  - unfold handle_events. destruct (connections s !! i) as [conn|]; [|done].
    destruct (_admitted conn); [by apply Inv_track|done].
  - unfold pause_writing. destruct (connections s !! i) as [conn|] eqn:Hi; [|done].
    destruct (_write_timer conn) eqn:Hw; [done|]. eapply Inv_update; try done. intros h d Hh.
    apply lookup_insert_Some in Hh as [[<- <-]|[_ Hh]]; [by left; right|]. right. split; [done|].
    intros [[? ?]|[? _]]; [by left|congruence].
  - unfold resume_writing. destruct (connections s !! i) as [conn|] eqn:Hi; [|done].
    destruct (_write_timer conn) eqn:Hw; [|done]. eapply Inv_update; try done. intros h d Hh.
    apply lookup_delete_Some in Hh as [Hne Hh]. right. split; [done|].
    intros [[? ?]|[? _]]; [by left|congruence].
  - unfold connection_lost. destruct (connections s !! i) as [conn|] eqn:Hi; [|done]. by apply Inv_delete.
  - destruct HI as [H1 H2 H3]. split; [done|done|]. intros h' d Hh.
    cbn in Hh; apply lookup_delete_Some in Hh as [_ Hh]. by apply H3.
Qed.

Lemma Inv_protocol_init s : initial s -> Inv s.
Proof.
  intros [E1 E2]. assert (Hids : forall p, ids p (connections s) = []).
  { intros p. unfold ids. by rewrite E1, map_to_list_empty. }
  split; [rewrite Hids; cbn; lia|intros host; rewrite Hids; cbn; lia|intros h d; by rewrite E2].
Qed.

(** At most 128 connections are served at a time, and at most 64 of one peer; every pending timer
    is the input or the write timer of a connection that still exists, with the delay of the
    phase that connection is in. *)
Theorem connection_bounds s (Hs : reachable initial step s) :
  (length (ids _admitted (connections s)) <= 128)%nat /\
  (forall host, (length (ids (admitted_from host) (connections s)) <= 64)%nat) /\
  forall h delay, timers s !! h = Some delay ->
    exists i conn, connections s !! i = Some conn /\ owns conn h delay.
Proof.
  destruct (reachable_invariant initial step Inv Inv_protocol_init Inv_protocol_step s Hs) as [H1 H2 H3]. done.
Qed.

End ProtocolFacts.

(** ** Witnesses *)

Module BudgetDemo.
Import Budget BudgetFacts.

Definition small : limits := Limits 1 2 4.
Definition post (subject : string) : request :=
  Request "http" (Some "/mcp") (Some "POST") [("content-length", " 3 ")] (Some "client") (Ok subject).
Definition none_yet : state := State 0 ∅ ∅.
Definition one_call : state := State 1 {["u1" := 1%Z]} {[0%nat := ("u1", Reading [])]}.

Lemma reachable_one_call : reachable initial (step small) one_call.
Proof.
  eapply reachable_step; [apply (reachable_init initial (step small) none_yet); by repeat split|].
  eapply (step_arrive small none_yet 0 (post "u1") Accepted); vm_compute; reflexivity.
Qed.

Lemma budget_bounds_witness :
  held "u1" (calls one_call) = 1%Z /\ (held_bytes one_call <= 2 * 4)%Z /\
  exists st, arrive small 1 (post "u1") one_call = Ok (Answered 429, st).
Proof.
  destruct (budget_bounds small 1 2 4 one_call eq_refl reachable_one_call) as (_ & _ & Hc & Hb & _).
  split; [|split].
  - destruct (Hc "u1") as [<- _]. reflexivity.
  - exact Hb.
  - eexists. vm_compute. reflexivity.
Defined.

Lemma body_delivered_witness : exists st',
  read_all small 0 [http_request [x01; x02] true; http_request [x03] false] one_call = Ok st' /\
  fst (receive 0 http_disconnect st') = http_request [x01; x02; x03] false.
Proof.
  destruct (body_delivered small 0 "u1" [[x01; x02]] [x03] one_call eq_refl ltac:(cbn; lia)) as (st' & E & H).
  exists st'. split; [exact E|]. destruct (H http_disconnect) as (st'' & E' & _). rewrite E'. reflexivity.
Defined.
End BudgetDemo.

Module ProtocolDemo.
Import Protocol ProtocolFacts.

Definition empty_server : server := Server ∅ ∅ 0.
Definition paused : server := pause_writing 0 (connection_made 0 (Some "10.0.0.1") empty_server).

Lemma reachable_paused : reachable initial step paused.
Proof.
  eapply reachable_step; [eapply reachable_step; [apply reachable_init|apply step_made]|apply step_pause].
  - split; reflexivity.
  - reflexivity.
Qed.

Lemma connection_bounds_witness : (length (ids _admitted (connections paused)) <= 128)%nat /\
  timers paused !! 1%nat = Some write_stall_seconds /\
  exists i conn, connections paused !! i = Some conn /\ owns conn 1 write_stall_seconds.
Proof.
  destruct (connection_bounds paused reachable_paused) as (H1 & _ & H3).
  split; [exact H1|]. split; [reflexivity|]. exact (H3 1%nat write_stall_seconds eq_refl).
Defined.
End ProtocolDemo.
