(* ===== verification/InputValidation.v ===== *)
(** * Input validation (agentbridge/core/input_validation.py)

    The three profiles of the schema subset.  A schema is a JSON object as the
    source writes it; the accessors below read it on the shapes the profiles
    support ([well_shaped]): [properties] an object, [required] and [enum] lists,
    the former of strings, bounds numbers. *)

From S2P Require Import Prelude PyStr Json.

Inductive ValidationProfile : Type := CAPABILITY | PLAN | TRANSFORM.

#[export] Instance ValidationProfile_eq_dec : EqDecision ValidationProfile.
Proof. solve_decision. Defined.

Inductive issue_kind : Type :=
  | missing | unexpected | overlap | type_mismatch | not_in_enum
  | min_length | max_length | below_minimum | above_maximum.

Record SchemaIssue : Type := Issue {
  kind : issue_kind;
  path : string;
  expected : json;
  fields : list string;
}.

(** ** Reading a schema *)

Definition keys {A} (kvs : list (string * A)) : list string := map fst kvs.

(** [schema.get("properties") or {}] *)
Definition properties (schema : json) : list (string * json) :=
  match jget schema "properties" with Some (JObj kvs) => kvs | _ => [] end.

(** [properties.get(name)] when it is a dict *)
Definition definition (schema : json) (name : string) : option json :=
  match assoc name (properties schema) with Some (JObj kvs) => Some (JObj kvs) | _ => None end.

(** [schema["items"]] when it is a dict *)
Definition item_schema (schema : json) : option json :=
  match jget schema "items" with Some (JObj kvs) => Some (JObj kvs) | _ => None end.

(** [schema.get("required") or []] *)
Definition required (schema : json) : list string :=
  match jget schema "required" with
  | Some (JArr l) => omap (fun v => match v with JStr s => Some s | _ => None end) l
  | _ => []
  end.

(** [schema.get("additionalProperties") is False] *)
Definition closed (schema : json) : bool :=
  match jget schema "additionalProperties" with Some (JBool false) => true | _ => false end.

(** ** Types *)

(** [isinstance(value, mapping[expected])], a [bool] being no number here; an
    unknown name accepts everything. *)
Definition has_type (value : json) (expected : string) : bool :=
  if String.eqb expected "string" then match value with JStr _ => true | _ => false end
  else if String.eqb expected "object" then match value with JObj _ => true | _ => false end
  else if String.eqb expected "array" then match value with JArr _ => true | _ => false end
  else if String.eqb expected "boolean" then match value with JBool _ => true | _ => false end
  else if String.eqb expected "integer" then match value with JInt _ => true | _ => false end
  else if String.eqb expected "number"
  then match value with JInt _ | JFloat _ _ => true | _ => false end
  else if String.eqb expected "null" then match value with JNull => true | _ => false end
  else true.

Fixpoint matches_json_type (profile : ValidationProfile) (value expected : json) : bool :=
  match expected with
  | JArr candidates =>
      (fix any l := match l with
         | [] => false
         | item :: l' =>
             (if bool_decide (profile = CAPABILITY) && negb (is_str item) then false
              else matches_json_type profile value item) || any l'
         end) candidates
  | JStr name => has_type value name
  | _ => true
  end.

(** ** Objects *)

(** [sorted(set(l))] *)
Definition sorted_set (l : list string) : list string := sort_by str_leb (remove_dups l).

(** [sorted(set(l) - set(m))] *)
Definition minus (l m : list string) : list string :=
  sorted_set (List.filter (fun x => negb (str_in x m)) l).

Definition fields_issue (k : issue_kind) (path : string) (names : list string)
  : option SchemaIssue :=
  match names with [] => None | _ => Some (Issue k path JNull names) end.

(** [a or b] on the first issue *)
Definition first_issue (a b : option SchemaIssue) : option SchemaIssue :=
  match a with Some i => Some i | None => b end.

Definition object_fields_issue (profile : ValidationProfile) (value : list (string * json))
    (schema : json) (path : string) (bound : list string) : option SchemaIssue :=
  match profile with
  | PLAN =>
      first_issue
        (if closed schema
         then fields_issue unexpected path (minus (keys value ++ bound) (keys (properties schema)))
         else None)
        (first_issue
          (fields_issue missing path (minus (required schema) (keys value ++ bound)))
          (fields_issue overlap path
             (sorted_set (List.filter (fun x => str_in x bound) (keys value)))))
  | _ =>
      first_issue
        (fields_issue missing path
           (List.filter (fun name => negb (str_in name (keys value))) (required schema)))
        (if closed schema
         then fields_issue unexpected path (minus (keys value) (keys (properties schema)))
         else None)
  end.

(** ** Values *)

(** [int(v)] of a bound *)
Definition int_bound (v : json) : Z :=
  match v with
  | JInt z => z
  | JBool b => Z.b2z b
  | JFloat m e => if (e <? 0)%Z then Z.quot m (10 ^ (- e)) else (m * 10 ^ e)%Z
  | _ => 0%Z
  end.

(** [v < w] on numbers *)
Definition num_ltb (v w : json) : bool :=
  match num_value v, num_value w with
  | Some x, Some y => match dec_compare x y with Lt => true | _ => false end
  | _, _ => false
  end.

Definition is_number (v : json) : bool :=
  match v with JInt _ | JFloat _ _ => true | _ => false end.

Definition type_ok (profile : ValidationProfile) (value schema : json) : bool :=
  match jget schema "type" with
  | None | Some JNull => true
  | Some expected => matches_json_type profile value expected
  end.

Definition enum_ok (value schema : json) : bool :=
  match jget schema "enum" with Some (JArr l) => py_in value l | _ => true end.

(** The bounds only the [PLAN] profile checks. *)
Definition bounds_issue (value schema : json) (path : string) : option SchemaIssue :=
  match value with
  | JStr s =>
      if (py_len s <? match jget schema "minLength" with Some v => int_bound v | None => 0 end)%Z
      then Some (Issue min_length path JNull [])
      else match jget schema "maxLength" with
           | None | Some JNull => None
           | Some maximum =>
               if (int_bound maximum <? py_len s)%Z then Some (Issue max_length path JNull []) else None
           end
  | _ =>
      if is_number value then
        if match jget schema "minimum" with Some bound => num_ltb value bound | None => false end
        then Some (Issue below_minimum path JNull [])
        else if match jget schema "maximum" with Some bound => num_ltb bound value | None => false end
        then Some (Issue above_maximum path JNull [])
        else None
      else None
  end.

Fixpoint schema_value_issue (profile : ValidationProfile) (value schema : json) (path : string)
  {struct value} : option SchemaIssue :=
  if negb (type_ok profile value schema)
  then Some (Issue type_mismatch path (jget_or_null schema "type") [])
  else match profile with
  | CAPABILITY => None
  | PLAN =>
      if negb (enum_ok value schema) then Some (Issue not_in_enum path JNull [])
      else bounds_issue value schema path
  | TRANSFORM =>
      if negb (enum_ok value schema) then Some (Issue not_in_enum path JNull [])
      else match value with
      | JObj kvs =>
          first_issue (object_fields_issue profile kvs schema path [])
            ((fix members (l : list (string * json)) := match l with
                | [] => None
                | kv :: l' =>
                    first_issue
                      (match definition schema (fst kv) with
                       | Some d => schema_value_issue profile (snd kv) d (path +:+ "." +:+ fst kv)
                       | None => None
                       end) (members l')
                end) kvs)
      | JArr l =>
          match item_schema schema with
          | Some d =>
              (fix elements (index : nat) (l : list json) := match l with
                 | [] => None
                 | item :: l' =>
                     first_issue
                       (schema_value_issue profile item d
                          (path +:+ "[" +:+ str_of_nat index +:+ "]"))
                       (elements (S index) l')
                 end) 0%nat l
          | None => None
          end
      | _ => None
      end
  end.

Definition object_input_issue (profile : ValidationProfile) (value : list (string * json))
    (schema : json) (bound : list string) : option SchemaIssue :=
  first_issue (object_fields_issue profile value schema "" bound)
    ((fix members (l : list (string * json)) := match l with
        | [] => None
        | kv :: l' =>
            first_issue
              (match definition schema (fst kv) with
               | Some d => schema_value_issue profile (snd kv) d (fst kv)
               | None => None
               end) (members l')
        end) value).

(** ** Shapes *)

Definition shape_type (v : json) : bool :=
  match v with
  | JNull | JStr _ => true
  | JArr l => forallb is_str l
  | _ => false
  end.

(** The schemas the accessors above read as the source does. *)
Fixpoint well_shaped (schema : json) : bool :=
  match schema with
  | JObj kvs =>
      (fix go (l : list (string * json)) := match l with
         | [] => true
         | kv :: l' =>
             (if String.eqb (fst kv) "properties" then
                match snd kv with
                | JObj props =>
                    (fix all (l : list (string * json)) := match l with
                       | [] => true
                       | kv :: l' => well_shaped (snd kv) && all l'
                       end) props
                | _ => false
                end
              else if String.eqb (fst kv) "items" then well_shaped (snd kv)
              else if str_in (fst kv) ["required"; "enum"]
              then match snd kv with JArr l => forallb is_str l | _ => false end
              else if String.eqb (fst kv) "type" then shape_type (snd kv)
              else if str_in (fst kv) ["minLength"; "maxLength"; "minimum"; "maximum"]
              then is_number (snd kv)
              else true) && go l'
         end) kvs
  | _ => false
  end.
