(* ===== verification/InputValidationFacts.v ===== *)
(** * Input validation against declarative readings of the schema subset *)

From S2P Require Import Prelude PyStr Json JsonFacts InputValidation.

(** ** Lists of names *)

Lemma sorted_set_In x l : In x (sorted_set l) <-> In x l.
Proof.
  unfold sorted_set. rewrite <- !list_elem_of_In, sort_by_perm. apply elem_of_remove_dups.
Qed.

Lemma minus_In x l m : In x (minus l m) <-> In x l /\ ~ In x m.
Proof.
  unfold minus. rewrite sorted_set_In, filter_In, negb_true_iff, str_in_false. done.
Qed.

Lemma fields_issue_None k p names : fields_issue k p names = None <-> forall x, ~ In x names.
Proof.
  destruct names as [|y names]; cbn; split; try done; try tauto.
  intros H. destruct (H y). by left.
Qed.

Lemma first_issue_None a b : first_issue a b = None <-> a = None /\ b = None.
Proof. destruct a; cbn; naive_solver. Qed.

Lemma minus_None k p l m : fields_issue k p (minus l m) = None <-> forall x, In x l -> In x m.
Proof.
  rewrite fields_issue_None. setoid_rewrite minus_In. split.
  - intros H x Hx. destruct (str_in x m) eqn:E; [by apply str_in_spec|].
    destruct (H x). split; [done|]. by apply str_in_false.
  - intros H x [Hx Hm]. auto.
Qed.

Lemma missing_None k p l m :
  fields_issue k p (List.filter (fun name => negb (str_in name m)) l) = None <->
  forall x, In x l -> In x m.
Proof.
  rewrite fields_issue_None. split.
  - intros H x Hx. destruct (str_in x m) eqn:E; [by apply str_in_spec|].
    destruct (H x). apply filter_In. by rewrite E.
  - intros H x [Hx Hn]%filter_In. apply negb_true_iff, str_in_false in Hn. auto.
Qed.

(** ** The object envelope *)

(** [TRANSFORM] and [CAPABILITY]: the required names are there, and nothing else is
    when the schema is closed. *)
Definition fields_ok (kvs : list (string * json)) (schema : json) : Prop :=
  (forall name, In name (required schema) -> In name (keys kvs)) /\
  (closed schema = true -> forall name, In name (keys kvs) -> In name (keys (properties schema))).

(** [PLAN]: a field is given by a value or by a binding, never by both. *)
Definition bound_fields_ok (kvs : list (string * json)) (schema : json) (bound : list string) : Prop :=
  (forall name, In name (required schema) -> In name (keys kvs) \/ In name bound) /\
  (closed schema = true -> forall name, In name (keys kvs) \/ In name bound ->
     In name (keys (properties schema))) /\
  (forall name, In name (keys kvs) -> ~ In name bound).

Lemma object_fields_None profile kvs schema p :
  profile <> PLAN -> object_fields_issue profile kvs schema p [] = None <-> fields_ok kvs schema.
Proof.
  intros Hp. unfold fields_ok, object_fields_issue. destruct profile; try done;
    rewrite first_issue_None, missing_None;
    (destruct (closed schema); [rewrite minus_None|]; naive_solver).
Qed.

Lemma object_fields_plan_None kvs schema p bound :
  object_fields_issue PLAN kvs schema p bound = None <-> bound_fields_ok kvs schema bound.
Proof.
  unfold bound_fields_ok, object_fields_issue. rewrite !first_issue_None, minus_None.
  assert (Hover : fields_issue overlap p
      (sorted_set (List.filter (fun x => str_in x bound) (keys kvs))) = None <->
      forall name, In name (keys kvs) -> ~ In name bound).
  { rewrite fields_issue_None. setoid_rewrite sorted_set_In. setoid_rewrite filter_In.
    setoid_rewrite str_in_spec. naive_solver. }
  rewrite Hover. setoid_rewrite in_app_iff.
  destruct (closed schema).
  - rewrite minus_None. setoid_rewrite in_app_iff. naive_solver.
  - naive_solver.
Qed.

(** ** Values *)

(** [value] has the shape [schema] describes, all the way down. *)
Inductive conforms (value schema : json) : Prop := Conforms {
  conforms_type : type_ok TRANSFORM value schema = true;
  conforms_enum : enum_ok value schema = true;
  conforms_fields : forall kvs, value = JObj kvs -> fields_ok kvs schema;
  conforms_members : forall kvs name item d, value = JObj kvs -> In (name, item) kvs ->
    definition schema name = Some d -> conforms item d;
  conforms_items : forall l item d, value = JArr l -> In item l ->
    item_schema schema = Some d -> conforms item d;
}.

Lemma members_None profile schema (p : string -> string) (l : list (string * json)) :
  (fix members (l : list (string * json)) := match l with
     | [] => None
     | kv :: l' =>
         first_issue
           (match definition schema (fst kv) with
            | Some d => schema_value_issue profile (snd kv) d (p (fst kv))
            | None => None
            end) (members l')
     end) l = None <->
  forall name item d, In (name, item) l -> definition schema name = Some d ->
    schema_value_issue profile item d (p name) = None.
Proof.
  induction l as [|[name item] l IH]; [split; done|].
  rewrite first_issue_None, IH. cbn [fst snd]. split.
  - intros [H1 H2] n i d [[= <- <-]|Hin] Hd; [by rewrite Hd in H1|eauto].
  - intros H. split; [|intros; eapply H; [by right|done]].
    destruct (definition schema name) as [d|] eqn:E; [|done]. eapply H; [by left|done].
Qed.

Lemma elements_None profile d (p : nat -> string) (l : list json) n :
  (fix elements (index : nat) (l : list json) := match l with
     | [] => None
     | item :: l' =>
         first_issue (schema_value_issue profile item d (p index)) (elements (S index) l')
     end) n l = None <->
  forall index item, nth_error l index = Some item ->
    schema_value_issue profile item d (p (n + index)%nat) = None.
Proof.
  revert n. induction l as [|item l IH]; intros n.
  - split; [|done]. intros _ [|index] item; done.
  - rewrite first_issue_None, IH. split.
    + intros [H1 H2] [|index] i Hi.
      * injection Hi as <-. by rewrite Nat.add_0_r.
      * specialize (H2 index i Hi). by rewrite Nat.add_succ_r.
    + intros H. split.
      * specialize (H 0%nat item eq_refl). by rewrite Nat.add_0_r in H.
      * intros index i Hi. specialize (H (S index) i Hi). by rewrite Nat.add_succ_r in H.
Qed.

(** The [TRANSFORM] profile is exactly the recursive reading of its schema subset:
    no issue is reported, at whatever path, when and only when the value conforms:
    types and enumerations agree, required fields are present, closed objects have
    no other field, and every declared member and array element conforms in turn. *)
Theorem transform_profile_exact value schema p :
  schema_value_issue TRANSFORM value schema p = None <-> conforms value schema.
Proof.
  revert schema p. induction value as [|b|z|m e|s|l IH|kvs IH] using json_rect'; intros schema p;
    cbn [schema_value_issue].
  1-5: split; [destruct (type_ok _ _ _) eqn:Ht; cbn [negb]; [|done];
               destruct (enum_ok _ _) eqn:He; cbn [negb]; [|done];
               intros _; constructor; done
              |intros [Ht He _ _ _]; by rewrite Ht, He].
  - rewrite List.Forall_forall in IH.
    split; [destruct (type_ok _ _ _) eqn:Ht; cbn [negb]; [|done];
            destruct (enum_ok _ _) eqn:He; cbn [negb]; [|done]
           |intros [Ht He _ _ Hi]; rewrite Ht, He; cbn [negb]].
    + intros Hs. constructor; [exact Ht|exact He|discriminate|discriminate|].
      intros l' item d [= <-] Hin Hd. rewrite Hd in Hs.
      rewrite (elements_None TRANSFORM d (fun index => p +:+ "[" +:+ str_of_nat index +:+ "]")) in Hs.
      destruct (In_nth_error _ _ Hin) as [index Hnth].
      eapply IH; [exact Hin|]. eapply Hs, Hnth.
    + destruct (item_schema schema) as [d|] eqn:Hd; [|done].
      apply (elements_None TRANSFORM d (fun index => p +:+ "[" +:+ str_of_nat index +:+ "]")).
      intros index item Hnth. apply nth_error_In in Hnth. apply IH; [exact Hnth|].
      eapply Hi; [reflexivity|exact Hnth|reflexivity].
  - rewrite List.Forall_forall in IH.
    split; [destruct (type_ok _ _ _) eqn:Ht; cbn [negb]; [|done];
            destruct (enum_ok _ _) eqn:He; cbn [negb]; [|done]
           |intros [Ht He Hf Hm _]; rewrite Ht, He; cbn [negb]].
    + rewrite first_issue_None, object_fields_None by done. intros [Hf Hs].
      rewrite (members_None TRANSFORM schema (fun name => p +:+ "." +:+ name)) in Hs.
      constructor; [exact Ht|exact He|intros kvs' [= <-]; exact Hf| |discriminate].
      intros kvs' name item d [= <-] Hin Hd. eapply (IH (name, item)); [exact Hin|].
      eapply Hs; [exact Hin|exact Hd].
    + rewrite first_issue_None, object_fields_None by done. split; [by apply Hf|].
      apply (members_None TRANSFORM schema (fun name => p +:+ "." +:+ name)).
      intros name item d Hin Hd. apply (IH (name, item)); [exact Hin|].
      eapply Hm; [reflexivity|exact Hin|exact Hd].
Qed.

(** What the flat profiles ask of one value. *)
Definition value_ok (profile : ValidationProfile) (value schema : json) : Prop :=
  type_ok profile value schema = true /\
  (profile <> CAPABILITY -> enum_ok value schema = true) /\
  (profile = PLAN ->
    (forall s, value = JStr s ->
       (forall v, jget schema "minLength" = Some v -> (int_bound v <= py_len s)%Z) /\
       (forall v, jget schema "maxLength" = Some v -> v <> JNull -> (py_len s <= int_bound v)%Z)) /\
    (is_number value = true ->
       (forall v, jget schema "minimum" = Some v -> num_ltb value v = false) /\
       (forall v, jget schema "maximum" = Some v -> num_ltb v value = false))).

Lemma py_len_nonneg s : (0 <= py_len s)%Z.
Proof. unfold py_len. lia. Qed.

Lemma bound_absent_or (o : option json) (f : json -> bool) :
  match o with Some v => f v | None => false end = false <-> forall v, o = Some v -> f v = false.
Proof. destruct o; split; [by intros H ? [= <-]|auto|done|done]. Qed.

Lemma number_bounds_None value schema p : is_number value = true ->
  (if match jget schema "minimum" with Some bound => num_ltb value bound | None => false end
   then Some (Issue below_minimum p JNull [])
   else if match jget schema "maximum" with Some bound => num_ltb bound value | None => false end
   then Some (Issue above_maximum p JNull [])
   else None) = None <->
  (forall v, jget schema "minimum" = Some v -> num_ltb value v = false) /\
  (forall v, jget schema "maximum" = Some v -> num_ltb v value = false).
Proof.
  intros _. rewrite <- (bound_absent_or _ (num_ltb value)).
  rewrite <- (bound_absent_or _ (fun v => num_ltb v value)).
  destruct (match jget schema "minimum" with Some _ => _ | None => _ end); [split; [done|by intros [? _]]|].
  destruct (match jget schema "maximum" with Some _ => _ | None => _ end); [split; [done|by intros [_ ?]]|].
  done.
Qed.

Lemma bounds_issue_None value schema p : bounds_issue value schema p = None <->
  (forall s, value = JStr s ->
     (forall v, jget schema "minLength" = Some v -> (int_bound v <= py_len s)%Z) /\
     (forall v, jget schema "maxLength" = Some v -> v <> JNull -> (py_len s <= int_bound v)%Z)) /\
  (is_number value = true ->
     (forall v, jget schema "minimum" = Some v -> num_ltb value v = false) /\
     (forall v, jget schema "maximum" = Some v -> num_ltb v value = false)).
Proof.
  destruct value as [|b|z|m e|s|l|kvs]; cbn [bounds_issue is_number]; try (split; done).
  - rewrite number_bounds_None by done. split; [by intros H; split|intros [_ H]; auto].
  - rewrite number_bounds_None by done. split; [by intros H; split|intros [_ H]; auto].
  - pose proof (py_len_nonneg s). split.
    + intros Hb. split; [|done]. intros s' [= <-]. split; intros v Hv; rewrite Hv in Hb.
      * destruct (_ <? _)%Z eqn:E; [done|]. by apply Z.ltb_ge in E.
      * intros Hn. destruct (py_len s <? _)%Z; [done|].
        destruct v; try done; (destruct (_ <? py_len s)%Z eqn:E; [done|]; by apply Z.ltb_ge in E).
    + intros [Hb _]. destruct (Hb s eq_refl) as [H1 H2].
      assert (Hmin : (py_len s <? match jget schema "minLength" with
                                  | Some v => int_bound v | None => 0 end)%Z = false).
      { apply Z.ltb_ge. destruct (jget schema "minLength"); [auto|lia]. }
      rewrite Hmin. destruct (jget schema "maxLength") as [v|]; [|done].
      destruct v; try done;
        (match goal with |- context [(?a <? ?b)%Z] => assert ((a <? b)%Z = false) as -> end;
         [apply Z.ltb_ge, H2; done|done]).
Qed.

Lemma flat_value_None profile value schema p :
  profile <> TRANSFORM ->
  schema_value_issue profile value schema p = None <-> value_ok profile value schema.
Proof.
  intros Hp. unfold value_ok.
  assert (Hunfold : schema_value_issue profile value schema p =
    if negb (type_ok profile value schema)
    then Some (Issue type_mismatch p (jget_or_null schema "type") [])
    else match profile with
         | PLAN => if negb (enum_ok value schema) then Some (Issue not_in_enum p JNull [])
                   else bounds_issue value schema p
         | _ => None
         end) by (destruct value, profile; done).
  rewrite Hunfold. destruct (type_ok profile value schema); cbn [negb]; [|naive_solver].
  destruct profile; [naive_solver| |done].
  destruct (enum_ok value schema); cbn [negb]; [|naive_solver].
  rewrite bounds_issue_None. naive_solver.
Qed.

(** Validation of a capability's or plan step's input is exactly its declarative
    reading: with the [PLAN] profile each required field is given by a value or by a
    binding, none by both, and a closed schema admits no other; with [CAPABILITY]
    bindings do not count; and in both every declared member has the type (for
    [PLAN] also the enumeration and the bounds) its definition asks for. *)
Theorem object_input_exact profile value schema bound
  (Hprofile : profile = PLAN \/ (profile = CAPABILITY /\ bound = [])) :
  object_input_issue profile value schema bound = None <->
  (if bool_decide (profile = PLAN) then bound_fields_ok value schema bound
   else fields_ok value schema) /\
  forall name item d, In (name, item) value -> definition schema name = Some d ->
    value_ok profile item d.
Proof.
  unfold object_input_issue. rewrite first_issue_None.
  rewrite (members_None profile schema (fun name => name)).
  assert (Hmembers : (forall name item d, In (name, item) value -> definition schema name = Some d ->
      schema_value_issue profile item d name = None) <->
    (forall name item d, In (name, item) value -> definition schema name = Some d ->
      value_ok profile item d)).
  { assert (profile <> TRANSFORM) by (destruct Hprofile as [->|[-> _]]; done).
    split; intros Hm name item d Hin Hd; eapply flat_value_None; eauto. }
  rewrite Hmembers. destruct Hprofile as [->|[-> ->]].
  - by rewrite object_fields_plan_None.
  - by rewrite object_fields_None.
Qed.

Lemma object_input_exact_witness :
  object_input_issue PLAN [("days", JInt 2)]
    (JObj [("properties", JObj [("days", JObj [("type", JStr "integer"); ("minimum", JInt 1)]);
                                ("who", JObj [("type", JStr "string")])]);
           ("required", JArr [JStr "days"; JStr "who"]); ("additionalProperties", JBool false)])
    ["who"] = None /\
  bound_fields_ok [("days", JInt 2)]
    (JObj [("properties", JObj [("days", JObj [("type", JStr "integer"); ("minimum", JInt 1)]);
                                ("who", JObj [("type", JStr "string")])]);
           ("required", JArr [JStr "days"; JStr "who"]); ("additionalProperties", JBool false)])
    ["who"].
Proof.
  assert (H : object_input_issue PLAN [("days", JInt 2)]
    (JObj [("properties", JObj [("days", JObj [("type", JStr "integer"); ("minimum", JInt 1)]);
                                ("who", JObj [("type", JStr "string")])]);
           ("required", JArr [JStr "days"; JStr "who"]); ("additionalProperties", JBool false)])
    ["who"] = None) by reflexivity.
  split; [exact H|].
  exact (proj1 (proj1 (object_input_exact PLAN _ _ _ (or_introl eq_refl)) H)).
Defined.
