(* ===== verification/Transforms.v ===== *)
(** * Transforms (agentbridge/core/transforms.py)

    Deterministic functions a plan may run between capabilities: a registry that
    validates their input and output, and the three transforms over work items. *)

From Stdlib Require Import Ascii.
From S2P Require Import Prelude PyStr Json Sha256 InputValidation.

Definition rejected (code message : string) : exn := Exn (TransformRejected code) message.

(** ** Specifications *)

(** The functions of this file that a specification can name as its counter. *)
Inductive item_counter : Type := count_merged_source_items | count_bundle_items.

#[export] Instance item_counter_eq_dec : EqDecision item_counter.
Proof. solve_decision. Defined.

Record TransformSpec : Type := Spec {
  name : string;
  description : string;
  input_schema : json;
  output_schema : json;
  maximum_input_items : Z;
  maximum_output_chars : Z;
  halts_on_empty : bool;
  halts_on_incomplete : bool;
  result_projection : option string;
  required_bound_inputs : list string;
  input_item_counter : option item_counter;
}.

(** [spec == other], field by field *)
Definition spec_eqb (s t : TransformSpec) : bool :=
  String.eqb (name s) (name t) && String.eqb (description s) (description t)
  && py_eqb (input_schema s) (input_schema t) && py_eqb (output_schema s) (output_schema t)
  && (maximum_input_items s =? maximum_input_items t)%Z
  && (maximum_output_chars s =? maximum_output_chars t)%Z
  && Bool.eqb (halts_on_empty s) (halts_on_empty t)
  && Bool.eqb (halts_on_incomplete s) (halts_on_incomplete t)
  && bool_decide (result_projection s = result_projection t)
  && bool_decide (required_bound_inputs s = required_bound_inputs t)
  && bool_decide (input_item_counter s = input_item_counter t).

Definition version (s : TransformSpec) : string :=
  match rpartition ".v" (name s) with Some (_, v) => v | None => name s end.

Definition to_dict (s : TransformSpec) : json :=
  JObj [("name", JStr (name s)); ("version", JStr (version s));
        ("description", JStr (description s)); ("inputSchema", input_schema s);
        ("outputSchema", output_schema s); ("maximumInputItems", JInt (maximum_input_items s));
        ("maximumOutputChars", JInt (maximum_output_chars s));
        ("haltsOnEmpty", JBool (halts_on_empty s));
        ("haltsOnIncomplete", JBool (halts_on_incomplete s));
        ("resultProjection", match result_projection s with Some p => JStr p | None => JNull end);
        ("requiredBoundInputs", JArr (map JStr (required_bound_inputs s)));
        ("deterministic", JBool true); ("networkAccess", JBool false)].

(** ** Counting *)

Fixpoint _count_input_items (value : json) : Z :=
  match value with
  | JArr l =>
      Z.of_nat (length l) +
      (fix sum (l : list json) := match l with
         | [] => 0
         | item :: l' => _count_input_items item + sum l'
         end) l
  | JObj kvs =>
      (fix sum (l : list (string * json)) := match l with
         | [] => 0
         | kv :: l' => _count_input_items (snd kv) + sum l'
         end) kvs
  | _ => 0
  end%Z.

(** [value.get(key) or []], as a list *)
Definition list_or_empty (value : json) (key : string) : list json :=
  match jget value key with Some (JArr l) => l | _ => [] end.

Definition _count_merged_source_items (arguments : json) : Z :=
  fold_right Z.add 0%Z
    (map (fun source => Z.of_nat (length (list_or_empty source "items")))
       (List.filter is_dict (list_or_empty arguments "sources"))).

(** The lambda of [WORK_ITEMS_TO_LOG_DRAFT_V2]. *)
Definition _count_bundle_items (arguments : json) : Z :=
  Z.of_nat (length (list_or_empty (jget_or_null arguments "bundle") "items")).

Definition input_count (s : TransformSpec) (arguments : json) : Z :=
  match input_item_counter s with
  | Some count_merged_source_items => _count_merged_source_items arguments
  | Some count_bundle_items => _count_bundle_items arguments
  | None => _count_input_items arguments
  end.

(** ** Validation *)

Section Validation.
Context `{UnicodeTables}.

Definition _validate_schema_value (value schema : json) (path error_code : string) : result unit :=
  match schema_value_issue TRANSFORM value schema path with
  | None => Ok tt
  | Some issue =>
      let at_path := InputValidation.path issue in
      match kind issue with
      | type_mismatch =>
          Raise (rejected error_code (at_path +:+ " must be " +:+ py_str (expected issue)))
      | not_in_enum => Raise (rejected error_code (at_path +:+ " is outside the allowed values"))
      | missing =>
          Raise (rejected error_code
                   (at_path +:+ " is missing required fields: " +:+ py_join ", " (fields issue)))
      | unexpected =>
          Raise (rejected error_code
                   (at_path +:+ " has unexpected fields: " +:+ py_join ", " (fields issue)))
      | _ => raise KeyError "unknown issue kind"
      end
  end.

(** ** Registry *)

Record TransformRegistry : Type := Registry {
  _specs : gmap string TransformSpec;
  _handlers : gmap string (json -> result json);
}.

Definition empty_registry : TransformRegistry := Registry ∅ ∅.

Definition register (s : TransformSpec) (handler : json -> result json) (reg : TransformRegistry)
  : result TransformRegistry :=
  raise_if (match _specs reg !! name s with
            | Some other => negb (spec_eqb other s)
            | None => false
            end) ValueError ("transform already registered: " +:+ name s);;
  Ok (Registry (<[name s := s]> (_specs reg)) (<[name s := handler]> (_handlers reg))).

Definition get (n : string) (reg : TransformRegistry) : result TransformSpec :=
  match _specs reg !! n with
  | Some s => Ok s
  | None => raise KeyError ("unknown transform: " +:+ n)
  end.

(** [sorted(self._specs)] *)
Definition registered (reg : TransformRegistry) : list TransformSpec :=
  map snd (sort_by (fun x y => str_leb (fst x) (fst y)) (map_to_list (_specs reg))).

Definition get_handler (n : string) (reg : TransformRegistry) : result (json -> result json) :=
  match _handlers reg !! n with
  | Some handler => Ok handler
  | None => raise KeyError n
  end.

Definition invoke (n : string) (arguments : json) (reg : TransformRegistry) : result json :=
  s ← get n reg;
  raise_if (negb (is_dict arguments)) (TransformRejected "TRANSFORM_INPUT_INVALID")
    "transform input must be an object";;
  _validate_schema_value arguments (input_schema s) "input" "TRANSFORM_INPUT_INVALID";;
  raise_if (maximum_input_items s <? input_count s arguments)%Z
    (TransformRejected "TRANSFORM_INPUT_TOO_LARGE")
    ("transform accepts at most " +:+ str_of_Z (maximum_input_items s) +:+ " items");;
  handler ← get_handler n reg;
  output ← handler arguments;
  raise_if (negb (is_dict output)) (TransformRejected "TRANSFORM_OUTPUT_INVALID")
    "transform output must be an object";;
  _validate_schema_value output (output_schema s) "output" "TRANSFORM_OUTPUT_INVALID";;
  raise_if (match jget output "draft" with
            | Some (JStr draft) => (maximum_output_chars s <? py_len draft)%Z
            | _ => false
            end) (TransformRejected "TRANSFORM_OUTPUT_TOO_LARGE")
    ("transform output exceeds " +:+ str_of_Z (maximum_output_chars s) +:+ " characters");;
  Ok output.

(** ** Text *)

Definition _clean_text (value : json) (maximum : nat) : string :=
  py_take maximum (py_join " " (py_split (if json_truthy value then py_str value else ""))).

Definition automatic_markers : list string := ["自动发起"; "系统通知"; "自动触发"].

Definition _is_automatic_item (title category : string) : bool :=
  let text := str_casefold (title +:+ " " +:+ category) in
  existsb (fun marker => contains marker text) automatic_markers.

Definition newline : string := String "010"%char "".

(** [f"（{context}）" if context else ""], with the non-empty ones of category and date *)
Definition context_suffix (category date : string) : string :=
  let context := py_join "、" (List.filter truthy [category; date]) in
  if truthy context then "（" +:+ context +:+ "）" else "".

Definition draft_line (number : nat) (action title suffix : string) : string :=
  str_of_nat number +:+ ". " +:+ action +:+ "《" +:+ title +:+ "》" +:+ suffix +:+ "。".

Definition draft_limit : Z := 4000%Z.
End Validation.

(** ** Schemas *)

Definition string_type : json := JObj [("type", JStr "string")].
Definition integer_type : json := JObj [("type", JStr "integer")].
Definition boolean_type : json := JObj [("type", JStr "boolean")].
Definition array_of (items : json) : json := JObj [("type", JStr "array"); ("items", items)].
Definition object_of (properties : list (string * json)) (required : list string) : json :=
  JObj [("type", JStr "object"); ("properties", JObj properties);
        ("required", JArr (map JStr required))].
Definition closed_object_of (properties : list (string * json)) (required : list string) : json :=
  JObj [("type", JStr "object"); ("properties", JObj properties);
        ("required", JArr (map JStr required)); ("additionalProperties", JBool false)].

Definition WORK_ITEMS_TO_LOG_DRAFT_INPUT_SCHEMA : json :=
  closed_object_of
    [("items", array_of (object_of
        [("affair_id", string_type); ("title", string_type); ("date", string_type);
         ("category", string_type); ("status", string_type)] ["title"]))]
    ["items"].

Definition included_item_schema : json :=
  closed_object_of [("title", string_type); ("date", string_type); ("category", string_type)]
    ["title"; "date"; "category"].

Definition WORK_ITEMS_TO_LOG_DRAFT_OUTPUT_SCHEMA : json :=
  closed_object_of
    [("draft", string_type); ("empty", boolean_type); ("source_count", integer_type);
     ("included_count", integer_type); ("excluded_count", integer_type);
     ("excluded_automatic_count", integer_type); ("excluded_duplicate_count", integer_type);
     ("included_items", array_of included_item_schema)]
    ["draft"; "empty"; "source_count"; "included_count"; "excluded_count";
     "excluded_automatic_count"; "excluded_duplicate_count"; "included_items"].

Definition nullable (type : string) : json := JObj [("type", JArr [JStr type; JStr "null"])].

(** agentbridge/core/query_contracts.py *)
Definition HISTORY_QUERY_EVIDENCE_SCHEMA : list (string * json) :=
  [("serverFilterApplied", boolean_type); ("sourceQueryTotal", nullable "integer");
   ("sourceQueryPages", nullable "integer"); ("pagesFetched", integer_type);
   ("scanBudget", integer_type)].

Definition range_schema : json :=
  object_of [("start", nullable "string"); ("end", nullable "string")] ["start"; "end"].

Definition coverage_status_schema : json :=
  JObj [("type", JStr "string"); ("enum", JArr [JStr "complete"; JStr "partial"; JStr "unknown"])].

Definition _coverage_schema : json :=
  closed_object_of
    (HISTORY_QUERY_EVIDENCE_SCHEMA ++
     [("status", coverage_status_schema); ("queryApplied", boolean_type);
      ("dateBasis", string_type); ("requestedRange", range_schema);
      ("scannedCount", integer_type); ("matchedCount", integer_type); ("hasMore", boolean_type);
      ("completionReason", string_type); ("observedAt", string_type); ("queryHash", string_type)])
    ["status"; "queryApplied"; "dateBasis"; "requestedRange"; "scannedCount"; "matchedCount";
     "hasMore"; "completionReason"; "observedAt"; "queryHash"].

Definition _source_result_schema : json :=
  object_of
    [("collection", string_type); ("items", array_of (JObj [("type", JStr "object")]));
     ("coverage", _coverage_schema)]
    ["collection"; "items"; "coverage"].

Definition merged_keys : list string :=
  ["source_collection"; "source_affair_id"; "title"; "date"; "category"; "status"].

Definition _merged_item_schema : json :=
  closed_object_of (map (fun key => (key, string_type)) merged_keys) merged_keys.

Definition _source_summary_schema : json :=
  closed_object_of
    [("coverage", _coverage_schema); ("collection", string_type); ("status", string_type);
     ("scanned_count", integer_type); ("matched_count", integer_type);
     ("included_count", integer_type); ("query_hash", string_type)]
    ["collection"; "status"; "scanned_count"; "matched_count"; "included_count"; "query_hash"].

Definition _merge_work_items_input_schema : json :=
  closed_object_of [("sources", array_of _source_result_schema)] ["sources"].

Definition _merged_work_items_output_schema : json :=
  closed_object_of
    [("items", array_of _merged_item_schema); ("source_summaries", array_of _source_summary_schema);
     ("coverage", _coverage_schema); ("source_incomplete", boolean_type); ("empty", boolean_type);
     ("source_count", integer_type); ("item_count", integer_type); ("duplicate_count", integer_type)]
    ["items"; "source_summaries"; "coverage"; "empty"; "source_count"; "item_count";
     "duplicate_count"].

Definition _work_items_to_log_draft_v2_input_schema : json :=
  closed_object_of [("bundle", _merged_work_items_output_schema)] ["bundle"].

Definition _work_items_to_log_draft_v2_output_schema : json :=
  closed_object_of
    [("draft", string_type); ("empty", boolean_type); ("source_incomplete", boolean_type);
     ("source_count", integer_type); ("included_count", integer_type);
     ("excluded_count", integer_type); ("excluded_automatic_count", integer_type);
     ("excluded_duplicate_count", integer_type);
     ("source_summaries", array_of _source_summary_schema); ("coverage", _coverage_schema);
     ("included_items", array_of _merged_item_schema)]
    ["draft"; "empty"; "source_incomplete"; "source_count"; "included_count"; "excluded_count";
     "excluded_automatic_count"; "excluded_duplicate_count"; "source_summaries"; "coverage";
     "included_items"].

(** ** Handlers *)

Section Handlers.
Context `{UnicodeTables}.

(** *** [_work_items_to_log_draft] *)

Record item : Type := Item { i_title : string; i_date : string; i_category : string }.

(** The variables of the first loop. *)
Record scan : Type := Scan {
  included : list item;
  seen : list string;
  automatic_count : Z;
  duplicate_count : Z;
}.

Definition dedupe_key (affair_id title date : string) : string :=
  if truthy affair_id then affair_id else str_casefold title +:+ newline +:+ date.

Definition scan_item (st : scan) (raw : json) : scan :=
  if negb (is_dict raw) then st
  else
    let title := _clean_text (jget_or_null raw "title") 240 in
    if negb (truthy title) then st
    else
      let category := _clean_text (jget_or_null raw "category") 120 in
      let date := _clean_text (jget_or_null raw "date") 40 in
      if _is_automatic_item title category
      then Scan (included st) (seen st) (automatic_count st + 1) (duplicate_count st)
      else
        let affair_id := _clean_text (jget_or_null raw "affair_id") 256 in
        let key := dedupe_key affair_id title date in
        if str_in key (seen st)
        then Scan (included st) (seen st) (automatic_count st) (duplicate_count st + 1)
        else Scan (included st ++ [Item title date category]) (key :: seen st)
               (automatic_count st) (duplicate_count st).

(** The second loop: lines are added while the draft stays within its limit. *)
Fixpoint take_lines (lines : list string) (items : list item) : list string :=
  match items with
  | [] => lines
  | x :: rest =>
      let candidate := draft_line (S (length lines)) "处理" (i_title x)
                         (context_suffix (i_category x) (i_date x)) in
      if (draft_limit <? py_len (py_join newline (lines ++ [candidate])))%Z then lines
      else take_lines (lines ++ [candidate]) rest
  end.

Definition item_json (x : item) : json :=
  JObj [("title", JStr (i_title x)); ("date", JStr (i_date x)); ("category", JStr (i_category x))].

Definition _work_items_to_log_draft (arguments : json) : result json :=
  let source_items := list_or_empty arguments "items" in
  let st := fold_left scan_item source_items (Scan [] [] 0 0) in
  let lines := take_lines [] (included st) in
  let kept := firstn (length lines) (included st) in
  let draft := py_join newline lines in
  Ok (JObj
    [("draft", JStr draft);
     ("empty", JBool (negb (truthy draft)));
     ("source_count", JInt (Z.of_nat (length source_items)));
     ("included_count", JInt (Z.of_nat (length kept)));
     ("excluded_count", JInt (Z.max 0 (Z.of_nat (length source_items) - Z.of_nat (length kept))));
     ("excluded_automatic_count", JInt (automatic_count st));
     ("excluded_duplicate_count", JInt (duplicate_count st));
     ("included_items", JArr (map item_json kept))]).

(** *** [_merge_work_items] *)

(** [value[key]] *)
Definition jitem (value : json) (key : string) : result json :=
  match jget value key with
  | Some v => Ok v
  | None => raise KeyError key
  end.

Record merged_item : Type := MergedItem {
  m_collection : string;
  m_affair_id : string;
  m_title : string;
  m_date : string;
  m_category : string;
  m_status : string;
}.

Definition merged_json (x : merged_item) : json :=
  JObj [("source_collection", JStr (m_collection x)); ("source_affair_id", JStr (m_affair_id x));
        ("title", JStr (m_title x)); ("date", JStr (m_date x));
        ("category", JStr (m_category x)); ("status", JStr (m_status x))].

(** What the inner loop changes. *)
Record merge : Type := Merge {
  merged : list merged_item;
  merge_seen : list string;
  merge_duplicates : Z;
}.

Definition merge_item (collection : string) (st : merge) (raw : json) : merge :=
  let affair_id := _clean_text (jget_or_null raw "affair_id") 256 in
  let title := _clean_text (jget_or_null raw "title") 240 in
  if negb (truthy title) then st
  else
    let stable_key := if truthy affair_id then collection +:+ ":" +:+ affair_id else "" in
    if truthy stable_key && str_in stable_key (merge_seen st)
    then Merge (merged st) (merge_seen st) (merge_duplicates st + 1)
    else Merge
      (merged st ++ [MergedItem collection affair_id title
                       (_clean_text (jget_or_null raw "date") 40)
                       (_clean_text (jget_or_null raw "category") 120)
                       (_clean_text (jget_or_null raw "status") 120)])
      (if truthy stable_key then stable_key :: merge_seen st else merge_seen st)
      (merge_duplicates st).

(** What the outer loop reads of one source. *)
Record source_facts : Type := SourceFacts {
  f_collection : string;
  f_coverage : json;
  f_status : string;
  f_scanned : Z;
  f_matched : Z;
  f_query_hash : string;
  f_requested_range : json;
  f_date_basis : string;
}.

Definition read_source (source : json) : result source_facts :=
  coverage ← jitem source "coverage";
  status ← jitem coverage "status";
  scanned ← jitem coverage "scannedCount";
  matched ← jitem coverage "matchedCount";
  query_hash ← jitem coverage "queryHash";
  requested_range ← jitem coverage "requestedRange";
  date_basis ← jitem coverage "dateBasis";
  Ok {| f_collection := _clean_text (jget_or_null source "collection") 80;
        f_coverage := coverage; f_status := py_str status; f_scanned := int_bound scanned;
        f_matched := int_bound matched; f_query_hash := py_str query_hash;
        f_requested_range := requested_range; f_date_basis := py_str date_basis |}.

Definition summary_json (f : source_facts) (count : Z) : json :=
  JObj [("collection", JStr (f_collection f)); ("status", JStr (f_status f));
        ("scanned_count", JInt (f_scanned f)); ("matched_count", JInt (f_matched f));
        ("included_count", JInt count); ("query_hash", JStr (f_query_hash f));
        ("coverage", f_coverage f)].

(** The outer loop, giving the facts of each source and its summary. *)
Fixpoint merge_sources (st : merge) (sources : list json)
  : result (merge * list source_facts * list json) :=
  match sources with
  | [] => Ok (st, [], [])
  | source :: rest =>
      f ← read_source source;
      let st' := fold_left (merge_item (f_collection f)) (list_or_empty source "items") st in
      let count := (Z.of_nat (length (merged st')) - Z.of_nat (length (merged st)))%Z in
      '(final, facts, summaries) ← merge_sources st' rest;
      Ok (final, f :: facts, summary_json f count :: summaries)
  end.

Definition aggregate_status (statuses : list string) : string :=
  if negb (bool_decide (statuses = [])) && forallb (fun s => String.eqb s "complete") statuses
  then "complete"
  else if existsb (fun s => String.eqb s "partial") statuses then "partial"
  else "unknown".

Definition same_range (ranges : list json) : json :=
  match ranges with
  | first :: _ =>
      if forallb (fun value => py_eqb value first) ranges then first
      else JObj [("start", JNull); ("end", JNull)]
  | [] => JObj [("start", JNull); ("end", JNull)]
  end.

(** [max(...)] of texts, which raises on none *)
Definition max_str (l : list string) : result string :=
  match l with
  | [] => raise ValueError "max() iterable argument is empty"
  | x :: rest => Ok (fold_left (fun m y => if str_leb y m then m else y) rest x)
  end.

(** [source["coverage"][key]] *)
Definition coverage_item (key : string) (source : json) : result json :=
  coverage ← jitem source "coverage"; jitem coverage key.

Definition _merge_work_items (arguments : json) : result json :=
  sources_value ← jitem arguments "sources";
  let sources := match sources_value with JArr l => l | _ => [] end in
  '(st, facts, summaries) ← merge_sources (Merge [] [] 0) sources;
  let status := aggregate_status (map f_status facts) in
  query_applied ← map_result (coverage_item "queryApplied") sources;
  has_more ← map_result (coverage_item "hasMore") sources;
  observed ← map_result (coverage_item "observedAt") sources;
  observed_at ← max_str (map py_str observed);
  let coverage := JObj
    [("status", JStr status);
     ("queryApplied", JBool (negb (bool_decide (facts = [])) && forallb json_truthy query_applied));
     ("dateBasis", JStr (py_join "+" (map f_date_basis facts)));
     ("requestedRange", same_range (map f_requested_range facts));
     ("scannedCount", JInt (fold_right Z.add 0 (map f_scanned facts))%Z);
     ("matchedCount", JInt (fold_right Z.add 0 (map f_matched facts))%Z);
     ("hasMore", JBool (existsb json_truthy has_more));
     ("completionReason", JStr (if String.eqb status "complete" then "all_sources_complete"
                                else "source_incomplete"));
     ("observedAt", JStr observed_at);
     ("queryHash", JStr ("sha256:" +:+ sha256_hex (py_join newline (map f_query_hash facts))))] in
  Ok (JObj
    [("items", JArr (map merged_json (merged st)));
     ("source_summaries", JArr summaries);
     ("coverage", coverage);
     ("source_incomplete", JBool (negb (String.eqb status "complete")));
     ("empty", JBool (bool_decide (merged st = [])));
     ("source_count", JInt (Z.of_nat (length sources)));
     ("item_count", JInt (Z.of_nat (length (merged st))));
     ("duplicate_count", JInt (merge_duplicates st))]).

(** *** [_work_items_to_log_draft_v2] *)

Record draft_state : Type := DraftState {
  d_lines : list string;
  d_included : list merged_item;
  d_seen : list string;
  d_automatic : Z;
  d_duplicates : Z;
}.

(** [str(item.get(key) or "")] *)
Definition text_of (raw : json) (key : string) : string :=
  let v := jget_or_null raw key in if json_truthy v then py_str v else "".

(** [f"{item.get(key)}"] *)
Definition shown (raw : json) (key : string) : string := py_str (jget_or_null raw key).

Definition action_of (collection : string) : string :=
  dict_get [("done", "处理"); ("sent", "发起")] collection "办理".

(** The loop; [break] ends it. *)
Fixpoint draft_items (st : draft_state) (items : list json) : draft_state :=
  match items with
  | [] => st
  | raw :: rest =>
      let title := _clean_text (jget_or_null raw "title") 240 in
      let category := _clean_text (jget_or_null raw "category") 120 in
      if _is_automatic_item title category
      then draft_items (DraftState (d_lines st) (d_included st) (d_seen st)
                          (d_automatic st + 1) (d_duplicates st)) rest
      else
        let stable_key :=
          if json_truthy (jget_or_null raw "source_affair_id")
          then shown raw "source_collection" +:+ ":" +:+ shown raw "source_affair_id"
          else shown raw "source_collection" +:+ ":" +:+ title +:+ ":" +:+ shown raw "date" in
        if str_in stable_key (d_seen st)
        then draft_items (DraftState (d_lines st) (d_included st) (d_seen st)
                            (d_automatic st) (d_duplicates st + 1)) rest
        else
          let normalized := MergedItem (text_of raw "source_collection")
            (text_of raw "source_affair_id") (text_of raw "title") (text_of raw "date")
            (text_of raw "category") (text_of raw "status") in
          let candidate := draft_line (S (length (d_lines st)))
            (action_of (m_collection normalized)) title
            (context_suffix (m_category normalized) (m_date normalized)) in
          if (draft_limit <? py_len (py_join newline (d_lines st ++ [candidate])))%Z
          then DraftState (d_lines st) (d_included st) (stable_key :: d_seen st)
                 (d_automatic st) (d_duplicates st)
          else draft_items (DraftState (d_lines st ++ [candidate]) (d_included st ++ [normalized])
                              (stable_key :: d_seen st) (d_automatic st) (d_duplicates st)) rest
  end.

Definition _work_items_to_log_draft_v2 (arguments : json) : result json :=
  bundle ← jitem arguments "bundle";
  items_value ← jitem bundle "items";
  let source_items := match items_value with JArr l => l | _ => [] end in
  let st := draft_items (DraftState [] [] [] 0 0) source_items in
  let draft := py_join newline (d_lines st) in
  coverage ← jitem bundle "coverage";
  status ← jitem coverage "status";
  summaries ← jitem bundle "source_summaries";
  Ok (JObj
    [("draft", JStr draft);
     ("empty", JBool (negb (truthy draft)));
     ("source_incomplete", JBool (negb (py_eqb status (JStr "complete"))));
     ("source_count", JInt (Z.of_nat (length source_items)));
     ("included_count", JInt (Z.of_nat (length (d_included st))));
     ("excluded_count",
       JInt (Z.max 0 (Z.of_nat (length source_items) - Z.of_nat (length (d_included st)))));
     ("excluded_automatic_count", JInt (d_automatic st));
     ("excluded_duplicate_count", JInt (d_duplicates st));
     ("source_summaries", summaries);
     ("coverage", coverage);
     ("included_items", JArr (map merged_json (d_included st)))]).

(** ** The registry of the program *)

Definition WORK_ITEMS_TO_LOG_DRAFT : string := "work_items_to_log_draft.v1".
Definition MERGE_WORK_ITEMS : string := "merge_work_items.v1".
Definition WORK_ITEMS_TO_LOG_DRAFT_V2 : string := "work_items_to_log_draft.v2".

Definition draft_spec : TransformSpec := {|
  name := WORK_ITEMS_TO_LOG_DRAFT;
  description := "把结构化事项列表去重并转换为可编辑的工作日志草稿；不推断工时、项目或用户未提供的业务成果。";
  input_schema := WORK_ITEMS_TO_LOG_DRAFT_INPUT_SCHEMA;
  output_schema := WORK_ITEMS_TO_LOG_DRAFT_OUTPUT_SCHEMA;
  maximum_input_items := 100; maximum_output_chars := 4000;
  halts_on_empty := true; halts_on_incomplete := false; result_projection := None;
  required_bound_inputs := ["items"]; input_item_counter := None |}.

Definition merge_spec : TransformSpec := {|
  name := MERGE_WORK_ITEMS;
  description := "按来源合同合并多个结构化事项集合，保留已办/已发行为、稳定标识、查询范围和完整性；不同集合的同一标题不会被误删。";
  input_schema := _merge_work_items_input_schema;
  output_schema := _merged_work_items_output_schema;
  maximum_input_items := 200; maximum_output_chars := 8000;
  halts_on_empty := true; halts_on_incomplete := true;
  result_projection := Some "source_summary";
  required_bound_inputs := ["sources"]; input_item_counter := Some count_merged_source_items |}.

Definition draft_v2_spec : TransformSpec := {|
  name := WORK_ITEMS_TO_LOG_DRAFT_V2;
  description := "把带来源质量的事项集合转换为可核对日志草稿；不完整来源会硬停止，且不推断工时、项目或业务成果。";
  input_schema := _work_items_to_log_draft_v2_input_schema;
  output_schema := _work_items_to_log_draft_v2_output_schema;
  maximum_input_items := 100; maximum_output_chars := 4000;
  halts_on_empty := true; halts_on_incomplete := true; result_projection := Some "private_draft";
  required_bound_inputs := ["bundle"]; input_item_counter := Some count_bundle_items |}.

Definition build_transform_registry : result TransformRegistry :=
  reg ← register draft_spec _work_items_to_log_draft empty_registry;
  reg ← register merge_spec _merge_work_items reg;
  register draft_v2_spec _work_items_to_log_draft_v2 reg.

End Handlers.
