(* ===== verification/TransformFacts.v ===== *)
(** * Transforms: what invocation guarantees, and that the handlers keep their contract *)

From S2P Require Import Prelude PyStr Json JsonFacts Sha256 InputValidation InputValidationFacts.
From S2P Require Import Transforms.

Section Facts.
Context `{UnicodeTables}.

(** ** Conformance: introduction *)

Lemma conforms_by_check v s : schema_value_issue TRANSFORM v s "" = None -> conforms v s.
Proof. apply transform_profile_exact. Qed.

Lemma conforms_array l d : Forall (fun x => conforms x d) l -> conforms (JArr l) (array_of d).
Proof.
  intros Hl. rewrite List.Forall_forall in Hl. constructor; [reflexivity|reflexivity|discriminate|discriminate|].
  intros l' x d' [= <-] Hx Hd. unfold item_schema in Hd. cbn in Hd.
  destruct d; try discriminate. injection Hd as <-. exact (Hl _ Hx).
Qed.

Lemma conforms_string s : conforms (JStr s) string_type.
Proof. by apply conforms_by_check. Qed.
Lemma conforms_integer z : conforms (JInt z) integer_type.
Proof. by apply conforms_by_check. Qed.
Lemma conforms_boolean b : conforms (JBool b) boolean_type.
Proof. by apply conforms_by_check. Qed.

(** A closed object with these members, each conforming to its definition. *)
Lemma conforms_closed kvs props req :
  (forall name, In name req -> In name (keys kvs)) ->
  (forall name, In name (keys kvs) -> In name (keys props)) ->
  (forall name v d, In (name, v) kvs -> assoc name props = Some d -> is_dict d = true -> conforms v d) ->
  conforms (JObj kvs) (closed_object_of props req).
Proof.
  intros Hreq Hclosed Hm. constructor; [reflexivity|reflexivity| | |discriminate].
  - intros kvs' [= <-]. split.
    + intros name Hn. apply Hreq. unfold required, closed_object_of in Hn. cbn in Hn.
      clear -Hn. induction req as [|r req IH]; cbn in *; [done|]. destruct Hn; [by left|right; auto].
    + intros _ name Hn. apply Hclosed, Hn.
  - intros kvs' name v d [= <-] Hin Hd. unfold definition, properties in Hd. cbn in Hd.
    destruct (assoc name props) as [d'|] eqn:E; [|discriminate].
    destruct d'; try discriminate. injection Hd as <-. by eapply Hm.
Qed.

(** ** Conformance: elimination *)

Lemma conforms_dict v s : conforms v s -> jget s "type" = Some (JStr "object") -> exists kvs, v = JObj kvs.
Proof.
  intros [Ht _ _ _ _] Hs. unfold type_ok in Ht. rewrite Hs in Ht. destruct v; try discriminate. by eexists.
Qed.

Lemma conforms_list v d : conforms v (array_of d) -> is_dict d = true ->
  exists l, v = JArr l /\ Forall (fun x => conforms x d) l.
Proof.
  intros [Ht _ _ _ Hi] Hd. unfold type_ok in Ht. cbn in Ht. destruct v as [| | | | |l|]; try discriminate.
  exists l. split; [reflexivity|]. apply List.Forall_forall. intros x Hx.
  eapply Hi; [reflexivity|exact Hx|]. unfold item_schema. cbn. destruct d; try discriminate. reflexivity.
Qed.

Lemma conforms_member kvs s k d :
  conforms (JObj kvs) s -> In k (required s) -> definition s k = Some d ->
  exists v, assoc k kvs = Some v /\ conforms v d.
Proof.
  intros [_ _ Hf Hm _] Hreq Hd. destruct (Hf kvs eq_refl) as [Hk _].
  destruct (proj1 (assoc_keys _ _) (Hk _ Hreq)) as [v Hv]. exists v. split; [exact Hv|].
  eapply Hm; [reflexivity|by apply assoc_In|exact Hd].
Qed.

Lemma conforms_is_string v : conforms v string_type -> exists s, v = JStr s.
Proof. intros [Ht _ _ _ _]. destruct v; try discriminate. by eexists. Qed.
Lemma conforms_is_integer v : conforms v integer_type -> exists z, v = JInt z.
Proof. intros [Ht _ _ _ _]. destruct v; try discriminate. by eexists. Qed.
Lemma conforms_is_boolean v : conforms v boolean_type -> exists b, v = JBool b.
Proof. intros [Ht _ _ _ _]. destruct v; try discriminate. by eexists. Qed.

(** ** Invocation *)

Lemma validate_Ok v s p code : _validate_schema_value v s p code = Ok tt <-> conforms v s.
Proof.
  rewrite <- (transform_profile_exact v s p). unfold _validate_schema_value.
  destruct (schema_value_issue TRANSFORM v s p) as [[k ? ? ?]|]; [|done]. by destruct k.
Qed.

Definition draft_fits (maximum : Z) (output : json) : Prop :=
  forall draft, jget output "draft" = Some (JStr draft) -> (py_len draft <= maximum)%Z.

Lemma draft_fits_false m output :
  match jget output "draft" with
  | Some (JStr draft) => (m <? py_len draft)%Z
  | _ => false
  end = false <-> draft_fits m output.
Proof.
  unfold draft_fits. destruct (jget output "draft") as [[| | | |s| |]|]; split; try done.
  - intros Hl d [= <-]. by apply Z.ltb_ge.
  - intros Hl. by apply Z.ltb_ge, Hl.
Qed.

(** The direction that callers use to run a transform. *)
Lemma invoke_contract_intro n arguments reg s handler output :
  _specs reg !! n = Some s /\ _handlers reg !! n = Some handler ->
  is_dict arguments = true -> conforms arguments (input_schema s) ->
  (input_count s arguments <= maximum_input_items s)%Z ->
  handler arguments = Ok output -> is_dict output = true -> conforms output (output_schema s) ->
  draft_fits (maximum_output_chars s) output -> invoke n arguments reg = Ok output.
Proof.
  intros [Hs Hh] Hd Hc Hn Ho Hod Hoc Hf. unfold invoke, get, get_handler. rewrite Hs.
  cbn [pbind mbind result_bind]. rewrite Hh.
  assert (Hv1 : _validate_schema_value arguments (input_schema s) "input" "TRANSFORM_INPUT_INVALID" = Ok tt)
    by (by apply validate_Ok).
  assert (Hv2 : _validate_schema_value output (output_schema s) "output" "TRANSFORM_OUTPUT_INVALID" = Ok tt)
    by (by apply validate_Ok).
  apply Z.ltb_ge in Hn. apply draft_fits_false in Hf.
  unfold pbind, mbind, result_bind. cbn [result_bind].
  rewrite Hd, Hv1, Hn, Ho, Hod, Hv2, Hf. reflexivity.
Qed.

(** [invoke] returns exactly what the handler of a registered transform returned,
    and it returns only if the input is an object that conforms to the input schema
    and stays within the item limit, and the output is an object that conforms to the
    output schema and whose draft stays within the character limit. *)
Theorem invoke_contract n arguments reg output :
  invoke n arguments reg = Ok output <->
  exists s handler, _specs reg !! n = Some s /\ _handlers reg !! n = Some handler /\
    is_dict arguments = true /\ conforms arguments (input_schema s) /\
    (input_count s arguments <= maximum_input_items s)%Z /\
    handler arguments = Ok output /\
    is_dict output = true /\ conforms output (output_schema s) /\
    draft_fits (maximum_output_chars s) output.
Proof.
  unfold invoke, get, get_handler. destruct (_specs reg !! n) as [s|] eqn:E; [|split; [done|naive_solver]].
  split.
  - intros Hi. apply result_bind_Ok in Hi as (s' & [= <-] & Hi).
    apply result_bind_Ok in Hi as (? & Hd%result_raise_if_Ok & Hi).
    apply result_bind_Ok in Hi as ([] & Hc%validate_Ok & Hi).
    apply result_bind_Ok in Hi as (? & Hn%result_raise_if_Ok & Hi).
    apply result_bind_Ok in Hi as (h & Hh & Hi).
    apply result_bind_Ok in Hi as (out & Ho & Hi).
    apply result_bind_Ok in Hi as (? & Hod%result_raise_if_Ok & Hi).
    apply result_bind_Ok in Hi as ([] & Hoc%validate_Ok & Hi).
    apply result_bind_Ok in Hi as (? & Hf%result_raise_if_Ok & Hi).
    injection Hi as ->.
    destruct (_handlers reg !! n) as [h'|]; [|done]. injection Hh as ->.
    exists s, h. apply negb_false_iff in Hd, Hod. apply Z.ltb_ge in Hn.
    apply draft_fits_false in Hf. by repeat (split; [first [assumption|reflexivity]|]).
  - intros (s' & h & [= <-] & Hh & Hd & Hc & Hn & Ho & Hod & Hoc & Hf).
    pose proof (invoke_contract_intro n arguments reg s h output) as Hi.
    unfold invoke, get, get_handler in Hi. rewrite E in Hi. by apply Hi.
Qed.
End Facts.
