(* ===== verification/TransformHandlerFacts.v ===== *)
(** * Transforms: the three handlers against reference definitions

    What the handlers compute, independently of their loops: first occurrences by
    key, the longest prefix of numbered lines that fits, and totals per source. *)

From Stdlib Require Import Ascii.
From S2P Require Import Prelude PyStr Json JsonFacts Sha256 InputValidation InputValidationFacts.
From S2P Require Import Transforms TransformFacts Store.

(** ** First occurrences *)

Section Nub.
  Context {A : Type} (key : A -> option string).

(** Do [x] and [y] have the same key? *)
Definition same (x y : A) : bool :=
  match key x, key y with Some k, Some k' => String.eqb k k' | _, _ => false end.

(** The elements no earlier element has the key of. *)
Fixpoint nub (l : list A) : list A :=
  match l with
  | [] => []
  | x :: rest => x :: List.filter (fun y => negb (same x y)) (nub rest)
  end.

Definition fresh (seen : list string) (x : A) : bool :=
  match key x with Some k => negb (str_in k seen) | None => true end.

(** The loop with a set of the keys seen. *)
Fixpoint dedup (seen : list string) (l : list A) : list A :=
  match l with
  | [] => []
  | x :: rest =>
      if fresh seen x
      then x :: dedup (match key x with Some k => k :: seen | None => seen end) rest
      else dedup seen rest
  end.

Lemma tr_filter_filter (f g : A -> bool) l :
  List.filter f (List.filter g l) = List.filter (fun x => g x && f x) l.
Proof.
  induction l as [|x l IH]; [done|]. cbn. destruct (g x); cbn; [|exact IH].
  destruct (f x); [by rewrite IH|exact IH].
Qed.

Lemma dedup_nub l : forall seen, dedup seen l = List.filter (fresh seen) (nub l).
Proof.
  induction l as [|x l IH]; intros seen; [done|]. cbn [dedup nub List.filter].
  rewrite tr_filter_filter. destruct (fresh seen x) eqn:Hx.
  - f_equal. rewrite IH. apply filter_ext. intros y. unfold fresh, same.
    destruct (key x) as [k|], (key y) as [k'|]; cbn; try done.
    unfold str_in. cbn [existsb]. rewrite String.eqb_sym. by rewrite negb_orb.
  - rewrite IH. apply filter_ext. intros y. revert Hx. unfold fresh, same.
    destruct (key x) as [k|]; [|done]. intros Hk%negb_false_iff.
    destruct (key y) as [k'|]; [|done]. cbn. destruct (String.eqb_spec k k') as [<-|]; cbn; [|done].
    by rewrite Hk.
Qed.

Lemma dedup_nil l : dedup [] l = nub l.
Proof.
  rewrite dedup_nub. rewrite (filter_ext (fresh []) (fun _ => true)).
  - induction (nub l) as [|x m IH]; [done|]. cbn. by rewrite IH.
  - intros y. unfold fresh. by destruct (key y).
Qed.

Lemma nub_In x l : In x (nub l) -> In x l.
Proof.
  induction l as [|y l IH]; [done|]. cbn. rewrite filter_In. tauto.
Qed.

Lemma nub_distinct l : ForallOrdPairs (fun x y => same x y = false) (nub l).
Proof.
  induction l as [|x l IH]; [constructor|]. cbn. constructor.
  - apply List.Forall_forall. intros y [_ Hy]%filter_In. by apply negb_true_iff.
  - clear -IH. induction IH as [|y m Hy _ IHm]; cbn; [constructor|].
    destruct (same x y); cbn; [exact IHm|]. constructor; [|exact IHm].
    rewrite List.Forall_forall in *. intros z [Hz _]%filter_In. auto.
Qed.

(** Every keyed element is represented. *)
Lemma nub_complete x k l : In x l -> key x = Some k -> exists y, In y (nub l) /\ key y = Some k.
Proof.
  intros Hx Hk. induction l as [|z l IH]; [done|]. destruct Hx as [->|Hx].
  - exists x. split; [by left|done].
  - destruct (IH Hx) as (y & Hy & Hyk). cbn. destruct (same z y) eqn:E.
    + exists z. split; [by left|]. unfold same in E. rewrite Hyk in E.
      destruct (key z) as [k'|]; [|done]. by apply String.eqb_eq in E as ->.
    + exists y. split; [right|done]. apply filter_In. by rewrite E.
Qed.

Lemma nub_length l : (length (nub l) <= length l)%nat.
Proof.
  induction l as [|x l IH]; cbn; [lia|].
  pose proof (filter_length_le (fun y => negb (same x y)) (nub l)). lia.
Qed.
End Nub.
Section Handlers.
Context `{UnicodeTables}.
Local Open Scope list_scope.

(** ** Drafts of the plain item list *)

Definition row_title (raw : json) : string := _clean_text (jget_or_null raw "title") 240.
Definition row_category (raw : json) : string := _clean_text (jget_or_null raw "category") 120.
Definition row_date (raw : json) : string := _clean_text (jget_or_null raw "date") 40.
Definition row_affair (raw : json) : string := _clean_text (jget_or_null raw "affair_id") 256.

Definition titled (raw : json) : bool := is_dict raw && truthy (row_title raw).
Definition automatic (raw : json) : bool := _is_automatic_item (row_title raw) (row_category raw).
Definition candidate (raw : json) : bool := titled raw && negb (automatic raw).

Definition row_key (raw : json) : option string :=
  Some (dedupe_key (row_affair raw) (row_title raw) (row_date raw)).
Definition row_item (raw : json) : item := Item (row_title raw) (row_date raw) (row_category raw).

Lemma scan_item_cases st raw : scan_item st raw =
  if titled raw then
    if automatic raw
    then Scan (included st) (seen st) (automatic_count st + 1) (duplicate_count st)
    else if fresh row_key (seen st) raw
    then Scan (included st ++ [row_item raw])
           (dedupe_key (row_affair raw) (row_title raw) (row_date raw) :: seen st)
           (automatic_count st) (duplicate_count st)
    else Scan (included st) (seen st) (automatic_count st) (duplicate_count st + 1)
  else st.
Proof.
  unfold scan_item, titled, automatic, fresh, row_key, row_item, row_title, row_category, row_date, row_affair.
  destruct (is_dict raw); cbn [negb andb]; [|done].
  destruct (truthy _); cbn [negb andb]; [|done]. destruct (_is_automatic_item _ _); [done|].
  by destruct (str_in _ _).
Qed.

(** The first loop, from any state. *)
Lemma scan_fold l : forall st,
  let kept := dedup row_key (seen st) (List.filter candidate l) in
  included (fold_left scan_item l st) = included st ++ map row_item kept /\
  automatic_count (fold_left scan_item l st) =
    (automatic_count st + Z.of_nat (length (List.filter (fun raw => titled raw && automatic raw) l)))%Z /\
  duplicate_count (fold_left scan_item l st) =
    (duplicate_count st + (Z.of_nat (length (List.filter candidate l)) - Z.of_nat (length kept)))%Z.
Proof.
  induction l as [|raw l IH]; intros st; [cbn; rewrite app_nil_r; repeat split; lia|].
  cbn [fold_left List.filter]. cbv zeta in IH |- *.
  destruct (IH (scan_item st raw)) as (-> & -> & ->). clear IH. rewrite scan_item_cases.
  destruct (candidate raw) eqn:Hc; unfold candidate in Hc;
    destruct (titled raw), (automatic raw); try discriminate; clear Hc; cbn [andb negb].
  - cbn [dedup]. destruct (fresh row_key (seen st) raw).
    + cbn [included seen automatic_count duplicate_count row_key map length]. rewrite <- app_assoc.
      cbn [app]. repeat split; lia.
    + cbn [included seen automatic_count duplicate_count length]. repeat split; lia.
  - cbn [included seen automatic_count duplicate_count length]. repeat split; lia.
  - repeat split.
  - repeat split.
Qed.

(** Numbered lines. *)
Fixpoint render (n : nat) (items : list item) : list string :=
  match items with
  | [] => []
  | x :: rest =>
      draft_line n "处理" (i_title x) (context_suffix (i_category x) (i_date x)) :: render (S n) rest
  end.

Definition text_fits (lines : list string) : Prop := (py_len (py_join newline lines) <= draft_limit)%Z.

(** [n] elements are the longest prefix whose rendering fits. *)
Definition longest_prefix {A} (draw : list A -> list string) (l : list A) (n : nat) : Prop :=
  (n <= length l)%nat /\ text_fits (draw (firstn n l)) /\
  ((n < length l)%nat -> ~ text_fits (draw (firstn (S n) l))).

Lemma render_length n items : length (render n items) = length items.
Proof. revert n. induction items as [|x items IH]; intros n; [done|]. cbn. by rewrite IH. Qed.

Lemma take_lines_prefix items : forall lines, text_fits lines ->
  exists n, take_lines lines items = lines ++ render (S (length lines)) (firstn n items) /\
    longest_prefix (fun l => lines ++ render (S (length lines)) l) items n.
Proof.
  induction items as [|x items IH]; intros lines Hfit.
  - exists 0%nat. cbn. rewrite app_nil_r. unfold longest_prefix. cbn. rewrite app_nil_r.
    split; [reflexivity|]. split; [lia|]. split; [exact Hfit|lia].
  - cbn [take_lines]. cbv zeta. destruct (draft_limit <? _)%Z eqn:Hl.
    + exists 0%nat. apply Z.ltb_lt in Hl. unfold longest_prefix. cbn. rewrite app_nil_r.
      split; [reflexivity|]. split; [lia|]. split; [exact Hfit|]. intros _ Hc. exact (Z.lt_irrefl _ (Z.lt_le_trans _ _ _ Hl Hc)).
    + apply Z.ltb_ge in Hl. destruct (IH (lines ++ [draft_line (S (length lines)) "处理" (i_title x)
        (context_suffix (i_category x) (i_date x))])) as (n & Ht & Hn & Hf & Hmax); [exact Hl|].
      rewrite length_app, Nat.add_1_r in *. exists (S n). unfold longest_prefix. cbn [firstn render length].
      assert (E : forall l, (lines ++ [draft_line (S (length lines)) "处理" (i_title x)
          (context_suffix (i_category x) (i_date x))]) ++ render (S (S (length lines))) l =
          lines ++ (draft_line (S (length lines)) "处理" (i_title x)
          (context_suffix (i_category x) (i_date x)) :: render (S (S (length lines))) l))
        by (intros; by rewrite <- app_assoc).
      rewrite !E in *. split; [exact Ht|]. split; [lia|]. split; [exact Hf|].
      intros Hlt. apply Hmax. lia.
Qed.

(** The report [_work_items_to_log_draft] gives on [rows], of which the first [n]
    distinct candidates made it into the draft. *)
Definition draft_report (rows : list json) (n : nat) : json :=
  let distinct := nub row_key (List.filter candidate rows) in
  let kept := map row_item (firstn n distinct) in
  let draft := py_join newline (render 1 kept) in
  JObj [("draft", JStr draft); ("empty", JBool (negb (truthy draft)));
        ("source_count", JInt (Z.of_nat (length rows)));
        ("included_count", JInt (Z.of_nat n));
        ("excluded_count", JInt (Z.of_nat (length rows) - Z.of_nat n));
        ("excluded_automatic_count",
          JInt (Z.of_nat (length (List.filter (fun raw => titled raw && automatic raw) rows))));
        ("excluded_duplicate_count",
          JInt (Z.of_nat (length (List.filter candidate rows)) - Z.of_nat (length distinct)));
        ("included_items", JArr (map item_json kept))].

Lemma filter_length_bound {A} (f : A -> bool) l : (length (List.filter f l) <= length l)%nat.
Proof. apply filter_length_le. Qed.

(** The draft of an item list keeps, in order, the first row of each key among the
    titled rows that are not automatic, and of these the longest prefix whose numbered
    lines stay within 4000 characters; automatic rows and repeated keys are counted as
    excluded, and the draft is empty exactly when no line is left. *)
Theorem draft_exact arguments :
  exists n, _work_items_to_log_draft arguments = Ok (draft_report (list_or_empty arguments "items") n) /\
    longest_prefix (fun l => render 1 (map row_item l))
      (nub row_key (List.filter candidate (list_or_empty arguments "items"))) n.
Proof.
  unfold _work_items_to_log_draft. cbv zeta. set (rows := list_or_empty arguments "items").
  destruct (scan_fold rows (Scan [] [] 0 0)) as (Hi & Ha & Hd). cbn [included seen automatic_count
    duplicate_count app] in *. rewrite dedup_nil in *. rewrite Hi, Ha, Hd, !Z.add_0_l. clear Hi Ha Hd.
  set (distinct := nub row_key (List.filter candidate rows)).
  destruct (take_lines_prefix (map row_item distinct) []) as (n & Ht & Hn & Hf & Hmax);
    [unfold text_fits, draft_limit, py_len; vm_compute; discriminate|]. cbn [app length] in *. rewrite length_map in *. rewrite firstn_map in *.
  assert (Hlen : length (take_lines [] (map row_item distinct)) = n)
    by (rewrite Ht, render_length, length_map, length_firstn; lia).
  rewrite Hlen, Ht. clear Ht Hlen.
  assert (Hle : (length distinct <= length rows)%nat).
  { pose proof (nub_length row_key (List.filter candidate rows)).
    pose proof (filter_length_bound candidate rows). unfold distinct. lia. }
  assert (Hkept : length (map row_item (firstn n distinct)) = n)
    by (rewrite length_map, length_firstn; lia).
  exists n. split.
  - unfold draft_report. fold distinct. cbv zeta. rewrite Hkept, Z.max_r by lia. reflexivity.
  - split; [exact Hn|]. split; [exact Hf|exact Hmax].
Qed.
(** ** Outputs conform *)

Ltac each_member :=
  let Hin := fresh "Hin" in let Hdef := fresh "Hdef" in
  intros ? ? ? Hin Hdef _;
  repeat (destruct Hin as [[= <- <-]|Hin]; [cbn in Hdef; injection Hdef as <-|]); [..|destruct Hin].

Ltac closed_record :=
  let Hname := fresh "Hname" in
  apply conforms_closed; [intros ? Hname; cbn in Hname |- *; tauto
                         |intros ? Hname; cbn in Hname |- *; tauto|].

Ltac scalar := first [apply conforms_string | apply conforms_integer | apply conforms_boolean].

Lemma item_json_conforms x : conforms (item_json x) included_item_schema.
Proof. closed_record. each_member; scalar. Qed.

Lemma Forall_map_intro {A B} (f : A -> B) (P : B -> Prop) l : (forall x, P (f x)) -> Forall P (map f l).
Proof. intros Hf. induction l; cbn; constructor; auto. Qed.

Lemma draft_report_conforms rows n : conforms (draft_report rows n) WORK_ITEMS_TO_LOG_DRAFT_OUTPUT_SCHEMA.
Proof.
  closed_record. each_member; try scalar.
  apply (conforms_array _ included_item_schema). apply Forall_map_intro, item_json_conforms.
Qed.

(** ** The registry *)

Definition registry_specs : gmap string TransformSpec :=
  <[WORK_ITEMS_TO_LOG_DRAFT_V2 := draft_v2_spec]>
    (<[MERGE_WORK_ITEMS := merge_spec]> {[WORK_ITEMS_TO_LOG_DRAFT := draft_spec]}).

Definition registry_handlers : gmap string (json -> result json) :=
  <[WORK_ITEMS_TO_LOG_DRAFT_V2 := _work_items_to_log_draft_v2]>
    (<[MERGE_WORK_ITEMS := _merge_work_items]>
      {[WORK_ITEMS_TO_LOG_DRAFT := _work_items_to_log_draft]}).

Lemma register_fresh s handler reg : _specs reg !! name s = None ->
  register s handler reg =
  Ok (Registry (<[name s := s]> (_specs reg)) (<[name s := handler]> (_handlers reg))).
Proof. intros Hs. unfold register. by rewrite Hs. Qed.

Lemma build_registry : build_transform_registry = Ok (Registry registry_specs registry_handlers).
Proof.
  unfold build_transform_registry. rewrite register_fresh by done. cbn [pbind mbind result_bind].
  unfold pbind, mbind, result_bind. rewrite register_fresh by reflexivity.
  by rewrite register_fresh.
Qed.

Definition transforms : TransformRegistry := Registry registry_specs registry_handlers.

Lemma draft_registered : _specs transforms !! WORK_ITEMS_TO_LOG_DRAFT = Some draft_spec /\
  _handlers transforms !! WORK_ITEMS_TO_LOG_DRAFT = Some _work_items_to_log_draft.
Proof. split; reflexivity. Qed.
Lemma merge_registered : _specs transforms !! MERGE_WORK_ITEMS = Some merge_spec /\
  _handlers transforms !! MERGE_WORK_ITEMS = Some _merge_work_items.
Proof. split; reflexivity. Qed.
Lemma draft_v2_registered : _specs transforms !! WORK_ITEMS_TO_LOG_DRAFT_V2 = Some draft_v2_spec /\
  _handlers transforms !! WORK_ITEMS_TO_LOG_DRAFT_V2 = Some _work_items_to_log_draft_v2.
Proof. split; reflexivity. Qed.

(** The first transform never fails on an accepted input: every object that
    conforms to its input schema and holds at most 100 items gives a draft, which
    conforms to the output schema and is at most 4000 characters long. *)
Theorem draft_total arguments reg
  (Hreg : build_transform_registry = Ok reg)
  (Hinput : conforms arguments (input_schema draft_spec))
  (Hcount : (input_count draft_spec arguments <= 100)%Z) :
  exists output, invoke WORK_ITEMS_TO_LOG_DRAFT arguments reg = Ok output /\
    conforms output (output_schema draft_spec) /\ draft_fits 4000 output.
Proof.
  rewrite build_registry in Hreg. injection Hreg as <-.
  destruct (draft_exact arguments) as (n & Ho & Hn & Hf & _).
  destruct (conforms_dict _ _ Hinput eq_refl) as [kvs ->].
  eexists. assert (Hfit : draft_fits 4000 (draft_report (list_or_empty (JObj kvs) "items") n)).
  { intros d [= <-]. exact Hf. }
  split; [|split; [apply draft_report_conforms|exact Hfit]].
  apply invoke_contract_intro with draft_spec _work_items_to_log_draft.
  all: first [exact draft_registered|exact Hinput|exact Hcount|exact Ho|exact Hfit|reflexivity
             |apply draft_report_conforms].
Qed.
(** ** Merging sources *)

(** A row of a source, with the source's collection. *)
#[local] Abbreviation source_row := (string * json)%type (only parsing).

Definition source_collection (source : json) : string := _clean_text (jget_or_null source "collection") 80.
Definition named (raw : json) : bool := truthy (row_title raw).

Definition rows_of (source : json) : list source_row :=
  map (pair (source_collection source)) (List.filter named (list_or_empty source "items")).
Definition source_rows (sources : list json) : list source_row := flat_map rows_of sources.

(** Rows are the same when their collection and stable identifier are. *)
Definition merge_key (r : source_row) : option string :=
  if truthy (row_affair (snd r)) then Some (fst r +:+ ":" +:+ row_affair (snd r)) else None.

Definition to_merged (r : source_row) : merged_item :=
  MergedItem (fst r) (row_affair (snd r)) (row_title (snd r)) (row_date (snd r)) (row_category (snd r))
    (_clean_text (jget_or_null (snd r) "status") 120).

Lemma stable_key_truthy c a : truthy (c +:+ ":" +:+ a) = true.
Proof. rewrite !truthy_append. cbn. apply orb_true_r. Qed.

Lemma merge_item_cases c st raw : merge_item c st raw =
  if named raw then
    if fresh merge_key (merge_seen st) (c, raw)
    then Merge (merged st ++ [to_merged (c, raw)])
           (match merge_key (c, raw) with Some k => k :: merge_seen st | None => merge_seen st end)
           (merge_duplicates st)
    else Merge (merged st) (merge_seen st) (merge_duplicates st + 1)
  else st.
Proof.
  unfold merge_item, named, fresh, merge_key, to_merged, row_title, row_affair, row_date, row_category.
  cbn [fst snd]. destruct (truthy (_clean_text (jget_or_null raw "title") 240)); cbn [negb]; [|done].
  destruct (truthy (_clean_text (jget_or_null raw "affair_id") 256)) eqn:Ha.
  - rewrite stable_key_truthy. cbn [andb]. by destruct (str_in _ _).
  - done.
Qed.

(** The inner loop, from any state, with what is left to see. *)
Lemma merge_fold c l : forall st,
  let rows := map (pair c) (List.filter named l) in
  let st' := fold_left (merge_item c) l st in
  merged st' = merged st ++ map to_merged (dedup merge_key (merge_seen st) rows) /\
  merge_duplicates st' =
    (merge_duplicates st + (Z.of_nat (length rows) -
       Z.of_nat (length (dedup merge_key (merge_seen st) rows))))%Z /\
  forall more, dedup merge_key (merge_seen st) (rows ++ more) =
    dedup merge_key (merge_seen st) rows ++ dedup merge_key (merge_seen st') more.
Proof.
  induction l as [|raw l IH]; intros st; [cbn; rewrite app_nil_r; split; [done|split; [lia|done]]|].
  cbn [fold_left List.filter]. cbv zeta in IH |- *. rewrite merge_item_cases.
  destruct (named raw); [|exact (IH st)]. cbn [map app dedup length].
  destruct (fresh merge_key (merge_seen st) (c, raw)).
  - destruct (IH (Merge (merged st ++ [to_merged (c, raw)])
      (match merge_key (c, raw) with Some k => k :: merge_seen st | None => merge_seen st end)
      (merge_duplicates st))) as (-> & -> & Hmore). cbn [merged merge_seen merge_duplicates] in *.
    cbn [map length app]. rewrite <- app_assoc. split; [done|]. split; [lia|].
    intros more. by rewrite Hmore.
  - destruct (IH (Merge (merged st) (merge_seen st) (merge_duplicates st + 1))) as (-> & -> & Hmore).
    cbn [merged merge_seen merge_duplicates] in *. split; [done|]. split; [lia|exact Hmore].
Qed.

(** What [merge_sources] needs of a source. *)
Definition source_ok (source : json) : Prop :=
  exists f, read_source source = Ok f /\ f_collection f = source_collection source /\
    conforms (f_coverage f) _coverage_schema /\ jget source "coverage" = Some (f_coverage f) /\
    jget (f_coverage f) "status" = Some (JStr (f_status f)) /\
    conforms (f_requested_range f) range_schema.

Definition sum (l : list Z) : Z := fold_right Z.add 0%Z l.

(** The number of rows a summary counts. *)
Definition summary_count (summary : json) : Z :=
  match jget summary "included_count" with Some (JInt z) => z | _ => 0%Z end.

(** The outer loop, from any state. *)
Lemma merge_sources_spec sources : Forall source_ok sources -> forall st,
  exists st' facts summaries,
    merge_sources st sources = Ok (st', facts, summaries) /\
    (let kept := dedup merge_key (merge_seen st) (source_rows sources) in
     merged st' = merged st ++ map to_merged kept /\
     merge_duplicates st' =
       (merge_duplicates st + (Z.of_nat (length (source_rows sources)) - Z.of_nat (length kept)))%Z /\
     sum (map summary_count summaries) = Z.of_nat (length kept)) /\
    Forall2 (fun source f => read_source source = Ok f) sources facts /\
    Forall (fun s => conforms s _source_summary_schema) summaries /\
    length summaries = length sources.
Proof.
  induction 1 as [|source sources (f & Hread & Hcol & Hcov & _) _ IH]; intros st.
  - exists st, [], []. cbv zeta. cbn [source_rows flat_map dedup map length]. rewrite app_nil_r.
    split; [reflexivity|]. split; [split; [reflexivity|split; [lia|reflexivity]]|].
    split; [constructor|split; [constructor|reflexivity]].
  - cbn [merge_sources]. rewrite Hread. cbn [pbind mbind result_bind]. unfold pbind, mbind, result_bind.
    rewrite Hcol. set (st1 := fold_left _ _ _).
    destruct (merge_fold (source_collection source) (list_or_empty source "items") st)
      as (Hm & Hd & Hmore). fold st1 in Hm, Hd, Hmore.
    destruct (IH st1) as (st' & facts & summaries & -> & (Hm' & Hd' & Hs') & Hfacts & Hsum & Hlen).
    eexists st', _, _. split; [reflexivity|]. split; [|split; [|split; [|cbn; by rewrite Hlen]]].
    + cbv zeta. change (source_rows (source :: sources)) with (rows_of source ++ source_rows sources).
      unfold rows_of. rewrite Hmore, Hm', Hd', Hm, Hd, map_app, <- app_assoc, !length_app.
      split; [done|]. split; [lia|]. cbn [map sum fold_right]. unfold sum in Hs'. rewrite Hs'.
      match goal with |- context [summary_count (summary_json f ?z)] =>
        change (summary_count (summary_json f z)) with z end.
      rewrite length_map. lia.
    + by constructor.
    + constructor; [|done]. closed_record. each_member; try scalar. exact Hcov.
Qed.
(** ** What conforming sources give *)

Lemma string_member v s k : conforms v s -> jget s "type" = Some (JStr "object") ->
  In k (required s) -> definition s k = Some string_type ->
  exists t, jget v k = Some (JStr t).
Proof.
  intros Hv Ht Hk Hd. destruct (conforms_dict _ _ Hv Ht) as [kvs ->].
  destruct (conforms_member _ _ _ _ Hv Hk Hd) as (w & Hw & Hc).
  destruct (conforms_is_string _ Hc) as [t ->]. by exists t.
Qed.

Lemma dict_member v s k d : conforms v s -> jget s "type" = Some (JStr "object") ->
  In k (required s) -> definition s k = Some d -> exists w, jget v k = Some w /\ conforms w d.
Proof.
  intros Hv Ht Hk Hd. destruct (conforms_dict _ _ Hv Ht) as [kvs ->].
  exact (conforms_member _ _ _ _ Hv Hk Hd).
Qed.

Lemma conforms_status v : conforms v coverage_status_schema -> exists t, v = JStr t.
Proof. intros [Ht _ _ _ _]. destruct v; try discriminate. by eexists. Qed.

Lemma jitem_Ok v k w : jget v k = Some w -> jitem v k = Ok w.
Proof. intros Hw. unfold jitem. by rewrite Hw. Qed.

Ltac required_key := cbn; repeat (first [left; reflexivity|right]).

Ltac member_of Hc k w Hw Hwc :=
  destruct (dict_member _ _ k _ Hc eq_refl ltac:(required_key) eq_refl) as (w & Hw & Hwc).

Lemma conforms_source_ok source : conforms source _source_result_schema -> source_ok source.
Proof.
  intros Hs. member_of Hs "coverage" coverage Hcov Hcovc.
  member_of Hcovc "status" status Hst Hstc. destruct (conforms_status _ Hstc) as [t ->].
  member_of Hcovc "scannedCount" scanned Hsc Hscc. member_of Hcovc "matchedCount" matched Hma Hmac.
  member_of Hcovc "queryHash" hash Hha Hhac. member_of Hcovc "requestedRange" range Hra Hrac.
  member_of Hcovc "dateBasis" basis Hba Hbac.
  eexists. split.
  - unfold read_source. rewrite (jitem_Ok _ _ _ Hcov). cbn [pbind mbind result_bind].
    unfold pbind, mbind, result_bind.
    rewrite (jitem_Ok _ _ _ Hst), (jitem_Ok _ _ _ Hsc), (jitem_Ok _ _ _ Hma), (jitem_Ok _ _ _ Hha),
      (jitem_Ok _ _ _ Hra), (jitem_Ok _ _ _ Hba). reflexivity.
  - cbn [f_collection f_coverage f_status f_requested_range].
    split; [reflexivity|]. split; [exact Hcovc|]. split; [exact Hcov|]. split; [exact Hst|exact Hrac].
Qed.

Lemma coverage_item_total k d source : conforms source _source_result_schema ->
  In k (required _coverage_schema) -> definition _coverage_schema k = Some d ->
  exists w, coverage_item k source = Ok w.
Proof.
  intros Hs Hk Hd. member_of Hs "coverage" coverage Hcov Hcovc.
  destruct (dict_member _ _ k _ Hcovc eq_refl Hk Hd) as (w & Hw & _). exists w.
  unfold coverage_item. rewrite (jitem_Ok _ _ _ Hcov). exact (jitem_Ok _ _ _ Hw).
Qed.

Lemma map_result_total {A B} (f : A -> result B) l :
  Forall (fun x => exists y, f x = Ok y) l -> exists ys, map_result f l = Ok ys /\ length ys = length l.
Proof.
  induction 1 as [|x l [y Hy] _ (ys & IH & Hl)]; [by exists []|].
  exists (y :: ys). cbn. rewrite Hy. cbn [pbind mbind result_bind].
  unfold pbind, mbind, result_bind. rewrite IH. by rewrite Hl.
Qed.

Lemma max_str_total l : l <> [] -> exists m, max_str l = Ok m.
Proof. destruct l; [done|]. by eexists. Qed.

Lemma aggregate_status_complete statuses :
  aggregate_status statuses = "complete" <-> statuses <> [] /\ Forall (fun s => s = "complete") statuses.
Proof.
  unfold aggregate_status. destruct (bool_decide (statuses = [])) eqn:E.
  - apply bool_decide_eq_true in E as ->. cbn. naive_solver.
  - apply bool_decide_eq_false in E. cbn [negb andb].
    destruct (forallb _ statuses) eqn:F.
    + split; [intros _; split; [done|]|done]. apply List.Forall_forall. intros s Hs.
      apply String.eqb_eq. by apply (proj1 (forallb_forall _ _) F).
    + split; [by destruct (existsb _ _)|]. intros [_ Hall]. exfalso.
      assert (forallb (fun s => String.eqb s "complete") statuses = true); [|congruence].
      apply forallb_forall. intros s Hs. rewrite List.Forall_forall in Hall. by apply String.eqb_eq, Hall.
Qed.

Lemma aggregate_status_cases statuses :
  aggregate_status statuses = "complete" \/ aggregate_status statuses = "partial" \/
  aggregate_status statuses = "unknown".
Proof.
  unfold aggregate_status. destruct (_ && _); [by left|]. destruct (existsb _ _); [by right; left|by right; right].
Qed.

Lemma aggregate_status_conforms statuses :
  conforms (JStr (aggregate_status statuses)) coverage_status_schema.
Proof. destruct (aggregate_status_cases statuses) as [->|[->| ->]]; by apply conforms_by_check. Qed.

Lemma same_range_conforms ranges :
  Forall (fun r => conforms r range_schema) ranges -> conforms (same_range ranges) range_schema.
Proof.
  intros Hr. destruct Hr as [|first rest Hf _]; [by apply conforms_by_check|]. unfold same_range.
  destruct (forallb _ _); [exact Hf|by apply conforms_by_check].
Qed.

Lemma merged_json_conforms x : conforms (merged_json x) _merged_item_schema.
Proof. closed_record. each_member; scalar. Qed.
Definition source_complete (source : json) : Prop :=
  exists coverage, jget source "coverage" = Some coverage /\
    jget coverage "status" = Some (JStr "complete").

Lemma facts_status sources facts : Forall source_ok sources ->
  Forall2 (fun source f => read_source source = Ok f) sources facts ->
  (Forall (fun s => s = "complete") (map f_status facts) <-> Forall source_complete sources) /\
  Forall (fun r => conforms r range_schema) (map f_requested_range facts) /\
  length facts = length sources.
Proof.
  intros Hok Hf. induction Hf as [|source f sources facts Hr _ IH]; cbn.
  - split; [split; constructor|]. split; [constructor|done].
  - inversion Hok as [|? ? (f' & Hr' & _ & _ & Hcov & Hst & Hra) Hok']; subst.
    rewrite Hr in Hr'. injection Hr' as <-. destruct (IH Hok') as (IH1 & IH2 & IH3).
    split; [|split; [by constructor|by rewrite IH3]]. rewrite !Forall_cons, IH1. unfold source_complete.
    split; intros [H1 H2]; (split; [|exact H2]).
    + exists (f_coverage f). rewrite <- H1. done.
    + destruct H1 as (cov & Hc1 & Hc2). rewrite Hcov in Hc1. injection Hc1 as <-. congruence.
Qed.

(** The parts of a merge report that are determined by the sources. *)
Definition merges (sources : list json) (output : json) (summaries : list json) : Prop :=
  let kept := nub merge_key (source_rows sources) in
  jget output "items" = Some (JArr (map (fun r => merged_json (to_merged r)) kept)) /\
  jget output "item_count" = Some (JInt (Z.of_nat (length kept))) /\
  jget output "duplicate_count" =
    Some (JInt (Z.of_nat (length (source_rows sources)) - Z.of_nat (length kept))) /\
  jget output "source_summaries" = Some (JArr summaries) /\ length summaries = length sources /\
  sum (map summary_count summaries) = Z.of_nat (length kept) /\
  (jget output "source_incomplete" = Some (JBool false) <-> Forall source_complete sources) /\
  (source_complete output <-> Forall source_complete sources).

Lemma incomplete_flag s :
  Some (JBool (negb (String.eqb s "complete"))) = Some (JBool false) <-> s = "complete".
Proof. destruct (String.eqb_spec s "complete") as [->|Hs]; cbn; split; [done|done|discriminate|done]. Qed.

Lemma merge_handler arguments sources
  (Hinput : conforms arguments (input_schema merge_spec))
  (Hsources : jget arguments "sources" = Some (JArr sources)) (Hne : sources <> []) :
  exists output summaries, _merge_work_items arguments = Ok output /\ merges sources output summaries /\
    is_dict output = true /\ conforms output (output_schema merge_spec) /\
    jget output "draft" = None.
Proof.
  member_of Hinput "sources" w Hw Hwc. rewrite Hsources in Hw. injection Hw as <-.
  destruct (conforms_list _ _source_result_schema Hwc eq_refl) as (l & [= <-] & Hconf).
  assert (Hok : Forall source_ok sources) by (eapply Forall_impl; [exact Hconf|apply conforms_source_ok]).
  destruct (merge_sources_spec sources Hok (Merge [] [] 0))
    as (st & facts & summaries & Hm & Hkept & Hfacts & Hsumm & Hsl).
  cbv zeta in Hkept. cbn [merge_seen merged merge_duplicates app] in Hkept.
  rewrite dedup_nil in Hkept. destruct Hkept as (Hmd & Hdup & Hcount).
  destruct (facts_status _ _ Hok Hfacts) as (Hcomplete & Hranges & Hlen).
  assert (Hitems : forall k d, In k (required _coverage_schema) -> definition _coverage_schema k = Some d ->
    exists ys, map_result (coverage_item k) sources = Ok ys /\ length ys = length sources).
  { intros k d Hk Hd. apply map_result_total. eapply Forall_impl; [exact Hconf|].
    intros s Hs. exact (coverage_item_total k d s Hs Hk Hd). }
  destruct (Hitems "queryApplied" _ ltac:(required_key) eq_refl) as (applied & Happ & _).
  destruct (Hitems "hasMore" _ ltac:(required_key) eq_refl) as (more & Hmore & _).
  destruct (Hitems "observedAt" _ ltac:(required_key) eq_refl) as (observed & Hobs & Hol).
  destruct (max_str_total (map py_str observed)) as [m Hmax].
  { intros E. apply map_eq_nil in E. subst. destruct sources; done. }
  assert (Hfl : facts <> []) by (intros ->; by destruct sources).
  assert (Hst : aggregate_status (map f_status facts) = "complete" <-> Forall source_complete sources).
  { rewrite aggregate_status_complete, Hcomplete. split; [tauto|]. split; [|done].
    intros E. by apply map_eq_nil in E. }
  eexists _, summaries. split.
  { unfold _merge_work_items. rewrite (jitem_Ok _ _ _ Hsources). cbn [pbind mbind result_bind].
    unfold pbind, mbind, result_bind. rewrite Hm, Happ, Hmore, Hobs, Hmax. reflexivity. }
  split; [|split; [reflexivity|split; [|reflexivity]]].
  - unfold merges. cbv zeta. cbn [jget assoc]. rewrite Hmd, Hdup, !length_map, map_map.
    split; [reflexivity|]. split; [reflexivity|]. split; [reflexivity|]. split; [reflexivity|].
    split; [exact Hsl|]. split; [exact Hcount|]. rewrite <- Hst. split.
    + apply (incomplete_flag (aggregate_status (map f_status facts))).
    + unfold source_complete. split.
      * intros (cov & [= <-] & Hc). by injection Hc.
      * intros E. eexists. split; [reflexivity|]. cbn. by rewrite E.
  - closed_record. each_member; try scalar.
    + apply (conforms_array _ _merged_item_schema), Forall_map_intro, merged_json_conforms.
    + apply (conforms_array _ _source_summary_schema), Hsumm.
    + closed_record. each_member; try scalar.
      * apply aggregate_status_conforms.
      * apply same_range_conforms, Hranges.
Qed.

Lemma merge_invoked arguments sources
  (Hinput : conforms arguments (input_schema merge_spec))
  (Hsources : jget arguments "sources" = Some (JArr sources)) (Hne : sources <> [])
  (Hcount : (input_count merge_spec arguments <= 200)%Z) :
  exists output summaries, invoke MERGE_WORK_ITEMS arguments transforms = Ok output /\
    merges sources output summaries /\ conforms output (output_schema merge_spec).
Proof.
  destruct (merge_handler arguments sources Hinput Hsources Hne)
    as (output & summaries & Ho & Hmerges & Hd & Hc & Hdraft).
  exists output, summaries. split; [|split; [exact Hmerges|exact Hc]].
  apply invoke_contract_intro with merge_spec _merge_work_items.
  all: try first [exact merge_registered|exact Hinput|exact Hcount|exact Ho|exact Hd|exact Hc].
  - by destruct (conforms_dict _ _ Hinput eq_refl) as [kvs ->].
  - intros d Hdd. by rewrite Hdraft in Hdd.
Qed.

(** The merge keeps, over all sources in order, the first row of each stable
    identifier of each collection and every row without one; the summaries account
    for each kept row once; and the merged set is declared complete when and only when
    every source is.  It succeeds on every accepted input with at least one source. *)
Theorem merge_exact arguments sources reg
  (Hreg : build_transform_registry = Ok reg)
  (Hinput : conforms arguments (input_schema merge_spec))
  (Hsources : jget arguments "sources" = Some (JArr sources)) (Hne : sources <> [])
  (Hcount : (input_count merge_spec arguments <= 200)%Z) :
  exists output summaries,
    invoke MERGE_WORK_ITEMS arguments reg = Ok output /\ merges sources output summaries.
Proof.
  rewrite build_registry in Hreg. injection Hreg as <-.
  destruct (merge_invoked arguments sources Hinput Hsources Hne Hcount)
    as (output & summaries & Hi & Hmerges & _).
  by exists output, summaries.
Qed.

(** An empty list of sources conforms to the merge's input schema, yet the merge
    then leaves with the [ValueError] of [max] and not with a rejection. *)
Theorem merge_without_sources reg (Hreg : build_transform_registry = Ok reg) :
  conforms (JObj [("sources", JArr [])]) (input_schema merge_spec) /\
  invoke MERGE_WORK_ITEMS (JObj [("sources", JArr [])]) reg =
    Raise (Exn ValueError "max() iterable argument is empty").
Proof.
  rewrite build_registry in Hreg. injection Hreg as <-. split; [by apply conforms_by_check|].
  reflexivity.
Qed.

(** ** Drafts of a merged bundle *)

Definition bundle_key (raw : json) : option string :=
  Some (if json_truthy (jget_or_null raw "source_affair_id")
        then shown raw "source_collection" +:+ ":" +:+ shown raw "source_affair_id"
        else shown raw "source_collection" +:+ ":" +:+ row_title raw +:+ ":" +:+ shown raw "date").

Definition normalized (raw : json) : merged_item :=
  MergedItem (text_of raw "source_collection") (text_of raw "source_affair_id") (text_of raw "title")
    (text_of raw "date") (text_of raw "category") (text_of raw "status").

Fixpoint bundle_lines (n : nat) (rows : list json) : list string :=
  match rows with
  | [] => []
  | raw :: rest =>
      draft_line n (action_of (text_of raw "source_collection")) (row_title raw)
        (context_suffix (text_of raw "category") (text_of raw "date")) :: bundle_lines (S n) rest
  end.

(** The loop up to its [break], from any state. *)
Lemma draft_items_prefix rows : forall st, text_fits (d_lines st) ->
  let kept := dedup bundle_key (d_seen st) (List.filter (fun raw => negb (automatic raw)) rows) in
  let draw l := d_lines st ++ bundle_lines (S (length (d_lines st))) l in
  exists n, longest_prefix draw kept n /\
    d_lines (draft_items st rows) = draw (firstn n kept) /\
    d_included (draft_items st rows) = d_included st ++ map normalized (firstn n kept).
Proof.
  induction rows as [|raw rows IH]; intros st Hfit; cbv zeta.
  - exists 0%nat. unfold longest_prefix. cbn. rewrite !app_nil_r.
    split; [split; [lia|split; [exact Hfit|lia]]|split; reflexivity].
  - cbn [draft_items List.filter]. cbv zeta. cbv zeta in IH.
    fold (row_title raw) (row_category raw). fold (automatic raw).
    destruct (automatic raw); cbn [negb].
    { exact (IH (DraftState (d_lines st) (d_included st) (d_seen st) (d_automatic st + 1)
        (d_duplicates st)) Hfit). }
    assert (Hfresh : forall seen, fresh bundle_key seen raw =
      negb (str_in (match bundle_key raw with Some k => k | None => "" end) seen)) by reflexivity.
    cbn [dedup]. rewrite Hfresh. cbn [bundle_key].
    destruct (str_in _ (d_seen st)); cbn [negb].
    { exact (IH (DraftState (d_lines st) (d_included st) (d_seen st) (d_automatic st)
        (d_duplicates st + 1)) Hfit). }
    cbn [m_collection m_category m_date].
    match goal with |- context [(draft_limit <? py_len (py_join newline (_ ++ [?c])))%Z] => set (line := c) end.
    destruct (draft_limit <? _)%Z eqn:Hl.
    + exists 0%nat. apply Z.ltb_lt in Hl. unfold longest_prefix. cbn [firstn map bundle_lines d_lines d_included].
      rewrite !app_nil_r. split; [|split; reflexivity]. split; [cbn; lia|]. split; [exact Hfit|].
      intros _ Hc. exact (Z.lt_irrefl _ (Z.lt_le_trans _ _ _ Hl Hc)).
    + apply Z.ltb_ge in Hl.
      match goal with |- context [draft_items ?s' rows] => destruct (IH s' Hl) as (n & (Hn & Hf & Hmax) & Hlines & Hinc) end.
      cbn [d_lines d_included d_seen] in *. exists (S n). unfold longest_prefix.
      cbn [firstn bundle_lines length map]. fold line. rewrite length_app, Nat.add_1_r in *.
      assert (E : forall l, (d_lines st ++ [line]) ++ l = d_lines st ++ line :: l) by (intros; by rewrite <- app_assoc).
      rewrite E in Hf, Hlines. rewrite <- app_assoc in Hinc.
      split; [|split; [exact Hlines|exact Hinc]]. split; [lia|]. split; [exact Hf|].
      intros Hlt. rewrite <- E. apply Hmax. lia.
Qed.

Lemma bundle_lines_length n rows : length (bundle_lines n rows) = length rows.
Proof. revert n. induction rows as [|x rows IH]; intros n; [done|]. cbn. by rewrite IH. Qed.
(** The rows of a bundle that may enter the draft. *)
Definition draftable (rows : list json) : list json :=
  nub bundle_key (List.filter (fun raw => negb (automatic raw)) rows).

(** The parts of a draft report that are determined by the bundle. *)
Definition drafts (bundle : json) (rows : list json) (output : json) : Prop :=
  (exists n, longest_prefix (bundle_lines 1) (draftable rows) n /\
    jget output "draft" = Some (JStr (py_join newline (bundle_lines 1 (firstn n (draftable rows))))) /\
    jget output "included_count" = Some (JInt (Z.of_nat n)) /\
    jget output "included_items" =
      Some (JArr (map (fun raw => merged_json (normalized raw)) (firstn n (draftable rows))))) /\
  jget output "source_summaries" = jget bundle "source_summaries" /\
  jget output "coverage" = jget bundle "coverage" /\
  (jget output "source_incomplete" = Some (JBool false) <-> source_complete bundle).

Lemma draft_v2_handler arguments bundle rows
  (Hinput : conforms arguments (input_schema draft_v2_spec))
  (Hbundle : jget arguments "bundle" = Some bundle)
  (Hrows : jget bundle "items" = Some (JArr rows)) :
  exists output, _work_items_to_log_draft_v2 arguments = Ok output /\ drafts bundle rows output /\
    is_dict output = true /\ conforms output (output_schema draft_v2_spec) /\ draft_fits 4000 output.
Proof.
  member_of Hinput "bundle" w Hw Hb. rewrite Hbundle in Hw. injection Hw as <-.
  member_of Hb "coverage" coverage Hcov Hcovc. member_of Hcovc "status" status Hst Hstc.
  member_of Hb "source_summaries" summaries Hsum Hsumc.
  destruct (conforms_status _ Hstc) as [t ->].
  destruct (draft_items_prefix rows (DraftState [] [] [] 0 0)) as (n & Hpre & Hlines & Hinc);
    [unfold text_fits, draft_limit; vm_compute; discriminate|].
  cbn [d_lines d_included d_seen app length] in Hpre, Hlines, Hinc.
  rewrite dedup_nil in *. fold (draftable rows) in *.
  assert (Hn : length (firstn n (draftable rows)) = n) by (rewrite length_firstn; destruct Hpre; lia).
  eexists. split.
  { unfold _work_items_to_log_draft_v2. rewrite (jitem_Ok _ _ _ Hbundle). cbn [pbind mbind result_bind].
    unfold pbind, mbind, result_bind.
    rewrite (jitem_Ok _ _ _ Hrows), (jitem_Ok _ _ _ Hcov), (jitem_Ok _ _ _ Hst), (jitem_Ok _ _ _ Hsum).
    cbv zeta. rewrite Hlines, Hinc, map_map, length_map, Hn. reflexivity. }
  split; [|split; [reflexivity|split]].
  - split; [exists n|].
    { split; [exact Hpre|]. split; [reflexivity|]. split; reflexivity. }
    split; [by rewrite Hsum|]. split; [by rewrite Hcov|].
    rewrite (incomplete_flag t). unfold source_complete. rewrite Hcov. split.
    + intros ->. by exists coverage.
    + intros (c & [= <-] & Hc). congruence.
  - closed_record. each_member; try scalar; [exact Hsumc|exact Hcovc|].
    apply (conforms_array _ _merged_item_schema), Forall_map_intro. intros x. apply merged_json_conforms.
  - intros d [= <-]. apply Hpre.
Qed.

Lemma draft_v2_invoked arguments bundle rows
  (Hinput : conforms arguments (input_schema draft_v2_spec))
  (Hbundle : jget arguments "bundle" = Some bundle)
  (Hrows : jget bundle "items" = Some (JArr rows)) (Hcount : (Z.of_nat (length rows) <= 100)%Z) :
  exists output, invoke WORK_ITEMS_TO_LOG_DRAFT_V2 arguments transforms = Ok output /\
    drafts bundle rows output.
Proof.
  destruct (draft_v2_handler arguments bundle rows Hinput Hbundle Hrows)
    as (output & Ho & Hdrafts & Hd & Hc & Hfit).
  exists output. split; [|exact Hdrafts].
  apply invoke_contract_intro with draft_v2_spec _work_items_to_log_draft_v2.
  all: try first [exact draft_v2_registered|exact Hinput|exact Ho|exact Hd|exact Hc|exact Hfit].
  - by destruct (conforms_dict _ _ Hinput eq_refl) as [kvs ->].
  - unfold input_count, draft_v2_spec. cbn [input_item_counter maximum_input_items].
    unfold _count_bundle_items, list_or_empty, jget_or_null. by rewrite Hbundle, Hrows.
Qed.

(** The second draft transform never fails on an accepted bundle of at most 100
    rows: it drafts the longest prefix, within 4000 characters, of the first row of
    each key among the rows that are not automatic, hands the summaries and the coverage
    on unchanged, and flags the source incomplete unless the bundle is complete. *)
Theorem draft_v2_exact arguments bundle rows reg
  (Hreg : build_transform_registry = Ok reg)
  (Hinput : conforms arguments (input_schema draft_v2_spec))
  (Hbundle : jget arguments "bundle" = Some bundle)
  (Hrows : jget bundle "items" = Some (JArr rows)) (Hcount : (Z.of_nat (length rows) <= 100)%Z) :
  exists output, invoke WORK_ITEMS_TO_LOG_DRAFT_V2 arguments reg = Ok output /\
    drafts bundle rows output.
Proof.
  rewrite build_registry in Hreg. injection Hreg as <-. by apply draft_v2_invoked.
Qed.

(** The two transforms compose: what a merge of at least one source returns, when it
    kept at most 100 rows, is accepted as the bundle of the draft, and the draft
    is free of the incompleteness flag when and only when every merged source was complete. *)
Theorem merge_then_draft arguments sources reg
  (Hreg : build_transform_registry = Ok reg)
  (Hinput : conforms arguments (input_schema merge_spec))
  (Hsources : jget arguments "sources" = Some (JArr sources)) (Hne : sources <> [])
  (Hcount : (input_count merge_spec arguments <= 200)%Z)
  (Hkept : (length (nub merge_key (source_rows sources)) <= 100)%nat) :
  exists bundle output, invoke MERGE_WORK_ITEMS arguments reg = Ok bundle /\
    invoke WORK_ITEMS_TO_LOG_DRAFT_V2 (JObj [("bundle", bundle)]) reg = Ok output /\
    (jget output "source_incomplete" = Some (JBool false) <-> Forall source_complete sources).
Proof.
  rewrite build_registry in Hreg. injection Hreg as <-.
  destruct (merge_invoked arguments sources Hinput Hsources Hne Hcount)
    as (bundle & summaries & Hi & Hmerges & Hc).
  destruct Hmerges as (Hitems & _ & _ & _ & _ & _ & _ & Hcomplete).
  destruct (fun Hin Hn => draft_v2_invoked (JObj [("bundle", bundle)]) bundle _ Hin eq_refl Hitems Hn)
    as (output & Ho & Hdrafts).
  - closed_record. each_member. exact Hc.
  - rewrite length_map. lia.
  - exists bundle, output. split; [exact Hi|]. split; [exact Ho|]. rewrite <- Hcomplete. apply Hdrafts.
Qed.
End Handlers.

(** ** Concrete inputs

    The properties of the transforms, applied to the registry of the program and to one item list, two sources and the bundle they merge into. *)

Module Demo.
#[local] Existing Instance ascii_tables.

Definition reg : TransformRegistry := Registry registry_specs registry_handlers.

Definition row (affair_id title : string) : json :=
  JObj [("affair_id", JStr affair_id); ("title", JStr title); ("date", JStr "2024-05-01");
        ("category", JStr "")].

Definition items_input : json :=
  JObj [("items", JArr [row "a1" "Review contract"; row "a1" "Review contract again";
                        row "" "Plan release"; row "" "系统通知 12"])].

Lemma draft_total_witness :
  conforms items_input (input_schema draft_spec) /\
  exists output, invoke WORK_ITEMS_TO_LOG_DRAFT items_input reg = Ok output /\
    conforms output (output_schema draft_spec) /\ draft_fits 4000 output.
Proof.
  assert (Hc : conforms items_input (input_schema draft_spec)) by (apply conforms_by_check; reflexivity).
  split; [exact Hc|]. refine (draft_total items_input reg build_registry Hc _). vm_compute. discriminate.
Defined.

Definition coverage (status : string) : json :=
  JObj [("status", JStr status); ("queryApplied", JBool true); ("dateBasis", JStr "created");
        ("requestedRange", JObj [("start", JStr "2024-05-01"); ("end", JNull)]);
        ("scannedCount", JInt 3); ("matchedCount", JInt 2); ("hasMore", JBool false);
        ("completionReason", JStr "exhausted"); ("observedAt", JStr "2024-05-02T00:00:00Z");
        ("queryHash", JStr "sha256:00")].

Definition source (collection status : string) (items : list json) : json :=
  JObj [("collection", JStr collection); ("items", JArr items); ("coverage", coverage status)].

Definition sources : list json :=
  [source "done" "complete" [row "a1" "Review contract"; row "a1" "Review contract"];
   source "sent" "partial" [row "a1" "Review contract"; row "" "Plan release"]].

Definition merge_input : json := JObj [("sources", JArr sources)].

Lemma merge_input_conforms : conforms merge_input (input_schema merge_spec).
Proof. apply conforms_by_check. reflexivity. Qed.

Lemma merge_exact_witness :
  exists output summaries, invoke MERGE_WORK_ITEMS merge_input reg = Ok output /\
    merges sources output summaries /\
    jget output "item_count" = Some (JInt 3) /\ jget output "duplicate_count" = Some (JInt 1).
Proof.
  destruct (merge_exact merge_input sources reg build_registry merge_input_conforms eq_refl
              ltac:(discriminate) ltac:(vm_compute; discriminate)) as (output & summaries & Hi & Hm).
  exists output, summaries. split; [exact Hi|]. split; [exact Hm|].
  destruct Hm as (_ & Hcount & Hdup & _). split; [exact Hcount|exact Hdup].
Defined.

Lemma merge_without_sources_witness :
  invoke MERGE_WORK_ITEMS (JObj [("sources", JArr [])]) reg =
    Raise (Exn ValueError "max() iterable argument is empty").
Proof. exact (proj2 (merge_without_sources reg build_registry)). Defined.

Definition bundle : json :=
  match invoke MERGE_WORK_ITEMS merge_input reg with Ok output => output | Raise _ => JNull end.

Definition bundle_rows : list json := list_or_empty bundle "items".

Lemma draft_v2_exact_witness :
  exists output, invoke WORK_ITEMS_TO_LOG_DRAFT_V2 (JObj [("bundle", bundle)]) reg = Ok output /\
    drafts bundle bundle_rows output.
Proof.
  apply (draft_v2_exact (JObj [("bundle", bundle)]) bundle bundle_rows reg build_registry).
  - apply conforms_by_check. vm_compute. reflexivity.
  - reflexivity.
  - vm_compute. reflexivity.
  - vm_compute. discriminate.
Defined.

Lemma merge_then_draft_witness :
  exists bundle output, invoke MERGE_WORK_ITEMS merge_input reg = Ok bundle /\
    invoke WORK_ITEMS_TO_LOG_DRAFT_V2 (JObj [("bundle", bundle)]) reg = Ok output /\
    (jget output "source_incomplete" = Some (JBool false) <-> Forall source_complete sources).
Proof.
  apply (merge_then_draft merge_input sources reg build_registry merge_input_conforms eq_refl).
  - discriminate.
  - vm_compute. discriminate.
  - vm_compute. lia.
Defined.
End Demo.
