(* ===== verification/Capabilities.v ===== *)
(** * Capability specifications and their registry (agentbridge/core/capability.py) *)

From Stdlib Require Import Ascii.
From S2P Require Import Prelude PyStr Json.

Section Capabilities.
Context `{UnicodeDigits}.

Definition is_lower (a : ascii) : bool :=
  let n := byte_code a in ((97 <=? n) && (n <=? 122))%N.

(** A character of [a-z0-9_-] *)
Definition name_char (a : ascii) : bool :=
  is_lower a || is_digit a || Ascii.eqb a "_" || Ascii.eqb a "-".

Fixpoint all_chars (p : ascii -> bool) (s : string) : bool :=
  match s with EmptyString => true | String a s' => p a && all_chars p s' end.

(** A segment between dots: a lower case letter, then name characters. *)
Definition name_segment (s : string) : bool :=
  match s with String a s' => is_lower a && all_chars name_char s' | EmptyString => false end.

(** [_CAPABILITY_NAME_RE.fullmatch] *)
Definition valid_name (name : string) : bool :=
  let segments := split_on "." name in
  (2 <=? length segments)%nat && forallb name_segment segments.

(** One number of [_SEMVER_RE]: 0, or a digit from 1 to 9 and decimal digits of any script. *)
Definition version_number (s : string) : bool :=
  String.eqb s "0"
  || match chars s with
     | String a "" :: rest =>
         let n := byte_code a in
         ((49 <=? n) && (n <=? 57))%N
         && forallb (fun c => match decimal_value c with Some _ => true | None => false end) rest
     | _ => false
     end.

(** [_SEMVER_RE.fullmatch] *)
Definition valid_version (version : string) : bool :=
  let numbers := split_on "." version in
  (length numbers =? 3)%nat && forallb version_number numbers.

Definition effects : list string := ["read"; "reversible_write"; "controlled_write"].

Record CapabilitySpec : Type := Spec {
  name : string;
  version : string;
  description : string;
  input_schema : json;
  output_schema : json;
  effect : string;
  adapter : string;
  workflow : string;
}.

(** [__post_init__] *)
Definition check (s : CapabilitySpec) : result CapabilitySpec :=
  raise_if (negb (valid_name (name s))) ValueError ("invalid capability name: " +:+ name s);;
  raise_if (negb (valid_version (version s))) ValueError ("invalid capability version: " +:+ version s);;
  raise_if (negb (str_in (effect s) effects)) ValueError ("invalid capability effect: " +:+ effect s);;
  raise_if (negb (is_dict (input_schema s)) || negb (is_dict (output_schema s))) TypeError
    "capability schemas must be JSON objects";;
  raise_if (negb (truthy (adapter s)) || negb (truthy (workflow s))) ValueError
    "capability adapter and workflow are required";;
  Ok s.

Definition system (s : CapabilitySpec) : string := split1_head "." (name s).

(** Equality of the frozen dataclass *)
Definition spec_eqb (s t : CapabilitySpec) : bool :=
  String.eqb (name s) (name t) && String.eqb (version s) (version t)
  && String.eqb (description s) (description t)
  && py_eqb (input_schema s) (input_schema t) && py_eqb (output_schema s) (output_schema t)
  && String.eqb (effect s) (effect t) && String.eqb (adapter s) (adapter t)
  && String.eqb (workflow s) (workflow t).

(** [self._specs] *)
Definition CapabilityRegistry : Type := gmap string CapabilitySpec.

Definition register (s : CapabilitySpec) (reg : CapabilityRegistry) : result CapabilityRegistry :=
  raise_if (match reg !! name s with Some existing => negb (spec_eqb existing s) | None => false end)
    ValueError ("capability already registered: " +:+ name s);;
  Ok (<[name s := s]> reg).

Definition get (n : string) (reg : CapabilityRegistry) : result CapabilitySpec :=
  match reg !! n with
  | Some s => Ok s
  | None => raise KeyError ("unknown capability: " +:+ n)
  end.

(** By name and version; names are unique. *)
Definition spec_leb (s t : CapabilitySpec) : bool :=
  if String.eqb (name s) (name t) then str_leb (version s) (version t) else str_leb (name s) (name t).

Definition list_specs (wanted : option string) (reg : CapabilityRegistry) : list CapabilitySpec :=
  sort_by spec_leb (List.filter (fun s => match wanted with
    | Some w => if truthy w then String.eqb (system s) w else true
    | None => true
    end) (map snd (map_to_list reg))).

Definition to_dict (s : CapabilitySpec) : json :=
  JObj [("name", JStr (name s)); ("version", JStr (version s)); ("description", JStr (description s));
        ("input_schema", input_schema s); ("output_schema", output_schema s);
        ("effect", JStr (effect s)); ("adapter", JStr (adapter s)); ("workflow", JStr (workflow s));
        ("system", JStr (system s))].

Definition describe (n : string) (reg : CapabilityRegistry) : result json :=
  s ← get n reg; Ok (to_dict s).
End Capabilities.
