(* ===== verification/PlanningPolicy.v ===== *)
(** * Planning descriptors (agentbridge/core/planning_policy.py, query_contracts.py)

    Which capabilities a composed plan may use as sources and as sink, and what the plan must
    say about their dates and inputs. *)

From S2P Require Import Prelude PyStr Json Sha256 Store.

Definition strings (l : list string) : json := JArr (map JStr l).

(** agentbridge/core/query_contracts.py *)
Definition oa_history_query_contract (collection : string) : result json :=
  raise_if (negb (str_in collection ["done"; "sent"])) ValueError
    "history query contract only supports done and sent";;
  Ok (JObj
    [("schemaVersion", JStr "agentbridge.query-contract.v1");
     ("dateBasis", JStr (if String.eqb collection "done" then "processed_at" else "initiated_at"));
     ("timeZone", JStr "Asia/Shanghai");
     ("filters", JObj
       [("dateRange", JObj
          [("arguments", strings ["start_date"; "end_date"]); ("format", JStr "YYYY-MM-DD");
           ("bounds", JStr "inclusive"); ("openBoundsSupported", JBool true);
           ("execution", JStr "server")]);
        ("keyword", JObj
          [("argument", JStr "keyword"); ("execution", JStr "client_after_date_filter");
           ("matches", JStr "public_item_fields_case_insensitive")])]);
     ("pagination", JObj
       [("mode", JStr "automatic_filtered_pages"); ("pageSize", JInt 50);
        ("maxScannedRows", JInt 1000); ("timeBudgetSeconds", JInt 20);
        ("limitArgument", JStr "limit"); ("maximumLimit", JInt 1000);
        ("withoutDateRange", JStr "loaded_page_only")]);
     ("ordering", JStr "source_order_not_a_proof_of_completeness");
     ("completeness", JObj
       [("pointer", JStr "/coverage"); ("requiredForDerivedWrite", JStr "complete");
        ("proof", JStr "all_filtered_pages_validated_and_no_output_truncation");
        ("fallbackToUnfilteredScan", JBool false)])]).

(** The value of a call that returns when the module is loaded. *)
Definition loaded (r : result json) : json := match r with Ok v => v | Raise _ => JNull end.

Definition history_source (tool collection basis : string) : list (string * json) :=
  [("mcpToolName", JStr tool); ("roles", strings ["business_source"]);
   ("sourceContract", JObj
     [("itemsPointer", JStr "/items"); ("coveragePointer", JStr "/coverage");
      ("dateArguments", strings ["start_date"; "end_date"]); ("dateBasis", JStr basis);
      ("queryContract", loaded (oa_history_query_contract collection))])].

Definition _DESCRIPTORS : list (string * list (string * json)) :=
  [("oa.workflow.pending.list",
     [("roles", strings ["selector"]);
      ("selectorContract", JObj [("resourcePointer", JStr "/items")])]);
   ("oa.workflow.done.list", history_source "oa_workflow_done_list" "done" "processed_at");
   ("oa.workflow.sent.list", history_source "oa_workflow_sent_list" "sent" "initiated_at");
   ("taihua.work_log.create.prepare",
     [("mcpToolName", JStr "taihua_work_log_create_prepare"); ("roles", strings ["write_sink"]);
      ("inputProvenance", JObj
        [("content", JStr "user_or_bound_transform"); ("hours", JStr "user_decision");
         ("log_date", JStr "user_constraint"); ("project", JStr "user_decision")])])].

Definition planning_capability_for_tool (tool_name : option string) : option string :=
  match tool_name with
  | None => None
  | Some tool =>
      option_map fst (List.find (fun nd => match assoc "mcpToolName" (snd nd) with
        | Some (JStr name) => String.eqb name tool && truthy tool
        | _ => false
        end) _DESCRIPTORS)
  end.

Definition planning_descriptor (capability_name : string) : option json :=
  option_map (fun value => JObj (("schemaVersion", JStr "agentbridge.planning-descriptor.v1")
      :: ("capabilityName", JStr capability_name) :: value))
    (assoc capability_name _DESCRIPTORS).

Definition planning_role (capability_name : string) : option json :=
  match planning_descriptor capability_name with
  | Some descriptor =>
      match jget descriptor "roles" with Some (JArr (role :: _)) => Some role | _ => None end
  | None => None
  end.

Section Authority.
Context `{UnicodeTables}.

(** [str(identity.get(key) or "")] *)
Definition text_of (identity : json) (key : string) : string :=
  let v := jget_or_null identity key in if json_truthy v then py_str v else "".

Definition hex4_text (n : N) : string :=
  hex_digit (n / 4096 mod 16) +:+ hex_digit (n / 256 mod 16) +:+ hex_digit (n / 16 mod 16)
  +:+ hex_digit (n mod 16).

(** A character as [json.dumps] writes it by default: what is not ASCII as UTF-16 escapes. *)
Definition ascii_char (c : string) : string :=
  let n := codepoint c in
  let unit k := String backslash ("u" +:+ hex4_text k) in
  if (n <? 127)%N then escape c
  else if (n <? 65536)%N then unit n
  else unit (55296 + (n - 65536) / 1024)%N +:+ unit (56320 + (n - 65536) mod 1024)%N.

Definition ascii_quote (s : string) : string :=
  String dquote (fold_right (fun c t => ascii_char c +:+ t) "" (chars s) +:+ String dquote "").

(** [json.dumps(l, separators=(",", ":"))] of a list of strings *)
Definition ascii_list (l : list string) : string := "[" +:+ py_join "," (map ascii_quote l) +:+ "]".

Definition authority_snapshot (identity : json) (required_scopes : list string) : json :=
  let scopes := sort_by str_leb
    (match jget identity "scopes" with Some (JArr l) => map py_str l | _ => [] end) in
  JObj [("schemaVersion", JStr "agentbridge.execution-authority-snapshot.v1");
        ("tokenId", JStr (text_of identity "token_id"));
        ("userSubject", JStr (text_of identity "user_subject"));
        ("expiresAt", jget_or_null identity "expires_at");
        ("scopeHash", JStr ("sha256:" +:+ sha256_hex (ascii_list scopes)));
        ("requiredScopes", strings (sort_by str_leb required_scopes))].
End Authority.

Example ascii_char_ex : map ascii_char ["a"; "系"] = ["a"; String backslash "u7cfb"].
Proof. reflexivity. Qed.
