(* ===== verification/PlanValidation.v ===== *)
(** * Validation and compilation of plans (agentbridge/core/task_plan_validation.py)

    A proposal, a JSON object written by a model, becomes a plan of ordered steps, or is
    rejected.  The schemas of the registries are read as in [InputValidation]; the
    pydantic models of the file, which only describe proposals to the host, are left out. *)

From Stdlib Require Import Ascii.
From S2P Require Import Prelude PyStr Json Sha256 Store InputValidation PlanningPolicy.
From S2P Require Capabilities Transforms TaskPlans.

Definition MAX_PLAN_STEPS : nat := 12.
Definition MAX_GOAL_CHARS : Z := 500.

Definition _ALLOWED_PROPOSAL_FIELDS : list string := ["schemaVersion"; "goal"; "constraints"; "steps"].
Definition _ALLOWED_STEP_FIELDS : list string :=
  ["stepKey"; "kind"; "capabilityName"; "transformName"; "dependsOn"; "arguments"; "bindings"].
Definition _ALLOWED_BINDING_FIELDS : list string := ["step"; "pointer"].
Definition _ALLOWED_V2_SINGLE_BINDING_FIELDS : list string := ["mode"; "step"; "pointer"].
Definition _ALLOWED_V2_MANY_BINDING_FIELDS : list string := ["mode"; "items"].
Definition _SUPPORTED_PROPOSAL_VERSIONS : list string :=
  ["agentbridge.task-plan.proposal.v1"; "agentbridge.task-plan.proposal.v2"].
Definition temporal_kinds : list string :=
  ["previous_day"; "day_before_yesterday"; "previous_calendar_week"; "absolute_range"].

(** [raise PlanValidationError(code, message, step_key=step_key)] *)
Definition reject {A} (code message : string) (step_key : option string) : result A :=
  raise (PlanValidationError code step_key) message.

Definition reject_if (b : bool) (code message : string) (step_key : option string) : result unit :=
  if b then reject code message step_key else Ok tt.

(** [v in {...}] for a set of strings: a list or a dict is not hashable. *)
Definition in_set (v : json) (l : list string) : result bool :=
  match v with
  | JStr s => Ok (str_in s l)
  | JArr _ => raise TypeError "unhashable type: 'list'"
  | JObj _ => raise TypeError "unhashable type: 'dict'"
  | _ => Ok false
  end.

(** [_STEP_KEY_RE.fullmatch] *)
Definition step_key_tail_char (a : ascii) : bool :=
  Capabilities.is_lower a || is_digit a || Ascii.eqb a "_".

Definition valid_step_key (s : string) : bool :=
  match s with
  | String a s' =>
      Capabilities.is_lower a && Capabilities.all_chars step_key_tail_char s'
      && (String.length s' <=? 63)%nat
  | EmptyString => false
  end.

Definition is_v1 (version : string) : bool := endswith ".v1" version.
Definition is_v2 (version : string) : bool := endswith ".v2" version.

(** ** Data *)

Record reference : Type := Reference { r_step : string; r_pointer : string }.

(** The three shapes of a normalized binding: without a mode, [single], [many]. *)
Inductive binding : Type :=
  | Plain (r : reference)
  | Single (r : reference)
  | Many (items : list reference).

Definition reference_json (r : reference) : list (string * json) :=
  [("step", JStr (r_step r)); ("pointer", JStr (r_pointer r))].

Definition binding_json (b : binding) : json :=
  match b with
  | Plain r => JObj (reference_json r)
  | Single r => JObj (("mode", JStr "single") :: reference_json r)
  | Many items =>
      JObj [("mode", JStr "many"); ("items", JArr (map (fun r => JObj (reference_json r)) items))]
  end.

Definition _binding_references (b : binding) : list reference :=
  match b with Plain r | Single r => [r] | Many items => items end.

(** A value of the dict [normalized]; [n_capability] is the name of a capability step, and
    otherwise [n_transform] is there. *)
Record step : Type := Step {
  n_key : string;
  n_kind : string;
  n_capability : option string;
  n_transform : option string;
  n_version : string;
  n_title : string;
  n_depends_on : list string;
  n_arguments : list (string * json);
  n_bindings : list (string * binding);
  n_effect : string;
  n_system : string;
  n_input_schema : json;
  n_output_schema : json;
}.

(** [normalized], in insertion order; the position of a key is its [source_order]. *)
Definition steps_dict : Type := list (string * step).

Section Validation.
Context `{UnicodeTables, UnicodeDigits}.

Definition _required_text (value : json) (name : string) (maximum : Z) : result string :=
  match value with
  | JStr s =>
      let normalized := py_strip s in
      reject_if (negb (truthy normalized)) "PLAN_SCHEMA_INVALID" (name +:+ " 不能为空。") None;;
      reject_if (maximum <? py_len normalized)%Z "PLAN_SCHEMA_INVALID"
        (name +:+ " 长度不能超过 " +:+ str_of_Z maximum +:+ "。") None;;
      Ok normalized
  | _ => reject "PLAN_SCHEMA_INVALID" (name +:+ " 不能为空。") None
  end.

(** ** Pointers *)

Definition decode_token (encoded : string) : string :=
  replace2 "~" "0" "~" (replace2 "~" "1" "/" encoded).

(** [pointer.split("/")[1:]], decoded *)
Definition pointer_tokens (pointer : string) : list string :=
  map decode_token (tl (split_on "/" pointer)).

(** The loop of [resolve_json_pointer] *)
Fixpoint resolve_tokens (pointer : string) (tokens : list string) (current : json) : result json :=
  match tokens with
  | [] => Ok current
  | token :: rest =>
      match current with
      | JObj kvs =>
          match assoc token kvs with
          | Some v => resolve_tokens pointer rest v
          | None => reject "PLAN_BINDING_INVALID" ("JSON Pointer 找不到字段：" +:+ pointer +:+ "。") None
          end
      | JArr l =>
          if str_isdigit token then
            index ← int_of_digits token;
            reject_if (Z.of_nat (length l) <=? index)%Z "PLAN_BINDING_INVALID"
              ("JSON Pointer 数组下标越界：" +:+ pointer +:+ "。") None;;
            match l !! Z.to_nat index with
            | Some v => resolve_tokens pointer rest v
            | None => raise IndexError "list index out of range"
            end
          else reject "PLAN_BINDING_INVALID" ("JSON Pointer 无法继续解析：" +:+ pointer +:+ "。") None
      | _ => reject "PLAN_BINDING_INVALID" ("JSON Pointer 无法继续解析：" +:+ pointer +:+ "。") None
      end
  end.

Definition resolve_json_pointer (value : json) (pointer : string) : result json :=
  if String.eqb pointer "" then Ok value
  else
    reject_if (negb (startswith "/" pointer)) "PLAN_BINDING_INVALID" "JSON Pointer 不合法。" None;;
    resolve_tokens pointer (pointer_tokens pointer) value.

(** [schema.get("type")], with [None] for an absent or null one *)
Definition type_of (schema : json) : option json :=
  match jget schema "type" with None | Some JNull => None | Some t => Some t end.

Definition schema_is (schema : json) (name : string) : bool :=
  match jget schema "type" with Some (JStr s) => String.eqb s name | _ => false end.

(** The sub-schema one token leads to, when it is a dict *)
Definition schema_child (schema : json) (token : string) : option json :=
  let child :=
    if schema_is schema "object"
       || match jget schema "properties" with Some _ => true | None => false end
    then assoc token (properties schema)
    else if schema_is schema "array" && str_isdigit token
    then jget schema "items"
    else None in
  match child with Some (JObj kvs) => Some (JObj kvs) | _ => None end.

Fixpoint schema_at (tokens : list string) (schema : json) : option json :=
  match tokens with
  | [] => Some schema
  | token :: rest => schema_child schema token ≫= schema_at rest
  end.

Definition _schema_type_at_pointer (schema : json) (pointer : string) : option json :=
  if String.eqb pointer "" then type_of schema
  else if negb (startswith "/" pointer) then None
  else schema_at (pointer_tokens pointer) schema ≫= type_of.

Definition _property_schema (schema : json) (name : string) : json :=
  match definition schema name with Some d => d | None => JObj [] end.

Definition type_set (t : json) : list json := match t with JArr l => l | _ => [t] end.

Definition _types_compatible (source target : json) : bool :=
  existsb (fun t => py_in t (type_set target)) (type_set source)
  || (py_in (JStr "integer") (type_set source) && py_in (JStr "number") (type_set target)).

(** ** Bindings and constraints *)

(** [set(d) - allowed] is not empty. *)
Definition has_other_keys (d : list (string * json)) (allowed : list string) : bool :=
  existsb (fun kv => negb (str_in (fst kv) allowed)) d.

Definition get_or_null (d : list (string * json)) (key : string) : json := dict_get d key JNull.

(** [d.get(key) or default] *)
Definition get_or (d : list (string * json)) (key : string) (default : json) : json :=
  let v := get_or_null d key in if json_truthy v then v else default.

Definition _normalize_binding_reference (raw : list (string * json)) (step_key target_name : string)
  : result reference :=
  source ← _required_text (get_or_null raw "step") "binding.step" 64;
  match get_or_null raw "pointer" with
  | JStr pointer =>
      reject_if (truthy pointer && negb (startswith "/" pointer)) "PLAN_BINDING_INVALID"
        ("字段 " +:+ target_name +:+ " 的 JSON Pointer 不合法。") (Some step_key);;
      Ok (Reference source pointer)
  | _ => reject "PLAN_BINDING_INVALID" ("字段 " +:+ target_name +:+ " 的 JSON Pointer 不合法。")
           (Some step_key)
  end.

Definition many_item (step_key target_name : string) (item : json) : result reference :=
  let invalid := reject "PLAN_BINDING_INVALID" ("字段 " +:+ target_name +:+ " 的多来源条目不合法。")
                   (Some step_key) in
  match item with
  | JObj raw =>
      if has_other_keys raw _ALLOWED_BINDING_FIELDS then invalid
      else _normalize_binding_reference raw step_key target_name
  | _ => invalid
  end.

(** The body of the loop of [_normalize_bindings] *)
Definition normalize_binding (version step_key target_name : string) (value : json) : result binding :=
  let invalid text := reject "PLAN_BINDING_INVALID" ("字段 " +:+ target_name +:+ text) (Some step_key) in
  reject_if (negb (truthy target_name)) "PLAN_BINDING_INVALID" "绑定目标字段不合法。" (Some step_key);;
  match value with
  | JObj raw =>
      if is_v1 version then
        if has_other_keys raw _ALLOWED_BINDING_FIELDS || str_in "mode" (keys raw)
        then invalid " 的 v1 绑定定义不合法。"
        else r ← _normalize_binding_reference raw step_key target_name; Ok (Plain r)
      else
        let mode := get_or_null raw "mode" in
        if py_eqb mode (JStr "single") then
          if has_other_keys raw _ALLOWED_V2_SINGLE_BINDING_FIELDS
          then invalid " 的单来源绑定定义不合法。"
          else r ← _normalize_binding_reference raw step_key target_name; Ok (Single r)
        else if negb (py_eqb mode (JStr "many")) || has_other_keys raw _ALLOWED_V2_MANY_BINDING_FIELDS
        then invalid " 的 v2 绑定必须声明 single 或 many 模式。"
        else
          match get_or_null raw "items" with
          | JArr items =>
              if bool_decide (items = []) || (8 <? length items)%nat
              then invalid " 的多来源绑定必须包含 1 至 8 个来源。"
              else references ← map_result (many_item step_key target_name) items;
                   Ok (Many references)
          | _ => invalid " 的多来源绑定必须包含 1 至 8 个来源。"
          end
  | _ => invalid " 的绑定定义不合法。"
  end.

Definition _normalize_bindings (version step_key : string) (value : json)
  : result (list (string * binding)) :=
  match value with
  | JObj kvs =>
      map_result (fun kv => b ← normalize_binding version step_key (fst kv) (snd kv); Ok (fst kv, b)) kvs
  | _ => reject "PLAN_SCHEMA_INVALID" "bindings 必须是 JSON 对象。" (Some step_key)
  end.

Definition _normalize_constraints (version : string) (value : json) : result (list (string * json)) :=
  if is_v1 version then
    match value with
    | JNull => Ok []
    | _ => reject "PLAN_SCHEMA_INVALID" "v1 计划不能声明 constraints。" None
    end
  else
    match value with
    | JNull => Ok []
    | JObj kvs =>
        reject_if (has_other_keys kvs ["temporal"]) "PLAN_SCHEMA_INVALID" "constraints 仅支持 temporal。" None;;
        match get_or_null kvs "temporal" with
        | JNull => Ok []
        | JObj temporal =>
            reject_if (has_other_keys temporal ["kind"; "start"; "end"]) "PLAN_SCHEMA_INVALID"
              "temporal 约束不合法。" None;;
            let kind := get_or_null temporal "kind" in
            known ← in_set kind temporal_kinds;
            reject_if (negb known) "PLAN_SCHEMA_INVALID" "temporal.kind 不受支持。" None;;
            let absolute := py_eqb kind (JStr "absolute_range") in
            let given key := match get_or_null temporal key with JNull => false | _ => true end in
            reject_if (negb absolute && (given "start" || given "end")) "PLAN_SCHEMA_INVALID"
              "相对 temporal 约束不能声明 start 或 end。" None;;
            reject_if (absolute && negb (json_truthy (get_or_null temporal "start"))) "PLAN_SCHEMA_INVALID"
              "absolute_range 缺少 start。" None;;
            reject_if (absolute && negb (json_truthy (get_or_null temporal "end"))) "PLAN_SCHEMA_INVALID"
              "absolute_range 缺少 end。" None;;
            Ok [("temporal", JObj temporal)]
        | _ => reject "PLAN_SCHEMA_INVALID" "temporal 约束不合法。" None
        end
    | _ => reject "PLAN_SCHEMA_INVALID" "constraints 仅支持 temporal。" None
    end.

(** ** Arguments *)

Definition _raise_input_issue (issue : SchemaIssue) (step_key : string) : result unit :=
  let names := py_join ", " (fields issue) in
  let parameter text := "参数 " +:+ path issue +:+ text in
  let message := match kind issue with
    | unexpected => "步骤包含能力未声明的参数：" +:+ names +:+ "。"
    | missing => "步骤缺少必需参数：" +:+ names +:+ "。"
    | overlap => "静态参数与绑定重复：" +:+ names +:+ "。"
    | type_mismatch => parameter (" 类型必须是 " +:+ py_str (expected issue) +:+ "。")
    | not_in_enum => parameter " 不在允许值范围内。"
    | min_length => parameter " 太短。"
    | max_length => parameter " 太长。"
    | below_minimum => parameter " 小于最小值。"
    | above_maximum => parameter " 大于最大值。"
    end in
  reject (match kind issue with overlap => "PLAN_BINDING_INVALID" | _ => "PLAN_SCHEMA_INVALID" end)
    message (Some step_key).

Definition _validate_partial_input (arguments : list (string * json)) (bound : list string)
    (schema : json) (step_key : string) : result unit :=
  known ← (match jget_or_null schema "type" with JNull => Ok true | t => in_set t ["object"] end);
  reject_if (negb known) "PLAN_SCHEMA_INCOMPATIBLE" "一期只支持对象类型的步骤输入 Schema。" (Some step_key);;
  match object_input_issue PLAN arguments schema bound with
  | Some issue => _raise_input_issue issue step_key
  | None => Ok tt
  end.

Definition validate_runtime_arguments (arguments : list (string * json)) (schema : json)
    (step_key : string) : result unit :=
  _validate_partial_input arguments [] schema step_key.

(** ** One step

    [normalize_step] is the body of the first loop of [validate_and_compile_task_plan]; it
    also says whether the step is a write and which scopes it needs. *)

Record environment : Type := Environment {
  registry : Capabilities.CapabilityRegistry;
  transforms : Transforms.TransformRegistry;
  trusted_write_prepares : list string;
  hidden_commit_capabilities : list string;
  scope_resolver : string -> list string;
}.

(** [except KeyError: raise PlanValidationError(..)] *)
Definition or_unknown {A} (r : result A) (code message step_key : string) : result A :=
  match r with
  | Ok a => Ok a
  | Raise e =>
      match exn_class e with KeyError => reject code message (Some step_key) | _ => Raise e end
  end.

(** What the branch on [kind] decides. *)
Record target : Type := Target {
  t_capability : option string;
  t_transform : option string;
  t_version : string;
  t_title : string;
  t_effect : string;
  t_system : string;
  t_input_schema : json;
  t_output_schema : json;
  t_write : bool;
  t_scopes : list string;
}.

Definition capability_target (env : environment) (raw : list (string * json)) (step_key : string)
  : result target :=
  name ← _required_text (get_or_null raw "capabilityName") "capabilityName" 160;
  reject_if (match get_or_null raw "transformName" with JNull => false | _ => true end)
    "PLAN_SCHEMA_INVALID" "capability 步骤不能声明 transformName。" (Some step_key);;
  reject_if (str_in name (hidden_commit_capabilities env)) "PLAN_CAPABILITY_NOT_ALLOWED"
    ("隐藏提交能力不能进入模型计划：" +:+ name +:+ "。") (Some step_key);;
  spec ← or_unknown (Capabilities.get name (registry env)) "PLAN_CAPABILITY_NOT_ALLOWED"
           ("能力未注册：" +:+ name +:+ "。") step_key;
  let write := str_in name (trusted_write_prepares env) in
  reject_if (negb (String.eqb (Capabilities.effect spec) "read") && negb write)
    "PLAN_CAPABILITY_NOT_ALLOWED" ("能力不是模型可见的读取来源或可信 prepare：" +:+ name +:+ "。")
    (Some step_key);;
  Ok (Target (Some name) None (Capabilities.version spec) (Capabilities.description spec)
        (Capabilities.effect spec) (Capabilities.system spec) (Capabilities.input_schema spec)
        (Capabilities.output_schema spec) write (scope_resolver env name)).

Definition transform_target (env : environment) (raw : list (string * json)) (step_key : string)
    (bound : list string) : result target :=
  name ← _required_text (get_or_null raw "transformName") "transformName" 160;
  reject_if (match get_or_null raw "capabilityName" with JNull => false | _ => true end)
    "PLAN_SCHEMA_INVALID" "transform 步骤不能声明 capabilityName。" (Some step_key);;
  spec ← or_unknown (Transforms.get name (transforms env)) "PLAN_TRANSFORM_NOT_ALLOWED"
           ("转换未注册：" +:+ name +:+ "。") step_key;
  let missing := minus (Transforms.required_bound_inputs spec) bound in
  reject_if (bool_decide (missing <> [])) "PLAN_PROVENANCE_REQUIRED"
    ("转换输入必须绑定前序权威结果：" +:+ py_join ", " missing +:+ "。") (Some step_key);;
  Ok (Target None (Some name) (Transforms.version spec) (Transforms.description spec) "read"
        "agentbridge" (Transforms.input_schema spec) (Transforms.output_schema spec) false []).

(** [list(dict.fromkeys(l))] *)
Fixpoint first_occurrences (l : list string) : list string :=
  match l with
  | [] => []
  | x :: l' => x :: List.filter (fun y => negb (String.eqb y x)) (first_occurrences l')
  end.

Definition depends_on (raw : list (string * json)) (step_key : string) : result (list string) :=
  let invalid {A} : result A :=
    reject "PLAN_SCHEMA_INVALID" "dependsOn 必须是步骤标识数组。" (Some step_key) in
  match get_or raw "dependsOn" (JArr []) with
  | JArr l =>
      names ← map_result (fun v => match v with
        | JStr s => if truthy (py_strip s) then Ok (py_strip s) else invalid
        | _ => invalid
        end) l;
      Ok (first_occurrences names)
  | _ => invalid
  end.

Definition normalize_step (env : environment) (version : string) (source_ordinal : nat)
    (known : list string) (raw_step : json) : result (step * (bool * list string)) :=
  match raw_step with
  | JObj raw =>
      let unknown := minus (keys raw) _ALLOWED_STEP_FIELDS in
      reject_if (bool_decide (unknown <> [])) "PLAN_SCHEMA_INVALID"
        ("步骤包含未知字段：" +:+ py_join ", " unknown +:+ "。") None;;
      step_key ← _required_text (get_or_null raw "stepKey") "stepKey" 64;
      reject_if (negb (valid_step_key step_key)) "PLAN_SCHEMA_INVALID"
        ("步骤标识不合法：" +:+ step_key +:+ "。") (Some step_key);;
      reject_if (str_in step_key known) "PLAN_DUPLICATE_STEP_KEY"
        ("步骤标识重复：" +:+ step_key +:+ "。") (Some step_key);;
      kind ← in_set (get_or_null raw "kind") ["capability"; "transform"];
      reject_if (negb kind) "PLAN_STEP_KIND_NOT_ALLOWED" "一期只允许 capability 和 transform 步骤。"
        (Some step_key);;
      deps ← depends_on raw step_key;
      match get_or raw "arguments" (JObj []) with
      | JObj arguments =>
          bindings ← _normalize_bindings version step_key (get_or raw "bindings" (JObj []));
          let bound := keys bindings in
          let is_capability := py_eqb (get_or_null raw "kind") (JStr "capability") in
          t ← (if is_capability then capability_target env raw step_key
               else transform_target env raw step_key bound);
          _validate_partial_input arguments bound (t_input_schema t) step_key;;
          Ok ({| n_key := step_key; n_kind := if is_capability then "capability" else "transform";
                 n_capability := t_capability t; n_transform := t_transform t;
                 n_version := t_version t; n_title := py_take 240 (t_title t);
                 n_depends_on := deps; n_arguments := arguments; n_bindings := bindings;
                 n_effect := t_effect t; n_system := t_system t;
                 n_input_schema := t_input_schema t; n_output_schema := t_output_schema t |},
              (t_write t, t_scopes t))
      | _ => reject "PLAN_SCHEMA_INVALID" "arguments 必须是 JSON 对象。" (Some step_key)
      end
  | _ => reject "PLAN_SCHEMA_INVALID"
           ("第 " +:+ str_of_nat source_ordinal +:+ " 个步骤必须是 JSON 对象。") None
  end.

(** The variables of the loop: [normalized], [write_steps], [required_scopes]. *)
Record collected : Type := Collected {
  normalized : steps_dict;
  write_steps : list string;
  required_scopes : list string;
}.

Fixpoint normalize_steps (env : environment) (version : string) (source_ordinal : nat)
    (c : collected) (raw_steps : list json) : result collected :=
  match raw_steps with
  | [] => Ok c
  | raw :: rest =>
      found ← normalize_step env version source_ordinal (keys (normalized c)) raw;
      let '(st, (is_write, scopes)) := (found : step * (bool * list string)) in
      normalize_steps env version (S source_ordinal)
        (Collected (normalized c ++ [(n_key st, st)])%list
           (if is_write then (write_steps c ++ [n_key st])%list else write_steps c)
           (required_scopes c ++ scopes)%list) rest
  end.

(** ** Order *)

(** The first loop of [_topological_order] *)
Fixpoint check_dependencies (known : list string) (steps : steps_dict) : result unit :=
  match steps with
  | [] => Ok tt
  | (key, st) :: rest =>
      let missing := List.filter (fun name => negb (str_in name known)) (n_depends_on st) in
      reject_if (bool_decide (missing <> [])) "PLAN_DEPENDENCY_MISSING"
        ("步骤依赖不存在：" +:+ py_join ", " missing +:+ "。") (Some key);;
      reject_if (str_in key (n_depends_on st)) "PLAN_CYCLE_DETECTED" "步骤不能依赖自己。" (Some key);;
      check_dependencies known rest
  end.

(** Position in the proposal, [source_order] *)
Fixpoint position (key : string) (l : list string) : nat :=
  match l with [] => 0 | x :: l' => if String.eqb x key then 0 else S (position key l') end.

(** The keys of [remaining] without dependencies, by source order *)
Definition ready_keys (order : list string) (remaining : list (string * list string)) : list string :=
  sort_by (fun x y => (position x order <=? position y order)%nat)
    (keys (List.filter (fun kd => match snd kd with [] => true | _ => false end) remaining)).

(** [remaining] after one round *)
Definition after_round (ready : list string) (remaining : list (string * list string))
  : list (string * list string) :=
  map (fun kd => (fst kd, List.filter (fun d => negb (str_in d ready)) (snd kd)))
    (List.filter (fun kd => negb (str_in (fst kd) ready)) remaining).

(** The [while] loop; every round takes out a key, so [fuel] may be their number. *)
Fixpoint rounds (fuel : nat) (order : list string) (remaining : list (string * list string))
    (ordered : list string) : result (list string) :=
  match remaining with
  | [] => Ok ordered
  | _ =>
      let ready := ready_keys order remaining in
      reject_if (bool_decide (ready = [])) "PLAN_CYCLE_DETECTED" "计划依赖中存在环。" None;;
      match fuel with
      | O => raise RuntimeError "out of fuel"
      | S f => rounds f order (after_round ready remaining) (ordered ++ ready)%list
      end
  end.

Definition _topological_order (steps : steps_dict) : result (list string) :=
  check_dependencies (keys steps) steps;;
  rounds (length steps) (keys steps) (map (fun ks => (fst ks, n_depends_on (snd ks))) steps) [].

(** [steps[key]] *)
Definition step_of (steps : steps_dict) (key : string) : result step :=
  match assoc key steps with Some st => Ok st | None => raise KeyError key end.

(** The sets of the two functions below are lists without regard to order and repetition. *)
Definition sets : Type := list (string * list string).

Definition set_of (d : sets) (key : string) : result (list string) :=
  match assoc key d with Some l => Ok l | None => raise KeyError key end.

Fixpoint _dependency_ancestors (steps : steps_dict) (ordered_keys : list string) (found : sets)
  : result sets :=
  match ordered_keys with
  | [] => Ok found
  | key :: rest =>
      st ← step_of steps key;
      inherited ← map_result (fun d => l ← set_of found d; Ok (d :: l)) (n_depends_on st);
      _dependency_ancestors steps rest (dict_set key (concat inherited) found)
  end.

(** ** Bindings between steps *)

(** [(d.get(key) or {}).get("type")] of the items schema *)
Definition items_type (schema : json) : option json :=
  match jget schema "items" with Some items => type_of items | None => None end.

Definition check_reference (steps : steps_dict) (ancestors : list string) (step_key target_name : string)
    (target_type : option json) (r : reference) : result unit :=
  let source_key := r_step r in
  let from := "绑定 " +:+ source_key +:+ r_pointer r in
  match assoc source_key steps with
  | None => reject "PLAN_BINDING_INVALID" ("绑定来源步骤不存在：" +:+ source_key +:+ "。") (Some step_key)
  | Some source =>
      reject_if (negb (str_in source_key ancestors)) "PLAN_BINDING_INVALID"
        ("绑定来源 " +:+ source_key +:+ " 不在 " +:+ step_key +:+ " 的依赖链上。") (Some step_key);;
      match _schema_type_at_pointer (n_output_schema source) (r_pointer r), target_type with
      | Some source_type, Some wanted =>
          reject_if (negb (_types_compatible source_type wanted)) "PLAN_SCHEMA_INCOMPATIBLE"
            (from +:+ " 与字段 " +:+ target_name +:+ " 类型不兼容。") (Some step_key)
      | _, _ =>
          reject "PLAN_SCHEMA_INCOMPATIBLE" (from +:+ " 到 " +:+ target_name +:+ " 缺少精确 Schema。")
            (Some step_key)
      end
  end.

(** [for x in l: f(x)], where [f] only raises *)
Fixpoint each {A} (f : A -> result unit) (l : list A) : result unit :=
  match l with [] => Ok tt | x :: l' => f x;; each f l' end.

Definition check_binding (steps : steps_dict) (ancestors : list string) (st : step)
    (nb : string * binding) : result unit :=
  let '(target_name, b) := nb in
  let schema := _property_schema (n_input_schema st) target_name in
  target_type ← (match b with
    | Many _ =>
        reject_if (negb (schema_is schema "array")) "PLAN_SCHEMA_INCOMPATIBLE"
          ("多来源绑定字段 " +:+ target_name +:+ " 必须是数组。") (Some (n_key st));;
        Ok (items_type schema)
    | _ => Ok (type_of schema)
    end);
  each (check_reference steps ancestors (n_key st) target_name target_type) (_binding_references b).

Definition check_step_bindings (steps : steps_dict) (ancestors : sets) (key : string) : result unit :=
  st ← step_of steps key;
  (* [ancestors[step_key]] is only read for a reference *)
  each (check_binding steps (match assoc key ancestors with Some l => l | None => [] end) st)
    (n_bindings st).

(** ** Provenance of version 2 *)

Definition descriptor_of (name : option string) : json :=
  match name ≫= planning_descriptor with Some d => d | None => JObj [] end.

(** ["business_source" in (descriptor.get("roles") or [])] *)
Definition is_business_source (st : step) : bool :=
  String.eqb (n_kind st) "capability"
  && match jget (descriptor_of (n_capability st)) "roles" with
     | Some (JArr roles) => py_in (JStr "business_source") roles
     | _ => false
     end.

Definition business_sources (steps : steps_dict) : list string :=
  keys (List.filter (fun ks => is_business_source (snd ks)) steps).

(** [source_contract.get("dateArguments")] is there. *)
Definition has_date_arguments (st : step) : bool :=
  match jget (descriptor_of (n_capability st)) "sourceContract" with
  | Some contract => json_truthy (jget_or_null contract "dateArguments")
  | None => false
  end.

Definition check_temporal (steps : steps_dict) (temporal : bool) (key : string) : result unit :=
  st ← step_of steps key;
  reject_if (has_date_arguments st && negb temporal) "PLAN_TEMPORAL_CONSTRAINT_REQUIRED"
    "带日期口径的业务来源必须声明统一 temporal 约束。" (Some key).

(** The loop over [lineage] *)
Fixpoint lineage_of (steps : steps_dict) (sources ordered_keys : list string) (found : sets)
  : result sets :=
  match ordered_keys with
  | [] => Ok found
  | key :: rest =>
      st ← step_of steps key;
      let bound := concat (map (fun r => dict_get found (r_step r) [])
                     (concat (map (fun nb => _binding_references (snd nb)) (n_bindings st)))) in
      lineage_of steps sources rest
        (dict_set key ((if str_in key sources then [key] else []) ++ bound)%list found)
  end.

Definition require_lineage (sources : list string) (lineage : list string) (terminal : string)
  : result unit :=
  let missing := minus sources lineage in
  reject_if (bool_decide (missing <> [])) "PLAN_PROVENANCE_INCOMPLETE"
    ("计划终点没有通过数据绑定使用全部业务来源：" +:+ py_join ", " missing +:+ "。") (Some terminal).

(** [transforms.get(step["transformName"])] *)
Definition transform_of (env : environment) (st : step) : result Transforms.TransformSpec :=
  match n_transform st with
  | Some name => Transforms.get name (transforms env)
  | None => raise KeyError "unknown transform: None"
  end.

Definition check_draft_reference (env : environment) (steps : steps_dict) (sink field_name : string)
    (r : reference) : result unit :=
  source ← step_of steps (r_step r);
  reject_if (negb (String.eqb (n_kind source) "transform")) "PLAN_PROVENANCE_REQUIRED"
    ("派生写入字段 " +:+ field_name +:+ " 不能直接绑定业务来源。") (Some sink);;
  spec ← transform_of env source;
  reject_if (negb (bool_decide (Transforms.result_projection spec = Some "private_draft")))
    "PLAN_PROVENANCE_REQUIRED"
    ("派生写入字段 " +:+ field_name +:+ " 必须来自可核对草稿转换。") (Some sink).

Definition check_provenance_rule (env : environment) (steps : steps_dict) (sink : step)
    (rule : string * json) : result unit :=
  let '(field_name, wanted) := rule in
  if negb (py_eqb wanted (JStr "user_or_bound_transform")) then Ok tt
  else match assoc field_name (n_bindings sink) with
  | None =>
      reject "PLAN_PROVENANCE_REQUIRED"
        ("派生写入字段 " +:+ field_name +:+ " 必须绑定注册转换结果。") (Some (n_key sink))
  | Some b => each (check_draft_reference env steps (n_key sink) field_name) (_binding_references b)
  end.

Definition provenance_rules (sink : step) : list (string * json) :=
  match jget (descriptor_of (n_capability sink)) "inputProvenance" with Some (JObj kvs) => kvs | _ => [] end.

(** What a plan without a write must end with *)
Definition check_projection (env : environment) (terminal : step) : result unit :=
  reject_if (negb (String.eqb (n_kind terminal) "transform")) "PLAN_RESULT_PROJECTION_REQUIRED"
    "只读组合计划必须以可投影的注册转换结束。" (Some (n_key terminal));;
  spec ← transform_of env terminal;
  reject_if (negb (opt_truthy (Transforms.result_projection spec))) "PLAN_RESULT_PROJECTION_REQUIRED"
    "只读组合计划缺少可展示的结果投影。" (Some (n_key terminal)).

Definition _validate_v2_provenance (env : environment) (steps : steps_dict)
    (ordered_keys write_steps : list string) (constraints : list (string * json)) : result unit :=
  let sources := business_sources steps in
  reject_if (bool_decide (sources = [])) "PLAN_NOT_COMPOSED"
    "v2 计划至少需要一个已登记的业务数据来源；独立操作应使用原子能力。" None;;
  let temporal := is_dict (get_or_null constraints "temporal") in
  each (check_temporal steps temporal) (sorted_set sources);;
  lineage ← lineage_of steps sources ordered_keys [];
  match rev ordered_keys with
  | [] => raise IndexError "list index out of range"
  | terminal_key :: _ =>
      from ← set_of lineage terminal_key;
      match write_steps with
      | [] =>
          require_lineage sources from terminal_key;;
          terminal ← step_of steps terminal_key;
          check_projection env terminal
      | sink_key :: _ =>
          sink ← step_of steps sink_key;
          each (check_provenance_rule env steps sink) (provenance_rules sink);;
          require_lineage sources from terminal_key
      end
  end.

(** ** Compilation *)

(** What [validate_and_compile_task_plan] returns; the ordinals of [c_steps] are 1, 2, ... *)
Record compiled : Type := Compiled {
  c_proposal_version : string;
  c_goal : string;
  c_constraints : list (string * json);
  c_temporal_context : json;
  c_steps : list step;
  c_required_scopes : list string;
  c_plan_hash : string;
  c_risk_summary : json;
}.

Definition opt_str (o : option string) : json := match o with Some s => JStr s | None => JNull end.

(** The dict of a step in [compiled_steps] *)
Definition step_json (ordinal : nat) (st : step) : json :=
  JObj [("stepKey", JStr (n_key st)); ("kind", JStr (n_kind st));
        ("capabilityName", opt_str (n_capability st)); ("transformName", opt_str (n_transform st));
        ("version", JStr (n_version st)); ("title", JStr (n_title st));
        ("dependsOn", strings (n_depends_on st)); ("arguments", JObj (n_arguments st));
        ("bindings", JObj (map (fun nb => (fst nb, binding_json (snd nb))) (n_bindings st)));
        ("effect", JStr (n_effect st)); ("systemId", JStr (n_system st));
        ("ordinal", JInt (Z.of_nat ordinal))].

Fixpoint steps_json (ordinal : nat) (steps : list step) : list json :=
  match steps with [] => [] | st :: rest => step_json ordinal st :: steps_json (S ordinal) rest end.

Definition hash_input (version goal : string) (constraints : list (string * json))
    (temporal_context : json) (steps : list step) (scopes : list string) : json :=
  JObj [("schemaVersion", JStr (if is_v2 version then "agentbridge.task-plan.compiled.v2"
                                else "agentbridge.task-plan.compiled.v1"));
        ("proposalSchemaVersion", JStr version); ("goal", JStr goal);
        ("constraints", JObj constraints); ("temporalContext", temporal_context);
        ("steps", JArr (steps_json 1 steps)); ("requiredScopes", strings scopes)].

Definition risk_summary (steps : steps_dict) (ordered : list step) (write_steps scopes : list string)
  : json :=
  let systems := sorted_set (List.filter (fun s => negb (String.eqb s "agentbridge")) (map n_system ordered)) in
  let sink := hd_error write_steps in
  JObj [("systems", strings systems); ("requiredScopes", strings scopes);
        ("writeSinkCount", JInt (Z.of_nat (length write_steps)));
        ("writeSinkStepKey", opt_str sink);
        ("writeSinkCapability", opt_str (sink ≫= fun key => assoc key steps ≫= n_capability))].

Definition proposal_version (proposal : list (string * json)) : result string :=
  let v := get_or_null proposal "schemaVersion" in
  known ← in_set v _SUPPORTED_PROPOSAL_VERSIONS;
  reject_if (negb known) "PLAN_SCHEMA_INVALID"
    "计划 schemaVersion 必须为 agentbridge.task-plan.proposal.v1 或 v2。" None;;
  match v with
  | JStr version => Ok version
  | _ => reject "PLAN_SCHEMA_INVALID" "计划 schemaVersion 必须为 agentbridge.task-plan.proposal.v1 或 v2。" None
  end.

Definition proposal_steps (proposal : list (string * json)) : result (list json) :=
  match get_or_null proposal "steps" with
  | JArr raw_steps =>
      reject_if (bool_decide (raw_steps = [])) "PLAN_SCHEMA_INVALID" "计划至少需要一个步骤。" None;;
      reject_if (MAX_PLAN_STEPS <? length raw_steps)%nat "PLAN_SCHEMA_INVALID"
        ("一期计划最多允许 " +:+ str_of_nat MAX_PLAN_STEPS +:+ " 个步骤。") None;;
      Ok raw_steps
  | _ => reject "PLAN_SCHEMA_INVALID" "计划至少需要一个步骤。" None
  end.

Definition check_scopes (granted : option (list string)) (required : list string) : result unit :=
  match granted with
  | None => Ok tt
  | Some granted =>
      let missing := minus required granted in
      reject_if (bool_decide (missing <> [])) "PLAN_SCOPE_MISSING"
        ("当前 MCP 身份缺少权限：" +:+ py_join ", " missing +:+ "。") None
  end.

(** From the collected steps to their order, everything checked. *)
Definition order_steps (env : environment) (version : string) (constraints : list (string * json))
    (c : collected) : result (list string) :=
  let steps := normalized c in
  reject_if (1 <? length (write_steps c))%nat "PLAN_MULTIPLE_WRITE_SINKS"
    "一期计划最多允许一个可信写入终点。" None;;
  ordered_keys ← _topological_order steps;
  ancestors ← _dependency_ancestors steps ordered_keys [];
  each (check_step_bindings steps ancestors) ordered_keys;;
  match write_steps c with
  | [] => Ok tt
  | sink :: _ =>
      reject_if (negb (bool_decide (last ordered_keys = Some sink))) "PLAN_WRITE_SINK_NOT_FINAL"
        "可信写入 prepare 必须是一期计划的最后一个业务步骤。" (Some sink)
  end;;
  (if is_v2 version
   then _validate_v2_provenance env steps ordered_keys (write_steps c) constraints
   else Ok tt);;
  Ok ordered_keys.

Definition validate_and_compile_task_plan (env : environment) (granted_scopes : option (list string))
    (temporal_context : json) (proposal : json) : result compiled :=
  match proposal with
  | JObj kvs =>
      let unexpected := minus (keys kvs) _ALLOWED_PROPOSAL_FIELDS in
      reject_if (bool_decide (unexpected <> [])) "PLAN_SCHEMA_INVALID"
        ("计划包含未知字段：" +:+ py_join ", " unexpected +:+ "。") None;;
      version ← proposal_version kvs;
      constraints ← _normalize_constraints version (get_or_null kvs "constraints");
      goal ← _required_text (get_or_null kvs "goal") "goal" MAX_GOAL_CHARS;
      raw_steps ← proposal_steps kvs;
      c ← normalize_steps env version 1 (Collected [] [] []) raw_steps;
      ordered_keys ← order_steps env version constraints c;
      check_scopes granted_scopes (required_scopes c);;
      ordered ← map_result (step_of (normalized c)) ordered_keys;
      let scopes := sorted_set (required_scopes c) in
      Ok {| c_proposal_version := version; c_goal := goal; c_constraints := constraints;
            c_temporal_context := temporal_context; c_steps := ordered;
            c_required_scopes := scopes;
            c_plan_hash := sha256_hex (dumps
              (hash_input version goal constraints temporal_context ordered scopes));
            c_risk_summary := risk_summary (normalized c) ordered (write_steps c) scopes |}
  | _ => reject "PLAN_SCHEMA_INVALID" "计划必须是 JSON 对象。" None
  end.

(** The dict that is returned *)
Definition compiled_json (c : compiled) : json :=
  match hash_input (c_proposal_version c) (c_goal c) (c_constraints c) (c_temporal_context c)
          (c_steps c) (c_required_scopes c) with
  | JObj kvs =>
      JObj (kvs ++ [("planHash", JStr (c_plan_hash c)); ("riskSummary", c_risk_summary c);
                    ("missingScopes", JArr [])])%list
  | v => v
  end.
End Validation.

(** ** What the plan store is given *)

Definition to_step (ordinal : nat) (st : step) : TaskPlans.compiled_step :=
  {| TaskPlans.cs_step_key := n_key st; TaskPlans.cs_ordinal := Z.of_nat ordinal;
     TaskPlans.cs_kind := n_kind st; TaskPlans.cs_title := JStr (n_title st);
     TaskPlans.cs_capability_name := n_capability st; TaskPlans.cs_transform_name := n_transform st;
     TaskPlans.cs_version := JStr (n_version st);
     TaskPlans.cs_depends_on := strings (n_depends_on st);
     TaskPlans.cs_arguments := JObj (n_arguments st);
     TaskPlans.cs_bindings := JObj (map (fun nb => (fst nb, binding_json (snd nb))) (n_bindings st));
     TaskPlans.cs_effect := n_effect st; TaskPlans.cs_system_id := n_system st |}.

Fixpoint to_steps (ordinal : nat) (steps : list step) : list TaskPlans.compiled_step :=
  match steps with [] => [] | st :: rest => to_step ordinal st :: to_steps (S ordinal) rest end.

(** The compiled plan with the snapshot that the service adds to it. *)
Definition to_compiled_plan (c : compiled) (authority_snapshot : json) : TaskPlans.compiled_plan :=
  {| TaskPlans.cp_goal := JStr (c_goal c); TaskPlans.cp_plan_hash := JStr (c_plan_hash c);
     TaskPlans.cp_steps := to_steps 1 (c_steps c);
     TaskPlans.cp_risk_summary := c_risk_summary c;
     TaskPlans.cp_proposal_schema_version := JStr (c_proposal_version c);
     TaskPlans.cp_temporal_context := c_temporal_context c;
     TaskPlans.cp_authority_snapshot := authority_snapshot |}.
