(* ===== verification/PlanValidationFacts.v ===== *)
(** What compilation guarantees of a plan: its order, its bindings, its single write at the
    end, and that the plan store accepts it. *)

From S2P Require Import Prelude PyStr Json JsonFacts Sha256 Store InputValidation InputValidationFacts.
From S2P Require Import PlanningPolicy PlanValidation.
From S2P Require Capabilities Transforms TaskPlans.

#[local] Open Scope list_scope.

(** ** Loops that only raise *)

Lemma reject_if_Ok b code message key u : reject_if b code message key = Ok u <-> b = false.
Proof. destruct b, u; unfold reject_if, reject, raise, mthrow, result_throw; naive_solver. Qed.

Lemma reject_if_bind {A} b code message key (k : unit -> result A) a :
  (u ← reject_if b code message key; k u) = Ok a <-> b = false /\ k tt = Ok a.
Proof. destruct b; split; try done; by intros [? ?]. Qed.

Lemma each_Ok {A} (f : A -> result unit) l : each f l = Ok tt <-> forall x, In x l -> f x = Ok tt.
Proof.
  induction l as [|x l IH]; cbn [each]; [by split|]. split.
  - intros H. apply result_bind_Ok in H as ([] & Hx & Hl). intros y [<-|Hy]; [done|]. by apply IH.
  - intros H. apply result_bind_Ok. exists tt. split; [apply H; by left|]. apply IH. intros y Hy. apply H. by right.
Qed.

Lemma unit_result (r : result unit) u : r = Ok u -> r = Ok tt.
Proof. by destruct u. Qed.

Lemma map_result_Forall2 {A B} (f : A -> result B) l l' :
  map_result f l = Ok l' <-> Forall2 (fun x y => f x = Ok y) l l'.
Proof.
  revert l'. induction l as [|x l IH]; intros l'; cbn [map_result].
  - split; [by intros [= <-]|]. by inversion 1.
  - split.
    + intros H. apply result_bind_Ok in H as (y & Hy & H). apply result_bind_Ok in H as (ys & Hys & [= <-]).
      constructor; [done|]. by apply IH.
    + inversion 1 as [|? y ? ys Hy Hys]; subst. apply IH in Hys. rewrite Hy. unfold pbind, mbind, result_bind.
      by rewrite Hys.
Qed.

(** The generic steps of an inversion, on results of this file. *)
Ltac res_inv1 H :=
  lazymatch type of H with
  | pbind (reject_if _ _ _ _) _ = Ok _ =>
      let G := fresh "G" in rewrite reject_if_bind in H; destruct H as [G H]
  | pbind _ _ = Ok _ =>
      let a := fresh "a" in let G := fresh "E" in apply result_bind_Ok in H; destruct H as (a & G & H)
  | reject _ _ _ = Ok _ => discriminate H
  | Ok _ = Ok _ => injection H; clear H; intros; subst
  end; cbv beta zeta in *.
Ltac res_inv H := repeat res_inv1 H.

(** ** Topological order *)

Section Order.
Context `{UnicodeTables, UnicodeDigits}.
Implicit Types (steps : steps_dict) (st : step) (key d : string).

(** The dependencies of a key *)
Definition deps_in steps key : list string :=
  match assoc key steps with Some st => n_depends_on st | None => [] end.

(** Every key comes after its dependencies. *)
Definition topo (D : string -> list string) (l : list string) : Prop :=
  forall a key b, l = a ++ key :: b -> forall d, In d (D key) -> In d a.

Lemma topo_nil D : topo D [].
Proof. intros [|] key b E; discriminate E. Qed.

Lemma topo_app D l m : topo D l -> (forall key, In key m -> forall d, In d (D key) -> In d l) -> topo D (l ++ m).
Proof.
  intros Hl Hm a key b E d Hd.
  destruct (app_eq_inv _ _ _ _ E) as [(k & E1 & E2)|(k & E1 & E2)].
  - destruct k as [|x k].
    + rewrite app_nil_r in E1. subst l. apply (Hm key); [cbn in E2; rewrite <- E2; by left|done].
    + injection E2 as <- _. by apply (Hl a key k).
  - subst a. apply in_app_iff. left. apply (Hm key); [|done]. rewrite E2. apply in_app_iff. right. by left.
Qed.

(** The state of the loop: what remains of the dependencies are those not yet in order. *)
Definition pending (D : string -> list string) (ordered : list string)
    (remaining : list (string * list string)) : Prop :=
  forall key ds, In (key, ds) remaining ->
    ds = List.filter (fun d => negb (str_in d ordered)) (D key) /\ ~ In key ordered.

Lemma ready_In order remaining key :
  In key (ready_keys order remaining) <-> In (key, []) remaining.
Proof.
  unfold ready_keys. rewrite <- list_elem_of_In, sort_by_perm, list_elem_of_In. unfold keys. rewrite in_map_iff.
  split.
  - intros ([k ds] & <- & Hin). apply filter_In in Hin as [Hin E]. cbn in *. by destruct ds.
  - intros Hin. exists (key, []). split; [done|]. by apply filter_In.
Qed.

Lemma filter_filter {A} (p q : A -> bool) l :
  List.filter p (List.filter q l) = List.filter (fun x => q x && p x) l.
Proof. induction l as [|x l IH]; cbn; [done|]. destruct (q x); cbn; [|done]. by rewrite IH. Qed.

Lemma str_in_app x l m : str_in x (l ++ m) = str_in x l || str_in x m.
Proof. unfold str_in. apply existsb_app. Qed.

Lemma pending_round D order ordered remaining : pending D ordered remaining ->
  pending D (ordered ++ ready_keys order remaining) (after_round (ready_keys order remaining) remaining).
Proof.
  intros Hp key ds Hin. unfold after_round in Hin. apply in_map_iff in Hin as ([k ds'] & [= <- <-] & Hin).
  apply filter_In in Hin as [Hin Hk]. cbn in Hk. apply negb_true_iff, str_in_false in Hk.
  destruct (Hp k ds' Hin) as [-> Hn]. split.
  - rewrite filter_filter. apply List.filter_ext. intros d. rewrite str_in_app. by rewrite negb_orb.
  - intros [?|?]%in_app_iff; done.
Qed.

Lemma round_shrinks order remaining : ready_keys order remaining <> [] ->
  (length (after_round (ready_keys order remaining) remaining) < length remaining)%nat.
Proof.
  intros Hr. destruct (ready_keys order remaining) as [|key l] eqn:E; [done|]. rewrite <- E. clear Hr.
  assert (Hin : In (key, []) remaining) by (apply (ready_In order); rewrite E; by left).
  unfold after_round. rewrite length_map.
  assert (Hkey : str_in key (ready_keys order remaining) = true) by (apply str_in_spec; rewrite E; by left).
  clear E. revert Hkey. generalize (ready_keys order remaining). intros ready Hkey.
  induction remaining as [|[k ds] rest IH]; [done|]. cbn [List.filter fst]. destruct Hin as [[= -> ->]|Hin].
  - rewrite Hkey. cbn. pose proof (List.filter_length_le (fun kd : string * list string => negb (str_in kd.1 ready)) rest). lia.
  - specialize (IH Hin). destruct (str_in k ready); cbn; lia.
Qed.

Lemma round_keys order remaining : NoDup (keys remaining) ->
  keys remaining ≡ₚ ready_keys order remaining ++ keys (after_round (ready_keys order remaining) remaining).
Proof.
  intros Hnd. apply NoDup_Permutation; [done| |].
  - apply NoDup_app. unfold ready_keys at 1. split; [rewrite sort_by_perm; by apply filter_keys_NoDup|]. split.
    + intros key Hk Ha. apply list_elem_of_In in Hk. apply list_elem_of_In in Ha. unfold keys, after_round in Ha.
      rewrite map_map in Ha. apply in_map_iff in Ha as (kd & <- & Ha). apply filter_In in Ha as [_ Ha].
      apply negb_true_iff, str_in_false in Ha. done.
    + unfold keys, after_round. rewrite map_map. cbn.
      by apply (filter_keys_NoDup (fun kd : string * list string => negb (str_in (fst kd) (ready_keys order remaining)))).
  - intros key. rewrite elem_of_app, !list_elem_of_In. unfold keys, after_round. rewrite map_map. cbn.
    rewrite !in_map_iff. split.
    + intros (kd & <- & Hin). destruct (str_in (fst kd) (ready_keys order remaining)) eqn:E.
      * left. by apply str_in_spec.
      * right. exists kd. split; [done|]. apply filter_In. by rewrite E.
    + intros [Hr|(kd & <- & Hin)].
      * apply ready_In in Hr. by exists (key, []).
      * apply filter_In in Hin as [Hin _]. by exists kd.
Qed.

(** A set of keys each of which depends on another of the set. *)
Definition cyclic (D : string -> list string) (R : list string) : Prop :=
  R <> [] /\ forall key, In key R -> exists d, In d (D key) /\ In d R.

Lemma rounds_spec D order : forall fuel remaining ordered,
  (length remaining <= fuel)%nat -> NoDup (keys remaining) -> pending D ordered remaining -> topo D ordered ->
  (forall key d, In key (keys remaining) -> In d (D key) -> In d ordered \/ In d (keys remaining)) ->
  match rounds fuel order remaining ordered with
  | Ok l => exists m, l = ordered ++ m /\ m ≡ₚ keys remaining /\ topo D l
  | Raise e => e = Exn (PlanValidationError "PLAN_CYCLE_DETECTED" None) "计划依赖中存在环。" /\
      exists R, cyclic D R /\ forall key, In key R -> In key (keys remaining)
  end.
Proof.
  induction fuel as [|fuel IH]; intros remaining ordered Hfuel Hnd Hp Ht Hknown.
  - destruct remaining; [|cbn in Hfuel; lia]. cbn. exists []. by rewrite app_nil_r.
  - destruct remaining as [|kd rest] eqn:Erem; [cbn; exists []; by rewrite app_nil_r|]. rewrite <- Erem in *.
    replace (rounds (S fuel) order remaining ordered) with
      (u ← reject_if (bool_decide (ready_keys order remaining = [])) "PLAN_CYCLE_DETECTED" "计划依赖中存在环。" None;
       rounds fuel order (after_round (ready_keys order remaining) remaining) (ordered ++ ready_keys order remaining))
      by (by rewrite Erem).
    case_bool_decide as Hready; unfold reject_if, pbind, mbind, result_bind.
    + split; [done|]. exists (keys remaining). split; [|done]. split; [by rewrite Erem|].
      intros key Hk. unfold keys in Hk. apply in_map_iff in Hk as ([k ds] & <- & Hin). cbn [fst].
      destruct (Hp k ds Hin) as [Eds _]. destruct ds as [|d ds].
      { apply (ready_In order) in Hin. by rewrite Hready in Hin. }
      assert (Hd : In d (List.filter (fun d => negb (str_in d ordered)) (D k))) by (rewrite <- Eds; by left).
      apply filter_In in Hd as [Hd Hn]. apply negb_true_iff, str_in_false in Hn. exists d. split; [done|].
      destruct (Hknown k d) as [?|?]; try done. unfold keys. apply in_map_iff. by exists (k, d :: ds).
    + pose proof (round_shrinks order remaining Hready) as Hlen. pose proof (round_keys order remaining Hnd) as Hperm.
      set (ready := ready_keys order remaining) in *. set (rest' := after_round ready remaining) in *.
      assert (H1 : (length rest' <= fuel)%nat) by lia.
      assert (H2 : NoDup (keys rest')) by (rewrite Hperm in Hnd; by apply NoDup_app in Hnd as (_ & _ & ?)).
      assert (H4 : topo D (ordered ++ ready)).
      { apply topo_app; [done|]. intros key Hk d Hd. apply ready_In in Hk. destruct (Hp _ _ Hk) as [E _].
        destruct (str_in d ordered) eqn:Ed; [by apply str_in_spec|].
        assert (Hf : In d (List.filter (fun d => negb (str_in d ordered)) (D key)))
          by (apply filter_In; by rewrite Ed). by rewrite <- E in Hf. }
      assert (Hsub : forall key, In key (keys remaining) <-> In key ready \/ In key (keys rest'))
        by (intros key; rewrite <- !list_elem_of_In, Hperm; apply elem_of_app).
      assert (H5 : forall key d, In key (keys rest') -> In d (D key) -> In d (ordered ++ ready) \/ In d (keys rest')).
      { intros key d Hk Hd. rewrite in_app_iff.
        destruct (Hknown key d) as [?|Hin]; [apply Hsub; by right|done|by left; left|].
        apply Hsub in Hin as [?|?]; [by left; right|by right]. }
      specialize (IH rest' _ H1 H2 (pending_round D order _ _ Hp) H4 H5). fold ready in IH.
      destruct (rounds fuel order rest' (ordered ++ ready)) as [l|e].
      * destruct IH as (m & -> & Hm & Hl). exists (ready ++ m).
        split; [by rewrite app_assoc|]. split; [by rewrite Hm, <- Hperm|done].
      * destruct IH as (-> & R & HR & HRsub). split; [done|]. exists R. split; [done|].
        intros key Hk. apply Hsub. right. by apply HRsub.
Qed.

Lemma check_dependencies_spec known steps :
  match check_dependencies known steps with
  | Ok _ => forall key st, In (key, st) steps ->
      (forall d, In d (n_depends_on st) -> In d known) /\ ~ In key (n_depends_on st)
  | Raise e => exists key st, In (key, st) steps /\
      ((exn_class e = PlanValidationError "PLAN_DEPENDENCY_MISSING" (Some key) /\
          exists d, In d (n_depends_on st) /\ ~ In d known) \/
       (exn_class e = PlanValidationError "PLAN_CYCLE_DETECTED" (Some key) /\ In key (n_depends_on st)))
  end.
Proof.
  induction steps as [|[key st] rest IH]; cbn [check_dependencies]; [done|].
  case_bool_decide as Hm; unfold reject_if at 1, pbind at 1, mbind, result_bind.
  - exists key, st. split; [by left|]. left. split; [done|].
    destruct (List.filter _ (n_depends_on st)) as [|d l] eqn:E; [done|].
    assert (Hd : In d (List.filter (fun name => negb (str_in name known)) (n_depends_on st))) by (rewrite E; by left).
    apply filter_In in Hd as [Hd Hn]. exists d. split; [done|]. by apply negb_true_iff, str_in_false in Hn.
  - destruct (str_in key (n_depends_on st)) eqn:Hself; unfold reject_if, pbind, mbind, result_bind.
    + exists key, st. split; [by left|]. right. split; [done|]. by apply str_in_spec.
    + destruct (check_dependencies known rest) as [u|e].
      * intros k st' [[= <- <-]|Hin]; [|by apply IH]. split; [|by apply str_in_false]. intros d Hd.
        destruct (str_in d known) eqn:E; [by apply str_in_spec|]. exfalso.
        assert (Hf : In d (List.filter (fun name => negb (str_in name known)) (n_depends_on st)))
          by (apply filter_In; by rewrite E). by rewrite Hm in Hf.
      * destruct IH as (k & st' & Hin & Hc). exists k, st'. split; [by right|done].
Qed.

Lemma deps_in_step steps key st : NoDup (keys steps) -> In (key, st) steps -> deps_in steps key = n_depends_on st.
Proof. intros Hnd Hin. unfold deps_in. by rewrite (In_assoc _ _ _ Hnd Hin). Qed.

Lemma keys_step steps key : In key (keys steps) -> exists st, In (key, st) steps.
Proof. unfold keys. intros ([k st] & <- & Hin)%in_map_iff. by exists st. Qed.

(** No list can put every key of a cyclic set after its dependencies. *)
Lemma topo_no_cycle D l R : topo D l -> cyclic D R -> (forall key, In key R -> In key l) -> False.
Proof.
  intros Ht [Hne HR] Hin.
  assert (Hnone : forall a b, l = a ++ b -> forall key, In key R -> ~ In key a).
  { induction a as [|x a IH] using rev_ind; intros b E key Hk; [intros []|]. rewrite <- app_assoc in E.
    intros [Ha|[<-|[]]]%in_app_iff; [by apply (IH _ E key)|].
    destruct (HR x Hk) as (d & Hd & HdR). apply (IH _ E d HdR). exact (Ht a x b E d Hd). }
  destruct R as [|key R]; [done|]. apply (Hnone l [] (eq_sym (app_nil_r l)) key); [by left|]. apply Hin. by left.
Qed.

(** The loop starts with the dependencies of every step. *)
Lemma pending_start steps : NoDup (keys steps) ->
  pending (deps_in steps) [] (map (fun ks => (fst ks, n_depends_on (snd ks))) steps).
Proof.
  intros Hnd key ds Hin. apply in_map_iff in Hin as ([k st] & [= <- <-] & Hin). split; [|intros []].
  rewrite (deps_in_step steps k st Hnd Hin). cbn. symmetry. apply List.forallb_filter_id. by apply forallb_forall.
Qed.

Lemma known_deps steps : NoDup (keys steps) ->
  (forall key st, In (key, st) steps ->
     (forall d, In d (n_depends_on st) -> In d (keys steps)) /\ ~ In key (n_depends_on st)) ->
  forall key d, In key (keys steps) -> In d (deps_in steps key) -> In d (keys steps).
Proof.
  intros Hnd Hc key d Hk Hd. apply keys_step in Hk as [st Hin].
  rewrite (deps_in_step _ _ _ Hnd Hin) in Hd. by apply (Hc key st Hin).
Qed.

(** The order exists exactly when every dependency is a step and no set of steps depends on itself
    in a circle.  It lists every step once, after all its dependencies; otherwise the error
    says which of the two went wrong. *)
Theorem topological_order_exact steps (Hnd : NoDup (keys steps)) :
  match _topological_order steps with
  | Ok l => l ≡ₚ keys steps /\ topo (deps_in steps) l /\
      (forall key st d, In (key, st) steps -> In d (n_depends_on st) -> In d (keys steps)) /\
      (forall R, (forall key, In key R -> In key (keys steps)) -> ~ cyclic (deps_in steps) R)
  | Raise e =>
      (exists key st d, exn_class e = PlanValidationError "PLAN_DEPENDENCY_MISSING" (Some key) /\
         In (key, st) steps /\ In d (n_depends_on st) /\ ~ In d (keys steps)) \/
      (exists at_key R, exn_class e = PlanValidationError "PLAN_CYCLE_DETECTED" at_key /\
         cyclic (deps_in steps) R /\ forall key, In key R -> In key (keys steps))
  end.
Proof.
  unfold _topological_order. pose proof (check_dependencies_spec (keys steps) steps) as Hc.
  destruct (check_dependencies (keys steps) steps) as [u|e]; unfold pbind, mbind, result_bind.
  - set (remaining := map (fun ks => (fst ks, n_depends_on (snd ks))) steps).
    assert (Hkeys : keys remaining = keys steps) by (unfold remaining, keys; by rewrite map_map).
    assert (Hr := rounds_spec (deps_in steps) (keys steps) (length steps) remaining []
      ltac:(unfold remaining; by rewrite length_map) ltac:(by rewrite Hkeys)
      (pending_start steps Hnd) (topo_nil _)).
    fold remaining in Hr. rewrite Hkeys in Hr.
    specialize (Hr (fun key d Hk Hd => or_intror (known_deps steps Hnd Hc key d Hk Hd))).
    destruct (rounds (length steps) (keys steps) remaining []) as [l|e].
    + destruct Hr as (m & -> & Hm & Ht). split; [done|]. split; [done|].
      split; [intros key st d Hin; by apply (Hc key st Hin)|].
      intros R HR HcR. apply (topo_no_cycle _ _ R Ht HcR). intros key Hk. apply list_elem_of_In. cbn. rewrite Hm.
      apply list_elem_of_In. by apply HR.
    + right. destruct Hr as (-> & R & HR & HRs). by exists None, R.
  - destruct Hc as (key & st & Hin & [(Hcode & d & Hd & Hn)|(Hcode & Hself)]).
    + left. by exists key, st, d.
    + right. exists (Some key), [key]. split; [done|]. split.
      * split; [done|]. intros k [<-|[]]. exists key. split; [by rewrite (deps_in_step _ _ _ Hnd Hin)|by left].
      * intros k [<-|[]]. unfold keys. apply in_map_iff. by exists (key, st).
Qed.

(** ** Ancestors *)

Definition needs (D : string -> list string) key d : Prop := In d (D key).

Lemma tc_needs D key d : tc (needs D) key d <-> exists e, In e (D key) /\ (d = e \/ tc (needs D) e d).
Proof.
  split.
  - intros Htc. inversion Htc as [x y Hxy|x y z Hxy Hyz]; subst; [by exists d; split; [|left]|].
    exists y. split; [done|]. by right.
  - intros (e & He & [->|Htc]); [by apply tc_once|by eapply tc_l].
Qed.

Lemma step_of_Ok steps key st : step_of steps key = Ok st <-> assoc key steps = Some st.
Proof. unfold step_of. destruct (assoc key steps); split; congruence || done. Qed.

Lemma set_of_Ok (found : sets) key l : set_of found key = Ok l <-> assoc key found = Some l.
Proof. unfold set_of. destruct (assoc key found); split; congruence || done. Qed.

Lemma topo_cons_deps D a key b : topo D (a ++ key :: b) -> forall d, In d (D key) -> In d a.
Proof. intros Ht. by apply (Ht a key b). Qed.

Lemma ancestors_spec steps : forall rest done_keys found,
  topo (deps_in steps) (done_keys ++ rest) -> (forall key, In key rest -> In key (keys steps)) ->
  (forall key, In key done_keys -> exists l, assoc key found = Some l /\
     forall d, In d l <-> tc (needs (deps_in steps)) key d) ->
  exists result, _dependency_ancestors steps rest found = Ok result /\
    forall key, In key (done_keys ++ rest) -> exists l, assoc key result = Some l /\
      forall d, In d l <-> tc (needs (deps_in steps)) key d.
Proof.
  induction rest as [|key rest IH]; intros done_keys found Ht Hin Hf; cbn [_dependency_ancestors].
  - exists found. split; [done|]. by rewrite app_nil_r.
  - destruct (proj1 (assoc_keys key steps) (Hin key (or_introl eq_refl))) as [st Hst].
    rewrite (result_bind_run _ _ _ (proj2 (step_of_Ok _ _ _) Hst)).
    assert (Hdeps : deps_in steps key = n_depends_on st) by (unfold deps_in; by rewrite Hst).
    assert (Hall : exists inherited, map_result (fun d => l ← set_of found d; Ok (d :: l)) (n_depends_on st) = Ok inherited /\
       forall d, In d (concat inherited) <-> exists e, In e (n_depends_on st) /\ (d = e \/ tc (needs (deps_in steps)) e d)).
    { pose proof (topo_cons_deps _ _ _ _ Ht) as Hd. rewrite Hdeps in Hd. clear -Hd Hf.
      induction (n_depends_on st) as [|e l IH].
      - exists []. split; [done|]. intros d. cbn. split; [done|]. intros (? & [] & _).
      - destruct IH as (inh & E & Hinh); [intros d Hdl; apply Hd; by right|].
        destruct (Hf e (Hd e (or_introl eq_refl))) as (le & Hle & Hspec).
        exists ((e :: le) :: inh). split.
        { apply map_result_Forall2. constructor; [|by apply map_result_Forall2].
          by rewrite (result_bind_run _ _ _ (proj2 (set_of_Ok _ _ _) Hle)). }
        intros d. cbn [concat]. rewrite in_app_iff, Hinh. cbn. rewrite Hspec. split.
        + intros [[->|Htc]|(e' & He' & Hd')]; [by exists d; split; [left|left]|by exists e; split; [left|right]|].
          exists e'. split; [by right|done].
        + intros (e' & [<-|He'] & Hd'); [left; destruct Hd' as [->|?]; [by left|by right]|right; by exists e']. }
    destruct Hall as (inherited & E & Hinh). rewrite (result_bind_run _ _ _ E).
    destruct (IH (done_keys ++ [key]) (dict_set key (concat inherited) found)) as (r & Hr & Hspec).
    + by rewrite <- app_assoc.
    + intros k Hk. apply Hin. by right.
    + intros k Hk. rewrite assoc_dict_set. destruct (String.eqb_spec k key) as [->|Hne].
      * exists (concat inherited). split; [done|]. intros d. rewrite Hinh, tc_needs, Hdeps. done.
      * apply in_app_iff in Hk as [Hk|[<-|[]]]; [by apply Hf|done].
    + exists r. split; [done|]. intros k Hk. apply Hspec. by rewrite <- app_assoc.
Qed.
End Order.

(** ** What is known of a normalized step *)

Section Steps.
Context {tables : UnicodeTables} {digits : UnicodeDigits}.
Implicit Types (env : environment) (st : step) (steps : steps_dict) (key : string).

Lemma pv_required_text_Ok v name maximum s : _required_text v name maximum = Ok s ->
  truthy s = true /\ (py_len s <= maximum)%Z.
Proof. unfold _required_text. destruct v; try done. intros H. res_inv H. bool_simpl. split; [done|lia]. Qed.

(** A step that names a capability the plan may use. *)
Definition capability_step env st (write : bool) (scopes : list string) : Prop :=
  exists name spec, n_kind st = "capability" /\ n_capability st = Some name /\ n_transform st = None /\
    registry env !! name = Some spec /\ ~ In name (hidden_commit_capabilities env) /\
    write = str_in name (trusted_write_prepares env) /\ scopes = scope_resolver env name /\
    n_effect st = Capabilities.effect spec /\ (write = false -> n_effect st = "read") /\
    n_input_schema st = Capabilities.input_schema spec /\ n_output_schema st = Capabilities.output_schema spec.

(** A step that names a transform; its authoritative inputs are bound. *)
Definition transform_step env st (write : bool) (scopes : list string) : Prop :=
  exists name spec, n_kind st = "transform" /\ n_transform st = Some name /\ n_capability st = None /\
    Transforms.get name (transforms env) = Ok spec /\ write = false /\ scopes = [] /\ n_effect st = "read" /\
    (forall x, In x (Transforms.required_bound_inputs spec) -> In x (keys (n_bindings st))) /\
    n_input_schema st = Transforms.input_schema spec /\ n_output_schema st = Transforms.output_schema spec.

Definition known_step env st (write : bool) (scopes : list string) : Prop :=
  valid_step_key (n_key st) = true /\ (py_len (n_key st) <= 64)%Z /\
  object_input_issue PLAN (n_arguments st) (n_input_schema st) (keys (n_bindings st)) = None /\
  (capability_step env st write scopes \/ transform_step env st write scopes).

Lemma or_unknown_Ok {A} (r : result A) code message key a : or_unknown r code message key = Ok a -> r = Ok a.
Proof. destruct r as [b|e]; cbn; [done|]. by destruct (exn_class e). Qed.

Lemma minus_empty l m : bool_decide (minus l m <> []) = false -> forall x, In x l -> In x m.
Proof.
  intros E x Hx. apply bool_decide_eq_false in E. destruct (str_in x m) eqn:Hm; [by apply str_in_spec|].
  exfalso. apply E. intros Hnil. assert (Hin : In x (minus l m)) by (apply minus_In; split; [done|by apply str_in_false]).
  by rewrite Hnil in Hin.
Qed.

Lemma capability_target_Ok env raw key t : capability_target env raw key = Ok t ->
  exists name spec, t_capability t = Some name /\ t_transform t = None /\ registry env !! name = Some spec /\
    ~ In name (hidden_commit_capabilities env) /\ t_write t = str_in name (trusted_write_prepares env) /\
    t_scopes t = scope_resolver env name /\ t_effect t = Capabilities.effect spec /\
    (t_write t = false -> t_effect t = "read") /\
    t_input_schema t = Capabilities.input_schema spec /\ t_output_schema t = Capabilities.output_schema spec.
Proof.
  unfold capability_target. intros H. apply result_bind_Ok in H as (name & _ & H).
  rewrite !reject_if_bind in H. destruct H as (_ & Hhidden & H).
  apply result_bind_Ok in H as (spec & Hspec & H). apply or_unknown_Ok in Hspec.
  rewrite reject_if_bind in H. destruct H as (Heffect & [= <-]).
  unfold Capabilities.get in Hspec. destruct (registry env !! name) as [sp|] eqn:Hreg; [|done]. injection Hspec as ->.
  exists name, spec. cbn. repeat (split; [done|]). split; [by apply str_in_false|]. repeat (split; [done|]).
  split; [|done]. intros Hw. rewrite Hw, andb_true_r in Heffect. by bool_simpl.
Qed.

Lemma transform_target_Ok env raw key bound t : transform_target env raw key bound = Ok t ->
  exists name spec, t_transform t = Some name /\ t_capability t = None /\
    Transforms.get name (transforms env) = Ok spec /\ t_write t = false /\ t_scopes t = [] /\ t_effect t = "read" /\
    (forall x, In x (Transforms.required_bound_inputs spec) -> In x bound) /\
    t_input_schema t = Transforms.input_schema spec /\ t_output_schema t = Transforms.output_schema spec.
Proof.
  unfold transform_target. intros H. apply result_bind_Ok in H as (name & _ & H).
  rewrite reject_if_bind in H. destruct H as (_ & H).
  apply result_bind_Ok in H as (spec & Hspec & H). apply or_unknown_Ok in Hspec.
  rewrite reject_if_bind in H. destruct H as (Hbound & [= <-]).
  exists name, spec. cbn. repeat (split; [done|]). split; [by apply minus_empty|done].
Qed.

Lemma partial_input_Ok arguments bound schema key u :
  _validate_partial_input arguments bound schema key = Ok u -> object_input_issue PLAN arguments schema bound = None.
Proof.
  unfold _validate_partial_input. intros H. apply result_bind_Ok in H as (known & _ & H).
  rewrite reject_if_bind in H. destruct H as (_ & H). by destruct (object_input_issue _ _ _ _).
Qed.

Lemma normalize_step_Ok env version n known raw st write scopes :
  normalize_step env version n known raw = Ok (st, (write, scopes)) ->
  ~ In (n_key st) known /\ known_step env st write scopes.
Proof.
  unfold normalize_step. destruct raw as [| | | | | |raw]; try done. intros H.
  rewrite reject_if_bind in H. destruct H as (_ & H).
  apply result_bind_Ok in H as (key & Hkey & H). apply pv_required_text_Ok in Hkey as [_ Hlen].
  rewrite !reject_if_bind in H. destruct H as (Hvalid & Hfresh & H).
  apply result_bind_Ok in H as (kind & _ & H). rewrite reject_if_bind in H. destruct H as (_ & H).
  apply result_bind_Ok in H as (deps & _ & H).
  destruct (get_or raw "arguments" (JObj [])) as [| | | | | |arguments]; try done.
  apply result_bind_Ok in H as (bindings & _ & H). apply result_bind_Ok in H as (t & Ht & H).
  apply result_bind_Ok in H as (u & Hinput & H). apply partial_input_Ok in Hinput.
  injection H as <- <- <-. apply negb_false_iff in Hvalid. apply str_in_false in Hfresh.
  split; [done|]. split; [done|]. split; [done|]. split; [done|]. cbn.
  destruct (py_eqb (get_or_null raw "kind") (JStr "capability")).
  - left. apply capability_target_Ok in Ht as (name & spec & ? & ? & ? & ? & ? & ? & ? & ? & ? & ?).
    by exists name, spec.
  - right. apply transform_target_Ok in Ht as (name & spec & ? & ? & ? & ? & ? & ? & ? & ? & ?).
    by exists name, spec.
Qed.

(** ** The collected steps *)

Record collected_ok env (c : collected) : Prop := {
  co_keys : NoDup (keys (normalized c));
  co_writes : NoDup (write_steps c);
  co_write_keys : forall key, In key (write_steps c) -> In key (keys (normalized c));
  co_steps : forall key st, In (key, st) (normalized c) -> n_key st = key /\
    exists write scopes, known_step env st write scopes /\ (write = true <-> In key (write_steps c)) /\
      forall x, In x scopes -> In x (required_scopes c);
}.

Lemma NoDup_snoc {A} (l : list A) x : NoDup l -> ~ In x l -> NoDup (l ++ [x]).
Proof.
  intros Hl Hx. apply NoDup_app. split; [done|]. split; [|apply NoDup_singleton].
  intros y Hy [<-|Hn]%elem_of_cons; [by apply Hx, list_elem_of_In|by inversion Hn].
Qed.

Lemma collect_one env c st write scopes : collected_ok env c ->
  ~ In (n_key st) (keys (normalized c)) -> known_step env st write scopes ->
  collected_ok env (Collected (normalized c ++ [(n_key st, st)])
    (if write then write_steps c ++ [n_key st] else write_steps c) (required_scopes c ++ scopes)).
Proof.
  intros [H1 H2 H3 H4] Hfresh Hst.
  assert (Hkeys : keys (normalized c ++ [(n_key st, st)]) = keys (normalized c) ++ [n_key st])
    by (unfold keys; by rewrite map_app).
  assert (Hw : forall key, In key (if write then write_steps c ++ [n_key st] else write_steps c) <->
    In key (write_steps c) \/ (write = true /\ key = n_key st)).
  { intros key. destruct write; [rewrite in_app_iff; cbn; naive_solver|naive_solver]. }
  split; cbn [normalized write_steps required_scopes].
  - rewrite Hkeys. by apply NoDup_snoc.
  - destruct write; [|done]. apply NoDup_snoc; [done|]. intros Hin. apply Hfresh. by apply H3.
  - intros key Hin. rewrite Hkeys, in_app_iff. apply Hw in Hin as [Hin|[_ ->]]; [left; by apply H3|right; by left].
  - intros key st' Hin. apply in_app_iff in Hin as [Hin|[[= <- <-]|[]]].
    + destruct (H4 key st' Hin) as (Hk & w & sc & Hknown & Hiff & Hsc). split; [done|]. exists w, sc.
      split; [done|]. split; [|intros x Hx; apply in_app_iff; left; by apply Hsc].
      rewrite Hw, Hiff. split; [by left|]. intros [?|[_ ->]]; [done|]. exfalso. apply Hfresh.
      unfold keys. apply in_map_iff. by exists (n_key st, st').
    + split; [done|]. exists write, scopes. split; [done|]. split; [|intros x Hx; apply in_app_iff; by right].
      rewrite Hw. split; [by right|]. intros [Hin|[? _]]; [|done]. exfalso. apply Hfresh. by apply H3.
Qed.

Lemma normalize_steps_Ok env version raws : forall n c c', collected_ok env c ->
  normalize_steps env version n c raws = Ok c' ->
  collected_ok env c' /\ length (normalized c') = (length (normalized c) + length raws)%nat.
Proof.
  induction raws as [|raw raws IH]; intros n c c' Hc; cbn [normalize_steps].
  - intros [= <-]. split; [done|]. cbn. lia.
  - intros H. apply result_bind_Ok in H as ([st [write scopes]] & Hst & H).
    apply normalize_step_Ok in Hst as [Hfresh Hst].
    apply IH in H as [Hc' Hlen]; [|by apply collect_one]. split; [done|]. rewrite Hlen. cbn [normalized].
    rewrite length_app. cbn. lia.
Qed.

Lemma collected_nothing env : collected_ok env (Collected [] [] []).
Proof. split; cbn; [constructor|constructor|done|done]. Qed.
End Steps.

(** ** Bindings and provenance *)

Section Plans.
Context {tables : UnicodeTables} {digits : UnicodeDigits}.
Implicit Types (env : environment) (st : step) (steps : steps_dict) (key : string) (r : reference).

(** [key] has a binding that reads step [source]. *)
Definition reads steps key (source : string) : Prop :=
  exists st name b r, assoc key steps = Some st /\ In (name, b) (n_bindings st) /\
    In r (_binding_references b) /\ r_step r = source.

(** The type a binding's references must have: the target's, or that of its items. *)
Definition wanted_type st (name : string) (b : binding) : option json :=
  let schema := _property_schema (n_input_schema st) name in
  match b with Many _ => items_type schema | _ => type_of schema end.

(** Every reference reads a step before this one in the dependency chain, at a place whose type
    fits the field. *)
Definition binding_ok steps st (name : string) (b : binding) : Prop :=
  (forall items, b = Many items -> schema_is (_property_schema (n_input_schema st) name) "array" = true) /\
  forall r, In r (_binding_references b) -> exists source ts tt,
    assoc (r_step r) steps = Some source /\ tc (needs (deps_in steps)) (n_key st) (r_step r) /\
    _schema_type_at_pointer (n_output_schema source) (r_pointer r) = Some ts /\
    wanted_type st name b = Some tt /\ _types_compatible ts tt = true.

Lemma check_reference_Ok steps ancestors key name wanted r u :
  check_reference steps ancestors key name wanted r = Ok u ->
  exists source ts tt, assoc (r_step r) steps = Some source /\ In (r_step r) ancestors /\
    _schema_type_at_pointer (n_output_schema source) (r_pointer r) = Some ts /\ wanted = Some tt /\
    _types_compatible ts tt = true.
Proof.
  unfold check_reference. destruct (assoc (r_step r) steps) as [source|] eqn:Es; [|done]. intros H.
  rewrite reject_if_bind in H. destruct H as (Ha & H). apply negb_false_iff, str_in_spec in Ha.
  destruct (_schema_type_at_pointer _ _) as [ts|] eqn:Ets; [|done]. destruct wanted as [tt'|]; [|done].
  apply reject_if_Ok in H. apply negb_false_iff in H. by exists source, ts, tt'.
Qed.

Lemma check_binding_Ok steps ancestors st name b u :
  (forall d, In d ancestors <-> tc (needs (deps_in steps)) (n_key st) d) ->
  check_binding steps ancestors st (name, b) = Ok u -> binding_ok steps st name b.
Proof.
  intros Hanc H. unfold check_binding in H. apply result_bind_Ok in H as (wanted & Hw & H).
  apply unit_result in H. rewrite each_Ok in H.
  assert (Hwt : wanted = wanted_type st name b /\
    (forall items, b = Many items -> schema_is (_property_schema (n_input_schema st) name) "array" = true)).
  { destruct b as [r|r|items]; [by injection Hw as <-|by injection Hw as <-|].
    rewrite reject_if_bind in Hw. destruct Hw as (Harr & [= <-]). apply negb_false_iff in Harr.
    split; [done|]. by intros ? [= <-]. }
  destruct Hwt as [-> Harr]. split; [done|]. intros r Hr.
  destruct (check_reference_Ok _ _ _ _ _ _ _ (H r Hr)) as (source & ts & tt' & ? & ? & ? & ? & ?).
  exists source, ts, tt'. by rewrite <- Hanc.
Qed.

(** ** Lineage *)

(** Data of [source] reaches [key] along bindings. *)
Definition flows steps (source key : string) : Prop := rtc (reads steps) key source.

Lemma In_concat_map {A B} (f : A -> list B) l y : In y (concat (map f l)) <-> exists x, In x l /\ In y (f x).
Proof. rewrite <- flat_map_concat_map. apply in_flat_map. Qed.

Lemma lineage_spec steps sources : forall rest found result,
  (forall key l, assoc key found = Some l -> forall s, In s l -> In s sources /\ flows steps s key) ->
  lineage_of steps sources rest found = Ok result ->
  forall key l, assoc key result = Some l -> forall s, In s l -> In s sources /\ flows steps s key.
Proof.
  induction rest as [|key rest IH]; intros found result Hf; cbn [lineage_of]; [by intros [= <-]|].
  intros H. apply result_bind_Ok in H as (st & Hst & H). apply step_of_Ok in Hst.
  eapply IH; [|exact H]. clear H IH. intros k l. rewrite assoc_dict_set.
  destruct (String.eqb_spec k key) as [->|Hne]; [|by apply Hf]. intros [= <-] s Hs.
  apply in_app_iff in Hs as [Hs|Hs].
  - destruct (str_in key sources) eqn:E; [|done]. destruct Hs as [<-|[]]. split; [by apply str_in_spec|apply rtc_refl].
  - apply In_concat_map in Hs as (r & Hr & Hs). apply In_concat_map in Hr as ([name b] & Hb & Hr). cbn in Hr.
    unfold dict_get in Hs. destruct (assoc (r_step r) found) as [l|] eqn:El; [|done].
    destruct (Hf _ _ El s Hs) as [Hsrc Hflow]. split; [done|]. eapply rtc_l; [|exact Hflow].
    by exists st, name, b, r.
Qed.

Lemma lineage_of_keys steps sources rest found result key :
  lineage_of steps sources rest found = Ok result -> In key rest \/ (exists l, assoc key found = Some l) ->
  exists l, assoc key result = Some l.
Proof.
  revert found. induction rest as [|k rest IH]; intros found; cbn [lineage_of].
  - intros [= <-] [[]|?]. done.
  - intros H Hk. apply result_bind_Ok in H as (st & _ & H). eapply IH; [exact H|].
    rewrite assoc_dict_set. destruct (String.eqb_spec key k) as [->|Hne]; [right; by eexists|].
    destruct Hk as [[->|?]|?]; [done|by left|by right].
Qed.

(** What version 2 asks of a plan with steps [steps], the last of them [terminal]. *)
Definition provenance env steps (write_keys : list string) (temporal : bool) (terminal : string) : Prop :=
  business_sources steps <> [] /\
  (forall s, In s (business_sources steps) -> flows steps s terminal /\
     forall st, assoc s steps = Some st -> has_date_arguments st = true -> temporal = true) /\
  (write_keys = [] -> exists st spec, assoc terminal steps = Some st /\ n_kind st = "transform" /\
     transform_of env st = Ok spec /\ opt_truthy (Transforms.result_projection spec) = true) /\
  (forall sink st field b r, hd_error write_keys = Some sink -> assoc sink steps = Some st ->
     In (field, JStr "user_or_bound_transform") (provenance_rules st) ->
     assoc field (n_bindings st) = Some b -> In r (_binding_references b) ->
     exists source spec, assoc (r_step r) steps = Some source /\ n_kind source = "transform" /\
       transform_of env source = Ok spec /\ Transforms.result_projection spec = Some "private_draft") /\
  (forall sink st field, hd_error write_keys = Some sink -> assoc sink steps = Some st ->
     In (field, JStr "user_or_bound_transform") (provenance_rules st) ->
     exists b, assoc field (n_bindings st) = Some b).

Lemma check_draft_Ok env steps sink field r u : check_draft_reference env steps sink field r = Ok u ->
  exists source spec, assoc (r_step r) steps = Some source /\ n_kind source = "transform" /\
    transform_of env source = Ok spec /\ Transforms.result_projection spec = Some "private_draft".
Proof.
  unfold check_draft_reference. intros H. apply result_bind_Ok in H as (source & Hs & H). apply step_of_Ok in Hs.
  rewrite reject_if_bind in H. destruct H as (Hk & H). apply result_bind_Ok in H as (spec & Hspec & H).
  apply reject_if_Ok in H. bool_simpl. by exists source, spec.
Qed.

Lemma rule_Ok env steps sink field : check_provenance_rule env steps sink (field, JStr "user_or_bound_transform") = Ok tt ->
  exists b, assoc field (n_bindings sink) = Some b /\
    forall r, In r (_binding_references b) -> check_draft_reference env steps (n_key sink) field r = Ok tt.
Proof.
  unfold check_provenance_rule. replace (py_eqb (JStr "user_or_bound_transform") (JStr "user_or_bound_transform"))
    with true by reflexivity. cbn [negb]. destruct (assoc field (n_bindings sink)) as [b|]; [|done].
  intros H. exists b. split; [done|]. by apply each_Ok.
Qed.

Lemma require_lineage_Ok sources lineage terminal u : require_lineage sources lineage terminal = Ok u ->
  forall s, In s sources -> In s lineage.
Proof. intros H. apply reject_if_Ok in H. by apply minus_empty. Qed.

Lemma temporal_Ok steps temporal s st : assoc s steps = Some st -> has_date_arguments st = true ->
  check_temporal steps temporal s = Ok tt -> temporal = true.
Proof.
  unfold check_temporal. intros Hs Hd H. rewrite (result_bind_run _ _ _ (proj2 (step_of_Ok _ _ _) Hs)) in H.
  apply reject_if_Ok in H. rewrite Hd in H. by destruct temporal.
Qed.

Lemma provenance_Ok env steps ordered write_keys constraints terminal u :
  last ordered = Some terminal -> _validate_v2_provenance env steps ordered write_keys constraints = Ok u ->
  provenance env steps write_keys (is_dict (get_or_null constraints "temporal")) terminal.
Proof.
  intros Hlast H. unfold _validate_v2_provenance in H. rewrite reject_if_bind in H. destruct H as (Hsrc & H).
  apply result_bind_Ok in H as ([] & Htemp & H). rewrite each_Ok in Htemp.
  apply result_bind_Ok in H as (lineage & Hlin & H).
  assert (Hrev : exists l, rev ordered = terminal :: l).
  { apply last_Some in Hlast as [l' ->]. rewrite rev_app_distr. cbn. by eexists. }
  destruct Hrev as [l Hrev]. rewrite Hrev in H.
  apply result_bind_Ok in H as (from & Hfrom & H). apply set_of_Ok in Hfrom.
  assert (Hflow : forall s, In s from -> flows steps s terminal).
  { intros s Hs. eapply (lineage_spec steps _ ordered [] lineage); [done|exact Hlin|exact Hfrom|exact Hs]. }
  assert (Hdates : forall s st, In s (business_sources steps) -> assoc s steps = Some st ->
    has_date_arguments st = true -> is_dict (get_or_null constraints "temporal") = true).
  { intros s st Hs Hst Hd. eapply temporal_Ok; [exact Hst|exact Hd|]. apply Htemp. by apply sorted_set_In. }
  apply bool_decide_eq_false in Hsrc. split; [done|].
  destruct write_keys as [|sink write_keys].
  - apply result_bind_Ok in H as (u1 & Hreq & H). apply result_bind_Ok in H as (st & Hst & H). apply step_of_Ok in Hst.
    unfold check_projection in H. rewrite reject_if_bind in H. destruct H as (Hk & H).
    apply result_bind_Ok in H as (spec & Hspec & H). apply reject_if_Ok in H. bool_simpl.
    split; [intros s Hs; split; [by apply Hflow, (require_lineage_Ok _ _ _ _ Hreq)|eauto]|].
    split; [by intros _; exists st, spec|]. done.
  - apply result_bind_Ok in H as (st & Hst & H). apply step_of_Ok in Hst.
    apply result_bind_Ok in H as ([] & Hrules & Hreq). rewrite each_Ok in Hrules.
    split; [intros s Hs; split; [by apply Hflow, (require_lineage_Ok _ _ _ _ Hreq)|eauto]|]. split; [done|]. split.
    + intros k st' field b r [= <-] Hst' Hrule Hb Hr. rewrite Hst in Hst'. injection Hst' as <-.
      destruct (rule_Ok _ _ _ _ (Hrules _ Hrule)) as (b' & Hb' & Hrefs). rewrite Hb in Hb'. injection Hb' as <-.
      by eapply check_draft_Ok, Hrefs.
    + intros k st' field [= <-] Hst' Hrule. rewrite Hst in Hst'. injection Hst' as <-.
      destruct (rule_Ok _ _ _ _ (Hrules _ Hrule)) as (b' & Hb' & _). by exists b'.
Qed.
End Plans.

(** ** The compiled plan *)

Section Compiled.
Context {tables : UnicodeTables} {digits : UnicodeDigits}.
Implicit Types (env : environment) (st : step) (steps : steps_dict) (key : string).

(** [steps] is the dictionary of the steps of the plan, which has each of them once. *)
Definition dict_of (c : compiled) steps : Prop :=
  NoDup (keys steps) /\ Permutation steps (map (fun st => (n_key st, st)) (c_steps c)).

(** What is known when compilation returns: of the collected steps, and of their order. *)
Record ordered_ok env (version : string) (constraints : list (string * json)) (c : collected) (ordered : list string)
  : Prop := {
  oo_single : (length (write_steps c) <= 1)%nat;
  oo_perm : ordered ≡ₚ keys (normalized c);
  oo_topo : topo (deps_in (normalized c)) ordered;
  oo_known : forall key st d, In (key, st) (normalized c) -> In d (n_depends_on st) -> In d (keys (normalized c));
  oo_bindings : forall key st name b, In (key, st) (normalized c) -> In (name, b) (n_bindings st) ->
    binding_ok (normalized c) st name b;
  oo_last : forall sink, In sink (write_steps c) -> last ordered = Some sink;
  oo_provenance : is_v2 version = true -> forall terminal, last ordered = Some terminal ->
    provenance env (normalized c) (write_steps c) (is_dict (get_or_null constraints "temporal")) terminal;
}.

Lemma step_bindings_Ok env c ancestors key st :
  collected_ok env c -> In (key, st) (normalized c) ->
  (exists l, assoc key ancestors = Some l /\ forall d, In d l <-> tc (needs (deps_in (normalized c))) key d) ->
  check_step_bindings (normalized c) ancestors key = Ok tt ->
  forall name b, In (name, b) (n_bindings st) -> binding_ok (normalized c) st name b.
Proof.
  intros Hc Hin (l & Hl & Hspec) H name b Hb. unfold check_step_bindings in H.
  apply result_bind_Ok in H as (st' & Hst & H). apply step_of_Ok in Hst.
  rewrite (In_assoc _ _ _ (co_keys _ _ Hc) Hin) in Hst. injection Hst as <-. rewrite Hl, each_Ok in H.
  destruct (co_steps _ _ Hc key st Hin) as [<- _]. exact (check_binding_Ok _ _ _ _ _ _ Hspec (H _ Hb)).
Qed.

Lemma order_steps_Ok env version constraints c ordered : collected_ok env c ->
  order_steps env version constraints c = Ok ordered -> ordered_ok env version constraints c ordered.
Proof.
  intros Hc H. unfold order_steps in H. rewrite reject_if_bind in H. destruct H as (Hone & H).
  apply result_bind_Ok in H as (l & Hl & H). apply result_bind_Ok in H as (anc & Hanc & H).
  apply result_bind_Ok in H as ([] & Hbind & H). apply result_bind_Ok in H as ([] & Hsink & H).
  apply result_bind_Ok in H as (u & Hprov & [= ->]).
  pose proof (topological_order_exact (normalized c) (co_keys _ _ Hc)) as Ht. rewrite Hl in Ht.
  destruct Ht as (Hperm & Htopo & Hknown & _). rewrite each_Ok in Hbind.
  assert (Hkeys : forall key, In key ordered <-> In key (keys (normalized c)))
    by (intros key; by rewrite <- !list_elem_of_In, Hperm).
  destruct (ancestors_spec (normalized c) ordered [] []) as (anc' & Hanc' & Hspec);
    [done|intros key; by apply Hkeys|done|]. rewrite Hanc in Hanc'. injection Hanc' as <-.
  split; try done.
  - destruct (length (write_steps c)) as [|[|n]]; [lia|lia|done].
  - intros key st name b Hin Hb. assert (Hkey : In key ordered)
      by (apply Hkeys; unfold keys; apply in_map_iff; by exists (key, st)).
    exact (step_bindings_Ok env c anc key st Hc Hin (Hspec key Hkey) (Hbind key Hkey) name b Hb).
  - intros sink Hs. destruct (write_steps c) as [|k [|k' ks]]; [done| |done].
    destruct Hs as [<-|[]]. apply reject_if_Ok in Hsink. by bool_simpl.
  - intros Hv terminal Hlast. rewrite Hv in Hprov. by eapply provenance_Ok.
Qed.

(** Everything compilation has established when it returns [c]. *)
Lemma compile_Ok env granted context proposal c :
  validate_and_compile_task_plan env granted context proposal = Ok c ->
  exists col ordered n, collected_ok env col /\
    ordered_ok env (c_proposal_version c) (c_constraints c) col ordered /\
    map_result (step_of (normalized col)) ordered = Ok (c_steps c) /\
    length (normalized col) = n /\ (1 <= n <= 12)%nat /\
    (forall g, granted = Some g -> forall x, In x (required_scopes col) -> In x g) /\
    c_required_scopes c = sorted_set (required_scopes col) /\
    truthy (c_goal c) = true /\ (py_len (c_goal c) <= 500)%Z /\
    (exists text, c_plan_hash c = sha256_hex text).
Proof.
  destruct proposal as [| | | | | |kvs]; try done. intros H. unfold validate_and_compile_task_plan in H.
  rewrite reject_if_bind in H. destruct H as (_ & H).
  apply result_bind_Ok in H as (version & Hv & H). apply result_bind_Ok in H as (constraints & _ & H).
  apply result_bind_Ok in H as (goal & Hgoal & H). apply result_bind_Ok in H as (raws & Hraws & H).
  apply result_bind_Ok in H as (col & Hcol & H). apply result_bind_Ok in H as (ordered & Hord & H).
  apply result_bind_Ok in H as (u & Hscopes & H). apply result_bind_Ok in H as (sts & Hsts & H).
  injection H as <-. cbn [c_proposal_version c_constraints c_steps c_required_scopes c_goal c_plan_hash].
  apply pv_required_text_Ok in Hgoal as [Hg1 Hg2].
  destruct (normalize_steps_Ok env version raws _ _ _ (collected_nothing env) Hcol) as [Hc Hlen].
  exists col, ordered, (length raws). split; [done|]. split; [by apply order_steps_Ok|]. split; [done|].
  split; [done|]. split.
  { unfold proposal_steps in Hraws. destruct (get_or_null kvs "steps") as [| | | | |l|]; try done.
    rewrite !reject_if_bind in Hraws. destruct Hraws as (Hne & Hmax & [= ->]). unfold MAX_PLAN_STEPS in Hmax.
    apply bool_decide_eq_false in Hne. destruct raws; [done|]. apply Nat.ltb_ge in Hmax. cbn [length] in *. lia. }
  split; [|split; [done|split; [done|split; [done|by eexists]]]].
  intros g -> x Hx. unfold check_scopes in Hscopes. apply reject_if_Ok in Hscopes. by apply (minus_empty _ _ Hscopes).
Qed.

Lemma ordered_steps_dict col ordered sts c : NoDup (keys (normalized col)) ->
  (forall key st, In (key, st) (normalized col) -> n_key st = key) -> ordered ≡ₚ keys (normalized col) ->
  map_result (step_of (normalized col)) ordered = Ok sts -> sts = c_steps c ->
  map n_key sts = ordered /\ dict_of c (normalized col).
Proof.
  intros Hnd Hkey Hperm H ->. rewrite map_result_Forall2 in H.
  assert (Hall : Forall2 (fun k st => assoc k (normalized col) = Some st /\ n_key st = k) ordered (c_steps c)).
  { eapply Forall2_impl; [exact H|]. intros k st E. apply step_of_Ok in E. split; [done|].
    apply Hkey. by apply assoc_In. }
  assert (Hmap : map n_key (c_steps c) = ordered) by (clear -Hall; induction Hall as [|k st l l' [_ <-] _ IH]; cbn; [done|by rewrite IH]).
  split; [done|]. split; [done|]. apply NoDup_Permutation.
  - clear -Hnd. induction (normalized col) as [|[k st] l IH]; [constructor|]. apply NoDup_cons in Hnd as [Hk Hl].
    constructor; [|by apply IH]. intros Hin. apply Hk. apply list_elem_of_In in Hin. apply list_elem_of_In, in_map_iff.
    by exists (k, st).
  - apply (NoDup_fmap_1 fst). rewrite <- list_fmap_compose. change (NoDup (map n_key (c_steps c))).
    by rewrite Hmap, Hperm.
  - intros [k st]. rewrite !list_elem_of_In, in_map_iff. split.
    + intros Hin. exists st. rewrite (Hkey k st Hin). split; [done|].
      assert (Hk : In k ordered) by (apply list_elem_of_In; rewrite Hperm; apply list_elem_of_In, in_map_iff; by exists (k, st)).
      pose proof (In_assoc _ _ _ Hnd Hin) as Ha. clear -Hall Hk Ha.
      induction Hall as [|k2 st2 l l' [Ha' _] _ IH]; [done|]. destruct Hk as [->|Hk]; [left; congruence|right; by apply IH].
    + intros (st' & [= <- <-] & Hin). clear -Hall Hin.
      induction Hall as [|k2 st2 l l' [Ha' Hk'] _ IH]; [done|]. destruct Hin as [->|Hin]; [|by apply IH].
      apply assoc_In. congruence.
Qed.
End Compiled.

(** ** The theorems *)

Section Guarantees.
Context {tables : UnicodeTables} {digits : UnicodeDigits}.
Implicit Types (env : environment) (st : step) (steps : steps_dict) (key : string).

Lemma to_steps_In n l cs : In cs (to_steps n l) <-> exists i st, l !! i = Some st /\ cs = to_step (n + i) st.
Proof.
  revert n. induction l as [|st l IH]; intros n; cbn [to_steps In].
  - split; [done|]. by intros (i & st & ? & _).
  - rewrite IH. split.
    + intros [<-|(i & st' & Hi & ->)]; [exists 0%nat, st|exists (S i), st']; cbn; (split; [done|]); f_equal; lia.
    + intros ([|i] & st' & Hi & ->); cbn in Hi; [left; injection Hi as ->; f_equal; lia|].
      right. exists i, st'. split; [done|]. f_equal. lia.
Qed.

Lemma valid_key_truthy key : valid_step_key key = true -> truthy key = true.
Proof. by destruct key. Qed.

Lemma json_or_strings l : TaskPlans.json_or (strings l) (JArr []) = JArr (map JStr l).
Proof. by destruct l. Qed.

(** In an order with dependencies first, they are at smaller places. *)
Lemma topo_lookup D (l : list string) i key d : topo D l -> l !! i = Some key -> In d (D key) ->
  exists j, (j < i)%nat /\ l !! j = Some d.
Proof.
  intros Ht Hi Hd. pose proof (Ht (firstn i l) key (skipn (S i) l)) as H.
  rewrite (take_drop_middle l i key Hi) in H. specialize (H eq_refl d Hd).
  apply list_elem_of_In, list_elem_of_lookup in H as [j Hj]. apply lookup_take_Some in Hj as [Hj Hlt]. by exists j.
Qed.

(** What lies below in the dependency chain too. *)
Lemma topo_chain D (l : list string) : topo D l -> forall key d, tc (needs D) key d ->
  forall i, l !! i = Some key -> exists j, (j < i)%nat /\ l !! j = Some d.
Proof.
  intros Ht key d Htc. induction Htc as [x y Hxy|x y z Hxy _ IH]; intros i Hi.
  - by apply (topo_lookup D l i x).
  - destruct (topo_lookup D l i x y Ht Hi Hxy) as (j & Hj & Hy). destruct (IH j Hy) as (k & Hk & Hz).
    exists k. split; [lia|done].
Qed.

(** The facts of [compile_Ok], about the list of steps of the plan. *)
Lemma compile_steps env granted context proposal c :
  validate_and_compile_task_plan env granted context proposal = Ok c ->
  exists col, collected_ok env col /\ ordered_ok env (c_proposal_version c) (c_constraints c) col (map n_key (c_steps c)) /\
    dict_of c (normalized col) /\ (1 <= length (c_steps c) <= 12)%nat /\
    (forall g, granted = Some g -> forall x, In x (required_scopes col) -> In x g).
Proof.
  intros H. apply compile_Ok in H as (col & ordered & n & Hc & Ho & Hsts & Hn & Hlen & Hg & _).
  destruct (ordered_steps_dict col ordered (c_steps c) c (co_keys _ _ Hc)) as [Hmap Hdict];
    [intros key st Hin; apply (co_steps _ _ Hc key st Hin)|apply (oo_perm _ _ _ _ _ Ho)|done|done|].
  exists col. rewrite Hmap. split; [done|]. split; [done|]. split; [done|]. split; [|done].
  destruct Hdict as [_ Hp]. apply Permutation_length in Hp. rewrite length_map in Hp. lia.
Qed.

Lemma dict_step c steps i st : dict_of c steps -> c_steps c !! i = Some st -> In (n_key st, st) steps.
Proof.
  intros [_ Hp] Hi. apply list_elem_of_In. rewrite Hp. apply list_elem_of_In, in_map_iff. exists st. split; [done|].
  apply list_elem_of_In. by eapply list_elem_of_lookup_2.
Qed.

(** A key at a place of the order belongs to the step at that place. *)
Lemma key_at (l : list step) j d : map n_key l !! j = Some d -> exists st, l !! j = Some st /\ n_key st = d.
Proof. rewrite list_lookup_fmap. intros (st & Hst & ->)%fmap_Some. by exists st. Qed.

(** The goal is a text as required, the hash a digest. *)
Lemma compile_goal_hash env granted context proposal c :
  validate_and_compile_task_plan env granted context proposal = Ok c ->
  exists raw text, _required_text raw "goal" 500 = Ok (c_goal c) /\ c_plan_hash c = sha256_hex text.
Proof.
  destruct proposal as [| | | | | |kvs]; try done. intros H. unfold validate_and_compile_task_plan in H.
  rewrite reject_if_bind in H. destruct H as (_ & H).
  apply result_bind_Ok in H as (version & _ & H). apply result_bind_Ok in H as (constraints & _ & H).
  apply result_bind_Ok in H as (goal & Hgoal & H). apply result_bind_Ok in H as (raws & _ & H).
  apply result_bind_Ok in H as (col & _ & H). apply result_bind_Ok in H as (ordered & _ & H).
  apply result_bind_Ok in H as (u & _ & H). apply result_bind_Ok in H as (sts & _ & H).
  injection H as <-. by eexists _, _.
Qed.

(** The plan store's precondition *)
Lemma compiled_is_valid env granted context proposal c snapshot :
  validate_and_compile_task_plan env granted context proposal = Ok c ->
  TaskPlans.valid_plan (to_compiled_plan c snapshot) /\ NoDup (map n_key (c_steps c)).
Proof.
  intros H. apply compile_steps in H as (col & Hc & Ho & Hdict & _).
  split; [|rewrite (oo_perm _ _ _ _ _ Ho); apply (co_keys _ _ Hc)].
  intros cs Hcs. apply to_steps_In in Hcs as (i & st & Hi & ->). cbn [to_step TaskPlans.cs_step_key TaskPlans.cs_depends_on].
  pose proof (dict_step _ _ _ _ Hdict Hi) as Hin.
  destruct (co_steps _ _ Hc _ _ Hin) as (_ & w & sc & (Hkey & _) & _). split; [by apply valid_key_truthy|].
  exists (n_depends_on st). split; [apply json_or_strings|]. intros dep Hdep.
  destruct (topo_lookup _ _ i (n_key st) dep (oo_topo _ _ _ _ _ Ho)) as (j & Hj & Hdj).
  { by rewrite list_lookup_fmap, Hi. }
  { by rewrite (deps_in_step _ _ st (co_keys _ _ Hc) Hin). }
  apply key_at in Hdj as (st' & Hst' & <-). exists (to_step (1 + j) st'). split; [|split; [done|cbn; lia]].
  apply to_steps_In. by exists j, st'.
Qed.

(** C23. A plan that compiles has one to twelve steps with distinct keys; its dependencies and
    everything its bindings read come earlier in it, and every binding reads from its step's
    dependency chain, at a place whose type fits.  So it is a plan as the store requires them. *)
Theorem compiled_plan_valid env granted context proposal c snapshot
  (H : validate_and_compile_task_plan env granted context proposal = Ok c) :
  TaskPlans.valid_plan (to_compiled_plan c snapshot) /\
  (1 <= length (c_steps c) <= 12)%nat /\ NoDup (map n_key (c_steps c)) /\
  exists steps, dict_of c steps /\ forall i st name b, c_steps c !! i = Some st -> In (name, b) (n_bindings st) ->
    binding_ok steps st name b /\
    forall r, In r (_binding_references b) -> exists j source,
      (j < i)%nat /\ c_steps c !! j = Some source /\ n_key source = r_step r.
Proof.
  destruct (compiled_is_valid _ _ _ _ _ snapshot H) as [Hvalid Hnd].
  apply compile_steps in H as (col & Hc & Ho & Hdict & Hlen & _).
  assert (Hat : forall i st, c_steps c !! i = Some st -> map n_key (c_steps c) !! i = Some (n_key st))
    by (intros i st Hi; by rewrite list_lookup_fmap, Hi).
  split; [done|split; [done|split; [done|]]].
  exists (normalized col). split; [done|]. intros i st name b Hi Hb.
    pose proof (dict_step _ _ _ _ Hdict Hi) as Hin.
    pose proof (oo_bindings _ _ _ _ _ Ho _ _ _ _ Hin Hb) as Hok. split; [done|].
    intros r Hr. destruct Hok as [_ Hrefs]. destruct (Hrefs r Hr) as (source & ts & tt' & _ & Htc & _).
    destruct (topo_chain _ _ (oo_topo _ _ _ _ _ Ho) _ _ Htc i (Hat i st Hi)) as (j & Hj & Hdj).
    apply key_at in Hdj as (st' & Hst' & <-). by exists j, st'.
Qed.

(** A step that prepares a trusted write *)
Definition is_write env st : bool :=
  match n_capability st with Some name => str_in name (trusted_write_prepares env) | None => false end.

Lemma known_write env st write scopes : known_step env st write scopes -> write = is_write env st.
Proof.
  unfold is_write. intros (_ & _ & _ & [(name & spec & _ & -> & _ & _ & _ & -> & _)|(name & spec & _ & _ & -> & _ & -> & _)]); done.
Qed.

Lemma write_steps_In env c key st : collected_ok env c -> In (key, st) (normalized c) ->
  In key (write_steps c) <-> is_write env st = true.
Proof.
  intros Hc Hin. destruct (co_steps _ _ Hc key st Hin) as (_ & w & sc & Hk & Hiff & _).
  by rewrite <- Hiff, (known_write _ _ _ _ Hk).
Qed.

(** Only the last step of a plan may be anything but a read, and then it is a trusted preparation
    of a write; no step is a hidden commit, its static arguments fit its schema together
    with the bound fields, and the identity has every scope its capability needs. *)
Theorem write_sink_last env granted context proposal c
  (H : validate_and_compile_task_plan env granted context proposal = Ok c) :
  forall i st, c_steps c !! i = Some st ->
    (is_write env st = true -> S i = length (c_steps c)) /\ (is_write env st = false -> n_effect st = "read") /\
    object_input_issue PLAN (n_arguments st) (n_input_schema st) (keys (n_bindings st)) = None /\
    forall name, n_capability st = Some name -> ~ In name (hidden_commit_capabilities env) /\
      forall g, granted = Some g -> forall x, In x (scope_resolver env name) -> In x g.
Proof.
  apply compile_steps in H as (col & Hc & Ho & Hdict & Hlen & Hg). intros i st Hi.
  pose proof (dict_step _ _ _ _ Hdict Hi) as Hin.
  destruct (co_steps _ _ Hc _ _ Hin) as (_ & w & sc & Hk & Hiff & Hsc).
  pose proof (known_write _ _ _ _ Hk) as Hw. destruct Hk as (_ & _ & Hinput & Hkind). repeat split.
  - intros Hwt. rewrite <- Hw in Hwt. apply Hiff in Hwt. pose proof (oo_last _ _ _ _ _ Ho _ Hwt) as Hl.
    rewrite last_lookup, length_map in Hl. apply key_at in Hl as (st' & Hst' & Hkey).
    assert (E : i = pred (length (c_steps c))); [|destruct (length (c_steps c)); [lia|cbn in E; lia]].
    eapply (NoDup_lookup (map n_key (c_steps c))); [rewrite (oo_perm _ _ _ _ _ Ho); apply (co_keys _ _ Hc)| |];
      rewrite list_lookup_fmap; [by rewrite Hi|by rewrite Hst', <- Hkey].
  - intros Hwf. rewrite <- Hw in Hwf.
    destruct Hkind as [(name & spec & _ & _ & _ & _ & _ & _ & _ & _ & He & _)|(name & spec & _ & _ & _ & _ & _ & _ & He & _)];
      [by apply He|done].
  - done.
  - intros Hhid. destruct Hkind as [(name' & spec & _ & Hcap & _ & _ & Hnot & _)|(name' & spec & _ & _ & Hcap & _)]; congruence.
  - intros g Hgr x Hx. apply (Hg g Hgr). apply Hsc.
    destruct Hkind as [(name' & spec & _ & Hcap & _ & _ & _ & _ & -> & _)|(name' & spec & _ & _ & Hcap & _)]; [|congruence].
    congruence.
Qed.

Definition write_keys env (c : compiled) : list string :=
  map n_key (List.filter (is_write env) (c_steps c)).

Lemma singleton_lists (l m : list string) : (length l <= 1)%nat -> NoDup m -> (forall x, In x m <-> In x l) -> m = l.
Proof.
  intros Hl Hm Hiff. destruct l as [|x [|y l]]; cbn in Hl; [| |lia].
  - destruct m as [|y m]; [done|]. destruct (proj1 (Hiff y)). by left.
  - destruct m as [|y [|z m]].
    + destruct (proj2 (Hiff x) (or_introl eq_refl)).
    + destruct (proj1 (Hiff y) (or_introl eq_refl)) as [->|[]]. done.
    + exfalso. destruct (proj1 (Hiff y) (or_introl eq_refl)) as [<-|[]].
      destruct (proj1 (Hiff z) (or_intror (or_introl eq_refl))) as [<-|[]].
      apply NoDup_cons in Hm as [Hm _]. apply Hm. by left.
Qed.

(** In a plan of version 2, the data of every business source reaches the last step along
    bindings, and dated sources come with the plan's time constraint.  Without a write, the last step
    is a transform with a result to show; with one, each of its derived fields is bound, and to
    nothing but the output of draft transforms. *)
Theorem provenance_complete env granted context proposal c
  (H : validate_and_compile_task_plan env granted context proposal = Ok c) (Hv : is_v2 (c_proposal_version c) = true) :
  exists steps terminal, dict_of c steps /\ last (map n_key (c_steps c)) = Some terminal /\
    provenance env steps (write_keys env c) (is_dict (get_or_null (c_constraints c) "temporal")) terminal.
Proof.
  apply compile_steps in H as (col & Hc & Ho & Hdict & Hlen & _).
  destruct (last (map n_key (c_steps c))) as [terminal|] eqn:Hlast.
  2: { apply last_None in Hlast. apply map_eq_nil in Hlast. rewrite Hlast in Hlen. cbn in Hlen. lia. }
  exists (normalized col), terminal. split; [done|]. split; [done|].
  replace (write_keys env c) with (write_steps col); [by apply (oo_provenance _ _ _ _ _ Ho Hv)|]. symmetry.
  apply singleton_lists; [apply (oo_single _ _ _ _ _ Ho)| |].
  - assert (Hnd : NoDup (map n_key (c_steps c))) by (rewrite (oo_perm _ _ _ _ _ Ho); apply (co_keys _ _ Hc)).
    unfold write_keys. clear -Hnd. induction (c_steps c) as [|st l IH]; cbn; [constructor|].
    cbn in Hnd. apply NoDup_cons in Hnd as [Hk Hl]. destruct (is_write env st); [|by apply IH]. cbn.
    apply NoDup_cons. split; [|by apply IH]. intros Hin. apply Hk. apply list_elem_of_In in Hin.
    apply list_elem_of_In. apply in_map_iff in Hin as (st' & <- & Hin). apply in_map_iff. exists st'.
    split; [done|]. by apply filter_In in Hin as [? _].
  - intros key. unfold write_keys. rewrite in_map_iff. destruct Hdict as [_ Hp].
    assert (Hin : forall st, In st (c_steps c) <-> In (n_key st, st) (normalized col)).
    { intros st. rewrite <- (list_elem_of_In _ (n_key st, st)), Hp, list_elem_of_In, in_map_iff. split.
      - intros Hst. by exists st.
      - intros (st' & [= _ ->] & Hst). done. }
    split.
    + intros (st & <- & Hst). apply filter_In in Hst as [Hst Hw]. apply Hin in Hst.
      by apply (write_steps_In _ _ _ _ Hc Hst).
    + intros Hk. pose proof (co_write_keys _ _ Hc _ Hk) as Hkey. apply keys_step in Hkey as [st Hst].
      destruct (co_steps _ _ Hc _ _ Hst) as [Hnk _]. exists st. split; [done|]. apply filter_In. split.
      * apply Hin. by rewrite Hnk.
      * by apply (write_steps_In _ _ _ _ Hc Hst).
Qed.
End Guarantees.

(** ** Pointers: the type found when compiling is the type of the value found when running *)

Section Pointers.
Context {tables : UnicodeTables} {digits : UnicodeDigits}.
Implicit Types (value schema d : json) (token : string).

(** Along the tokens, a schema that lists properties says that it is an object. *)
Fixpoint regular_at (tokens : list string) schema : Prop :=
  match tokens with
  | [] => True
  | token :: rest =>
      (jget schema "properties" <> None -> schema_is schema "object" = true) /\
      forall d, schema_child schema token = Some d -> regular_at rest d
  end.

Lemma schema_is_type schema name : schema_is schema name = true -> jget schema "type" = Some (JStr name).
Proof.
  unfold schema_is. destruct (jget schema "type") as [[| | | |s| |]|]; try done. by intros ->%String.eqb_eq.
Qed.

Lemma conforms_type value schema name : conforms value schema -> schema_is schema name = true ->
  has_type value name = true.
Proof. intros Hc Hs. destruct Hc as [Ht _ _ _ _]. unfold type_ok in Ht. by rewrite (schema_is_type _ _ Hs) in Ht. Qed.

(** One token, in the schema and in the value. *)
Lemma child_conforms value schema token d : conforms value schema ->
  (jget schema "properties" <> None -> schema_is schema "object" = true) ->
  schema_child schema token = Some d ->
  (forall kvs v, value = JObj kvs -> assoc token kvs = Some v -> conforms v d) /\
  (forall l v, value = JArr l -> In v l -> conforms v d).
Proof.
  intros Hc Hreg Hd. unfold schema_child in Hd.
  destruct (schema_is schema "object" || _) eqn:Hobj.
  - assert (Hs : schema_is schema "object" = true).
    { apply orb_true_iff in Hobj as [?|Hp]; [done|]. apply Hreg. by destruct (jget schema "properties"). }
    assert (Hdef : definition schema token = Some d).
    { unfold definition. destruct (assoc token (properties schema)) as [[]|]; try done. }
    split.
    + intros kvs v -> Hv. eapply conforms_members; [exact Hc|reflexivity|by apply assoc_In|exact Hdef].
    + intros l v -> _. pose proof (conforms_type _ _ _ Hc Hs) as Ht. discriminate Ht.
  - destruct (schema_is schema "array" && str_isdigit token) eqn:Harr; [|done].
    apply andb_true_iff in Harr as [Harr _]. pose proof (conforms_type _ _ _ Hc Harr) as Ht. split.
    + intros kvs v -> _. discriminate Ht.
    + intros l v -> Hv. eapply conforms_items; [exact Hc|reflexivity|exact Hv|].
      unfold item_schema. destruct (jget schema "items") as [[]|]; done.
Qed.

Lemma resolved_conforms pointer tokens : forall value schema v d, conforms value schema -> regular_at tokens schema ->
  schema_at tokens schema = Some d -> resolve_tokens pointer tokens value = Ok v -> conforms v d.
Proof.
  induction tokens as [|token rest IH]; intros value schema v d Hc Hreg; cbn [schema_at resolve_tokens].
  - by intros [= <-] [= <-].
  - destruct Hreg as [Hobj Hrest]. intros Hd Hv.
    destruct (schema_child schema token) as [child|] eqn:Hchild; [|done]. cbn in Hd.
    destruct (child_conforms _ _ _ _ Hc Hobj Hchild) as [Hmem Hitem].
    destruct value as [| | | | |l|kvs]; [discriminate Hv..| |].
    + destruct (str_isdigit token); [|discriminate Hv]. apply result_bind_Ok in Hv as (index & _ & Hv).
      rewrite reject_if_bind in Hv. destruct Hv as (_ & Hv).
      destruct (l !! Z.to_nat index) as [x|] eqn:Hx; [|discriminate Hv].
      apply (IH x child); [|by apply Hrest|exact Hd|exact Hv]. apply (Hitem l); [reflexivity|].
      apply list_elem_of_In. by eapply list_elem_of_lookup_2.
    + destruct (assoc token kvs) as [x|] eqn:Hx; [|discriminate Hv].
      apply (IH x child); [by apply (Hmem kvs)|by apply Hrest|exact Hd|exact Hv].
Qed.

Lemma compatible_names s t : _types_compatible (JStr s) (JStr t) = true ->
  s = t \/ (s = "integer" /\ t = "number").
Proof.
  assert (E : forall a b, py_eqb (JStr a) (JStr b) = String.eqb a b) by reflexivity.
  unfold _types_compatible, py_in. cbn [type_set existsb]. rewrite !orb_false_r, !E.
  intros [H|H]%orb_true_iff.
  - left. by apply String.eqb_eq in H.
  - right. apply andb_true_iff in H as [H1 H2]. apply String.eqb_eq in H1, H2. by split.
Qed.

(** A binding that compiles reads a value of the right type: if the source's output conforms to
    its schema and the pointer leads to a value, that value has the type of the target field,
    because the schema's type at the pointer was found compatible with it. *)
Theorem pointer_type_sound value schema pointer s t v
  (Hvalue : conforms value schema) (Hreg : regular_at (pointer_tokens pointer) schema)
  (Hs : _schema_type_at_pointer schema pointer = Some (JStr s))
  (Ht : _types_compatible (JStr s) (JStr t) = true)
  (Hv : resolve_json_pointer value pointer = Ok v) : has_type v t = true.
Proof.
  assert (Hd : exists d, conforms v d /\ type_of d = Some (JStr s)).
  { unfold _schema_type_at_pointer in Hs. unfold resolve_json_pointer in Hv.
    destruct (String.eqb pointer ""); [injection Hv as <-; by exists schema|].
    rewrite reject_if_bind in Hv. destruct Hv as (Hp & Hv). rewrite Hp in Hs.
    destruct (schema_at (pointer_tokens pointer) schema) as [d|] eqn:Hd; [|done]. cbn in Hs.
    exists d. split; [by eapply resolved_conforms|done]. }
  destruct Hd as (d & [Hty _ _ _ _] & Hds). unfold type_of in Hds. unfold type_ok in Hty.
  destruct (jget d "type") as [ty|]; [|done].
  assert (Hname : has_type v s = true) by (destruct ty; try done; injection Hds as ->; exact Hty).
  destruct (compatible_names s t Ht) as [<-|[-> ->]]; [done|]. by destruct v.
Qed.
End Pointers.
