(* ===== verification/PlanCreation.v ===== *)
(** From a proposal to the first step: what compiles is created, and what is created starts.
    The compiler's promise ([PlanValidationFacts]) is what the plan store relies on
    ([TaskPlans.valid_plan]). *)

From S2P Require Import Prelude PyStr Json JsonFacts Sha256 Store InputValidation.
From S2P Require Import PlanningPolicy PlanValidation PlanValidationFacts.
From S2P Require Import TaskPlans TaskPlanFacts.

#[local] Open Scope list_scope.

(** ** The statements of a creation succeed *)

Section Creation.
Context {tables : UnicodeTables}.
Implicit Types (s : store) (p : plan_row).

Lemma insert_steps_runs plan fresh now (steps : list compiled_step) : forall n s,
  (forall i, (i < length steps)%nat -> plan_steps s !! fresh (n + i)%nat = None) ->
  (forall i j, (i < j < length steps)%nat -> fresh (n + i)%nat <> fresh (n + j)%nat) ->
  NoDup (map cs_step_key steps) -> NoDup (map cs_ordinal steps) ->
  (forall k (r : step_row) c, plan_steps s !! k = Some r -> plan_id r = plan -> In c steps ->
     step_key r <> cs_step_key c /\ ordinal r <> cs_ordinal c) ->
  exists s', insert_steps plan fresh n now steps s = Ok (tt, s') /\ plans s' = plans s.
Proof.
  induction steps as [|c steps IH]; intros n s Hfree Hdist Hkeys Hords Hclash; cbn [insert_steps].
  - by exists s.
  - apply NoDup_cons in Hkeys as [Hk Hkeys]. apply NoDup_cons in Hords as [Ho Hords].
    set (row := new_step plan c now).
    assert (Hins : insert_row (fresh n) (step_clash row) row (plan_steps s) = Ok (<[fresh n := row]> (plan_steps s))).
    { apply insert_row_Ok. split; [specialize (Hfree 0%nat); rewrite Nat.add_0_r in Hfree; apply Hfree; cbn; lia|].
      split; [|done]. apply exists_where_false. intros k r Hr. unfold step_clash.
      destruct (String.eqb_spec (plan_id r) (plan_id row)) as [E|]; [|done]. cbn [andb].
      destruct (Hclash k r c Hr E (or_introl eq_refl)) as [H1 H2].
      apply orb_false_iff. split; [by apply String.eqb_neq|by apply Z.eqb_neq]. }
    destruct (IH (S n) (set_steps (<[fresh n := row]> (plan_steps s)) s)) as (s' & E & Ep); cbn [plan_steps set_steps].
    + intros i Hi. rewrite lookup_insert_ne.
      * specialize (Hfree (S i)). rewrite Nat.add_succ_r in Hfree. apply Hfree. cbn. lia.
      * specialize (Hdist 0%nat (S i)). rewrite Nat.add_0_r, Nat.add_succ_r in Hdist. apply Hdist. cbn. lia.
    + intros i j Hij. specialize (Hdist (S i) (S j)). rewrite !Nat.add_succ_r in Hdist. apply Hdist. cbn. lia.
    + done.
    + done.
    + intros k r c' Hr Hid Hc'. apply lookup_insert_Some in Hr as [[_ <-]|[_ Hr]].
      * split; [intros E; apply Hk|intros E; apply Ho]; apply list_elem_of_In, in_map_iff; by exists c'.
      * apply (Hclash k r c' Hr Hid). by right.
    + exists s'. split; [|done]. rewrite tx_gets_bind. apply tx_lift_bind. eexists. split; [exact Hins|].
      by rewrite tx_modify_bind.
Qed.

Lemma create_body_runs (a : create_args) (pr : prepared) now id fresh s :
  Inv s -> plans s !! id = None ->
  (forall k (p : plan_row), plans s !! k = Some p -> parent_task_id p = p_parent_task_id pr -> plan_active (row_state p) = false) ->
  (forall k (p : plan_row) key, p_key pr = Some key -> plans s !! k = Some p -> same_plan_key (p_user_subject pr) (p_parent_task_id pr) key p = false) ->
  (forall i, (i < length (cp_steps (a_compiled_plan a)))%nat -> plan_steps s !! fresh i = None) ->
  (forall i j, (i < j < length (cp_steps (a_compiled_plan a)))%nat -> fresh i <> fresh j) ->
  NoDup (map cs_step_key (cp_steps (a_compiled_plan a))) -> NoDup (map cs_ordinal (cp_steps (a_compiled_plan a))) ->
  exists s', create_body a pr now id fresh s = Ok (inr id, s').
Proof.
  intros HI Hid Hactive Hkey Hfree Hdist Hkeys Hords.
  set (row := new_plan a pr id (last_revision (p_parent_task_id pr) (plans s) + 1)%Z now).
  assert (Hclash : exists_where (plan_clash row) (plans s) = false).
  { apply exists_where_false. intros k p Hp. unfold plan_clash. apply orb_false_iff. split.
    - change (idempotency_key row) with (p_key pr). destruct (p_key pr) as [key|] eqn:Ek; [|done]. by apply (Hkey k).
    - unfold active_for. destruct (String.eqb_spec (parent_task_id p) (parent_task_id row)) as [E|]; [|done].
      by apply (Hactive k). }
  destruct (insert_steps_runs id fresh now (cp_steps (a_compiled_plan a)) 0 (set_plans (<[id := row]> (plans s)) s))
    as (s' & E & Ep); [done..| |].
  { intros k r c Hr Hrid _. destruct (inv_rows _ HI _ _ Hr) as (_ & [p Hp] & _). congruence. }
  exists s'. unfold create_body. rewrite tx_gets_bind. cbv zeta.
  replace (p_key pr ≫= _) with (@None (string * plan_row)).
  2: { destruct (p_key pr) as [key|] eqn:Ek; [|done]. cbn.
    destruct (select_one _ (plans s)) as [[k p]|] eqn:Es; [|done]. apply select_one_Some in Es as [Hp Hm].
    by rewrite (Hkey k p key eq_refl Hp) in Hm. }
  replace (exists_where (active_for (p_parent_task_id pr)) (plans s)) with false.
  2: { symmetry. apply exists_where_false. intros k p Hp. unfold active_for.
    destruct (String.eqb_spec (parent_task_id p) (p_parent_task_id pr)) as [Et|]; [|done]. by apply (Hactive k). }
  apply tx_raise_if_bind. split; [done|]. apply tx_lift_bind. exists (<[id := row]> (plans s)).
  split; [by apply insert_row_Ok|]. rewrite tx_modify_bind. rewrite (tx_bind_run _ _ _ _ _ E).
  assert (Hsel : _select_plan id s' = Ok (row, s')) by (apply select_plan_Ok; split; [done|]; rewrite Ep; apply lookup_insert_eq).
  by rewrite (tx_bind_run _ _ _ _ _ Hsel).
Qed.
End Creation.

(** ** The first step *)

Section Start.
Context {tables : UnicodeTables} {digits : UnicodeDigits}.
Implicit Types (s : store) (p : plan_row) (r : step_row).

Lemma sorted_head {A} (R : A -> A -> Prop) (x : A) l : StronglySorted R l -> In x l ->
  (forall y : A, In y l -> R y x -> y = x) -> exists l', l = x :: l'.
Proof.
  intros Hs Hin Hmin. destruct Hs as [|y l' _ Hall]; [done|]. exists l'. destruct Hin as [->|Hin]; [done|].
  rewrite List.Forall_forall in Hall. by rewrite (Hmin y (or_introl eq_refl) (Hall x Hin)).
Qed.

(** A queued row of the smallest ordinal that depends on nothing is the one selected. *)
Lemma first_ready_head id s i r : plan_steps s !! i = Some r -> plan_id r = id ->
  st_state r = SQueued -> deps_of r = Ok [] ->
  (forall j (x : step_row), plan_steps s !! j = Some x -> plan_id x = id -> (ordinal x <= ordinal r)%Z -> (j, x) = (i, r)) ->
  first_ready (steps_of id (plan_steps s)) (steps_of id (plan_steps s)) = Ok (Some (i, r)).
Proof.
  intros Hi Hid Hq Hdeps Hmin.
  assert (Hsorted : StronglySorted (fun x y => by_ordinal x y = true) (steps_of id (plan_steps s))).
  { apply sort_by_sorted; unfold by_ordinal; intros; [destruct (Z.le_ge_cases (ordinal (snd x)) (ordinal (snd y)))|]; lia. }
  destruct (sorted_head _ (i, r) _ Hsorted) as [l' El].
  - by apply steps_of_In.
  - intros [j x] [Hj Hx]%steps_of_In Hle. unfold by_ordinal in Hle. cbn in Hle. apply Hmin; [done|done|lia].
  - rewrite El at 2. cbn [first_ready snd]. by rewrite bool_decide_true, Hdeps by done.
Qed.

Lemma to_steps_keys n l : map cs_step_key (to_steps n l) = map n_key l.
Proof. revert n. induction l as [|st l IH]; intros n; cbn; [done|]. by rewrite IH. Qed.

Lemma to_steps_length n l : length (to_steps n l) = length l.
Proof. revert n. induction l as [|st l IH]; intros n; cbn; [done|]. by rewrite IH. Qed.

Lemma to_steps_ordinals n l : NoDup (map cs_ordinal (to_steps n l)).
Proof.
  revert n. induction l as [|st l IH]; intros n; cbn; [constructor|]. apply NoDup_cons. split; [|done].
  rewrite list_elem_of_In, in_map_iff. intros (cs & E & Hin). apply to_steps_In in Hin as (i & st' & _ & ->).
  cbn in E. lia.
Qed.

(** The JSON a step carries can be written and read. *)
Definition wf_arguments (st : PlanValidation.step) : Prop :=
  wf_json (JObj (n_arguments st)) /\
  wf_json (JObj (map (fun nb => (fst nb, PlanValidation.binding_json (snd nb))) (n_bindings st))).

Lemma wf_strings l : wf_json (strings l).
Proof. unfold strings. apply wf_JArr. induction l; cbn; by constructor. Qed.

Lemma wf_json_or v d : wf_json v -> wf_json d -> wf_json (json_or v d).
Proof. unfold json_or. by destruct (json_truthy v). Qed.

Lemma wf_nothing : wf_json (JArr []) /\ wf_json (JObj []).
Proof. split; [by apply wf_JArr|]. apply wf_JObj. split; constructor. Qed.

Lemma wf_to_steps n l : Forall wf_arguments l -> Forall wf_step (to_steps n l).
Proof.
  destruct wf_nothing as [H1 H2]. revert n. induction l as [|st l IH]; intros n; cbn [to_steps]; [constructor|].
  intros H. apply Forall_cons in H as [[Ha Hb] Hl]. constructor; [|by apply IH].
  split; [|split]; apply wf_json_or; try done. apply wf_strings.
Qed.

(** What [begin_queued] gives is the row it leaves. *)
Lemma begun_view id now s v t : begin_queued id now s = Ok (Some (v, true), t) ->
  exists r, plan_steps t !! sv_step_id v = Some r /\ sv_row v = r.
Proof.
  unfold begin_queued. rewrite tx_gets_bind. intros (found & _ & H)%tx_lift_bind.
  destruct found as [[sid st]|]; [|by apply tx_ret_Ok in H as [? _]].
  unfold update_step, update_plan in H. rewrite !tx_modify_bind in H.
  apply tx_bind_Ok in H as ([i r] & t' & Hsel & H). apply select_step_Ok in Hsel as [-> Hsel].
  apply tx_lift_bind in H as (w & Hw & H). apply tx_ret_Ok in H as [[= ->] ->].
  apply select_one_Some in Hsel as [Hi _]. unfold _step_from_row in Hw.
  apply result_bind_Ok in Hw as (? & _ & Hw). apply result_bind_Ok in Hw as (? & _ & Hw).
  apply result_bind_Ok in Hw as (? & _ & [= <-]). by exists r.
Qed.

(** The new plan, if its first step has the smallest ordinal and depends on nothing *)
Lemma begins_first (a : create_args) (pr : prepared) now id fresh s s1 now' (c : compiled_step) rest : Inv s ->
  valid_plan (a_compiled_plan a) -> create_body a pr now id fresh s = Ok (inr id, s1) ->
  cp_steps (a_compiled_plan a) = c :: rest -> json_or (cs_depends_on c) (JArr []) = JArr [] ->
  (forall c', In c' rest -> (cs_ordinal c < cs_ordinal c')%Z) -> Forall wf_step (cp_steps (a_compiled_plan a)) ->
  exists v t, begin_next_step id (p_user_subject pr) now' s1 = Ok (Some (v, true), t) /\
    step_key (sv_row v) = cs_step_key c /\ st_state (sv_row v) = SRunning.
Proof.
  intros HI Hvalid Hcreate Hsteps Hdeps Hmin Hwf.
  pose proof (Inv_create _ _ _ _ _ _ _ _ Hvalid HI Hcreate) as HI1.
  destruct (stored_steps a pr now id fresh s s1 HI Hvalid Hcreate Hwf c) as (i & v & Hi & Hid & Hk & Hv & _);
    [rewrite Hsteps; by left|].
  apply plan_body_Ok in Hcreate as [(_ & ? & ? & ? & [=] & _)|(_ & Hnone & _ & Eplans & _ & _ & Hold & Hnew & Hall)]; [|apply HI].
  set (p := new_plan a pr id (last_revision (p_parent_task_id pr) (plans s) + 1)%Z now) in *.
  assert (Hp : plans s1 !! id = Some p) by (rewrite Eplans; apply lookup_insert_eq).
  assert (Hrows : forall j (x : step_row), plan_steps s1 !! j = Some x -> plan_id x = id ->
    exists c', In c' (cp_steps (a_compiled_plan a)) /\ x = new_step id c' now).
  { intros j x Hj Hx. destruct (Hnew j x Hj) as [Hj'|?]; [|done].
    destruct (inv_rows _ HI _ _ Hj') as (_ & [q Hq] & _). congruence. }
  destruct (Hrows i _ Hi Hid) as (c1 & Hc1 & Hr1). rewrite Hsteps in Hc1.
  assert (Hrow : sv_row v = new_step id c now).
  { destruct (Hall c) as [j Hj]; [rewrite Hsteps; by left|].
    assert (E : i = j) by (apply (inv_unique _ HI1 _ _ _ _ Hi Hj); [by rewrite Hid|left; by rewrite Hk]). subst j. congruence. }
  assert (Hready : first_ready (steps_of id (plan_steps s1)) (steps_of id (plan_steps s1)) = Ok (Some (i, sv_row v))).
  { apply first_ready_head; [done|done|by rewrite Hrow| |].
    - rewrite Hrow. unfold deps_of, new_step. cbn [the_step depends_on_json _json]. rewrite Hdeps.
      unfold _canonical_json. by rewrite loads_dumps by (by apply wf_JArr).
    - intros j x Hj Hx Hle. destruct (Hrows j x Hj Hx) as (c' & Hc' & ->). rewrite Hrow in Hle. cbn in Hle.
      rewrite Hsteps in Hc'. destruct Hc' as [<-|Hc']; [|specialize (Hmin c' Hc'); lia].
      assert (E : j = i) by (apply (inv_unique _ HI1 _ _ _ _ Hj Hi); [by rewrite Hid|left; by rewrite Hk]). by rewrite E, Hrow. }
  assert (Hown : _select_owned_plan id (p_user_subject pr) s1 = Ok (p, s1)) by (by apply tp_select_owned_Ok).
  destruct (begin_queued_runs s1 id p now' i (sv_row v) v HI1 Hp Hi Hid ltac:(by rewrite Hrow) Hv Hready)
    as (v' & t & E & Hsid & Ht).
  exists v', t. split.
  - unfold begin_next_step. by rewrite (tx_bind_run _ _ _ _ _ Hown).
  - destruct (begun_view id now' s1 v' t E) as (r' & Hr' & Hv'). rewrite Hsid, Ht in Hr'. injection Hr' as <-.
    rewrite Hv'. split; [exact Hk|done].
Qed.

(** The request's own texts are there and fit. *)
Definition request_ok (a : create_args) : Prop :=
  exists user task source, TaskPlans._required_text (JStr (a_user_subject a)) "user_subject" 256 = Ok user /\
    TaskPlans._required_text (JStr (a_parent_task_id a)) "parent_task_id" 128 = Ok task /\
    TaskPlans._required_text (JStr (a_proposal_source a)) "proposal_source" 80 = Ok source /\
    str_in source ["agent_host"; "template"; "central_planner"] = true /\
    (py_len (py_strip (or_empty (a_idempotency_key a))) <= 256)%Z.

Lemma required_text_stripped value name maximum (s : string) : PlanValidation._required_text value name maximum = Ok s ->
  TaskPlans._required_text (JStr s) name maximum = Ok s.
Proof.
  intros H. assert (Hs : exists raw, s = py_strip raw).
  { unfold PlanValidation._required_text in H. destruct value; try discriminate H.
    rewrite !reject_if_bind in H. destruct H as (_ & _ & [= <-]). by eexists. }
  apply pv_required_text_Ok in H as [Ht Hlen]. destruct Hs as [raw ->].
  unfold TaskPlans._required_text. cbn [json_truthy py_str].
  change (negb (String.eqb (py_strip raw) "")) with (truthy (py_strip raw)). rewrite Ht, py_strip_strip, Ht.
  destruct (maximum <? py_len (py_strip raw))%Z eqn:E; [lia|done].
Qed.

Lemma required_text_digest text : TaskPlans._required_text (JStr (sha256_hex text)) "plan_hash" 64 = Ok (sha256_hex text).
Proof.
  destruct (sha256_hex_shape text) as [Hg Hl]. unfold TaskPlans._required_text. cbn [json_truthy py_str].
  assert (Ht : truthy (sha256_hex text) = true) by (apply truthy_true; intros E; by rewrite E in Hl).
  change (negb (String.eqb (sha256_hex text) "")) with (truthy (sha256_hex text)).
  rewrite Ht, py_strip_graphic, Ht, py_len_graphic, Hl by done. done.
Qed.

(** The texts of the compiled plan are as the store wants them, so only the request's own may fail. *)
Lemma prepare_runs env granted context proposal c snapshot a :
  validate_and_compile_task_plan env granted context proposal = Ok c ->
  a_compiled_plan a = to_compiled_plan c snapshot -> request_ok a ->
  exists pr, prepare a = Ok pr /\ p_plan_hash pr = c_plan_hash c /\ p_goal pr = c_goal c.
Proof.
  intros Hc Ha (user & task & source & Hu & Ht & Hs & Hin & Hk).
  destruct (compile_goal_hash _ _ _ _ _ Hc) as (raw & text & Hgoal & Hhash).
  apply compile_steps in Hc as (col & _ & _ & _ & Hlen & _).
  unfold prepare. rewrite Ha. cbn [to_compiled_plan cp_goal cp_plan_hash cp_steps].
  rewrite (result_bind_run _ _ _ Hu), (result_bind_run _ _ _ Ht), (result_bind_run _ _ _ Hs), Hin.
  rewrite (result_bind_run (raise_if (negb true) _ _) _ tt eq_refl).
  rewrite (result_bind_run _ _ _ (required_text_stripped _ _ _ _ Hgoal)).
  rewrite Hhash, (result_bind_run _ _ _ (required_text_digest _)).
  rewrite bool_decide_eq_false_2 by (intros E; apply (f_equal length) in E; rewrite to_steps_length in E; cbn in E; lia).
  rewrite (result_bind_run (raise_if false _ _) _ tt eq_refl). cbv zeta.
  replace (256 <? _)%Z with false by (symmetry; lia). rewrite (result_bind_run (raise_if false _ _) _ tt eq_refl).
  by eexists.
Qed.

(** The step with the first place depends on nothing. *)
Lemma first_step env granted context proposal c : validate_and_compile_task_plan env granted context proposal = Ok c ->
  exists st rest, c_steps c = st :: rest /\ n_depends_on st = [].
Proof.
  intros H. apply compile_steps in H as (col & Hc & Ho & Hdict & Hlen & _).
  destruct (c_steps c) as [|st rest] eqn:E; [cbn in Hlen; lia|]. exists st, rest. split; [done|].
  assert (Hi : c_steps c !! 0%nat = Some st) by by rewrite E.
  pose proof (dict_step _ _ _ _ Hdict Hi) as Hin.
  destruct (n_depends_on st) as [|d l] eqn:Ed; [done|].
  destruct (topo_lookup (deps_in (normalized col)) (map n_key (st :: rest)) 0 (n_key st) d) as (j & Hj & _); [|done| |lia].
  - exact (oo_topo _ _ _ _ _ Ho).
  - rewrite (deps_in_step _ _ _ (co_keys _ _ Hc) Hin), Ed. by left.
Qed.

(** A proposal that compiles can be stored and started: for a task without an active plan, whatever
    plan compilation returns is created under fresh identifiers, and its owner's first call begins
    its first step. *)
Theorem compiled_plan_starts env granted context proposal c snapshot a now id fresh s now'
  (Hcompile : validate_and_compile_task_plan env granted context proposal = Ok c)
  (Ha : a_compiled_plan a = to_compiled_plan c snapshot) (Hreq : request_ok a)
  (Hwf : Forall wf_arguments (c_steps c))
  (Hs : reachable initial step s) (Hid : plans s !! id = None)
  (Hfree : forall i, (i < length (c_steps c))%nat -> plan_steps s !! fresh i = None)
  (Hdist : forall i j, (i < j < length (c_steps c))%nat -> fresh i <> fresh j) :
  exists pr, prepare a = Ok pr /\
    ((forall k p, plans s !! k = Some p -> parent_task_id p = p_parent_task_id pr -> plan_active (row_state p) = false) ->
     (forall k p key, p_key pr = Some key -> plans s !! k = Some p ->
        same_plan_key (p_user_subject pr) (p_parent_task_id pr) key p = false) ->
     exists s1 v t st, create_body a pr now id fresh s = Ok (inr id, s1) /\
       begin_next_step id (p_user_subject pr) now' s1 = Ok (Some (v, true), t) /\
       hd_error (c_steps c) = Some st /\ step_key (sv_row v) = n_key st /\ st_state (sv_row v) = SRunning).
Proof.
  destruct (prepare_runs _ _ _ _ _ _ _ Hcompile Ha Hreq) as (pr & Hpr & _). exists pr. split; [done|].
  intros Hactive Hkey. pose proof (reachable_invariant initial step Inv tp_Inv_init tp_Inv_step s Hs) as HI.
  pose proof (compiled_is_valid _ _ _ _ _ snapshot Hcompile) as [Hvalid Hnd]. rewrite <- Ha in Hvalid.
  assert (Hsteps : cp_steps (a_compiled_plan a) = to_steps 1 (c_steps c)) by by rewrite Ha.
  destruct (create_body_runs a pr now id fresh s) as [s1 Hcreate]; try done.
  - by rewrite Hsteps, to_steps_length.
  - by rewrite Hsteps, to_steps_length.
  - by rewrite Hsteps, to_steps_keys.
  - rewrite Hsteps. apply to_steps_ordinals.
  - destruct (first_step _ _ _ _ _ Hcompile) as (st & rest & Est & Hdeps).
    destruct (begins_first a pr now id fresh s s1 now' (to_step 1 st) (to_steps 2 rest)) as (v & t & Hbegin & Hv & Hst);
      [done|done|done|by rewrite Hsteps, Est|by cbn; rewrite Hdeps| |rewrite Hsteps; by apply wf_to_steps|].
    { intros cs Hcs. apply to_steps_In in Hcs as (i & st' & _ & ->). cbn. lia. }
    exists s1, v, t, st. by rewrite Est.
Qed.

End Start.
