(* ===== verification/PlanningCatalog.v ===== *)
(** * The catalogue offered to planners (agentbridge/core/planning_catalog.py)

    What a model may put into a plan, with examples, and its filtering by the user's
    permissions ([planning_catalog] of agentbridge/core/central_service.py).  The JSON schema of a
    step, which pydantic generates, is a parameter. *)

From S2P Require Import Prelude PyStr Json InputValidation PlanningPolicy PlanValidation.
From S2P Require Capabilities Transforms.

#[local] Open Scope list_scope.

Section Catalog.
Context `{UnicodeTables, UnicodeDigits}.

(** The guards of the loop over [registry.list()] *)
Definition listed (env : environment) (granted : list string) (spec : Capabilities.CapabilitySpec) : bool :=
  let name := Capabilities.name spec in
  negb (str_in name (hidden_commit_capabilities env))
  && (String.eqb (Capabilities.effect spec) "read" || str_in name (trusted_write_prepares env))
  && forallb (fun scope => str_in scope granted) (scope_resolver env name).

Definition planning_roles (prepares : list string) (name : string) : list json :=
  match planning_descriptor name ≫= (fun d => jget d "roles") with
  | Some (JArr (role :: roles)) => role :: roles
  | _ => [JStr (if str_in name prepares then "write_sink" else "precondition")]
  end.

Definition catalog_entry (env : environment) (spec : Capabilities.CapabilitySpec) : json :=
  let name := Capabilities.name spec in
  let prepares := trusted_write_prepares env in
  let roles := planning_roles prepares name in
  JObj [("name", JStr name); ("version", JStr (Capabilities.version spec));
        ("description", JStr (Capabilities.description spec)); ("system", JStr (Capabilities.system spec));
        ("effect", JStr (Capabilities.effect spec));
        ("requiredScopes", strings (sort_by str_leb (scope_resolver env name)));
        ("inputSchema", Capabilities.input_schema spec); ("outputSchema", Capabilities.output_schema spec);
        ("planningRole", hd JNull roles); ("planningRoles", JArr roles);
        ("planningDescriptor", match planning_descriptor name with Some d => d | None => JNull end);
        ("mayRequireTrustedInteraction", JBool (str_in name prepares))].

Definition listed_specs (env : environment) (granted : list string) : list Capabilities.CapabilitySpec :=
  List.filter (listed env granted) (Capabilities.list_specs None (registry env)).

(** ** The examples *)

Definition july_range : list (string * json) :=
  [("start_date", JStr "2026-07-01"); ("end_date", JStr "2026-07-31"); ("limit", JInt 1000)].

Definition read_step (key capability : string) : json :=
  JObj [("stepKey", JStr key); ("kind", JStr "capability"); ("capabilityName", JStr capability);
        ("arguments", JObj july_range)].

Definition source_steps : list json :=
  [read_step "read_done" "oa.workflow.done.list";
   read_step "read_sent" "oa.workflow.sent.list";
   JObj [("stepKey", JStr "merge_items"); ("kind", JStr "transform");
         ("transformName", JStr "merge_work_items.v1");
         ("dependsOn", strings ["read_done"; "read_sent"]);
         ("bindings", JObj [("sources", JObj [("mode", JStr "many"); ("items", JArr
            [JObj [("step", JStr "read_done"); ("pointer", JStr "")];
             JObj [("step", JStr "read_sent"); ("pointer", JStr "")]])])])]].

Definition single_binding (target source pointer : string) : json :=
  JObj [(target, JObj [("mode", JStr "single"); ("step", JStr source); ("pointer", JStr pointer)])].

Definition draft_log_step : json :=
  JObj [("stepKey", JStr "draft_log"); ("kind", JStr "transform");
        ("transformName", JStr "work_items_to_log_draft.v2"); ("dependsOn", strings ["merge_items"]);
        ("bindings", single_binding "bundle" "merge_items" "")].

Definition prepare_log_step : json :=
  JObj [("stepKey", JStr "prepare_log"); ("kind", JStr "capability");
        ("capabilityName", JStr "taihua.work_log.create.prepare"); ("dependsOn", strings ["draft_log"]);
        ("arguments", JObj [("log_date", JStr "2026-07-31"); ("hours", JInt 3)]);
        ("bindings", single_binding "content" "draft_log" "/draft")].

Definition example (title goal : string) (steps : list json) : json :=
  JObj [("schemaVersion", JStr "agentbridge.task-plan.proposal.v2"); ("title", JStr title);
        ("goal", JStr goal);
        ("constraints", JObj [("temporal", JObj [("kind", JStr "absolute_range");
           ("start", JStr "2026-07-01"); ("end", JStr "2026-07-31")])]);
        ("steps", JArr steps)].

Definition read_example : json :=
  example "合并读取 OA 已办和已发并只读展示" "汇总 2026 年 7 月 OA 已办和已发，只读展示" source_steps.

Definition draft_example : json :=
  example "读取 OA 已办和已发并生成可核对的日志草稿" "汇总 2026 年 7 月 OA 已办和已发并生成工作日志草稿"
    (source_steps ++ [draft_log_step]).

Definition prepare_example : json :=
  example "读取 OA 已办和已发、生成草稿并打开日志系统可信填单"
    "汇总 2026 年 7 月 OA 已办和已发并准备填写 3 小时工作日志"
    (source_steps ++ [draft_log_step; prepare_log_step]).

Definition examples (capability_names transform_names : list string) : list json :=
  if forallb (fun name => str_in name capability_names) ["oa.workflow.done.list"; "oa.workflow.sent.list"]
     && forallb (fun name => str_in name transform_names) ["merge_work_items.v1"; "work_items_to_log_draft.v2"]
  then [read_example; draft_example]
       ++ (if str_in "taihua.work_log.create.prepare" capability_names then [prepare_example] else [])
  else [].

(** ** The catalogue *)

Definition COMPOSED_TASK_POLICY_VERSION : string := "agentbridge.composed-task-planning-policy.v1".

Definition rules : list string :=
  ["capability 步骤使用 capabilityName，不得使用 transformName";
   "transform 步骤使用 transformName，不得使用 capabilityName";
   "v2 bindings 必须声明 mode=single 或 mode=many；many 最多包含 8 个来源";
   "arguments 只能使用所选能力或转换 inputSchema.properties 中明确声明的字段";
   "目录不支持的用户要求应保留在 goal 或最终说明中，不得臆造为步骤参数";
   "只使用本目录实际返回的能力与转换名称";
   "日期约束由中央服务按原请求时间和上海时区编译；前天使用 day_before_yesterday，昨天使用 previous_day，上周使用 previous_calendar_week";
   "已办按本人处理日期、已发按发起日期下推；按 sourceContract.queryContract 选择参数，不在模型文本中筛选无条件首页";
   "完整汇总使用能力声明的最大 limit；coverage 非 complete 时不得继续派生写入"].

Definition build_planning_catalog (env : environment) (step_schema : json) (granted : list string)
  : list (string * json) :=
  let specs := listed_specs env granted in
  let catalog := Transforms.registered (transforms env) in
  [("schemaVersion", JStr "agentbridge.planning-catalog.v2");
   ("policyVersion", JStr COMPOSED_TASK_POLICY_VERSION);
   ("supportedProposalVersions",
      strings ["agentbridge.task-plan.proposal.v1"; "agentbridge.task-plan.proposal.v2"]);
   ("supportedStepKinds", strings ["capability"; "transform"]);
   ("limits", JObj [("maximumSteps", JInt 12); ("maximumWriteSinks", JInt 1);
                    ("maximumGoalCharacters", JInt 500)]);
   ("prepareInputGuide", JObj
      [("requiredFields", strings ["goal"; "steps"]); ("stepSchema", step_schema);
       ("rules", strings rules);
       ("examples", JArr (examples (map Capabilities.name specs) (map Transforms.name catalog)))]);
   ("capabilities", JArr (map (catalog_entry env) specs));
   ("transforms", JArr (map Transforms.to_dict catalog));
   ("safety", JObj [("hiddenCommitToolsExcluded", JBool true); ("arbitraryCodeExcluded", JBool true);
                    ("arbitraryHttpExcluded", JBool true);
                    ("writesRequireTrustedInteractions", JBool true)])].

(** ** For one user (agentbridge/core/central_service.py) *)

(** The scopes a capability needs in a plan; [capability_scopes] is the table of the writes. *)
Definition planning_required_scopes (capability_scopes : list (string * list string))
    (reg : Capabilities.CapabilityRegistry) (name : string) : result (list string) :=
  match assoc name capability_scopes with
  | Some scopes => Ok scopes
  | None =>
      spec ← Capabilities.get name reg;
      raise_if (negb (String.eqb (Capabilities.effect spec) "read")) KeyError
        ("capability has no planning scope policy: " +:+ name);;
      Ok (if startswith "oa.addressbook." name then ["oa:read:addressbook"]
          else [Capabilities.system spec +:+ ":read"])
  end.

(** [CAPABILITY_PERMISSIONS.get(item["name"]) in allowed] *)
Definition permitted (permission_of : string -> option string) (allowed : list string) (item : json) : bool :=
  match jget item "name" with
  | Some (JStr name) => match permission_of name with Some p => str_in p allowed | None => false end
  | _ => false
  end.

(** [allowed] is what the user's grant lists, nothing without a grant; a catalogue for no user is
    not filtered. *)
Definition planning_catalog (env : environment) (step_schema : json) (granted : list string)
    (permission_of : string -> option string) (allowed : option (list string)) : list (string * json) :=
  let catalog := build_planning_catalog env step_schema granted in
  match allowed with
  | None => catalog
  | Some allowed =>
      let items := match dict_get catalog "capabilities" (JArr []) with JArr l => l | _ => [] end in
      dict_set "examples" (JArr [])
        (dict_set "capabilities" (JArr (List.filter (permitted permission_of allowed) items)) catalog)
  end.
End Catalog.

(** ** The capabilities of the examples, as their adapters declare them

    agentbridge/adapters/seeyon_central.py and taihua.py *)

Module Specs.
Import Transforms.

Definition typed (type : string) : json := JObj [("type", JStr type)].

Definition dated (label boundary : string) : json :=
  JObj [("type", JStr "string"); ("format", JStr "date");
        ("description", JStr (label +:+ "的" +:+ boundary
           +:+ "日期，包含当天，YYYY-MM-DD；自动下推 OA 服务端。"))].

Definition dated_limit : json :=
  JObj [("type", JStr "integer"); ("minimum", JInt 1); ("maximum", JInt 1000); ("default", JInt 50);
        ("description", JStr "最多返回的匹配条数；完整汇总建议 1000，并核对 coverage.status。")].

Definition _workflow_list_input_schema (collection : string) : json :=
  let history := str_in collection ["done"; "sent"] in
  let label := if String.eqb collection "done" then "本人处理日期" else "发起日期" in
  JObj ([("type", JStr "object");
         ("properties", JObj
            [("keyword", typed "string"); ("limit", if history then dated_limit else typed "integer");
             ("start_date", if history then dated label "起始" else typed "string");
             ("end_date", if history then dated label "截止" else typed "string")]);
         ("additionalProperties", JBool false)]
        ++ (if history then [("x-agentbridge-query", loaded (oa_history_query_contract collection))] else [])).

Definition list_coverage_schema : json :=
  closed_object_of
    (HISTORY_QUERY_EVIDENCE_SCHEMA ++
     [("status", typed "string"); ("queryApplied", typed "boolean"); ("dateBasis", typed "string");
      ("requestedRange", closed_object_of [("start", nullable "string"); ("end", nullable "string")]
         ["start"; "end"]);
      ("scannedCount", typed "integer"); ("matchedCount", typed "integer"); ("hasMore", typed "boolean");
      ("completionReason", typed "string"); ("observedAt", typed "string"); ("queryHash", typed "string")])
    ["status"; "queryApplied"; "dateBasis"; "requestedRange"; "scannedCount"; "matchedCount"; "hasMore";
     "completionReason"; "observedAt"; "queryHash"].

Definition list_item_schema : json :=
  closed_object_of
    [("affair_id", typed "string"); ("title", typed "string"); ("status", typed "string");
     ("date", typed "string"); ("category", typed "string"); ("sender", typed "string");
     ("read", typed "boolean")] ["affair_id"; "title"; "date"; "category"].

Definition _WORKFLOW_LIST_OUTPUT_SCHEMA : json :=
  closed_object_of
    [("schema_version", typed "string"); ("collection", typed "string"); ("source", typed "string");
     ("source_count", typed "integer"); ("date_filtered_count", typed "integer");
     ("unparsed_date_count", typed "integer"); ("matched_count", typed "integer");
     ("count", typed "integer"); ("total", nullable "integer"); ("page", nullable "integer");
     ("coverage", list_coverage_schema);
     ("filters", closed_object_of
        [("keyword", nullable "string"); ("start_date", nullable "string"); ("end_date", nullable "string");
         ("limit", typed "integer")] ["keyword"; "start_date"; "end_date"; "limit"]);
     ("items", array_of list_item_schema); ("transport", typed "string")]
    ["schema_version"; "collection"; "source"; "source_count"; "date_filtered_count"; "unparsed_date_count";
     "matched_count"; "count"; "total"; "page"; "coverage"; "filters"; "items"; "transport"].

Definition TAIHUA_WORK_LOG_CREATE_PREPARE_INPUT_SCHEMA : json :=
  JObj [("type", JStr "object");
        ("properties", JObj
           [("log_date", typed "string"); ("hours", typed "number"); ("project", typed "string");
            ("content", typed "string"); ("input_submission_id", typed "string")]);
        ("additionalProperties", JBool false)].

Definition _WORKFLOW_COLLECTION_DESCRIPTIONS : list (string * string) :=
  [("pending", "List workflows waiting for the current OA user in the Pending page.");
   ("sent", "查询当前用户已发事项，日期范围按发起时间在 OA 服务端筛选，并自动读取筛选结果的分页。" +:+
      "start_date/end_date 为上海时区包含边界的日期，可只传一端。keyword 在筛选结果中匹配公开字段。" +:+
      "完整汇总使用 limit=1000 并检查 coverage.status；数量截断、分页异常或预算不足均为 partial，不能用于后续写入。" +:+
      "不传日期时只返回已加载页，不代表全部历史。");
   ("done", "查询当前用户已办事项，日期范围按本人处理时间（不是流程发起时间）在 OA 服务端筛选，" +:+
      "并自动读取筛选结果的分页。start_date/end_date 为上海时区包含边界的日期，可只传一端。" +:+
      "keyword 在筛选结果中匹配公开字段。完整汇总使用 limit=1000 并检查 coverage.status；" +:+
      "数量截断、分页异常或预算不足均为 partial，不能用于后续写入。不传日期时只返回已加载页。");
   ("tracked", "List workflows followed by the current OA user in the Tracked page.")].

Definition workflow_list (collection : string) : Capabilities.CapabilitySpec :=
  Capabilities.Spec ("oa.workflow." +:+ collection +:+ ".list")
    (if str_in collection ["done"; "sent"] then "0.4.0" else "0.3.0")
    (dict_get _WORKFLOW_COLLECTION_DESCRIPTIONS collection "")
    (_workflow_list_input_schema collection) _WORKFLOW_LIST_OUTPUT_SCHEMA "read" "seeyon-central"
    "workflow-list-v2".

Definition work_log_prepare : Capabilities.CapabilitySpec :=
  Capabilities.Spec "taihua.work_log.create.prepare" "0.1.0"
    "Collect and freeze one Taihua work-log submission for approval."
    TAIHUA_WORK_LOG_CREATE_PREPARE_INPUT_SCHEMA (typed "object") "controlled_write" "taihua-central"
    "taihua-work-log-create-prepare-v1".
End Specs.
