(* ===== verification/PlanningCatalogFacts.v ===== *)
(** The catalogue lists what a plan may use, and its examples are plans. *)

From Stdlib Require Import Ascii.
From S2P Require Import Prelude PyStr Json JsonFacts Sha256 Store InputValidation InputValidationFacts.
From S2P Require Import TransformHandlerFacts.
From S2P Require Import PlanningPolicy PlanValidation PlanValidationFacts PlanningCatalog.
From S2P Require Capabilities Transforms.

#[local] Open Scope list_scope.

Section Facts.
Context {tables : UnicodeTables} {digits : UnicodeDigits}.

(** ** Registries *)

(** What registrations of checked specifications lead to *)
Inductive built : Capabilities.CapabilityRegistry -> Prop :=
  | built_empty : built ∅
  | built_register reg s s' reg' :
      built reg -> Capabilities.check s = Ok s' -> Capabilities.register s' reg = Ok reg' -> built reg'.

Lemma check_Ok s s' : Capabilities.check s = Ok s' -> s' = s /\ Capabilities.valid_name (Capabilities.name s) = true.
Proof.
  unfold Capabilities.check. destruct (Capabilities.valid_name (Capabilities.name s)); [|discriminate].
  intros H. split; [|done]. do 5 (apply result_bind_Ok in H as (? & _ & H)). by injection H as <-.
Qed.

Lemma built_spec reg : built reg -> forall n s, reg !! n = Some s ->
  Capabilities.name s = n /\ Capabilities.valid_name n = true.
Proof.
  induction 1 as [|reg s s' reg' _ IH Hs Hr]; intros n t Ht; [done|].
  apply check_Ok in Hs as [-> Hs]. unfold Capabilities.register in Hr.
  apply result_bind_Ok in Hr as (? & _ & [= <-]).
  apply lookup_insert_Some in Ht as [[<- <-]|[_ Ht]]; [done|by apply IH].
Qed.

(** ** Names *)

Lemma split_on_graphic c s : graphic c = true -> forallb all_graphic (split_on c s) = true -> all_graphic s = true.
Proof.
  intros Hc. induction s as [|a s IH]; [done|]. cbn [split_on].
  destruct (Ascii.eqb_spec a c) as [->|_]; [cbn; by rewrite Hc|].
  destruct (split_on c s) as [|x l]; cbn; [by destruct s, (graphic a)|].
  intros [[Ha Hx]%andb_true_iff Hl]%andb_true_iff. rewrite Ha. apply IH. cbn. by rewrite Hx.
Qed.

Lemma name_char_graphic a : Capabilities.name_char a = true -> graphic a = true.
Proof. destruct a as [[] [] [] [] [] [] [] []]; vm_compute; done. Qed.

Lemma name_chars_graphic s : Capabilities.all_chars Capabilities.name_char s = true -> all_graphic s = true.
Proof.
  induction s as [|a s IH]; cbn; [done|]. intros [Ha Hs]%andb_true_iff. rewrite IH by done.
  by rewrite name_char_graphic.
Qed.

Lemma valid_name_graphic n : Capabilities.valid_name n = true -> all_graphic n = true /\ n <> "".
Proof.
  unfold Capabilities.valid_name. intros [Hlen Hseg]%andb_true_iff. split; [|by intros ->].
  apply (split_on_graphic "."); [done|]. apply forallb_forall. intros x Hx.
  rewrite forallb_forall in Hseg. specialize (Hseg x Hx). destruct x as [|a x]; [done|]. cbn in Hseg |- *.
  apply andb_true_iff in Hseg as [Ha Hx']. rewrite name_chars_graphic by done.
  rewrite name_char_graphic; [done|]. unfold Capabilities.name_char. by rewrite Ha.
Qed.

Lemma required_text_graphic n name maximum : all_graphic n = true -> n <> "" ->
  (Z.of_nat (String.length n) <= maximum)%Z -> _required_text (JStr n) name maximum = Ok n.
Proof.
  intros Hg Hn Hl. unfold _required_text. rewrite py_strip_graphic, py_len_graphic by done.
  replace (negb (truthy n)) with false by (symmetry; apply negb_false_iff; by apply truthy_true).
  replace (maximum <? _)%Z with false by (symmetry; lia). done.
Qed.

(** ** What is listed *)

Lemma listed_specs_In env granted spec : In spec (listed_specs env granted) <->
  (exists n, registry env !! n = Some spec) /\ listed env granted spec = true.
Proof.
  unfold listed_specs, Capabilities.list_specs. rewrite filter_In.
  rewrite <- list_elem_of_In, sort_by_perm, list_elem_of_In, filter_In, in_map_iff. split.
  - intros [[([n s] & <- & Hin) _] Hl]. apply list_elem_of_In, elem_of_map_to_list in Hin. eauto.
  - intros [[n Hn] Hl]. split; [|done]. split; [|done]. exists (n, spec). split; [done|].
    by apply list_elem_of_In, elem_of_map_to_list.
Qed.

Lemma issubset l m : forallb (fun x => str_in x m) l = true <-> forall x, In x l -> In x m.
Proof. rewrite forallb_forall. by setoid_rewrite str_in_spec. Qed.

(** The catalogue lists the capabilities that the compiler accepts in a step of this identity:
    a registered capability is listed exactly when some step may name it and all the scopes
    this needs are granted. *)
Theorem catalog_is_plannable env granted key n (Hreg : built (registry env))
  (Hlen : (Z.of_nat (String.length n) <= 160)%Z) :
  In n (map Capabilities.name (listed_specs env granted)) <->
  exists raw t, capability_target env raw key = Ok t /\ t_capability t = Some n /\
    forall scope, In scope (t_scopes t) -> In scope granted.
Proof.
  rewrite in_map_iff. split.
  - intros (spec & Ename & [[m Hn] Hl]%listed_specs_In). subst n.
    destruct (built_spec _ Hreg _ _ Hn) as [E Hvalid]. subst m. apply valid_name_graphic in Hvalid as [Hg Hne].
    unfold listed in Hl. apply andb_true_iff in Hl as [[Hh%negb_true_iff He]%andb_true_iff Hs].
    exists [("capabilityName", JStr (Capabilities.name spec))]. eexists. split.
    + unfold capability_target. change (get_or_null _ "capabilityName") with (JStr (Capabilities.name spec)).
      change (get_or_null _ "transformName") with JNull.
      rewrite (result_bind_run _ _ _ (required_text_graphic _ _ _ Hg Hne Hlen)).
      rewrite Hh, (result_bind_run (reject_if false _ _ _) _ tt eq_refl), (result_bind_run (reject_if false _ _ _) _ tt eq_refl).
      unfold Capabilities.get. rewrite Hn. cbn [or_unknown]. rewrite (result_bind_run (Ok spec) _ spec eq_refl).
      replace (negb (String.eqb (Capabilities.effect spec) "read") && negb _) with false;
        [rewrite (result_bind_run (reject_if false _ _ _) _ tt eq_refl); reflexivity|].
      symmetry. rewrite <- negb_orb. by rewrite He.
    + split; [done|]. cbn. by apply issubset.
  - intros (raw & t & (name & spec & Hc & _ & Hn & Hh & Hw & Hs & He & Hread & _)%capability_target_Ok & Hcap & Hg).
    rewrite Hc in Hcap. injection Hcap as ->. destruct (built_spec _ Hreg _ _ Hn) as [Hname _].
    exists spec. split; [done|]. apply listed_specs_In. split; [by exists n|]. unfold listed. rewrite Hname.
    apply andb_true_iff. split; [|apply issubset; by rewrite <- Hs].
    apply andb_true_iff. split; [by apply negb_true_iff, str_in_false|]. rewrite <- He, <- Hw.
    destruct (t_write t); [by rewrite orb_true_r|]. by rewrite Hread.
Qed.

(** ** For one user *)

(** For a user without permissions the catalogue lists no capability, but its guide still
    offers every example: the key [examples] that is cleared is not where the examples are. *)
Theorem guide_outlives_permissions env step_schema granted permission_of allowed :
  let full := build_planning_catalog env step_schema granted in
  let filtered := planning_catalog env step_schema granted permission_of (Some allowed) in
  assoc "prepareInputGuide" filtered = assoc "prepareInputGuide" full /\
  assoc "examples" full = None /\ assoc "examples" filtered = Some (JArr []) /\
  forall item, (exists l, assoc "capabilities" filtered = Some (JArr l) /\ In item l) <->
    (exists l, assoc "capabilities" full = Some (JArr l) /\ In item l) /\ permitted permission_of allowed item = true.
Proof.
  cbn. split; [done|]. split; [done|]. split; [done|]. intros item. split.
  - intros (l & [= <-] & [Hin Hp]%filter_In). eauto.
  - intros [(l & [= <-] & Hin) Hp]. eexists. split; [done|]. by apply filter_In.
Qed.

(** ** Granted scopes only matter at the end *)

Lemma compile_granted env context proposal c g : validate_and_compile_task_plan env None context proposal = Ok c ->
  (forall x, In x (c_required_scopes c) -> In x g) ->
  validate_and_compile_task_plan env (Some g) context proposal = Ok c.
Proof.
  unfold validate_and_compile_task_plan. destruct proposal as [| | | | | |kvs]; try discriminate. intros H Hg.
  rewrite reject_if_bind in H |- *. destruct H as (Hf & H). split; [done|].
  do 6 (let Hr := fresh in apply result_bind_Ok in H as (? & Hr & H); rewrite (result_bind_run _ _ _ Hr)).
  rewrite (result_bind_run (check_scopes None _) _ tt eq_refl) in H.
  assert (Hs : check_scopes (Some g) (required_scopes x3) = Ok tt).
  { apply result_bind_Ok in H as (ordered & _ & [= <-]). cbn in Hg. unfold check_scopes.
    rewrite bool_decide_eq_false_2; [done|]. intros Hne. apply Hne. destruct (minus _ g) as [|y l] eqn:E; [done|].
    exfalso. assert (Hx : In y (minus (required_scopes x3) g)) by (rewrite E; by left).
    apply minus_In in Hx as [Hx Hn]. apply Hn, Hg. by apply sorted_set_In. }
  by rewrite (result_bind_run _ _ _ Hs).
Qed.
End Facts.


(** ** The examples are plans *)

Section Examples.
#[local] Existing Instance ascii_tables.
#[local] Existing Instance ascii_digits.

(** The capabilities that the examples name, with the transforms of the program *)
Definition catalog_registry : Capabilities.CapabilityRegistry :=
  list_to_map (map (fun s => (Capabilities.name s, s))
    [Specs.workflow_list "done"; Specs.workflow_list "sent"; Specs.work_log_prepare]).

Definition write_scopes : list (string * list string) :=
  [("taihua.work_log.create.prepare", ["taihua:write:worklog"]);
   ("taihua.work_log.create", ["taihua:write:worklog"])].

Definition catalog_env : environment :=
  {| registry := catalog_registry; transforms := Transforms.Registry registry_specs registry_handlers;
     trusted_write_prepares := ["taihua.work_log.create.prepare"];
     hidden_commit_capabilities := ["taihua.work_log.create"];
     scope_resolver := fun name =>
       match planning_required_scopes write_scopes catalog_registry name with Ok l => l | Raise _ => [] end |}.

(** The fields of an example that are a proposal; its title is for the reader. *)
Definition submitted (e : json) : json :=
  match e with
  | JObj kvs => JObj (List.filter (fun kv => str_in (fst kv) _ALLOWED_PROPOSAL_FIELDS) kvs)
  | v => v
  end.

Definition step_keys (e : json) : list string :=
  match jget e "steps" with
  | Some (JArr l) => map (fun st => match jget st "stepKey" with Some (JStr k) => k | _ => "" end) l
  | _ => []
  end.

(** Whether an example compiles, into its own steps in order, with these scopes *)
Definition compiles_with (scopes : list string) (e : json) : bool :=
  match validate_and_compile_task_plan catalog_env None JNull (submitted e) with
  | Ok c => bool_decide (map n_key (c_steps c) = step_keys e) && bool_decide (c_required_scopes c = scopes)
  | Raise _ => false
  end.

Lemma examples_need :
  forallb (compiles_with ["oa:read"]) [read_example; draft_example] = true /\
  compiles_with ["oa:read"; "taihua:write:worklog"] prepare_example = true.
Proof. vm_compute. by split. Qed.

Lemma compiles_Ok scopes e granted : compiles_with scopes e = true -> (forall x, In x scopes -> In x granted) ->
  exists c, validate_and_compile_task_plan catalog_env (Some granted) JNull (submitted e) = Ok c /\
    map n_key (c_steps c) = step_keys e /\ c_required_scopes c = scopes.
Proof.
  unfold compiles_with. intros H Hg.
  destruct (validate_and_compile_task_plan catalog_env None JNull (submitted e)) as [c|] eqn:E; [|done].
  apply andb_true_iff in H as [Hk%bool_decide_eq_true Hs%bool_decide_eq_true]. exists c.
  split; [apply compile_granted; [exact E|by rewrite Hs]|done].
Qed.

Lemma catalog_listed granted : map Capabilities.name (listed_specs catalog_env granted) =
  (if str_in "oa:read" granted then ["oa.workflow.done.list"; "oa.workflow.sent.list"] else []) ++
  (if str_in "taihua:write:worklog" granted then ["taihua.work_log.create.prepare"] else []).
Proof.
  assert (E : exists l, Capabilities.list_specs None (registry catalog_env) = l /\
    l = [Specs.workflow_list "done"; Specs.workflow_list "sent"; Specs.work_log_prepare])
    by (eexists; split; [reflexivity|vm_compute; reflexivity]).
  destruct E as (l & El & E). unfold listed_specs. rewrite El, E. cbn [List.filter].
  assert (Hoa : forall collection, In collection ["done"; "sent"] ->
    listed catalog_env granted (Specs.workflow_list collection) = str_in "oa:read" granted).
  { intros collection [<-|[<-|[]]]; unfold listed.
    - replace (scope_resolver _ _) with ["oa:read"] by (vm_compute; reflexivity). cbn. by rewrite andb_true_r.
    - replace (scope_resolver _ _) with ["oa:read"] by (vm_compute; reflexivity). cbn. by rewrite andb_true_r. }
  rewrite !Hoa by (cbn; tauto).
  assert (Hp : listed catalog_env granted Specs.work_log_prepare = str_in "taihua:write:worklog" granted).
  { unfold listed. replace (scope_resolver _ _) with ["taihua:write:worklog"] by (vm_compute; reflexivity).
    cbn. by rewrite andb_true_r. }
  rewrite Hp. by destruct (str_in "oa:read" granted), (str_in "taihua:write:worklog" granted).
Qed.

(** Whatever scopes an identity has, every example that its catalogue offers compiles with just these
    scopes, into the example's own steps in the order in which it lists them. *)
Theorem offered_examples_compile granted e
  (He : In e (examples (map Capabilities.name (listed_specs catalog_env granted))
                (map Transforms.name (Transforms.registered (transforms catalog_env))))) :
  exists c, validate_and_compile_task_plan catalog_env (Some granted) JNull (submitted e) = Ok c /\
    map n_key (c_steps c) = step_keys e.
Proof.
  destruct examples_need as [Hread Hprepare]. cbn [forallb] in Hread.
  apply andb_true_iff in Hread as [Hread [Hdraft _]%andb_true_iff].
  rewrite catalog_listed in He. revert He. generalize (map Transforms.name (Transforms.registered (transforms catalog_env))).
  intros names He. unfold examples in He. destruct (str_in "oa:read" granted) eqn:Hoa.
  2: { destruct (str_in "taihua:write:worklog" granted); destruct He. }
  apply str_in_spec in Hoa. assert (Hg : forall x, In x ["oa:read"] -> In x granted) by by intros x [<-|[]].
  assert (Hcompiles : forall scopes, compiles_with scopes e = true -> (forall x, In x scopes -> In x granted) ->
    exists c, validate_and_compile_task_plan catalog_env (Some granted) JNull (submitted e) = Ok c /\
      map n_key (c_steps c) = step_keys e).
  { intros scopes Hc Hs. destruct (compiles_Ok scopes e granted Hc Hs) as (c & Hok & Hk & _). exact (ex_intro _ c (conj Hok Hk)). }
  destruct (forallb _ _ && forallb _ _) in He; [|destruct He].
  apply in_app_iff in He as [[<-|[<-|[]]]|He];
    [exact (Hcompiles _ Hread Hg)|exact (Hcompiles _ Hdraft Hg)|].
  destruct (str_in "taihua:write:worklog" granted) eqn:Ht; [|destruct He].
  apply str_in_spec in Ht. destruct He as [<-|[]]. apply (Hcompiles _ Hprepare).
  intros x [<-|[<-|[]]]; assumption.
Qed.
End Examples.
