(* ===== verification/PlanningDemo.v ===== *)
(** The properties of the compiler and of the catalogue, applied to the last example of the
    catalogue: two sources, their merge, a draft and the preparation of a work log. *)

From S2P Require Import Prelude PyStr Json JsonFacts Sha256 Store InputValidation InputValidationFacts.
From S2P Require Import PlanningPolicy PlanValidation PlanValidationFacts PlanningCatalog PlanningCatalogFacts.
From S2P Require Import TransformHandlerFacts TaskPlans TaskPlanFacts PlanCreation.
From S2P Require Capabilities Transforms.

Module Demo.
#[local] Existing Instance ascii_tables.
#[local] Existing Instance ascii_digits.

Definition granted : option (list string) := Some ["oa:read"; "taihua:write:worklog"].

Definition compile : result compiled :=
  validate_and_compile_task_plan catalog_env granted JNull (submitted prepare_example).

Definition wf_argumentsb (st : PlanValidation.step) : bool :=
  wf_jsonb (JObj (n_arguments st)) &&
  wf_jsonb (JObj (map (fun nb => (fst nb, PlanValidation.binding_json (snd nb))) (n_bindings st))).

(** What the witnesses need of the compiled plan, computed once *)
Definition as_expected (c : compiled) : bool :=
  is_v2 (c_proposal_version c) && bool_decide (length (c_steps c) = 5%nat)
  && bool_decide (option_map n_key (hd_error (c_steps c)) = Some "read_done")
  && forallb wf_argumentsb (c_steps c)
  && match c_steps c !! 4%nat with
     | Some st => bool_decide (n_effect st = "controlled_write") && bool_decide (n_bindings st <> [])
     | None => false
     end.

Lemma compile_expected : match compile with Ok c => as_expected c | Raise _ => false end = true.
Proof. vm_compute. reflexivity. Qed.

Lemma compile_runs : exists c, compile = Ok c /\ is_v2 (c_proposal_version c) = true /\
  length (c_steps c) = 5%nat /\ option_map n_key (hd_error (c_steps c)) = Some "read_done" /\
  forallb wf_argumentsb (c_steps c) = true /\
  exists st, c_steps c !! 4%nat = Some st /\ n_effect st = "controlled_write" /\ n_bindings st <> [].
Proof.
  pose proof compile_expected as H. destruct compile as [c|]; [|discriminate H].
  exists c. split; [reflexivity|]. unfold as_expected in H.
  apply andb_true_iff in H as [H Hst]. apply andb_true_iff in H as [H Hwf].
  apply andb_true_iff in H as [H Hhd%bool_decide_eq_true]. apply andb_true_iff in H as [Hv Hlen%bool_decide_eq_true].
  destruct (c_steps c !! 4%nat) as [st|]; [|discriminate Hst].
  apply andb_true_iff in Hst as [He%bool_decide_eq_true Hb%bool_decide_eq_true]. eauto 10.
Qed.

(** ** The order of steps *)

Definition bare (key : string) (deps : list string) : string * PlanValidation.step :=
  (key, PlanValidation.Step key "transform" None None "1" "" deps [] [] "read" "" JNull JNull).

(** The sinks come first in the proposal; the order puts them last. *)
Lemma topological_order_exact_witness :
  let steps := [bare "out" ["b"; "a"]; bare "b" ["a"]; bare "a" []] in
  NoDup (keys steps) /\ _topological_order steps = Ok ["a"; "b"; "out"] /\
  ["a"; "b"; "out"] ≡ₚ keys steps.
Proof.
  intros steps. assert (Hnd : NoDup (keys steps)) by (apply (bool_decide_unpack _); vm_compute; exact I).
  pose proof (topological_order_exact steps Hnd) as H.
  replace (_topological_order steps) with (@Ok (list string) ["a"; "b"; "out"]) in H |- *
    by (vm_compute; reflexivity).
  split; [exact Hnd|]. split; [reflexivity|]. exact (proj1 H).
Defined.

Lemma compiled_plan_valid_witness : exists c, compile = Ok c /\
  TaskPlans.valid_plan (to_compiled_plan c JNull) /\ length (c_steps c) = 5%nat /\ NoDup (map n_key (c_steps c)).
Proof.
  destruct compile_runs as (c & H & _ & Hlen & _).
  destruct (compiled_plan_valid catalog_env granted JNull _ c JNull H) as (Hv & _ & Hnd & _).
  exists c. exact (conj H (conj Hv (conj Hlen Hnd))).
Defined.

(** The preparation of the log is the only write, and the last step. *)
Lemma write_sink_last_witness : exists c st, compile = Ok c /\ c_steps c !! 4%nat = Some st /\
  is_write catalog_env st = true /\
  forall i st', c_steps c !! i = Some st' -> is_write catalog_env st' = true -> i = 4%nat.
Proof.
  destruct compile_runs as (c & H & _ & Hlen & _ & _ & st & Hst & He & _).
  pose proof (write_sink_last catalog_env granted JNull _ c H) as Hw.
  exists c, st. split; [exact H|]. split; [exact Hst|]. split.
  - destruct (is_write catalog_env st) eqn:E; [reflexivity|].
    pose proof (proj1 (proj2 (Hw 4%nat st Hst)) E) as Hr. rewrite He in Hr. discriminate Hr.
  - intros i st' Hi Hw'. pose proof (proj1 (Hw i st' Hi) Hw') as Hi'. rewrite Hlen in Hi'. lia.
Defined.

Lemma provenance_complete_witness : exists c steps terminal, compile = Ok c /\
  is_v2 (c_proposal_version c) = true /\ dict_of c steps /\
  provenance catalog_env steps (write_keys catalog_env c)
    (is_dict (get_or_null (c_constraints c) "temporal")) terminal.
Proof.
  destruct compile_runs as (c & H & Hv & _).
  destruct (provenance_complete catalog_env granted JNull _ c H Hv) as (steps & terminal & Hd & _ & Hp).
  exists c, steps, terminal. exact (conj H (conj Hv (conj Hd Hp))).
Defined.

(** ** Pointers *)

Definition draft_schema : json := Transforms.closed_object_of [("draft", Transforms.string_type)] ["draft"].
Definition draft_value : json := JObj [("draft", JStr "Reviewed the contract")].

Lemma pointer_type_sound_witness : conforms draft_value draft_schema /\
  resolve_json_pointer draft_value "/draft" = Ok (JStr "Reviewed the contract") /\
  has_type (JStr "Reviewed the contract") "string" = true.
Proof.
  assert (Hc : conforms draft_value draft_schema) by (apply TransformFacts.conforms_by_check; reflexivity).
  assert (Hv : resolve_json_pointer draft_value "/draft" = Ok (JStr "Reviewed the contract")) by reflexivity.
  split; [exact Hc|]. split; [exact Hv|].
  apply (pointer_type_sound draft_value draft_schema "/draft" "string" "string" _ Hc); [|reflexivity|reflexivity|exact Hv].
  split; [intros _; reflexivity|]. intros d _. exact I.
Defined.

(** ** The catalogue *)

Lemma registers reg s : built reg -> reg !! Capabilities.name s = None ->
  match Capabilities.check s with Ok _ => true | Raise _ => false end = true ->
  built (<[Capabilities.name s := s]> reg).
Proof.
  intros Hb Hn Hc. destruct (Capabilities.check s) as [s'|] eqn:E; [|discriminate Hc].
  destruct (check_Ok _ _ E) as [-> _]. apply (built_register reg s s _ Hb E).
  unfold Capabilities.register. rewrite Hn. reflexivity.
Qed.

Lemma catalog_built : built catalog_registry.
Proof.
  unfold catalog_registry. cbn [map list_to_map fst snd].
  apply registers; [apply registers; [apply registers; [exact built_empty|..]|..]|..]; vm_compute; reflexivity.
Qed.

Lemma catalog_is_plannable_witness :
  In "oa.workflow.done.list" (map Capabilities.name (listed_specs catalog_env ["oa:read"])) /\
  exists raw t, capability_target catalog_env raw "read" = Ok t /\ t_capability t = Some "oa.workflow.done.list".
Proof.
  assert (Hin : In "oa.workflow.done.list" (map Capabilities.name (listed_specs catalog_env ["oa:read"])))
    by (rewrite catalog_listed; left; reflexivity).
  split; [exact Hin|].
  destruct (proj1 (catalog_is_plannable catalog_env ["oa:read"] "read" "oa.workflow.done.list" catalog_built
    ltac:(vm_compute; discriminate)) Hin) as (raw & t & Ht & Hc & _).
  exists raw, t. exact (conj Ht Hc).
Defined.

Lemma offered_examples_compile_witness : exists c,
  validate_and_compile_task_plan catalog_env (Some ["oa:read"]) JNull (submitted draft_example) = Ok c /\
  map n_key (c_steps c) = step_keys draft_example.
Proof.
  apply (offered_examples_compile ["oa:read"] draft_example). rewrite catalog_listed.
  replace (map Transforms.name _) with
    ["merge_work_items.v1"; "work_items_to_log_draft.v1"; "work_items_to_log_draft.v2"] by (vm_compute; reflexivity).
  right. left. reflexivity.
Defined.

(** ** From the proposal to its first step *)

Definition creation (c : compiled) : create_args := {|
  a_user_subject := "u1"; a_parent_task_id := "task"; a_compiled_plan := to_compiled_plan c JNull;
  a_proposal_source := "agent_host"; a_coordinator_lease_version := None; a_idempotency_key := None |}.

(** Identifiers of steps *)
Fixpoint marks (n : nat) : string := match n with O => "" | S n' => "s" +:+ marks n' end.

Lemma marks_length n : String.length (marks n) = n.
Proof. induction n as [|n IH]; cbn; [reflexivity|]. rewrite IH. reflexivity. Qed.

Definition empty_store : TaskPlans.store := MkStore ∅ ∅ ∅.

Lemma compiled_plan_starts_witness : exists c pr s1 v t,
  create_body (creation c) pr 5%Z "p" marks empty_store = Ok (inr "p", s1) /\
  begin_next_step "p" "u1" 6%Z s1 = Ok (Some (v, true), t) /\ step_key (sv_row v) = "read_done".
Proof.
  destruct compile_runs as (c & H & _ & _ & Hhd & Hwf & _).
  destruct (compiled_plan_starts catalog_env granted JNull _ c JNull (creation c) 5%Z "p" marks empty_store 6%Z H
    eq_refl) as (pr & Hpr & Hrun).
  - exists "u1", "task", "agent_host". repeat split; vm_compute; try reflexivity. discriminate.
  - rewrite forallb_forall in Hwf. apply List.Forall_forall. intros st Hst.
    apply Hwf in Hst. apply andb_true_iff in Hst as [Ha Hb]. split; apply wf_jsonb_ok; assumption.
  - apply reachable_init. split; reflexivity.
  - reflexivity.
  - intros i _. apply lookup_empty.
  - intros i j [Hij _] E. apply (f_equal String.length) in E. rewrite !marks_length in E. cbn in E. lia.
  - destruct Hrun as (s1 & v & t & st & Hc & Hb & Hst & Hk & _).
    + intros k p Hp. vm_compute in Hp. discriminate Hp.
    + intros k p key _ Hp. vm_compute in Hp. discriminate Hp.
    + exists c, pr, s1, v, t. split; [exact Hc|].
      assert (Hu : p_user_subject pr = "u1").
      { unfold prepare in Hpr. apply result_bind_Ok in Hpr as (u & Hu & Hpr).
        vm_compute in Hu. injection Hu as <-.
        do 6 (apply result_bind_Ok in Hpr as (? & _ & Hpr)). injection Hpr as <-. reflexivity. }
      rewrite Hu in Hb. split; [exact Hb|]. rewrite Hk. rewrite Hst in Hhd. injection Hhd as <-. reflexivity.
Defined.
End Demo.
