(* ===== verification/CapabilityEngine.v ===== *)
(** * Capability calls as recorded operations (agentbridge/core/capability_runtime.py)

    [invoke] checks a call's arguments, records the call as an operation, runs the
    capability's handler once, and records what came of it. *)

From S2P Require Import Prelude PyStr Json Sha256 Store InputValidation.
From S2P Require Capabilities Operations.

(** What a handler does: return, or raise one of the four kinds of exceptions that [invoke] tells
    apart; of any other exception its class name and text. *)
Inductive answer : Type :=
  | Returned (value : json)
  | RequiresUserAction (code message : string) (next_action : json)
  | OutcomeUnknown (code message : string)
  | CapabilityRejected (code message : string)
  | OtherException (class_name message : string).

Record CapabilityContext : Type := MkContext {
  user_subject : string;
  request_id : string;
  operation_id : string;
  spec : Capabilities.CapabilitySpec;
  trace_id : option string;
  task_id : option string;
}.

Section Engine.
Context `{UnicodeTables}.

Definition _validate_json_object (value schema : json) : result (list (string * json)) :=
  match value with
  | JObj arguments =>
      raise_if (negb (py_in (jget_or_null schema "type") [JNull; JStr "object"])) ValueError
        "only object capability input schemas are supported";;
      match object_input_issue CAPABILITY arguments schema [] with
      | None => Ok arguments
      | Some issue =>
          match kind issue with
          | missing => raise ValueError ("missing required capability input: " +:+ py_join ", " (fields issue))
          | unexpected => raise ValueError ("unexpected capability input: " +:+ py_join ", " (fields issue))
          | _ => raise ValueError ("capability input " +:+ str_repr (path issue) +:+ " must be "
                                     +:+ py_str (expected issue))
          end
      end
  | _ => raise ValueError "capability input must be a JSON object"
  end.

(** What is kept of one argument of a write *)
Definition redacted (value : json) : json :=
  match value with
  | JStr s => JObj [("redacted", JBool true); ("present", JBool (truthy s)); ("length", JInt (py_len s))]
  | JArr l => JObj [("redacted", JBool true); ("item_count", JInt (Z.of_nat (length l)))]
  | JObj kvs => JObj [("redacted", JBool true); ("field_count", JInt (Z.of_nat (length kvs)))]
  | scalar => scalar
  end.

Definition _operation_input_summary (arguments : list (string * json)) (effect : string) : json :=
  if String.eqb effect "read" then JObj arguments
  else JObj (map (fun nv => (fst nv, redacted (snd nv))) arguments).

Definition error_json (e : option Operations.error_view) : json :=
  match e with
  | Some e => JObj [("code", JStr (Operations.e_code e)); ("message", JStr (Operations.e_message e))]
  | None => JNull
  end.

Definition _operation_response (operation : Operations.view) (reused : bool) : json :=
  let next_action := Operations.v_next_action operation in
  let interaction := match jget next_action "interaction" with
    | Some (JObj kvs) => JObj kvs
    | _ => JNull
    end in
  JObj [("protocolVersion", JStr "0.1"); ("requestId", JStr (Operations.v_request_id operation));
        ("operationId", JStr (Operations.v_operation_id operation));
        ("status", JStr (Operations.status_text (Operations.v_status operation)));
        ("result", Operations.v_result operation); ("error", error_json (Operations.v_error operation));
        ("evidenceRefs", JArr []); ("nextAction", next_action); ("interaction", interaction);
        ("reused", JBool reused)].

(** ** The engine

    [World] is the state that handlers work on.  [meanwhile] is what other calls do to the table
    of operations while the handler runs. *)

Context {World : Type}.

Definition handler : Type := CapabilityContext -> list (string * json) -> World -> answer * World.

Record CapabilityEngine : Type := Engine {
  registry : Capabilities.CapabilityRegistry;
  _handlers : gmap string handler;
}.

Definition register_handler (name : string) (h : handler) (engine : CapabilityEngine)
  : result CapabilityEngine :=
  Capabilities.get name (registry engine);;
  Ok (Engine (registry engine) (<[name := h]> (_handlers engine))).

Record call : Type := Call {
  c_user_subject : string;
  c_capability_name : string;
  c_arguments : json;
  c_idempotency_key : option string;
  c_request_id : option string;
  c_trace_id : option string;
  c_task_id : option string;
}.

(** The clock, read by each statement, and the identifiers that are drawn *)
Record circumstances : Type := Circumstances {
  request_uuid : string;
  fresh_operation : string;
  created_now : instant;
  running_now : instant;
  finished_now : instant;
}.

Definition create_args (c : call) (s : Capabilities.CapabilitySpec) (arguments : list (string * json))
    (fresh_request : string) : Operations.create_args := {|
  Operations.a_user_subject := c_user_subject c;
  Operations.a_capability_name := Capabilities.name s;
  Operations.a_capability_version := Capabilities.version s;
  Operations.a_input_summary := _operation_input_summary arguments (Capabilities.effect s);
  Operations.a_input_identity := Some (JObj arguments);
  Operations.a_idempotency_key := c_idempotency_key c;
  Operations.a_request_id := Some (or_default (c_request_id c) fresh_request) |}.

(** The [except] clauses around the handler *)
Definition record_answer (id : string) (a : answer) (now : instant)
  : Operations.store -> result Operations.view * Operations.store :=
  match a with
  | RequiresUserAction code message next => Operations.mark_requires_user_action id code message next now
  | OutcomeUnknown code message => Operations.mark_unknown id code message now
  | CapabilityRejected code message => Operations.mark_failed id code message now
  | OtherException class_name message =>
      Operations.mark_failed id "CAPABILITY_EXECUTION_FAILED"
        (if truthy message then message else class_name) now
  | Returned value => Operations.mark_succeeded id value now
  end.

Definition respond (reused : bool) (r : result Operations.view * Operations.store)
  : result json * Operations.store :=
  (operation ← fst r; Ok (_operation_response operation reused), snd r).

Definition context_of (c : call) (s : Capabilities.CapabilitySpec) (operation : Operations.view)
  : CapabilityContext :=
  {| user_subject := c_user_subject c; request_id := Operations.v_request_id operation;
     operation_id := Operations.v_operation_id operation; spec := s; trace_id := c_trace_id c;
     task_id := c_task_id c |}.

(** From the recorded operation to its outcome *)
Definition execute (engine : CapabilityEngine) (c : call) (s : Capabilities.CapabilitySpec)
    (arguments : list (string * json)) (operation : Operations.view) (at_ : circumstances)
    (meanwhile : Operations.store -> Operations.store) (t : Operations.store) (w : World)
  : (result json * Operations.store) * World :=
  let id := Operations.v_operation_id operation in
  match (_handlers engine !! c_capability_name c : option handler) with
  | None =>
      (respond false (Operations.mark_failed id "HANDLER_NOT_REGISTERED"
         ("No handler is registered for " +:+ c_capability_name c +:+ ".") (finished_now at_) t), w)
  | Some h =>
      match Operations.mark_running id (running_now at_) t with
      | (Raise e, t) => ((Raise e, t), w)
      | (Ok _, t) =>
          let '(a, w') := h (context_of c s operation) arguments w in
          (respond false (record_answer id a (finished_now at_) (meanwhile t)), w')
      end
  end.

(** [seen] is the table that the creation's first SELECT reads, as in [Operations.create]. *)
Definition invoke (engine : CapabilityEngine) (c : call) (at_ : circumstances)
    (meanwhile : Operations.store -> Operations.store) (seen t : Operations.store) (w : World)
  : (result json * Operations.store) * World :=
  match (s ← Capabilities.get (c_capability_name c) (registry engine);
         arguments ← _validate_json_object (c_arguments c) (Capabilities.input_schema s);
         Ok (s, arguments)) with
  | Raise e => ((Raise e, t), w)
  | Ok (s, arguments) =>
      match Operations.create (create_args c s arguments (request_uuid at_)) (created_now at_)
              (fresh_operation at_) (request_uuid at_) seen t with
      | (Raise e, t) => ((Raise e, t), w)
      | (Ok (operation, true), t) => ((Ok (_operation_response operation true), t), w)
      | (Ok (operation, false), t) => execute engine c s arguments operation at_ meanwhile t w
      end
  end.
End Engine.

Arguments CapabilityEngine : clear implicits.
Arguments handler : clear implicits.
