(* ===== verification/CapabilityEngineFacts.v ===== *)
(** Calls of capabilities: recorded, answered once, and redacted. *)

From S2P Require Import Prelude PyStr Json JsonFacts Sha256 Store InputValidation CapabilityEngine.
From S2P Require Import Operations OperationFacts.
From S2P Require Capabilities.

#[local] Open Scope list_scope.

(** ** Redaction *)

(** Two values of which a summary keeps the same. *)
Definition alike (v w : json) : Prop :=
  match v, w with
  | JStr s, JStr t => truthy s = truthy t /\ py_len s = py_len t
  | JArr l, JArr m => length l = length m
  | JObj l, JObj m => length l = length m
  | _, _ => v = w
  end.

Lemma redacted_alike v w : redacted v = redacted w <-> alike v w.
Proof.
  destruct v, w; cbn; try naive_solver.
  all: split; [intros [= ?]; try split; try done; lia|]; try (intros ->; done).
  intros [-> ->]. done.
Qed.

(** What is stored of the arguments of a write reveals their names, numbers, truth values and sizes and
    nothing else: two calls leave the same summary exactly when their arguments differ in the
    contents of strings of the same length and of lists and objects of the same size at most. *)
Theorem summary_reveals_shapes effect a b (Heffect : effect <> "read") :
  _operation_input_summary a effect = _operation_input_summary b effect <->
  Forall2 (fun x y : string * json => fst x = fst y /\ alike (snd x) (snd y)) a b.
Proof.
  unfold _operation_input_summary. rewrite (proj2 (String.eqb_neq _ _) Heffect). split.
  - intros [= E]. revert b E. induction a as [|[k v] a IH]; intros [|[k' v'] b] [=]; constructor; [|by apply IH].
    cbn. split; [done|]. by apply redacted_alike.
  - intros HF. f_equal. induction HF as [|[k v] [k' v'] a b [E Hv] _ IH]; [done|]. cbn in *.
    apply redacted_alike in Hv. by rewrite E, Hv, IH.
Qed.

(** ** The calls *)

Section Calls.
Context {tables : UnicodeTables} {World : Type}.
Implicit Types (engine : CapabilityEngine World) (c : call) (w : World) (t seen : gmap string row).

(** The checks before the operation is created. *)
Definition accepted engine c (s : Capabilities.CapabilitySpec) (arguments : list (string * json)) : Prop :=
  Capabilities.get (c_capability_name c) (registry engine) = Ok s /\
  _validate_json_object (c_arguments c) (Capabilities.input_schema s) = Ok arguments.

Lemma accepted_run engine c s arguments : accepted engine c s arguments ->
  (s ← Capabilities.get (c_capability_name c) (registry engine);
   arguments ← _validate_json_object (c_arguments c) (Capabilities.input_schema s);
   Ok (s, arguments)) = Ok (s, arguments).
Proof. intros [H1 H2]. by rewrite (result_bind_run _ _ _ H1), (result_bind_run _ _ _ H2). Qed.

Lemma accepted_inv engine c p :
  (s ← Capabilities.get (c_capability_name c) (registry engine);
   arguments ← _validate_json_object (c_arguments c) (Capabilities.input_schema s);
   Ok (s, arguments)) = Ok p -> accepted engine c (fst p) (snd p).
Proof.
  intros H. apply result_bind_Ok in H as (s & Hs & H). by apply result_bind_Ok in H as (a & Ha & [= <-]).
Qed.

(** ** Steps of the table *)

Definition progress_of (a : answer) (now : instant) : progress :=
  match a with
  | Returned value => succeeded value now
  | CapabilityEngine.RequiresUserAction code message next => requires_user_action code message next now
  | OutcomeUnknown code message => unknown code message now
  | CapabilityRejected code message => failed code message now
  | OtherException class_name message =>
      failed "CAPABILITY_EXECUTION_FAILED" (if truthy message then message else class_name) now
  end.

Lemma record_answer_update id a now t :
  record_answer id a now t = method (_update id (progress_of a now)) _operation_from_row t.
Proof. by destruct a. Qed.

Lemma record_answer_step id a now t : step t (snd (record_answer id a now t)).
Proof. destruct a; constructor. Qed.

Lemma respond_Ok reused (r : result view) v : (operation ← r; Ok (_operation_response operation reused)) = Ok v ->
  exists operation, r = Ok operation /\ v = _operation_response operation reused.
Proof. intros H. apply result_bind_Ok in H as (operation & Ho & [= <-]). by exists operation. Qed.

Lemma from_row_id ir v : _operation_from_row ir = Ok v -> v_operation_id v = fst ir.
Proof.
  destruct ir as [i r]. unfold _operation_from_row. intros H.
  do 3 (apply result_bind_Ok in H as (? & _ & H)). by injection H as <-.
Qed.

Lemma marked_id id p t v : fst (method (_update id p) _operation_from_row t) = Ok v -> v_operation_id v = id.
Proof.
  destruct (method _ _ t) as [r u] eqn:E. cbn. intros ->. apply method_Ok in E as (ir & Hr & Hv).
  rewrite _update_run in Hr. destruct (t !! id) as [r|]; [|done]. injection Hr as <- <-.
  by rewrite (from_row_id _ _ Hv).
Qed.

(** What follows creation only adds steps, and answers for the operation that was created. *)
Lemma execute_steps engine c s arguments operation at_ meanwhile t w r t' w' :
  (forall u, rtc step u (meanwhile u)) ->
  execute engine c s arguments operation at_ meanwhile t w = ((r, t'), w') ->
  rtc step t t' /\ forall v, r = Ok v -> jget v "operationId" = Some (JStr (v_operation_id operation)).
Proof.
  intros Hm. unfold execute. destruct (_handlers engine !! c_capability_name c) as [h|].
  - destruct (mark_running _ _ t) as [ro t1] eqn:Hrun.
    assert (Ht1 : step t t1) by (replace t1 with (snd (mark_running (v_operation_id operation) (running_now at_) t));
      [constructor|by rewrite Hrun]).
    destruct ro as [v|e]; [|intros [= <- <- <-]; split; [by apply rtc_once|done]].
    destruct (h _ arguments w) as [a w1]. intros [= Hr <- _]. split.
    + eapply rtc_l; [exact Ht1|]. eapply rtc_r; [apply Hm|]. apply record_answer_step.
    + intros v' ->. apply respond_Ok in Hr as (o & Ho & ->). cbn. rewrite record_answer_update in Ho.
      by rewrite (marked_id _ _ _ _ Ho).
  - intros [= Hr <- _]. split; [apply rtc_once; constructor|].
    intros v' ->. apply respond_Ok in Hr as (o & Ho & ->). cbn. by rewrite (marked_id _ _ _ _ Ho).
Qed.

(** A call that was answered has an operation, which later steps keep. *)
Lemma invoke_created engine c at_ meanwhile seen t w v t' w' :
  (forall u, rtc step u (meanwhile u)) -> rtc step seen t ->
  invoke engine c at_ meanwhile seen t w = ((Ok v, t'), w') ->
  exists s arguments operation reused t1, accepted engine c s arguments /\
    Operations.create (CapabilityEngine.create_args c s arguments (request_uuid at_)) (created_now at_) (fresh_operation at_)
      (request_uuid at_) seen t = (Ok (operation, reused), t1) /\ rtc step t1 t' /\
    jget v "operationId" = Some (JStr (v_operation_id operation)).
Proof.
  intros Hm Hseen. unfold invoke.
  destruct (s ← _; _) as [[s arguments]|e] eqn:Hacc; [|done]. apply accepted_inv in Hacc.
  destruct (Operations.create _ _ _ _ seen t) as [[[operation reused]|e] t1] eqn:Hcreate; [|done]. intros H.
  exists s, arguments, operation, reused, t1. split; [done|]. split; [done|]. destruct reused.
  - injection H as <- <- _. split; [apply rtc_refl|done].
  - destruct (execute_steps _ _ _ _ _ _ _ _ _ _ _ _ Hm H) as [Hst Hid]. split; [done|by apply Hid].
Qed.

(** The columns of every operation can be read, as those can that outcomes are written to
    ([record_answer_readable]). *)
Definition readable (t : gmap string row) : Prop :=
  forall id (r : row), t !! id = Some r -> exists v, _operation_from_row (id, r) = Ok v.

Lemma reuse_run id (r : row) v hash : _operation_from_row (id, r) = Ok v ->
  _reuse (id, r) hash = if String.eqb (input_hash r) hash then Ok (v, true)
    else raise OperationConflictError "idempotency key was already used with different capability input".
Proof.
  intros H. unfold _reuse. rewrite (result_bind_run _ _ _ H). unfold _operation_from_row in H.
  do 3 (apply result_bind_Ok in H as (? & _ & H)). injection H as <-. cbn [v_input_hash]. by destruct (String.eqb _ _).
Qed.

(** C17. A call with an idempotency key is executed once: after it was answered, a call of the same user
    with the same capability and key, however it is interleaved, runs no handler and changes no
    operation.  With the same input it is answered, and with the operation of the first call,
    as one of the two tables that it reads shows it; with another input it is refused as a
    conflict.  (The columns of the rows decode, as those do that outcomes are written to.) *)
Theorem retry_runs_no_handler engine c1 at1 meanwhile seen1 t1 w1 v1 t1' w1' s args1
  c2 at2 meanwhile2 seen2 t2 w2 args2
  (Hreach : reachable initial step t2) (Hm : forall u, rtc step u (meanwhile u))
  (Hseen1 : rtc step seen1 t1)
  (Hfirst : invoke engine c1 at1 meanwhile seen1 t1 w1 = ((Ok v1, t1'), w1'))
  (Hlater : rtc step t1' t2) (Hseen2 : rtc step seen2 t2)
  (Hread : readable seen2 /\ readable t2)
  (Hkey : is_Some (normalized_key (CapabilityEngine.create_args c1 s args1 (request_uuid at1))))
  (Hsame : c_user_subject c2 = c_user_subject c1 /\ c_capability_name c2 = c_capability_name c1 /\
           c_idempotency_key c2 = c_idempotency_key c1)
  (Hacc1 : accepted engine c1 s args1) (Hacc2 : accepted engine c2 s args2) :
  exists id u (r : row) operation, jget v1 "operationId" = Some (JStr id) /\
    (u = seen2 \/ u = t2) /\ u !! id = Some r /\ _operation_from_row (id, r) = Ok operation /\
    invoke engine c2 at2 meanwhile2 seen2 t2 w2 =
      ((if String.eqb (sha256_hex (dumps (JObj args1))) (sha256_hex (dumps (JObj args2)))
        then Ok (_operation_response operation true)
        else raise OperationConflictError "idempotency key was already used with different capability input", t2), w2).
Proof.
  destruct (invoke_created _ _ _ _ _ _ _ _ _ _ Hm Hseen1 Hfirst)
    as (s' & args' & operation & reused & u1 & Hacc' & Hcreate & Hst & Hid).
  destruct Hacc1 as [Hs Ha]. destruct Hacc' as [Hs' Ha']. rewrite Hs in Hs'. injection Hs' as <-.
  rewrite Ha in Ha'. injection Ha' as <-. destruct Hsame as (Hu & Hn & Hk).
  assert (HI : Inv t2) by (eapply reachable_invariant; [apply op_Inv_initial|apply op_Inv_step|exact Hreach]).
  assert (Hst2 : rtc step u1 t2) by (by etrans).
  destruct (created_again _ _ _ _ _ _ _ _ _
    (CapabilityEngine.create_args c2 s args2 (request_uuid at2)) (created_now at2) (fresh_operation at2)
    (request_uuid at2) seen2 t2 HI Hcreate Hseen1 Hst2 Hseen2 Hkey)
    as (u & r & Htable & Hr & Hhash & Hagain & _); [|done..|].
  { unfold normalized_key. cbn. by rewrite Hk. }
  assert (Hv : exists v, _operation_from_row (v_operation_id operation, r) = Ok v)
    by (destruct Hread, Htable as [->| ->]; eauto).
  destruct Hv as [v Hv]. exists (v_operation_id operation), u, r, v. do 4 (split; [done|]).
  unfold invoke. rewrite (accepted_run _ _ _ _ Hacc2), Hagain, (reuse_run _ _ _ _ Hv), Hhash.
  change (create_hash (CapabilityEngine.create_args c1 s args1 (request_uuid at1))) with (sha256_hex (dumps (JObj args1))).
  change (create_hash (CapabilityEngine.create_args c2 s args2 (request_uuid at2))) with (sha256_hex (dumps (JObj args2))).
  by destruct (String.eqb _ _).
Qed.

(** ** Outcomes *)

Lemma wf_summary arguments effect : wf_json (JObj arguments) -> wf_json (_operation_input_summary arguments effect).
Proof.
  unfold _operation_input_summary. intros Hwf. destruct (String.eqb effect "read"); [done|].
  apply wf_JObj in Hwf as [Hk Hv]. apply wf_JObj. rewrite map_map. split; [done|].
  apply List.Forall_forall. intros x (nv & <- & Hin)%in_map_iff. rewrite List.Forall_forall in Hv.
  specialize (Hv nv Hin). cbn. destruct (snd nv) as [| | | | |l|kvs]; try done; apply wf_jsonb_ok; reflexivity.
Qed.

Definition wf_answer (a : answer) : Prop :=
  match a with
  | Returned value => wf_json value
  | CapabilityEngine.RequiresUserAction _ _ next => wf_json next
  | _ => True
  end.

(** A row whose columns can be read is read back when its progress is set. *)
Lemma marked_run id p t (r : row) summary (vr vn : json) : t !! id = Some r -> loads (input_summary_json r) = Ok summary ->
  _decode_json (result_json p) = Ok vr -> _decode_json (next_action_json p) = Ok vn ->
  exists v, method (_update id p) _operation_from_row t = (Ok v, <[id := Row r p]> t) /\ v_status v = op_state p.
Proof.
  intros Hr Hs Hvr Hvn. unfold method, transaction. rewrite _update_run, Hr.
  unfold _operation_from_row. cbn -[loads _decode_json pbind].
  rewrite (result_bind_run _ _ _ Hs), (result_bind_run _ _ _ Hvr), (result_bind_run _ _ _ Hvn). by eexists.
Qed.

Lemma progress_decodes a now : wf_answer a ->
  exists vr vn, _decode_json (result_json (progress_of a now)) = Ok vr /\
    _decode_json (next_action_json (progress_of a now)) = Ok vn.
Proof.
  intros Hwf. destruct a; cbn -[loads dumps]; unfold _canonical_json;
    [rewrite (loads_dumps _ Hwf); eauto|rewrite (loads_dumps _ Hwf); eauto|eauto..].
Qed.

(** What the outcome of a call writes can be read again. *)
Lemma record_answer_readable id a now t : wf_answer a -> readable t -> readable (snd (record_answer id a now t)).
Proof.
  intros Hwf Ht. rewrite record_answer_update. destruct (progress_decodes a now Hwf) as (vr & vn & Hvr & Hvn).
  destruct (t !! id) as [r|] eqn:Hr.
  - destruct (Ht _ _ Hr) as [v Hv]. unfold _operation_from_row in Hv. apply result_bind_Ok in Hv as (summary & Hs & _).
    destruct (marked_run id (progress_of a now) t r summary vr vn Hr Hs Hvr Hvn) as (w & -> & _).
    intros i q. cbn [snd]. destruct (base.decide (i = id)) as [->|Hne]; [|rewrite lookup_insert_ne by done; apply Ht].
    rewrite lookup_insert_eq. intros [= <-]. unfold _operation_from_row. cbn -[loads _decode_json pbind].
    rewrite (result_bind_run _ _ _ Hs), (result_bind_run _ _ _ Hvr), (result_bind_run _ _ _ Hvn). by eexists.
  - unfold method, transaction. by rewrite _update_run, Hr.
Qed.

(** C16. The handler of a new call runs once, in the context of its operation, and whatever it returns or
    raises becomes the state of that operation and the status of the response: no exception of a
    handler escapes, and the operation is the only one that this changes. *)
Theorem outcome_is_recorded engine c at_ meanwhile t w s arguments h
  (Hacc : accepted engine c s arguments) (Hh : _handlers engine !! c_capability_name c = Some h)
  (Huser : truthy (c_user_subject c) = true) (Hwf : wf_json (JObj arguments))
  (Hnone : find_for (CapabilityEngine.create_args c s arguments (request_uuid at_)) t = None)
  (Hid : t !! fresh_operation at_ = None) (Hm : forall u, rtc step u (meanwhile u)) :
  exists ctx t1 (r : row), operation_id ctx = fresh_operation at_ /\ spec ctx = s /\
    CapabilityEngine.user_subject ctx = c_user_subject c /\ rtc step t t1 /\ t1 !! fresh_operation at_ = Some r /\
    forall a w', h ctx arguments w = (a, w') -> wf_answer a -> exists v,
      invoke engine c at_ meanwhile t t w =
        ((Ok v, <[fresh_operation at_ := Row r (progress_of a (finished_now at_))]> t1), w') /\
      jget v "operationId" = Some (JStr (fresh_operation at_)) /\
      jget v "status" = Some (JStr (status_text (op_state (progress_of a (finished_now at_))))).
Proof.
  set (a := CapabilityEngine.create_args c s arguments (request_uuid at_)) in *.
  set (id := fresh_operation at_) in *.
  assert (Hsum : wf_json (a_input_summary a)) by by apply wf_summary.
  destruct (create_fresh a (created_now at_) id (request_uuid at_) t Huser Hsum Hnone Hid)
    as (v & Hcreate & Hvid & _).
  set (r0 := new_row a (created_now at_) (request_uuid at_)) in *.
  assert (Hload : loads (input_summary_json r0) = Ok (canon (a_input_summary a))) by by apply loads_dumps.
  destruct (marked_run id (running (running_now at_)) (<[id := r0]> t) r0 _ JNull JNull (lookup_insert_eq _ _ _) Hload
    eq_refl eq_refl) as (v1 & Hrunning & _).
  set (t0 := <[id := Row r0 (running (running_now at_))]> (<[id := r0]> t)) in *.
  destruct (steps_identity t0 (meanwhile t0) id (Row r0 (running (running_now at_))) (Hm t0) (lookup_insert_eq _ _ _))
    as (r & Hr & Hident).
  exists (context_of c s v), (meanwhile t0), r. split; [exact Hvid|]. split; [done|]. split; [done|]. split; [|split; [done|]].
  { eapply rtc_l; [exact (proj1 (create_Ok _ _ _ _ _ _ _ _ _ Hcreate (rtc_refl _ _)))|]. eapply rtc_l; [|apply Hm].
    unfold t0. replace (<[id := Row r0 (running (running_now at_))]> (<[id := r0]> t))
      with (snd (mark_running id (running_now at_) (<[id := r0]> t))); [constructor|]. unfold mark_running. by rewrite Hrunning. }
  intros b w' Hb Hwfb.
  destruct (progress_decodes b (finished_now at_) Hwfb) as (vr & vn & Hvr & Hvn).
  assert (Hload' : loads (input_summary_json r) = Ok (canon (a_input_summary a))).
  { change (input_summary_json r) with (Operations.input_summary_json (row_identity r)). rewrite Hident. exact Hload. }
  destruct (marked_run id (progress_of b (finished_now at_)) (meanwhile t0) r _ vr vn Hr Hload' Hvr Hvn) as (v2 & Hmark & Hst).
  exists (_operation_response v2 false). split.
  - unfold invoke. rewrite (accepted_run _ _ _ _ Hacc). fold a. fold id. rewrite Hcreate. cbv beta iota. unfold execute.
    cbv zeta. rewrite Hh, Hvid.
    unfold mark_running. fold id. rewrite Hrunning, Hb, record_answer_update. unfold respond. by rewrite Hmark.
  - assert (Hv2 : v_operation_id v2 = id) by (apply (marked_id id (progress_of b (finished_now at_)) (meanwhile t0)); by rewrite Hmark).
    cbn. by rewrite Hv2, Hst.
Qed.
End Calls.

(** ** Concrete inputs

    The properties of the engine, applied to a call of a write capability whose handler counts its runs and asks the user to act. *)

Module Demo.
#[local] Existing Instance ascii_tables.

Lemma summary_reveals_shapes_witness : "controlled_write" <> "read" /\
  _operation_input_summary [("content", JStr "secret")] "controlled_write" =
  _operation_input_summary [("content", JStr "public")] "controlled_write".
Proof.
  split; [discriminate|]. apply (summary_reveals_shapes "controlled_write"); [discriminate|].
  constructor; [|constructor]. split; [reflexivity|]. split; reflexivity.
Defined.

Definition prepare_spec : Capabilities.CapabilitySpec :=
  Capabilities.Spec "oa.leave.prepare" "0.1.0" "Prepare a leave"
    (JObj [("type", JStr "object"); ("properties", JObj [("reason", JObj [("type", JStr "string")])]);
           ("required", JArr [JStr "reason"]); ("additionalProperties", JBool false)])
    (JObj []) "controlled_write" "seeyon-central" "leave-prepare-v1".

Definition asks_user : handler nat := fun ctx arguments runs =>
  (CapabilityEngine.RequiresUserAction "WRITE_AUTHORIZATION_REQUIRED" "Please decide."
     (JObj [("operation", JStr (operation_id ctx))]), S runs).

Definition engine : CapabilityEngine nat :=
  Engine {[ "oa.leave.prepare" := prepare_spec ]} {[ "oa.leave.prepare" := asks_user ]}.

Definition request (key : option string) : call :=
  Call "u1" "oa.leave.prepare" (JObj [("reason", JStr "family")]) key (Some "rq-1") None None.

Definition time (n : Z) (id : string) : circumstances := Circumstances "rq-0" id n (n + 1)%Z (n + 2)%Z.

Definition arguments : list (string * json) := [("reason", JStr "family")].

Lemma request_accepted key : accepted engine (request key) prepare_spec arguments.
Proof. split; reflexivity. Qed.

Definition no_rows : gmap string row := ∅.
Definition run1 := invoke engine (request (Some "k")) (time 1 "op-1") id no_rows no_rows 0%nat.
Definition t1 : gmap string row := snd (fst run1).

Lemma idle (u : gmap string row) : rtc step u (id u).
Proof. apply rtc_refl. Qed.

Lemma readable_t1 : readable t1.
Proof.
  destruct (_operation_from_row ("op-1", default (new_row (CapabilityEngine.create_args (request None) prepare_spec arguments "") 0%Z "")
    (t1 !! "op-1"))) as [v|e] eqn:Ev; [|vm_compute in Ev; discriminate Ev].
  assert (Hdom : dom t1 = {["op-1"]}) by (vm_compute; reflexivity).
  intros id r Hr. assert (Hin : id ∈ dom t1) by (apply elem_of_dom; exists r; exact Hr).
  rewrite Hdom, elem_of_singleton in Hin. subst id. rewrite Hr in Ev. cbn [default from_option] in Ev. exists v. exact Ev.
Qed.

(** The handler ran once, the first time; the second call is answered with the first operation. *)
Lemma retry_runs_no_handler_witness : exists v1 v2,
  run1 = ((Ok v1, t1), 1%nat) /\
  invoke engine (request (Some "k")) (time 5 "op-2") id t1 t1 7%nat = ((Ok v2, t1), 7%nat) /\
  jget v2 "operationId" = jget v1 "operationId".
Proof.
  assert (Hok : match fst (fst run1) with Ok _ => true | Raise _ => false end = true) by (vm_compute; reflexivity).
  destruct (fst (fst run1)) as [v1|] eqn:Ev; [|discriminate Hok].
  assert (Hw : snd run1 = 1%nat) by (vm_compute; reflexivity).
  assert (E : run1 = ((Ok v1, t1), 1%nat)).
  { rewrite <- Hw, <- Ev. unfold t1. destruct run1 as [[a b] w]. reflexivity. }
  assert (Hst : rtc step no_rows t1).
  { destruct (invoke_created _ _ _ _ _ _ _ _ _ _ idle (rtc_refl _ _) E)
      as (s & args & operation & reused & u1 & _ & Hc & Hst & _).
    eapply rtc_l; [|exact Hst]. exact (proj1 (create_Ok _ _ _ _ _ _ _ _ _ Hc (rtc_refl _ _))). }
  assert (Hreach : reachable initial step t1).
  { clear -Hst. assert (H : reachable initial step no_rows) by (apply reachable_init; reflexivity).
    induction Hst as [|x y z Hxy _ IH]; [exact H|]. apply IH. eapply reachable_step; [exact H|exact Hxy]. }
  destruct (retry_runs_no_handler engine (request (Some "k")) (time 1 "op-1") id no_rows no_rows 0%nat v1 t1 1%nat
    prepare_spec arguments (request (Some "k")) (time 5 "op-2") id t1 t1 7%nat arguments
    Hreach idle (rtc_refl _ _) E (rtc_refl _ _) (rtc_refl _ _) (conj readable_t1 readable_t1))
    as (i & u & r & operation & Hid & _ & _ & Hop & Hr).
  - exists "k". reflexivity.
  - repeat split.
  - apply request_accepted.
  - apply request_accepted.
  - rewrite String.eqb_refl in Hr. exists v1. eexists. split; [exact E|]. split; [exact Hr|].
    rewrite Hid. cbn. rewrite (from_row_id _ _ Hop). reflexivity.
Defined.

Lemma outcome_is_recorded_witness : exists v t,
  invoke engine (request None) (time 1 "op-1") id no_rows no_rows 0%nat = ((Ok v, t), 1%nat) /\
  jget v "status" = Some (JStr "requires_user_action").
Proof.
  destruct (outcome_is_recorded engine (request None) (time 1 "op-1") id no_rows 0%nat prepare_spec arguments asks_user
    (request_accepted None)) as (ctx & t1 & r & Hid & _ & _ & _ & _ & Hrun).
  - reflexivity.
  - reflexivity.
  - apply wf_jsonb_ok. reflexivity.
  - reflexivity.
  - apply lookup_empty.
  - exact idle.
  - destruct (Hrun _ _ eq_refl) as (v & E & _ & Hst).
    + apply wf_jsonb_ok. cbn [wf_jsonb]. rewrite Hid. reflexivity.
    + exists v. eexists. split; [exact E|exact Hst].
Defined.
End Demo.
