(* ===== verification/ControlledWrites.v ===== *)
(** * Controlled writes (agentbridge/core/controlled_write_executor.py)

    [prepare] freezes a write as a plan that a user must authorize; [commit] runs the
    adapter's function, which enters the commit boundary, where the authorization is consumed
    together with the task plan's guard, before it writes to the business system. *)

From S2P Require Import Prelude PyStr Json Sha256 Store InputValidation CapabilityEngine.
From S2P Require Capabilities WriteAuthorizations FieldSubmissions TaskPlans.

#[local] Open Scope list_scope.

Module WA := WriteAuthorizations.
Module FS := FieldSubmissions.

Definition TRUSTED_WRITE_INTERACTION_TTL_SECONDS : Z := 1800.
Definition PENDING_BATCH_PREPARE_CAPABILITY : string := "oa.workflow.pending.batch.prepare".

(** ** Data *)

(** The keys of a session that are read; [get]s give [None]. *)
Record session : Type := Session {
  s_user_subject : string;
  s_system_id : string;
  s_session_id : string;
  expected_principal_ref : json;
  downstream_principal_ref : json;
  last_verified_at : json;
}.

(** What a prepare function returns: the keys [plan] and [summary] of its dict. *)
Record prepared : Type := Prepared {
  p_plan : list (string * json);
  p_summary : list (string * json);
}.

(** The validation of [SeeyonBusinessValidationRequired] *)
Record validation : Type := Validation {
  val_dict : list (string * json);
  val_fingerprint : string;
  val_message : string;
  val_code : json;
}.

(** What a commit function raises, by the [except] clause that takes it *)
Inductive raised : Type :=
  | BusinessValidation (v : validation)
  | OutcomeError (message : string)
  | BusinessRuleRejected (code message : string)
  | ContractError (message : string)
  | Raised (class_name : string) (e : exn).

(** A commit function: it writes to the business system, enters the boundary (which may
    raise) and goes on according to the outcome, and returns or raises. *)
Inductive commit_function : Type :=
  | Returns (value : json)
  | Raises (e : raised)
  | Writes (what : json) (next : commit_function)
  | Enters (next : result unit -> commit_function).

(** The definition of a write, its functions resolved *)
Record write_definition : Type := WriteDefinition {
  prepare_function : option (list (string * json) -> result prepared);
  d_commit_function : option (list (string * json) -> commit_function);
  commit_capability : string;
  context_fields : list string;
  field_schema : json;
  field_message : string;
  authorization_message : string;
}.

(** The exceptions of [answer], and others as they are *)
Inductive failure : Type :=
  | Requires (code message : string) (next_action : json)
  | Rejected (code message : string)
  | Unknown (code message : string)
  | Plain (class_name : string) (e : exn).

Definition plain (e : exn) : failure := Plain (class_name (exn_class e)) e.

(** [failure] as the engine sees it *)
Definition answer_of `{UnicodeTables} (r : failure + json) : answer :=
  match r with
  | inr value => Returned value
  | inl (Requires code message next) => RequiresUserAction code message next
  | inl (Rejected code message) => CapabilityRejected code message
  | inl (Unknown code message) => OutcomeUnknown code message
  | inl (Plain name e) => OtherException name (exn_str e)
  end.

(** ** The database and the collaborators

    Authorizations, task plans and the tables of the skill guard ([K]) are in one
    database; the guards run on the connection of the consumption. *)

Section Writes.
Context `{UnicodeTables, UrlTables} {K : Type}.

Definition database : Type := WA.store (TaskPlans.store * K).

Definition on_plans {A} (m : tx TaskPlans.store A) : tx database A := fun s =>
  match m (fst (WA.others s)) with
  | Ok (a, p) => Ok (a, WA.MkStore (WA.authorizations s) (WA.card_tables s) (p, snd (WA.others s)))
  | Raise e => Raise e
  end.

Definition on_skills {A} (m : tx K A) : tx database A := fun s =>
  match m (snd (WA.others s)) with
  | Ok (a, k) => Ok (a, WA.MkStore (WA.authorizations s) (WA.card_tables s) (fst (WA.others s), k))
  | Raise e => Raise e
  end.

(** [ControlledWriteDependencies], without the stores.  [write_policy] gives the scope and
    the reason of a policy that denies the write. *)
Record dependencies : Type := Dependencies {
  registry : Capabilities.CapabilityRegistry;
  trusted_card_base_url : string;
  business_input_interaction : FS.view -> result json;
  execution_authorization_interaction : WA.view -> result json;
  pending_batch_definition : string -> string -> json -> result string;
  task_id_for_operation : string -> string -> result string;
  get_batch_for_task : option string -> string -> result (Z * Z);
  require_capability : string -> string -> list (string * json) -> result unit;
  write_policy : string -> string -> string -> string -> option (string * string * string);
  guard_skill_authorization : string -> string -> tx K unit;
  validate_task_plan_execution : TaskPlans.plan_view -> result unit;
  (** the text of an instant in the answers *)
  isoformat : instant -> string;
}.

Implicit Types (deps : dependencies) (ctx : CapabilityContext) (ses : session) (def : write_definition).

Definition _trusted_write_supersession_key (arguments : list (string * json)) : string :=
  "sha256:" +:+ sha256_hex (dumps (JObj arguments)).

(** [{name: arguments[name] for name in context_fields if name in arguments}] *)
Definition selected (names : list string) (arguments : list (string * json)) : list (string * json) :=
  fold_left (fun d name => match assoc name arguments with Some v => dict_set name v d | None => d end)
    names [].

(** [dict(v or {})] of a value that is a dict wherever it was stored *)
Definition dict_or_empty (v : json) : result (list (string * json)) :=
  match v with
  | JObj kvs => Ok kvs
  | _ => if json_truthy v then raise TypeError "not a mapping" else Ok []
  end.

Definition assert_write_allowed deps ctx (system_id : string) : failure + unit :=
  if String.eqb (Capabilities.effect (spec ctx)) "read" then inr tt
  else match write_policy deps system_id (user_subject ctx) (Capabilities.name (spec ctx))
               (Capabilities.version (spec ctx)) with
       | None => inr tt
       | Some (scope_type, scope_value, reason) =>
           inl (Rejected "WRITE_PAUSED" ("Write operation is paused by governance policy "
                  +:+ scope_type +:+ ":" +:+ scope_value +:+ ". Reason: " +:+ reason))
       end.

Definition opt_json (s : option json) : json := match s with Some v => v | None => JNull end.

Definition session_binding ses : list (string * json) :=
  [("session_id", JStr (s_session_id ses)); ("expected_principal_ref", expected_principal_ref ses);
   ("downstream_principal_ref", downstream_principal_ref ses); ("last_verified_at", last_verified_at ses)].

Definition _trusted_write_session_binding_matches (plan : json) ses : bool :=
  let binding := match jget plan "session_binding" with Some (JObj kvs) => kvs | _ => [] end in
  py_eqb (jget_or_null plan "user_subject") (JStr (s_user_subject ses))
  && forallb (fun kv => py_eqb (dict_get binding (fst kv) JNull) (snd kv)) (session_binding ses).

(** ** Field input *)

Definition _prefill_trusted_field_schema (schema : json) (arguments : list (string * json)) : json :=
  let prefill field := match field with
    | JObj kvs =>
        let name := py_str (match assoc "name" kvs with
                            | Some v => if json_truthy v then v else JStr ""
                            | None => JStr "" end) in
        match assoc "value" kvs, assoc name arguments with
        | None, Some JNull => field
        | None, Some v => if truthy name then JObj (dict_set "value" v kvs) else field
        | _, _ => field
        end
    | _ => field
    end in
  match schema with
  | JObj kvs => match assoc "fields" kvs with
                | Some (JArr fields) => JObj (dict_set "fields" (JArr (map prefill fields)) kvs)
                | _ => schema
                end
  | _ => schema
  end.

Definition resume_key : string := "_agentbridge_resume_arguments".

Definition _field_input_required deps (submission : FS.view) def : failure :=
  match business_input_interaction deps submission,
        dict_or_empty (jget_or_null (FS.v_form_schema submission) resume_key) with
  | Raise e, _ | _, Raise e => plain e
  | Ok interaction, Ok resume =>
      Requires "FIELD_INPUT_REQUIRED" (field_message def)
        (JObj [("type", JStr "open_field_input_card");
               ("interactionId", jget_or_null interaction "interactionId");
               ("inputSubmissionId", JStr (FS.v_submission_id submission));
               ("cardUrl", JStr (FS.v_card_url submission));
               ("expiresAt", JStr (isoformat deps (FS.v_expires_at submission)));
               ("then", JObj
                  [("capability", JStr (FS.v_capability_name submission));
                   ("arguments", JObj (dict_set "input_submission_id"
                      (JStr (FS.v_submission_id submission)) resume))]);
               ("interaction", interaction)])
  end.

Definition prepare_again (capability : string) (arguments : list (string * json)) : json :=
  JObj [("type", JStr "prepare_again"); ("capability", JStr capability); ("arguments", JObj arguments)].

Definition _field_input_unavailable (state prepare_capability : string)
    (resume_arguments : list (string * json)) : failure :=
  Requires "FIELD_INPUT_UNAVAILABLE" ("The trusted field submission is unavailable: " +:+ state +:+ ".")
    (prepare_again prepare_capability resume_arguments).

(** [str(arguments.get(key) or "").strip()] *)
Definition stripped_argument (arguments : list (string * json)) (key : string) : string :=
  let v := dict_get arguments key JNull in
  py_strip (py_str (if json_truthy v then v else JStr "")).

Definition submission_bound ctx ses (context_arguments : list (string * json)) (submission : FS.view) : bool :=
  String.eqb (FS.v_user_subject submission) (s_user_subject ses)
  && String.eqb (FS.v_system_id submission) (s_system_id ses)
  && String.eqb (FS.v_session_id submission) (s_session_id ses)
  && String.eqb (FS.v_capability_name submission) (Capabilities.name (spec ctx))
  && String.eqb (FS.v_capability_version submission) (Capabilities.version (spec ctx))
  && py_eqb (jget_or_null (FS.v_form_schema submission) resume_key) (JObj context_arguments).

Definition resolve_field_input {F} deps ctx ses (arguments : list (string * json)) def
    (form_schema : option json) (clock : datetime) (fresh : string) (s : FS.store F)
  : (failure + (FS.view * list (string * json))) * FS.store F :=
  let submission_id := stripped_argument arguments "input_submission_id" in
  let context_arguments := selected (context_fields def) arguments in
  let unavailable state := _field_input_unavailable state (Capabilities.name (spec ctx)) context_arguments in
  if negb (length context_arguments =? length (context_fields def))%nat
  then (inl (plain (Exn ValueError "trusted field input is missing its workflow target context")), s)
  else if negb (truthy submission_id) then
    let schema := _prefill_trusted_field_schema
      (match form_schema with Some schema => schema | None => field_schema def end) arguments in
    let submission_schema := match schema with
      | JObj kvs => JObj (dict_set resume_key (JObj context_arguments) kvs)
      | v => v
      end in
    match FS.create
      {| FS.a_user_subject := s_user_subject ses; FS.a_system_id := s_system_id ses;
         FS.a_session_id := s_session_id ses; FS.a_capability_name := Capabilities.name (spec ctx);
         FS.a_capability_version := Capabilities.version (spec ctx);
         FS.a_create_operation_id := operation_id ctx;
         FS.a_supersession_key := _trusted_write_supersession_key context_arguments;
         FS.a_form_schema := submission_schema; FS.a_card_base_url := trusted_card_base_url deps;
         FS.a_ttl_seconds := TRUSTED_WRITE_INTERACTION_TTL_SECONDS |} clock fresh s with
    | (Raise e, s) => (inl (plain e), s)
    | (Ok submission, s) => (inl (_field_input_required deps submission def), s)
    end
  else match FS.get submission_id true clock s with
  | (Raise e, s) =>
      (inl (match exn_class e with
            | FieldSubmissionNotFound | FieldSubmissionIntegrityError => unavailable "not_found"
            | _ => plain e
            end), s)
  | (Ok submission, s) =>
      if negb (submission_bound ctx ses context_arguments submission) then (inl (unavailable "binding_mismatch"), s)
      else match FS.v_state submission, FS.v_values submission with
      | FS.Pending, _ => (inl (_field_input_required deps submission def), s)
      | FS.Submitted, Some (JObj values) =>
          (inr (submission, fold_left (fun d kv => dict_set (fst kv) (snd kv) d) values context_arguments), s)
      | state, _ => (inl (unavailable (FS.state_text state)), s)
      end
  end.

(** ** Preparation *)

(** [d.get(key)] of something that may be no dict: its text, stripped *)
Definition text_at (v : json) (key : string) : string :=
  let x := jget_or_null v key in py_strip (py_str (if json_truthy x then x else JStr "")).

(** Did the document change between the input and the plan? *)
Definition review_changed (submission : FS.view) (plan : list (string * json)) : bool :=
  let expected := text_at (FS.v_form_schema submission) "_agentbridge_review_fingerprint" in
  let actual := text_at (dict_get plan "target" (JObj [])) "review_fingerprint" in
  truthy expected && truthy actual && negb (String.eqb expected actual).

Definition set_all (d l : list (string * json)) : list (string * json) :=
  fold_left (fun d kv => dict_set (fst kv) (snd kv) d) l d.

Definition plan_of (p : prepared) ctx ses (resume_arguments : list (string * json)) : list (string * json) :=
  set_all (p_plan p)
    [("user_subject", JStr (s_user_subject ses)); ("prepare_capability", JStr (Capabilities.name (spec ctx)));
     ("resume_arguments", JObj resume_arguments); ("session_binding", JObj (session_binding ses))].

(** [a or b or .. or z] *)
Fixpoint first_truthy (l : list json) (z : json) : json :=
  match l with [] => z | v :: l' => if json_truthy v then v else first_truthy l' z end.

Definition fields_of (summary : list (string * json)) : list json :=
  match dict_get summary "fields" JNull with JArr l => l | _ => [] end.

Definition summary_of (p : prepared) def ses (changed : bool) : list (string * json) :=
  let summary := set_all (p_summary p)
    [("system", first_truthy [jget_or_null (field_schema def) "system"; dict_get (p_summary p) "system" JNull]
                  (JStr (s_system_id ses)));
     ("principal", first_truthy [downstream_principal_ref ses; expected_principal_ref ses]
                  (JStr (s_user_subject ses)))] in
  if changed then set_all summary
    [("fields", JArr (JObj [("label", JStr "详情变化");
                            ("value", JStr "填写意见后单据内容发生变化，请按当前详情重新核对本次授权。")]
                      :: fields_of summary));
     ("authorization_notice", JStr ("单据内容在填写意见后发生变化；本授权卡展示并绑定最新详情。" +:+
                                    "请重新核对后再决定是否授权。"))]
  else summary.

(** The batch position in the title *)
Definition titled deps ctx ses (summary : list (string * json)) : result (list (string * json)) :=
  if String.eqb (Capabilities.name (spec ctx)) PENDING_BATCH_PREPARE_CAPABILITY then
    '(current, total) ← get_batch_for_task deps (task_id ctx) (s_user_subject ses);
    match assoc "title" summary with
    | Some title => Ok (dict_set "title" (JStr (py_str title +:+ "（第 " +:+ str_of_Z current +:+ "/"
                                                  +:+ str_of_Z total +:+ " 条）")) summary)
    | None => raise KeyError "title"
    end
  else Ok summary.

Definition resume_arguments_of (arguments : list (string * json)) def (field_submission : option FS.view)
  : result (list (string * json)) :=
  match field_submission with
  | None =>
      let resume := selected (context_fields def) arguments in
      raise_if (negb (length resume =? length (context_fields def))%nat) ValueError
        "trusted write is missing its target context";;
      Ok resume
  | Some submission => dict_or_empty (jget_or_null (FS.v_form_schema submission) resume_key)
  end.

Definition authorization_args deps ses (commit_spec : Capabilities.CapabilitySpec) (operation : string)
    (resume plan summary : list (string * json)) : WA.create_args := {|
  WA.a_user_subject := s_user_subject ses; WA.a_system_id := s_system_id ses;
  WA.a_session_id := s_session_id ses; WA.a_capability_name := Capabilities.name commit_spec;
  WA.a_capability_version := Capabilities.version commit_spec;
  WA.a_prepare_operation_id := operation;
  WA.a_supersession_key := _trusted_write_supersession_key resume;
  WA.a_plan := JObj plan; WA.a_summary := JObj summary;
  WA.a_card_base_url := trusted_card_base_url deps;
  WA.a_ttl_seconds := TRUSTED_WRITE_INTERACTION_TTL_SECONDS |}.

(** Everything of [prepare] before the authorization is created *)
Definition frozen_plan deps ctx ses (arguments : list (string * json)) (field_submission : option FS.view) def
  : failure + (WA.create_args * list (string * json)) :=
  match prepare_function def with
  | None => inl (plain (Exn RuntimeError "trusted write prepare function is unavailable"))
  | Some prepare_function =>
      match assert_write_allowed deps ctx (s_system_id ses) with
      | inl e => inl e
      | inr tt =>
          match (p ← prepare_function arguments;
                 resume ← resume_arguments_of arguments def field_submission;
                 let changed := match field_submission with
                   | Some submission => review_changed submission (p_plan p)
                   | None => false
                   end in
                 summary ← titled deps ctx ses (summary_of p def ses changed);
                 commit_spec ← Capabilities.get (commit_capability def) (registry deps);
                 Ok (authorization_args deps ses commit_spec (operation_id ctx) resume
                       (plan_of p ctx ses resume) summary, summary)) with
          | Ok x => inr x
          | Raise e => inl (plain e)
          end
      end
  end.

Definition display (summary : list (string * json)) (more : list (string * json)) : json :=
  JObj ([("title", dict_get summary "title" JNull); ("effect", dict_get summary "effect" JNull);
         ("fieldCount", JInt (Z.of_nat (length (fields_of summary))))] ++ more).

(** The card that an authorization waits on, with what [more] adds before the interaction *)
Definition authorization_card deps (interaction : json) (authorization : WA.view) (more : list (string * json))
  : json :=
  JObj ([("type", JStr "open_write_authorization_card");
         ("interactionId", jget_or_null interaction "interactionId");
         ("authorizationId", JStr (WA.v_authorization_id authorization));
         ("cardUrl", JStr (WA.v_card_url authorization)); ("planHash", JStr (WA.v_plan_hash authorization));
         ("expiresAt", JStr (isoformat deps (WA.v_expires_at authorization)))]
        ++ more ++ [("interaction", interaction)]).

Definition then_commit (capability : string) (authorization : WA.view) : string * json :=
  ("then", JObj [("capability", JStr capability);
                 ("arguments", JObj [("authorization_id", JStr (WA.v_authorization_id authorization))])]).

(** [field_submissions.consume], its refusals as [ValueError] *)
Definition consume_input {F} ctx ses (submission : FS.view) (clock1 clock2 : datetime)
    (s : FS.store F) : result unit * FS.store F :=
  match FS.consume (FS.v_submission_id submission)
          {| FS.c_user_subject := s_user_subject ses; FS.c_system_id := s_system_id ses;
             FS.c_session_id := s_session_id ses; FS.c_capability_name := Capabilities.name (spec ctx);
             FS.c_capability_version := Capabilities.version (spec ctx);
             FS.c_consume_operation_id := operation_id ctx |} clock1 clock2 s with
  | (Ok _, s) => (Ok tt, s)
  | (Raise e, s) =>
      (Raise (match exn_class e with
              | FieldSubmissionAccessDenied | FieldSubmissionIntegrityError | FieldSubmissionStateError =>
                  Exn ValueError (exn_message e)
              | _ => e
              end), s)
  end.

(** A preparation that gets to its end raises, too: the user must act. *)
Definition prepare {F} deps ctx ses (arguments : list (string * json)) (field_submission : option FS.view) def
    (clock : datetime) (fresh : string) (clock1 clock2 : datetime) (s : database) (f : FS.store F)
  : failure * database * FS.store F :=
  match frozen_plan deps ctx ses arguments field_submission def with
  | inl e => (e, s, f)
  | inr (args, summary) =>
      match WA.create args clock fresh s with
      | (Raise e, s) => (plain e, s, f)
      | (Ok authorization, s) =>
          match execution_authorization_interaction deps authorization with
          | Raise e => (plain e, s, f)
          | Ok interaction =>
              let done := Requires "WRITE_AUTHORIZATION_REQUIRED" (authorization_message def)
                (authorization_card deps interaction authorization
                   [("display", display summary []); then_commit (WA.a_capability_name args) authorization]) in
              match field_submission with
              | None => (done, s, f)
              | Some submission =>
                  match consume_input ctx ses submission clock1 clock2 f with
                  | (Raise e, f) => (plain e, s, f)
                  | (Ok tt, f) => (done, s, f)
                  end
              end
          end
      end
  end.

(** ** Commit *)

(** The readings of the clock and the identifier that a commit may draw; [boundary n] is for
    the [n]th entry of the boundary. *)
Record timing : Type := Timing {
  read_clock : datetime;
  boundary : nat -> datetime * datetime * instant;
  continue_clock : datetime;
  continue_id : string;
}.

(** How a commit function ran: its result, whether it entered the boundary, what it wrote, and the
    database afterwards. *)
Record run_result (A : Type) : Type := Run {
  outcome : A;
  entered : bool;
  writes : list json;
  final : database;
}.

(** [before_consume] *)
Definition guards deps ctx ses (authorization_id : string) (now : instant) : tx database unit :=
  on_skills (guard_skill_authorization deps authorization_id (s_user_subject ses));;
  on_plans (TaskPlans.guard_authorization_consumption authorization_id (s_user_subject ses) (operation_id ctx)
              (validate_task_plan_execution deps) now).

Definition commit_args ctx ses : WA.consume_args := {|
  WA.c_user_subject := s_user_subject ses; WA.c_system_id := s_system_id ses;
  WA.c_session_id := s_session_id ses; WA.c_capability_name := Capabilities.name (spec ctx);
  WA.c_capability_version := Capabilities.version (spec ctx); WA.c_commit_operation_id := operation_id ctx |}.

Definition enter_commit_boundary deps ctx ses (arguments : list (string * json)) (authorization_id : string)
    (at_ : datetime * datetime * instant) (s : database) : result unit * database :=
  let '(clock1, clock2, now) := at_ in
  match require_capability deps (user_subject ctx) (Capabilities.name (spec ctx)) arguments with
  | Raise e => (Raise e, s)
  | Ok _ =>
      let '(r, s) := WA.consume authorization_id (commit_args ctx ses)
                       (Some (guards deps ctx ses authorization_id now)) clock1 clock2 s in
      (_ ← r; Ok tt, s)
  end.

Definition after_entry {A} (ok : bool) (r : run_result A) : run_result A :=
  Run A (outcome A r) (ok || entered A r) (writes A r) (final A r).

Definition after_write {A} (what : json) (r : run_result A) : run_result A :=
  Run A (outcome A r) (entered A r) (what :: writes A r) (final A r).

(** [n] entries have been tried. *)
Fixpoint run (enter : nat -> database -> result unit * database) (p : commit_function) (n : nat) (s : database)
  : run_result (raised + json) :=
  match p with
  | Returns value => Run _ (inr value) false [] s
  | Raises e => Run _ (inl e) false [] s
  | Writes what next => after_write what (run enter next n s)
  | Enters next =>
      let '(r, s) := enter n s in
      after_entry (match r with Ok _ => true | Raise _ => false end) (run enter (next r) (S n) s)
  end.

(** The overrides that the plan already carries *)
Definition existing_validations (plan : json) : list json :=
  let l := match jget plan "business_validation_overrides" with
    | Some (JArr l) => l
    | _ => match jget plan "business_validation_override" with
           | Some (JObj kvs) => [JObj kvs]
           | _ => []
           end
    end in
  List.filter is_dict l.

Definition dict_delete (key : string) (d : list (string * json)) : list (string * json) :=
  List.filter (fun kv => negb (String.eqb (fst kv) key)) d.

Definition continued_plan (plan : json) (v : validation) : list (string * json) :=
  let d := match plan with JObj kvs => kvs | _ => [] end in
  dict_set "business_validation_overrides" (JArr (existing_validations plan ++ [JObj (val_dict v)]))
    (dict_delete "business_validation_override" d).

Definition continued_summary (summary : json) (v : validation) : list (string * json) :=
  let d := match summary with JObj kvs => kvs | _ => [] end in
  let title := py_strip (py_str (first_truthy [dict_get d "title" JNull] (JStr "OA 写操作"))) in
  set_all d
    [("title", JStr ("确认 OA 提示并继续" +:+ title));
     ("effect", JStr "仅在再次出现完全相同的 OA 提示时继续执行已授权操作");
     ("authorization_notice", JStr ("OA 返回了一条可继续的提交提示。授权后，AgentBridge " +:+
        "仅在再次出现完全相同的提示时点击“继续”并完成正式提交。"));
     ("authorize_label", JStr "确认警告并继续提交");
     ("fields", JArr (fields_of d ++ [JObj [("label", JStr "OA 提交提示"); ("value", JStr (val_message v))]]))].

Definition unhashable (v : json) : bool := is_dict v || is_list v.

(** [except SeeyonBusinessValidationRequired]: a new authorization, for the plan with the warning *)
Definition continue_after_validation deps ctx ses (authorization : WA.view) (plan : json) (v : validation)
    (clock : datetime) (fresh : string) (s : database) : failure * database :=
  let existing := existing_validations plan in
  let fingerprints := map (fun item => jget_or_null item "fingerprint") existing in
  if existsb unhashable fingerprints then (plain (Exn TypeError "unhashable type"), s)
  else if py_in (JStr (val_fingerprint v)) fingerprints
  then (plain (Exn ValueError "the OA confirmation was already authorized"), s)
  else if (5 <=? length existing)%nat then (plain (Exn ValueError "too many chained OA confirmations"), s)
  else
    let plan' := continued_plan plan v in
    let summary := continued_summary (WA.v_summary authorization) v in
    match dict_or_empty (dict_get plan' "resume_arguments" JNull) with
    | Raise e => (plain e, s)
    | Ok resume =>
        match WA.create (authorization_args deps ses (spec ctx) (operation_id ctx) resume plan' summary)
                clock fresh s with
        | (Raise e, s) => (plain e, s)
        | (Ok continued, s) =>
            match execution_authorization_interaction deps continued with
            | Raise e => (plain e, s)
            | Ok interaction =>
                (Requires "OA_BUSINESS_VALIDATION_CONFIRMATION_REQUIRED"
                   "OA returned a continuable business-validation warning."
                   (authorization_card deps interaction continued
                      [("display", display summary [("validationCode", val_code v)]);
                       then_commit (Capabilities.name (spec ctx)) continued]), s)
            end
        end
    end.

(** The [except] clauses, in their order *)
Definition handle deps ctx ses (authorization : WA.view) (plan : json) (boundary_entered : bool) (e : raised)
    (clock : datetime) (fresh : string) (s : database) : failure * database :=
  match e with
  | BusinessValidation v => continue_after_validation deps ctx ses authorization plan v clock fresh s
  | OutcomeError message => (Unknown "RESULT_UNKNOWN" message, s)
  | BusinessRuleRejected code message => (Rejected code message, s)
  | ContractError message =>
      (if boundary_entered
       then Unknown "RESULT_UNKNOWN" "写入已进入提交边界，但结果契约不匹配；请先对账。"
       else plain (Exn ValueError message), s)
  | Raised name e =>
      (match exn_class e with
       | WriteAuthorizationAccessDenied | WriteAuthorizationStateError =>
           plain (Exn ValueError (exn_message e))
       | PlanValidationError code _ => Rejected code (exn_message e)
       | _ =>
           if boundary_entered
           then Unknown "RESULT_UNKNOWN" ("写入已进入提交边界，但未取得权威结果（" +:+ name
                                           +:+ "）；请先对账，不能自动重试。")
           else Plain name e
       end, s)
  end.

(** The check of a batch item, for a plan that a batch prepared *)
Definition check_batch deps ctx ses (authorization : WA.view) (trusted_prepare : string) (plan : json)
  : failure + unit :=
  if String.eqb trusted_prepare PENDING_BATCH_PREPARE_CAPABILITY then
    match (task ← task_id_for_operation deps (WA.v_prepare_operation_id authorization) (s_user_subject ses);
           pending_batch_definition deps task (s_user_subject ses)
             (first_truthy [jget_or_null plan "resume_arguments"] (JObj []))) with
    | Raise e => inl (plain e)
    | Ok capability =>
        if String.eqb capability (Capabilities.name (spec ctx)) then inr tt
        else inl (Rejected "BATCH_CAPABILITY_MISMATCH" "授权能力与冻结批次条目不一致。")
    end
  else inr tt.

(** From a readable authorization to the run of the commit function *)
Definition admitted deps ctx ses (prepare_capability : string) (authorization : WA.view) (plan : json)
  : failure + unit :=
  let trusted_prepare := py_str (first_truthy [jget_or_null plan "prepare_capability"] (JStr prepare_capability)) in
  let state := WA.state_text (WA.v_state authorization) in
  if String.eqb state "pending" then
    match execution_authorization_interaction deps authorization with
    | Raise e => inl (plain e)
    | Ok interaction =>
        inl (Requires "WRITE_AUTHORIZATION_REQUIRED" "The trusted action card has not been approved."
               (authorization_card deps interaction authorization []))
    end
  else
    match check_batch deps ctx ses authorization trusted_prepare plan with
    | inl e => inl e
    | inr tt =>
        if negb (String.eqb state "approved") then
          match dict_or_empty (jget_or_null plan "resume_arguments") with
          | Raise e => inl (plain e)
          | Ok resume =>
              inl (Requires "WRITE_AUTHORIZATION_UNAVAILABLE" ("The write authorization is " +:+ state +:+ ".")
                     (prepare_again trusted_prepare resume))
          end
        else if negb (_trusted_write_session_binding_matches plan ses) then
          inl (plain (Exn ValueError "the downstream session changed after the write plan was authorized"))
        else assert_write_allowed deps ctx (s_system_id ses)
    end.

Definition stopped (e : failure) (s : database) : run_result (failure + json) := Run _ (inl e) false [] s.

Definition commit deps ctx ses (arguments : list (string * json)) (prepare_capability : string) def
    (at_ : timing) (s : database) : run_result (failure + json) :=
  let authorization_id := stripped_argument arguments "authorization_id" in
  if negb (truthy authorization_id) then stopped (plain (Exn ValueError "authorization_id is required")) s
  else match WA.get authorization_id true (read_clock at_) s with
  | (Raise e, s) =>
      stopped (plain (match exn_class e with
                      | WriteAuthorizationNotFound => Exn KeyError "write authorization not found"
                      | _ => e
                      end)) s
  | (Ok authorization, s) =>
      let plan := match WA.v_plan authorization with Some plan => plan | None => JNull end in
      if negb (String.eqb (WA.v_user_subject authorization) (s_user_subject ses))
      then stopped (plain (Exn KeyError "write authorization not found")) s
      else match admitted deps ctx ses prepare_capability authorization plan with
      | inl e => stopped e s
      | inr tt =>
          match d_commit_function def with
          | None => stopped (plain (Exn RuntimeError "trusted write commit function is unavailable")) s
          | Some commit_function =>
              let kvs := match plan with JObj kvs => kvs | _ => [] end in
              let r := run (fun n => enter_commit_boundary deps ctx ses arguments authorization_id (boundary at_ n))
                         (commit_function kvs) 0 s in
              match outcome _ r with
              | inr value => Run _ (inr value) (entered _ r) (writes _ r) (final _ r)
              | inl e =>
                  let '(failure, s') := handle deps ctx ses authorization plan (entered _ r) e
                    (continue_clock at_) (continue_id at_) (final _ r) in
                  Run _ (inl failure) (entered _ r) (writes _ r) s'
              end
          end
      end
  end.
End Writes.
