(* ===== verification/ControlledWriteFacts.v ===== *)
(** Writes happen once, inside the boundary, under an authorization of this session, and either
    the plan is canceled or the write commits. *)

From S2P Require Import Prelude PyStr Json JsonFacts Sha256 Store Cards CapabilityEngine ControlledWrites.
From S2P Require Import WriteAuthorizations WriteAuthorizationFacts.
From S2P Require Capabilities FieldSubmissions TaskPlans TaskPlanFacts Interactions.

#[local] Open Scope list_scope.

Section Facts.
Context {tables : UnicodeTables} {urls : UrlTables} {K : Type}.
Implicit Types (deps : dependencies (K := K)) (ctx : CapabilityContext) (ses : session)
  (def : write_definition) (s : database (K := K)).

(** ** The guards *)

Lemma on_plans_Ok {A} (m : tx TaskPlans.store A) s (a : A) s' : on_plans m s = Ok (a, s') ->
  exists p, m (fst (others s)) = Ok (a, p) /\
    s' = MkStore (authorizations s) (card_tables s) (p, snd (others s)).
Proof. unfold on_plans. destruct (m _) as [[b p]|]; [|done]. intros [= <- <-]. eauto. Qed.

Lemma on_skills_Ok {A} (m : tx K A) s (a : A) s' : on_skills m s = Ok (a, s') ->
  exists k, m (snd (others s)) = Ok (a, k) /\
    s' = MkStore (authorizations s) (card_tables s) (fst (others s), k).
Proof. unfold on_skills. destruct (m _) as [[b k]|]; [|done]. intros [= <- <-]. eauto. Qed.

Definition guard_plans deps ctx ses (id : string) (now : instant) : tx TaskPlans.store unit :=
  TaskPlans.guard_authorization_consumption id (s_user_subject ses) (operation_id ctx)
    (validate_task_plan_execution deps) now.

Lemma guards_Ok deps ctx ses id now s u s' : guards deps ctx ses id now s = Ok (u, s') ->
  exists p k, guard_plans deps ctx ses id now (fst (others s)) = Ok (u, p) /\
    s' = MkStore (authorizations s) (card_tables s) (p, k).
Proof.
  unfold guards. intros ([] & s1 & H1 & H2)%tx_bind_Ok.
  apply on_skills_Ok in H1 as (k & _ & ->). apply on_plans_Ok in H2 as (p & Hp & ->). by exists p, k.
Qed.

Lemma guards_frame deps ctx ses id now : frames (Some (guards deps ctx ses id now)).
Proof. intros s u s' (p & k & _ & ->)%guards_Ok. done. Qed.

(** ** Entries of the boundary *)

Lemma enter_step deps ctx ses arguments id at_ s :
  rtc step s (snd (enter_commit_boundary deps ctx ses arguments id at_ s)).
Proof.
  destruct at_ as [[c1 c2] now]. unfold enter_commit_boundary.
  destruct (require_capability deps _ _ _); [|apply rtc_refl].
  pose proof (step_consume s id (ControlledWrites.commit_args ctx ses) (Some (guards deps ctx ses id now)) c1 c2
    (guards_frame deps ctx ses id now)) as H.
  destruct (WA.consume _ _ _ _ _ s) as [r s']. by apply rtc_once.
Qed.

(** A successful entry consumed the approved authorization and ran the guard of the plans. *)
Record entry deps ctx ses (id : string) s s' : Prop := {
  en_row : exists r now, authorizations s !! id = Some r /\ row_state r = Approved /\
             bindings_match (ControlledWrites.commit_args ctx ses) r = true /\ plan_hash r = _json_hash (plan_json r) /\
             authorizations s' !! id = Some (consumed_row (operation_id ctx) now r);
  en_plans : exists now, guard_plans deps ctx ses id now (fst (others s)) = Ok (tt, fst (others s'));
}.

Lemma enter_Ok deps ctx ses arguments id at_ s u s' :
  enter_commit_boundary deps ctx ses arguments id at_ s = (Ok u, s') -> entry deps ctx ses id s s'.
Proof.
  destruct at_ as [[c1 c2] now]. unfold enter_commit_boundary.
  destruct (require_capability deps _ _ _); [|done].
  destruct (WA.consume _ _ _ _ _ s) as [r s1] eqn:Hc. intros [= Hr <-].
  apply result_bind_Ok in Hr as (v & -> & _). apply method_Ok in Hc as ([i q] & Hc & _).
  apply consume_body_Ok in Hc as (now1 & now2 & r & s2 & _ & _ & Hr & Hst & Hb & Hh & Hcb & _ & ->);
    [|apply guards_frame].
  destruct (expire_store_live _ _ _ _ Hr) as [E _]; [by apply is_live_spec; right|].
  rewrite E in Hr, Hcb |- *. apply guards_Ok in Hcb as (p & k & Hp & ->). split.
  - exists r, now1. cbn [authorizations]. rewrite lookup_insert_eq. done.
  - exists now. done.
Qed.

(** The columns of the authorization can be read. *)
Definition readable (id : string) s : Prop :=
  forall r, authorizations s !! id = Some r -> exists v, _authorization_from_row true (id, r) = Ok v.

Lemma readable_contract id (r r' : row) v : _authorization_from_row true (id, r) = Ok v ->
  row_contract r' = row_contract r -> exists v', _authorization_from_row true (id, r') = Ok v'.
Proof.
  unfold _authorization_from_row. intros H E. rewrite E.
  apply result_bind_Ok in H as (plan & Hp & H). apply result_bind_Ok in H as (summary & Hs & _).
  rewrite (result_bind_run _ _ _ Hp), (result_bind_run _ _ _ Hs). by eexists.
Qed.

Lemma readable_steps id s t r : rtc step s t -> authorizations s !! id = Some r -> readable id s -> readable id t.
Proof.
  intros Hst Hr Hread r2 Hr2. destruct (Hread r Hr) as [v Hv].
  destruct (steps_contract _ _ _ _ Hst Hr) as (r' & Hr' & Hc & _). rewrite Hr' in Hr2. injection Hr2 as <-.
  by apply (readable_contract id r r' v).
Qed.

(** An entry that fails changes nothing. *)
Lemma enter_fails deps ctx ses arguments id at_ s e s' : readable id s ->
  enter_commit_boundary deps ctx ses arguments id at_ s = (Raise e, s') -> s' = s.
Proof.
  destruct at_ as [[c1 c2] now]. intros Hread. unfold enter_commit_boundary.
  destruct (require_capability deps _ _ _); [|by intros [= _ <-]].
  destruct (WA.consume _ _ _ _ _ s) as [r s1] eqn:Hc. intros [= Hr <-].
  destruct r as [v|e']; [done|]. unfold WA.consume, method in Hc.
  destruct (transaction (WA.consume_body id (ControlledWrites.commit_args ctx ses)
    (Some (guards deps ctx ses id now)) c1 c2) s) as [[[i q]|e1] s2] eqn:Ht.
  - apply transaction_Ok in Ht. pose proof Ht as Hb.
    apply consume_body_Ok in Ht as (now1 & now2 & r & s3 & _ & _ & Hr' & Hst & _ & _ & _ & [= -> ->] & _);
      [|apply guards_frame].
    destruct (expire_store_live _ _ _ _ Hr') as [E _]; [by apply is_live_spec; right|]. rewrite E in Hr'.
    destruct (Hread r Hr') as [v Hv].
    destruct (readable_contract id r (consumed_row (operation_id ctx) now1 r) v Hv eq_refl) as [v' Hv'].
    injection Hc as Hc _. change (_authorization_from_row true (id, consumed_row (operation_id ctx) now1 r) = Raise e') in Hc.
    congruence.
  - apply transaction_Raise in Ht as [_ ->]. by injection Hc as _ <-.
Qed.
(** ** Runs of a commit function *)

(** Commit functions that write nothing before they have entered the boundary *)
Inductive guarded : commit_function -> Prop :=
  | guarded_returns value : guarded (Returns value)
  | guarded_raises e : guarded (Raises e)
  | guarded_enters next : (forall e, guarded (next (Raise e))) -> guarded (Enters next).

(** The exchange of a commit function with its boundary: [performs p answers ws r] when [p] writes
    [ws], in this order, and ends in [r] if its entries are answered by [answers]. *)
Inductive performs : commit_function -> list (result unit) -> list json -> raised + json -> Prop :=
  | performs_returns value : performs (Returns value) [] [] (inr value)
  | performs_raises e : performs (Raises e) [] [] (inl e)
  | performs_writes what next answers ws r :
      performs next answers ws r -> performs (Writes what next) answers (what :: ws) r
  | performs_enters next answer answers ws r :
      performs (next answer) answers ws r -> performs (Enters next) (answer :: answers) ws r.

Definition refusals (answers : list (result unit)) : Prop := exists es, answers = map Raise es.

(** Just one entry succeeded. *)
Definition entered_once (answers : list (result unit)) : Prop :=
  exists es es', answers = map Raise es ++ Ok tt :: map Raise es'.

(** A refusal of the boundary, as [commit] tells it from other exceptions *)
Definition boundary_refusal (e : raised) : bool :=
  match e with
  | Raised _ e =>
      match exn_class e with
      | WriteAuthorizationAccessDenied | WriteAuthorizationStateError | PlanValidationError _ _ => true
      | _ => false
      end
  | _ => false
  end.

(** Commit functions as the adapters write them: nothing is written before the boundary is entered, it
    is entered once, and what fails afterwards does not raise a refusal of the boundary. *)
Inductive settled : commit_function -> Prop :=
  | settled_returns value : settled (Returns value)
  | settled_raises e : boundary_refusal e = false -> settled (Raises e)
  | settled_writes what next : settled next -> settled (Writes what next).

Inductive proper : commit_function -> Prop :=
  | proper_returns value : proper (Returns value)
  | proper_raises e : proper (Raises e)
  | proper_enters next : (forall e, proper (next (Raise e))) -> settled (next (Ok tt)) -> proper (Enters next).

Lemma proper_guarded p : proper p -> guarded p.
Proof. induction 1; by constructor. Qed.



Section Run.
Context deps ctx ses (arguments : list (string * json)) (id : string) (at_ : nat -> datetime * datetime * instant).
#[local] Abbreviation enter := (fun n => enter_commit_boundary deps ctx ses arguments id (at_ n)).
#[local] Abbreviation run_from p n s := (run enter p n s).

Definition not_approved s : Prop := forall r, authorizations s !! id = Some r -> row_state r <> Approved.

(** Without an approved authorization the boundary stays closed. *)
Lemma run_closed p : forall n s, readable id s -> not_approved s ->
  entered _ (run_from p n s) = false /\ final _ (run_from p n s) = s.
Proof.
  induction p as [value|e|what next IH|next IH]; intros n s Hread Hnot; cbn [run]; [done..| |].
  - destruct (IH n s Hread Hnot) as [H1 H2]. done.
  - destruct (enter_commit_boundary _ _ _ _ _ (at_ n) s) as [[u|e] s'] eqn:E.
    + apply enter_Ok in E as [(r & now & Hr & Hst & _) _]. by destruct (Hnot r Hr).
    + apply enter_fails in E as ->; [|done]. by destruct (IH (Raise e) (S n) s Hread Hnot) as [H1 H2].
Qed.

Lemma entry_consumed s s' : entry deps ctx ses id s s' -> not_approved s'.
Proof. intros [(r & now & _ & _ & _ & _ & Hr') _] q Hq. rewrite Hr' in Hq. by injection Hq as <-. Qed.

Lemma entry_readable s s' : entry deps ctx ses id s s' -> readable id s -> readable id s'.
Proof.
  intros [(r & now & Hr & _ & _ & _ & Hr') _] Hread q Hq. rewrite Hr' in Hq. injection Hq as <-.
  destruct (Hread r Hr) as [v Hv]. by apply (readable_contract id r _ v).
Qed.

(** A run enters the boundary at most once, and changes the database by that entry only. *)
Lemma run_spec p : forall n s, readable id s ->
  if entered _ (run_from p n s) then entry deps ctx ses id s (final _ (run_from p n s))
  else final _ (run_from p n s) = s.
Proof.
  induction p as [value|e|what next IH|next IH]; intros n s Hread; cbn [run]; [done..| |].
  - exact (IH n s Hread).
  - destruct (enter_commit_boundary _ _ _ _ _ (at_ n) s) as [[u|e] s'] eqn:E.
    + apply enter_Ok in E. cbn [after_entry entered final orb].
      destruct (run_closed (next (Ok u)) (S n) s') as [_ ->];
        [by eapply entry_readable|by eapply entry_consumed|done].
    + apply enter_fails in E as ->; [|done]. exact (IH (Raise e) (S n) s Hread).
Qed.

(** The exchange of a run, which has at most one success *)
Lemma run_refused p : forall n s, readable id s -> not_approved s ->
  exists answers, performs p answers (writes _ (run_from p n s)) (outcome _ (run_from p n s)) /\ refusals answers.
Proof.
  induction p as [value|e|what next IH|next IH]; intros n s Hread Hnot; cbn [run].
  - exists []. split; [constructor|by exists []].
  - exists []. split; [constructor|by exists []].
  - destruct (IH n s Hread Hnot) as (answers & Hp & Hr). exists answers. split; [by constructor|done].
  - destruct (enter_commit_boundary _ _ _ _ _ (at_ n) s) as [[u|e] s'] eqn:E.
    + apply enter_Ok in E as [(r & now & Hr & Hst & _) _]. by destruct (Hnot r Hr).
    + apply enter_fails in E as ->; [|done].
      destruct (IH (Raise e) (S n) s Hread Hnot) as (answers & Hp & es & ->).
      exists (Raise e :: map Raise es). split; [by constructor|by exists (e :: es)].
Qed.

Lemma run_performs p : forall n s, readable id s ->
  exists answers, performs p answers (writes _ (run_from p n s)) (outcome _ (run_from p n s)) /\
    if entered _ (run_from p n s) then entered_once answers else refusals answers.
Proof.
  induction p as [value|e|what next IH|next IH]; intros n s Hread; cbn [run].
  - exists []. split; [constructor|by exists []].
  - exists []. split; [constructor|by exists []].
  - destruct (IH n s Hread) as (answers & Hp & Hr). exists answers. split; [by constructor|done].
  - destruct (enter_commit_boundary _ _ _ _ _ (at_ n) s) as [[[]|e] s'] eqn:E.
    + apply enter_Ok in E. destruct (run_refused (next (Ok tt)) (S n) s') as (answers & Hp & es & ->);
        [by eapply entry_readable|by eapply entry_consumed|].
      exists (Ok tt :: map Raise es). split; [by constructor|]. by exists [], es.
    + apply enter_fails in E as ->; [|done]. destruct (IH (Raise e) (S n) s Hread) as (answers & Hp & Hr).
      exists (Raise e :: answers). split; [by constructor|]. cbn [after_entry entered orb].
      destruct (entered _ _).
      * destruct Hr as (es & es' & ->). by exists (e :: es), es'.
      * destruct Hr as [es ->]. by exists (e :: es).
Qed.

Lemma guarded_writes p : guarded p -> forall n s, entered _ (run_from p n s) = false -> writes _ (run_from p n s) = [].
Proof.
  induction 1 as [value|e|next _ IH]; intros n s; cbn [run]; [done..|].
  destruct (enter_commit_boundary _ _ _ _ _ (at_ n) s) as [[u|e] s'] eqn:E; [done|].
  cbn [after_entry entered writes orb]. apply IH.
Qed.
End Run.

(** ** The stages of a commit *)

Definition id_of (arguments : list (string * json)) : string := stripped_argument arguments "authorization_id".

(** What was checked when the commit function starts, on the authorization [r] with the plan
    [plan] *)
Record admission ctx ses def (arguments : list (string * json)) s (r : row) (plan : json)
    (f : list (string * json) -> commit_function) : Prop := {
  ad_row : authorizations s !! id_of arguments = Some r;
  ad_approved : row_state r = Approved;
  ad_user : user_subject r = s_user_subject ses;
  ad_plan : loads (plan_json r) = Ok plan;
  ad_session : _trusted_write_session_binding_matches plan ses = true;
  ad_readable : readable (id_of arguments) s;
  ad_function : d_commit_function def = Some f;
}.

Lemma state_text_inj st st' : state_text st = state_text st' -> st = st'.
Proof. by destruct st, st'. Qed.

Lemma admitted_Ok deps ctx ses prepare authorization plan :
  admitted deps ctx ses prepare authorization plan = inr tt ->
  v_state authorization = Approved /\ _trusted_write_session_binding_matches plan ses = true.
Proof.
  unfold admitted. destruct (String.eqb (state_text _) "pending").
  { by destruct (execution_authorization_interaction _ _). }
  destruct (check_batch _ _ _ _ _ _) as [|[]]; [done|].
  destruct (String.eqb_spec (WA.state_text (v_state authorization)) "approved") as [E|]; cbn [negb].
  2: { by destruct (dict_or_empty _). }
  destruct (_trusted_write_session_binding_matches plan ses); [|done]. intros _. split; [|done].
  by apply (state_text_inj _ Approved).
Qed.

Lemma get_others id clock s : others (snd (WA.get id true clock s)) = others s.
Proof.
  unfold WA.get. rewrite method_state. destruct (after_cases (WA.get_body id clock) s) as [->|[[i q] Hx]]; [done|].
  apply get_body_Ok in Hx as (now & r & _ & -> & _). unfold expire_store.
  destruct (authorizations s !! id) as [r0|]; [|done]. by destruct (is_live r0 && _).
Qed.

(** Either the commit stops before its function runs, after at most an expiry, or the function runs on
    the plan of an approved authorization of this session. *)
Lemma commit_cases deps ctx ses arguments prepare def at_ s :
  (exists e s', commit deps ctx ses arguments prepare def at_ s = stopped e s' /\ rtc step s s' /\ others s' = others s) \/
  exists r plan f authorization, admission ctx ses def arguments s r plan f /\
    _authorization_from_row true (id_of arguments, r) = Ok authorization /\
    let x := run (fun n => enter_commit_boundary deps ctx ses arguments (id_of arguments) (boundary at_ n))
               (f (match plan with JObj kvs => kvs | _ => [] end)) 0 s in
    commit deps ctx ses arguments prepare def at_ s =
      match outcome _ x with
      | inr value => Run _ (inr value) (entered _ x) (writes _ x) (final _ x)
      | inl e =>
          let '(failure, s') := handle deps ctx ses authorization plan (entered _ x) e
                                  (continue_clock at_) (continue_id at_) (final _ x) in
          Run _ (inl failure) (entered _ x) (writes _ x) s'
      end.
Proof.
  unfold commit. fold (id_of arguments). set (id := id_of arguments).
  destruct (truthy id); cbn [negb]; [|left; do 2 eexists; split; [done|split; [apply rtc_refl|done]]].
  pose proof (rtc_once _ _ (step_get s id true (read_clock at_))) as Hget.
  pose proof (get_others id (read_clock at_) s) as Ho.
  destruct (WA.get id true (read_clock at_) s) as [[authorization|e] s1] eqn:E; cbn [snd] in Hget, Ho.
  2: { left. by do 2 eexists. }
  destruct (String.eqb_spec (WA.v_user_subject authorization) (s_user_subject ses)) as [Hu|]; cbn [negb].
  2: { left. by do 2 eexists. }
  destruct (admitted _ _ _ _ _ _) as [e|[]] eqn:Ha; [left; by do 2 eexists|].
  destruct (d_commit_function def) as [f|] eqn:Hf; [|left; by do 2 eexists].
  right. apply admitted_Ok in Ha as [Hst Hses].
  apply method_Ok in E as ([i r] & Hb & Hv). apply get_body_Ok in Hb as (now & r' & _ & -> & Hr & [= -> ->]).
  pose proof Hv as Hread. unfold _authorization_from_row in Hv.
  apply result_bind_Ok in Hv as (plan & Hp & Hv). apply result_bind_Ok in Hv as (summary & _ & [= <-]).
  cbn [v_plan v_user_subject v_state] in *.
  destruct (expire_store_live _ _ _ _ Hr) as [Es _]; [by apply is_live_spec; right|]. rewrite Es in *.
  eexists r', plan, f, _. split; [|split; [exact Hread|reflexivity]]. split; try done.
  intros q Hq. unfold id in Hr. rewrite Hr in Hq. injection Hq as <-. by eexists.
Qed.

Lemma commit_stops deps ctx ses arguments prepare def at_ s :
  (forall r, authorizations s !! id_of arguments = Some r -> row_state r <> Approved) ->
  exists e s', commit deps ctx ses arguments prepare def at_ s = stopped e s' /\ others s' = others s.
Proof.
  intros Hnot. destruct (commit_cases deps ctx ses arguments prepare def at_ s)
    as [(e & s' & H & _ & Ho)|(r & plan & f & authorization & Had & _)]; [by exists e, s'|].
  by destruct (Hnot r (ad_row _ _ _ _ _ _ _ _ Had) (ad_approved _ _ _ _ _ _ _ _ Had)).
Qed.

(** What a handler does to the database: at most a new authorization *)
Lemma handle_step deps ctx ses authorization plan b e clock fresh s :
  rtc step s (snd (handle deps ctx ses authorization plan b e clock fresh s)) /\
  others (snd (handle deps ctx ses authorization plan b e clock fresh s)) = others s.
Proof.
  destruct e as [v|m|c m|m|name e]; try (split; [apply rtc_refl|done]).
  cbn [handle]. unfold continue_after_validation.
  destruct (existsb _ _); [by split|]. destruct (py_in _ _); [by split|]. destruct (5 <=? _)%nat; [by split|].
  destruct (dict_or_empty _) as [resume|]; [|by split].
  match goal with |- context [WA.create ?a clock fresh s] =>
    pose proof (step_create s a clock fresh) as Hst; destruct (WA.create a clock fresh s) as [r s1] eqn:E end.
  assert (Ho : others s1 = others s).
  { unfold WA.create in E. pose proof (f_equal snd E) as Es. rewrite method_state in Es. cbn in Es. subst s1.
    match goal with |- context [after ?m s] => destruct (after_cases m s) as [->|[[i q] Hx]]; [done|] end.
    apply create_body_Ok in Hx as (now & base & _ & _ & _ & _ & Hs & _). by rewrite Hs. }
  cbn [snd] in Hst. destruct r as [continued|e]; [|split; [by apply rtc_once|done]].
  destruct (execution_authorization_interaction _ _); (split; [by apply rtc_once|done]).
Qed.
(** ** The guarantees of a commit *)

(** The commit functions of a definition enter the boundary before they write. *)
Definition guarded_definition def : Prop := forall f kvs, d_commit_function def = Some f -> guarded (f kvs).

(** What an entered boundary means for the whole commit *)
Lemma commit_entered deps ctx ses arguments prepare def at_ s :
  let r := commit deps ctx ses arguments prepare def at_ s in
  if entered _ r then exists row plan f t, admission ctx ses def arguments s row plan f /\
       entry deps ctx ses (id_of arguments) s t /\ rtc step t (final _ r) /\ others (final _ r) = others t
  else guarded_definition def -> writes _ r = [].
Proof.
  destruct (commit_cases deps ctx ses arguments prepare def at_ s)
    as [(e & s' & -> & _)|(row & plan & f & authorization & Had & _ & Hc)]; [done|]. cbv zeta in Hc |- *. rewrite Hc.
  pose proof (run_spec deps ctx ses arguments (id_of arguments) (boundary at_)
    (f match plan with JObj kvs => kvs | _ => [] end) 0 s (ad_readable _ _ _ _ _ _ _ _ Had)) as Hrun.
  pose proof (fun Hg => guarded_writes deps ctx ses arguments (id_of arguments) (boundary at_)
    (f match plan with JObj kvs => kvs | _ => [] end) Hg 0 s) as Hw.
  set (x := run _ _ 0 s) in *. destruct (outcome _ x) as [e|value].
  - pose proof (handle_step deps ctx ses authorization plan (entered _ x) e (continue_clock at_) (continue_id at_) (final _ x)) as Hh.
    destruct (handle _ _ _ _ _ _ _ _ _ _) as [failure s']. cbn [snd] in Hh. destruct Hh as [Hstep Ho].
    cbn [entered writes final]. destruct (entered _ x).
    + by exists row, plan, f, (final _ x).
    + intros Hg. apply Hw; [|done]. apply Hg, Had.
  - cbn [entered writes final]. destruct (entered _ x).
    + exists row, plan, f, (final _ x). split; [done|]. split; [done|]. split; [apply rtc_refl|done].
    + intros Hg. apply Hw; [|done]. apply Hg, Had.
Qed.

Lemma consumed_stays id now op (r : row) s t : authorizations s !! id = Some (consumed_row op now r) -> rtc step s t ->
  authorizations t !! id = Some (consumed_row op now r).
Proof. intros Hr Hst. destruct (steps_contract _ _ _ _ Hst Hr) as (r' & Hr' & _ & E). by rewrite Hr', E. Qed.

Lemma binding_matches_obj plan ses : _trusted_write_session_binding_matches plan ses = true ->
  exists kvs, plan = JObj kvs.
Proof. unfold _trusted_write_session_binding_matches, jget_or_null. destruct plan; cbn; try done. eauto. Qed.

(** A commit that wrote ran the function of its definition on the plan of its authorization, in one entry of
    the boundary, and answers with the end of that run. *)
Lemma commit_performs deps ctx ses arguments prepare def at_ s : guarded_definition def ->
  let c := commit deps ctx ses arguments prepare def at_ s in
  writes _ c <> [] ->
  exists r kvs f authorization answers res, admission ctx ses def arguments s r (JObj kvs) f /\
    _authorization_from_row true (id_of arguments, r) = Ok authorization /\
    entered_once answers /\ performs (f kvs) answers (writes _ c) res /\
    match res with
    | inr value => outcome _ c = inr value
    | inl e => exists t, outcome _ c = inl (fst (handle deps ctx ses authorization (JObj kvs) true e
                                                   (continue_clock at_) (continue_id at_) t))
    end.
Proof.
  intros Hg. destruct (commit_cases deps ctx ses arguments prepare def at_ s)
    as [(e & s' & Hc & _)|(r & plan & f & authorization & Had & Hv & Hc)]; cbv zeta in Hc |- *; rewrite Hc; [done|].
  destruct (binding_matches_obj _ _ (ad_session _ _ _ _ _ _ _ _ Had)) as [kvs ->].
  pose proof (guarded_writes deps ctx ses arguments (id_of arguments) (boundary at_) (f kvs)
    (Hg _ _ (ad_function _ _ _ _ _ _ _ _ Had)) 0 s) as Hcl.
  destruct (run_performs deps ctx ses arguments (id_of arguments) (boundary at_) (f kvs) 0 s
    (ad_readable _ _ _ _ _ _ _ _ Had)) as (answers & Hp & Ha).
  set (x := run _ _ 0 s) in *. intros Hw.
  assert (He : entered _ x = true).
  { destruct (entered _ x); [done|]. destruct Hw. destruct (outcome _ x); [|by apply Hcl].
    destruct (handle _ _ _ _ _ _ _ _ _ _). by apply Hcl. }
  rewrite He in Ha |- *. exists r, kvs, f, authorization, answers, (outcome _ x).
  do 3 (split; [done|]). revert Hp. destruct (outcome _ x) as [e|value]; intros Hp; [|done].
  destruct (handle _ _ _ _ _ _ _ _ _ _) as [failure t] eqn:E.
  rewrite He in E. rewrite E. split; [done|]. exists (final _ x). by rewrite E.
Qed.

(** C1. A commit writes only under an authorization that the user approved for this session, system and
    capability, and exactly what its commit function writes for the plan of that authorization,
    which is the plan as it was prepared and shown to the user, in one successful entry of the
    boundary; and whoever wrote has consumed it: the authorization names the committing
    operation from then on.  (For definitions whose commit functions enter the boundary before
    they write, as the adapters' do.) *)
Theorem writes_are_authorized deps ctx ses arguments prepare def at_ s (Hg : guarded_definition def)
  (Hw : writes _ (commit deps ctx ses arguments prepare def at_ s) <> []) :
  exists (r : row) kvs f answers res now, authorizations s !! id_of arguments = Some r /\ row_state r = Approved /\
    loads (plan_json r) = Ok (JObj kvs) /\ plan_hash r = _json_hash (plan_json r) /\
    (forall s0 (r0 : row), rtc step s0 s -> authorizations s0 !! id_of arguments = Some r0 ->
       row_contract r0 = row_contract r) /\
    d_commit_function def = Some f /\ entered_once answers /\
    performs (f kvs) answers (writes _ (commit deps ctx ses arguments prepare def at_ s)) res /\
    _trusted_write_session_binding_matches (JObj kvs) ses = true /\
    bindings_match (ControlledWrites.commit_args ctx ses) r = true /\
    authorizations (final _ (commit deps ctx ses arguments prepare def at_ s)) !! id_of arguments =
      Some (consumed_row (operation_id ctx) now r).
Proof.
  pose proof (commit_entered deps ctx ses arguments prepare def at_ s) as H. cbv zeta in H.
  destruct (entered _ _); [|by destruct (Hw (H Hg))].
  destruct H as (r & plan & f & t & _ & [(q & now & Hq & _ & Hb & Hh & Ht) _] & Hsteps & _).
  destruct (commit_performs deps ctx ses arguments prepare def at_ s Hg Hw)
    as (r' & kvs & g & authorization & answers & res & [Hr Hst Hu Hp Hs _ Hf] & _ & Ha & Hperf & _).
  rewrite Hr in Hq. injection Hq as <-. exists r', kvs, g, answers, res, now.
  do 4 (split; [done|]). split.
  { intros s0 r0 Hst0 Hr0. destruct (steps_contract _ _ _ _ Hst0 Hr0) as (r1 & Hr1 & Hc & _).
    rewrite Hr in Hr1. by injection Hr1 as <-. }
  do 5 (split; [done|]). by eapply consumed_stays.
Qed.

(** C2. An authorization is good for one commit: once a commit has entered the boundary, whatever
    happens to the authorizations afterwards, no commit with this authorization writes or
    enters the boundary, be it of another operation, session or capability. *)
Theorem one_commit_per_authorization deps ctx ses arguments prepare def at_ s t deps' ctx' ses' arguments' prepare' def' at'
  (Hfirst : entered _ (commit deps ctx ses arguments prepare def at_ s) = true)
  (Hlater : rtc step (final _ (commit deps ctx ses arguments prepare def at_ s)) t)
  (Hid : id_of arguments' = id_of arguments) :
  let r := commit deps' ctx' ses' arguments' prepare' def' at' t in
  entered _ r = false /\ writes _ r = [] /\ others (final _ r) = others t.
Proof.
  pose proof (commit_entered deps ctx ses arguments prepare def at_ s) as H. cbv zeta in H. rewrite Hfirst in H.
  destruct H as (r & plan & f & u & _ & [(q & now & _ & _ & _ & _ & Hu) _] & Hsteps & _).
  assert (Ht : authorizations t !! id_of arguments = Some (consumed_row (operation_id ctx) now q))
    by (eapply consumed_stays; [exact Hu|by etrans]).
  cbv zeta. destruct (commit_stops deps' ctx' ses' arguments' prepare' def' at' t) as (e & t' & -> & Ho); [|done].
  intros r' Hr'. rewrite Hid, Ht in Hr'. by injection Hr' as <-.
Qed.

(** The plan's row after its guard, and that it refuses to be canceled *)
Lemma committing_blocks_cancel pid (p : TaskPlans.plan_row) op now (t : TaskPlans.store) reason now' :
  TaskPlans.plans t !! pid = Some (TaskPlans.plan_committing op now p) -> truthy op = true ->
  exists message, TaskPlans.cancel pid (TaskPlans.user_subject (TaskPlans.the_plan p)) reason now' t =
    raise TaskPlanCommitInProgress message.
Proof.
  intros Hp Hop. eexists. unfold TaskPlans.cancel, TaskPlans.on_active_plan.
  rewrite (tx_bind_run _ _ _ _ _ (proj2 (TaskPlanFacts.tp_select_owned_Ok pid _ t _ t) (conj eq_refl (conj Hp eq_refl)))).
  cbn. by rewrite Hop.
Qed.

(** C3. Cancelling a task plan and committing its write exclude each other: once the commit is in, the
    plan was active and without a commit, it names the committing operation, and cancelling it is
    refused; and when the plan is closed or has a commit in flight, the boundary stays closed
    and nothing is written. *)
Theorem commit_and_cancel_exclude deps ctx ses arguments prepare def at_ s pid (p : TaskPlans.plan_row)
  (Hplan : TaskPlans.guarded_plan (id_of arguments) (s_user_subject ses) (fst (others s)) = Some (pid, p))
  (Hop : truthy (operation_id ctx) = true) :
  let r := commit deps ctx ses arguments prepare def at_ s in
  (entered _ r = true ->
     TaskPlans.plan_active (TaskPlans.row_state p) = true /\ opt_truthy (TaskPlans.commit_operation_id p) = false /\
     (exists now, TaskPlans.plans (fst (others (final _ r))) !! pid = Some (TaskPlans.plan_committing (operation_id ctx) now p)) /\
     forall reason now, exists message,
       TaskPlans.cancel pid (s_user_subject ses) reason now (fst (others (final _ r))) =
         raise TaskPlanCommitInProgress message) /\
  (TaskPlans.plan_active (TaskPlans.row_state p) = false \/ opt_truthy (TaskPlans.commit_operation_id p) = true ->
     entered _ r = false /\ (guarded_definition def -> writes _ r = [])).
Proof.
  cbv zeta. pose proof (commit_entered deps ctx ses arguments prepare def at_ s) as H. cbv zeta in H.
  destruct (entered _ _); [|split; [done|by intros _]].
  destruct H as (r & plan & f & t & _ & [_ [now Hg]] & _ & Ho). unfold guard_plans in Hg.
  apply TaskPlanFacts.guard_Ok in Hg as [[Hn _]|(pid' & p' & v & Hp' & Hc & _ & _ & (q & Hq & Ha & Hplans & _))];
    [congruence|].
  rewrite Hplan in Hp'. injection Hp' as <- <-.
  pose proof (TaskPlanFacts.guarded_plan_Some _ _ _ _ _ Hplan) as (Hp & _ & Hu).
  rewrite Hp in Hq. injection Hq as <-. rewrite Ho.
  assert (Hrow : TaskPlans.plans (fst (others t)) !! pid = Some (TaskPlans.plan_committing (operation_id ctx) now p))
    by (by rewrite Hplans, lookup_insert_eq).
  split; [|intros [?|?]; congruence]. intros _. split; [done|]. split; [done|]. split; [by exists now|].
  intros reason now'. rewrite <- Hu. by eapply committing_blocks_cancel.
Qed.

(** ** Answers *)

(** Commit functions as the adapters write them *)
Definition proper_definition def : Prop := forall f kvs, d_commit_function def = Some f -> proper (f kvs).


(** ** From the preparation to the commit *)

Lemma frozen_plan_Ok deps ctx ses arguments sub def args summary :
  frozen_plan deps ctx ses arguments sub def = inr (args, summary) ->
  exists p resume commit_spec, Capabilities.get (commit_capability def) (registry deps) = Ok commit_spec /\
    args = authorization_args deps ses commit_spec (operation_id ctx) resume (plan_of p ctx ses resume) summary.
Proof.
  unfold frozen_plan. destruct (prepare_function def) as [prepare|]; [|done].
  destruct (assert_write_allowed _ _ _) as [|[]]; [done|].
  match goal with |- context [match ?m with Ok _ => _ | Raise _ => _ end] => destruct m as [x|e] eqn:E end; [|done].
  intros [= ->].
  apply result_bind_Ok in E as (p & _ & E). apply result_bind_Ok in E as (resume & _ & E). cbv zeta in E.
  apply result_bind_Ok in E as (summary' & _ & E). apply result_bind_Ok in E as (commit_spec & Hsp & [= <- <-]).
  by exists p, resume, commit_spec.
Qed.

Lemma frozen_plan_fails deps ctx ses arguments sub def code message next :
  frozen_plan deps ctx ses arguments sub def <> inl (Requires code message next).
Proof.
  unfold frozen_plan, assert_write_allowed. destruct (prepare_function def); [|done].
  destruct (String.eqb _ "read"); [|destruct (write_policy _ _ _ _ _) as [[[? ?] ?]|]; [done|]];
  match goal with |- context [match ?m with Ok _ => _ | Raise _ => _ end] => by destruct m end.
Qed.

(** A preparation that asks for the user has created the authorization of its plan. *)
Lemma prepare_creates {F} deps ctx ses arguments sub def clock fresh c1 c2 s (f : FS.store F) code message next s1 f1 :
  prepare deps ctx ses arguments sub def clock fresh c1 c2 s f = (Requires code message next, s1, f1) ->
  exists args summary v, frozen_plan deps ctx ses arguments sub def = inr (args, summary) /\
    WA.create args clock fresh s = (Ok v, s1).
Proof.
  unfold prepare. destruct (frozen_plan deps ctx ses arguments sub def) as [e|[args summary]] eqn:E.
  { intros [= -> -> ->]. by apply frozen_plan_fails in E. }
  destruct (WA.create args clock fresh s) as [[v|e] s2] eqn:Hc; [|done].
  destruct (execution_authorization_interaction _ _); [|done].
  destruct sub as [submission|].
  - destruct (consume_input _ _ _ _ _ _) as [[[]|e] f2]; [|done]. intros [= _ _ _ <- _]. by exists args, summary, v.
  - intros [= _ _ _ <- _]. by exists args, summary, v.
Qed.

(** What the members added to the plan become in storage *)
Lemma plan_of_member p ctx ses resume : wf_json (JObj (plan_of p ctx ses resume)) ->
  jget (canon (JObj (plan_of p ctx ses resume))) "user_subject" = Some (JStr (s_user_subject ses)) /\
  jget (canon (JObj (plan_of p ctx ses resume))) "session_binding" = Some (canon (JObj (session_binding ses))).
Proof.
  intros [Hnd _]%wf_JObj. rewrite canon_JObj. cbn [jget]. rewrite !assoc_canon by done.
  unfold plan_of, set_all. cbn [fold_left fst snd]. rewrite !assoc_dict_set. done.
Qed.
Lemma session_matches p ctx ses resume ses' : wf_json (JObj (plan_of p ctx ses resume)) ->
  _trusted_write_session_binding_matches (canon (JObj (plan_of p ctx ses resume))) ses' = true ->
  s_user_subject ses' = s_user_subject ses /\ s_session_id ses' = s_session_id ses /\
  py_eqb (canon (expected_principal_ref ses)) (expected_principal_ref ses') = true /\
  py_eqb (canon (downstream_principal_ref ses)) (downstream_principal_ref ses') = true /\
  py_eqb (canon (last_verified_at ses)) (last_verified_at ses') = true.
Proof.
  intros [Hu Hb]%plan_of_member. unfold _trusted_write_session_binding_matches, jget_or_null.
  rewrite Hu, Hb, canon_JObj. intros [Huser%String.eqb_eq H]%andb_true_iff. rewrite forallb_forall in H.
  assert (Hk : forall k v, In (k, v) (session_binding ses') ->
    py_eqb (match canon <$> assoc k (session_binding ses) with Some w => w | None => JNull end) v = true).
  { intros k v Hin. rewrite <- assoc_canon; [exact (H _ Hin)|]. cbn. repeat constructor; set_solver. }
  clear H Hb Hu. cbn [session_binding In] in Hk. split; [done|]. split_and!.
  - symmetry. apply String.eqb_eq. apply (Hk "session_id" (JStr (s_session_id ses'))). by left.
  - apply (Hk "expected_principal_ref"). by right; left.
  - apply (Hk "downstream_principal_ref"). by do 2 right; left.
  - apply (Hk "last_verified_at"). by do 3 right; left.
Qed.

(** C4. The plan that a user authorizes is committed in the session it was prepared in: a commit that
    enters the boundary with a prepared authorization has the user, the system, the session,
    the principals and the verification of the preparation, and is the commit
    capability of the write that was prepared. *)
Theorem commit_in_prepared_session {F} deps ctx ses arguments sub def clock fresh c1 c2 s (f : FieldSubmissions.store F)
    code message next s1 f1 t deps' ctx' ses' arguments' prepare' def' at'
  (Hwf : forall args summary, frozen_plan deps ctx ses arguments sub def = inr (args, summary) -> wf_json (a_plan args))
  (Hprep : ControlledWrites.prepare deps ctx ses arguments sub def clock fresh c1 c2 s f =
           (Requires code message next, s1, f1))
  (Hst : rtc step s1 t) (Hid : id_of arguments' = fresh)
  (Hent : entered _ (commit deps' ctx' ses' arguments' prepare' def' at' t) = true) :
  s_user_subject ses' = s_user_subject ses /\ s_system_id ses' = s_system_id ses /\
  s_session_id ses' = s_session_id ses /\
  py_eqb (canon (expected_principal_ref ses)) (expected_principal_ref ses') = true /\
  py_eqb (canon (downstream_principal_ref ses)) (downstream_principal_ref ses') = true /\
  py_eqb (canon (last_verified_at ses)) (last_verified_at ses') = true /\
  exists commit_spec, Capabilities.get (commit_capability def) (registry deps) = Ok commit_spec /\
    Capabilities.name (spec ctx') = Capabilities.name commit_spec /\
    Capabilities.version (spec ctx') = Capabilities.version commit_spec.
Proof.
  apply prepare_creates in Hprep as (args & summary & v & Hfrozen & Hc). pose proof (Hwf _ _ Hfrozen) as Hplan.
  apply frozen_plan_Ok in Hfrozen as (p & resume & commit_spec & Hsp & Ha).
  apply method_Ok in Hc as ([i0 r0] & Hb0 & _).
  apply create_body_Ok in Hb0 as (now & base & _ & -> & _ & _ & -> & _).
  destruct (steps_contract _ _ fresh _ Hst (lookup_insert_eq _ _ _)) as (r1 & Hr1 & Hk & _).
  pose proof (commit_entered deps' ctx' ses' arguments' prepare' def' at' t) as H. cbv zeta in H.
  rewrite Hent, Hid in H. destruct H as (r & plan & g & u & [Hr _ _ Hl Hm _ _] & [(q & m & Hq & _ & Hbind & _) _] & _).
  rewrite Hid in Hr. assert (q = r1) as -> by congruence. assert (r = r1) as -> by congruence.
  unfold bindings_match in Hbind. rewrite Hk in Hl, Hbind.
  unfold new_row, _canonical_json in Hl. cbn [row_contract plan_json] in Hl. rewrite (loads_dumps _ Hplan) in Hl.
  injection Hl as <-. rewrite Ha in Hplan, Hm, Hbind. cbn [a_plan authorization_args] in Hplan, Hm.
  apply session_matches in Hm as (Hu & Hs & He & Hd & Hv); [|done].
  cbn in Hbind. bool_simpl. split_and!; try done. exists commit_spec. split_and!; done.
Qed.

End Facts.

(** ** Concrete inputs

    The guarantees of a commit, applied to a leave request: prepared, authorized on its card and
    committed as the write step of a task plan. *)

Module ControlledWriteDemo.
#[local] Existing Instance ascii_tables.
#[local] Existing Instance plain_urls.

Definition leave_spec (name : string) : Capabilities.CapabilitySpec :=
  Capabilities.Spec name "0.1.0" "Leave" (JObj []) (JObj []) "controlled_write" "seeyon-central" "leave-v1".

Definition leave_registry : Capabilities.CapabilityRegistry :=
  {[ "oa.leave.commit" := leave_spec "oa.leave.commit" ]}.

Definition deps : dependencies (K := unit) := {|
  registry := leave_registry;
  trusted_card_base_url := "https://agent.example/cards";
  business_input_interaction := fun v => Ok (JObj [("interactionId", JStr "i0")]);
  execution_authorization_interaction := fun v => Ok (JObj [("interactionId", JStr "i1")]);
  pending_batch_definition := fun _ _ _ => raise KeyError "batch";
  task_id_for_operation := fun _ _ => raise KeyError "task";
  get_batch_for_task := fun _ _ => raise KeyError "batch";
  require_capability := fun _ _ _ => Ok tt;
  write_policy := fun _ _ _ _ => None;
  guard_skill_authorization := fun _ _ => mret tt;
  validate_task_plan_execution := fun _ => Ok tt;
  isoformat := str_of_Z;
|}.

Definition context (name operation : string) : CapabilityContext :=
  MkContext "u1" "rq" operation (leave_spec name) None None.

Definition leave_session : session := Session "u1" "oa" "s1" (JStr "ann") (JStr "ann") (JStr "2024-05-01").

(** The write comes after the entry, and the second attempt of an entry finds it closed. *)
Definition leave_commit (plan : list (string * json)) : commit_function :=
  Enters (fun r => match r with
                   | Ok _ => Writes (dict_get plan "days" JNull) (Returns (JObj [("ok", JBool true)]))
                   | Raise e => Raises (Raised (class_name (exn_class e)) e)
                   end).

(** The same write, whose answer gets lost *)
Definition leave_lost (plan : list (string * json)) : commit_function :=
  Enters (fun r => match r with
                   | Ok _ => Writes (dict_get plan "days" JNull)
                               (Raises (Raised "TimeoutError" (Exn RuntimeError "timed out")))
                   | Raise e => Raises (Raised (class_name (exn_class e)) e)
                   end).

Definition leave_definition (f : list (string * json) -> commit_function) : write_definition := {|
  prepare_function := Some (fun arguments => Ok (Prepared [("days", dict_get arguments "days" JNull)]
    [("title", JStr "Leave"); ("fields", JArr [])]));
  d_commit_function := Some f;
  commit_capability := "oa.leave.commit";
  context_fields := ["days"];
  field_schema := JObj [];
  field_message := "Fill in the leave.";
  authorization_message := "Authorize the leave.";
|}.

Lemma leave_proper : proper_definition (leave_definition leave_commit) /\ proper_definition (leave_definition leave_lost).
Proof.
  split; intros f kvs [= <-]; (apply proper_enters; [intros e; apply proper_raises|]); repeat constructor.
Qed.

Lemma leave_guarded : guarded_definition (leave_definition leave_commit).
Proof. intros f kvs H. apply proper_guarded. by apply (proj1 leave_proper). Qed.

(** The plan whose step waits for the authorization *)
Definition write_step : TaskPlans.compiled_step :=
  TaskPlans.CompiledStep "write" 1%Z "capability" JNull (Some "oa.leave.prepare") None (JStr "0.1.0")
    (JArr []) (JObj []) (JObj []) "controlled_write" "oa".

Definition plan_args : TaskPlans.prepared := TaskPlans.Prepared "u1" "task" "agent_host" "Leave" "h" None.
Definition plan_request : TaskPlans.create_args :=
  TaskPlans.CreateArgs "u1" "task"
    (TaskPlans.CompiledPlan (JStr "Leave") (JStr "h") [write_step] (JObj []) JNull JNull JNull) "agent_host" None None.

Definition card_of_auth : Interactions.row :=
  Interactions.Row "execution_authorization" "u1" "oa" "s1" None "auth" "t" "m" "{}" "{}" "" "".

Definition plans0 : TaskPlans.store := TaskPlans.MkStore ∅ ∅ {[ "i1" := card_of_auth ]}.
Definition plans1 := after (TaskPlans.create_body plan_request plan_args 0%Z "p" (fun _ => "st")) plans0.
Definition plans2 := after (TaskPlans.begin_next_step "p" "u1" 1%Z) plans1.
Definition plans3 := after (TaskPlans.mark_step_waiting "p" "u1" "write" "op1" "i1" None 2%Z) plans2.

Definition s0 : database := WA.MkStore ∅ no_cards (plans3, tt).
Definition inputs : FS.store unit := FS.MkStore ∅ no_cards tt.

#[local] Abbreviation prepared_run := (prepare deps (context "oa.leave.prepare" "op1") leave_session
  [("days", JInt 2)] None (leave_definition leave_commit) (Aware 0) "auth" (Aware 0) (Aware 0) s0 inputs).
Definition s1 : database := snd (fst prepared_run).
Definition s2 := after (WA.issue_csrf "auth" None (Aware 1) (Aware 1) "token" "card") s1.
Definition s3 := snd (WA.decide "auth" "approve" "token" "token" None (Aware 2) (Aware 2) s2).

Definition at_time : timing := Timing (Aware 3) (fun _ => (Aware 4, Aware 4, 4%Z)) (Aware 5) "auth2".
Definition request : list (string * json) := [("authorization_id", JStr "auth")].
#[local] Abbreviation commit_leave f := (commit deps (context "oa.leave.commit" "op2") leave_session request
  "oa.leave.prepare" (leave_definition f) at_time s3).
#[local] Abbreviation done := (commit_leave leave_commit).

Lemma authorized_s3 : rtc WriteAuthorizations.step s1 s3.
Proof.
  eapply rtc_l; [apply WriteAuthorizations.step_issue_csrf|].
  eapply rtc_l; [apply WriteAuthorizations.step_decide|apply rtc_refl].
Qed.

Example written : writes _ done = [JInt 2] /\ entered _ done = true.
Proof. vm_compute. split; reflexivity. Qed.
#[local] Abbreviation lost := (commit_leave leave_lost).

Lemma writes_are_authorized_witness : writes _ done = [JInt 2] /\
  exists (r : WA.row) kvs answers res now, WA.authorizations s3 !! "auth" = Some r /\ WA.row_state r = WA.Approved /\
    loads (WA.plan_json r) = Ok (JObj kvs) /\ entered_once answers /\ performs (leave_commit kvs) answers [JInt 2] res /\
    WA.authorizations (final _ done) !! "auth" = Some (WriteAuthorizations.consumed_row "op2" now r).
Proof.
  assert (E : writes _ done = [JInt 2]) by (vm_compute; reflexivity). split; [exact E|].
  destruct (writes_are_authorized deps (context "oa.leave.commit" "op2") leave_session request "oa.leave.prepare"
    (leave_definition leave_commit) at_time s3 leave_guarded)
    as (r & kvs & f & answers & res & now & Hr & Ha & Hp & _ & _ & Hf & Hen & Hperf & _ & _ & Hc).
  - rewrite E. discriminate.
  - injection Hf as <-. rewrite E in Hperf. exists r, kvs, answers, res, now.
    split; [exact Hr|]. split; [exact Ha|]. split; [exact Hp|]. split; [exact Hen|]. split; [exact Hperf|exact Hc].
Defined.

(** A second attempt writes nothing, even for another operation. *)
Lemma one_commit_per_authorization_witness : entered _ done = true /\
  writes _ (commit deps (context "oa.leave.commit" "op3") leave_session request "oa.leave.prepare"
              (leave_definition leave_commit) at_time (final _ done)) = [].
Proof.
  assert (E : entered _ done = true) by (vm_compute; reflexivity). split; [exact E|].
  refine (proj1 (proj2 (one_commit_per_authorization deps (context "oa.leave.commit" "op2") leave_session request
    "oa.leave.prepare" (leave_definition leave_commit) at_time s3 (final _ done) deps (context "oa.leave.commit" "op3")
    leave_session request "oa.leave.prepare" (leave_definition leave_commit) at_time E _ eq_refl))).
  apply rtc_refl.
Defined.

(** The plan cannot be canceled any more. *)
Lemma commit_and_cancel_exclude_witness : exists message,
  TaskPlans.cancel "p" "u1" "stop" 5%Z (fst (WA.others (final _ done))) = raise TaskPlanCommitInProgress message.
Proof.
  destruct (TaskPlans.guarded_plan "auth" "u1" (fst (WA.others s3))) as [[pid p]|] eqn:Hp;
    [|vm_compute in Hp; discriminate Hp].
  assert (Hid : pid = "p") by (vm_compute in Hp; injection Hp as <- _; reflexivity). subst pid.
  destruct (commit_and_cancel_exclude deps (context "oa.leave.commit" "op2") leave_session request "oa.leave.prepare"
    (leave_definition leave_commit) at_time s3 "p" p Hp eq_refl) as [Hdone _].
  destruct Hdone as (_ & _ & _ & H); [vm_compute; reflexivity|].
  exact (H "stop" 5%Z).
Defined.


Lemma commit_in_prepared_session_witness : exists code message next,
  fst (fst prepared_run) = Requires code message next /\
  entered _ done = true /\ s_session_id leave_session = "s1".
Proof.
  destruct prepared_run as [[e s'] f'] eqn:E.
  destruct e as [code message next|code message|code message|name e]; try (vm_compute in E; discriminate E).
  exists code, message, next. split; [reflexivity|].
  assert (Hent : entered _ done = true) by (vm_compute; reflexivity). split; [exact Hent|].
  assert (Hs : s' = s1) by (unfold s1; rewrite E; reflexivity). subst s'.
  refine (proj1 (proj2 (proj2 (commit_in_prepared_session deps (context "oa.leave.prepare" "op1") leave_session
    [("days", JInt 2)] None (leave_definition leave_commit) (Aware 0) "auth" (Aware 0) (Aware 0) s0 inputs
    code message next s1 f' s3 deps (context "oa.leave.commit" "op2") leave_session request "oa.leave.prepare"
    (leave_definition leave_commit) at_time _ E authorized_s3 eq_refl Hent)))).
  intros args summary H. apply wf_jsonb_ok. vm_compute in H. injection H as <- _. vm_compute. reflexivity.
Defined.
End ControlledWriteDemo.
