(* ===== verification/Procedures.v ===== *)
(** * Procedures over several stores

    A method that calls several stores keeps what the calls before an exception have done:
    [proc W A] returns the state whether it returns or raises, where [tx] rolls back. *)

From S2P Require Import Prelude PyStr Store.

Definition proc (W A : Type) : Type := W -> result A * W.

#[export] Instance proc_ret W : MRet (proc W) := fun A a w => (Ok a, w).
#[export] Instance proc_bind W : MBind (proc W) := fun A B k m w =>
  match m w with (Ok a, w') => k a w' | (Raise e, w') => (Raise e, w') end.
#[export] Instance proc_throw W : MThrow exn (proc W) := fun A e w => (Raise e, w).

Definition reading {W A} (f : W -> A) : proc W A := fun w => (Ok (f w), w).
Definition of_result {W A} (r : result A) : proc W A := fun w => (r, w).

(** [try: m  except Exception as exc: h(exc)] *)
Definition catching {W A} (m : proc W A) (h : exn -> proc W A) : proc W A := fun w =>
  match m w with (Ok a, w') => (Ok a, w') | (Raise e, w') => h e w' end.

(** [try: m  except Exception: pass] *)
Definition ignoring {W} (m : proc W unit) : proc W unit := catching m (fun _ => mret tt).

(** [str(exc) or exc.__class__.__name__] *)
Definition exn_text `{UnicodeTables} (e : exn) : string :=
  if truthy (exn_str e) then exn_str e else class_name (exn_class e).

(** ** Reasoning *)

Section Laws.
Context {W A B : Type}.
Implicit Types (w : W) (m : proc W A) (k : A -> proc W B) (h : exn -> proc W A).

Lemma proc_bind_eq m k w :
  (x ← m; k x) w = match m w with (Ok a, w') => k a w' | (Raise e, w') => (Raise e, w') end.
Proof. done. Qed.

Lemma proc_bind_Ok m k w b w2 :
  (x ← m; k x) w = (Ok b, w2) <-> exists a w1, m w = (Ok a, w1) /\ k a w1 = (Ok b, w2).
Proof. rewrite proc_bind_eq. destruct (m w) as [[a|e] w1]; naive_solver. Qed.

Lemma proc_bind_run m k w a w1 : m w = (Ok a, w1) -> (x ← m; k x) w = k a w1.
Proof. intros H. by rewrite proc_bind_eq, H. Qed.

Lemma proc_of_result_bind (r : result A) k w b w2 :
  (x ← of_result r; k x) w = (Ok b, w2) <-> exists a, r = Ok a /\ k a w = (Ok b, w2).
Proof. rewrite proc_bind_eq. unfold of_result. destruct r; naive_solver. Qed.

Lemma catching_cases m h w x : catching m h w = x ->
  (exists a w', m w = (Ok a, w') /\ x = (Ok a, w')) \/ (exists e w', m w = (Raise e, w') /\ x = h e w').
Proof. unfold catching. destruct (m w) as [[a|e] w']; intros <-; [left|right]; by do 2 eexists. Qed.

(** What every part of a procedure keeps, the procedure keeps. *)
Definition keeps (P : W -> W -> Prop) m : Prop := forall w, P w (snd (m w)).
End Laws.

Section Keeps.
Context {W : Type} (P : W -> W -> Prop) `{!PreOrder P}.

Lemma keeps_ret {A} (a : A) : keeps P (mret a : proc W A).
Proof. intros w. reflexivity. Qed.
Lemma keeps_throw {A} (e : exn) : keeps P (mthrow e : proc W A).
Proof. intros w. reflexivity. Qed.
Lemma keeps_reading {A} (f : W -> A) : keeps P (reading f).
Proof. intros w. reflexivity. Qed.
Lemma keeps_of_result {A} (r : result A) : keeps P (of_result r).
Proof. intros w. reflexivity. Qed.

Lemma keeps_bind {A B} (m : proc W A) (k : A -> proc W B) :
  keeps P m -> (forall a, keeps P (k a)) -> keeps P (x ← m; k x).
Proof.
  intros Hm Hk w. rewrite proc_bind_eq. specialize (Hm w). destruct (m w) as [[a|e] w1]; [|done].
  cbn in Hm. etrans; [exact Hm|apply Hk].
Qed.

Lemma keeps_catching {A} (m : proc W A) h : keeps P m -> (forall e, keeps P (h e)) -> keeps P (catching m h).
Proof.
  intros Hm Hh w. unfold catching. specialize (Hm w). destruct (m w) as [[a|e] w1]; [done|].
  cbn in Hm. etrans; [exact Hm|apply Hh].
Qed.

Lemma keeps_ignoring (m : proc W unit) : keeps P m -> keeps P (ignoring m).
Proof. intros Hm. apply keeps_catching; [done|]. intros e. apply keeps_ret. Qed.
End Keeps.

Create HintDb procs.
#[export] Hint Resolve keeps_ret keeps_throw keeps_reading keeps_of_result keeps_bind keeps_catching
  keeps_ignoring : procs.
