(* ===== verification/PlanRuntime.v ===== *)
(** * The driver of task plans (agentbridge/core/task_plan_runtime.py)

    [advance] begins the next step of a plan, resolves its arguments from the recorded results
    of the steps before it, invokes the capability or the transform, and records what it
    answered, until the plan waits, ends or fails.  The lock of a plan makes its calls
    sequential, so they are functions of one world. *)

From S2P Require Import Prelude PyStr Json Sha256 Store Procedures TaskPlans.
From S2P Require Capabilities Transforms Operations PlanValidation.

#[local] Open Scope list_scope.

(** ** The world

    The tables of the plans and of the operations, and the rest: the task hub, the
    interactions and their cards, the business systems.  The readings of the clock and the
    identifiers drawn are counted. *)

Record world (R : Type) : Type := World {
  w_plans : TaskPlans.store;
  w_operations : Operations.store;
  w_rest : R;
  w_draws : nat;
}.
Arguments World {R}. Arguments w_plans {R}. Arguments w_operations {R}. Arguments w_rest {R}.
Arguments w_draws {R}.

Abbreviation dict := (list (string * json)).

(** The arguments of [service.invoke] *)
Record invocation : Type := Invocation {
  i_user_subject : string;
  i_capability_name : string;
  i_arguments : dict;
  i_idempotency_key : string;
  i_task_id : string;
  i_host_run_id : string;
}.

(** An event of the task hub *)
Record event : Type := Event {
  ev_task_id : string;
  ev_user_subject : string;
  ev_type : string;
  ev_payload : dict;
  ev_causation_ref : option string;
}.

(** What the calls of the task hub that close a task are given *)
Record closing : Type := Closing {
  cl_task_id : string;
  cl_user_subject : string;
  cl_reason : string;
  cl_message : option string;
  cl_causation_ref : option string;
}.

(** What the methods return: the dicts of [plan_result_response] and those built here *)
Inductive reply : Type :=
  | PlanResult (plan : plan_view)
  | AwaitingVerification (operation : string) (plan : plan_view)
  | StepPending (operation : string) (plan : plan_view)
  | StepWaiting (operation : option string) (interaction : json) (next_action : option json) (plan : plan_view)
  | PlanFailed (state : string) (operation : option string) (code message : string) (plan : plan_view)
  | CommitInProgress (message : string) (plan : plan_view).

(** The [status] of [plan_result_response] *)
Definition plan_status (st : plan_state) : string :=
  match st with
  | PSucceeded => "succeeded" | PFailed => "failed" | PUnknown => "outcome_unknown"
  | PCanceled => "canceled" | PWaiting => "requires_user_action" | PValidated | PRunning => "running"
  end.

Definition reply_status (r : reply) : string :=
  match r with
  | PlanResult plan => plan_status (row_state (pv_row plan))
  | AwaitingVerification _ _ | StepPending _ _ | CommitInProgress _ _ => "running"
  | StepWaiting _ _ _ _ => "requires_user_action"
  | PlanFailed state _ _ _ _ => state
  end.

(** ** Responses

    [isoformat] gives the text of an instant. *)

Section Responses.
Context (isoformat : instant -> string).

Definition text_or_null (o : option string) : json := match o with Some t => JStr t | None => JNull end.

Definition step_response (st : step_view) : json :=
  let r := sv_row st in
  JObj [("stepKey", JStr (step_key r)); ("ordinal", JInt (ordinal r)); ("kind", JStr (step_kind r));
        ("title", JStr (title r)); ("capabilityName", text_or_null (capability_name r));
        ("transformName", text_or_null (transform_name r)); ("systemId", JStr (system_id r));
        ("effect", JStr (effect r)); ("state", JStr (step_state_text (st_state r)));
        ("operationId", text_or_null (operation_id r)); ("interactionId", text_or_null (interaction_id r));
        ("errorCode", text_or_null (error_code r))].

Definition task_plan_response (plan : plan_view) : json :=
  let r := pv_row plan in
  JObj [("schemaVersion", JStr "agentbridge.task-plan.v2");
        ("proposalSchemaVersion", JStr (if opt_truthy (schema_version r) then or_empty (schema_version r)
                                        else "agentbridge.task-plan.proposal.v1"));
        ("planId", JStr (pv_plan_id plan)); ("taskId", JStr (parent_task_id r)); ("goal", JStr (goal r));
        ("revision", JInt (revision r)); ("state", JStr (plan_state_text (row_state r)));
        ("currentStepKey", text_or_null (current_step_key r)); ("riskSummary", pv_risk_summary plan);
        ("terminalReason", text_or_null (terminal_reason r)); ("effectOutcome", text_or_null (effect_outcome r));
        ("temporalContext", pv_temporal_context plan); ("resultProjection", pv_result_projection plan);
        ("createdAt", JStr (isoformat (created_at r))); ("updatedAt", JStr (isoformat (updated_at r)));
        ("finishedAt", text_or_null (isoformat <$> finished_at r));
        ("stepCounts", JObj (map (fun kn => (fst kn, JInt (snd kn))) (pv_step_counts plan)));
        ("steps", JArr (map step_response (pv_steps plan)))].

Definition report_result : json :=
  JObj [("type", JStr "report_plan_result"); ("source", JStr "plan.resultProjection.result");
        ("doNotQueryOperations", JBool true)].

Definition report_failure : json :=
  JObj [("type", JStr "report_plan_failure"); ("doNotRetryAtomicTools", JBool true);
        ("businessWriteOccurred", JBool false); ("source", JStr "plan.resultProjection.result.source_summaries")].

Definition wait_for_verification : json := JObj [("type", JStr "wait_for_verification"); ("doNotRetry", JBool true)].

Definition plan_result_response (plan : plan_view) : dict :=
  let r := pv_row plan in
  let response := [("protocolVersion", JStr "0.1"); ("status", JStr (plan_status (row_state r)));
                   ("plan", task_plan_response plan)] in
  let response :=
    if bool_decide (row_state r = PSucceeded) && json_truthy (pv_result_projection plan)
    then dict_set "nextAction" report_result response else response in
  if bool_decide (terminal_reason r = Some "PLAN_SOURCE_INCOMPLETE")
  then dict_set "nextAction" report_failure response else response.

Definition reply_json (r : reply) : dict :=
  match r with
  | PlanResult plan => plan_result_response plan
  | AwaitingVerification operation plan =>
      [("protocolVersion", JStr "0.1"); ("status", JStr "running"); ("operationId", JStr operation);
       ("plan", task_plan_response plan); ("nextAction", wait_for_verification)]
  | StepPending operation plan =>
      [("protocolVersion", JStr "0.1"); ("status", JStr "running"); ("operationId", JStr operation);
       ("interaction", JNull); ("plan", task_plan_response plan)]
  | StepWaiting operation interaction next_action plan =>
      [("protocolVersion", JStr "0.1"); ("status", JStr "requires_user_action");
       ("operationId", text_or_null operation); ("interaction", interaction)]
      ++ match next_action with Some next => [("nextAction", next)] | None => [] end
      ++ [("plan", task_plan_response plan)]
  | PlanFailed state operation code message plan =>
      [("protocolVersion", JStr "0.1"); ("status", JStr state); ("operationId", text_or_null operation);
       ("error", JObj [("code", JStr code); ("message", JStr message)]); ("plan", task_plan_response plan)]
      ++ (if String.eqb code "PLAN_SOURCE_INCOMPLETE" then [("nextAction", report_failure)] else [])
  | CommitInProgress message plan =>
      dict_set "nextAction" wait_for_verification
        (dict_set "error" (JObj [("code", JStr "PLAN_COMMIT_IN_PROGRESS"); ("message", JStr message)])
           (dict_set "status" (JStr "running") (plan_result_response plan)))
  end.
End Responses.

Section Runtime.
Context `{UnicodeTables, UnicodeDigits} {R : Type}.

(** A call that reads everything and changes only the rest *)
Definition aside (A : Type) : Type := world R -> result A * R.

(** The service and its collaborators.  [_load_interaction] gives the record of an
    interaction, which is handed on as it is, and its envelope. *)
Record service : Type := Service {
  registry : Capabilities.CapabilityRegistry;
  transforms : Transforms.TransformRegistry;
  _started_at : instant;
  clock : nat -> instant;
  fresh : nat -> string;
  invoke : invocation -> proc (world R) dict;
  record_plan_event : event -> aside unit;
  link_plan_operation : string -> string -> Operations.view -> string -> string -> aside unit;
  link_interaction : string -> string -> json * json -> aside unit;
  cancel_task : closing -> aside unit;
  complete_task : closing -> aside unit;
  fail_task : closing -> aside unit;
  mark_task_outcome_unknown : closing -> aside unit;
  _load_interaction : string -> string -> aside (json * json);
  validate_task_plan_authority : option (plan_view -> aside unit);
  retire_plan_interactions : option (plan_view -> option json -> aside unit);
}.

Implicit Types (sv : service) (plan : plan_view) (step : step_view) (r : reply).

(** ** Calls *)

Definition to_rest {A} (m : aside A) : proc (world R) A := fun w =>
  let '(a, rest) := m w in (a, World (w_plans w) (w_operations w) rest (w_draws w)).

Definition to_plans {A} (m : tx TaskPlans.store A) : proc (world R) A := fun w =>
  let '(a, t) := transaction m (w_plans w) in (a, World t (w_operations w) (w_rest w) (w_draws w)).

Definition to_operations {A} (m : Operations.store -> result A * Operations.store) : proc (world R) A := fun w =>
  let '(a, t) := m (w_operations w) in (a, World (w_plans w) t (w_rest w) (w_draws w)).

(** [_utc_now()] and [uuid4()] *)
Definition draw {A} (source : nat -> A) : proc (world R) A := fun w =>
  (Ok (source (w_draws w)), World (w_plans w) (w_operations w) (w_rest w) (S (w_draws w))).

Definition get_plan (id user : string) : proc (world R) plan_view := to_plans (TaskPlans.get id user).

Definition get_operation (id : string) : proc (world R) Operations.view := fun w =>
  (Operations.get id (w_operations w), w).

Definition plan_id_of plan : string := pv_plan_id plan.
Definition user_of plan : string := user_subject (pv_row plan).
Definition task_of plan : string := parent_task_id (pv_row plan).
Definition key_of step : string := step_key (sv_row step).
Definition active plan : bool := plan_active (row_state (pv_row plan)).

Definition _event sv plan (type : string) (payload : dict) (causation : option string) : proc (world R) unit :=
  to_rest (record_plan_event sv (Event (task_of plan) (user_of plan) type payload causation)).

Definition _step_event_payload plan step : dict :=
  [("planId", JStr (pv_plan_id plan)); ("stepKey", JStr (key_of step)); ("ordinal", JInt (ordinal (sv_row step)));
   ("systemId", JStr (system_id (sv_row step))); ("kind", JStr (step_kind (sv_row step)))].

Definition _retire_interactions sv plan (extra : option json) : proc (world R) unit :=
  match retire_plan_interactions sv with
  | Some retire => to_rest (retire plan extra)
  | None => mret tt
  end.

(** ** Values of responses *)

Definition type_name (v : json) : string :=
  match v with
  | JNull => "NoneType" | JBool _ => "bool" | JInt _ => "int" | JFloat _ _ => "float" | JStr _ => "str"
  | JArr _ => "list" | JObj _ => "dict"
  end.

(** [v.get(key)] *)
Definition get_attr (v : json) (key : string) : result json :=
  match v with
  | JObj kvs => Ok (dict_get kvs key JNull)
  | _ => raise AttributeError ("'" +:+ type_name v +:+ "' object has no attribute 'get'")
  end.

(** [v[key]] of a dict *)
Definition subscript (v : json) (key : string) : result json :=
  match v with
  | JObj kvs => match assoc key kvs with Some x => Ok x | None => raise KeyError ("'" +:+ key +:+ "'") end
  | _ => raise TypeError (type_name v +:+ " indices must be integers or slices, not str")
  end.

(** [a or b] *)
Definition or_value (a b : json) : json := if json_truthy a then a else b.

(** ** Failure *)

Definition failure_outcome (code state : string) : option string :=
  if String.eqb code "PLAN_SOURCE_INCOMPLETE" then Some "source_incomplete"
  else if String.eqb state "outcome_unknown" then Some "outcome_unknown" else None.

Definition _fail_plan sv plan step (operation : option string) (state code message : string)
  : proc (world R) reply :=
  current ← get_plan (plan_id_of plan) (user_of plan);
  if negb (active current) then mret (PlanResult current)
  else
    now ← draw (clock sv);
    updated ← to_plans (mark_step_failed (plan_id_of plan) (user_of plan) (key_of step) operation state code message
                          (failure_outcome code state) now);
    let unknown := String.eqb state "outcome_unknown" in
    _event sv updated (if unknown then "plan.outcome_unknown" else "plan.step.failed")
      (_step_event_payload updated step ++ [("errorCode", JStr code)])
      (Some (if opt_truthy operation then or_empty operation else plan_id_of plan));;
    (if unknown
     then ignoring (to_rest (mark_task_outcome_unknown sv
            (Closing (task_of plan) (user_of plan) code None operation)))
     else ignoring (to_rest (fail_task sv
            (Closing (task_of plan) (user_of plan) code (Some (py_take 500 message)) operation))));;
    _retire_interactions sv current None;;
    mret (PlanFailed state operation code (py_take 500 message) updated).

(** ** Completion *)

Definition effect_of (steps : list step_view) (reason : string) : string :=
  if String.eqb reason "no_eligible_source_items" then "no_effect"
  else if existsb (fun st => negb (String.eqb (effect (sv_row st)) "read")
                             && bool_decide (st_state (sv_row st) = SSucceeded)) steps
  then "write_verified" else "preview_ready".

Definition _complete_plan sv (id user reason : string) (skip_queued : bool) : proc (world R) reply :=
  current ← get_plan id user;
  now ← draw (clock sv);
  plan ← to_plans (complete id user reason skip_queued (Some (effect_of (pv_steps current) reason)) now);
  _event sv plan "plan.completed"
    [("planId", JStr id); ("status", JStr "succeeded"); ("reason", JStr reason)] (Some id);;
  ignoring (to_rest (complete_task sv (Closing (task_of plan) user "task_plan_completed" None (Some id))));;
  mret (PlanResult plan).

(** ** Before a step *)

Definition target_version_of sv step : result string :=
  if String.eqb (step_kind (sv_row step)) "capability"
  then s ← Capabilities.get (or_empty (capability_name (sv_row step))) (registry sv); Ok (Capabilities.version s)
  else s ← Transforms.get (or_empty (transform_name (sv_row step))) (transforms sv); Ok (Transforms.version s).

Definition check_version sv step : result unit :=
  match target_version_of sv step with
  | Raise e =>
      match exn_class e with
      | KeyError => PlanValidation.reject "PLAN_VERSION_MISMATCH" "计划绑定的能力或转换已不可用，须重新规划。" None
      | _ => Raise e
      end
  | Ok version =>
      PlanValidation.reject_if (negb (String.eqb version (target_version (sv_row step)))) "PLAN_VERSION_MISMATCH"
        ("步骤 " +:+ key_of step +:+ " 的冻结版本 " +:+ target_version (sv_row step) +:+ " 与当前版本 "
         +:+ version +:+ " 不匹配，须重新规划。") None
  end.

Fixpoint check_versions sv (steps : list step_view) : result unit :=
  match steps with [] => Ok tt | st :: rest => check_version sv st;; check_versions sv rest end.

Definition validate_versions sv plan : result unit := check_versions sv (pv_steps plan).

(** One reference of a binding: the value at a pointer of the result of the step's operation *)
Definition resolve_reference plan (reference : json) : proc (world R) json :=
  source ← of_result (subscript reference "step");
  id ← to_plans (step_output_operation (plan_id_of plan) (user_of plan) (py_str source));
  operation ← get_operation id;
  raise_if (negb (String.eqb (Operations.v_user_subject operation) (user_of plan))) TaskPlanIntegrityError
    "bound operation belongs to another user";;
  pointer ← of_result (subscript reference "pointer");
  of_result (match pointer with
             | JStr p => PlanValidation.resolve_json_pointer (Operations.v_result operation) p
             | _ => PlanValidation.reject "PLAN_BINDING_INVALID" "JSON Pointer 不合法。" None
             end).

Fixpoint resolve_references plan (references : list json) : proc (world R) (list json) :=
  match references with
  | [] => mret []
  | x :: rest => v ← resolve_reference plan x; vs ← resolve_references plan rest; mret (v :: vs)
  end.

Definition is_many (mode : json) : bool := py_eqb mode (JStr "many").

(** The references of a binding; [iter] gives the list that an iteration sees. *)
Definition references_of (binding : json) : result (list json) :=
  mode ← get_attr binding "mode";
  if is_many mode then
    items ← get_attr binding "items";
    match items with
    | JArr l => Ok l
    | v => if json_truthy v then raise TypeError ("'" +:+ type_name v +:+ "' object is not iterable") else Ok []
    end
  else Ok [binding].

Definition resolve_binding plan (binding : json) : proc (world R) json :=
  references ← of_result (references_of binding);
  values ← resolve_references plan references;
  mode ← of_result (get_attr binding "mode");
  if is_many mode then mret (JArr values)
  else match values with v :: _ => mret v | [] => raise IndexError "list index out of range" end.

Fixpoint resolve_bindings plan (bindings arguments : dict) : proc (world R) dict :=
  match bindings with
  | [] => mret arguments
  | (target, binding) :: rest =>
      v ← resolve_binding plan binding;
      resolve_bindings plan rest (dict_set target v arguments)
  end.

(** A dict that a JSON column holds *)
Definition dict_of (v : json) : result dict :=
  match v with
  | JObj kvs => Ok kvs
  | _ => if json_truthy v then raise TypeError "not a mapping" else Ok []
  end.

Definition _resolve_step_arguments plan step : proc (world R) dict :=
  arguments ← of_result (dict_of (match sv_arguments step with Some v => v | None => JNull end));
  bindings ← of_result (dict_of (sv_bindings step));
  resolve_bindings plan bindings arguments.

(** ** Invocation *)

Definition _invoke_capability sv plan step (arguments : dict) : proc (world R) dict :=
  let name := or_empty (capability_name (sv_row step)) in
  s ← of_result (Capabilities.get name (registry sv));
  of_result (PlanValidation.validate_runtime_arguments arguments (Capabilities.input_schema s) (key_of step));;
  invoke sv (Invocation (user_of plan) name arguments (step_idempotency_key plan step) (task_of plan) (plan_id_of plan)).

(** [transform.input_item_counter(arguments)] or [len(arguments.get("items") or [])] *)
Definition item_count (t : Transforms.TransformSpec) (arguments : dict) : result Z :=
  match Transforms.input_item_counter t with
  | Some _ => Ok (Transforms.input_count t (JObj arguments))
  | None =>
      match or_value (dict_get arguments "items" JNull) (JArr []) with
      | JArr l => Ok (Z.of_nat (length l))
      | JStr s => Ok (py_len s)
      | JObj kvs => Ok (Z.of_nat (length kvs))
      | v => raise TypeError ("object of type '" +:+ type_name v +:+ "' has no len()")
      end
  end.

Definition transform_operation plan step (t : Transforms.TransformSpec) (arguments : dict) (count : Z)
  : Operations.create_args :=
  let name := or_empty (transform_name (sv_row step)) in {|
  Operations.a_user_subject := user_of plan;
  Operations.a_capability_name := "transform." +:+ name;
  Operations.a_capability_version := Transforms.version t;
  Operations.a_input_summary := JObj [("transform", JStr name); ("itemCount", JInt count)];
  Operations.a_input_identity := Some (JObj arguments);
  Operations.a_idempotency_key := Some (step_idempotency_key plan step);
  Operations.a_request_id := None |}.

(** The [except] clauses around the transform *)
Definition record_transform (id : string) (r : result json) (now : instant)
  : Operations.store -> result Operations.view * Operations.store :=
  match r with
  | Ok output => Operations.mark_succeeded id output now
  | Raise e =>
      match exn_class e with
      | TransformRejected code => Operations.mark_failed id code (exn_message e) now
      | _ => Operations.mark_failed id "TRANSFORM_EXECUTION_FAILED" (exn_text e) now
      end
  end.

Definition transform_response (operation : Operations.view) (reused : bool) : dict :=
  [("protocolVersion", JStr "0.1"); ("operationId", JStr (Operations.v_operation_id operation));
   ("status", JStr (Operations.status_text (Operations.v_status operation)));
   ("result", Operations.v_result operation);
   ("error", match Operations.v_error operation with
             | Some e => JObj [("code", JStr (Operations.e_code e)); ("message", JStr (Operations.e_message e))]
             | None => JNull
             end);
   ("interaction", JNull); ("nextAction", Operations.v_next_action operation); ("reused", JBool reused)].

Definition _invoke_transform sv plan step (arguments : dict) : proc (world R) dict :=
  let name := or_empty (transform_name (sv_row step)) in
  t ← of_result (Transforms.get name (transforms sv));
  of_result (PlanValidation.validate_runtime_arguments arguments (Transforms.input_schema t) (key_of step));;
  count ← of_result (item_count t arguments);
  now ← draw (clock sv);
  id ← draw (fresh sv);
  request ← draw (fresh sv);
  '(operation, reused) ← to_operations (fun s =>
    Operations.create (transform_operation plan step t arguments count) now id request s s);
  let operation_id := Operations.v_operation_id operation in
  operation ←
    (if negb reused then
       started ← draw (clock sv);
       to_operations (Operations.mark_running operation_id started);;
       ended ← draw (clock sv);
       to_operations (record_transform operation_id (Transforms.invoke name (JObj arguments) (transforms sv)) ended)
     else get_operation operation_id);
  mret (transform_response operation reused).

(** ** Results *)

(** [build_plan_result_projection] *)
Definition draft_keys : list string :=
  ["draft"; "empty"; "source_incomplete"; "source_count"; "included_count"; "excluded_count";
   "excluded_automatic_count"; "excluded_duplicate_count"; "source_summaries"; "coverage"].
Definition merge_keys : list string :=
  ["items"; "source_summaries"; "coverage"; "source_incomplete"; "empty"; "source_count"; "item_count";
   "duplicate_count"].

Fixpoint source_steps (bindings : dict) : result (list string) :=
  match bindings with
  | [] => Ok []
  | (_, binding) :: rest =>
      references ← references_of binding;
      sources ← map_result (fun reference => subscript reference "step") references;
      others ← source_steps rest;
      Ok (map py_str sources ++ others)
  end.

Definition build_plan_result_projection (kind : string) step (operation : string) (result_ : dict) : result json :=
  bindings ← dict_of (sv_bindings step);
  sources ← source_steps bindings;
  let shown keys := JObj (map (fun key => (key, dict_get result_ key JNull)) keys) in
  Ok (JObj [("schemaVersion", JStr "agentbridge.plan-result-projection.v1"); ("visibility", JStr "user_private");
            ("kind", JStr kind); ("stepKey", JStr (key_of step)); ("operationId", JStr operation);
            ("resultHash", JStr (json_hash (JObj result_)));
            ("sourceSteps", JArr (map JStr (sort_by str_leb (remove_dups sources))));
            ("result", shown (if String.eqb kind "private_draft" then draft_keys else merge_keys))]).

(** [int(value or 0)] *)
Definition int_or_zero (v : json) : result json :=
  match or_value v (JInt 0) with
  | JInt n => Ok (JInt n)
  | JBool b => Ok (JInt (if b then 1 else 0))
  | v => raise TypeError ("int() argument must be a number, not '" +:+ type_name v +:+ "'")
  end.

Definition _store_result_projection sv plan step (operation : string) (result_ : dict) : proc (world R) unit :=
  t ← of_result (Transforms.get (or_empty (transform_name (sv_row step))) (transforms sv));
  match Transforms.result_projection t with
  | None => mret tt
  | Some kind =>
      if negb (truthy kind) then mret tt
      else
        projection ← of_result (build_plan_result_projection kind step operation result_);
        now ← draw (clock sv);
        updated ← to_plans (set_result_projection (plan_id_of plan) (user_of plan) projection now);
        if String.eqb kind "private_draft" then
          included ← of_result (int_or_zero (dict_get result_ "included_count" JNull));
          excluded ← of_result (int_or_zero (dict_get result_ "excluded_count" JNull));
          _event sv updated "plan.result.ready"
            [("planId", JStr (plan_id_of plan)); ("stepKey", JStr (key_of step)); ("kind", JStr kind);
             ("resultHash", jget_or_null projection "resultHash");
             ("includedCount", included); ("excludedCount", excluded)] (Some operation)
        else mret tt
  end.

Definition _has_write_sink sv plan : bool :=
  existsb (fun st =>
    match capability_name (sv_row st) with
    | Some name => truthy name && match Capabilities.get name (registry sv) with
                                  | Ok s => negb (String.eqb (Capabilities.effect s) "read")
                                  | Raise _ => false
                                  end
    | None => false
    end) (pv_steps plan).

(** [result.get("source_incomplete") is True or (result.get("coverage") or {}).get("status") != "complete"] *)
Definition source_incomplete (result_ : dict) : result bool :=
  match dict_get result_ "source_incomplete" JNull with
  | JBool true => Ok true
  | _ =>
      status ← get_attr (or_value (dict_get result_ "coverage" JNull) (JObj [])) "status";
      Ok (negb (py_eqb status (JStr "complete")))
  end.

(** The branch [status == "succeeded"] of [_consume_step_response] *)
Definition consume_success sv plan step (operation_id : string) (operation : Operations.view)
  : proc (world R) (option reply) :=
  let result_ := Operations.v_result operation in
  let name := or_empty (transform_name (sv_row step)) in
  let is_transform := String.eqb (step_kind (sv_row step)) "transform" in
  halted ←
    match is_transform, result_ with
    | true, JObj kvs =>
        _store_result_projection sv plan step operation_id kvs;;
        t ← of_result (Transforms.get name (transforms sv));
        if Transforms.halts_on_incomplete t then
          incomplete ← of_result (source_incomplete kvs);
          mret (incomplete && _has_write_sink sv plan)
        else mret false
    | _, _ => mret false
    end;
  if halted then
    r ← _fail_plan sv plan step (Some operation_id) "failed" "PLAN_SOURCE_INCOMPLETE"
          "业务来源未完整覆盖请求范围，计划已停止且不会进入写入。";
    mret (Some r)
  else
    now ← draw (clock sv);
    updated ← to_plans (mark_step_succeeded (plan_id_of plan) (user_of plan) (key_of step) operation_id
                          (Some (Operations.v_input_hash operation)) (Some (json_hash result_)) now);
    _event sv updated "plan.step.succeeded" (_step_event_payload updated step) (Some operation_id);;
    if is_transform then
      t ← of_result (Transforms.get name (transforms sv));
      match result_ with
      | JObj kvs =>
          if Transforms.halts_on_empty t && match dict_get kvs "empty" JNull with JBool true => true | _ => false end
          then r ← _complete_plan sv (plan_id_of plan) (user_of plan) "no_eligible_source_items" true; mret (Some r)
          else mret None
      | _ => mret None
      end
    else mret None.

(** The branch [status == "requires_user_action"] *)
Definition consume_waiting sv plan step (operation_id : string) (operation : Operations.view) (response : dict)
  : proc (world R) reply :=
  let interaction := dict_get response "interaction" JNull in
  let reference := match interaction with JObj kvs => dict_get kvs "interactionId" JNull | _ => JNull end in
  if negb (json_truthy reference) then
    _fail_plan sv plan step (Some operation_id) "failed" "PLAN_INTERACTION_MISSING"
      "等待用户时没有返回可信交互引用。"
  else
    let interaction_id := py_str reference in
    now ← draw (clock sv);
    updated ← to_plans (mark_step_waiting (plan_id_of plan) (user_of plan) (key_of step) operation_id interaction_id
                          (Some (Operations.v_input_hash operation)) now);
    loaded ← to_rest (_load_interaction sv (user_of plan) interaction_id);
    to_rest (link_interaction sv (task_of plan) (user_of plan) loaded);;
    type ← of_result (get_attr (snd loaded) "type");
    _event sv updated
      (if py_eqb type (JStr "execution_authorization") then "plan.authorization.waiting" else "plan.step.waiting")
      (_step_event_payload updated step ++ [("interactionId", JStr interaction_id); ("interactionType", type)])
      (Some interaction_id);;
    mret (StepWaiting (Some operation_id) interaction (Some (dict_get response "nextAction" JNull)) updated).

(** The last lines: the operation failed, or its outcome is unknown. *)
Definition consume_failure sv plan step (operation_id : string) (operation : Operations.view) (response : dict)
    (status : string) : proc (world R) reply :=
  let recorded := match Operations.v_error operation with
    | Some e => JObj [("code", JStr (Operations.e_code e)); ("message", JStr (Operations.e_message e))]
    | None => JObj []
    end in
  let error := or_value (dict_get response "error" JNull) recorded in
  code ← of_result (get_attr error "code");
  message ← of_result (get_attr error "message");
  _fail_plan sv plan step (Some operation_id)
    (if str_in status ["unknown"; "outcome_unknown"] then "outcome_unknown" else "failed")
    (py_str (or_value code (JStr "PLAN_STEP_FAILED"))) (py_str (or_value message (JStr "计划步骤执行失败。"))).

Definition _consume_step_response sv plan step (response : dict) : proc (world R) (option reply) :=
  let operation_id := py_strip (py_str (or_value (dict_get response "operationId" JNull) (JStr ""))) in
  if negb (truthy operation_id) then
    r ← _fail_plan sv plan step None "failed" "PLAN_OPERATION_MISSING" "步骤没有返回权威 Operation。";
    mret (Some r)
  else
    operation ← get_operation operation_id;
    to_rest (link_plan_operation sv (task_of plan) (user_of plan) operation (plan_id_of plan) (key_of step));;
    let status := py_str (or_value (dict_get response "status" JNull)
                            (JStr (Operations.status_text (Operations.v_status operation)))) in
    if str_in status ["pending"; "running"] then
      current ← get_plan (plan_id_of plan) (user_of plan);
      mret (Some (StepPending operation_id current))
    else if String.eqb status "requires_user_action" then
      r ← consume_waiting sv plan step operation_id operation response; mret (Some r)
    else if String.eqb status "succeeded" then consume_success sv plan step operation_id operation
    else r ← consume_failure sv plan step operation_id operation response status; mret (Some r).

(** ** The loop *)

Definition _waiting_result sv plan step : proc (world R) reply :=
  match interaction_id (sv_row step) with
  | Some id =>
      if truthy id then
        loaded ← to_rest (_load_interaction sv (user_of plan) id);
        mret (StepWaiting (operation_id (sv_row step)) (snd loaded) None plan)
      else mret (StepWaiting (operation_id (sv_row step)) JNull None plan)
  | None => mret (StepWaiting (operation_id (sv_row step)) JNull None plan)
  end.

(** The [try] of the loop: the step from its authority to its response *)
Definition execute_step sv plan step : proc (world R) (option reply) :=
  match validate_task_plan_authority sv with Some validator => to_rest (validator plan) | None => mret tt end;;
  of_result (validate_versions sv plan);;
  arguments ← _resolve_step_arguments plan step;
  response ←
    (if String.eqb (step_kind (sv_row step)) "capability" then _invoke_capability sv plan step arguments
     else _invoke_transform sv plan step arguments);
  _consume_step_response sv plan step response.

(** Its [except] clauses *)
Definition step_error sv plan step (e : exn) : proc (world R) (option reply) :=
  r ← match exn_class e with
      | PlanValidationError code _ | TransformRejected code =>
          _fail_plan sv plan step None "failed" code (exn_message e)
      | _ => _fail_plan sv plan step None "failed" "PLAN_STEP_EXECUTION_FAILED" (exn_text e)
      end;
  mret (Some r).

Definition step_done (st : step_state) : bool := match st with SSucceeded | SSkipped => true | _ => false end.

(** The body of [while True]: [None] is its end, [Some] a [return] *)
Definition advance_once sv (id user : string) : proc (world R) (option reply) :=
  plan ← get_plan id user;
  if negb (active plan) then mret (Some (PlanResult plan))
  else if opt_truthy (commit_operation_id (pv_row plan)) then
    if forallb (fun st => step_done (st_state (sv_row st))) (pv_steps plan)
    then r ← _complete_plan sv id user "all_steps_succeeded" false; mret (Some r)
    else mret (Some (AwaitingVerification (or_empty (commit_operation_id (pv_row plan))) plan))
  else
    now ← draw (clock sv);
    begun ← to_plans (begin_next_step id user now);
    match begun with
    | None => r ← _complete_plan sv id user "all_steps_succeeded" false; mret (Some r)
    | Some (step, just_started) =>
        if bool_decide (st_state (sv_row step) = SWaiting) then r ← _waiting_result sv plan step; mret (Some r)
        else
          (if just_started : bool then _event sv plan "plan.step.started" (_step_event_payload plan step) None
           else mret tt);;
          catching (execute_step sv plan step) (step_error sv plan step)
    end.

(** [fuel] bounds the iterations; [None] when it is spent. *)
Fixpoint advance (fuel : nat) sv (id user : string) : proc (world R) (option reply) :=
  match fuel with
  | O => mret None
  | S fuel =>
      r ← advance_once sv id user;
      match r with
      | Some r => mret (Some r)
      | None => advance fuel sv id user
      end
  end.

Definition start (fuel : nat) sv (id user : string) : proc (world R) (option reply) :=
  plan ← get_plan id user;
  _event sv plan "plan.started" [("status", JStr "running")] None;;
  advance fuel sv id user.

(** ** Canceling and rejecting *)

Definition cancel sv (id user reason : string) : proc (world R) reply :=
  current ← get_plan id user;
  if negb (active current) then mret (PlanResult current)
  else
    now ← draw (clock sv);
    canceled ← catching (plan ← to_plans (TaskPlans.cancel id user reason now); mret (inl plan : plan_view + string))
      (fun e => match exn_class e with
                | TaskPlanCommitInProgress => mret (inr (exn_message e))
                | _ => mthrow e
                end);
    match canceled with
    | inr message => plan ← get_plan id user; mret (CommitInProgress message plan)
    | inl plan =>
        _event sv plan "plan.canceled" [("planId", JStr id); ("status", JStr "canceled")] None;;
        ignoring (to_rest (cancel_task sv (Closing (task_of plan) user "task_plan_canceled" None (Some id))));;
        _retire_interactions sv current None;;
        mret (PlanResult plan)
    end.

Definition code_of (e : exn) : string :=
  match exn_class e with PlanValidationError code _ | TransformRejected code => code | _ => "" end.

Definition reject sv plan (error : exn) : proc (world R) reply :=
  current ← get_plan (plan_id_of plan) (user_of plan);
  if negb (active current) then mret (PlanResult current)
  else
    match List.find (fun st => step_active (st_state (sv_row st))) (pv_steps current) with
    | None => raise StopIteration ""
    | Some step =>
        _fail_plan sv current step (operation_id (sv_row step)) "failed" (code_of error) (exn_message error)
    end.

(** ** Resuming *)

Definition resume_after_session (fuel : nat) sv (user interaction : string) : proc (world R) (option (option reply)) :=
  bound ← to_plans (step_for_interaction interaction user);
  match bound with
  | None => mret (Some None)
  | Some (plan, step) =>
      plan ← get_plan (plan_id_of plan) user;
      if negb (active plan) then mret (Some (Some (PlanResult plan)))
      else
        now ← draw (clock sv);
        to_plans (reset_step_after_session (plan_id_of plan) user interaction now);;
        _event sv plan "plan.step.resumed"
          [("planId", JStr (plan_id_of plan)); ("stepKey", JStr (key_of step)); ("reason", JStr "session_ready")]
          (Some interaction);;
        r ← advance fuel sv (plan_id_of plan) user; mret (Some <$> r)
  end.

Definition resume_after_capability (fuel : nat) sv (user interaction : string) (response : dict)
  : proc (world R) (option (option reply)) :=
  bound ← to_plans (step_for_interaction interaction user);
  match bound with
  | None => mret (Some None)
  | Some (plan, step) =>
      plan ← get_plan (plan_id_of plan) user;
      if negb (active plan) then
        _retire_interactions sv plan (Some (dict_get response "interaction" JNull));;
        mret (Some (Some (PlanResult plan)))
      else
        consumed ← _consume_step_response sv plan step response;
        match consumed with
        | Some r => mret (Some (Some r))
        | None => r ← advance fuel sv (plan_id_of plan) user; mret (Some <$> r)
        end
  end.

Definition terminal_code (state : string) : string :=
  match assoc state [("declined", "INTERACTION_DECLINED"); ("expired", "INTERACTION_EXPIRED");
                     ("failed", "INTERACTION_FAILED"); ("superseded", "INTERACTION_SUPERSEDED")] with
  | Some code => code
  | None => "INTERACTION_NOT_READY"
  end.

Definition handle_terminal_interaction sv (user interaction state : string) : proc (world R) (option reply) :=
  bound ← to_plans (step_for_interaction interaction user);
  match bound with
  | None => mret None
  | Some (plan, step) =>
      plan ← get_plan (plan_id_of plan) user;
      if negb (active plan) then mret (Some (PlanResult plan))
      else if String.eqb state "declined" then
        r ← cancel sv (plan_id_of plan) user "interaction_declined"; mret (Some r)
      else
        r ← _fail_plan sv plan step (operation_id (sv_row step)) "failed" (terminal_code state)
              ("可信交互已结束：" +:+ state +:+ "。");
        mret (Some r)
  end.

(** ** Recovery

    After a restart every active plan is looked at once.  The counters of the summary outlive an
    exception, so they are a part of the state. *)

Record summary : Type := Summary { counts : list (string * Z); issues : list (string * string) }.

Definition empty_summary : summary :=
  Summary (map (fun key => (key, 0%Z))
    ["candidates"; "advanced"; "restarted"; "waiting"; "completed"; "canceled"; "failed"; "deferred"]) [].

Definition inside {A} (m : proc (world R) A) : proc (world R * summary) A := fun '(w, s) =>
  let '(a, w') := m w in (a, (w', s)).

Definition tally (key : string) : proc (world R * summary) unit := fun '(w, s) =>
  (Ok tt, (w, Summary (dict_set key (dict_get (counts s) key 0 + 1)%Z (counts s)) (issues s))).

Definition note_issue (id : string) (e : exn) : proc (world R * summary) unit := fun '(w, s) =>
  (Ok tt, (w, Summary (counts s) (issues s ++ [(id, class_name (exn_class e))]))).

Definition _belongs_to_previous_runtime sv (updated : instant) : bool := (updated <? _started_at sv)%Z.

Definition _current_running_step plan : option step_view :=
  List.find (fun st => bool_decide (current_step_key (pv_row plan) = Some (key_of st))
                       && bool_decide (st_state (sv_row st) = SRunning)) (pv_steps plan).

Definition _find_step_operation plan step : proc (world R) (option Operations.view) := fun w =>
  let name := if String.eqb (step_kind (sv_row step)) "capability" then or_empty (capability_name (sv_row step))
              else "transform." +:+ or_empty (transform_name (sv_row step)) in
  (Operations.find_idempotent (user_of plan) name (target_version (sv_row step)) (step_idempotency_key plan step)
     (w_operations w), w).

Definition unfinished_status (operation : Operations.view) : bool :=
  str_in (Operations.status_text (Operations.v_status operation)) ["pending"; "running"].

Definition committed_response (operation : Operations.view) : dict :=
  [("operationId", JStr (Operations.v_operation_id operation));
   ("status", JStr (Operations.status_text (Operations.v_status operation)));
   ("error", match Operations.v_error operation with
             | Some e => JObj [("code", JStr (Operations.e_code e)); ("message", JStr (Operations.e_message e))]
             | None => JNull
             end);
   ("interaction", jget_or_null (or_value (Operations.v_next_action operation) (JObj [])) "interaction")].

(** A plan whose commit was entered: the result that the operation has, or none that can be known *)
Definition recover_commit (fuel : nat) sv plan (commit : string) : proc (world R * summary) (option unit) :=
  match List.find (fun st => bool_decide (current_step_key (pv_row plan) = Some (key_of st))
                             || bool_decide (operation_id (sv_row st) = Some commit)) (pv_steps plan) with
  | None => raise StopIteration ""
  | Some step =>
      if bool_decide (st_state (sv_row step) = SSucceeded) then
        inside (_complete_plan sv (plan_id_of plan) (user_of plan) "all_steps_succeeded" false);;
        tally "completed";; mret (Some tt)
      else
        operation ← inside (get_operation commit);
        if unfinished_status operation
           && negb (_belongs_to_previous_runtime sv (Operations.v_updated_at operation))
        then tally "deferred";; mret (Some tt)
        else
          operation ←
            (if unfinished_status operation then
               now ← inside (draw (clock sv));
               inside (to_operations (Operations.mark_unknown (Operations.v_operation_id operation) "RESULT_UNKNOWN"
                 "提交边界已消费，但旧运行时未留下权威结果；须人工对账。" now))
             else mret operation);
          response ← inside (_consume_step_response sv plan step (committed_response operation));
          response ← match response with
                     | Some r => mret (Some r)
                     | None => inside (advance fuel sv (plan_id_of plan) (user_of plan))
                     end;
          match response with
          | None => mret None
          | Some r => tally (if String.eqb (reply_status r) "succeeded" then "completed" else "failed");; mret (Some tt)
          end
  end.

(** A waiting plan: has its interaction ended? *)
Definition recover_waiting sv plan : proc (world R * summary) unit :=
  ended ←
    match List.find (fun st => bool_decide (st_state (sv_row st) = SWaiting)) (pv_steps plan) with
    | Some step =>
        match interaction_id (sv_row step) with
        | Some id =>
            if truthy id then
              loaded ← inside (to_rest (_load_interaction sv (user_of plan) id));
              let state := jget_or_null (snd loaded) "state" in
              if py_in state (map JStr ["declined"; "expired"; "failed"; "superseded"])
              then inside (handle_terminal_interaction sv (user_of plan) id (py_str state))
              else mret None
            else mret None
        | None => mret None
        end
    | None => mret None
    end;
  match ended with
  | Some r => tally (if String.eqb (reply_status r) "canceled" then "canceled" else "failed")
  | None => tally "waiting"
  end.

(** A running step that a previous runtime left behind is begun again, unless its operation has a
    result. *)
Definition restart_step sv plan step : proc (world R * summary) unit :=
  found ← inside (_find_step_operation plan step);
  if match found with Some operation => unfinished_status operation | None => true end then
    match found with
    | Some operation =>
        now ← inside (draw (clock sv));
        inside (to_operations (Operations.mark_failed (Operations.v_operation_id operation) "PLAN_RECOVERY_REPLACED"
          ("The unfinished operation belonged to a previous " +:+ "AgentBridge runtime and was replaced safely.") now));;
        mret tt
    | None => mret tt
    end;;
    now ← inside (draw (clock sv));
    inside (to_plans (reset_running_step_for_recovery (plan_id_of plan) (user_of plan) (key_of step)
      (attempt_count (sv_row step)) now));;
    inside (_event sv plan "plan.step.recovered"
      (_step_event_payload plan step ++ [("previousAttempt", JInt (attempt_count (sv_row step)))])
      (Some (match found with Some operation => Operations.v_operation_id operation | None => plan_id_of plan end)));;
    tally "restarted"
  else mret tt.

Definition recover_running (fuel : nat) sv plan : proc (world R * summary) (option unit) :=
  match _current_running_step plan with
  | Some step =>
      if _belongs_to_previous_runtime sv (st_updated_at (sv_row step)) then restart_step sv plan step else mret tt
  | None => mret tt
  end;;
  response ← inside (advance fuel sv (plan_id_of plan) (user_of plan));
  match response with
  | None => mret None
  | Some r =>
      tally "advanced";;
      let status := reply_status r in
      tally (if String.eqb status "requires_user_action" then "waiting"
             else if String.eqb status "succeeded" then "completed"
             else if str_in status ["failed"; "outcome_unknown"] then "failed" else "deferred");;
      mret (Some tt)
  end.

(** The checks of the plan, of which a [PlanValidationError] rejects it *)
Definition check_plan sv plan : proc (world R) (option exn) :=
  catching
    (of_result (validate_versions sv plan);;
     match validate_task_plan_authority sv with Some validator => to_rest (validator plan) | None => mret tt end;;
     mret None)
    (fun e => match exn_class e with PlanValidationError _ _ => mret (Some e) | _ => mthrow e end).

Definition recover_candidate (fuel : nat) sv (candidate : plan_view) : proc (world R * summary) (option unit) :=
  tally "candidates";;
  catching
    (plan ← inside (get_plan (plan_id_of candidate) (user_of candidate));
     if opt_truthy (commit_operation_id (pv_row plan))
     then recover_commit fuel sv plan (or_empty (commit_operation_id (pv_row plan)))
     else
       rejected ← inside (check_plan sv plan);
       match rejected with
       | Some e => inside (reject sv plan e);; tally "failed";; mret (Some tt)
       | None =>
           match row_state (pv_row plan) with
           | PWaiting => recover_waiting sv plan;; mret (Some tt)
           | PValidated | PRunning => recover_running fuel sv plan
           | _ => tally "deferred";; mret (Some tt)
           end
       end)
    (fun e => tally "failed";; note_issue (plan_id_of candidate) e;; mret (Some tt)).

Fixpoint recover_all (fuel : nat) sv (candidates : list plan_view) : proc (world R * summary) (option unit) :=
  match candidates with
  | [] => mret (Some tt)
  | c :: rest =>
      r ← recover_candidate fuel sv c;
      match r with Some _ => recover_all fuel sv rest | None => mret None end
  end.

Definition recover (fuel : nat) sv (limit : Z) (w : world R) : result (option unit) * (world R * summary) :=
  (candidates ← inside (to_plans (recovery_candidates limit)); recover_all fuel sv candidates) (w, empty_summary).
End Runtime.
