(* ===== verification/PlanRuntimeFacts.v ===== *)
(** The driver ends, invokes every open step at most once, and closes a plan it fails. *)

From S2P Require Import Prelude PyStr Json JsonFacts Sha256 Store Procedures TaskPlans TaskPlanFacts PlanRuntime.
From S2P Require Capabilities Transforms Operations PlanValidation.

#[local] Open Scope list_scope.

(** ** Open steps *)

Definition open_in (id : string) (ir : string * step_row) : Prop :=
  plan_id (snd ir) = id /\ step_active (st_state (snd ir)) = true.
#[export] Instance open_in_dec id ir : Decision (open_in id ir).
Proof. unfold open_in. apply _. Defined.

(** The steps of the plan that are queued or in progress, with their keys *)
Definition open_steps (id : string) (s : TaskPlans.store) : gset (string * string) :=
  map_to_set (fun i (r : step_row) => (i, step_key r)) (filter (open_in id) (plan_steps s)).

Definition todo (id : string) (s : TaskPlans.store) : nat := size (open_steps id s).

Lemma elem_of_open id s i key : (i, key) ∈ open_steps id s <->
  exists r : step_row, plan_steps s !! i = Some r /\ plan_id r = id /\ step_active (st_state r) = true /\ step_key r = key.
Proof.
  unfold open_steps. rewrite elem_of_map_to_set. split.
  - intros (j & r & [Hr [Hid Ho]]%map_lookup_filter_Some & [= -> <-]). by exists r.
  - intros (r & Hr & Hid & Ho & <-). exists i, r. split; [|done]. by apply map_lookup_filter_Some.
Qed.

Lemma unique_open id s i j key : steps_unique (plan_steps s) ->
  (i, key) ∈ open_steps id s -> (j, key) ∈ open_steps id s -> i = j.
Proof.
  intros Hu (r1 & H1 & Hid1 & _ & Hk1)%elem_of_open (r2 & H2 & Hid2 & _ & Hk2)%elem_of_open.
  apply (Hu i j r1 r2); [done|done|congruence|left; congruence].
Qed.

(** The rewriting [g] opens no step. *)
Definition opens_none (g : string -> step_row -> step_row) : Prop :=
  forall i r, plan_id (g i r) = plan_id r /\ step_key (g i r) = step_key r /\ (step_active (st_state (g i r)) = true -> step_active (st_state r) = true).

Lemma effect_open id id' f g s s' : effect_on id' f g s s' -> opens_none g -> open_steps id s' ⊆ open_steps id s.
Proof.
  intros (p & _ & _ & _ & Hs & _) Hg [i k] (r & Hr & Hid & Ha & Hk)%elem_of_open. apply elem_of_open.
  destruct (lookup_rewritten _ _ _ _ _ Hs Hr) as (x & Hx & ->). destruct (Hg i x) as (Hp & Hkey & Hopen).
  exists x. split; [done|]. split; [congruence|]. split; [by apply Hopen|congruence].
Qed.

Lemma opens_id : opens_none (fun _ r => r).
Proof. by intros i r. Qed.
Lemma opens_step k q (h : step_row -> step_row) : (forall r : step_row, the_step (h r) = the_step r) ->
  (forall r : step_row, q r = true -> step_active (st_state r) = true) -> opens_none (at_step k q h).
Proof.
  intros Hid Hq i r. unfold at_step. destruct (String.eqb i k && q r) eqn:E; [|done].
  apply andb_true_iff in E as [_ E]. rewrite Hid. split; [done|]. split; [done|]. intros _. by apply Hq.
Qed.
Lemma opens_steps q (h : step_row -> step_row) :
  (forall r : step_row, the_step (h r) = the_step r /\ step_active (st_state (h r)) = false) -> opens_none (at_steps q h).
Proof.
  intros Hh i r. unfold at_steps. destruct (q r); [|done]. destruct (Hh r) as [Hid Ha].
  rewrite Hid, Ha. done.
Qed.

Lemma begin_open id user now s x s' id' : begin_next_step id user now s = Ok (x, s') ->
  open_steps id' s' ⊆ open_steps id' s.
Proof.
  intros [->|(p & i & r & deps & v & _ & _ & _ & _ & _ & _ & _ & _ & He)]%begin_next_Ok; [done|].
  eapply effect_open; [exact He|]. apply opens_step; [done|].
  intros y Hy. unfold queued in Hy. by destruct (st_state y).
Qed.

Lemma update_open id user key st plan_st operation interaction input output terminal clear now s v s' id' :
  _update_step id user key st plan_st operation interaction input output terminal clear now s = Ok (v, s') ->
  open_steps id' s' ⊆ open_steps id' s.
Proof.
  intros [->|(i & r & Hi & Hid & _ & Hin & He)]%update_step_Ok; [done|].
  intros [j k] (y & Hy & Hyid & Hya & Hyk)%elem_of_open. apply elem_of_open.
  destruct He as (p & _ & _ & _ & Hs & _). destruct (lookup_rewritten _ _ _ _ _ Hs Hy) as (x & Hx & ->).
  exists x. split; [done|]. unfold at_step in Hyid, Hya, Hyk. destruct (String.eqb_spec j i) as [->|]; cbn [andb] in *; [|done].
  rewrite Hi in Hx. injection Hx as <-. split; [done|]. split; [by destruct (st_state r)|exact Hyk].
Qed.

Lemma failed_open id user key operation state code message outcome now s v s' id' :
  mark_step_failed id user key operation state code message outcome now s = Ok (v, s') ->
  open_steps id' s' ⊆ open_steps id' s.
Proof.
  intros [->|(st & plan_st & Hst & He)]%mark_failed_Ok; [done|].
  eapply effect_open; [exact He|]. intros i r. unfold at_steps.
  assert (Hf : step_active st = false).
  { unfold failure_states in Hst. destruct (String.eqb _ _); [by injection Hst as <- _|].
    destruct (String.eqb _ _); [by injection Hst as <- _|done]. }
  destruct (is_step id key r); destruct (in_states _ _ _); cbn; split_and!; try done; congruence.
Qed.

Lemma complete_open id user reason skip outcome now s v s' id' :
  complete id user reason skip outcome now s = Ok (v, s') -> open_steps id' s' ⊆ open_steps id' s.
Proof.
  intros [->|(g & [->| ->] & _ & He)]%complete_Ok; [done| |]; (eapply effect_open; [exact He|]).
  - apply opens_id.
  - by apply opens_steps.
Qed.

(** A plan that is closed *)
Definition closed (id : string) (s : TaskPlans.store) : Prop :=
  exists p, plans s !! id = Some p /\ plan_active (row_state p) = false.

(** A success is recorded for an open step, unless the plan is closed. *)
Lemma succeeded_open id user key operation input output now s v s' :
  mark_step_succeeded id user key operation input output now s = Ok (v, s') ->
  closed id s /\ s' = s \/
  open_steps id s' ⊆ open_steps id s /\ exists i, (i, key) ∈ open_steps id s /\ (i, key) ∉ open_steps id s'.
Proof.
  intros H. pose proof H as Hu. apply update_open with (id' := id) in Hu. unfold mark_step_succeeded, _update_step in H.
  unfold on_active_plan in H. apply tx_bind_Ok in H as (p & s1 & (-> & Hp & _)%tp_select_owned_Ok & H).
  destruct (plan_active (row_state p)) eqn:Ha; cbn [negb] in H.
  2:{ left. apply snapshot_state in H. split; [|done]. by exists p. }
  right. apply tx_bind_Ok in H as ([i r] & s1 & Hr & H). apply select_step_row in Hr as (-> & Hi & Hid & Hk).
  apply tx_raise_if_bind in H as [Hin%negb_false_iff H].
  apply (run_update_step _ _ _ _ _ _ _ _ _ Hp Ha) in H as (p' & _ & _ & _ & Hs & _).
  split; [done|]. exists i. split.
  { apply elem_of_open. exists r. split_and!; try done. by destruct (st_state r). }
  intros (y & Hy & _ & Hya & _)%elem_of_open.
  destruct (lookup_rewritten _ _ _ _ _ Hs Hy) as (x & Hx & ->). unfold at_step in Hya.
  rewrite String.eqb_refl in Hya. done.
Qed.

(** What begins is an open step. *)
Lemma view_row v i (r : step_row) : _step_from_row true (i, r) = Ok v -> sv_row v = r.
Proof. unfold _step_from_row. intros H. repeat (apply result_bind_Ok in H as (? & _ & H)). by injection H as <-. Qed.

Lemma begin_Some id user now s step started s' :
  begin_next_step id user now s = Ok (Some (step, started), s') ->
  exists i, (i, step_key (sv_row step)) ∈ open_steps id s.
Proof.
  unfold begin_next_step. intros (p & s1 & (-> & Hp & _)%tp_select_owned_Ok & H)%tx_bind_Ok.
  destruct (plan_active (row_state p)) eqn:Ha; cbn [negb] in H; [|by apply tx_ret_Ok in H as [? _]].
  assert (Hq : begin_queued id now s = Ok (Some (step, started), s') ->
    exists i, (i, step_key (sv_row step)) ∈ open_steps id s).
  { clear H. unfold begin_queued. rewrite tx_gets_bind. intros (sel & Hsel & H)%tx_lift_bind.
    destruct sel as [[i r]|]; [|by apply tx_ret_Ok in H as [? _]].
    apply first_ready_Some in Hsel as (Hin & Hq & _). apply steps_of_In in Hin as [Hi Hid].
    unfold update_step, update_plan in H. rewrite !tx_modify_bind in H.
    apply tx_bind_Ok in H as ([j y] & s1 & (-> & _ & _ & Hk)%select_step_row & H).
    apply tx_lift_bind in H as (v & Hv%view_row & H). apply tx_ret_Ok in H as [[= -> ->] _].
    exists i. apply elem_of_open. exists r. rewrite Hv, Hq. done. }
  apply tx_bind_Ok in H as (cur & s1 & Hcur & H).
  assert (Hcur' : s1 = s /\ match cur with Some (i, r) => plan_steps s !! i = Some r /\ plan_id r = id | None => True end).
  { unfold current_step in Hcur. destruct (current_step_key p) as [key|]; [|by apply tx_ret_Ok in Hcur as [-> ->]].
    destruct (truthy key); [|by apply tx_ret_Ok in Hcur as [-> ->]].
    apply tx_bind_Ok in Hcur as ([i r] & s2 & Hr & Hret). apply select_step_row in Hr as (-> & Hi & Hid & _).
    by apply tx_ret_Ok in Hret as [-> ->]. }
  destruct Hcur' as [-> Hrow]. destruct cur as [[i r]|]; [|by apply Hq].
  cbn [snd] in H. destruct Hrow as [Hi Hid]. destruct (in_progress (st_state r)) eqn:Hin; [|by apply Hq].
  apply tx_lift_bind in H as (v & Hv%view_row & H). apply tx_ret_Ok in H as [[= -> ->] _].
  exists i. apply elem_of_open. exists r. rewrite Hv. split_and!; try done. by destruct (st_state r).
Qed.

(** ** Effects of procedures *)

Section Driver.
Context {tables : UnicodeTables} {digits : UnicodeDigits} {R : Type}.
Implicit Types (sv : service (R := R)) (plan : plan_view) (step : step_view) (w : world R).

Section Contract.
Context {T : Type} (seen : R -> T).

Definition quiet {A} (m : aside (R := R) A) : Prop := forall w, seen (snd (m w)) = seen (w_rest w).

(** The collaborators other than the capabilities leave [seen] alone. *)
Record asides sv : Prop := {
  ct_event : forall e, quiet (record_plan_event sv e);
  ct_link : forall t u o p k, quiet (link_plan_operation sv t u o p k);
  ct_interaction : forall t u i, quiet (link_interaction sv t u i);
  ct_load : forall u i, quiet (_load_interaction sv u i);
  ct_cancel : forall c, quiet (cancel_task sv c);
  ct_complete : forall c, quiet (complete_task sv c);
  ct_fail : forall c, quiet (fail_task sv c);
  ct_unknown : forall c, quiet (mark_task_outcome_unknown sv c);
  ct_authority : forall f plan, validate_task_plan_authority sv = Some f -> quiet (f plan);
  ct_retire : forall f plan extra, retire_plan_interactions sv = Some f -> quiet (f plan extra);
}.

Context (id : string).

(** [m] opens no step of the plan and leaves [seen] alone. *)
Definition calm_proc {A} (m : proc (world R) A) : Prop := forall w,
  open_steps id (w_plans (snd (m w))) ⊆ open_steps id (w_plans w) /\ seen (w_rest (snd (m w))) = seen (w_rest w).

Lemma calm_bind {A B} (m : proc (world R) A) (k : A -> proc (world R) B) :
  calm_proc m -> (forall a, calm_proc (k a)) -> calm_proc (x ← m; k x).
Proof.
  intros Hm Hk w. rewrite proc_bind_eq. destruct (Hm w) as [Hm1 Hm2].
  destruct (m w) as [[a|e] w1]; cbn [snd] in *; [|done].
  destruct (Hk a w1) as [Hk1 Hk2]. split; [set_solver|congruence].
Qed.

Lemma calm_catching {A} (m : proc (world R) A) h :
  calm_proc m -> (forall e, calm_proc (h e)) -> calm_proc (catching m h).
Proof.
  intros Hm Hh w. unfold catching. destruct (Hm w) as [Hm1 Hm2].
  destruct (m w) as [[a|e] w1]; cbn [snd] in *; [done|]. destruct (Hh e w1) as [Hh1 Hh2]. split; [set_solver|congruence].
Qed.

Lemma calm_still {A} (m : proc (world R) A) : (forall w, snd (m w) = w) -> calm_proc m.
Proof. intros H w. by rewrite H. Qed.

Lemma calm_ret {A} (a : A) : calm_proc (mret a).
Proof. by apply calm_still. Qed.
Lemma calm_throw {A} (e : exn) : calm_proc (mthrow e : proc (world R) A).
Proof. by apply calm_still. Qed.
Lemma calm_raise {A} c m : calm_proc (raise c m : proc (world R) A).
Proof. by apply calm_still. Qed.
Lemma calm_raise_if b c m : calm_proc (raise_if b c m).
Proof. apply calm_still. intros w. by destruct b. Qed.
Lemma calm_of_result {A} (r : result A) : calm_proc (of_result r).
Proof. by apply calm_still. Qed.
Lemma calm_get_operation i : calm_proc (get_operation i).
Proof. by apply calm_still. Qed.
Lemma calm_ignoring (m : proc (world R) unit) : calm_proc m -> calm_proc (ignoring m).
Proof. intros H. apply calm_catching; [done|]. intros e. apply calm_ret. Qed.
Lemma calm_draw {A} (source : nat -> A) : calm_proc (draw source).
Proof. by intros w. Qed.
Lemma calm_operations {A} (m : Operations.store -> result A * Operations.store) : calm_proc (to_operations m).
Proof. intros w. unfold to_operations. by destruct (m (w_operations w)). Qed.
Lemma calm_rest {A} (m : aside A) : quiet m -> calm_proc (to_rest m).
Proof. intros H w. specialize (H w). unfold to_rest. destruct (m w) as [a rest]. cbn in *. done. Qed.
Lemma calm_plans {A} (m : tx TaskPlans.store A) :
  (forall s a s', m s = Ok (a, s') -> open_steps id s' ⊆ open_steps id s) -> calm_proc (to_plans m).
Proof.
  intros H w. unfold to_plans, transaction. specialize (H (w_plans w)).
  destruct (m (w_plans w)) as [[a s']|e]; cbn; [|done]. split; [by eapply H|done].
Qed.
Lemma calm_get i user : calm_proc (get_plan i user).
Proof.
  apply calm_plans. intros s a s' H. apply tx_bind_Ok in H as (r & s1 & [-> _]%tp_select_owned_Ok & H).
  by apply snapshot_state in H as ->.
Qed.
Lemma calm_output i user key : calm_proc (to_plans (step_output_operation i user key)).
Proof.
  apply calm_plans. intros s a s' H. unfold step_output_operation in H.
  apply tx_bind_Ok in H as (r & s1 & [-> _]%tp_select_owned_Ok & H).
  apply tx_bind_Ok in H as ([j x] & s1 & [-> _]%select_step_Ok & H).
  apply tx_raise_if_bind in H as [_ H]. by apply tx_ret_Ok in H as [_ ->].
Qed.
Lemma calm_project i user projection now : calm_proc (to_plans (set_result_projection i user projection now)).
Proof.
  apply calm_plans. intros s a s' H. unfold set_result_projection in H.
  apply tx_bind_Ok in H as (r & s1 & [-> _]%tp_select_owned_Ok & H). unfold update_plan in H. rewrite tx_modify_bind in H.
  by apply refreshed_state in H as ->.
Qed.
Lemma calm_mark_failed i user key operation state code message outcome now :
  calm_proc (to_plans (mark_step_failed i user key operation state code message outcome now)).
Proof. apply calm_plans. intros s a s'. apply failed_open. Qed.
Lemma calm_update i user key st plan_st operation interaction input output terminal clear now :
  calm_proc (to_plans (_update_step i user key st plan_st operation interaction input output terminal clear now)).
Proof. apply calm_plans. intros s a s'. apply update_open. Qed.
Lemma calm_complete i user reason skip outcome now : calm_proc (to_plans (complete i user reason skip outcome now)).
Proof. apply calm_plans. intros s a s'. apply complete_open. Qed.
Lemma calm_begin i user now : calm_proc (to_plans (begin_next_step i user now)).
Proof. apply calm_plans. intros s a s'. apply begin_open. Qed.
End Contract.

(** What the driver relies on when [calls] counts the invocations of capabilities: an invocation
    counts as one; the other collaborators invoke nothing. *)
Record contract (calls : R -> nat) sv : Prop := {
  ct_asides : asides calls sv;
  ct_calls : forall c w, (calls (w_rest (snd (invoke sv c w))) <= S (calls (w_rest w)))%nat;
}.
End Driver.

Create HintDb driver.
#[export] Hint Constants Opaque : driver.
#[export] Hint Resolve calm_ret calm_throw calm_raise calm_raise_if calm_of_result calm_get_operation calm_draw
  calm_operations calm_get calm_output calm_project calm_mark_failed calm_update calm_complete
  calm_begin : driver.

(** A procedure of calls that invoke nothing *)
Ltac calm := repeat (cbv zeta; lazymatch goal with
  | |- calm_proc _ _ (pbind _ _) => apply calm_bind; [|intros ?]
  | |- calm_proc _ _ (catching _ _) => apply calm_catching; [|intros ?]
  | |- calm_proc _ _ (ignoring _) => apply calm_ignoring
  | |- calm_proc _ _ (to_rest _) => apply calm_rest; solve [eauto with driver nocore]
  | |- calm_proc _ _ (match ?x with _ => _ end) => destruct x eqn:?
  | |- calm_proc _ _ (let '(_, _) := ?x in _) => destruct x
  | |- _ => solve [eauto with driver nocore]
  end).
#[export] Hint Resolve ct_event ct_link ct_interaction ct_load ct_cancel ct_complete ct_fail ct_unknown ct_authority
  ct_retire : driver.

Section Calls.
Context {tables : UnicodeTables} {digits : UnicodeDigits} {R : Type} {T : Type} (seen : R -> T) (sv : service (R := R))
  (C : asides seen sv) (id : string).
Implicit Types (plan : plan_view) (step : step_view) (w : world R).
#[local] Abbreviation calm_proc := (calm_proc seen id).

Lemma event_calm plan type payload causation : calm_proc (_event sv plan type payload causation).
Proof. unfold _event. calm. Qed.
Lemma retire_calm plan extra : calm_proc (_retire_interactions sv plan extra).
Proof. unfold _retire_interactions. calm. Qed.
#[local] Hint Resolve event_calm retire_calm : driver.

Lemma fail_calm plan step operation state code message : calm_proc (_fail_plan sv plan step operation state code message).
Proof. unfold _fail_plan. calm. Qed.
Lemma complete_calm i user reason skip : calm_proc (_complete_plan sv i user reason skip).
Proof. unfold _complete_plan. calm. Qed.
#[local] Hint Resolve fail_calm complete_calm : driver.

Lemma resolve_reference_calm plan reference : calm_proc (resolve_reference plan reference).
Proof. unfold resolve_reference. calm. Qed.
#[local] Hint Resolve resolve_reference_calm : driver.
Lemma resolve_references_calm plan references : calm_proc (resolve_references plan references).
Proof. induction references; cbn [resolve_references]; calm. Qed.
#[local] Hint Resolve resolve_references_calm : driver.
Lemma resolve_bindings_calm plan bindings : forall arguments, calm_proc (resolve_bindings plan bindings arguments).
Proof.
  induction bindings as [|[target binding] bindings IH]; intros arguments; cbn [resolve_bindings]; unfold resolve_binding; calm.
Qed.
#[local] Hint Resolve resolve_bindings_calm : driver.
Lemma resolve_calm plan step : calm_proc (_resolve_step_arguments plan step).
Proof. unfold _resolve_step_arguments. calm. Qed.

Lemma transform_calm plan step arguments : calm_proc (_invoke_transform sv plan step arguments).
Proof. unfold _invoke_transform. calm. Qed.
Lemma store_calm plan step operation kvs : calm_proc (_store_result_projection sv plan step operation kvs).
Proof. unfold _store_result_projection. calm. Qed.
#[local] Hint Resolve resolve_calm transform_calm store_calm : driver.

Lemma success_calm plan step operation_id operation : calm_proc (consume_success sv plan step operation_id operation).
Proof. unfold consume_success, mark_step_succeeded. calm. Qed.
Lemma waiting_calm plan step operation_id operation response :
  calm_proc (consume_waiting sv plan step operation_id operation response).
Proof. unfold consume_waiting, mark_step_waiting. calm. Qed.
Lemma failure_calm plan step operation_id operation response status :
  calm_proc (consume_failure sv plan step operation_id operation response status).
Proof. unfold consume_failure. calm. Qed.
#[local] Hint Resolve success_calm waiting_calm failure_calm : driver.
Lemma consume_calm plan step response : calm_proc (_consume_step_response sv plan step response).
Proof. unfold _consume_step_response. calm. Qed.
Lemma waiting_result_calm plan step : calm_proc (_waiting_result sv plan step).
Proof. unfold _waiting_result. calm. Qed.
Lemma error_calm plan step e : calm_proc (step_error sv plan step e).
Proof. unfold step_error. calm. Qed.
#[local] Hint Resolve consume_calm waiting_result_calm error_calm : driver.

(** ** One iteration *)

Lemma snapshot_Ok i (p : plan_row) s v s' : _snapshot (i, p) s = Ok (v, s') ->
  s' = s /\ pv_plan_id v = i /\ pv_row v = p.
Proof.
  intros H. pose proof (snapshot_state _ _ _ _ H) as ->. split; [done|]. unfold _snapshot in H.
  apply tx_lift_bind in H as (v0 & Hv0 & H). rewrite tx_gets_bind in H.
  apply tx_lift_bind in H as (steps & _ & H). apply tx_ret_Ok in H as [-> _].
  unfold _plan_from_row in Hv0. do 5 (apply result_bind_Ok in Hv0 as (? & _ & Hv0)). by injection Hv0 as <-.
Qed.

Lemma world_eta w : World (w_plans w) (w_operations w) (w_rest w) (w_draws w) = w.
Proof. by destruct w. Qed.

Lemma to_plans_Ok {A} (m : tx TaskPlans.store A) w a w' : to_plans m w = (Ok a, w') ->
  m (w_plans w) = Ok (a, w_plans w') /\ w' = World (w_plans w') (w_operations w) (w_rest w) (w_draws w).
Proof.
  unfold to_plans. destruct (transaction m (w_plans w)) as [[b|e] t] eqn:E; intros [= -> <-].
  split; [by apply transaction_Ok|done].
Qed.

Lemma to_rest_Ok {A} (m : aside A) w a w' : to_rest m w = (Ok a, w') ->
  fst (m w) = Ok a /\ w' = World (w_plans w) (w_operations w) (snd (m w)) (w_draws w).
Proof. unfold to_rest. destruct (m w) as [b rest]. by intros [= -> <-]. Qed.

Lemma get_plan_Ok i user w plan w' : get_plan i user w = (Ok plan, w') ->
  w' = w /\ pv_plan_id plan = i /\ user_of plan = user /\ plans (w_plans w) !! i = Some (pv_row plan).
Proof.
  unfold get_plan. intros [H ->]%to_plans_Ok. unfold TaskPlans.get in H.
  apply tx_bind_Ok in H as (p & s1 & (-> & Hp & Hu)%tp_select_owned_Ok & H).
  apply snapshot_Ok in H as (E & Hi & Hrow). rewrite E, world_eta. unfold user_of. rewrite Hrow. done.
Qed.

(** ** The loop *)

Lemma calm_Ok {A} (m : proc (world R) A) w (a : A) w' : calm_proc m -> m w = (Ok a, w') ->
  open_steps id (w_plans w') ⊆ open_steps id (w_plans w) /\ seen (w_rest w') = seen (w_rest w).
Proof. intros Hm Hr. specialize (Hm w). by rewrite Hr in Hm. Qed.

(** A success after which the loop goes on: the result may be projected, then it is recorded. *)
Lemma consume_success_inv plan step operation_id operation w w' :
  consume_success sv plan step operation_id operation w = (Ok None, w') ->
  exists w1, (w_plans w1 = w_plans w \/
              exists kvs u, _store_result_projection sv plan step operation_id kvs w = (Ok u, w1)) /\
    exists now v, mark_step_succeeded (plan_id_of plan) (user_of plan) (key_of step) operation_id
      (Some (Operations.v_input_hash operation)) (Some (json_hash (Operations.v_result operation))) now (w_plans w1)
      = Ok (v, w_plans w').
Proof.
  unfold consume_success. cbv zeta. intros (halted & w1 & Hh & H)%proc_bind_Ok. exists w1. split.
  { destruct (String.eqb _ "transform"); [|left; by injection Hh as _ <-].
    destruct (Operations.v_result operation) as [| | | | | |kvs]; try (left; by injection Hh as _ <-).
    right. exists kvs. apply proc_bind_Ok in Hh as (u & w2 & Hs & Hh). exists u.
    apply proc_of_result_bind in Hh as (t & _ & Hh). destruct (Transforms.halts_on_incomplete t); [|by injection Hh as _ <-].
    apply proc_of_result_bind in Hh as (b & _ & Hh). by injection Hh as _ <-. }
  destruct halted; [by apply proc_bind_Ok in H as (r & w2 & _ & [= ])|].
  apply proc_bind_Ok in H as (now & w2 & [= _ <-] & H). exists now.
  apply proc_bind_Ok in H as (updated & w3 & [Hm _]%to_plans_Ok & H). exists updated. cbn [w_plans] in Hm.
  rewrite Hm. do 2 f_equal. apply proc_bind_Ok in H as (u & w4 & [_ ->]%to_rest_Ok & H).
  destruct (String.eqb _ "transform"); [|by injection H as <-].
  apply proc_of_result_bind in H as (t & _ & H). destruct (Operations.v_result operation); try by injection H as <-.
  destruct (_ && _); [|by injection H as <-]. by apply proc_bind_Ok in H as (r & w5 & _ & [= ]).
Qed.

Lemma consume_inv plan step response w w' : _consume_step_response sv plan step response w = (Ok None, w') ->
  exists operation_id operation w1, w_plans w1 = w_plans w /\
    consume_success sv plan step operation_id operation w1 = (Ok None, w').
Proof.
  unfold _consume_step_response. cbv zeta. destruct (truthy _); cbn [negb].
  2:{ by intros (r & w1 & _ & [= ])%proc_bind_Ok. }
  intros (operation & w1 & [= _ <-] & H)%proc_bind_Ok. apply proc_bind_Ok in H as (u & w2 & [_ Hl]%to_rest_Ok & H).
  destruct (str_in _ _); [by apply proc_bind_Ok in H as (r & w3 & _ & [= ])|].
  destruct (String.eqb _ _); [by apply proc_bind_Ok in H as (r & w3 & _ & [= ])|].
  destruct (String.eqb _ _); [|by apply proc_bind_Ok in H as (r & w3 & _ & [= ])].
  do 3 eexists. split; [|exact H]. by rewrite Hl.
Qed.

(** The plan is closed, or the step with this key was open and is not any more. *)
Definition settled (key : string) w w' : Prop :=
  closed id (w_plans w') \/
  exists i, (i, key) ∈ open_steps id (w_plans w) /\ (i, key) ∉ open_steps id (w_plans w').

Lemma consume_None plan step response w w' : plan_id_of plan = id ->
  _consume_step_response sv plan step response w = (Ok None, w') -> settled (key_of step) w w'.
Proof.
  intros Hid (operation_id & operation & w1 & Hw1 & H)%consume_inv.
  apply consume_success_inv in H as (w2 & Hw2 & now & v & Hm). rewrite Hid in Hm. apply succeeded_open in Hm.
  assert (Hsub : open_steps id (w_plans w2) ⊆ open_steps id (w_plans w1)).
  { destruct Hw2 as [->|(kvs & u & Hs)]; [done|]. apply calm_Ok in Hs; [apply Hs|calm]. }
  unfold settled. rewrite <- Hw1. destruct Hm as [[Hc ->]|(_ & i & Hi & Hn)]; [by left|right; exists i; set_solver].
Qed.

Lemma once_idle user w : closed id (w_plans w) \/ open_steps id (w_plans w) = ∅ ->
  fst (advance_once sv id user w) <> Ok None /\
  open_steps id (w_plans (snd (advance_once sv id user w))) ⊆ open_steps id (w_plans w) /\
  seen (w_rest (snd (advance_once sv id user w))) = seen (w_rest w).
Proof.
  intros Hidle. unfold advance_once. rewrite proc_bind_eq.
  destruct (get_plan id user w) as [[plan|e] w1] eqn:E.
  2:{ pose proof (calm_get seen id id user w) as H. rewrite E in H. done. }
  apply get_plan_Ok in E as (-> & Hid & _ & Hrow).
  assert (Hret : forall (m : proc (world R) reply), calm_proc m ->
    fst ((r ← m; mret (Some r)) w) <> Ok None /\
    open_steps id (w_plans (snd ((r ← m; mret (Some r)) w))) ⊆ open_steps id (w_plans w) /\
    seen (w_rest (snd ((r ← m; mret (Some r)) w))) = seen (w_rest w)).
  { intros m Hm. rewrite proc_bind_eq. specialize (Hm w). by destruct (m w) as [[r|e] w2]. }
  destruct (active plan) eqn:Ha; cbn [negb]; [|done].
  destruct Hidle as [(p & Hp & Hpa)|Hempty]; [exfalso; rewrite Hrow in Hp; injection Hp as <-; unfold active in Ha; congruence|].
  destruct (opt_truthy _); [destruct (forallb _ _); [|done]; apply Hret; calm|].
  rewrite proc_bind_eq. cbn [draw]. rewrite proc_bind_eq.
  destruct (to_plans _ _) as [[[[step started]|]|e] w2] eqn:Eb.
  - apply to_plans_Ok in Eb as [Hs _]. cbn [w_plans] in Hs. apply begin_Some in Hs as [i Hi]. set_solver.
  - pose proof (calm_begin seen id id user (clock sv (w_draws w)) (World (w_plans w) (w_operations w) (w_rest w) (S (w_draws w)))) as Hc.
    rewrite Eb in Hc. cbn [snd w_plans w_rest] in Hc. rewrite proc_bind_eq.
    pose proof (complete_calm id user "all_steps_succeeded" false w2) as Hd.
    destruct Hc as [Hc1 Hc2], Hd as [Hd1 Hd2].
    destruct (_complete_plan _ _ _ _ _ _) as [[r|e] w3]; cbn [fst snd] in *;
      (split; [done|split; [set_solver|cbn; congruence]]).
  - pose proof (calm_begin seen id id user (clock sv (w_draws w)) (World (w_plans w) (w_operations w) (w_rest w) (S (w_draws w)))) as Hc.
    rewrite Eb in Hc. done.
Qed.

Lemma advance_closed user fuel w : closed id (w_plans w) ->
  seen (w_rest (snd (advance fuel sv id user w))) = seen (w_rest w).
Proof.
  intros Hc. destruct fuel as [|fuel]; [done|]. cbn [advance]. rewrite proc_bind_eq.
  destruct (once_idle user w (or_introl Hc)) as (Hr & _ & Hseen).
  by destruct (advance_once sv id user w) as [[[r|]|e] w1].
Qed.
End Calls.

(** ** Invocations *)

Section Log.
Context {tables : UnicodeTables} {digits : UnicodeDigits} {R : Type} (log : R -> list invocation).
Implicit Types (sv : service (R := R)) (plan : plan_view) (step : step_view) (w : world R).

(** [log] lists the invocations of capabilities: an invocation is added to it and opens no step of
    a plan (it may resume one); the other collaborators invoke nothing. *)
Record logged sv : Prop := {
  lg_asides : asides log sv;
  lg_steps : forall c w id, open_steps id (w_plans (snd (invoke sv c w))) ⊆ open_steps id (w_plans w);
  lg_calls : forall c w, log (w_rest (snd (invoke sv c w))) = log (w_rest w) ++ [c];
}.

(** An invocation of the step [key] of the plan [id]: for its user and under the idempotency key of
    the step *)
Definition call_of (id user key : string) (c : invocation) : Prop := exists plan step arguments,
  plan_id_of plan = id /\ user_of plan = user /\ key_of step = key /\
  c = Invocation user (or_empty (capability_name (sv_row step))) arguments (step_idempotency_key plan step)
        (task_of plan) id.

Context sv (C : logged sv) (id user : string).
#[local] Hint Resolve lg_asides : driver.

(** [m] opens no step of the plan and invokes at most the step [key]. *)
Definition invokes {A} (key : string) (m : proc (world R) A) : Prop := forall w,
  open_steps id (w_plans (snd (m w))) ⊆ open_steps id (w_plans w) /\
  (log (w_rest (snd (m w))) = log (w_rest w) \/
   exists c, call_of id user key c /\ log (w_rest (snd (m w))) = log (w_rest w) ++ [c]).

Lemma calm_invokes {A} key (m : proc (world R) A) : calm_proc log id m -> invokes key m.
Proof. intros H w. destruct (H w) as [H1 H2]. split; [done|by left]. Qed.

Lemma calm_then {A B} key (m : proc (world R) A) (k : A -> proc (world R) B) :
  calm_proc log id m -> (forall a, invokes key (k a)) -> invokes key (x ← m; k x).
Proof.
  intros Hm Hk w. rewrite proc_bind_eq. destruct (Hm w) as [Hm1 Hm2].
  destruct (m w) as [[a|e] w1]; cbn [snd] in *; [|split; [done|by left]].
  destruct (Hk a w1) as [Hk1 Hk2]. rewrite Hm2 in Hk2. split; [set_solver|done].
Qed.

Lemma then_calm {A B} key (m : proc (world R) A) (k : A -> proc (world R) B) :
  invokes key m -> (forall a, calm_proc log id (k a)) -> invokes key (x ← m; k x).
Proof.
  intros Hm Hk w. rewrite proc_bind_eq. destruct (Hm w) as [Hm1 Hm2].
  destruct (m w) as [[a|e] w1]; cbn [snd] in *; [|done].
  destruct (Hk a w1) as [Hk1 Hk2]. rewrite Hk2. split; [set_solver|done].
Qed.

Lemma invokes_catching {A} key (m : proc (world R) A) h :
  invokes key m -> (forall e, calm_proc log id (h e)) -> invokes key (catching m h).
Proof.
  intros Hm Hh w. unfold catching. destruct (Hm w) as [Hm1 Hm2].
  destruct (m w) as [[a|e] w1]; cbn [snd] in *; [done|]. destruct (Hh e w1) as [Hh1 Hh2].
  rewrite Hh2. split; [set_solver|done].
Qed.

Section Step.
Context plan step (Hid : plan_id_of plan = id) (Huser : user_of plan = user).
#[local] Abbreviation key := (key_of step).
#[local] Hint Resolve consume_calm error_calm transform_calm resolve_calm event_calm complete_calm : driver.

Lemma capability_invokes arguments : invokes key (_invoke_capability sv plan step arguments).
Proof.
  unfold _invoke_capability. cbv zeta. apply calm_then; [calm|]. intros s. apply calm_then; [calm|]. intros u w.
  split; [apply (lg_steps _ C)|right]. rewrite (lg_calls _ C). eexists. split; [|done].
  exists plan, step, arguments. by rewrite Huser, Hid.
Qed.

Lemma execute_invokes : invokes key (execute_step sv plan step).
Proof.
  unfold execute_step. apply calm_then; [calm|]. intros u1. apply calm_then; [calm|]. intros u2.
  apply calm_then; [calm|]. intros arguments. apply then_calm; [|calm].
  destruct (String.eqb _ _); [apply capability_invokes|apply calm_invokes; calm].
Qed.

Lemma execute_None w w' : execute_step sv plan step w = (Ok None, w') -> settled id key w w'.
Proof.
  unfold execute_step. intros (u1 & w1 & H1 & H)%proc_bind_Ok. apply proc_of_result_bind in H as (u2 & _ & H).
  apply proc_bind_Ok in H as (arguments & w2 & H2 & H). apply proc_bind_Ok in H as (response & w3 & H3 & H).
  apply (calm_Ok log id) in H1 as [H1 _]; [|calm]. apply (calm_Ok log id) in H2 as [H2 _]; [|calm].
  assert (Hcall : invokes key (if String.eqb (step_kind (sv_row step)) "capability"
                               then _invoke_capability sv plan step arguments
                               else _invoke_transform sv plan step arguments))
    by (destruct (String.eqb _ _); [apply capability_invokes|apply calm_invokes; calm]).
  destruct (Hcall w2) as [Hs _]. rewrite H3 in Hs. cbn [snd] in Hs.
  apply (consume_None log sv (lg_asides _ C) id) in H as [Hc|(i & Hi & Hn)]; [by left| |done].
  right. exists i. set_solver.
Qed.
End Step.

(** One iteration: it invokes nothing and is the last, or at most one open step, which is then over
    (or the plan is closed) if the loop goes on. *)
Definition iterated w (r : result (option reply)) w' : Prop :=
  open_steps id (w_plans w') ⊆ open_steps id (w_plans w) /\
  (r <> Ok None /\ log (w_rest w') = log (w_rest w) \/
   exists i key, (i, key) ∈ open_steps id (w_plans w) /\ (r = Ok None -> settled id key w w') /\
     (log (w_rest w') = log (w_rest w) \/ exists c, call_of id user key c /\ log (w_rest w') = log (w_rest w) ++ [c])).

Lemma iterated_last w w1 (m : proc (world R) reply) r w' :
  open_steps id (w_plans w1) ⊆ open_steps id (w_plans w) -> log (w_rest w1) = log (w_rest w) ->
  calm_proc log id m -> (x ← m; mret (Some x)) w1 = (r, w') -> iterated w r w'.
Proof.
  intros Hs Hl Hm H. rewrite proc_bind_eq in H. specialize (Hm w1). unfold iterated.
  destruct (m w1) as [[x|e] w2]; injection H as <- <-; destruct Hm as [H1 H2]; cbn [snd] in H1, H2;
    (split; [set_solver|left; split; [done|congruence]]).
Qed.

Lemma iterated_step key i w w1 (m : proc (world R) (option reply)) r w' :
  (i, key) ∈ open_steps id (w_plans w) ->
  open_steps id (w_plans w1) ⊆ open_steps id (w_plans w) -> log (w_rest w1) = log (w_rest w) ->
  invokes key m -> (forall w1 w3, m w1 = (Ok None, w3) -> settled id key w1 w3) -> m w1 = (r, w') -> iterated w r w'.
Proof.
  intros Hi Hsub Hl Hm Hs H. destruct (Hm w1) as [H1 H2]. rewrite H in H1, H2. cbn [snd] in H1, H2. rewrite Hl in H2.
  split; [set_solver|]. right. exists i, key. split; [exact Hi|]. split; [|exact H2].
  intros ->. destruct (Hs _ _ H) as [Hcl|(j & Hj & Hn)]; [by left|]. right. exists j. set_solver.
Qed.

(** The execution of a step, after the event that it has started *)
Lemma execution_invokes plan step (ev : proc (world R) unit) : plan_id_of plan = id -> user_of plan = user ->
  calm_proc log id ev -> let m := ev;; catching (execute_step sv plan step) (step_error sv plan step) in
  invokes (key_of step) m /\ forall w w', m w = (Ok None, w') -> settled id (key_of step) w w'.
Proof.
  intros Hid Huser Hev. split.
  - apply calm_then; [done|]. intros u. apply invokes_catching; [by apply execute_invokes|]. intros e. apply error_calm, C.
  - intros w w' H. apply proc_bind_Ok in H as (u & w1 & [He _]%(calm_Ok log id) & H); [|done].
    apply catching_cases in H as [(a & w2 & H & [= <- <-])|(e & w2 & _ & H)].
    + apply (execute_None plan step Hid Huser) in H as [Hcl|(j & Hj & Hn)]; [by left|]. right. exists j. set_solver.
    + unfold step_error in H. symmetry in H. by apply proc_bind_Ok in H as (x & w3 & _ & [= ]).
Qed.

Lemma once_iterates w r w' : advance_once sv id user w = (r, w') -> iterated w r w'.
Proof.
  assert (Hlast : forall r, r <> Ok None -> iterated w r w) by (intros; split; [done|by left]).
  unfold advance_once. rewrite proc_bind_eq. destruct (get_plan id user w) as [[plan|e] w1] eqn:E.
  2:{ intros [= <- <-]. pose proof (calm_get log id id user w) as [H1 H2]. rewrite E in H1, H2. split; [done|by left]. }
  apply get_plan_Ok in E as (-> & Hid & Huser & _).
  destruct (negb (active plan)); [intros [= <- <-]; by apply Hlast|]. destruct (opt_truthy _).
  { destruct (forallb _ _); [|intros [= <- <-]; by apply Hlast]. apply iterated_last; [done|done|apply complete_calm, C]. }
  rewrite proc_bind_eq. cbn [draw]. rewrite proc_bind_eq. clear Hlast.
  set (wd := World _ _ _ _). pose proof (calm_begin log id id user (clock sv (w_draws w)) wd) as Hb.
  destruct (to_plans _ wd) as [[[[step started]|]|e] w2] eqn:Eb; cbn [snd] in Hb; destruct Hb as [Hb1 Hb2];
    subst wd; cbn [w_plans w_rest] in Hb1, Hb2.
  - apply to_plans_Ok in Eb as [Eb _]. cbn [w_plans] in Eb. apply begin_Some in Eb as [i Hi].
    cbv beta iota. destruct (bool_decide _).
    + apply iterated_last; [done|done|]. apply waiting_result_calm, C.
    + destruct (execution_invokes plan step (if started then _event sv plan "plan.step.started" (_step_event_payload plan step) None
        else mret tt) Hid Huser) as [H1 H2]; [destruct started; [apply event_calm, C|calm]|].
      by apply (iterated_step (key_of step) i).
  - apply iterated_last; [done|done|apply complete_calm, C].
  - intros [= <- <-]. split; [done|]. left. by split.
Qed.

(** ** The loop *)

Lemma settled_todo key w w' : open_steps id (w_plans w') ⊆ open_steps id (w_plans w) -> settled id key w w' ->
  closed id (w_plans w') \/ (todo id (w_plans w') < todo id (w_plans w))%nat.
Proof. intros Hs [Hc|(i & Hi & Hn)]; [by left|right]. apply subset_size. set_solver. Qed.

Lemma advance_ends fuel : forall w, (S (todo id (w_plans w)) < fuel)%nat -> fst (advance fuel sv id user w) <> Ok None.
Proof.
  induction fuel as [|fuel IH]; intros w Hf; [lia|]. cbn [advance]. rewrite proc_bind_eq.
  destruct (advance_once sv id user w) as [[[r|]|e] w1] eqn:E; [done| |done].
  destruct (once_iterates _ _ _ E) as [Hs [[? _]|(i & key & _ & Hset & _)]]; [done|].
  destruct (settled_todo _ _ _ Hs (Hset eq_refl)) as [Hc|Hlt]; [|apply IH; lia].
  destruct fuel as [|fuel]; [lia|]. cbn [advance]. rewrite proc_bind_eq.
  destruct (once_idle log sv (lg_asides _ C) id user w1 (or_introl Hc)) as [Hr _].
  by destruct (advance_once sv id user w1) as [[[r|]|e] w2].
Qed.

(** The steps that are open have different keys. *)
Definition distinct (steps : gset (string * string)) : Prop :=
  forall i j key, (i, key) ∈ steps -> (j, key) ∈ steps -> i = j.

(** The invocations of the loop: of different steps that were open when it began *)
Definition invoked w w' (keys : list string) (calls : list invocation) : Prop :=
  log (w_rest w') = log (w_rest w) ++ calls /\ Forall2 (call_of id user) keys calls /\ NoDup keys /\
  forall key, key ∈ keys -> exists i, (i, key) ∈ open_steps id (w_plans w).

Lemma invoked_none w w' : log (w_rest w') = log (w_rest w) -> invoked w w' [] [].
Proof. intros H. unfold invoked. rewrite app_nil_r. split; [done|]. split; [constructor|]. split; [constructor|set_solver]. Qed.

Lemma invoked_one w w' i key c : call_of id user key c -> log (w_rest w') = log (w_rest w) ++ [c] ->
  (i, key) ∈ open_steps id (w_plans w) -> invoked w w' [key] [c].
Proof.
  intros Hc Hl Hi. split; [done|]. split; [by repeat constructor|]. split; [apply NoDup_singleton|].
  intros k ->%list_elem_of_singleton. by exists i.
Qed.

Lemma advance_invokes fuel : forall w, distinct (open_steps id (w_plans w)) ->
  exists keys calls, invoked w (snd (advance fuel sv id user w)) keys calls.
Proof.
  induction fuel as [|fuel IH]; intros w Hd; cbn [advance]; [exists [], []; by apply invoked_none|].
  rewrite proc_bind_eq. destruct (advance_once sv id user w) as [r w1] eqn:E.
  destruct (once_iterates _ _ _ E) as [Hs Hcases].
  assert (Hfirst : exists keys calls, invoked w w1 keys calls /\
    (r = Ok None -> closed id (w_plans w1) \/ forall k i, k ∈ keys -> (i, k) ∉ open_steps id (w_plans w1))).
  { destruct Hcases as [[Hr Hl]|(i & key & Hi & Hset & [Hl|(c & Hc & Hl)])].
    1,2: exists [], []; split; [by apply invoked_none|]; intros ?; right; set_solver.
    exists [key], [c]. split; [by eapply invoked_one|]. intros Hr. destruct (Hset Hr) as [Hcl|(j & Hj & Hn)]; [by left|].
    right. intros k i' ->%list_elem_of_singleton Hin. by rewrite (Hd i' j key (Hs _ Hin) Hj) in Hin. }
  destruct Hfirst as (keys & calls & Hinv & Hend).
  destruct r as [[r|]|e]; [by exists keys, calls| |by exists keys, calls].
  destruct Hinv as (Hl & Hf & Hnd & Hin). destruct (Hend eq_refl) as [Hcl|Hfresh].
  { exists keys, calls. pose proof (advance_closed log sv (lg_asides _ C) id user fuel w1 Hcl).
    split; [congruence|done]. }
  destruct (IH w1) as (keys' & calls' & Hl' & Hf' & Hnd' & Hin'); [by intros i j k ?%Hs ?%Hs; apply (Hd i j k)|].
  exists (keys ++ keys'), (calls ++ calls'). split; [rewrite Hl', Hl; by rewrite app_assoc|].
  split; [by apply Forall2_app|]. split.
  - apply NoDup_app. split; [done|]. split; [|done]. intros k Hk (i & Hi)%Hin'. by apply (Hfresh k i).
  - intros k [Hk|Hk]%elem_of_app; [by apply Hin|]. destruct (Hin' k Hk) as [i Hi]. exists i. by apply Hs.
Qed.

Lemma invoked_length w w' keys calls : invoked w w' keys calls -> (length calls <= todo id (w_plans w))%nat.
Proof.
  intros (_ & Hf & Hnd & Hin). rewrite <- (Forall2_length _ _ _ Hf).
  unfold todo, size, set_size. cbn. rewrite <- (length_fmap snd). apply submseteq_length, NoDup_submseteq; [done|].
  intros k Hk. destruct (Hin k Hk) as [i Hi]. apply list_elem_of_fmap. exists (i, k). by rewrite elem_of_elements.
Qed.
End Log.

(** ** What a procedure returns *)

Section Replies.
Context {tables : UnicodeTables} {digits : UnicodeDigits} {R : Type} (sv : service (R := R)).
Implicit Types (plan : plan_view) (step : step_view) (w : world R).

Definition yields {A} (Q : A -> world R -> Prop) (m : proc (world R) A) : Prop :=
  forall w a w', m w = (Ok a, w') -> Q a w'.

Lemma yields_ret {A} (Q : A -> world R -> Prop) a : (forall w, Q a w) -> yields Q (mret a).
Proof. intros H w b w' [= <- <-]. apply H. Qed.
Lemma yields_throw {A} (Q : A -> world R -> Prop) (e : exn) : yields Q (mthrow e : proc (world R) A).
Proof. by intros w b w' [= ]. Qed.
Lemma yields_bind {A B} (Q : B -> world R -> Prop) (m : proc (world R) A) k :
  (forall a, yields Q (k a)) -> yields Q (x ← m; k x).
Proof. intros H w b w' (a & w1 & _ & Hk)%proc_bind_Ok. by apply (H a) in Hk. Qed.
Lemma yields_some {A} (Q : option A -> world R -> Prop) (m : proc (world R) A) :
  yields (fun a => Q (Some a)) m -> yields Q (x ← m; mret (Some x)).
Proof. intros H w b w' (a & w1 & Hm & [= <- <-])%proc_bind_Ok. by apply (H w). Qed.
Lemma yields_catching {A} (Q : A -> world R -> Prop) (m : proc (world R) A) h :
  yields Q m -> (forall e, yields Q (h e)) -> yields Q (catching m h).
Proof.
  intros Hm Hh w a w' H. apply catching_cases in H as [(b & w1 & Hb & [= -> ->])|(e & w1 & _ & H)].
  - by apply (Hm w).
  - symmetry in H. by apply (Hh e) in H.
Qed.

(** The reply of a failure shows the plan as it is stored, and the plan is closed. *)
Definition failure_shown (id user : string) (r : reply) w : Prop :=
  match r with
  | PlanFailed state operation code message plan =>
      get_plan id user w = (Ok plan, w) /\ active plan = false /\
      terminal_reason (pv_row plan) = Some (py_take 120 code) /\
      plan_status (row_state (pv_row plan)) = state
  | _ => True
  end.

Lemma refreshed_get id user s v (p : plan_row) : refreshed id s = Ok (v, s) -> plans s !! id = Some p -> user_subject p = user ->
  TaskPlans.get id user s = Ok (v, s) /\ pv_row v = p /\ pv_plan_id v = id.
Proof.
  intros (q & s1 & [-> Hq]%select_plan_Ok & H)%tx_bind_Ok Hp Hu. assert (q = p) as -> by congruence.
  split; [|by apply snapshot_Ok in H as (_ & ? & ?)].
  unfold TaskPlans.get. apply tx_bind_Ok. exists p, s. split; [|done]. by apply tp_select_owned_Ok.
Qed.

(** A failure that is recorded, and how the plan reads afterwards *)
Lemma mark_failed_view id user key operation state code message outcome now s v s' :
  mark_step_failed id user key operation state code message outcome now s = Ok (v, s') ->
  closed id s /\ s' = s \/
  TaskPlans.get id user s' = Ok (v, s') /\ pv_plan_id v = id /\ user_of v = user /\
  active v = false /\ terminal_reason (pv_row v) = Some (py_take 120 code) /\
  plan_status (row_state (pv_row v)) = state.
Proof.
  unfold mark_step_failed. destruct (failure_states state) as [[st plan_st]|] eqn:Est; [|done].
  unfold on_active_plan. intros (p & s1 & (-> & Hp & Hu)%tp_select_owned_Ok & H)%tx_bind_Ok.
  destruct (plan_active (row_state p)) eqn:Ha; cbn [negb] in H.
  2:{ left. apply snapshot_state in H. split; [|done]. by exists p. }
  right. apply tx_bind_Ok in H as ([i r] & s1 & [-> _]%select_step_Ok & H). unfold update_steps in H.
  rewrite !tx_modify_bind in H. unfold update_plan in H. rewrite tx_modify_bind in H.
  pose proof (refreshed_state _ _ _ _ H) as ->.
  apply (refreshed_get _ user _ _ (plan_failed plan_st (py_take 120 code) key (outcome_text outcome) now p)) in H as (Hg & Hrow & Hid).
  2:{ cbn [set_plans set_steps plans]. rewrite (update_key_all id _ (plans s) p Hp). apply lookup_insert_eq. }
  2:{ done. }
  split; [exact Hg|]. unfold active, user_of. rewrite Hrow. split; [done|]. split; [done|].
  unfold failure_states in Est. destruct (String.eqb_spec state "failed") as [->|].
  - injection Est as <- <-. done.
  - destruct (String.eqb_spec state "outcome_unknown") as [->|]; [|done]. injection Est as <- <-. done.
Qed.

(** A plan view that stands for the plan [id] of [user] *)
Definition view_of (id user : string) plan : Prop := plan_id_of plan = id /\ user_of plan = user.

Lemma get_Ok id user s v s' : TaskPlans.get id user s = Ok (v, s') ->
  s' = s /\ view_of id user v /\ plans s !! id = Some (pv_row v).
Proof.
  intros H. apply tx_bind_Ok in H as (p & s1 & (-> & Hp & Hu)%tp_select_owned_Ok & H).
  apply snapshot_Ok in H as (-> & Hi & Hrow). unfold view_of, user_of. by rewrite Hrow.
Qed.

(** A failure of an active plan is recorded. *)
Lemma mark_failed_cases id user key operation state code message outcome now s v s' :
  mark_step_failed id user key operation state code message outcome now s = Ok (v, s') ->
  closed id s \/ exists st plan_st, failure_states state = Some (st, plan_st) /\
    effect_on id (plan_failed plan_st (py_take 120 code) key (outcome_text outcome) now)
      (fun i r => at_steps (in_states id queued) (step_closed SCanceled now) i
         (at_steps (is_step id key)
            (step_failed st operation (py_take 120 code) (py_take 500 message) now) i r)) s s'.
Proof.
  intros H. pose proof H as Hv. apply mark_failed_Ok in H as [->|H]; [left|by right].
  apply mark_failed_view in Hv as [[Hc _]|(Hg & _ & _ & Ha & _)]; [done|].
  apply get_Ok in Hg as (_ & _ & Hrow). by exists (pv_row v).
Qed.

Lemma get_plan_run id user w v : TaskPlans.get id user (w_plans w) = Ok (v, w_plans w) -> get_plan id user w = (Ok v, w).
Proof. intros H. unfold get_plan, to_plans, transaction. rewrite H. by rewrite world_eta. Qed.

(** What a collaborator cannot change: plans and operations *)
Lemma aside_Ok {A} (m : aside A) w a w' : to_rest m w = (Ok a, w') ->
  w_plans w' = w_plans w /\ w_operations w' = w_operations w.
Proof. by intros [_ ->]%to_rest_Ok. Qed.

Lemma ignored_Ok {A} (m : aside unit) w u w' (b : A) : ignoring (to_rest m) w = (Ok u, w') -> w_plans w' = w_plans w.
Proof.
  unfold ignoring. intros H. apply catching_cases in H as [(a & w1 & H & [= _ ->])|(e & w1 & H & [= _ ->])].
  - by apply aside_Ok in H as [-> _].
  - unfold to_rest in H. destruct (m w) as [b0 rest]. by injection H as _ <-.
Qed.

Lemma retired_Ok plan extra w u w' : _retire_interactions sv plan extra w = (Ok u, w') -> w_plans w' = w_plans w.
Proof.
  unfold _retire_interactions. destruct (retire_plan_interactions sv); [by intros [-> _]%aside_Ok|by intros [= _ ->]].
Qed.

(** [_fail_plan] reports a plan that was closed already, or closes it with this failure. *)
Lemma fail_plan_Ok plan step operation state code message w r w' : let id := plan_id_of plan in
  let user := user_of plan in
  _fail_plan sv plan step operation state code message w = (Ok r, w') ->
  (exists v, r = PlanResult v /\ get_plan id user w = (Ok v, w) /\ w' = w /\ active v = false) \/
  exists v, r = PlanFailed state operation code (py_take 500 message) v /\ failure_shown id user r w' /\
    view_of id user v.
Proof.
  cbv zeta. unfold _fail_plan. intros (current & w1 & Hg & H)%proc_bind_Ok. pose proof Hg as Hg'.
  apply get_plan_Ok in Hg as (-> & Hid & Hu & Hrow). destruct (active current) eqn:Ha; cbn [negb] in H.
  2:{ left. injection H as <- <-. by exists current. }
  right. apply proc_bind_Ok in H as (now & w2 & [= _ <-] & H).
  apply proc_bind_Ok in H as (updated & w3 & [Hm _]%to_plans_Ok & H). cbn [w_plans] in Hm. cbv zeta in H.
  apply proc_bind_Ok in H as (u1 & w4 & [He _]%aside_Ok & H).
  apply proc_bind_Ok in H as (u2 & w5 & Hc & H). apply proc_bind_Ok in H as (u3 & w6 & Hr & [= <- <-]).
  assert (Hw : w_plans w6 = w_plans w3).
  { apply retired_Ok in Hr. rewrite Hr. destruct (String.eqb state "outcome_unknown");
      (apply (ignored_Ok _ _ _ _ tt) in Hc; by rewrite Hc, He). }
  exists updated. split; [done|]. unfold failure_shown, view_of. rewrite <- Hw in Hm.
  apply mark_failed_view in Hm as [[(p & Hp & Hpa) _]|(Hget & Hv & Huv & Hva & Ht & Hs)].
  { rewrite Hrow in Hp. injection Hp as <-. unfold active in Ha. congruence. }
  split; [|done]. split; [by apply get_plan_run|done].
Qed.

Definition shown (id user : string) (o : option reply) w : Prop :=
  match o with Some r => failure_shown id user r w | None => True end.

(** Procedures whose replies are no failures, and those that pass one on *)
Ltac replies_by known := repeat (cbv zeta; first
  [ known
  | apply yields_some
  | apply yields_bind; intros ?
  | apply yields_ret; intros ?; exact I
  | match goal with |- yields _ (match ?x with _ => _ end) => destruct x end ]).
Ltac replies := replies_by fail.

Section Shown.
Context (id user : string) plan (Hview : view_of id user plan).

Lemma fail_shown step operation state code message :
  yields (failure_shown id user) (_fail_plan sv plan step operation state code message).
Proof.
  intros w r w' H. destruct Hview as [<- <-].
  apply fail_plan_Ok in H as [(v & -> & _)|(v & _ & H & _)]; [exact I|exact H].
Qed.

Lemma complete_shown i u reason skip : yields (failure_shown id user) (_complete_plan sv i u reason skip).
Proof. unfold _complete_plan. replies. Qed.

Lemma consume_shown step response : yields (shown id user) (_consume_step_response sv plan step response).
Proof.
  pose proof (fail_shown step) as Hf. pose proof complete_shown as Hc.
  unfold _consume_step_response, consume_waiting, consume_success, consume_failure.
  replies_by ltac:(first [apply Hf|apply Hc]).
Qed.

Lemma execute_shown step : yields (shown id user) (catching (execute_step sv plan step) (step_error sv plan step)).
Proof.
  apply yields_catching.
  - unfold execute_step. replies_by ltac:(apply consume_shown).
  - intros e. unfold step_error. replies_by ltac:(apply fail_shown).
Qed.
End Shown.

Lemma once_shown id user : yields (shown id user) (advance_once sv id user).
Proof.
  intros w o w' (plan & w1 & (-> & Hid & Hu & _)%get_plan_Ok & H)%proc_bind_Ok.
  revert o w' H.
  pose proof (execute_shown id user plan (conj Hid Hu)) as He. pose proof (complete_shown id user) as Hc.
  match goal with |- forall o w', ?m w = _ -> _ => enough (Hy : yields (shown id user) m) by (intros o w'; apply Hy) end.
  unfold _waiting_result. replies_by ltac:(first [apply He|apply Hc]).
Qed.

Lemma advance_shown id user fuel : yields (shown id user) (advance fuel sv id user).
Proof.
  induction fuel as [|fuel IH]; cbn [advance]; [replies|].
  intros w o w' (r & w1 & H1 & H)%proc_bind_Ok. destruct r as [r|].
  - injection H as <- <-. by apply once_shown in H1.
  - by apply IH in H.
Qed.
End Replies.
