(* ===== verification/PlanRuntimeSafety.v ===== *)
(** The guarantees of the driver of task plans. *)

From S2P Require Import Prelude PyStr Json JsonFacts Sha256 Store Procedures TaskPlans TaskPlanFacts PlanRuntime PlanRuntimeFacts.
From S2P Require Capabilities Transforms Operations PlanValidation.

#[local] Open Scope list_scope.

Section Safety.
Context {tables : UnicodeTables} {digits : UnicodeDigits} {R : Type}.
Implicit Types (sv : service (R := R)) (plan : plan_view) (step : step_view) (w : world R).

(** C7. The loop of [advance] ends, for every plan and whatever the capabilities answer: as many
    iterations as the plan has open steps, and two more, give a reply or an exception; and in
    all of them no step is invoked twice: the invocations made are of steps of this plan with
    different keys, each of which was open when the loop began, so that there are at most as many
    as the plan had open steps.  ([log] lists the invocations: a capability may do anything
    but open steps of a plan, and the other collaborators invoke no capability.  A plan has one
    step with a key, which C21 proves of the stored plans.) *)
Theorem advance_bounded (log : R -> list invocation) sv id user w fuel
  (Hlog : logged log sv) (Hunique : steps_unique (plan_steps (w_plans w)))
  (Hfuel : (S (todo id (w_plans w)) < fuel)%nat) :
  fst (advance fuel sv id user w) <> Ok None /\
  exists keys calls, log (w_rest (snd (advance fuel sv id user w))) = log (w_rest w) ++ calls /\
    Forall2 (call_of id user) keys calls /\ NoDup keys /\
    (forall key, key ∈ keys -> exists i (r : step_row), plan_steps (w_plans w) !! i = Some r /\
       plan_id r = id /\ step_key r = key /\ step_active (st_state r) = true) /\
    (length calls <= todo id (w_plans w))%nat.
Proof.
  split; [by eapply advance_ends|].
  destruct (advance_invokes log sv Hlog id user fuel w) as (keys & calls & Hinv);
    [intros i j key; by apply unique_open|].
  exists keys, calls. pose proof (invoked_length _ _ _ _ _ _ _ Hinv) as Hlen. destruct Hinv as (Hl & Hf & Hnd & Hin).
  split_and!; try done. intros key [i (r & Hr & Hid & Ha & Hk)%elem_of_open]%Hin. by exists i, r.
Qed.

(** A failure that is reported is final and is what the store says: the plan shown in the reply
    is the stored plan, closed with the state and the reason that the reply gives, and
    advancing it again changes nothing and tells the same. *)
Theorem failed_plan_stays_failed sv id user fuel w state operation code message plan w' fuel'
  (Hrun : advance fuel sv id user w = (Ok (Some (PlanFailed state operation code message plan)), w')) :
  plan_status (row_state (pv_row plan)) = state /\ terminal_reason (pv_row plan) = Some (py_take 120 code) /\
  advance (S fuel') sv id user w' = (Ok (Some (PlanResult plan)), w').
Proof.
  apply advance_shown in Hrun as (Hget & Ha & Ht & Hs). split; [done|]. split; [done|].
  cbn [advance]. rewrite proc_bind_eq. unfold advance_once. by rewrite (proc_bind_run _ _ _ _ _ Hget), Ha.
Qed.

(** What a failure does to the steps of all plans: rows that are succeeded afterwards were so before,
    and an active plan has no step with this key that is not failed. *)
Lemma fail_plan_steps sv plan step operation code message w r w' :
  _fail_plan sv plan step operation "failed" code message w = (Ok r, w') ->
  (forall i (x : step_row), plan_steps (w_plans w') !! i = Some x -> st_state x = SSucceeded ->
     plan_steps (w_plans w) !! i = Some x) /\
  (forall p : plan_row, plans (w_plans w) !! plan_id_of plan = Some p -> plan_active (row_state p) = true ->
     forall i (x : step_row), plan_steps (w_plans w') !! i = Some x -> plan_id x = plan_id_of plan ->
       step_key x = key_of step -> st_state x = SFailed).
Proof.
  unfold _fail_plan. intros (current & w1 & Hg & H)%proc_bind_Ok.
  apply get_plan_Ok in Hg as (-> & Hid & Hu & Hrow). destruct (active current) eqn:Ha; cbn [negb] in H.
  2:{ injection H as _ <-. split; [done|]. intros p Hp Hpa. rewrite Hrow in Hp. injection Hp as <-.
      unfold active in Ha. congruence. }
  apply proc_bind_Ok in H as (now & w2 & [= _ <-] & H).
  apply proc_bind_Ok in H as (updated & w3 & [Hm _]%to_plans_Ok & H). cbn [w_plans] in Hm. cbv zeta in H.
  apply proc_bind_Ok in H as (u1 & w4 & [He _]%aside_Ok & H). apply proc_bind_Ok in H as (u2 & w5 & Hc & H).
  apply proc_bind_Ok in H as (u3 & w6 & Hr & [= _ <-]). apply retired_Ok in Hr. apply (ignored_Ok _ _ _ _ tt) in Hc.
  rewrite Hr, Hc, He. clear Hr Hc He. apply mark_failed_cases in Hm as [(p & Hp & Hpa)|(st & plan_st & [= <- _] & Heff)].
  { rewrite Hrow in Hp. injection Hp as <-. unfold active in Ha. congruence. }
  destruct Heff as (p & _ & _ & _ & Hs & _). split.
  - intros i x Hx Hst. rewrite Hs in Hx. apply fmap_Some in Hx as (y & Hy & ->). unfold at_steps in *.
    destruct (is_step _ _ y); cbn in *; destruct (in_states _ _ _) eqn:E; done.
  - intros _ _ _ i x Hx Hxid Hk. rewrite Hs in Hx. apply fmap_Some in Hx as (y & Hy & ->). unfold at_steps in *.
    destruct (is_step (plan_id_of plan) (key_of step) y) eqn:E.
    + unfold in_states. cbn. by rewrite andb_false_r.
    + exfalso. assert (Hyk : plan_id y = plan_id_of plan /\ step_key y = key_of step)
        by (destruct (in_states _ _ y); done).
      apply not_true_iff_false in E. apply E. by apply is_step_spec.
Qed.

(** A projection of the result changes no step. *)
Lemma store_steps sv plan step operation kvs w u w' :
  _store_result_projection sv plan step operation kvs w = (Ok u, w') ->
  plan_steps (w_plans w') = plan_steps (w_plans w) /\
  forall id (p : plan_row), plans (w_plans w) !! id = Some p ->
    exists p' : plan_row, plans (w_plans w') !! id = Some p' /\ row_state p' = row_state p.
Proof.
  unfold _store_result_projection. intros (t & _ & H)%proc_of_result_bind.
  destruct (Transforms.result_projection t) as [kind|]; [|injection H as _ <-; split; [done|eauto]].
  destruct (negb (truthy kind)); [injection H as _ <-; split; [done|eauto]|].
  apply proc_of_result_bind in H as (projection & _ & H). apply proc_bind_Ok in H as (now & w1 & [= _ <-] & H).
  apply proc_bind_Ok in H as (updated & w2 & [Hp _]%to_plans_Ok & H). cbn [w_plans] in Hp.
  assert (Hw : w_plans w' = w_plans w2).
  { destruct (String.eqb kind "private_draft"); [|by injection H as _ <-].
    apply proc_of_result_bind in H as (a & _ & H). apply proc_of_result_bind in H as (b & _ & H). by apply aside_Ok in H as [-> _]. }
  rewrite Hw. clear H Hw. unfold set_result_projection in Hp.
  apply tx_bind_Ok in Hp as (p & s1 & (-> & Hrow & _)%tp_select_owned_Ok & H).
  unfold update_plan in H. rewrite tx_modify_bind in H. apply refreshed_state in H as ->. split; [done|].
  intros id q Hq. cbn [set_plans plans]. rewrite (update_key_all _ _ (plans (w_plans w)) p Hrow).
  destruct (base.decide (id = plan_id_of plan)) as [->|Hne]; [|rewrite lookup_insert_ne by done; eauto].
  rewrite lookup_insert_eq. rewrite Hrow in Hq. injection Hq as <-. by eexists.
Qed.

(** C15. Incomplete sources stop a plan before its write: when a transform that halts on incomplete
    sources has such a result and the plan would write, no step is recorded as succeeded, the
    one with this result is recorded as failed (unless the plan was closed before), and the
    loop does not go on: the plan is closed. *)
Theorem incomplete_source_halts sv plan step operation_id operation kvs t w r w'
  (Hkind : step_kind (sv_row step) = "transform")
  (Ht : Transforms.get (or_empty (transform_name (sv_row step))) (transforms sv) = Ok t)
  (Hresult : Operations.v_result operation = JObj kvs)
  (Hhalts : Transforms.halts_on_incomplete t = true) (Hincomplete : source_incomplete kvs = Ok true)
  (Hsink : _has_write_sink sv plan = true)
  (Hrun : consume_success sv plan step operation_id operation w = (Ok r, w')) :
  (forall i (x : step_row), plan_steps (w_plans w') !! i = Some x -> st_state x = SSucceeded ->
     plan_steps (w_plans w) !! i = Some x) /\
  (forall p : plan_row, plans (w_plans w) !! plan_id_of plan = Some p -> plan_active (row_state p) = true ->
     forall i (x : step_row), plan_steps (w_plans w') !! i = Some x -> plan_id x = plan_id_of plan ->
       step_key x = key_of step -> st_state x = SFailed) /\
  exists current, get_plan (plan_id_of plan) (user_of plan) w' = (Ok current, w') /\ active current = false /\
    (r = Some (PlanResult current) \/
     exists message, r = Some (PlanFailed "failed" (Some operation_id) "PLAN_SOURCE_INCOMPLETE" message current) /\
       terminal_reason (pv_row current) = Some "PLAN_SOURCE_INCOMPLETE").
Proof.
  revert Hrun. unfold consume_success. cbv zeta. rewrite Hkind, Hresult. cbn [String.eqb Ascii.eqb Bool.eqb].
  intros (halted & w1 & Hh & H)%proc_bind_Ok.
  apply proc_bind_Ok in Hh as (u & w2 & [Hs Hp]%store_steps & Hh). rewrite Ht in Hh. cbn [of_result] in Hh.
  apply proc_of_result_bind in Hh as (t' & [= <-] & Hh). rewrite Hhalts in Hh.
  apply proc_of_result_bind in Hh as (b & Hb & Hh). rewrite Hincomplete in Hb. injection Hb as <-.
  rewrite Hsink in Hh. injection Hh as <- <-. cbn [andb] in H.
  apply proc_bind_Ok in H as (reply & w3 & Hf & [= <- <-]).
  destruct (fail_plan_steps _ _ _ _ _ _ _ _ _ Hf) as [Hsucc Hfail]. rewrite <- Hs. split; [done|]. split.
  { intros p Hrow Ha. destruct (Hp _ _ Hrow) as (p' & Hp' & E). apply (Hfail p' Hp'). by rewrite E. }
  apply fail_plan_Ok in Hf as [(v & -> & Hg & -> & Hv)|(v & -> & (Hg & Hv & Hreason & _) & _)]; exists v.
  - split; [done|]. split; [done|]. by left.
  - split; [done|]. split; [done|]. right. eexists. split; [done|]. exact Hreason.
Qed.

(** ** Arguments *)

(** The value that a reference stands for: at a pointer of the result of the operation of a step
    of the plan that has succeeded, an operation of the same user *)
Definition reference_value plan w (reference v : json) : Prop :=
  exists source pointer i (r : step_row) operation_id operation,
    jget reference "step" = Some source /\ jget reference "pointer" = Some (JStr pointer) /\
    plan_steps (w_plans w) !! i = Some r /\ plan_id r = plan_id_of plan /\ step_key r = py_str source /\
    st_state r = SSucceeded /\ TaskPlans.operation_id r = Some operation_id /\
    Operations.get operation_id (w_operations w) = Ok operation /\
    Operations.v_user_subject operation = user_of plan /\
    PlanValidation.resolve_json_pointer (Operations.v_result operation) pointer = Ok v.

Definition binding_value plan w (binding v : json) : Prop :=
  exists references values, references_of binding = Ok references /\
    Forall2 (reference_value plan w) references values /\
    if is_many (jget_or_null binding "mode") then v = JArr values else values = [v].

Lemma step_output_Ok id user key s operation s' : step_output_operation id user key s = Ok (operation, s') ->
  s' = s /\ exists i (r : step_row), plan_steps s !! i = Some r /\ plan_id r = id /\ step_key r = key /\
    st_state r = SSucceeded /\ TaskPlans.operation_id r = Some operation.
Proof.
  unfold step_output_operation. intros (p & s1 & [-> _]%tp_select_owned_Ok & H)%tx_bind_Ok.
  apply tx_bind_Ok in H as ([i r] & s1 & Hr & H). apply select_step_row in Hr as (-> & Hi & Hid & Hk).
  apply tx_raise_if_bind in H as [Hst H]. apply tx_ret_Ok in H as [-> ->]. split; [done|].
  cbn [snd] in *. bool_simpl. exists i, r. repeat (split; [done|]).
  destruct (TaskPlans.operation_id r) as [o|]; done.
Qed.

Lemma subscript_Ok v key x : subscript v key = Ok x <-> jget v key = Some x.
Proof. unfold subscript, jget. destruct v; try done. destruct (assoc _ _); naive_solver. Qed.

Lemma resolve_reference_Ok plan reference w v w' : resolve_reference plan reference w = (Ok v, w') ->
  w' = w /\ reference_value plan w reference v.
Proof.
  unfold resolve_reference. intros (source & Hs%subscript_Ok & H)%proc_of_result_bind.
  apply proc_bind_Ok in H as (o & w1 & [Ho Hw]%to_plans_Ok & H).
  apply step_output_Ok in Ho as (E & i & r & Hi & Hid & Hk & Hst & Hop).
  rewrite E, world_eta in Hw. subst w1.
  apply proc_bind_Ok in H as (operation & w1 & [= Hg <-] & H).
  apply proc_bind_Ok in H as (u & w1 & Hu & H). destruct (String.eqb_spec (Operations.v_user_subject operation) (user_of plan)) as [Eu|];
    [|done]. injection Hu as <- <-.
  apply proc_of_result_bind in H as (pointer & Hp%subscript_Ok & H). injection H as H <-.
  split; [done|]. destruct pointer as [| | | |pointer| |]; try done.
  exists source, pointer, i, r, o, operation. done.
Qed.

Lemma resolve_references_Ok plan references : forall w values w',
  resolve_references plan references w = (Ok values, w') ->
  w' = w /\ Forall2 (reference_value plan w) references values.
Proof.
  induction references as [|x rest IH]; intros w values w'; cbn [resolve_references]; [by intros [= <- <-]|].
  intros (v & w1 & [-> Hv]%resolve_reference_Ok & H)%proc_bind_Ok.
  apply proc_bind_Ok in H as (vs & w2 & [-> Hvs]%IH & [= <- <-]). split; [done|]. by constructor.
Qed.

Lemma resolve_binding_Ok plan binding w v w' : resolve_binding plan binding w = (Ok v, w') ->
  w' = w /\ binding_value plan w binding v.
Proof.
  unfold resolve_binding. intros (references & Hr & H)%proc_of_result_bind.
  apply proc_bind_Ok in H as (values & w1 & [-> Hv]%resolve_references_Ok & H).
  apply proc_of_result_bind in H as (mode & Hm & H).
  assert (Hmode : mode = jget_or_null binding "mode").
  { destruct binding; try done. by injection Hm as <-. }
  unfold binding_value. rewrite <- Hmode. destruct (is_many mode) eqn:E.
  - injection H as <- <-. split; [done|]. by exists references, values.
  - assert (Hone : references = [binding]).
    { unfold references_of in Hr. rewrite Hm in Hr. cbn [pbind mbind] in Hr.
      apply result_bind_Ok in Hr as (m & [= <-] & Hr). rewrite E in Hr. by injection Hr as <-. }
    destruct values as [|x values]; [done|]. injection H as <- <-. split; [done|].
    exists references, (x :: values). split; [done|]. split; [done|].
    rewrite Hone in Hv. by inversion Hv as [|? ? ? ? _ Hnil]; inversion Hnil.
Qed.

Lemma resolve_bindings_Ok plan bindings : NoDup (map fst bindings) -> forall w literal arguments w',
  resolve_bindings plan bindings literal w = (Ok arguments, w') ->
  w' = w /\ forall name,
    match assoc name bindings with
    | Some binding => exists v, assoc name arguments = Some v /\ binding_value plan w binding v
    | None => assoc name arguments = assoc name literal
    end.
Proof.
  induction bindings as [|[target binding] bindings IH]; intros Hnd w literal arguments w'; cbn [resolve_bindings].
  { by intros [= <- <-]. }
  cbn [map fst] in Hnd. apply NoDup_cons in Hnd as [Hnotin Hnd].
  intros (v & w1 & [-> Hv]%resolve_binding_Ok & H)%proc_bind_Ok.
  apply (IH Hnd) in H as [-> Hall]. split; [done|]. intros name. cbn [assoc]. specialize (Hall name).
  destruct (String.eqb_spec name target) as [->|Hne].
  - destruct (assoc target bindings) as [b|] eqn:E.
    { destruct Hnotin. apply list_elem_of_In, assoc_keys. by exists b. }
    exists v. split; [|done]. by rewrite Hall, assoc_dict_set, String.eqb_refl.
  - destruct (assoc name bindings); [done|]. rewrite Hall, assoc_dict_set.
    destruct (String.eqb_spec name target); [done|reflexivity].
Qed.

(** C9. Data flows only from recorded results: the arguments that a step is invoked with are the
    literal arguments of the plan, and at every bound input the value at the given pointer of the
    result of an operation that a succeeded step of this plan recorded for this user; resolving
    them changes nothing. *)
Theorem arguments_from_results plan step w arguments w' bindings
  (Hbindings : dict_of (sv_bindings step) = Ok bindings) (Hnames : NoDup (map fst bindings))
  (Hrun : _resolve_step_arguments plan step w = (Ok arguments, w')) :
  w' = w /\ exists literal,
    dict_of (match sv_arguments step with Some v => v | None => JNull end) = Ok literal /\
    forall name,
      match assoc name bindings with
      | Some binding => exists v, assoc name arguments = Some v /\ binding_value plan w binding v
      | None => assoc name arguments = assoc name literal
      end.
Proof.
  revert Hrun. unfold _resolve_step_arguments. rewrite Hbindings.
  intros (literal & Hl & H)%proc_of_result_bind. apply proc_of_result_bind in H as (b & [= <-] & H).
  apply resolve_bindings_Ok in H as [-> H]; [|done]. split; [done|]. by exists literal.
Qed.
End Safety.

(** ** Recovery *)

Section Recovery.
Context {tables : UnicodeTables} {digits : UnicodeDigits} {R : Type} (calls : R -> nat) (sv : service (R := R))
  (C : contract calls sv) (id : string).
Implicit Types (plan : plan_view) (step : step_view) (w : world R) (s : summary).

(** The commit of the plan was entered. *)
Definition committed w : Prop :=
  exists p : plan_row, plans (w_plans w) !! id = Some p /\ opt_truthy (commit_operation_id p) = true.

Definition keeps_commit (t t' : TaskPlans.store) : Prop :=
  forall p : plan_row, plans t !! id = Some p ->
    exists p' : plan_row, plans t' !! id = Some p' /\ commit_operation_id p' = commit_operation_id p.

#[local] Instance keeps_commit_preorder : PreOrder keeps_commit.
Proof.
  split; [intros t p Hp; by exists p|]. intros t1 t2 t3 H12 H23 p Hp.
  destruct (H12 p Hp) as (p2 & Hp2 & E2). destruct (H23 p2 Hp2) as (p3 & Hp3 & E3). exists p3. split; [done|congruence].
Qed.

Lemma committed_kept w w' : keeps_commit (w_plans w) (w_plans w') -> committed w -> committed w'.
Proof. intros H (p & Hp & Hc). destruct (H p Hp) as (p' & Hp' & E). exists p'. by rewrite E. Qed.

Lemma effect_commit f g t t' : (forall p, commit_operation_id (f p) = commit_operation_id p) ->
  effect_on id f g t t' -> keeps_commit t t'.
Proof.
  intros Hf (p & Hp & _ & Hplans & _) q Hq. exists (f p). rewrite Hplans, lookup_insert_eq.
  split; [done|]. rewrite Hf. congruence.
Qed.

Lemma succeeded_commit user key operation input output now t v t' :
  mark_step_succeeded id user key operation input output now t = Ok (v, t') -> keeps_commit t t'.
Proof.
  intros [->|(i & r & _ & _ & _ & _ & He)]%update_step_Ok; [reflexivity|]. by eapply effect_commit; [|exact He].
Qed.

Lemma project_commit user projection now t v t' :
  set_result_projection id user projection now t = Ok (v, t') -> keeps_commit t t'.
Proof.
  unfold set_result_projection. intros (p & s1 & (-> & Hp & _)%tp_select_owned_Ok & H)%tx_bind_Ok.
  unfold update_plan in H. rewrite tx_modify_bind in H. apply refreshed_state in H as ->.
  intros q Hq. rewrite Hp in Hq. injection Hq as <-. cbn [set_plans plans].
  rewrite (update_key_all id _ (plans t) p Hp), lookup_insert_eq. by eexists.
Qed.

Lemma store_commit plan step operation kvs w u w' : plan_id_of plan = id ->
  _store_result_projection sv plan step operation kvs w = (Ok u, w') -> keeps_commit (w_plans w) (w_plans w').
Proof.
  intros Hid. unfold _store_result_projection. intros (t & _ & H)%proc_of_result_bind.
  destruct (Transforms.result_projection t) as [kind|]; [|by injection H as _ <-].
  destruct (negb (truthy kind)); [by injection H as _ <-|].
  apply proc_of_result_bind in H as (projection & _ & H). apply proc_bind_Ok in H as (now & w1 & [= _ <-] & H).
  apply proc_bind_Ok in H as (updated & w2 & [Hp _]%to_plans_Ok & H). rewrite Hid in Hp.
  apply project_commit in Hp. cbn [w_plans] in Hp. destruct (String.eqb kind "private_draft"); [|by injection H as _ <-].
  apply proc_of_result_bind in H as (a & _ & H). apply proc_of_result_bind in H as (b & _ & H).
  apply aside_Ok in H as [-> _]. done.
Qed.

Lemma consume_commit plan step response w w' : plan_id_of plan = id ->
  _consume_step_response sv plan step response w = (Ok None, w') -> keeps_commit (w_plans w) (w_plans w').
Proof.
  intros Hid (operation_id & operation & w1 & <- & H)%consume_inv.
  apply consume_success_inv in H as (w2 & Hw2 & now & v & Hm). rewrite Hid in Hm. apply succeeded_commit in Hm.
  etrans; [|exact Hm]. destruct Hw2 as [->|(kvs & u & Hs)]; [reflexivity|]. by apply store_commit in Hs.
Qed.

(** While the commit is in flight the driver invokes nothing. *)
Lemma once_committed user w : committed w ->
  fst (advance_once sv id user w) <> Ok None /\
  (calls (w_rest (snd (advance_once sv id user w))) <= calls (w_rest w))%nat.
Proof.
  intros (p & Hp & Hc). unfold advance_once. rewrite proc_bind_eq.
  destruct (get_plan id user w) as [[plan|e] w1] eqn:E.
  2:{ pose proof (calm_get calls id id user w) as [_ H]. rewrite E in H. cbn in *. by rewrite <- H. }
  apply get_plan_Ok in E as (-> & _ & _ & Hrow). rewrite Hp in Hrow. injection Hrow as <-.
  destruct (negb (active plan)); [done|]. rewrite Hc. destruct (forallb _ _); [|done]. rewrite proc_bind_eq.
  destruct (complete_calm calls sv (ct_asides _ _ C) id id user "all_steps_succeeded" false w) as [_ H].
  destruct (_complete_plan _ _ _ _ _ _) as [[r|e] w2]; cbn in *; by rewrite H.
Qed.

Lemma advance_committed user fuel w : committed w ->
  (calls (w_rest (snd (advance fuel sv id user w))) <= calls (w_rest w))%nat.
Proof.
  intros Hc. destruct fuel as [|fuel]; [done|]. cbn [advance]. rewrite proc_bind_eq.
  destruct (once_committed user w Hc) as [Hr Hcalls]. by destruct (advance_once sv id user w) as [[[r|]|e] w1].
Qed.

(** [m] invokes nothing when it starts where [Pre] holds. *)
Definition still {A} (Pre : world R -> Prop) (m : proc (world R * summary) A) : Prop := forall w s, Pre w ->
  (calls (w_rest (fst (snd (m (w, s))))) <= calls (w_rest w))%nat.

Lemma still_bind {A B} Pre (Mid : A -> world R -> Prop) (m : proc (world R * summary) A) (k : A -> proc _ B) :
  still Pre m -> (forall w s a w' s', Pre w -> m (w, s) = (Ok a, (w', s')) -> Mid a w') ->
  (forall a, still (Mid a) (k a)) -> still Pre (x ← m; k x).
Proof.
  intros Hm HMid Hk w s Hw. rewrite proc_bind_eq. pose proof (Hm w s Hw) as H1.
  destruct (m (w, s)) as [[a|e] [w1 s1]] eqn:E; cbn [fst snd] in *; [|done].
  pose proof (Hk a w1 s1 (HMid _ _ _ _ _ Hw E)). lia.
Qed.

Lemma still_inside {A} Pre (m : proc (world R) A) : calm_proc calls id m -> still Pre (inside m).
Proof. intros H w s _. unfold inside. destruct (H w) as [_ Hc]. destruct (m w); cbn in *. by rewrite Hc. Qed.
Lemma still_ret {A} Pre (a : A) : still Pre (mret a).
Proof. by intros w s _. Qed.
Lemma still_tally Pre key : still Pre (tally key).
Proof. by intros w s _. Qed.

Lemma still_weaken {A} (Pre Pre' : world R -> Prop) (m : proc (world R * summary) A) :
  (forall w, Pre w -> Pre' w) -> still Pre' m -> still Pre m.
Proof. intros Himp Hm w s Hw. by apply Hm, Himp. Qed.

(** A call that leaves the plans alone, then the rest *)
Lemma still_call {A B} (m : proc (world R) A) (k : A -> proc (world R * summary) B) :
  calm_proc calls id m -> (forall w a w', m w = (Ok a, w') -> w_plans w' = w_plans w) ->
  (forall a, still committed (k a)) -> still committed (x ← inside m; k x).
Proof.
  intros Hm Hplans Hk. apply (still_bind _ (fun _ => committed)); [by apply still_inside| |done].
  intros w s a w' s' Hw H. unfold inside in H. destruct (m w) as [b w1] eqn:E. injection H as -> <- <-.
  apply Hplans in E. unfold committed. by rewrite E.
Qed.

Lemma still_last {A B} (m : proc (world R) A) (k : A -> proc (world R * summary) B) :
  calm_proc calls id m -> (forall a, still (fun _ => True) (k a)) -> still committed (x ← inside m; k x).
Proof. intros Hm Hk. apply (still_bind _ (fun _ _ => True)); [by apply still_inside|done|done]. Qed.

Lemma tally_then key : still (fun _ => True) (tally key;; mret (Some tt)).
Proof. by intros w s _. Qed.

Lemma recover_commit_still fuel plan commit : plan_id_of plan = id -> still committed (recover_commit fuel sv plan commit).
Proof.
  intros Hid. unfold recover_commit. destruct (List.find _ _) as [step|]; [|by intros w s _].
  destruct (bool_decide _).
  { apply still_last; [rewrite Hid; apply (complete_calm calls sv (ct_asides _ _ C))|]. intros r. apply tally_then. }
  apply still_call; [calm|by intros w a w' [= _ <-]|]. intros operation.
  destruct (_ && _); [by intros w s _|].
  apply (still_bind _ (fun _ => committed)).
  { destruct (unfinished_status operation); [|apply still_ret].
    apply still_call; [calm|by intros w a w' [= _ <-]|]. intros now. apply still_inside. calm. }
  { intros w s a w' s' Hw H. destruct (unfinished_status operation); [|by injection H as _ <- _].
    unfold inside in H. rewrite proc_bind_eq in H. cbn [draw] in H. unfold to_operations in H. cbn [w_operations] in H.
    destruct (Operations.mark_unknown _ _ _ _ _) as [[v|e] t]; [|done]. by injection H as _ <- _. }
  clear operation. intros operation.
  apply (still_bind _ (fun r w => r = None -> committed w)).
  { apply still_inside, (consume_calm calls sv (ct_asides _ _ C)). }
  { intros w s a w' s' Hw H ->. unfold inside in H. destruct (_consume_step_response _ _ _ _ w) as [b w1] eqn:E.
    injection H as -> <- <-. apply consume_commit in E; [|done]. by eapply committed_kept. }
  intros response. apply (still_bind _ (fun _ _ => True)); [|done|].
  - destruct response as [r|]; [by apply still_ret|]. intros w s Hw. unfold inside. rewrite Hid.
    pose proof (advance_committed (user_of plan) fuel w (Hw eq_refl)). by destruct (advance _ _ _ _ w).
  - intros [r|]; [apply tally_then|apply still_ret].
Qed.

(** C8. Recovery replays no write: when the commit of a plan has been entered, looking at the plan after a
    restart invokes no capability, whatever its operation says and whatever the collaborators
    answer; at most the outcome is recorded. *)
Theorem recovery_replays_no_write fuel (candidate : plan_view) w s (p : plan_row)
  (Hid : plan_id_of candidate = id)
  (Hplan : plans (w_plans w) !! id = Some p) (Hcommit : opt_truthy (commit_operation_id p) = true) :
  (calls (w_rest (fst (snd (recover_candidate fuel sv candidate (w, s))))) <= calls (w_rest w))%nat.
Proof.
  unfold recover_candidate. rewrite proc_bind_eq. cbn [tally]. unfold catching. rewrite Hid.
  set (s1 := Summary _ _). rewrite proc_bind_eq. unfold inside at 1.
  destruct (get_plan id (user_of candidate) w) as [[plan|e] w1] eqn:E.
  2:{ pose proof (calm_get calls id id (user_of candidate) w) as [_ H]. rewrite E in H. cbn in *. rewrite <- H. exact (le_n _). }
  apply get_plan_Ok in E as (-> & Hpid & _ & Hrow). rewrite Hplan in Hrow. injection Hrow as Hrow. subst p.
  rewrite Hcommit. pose proof (recover_commit_still fuel plan (or_empty (commit_operation_id (pv_row plan))) Hpid w s1) as Hs.
  destruct (recover_commit _ _ _ _ _) as [[o|e] [w2 s2]]; cbn [fst snd] in Hs |- *; apply Hs; by exists (pv_row plan).
Qed.
End Recovery.

(** ** Concrete inputs

    The guarantees of the driver, applied to a plan that reads, drafts and prepares a write. *)

#[local] Open Scope list_scope.

Module PlanRuntimeSafetyDemo.
#[local] Existing Instance ascii_tables.
#[local] Existing Instance ascii_digits.

Definition any_object : json := JObj [("type", JStr "object"); ("additionalProperties", JBool true)].

Definition capability (name effect : string) : Capabilities.CapabilitySpec :=
  Capabilities.Spec name "0.1.0" "d" (JObj [("type", JStr "object");
    ("properties", JObj [("content", JObj [("type", JStr "string")]); ("limit", JObj [("type", JStr "integer")])])])
    (JObj []) effect "adapter" "workflow".

Definition capabilities : Capabilities.CapabilityRegistry :=
  {[ "oa.read" := capability "oa.read" "read"; "oa.prepare" := capability "oa.prepare" "controlled_write" ]}.

(** A transform that halts on incomplete sources *)
Definition summarize : Transforms.TransformSpec := {|
  Transforms.name := "summarize.v1"; Transforms.description := "d"; Transforms.input_schema := any_object;
  Transforms.output_schema := any_object; Transforms.maximum_input_items := 10; Transforms.maximum_output_chars := 100;
  Transforms.halts_on_empty := false; Transforms.halts_on_incomplete := true; Transforms.result_projection := None;
  Transforms.required_bound_inputs := []; Transforms.input_item_counter := None |}.

Definition transform_registry : Transforms.TransformRegistry :=
  Transforms.Registry {[ "summarize.v1" := summarize ]} {[ "summarize.v1" := (fun v => Ok v) ]}.

(** An invocation records an operation with the result [answer]; the rest of the world is the list of
    them. *)
Definition invoke_with (answer : result json) (c : invocation) (w : world (list invocation)) : result dict * world (list invocation) :=
  let id := "op-" +:+ i_capability_name c in
  let args := {| Operations.a_user_subject := i_user_subject c; Operations.a_capability_name := i_capability_name c;
                 Operations.a_capability_version := "0.1.0"; Operations.a_input_summary := JObj [];
                 Operations.a_input_identity := None; Operations.a_idempotency_key := Some (i_idempotency_key c);
                 Operations.a_request_id := None |} in
  let t1 := snd (Operations.create args 5%Z id "rq" (w_operations w) (w_operations w)) in
  let '(r, t2) := match answer with
    | Ok v => Operations.mark_succeeded id v 6%Z t1
    | Raise e => Operations.mark_failed id "DOWN" (exn_message e) 6%Z t1
    end in
  ((operation ← r; Ok [("operationId", JStr id);
                       ("status", JStr (Operations.status_text (Operations.v_status operation)))]),
   World (w_plans w) t2 (w_rest w ++ [c]) (w_draws w)).

Definition nothing {A} (a : A) : aside (R := list invocation) A := fun w => (Ok a, w_rest w).

Definition service_with (answer : result json) : service (R := list invocation) := {|
  registry := capabilities; transforms := transform_registry; _started_at := 100%Z;
  clock := Z.of_nat; fresh := fun n => "id" +:+ str_of_Z (Z.of_nat n);
  invoke := invoke_with answer;
  record_plan_event := fun _ => nothing tt; link_plan_operation := fun _ _ _ _ _ => nothing tt;
  link_interaction := fun _ _ _ => nothing tt; cancel_task := fun _ => nothing tt; complete_task := fun _ => nothing tt;
  fail_task := fun _ => nothing tt; mark_task_outcome_unknown := fun _ => nothing tt;
  _load_interaction := fun _ _ => nothing (JNull, JObj []);
  validate_task_plan_authority := None; retire_plan_interactions := None |}.

Lemma service_asides {T} (seen : list invocation -> T) answer : asides seen (service_with answer).
Proof. by split. Qed.

Lemma service_logged answer : logged id (service_with answer).
Proof.
  split; [apply service_asides| |].
  - intros c w i. cbn [invoke service_with]. unfold invoke_with. cbv zeta. by destruct (match answer with Ok _ => _ | _ => _ end).
  - intros c w. cbn [invoke service_with]. unfold invoke_with. cbv zeta. by destruct (match answer with Ok _ => _ | _ => _ end).
Qed.

Lemma service_contract answer : contract length (service_with answer).
Proof.
  split; [apply service_asides|]. intros c w. pose proof (lg_calls id _ (service_logged answer) c w) as H.
  unfold id in H. rewrite H, length_app. cbn. lia.
Qed.

Definition compiled (key kind : string) (ordinal : Z) (capability transform : option string) (version : string)
    (deps : list string) (arguments bindings : json) (effect : string) : compiled_step :=
  CompiledStep key ordinal kind JNull capability transform (JStr version) (JArr (map JStr deps)) arguments bindings effect "oa".

Definition read_step := compiled "read" "capability" 1 (Some "oa.read") None "0.1.0" []
  (JObj [("limit", JInt 5)]) (JObj []) "read".
Definition draft_step := compiled "draft" "transform" 2 None (Some "summarize.v1") "1" ["read"] (JObj [])
  (JObj [("bundle", JObj [("step", JStr "read"); ("pointer", JStr "")])]) "none".
Definition write_step := compiled "write" "capability" 3 (Some "oa.prepare") None "0.1.0" ["read"] (JObj [])
  (JObj [("content", JObj [("step", JStr "read"); ("pointer", JStr "/draft")])]) "controlled_write".

Definition request (steps : list compiled_step) : create_args :=
  CreateArgs "u1" "task" (CompiledPlan (JStr "g") (JStr "h") steps (JObj []) JNull JNull JNull) "agent_host" None None.
Definition prepared_args : prepared := Prepared "u1" "task" "agent_host" "g" "h" None.
Definition step_ids (n : nat) : string := match n with 0 => "s1" | 1 => "s2" | _ => "s3" end.

Definition created (steps : list compiled_step) : world (list invocation) :=
  World (after (create_body (request steps) prepared_args 0%Z "p" step_ids) (MkStore ∅ ∅ ∅)) ∅ [] 0%nat.

Definition drafting : json := JObj [("draft", JStr "text"); ("coverage", JObj [("status", JStr "complete")])].
Definition working : service (R := list invocation) := service_with (Ok drafting).
Definition failing : service (R := list invocation) := service_with (raise RuntimeError "the system is down").

Definition w0 : world (list invocation) := created [read_step; write_step].

Example runs : (match fst (advance 10 working "p" "u1" w0) with Ok (Some r) => reply_status r | _ => "" end)
  = "succeeded" /\ length (w_rest (snd (advance 10 working "p" "u1" w0))) = 2%nat.
Proof. vm_compute. split; reflexivity. Qed.
Lemma steps_unique_w0 : steps_unique (plan_steps (w_plans w0)).
Proof.
  assert (H0 : steps_unique (plan_steps (MkStore ∅ ∅ ∅))) by (by intros i j r1 r2 H).
  change (steps_unique (plan_steps (after (create_body (request [read_step; write_step]) prepared_args 0%Z "p" step_ids)
    (MkStore ∅ ∅ ∅)))).
  edestruct (after_cases (create_body (request [read_step; write_step]) prepared_args 0%Z "p" step_ids)) as [->|[x E]];
    [exact H0|].
  apply plan_body_Ok in E as [[E _]|(_ & _ & _ & _ & _ & Hu & _)]; [by rewrite E|exact Hu|exact H0].
Qed.

Lemma advance_bounded_witness : (S (todo "p" (w_plans w0)) < 10)%nat /\
  fst (advance 10 working "p" "u1" w0) <> Ok None /\
  exists keys calls, w_rest (snd (advance 10 working "p" "u1" w0)) = calls /\
    Forall2 (call_of "p" "u1") keys calls /\ NoDup keys /\ (length calls <= 2)%nat.
Proof.
  assert (Hf : (S (todo "p" (w_plans w0)) < 10)%nat) by (vm_compute; lia). split; [exact Hf|].
  destruct (advance_bounded (fun l => l) working "p" "u1" w0 10 (service_logged (Ok drafting)) steps_unique_w0 Hf)
    as (Hend & keys & calls & Hl & Hcalls & Hnd & _ & Hlen).
  split; [exact Hend|]. exists keys, calls. split; [exact Hl|]. split; [exact Hcalls|]. split; [exact Hnd|].
  assert (E : todo "p" (w_plans w0) = 2%nat) by (vm_compute; reflexivity). rewrite E in Hlen. exact Hlen.
Defined.

(** The capability fails, and the plan with it. *)
Lemma failed_plan_stays_failed_witness : exists code message plan w',
  advance 10 failing "p" "u1" w0 = (Ok (Some (PlanFailed "failed" (Some "op-oa.read") code message plan)), w') /\
  advance 1 failing "p" "u1" w' = (Ok (Some (PlanResult plan)), w').
Proof.
  destruct (advance 10 failing "p" "u1" w0) as [[[r|]|e] w'] eqn:E; try (vm_compute in E; discriminate E).
  destruct r as [plan|operation plan|operation plan|operation i n plan|state operation code message plan|m plan];
    try (vm_compute in E; discriminate E).
  assert (Hs : state = "failed" /\ operation = Some "op-oa.read")
    by (vm_compute in E; injection E as <- <- _ _ _ _; split; reflexivity).
  destruct Hs as [-> ->]. exists code, message, plan, w'. split; [reflexivity|].
  exact (proj2 (proj2 (failed_plan_stays_failed failing "p" "u1" 10 w0 "failed" (Some "op-oa.read") code message plan w' 0 E))).
Defined.

(** The first step of this plan summarizes nothing complete. *)
Definition lone_draft := compiled "draft" "transform" 1 None (Some "summarize.v1") "1" [] (JObj []) (JObj []) "none".
Definition begun (w : world (list invocation)) := to_plans (begin_next_step "p" "u1" 3%Z) w.
Definition w1 : world (list invocation) := snd (begun (created [lone_draft; write_step])).

Definition partial : Operations.view :=
  Operations.View "op1" "rq" "u1" "transform.summarize.v1" "1" "hash" None Operations.Succeeded None None 0%Z 0%Z
    None (JObj []) (JObj [("coverage", JObj [("status", JStr "partial")])]) JNull None.

Lemma incomplete_source_halts_witness : exists plan step r w',
  consume_success working plan step "op1" partial w1 = (Ok r, w') /\
  (forall i (x : step_row), plan_steps (w_plans w') !! i = Some x -> st_state x = SSucceeded ->
     plan_steps (w_plans w1) !! i = Some x) /\
  exists current, get_plan "p" "u1" w' = (Ok current, w') /\ active current = false.
Proof.
  destruct (get_plan "p" "u1" w1) as [[plan|e] w] eqn:Ep; [|vm_compute in Ep; discriminate Ep].
  destruct (begun (created [lone_draft; write_step])) as [[[[step started]|]|e] wb] eqn:Eb; try (vm_compute in Eb; discriminate Eb).
  assert (Hplan : plan_id_of plan = "p" /\ user_of plan = "u1" /\ _has_write_sink working plan = true)
    by (vm_compute in Ep; injection Ep as <- _; vm_compute; repeat split).
  assert (Hstep : step_kind (sv_row step) = "transform" /\ or_empty (transform_name (sv_row step)) = "summarize.v1")
    by (vm_compute in Eb; injection Eb as <- _ _; vm_compute; repeat split).
  destruct (consume_success working plan step "op1" partial w1) as [[r|e] w'] eqn:E.
  2:{ vm_compute in Ep. injection Ep as <- _. vm_compute in Eb. injection Eb as <- _ _. vm_compute in E. discriminate E. }
  exists plan, step, r, w'. split; [exact E|]. destruct Hplan as (Hid & Hu & Hsink). destruct Hstep as [Hk Hn].
  destruct (incomplete_source_halts working plan step "op1" partial [("coverage", JObj [("status", JStr "partial")])]
    summarize w1 r w' Hk) as (Hnone & _ & current & Hg & Ha & _).
  - rewrite Hn. reflexivity.
  - reflexivity.
  - reflexivity.
  - reflexivity.
  - exact Hsink.
  - exact E.
  - split; [exact Hnone|]. exists current. rewrite Hid, Hu in Hg. exact (conj Hg Ha).
Defined.

(** The write is prepared with the draft that the read returned. *)
Definition w2 : world (list invocation) := snd (begun (snd (advance_once working "p" "u1" w0))).

Lemma arguments_from_results_witness : exists plan step arguments,
  _resolve_step_arguments plan step w2 = (Ok arguments, w2) /\
  exists v, assoc "content" arguments = Some v /\
    binding_value plan w2 (JObj [("pointer", JStr "/draft"); ("step", JStr "read")]) v.
Proof.
  destruct (get_plan "p" "u1" w2) as [[plan|e] w] eqn:Ep; [|vm_compute in Ep; discriminate Ep].
  destruct (begun (snd (advance_once working "p" "u1" w0))) as [[[[step started]|]|e] wb] eqn:Eb;
    try (vm_compute in Eb; discriminate Eb).
  assert (Hb : dict_of (sv_bindings step) = Ok [("content", JObj [("pointer", JStr "/draft"); ("step", JStr "read")])])
    by (vm_compute in Eb; injection Eb as <- _ _; reflexivity).
  destruct (_resolve_step_arguments plan step w2) as [[arguments|e] w'] eqn:E.
  2:{ vm_compute in Ep. injection Ep as <- _. vm_compute in Eb. injection Eb as <- _ _. vm_compute in E. discriminate E. }
  destruct (arguments_from_results plan step w2 arguments w' _ Hb) as (-> & literal & _ & H).
  - apply NoDup_singleton.
  - exact E.
  - exists plan, step, arguments. split; [exact E|]. exact (H "content").
Defined.

(** A commit was entered before the restart. *)
Definition w3 : world (list invocation) :=
  World (after (update_plan "p" (plan_committing "op" 5%Z)) (w_plans w0)) ∅ [] 0%nat.

Lemma recovery_replays_no_write_witness : exists candidate,
  fst (get_plan "p" "u1" w3) = Ok candidate /\
  (length (w_rest (fst (snd (recover_candidate 10 working candidate (w3, empty_summary))))) <= 0)%nat.
Proof.
  destruct (get_plan "p" "u1" w3) as [[candidate|e] w] eqn:Ep; [|vm_compute in Ep; discriminate Ep].
  exists candidate. split; [reflexivity|].
  assert (Hid : plan_id_of candidate = "p") by (vm_compute in Ep; injection Ep as <- _; reflexivity).
  destruct (plans (w_plans w3) !! "p") as [p|] eqn:Hp; [|vm_compute in Hp; discriminate Hp].
  refine (recovery_replays_no_write length working (service_contract (Ok drafting)) "p" 10 candidate w3 empty_summary p Hid Hp _).
  vm_compute in Hp. injection Hp as <-. reflexivity.
Defined.
End PlanRuntimeSafetyDemo.
