(* ===== verification/UserPermissions.v ===== *)
(** * The catalogue of business permissions (agentbridge/core/user_permission_catalog.json)

    The document that [user_grants.py] loads, as it stands in the repository, without the texts that
    only people read; and the tools that hosts see (agentbridge/mcp/central.py). *)

From S2P Require Import Prelude.

Record permission : Type := Permission {
  p_id : string;
  capabilities : list string;
  tools : list string;
  private_tools : list string;
  legacy_scopes : list string;
}.

Definition permissions_oa_read : list permission := [
  Permission "oa.workflow.read" ["oa.workflow.detail.get"; "oa.workflow.done.list";
    "oa.workflow.opinions.list"; "oa.workflow.pending.list"; "oa.workflow.sent.list";
    "oa.workflow.tracked.list"]
    ["oa_workflow_pending_list"; "oa_workflow_sent_list";
    "oa_workflow_done_list"; "oa_workflow_tracked_list"; "oa_workflow_detail_get";
    "oa_workflow_opinions_list"] [] ["oa:read"];
  Permission "oa.addressbook.read" ["oa.addressbook.department.members"; "oa.addressbook.organization.tree";
    "oa.addressbook.person.get"; "oa.addressbook.person.search"]
    ["oa_addressbook_organization_tree";
    "oa_addressbook_department_members"; "oa_addressbook_person_search";
    "oa_addressbook_person_get"] [] ["oa:read:addressbook"];
  Permission "oa.addressbook.private.read" ["oa.addressbook.private_contact.get";
    "oa.addressbook.private_contact.search"]
    ["oa_addressbook_private_contact_search";
    "oa_addressbook_private_contact_get"] [] ["oa:read:addressbook"];
  Permission "oa.addressbook.export" ["oa.addressbook.export"]
    ["oa_addressbook_export"] [] ["oa:read:addressbook"];
  Permission "oa.certificate.read" ["oa.document.certificate.search"]
    ["oa_certificate_search"] [] ["oa:read"];
  Permission "oa.certificate.download" []
    ["oa_certificate_prepare_download";
    "oa_certificate_prepare_downloads"] [] ["oa:read"]].

Definition permissions_oa_forms_1 : list permission := [
  Permission "oa.meeting_room.read" ["oa.meeting_room.availability.list";
    "oa.meeting_room.my_applications.list"]
    ["oa_meeting_room_availability_list";
    "oa_meeting_room_my_applications_list"] [] ["oa:read"];
  Permission "oa.meeting_room.apply" ["oa.meeting_room.application.prepare";
    "oa.meeting_room.application.create"]
    ["oa_meeting_room_application_prepare"] ["oa_meeting_room_application_create"] ["oa:write:meeting"];
  Permission "oa.meeting_room.cancel" ["oa.meeting_room.application.cancel.prepare";
    "oa.meeting_room.application.cancel"]
    ["oa_meeting_room_application_cancel_prepare"] ["oa_meeting_room_application_cancel"] ["oa:write:meeting"];
  Permission "oa.meeting.create" ["oa.meeting.create";
    "oa.meeting.create.prepare"]
    ["oa_meeting_create_prepare"] ["oa_meeting_create"] ["oa:write:meeting"];
  Permission "oa.business_trip.draft" ["oa.business_trip.prepare";
    "oa.business_trip.save_draft"]
    ["oa_business_trip_prepare"] ["oa_business_trip_save_draft"] ["oa:write:draft"];
  Permission "oa.business_trip.submit" ["oa.business_trip.submit.prepare";
    "oa.business_trip.submit"]
    ["oa_business_trip_submit_prepare"] ["oa_business_trip_submit"] ["oa:write:submit"];
  Permission "oa.leave.draft" ["oa.leave.prepare";
    "oa.leave.save_draft"]
    ["oa_leave_prepare"] ["oa_leave_save_draft"] ["oa:write:draft"];
  Permission "oa.leave.submit" ["oa.leave.submit.prepare";
    "oa.leave.submit"]
    ["oa_leave_submit_prepare"] ["oa_leave_submit"] ["oa:write:submit"]].

Definition permissions_oa_forms_2 : list permission := [
  Permission "oa.missed_punch.draft" ["oa.missed_punch.prepare";
    "oa.missed_punch.save_draft"]
    ["oa_missed_punch_prepare"] ["oa_missed_punch_save_draft"] ["oa:write:draft"]].

Definition permissions_oa_approve_1 : list permission := [
  Permission "oa.efficiency_data.approve" ["oa.efficiency_data.approval.prepare";
    "oa.efficiency_data.approve"]
    ["oa_efficiency_data_approval_prepare"] [] ["oa:write:approval"];
  Permission "oa.travel_expense.approve" ["oa.travel_expense.approval.prepare";
    "oa.travel_expense.approve"]
    ["oa_travel_expense_approval_prepare"] [] ["oa:write:approval"];
  Permission "oa.business_trip.approve" ["oa.business_trip.approval.prepare";
    "oa.business_trip.approve"]
    ["oa_business_trip_approval_prepare"] [] ["oa:write:approval"];
  Permission "oa.labor_contract_renewal.approve" ["oa.labor_contract_renewal.approval.prepare";
    "oa.labor_contract_renewal.approve"]
    ["oa_labor_contract_renewal_approval_prepare"] [] ["oa:write:approval"];
  Permission "oa.intellectual_property_declaration.approve" ["oa.intellectual_property_declaration.approval.prepare";
    "oa.intellectual_property_declaration.approve"]
    ["oa_intellectual_property_declaration_approval_prepare"] [] ["oa:write:approval"];
  Permission "oa.overtime.approve" ["oa.overtime.approval.prepare";
    "oa.overtime.approve"]
    ["oa_overtime_approval_prepare"] [] ["oa:write:approval"];
  Permission "oa.leave.approve" ["oa.leave.approval.prepare";
    "oa.leave.approve"]
    ["oa_leave_approval_prepare"] [] ["oa:write:approval"];
  Permission "oa.resignation.approve" ["oa.resignation.approval.prepare";
    "oa.resignation.approve"]
    ["oa_resignation_approval_prepare"] [] ["oa:write:approval"];
  Permission "oa.work_handover.approve" ["oa.work_handover.approval.prepare";
    "oa.work_handover.approve"]
    ["oa_work_handover_approval_prepare"] [] ["oa:write:approval"]].

Definition permissions_oa_approve_2 : list permission := [
  Permission "oa.flight_application.approve" ["oa.flight_application.approval.prepare";
    "oa.flight_application.approve"]
    ["oa_flight_application_approval_prepare"] [] ["oa:write:approval"];
  Permission "oa.attendance_confirmation.approve" ["oa.attendance_confirmation.confirm";
    "oa.attendance_confirmation.prepare"]
    ["oa_attendance_confirmation_prepare"] [] ["oa:write:approval"];
  Permission "oa.weekly_report.approve" ["oa.weekly_report.acknowledge";
    "oa.weekly_report.acknowledgement.prepare"]
    ["oa_weekly_report_acknowledgement_prepare"] [] ["oa:write:approval"];
  Permission "oa.standard_collaboration.approve" ["oa.standard_collaboration.approval.prepare";
    "oa.standard_collaboration.approve"]
    ["oa_standard_collaboration_approval_prepare"] [] ["oa:write:approval"];
  Permission "oa.missed_punch.approve" ["oa.missed_punch.approval.batch.prepare";
    "oa.missed_punch.approval.prepare"; "oa.missed_punch.approve"]
    ["oa_missed_punch_approval_prepare";
    "oa_missed_punch_approval_batch_prepare"] ["oa_missed_punch_approve"] ["oa:write:approval"];
  Permission "oa.workflow.revoke" ["oa.workflow.revoke";
    "oa.workflow.revoke.prepare"]
    ["oa_workflow_revoke_prepare"] ["oa_workflow_revoke"] ["oa:write:revoke"]].

Definition permissions_taihua : list permission := [
  
    Permission "taihua.work_log.my.read" ["taihua.work_log.my.list"]
    ["taihua_work_log_my_list"] [] ["taihua:read"];
  Permission "taihua.work_log.team.read" ["taihua.work_log.team.list"]
    ["taihua_work_log_team_list"] [] ["taihua:read"];
  Permission "taihua.project.read" ["taihua.project.search"]
    ["taihua_project_search"] [] ["taihua:read"];
  Permission "taihua.work_log.create" ["taihua.work_log.create";
    "taihua.work_log.create.prepare"]
    ["taihua_work_log_create_prepare"] ["taihua_work_log_create"] ["taihua:write:worklog"]].

Definition permissions_smartlight_read : list permission := [
  Permission "smartlight.status.read" ["smartlight.runtime.overview"; "smartlight.rtu.status.list";
    "smartlight.lamp.status.list"; "smartlight.rtu.survey.records"; "smartlight.lamp.survey.records";
    "smartlight.rtu.off_hours_current.list"]
    ["smartlight_runtime_overview"; "smartlight_rtu_status_list";
    "smartlight_lamp_status_list"; "smartlight_rtu_survey_records"; "smartlight_lamp_survey_records";
    "smartlight_off_hours_current_list"] [] ["smartlight:read"];
  Permission "smartlight.alarm.read" ["smartlight.alarm.list"; "smartlight.alarm.analysis";
    "smartlight.alarm.remark.get"; "smartlight.lamp.alarm.list"; "smartlight.lamp.alarm.analysis";
    "smartlight.rtu.leakage_alarm.list"; "smartlight.rtu.leakage_alarm.analysis"; "smartlight.leakage.summary";
    "smartlight.leakage.analysis"]
    ["smartlight_lamp_alarm_list"; "smartlight_lamp_alarm_analysis";
    "smartlight_rtu_leakage_alarm_list"; "smartlight_rtu_leakage_analysis"; "smartlight_alarm_list";
    "smartlight_alarm_remark_get"; "smartlight_leakage_summary"; "smartlight_alarm_analysis";
    "smartlight_leakage_analysis"] [] ["smartlight:read"];
  Permission "smartlight.energy.read" ["smartlight.energy_record.list";
    "smartlight.energy.analysis"]
    ["smartlight_energy_record_list";
    "smartlight_energy_analysis"] [] ["smartlight:read"];
  Permission "smartlight.asset.read" ["smartlight.system.overview"; "smartlight.lamppost.list";
    "smartlight.asset.search"; "smartlight.asset.detail"]
    ["smartlight_system_overview";
    "smartlight_lamppost_list"; "smartlight_asset_search"; "smartlight_asset_detail"] [] ["smartlight:read"];
  Permission "smartlight.inspection.read" ["smartlight.inspection_task.list";
    "smartlight.inspection_task.detail";
    "smartlight.inspection_log.list"]
    ["smartlight_inspection_log_list"; "smartlight_inspection_task_list";
    "smartlight_inspection_task_detail"] [] ["smartlight:read"];
  Permission "smartlight.maintenance.read" ["smartlight.maintenance_record.list"]
    ["smartlight_maintenance_record_list"] [] ["smartlight:read"];
  Permission "smartlight.report.export" ["smartlight.report.export"]
    ["smartlight_report_export"] [] ["smartlight:read"]].

Definition permissions_smartlight_write : list permission := [
  Permission "smartlight.alarm.remark.write" ["smartlight.alarm.remark.update";
    "smartlight.alarm.remark.update.prepare"]
    ["smartlight_alarm_remark_update_prepare"] ["smartlight_alarm_remark_update"] ["smartlight:write:alarm_remark"];
  Permission "smartlight.alarm.work_area.submit" ["smartlight.alarm.work_area.submit";
    "smartlight.alarm.work_area.submit.prepare"]
    ["smartlight_alarm_work_area_submit_prepare"] ["smartlight_alarm_work_area_submit"] ["smartlight:write:alarm_work_area_submit"];
  Permission "smartlight.alarm.work_area.revoke" ["smartlight.alarm.work_area.revoke";
    "smartlight.alarm.work_area.revoke.prepare"]
    ["smartlight_alarm_work_area_revoke_prepare"] ["smartlight_alarm_work_area_revoke"] ["smartlight:write:alarm_work_area_revoke"];
  Permission "smartlight.alarm.dispose" ["smartlight.alarm.dispose";
    "smartlight.alarm.dispose.prepare"]
    ["smartlight_rtu_alarm_dispose_prepare"] ["smartlight_rtu_alarm_dispose"] ["smartlight:write:alarm_disposition"]].

Definition permissions_yuque : list permission := [
  Permission "yuque.content.read" ["yuque.document.catalog"; "yuque.document.read"; "yuque.document.search";
    "yuque.public_books.list"]
    ["yuque_public_books_list"; "yuque_document_catalog";
    "yuque_document_search"; "yuque_document_read"] [] ["yuque:read"]].

Definition permissions_database : list permission := [
  Permission "database.schema" ["database.schema"]
    [] [] [];
  Permission "database.directory" ["database.directory"]
    [] [] [];
  Permission "database.logs.query" ["database.logs.query"]
    [] [] [];
  Permission "database.logs.analyze" ["database.logs.analyze"]
    [] [] [];
  Permission "database.logs.content_analyze" ["database.logs.content_analyze"]
    [] [] [];
  Permission "database.comments.analyze" ["database.comments.analyze"]
    [] [] [];
  Permission "database.free.read" ["database.free.read"]
    [] [] [];
  Permission "database.report.export" ["database.report.export"; "database.report.download"]
    [] [] []].

Definition catalog_permissions : list permission :=
  (
   permissions_oa_read ++ permissions_oa_forms_1 ++ permissions_oa_forms_2 ++ permissions_oa_approve_1 ++ permissions_oa_approve_2 ++ permissions_taihua ++ permissions_smartlight_read ++ permissions_smartlight_write ++ permissions_yuque ++ permissions_database)%list.

Definition SPECIAL_TOOLS : list string :=
  ["database_capabilities"; "database_execute"; "agentbridge_server_profile";
   "agentbridge_task_plan_catalog"; "agentbridge_task_plan_prepare"; "agentbridge_task_plan_get";
   "agentbridge_task_plan_cancel"; "agentbridge_task_cancel"; "agentbridge_interaction_get";
   "agentbridge_operation_get"; "agentbridge_operation_list"; "oa_template_list"; "oa_session_status";
   "oa_session_login"; "oa_workflow_pending_batch_prepare"; "taihua_session_status"; "taihua_session_login";
   "smartlight_session_status"; "smartlight_session_login"; "yuque_session_status"; "yuque_session_login";
   "oa_addressbook_group_list"; "oa_addressbook_group_members"; "agentbridge_skill_catalog";
   "agentbridge_skill_get"].

Definition REPORT_DEPENDENCIES : list (string * string) :=
  [("alarm_analysis", "smartlight.alarm.read"); ("lamp_alarm_analysis", "smartlight.alarm.read");
   ("leakage_analysis", "smartlight.alarm.read"); ("asset_inventory", "smartlight.asset.read");
   ("inspection_progress", "smartlight.inspection.read"); ("energy_records", "smartlight.energy.read");
   ("energy_analysis", "smartlight.energy.read"); ("lamp_survey_records", "smartlight.status.read");
   ("rtu_leakage_alarms", "smartlight.alarm.read"); ("rtu_leakage_analysis", "smartlight.alarm.read");
   ("inspection_logs", "smartlight.inspection.read"); ("maintenance_records", "smartlight.maintenance.read")].

(** The tools that hosts see, with the scopes that they need *)
Definition AGENT_FACING_TOOL_SCOPE_REQUIREMENTS : list (string * list string) :=
  [("agentbridge_skill_catalog", []); ("agentbridge_skill_authoring", []); ("agentbridge_skill_get", []);
   ("database_capabilities", []); ("database_execute", []); ("agentbridge_server_profile", []);
   ("agentbridge_task_plan_catalog", []); ("agentbridge_task_plan_prepare", []);
   ("agentbridge_task_plan_get", []); ("agentbridge_task_plan_cancel", []); ("agentbridge_task_cancel", []);
   ("agentbridge_interaction_get", []); ("agentbridge_operation_get", []); ("agentbridge_operation_list", []);
   ("oa_template_list", ["oa:read"]); ("oa_certificate_search", ["oa:read"]);
   ("oa_certificate_prepare_download", ["oa:read"]); ("oa_certificate_prepare_downloads", ["oa:read"]);
   ("oa_workflow_pending_list", ["oa:read"]); ("oa_workflow_sent_list", ["oa:read"]);
   ("oa_workflow_done_list", ["oa:read"]); ("oa_workflow_tracked_list", ["oa:read"]);
   ("oa_workflow_detail_get", ["oa:read"]); ("oa_workflow_opinions_list", ["oa:read"]);
   ("oa_addressbook_organization_tree", ["oa:read:addressbook"]);
   ("oa_addressbook_department_members", ["oa:read:addressbook"]);
   ("oa_addressbook_person_search", ["oa:read:addressbook"]);
   ("oa_addressbook_person_get", ["oa:read:addressbook"]);
   ("oa_addressbook_group_list", ["oa:read:addressbook"]);
   ("oa_addressbook_group_members", ["oa:read:addressbook"]);
   ("oa_addressbook_private_contact_search", ["oa:read:addressbook"]);
   ("oa_addressbook_private_contact_get", ["oa:read:addressbook"]);
   ("oa_addressbook_export", ["oa:read:addressbook"]); ("oa_session_status", ["oa:read"]);
   ("oa_session_login", ["oa:read"]); ("oa_efficiency_data_approval_prepare", ["oa:write:approval"]);
   ("oa_travel_expense_approval_prepare", ["oa:write:approval"]);
   ("oa_business_trip_approval_prepare", ["oa:write:approval"]);
   ("oa_labor_contract_renewal_approval_prepare", ["oa:write:approval"]);
   ("oa_intellectual_property_declaration_approval_prepare", ["oa:write:approval"]);
   ("oa_overtime_approval_prepare", ["oa:write:approval"]);
   ("oa_leave_approval_prepare", ["oa:write:approval"]);
   ("oa_resignation_approval_prepare", ["oa:write:approval"]);
   ("oa_work_handover_approval_prepare", ["oa:write:approval"]);
   ("oa_flight_application_approval_prepare", ["oa:write:approval"]);
   ("oa_attendance_confirmation_prepare", ["oa:write:approval"]);
   ("oa_weekly_report_acknowledgement_prepare", ["oa:write:approval"]);
   ("oa_standard_collaboration_approval_prepare", ["oa:write:approval"]);
   ("oa_workflow_revoke_prepare", ["oa:write:revoke"]); ("oa_business_trip_prepare", ["oa:write:draft"]);
   ("oa_business_trip_submit_prepare", ["oa:write:submit"]); ("oa_leave_prepare", ["oa:write:draft"]);
   ("oa_leave_submit_prepare", ["oa:write:submit"]); ("oa_missed_punch_prepare", ["oa:write:draft"]);
   ("oa_missed_punch_approval_prepare", ["oa:write:approval"]);
   ("oa_missed_punch_approval_batch_prepare", ["oa:write:approval"]);
   ("oa_workflow_pending_batch_prepare", ["oa:write:approval"]);
   ("oa_meeting_room_availability_list", ["oa:read"]); ("oa_meeting_room_my_applications_list", ["oa:read"]);
   ("oa_meeting_room_application_prepare", ["oa:write:meeting"]);
   ("oa_meeting_room_application_cancel_prepare", ["oa:write:meeting"]);
   ("oa_meeting_create_prepare", ["oa:write:meeting"]); ("taihua_work_log_my_list", ["taihua:read"]);
   ("taihua_work_log_team_list", ["taihua:read"]); ("taihua_project_search", ["taihua:read"]);
   ("taihua_work_log_create_prepare", ["taihua:write:worklog"]); ("taihua_session_status", ["taihua:read"]);
   ("taihua_session_login", ["taihua:read"]); ("smartlight_system_overview", ["smartlight:read"]);
   ("smartlight_runtime_overview", ["smartlight:read"]); ("smartlight_rtu_status_list", ["smartlight:read"]);
   ("smartlight_lamp_status_list", ["smartlight:read"]); ("smartlight_lamp_alarm_list", ["smartlight:read"]);
   ("smartlight_lamp_alarm_analysis", ["smartlight:read"]);
   ("smartlight_rtu_survey_records", ["smartlight:read"]);
   ("smartlight_energy_record_list", ["smartlight:read"]);
   ("smartlight_energy_analysis", ["smartlight:read"]);
   ("smartlight_lamp_survey_records", ["smartlight:read"]);
   ("smartlight_rtu_leakage_alarm_list", ["smartlight:read"]);
   ("smartlight_rtu_leakage_analysis", ["smartlight:read"]);
   ("smartlight_off_hours_current_list", ["smartlight:read"]);
   ("smartlight_inspection_log_list", ["smartlight:read"]);
   ("smartlight_maintenance_record_list", ["smartlight:read"]);
   ("smartlight_lamppost_list", ["smartlight:read"]); ("smartlight_alarm_list", ["smartlight:read"]);
   ("smartlight_alarm_remark_get", ["smartlight:read"]);
   ("smartlight_inspection_task_list", ["smartlight:read"]);
   ("smartlight_leakage_summary", ["smartlight:read"]); ("smartlight_asset_search", ["smartlight:read"]);
   ("smartlight_asset_detail", ["smartlight:read"]); ("smartlight_alarm_analysis", ["smartlight:read"]);
   ("smartlight_inspection_task_detail", ["smartlight:read"]);
   ("smartlight_leakage_analysis", ["smartlight:read"]); ("smartlight_report_export", ["smartlight:read"]);
   ("smartlight_alarm_remark_update_prepare", ["smartlight:write:alarm_remark"]);
   ("smartlight_alarm_work_area_submit_prepare", ["smartlight:write:alarm_work_area_submit"]);
   ("smartlight_alarm_work_area_revoke_prepare", ["smartlight:write:alarm_work_area_revoke"]);
   ("smartlight_rtu_alarm_dispose_prepare", ["smartlight:write:alarm_disposition"]);
   ("smartlight_session_status", ["smartlight:read"]); ("smartlight_session_login", ["smartlight:read"]);
   ("yuque_public_books_list", ["yuque:read"]); ("yuque_document_catalog", ["yuque:read"]);
   ("yuque_document_search", ["yuque:read"]); ("yuque_document_read", ["yuque:read"]);
   ("yuque_session_status", ["yuque:read"]); ("yuque_session_login", ["yuque:read"])].
