(* ===== verification/UserGrants.v ===== *)
(** * Business permissions of users (agentbridge/core/user_grants.py)

    The grants of a user and the log of their changes, which [save] writes together under the
    revision that the caller has seen, and the checks of capabilities and tools against them. *)

From Stdlib Require Import Ascii.
From S2P Require Import Prelude PyStr Json Store InputValidation UserPermissions.

#[local] Open Scope list_scope.

(** ** The catalogue *)

Definition PERMISSIONS : list (string * permission) :=
  map (fun p => (p_id p, p)) (List.filter (fun p => negb (startswith "database." (p_id p))) catalog_permissions).

(** A dict comprehension: a later key wins and keeps the place of the first. *)
Definition dict_of_names (names : permission -> list string) : list (string * string) :=
  fold_left (fun d kn => dict_set (fst kn) (snd kn) d)
    (flat_map (fun item => map (fun n => (n, p_id (snd item))) (names (snd item))) PERMISSIONS) [].

Definition CAPABILITY_PERMISSIONS : list (string * string) := dict_of_names capabilities.
Definition TOOL_PERMISSIONS : list (string * string) := dict_of_names (fun p => tools p ++ private_tools p).

(** ** Tables

    The JSON columns hold lists of strings, and are modelled as these. *)

Record grant_row : Type := GrantRow {
  permissions_json : list string;
  revision : Z;
  updated_at : instant;
}.

Record grant_event : Type := GrantEvent {
  ge_user_subject : string;
  ge_actor : string;
  ge_reason : string;
  before_json : list string;
  after_json : list string;
  ge_revision : Z;
  ge_created_at : instant;
}.

(** What [get] returns *)
Record grant : Type := Grant { g_user_subject : string; g_permissions : list string; g_revision : Z }.

(** [others] are the other tables of the database, which an audit callback may write. *)
Record store (O : Type) : Type := MkStore {
  grants : gmap string grant_row;
  grant_events : gmap string grant_event;
  others : O;
}.
Arguments MkStore {O}. Arguments grants {O}. Arguments grant_events {O}. Arguments others {O}.

Section Grants.
Context {O : Type} `{UnicodeTables}.

Definition get (subject : string) (s : store O) : option grant :=
  match grants s !! subject with
  | None => None
  | Some r => Some (Grant subject (permissions_json r) (revision r))
  end.

(** [audit_callback(db, before, after)] *)
Definition audit : Type := list string * Z -> grant -> O -> result O.

Record save_args : Type := SaveArgs {
  a_subject : string;
  a_permissions : list string;
  a_expected_revision : Z;
  a_actor : string;
  a_reason : string;
}.

Definition check_save (a : save_args) : result unit :=
  raise_if (negb (truthy (py_strip (a_subject a)))) ValueError "user subject is required";;
  raise_if (a_expected_revision a <? 0)%Z ValueError "invalid grant revision";;
  raise_if (existsb (fun item => negb (str_in item (keys PERMISSIONS))) (a_permissions a)) ValueError
    "unknown business permission";;
  raise_if (negb (truthy (py_strip (a_reason a))) || (1000 <? py_len (a_reason a))%Z) ValueError
    "grant change reason is required";;
  raise_if (negb (truthy (py_strip (a_actor a)))) ValueError "grant change actor is required".

Definition current_of (subject : string) (s : store O) : list string * Z :=
  match grants s !! subject with Some r => (permissions_json r, revision r) | None => ([], 0%Z) end.

(** The transaction of [save]; [event_id] is the identifier that it draws. *)
Definition save_body (a : save_args) (callback : option audit) (now : instant) (event_id : string)
  : tx (store O) grant := fun s =>
  let normalized := sorted_set (a_permissions a) in
  let '(old, current) := current_of (a_subject a) s in
  raise_if (negb (current =? a_expected_revision a)%Z) UserGrantConflict "user grant revision conflict";;
  let row := GrantRow normalized (current + 1) now in
  let event := GrantEvent (a_subject a) (py_strip (a_actor a)) (py_strip (a_reason a)) old normalized
                 (current + 1) now in
  events ← insert_row event_id (fun _ => false) event (grant_events s);
  let saved := Grant (a_subject a) normalized (current + 1) in
  rest ← match callback with
         | Some callback => callback (old, current) saved (others s)
         | None => Ok (others s)
         end;
  Ok (saved, MkStore (<[a_subject a := row]> (grants s)) events rest).

Definition save (a : save_args) (callback : option audit) (now : instant) (event_id : string) (s : store O)
  : result grant * store O :=
  match check_save a with
  | Raise e => (Raise e, s)
  | Ok _ => transaction (save_body a callback now event_id) s
  end.

(** ** Checks *)

Definition permission_error (message : string) : exn := Exn PermissionError message.

Definition unless (allowed : bool) (message : string) : result unit :=
  if allowed then Ok tt else Raise (permission_error message).

(** [set(grant["permissions"] if grant else [])] *)
Definition selected_of (subject : string) (s : store O) : list string :=
  match get subject s with Some g => g_permissions g | None => [] end.

Definition require (subject permission : string) (s : store O) : result unit :=
  match get subject s with
  | None => Raise (permission_error ("user lacks business permission: " +:+ permission))
  | Some g => unless (str_in permission (g_permissions g)) ("user lacks business permission: " +:+ permission)
  end.
End Grants.

(** The value is looked up in a set or a dict of strings. *)
Definition hashable_text (v : json) : result (option string) :=
  match v with
  | JStr s => Ok (Some s)
  | JArr _ => raise TypeError "unhashable type: 'list'"
  | JObj _ => raise TypeError "unhashable type: 'dict'"
  | _ => Ok None
  end.

Definition is_text (v : json) (s : string) : bool := match v with JStr t => String.eqb t s | _ => false end.

Section Checks.
Context `{UnicodeTables}.
Implicit Types (selected : list string) (args : list (string * json)).

(** The checks of [require_tool] that depend on the arguments *)

Definition check_group (tool : string) selected args : result unit :=
  let group_type := dict_get args "group_type" JNull in
  match group_type with
  | JNull =>
      if endswith "group_list" tool
      then unless (str_in "oa.addressbook.read" selected && str_in "oa.addressbook.private.read" selected)
             "user lacks addressbook permissions"
      else Raise (permission_error "user lacks addressbook group permission")
  | _ =>
      let required := if is_text group_type "private" then "oa.addressbook.private.read" else "oa.addressbook.read" in
      kind ← hashable_text group_type;
      unless (match kind with
              | Some kind => str_in kind ["private"; "personal"; "system"; "project"] && str_in required selected
              | None => false
              end) "user lacks addressbook group permission"
  end.

Definition check_export selected args : result unit :=
  let source := dict_get args "source" JNull in
  let private := is_text source "private_contacts"
                 || is_text source "group_members" && is_text (dict_get args "group_type" JNull) "private" in
  unless (str_in (if private then "oa.addressbook.private.read" else "oa.addressbook.read") selected)
    "user lacks addressbook source permission".

Definition check_report selected args : result unit :=
  kind ← hashable_text (dict_get args "report_type" JNull);
  unless (match kind with
          | Some kind => match assoc kind REPORT_DEPENDENCIES with
                         | Some required => str_in required selected
                         | None => false
                         end
          | None => false
          end) "user lacks report source permission".

Definition creates_forms (item : string) : bool :=
  startswith "oa." item && (endswith ".draft" item || endswith ".submit" item).

Definition session_tool (tool : string) : bool := endswith "_session_status" tool || endswith "_session_login" tool.

(** [tool.split("_", 1)[0]] *)
Definition system_of (tool : string) : string := split1_head "_" tool.

Definition check_special (tool : string) selected : result unit :=
  (if String.eqb tool "oa_template_list"
   then unless (existsb creates_forms selected) "user lacks form creation permission" else Ok tt);;
  (if String.eqb tool "oa_workflow_pending_batch_prepare"
   then unless (str_in "oa.workflow.read" selected) "batch approval requires workflow read permission" else Ok tt);;
  (if session_tool tool
   then unless (existsb (startswith (system_of tool +:+ ".")) selected) "user lacks system business permission"
   else Ok tt).

Definition certificate_tools : list string := ["oa_certificate_prepare_download"; "oa_certificate_prepare_downloads"].

(** [require_tool], given what the user has been granted *)
Definition check_tool (tool : string) selected args : result unit :=
  if startswith "agentbridge_" tool then Ok tt
  else
    match assoc tool TOOL_PERMISSIONS with
    | Some permission => unless (str_in permission selected) ("user lacks business permission: " +:+ permission)
    | None => Ok tt
    end;;
    (if str_in tool certificate_tools
     then unless (str_in "oa.certificate.read" selected) "certificate download requires certificate read permission"
     else Ok tt);;
    (if str_in tool ["oa_addressbook_group_list"; "oa_addressbook_group_members"] then check_group tool selected args
     else Ok tt);;
    (if String.eqb tool "oa_addressbook_export" then check_export selected args else Ok tt);;
    (if String.eqb tool "smartlight_report_export" then check_report selected args else Ok tt);;
    if str_in tool SPECIAL_TOOLS then check_special tool selected
    else unless (str_in tool (keys TOOL_PERMISSIONS)) "business tool has no permission mapping".

(** ** Projections *)

(** The condition of [available_tools] for one tool *)
Definition tool_available selected (tool : string) : bool :=
  if startswith "agentbridge_" tool || startswith "database_" tool then true
  else if match assoc tool TOOL_PERMISSIONS with Some p => str_in p selected | None => false end
          && negb (str_in tool certificate_tools && negb (str_in "oa.certificate.read" selected)) then true
  else if session_tool tool && existsb (startswith (system_of tool +:+ ".")) selected then true
  else if String.eqb tool "oa_addressbook_group_list"
          && (str_in "oa.addressbook.read" selected && str_in "oa.addressbook.private.read" selected) then true
  else if String.eqb tool "oa_addressbook_group_members"
          && (str_in "oa.addressbook.read" selected || str_in "oa.addressbook.private.read" selected) then true
  else if String.eqb tool "oa_workflow_pending_batch_prepare" && str_in "oa.workflow.read" selected then true
  else String.eqb tool "oa_template_list" && existsb creates_forms selected.

Definition available selected : list string :=
  sorted_set (List.filter (fun tool => str_in tool (keys AGENT_FACING_TOOL_SCOPE_REQUIREMENTS))
    (List.filter (tool_available selected) (keys TOOL_PERMISSIONS ++ SPECIAL_TOOLS))).

Definition systems : list string := ["oa"; "taihua"; "smartlight"; "yuque"].

Fixpoint scopes_of (permissions : list string) : result (list string) :=
  match permissions with
  | [] => Ok []
  | p :: rest =>
      match assoc p PERMISSIONS with
      | None => raise KeyError ("'" +:+ p +:+ "'")
      | Some item => scopes ← scopes_of rest; Ok (legacy_scopes item ++ scopes)
      end
  end.

Definition effective_of (permissions : list string) : result (list string) :=
  scopes ← scopes_of permissions;
  Ok (sorted_set ("agentbridge:connect" :: scopes
    ++ map (fun system => system +:+ ":read")
         (List.filter (fun system => existsb (startswith (system +:+ ".")) permissions) systems))).

Definition BUSINESS_TRIP_TEMPLATE_ID : string := "2668910351205287097".
Definition BUSINESS_TRIP_FORM_APP_ID : string := "4948077657800057670".
Definition LEAVE_TEMPLATE_ID : string := "-7765568933726502821".
Definition LEAVE_FORM_APP_ID : string := "6773919591095560889".
Definition MISSED_PUNCH_TEMPLATE_ID : string := "-8494358180075582561".
Definition MISSED_PUNCH_FORM_APP_ID : string := "-3950641196724501449".

Definition known_templates : list (string * string * list string) :=
  [(BUSINESS_TRIP_TEMPLATE_ID, BUSINESS_TRIP_FORM_APP_ID, ["oa.business_trip.draft"; "oa.business_trip.submit"]);
   (LEAVE_TEMPLATE_ID, LEAVE_FORM_APP_ID, ["oa.leave.draft"; "oa.leave.submit"]);
   (MISSED_PUNCH_TEMPLATE_ID, MISSED_PUNCH_FORM_APP_ID, ["oa.missed_punch.draft"])].

Definition template_shown selected (item : list (string * json)) : bool :=
  let text key := py_str (dict_get item key (JStr "")) in
  match List.find (fun k => String.eqb (fst (fst k)) (text "template_id") && String.eqb (snd (fst k)) (text "form_app_id"))
          known_templates with
  | Some (_, needed) => existsb (fun p => str_in p selected) needed
  | None => false
  end.
End Checks.

Section Methods.
Context {O : Type} `{UnicodeTables}.
Implicit Types (s : store O).

Definition require_tool (subject tool : string) (arguments : option (list (string * json))) s : result unit :=
  check_tool tool (selected_of subject s) (match arguments with Some args => args | None => [] end).

(** [capability.replace(".", "_")] *)
Definition tool_of_capability (capability : string) : string := py_join "_" (split_on "."%char capability).

Definition require_capability (subject capability : string) (arguments : option (list (string * json))) s : result unit :=
  match assoc capability CAPABILITY_PERMISSIONS with
  | Some permission => require subject permission s
  | None =>
      if String.eqb capability "oa.template.list" then require_tool subject "oa_template_list" None s
      else if String.eqb capability "oa.workflow.pending.batch.prepare" then require subject "oa.workflow.read" s
      else if str_in capability ["oa.addressbook.group.list"; "oa.addressbook.group.members"]
      then require_tool subject (tool_of_capability capability) arguments s
      else Raise (permission_error "capability has no business permission mapping")
  end;;
  if str_in capability ["oa.addressbook.export"; "smartlight.report.export"]
  then require_tool subject (tool_of_capability capability) arguments s else Ok tt.

Definition available_tools (subject : string) s : list string := available (selected_of subject s).

(** [result.get("items", [])] is given; the dict is built from the items that are kept. *)
Definition filter_templates (subject : string) (items : list (list (string * json))) s : json :=
  let kept := List.filter (template_shown (selected_of subject s)) items in
  JObj [("items", JArr (map JObj kept)); ("count", JInt (Z.of_nat (length kept)));
        ("total", JInt (Z.of_nat (length kept))); ("permission_filtered", JBool true)].

Definition effective_scopes (subject : string) s : result (list string) := effective_of (selected_of subject s).
End Methods.
