(* ===== verification/UserGrantFacts.v ===== *)
(** * Business permissions: the audit trail, lost updates, and the tools that are offered *)

From Stdlib Require Import Ascii.
From S2P Require Import Prelude PyStr Json Store InputValidation InputValidationFacts UserPermissions UserGrants.

#[local] Open Scope list_scope.

(** Permissions as [save] keeps them *)
Definition normal (l : list string) : Prop := NoDup l /\ Forall (fun p => In p (keys PERMISSIONS)) l.

Lemma sorted_set_normal l : Forall (fun p => In p (keys PERMISSIONS)) l -> normal (sorted_set l).
Proof.
  intros H. split.
  - unfold sorted_set. rewrite sort_by_perm. apply NoDup_remove_dups.
  - rewrite List.Forall_forall in *. intros p Hp. apply H. by apply sorted_set_In.
Qed.

Section Facts.
Context {O : Type} {tables : UnicodeTables}.
Implicit Types (s : store O) (a : save_args).

(** ** What a change does *)

Definition event_of a (old : list string * Z) (now : instant) : grant_event :=
  GrantEvent (a_subject a) (py_strip (a_actor a)) (py_strip (a_reason a)) (fst old) (sorted_set (a_permissions a))
    (snd old + 1)%Z now.

Definition saved_store a (now : instant) (id : string) (rest : O) s : store O :=
  let old := current_of (a_subject a) s in
  MkStore (<[a_subject a := GrantRow (sorted_set (a_permissions a)) (snd old + 1)%Z now]> (grants s))
    (<[id := event_of a old now]> (grant_events s)) rest.

Lemma save_body_Ok a callback now id s g s' :
  save_body a callback now id s = Ok (g, s') ->
  snd (current_of (a_subject a) s) = a_expected_revision a /\ grant_events s !! id = None /\
  g = Grant (a_subject a) (sorted_set (a_permissions a)) (snd (current_of (a_subject a) s) + 1)%Z /\
  exists rest, s' = saved_store a now id rest s.
Proof.
  unfold save_body, saved_store, event_of. destruct (current_of (a_subject a) s) as [old current]. cbn zeta.
  rewrite result_raise_if_bind, result_bind_Ok. intros (Hc & events & (Hid & _ & ->)%insert_row_Ok & Hrest).
  rewrite result_bind_Ok in Hrest. destruct Hrest as (rest & _ & [= <- <-]).
  apply negb_false_iff, Z.eqb_eq in Hc. naive_solver.
Qed.

Lemma save_Ok a callback now id s g s' :
  save a callback now id s = (Ok g, s') -> check_save a = Ok tt /\ save_body a callback now id s = Ok (g, s').
Proof.
  unfold save, transaction. destruct (check_save a) as [[]|e]; [|discriminate].
  destruct (save_body a callback now id s) as [[g1 s1]|e]; [|discriminate]. by intros [= -> ->].
Qed.

Lemma save_failed a callback now id s e s' : save a callback now id s = (Raise e, s') -> s' = s.
Proof.
  unfold save, transaction. destruct (check_save a); [|by intros [= _ <-]].
  destruct (save_body _ _ _ _ _) as [[g1 s1]|e1]; by intros [= _ <-].
Qed.

Lemma current_of_saved a now id rest s subject :
  current_of subject (saved_store a now id rest s) =
  if String.eqb subject (a_subject a)
  then (sorted_set (a_permissions a), (snd (current_of (a_subject a) s) + 1)%Z) else current_of subject s.
Proof.
  unfold saved_store, current_of at 1. cbn [grants]. destruct (String.eqb_spec subject (a_subject a)) as [->|Hne].
  - by rewrite lookup_insert_eq.
  - by rewrite lookup_insert_ne by congruence.
Qed.

(** ** The audit trail *)

(** The events [es] lead from the permissions and revision [old] to those of [new]. *)
Fixpoint history (es : list grant_event) (old new : list string * Z) : Prop :=
  match es with
  | [] => old = new
  | e :: es =>
      before_json e = fst old /\ ge_revision e = (snd old + 1)%Z /\ normal (after_json e) /\
      truthy (ge_actor e) = true /\ truthy (ge_reason e) = true /\
      history es (after_json e, ge_revision e) new
  end.

Lemma history_snoc es e old new :
  history es old new -> history [e] new (after_json e, ge_revision e) ->
  history (es ++ [e]) old (after_json e, ge_revision e).
Proof. revert old. induction es as [|x es IH]; cbn; intros old; [by intros ->|]. naive_solver. Qed.

Definition audited s : Prop :=
  forall subject, exists l : list (string * grant_event),
    NoDup (map fst l) /\
    (forall id e, In (id, e) l <-> grant_events s !! id = Some e /\ ge_user_subject e = subject) /\
    history (map snd l) ([], 0%Z) (current_of subject s).

Definition initial s : Prop := grants s = ∅ /\ grant_events s = ∅.

Inductive change s : store O -> Prop :=
  | saves a callback now id r s' : save a callback now id s = (r, s') -> change s s'.

Lemma audited_initial s : initial s -> audited s.
Proof.
  intros [Hg He] subject. exists []. split; [constructor|]. split.
  - intros id e. rewrite He, lookup_empty. naive_solver.
  - unfold current_of. by rewrite Hg, lookup_empty.
Qed.

Lemma check_save_Ok a : check_save a = Ok tt ->
  normal (sorted_set (a_permissions a)) /\ truthy (py_strip (a_actor a)) = true /\
  truthy (py_strip (a_reason a)) = true.
Proof.
  unfold check_save. rewrite !result_raise_if_bind, result_raise_if_Ok. intros (_ & _ & Hp & Hr & Ha).
  apply orb_false_iff in Hr as [Hr _]. apply negb_false_iff in Hr, Ha. split_and!; [|done..].
  apply sorted_set_normal, List.Forall_forall. intros p Hin.
  destruct (str_in p (keys PERMISSIONS)) eqn:E; [by apply str_in_spec|].
  enough (existsb (fun item => negb (str_in item (keys PERMISSIONS))) (a_permissions a) = true) by congruence.
  apply existsb_exists. exists p. by rewrite E.
Qed.

Lemma audited_saved a now id rest s :
  check_save a = Ok tt -> grant_events s !! id = None -> audited s -> audited (saved_store a now id rest s).
Proof.
  intros (Hn & Ha & Hr)%check_save_Ok Hid Hs subject. destruct (Hs subject) as (l & Hnd & Hin & Hh).
  rewrite current_of_saved. set (e := event_of a (current_of (a_subject a) s) now).
  assert (forall x, In (id, x) l -> False) as Hnew.
  { intros x [Hx _]%Hin. congruence. }
  destruct (String.eqb_spec subject (a_subject a)) as [->|Hne].
  - exists (l ++ [(id, e)]). rewrite !map_app. split_and!.
    + apply NoDup_app. split_and!; [done| |apply NoDup_singleton].
      intros k Hk ->%list_elem_of_singleton. apply list_elem_of_In, in_map_iff in Hk as ([k x] & Hk & Hx).
      cbn in Hk. subst k. eauto.
    + intros k x. rewrite in_app_iff, Hin. cbn. destruct (decide (k = id)) as [->|Hk].
      * rewrite lookup_insert_eq, Hid. naive_solver.
      * rewrite lookup_insert_ne by done. naive_solver.
    + apply (history_snoc _ e _ _ Hh). cbn. naive_solver.
  - exists l. split_and!; [done| |done]. intros k x. rewrite Hin. cbn. destruct (decide (k = id)) as [->|Hk].
    + rewrite lookup_insert_eq, Hid. naive_solver.
    + by rewrite lookup_insert_ne by done.
Qed.

(** The event log explains the grants.  In every store that saves lead to from an empty one, for
    every user, there is an order of exactly the events of this user in which they start at no
    permissions and revision 0, each starts where the one before it ended and adds one to the revision,
    and the last ends in what the user has now.  Every event has an actor and a reason, and leaves a set of
    permissions of the catalogue without repetition. *)
Theorem grants_audited s : reachable initial change s -> audited s.
Proof.
  revert s. apply reachable_invariant; [apply audited_initial|].
  intros s s' Hs [a callback now id r ? Hsave]. destruct r as [g|e].
  - apply save_Ok in Hsave as [Hc (_ & Hid & _ & rest & ->)%save_body_Ok]. by apply audited_saved.
  - by apply save_failed in Hsave as ->.
Qed.

(** ** Lost updates *)

Lemma change_revision s s' subject : change s s' -> (snd (current_of subject s) <= snd (current_of subject s'))%Z.
Proof.
  intros [a callback now id r ? Hsave]. destruct r as [g|e].
  - apply save_Ok in Hsave as [Hc (_ & Hid & _ & rest & ->)%save_body_Ok]. rewrite current_of_saved.
    destruct (String.eqb_spec subject (a_subject a)) as [->|]; cbn; lia.
  - by apply save_failed in Hsave as ->.
Qed.

Lemma changes_revision s s' subject :
  rtc change s s' -> (snd (current_of subject s) <= snd (current_of subject s'))%Z.
Proof. induction 1 as [|s s1 s' Hs _ IH]; [lia|]. pose proof (change_revision _ _ subject Hs). lia. Qed.

(** No update is lost.  When one administrator has saved the grants of a user from a revision, then
    whatever saves follow, another who read the same revision is refused with the conflict, and nothing changes. *)
Theorem grant_update_not_lost a b callback callback' now now' id id' g s s1 s2 :
  save a callback now id s = (Ok g, s1) -> rtc change s1 s2 ->
  a_subject b = a_subject a -> a_expected_revision b = a_expected_revision a -> check_save b = Ok tt ->
  save b callback' now' id' s2 = (Raise (Exn UserGrantConflict "user grant revision conflict"), s2).
Proof.
  intros [_ (Hrev & _ & _ & rest & ->)%save_body_Ok]%save_Ok Hss Hsub Hexp Hb.
  apply (changes_revision _ _ (a_subject a)) in Hss. rewrite current_of_saved, String.eqb_refl in Hss. cbn in Hss.
  unfold save, transaction, save_body. rewrite Hb, Hsub, Hexp.
  destruct (current_of (a_subject a) s2) as [old current]. cbn in Hss |- *.
  destruct (Z.eqb_spec current (a_expected_revision a)); [lia|]. done.
Qed.
End Facts.
