(* ===== verification/UserToolFacts.v ===== *)
(** * The tools that are offered to a user are those that the user can call *)

From Stdlib Require Import Ascii.
From S2P Require Import Prelude PyStr Json Store InputValidation InputValidationFacts UserPermissions UserGrants.

#[local] Open Scope list_scope.

Definition agent_tools : list string := keys AGENT_FACING_TOOL_SCOPE_REQUIREMENTS.

(** Tools that the special cases of the checks treat *)
Definition conditional_tools : list string :=
  ["oa_addressbook_group_list"; "oa_addressbook_group_members"; "oa_addressbook_export"; "smartlight_report_export";
   "oa_workflow_pending_batch_prepare"; "oa_template_list"] ++ certificate_tools.

Definition platform_tool (tool : string) : bool := startswith "agentbridge_" tool || startswith "database_" tool.

(** A tool with one permission, and nothing else to check *)
Definition plain_tool (tool : string) : bool :=
  negb (platform_tool tool) && negb (str_in tool (conditional_tools ++ SPECIAL_TOOLS)) && negb (session_tool tool)
  && bool_decide (is_Some (assoc tool TOOL_PERMISSIONS)).

Definition plain_session_tool (tool : string) : bool :=
  negb (platform_tool tool) && negb (str_in tool (conditional_tools ++ keys TOOL_PERMISSIONS)) && session_tool tool
  && str_in tool SPECIAL_TOOLS.

(** Every tool that hosts see is of one of these kinds. *)
Lemma tools_classified tool : In tool agent_tools ->
  plain_tool tool = true \/ plain_session_tool tool = true \/ In tool conditional_tools \/
  (platform_tool tool = true /\ str_in tool (keys TOOL_PERMISSIONS) = false /\
    (str_in tool SPECIAL_TOOLS = true \/ tool = "agentbridge_skill_authoring")).
Proof.
  assert (forallb (fun tool => plain_tool tool || (plain_session_tool tool || (str_in tool conditional_tools
    || platform_tool tool && (negb (str_in tool (keys TOOL_PERMISSIONS))
       && (str_in tool SPECIAL_TOOLS || String.eqb tool "agentbridge_skill_authoring"))))) agent_tools = true)
    as Hall by (vm_compute; reflexivity).
  intros Hin. rewrite forallb_forall in Hall. specialize (Hall _ Hin).
  rewrite !orb_true_iff, !andb_true_iff, negb_true_iff, orb_true_iff, String.eqb_eq, str_in_spec in Hall. tauto.
Qed.

Section Tools.
Implicit Types (selected : list string) (args : list (string * json)).

Lemma unless_Ok b m : unless b m = Ok tt <-> b = true.
Proof. destruct b; cbn; split; (done || discriminate). Qed.

Lemma unit_bind_Ok (m k : result unit) : (m;; k) = Ok tt <-> m = Ok tt /\ k = Ok tt.
Proof. rewrite result_bind_Ok. split; [intros ([] & ? & ?); done|intros [? ?]; by exists tt]. Qed.

Definition callable selected (tool : string) : Prop := exists args, check_tool tool selected args = Ok tt.

Lemma assoc_str_in {A} k (l : list (string * A)) :
  str_in k (keys l) = match assoc k l with Some _ => true | None => false end.
Proof.
  induction l as [|[k' a] l IH]; [done|]. cbn. destruct (String.eqb k k'); [done|]. apply IH.
Qed.

Lemma ut_str_in_app t l l' : str_in t (l ++ l') = str_in t l || str_in t l'.
Proof. apply existsb_app. Qed.

(** None of the special cases concerns the tool. *)
Lemma not_conditional tool : str_in tool conditional_tools = false ->
  str_in tool certificate_tools = false /\
  str_in tool ["oa_addressbook_group_list"; "oa_addressbook_group_members"] = false /\
  String.eqb tool "oa_addressbook_group_list" = false /\ String.eqb tool "oa_addressbook_group_members" = false /\
  String.eqb tool "oa_addressbook_export" = false /\ String.eqb tool "smartlight_report_export" = false /\
  String.eqb tool "oa_workflow_pending_batch_prepare" = false /\ String.eqb tool "oa_template_list" = false.
Proof.
  unfold conditional_tools. rewrite ut_str_in_app. cbn -[certificate_tools]. rewrite !orb_false_iff.
  change (existsb (String.eqb tool) certificate_tools) with (str_in tool certificate_tools). tauto.
Qed.

Lemma plain_spec tool : plain_tool tool = true -> exists p,
  startswith "agentbridge_" tool = false /\ startswith "database_" tool = false /\
  str_in tool conditional_tools = false /\ str_in tool SPECIAL_TOOLS = false /\ session_tool tool = false /\
  assoc tool TOOL_PERMISSIONS = Some p.
Proof.
  unfold plain_tool, platform_tool. rewrite !andb_true_iff, !negb_true_iff, ut_str_in_app, !orb_false_iff.
  intros [[[[H1 H2] [H3 H4]] H5] [p Hp]%bool_decide_eq_true]. by exists p.
Qed.

Lemma check_plain tool selected args p : plain_tool tool = true -> assoc tool TOOL_PERMISSIONS = Some p ->
  check_tool tool selected args = Ok tt <-> str_in p selected = true.
Proof.
  intros (q & Ha & _ & (Hc & Hg & _ & _ & He & Hr & _ & _)%not_conditional & Hs & _ & Hq)%plain_spec Hp.
  unfold check_tool. rewrite Ha, Hc, Hg, He, Hr, Hs, Hp, assoc_str_in, Hp, !unit_bind_Ok, !unless_Ok. tauto.
Qed.

Lemma available_plain tool selected p : plain_tool tool = true -> assoc tool TOOL_PERMISSIONS = Some p ->
  tool_available selected tool = str_in p selected.
Proof.
  intros (q & Ha & Hd & (Hc & _ & Hl & Hm & _ & _ & Hb & Ht)%not_conditional & _ & Hn & Hq)%plain_spec Hp.
  unfold tool_available. rewrite Ha, Hd, Hp, Hc, Hl, Hm, Hb, Ht, Hn. cbn [orb andb negb].
  rewrite andb_true_r. by destruct (str_in p selected).
Qed.

Lemma plain_session_spec tool : plain_session_tool tool = true ->
  startswith "agentbridge_" tool = false /\ startswith "database_" tool = false /\
  str_in tool conditional_tools = false /\ str_in tool (keys TOOL_PERMISSIONS) = false /\
  session_tool tool = true /\ str_in tool SPECIAL_TOOLS = true.
Proof.
  unfold plain_session_tool, platform_tool.
  rewrite !andb_true_iff, !negb_true_iff, ut_str_in_app, !orb_false_iff. tauto.
Qed.

Lemma no_permission tool : str_in tool (keys TOOL_PERMISSIONS) = false -> assoc tool TOOL_PERMISSIONS = None.
Proof. rewrite assoc_str_in. by destruct (assoc tool TOOL_PERMISSIONS). Qed.

Lemma check_session tool selected args : plain_session_tool tool = true ->
  check_tool tool selected args = Ok tt <-> tool_available selected tool = true.
Proof.
  intros (Ha & Hd & (Hc & Hg & Hl & Hm & He & Hr & Hb & Ht)%not_conditional & Hk & Hn & Hs)%plain_session_spec.
  apply no_permission in Hk. unfold check_tool, tool_available, check_special.
  rewrite Ha, Hd, Hc, Hg, He, Hr, Hs, Hk, Hn, Hl, Hm, Hb, Ht, !unit_bind_Ok, unless_Ok. cbn [orb andb negb].
  clear. destruct (existsb _ _); split; [done|intros _; by split_and!|intros Hall; apply Hall|discriminate].
Qed.

Lemma available_In tool selected : In tool agent_tools ->
  In tool (available selected) <->
  In tool (keys TOOL_PERMISSIONS ++ SPECIAL_TOOLS) /\ tool_available selected tool = true.
Proof.
  intros Hin. unfold available. rewrite sorted_set_In, !filter_In, str_in_spec. fold agent_tools. tauto.
Qed.
(** ** The tools with special cases *)

(** Computes the tests of a literal tool, and leaves those of the permissions that are selected. *)
Ltac closed_tests selected :=
  repeat match goal with
  | |- context [assoc ?t TOOL_PERMISSIONS] =>
      let v := eval vm_compute in (assoc t TOOL_PERMISSIONS) in
      replace (assoc t TOOL_PERMISSIONS) with v by (vm_compute; reflexivity)
  | |- context [str_in ?t ?l] =>
      lazymatch l with selected => fail | _ => idtac end;
      let v := eval vm_compute in (str_in t l) in
      lazymatch v with true => idtac | false => idtac end;
      replace (str_in t l) with v by (vm_compute; reflexivity)
  | |- context [String.eqb ?t ?u] =>
      let v := eval vm_compute in (String.eqb t u) in
      lazymatch v with true => idtac | false => idtac end;
      replace (String.eqb t u) with v by reflexivity
  | |- context [startswith ?t ?u] =>
      let v := eval vm_compute in (startswith t u) in
      lazymatch v with true => idtac | false => idtac end;
      replace (startswith t u) with v by reflexivity
  | |- context [session_tool ?t] =>
      let v := eval vm_compute in (session_tool t) in replace (session_tool t) with v by reflexivity
  end; cbn [orb andb negb].

Definition group_args (kind : string) : list (string * json) := [("group_type", JStr kind)].

Lemma available_special selected :
  tool_available selected "oa_addressbook_group_list"
    = str_in "oa.addressbook.read" selected && str_in "oa.addressbook.private.read" selected /\
  tool_available selected "oa_addressbook_group_members"
    = str_in "oa.addressbook.read" selected || str_in "oa.addressbook.private.read" selected /\
  tool_available selected "oa_addressbook_export" = str_in "oa.addressbook.export" selected /\
  tool_available selected "smartlight_report_export" = str_in "smartlight.report.export" selected /\
  tool_available selected "oa_workflow_pending_batch_prepare" = str_in "oa.workflow.read" selected /\
  tool_available selected "oa_template_list" = existsb creates_forms selected /\
  tool_available selected "oa_certificate_prepare_download"
    = str_in "oa.certificate.download" selected && str_in "oa.certificate.read" selected /\
  tool_available selected "oa_certificate_prepare_downloads"
    = str_in "oa.certificate.download" selected && str_in "oa.certificate.read" selected.
Proof.
  unfold tool_available. closed_tests selected. rewrite !andb_true_r, !negb_involutive.
  split_and!; match goal with |- ?b = _ => (destruct b eqn:E; revert E) || idtac end;
  repeat match goal with |- context [if ?b then _ else _] => destruct b end; congruence.
Qed.

Lemma check_group_Ok tool selected args : check_group tool selected args = Ok tt ->
  str_in "oa.addressbook.read" selected || str_in "oa.addressbook.private.read" selected = true.
Proof.
  unfold check_group. generalize (dict_get args "group_type" JNull). intros g.
  assert ((kind ← hashable_text g; unless (match kind with
      | Some kind => str_in kind ["private"; "personal"; "system"; "project"]
          && str_in (if is_text g "private" then "oa.addressbook.private.read" else "oa.addressbook.read") selected
      | None => false end) "user lacks addressbook group permission") = Ok tt ->
    str_in "oa.addressbook.read" selected || str_in "oa.addressbook.private.read" selected = true) as Hk.
  { rewrite result_bind_Ok. intros ([kind|] & _ & Hu%unless_Ok); [|discriminate Hu].
    apply andb_true_iff in Hu as [_ Hu]. destruct (is_text g "private"); rewrite Hu; [apply orb_true_r|done]. }
  destruct g; try exact Hk. destruct (endswith _ _); [|discriminate].
  intros Hu%unless_Ok. apply andb_true_iff in Hu as [Hu _]. by rewrite Hu.
Qed.

Lemma check_group_private tool selected :
  str_in "oa.addressbook.private.read" selected = true -> check_group tool selected (group_args "private") = Ok tt.
Proof. intros Hs. unfold check_group. cbn -[str_in]. closed_tests selected. by rewrite Hs. Qed.

Lemma check_group_personal tool selected :
  str_in "oa.addressbook.read" selected = true -> check_group tool selected (group_args "personal") = Ok tt.
Proof. intros Hs. unfold check_group. cbn -[str_in]. closed_tests selected. by rewrite Hs. Qed.

Lemma check_export_Ok selected args : check_export selected args = Ok tt ->
  str_in "oa.addressbook.read" selected || str_in "oa.addressbook.private.read" selected = true.
Proof.
  unfold check_export. rewrite unless_Ok. intros Hs. destruct (is_text _ _ || _); rewrite Hs; [apply orb_true_r|done].
Qed.

(** What the check of each of these tools comes to *)
Lemma check_special_cases selected args :
  (check_tool "oa_addressbook_group_list" selected args = Ok tt <->
    check_group "oa_addressbook_group_list" selected args = Ok tt) /\
  (check_tool "oa_addressbook_group_members" selected args = Ok tt <->
    check_group "oa_addressbook_group_members" selected args = Ok tt) /\
  (check_tool "oa_addressbook_export" selected args = Ok tt <->
    str_in "oa.addressbook.export" selected = true /\ check_export selected args = Ok tt) /\
  (check_tool "smartlight_report_export" selected args = Ok tt <->
    str_in "smartlight.report.export" selected = true /\ check_report selected args = Ok tt) /\
  (check_tool "oa_workflow_pending_batch_prepare" selected args = Ok tt <->
    str_in "oa.workflow.read" selected = true) /\
  (check_tool "oa_template_list" selected args = Ok tt <-> existsb creates_forms selected = true) /\
  (check_tool "oa_certificate_prepare_download" selected args = Ok tt <->
    str_in "oa.certificate.download" selected && str_in "oa.certificate.read" selected = true) /\
  (check_tool "oa_certificate_prepare_downloads" selected args = Ok tt <->
    str_in "oa.certificate.download" selected && str_in "oa.certificate.read" selected = true).
Proof.
  unfold check_tool, check_special. closed_tests selected. cbn [unless].
  rewrite !unit_bind_Ok, !unless_Ok, !andb_true_iff. tauto.
Qed.

(** Exports need a source beside their own permission; the list of groups is offered to those who may
    read both kinds of groups. *)
Definition partly_offered : list string :=
  ["oa_addressbook_group_list"; "oa_addressbook_export"; "smartlight_report_export"].

Lemma offered_decided selected tool b :
  tool_available selected tool = b -> (forall args, check_tool tool selected args = Ok tt <-> b = true) ->
  tool_available selected tool = true <-> callable selected tool.
Proof.
  intros Ha Hc. rewrite Ha. split; [intros Hb; exists []; by apply Hc|intros [args Hargs]; by apply (Hc args)].
Qed.

Lemma offered_group_members selected :
  tool_available selected "oa_addressbook_group_members" = true <-> callable selected "oa_addressbook_group_members".
Proof.
  destruct (available_special selected) as (_ & Hm & _). rewrite Hm. unfold callable. split.
  - intros [Hr|Hp]%orb_true_iff.
    + exists (group_args "personal").
      destruct (check_special_cases selected (group_args "personal")) as (_ & Hc & _).
      apply Hc. by apply check_group_personal.
    + exists (group_args "private").
      destruct (check_special_cases selected (group_args "private")) as (_ & Hc & _).
      apply Hc. by apply check_group_private.
  - intros [args Hargs]. destruct (check_special_cases selected args) as (_ & Hc & _).
    apply Hc in Hargs. by apply check_group_Ok in Hargs.
Qed.

Lemma offered_special selected tool : In tool conditional_tools -> ~ In tool partly_offered ->
  tool_available selected tool = true <-> callable selected tool.
Proof.
  destruct (available_special selected) as (_ & _ & _ & _ & Hb & Ht & Hc & Hcs).
  pose proof (check_special_cases selected) as Hcases. cbn [In conditional_tools certificate_tools partly_offered app].
  intros [<-|[<-|[<-|[<-|[<-|[<-|[<-|[<-|[]]]]]]]]] Hno.
  - destruct Hno. by left.
  - apply offered_group_members.
  - destruct Hno. right. by left.
  - destruct Hno. right. right. by left.
  - apply (offered_decided _ _ _ Hb). intros args. destruct (Hcases args) as (_ & _ & _ & _ & X & _). exact X.
  - apply (offered_decided _ _ _ Ht). intros args. destruct (Hcases args) as (_ & _ & _ & _ & _ & X & _). exact X.
  - apply (offered_decided _ _ _ Hc). intros args. destruct (Hcases args) as (_ & _ & _ & _ & _ & _ & X & _). exact X.
  - apply (offered_decided _ _ _ Hcs). intros args. destruct (Hcases args) as (_ & _ & _ & _ & _ & _ & _ & X). exact X.
Qed.

Lemma check_platform selected args tool :
  startswith "agentbridge_" tool = true -> check_tool tool selected args = Ok tt.
Proof. intros Hp. unfold check_tool. by rewrite Hp. Qed.

Lemma offered_plain tool selected : plain_tool tool = true ->
  tool_available selected tool = true <-> callable selected tool.
Proof.
  intros Hp. destruct (plain_spec _ Hp) as (p & _ & _ & _ & _ & _ & Hq).
  apply (offered_decided _ _ _ (available_plain _ _ _ Hp Hq)). intros args. by apply check_plain.
Qed.

(** Platform tools are open to everybody. *)
Lemma database_tools tool : In tool agent_tools -> startswith "agentbridge_" tool = false ->
  platform_tool tool = true -> tool = "database_capabilities" \/ tool = "database_execute".
Proof.
  assert (forallb (fun tool => negb (negb (startswith "agentbridge_" tool) && platform_tool tool)
    || str_in tool ["database_capabilities"; "database_execute"]) agent_tools = true) as Hall
    by (vm_compute; reflexivity).
  intros Hin Ha Hp. rewrite forallb_forall in Hall. specialize (Hall _ Hin). rewrite Ha, Hp in Hall.
  apply str_in_spec in Hall. cbn in Hall. destruct Hall as [Hall|[Hall|[]]]; auto.
Qed.

Lemma offered_platform tool selected : In tool agent_tools -> platform_tool tool = true ->
  tool_available selected tool = true /\ callable selected tool.
Proof.
  intros Hin Hp. split; [unfold tool_available; unfold platform_tool in Hp; by rewrite Hp|].
  exists []. destruct (startswith "agentbridge_" tool) eqn:Ha; [by apply check_platform|].
  destruct (database_tools _ Hin Ha Hp) as [->| ->]; unfold check_tool, check_special; closed_tests selected; reflexivity.
Qed.

(** Every tool of the hosts that is not one of the platform is among those that [available_tools] considers. *)
Lemma considered tool : In tool agent_tools -> tool <> "agentbridge_skill_authoring" ->
  In tool (keys TOOL_PERMISSIONS ++ SPECIAL_TOOLS).
Proof.
  assert (forallb (fun tool => String.eqb tool "agentbridge_skill_authoring"
    || str_in tool (keys TOOL_PERMISSIONS ++ SPECIAL_TOOLS)) agent_tools = true) as Hall by (vm_compute; reflexivity).
  intros Hin Hne. rewrite forallb_forall in Hall. specialize (Hall _ Hin).
  apply String.eqb_neq in Hne. rewrite Hne in Hall. by apply str_in_spec.
Qed.

Lemma offered_In tool selected : In tool agent_tools -> tool <> "agentbridge_skill_authoring" ->
  In tool (available selected) <-> tool_available selected tool = true.
Proof. intros Hin Hne. rewrite (available_In _ _ Hin). pose proof (considered _ Hin Hne). tauto. Qed.

Lemma offered_unless_partly selected tool :
  In tool agent_tools -> tool <> "agentbridge_skill_authoring" -> ~ In tool partly_offered ->
  In tool (available selected) <-> callable selected tool.
Proof.
  intros Hin Hne Hno. rewrite (offered_In _ _ Hin Hne).
  destruct (tools_classified tool Hin) as [Hp|[Hs|[Hc|(Hp & _)]]].
  - by apply offered_plain.
  - split; [intros Ha; exists []; by apply check_session|intros [args Hargs]; by apply (check_session _ _ args)].
  - by apply offered_special.
  - destruct (offered_platform _ selected Hin Hp). tauto.
Qed.

(** Who may call the tools that are offered to others, too *)
Lemma group_list_callable selected :
  callable selected "oa_addressbook_group_list" <->
  str_in "oa.addressbook.read" selected = true \/ str_in "oa.addressbook.private.read" selected = true.
Proof.
  split.
  - intros [args Hargs]. destruct (check_special_cases selected args) as (Hc & _).
    by apply Hc, check_group_Ok, orb_true_iff in Hargs.
  - intros [Hs|Hs]; [exists (group_args "personal")|exists (group_args "private")].
    + destruct (check_special_cases selected (group_args "personal")) as (Hc & _). by apply Hc, check_group_personal.
    + destruct (check_special_cases selected (group_args "private")) as (Hc & _). by apply Hc, check_group_private.
Qed.

Definition private_source : list (string * json) := [("source", JStr "private_contacts")].

Lemma addressbook_export_callable selected :
  callable selected "oa_addressbook_export" <->
  str_in "oa.addressbook.export" selected = true /\
  (str_in "oa.addressbook.read" selected = true \/ str_in "oa.addressbook.private.read" selected = true).
Proof.
  split.
  - intros [args Hargs]. destruct (check_special_cases selected args) as (_ & _ & Hc & _).
    apply Hc in Hargs as [He Hs%check_export_Ok%orb_true_iff]. exact (conj He Hs).
  - intros [He [Hs|Hs]].
    + exists []. destruct (check_special_cases selected []) as (_ & _ & Hc & _). apply Hc. split; [exact He|].
      unfold check_export. change (dict_get [] "source" JNull) with JNull. cbn [is_text orb andb]. rewrite Hs. reflexivity.
    + exists private_source. destruct (check_special_cases selected private_source) as (_ & _ & Hc & _). apply Hc.
      split; [exact He|]. unfold check_export. change (dict_get private_source "source" JNull) with (JStr "private_contacts").
      cbn [is_text String.eqb Ascii.eqb Bool.eqb orb andb]. rewrite Hs. reflexivity.
Qed.

Definition report_args (kind : string) : list (string * json) := [("report_type", JStr kind)].

Lemma report_export_callable selected :
  callable selected "smartlight_report_export" <->
  str_in "smartlight.report.export" selected = true /\
  exists kind required, assoc kind REPORT_DEPENDENCIES = Some required /\ str_in required selected = true.
Proof.
  split.
  - intros [args Hargs]. destruct (check_special_cases selected args) as (_ & _ & _ & Hc & _).
    apply Hc in Hargs as [He Hr]. split; [exact He|]. unfold check_report in Hr.
    apply result_bind_Ok in Hr as ([kind|] & _ & Hr%unless_Ok); [|discriminate Hr]. exists kind.
    destruct (assoc kind REPORT_DEPENDENCIES) as [required|]; [by exists required|discriminate Hr].
  - intros (He & kind & required & Hk & Hs). exists (report_args kind).
    destruct (check_special_cases selected (report_args kind)) as (_ & _ & _ & Hc & _). apply Hc. split; [exact He|].
    unfold check_report. change (dict_get (report_args kind) "report_type" JNull) with (JStr kind).
    unfold hashable_text. rewrite (result_bind_run _ _ (Some kind) eq_refl), Hk, Hs. reflexivity.
Qed.

(** C24. What a host shows and what the server accepts agree.  A tool that hosts see is offered to a user exactly
    when there are arguments with which the check of the call lets this user through, but for four tools: the two
    exports are offered exactly to those who may export, and let them through exactly when they may read a source
    of the export as well (one kind of contacts, or what one of the reports is made of); the list of address book
    groups is offered exactly to those who may read both kinds of groups, and lets those through who may read one;
    and the authoring tool passes the check for everybody and is offered to nobody. *)
Theorem offered_tools_callable selected tool : In tool agent_tools ->
  let offered := In tool (available selected) in
  let granted p := str_in p selected = true in
  (~ In tool ("agentbridge_skill_authoring" :: partly_offered) -> offered <-> callable selected tool) /\
  (tool = "oa_addressbook_export" ->
    (offered <-> granted "oa.addressbook.export") /\
    (callable selected tool <->
      granted "oa.addressbook.export" /\ (granted "oa.addressbook.read" \/ granted "oa.addressbook.private.read"))) /\
  (tool = "smartlight_report_export" ->
    (offered <-> granted "smartlight.report.export") /\
    (callable selected tool <-> granted "smartlight.report.export" /\
      exists kind required, assoc kind REPORT_DEPENDENCIES = Some required /\ granted required)) /\
  (tool = "oa_addressbook_group_list" ->
    (offered <-> granted "oa.addressbook.read" /\ granted "oa.addressbook.private.read") /\
    (callable selected tool <-> granted "oa.addressbook.read" \/ granted "oa.addressbook.private.read")) /\
  (tool = "agentbridge_skill_authoring" -> callable selected tool /\ ~ offered).
Proof.
  intros Hin offered granted. subst offered granted. cbv beta.
  destruct (available_special selected) as (Hl & _ & He & Hr & _). split_and!.
  - intros Hno. apply offered_unless_partly; [done| |]; intros Ht; apply Hno; [by left|by right].
  - intros ->. rewrite (offered_In _ _ Hin ltac:(discriminate)), He. split; [apply iff_refl|apply addressbook_export_callable].
  - intros ->. rewrite (offered_In _ _ Hin ltac:(discriminate)), Hr. split; [apply iff_refl|apply report_export_callable].
  - intros ->. rewrite (offered_In _ _ Hin ltac:(discriminate)), Hl, andb_true_iff. split; [apply iff_refl|apply group_list_callable].
  - intros ->. split; [exists []; by apply check_platform|].
    rewrite (available_In _ _ Hin). intros [Hc%str_in_spec _].
    assert (str_in "agentbridge_skill_authoring" (keys TOOL_PERMISSIONS ++ SPECIAL_TOOLS) = false) as Hf
      by (vm_compute; reflexivity). congruence.
Qed.
End Tools.
