(* ===== verification/McpIdentities.v ===== *)
(** * Identity tokens of MCP clients (agentbridge/core/mcp_identities.py)

    A token is shown once, at its issue, and kept as its digest.  What it allows is what its user has
    been granted ([UserGrants]) when it is checked.  An administrator revokes a token, or renews it
    under the revision that was read, once per request identifier. *)

From S2P Require Import Prelude PyStr Json Sha256 Store InputValidation UserGrants.

#[local] Open Scope list_scope.

Definition _ALLOWED_SCOPES : list string :=
  ["agentbridge:connect"; "oa:read"; "oa:read:addressbook"; "oa:write:draft"; "oa:write:approval";
   "oa:write:meeting"; "oa:write:submit"; "oa:write:revoke"; "taihua:read"; "taihua:write:worklog";
   "yuque:read"; "smartlight:read"; "smartlight:write:alarm_remark";
   "smartlight:write:alarm_work_area_submit"; "smartlight:write:alarm_work_area_revoke";
   "smartlight:write:alarm_disposition"].

(** ** Tables *)

Inductive state : Type := Active | Revoked.

#[export] Instance state_eq_dec : EqDecision state.
Proof. solve_decision. Defined.

Definition state_text (st : state) : string :=
  match st with Active => "active" | Revoked => "revoked" end.

(** [mcp_identity_tokens]; the JSON of [scopes_json] holds a list of strings. *)
Record token_row : Type := TokenRow {
  token_hash : string;
  user_subject : string;
  expected_principal_ref : string;
  label : option string;
  scopes_json : list string;
  row_state : state;
  created_at : instant;
  expires_at : instant;
  last_used_at : option instant;
  revoked_at : option instant;
  edit_revision : Z;
  last_renewed_at : option instant;
}.

(** [mcp_token_renewals] *)
Record renewal : Type := Renewal {
  rn_token_id : string;
  rn_new_expires_at : instant;
  rn_edit_revision : Z;
  rn_actor : string;
  rn_reason : string;
  rn_created_at : instant;
}.

(** The grants are in the same database; [business] holds them with the tables of audit callbacks. *)
Record db (O : Type) : Type := MkDb {
  tokens : gmap string token_row;
  renewals : gmap string renewal;
  business : store O;
}.
Arguments MkDb {O}. Arguments tokens {O}. Arguments renewals {O}. Arguments business {O}.

Definition with_tokens {O} (f : gmap string token_row -> gmap string token_row) (s : db O) : db O :=
  MkDb (f (tokens s)) (renewals s) (business s).

(** ** Times *)

(** [_as_utc]: a naive datetime is taken as one of UTC. *)
Definition utc (d : datetime) : instant := match d with Aware t => t | Naive t => t end.

Definition minutes (n : Z) : Z := seconds (60 * n).
Definition days (n : Z) : Z := seconds (86400 * n).

(** ** Records *)

Record record : Type := Rec {
  token_id : string;
  r_user_subject : string;
  r_expected_principal_ref : string;
  r_label : option string;
  scopes : list string;
  r_state : state;
  r_created_at : instant;
  r_expires_at : instant;
  r_last_used_at : option instant;
  r_revoked_at : option instant;
  r_edit_revision : Z;
  r_last_renewed_at : option instant;
}.

Definition _record_from_row (id : string) (r : token_row) : record :=
  Rec id (user_subject r) (expected_principal_ref r) (label r)
    (List.filter (fun scope => str_in scope _ALLOWED_SCOPES) (scopes_json r)) (row_state r) (created_at r)
    (expires_at r) (last_used_at r) (revoked_at r) (edit_revision r) (last_renewed_at r).

(** [record["scopes"] = ...] and [record["last_used_at"] = ...] *)
Definition with_scopes (scopes : list string) (r : record) : record :=
  Rec (token_id r) (r_user_subject r) (r_expected_principal_ref r) (r_label r) scopes (r_state r) (r_created_at r)
    (r_expires_at r) (r_last_used_at r) (r_revoked_at r) (r_edit_revision r) (r_last_renewed_at r).

Definition with_last_used (now : instant) (r : record) : record :=
  Rec (token_id r) (r_user_subject r) (r_expected_principal_ref r) (r_label r) (scopes r) (r_state r) (r_created_at r)
    (r_expires_at r) (Some now) (r_revoked_at r) (r_edit_revision r) (r_last_renewed_at r).

(** The SET clauses of the updates *)

Definition used_row (now : instant) (r : token_row) : token_row :=
  TokenRow (token_hash r) (user_subject r) (expected_principal_ref r) (label r) (scopes_json r) (row_state r)
    (created_at r) (expires_at r) (Some now) (revoked_at r) (edit_revision r) (last_renewed_at r).

Definition revoked_row (now : instant) (r : token_row) : token_row :=
  TokenRow (token_hash r) (user_subject r) (expected_principal_ref r) (label r) (scopes_json r) Revoked
    (created_at r) (expires_at r) (last_used_at r) (Some now) (edit_revision r + 1)%Z (last_renewed_at r).

Definition renewed_row (requested now : instant) (r : token_row) : token_row :=
  TokenRow (token_hash r) (user_subject r) (expected_principal_ref r) (label r) (scopes_json r) (row_state r)
    (created_at r) requested (last_used_at r) (revoked_at r) (edit_revision r + 1)%Z (Some now).

(** ** Validation *)

Section Validation.
Context `{UnicodeTables}.

Definition has_control (s : string) : bool := existsb (fun c => N.ltb (codepoint c) 32) (chars s).

(** [_validate_user_subject] and [_validate_expected_principal] *)
Definition validate_text (name value : string) : result string :=
  let value := py_strip value in
  raise_if (negb (truthy value) || (256 <? py_len value)%Z || has_control value) ValueError (name +:+ " is invalid");;
  Ok value.

Definition _validate_user_subject : string -> result string := validate_text "user_subject".
Definition _validate_expected_principal : string -> result string := validate_text "expected_principal_ref".

Definition _validate_label (value : option string) : result (option string) :=
  match value with
  | None => Ok None
  | Some value =>
      let value := py_strip value in
      if negb (truthy value) then Ok None
      else
        raise_if ((120 <? py_len value)%Z || has_control value) ValueError "MCP identity token label is invalid";;
        Ok (Some value)
  end.

Definition _validate_scopes (scopes : list string) : result (list string) :=
  raise_if match scopes with [] => true | _ => false end ValueError "MCP identity token scopes are required";;
  let normalized := sorted_set (map py_strip scopes) in
  raise_if (negb (forallb (fun scope => str_in scope _ALLOWED_SCOPES) normalized)) ValueError
    "MCP identity token contains an unsupported scope";;
  Ok normalized.
End Validation.

Definition _token_hash (token : string) : string := sha256_hex token.

Section Store.
Context {O : Type} `{UnicodeTables}.
Implicit Types (s : db O).

(** ** Reading *)

Definition get (id : string) s : result record :=
  match tokens s !! id with
  | None => raise KeyError ("MCP identity token not found: " +:+ id)
  | Some r => Ok (_record_from_row id r)
  end.

(** What a method returns when it ends with [return self.get(token_id)], after its commit *)
Definition then_get {A} (id : string) (r : result A * db O) : result record * db O :=
  match r with
  | (Raise e, s) => (Raise e, s)
  | (Ok _, s) => (get id s, s)
  end.

(** [ORDER BY created_at DESC] *)
Definition newer (a b : string * token_row) : bool := (created_at (snd b) <=? created_at (snd a))%Z.

Definition list_tokens (owner : option string) (limit : Z) s : result (list record) :=
  raise_if ((limit <? 1)%Z || (1000 <? limit)%Z) ValueError "MCP identity token list limit must be between 1 and 1000";;
  wanted ← match owner with
           | None => Ok (fun _ => true)
           | Some subject =>
               subject ← _validate_user_subject subject;
               Ok (fun r => String.eqb (user_subject r) subject)
           end;
  Ok (map (fun kr => _record_from_row (fst kr) (snd kr))
        (take (Z.to_nat limit) (sort_by newer (select_where wanted (tokens s))))).

(** ** Issue *)

Record issue_args : Type := IssueArgs {
  i_user_subject : string;
  i_expected_principal_ref : string;
  i_label : option string;
  i_scopes : option (list string);
  i_ttl_seconds : Z;
}.

(** What [issue] draws: the time, the identifier, and the text of [secrets.token_urlsafe(32)] *)
Record issue_draw : Type := IssueDraw { d_clock : datetime; d_token_id : string; d_random : string }.

Definition check_issue (a : issue_args) : result (string * string * option string * list string) :=
  user_subject ← _validate_user_subject (i_user_subject a);
  expected ← _validate_expected_principal (i_expected_principal_ref a);
  normalized_label ← _validate_label (i_label a);
  normalized_scopes ← _validate_scopes (match i_scopes a with
                                        | None | Some [] => ["agentbridge:connect"]
                                        | Some scopes => scopes
                                        end);
  raise_if (negb (bool_decide (normalized_scopes = ["agentbridge:connect"]))) ValueError
    "Token scopes no longer grant business access; configure user permissions instead";;
  raise_if ((i_ttl_seconds a <? 300)%Z || (90 * 86400 <? i_ttl_seconds a)%Z) ValueError
    "MCP identity token TTL must be between 5 minutes and 90 days";;
  Ok (user_subject, expected, normalized_label, normalized_scopes).

Definition secret_of (d : issue_draw) : string := "abmcp_" +:+ d_random d.

Definition new_row (hash user_subject expected : string) (label : option string) (scopes : list string)
    (now expires_at : instant) : token_row :=
  TokenRow hash user_subject expected label scopes Active now expires_at None None 0 None.

Definition insert_token (id : string) (row : token_row) : tx (db O) unit := fun s =>
  rows ← insert_row id (fun r => String.eqb (token_hash r) (token_hash row)) row (tokens s);
  Ok (tt, with_tokens (fun _ => rows) s).

(** The record that is returned, with the token itself *)
Definition issue (a : issue_args) (d : issue_draw) s : result (record * string) * db O :=
  match check_issue a with
  | Raise e => (Raise e, s)
  | Ok (user_subject, expected, normalized_label, normalized_scopes) =>
      let now := utc (d_clock d) in
      let row := new_row (_token_hash (secret_of d)) user_subject expected normalized_label normalized_scopes
                   now (now + seconds (i_ttl_seconds a))%Z in
      match then_get (d_token_id d) (transaction (insert_token (d_token_id d) row) s) with
      | (Ok r, s') => (Ok (r, secret_of d), s')
      | (Raise e, s') => (Raise e, s')
      end
  end.

(** ** Checks of a token *)

Definition usable (r : record) (now : instant) : bool :=
  bool_decide (r_state r = Active) && (now <? r_expires_at r)%Z.

(** [not (required_scopes and not required_scopes.issubset(set(record["scopes"])))] *)
Definition covers (required : option (list string)) (granted : list string) : bool :=
  match required with None => true | Some required => forallb (fun scope => str_in scope granted) required end.

Definition token_format (token : string) : bool := startswith "abmcp_" token && negb (256 <? py_len token)%Z.

Definition row_of_hash (hash : string) (t : gmap string token_row) : option (string * token_row) :=
  select_one (fun r => String.eqb (token_hash r) hash) t.

(** What [verify] decides from the tokens [seen] by its SELECT, which opens no transaction, and the
    grants [granted] that another connection reads. *)
Definition verified (token : string) (required : option (list string)) (now : instant)
    (seen : gmap string token_row) (granted : store O) : result (option record) :=
  if negb (token_format token) then Ok None
  else
    match row_of_hash (_token_hash token) seen with
    | None => Ok None
    | Some (id, r) =>
        let found := _record_from_row id r in
        if negb (usable found now) then Ok None
        else
          scopes ← effective_scopes (r_user_subject found) granted;
          if negb (covers required scopes) then Ok None else Ok (Some (with_scopes scopes found))
    end.

Definition touch (id : string) (now : instant) (t : gmap string token_row) : gmap string token_row :=
  fst (update_key id (fun _ => true) (used_row now) t).

Definition verify (token : string) (required : option (list string)) (clock : datetime)
    (seen : gmap string token_row) (granted : store O) s : result (option record) * db O :=
  let now := utc clock in
  match verified token required now seen granted with
  | Raise e => (Raise e, s)
  | Ok None => (Ok None, s)
  | Ok (Some r) => (Ok (Some (with_last_used now r)), with_tokens (touch (token_id r) now) s)
  end.

Definition resolve_client (id : string) (required : option (list string)) (clock : datetime) (granted : store O) s
  : result record :=
  found ← get id s;
  raise_if (negb (usable found (utc clock))) PermissionError "MCP identity token is inactive or expired";;
  scopes ← effective_scopes (r_user_subject found) granted;
  raise_if (negb (covers required scopes)) PermissionError "MCP identity token does not grant the required scope";;
  Ok (with_scopes scopes found).

(** ** Changes by an administrator *)

Definition is_active (r : token_row) : bool := bool_decide (row_state r = Active).

Definition revoke_body (id : string) (now : instant) : tx (db O) unit := fun s =>
  let '(t, rowcount) := update_key id is_active (revoked_row now) (tokens s) in
  raise_if (Nat.eqb rowcount 0 && negb (bool_decide (is_Some (t !! id)))) KeyError
    ("MCP identity token not found: " +:+ id);;
  Ok (tt, with_tokens (fun _ => t) s).

Definition revoke (id : string) (clock : datetime) s : result record * db O :=
  then_get id (transaction (revoke_body id (utc clock)) s).

(** [new_expires_at] is what [datetime.fromisoformat] makes of the argument. *)
Record renew_args : Type := RenewArgs {
  n_token_id : string;
  n_new_expires_at : result datetime;
  n_expected_revision : Z;
  n_request_id : string;
  n_actor : string;
  n_reason : string;
}.

(** [audit_callback(connection, record, updated)] *)
Definition renewal_audit : Type := record -> record -> O -> result O.

Definition check_renew (a : renew_args) : result instant :=
  raise_if (n_expected_revision a <? 0)%Z ValueError "invalid token edit revision";;
  raise_if (negb ((1 <=? py_len (n_request_id a))%Z && (py_len (n_request_id a) <=? 128)%Z)) ValueError
    "invalid renewal request id";;
  raise_if (negb (truthy (py_strip (n_actor a)))) ValueError "renewal actor is required";;
  raise_if (negb (truthy (py_strip (n_reason a))) || (1000 <? py_len (n_reason a))%Z) ValueError
    "renewal reason is required";;
  match n_new_expires_at a with
  | Ok d => Ok (utc d)
  | Raise e =>
      if bool_decide (exn_class e = ValueError \/ exn_class e = TypeError)
      then raise ValueError "invalid token expiry" else Raise e
  end.

Definition conflict (b : bool) (message : string) : result unit := raise_if b TokenEditConflict message.

Definition renewal_of (a : renew_args) (requested now : instant) : renewal :=
  Renewal (n_token_id a) requested (n_expected_revision a + 1)%Z (py_strip (n_actor a)) (py_strip (n_reason a)) now.

(** The transaction of [renew], when the request identifier is new *)
Definition apply_renewal (a : renew_args) (requested now : instant) (callback : option renewal_audit)
  : tx (db O) unit := fun s =>
  raise_if (negb ((now + minutes 5 <=? requested)%Z && (requested <=? now + days 90)%Z)) ValueError
    "token expiry must be between 5 minutes and 90 days from now";;
  match tokens s !! n_token_id a with
  | None => raise KeyError ("MCP identity token not found: " +:+ n_token_id a)
  | Some r =>
      let before := _record_from_row (n_token_id a) r in
      raise_if (negb (bool_decide (r_state before = Active))) PermissionError "revoked token cannot be renewed";;
      conflict (negb (r_edit_revision before =? n_expected_revision a)%Z) "token edit revision conflict";;
      raise_if (requested <=? r_expires_at before)%Z ValueError "new expiry must extend the current expiry";;
      let '(t, rowcount) := update_key (n_token_id a)
        (fun r => is_active r && (edit_revision r =? n_expected_revision a)%Z) (renewed_row requested now) (tokens s) in
      conflict (negb (Nat.eqb rowcount 1)) "token edit revision conflict";;
      log ← insert_row (n_request_id a) (fun _ => false) (renewal_of a requested now) (renewals s);
      rest ← match callback, t !! n_token_id a with
             | Some callback, Some updated =>
                 callback before (_record_from_row (n_token_id a) updated) (others (business s))
             | _, _ => Ok (others (business s))
             end;
      Ok (tt, MkDb t log (MkStore (grants (business s)) (grant_events (business s)) rest))
  end.

Definition renew_body (a : renew_args) (requested now : instant) (callback : option renewal_audit)
  : tx (db O) unit := fun s =>
  match renewals s !! n_request_id a with
  | Some prior =>
      conflict (negb (String.eqb (rn_token_id prior) (n_token_id a) && (rn_new_expires_at prior =? requested)%Z))
        "renewal request id was used for another change";;
      Ok (tt, s)
  | None => apply_renewal a requested now callback s
  end.

Definition renew (a : renew_args) (clock : datetime) (callback : option renewal_audit) s : result record * db O :=
  match check_renew a with
  | Raise e => (Raise e, s)
  | Ok requested => then_get (n_token_id a) (transaction (renew_body a requested (utc clock) callback) s)
  end.
End Store.
