(* ===== verification/McpIdentityFacts.v ===== *)
(** * Identity tokens: lifetimes, revocation, renewal, and what a check answers *)

From S2P Require Import Prelude PyStr Json JsonFacts Sha256 Store InputValidation InputValidationFacts UserPermissions UserGrants UserGrantFacts UserToolFacts McpIdentities.

#[local] Open Scope list_scope.
#[local] Opaque sha256_hex.

Section Facts.
Context {O : Type} {tables : UnicodeTables}.
Implicit Types (s : db O) (t : gmap string token_row) (r : token_row).

(** ** Steps *)

(** One call of a method, by anyone, with whatever result; [seen] and [granted] are snapshots of a check that
    other calls may have overtaken. *)
Inductive step s : db O -> Prop :=
  | issues a d x s' : issue a d s = (x, s') -> step s s'
  | verifies token required clock seen granted x s' : verify token required clock seen granted s = (x, s') -> step s s'
  | revokes id clock x s' : revoke id clock s = (x, s') -> step s s'
  | renews a clock callback x s' : renew a clock callback s = (x, s') -> step s s'
  | changes_grants a callback now id x b :
      save a callback now id (business s) = (x, b) -> step s (MkDb (tokens s) (renewals s) b).

(** What a step does to the tokens, and to the log of renewals *)
Inductive effect t (log : gmap string renewal) : gmap string token_row -> gmap string renewal -> Prop :=
  | no_effect : effect t log t log
  | token_issued id r :
      t !! id = None -> (forall k r', t !! k = Some r' -> token_hash r' <> token_hash r) ->
      row_state r = Active -> revoked_at r = None -> edit_revision r = 0%Z -> last_renewed_at r = None ->
      scopes_json r = ["agentbridge:connect"] ->
      (created_at r + minutes 5 <= expires_at r <= created_at r + days 90)%Z ->
      effect t log (<[id := r]> t) log
  | token_used id r now : t !! id = Some r -> effect t log (<[id := used_row now r]> t) log
  | token_revoked id r now : t !! id = Some r -> row_state r = Active -> effect t log (<[id := revoked_row now r]> t) log
  | token_renewed a r requested now :
      t !! n_token_id a = Some r -> row_state r = Active -> edit_revision r = n_expected_revision a ->
      (expires_at r < requested)%Z -> (now + minutes 5 <= requested <= now + days 90)%Z ->
      log !! n_request_id a = None ->
      effect t log (<[n_token_id a := renewed_row requested now r]> t)
        (<[n_request_id a := renewal_of a requested now]> log).

Lemma then_get_state {A} id (x : result A * db O) : snd (then_get id x) = snd x.
Proof. by destruct x as [[a|e] s]. Qed.

Lemma check_issue_Ok a subject expected lab sc :
  check_issue a = Ok (subject, expected, lab, sc) ->
  sc = ["agentbridge:connect"] /\ (300 <= i_ttl_seconds a <= 90 * 86400)%Z.
Proof.
  unfold check_issue. intros Hc.
  do 4 apply result_bind_Ok in Hc as (? & _ & Hc).
  rewrite !result_raise_if_bind in Hc. destruct Hc as (Hs & Ht & [= <- <- <- <-]).
  apply negb_false_iff, bool_decide_eq_true in Hs. apply orb_false_iff in Ht. split; [done|lia].
Qed.

Lemma issue_effect a d s x s' : issue a d s = (x, s') -> effect (tokens s) (renewals s) (tokens s') (renewals s').
Proof.
  unfold issue. destruct (check_issue a) as [[[[subject expected] lab] sc]|e] eqn:Hc; [|intros [= _ <-]; constructor].
  apply check_issue_Ok in Hc as [-> Httl]. set (id := d_token_id d). set (row := new_row _ _ _ _ _ _ _).
  destruct (insert_token id row s) as [[[] s1]|e] eqn:Hi; unfold transaction; rewrite Hi; cbn [then_get].
  - assert (effect (tokens s) (renewals s) (tokens s1) (renewals s1)) as He.
    { unfold insert_token in Hi. apply result_bind_Ok in Hi as (rows & (Hn & Hx & ->)%insert_row_Ok & [= <-]). cbn.
      apply token_issued; try done.
      - intros k r' Hk. rewrite exists_where_false in Hx. by apply String.eqb_neq, (Hx k).
      - cbn. unfold minutes, days, seconds. lia. }
    destruct (get id s1); intros [= _ <-]; exact He.
  - intros [= _ <-]. constructor.
Qed.

Lemma verify_effect token required clock seen granted s x s' :
  verify token required clock seen granted s = (x, s') ->
  effect (tokens s) (renewals s) (tokens s') (renewals s').
Proof.
  unfold verify, touch. destruct (verified _ _ _ _ _) as [[found|]|e]; intros [= _ <-]; try constructor.
  cbn. unfold update_key. destruct (tokens s !! token_id found) as [r|] eqn:Hr; [by constructor|constructor].
Qed.

Lemma revoke_effect id clock s x s' :
  revoke id clock s = (x, s') -> effect (tokens s) (renewals s) (tokens s') (renewals s').
Proof.
  intros Hx. apply (f_equal snd) in Hx. unfold revoke in Hx. rewrite then_get_state in Hx. cbn in Hx. subst s'.
  unfold transaction, revoke_body, update_key. destruct (tokens s !! id) as [r|] eqn:Hr.
  - unfold is_active. destruct (base.decide (row_state r = Active)) as [Ha|Ha].
    + rewrite bool_decide_true by done. cbn. by constructor.
    + rewrite bool_decide_false by done. cbn. rewrite Hr. cbn. constructor.
  - cbn. rewrite Hr. constructor.
Qed.

Lemma apply_renewal_Ok a requested now callback s s' :
  apply_renewal a requested now callback s = Ok (tt, s') ->
  exists r rest, tokens s !! n_token_id a = Some r /\ row_state r = Active /\ edit_revision r = n_expected_revision a /\
    (expires_at r < requested)%Z /\ (now + minutes 5 <= requested <= now + days 90)%Z /\
    renewals s !! n_request_id a = None /\
    s' = MkDb (<[n_token_id a := renewed_row requested now r]> (tokens s))
           (<[n_request_id a := renewal_of a requested now]> (renewals s))
           (MkStore (grants (business s)) (grant_events (business s)) rest).
Proof.
  unfold apply_renewal. rewrite result_raise_if_bind. intros [Hb Hx]. apply negb_false_iff, andb_true_iff in Hb.
  destruct (tokens s !! n_token_id a) as [r|] eqn:Hr; [|discriminate].
  unfold conflict in Hx. rewrite !result_raise_if_bind in Hx. destruct Hx as (Ha & Hrev & Hlt & Hx).
  apply negb_false_iff, bool_decide_eq_true in Ha. apply negb_false_iff, Z.eqb_eq in Hrev. apply Z.leb_gt in Hlt.
  cbn in Ha, Hrev, Hlt.
  rewrite (update_key_hit _ _ _ _ r) in Hx; [|done|unfold is_active; rewrite Ha, Hrev; cbn; apply Z.eqb_refl].
  rewrite result_raise_if_bind in Hx. destruct Hx as [_ Hx].
  apply result_bind_Ok in Hx as (log & (Hn & _ & ->)%insert_row_Ok & Hx).
  apply result_bind_Ok in Hx as (rest & _ & [= <-]). exists r, rest. split_and!; (done || lia).
Qed.

Lemma renew_effect a clock callback s x s' :
  renew a clock callback s = (x, s') -> effect (tokens s) (renewals s) (tokens s') (renewals s').
Proof.
  unfold renew. destruct (check_renew a) as [requested|e]; [|intros [= _ <-]; constructor].
  intros Hx. apply (f_equal snd) in Hx. rewrite then_get_state in Hx. cbn in Hx. subst s'.
  unfold transaction, renew_body. destruct (renewals s !! n_request_id a) as [prior|] eqn:Hp.
  - unfold conflict. destruct (negb _); cbn; constructor.
  - destruct (apply_renewal a requested (utc clock) callback s) as [[[] s1]|e] eqn:Ha; [|constructor].
    apply apply_renewal_Ok in Ha as (r & rest & Hr & Hact & Hrev & Hlt & Hb & Hn & ->). cbn. by econstructor.
Qed.

Lemma step_effect s s' : step s s' -> effect (tokens s) (renewals s) (tokens s') (renewals s').
Proof.
  intros []; eauto using issue_effect, verify_effect, revoke_effect, renew_effect. constructor.
Qed.

(** ** The invariant *)

(** The instant from which the lifetime of a token counts *)
Definition base_time r : instant := match last_renewed_at r with Some at_ => at_ | None => created_at r end.

Definition token_ok r : Prop :=
  (row_state r = Active <-> revoked_at r = None) /\ (0 <= edit_revision r)%Z /\
  (base_time r + minutes 5 <= expires_at r <= base_time r + days 90)%Z /\ scopes_json r = ["agentbridge:connect"].

Definition one_row_per_hash t : Prop :=
  forall k k' r r', t !! k = Some r -> t !! k' = Some r' -> token_hash r = token_hash r' -> k = k'.

(** A renewal is of a token that is there and has moved past its revision, and no two renewals of a token made the
    same revision. *)
Definition log_ok t (log : gmap string renewal) : Prop :=
  (forall q n, log !! q = Some n -> exists r, t !! rn_token_id n = Some r /\
    (1 <= rn_edit_revision n <= edit_revision r)%Z) /\
  (forall q q' n n', log !! q = Some n -> log !! q' = Some n' -> rn_token_id n = rn_token_id n' ->
    rn_edit_revision n = rn_edit_revision n' -> q = q').

Record identities_ok t (log : gmap string renewal) : Prop := {
  ok_hashes : one_row_per_hash t;
  ok_tokens : forall id r, t !! id = Some r -> token_ok r;
  ok_log : log_ok t log;
}.

(** Rows that take the place of a row keep its hash and do not lower its revision. *)
Lemma ok_update t log id r r' : identities_ok t log -> t !! id = Some r ->
  token_hash r' = token_hash r -> (edit_revision r <= edit_revision r')%Z -> token_ok r' ->
  identities_ok (<[id := r']> t) log.
Proof.
  intros [Hu Ht [Hl1 Hl2]] Hr Hh Hrev Hok. split.
  - intros k k' x x'. rewrite !lookup_insert_Some. intros [[<- <-]|[Hk Hx]] [[<- <-]|[Hk' Hx']] He; eauto.
    + apply (Hu id k' r x'); congruence.
    + apply (Hu k id x r); congruence.
  - intros k x. rewrite lookup_insert_Some. intros [[<- <-]|[_ Hx]]; eauto.
  - split; [|exact Hl2]. intros q n Hq. destruct (Hl1 q n Hq) as (x & Hx & Hb).
    destruct (base.decide (id = rn_token_id n)) as [->|Hne].
    + exists r'. rewrite lookup_insert_eq. split; [done|]. rewrite Hr in Hx. injection Hx as ->.
      destruct Hb. split; [done|]. by etrans.
    + exists x. by rewrite lookup_insert_ne.
Qed.

Lemma ok_effect t log t' log' : effect t log t' log' -> identities_ok t log -> identities_ok t' log'.
Proof.
  intros He Hok. destruct He as [|id r Hn Hh Ha Hrv Hrev Hrn Hs Hb|id r now Hr|id r now Hr Ha
    |a r requested now Hr Ha Hrev Hlt Hb Hq].
  - done.
  - destruct Hok as [Hu Ht [Hl1 Hl2]]. split.
    + intros k k' x x'. rewrite !lookup_insert_Some. intros [[<- <-]|[Hk Hx]] [[<- <-]|[Hk' Hx']] He; eauto.
      * destruct (Hh _ _ Hx'). done.
      * destruct (Hh _ _ Hx). done.
    + intros k x. rewrite lookup_insert_Some. intros [[<- <-]|[_ Hx]]; [|eauto].
      unfold token_ok, base_time. rewrite Hrn, Hrev. split_and!; (done || lia).
    + split; [|exact Hl2]. intros q n Hq. destruct (Hl1 q n Hq) as (x & Hx & Hbx). exists x.
      rewrite lookup_insert_ne by congruence. done.
  - apply (ok_update _ _ _ r); try done. apply (ok_tokens _ _ Hok _ _ Hr).
  - apply (ok_update _ _ _ r); try done; [cbn; lia|].
    destruct (ok_tokens _ _ Hok _ _ Hr) as (_ & Hz & Hbt & Hsc). unfold token_ok, base_time in *. cbn.
    split; [split; discriminate|]. split_and!; (done || lia).
  - assert (identities_ok (<[n_token_id a := renewed_row requested now r]> t) log) as [Hu Ht [Hl1 Hl2]].
    { apply (ok_update _ _ _ r); try done; [cbn; lia|].
      destruct (ok_tokens _ _ Hok _ _ Hr) as (Hiff & Hz & _ & Hsc). unfold token_ok, base_time. cbn.
      split_and!; (done || lia || tauto). }
    destruct (ok_tokens _ _ Hok _ _ Hr) as (_ & Hz & _). destruct (ok_log _ _ Hok) as [Hl0 _].
    assert (forall q n, log !! q = Some n -> rn_token_id n = n_token_id a ->
      (rn_edit_revision n <= n_expected_revision a)%Z) as Hold.
    { intros q n Hn Hid. destruct (Hl0 q n Hn) as (x & Hx & Hbx). rewrite Hid, Hr in Hx.
      injection Hx as <-. lia. }
    split; [done..|]. split.
    + intros q n. rewrite lookup_insert_Some. intros [[<- <-]|[_ Hn]]; [|eauto]. cbn. rewrite lookup_insert_eq.
      eexists; split; [done|]. cbn. lia.
    + intros q q' n n'. rewrite !lookup_insert_Some. intros [[<- <-]|[Hk Hn]] [[<- <-]|[Hk' Hn']] Hid Hre; eauto.
      * cbn in Hre, Hid. pose proof (Hold _ _ Hn' (eq_sym Hid)). lia.
      * cbn in Hre, Hid. pose proof (Hold _ _ Hn Hid). lia.
Qed.

Definition no_identities s : Prop := tokens s = ∅ /\ renewals s = ∅.

Lemma reachable_ok s : reachable no_identities step s -> identities_ok (tokens s) (renewals s).
Proof.
  revert s. apply (reachable_invariant _ _ (fun s => identities_ok (tokens s) (renewals s))).
  - intros s [-> ->]. split; [intros k k' x x' Hx|intros id x Hx|split; [intros q n Hn|intros q q' n n' Hn]];
      by rewrite lookup_empty in *.
  - intros s s' Hs Hstep. exact (ok_effect _ _ _ _ (step_effect _ _ Hstep) Hs).
Qed.

(** C4. What every sequence of calls keeps, whatever the clocks say: no two tokens have the same digest; a token is
    active exactly as long as it has no time of revocation; it runs out between 5 minutes and 90 days after its issue
    or its last renewal; it carries no scope but the one to connect; each entry of the log of renewals is of a token
    that has moved past its revision, and no two requests have renewed a token to the same revision. *)
Theorem identities_invariant s : reachable no_identities step s -> identities_ok (tokens s) (renewals s).
Proof. apply reachable_ok. Qed.

(** ** Revocation *)

Lemma effect_keeps_revoked t log t' log' id r : effect t log t' log' ->
  t !! id = Some r -> row_state r = Revoked ->
  exists r', t' !! id = Some r' /\ row_state r' = Revoked /\ token_hash r' = token_hash r.
Proof.
  intros He Hr Hst. destruct He as [|k x Hn|k x now Hx|k x now Hx Ha|a x requested now Hx Ha].
  - by exists r.
  - exists r. by rewrite lookup_insert_ne by congruence.
  - destruct (base.decide (k = id)) as [->|Hne].
    + exists (used_row now x). rewrite lookup_insert_eq. rewrite Hr in Hx. by injection Hx as <-.
    + exists r. by rewrite lookup_insert_ne.
  - destruct (base.decide (k = id)) as [->|Hne]; [congruence|]. exists r. by rewrite lookup_insert_ne.
  - destruct (base.decide (n_token_id a = id)) as [<-|Hne]; [congruence|]. exists r. by rewrite lookup_insert_ne.
Qed.

Lemma steps_keep_revoked s s' id r : rtc step s s' ->
  tokens s !! id = Some r -> row_state r = Revoked ->
  exists r', tokens s' !! id = Some r' /\ row_state r' = Revoked /\ token_hash r' = token_hash r.
Proof.
  intros Hs. revert r. induction Hs as [s|s s1 s' Hstep _ IH]; intros r Hr Hst; [by exists r|].
  apply step_effect in Hstep. destruct (effect_keeps_revoked _ _ _ _ _ _ Hstep Hr Hst) as (r1 & Hr1 & Hst1 & Hh).
  destruct (IH r1 Hr1 Hst1) as (r' & Hr' & Hst' & Hh'). exists r'. by rewrite Hh', Hh.
Qed.

Lemma revoke_Ok id clock s x s1 : revoke id clock s = (Ok x, s1) ->
  exists r r1, tokens s !! id = Some r /\ tokens s1 !! id = Some r1 /\ row_state r1 = Revoked /\
    token_hash r1 = token_hash r.
Proof.
  unfold revoke, transaction, revoke_body, update_key. destruct (tokens s !! id) as [r|] eqn:Hr.
  - unfold is_active. destruct (base.decide (row_state r = Active)) as [Ha|Ha].
    + rewrite bool_decide_true by done. cbn. unfold get. cbn. rewrite lookup_insert_eq. intros [= _ <-].
      exists r, (revoked_row (utc clock) r). cbn. by rewrite lookup_insert_eq.
    + rewrite bool_decide_false by done. cbn. rewrite Hr. cbn. unfold get. cbn. rewrite Hr. intros [= _ <-].
      exists r, r. cbn. split_and!; [done..| |done]. destruct (row_state r); [by destruct Ha|done].
  - cbn. rewrite Hr. discriminate.
Qed.

Lemma reachable_steps s s' : reachable no_identities step s -> rtc step s s' -> reachable no_identities step s'.
Proof. intros Hs. induction 1 as [|s s1 s' Hstep _ IH]; [done|]. apply IH. by eapply reachable_step. Qed.

Lemma row_of_hash_unique t id r : one_row_per_hash t -> t !! id = Some r ->
  row_of_hash (token_hash r) t = Some (id, r).
Proof.
  intros Hu Hr. unfold row_of_hash. apply select_one_unique; [done|by rewrite String.eqb_refl|].
  intros k r' Hk He%String.eqb_eq. by apply (Hu k id r' r).
Qed.

(** C26. Revocation is final.  Once a token is revoked, then whatever calls follow, no text with its digest is
    verified, its identifier resolves to no client, and a renewal that is answered changes nothing and shows the
    token as revoked. *)
Theorem revoked_token_is_dead id clock s x s1 s2 r :
  reachable no_identities step s -> tokens s !! id = Some r -> revoke id clock s = (Ok x, s1) -> rtc step s1 s2 ->
  (forall token required now (granted : store O), _token_hash token = token_hash r ->
    verified token required now (tokens s2) granted = Ok None) /\
  (forall required clock' (granted : store O), resolve_client id required clock' granted s2
    = Raise (Exn PermissionError "MCP identity token is inactive or expired")) /\
  (forall a clock' callback y s3, n_token_id a = id -> renew a clock' callback s2 = (Ok y, s3) ->
    s3 = s2 /\ r_state y = Revoked).
Proof.
  intros Hreach Hr Hrev Hss. pose proof Hrev as Hx.
  apply revoke_Ok in Hx as (r0 & r1 & Hr0 & Hr1 & Hst & Hh). replace r0 with r in Hh by congruence.
  destruct (steps_keep_revoked _ _ _ _ Hss Hr1 Hst) as (r2 & Hr2 & Hst2 & Hh2).
  assert (reachable no_identities step s2) as Hreach2.
  { apply (reachable_steps s1); [|done]. eapply reachable_step; [done|]. by eapply revokes. }
  destruct (reachable_ok _ Hreach2) as [Hu _ _]. split_and!.
  - intros token required now granted Ht. unfold verified. destruct (negb (token_format token)); [done|].
    rewrite Ht, <- Hh, <- Hh2, (row_of_hash_unique _ _ _ Hu Hr2). unfold usable. cbn. by rewrite Hst2.
  - intros required clock' granted. unfold resolve_client, get. rewrite Hr2. cbn. unfold usable. cbn. by rewrite Hst2.
  - intros a clock' callback y s3 Hid. unfold renew. destruct (check_renew a) as [requested|e]; [|discriminate].
    unfold transaction, renew_body. destruct (renewals s2 !! n_request_id a) as [prior|].
    + unfold conflict. destruct (negb _); cbn; [discriminate|]. unfold get. rewrite Hid, Hr2. by intros [= <- <-].
    + destruct (apply_renewal a requested (utc clock') callback s2) as [[[] s4]|e] eqn:Ha; [|discriminate].
      apply apply_renewal_Ok in Ha as (r' & rest & Hr' & Hact & _). rewrite Hid in Hr'. congruence.
Qed.

(** ** Verification *)

(** The scopes that the permissions of a user come to *)
Inductive granted_scope (permissions : list string) : string -> Prop :=
  | scope_connect : granted_scope permissions "agentbridge:connect"
  | scope_of_permission p item scope :
      In p permissions -> assoc p PERMISSIONS = Some item -> In scope (legacy_scopes item) ->
      granted_scope permissions scope
  | scope_of_system system p :
      In system systems -> In p permissions -> startswith (system +:+ ".") p = true ->
      granted_scope permissions (system +:+ ":read").

Definition known (permissions : list string) : Prop := Forall (fun p => In p (keys PERMISSIONS)) permissions.

Lemma scopes_of_known permissions : known permissions -> exists l, scopes_of permissions = Ok l /\
  forall scope, In scope l <-> exists p item, In p permissions /\ assoc p PERMISSIONS = Some item /\
    In scope (legacy_scopes item).
Proof.
  induction 1 as [|p permissions Hp _ (l & Hl & Hin)]; [exists []; split; [done|naive_solver]|].
  apply assoc_keys in Hp as [item Hitem]. exists (legacy_scopes item ++ l). cbn [scopes_of]. rewrite Hitem, Hl.
  split; [done|]. intros scope. rewrite in_app_iff, Hin. split.
  - intros [Hs|(q & x & Hq & Hx & Hs)]; [exists p, item|exists q, x]; cbn; auto.
  - intros (q & x & [<-|Hq] & Hx & Hs); [left; congruence|]. right. by exists q, x.
Qed.

Lemma effective_known permissions : known permissions -> exists l, effective_of permissions = Ok l /\
  forall scope, In scope l <-> granted_scope permissions scope.
Proof.
  intros (l & Hl & Hin)%scopes_of_known. unfold effective_of. rewrite Hl. eexists. split; [done|].
  intros scope. rewrite sorted_set_In. cbn [In]. rewrite in_app_iff, Hin, in_map_iff. split.
  - intros [<-|[(p & item & Hp & Hitem & Hs)|(system & <- & Hs)]]; [constructor|by eapply scope_of_permission|].
    apply filter_In in Hs as [Hs (p & Hp & Hpre)%existsb_exists]. by eapply scope_of_system.
  - intros [|p item sc Hp Hitem Hs|system p Hs Hp Hpre]; [by left|right; left; by exists p, item|].
    right; right. exists system. split; [done|]. apply filter_In. split; [done|]. apply existsb_exists. by exists p.
Qed.

(** The conditions under which a token is accepted *)
Record accepted (token : string) (required : option (list string)) (now : instant) t (granted : store O)
    (id : string) r : Prop := {
  acc_format : startswith "abmcp_" token = true /\ (py_len token <= 256)%Z;
  acc_row : t !! id = Some r;
  acc_hash : token_hash r = _token_hash token;
  acc_live : row_state r = Active /\ (now < expires_at r)%Z;
  acc_required : forall l scope, required = Some l -> In scope l ->
    granted_scope (selected_of (user_subject r) granted) scope;
}.

Lemma token_format_spec token :
  token_format token = true <-> startswith "abmcp_" token = true /\ (py_len token <= 256)%Z.
Proof. unfold token_format. rewrite andb_true_iff, negb_true_iff, Z.ltb_ge. done. Qed.

Lemma usable_spec id r now : usable (_record_from_row id r) now = true <-> row_state r = Active /\ (now < expires_at r)%Z.
Proof. unfold usable. rewrite andb_true_iff, bool_decide_eq_true, Z.ltb_lt. done. Qed.

Lemma covers_spec required l (P : string -> Prop) : (forall scope, In scope l <-> P scope) ->
  covers required l = true <-> forall l' scope, required = Some l' -> In scope l' -> P scope.
Proof.
  intros Hl. destruct required as [l0|]; cbn; [|naive_solver]. rewrite forallb_forall. split.
  - intros Hall l' scope [= <-] Hs. apply Hl. by apply str_in_spec, Hall.
  - intros Hall scope Hs. apply str_in_spec, Hl. by apply (Hall l0).
Qed.

(** C25. A token is accepted for what its user may do today.  When the grants name permissions of the catalogue, a
    check answers a record exactly when the text has the form of a token, its digest is that of a token that is
    active and has not run out, and the user has every scope that is asked for; the record is that of the token,
    with the scopes that the grants give now, whatever scopes the token was issued with; the only thing that changes
    is when the token was last used. *)
Theorem verify_exact token required clock seen (granted : store O) s :
  one_row_per_hash seen -> (forall subject, known (selected_of subject granted)) ->
  (forall found s', verify token required clock seen granted s = (Ok (Some found), s') ->
    exists r, accepted token required (utc clock) seen granted (token_id found) r /\
      found = with_last_used (utc clock) (with_scopes (scopes found) (_record_from_row (token_id found) r)) /\
      (forall scope, In scope (scopes found) <-> granted_scope (selected_of (user_subject r) granted) scope) /\
      s' = with_tokens (touch (token_id found) (utc clock)) s) /\
  (forall id r, accepted token required (utc clock) seen granted id r -> exists found s',
    verify token required clock seen granted s = (Ok (Some found), s') /\ token_id found = id).
Proof.
  intros Hu Hk. unfold verify, verified, effective_scopes. split.
  - intros found s'. destruct (token_format token) eqn:Hf; [|discriminate]. cbn [negb].
    destruct (row_of_hash _ seen) as [[id r]|] eqn:Hrow; [|discriminate].
    apply select_one_Some in Hrow as [Hr Hh%String.eqb_eq].
    destruct (usable _ _) eqn:Hus; [|discriminate]. cbn [negb].
    destruct (effective_known _ (Hk (user_subject r))) as (l & Hl & Hin). cbn [r_user_subject _record_from_row].
    rewrite Hl. cbn [pbind mbind result_bind]. destruct (covers required l) eqn:Hc; [|discriminate]. cbn [negb].
    intros [= <- <-]. exists r. cbn [token_id with_last_used with_scopes _record_from_row scopes]. split_and!; [|done|done|done].
    split; [by apply token_format_spec|done|done|by apply (usable_spec id)|]. by apply (covers_spec _ _ _ Hin).
  - intros id r [Hf Hr Hh Hus Hreq]. apply token_format_spec in Hf. rewrite Hf. cbn [negb].
    rewrite <- Hh, (row_of_hash_unique _ _ _ Hu Hr). apply (usable_spec id) in Hus. rewrite Hus. cbn [negb].
    destruct (effective_known _ (Hk (user_subject r))) as (l & Hl & Hin). cbn [r_user_subject _record_from_row].
    rewrite Hl. cbn [pbind mbind result_bind]. apply (covers_spec _ _ _ Hin) in Hreq. rewrite Hreq. cbn [negb].
    by eexists _, _.
Qed.

(** ** Renewal *)

Lemma effect_keeps_log t log t' log' q n : effect t log t' log' -> log !! q = Some n -> log' !! q = Some n.
Proof. intros He Hq. destruct He; try done. by rewrite lookup_insert_ne by congruence. Qed.

Lemma steps_keep_log s s' q n : rtc step s s' -> renewals s !! q = Some n -> renewals s' !! q = Some n.
Proof.
  induction 1 as [|s s1 s' Hstep _ IH]; [done|]. intros Hq. apply IH.
  by apply (effect_keeps_log _ _ _ _ _ _ (step_effect _ _ Hstep)).
Qed.

Lemma effect_keeps_token t log t' log' id : effect t log t' log' -> is_Some (t !! id) -> is_Some (t' !! id).
Proof.
  intros He Hid. destruct He; try done; apply lookup_insert_is_Some'; by right.
Qed.

Lemma steps_keep_token s s' id : rtc step s s' -> is_Some (tokens s !! id) -> is_Some (tokens s' !! id).
Proof.
  induction 1 as [|s s1 s' Hstep _ IH]; [done|]. intros Hid. apply IH.
  by apply (effect_keeps_token _ _ _ _ _ (step_effect _ _ Hstep)).
Qed.

Lemma renew_Ok a clock callback s y s1 : renew a clock callback s = (Ok y, s1) -> exists requested n,
  check_renew a = Ok requested /\ renewals s1 !! n_request_id a = Some n /\ rn_token_id n = n_token_id a /\
  rn_new_expires_at n = requested /\ is_Some (tokens s1 !! n_token_id a).
Proof.
  unfold renew. destruct (check_renew a) as [requested|e]; [|discriminate]. unfold transaction, renew_body.
  destruct (renewals s !! n_request_id a) as [prior|] eqn:Hp.
  - unfold conflict. destruct (negb _) eqn:Hm; cbn; [discriminate|]. unfold get.
    destruct (tokens s !! n_token_id a) eqn:Ht; [|discriminate]. intros [= _ <-].
    apply negb_false_iff, andb_true_iff in Hm as [Hi%String.eqb_eq He%Z.eqb_eq].
    exists requested, prior. split_and!; [done..|]. by eexists.
  - destruct (apply_renewal a requested (utc clock) callback s) as [[[] s4]|e] eqn:Ha; [|discriminate].
    apply apply_renewal_Ok in Ha as (r' & rest & Hr' & _ & _ & _ & _ & _ & ->). cbn. unfold get. cbn.
    rewrite lookup_insert_eq. intros [= _ <-]. cbn. exists requested, (renewal_of a requested (utc clock)).
    by rewrite !lookup_insert_eq.
Qed.

(** A renewal is applied once.  After a request has been answered, then whatever calls follow, the same request
    identifier changes nothing: asked for the same token and expiry it answers the token as it is, and asked for
    anything else it is refused as a conflict. *)
Theorem renewal_applied_once a clock callback s y s1 s2 b clock' callback' requested :
  renew a clock callback s = (Ok y, s1) -> rtc step s1 s2 ->
  n_request_id b = n_request_id a -> check_renew b = Ok requested ->
  if bool_decide (n_token_id b = n_token_id a /\ Ok requested = check_renew a)
  then exists y', renew b clock' callback' s2 = (Ok y', s2) /\ get (n_token_id b) s2 = Ok y'
  else renew b clock' callback' s2
    = (Raise (Exn TokenEditConflict "renewal request id was used for another change"), s2).
Proof.
  intros (requested0 & n & Hc0 & Hn & Hid & Hexp & Hsome)%renew_Ok Hss Hq Hc.
  apply (steps_keep_log _ _ _ _ Hss) in Hn. apply (steps_keep_token _ _ _ Hss) in Hsome as [r Hr].
  unfold renew, transaction, renew_body. rewrite Hc, Hc0, Hq, Hn, Hid, Hexp. unfold conflict.
  destruct (String.eqb_spec (n_token_id a) (n_token_id b)) as [He|Hne].
  - destruct (Z.eqb_spec requested0 requested) as [<-|Hne].
    + rewrite bool_decide_true by done. cbn. exists (_record_from_row (n_token_id b) r).
      unfold get. by rewrite <- He, Hr.
    + rewrite bool_decide_false by (intros [_ [= E]]; by apply Hne). done.
  - rewrite bool_decide_false by (intros [E _]; by apply Hne). done.
Qed.

(** ** Issue *)

(** C8. A token that was issued is accepted.  Until it runs out, the secret that [issue] shows is verified as the
    token that it describes, for the user whom it names. *)
Theorem issued_token_verifies a d s y secret s1 clock (granted : store O) :
  reachable no_identities step s -> issue a d s = (Ok (y, secret), s1) -> (py_len secret <= 256)%Z ->
  (utc clock < utc (d_clock d) + seconds (i_ttl_seconds a))%Z -> known (selected_of (r_user_subject y) granted) ->
  exists found s2, verify secret (Some ["agentbridge:connect"]) clock (tokens s1) granted s1 = (Ok (Some found), s2) /\
    token_id found = token_id y /\ r_user_subject found = r_user_subject y /\
    r_expires_at found = (utc (d_clock d) + seconds (i_ttl_seconds a))%Z.
Proof.
  intros Hreach Hi Hlen Hnow Hk. pose proof Hi as Hstep. apply issues, (reachable_step _ _ _ _ Hreach) in Hstep.
  destruct (reachable_ok _ Hstep) as [Hu _ _]. unfold issue in Hi.
  destruct (check_issue a) as [[[[subject expected] lab] sc]|e]; [|discriminate].
  set (id := d_token_id d) in *. set (row := new_row _ _ _ _ _ _ _) in *.
  unfold transaction in Hi. destruct (insert_token id row s) as [[[] s0]|e] eqn:Hins; [|discriminate].
  unfold insert_token in Hins. apply result_bind_Ok in Hins as (rows & (_ & _ & ->)%insert_row_Ok & [= <-]).
  cbn [then_get] in Hi. unfold get in Hi. cbn in Hi. rewrite lookup_insert_eq in Hi. injection Hi as <- Hsecret <-.
  change (secret_of d = secret) in Hsecret. subst secret.
  cbn [tokens with_tokens r_user_subject _record_from_row token_id] in *.
  unfold verify, verified, effective_scopes.
  replace (token_format (secret_of d)) with true by (symmetry; by apply token_format_spec). cbn [negb].
  assert (row_of_hash (_token_hash (secret_of d)) (<[id := row]> (tokens s)) = Some (id, row)) as ->.
  { apply (row_of_hash_unique _ _ row Hu). apply lookup_insert_eq. }
  replace (usable (_record_from_row id row) (utc clock)) with true by (symmetry; by apply usable_spec). cbn [negb].
  destruct (effective_known _ Hk) as (l & Hl & Hin). cbn [r_user_subject _record_from_row]. rewrite Hl.
  cbn [pbind mbind result_bind].
  assert (covers (Some ["agentbridge:connect"]) l = true) as ->.
  { apply (covers_spec _ _ _ Hin). intros ? ? [= <-] [<-|[]]. constructor. }
  cbn [negb]. by eexists _, _.
Qed.
End Facts.

(** ** Concrete inputs

    The properties of grants and tokens, applied to the grants and the token of one user. *)

#[local] Open Scope list_scope.
#[local] Open Scope Z_scope.
#[local] Existing Instance ascii_tables.

Module McpIdentityDemo.

(** ** Grants: two administrators start from the same revision *)

Definition nobody : store unit := MkStore ∅ ∅ tt.

Definition read_leave : save_args := SaveArgs "u1" ["oa.workflow.read"; "oa.leave.draft"] 0 "admin" "joins the team".
Definition read_only : save_args := SaveArgs "u1" ["oa.workflow.read"] 0 "other" "reads only".

Definition granted1 : store unit := snd (save read_leave None 10%Z "e1" nobody).
Definition grant1 : grant := Grant "u1" ["oa.leave.draft"; "oa.workflow.read"] 1.

Lemma saved1 : save read_leave None 10%Z "e1" nobody = (Ok grant1, granted1).
Proof. vm_compute. reflexivity. Qed.

Lemma grants_audited_witness : reachable initial change granted1 /\ audited granted1.
Proof.
  assert (Hr : reachable initial change granted1).
  { apply (reachable_step _ _ nobody); [by apply reachable_init|]. by eapply saves, saved1. }
  split; [exact Hr|]. exact (grants_audited granted1 Hr).
Defined.

Lemma grant_update_not_lost_witness :
  fst (save read_leave None 10%Z "e1" nobody) = Ok grant1 /\
  save read_only None 20%Z "e2" granted1
    = (Raise (Exn UserGrantConflict "user grant revision conflict"), granted1).
Proof.
  split; [by rewrite saved1|].
  apply (grant_update_not_lost read_leave read_only None None 10%Z 20%Z "e1" "e2" grant1 nobody granted1 granted1 saved1).
  - apply rtc_refl.
  - reflexivity.
  - reflexivity.
  - vm_compute. reflexivity.
Defined.

Lemma offered_tools_callable_witness :
  In "oa_workflow_pending_list" (available ["oa.workflow.read"]) /\
  callable ["oa.workflow.read"] "oa_workflow_pending_list".
Proof.
  assert (Hin : In "oa_workflow_pending_list" agent_tools) by (apply (proj1 (str_in_spec _ _)); vm_compute; reflexivity).
  assert (Ha : In "oa_workflow_pending_list" (available ["oa.workflow.read"]))
    by (apply (proj1 (str_in_spec _ _)); vm_compute; reflexivity).
  split; [exact Ha|]. destruct (offered_tools_callable ["oa.workflow.read"] _ Hin) as [Heq _].
  refine (proj1 (Heq _) Ha). apply (proj1 (str_in_false _ _)). vm_compute. reflexivity.
Defined.

(** ** A token: issued, checked, renewed, revoked *)

Definition start : db unit := MkDb ∅ ∅ granted1.

Definition request : issue_args := IssueArgs " u1 " "oa:u1" (Some "laptop") None 3600.
Definition drawn : issue_draw := IssueDraw (Aware 0) "tok-1" "c2VjcmV0".

Definition issued : result (record * string) * db unit := issue request drawn start.
Definition s1 : db unit := snd issued.
Definition token1 : record :=
  Rec "tok-1" "u1" "oa:u1" (Some "laptop") ["agentbridge:connect"] Active 0 (seconds 3600) None None 0 None.
Definition secret1 : string := "abmcp_c2VjcmV0".

Lemma issued1 : issue request drawn start = (Ok (token1, secret1), s1).
Proof. vm_compute. reflexivity. Qed.

Lemma reachable_start : reachable no_identities step start.
Proof. apply reachable_init. by split. Qed.

Lemma reachable_s1 : reachable no_identities step s1.
Proof. apply (reachable_step _ _ start); [exact reachable_start|]. by eapply issues, issued1. Qed.

Lemma identities_invariant_witness :
  reachable no_identities step s1 /\ identities_ok (tokens s1) (renewals s1).
Proof. split; [exact reachable_s1|]. exact (identities_invariant s1 reachable_s1). Defined.

Lemma known1 subject : known (selected_of subject granted1).
Proof.
  unfold selected_of, UserGrants.get. destruct (grants granted1 !! subject) as [g|] eqn:Hg; [|constructor].
  destruct (base.decide (subject = "u1")) as [->|Hne].
  - vm_compute in Hg. injection Hg as <-. repeat constructor; apply (proj1 (str_in_spec _ _)); vm_compute; reflexivity.
  - replace (grants granted1) with (<["u1" := GrantRow ["oa.leave.draft"; "oa.workflow.read"] 1 10]> ∅ : gmap string grant_row)
      in Hg by (vm_compute; reflexivity).
    rewrite lookup_insert_ne in Hg by congruence. by rewrite lookup_empty in Hg.
Qed.

Lemma issued_token_verifies_witness :
  exists found s2, verify secret1 (Some ["agentbridge:connect"]) (Aware 60) (tokens s1) granted1 s1 = (Ok (Some found), s2) /\
    token_id found = "tok-1".
Proof.
  destruct (issued_token_verifies request drawn start token1 secret1 s1 (Aware 60) granted1 reachable_start issued1)
    as (found & s2 & Hv & Hid & _).
  - vm_compute. discriminate.
  - vm_compute. reflexivity.
  - apply known1.
  - exists found, s2. split; [exact Hv|exact Hid].
Defined.

(** Asked for the scope of drafts, which the user has by the grants and not by the token *)
Lemma verify_exact_witness :
  exists found s2, verify secret1 (Some ["oa:write:draft"]) (Aware 60) (tokens s1) granted1 s1 = (Ok (Some found), s2) /\
    token_id found = "tok-1" /\ In "oa:read" (scopes found).
Proof.
  destruct (reachable_ok _ reachable_s1) as [Hu _ _].
  destruct (verify_exact secret1 (Some ["oa:write:draft"]) (Aware 60) (tokens s1) granted1 s1 Hu known1) as [_ Hyes].
  destruct (tokens s1 !! "tok-1") as [r|] eqn:Hr; [|vm_compute in Hr; discriminate Hr].
  destruct (Hyes "tok-1" r) as (found & s2 & Hv & Hid).
  - vm_compute in Hr. injection Hr as <-. split.
    + split; [reflexivity|vm_compute; discriminate].
    + vm_compute. reflexivity.
    + vm_compute. reflexivity.
    + split; [reflexivity|vm_compute; reflexivity].
    + intros l scope [= <-] [<-|[]].
      destruct (effective_known _ (known1 "u1")) as (l & Hl & Hin). apply Hin.
      vm_compute in Hl. injection Hl as <-. apply (proj1 (str_in_spec _ _)). vm_compute. reflexivity.
  - exists found, s2. split; [exact Hv|]. split; [exact Hid|].
    apply str_in_spec. vm_compute in Hv. injection Hv as <- _. vm_compute. reflexivity.
Defined.

Definition extend : renew_args := RenewArgs "tok-1" (Ok (Aware (days 2))) 0 "req-1" "admin" "still needed".
Definition renewed : result record * db unit := renew extend (Naive 100) None s1.
Definition s2 : db unit := snd renewed.

Lemma renewal_applied_once_witness :
  exists y y', fst (renew extend (Naive 100) None s1) = Ok y /\ renew extend (Aware 999) None s2 = (Ok y', s2).
Proof.
  destruct (renew extend (Naive 100) None s1) as [[y|e] s2'] eqn:E; [|vm_compute in E; discriminate E].
  assert (s2' = s2) as -> by (unfold s2, renewed; by rewrite E).
  pose proof (renewal_applied_once extend (Naive 100) None s1 y s2 s2 extend (Aware 999) None (days 2) E
    (rtc_refl _ _) eq_refl) as Honce.
  assert (Hc : check_renew extend = Ok (days 2)) by (vm_compute; reflexivity).
  specialize (Honce Hc). rewrite bool_decide_true in Honce by (split; [reflexivity|exact (eq_sym Hc)]).
  destruct Honce as (y' & Hy' & _). exists y, y'. split; [reflexivity|exact Hy'].
Defined.

Lemma revoked_token_is_dead_witness :
  exists y s3, revoke "tok-1" (Aware 120) s1 = (Ok y, s3) /\
    verified secret1 None 130 (tokens s3) granted1 = Ok None.
Proof.
  destruct (revoke "tok-1" (Aware 120) s1) as [[y|e] s3] eqn:E; [|vm_compute in E; discriminate E].
  destruct (tokens s1 !! "tok-1") as [r|] eqn:Hr; [|vm_compute in Hr; discriminate Hr].
  destruct (revoked_token_is_dead "tok-1" (Aware 120) s1 y s3 s3 r reachable_s1 Hr E (rtc_refl _ _)) as [Hdead _].
  exists y, s3. split; [reflexivity|]. apply Hdead. vm_compute in Hr. injection Hr as <-. vm_compute. reflexivity.
Defined.
End McpIdentityDemo.
