(* ===== verification/SkillJobs.v ===== *)
(** * Background jobs of the skill workbench (agentbridge/core/skill_job_queue.py, skill_job_executor.py)

    Users enqueue jobs; workers of several processes claim them for five minutes at a time, extend their
    claim while they work, and finish.  A claim is known by its token: a worker whose token has been replaced
    or cleared is out.  [cancel] and [active] read before their transaction starts, so their reads are
    snapshots that other calls may have overtaken. *)

From S2P Require Import Prelude PyStr Json Sha256 Store Procedures.

#[local] Open Scope list_scope.

(** ** Tables

    The JSON columns hold the values that they encode; [_json] sorts the keys of objects, and [canon] is what
    [json.loads] gives back. *)

Inductive state : Type := Queued | Running | Succeeded | Failed | Canceled.

#[export] Instance state_eq_dec : EqDecision state.
Proof. solve_decision. Defined.

Definition payload : Type := list (string * json).

Record job_row : Type := JobRow {
  owner_subject : string;
  kind : string;
  row_state : state;
  request_key : string;
  input_hash : string;
  payload_json : payload;
  result_json : option json;
  progress_json : json;
  attempts : Z;
  claim_token : option string;
  lease_until : option instant;
  error : option string;
  created_at : instant;
  updated_at : instant;
}.

(** A row of [skill_authoring_events], which have identifiers of their own *)
Record event : Type := Event { ev_owner : string; ev_kind : string; ev_object : string; ev_payload : json }.

(** [preferences] and [auto_scopes] are the settings that the checks of automatic jobs read;
    [drafts] stands for the tables of the authoring side. *)
Record db (D : Type) : Type := MkDb {
  jobs : gmap string job_row;
  preferences : gmap string (Z * payload);
  auto_scopes : gmap (string * string) Z;
  events : list event;
  drafts : D;
}.
Arguments MkDb {D}. Arguments jobs {D}. Arguments preferences {D}. Arguments auto_scopes {D}.
Arguments events {D}. Arguments drafts {D}.

Definition with_jobs {D} (t : gmap string job_row) (s : db D) : db D :=
  MkDb t (preferences s) (auto_scopes s) (events s) (drafts s).

Definition _event {D} (owner kind object_id : string) (p : payload) (s : db D) : db D :=
  MkDb (jobs s) (preferences s) (auto_scopes s) (events s ++ [Event owner kind object_id (JObj p)]) (drafts s).

(** The SET clauses of the updates *)

Definition exhausted_row (r : job_row) : job_row :=
  JobRow (owner_subject r) (kind r) Failed (request_key r) (input_hash r) (payload_json r) (result_json r)
    (progress_json r) (attempts r) None (lease_until r) (Some "工作进程中断，已达重试上限") (created_at r) (updated_at r).

Definition claimed_row (token : string) (lease now : instant) (r : job_row) : job_row :=
  JobRow (owner_subject r) (kind r) Running (request_key r) (input_hash r) (payload_json r) (result_json r)
    (progress_json r) (attempts r + 1)%Z (Some token) (Some lease) (error r) (created_at r) now.

Definition extended_row (lease : instant) (progress : json) (now : instant) (r : job_row) : job_row :=
  JobRow (owner_subject r) (kind r) (row_state r) (request_key r) (input_hash r) (payload_json r) (result_json r)
    progress (attempts r) (claim_token r) (Some lease) (error r) (created_at r) now.

Definition finished_row (st : state) (result : option json) (err : option string) (now : instant) (r : job_row) : job_row :=
  JobRow (owner_subject r) (kind r) st (request_key r) (input_hash r) (payload_json r) result
    (progress_json r) (attempts r) None (lease_until r) err (created_at r) now.

Definition canceled_row (now : instant) (r : job_row) : job_row :=
  JobRow (owner_subject r) (kind r) Canceled (request_key r) (input_hash r) (payload_json r) (result_json r)
    (progress_json r) (attempts r) None (lease_until r) (error r) (created_at r) now.

Definition retried_row (now : instant) (r : job_row) : job_row :=
  JobRow (owner_subject r) (kind r) Queued (request_key r) (input_hash r) (payload_json r) (result_json r)
    (progress_json r) (attempts r) None (lease_until r) None (created_at r) now.

(** What [save] writes when it completes the job of a generated draft *)
Definition saved_row (result : json) (now : instant) (r : job_row) : job_row :=
  JobRow (owner_subject r) (kind r) Succeeded (request_key r) (input_hash r) (payload_json r) (Some result)
    (progress_json r) (attempts r) None (lease_until r) (error r) (created_at r) now.

(** ** Public view *)

Record public_job : Type := PublicJob {
  j_job_id : string;
  j_kind : string;
  j_state : state;
  j_attempts : Z;
  j_error : option string;
  j_created_at : instant;
  j_updated_at : instant;
  j_draft_id : json;
  j_revision : json;
  j_automatic : json;
  j_scope : json;
  j_progress : Z;
  j_result : option json;
}.

(** [len(v)] of what [json.loads] gives *)
Definition json_len (v : json) : Z :=
  match v with JArr l => Z.of_nat (length l) | JObj kvs => Z.of_nat (length kvs) | JStr s => py_len s | _ => 0%Z end.

Definition public (id : string) (r : job_row) : public_job :=
  let p := payload_json r in
  PublicJob id (kind r) (row_state r) (attempts r) (error r) (created_at r) (updated_at r)
    (dict_get p "draft_id" JNull) (dict_get p "revision" JNull) (dict_get p "automatic" (JBool false))
    (dict_get p "scope" JNull) (json_len (progress_json r)) (result_json r).

(** ** Permission of automatic jobs *)

Section Queue.
Context {D : Type} `{UnicodeTables}.
Implicit Types (s : db D).

Definition auto_allowed (owner scope : string) s : bool :=
  match preferences s !! owner with
  | None => false
  | Some (_, value) =>
      json_truthy (dict_get value "auto_draft" JNull)
      && match auto_scopes s !! (owner, scope) with Some enabled => negb (enabled =? 0)%Z | None => false end
  end.

Definition automatic (p : payload) : bool := json_truthy (dict_get p "automatic" JNull).

(** [payload['scope']], which [generate] has checked to be a text *)
Definition scope_of (p : payload) : result string :=
  match assoc "scope" p with
  | None => raise KeyError "'scope'"
  | Some (JStr scope) => Ok scope
  | Some _ => raise RuntimeError "scope is not a text"
  end.

(** [if payload.get('automatic') and not self.auto_allowed(...): raise PermissionError(message)] *)
Definition check_automatic (message owner : string) (p : payload) s : result unit :=
  if automatic p then scope ← scope_of p; raise_if (negb (auto_allowed owner scope s)) PermissionError message
  else Ok tt.

(** ** Enqueueing *)

Record enqueue_args : Type := EnqueueArgs {
  e_owner : string;
  e_kind : string;
  e_payload : payload;
  e_request_key : string;
}.

(** The readings of the clock in the order in which [enqueue] makes them, and the identifier that it draws *)
Record enqueue_draw : Type := EnqueueDraw {
  d_today_automatic : instant;
  d_today : instant;
  d_job_id : string;
  d_created : instant;
  d_updated : instant;
}.

Definition validate_text (name : string) (maximum : Z) (value : string) : result unit :=
  raise_if ((maximum <? py_len value)%Z || negb (truthy (py_strip value))) ValueError
    (name +:+ "不能为空且不能超过" +:+ str_of_Z maximum +:+ "字符").

Definition digest_of (a : enqueue_args) : string :=
  sha256_hex (dumps (JObj [("kind", JStr (e_kind a)); ("payload", JObj (e_payload a))])).

(** [self._timestamp()[:10]], as the instant at which the day starts *)
Definition day_start (now : instant) : instant := (now - now mod seconds 86400)%Z.

Definition count_where (p : job_row -> bool) s : Z := Z.of_nat (length (select_where p (jobs s))).

Definition own (owner : string) (r : job_row) : bool := String.eqb (owner_subject r) owner.
Definition since (day : instant) (r : job_row) : bool := (day <=? created_at r)%Z.

(** [json_extract(payload_json, '$.name') = value] *)
Definition extracts (name : string) (value : json) (r : job_row) : bool :=
  match assoc name (payload_json r) with Some v => py_eqb v value | None => false end.

Definition is_pending (r : job_row) : bool := match row_state r with Queued | Running => true | _ => false end.

Definition has_key (owner key : string) (r : job_row) : bool := own owner r && String.eqb (request_key r) key.

Definition new_job (a : enqueue_args) (d : enqueue_draw) : job_row :=
  JobRow (e_owner a) (e_kind a) Queued (e_request_key a) (digest_of a)
    match canon (JObj (e_payload a)) with JObj p => p | _ => [] end None (JArr []) 0 None None None
    (d_created d) (d_updated d).

Definition check_quota (a : enqueue_args) (d : enqueue_draw) s : result unit :=
  (if automatic (e_payload a)
   then
     check_automatic "自动沉淀范围已关闭" (e_owner a) (e_payload a) s;;
     raise_if (3 <=? count_where (fun r => own (e_owner a) r && since (day_start (d_today_automatic d)) r
                 && extracts "automatic" (JInt 1) r) s)%Z ValueError "今日自动沉淀已达 3 次"
   else Ok tt);;
  raise_if ((20 <=? count_where (fun r => own (e_owner a) r && since (day_start (d_today d)) r) s)%Z
            || (3 <=? count_where (fun r => own (e_owner a) r && is_pending r) s)%Z) ValueError
    "后台任务额度已满，请等待或明日重试".

Definition enqueue_body (a : enqueue_args) (d : enqueue_draw) : tx (db D) public_job := fun s =>
  match select_one (has_key (e_owner a) (e_request_key a)) (jobs s) with
  | Some (id, old) =>
      raise_if (negb (String.eqb (input_hash old) (digest_of a))) UserGrantConflict "请求标识已用于其他后台任务";;
      Ok (public id old, s)
  | None =>
      check_quota a d s;;
      t ← insert_row (d_job_id d) (has_key (e_owner a) (e_request_key a)) (new_job a d) (jobs s);
      Ok (public (d_job_id d) (new_job a d),
          _event (e_owner a) "job.queued" (d_job_id d) [("kind", JStr (e_kind a))] (with_jobs t s))
  end.

(** The worker that [self._wake()] wakes would find the job without it, at its next round. *)
Definition enqueue (a : enqueue_args) (d : enqueue_draw) s : result public_job * db D :=
  match validate_text "请求标识" 128 (e_request_key a) with
  | Raise e => (Raise e, s)
  | Ok _ => transaction (enqueue_body a d) s
  end.

(** ** Reading *)

Definition owned (owner id : string) s : result job_row :=
  match jobs s !! id with
  | Some r => if own owner r then Ok r else raise KeyError "后台任务不存在或不可访问"
  | None => raise KeyError "后台任务不存在或不可访问"
  end.

Definition job (owner id : string) s : result public_job := r ← owned owner id s; Ok (public id r).

Definition newer (a b : string * job_row) : bool := (created_at (snd b) <=? created_at (snd a))%Z.
Definition older (a b : string * job_row) : bool := (created_at (snd a) <=? created_at (snd b))%Z.

(** [jobs(owner)]; with an identifier it is [job]. *)
Definition job_list (owner : string) s : list public_job :=
  map (fun kr => public (fst kr) (snd kr)) (take 50 (sort_by newer (select_where (own owner) (jobs s)))).

Definition latest_report (owner draft_id : string) (revision : Z) s : result (option json) :=
  match sort_by newer (select_where (fun r => own owner r && String.eqb (kind r) "evaluation"
          && bool_decide (row_state r = Succeeded) && extracts "draft_id" (JStr draft_id) r
          && extracts "revision" (JInt revision) r) (jobs s)) with
  | [] => Ok None
  | (_, r) :: _ =>
      match result_json r with
      | Some v => Ok (Some v)
      | None => raise TypeError "the JSON object must be str, bytes or bytearray, not NoneType"
      end
  end.

(** ** The user's changes *)

(** [UPDATE ... WHERE job_id = ?] *)
Definition update_job (id : string) (f : job_row -> job_row) s : db D :=
  with_jobs (fst (update_key id (fun _ => true) f (jobs s))) s.

(** [seen] is what the SELECT of [cancel] read. *)
Definition cancel (owner id : string) (now : instant) (seen : db D) s : result public_job * db D :=
  match owned owner id seen with
  | Raise e => (Raise e, s)
  | Ok r =>
      let s' := if is_pending r then _event owner "job.canceled" id [] (update_job id (canceled_row now) s) else s in
      (job owner id s', s')
  end.

Definition retry_body (owner id : string) (now : instant) : tx (db D) unit := fun s =>
  r ← owned owner id s;
  raise_if (negb (bool_decide (row_state r = Failed)) || (3 <=? attempts r)%Z) ValueError "仅可重试失败任务，最多尝试三次";;
  check_automatic "自动沉淀已关闭" owner (payload_json r) s;;
  Ok (tt, update_job id (retried_row now) s).

Definition retry (owner id : string) (now : instant) s : result public_job * db D :=
  match transaction (retry_body owner id now) s with
  | (Raise e, s') => (Raise e, s')
  | (Ok _, s') => (job owner id s', s')
  end.

(** ** Workers *)

(** [lease_until < now]; a comparison with NULL is not true. *)
Definition lease_over (now : instant) (r : job_row) : bool :=
  match lease_until r with Some lease => (lease <? now)%Z | None => false end.

Definition running (r : job_row) : bool := bool_decide (row_state r = Running).

Definition exhausted (now : instant) (r : job_row) : bool := running r && lease_over now r && (3 <=? attempts r)%Z.

Definition claimable (now : instant) (r : job_row) : bool :=
  bool_decide (row_state r = Queued) || running r && lease_over now r && (attempts r <? 3)%Z.

(** The clock is read four times: for both conditions, for the lease, and for the time of the update. *)
Record claim_draw : Type := ClaimDraw {
  c_exhausted : instant;
  c_claimable : instant;
  c_token : string;
  c_lease : instant;
  c_updated : instant;
}.

(** A job as a worker holds it: the columns when it was claimed, with its identifier *)
Definition held : Type := string * job_row.

Definition claim (d : claim_draw) s : option held * db D :=
  let t := update_where (exhausted (c_exhausted d)) exhausted_row (jobs s) in
  match sort_by older (select_where (claimable (c_claimable d)) t) with
  | [] => (None, with_jobs t s)
  | (id, r) :: _ =>
      let r' := claimed_row (c_token d) (c_lease d + seconds 300)%Z (c_updated d) r in
      (Some (id, r'), with_jobs (<[id := r']> t) s)
  end.

(** [claim_token=? AND state='running'] *)
Definition claimed_by (token : option string) (r : job_row) : bool :=
  running r && match claim_token r, token with Some t, Some t' => String.eqb t t' | _, _ => false end.

(** [active]; [seen] is what its SELECTs read. *)
Definition active (h : held) (progress : option json) (lease now : instant) (seen : db D) s : result unit * db D :=
  match jobs seen !! fst h with
  | Some r =>
      if claimed_by (claim_token (snd h)) r
      then
        match check_automatic "自动沉淀已关闭" (owner_subject r) (payload_json r) seen with
        | Raise e => (Raise e, s)
        | Ok _ =>
            let progress := match progress with Some v => canon v | None => progress_json r end in
            (Ok tt, update_job (fst h) (extended_row (lease + seconds 300)%Z progress now) s)
        end
      else (Raise (Exn UserGrantConflict "后台任务已取消或由其他进程接续"), s)
  | None => (Raise (Exn UserGrantConflict "后台任务已取消或由其他进程接续"), s)
  end.

Definition finish (h : held) (result : option json) (err : option string) (now : instant) s : db D :=
  let st := if opt_truthy err then Failed else Succeeded in
  with_jobs (fst (update_key (fst h) (claimed_by (claim_token (snd h)))
                   (finished_row st (option_map canon result) err now) (jobs s))) s.

(** [d1 | d2] *)
Definition dict_update (d1 d2 : payload) : payload := fold_left (fun d kv => dict_set (fst kv) (snd kv) d) d2 d1.

(** What the rest of [SkillAuthoring.save] comes to: the receipt of an earlier call with the same request
    key, or the receipt of a new revision and the tables that hold it *)
Inductive saving : Type :=
  | Previous (receipt : payload)
  | Saved (receipt : payload) (drafts : D).

(** The part of [SkillAuthoring.save] that concerns the job of a generated draft: the check at the start of the
    transaction and the completion at its end, around [work] *)
Definition save_for_job (owner : string) (h : held) (automatic : bool) (scope : string) (metadata : payload)
    (work : D -> result saving) (now : instant) : tx (db D) payload := fun s =>
  match jobs s !! fst h with
  | None => raise UserGrantConflict "后台任务已取消或已被接续"
  | Some r =>
      raise_if (negb (own owner r && claimed_by (claim_token (snd h)) r)) UserGrantConflict "后台任务已取消或已被接续";;
      raise_if (automatic && negb (auto_allowed owner scope s)) PermissionError "自动沉淀范围已关闭";;
      saved ← work (drafts s);
      match saved with
      | Previous receipt => Ok (receipt, s)
      | Saved receipt d =>
          let value := dict_update (dict_update [("saved", JBool true); ("classification", JStr "method")] metadata) receipt in
          Ok (receipt, update_job (fst h) (saved_row (canon (JObj value)) now)
                         (MkDb (jobs s) (preferences s) (auto_scopes s) (events s) d))
      end
  end.

(** ** Settings *)

(** [SkillWorkbench.scopes(owner, scope, enabled)] *)
Definition set_scope (owner scope : string) (enabled : bool) s : result unit * db D :=
  match validate_text "会话范围" 256 scope with
  | Raise e => (Raise e, s)
  | Ok _ =>
      (Ok tt, _event owner "scope.changed" scope [("enabled", JBool enabled)]
         (MkDb (jobs s) (preferences s) (<[(owner, scope) := Z.b2z enabled]> (auto_scopes s)) (events s) (drafts s)))
  end.

Definition preference_of (owner : string) s : Z * payload :=
  match preferences s !! owner with Some p => p | None => (0%Z, [("auto_draft", JBool false)]) end.

(** [SkillAuthoring.preferences(owner, value=..., expected_revision=...)] *)
Definition set_preferences (owner : string) (value : json) (expected_revision : Z) : tx (db D) (Z * payload) := fun s =>
  let '(revision, _) := preference_of owner s in
  match value with
  | JObj [("auto_draft", JBool b)] =>
      raise_if (negb (expected_revision =? revision)%Z) UserGrantConflict "设置已更新，请刷新";;
      let p := [("auto_draft", JBool b)] in
      Ok ((revision + 1, p)%Z,
          _event owner "preferences.changed" owner p
            (MkDb (jobs s) (<[owner := (revision + 1, p)%Z]> (preferences s)) (auto_scopes s) (events s) (drafts s)))
  | _ => raise ValueError "自动沉淀设置无效"
  end.

(** ** The executor *)

(** [isinstance(exc, (ValueError, UserGrantConflict, PermissionError))], of the exceptions that jobs raise *)
Definition shown_error (e : exn) : bool :=
  match exn_class e with ValueError | JSONDecodeError | UserGrantConflict | PermissionError => true | _ => false end.

Definition safe_text (e : exn) : string :=
  py_take 500 (if shown_error e then exn_message e else "模型服务暂不可用，任务可重试").

(** The readings of the clock around a job *)
Record run_draw : Type := RunDraw { r_claim : claim_draw; r_first : instant * instant; r_last : instant * instant; r_finish : instant }.

Definition active_now (h : held) (at_ : instant * instant) : proc (db D) unit := fun s =>
  active h None (fst at_) (snd at_) s s.

Definition finish_now (h : held) (result : option json) (err : option string) (now : instant) : proc (db D) unit :=
  fun s => (Ok tt, finish h result err now s).

(** [generation] and [evaluation] call the model, and may extend the claim, save a draft, or see the database change
    under them. *)
Definition work_on (generation evaluation : held -> payload -> proc (db D) payload) (h : held) (d : run_draw)
  : proc (db D) unit :=
  _ ← active_now h (r_first d);
  result ← (if String.eqb (kind (snd h)) "generation" then generation else evaluation) h (payload_json (snd h));
  if negb (String.eqb (kind (snd h)) "generation") || negb (json_truthy (dict_get result "saved" JNull))
  then _ ← active_now h (r_last d); finish_now h (Some (JObj result)) None (r_finish d)
  else mret tt.

Definition run_once (generation evaluation : held -> payload -> proc (db D) payload) (d : run_draw)
  : proc (db D) bool := fun s =>
  match claim (r_claim d) s with
  | (None, s) => (Ok false, s)
  | (Some h, s) =>
      (_ ← catching (work_on generation evaluation h d)
             (fun e => finish_now h None (Some (safe_text e)) (r_finish d));
       mret true) s
  end.
End Queue.
