(* ===== verification/SkillJobFacts.v ===== *)
(** * Background jobs: attempts and claims, workers that have lost their claim, and the race of a cancellation *)

From S2P Require Import Prelude PyStr Json JsonFacts Sha256 Store Procedures SkillJobs.

#[local] Open Scope list_scope.
#[local] Opaque sha256_hex.

(** A prefix of a text that is not empty is not empty. *)
Lemma py_take_truthy n s : truthy s = true -> truthy (py_take (S n) s) = true.
Proof.
  destruct s as [|c s]; [discriminate|]. intros _. unfold py_take. cbn [chars].
  destruct (chars s) as [|[|d x] l]; [done|done|]. by destruct (is_cont d).
Qed.

Section Facts.
Context {D : Type} {tables : UnicodeTables}.
Implicit Types (s : db D) (t : gmap string job_row) (r : job_row) (h : held).

(** ** Steps *)

(** One call, by anyone, with whatever clocks and snapshots; claims draw tokens of which [fresh] holds. *)
Inductive step (fresh : string -> Prop) s : db D -> Prop :=
  | enqueues a d x s' : enqueue a d s = (x, s') -> step fresh s s'
  | cancels owner id now seen x s' : cancel owner id now seen s = (x, s') -> step fresh s s'
  | retries owner id now x s' : retry owner id now s = (x, s') -> step fresh s s'
  | claims d x s' : fresh (c_token d) -> claim d s = (x, s') -> step fresh s s'
  | extends h progress lease now seen x s' : active h progress lease now seen s = (x, s') -> step fresh s s'
  | finishes h result err now : step fresh s (finish h result err now s)
  | saves owner h automatic scope metadata work now :
      step fresh s (after (save_for_job owner h automatic scope metadata work now) s)
  | sets_scope owner scope enabled x s' : set_scope owner scope enabled s = (x, s') -> step fresh s s'
  | sets_preferences owner value revision : step fresh s (after (set_preferences owner value revision) s).

(** What a call does to a row *)
Inductive row_step (fresh : string -> Prop) r : job_row -> Prop :=
  | row_exhausted : row_state r = Running -> (3 <= attempts r)%Z -> row_step fresh r (exhausted_row r)
  | row_claimed now token lease now' :
      claimable now r = true -> fresh token -> row_step fresh r (claimed_row token lease now' r)
  | row_extended lease progress now : row_step fresh r (extended_row lease progress now r)
  | row_finished token st result err now :
      claimed_by token r = true -> st = Succeeded \/ st = Failed /\ opt_truthy err = true ->
      row_step fresh r (finished_row st result err now r)
  | row_canceled now : row_step fresh r (canceled_row now r)
  | row_retried now : row_state r = Failed -> (attempts r < 3)%Z -> row_step fresh r (retried_row now r)
  | row_saved token value now : claimed_by token r = true -> row_step fresh r (saved_row value now r).

Definition fresh_job r : Prop := row_state r = Queued /\ attempts r = 0%Z /\ claim_token r = None.

(** Rows stay and take steps, and the new ones are fresh and have keys of their own. *)
Definition effect (fresh : string -> Prop) t t' : Prop :=
  (forall id r, t !! id = Some r -> exists r', t' !! id = Some r' /\ rtc (row_step fresh) r r') /\
  (forall id r', t' !! id = Some r' -> t !! id = None -> fresh_job r' /\
    forall k r, k <> id -> t' !! k = Some r -> has_key (owner_subject r') (request_key r') r = false).

Lemma effect_refl fresh t : effect fresh t t.
Proof. split; [intros id r Hr; by exists r|congruence]. Qed.

(** An update of one row *)
Lemma effect_update fresh t id p f :
  (forall r, t !! id = Some r -> p r = true -> row_step fresh r (f r)) -> effect fresh t (fst (update_key id p f t)).
Proof.
  intros Hf. unfold update_key. destruct (t !! id) as [r|] eqn:Hr; [|apply effect_refl].
  destruct (p r) eqn:Hp; [|apply effect_refl]. cbn. split.
  - intros k q Hq. destruct (decide (id = k)) as [->|Hne].
    + exists (f r). rewrite lookup_insert_eq. split; [done|]. replace q with r by congruence. by apply rtc_once, Hf.
    + exists q. by rewrite lookup_insert_ne.
  - intros k q Hq Hk. destruct (decide (id = k)) as [->|Hne]; [congruence|].
    rewrite lookup_insert_ne in Hq by done. congruence.
Qed.

Lemma update_job_effect fresh id f s : (forall r, jobs s !! id = Some r -> row_step fresh r (f r)) ->
  effect fresh (jobs s) (jobs (update_job id f s)).
Proof. intros Hf. cbn. apply effect_update. auto. Qed.

Lemma enqueue_effect fresh a d s x s' : enqueue a d s = (x, s') -> effect fresh (jobs s) (jobs s').
Proof.
  unfold enqueue. destruct (validate_text _ _ _); [|intros [= _ <-]; apply effect_refl].
  unfold transaction, enqueue_body. destruct (select_one _ (jobs s)) as [[k old]|] eqn:Hsel.
  - destruct (negb _); intros [= _ <-]; apply effect_refl.
  - destruct (check_quota a d s) as [[]|e]; [|intros [= _ <-]; apply effect_refl].
    destruct (insert_row _ _ _ _) as [t|e] eqn:Hi; [|intros [= _ <-]; apply effect_refl].
    intros [= _ <-]. cbn. apply insert_row_Ok in Hi as (Hn & Hx & ->). rewrite exists_where_false in Hx. split.
    + intros k q Hq. exists q. by rewrite lookup_insert_ne by congruence.
    + intros k q Hq Hk. apply lookup_insert_Some in Hq as [[<- <-]|[_ Hq]]; [|congruence].
      split; [done|]. intros k' q Hne Hq. rewrite lookup_insert_ne in Hq by done. by apply (Hx k').
Qed.

Lemma cancel_effect fresh owner id now seen s x s' :
  cancel owner id now seen s = (x, s') -> effect fresh (jobs s) (jobs s').
Proof.
  unfold cancel. destruct (owned owner id seen) as [r|e]; [|intros [= _ <-]; apply effect_refl].
  destruct (is_pending r); intros [= _ <-]; [|apply effect_refl]. cbn. apply effect_update. constructor.
Qed.

Lemma retry_effect fresh owner id now s x s' : retry owner id now s = (x, s') -> effect fresh (jobs s) (jobs s').
Proof.
  unfold retry, transaction. destruct (retry_body owner id now s) as [[[] s1]|e] eqn:Hb;
    intros [= _ <-]; [|apply effect_refl].
  unfold retry_body in Hb. apply result_bind_Ok in Hb as (r & Hr & Hb). rewrite result_raise_if_bind in Hb.
  destruct Hb as [Hf Hb]. apply result_bind_Ok in Hb as (_ & _ & [= <-]).
  apply orb_false_iff in Hf as [Hst%negb_false_iff%bool_decide_eq_true Hat].
  unfold owned in Hr. destruct (jobs s !! id) as [r'|] eqn:Hid; [|discriminate].
  destruct (own owner r'); [|discriminate]. injection Hr as ->.
  apply update_job_effect. rewrite Hid. intros ? [= <-]. constructor; [done|lia].
Qed.

Lemma active_effect fresh h progress lease now seen s x s' :
  active h progress lease now seen s = (x, s') -> effect fresh (jobs s) (jobs s').
Proof.
  unfold active. destruct (jobs seen !! fst h) as [r|]; [|intros [= _ <-]; apply effect_refl].
  destruct (claimed_by _ r); [|intros [= _ <-]; apply effect_refl].
  destruct (check_automatic _ _ _ _); intros [= _ <-]; [|apply effect_refl].
  apply update_job_effect. constructor.
Qed.

Lemma finish_effect fresh h result err now s : effect fresh (jobs s) (jobs (finish h result err now s)).
Proof.
  unfold finish. cbn. apply effect_update. intros r _ Hp. eapply row_finished; [exact Hp|].
  destruct (opt_truthy err) eqn:E; [right|left]; done.
Qed.

Lemma save_effect fresh owner h automatic scope metadata work now s :
  effect fresh (jobs s) (jobs (after (save_for_job owner h automatic scope metadata work now) s)).
Proof.
  unfold after, transaction. destruct (save_for_job _ _ _ _ _ _ _ s) as [[v s']|e] eqn:Hs; [|apply effect_refl].
  unfold save_for_job in Hs. destruct (jobs s !! fst h) as [r|] eqn:Hr; [|discriminate].
  rewrite !result_raise_if_bind in Hs. destruct Hs as (Hc & _ & Hs). apply negb_false_iff, andb_true_iff in Hc as [_ Hc].
  apply result_bind_Ok in Hs as ([receipt|receipt d] & _ & [= <- <-]); [apply effect_refl|]. cbn.
  apply effect_update. rewrite Hr. intros ? [= <-] _. by eapply row_saved.
Qed.

Lemma exhausted_running now r : exhausted now r = true -> row_state r = Running /\ (3 <= attempts r)%Z.
Proof. unfold exhausted, running. rewrite !andb_true_iff, bool_decide_eq_true. intros [[? _] ?]. split; [done|lia]. Qed.

Lemma claim_effect (fresh : string -> Prop) d s x s' :
  fresh (c_token d) -> claim d s = (x, s') -> effect fresh (jobs s) (jobs s').
Proof.
  intros Hfresh. unfold claim. set (t := update_where _ _ _).
  assert (Ht : forall k r, jobs s !! k = Some r -> exists r', t !! k = Some r' /\ rtc (row_step fresh) r r').
  { intros k r Hr. unfold t. rewrite lookup_update_where, Hr. cbn. destruct (exhausted _ r) eqn:He.
    - apply exhausted_running in He as [He1 He2]. eexists; split; [done|]. apply rtc_once. by constructor.
    - by exists r. }
  assert (Hnone : forall k, jobs s !! k = None -> t !! k = None).
  { intros k Hk. unfold t. by rewrite lookup_update_where, Hk. }
  destruct (sort_by _ _) as [|[id r] l] eqn:Hsel; intros [= _ <-]; cbn.
  - split; [exact Ht|]. intros k r' Hr' Hk%Hnone. congruence.
  - assert (In (id, r) (select_where (claimable (c_claimable d)) t)) as [Hid Hc]%select_where_In.
    { apply list_elem_of_In. rewrite <- (sort_by_perm older), Hsel. by left. }
    split.
    + intros k q Hq. destruct (Ht k q Hq) as (q' & Hq' & Hsteps). destruct (decide (id = k)) as [->|Hne].
      * eexists. rewrite lookup_insert_eq. split; [done|]. replace q' with r in Hsteps by congruence.
        etrans; [exact Hsteps|]. apply rtc_once. by eapply row_claimed.
      * exists q'. by rewrite lookup_insert_ne.
    + intros k q Hq Hk%Hnone. destruct (decide (id = k)) as [->|Hne]; [congruence|].
      rewrite lookup_insert_ne in Hq by done. congruence.
Qed.

Lemma sj_step_effect fresh s s' : step fresh s s' -> effect fresh (jobs s) (jobs s').
Proof.
  intros [a d x ? H|owner id now seen x ? H|owner id now x ? H|d x ? Hf H|h progress lease now seen x ? H| | |
    owner scope enabled x ? H|owner value revision].
  - by eapply enqueue_effect.
  - by eapply cancel_effect.
  - by eapply retry_effect.
  - by eapply claim_effect.
  - by eapply active_effect.
  - apply finish_effect.
  - apply save_effect.
  - unfold set_scope in H. destruct (validate_text _ _ _); injection H as _ <-; apply effect_refl.
  - unfold after, transaction. destruct (set_preferences owner value revision s) as [[p s1]|e] eqn:Hp; [|apply effect_refl].
    unfold set_preferences in Hp. destruct (preference_of owner s) as [rev v]. cbn.
    assert (jobs s1 = jobs s) as ->; [|apply effect_refl].
    repeat (case_match; try discriminate). rewrite result_raise_if_bind in Hp. by destruct Hp as [_ [= _ <-]].
Qed.

(** ** The invariant *)

Definition row_ok r : Prop :=
  (0 <= attempts r <= 3)%Z /\
  (row_state r = Running <-> is_Some (claim_token r)) /\
  (row_state r = Running -> is_Some (lease_until r) /\ (1 <= attempts r)%Z) /\
  (row_state r = Queued -> (attempts r < 3)%Z) /\
  (row_state r = Failed -> opt_truthy (error r) = true).

(** Jobs are found under their keys. *)
Definition one_job_per_key t : Prop :=
  forall k k' r r', t !! k = Some r -> t !! k' = Some r' -> owner_subject r = owner_subject r' ->
    request_key r = request_key r' -> k = k'.

Lemma claimed_by_running token r : claimed_by token r = true -> row_state r = Running.
Proof. unfold claimed_by, running. by rewrite andb_true_iff, bool_decide_eq_true; intros [? _]. Qed.

Lemma claimable_attempts now r : row_ok r -> claimable now r = true -> (0 <= attempts r < 3)%Z.
Proof.
  intros (Ha & _ & _ & Hq & _). unfold claimable, running.
  rewrite orb_true_iff, !andb_true_iff, !bool_decide_eq_true, Z.ltb_lt.
  intros [Hst|[_ Hlt]]; [specialize (Hq Hst)|]; lia.
Qed.

(** The invariant of a row that is not running *)
Local Ltac settled := split_and!; try done; try lia; split; (discriminate || by intros [? ?]).

Lemma row_step_ok fresh r r' : row_step fresh r r' -> row_ok r -> row_ok r'.
Proof.
  intros Hs Hok. pose proof Hok as (Ha & Hc & Hr & Hq & Hf).
  destruct Hs as [Hst H3|now token lease now' Hcl _|lease progress now|token st result err now Hcl Hst|now
    |now Hst Hlt|token value now Hcl]; unfold row_ok; cbn.
  - settled.
  - apply (claimable_attempts _ _ Hok) in Hcl. split_and!; try done; try lia.
    intros _. split; [by eexists|lia].
  - split_and!; try done; try lia; try (apply Hc). intros Hrun. split; [by eexists|by apply Hr].
  - destruct Hst as [->|[-> He]]; settled.
  - settled.
  - settled.
  - settled.
Qed.

Lemma row_steps_ok fresh r r' : rtc (row_step fresh) r r' -> row_ok r -> row_ok r'.
Proof. induction 1; eauto using row_step_ok. Qed.

Lemma row_step_key fresh r r' : row_step fresh r r' ->
  owner_subject r' = owner_subject r /\ request_key r' = request_key r.
Proof. by intros []. Qed.

Lemma row_steps_key fresh r r' : rtc (row_step fresh) r r' ->
  owner_subject r' = owner_subject r /\ request_key r' = request_key r.
Proof.
  induction 1 as [|r r1 r' Hs _ [IH1 IH2]]; [done|]. apply row_step_key in Hs as [H1 H2]. by rewrite IH1, IH2.
Qed.

Record queue_ok t : Prop := {
  ok_rows : forall id r, t !! id = Some r -> row_ok r;
  ok_keys : one_job_per_key t;
}.

Lemma fresh_job_ok r : fresh_job r -> row_ok r.
Proof.
  intros (Hst & Ha & Hc). unfold row_ok. rewrite Hst, Ha, Hc. settled.
Qed.

Lemma effect_old fresh t t' id r' : effect fresh t t' -> t' !! id = Some r' -> is_Some (t !! id) ->
  exists r, t !! id = Some r /\ rtc (row_step fresh) r r'.
Proof. intros [He _] Hr' [r Hr]. exists r. destruct (He id r Hr) as (q & Hq & Hs). by replace r' with q by congruence. Qed.

Lemma has_key_false owner key r : has_key owner key r = false ->
  ~ (owner_subject r = owner /\ request_key r = key).
Proof. unfold has_key, own. intros Hf [<- <-]. by rewrite !String.eqb_refl in Hf. Qed.

Lemma queue_effect fresh t t' : effect fresh t t' -> queue_ok t -> queue_ok t'.
Proof.
  intros He [Hr Hk]. split.
  - intros id r' Hr'. destruct (t !! id) as [r|] eqn:Hid.
    + destruct (effect_old _ _ _ _ _ He Hr') as (q & Hq & Hs); [by eexists|]. eapply row_steps_ok; eauto.
    + apply fresh_job_ok. by apply (proj2 He id).
  - intros k k' r r' Hkr Hkr' Ho Hq. destruct (decide (k = k')) as [|Hne]; [done|]. exfalso.
    destruct (t !! k) as [q|] eqn:E.
    + destruct (t !! k') as [q'|] eqn:E'.
      * destruct (effect_old _ _ _ _ _ He Hkr) as (x & Hx & [H1 H2]%row_steps_key); [by eexists|].
        destruct (effect_old _ _ _ _ _ He Hkr') as (x' & Hx' & [H1' H2']%row_steps_key); [by eexists|].
        apply Hne, (Hk k k' x x'); congruence.
      * destruct (proj2 He k' r' Hkr' E') as [_ Hno]. apply (has_key_false _ _ _ (Hno k r Hne Hkr)). done.
    + destruct (proj2 He k r Hkr E) as [_ Hno].
      apply (has_key_false _ _ _ (Hno k' r' (not_eq_sym Hne) Hkr')). done.
Qed.

Definition no_jobs s : Prop := jobs s = ∅.

(** C27. What every interleaving of users and workers keeps.  A job is handed out at most three times and is queued
    only while it has attempts left; it is running exactly as long as it has a claim, and then it has a lease;
    a failed job says why; and an owner has at most one job for each request key. *)
Theorem jobs_invariant s : reachable no_jobs (step (fun _ => True)) s -> queue_ok (jobs s).
Proof.
  revert s. apply (reachable_invariant _ _ (fun s => queue_ok (jobs s))).
  - intros s ->. split; [intros id r Hr|intros k k' r r' Hr]; by rewrite lookup_empty in Hr.
  - intros s s' Hs Hstep. exact (queue_effect _ _ _ (sj_step_effect _ _ _ Hstep) Hs).
Qed.

(** ** Workers that have lost their claim *)

Lemma row_step_claim (fresh : string -> Prop) token r r' : ~ fresh token -> row_step fresh r r' ->
  claim_token r <> Some token -> claim_token r' <> Some token.
Proof. intros Hn []; cbn; try done. intros _ [= ->]. done. Qed.

Lemma steps_claim (fresh : string -> Prop) token s s' id r : ~ fresh token -> rtc (step fresh) s s' ->
  jobs s !! id = Some r -> claim_token r <> Some token ->
  exists r', jobs s' !! id = Some r' /\ claim_token r' <> Some token.
Proof.
  intros Hn Hss. revert r. induction Hss as [s|s s1 s' Hstep _ IH]; intros r Hr Hc; [by exists r|].
  apply sj_step_effect in Hstep as [He _]. destruct (He id r Hr) as (r1 & Hr1 & Hsteps). apply (IH r1 Hr1).
  clear -Hn Hsteps Hc. induction Hsteps as [|x y z Hxy _ IH]; [done|]. apply IH. by eapply row_step_claim.
Qed.

Lemma not_claimed token r : claim_token r <> Some token -> claimed_by (Some token) r = false.
Proof.
  intros Hc. unfold claimed_by. destruct (claim_token r) as [t|]; [|apply andb_false_r].
  destruct (String.eqb_spec t token); [congruence|apply andb_false_r].
Qed.

Lemma finish_not_claimed h result err now s r : jobs s !! fst h = Some r ->
  claimed_by (claim_token (snd h)) r = false -> finish h result err now s = s.
Proof. intros Hr Hc. unfold finish, update_key. rewrite Hr, Hc. by destruct s. Qed.

(** C28. A worker that has lost its claim is out.  When the row of its job carries another claim, or none, then
    whatever calls follow, as long as nobody draws this worker's token again: to finish changes nothing, and to
    extend the claim or to save a draft is refused and changes nothing. *)
Theorem stale_worker_is_out s s' r h token :
  jobs s !! fst h = Some r -> claim_token r <> Some token -> claim_token (snd h) = Some token ->
  rtc (step (fun drawn => drawn <> token)) s s' ->
  (forall result err now, finish h result err now s' = s') /\
  (forall progress lease now s'',
    active h progress lease now s' s'' = (Raise (Exn UserGrantConflict "后台任务已取消或由其他进程接续"), s'')) /\
  (forall owner automatic scope metadata work now,
    transaction (save_for_job owner h automatic scope metadata work now) s'
      = (Raise (Exn UserGrantConflict "后台任务已取消或已被接续"), s')).
Proof.
  intros Hr Hc Hh Hss.
  destruct (steps_claim (fun drawn => drawn <> token) token _ _ _ _ (fun H => H eq_refl) Hss Hr Hc) as (r' & Hr' & Hc').
  apply not_claimed in Hc'. split_and!.
  - intros result err now. apply (finish_not_claimed _ _ _ _ _ r'); [done|by rewrite Hh].
  - intros progress lease now s''. unfold active. by rewrite Hr', Hh, Hc'.
  - intros owner automatic scope metadata work now. unfold transaction, save_for_job.
    by rewrite Hr', Hh, Hc', andb_false_r.
Qed.

(** ** Claims *)

Lemma older_total (a b : string * job_row) : older a b = true \/ older b a = true.
Proof. unfold older. rewrite !Z.leb_le. lia. Qed.

Lemma older_trans (a b c : string * job_row) : older a b = true -> older b c = true -> older a c = true.
Proof. unfold older. rewrite !Z.leb_le. lia. Qed.

(** A row that can be claimed after the expired ones have been failed *)
Definition eligible (d : claim_draw) r : bool := claimable (c_claimable d) r && negb (exhausted (c_exhausted d) r).

Lemma eligible_In d s id r :
  In (id, r) (select_where (claimable (c_claimable d)) (update_where (exhausted (c_exhausted d)) exhausted_row (jobs s)))
  <-> jobs s !! id = Some r /\ eligible d r = true.
Proof.
  rewrite select_where_In, lookup_update_where. unfold eligible. destruct (jobs s !! id) as [q|]; cbn; [|naive_solver].
  destruct (exhausted _ q) eqn:He; cbn; split.
  - intros [[= <-] Hc]. done.
  - intros [[= <-] Hc]. rewrite He, andb_false_r in Hc. done.
  - intros [[= <-] Hc]. by rewrite Hc, He.
  - intros [[= <-] Hc]. apply andb_true_iff in Hc as [Hc _]. done.
Qed.

(** A worker gets the oldest job that anybody may have, and gets one whenever there is one.  A claim returns
    nothing only when no job is queued or abandoned with attempts left; otherwise it returns such a job, no older
    than any other, with one more attempt, the new token and a lease of five minutes; it fails the abandoned jobs
    that have no attempts left, and leaves every other job as it is. *)
Theorem claim_oldest d s x s' : claim d s = (x, s') ->
  match x with
  | None => (forall id r, jobs s !! id = Some r -> eligible d r = false) /\
      forall k, jobs s' !! k = (fun q => if exhausted (c_exhausted d) q then exhausted_row q else q) <$> jobs s !! k
  | Some (id, r') => exists r,
      jobs s !! id = Some r /\ eligible d r = true /\
      (forall k q, jobs s !! k = Some q -> eligible d q = true -> (created_at r <= created_at q)%Z) /\
      r' = claimed_row (c_token d) (c_lease d + seconds 300)%Z (c_updated d) r /\ jobs s' !! id = Some r' /\
      forall k, k <> id -> jobs s' !! k = (fun q => if exhausted (c_exhausted d) q then exhausted_row q else q) <$> jobs s !! k
  end.
Proof.
  unfold claim. pose proof (eligible_In d s) as Hin. set (t := update_where _ _ _) in *.
  pose proof (sort_by_sorted older older_total older_trans (select_where (claimable (c_claimable d)) t)) as Hsorted.
  pose proof (sort_by_perm older (select_where (claimable (c_claimable d)) t)) as Hperm.
  destruct (sort_by older _) as [|[id r] l] eqn:Hsel; intros [= <- <-]; cbn.
  - apply Permutation_nil in Hperm. split; [|intros k; apply lookup_update_where]. intros id r Hr.
    destruct (eligible d r) eqn:He; [|done]. exfalso.
    pose proof (proj2 (Hin id r) (conj Hr He)) as Hmem. by rewrite Hperm in Hmem.
  - assert (In (id, r) (select_where (claimable (c_claimable d)) t)) as [Hr He]%Hin.
    { apply list_elem_of_In. rewrite <- Hperm. by left. }
    exists r. split_and!; [done|done| |done|apply lookup_insert_eq|].
    + intros k q Hq Hqe. assert (In (k, q) (select_where (claimable (c_claimable d)) t)) as Hmem by (by apply Hin).
      apply list_elem_of_In in Hmem. rewrite <- Hperm in Hmem. apply elem_of_cons in Hmem as [[= -> ->]|Hmem]; [done|].
      unfold sorted_by in Hsorted. apply StronglySorted_inv in Hsorted as [_ Hall].
      rewrite List.Forall_forall in Hall. apply list_elem_of_In in Hmem. apply Hall in Hmem. by apply Z.leb_le in Hmem.
    + intros k Hk. rewrite lookup_insert_ne by done. apply lookup_update_where.
Qed.

(** ** Cancellation *)

Lemma owned_Ok owner id s r : owned owner id s = Ok r <-> jobs s !! id = Some r /\ owner_subject r = owner.
Proof.
  unfold owned, own. destruct (jobs s !! id) as [q|]; [|naive_solver].
  destruct (String.eqb_spec (owner_subject q) owner); naive_solver.
Qed.

Lemma save_for_job_Ok owner h automatic scope metadata work now s receipt s' :
  save_for_job owner h automatic scope metadata work now s = Ok (receipt, s') ->
  exists r, jobs s !! fst h = Some r /\ owner_subject r = owner /\ claimed_by (claim_token (snd h)) r = true /\
    (s' = s \/ exists d value, work (drafts s) = Ok (Saved receipt d) /\ drafts s' = d /\
      jobs s' !! fst h = Some (saved_row value now r)).
Proof.
  unfold save_for_job. destruct (jobs s !! fst h) as [r|] eqn:Hr; [|discriminate].
  rewrite !result_raise_if_bind. intros (Hc & _ & Hs). apply negb_false_iff, andb_true_iff in Hc as [Ho Hc].
  apply String.eqb_eq in Ho. exists r. split_and!; [done..|].
  apply result_bind_Ok in Hs as ([rc|rc d] & Hw & [= -> <-]); [by left|]. right. eexists d, _.
  split; [exact Hw|]. split; [done|]. unfold update_job, update_key. cbn. rewrite Hr. cbn. apply lookup_insert_eq.
Qed.

(** C29. A cancellation can land on a job that is done.  When the owner's call has read the job as it ran, and the
    worker saves its draft before the call writes, the call answers that the job was canceled, with the result of
    the save beside it, and the draft stays saved. *)
Theorem cancel_races_commit owner h automatic scope metadata work now now' seen s receipt d r s1 :
  jobs seen !! fst h = Some r -> owner_subject r = owner -> row_state r = Running ->
  save_for_job owner h automatic scope metadata work now s = Ok (receipt, s1) ->
  work (drafts s) = Ok (Saved receipt d) ->
  exists v s2, cancel owner (fst h) now' seen s1 = (Ok v, s2) /\
    j_state v = Canceled /\ is_Some (j_result v) /\ drafts s2 = d.
Proof.
  intros Hr Ho Hst Hs Hw. pose proof Hs as Hs'. unfold save_for_job in Hs'.
  destruct (jobs s !! fst h) as [q|] eqn:Hq; [|discriminate].
  rewrite !result_raise_if_bind in Hs'. destruct Hs' as (Hc & _ & Hs').
  apply negb_false_iff, andb_true_iff in Hc as [Hoq%String.eqb_eq _]. rewrite Hw in Hs'. injection Hs' as <-.
  unfold cancel. rewrite (proj2 (owned_Ok owner (fst h) seen r) (conj Hr Ho)).
  assert (is_pending r = true) as -> by (unfold is_pending; by rewrite Hst).
  set (s1 := update_job _ _ _). set (s2 := _event _ _ _ _ _).
  assert (exists q', jobs s2 !! fst h = Some q' /\ owner_subject q' = owner /\ row_state q' = Canceled /\
    is_Some (result_json q')) as (q' & Hq' & Ho' & Hst' & Hres).
  { unfold s2, s1, update_job, update_key. cbn. rewrite Hq. cbn. rewrite lookup_insert_eq. cbn.
    rewrite lookup_insert_eq. eexists. split; [done|]. cbn. split_and!; [done|done|by eexists]. }
  exists (public (fst h) q'), s2. unfold job. rewrite (proj2 (owned_Ok owner (fst h) s2 q') (conj Hq' Ho')).
  split_and!; [reflexivity|exact Hst'|exact Hres|reflexivity].
Qed.

(** ** A worker's round *)

Lemma finish_clears h result err now s r' :
  jobs (finish h result err now s) !! fst h = Some r' -> claimed_by (claim_token (snd h)) r' = false.
Proof.
  unfold finish, update_key. cbn. destruct (jobs s !! fst h) as [r|] eqn:Hr; cbn; [|congruence].
  destruct (claimed_by _ r) eqn:Hc; cbn; [|by rewrite Hr; intros [= <-]].
  rewrite lookup_insert_eq. intros [= <-]. unfold claimed_by. cbn. apply andb_false_r.
Qed.

Lemma finish_claimed h result err now s r : jobs s !! fst h = Some r -> claimed_by (claim_token (snd h)) r = true ->
  jobs (finish h result err now s) !! fst h =
    Some (finished_row (if opt_truthy err then Failed else Succeeded) (option_map canon result) err now r).
Proof. intros Hr Hc. unfold finish, update_key. cbn. rewrite Hr, Hc. apply lookup_insert_eq. Qed.

(** What a handler that answers [saved] promises: the save has completed the job. *)
Definition completes_saved (generation : held -> payload -> proc (db D) payload) : Prop :=
  forall h p s result s', generation h p s = (Ok result, s') -> json_truthy (dict_get result "saved" JNull) = true ->
    forall r, jobs s' !! fst h = Some r -> claimed_by (claim_token (snd h)) r = false.

Lemma work_on_Ok generation evaluation h d s s' : completes_saved generation ->
  work_on generation evaluation h d s = (Ok tt, s') ->
  forall r, jobs s' !! fst h = Some r -> claimed_by (claim_token (snd h)) r = false.
Proof.
  intros Hgen. unfold work_on. rewrite proc_bind_Ok. intros (_ & s1 & _ & Hw).
  apply proc_bind_Ok in Hw as (result & s2 & Hrun & Hw).
  destruct (String.eqb (kind (snd h)) "generation"); cbn [negb orb] in Hw.
  - destruct (json_truthy _) eqn:Hsaved; cbn [negb] in Hw.
    + injection Hw as <-. by apply (Hgen _ _ _ _ _ Hrun).
    + apply proc_bind_Ok in Hw as (_ & s3 & _ & [= <-]). intros r. apply finish_clears.
  - apply proc_bind_Ok in Hw as (_ & s3 & _ & [= <-]). intros r. apply finish_clears.
Qed.

Lemma run_once_claimed generation evaluation d s h s0 : claim (r_claim d) s = (Some h, s0) ->
  run_once generation evaluation d s =
  match work_on generation evaluation h d s0 with
  | (Ok _, s1) => (Ok true, s1)
  | (Raise e, s1) => (Ok true, finish h None (Some (safe_text e)) (r_finish d) s1)
  end.
Proof.
  intros Hc. unfold run_once. rewrite Hc, proc_bind_eq. unfold catching.
  by destruct (work_on generation evaluation h d s0) as [[[]|e] s1].
Qed.

(** A worker's round always ends, and ends its claim.  Whatever the handlers raise, the round answers whether there
    was a job, and leaves no job claimed by this worker, provided that a handler that answers [saved] has completed
    the job.  When the work fails while the claim holds, the job is failed, with at most 500 characters of the
    message, and with a fixed text when the exception is not one that the service raises itself. *)
Theorem worker_settles_job generation evaluation d s x s' : completes_saved generation ->
  run_once generation evaluation d s = (x, s') ->
  match claim (r_claim d) s with
  | (None, s0) => x = Ok false /\ s' = s0
  | (Some h, s0) => x = Ok true /\
      (forall r, jobs s' !! fst h = Some r -> claimed_by (claim_token (snd h)) r = false) /\
      (forall e s1 r, work_on generation evaluation h d s0 = (Raise e, s1) ->
        jobs s1 !! fst h = Some r -> claimed_by (claim_token (snd h)) r = true ->
        truthy (exn_message e) = true \/ shown_error e = false ->
        exists r', jobs s' !! fst h = Some r' /\ row_state r' = Failed /\ result_json r' = None /\
          error r' = Some (safe_text e) /\
          (shown_error e = false -> error r' = Some "模型服务暂不可用，任务可重试"))
  end.
Proof.
  intros Hgen Hrun. destruct (claim (r_claim d) s) as [[h|] s0] eqn:Hc.
  - rewrite (run_once_claimed _ _ _ _ _ _ Hc) in Hrun.
    destruct (work_on generation evaluation h d s0) as [[[]|e] s1] eqn:Hw; injection Hrun as <- <-.
    + split; [done|]. split; [by apply (work_on_Ok _ _ _ _ _ _ Hgen Hw)|discriminate].
    + split; [done|]. split; [intros r; apply finish_clears|]. intros e' s1' r [= <- <-] Hr Hcl Ht.
      eexists. split; [by apply finish_claimed|]. cbn.
      assert (truthy (safe_text e) = true) as ->.
      { unfold safe_text. destruct (shown_error e) eqn:Hse; [|reflexivity]. destruct Ht as [Ht|Ht]; [|discriminate].
        by apply py_take_truthy. }
      split_and!; [done|done|done|]. intros Hse. unfold safe_text. by rewrite Hse.
  - unfold run_once in Hrun. rewrite Hc in Hrun. by injection Hrun as <- <-.
Qed.
End Facts.

(** ** Concrete inputs

    The properties of background jobs, applied to one generation job and two workers. *)

#[local] Open Scope list_scope.
#[local] Open Scope Z_scope.
#[local] Existing Instance ascii_tables.

Module SkillJobDemo.

(** Drafts are the list of their receipts. *)
Definition empty : db (list payload) := MkDb ∅ ∅ ∅ [] [].

Definition request : enqueue_args :=
  EnqueueArgs "u1" "generation" [("automatic", JBool false); ("material", JStr "notes")] "req-1".

Definition s1 : db (list payload) := snd (enqueue request (EnqueueDraw 0 0 "job-1" 10 10) empty).

Definition first_claim : claim_draw := ClaimDraw 20 20 "worker-a" 20 20.
Definition s2 : db (list payload) := snd (claim first_claim s1).

(** The second worker comes when the lease of the first one is over. *)
Definition second_claim : claim_draw := ClaimDraw (seconds 400) (seconds 400) "worker-b" (seconds 400) (seconds 400).
Definition s3 : db (list payload) := snd (claim second_claim s2).

Definition row_of (s : db (list payload)) : job_row :=
  match jobs s !! "job-1" with Some r => r | None => canceled_row 0 (new_job request (EnqueueDraw 0 0 "" 0 0)) end.

Definition held_a : held := ("job-1", row_of s2).
Definition held_b : held := ("job-1", row_of s3).

Lemma step1 fresh : step fresh empty s1.
Proof.
  destruct (enqueue request (EnqueueDraw 0 0 "job-1" 10 10) empty) as [x s] eqn:E.
  assert (s = s1) as <- by (unfold s1; by rewrite E). by eapply enqueues.
Qed.

Lemma step2 (fresh : string -> Prop) : fresh "worker-a" -> step fresh s1 s2.
Proof.
  intros Hf. destruct (claim first_claim s1) as [x s] eqn:E.
  assert (s = s2) as <- by (unfold s2; by rewrite E). exact (claims fresh s1 first_claim x s Hf E).
Qed.

Lemma jobs_invariant_witness : reachable no_jobs (step (fun _ => True)) s2 /\ queue_ok (jobs s2).
Proof.
  assert (Hr : reachable no_jobs (step (fun _ => True)) s2).
  { apply (reachable_step _ _ s1); [|by apply step2]. apply (reachable_step _ _ empty); [by apply reachable_init|].
    apply step1. }
  split; [exact Hr|]. exact (jobs_invariant s2 Hr).
Defined.

Lemma claim_oldest_witness :
  claim second_claim s2 = (Some held_b, s3) /\ attempts (row_of s3) = 2 /\ eligible second_claim (row_of s2) = true.
Proof.
  assert (Hc : claim second_claim s2 = (Some held_b, s3)) by (vm_compute; reflexivity).
  destruct (claim_oldest second_claim s2 _ _ Hc) as (r & Hr & He & _ & Hrow & _).
  split; [exact Hc|]. split; [vm_compute; reflexivity|].
  assert (Hrr : r = row_of s2) by (unfold row_of; by rewrite Hr). rewrite <- Hrr. exact He.
Defined.

(** The first worker finishes after the second one has taken the job. *)
Lemma stale_worker_is_out_witness :
  claim_token (snd held_a) = Some "worker-a" /\ finish held_a (Some JNull) None (seconds 500) s3 = s3.
Proof.
  assert (Hr : jobs s3 !! fst held_a = Some (row_of s3)) by (vm_compute; reflexivity).
  assert (Ht : claim_token (snd held_a) = Some "worker-a") by (vm_compute; reflexivity).
  split; [exact Ht|].
  destruct (stale_worker_is_out s3 s3 (row_of s3) held_a "worker-a" Hr) as [Hfin _].
  - vm_compute. discriminate.
  - exact Ht.
  - apply rtc_refl.
  - apply Hfin.
Defined.

(** The owner's call reads the job as it runs, and the worker saves the draft before the call writes. *)
Definition receipt : payload := [("draft_id", JStr "d-1")].
Definition work (drafts : list payload) : result saving := Ok (Saved receipt (receipt :: drafts)).

Lemma cancel_races_commit_witness :
  exists s v s', save_for_job "u1" held_a false "manual" [] work 30 s2 = Ok (receipt, s) /\
    cancel "u1" "job-1" 31 s2 s = (Ok v, s') /\ j_state v = Canceled /\ drafts s' = [receipt].
Proof.
  destruct (save_for_job "u1" held_a false "manual" [] work 30 s2) as [[rc s]|e] eqn:E;
    [|vm_compute in E; discriminate E].
  assert (rc = receipt) as -> by (vm_compute in E; by injection E as <- _).
  destruct (cancel_races_commit "u1" held_a false "manual" [] work 30 31 s2 s2 receipt [receipt] (row_of s2) s)
    as (v & s' & Hc & Hst & _ & Hd).
  - vm_compute. reflexivity.
  - vm_compute. reflexivity.
  - vm_compute. reflexivity.
  - exact E.
  - vm_compute. reflexivity.
  - exists s, v, s'. split; [reflexivity|]. split; [exact Hc|]. split; [exact Hst|exact Hd].
Defined.

(** The model behind the handlers is down, and says so with a message that must not be kept. *)
Definition generation (h : held) (p : payload) : proc (db (list payload)) payload :=
  fun s => (Raise (Exn RuntimeError "https://internal.example/key"), s).

Definition round : run_draw := RunDraw first_claim (21, 21) (22, 22) 23.

Lemma worker_settles_job_witness :
  fst (run_once generation generation round s1) = Ok true /\
  exists r, jobs (snd (run_once generation generation round s1)) !! "job-1" = Some r /\
    row_state r = Failed /\ error r = Some "模型服务暂不可用，任务可重试".
Proof.
  assert (Hgen : completes_saved generation) by (intros h p s result s' Hx; discriminate Hx).
  destruct (run_once generation generation round s1) as [x s'] eqn:E.
  pose proof (worker_settles_job generation generation round s1 x s' Hgen E) as Hsettle.
  assert (Hc : claim (r_claim round) s1 = (Some held_a, s2)) by (vm_compute; reflexivity).
  rewrite Hc in Hsettle. destruct Hsettle as (Hx & _ & Hfail). split; [exact Hx|].
  destruct (work_on generation generation held_a round s2) as [[[]|e] s4] eqn:Hw; [vm_compute in Hw; discriminate Hw|].
  assert (shown_error e = false) as Hse by (vm_compute in Hw; injection Hw as <- _; reflexivity).
  destruct (jobs s4 !! fst held_a) as [r|] eqn:Hr;
    [|vm_compute in Hw; injection Hw as _ <-; vm_compute in Hr; discriminate Hr].
  destruct (Hfail e s4 r eq_refl Hr) as (r' & Hr' & Hst & _ & _ & Herr).
  - vm_compute in Hw. injection Hw as _ <-. vm_compute in Hr. injection Hr as <-. vm_compute. reflexivity.
  - right. exact Hse.
  - exists r'. split; [exact Hr'|]. split; [exact Hst|]. apply Herr. exact Hse.
Defined.
End SkillJobDemo.
