(* ===== verification/HostContract.v ===== *)
(** * The contract with agent hosts (agentbridge/core/host_contract.py)

    A host declares a profile and is registered with the level that the project has approved for its version; it
    reports how it runs; and it coordinates a task under a lease whose version fences off the hosts before it. *)

From Stdlib Require Import Ascii.
From S2P Require Import Prelude PyStr Json Store InputValidation.

#[local] Open Scope list_scope.

Definition HOST_CONTRACT_SCHEMA : string := "agentbridge.host.v1".

Definition HOST_LEVELS : list string := ["L1"; "L2"; "L3"].

Definition HOST_CAPABILITIES : list string :=
  ["mcpApps"; "privateResultMeta"; "interactionPollResume"; "taskTimeline"; "proactiveDelivery"; "artifactDelivery";
   "restartRecovery"; "coordinatorLease"; "batchTaskTimeline"; "runtimeSignals"; "boundedTransportRecovery"].

(** The requirements of a level are sets. *)
Definition LEVEL_REQUIREMENTS : list (string * list string) :=
  [("L1", []);
   ("L2", ["privateResultMeta"; "interactionPollResume"]);
   ("L3", ["privateResultMeta"; "interactionPollResume"; "taskTimeline"; "proactiveDelivery"; "artifactDelivery";
           "restartRecovery"; "coordinatorLease"; "batchTaskTimeline"; "runtimeSignals"; "boundedTransportRecovery"])].

Definition host_transport_recovery_strategy (call_class : string) : string :=
  if String.eqb call_class "read" then "bounded_retry"
  else if String.eqb call_class "prepare" then "bounded_retry_with_stable_idempotency_key"
  else "query_operation_then_stop_if_unknown".

(** ** Normalization *)

Section Normalization.
Context `{UnicodeTables}.

Definition invalid {A} (message : string) : result A := raise HostContractError message.

(** [d.get(key)] *)
Definition field (kvs : list (string * json)) (key : string) : json := dict_get kvs key JNull.

(** A [bool] is an [int]. *)
Definition _required_text (value : json) (name : string) (maximum : Z) : result string :=
  match value with
  | JStr _ | JInt _ | JBool _ =>
      let normalized := py_strip (py_str value) in
      raise_if (negb (truthy normalized) || (maximum <? py_len normalized)%Z) HostContractError (name +:+ " is invalid");;
      Ok normalized
  | _ => invalid (name +:+ " is required")
  end.

Definition _optional_text (value : json) (maximum : Z) : result (option string) :=
  match value with
  | JNull => Ok None
  | _ => text ← _required_text value "optional text" maximum; Ok (Some text)
  end.

Definition _required_bool (value : json) (name : string) : result bool :=
  match value with JBool b => Ok b | _ => invalid (name +:+ " must be boolean") end.

(** The text of a list of strings in a message *)
Definition show_names (names : list string) : string := py_repr (JArr (map JStr names)).

(** The keys of a dict that are not among those allowed *)
Definition refuse_unknown (message : string) (kvs : list (string * json)) (allowed : list string) : result unit :=
  match minus (map fst kvs) allowed with
  | [] => Ok tt
  | others => invalid (message +:+ show_names others)
  end.

(** [HOST_LEVELS.index(level)] *)
Definition index_of (level : string) : result nat :=
  if String.eqb level "L1" then Ok 0%nat
  else if String.eqb level "L2" then Ok 1%nat
  else if String.eqb level "L3" then Ok 2%nat
  else raise ValueError "tuple.index(x): x not in tuple".

Record profile : Type := Profile {
  hostInstanceId : string;
  implementation_name : string;
  implementation_version : string;
  levels : list string;
  capabilities : list (string * bool);
  endpointTypes : list string;
}.

(** The dict that [normalize_host_profile] returns *)
Definition profile_json (p : profile) : json :=
  JObj [("schema", JStr HOST_CONTRACT_SCHEMA);
        ("hostInstanceId", JStr (hostInstanceId p));
        ("implementation", JObj [("name", JStr (implementation_name p)); ("version", JStr (implementation_version p))]);
        ("levels", JArr (map JStr (levels p)));
        ("capabilities", JObj (map (fun nb => (fst nb, JBool (snd nb))) (capabilities p)));
        ("endpointTypes", JArr (map JStr (endpointTypes p)))].

(** [str(item or '')] *)
Definition str_or_empty (item : json) : string := if json_truthy item then py_str item else "".

(** The loop over the declared levels; [seen] are those that it has kept. *)
Fixpoint normalize_levels (seen : list string) (items : list json) : result (list string) :=
  match items with
  | [] => Ok seen
  | item :: rest =>
      let level := str_upper (py_strip (str_or_empty item)) in
      raise_if (negb (str_in level HOST_LEVELS)) HostContractError
        ("unsupported host level: " +:+ if truthy level then level else py_str item);;
      normalize_levels (if str_in level seen then seen else seen ++ [level]) rest
  end.

(** [max(HOST_LEVELS.index(level) for level in levels)], of levels that are there *)
Definition highest (levels : list string) : nat :=
  if str_in "L3" levels then 2%nat else if str_in "L2" levels then 1%nat else 0%nat.

(** [sorted(levels, key=HOST_LEVELS.index)], of different levels *)
Definition in_order (levels : list string) : list string :=
  List.filter (fun level => str_in level levels) HOST_LEVELS.

Definition check_levels (value : json) : result (list string) :=
  match value with
  | JArr ((_ :: _) as items) =>
      levels ← normalize_levels [] items;
      raise_if (negb (str_in "L1" levels)) HostContractError "every host must declare L1";;
      let expected := take (S (highest levels)) HOST_LEVELS in
      raise_if (negb (bool_decide (in_order levels = expected))) HostContractError
        "host levels must be contiguous from L1";;
      Ok expected
  | _ => invalid "host levels are required"
  end.

(** [LEVEL_REQUIREMENTS[level]] *)
Definition requirements (level : string) : result (list string) :=
  match assoc level LEVEL_REQUIREMENTS with
  | Some names => Ok names
  | None => raise KeyError ("'" +:+ level +:+ "'")
  end.

(** [capabilities.get(name) is True] *)
Definition has_capability (capabilities : list (string * bool)) (name : string) : bool :=
  match assoc name capabilities with Some b => b | None => false end.

Definition missing_of (names : list string) (capabilities : list (string * bool)) : list string :=
  sorted_set (List.filter (fun name => negb (has_capability capabilities name)) names).

Definition check_capabilities (value : json) (highest_level : string) : result (list (string * bool)) :=
  match value with
  | JObj kvs =>
      refuse_unknown "host profile contains unsupported capabilities: " kvs HOST_CAPABILITIES;;
      capabilities ← map_result (fun name =>
        b ← _required_bool (field kvs name) ("capabilities." +:+ name); Ok (name, b)) HOST_CAPABILITIES;
      names ← requirements highest_level;
      match missing_of names capabilities with
      | [] => Ok capabilities
      | absent => invalid ("declared " +:+ highest_level +:+ " host is missing capabilities: " +:+ show_names absent)
      end
  | _ => invalid "host capabilities are required"
  end.

Fixpoint normalize_endpoints (seen : list string) (items : list json) : result (list string) :=
  match items with
  | [] => Ok seen
  | item :: rest =>
      endpoint_type ← _required_text item "endpointType" 80;
      normalize_endpoints (if str_in endpoint_type seen then seen else seen ++ [endpoint_type]) rest
  end.

Definition check_endpoints (value : json) : result (list string) :=
  match value with
  | JArr ((_ :: _) as items) => normalize_endpoints [] items
  | _ => invalid "host endpointTypes are required"
  end.

Definition check_implementation (value : json) : result (string * string) :=
  match value with
  | JObj kvs =>
      match minus (map fst kvs) ["name"; "version"] with
      | [] =>
          name ← _required_text (field kvs "name") "implementation.name" 80;
          version ← _required_text (field kvs "version") "implementation.version" 80;
          Ok (name, version)
      | _ => invalid "host implementation contains unsupported fields"
      end
  | _ => invalid "host implementation is required"
  end.

Definition is_text (value : json) (text : string) : bool :=
  match value with JStr s => String.eqb s text | _ => false end.

Definition normalize_host_profile (value : json) : result profile :=
  match value with
  | JObj kvs =>
      refuse_unknown "host capability profile contains unsupported fields: " kvs
        ["schema"; "hostInstanceId"; "implementation"; "levels"; "capabilities"; "endpointTypes"];;
      raise_if (negb (is_text (field kvs "schema") HOST_CONTRACT_SCHEMA)) HostContractError
        "host capability profile schema is invalid";;
      instance ← _required_text (field kvs "hostInstanceId") "hostInstanceId" 160;
      implementation ← check_implementation (field kvs "implementation");
      expected ← check_levels (field kvs "levels");
      capabilities ← check_capabilities (field kvs "capabilities") (List.last expected "L1");
      endpoint_types ← check_endpoints (field kvs "endpointTypes");
      Ok (Profile instance (fst implementation) (snd implementation) expected capabilities endpoint_types)
  | _ => invalid "host capability profile must be an object"
  end.

Record runtime_context : Type := RuntimeContext { rc_agentHost : string; rc_hostInstanceId : string; rc_hostVersion : string }.

Definition normalize_host_runtime_context (value : json) : result runtime_context :=
  match value with
  | JObj kvs =>
      raise_if (negb (is_text (field kvs "version") "1")) HostContractError "host runtime context version is invalid";;
      host ← _required_text (field kvs "agentHost") "agentHost" 80;
      instance ← _required_text (field kvs "hostInstanceId") "hostInstanceId" 160;
      version ← _required_text (field kvs "hostVersion") "hostVersion" 80;
      Ok (RuntimeContext host instance version)
  | _ => invalid "host runtime context must be an object"
  end.

Definition call_limits : list (string * Z) :=
  [("taskId", 128); ("hostRunId", 256); ("toolCallId", 256); ("endpointId", 128); ("conversationRef", 1024);
   ("clientMessageRef", 256); ("coordinatorLeaseVersion", 32)]%Z.

Fixpoint normalize_fields (kvs : list (string * json)) (limits : list (string * Z)) : result (list (string * string)) :=
  match limits with
  | [] => Ok []
  | (name, maximum) :: rest =>
      match field kvs name with
      | JNull => normalize_fields kvs rest
      | value =>
          text ← _required_text value name maximum;
          normalized ← normalize_fields kvs rest;
          Ok ((name, text) :: normalized)
      end
  end.

Definition normalize_host_call_context (value : json) : result (list (string * string)) :=
  match value with
  | JNull => Ok []
  | JObj kvs =>
      refuse_unknown "host call context contains unsupported fields: " kvs (map fst call_limits);;
      normalize_fields kvs call_limits
  | _ => invalid "host call context must be an object"
  end.

(** The loop of [highest_accepted_level], from [index] down *)
Fixpoint accepted_index (capabilities : list (string * bool)) (index : nat) : result nat :=
  match index with
  | O => Ok O
  | S lower =>
      names ← requirements (nth index HOST_LEVELS "L1");
      if forallb (has_capability capabilities) names then Ok index else accepted_index capabilities lower
  end.

Definition highest_accepted_level (value : json) (approved_level : string) : result string :=
  normalized ← normalize_host_profile value;
  let approved := str_upper (if truthy approved_level then approved_level else "L1") in
  approved ← index_of (if str_in approved HOST_LEVELS then approved else "L1");
  accepted ← accepted_index (capabilities normalized) (Nat.min (highest (levels normalized)) approved);
  Ok (nth accepted HOST_LEVELS "L1").
End Normalization.

(** ** Tables *)

Record compatibility_row : Type := CompatibilityRow {
  accepted_level : string;
  evidence_digest : string;
  approved_by : string;
  approved_at : instant;
}.

(** [declared_profile_json] holds the canonical text of the profile. *)
Record registration_row : Type := RegistrationRow {
  g_user_subject : string;
  g_token_id : string;
  g_host_instance_id : string;
  g_agent_host : string;
  g_host_version : string;
  declared_profile_json : string;
  g_accepted_level : string;
  compatibility_status : string;
  registered_at : instant;
  last_seen_at : instant;
}.

Inductive lease_state : Type := LActive | LReleased.

#[export] Instance lease_state_eq_dec : EqDecision lease_state.
Proof. solve_decision. Defined.

Definition lease_state_text (st : lease_state) : string :=
  match st with LActive => "active" | LReleased => "released" end.

Record lease_row : Type := LeaseRow {
  user_subject : string;
  host_instance_id : string;
  agent_host : string;
  lease_id : string;
  version : Z;
  row_state : lease_state;
  acquired_at : instant;
  renewed_at : instant;
  expires_at : instant;
  released_at : option instant;
}.

(** What [snapshot_json] holds; absent members are left out of the text. *)
Record runtime_snapshot : Type := RuntimeSnapshot {
  sn_status : string;
  sn_observedAt : instant;
  sn_uptimeSeconds : option json;
  sn_activeTaskCount : option Z;
  sn_waitingInteractionCount : option Z;
  sn_transportErrorCount : option Z;
  sn_lastErrorCode : option string;
}.

Record snapshot_row : Type := SnapshotRow {
  s_user_subject : string;
  s_host_instance_id : string;
  s_host_type : string;
  s_host_version : string;
  s_status : string;
  snapshot_json : runtime_snapshot;
  observed_at : instant;
  recorded_at : instant;
}.

Record store : Type := MkStore {
  compatibility : gmap (string * string) compatibility_row;
  registrations : gmap string registration_row;
  snapshots : gmap string snapshot_row;
  leases : gmap string lease_row;
}.

(** *** Versions that the project has approved *)

Definition builtins_1 : list (string * string * string * string) := [
  ("openclaw", "0.4.71", "L3", "shared-contract-h01-h29-task-plan-v1");
  ("openclaw", "0.4.72", "L3", "shared-contract-h01-h29-task-plan-terminal-v1");
  ("openclaw", "0.4.73", "L3", "shared-contract-h01-h29-task-plan-v2");
  ("openclaw", "0.4.74", "L3", "shared-contract-h01-h29-task-plan-repair-v1");
  ("openclaw", "0.4.75", "L3", "shared-contract-h01-h29-task-plan-guidance-v1");
  ("openclaw", "0.4.76", "L3", "shared-contract-h01-h29-task-plan-partial-preview-v1");
  ("openclaw", "0.4.77", "L3", "shared-contract-h01-h29-task-plan-query-contract-v1");
  ("openclaw", "0.4.78", "L3", "shared-contract-h01-h29-task-plan-workspace-repair-v1");
  ("openclaw", "0.4.79", "L3", "shared-contract-h01-h29-persistent-login-read-resume-v1");
  ("openclaw", "0.4.80", "L3", "shared-contract-h01-h29-native-card-origin-recovery-v1");
  ("openclaw", "0.4.81", "L3", "shared-contract-h01-h29-oa-meeting-room-read-v1");
  ("openclaw", "0.4.82", "L3", "shared-contract-h01-h29-oa-meeting-room-application-v1");
  ("openclaw", "0.4.83", "L3", "shared-contract-h01-h29-oa-meeting-room-owner-cancel-verification-v1");
  ("openclaw", "0.4.84", "L3", "shared-contract-h01-h29-oa-meeting-intent-routing-guard-v1");
  ("openclaw", "0.4.85", "L3", "shared-contract-h01-h29-governed-write-task-boundary-v1");
  ("openclaw", "0.4.86", "L3", "shared-contract-h01-h29-generic-pending-batch-v1");
  ("openclaw", "0.4.87", "L3", "shared-contract-h01-h29-composed-task-preflight-cancel-v1");
  ("reference-host", "0.1.0", "L3", "shared-contract-h01-h25");
  ("openclaw", "0.4.88", "L3", "shared-contract-h01-h29-current-turn-continuation-v1");
  ("openclaw", "0.4.89", "L3", "shared-contract-h01-h29-shared-planning-policy-v1");
  ("openclaw", "0.4.90", "L3", "shared-contract-h01-h29-cancel-target-verification-v1");
  ("openclaw", "0.4.91", "L3", "shared-contract-h01-h29-work-handover-approval-v1")].

Definition builtins_2 : list (string * string * string * string) := [
  ("openclaw", "0.4.92", "L3", "shared-contract-h01-h29-independent-database-v1");
  ("openclaw", "0.4.93", "L3", "shared-contract-h01-h29-database-content-v1");
  ("openclaw", "0.4.94", "L3", "shared-contract-h01-h29-multisource-database-v1");
  ("openclaw", "0.4.95", "L3", "shared-contract-h01-h29-atomic-read-task-isolation-v1");
  ("openclaw", "0.4.96", "L3", "shared-contract-h01-h29-native-login-read-continuation-v1");
  ("openclaw", "0.4.100", "L3", "shared-contract-h01-h29-modular-read-continuation-v1");
  ("openclaw", "0.4.101", "L3", "shared-contract-h01-h29-business-skills-v1");
  ("openclaw", "0.4.102", "L3", "shared-contract-h01-h29-skill-workspace-turn-v1");
  ("openclaw", "0.4.103", "L3", "shared-contract-h01-h29-skill-bundle-selection-v1");
  ("openclaw", "0.4.104", "L3", "shared-contract-h01-h29-skill-selection-explanation-v1");
  ("openclaw", "0.4.105", "L3", "shared-contract-h01-h29-wechat-delivery-recovery-v1");
  ("openclaw", "0.4.106", "L3", "shared-contract-h01-h29-wechat-platform-receipt-deduplication-v1");
  ("openclaw", "0.4.107", "L3", "shared-contract-h01-h29-skill-authoring-sample-isolation-v1");
  ("openclaw", "0.4.108", "L3", "shared-contract-h01-h29-skill-authoring-private-metadata-v1");
  ("openclaw", "0.4.109", "L3", "shared-contract-h01-h29-skill-quality-durable-workbench-v1");
  ("openclaw", "0.4.112", "L3", "shared-contract-h01-h29-host-recovery-decisions-v1")].

Definition builtins : list (string * string * string * string) := builtins_1 ++ builtins_2.

(** [INSERT OR IGNORE], for each of them *)
Definition _bootstrap_compatibility (now : instant) (s : store) : store :=
  MkStore
    (fold_left (fun t b => let '(name, version, level, evidence) := b in
       match t !! (name, version) with
       | Some _ => t
       | None => <[(name, version) := CompatibilityRow level evidence "project_release" now]> t
       end) builtins (compatibility s))
    (registrations s) (snapshots s) (leases s).

Definition with_registrations (t : gmap string registration_row) (s : store) : store :=
  MkStore (compatibility s) t (snapshots s) (leases s).

Definition with_leases (t : gmap string lease_row) (s : store) : store :=
  MkStore (compatibility s) (registrations s) (snapshots s) t.

Section Operations.
Context `{UnicodeTables}.
Implicit Types (s : store).

(** ** Registration *)

Record negotiation : Type := Negotiation {
  o_registrationId : string;
  o_hostInstanceId : string;
  o_implementation : string * string;
  o_acceptedLevel : string;
  o_compatibilityStatus : string;
  o_missingCapabilities : list string;
}.

Definition registered_as (user instance : string) (r : registration_row) : bool :=
  String.eqb (g_user_subject r) user && String.eqb (g_host_instance_id r) instance.

(** [ON CONFLICT(user_subject, host_instance_id) DO UPDATE SET] *)
Definition renewed_registration (new old : registration_row) : registration_row :=
  RegistrationRow (g_user_subject old) (g_token_id new) (g_host_instance_id old) (g_agent_host new)
    (g_host_version new) (declared_profile_json new) (g_accepted_level new) (compatibility_status new)
    (registered_at old) (last_seen_at new).

Definition approved_level_of (p : profile) s : string * string :=
  match compatibility s !! (implementation_name p, implementation_version p) with
  | Some c => (accepted_level c, "approved")
  | None => ("L1", "unrecognized")
  end.

(** The transaction of [negotiate]; [uuid] is drawn when the instance is not registered yet. *)
Definition negotiate_body (user token : string) (p : profile) (now : instant) (uuid : string)
  : tx store (string * string * string * string) := fun s =>
  let '(approved_level, status) := approved_level_of p s in
  accepted ← highest_accepted_level (profile_json p) approved_level;
  let row := RegistrationRow user token (hostInstanceId p) (implementation_name p) (implementation_version p)
               (dumps (profile_json p)) accepted status now now in
  match select_one (registered_as user (hostInstanceId p)) (registrations s) with
  | Some (id, existing) =>
      Ok ((id, accepted, status, approved_level),
          with_registrations (<[id := renewed_registration row existing]> (registrations s)) s)
  | None =>
      t ← insert_row uuid (registered_as user (hostInstanceId p)) row (registrations s);
      Ok ((uuid, accepted, status, approved_level), with_registrations t s)
  end.

Definition negotiate (user token : string) (declared : json) (now : instant) (uuid : string) s
  : result negotiation * store :=
  match normalize_host_profile declared with
  | Raise e => (Raise e, s)
  | Ok p =>
      method (negotiate_body user token p now uuid) (fun x =>
        let '(id, accepted, status, approved_level) := x in
        names ← requirements approved_level;
        Ok (Negotiation id (hostInstanceId p) (implementation_name p, implementation_version p) accepted status
              (missing_of names (capabilities p)))) s
  end.

Record registration : Type := Registration {
  registrationId : string;
  userSubject : string;
  r_hostInstanceId : string;
  agentHost : string;
  hostVersion : string;
  acceptedLevel : string;
  compatibilityStatus : string;
  lastSeenAt : instant;
}.

Definition _registration_from_row (id : string) (r : registration_row) : registration :=
  Registration id (g_user_subject r) (g_host_instance_id r) (g_agent_host r) (g_host_version r) (g_accepted_level r)
    (compatibility_status r) (last_seen_at r).

Definition required {A} (message : string) : result A := raise HostRegistrationRequired message.

(** What [require_registration] decides from the registrations that its SELECT reads *)
Definition check_registration (user agent_host instance version minimum_level : string)
    (seen : gmap string registration_row) : result (string * registration_row) :=
  let minimum := str_upper (if truthy minimum_level then minimum_level else "L1") in
  raise_if (negb (str_in minimum HOST_LEVELS)) ValueError "minimum host level is invalid";;
  match select_one (registered_as user instance) seen with
  | None => required "Agent host is not registered"
  | Some (id, r) =>
      raise_if (negb (String.eqb (g_agent_host r) agent_host && String.eqb (g_host_version r) version))
        HostRegistrationRequired "Agent host registration does not match the current runtime";;
      accepted ← index_of (g_accepted_level r);
      least ← index_of minimum;
      raise_if (accepted <? least)%nat HostRegistrationRequired
        ("Agent host requires compatibility level " +:+ minimum);;
      Ok (id, r)
  end.

Definition seen_row (now : instant) (r : registration_row) : registration_row :=
  RegistrationRow (g_user_subject r) (g_token_id r) (g_host_instance_id r) (g_agent_host r) (g_host_version r)
    (declared_profile_json r) (g_accepted_level r) (compatibility_status r) (registered_at r) now.

Definition require_registration (user agent_host instance version minimum_level : string) (now : instant)
    (seen : gmap string registration_row) s : result registration * store :=
  match check_registration user agent_host instance version minimum_level seen with
  | Raise e => (Raise e, s)
  | Ok (id, r) =>
      (Ok (_registration_from_row id r),
       with_registrations (fst (update_key id (fun _ => true) (seen_row now) (registrations s))) s)
  end.

(** ** Runtime snapshots *)

Definition _optional_nonnegative_int (value : json) (name : string) : result (option Z) :=
  match value with
  | JNull => Ok None
  | JInt z => if (z <? 0)%Z then invalid (name +:+ " must be a non-negative integer") else Ok (Some z)
  | _ => invalid (name +:+ " must be a non-negative integer")
  end.

(** [float(value)] of an integer below 2^53 is that integer. *)
Definition _optional_nonnegative_number (value : json) (name : string) : result (option json) :=
  match value with
  | JNull => Ok None
  | JInt z => if (z <? 0)%Z then invalid (name +:+ " must be a non-negative number")
              else Ok (Some (norm_float (S (Z.to_nat z)) z 0))
  | JFloat m e => if (m <? 0)%Z then invalid (name +:+ " must be a non-negative number") else Ok (Some (JFloat m e))
  | _ => invalid (name +:+ " must be a non-negative number")
  end.

(** [fromisoformat] is [datetime.fromisoformat], of the text with [Z] replaced. *)
Definition _iso_time (fromisoformat : string -> result datetime) (value : json) (name : string) : result instant :=
  text ← _required_text value name 80;
  match fromisoformat (py_join "+00:00" (split_on "Z"%char text)) with
  | Ok (Aware t) => Ok t
  | Ok (Naive _) => invalid (name +:+ " must include a timezone")
  | Raise e => if bool_decide (exn_class e = ValueError) then invalid (name +:+ " must be ISO-8601") else Raise e
  end.

Definition check_snapshot (fromisoformat : string -> result datetime) (value : json) : result runtime_snapshot :=
  match value with
  | JObj kvs =>
      status ← _required_text (field kvs "status") "status" 40;
      let status := str_lower status in
      raise_if (negb (str_in status ["healthy"; "degraded"; "failed"; "stopping"])) HostContractError
        "host runtime snapshot status is invalid";;
      observed ← _iso_time fromisoformat (field kvs "observedAt") "observedAt";
      uptime ← _optional_nonnegative_number (field kvs "uptimeSeconds") "uptimeSeconds";
      active ← _optional_nonnegative_int (field kvs "activeTaskCount") "activeTaskCount";
      waiting ← _optional_nonnegative_int (field kvs "waitingInteractionCount") "waitingInteractionCount";
      errors ← _optional_nonnegative_int (field kvs "transportErrorCount") "transportErrorCount";
      last_error ← _optional_text (field kvs "lastErrorCode") 120;
      Ok (RuntimeSnapshot status observed uptime active waiting errors last_error)
  | _ => invalid "host runtime snapshot must be an object"
  end.

(** The identifier and the time of the snapshot, and its host *)
Definition record_runtime_snapshot (fromisoformat : string -> result datetime) (user : string) (g : registration)
    (value : json) (uuid : string) (now : instant) s : result (string * string * instant) * store :=
  match check_snapshot fromisoformat value with
  | Raise e => (Raise e, s)
  | Ok snapshot =>
      transaction (fun s =>
        t ← insert_row uuid (fun _ => false)
              (SnapshotRow user (r_hostInstanceId g) (agentHost g) (hostVersion g) (sn_status snapshot) snapshot
                 (sn_observedAt snapshot) now) (snapshots s);
        Ok ((uuid, r_hostInstanceId g, now), MkStore (compatibility s) (registrations s) t (leases s))) s
  end.

(** ** Coordinator leases *)

Record lease : Type := Lease {
  taskId : string;
  l_hostInstanceId : string;
  l_agentHost : string;
  leaseId : string;
  l_version : Z;
  state : lease_state;
  acquiredAt : instant;
  renewedAt : instant;
  expiresAt : instant;
  releasedAt : option instant;
}.

Definition _lease_from_row (task : string) (r : lease_row) : lease :=
  Lease task (host_instance_id r) (agent_host r) (lease_id r) (version r) (row_state r) (acquired_at r) (renewed_at r)
    (expires_at r) (released_at r).

Definition lease_conflict {A} (message : string) : result A := raise HostLeaseConflict message.

Definition version_changed (expected : option Z) (r : lease_row) : bool :=
  match expected with Some v => negb (version r =? v)%Z | None => false end.

Record acquire_args : Type := AcquireArgs {
  q_task_id : string;
  q_user_subject : string;
  q_host_instance_id : string;
  q_agent_host : string;
  q_lease_seconds : Z;
  q_takeover : bool;
  q_expected_version : option Z;
}.

Definition lease_expiry (a : acquire_args) (now : instant) : instant :=
  (now + seconds (Z.min (Z.max (q_lease_seconds a) 15) 600))%Z.

Definition first_lease (a : acquire_args) (now : instant) (uuid : string) : lease_row :=
  LeaseRow (q_user_subject a) (q_host_instance_id a) (q_agent_host a) uuid 1 LActive now now (lease_expiry a now) None.

Definition same_owner (a : acquire_args) (r : lease_row) : bool := String.eqb (host_instance_id r) (q_host_instance_id a).

Definition next_lease (a : acquire_args) (now : instant) (uuid : string) (r : lease_row) : lease_row :=
  LeaseRow (user_subject r) (q_host_instance_id a) (q_agent_host a) (if same_owner a r then lease_id r else uuid)
    (version r + if same_owner a r then 0 else 1)%Z LActive (acquired_at r) now (lease_expiry a now) None.

Definition check_acquire (a : acquire_args) (now : instant) (r : lease_row) : result unit :=
  raise_if (negb (String.eqb (user_subject r) (q_user_subject a))) HostLeaseConflict
    "Coordinator lease belongs to another user";;
  raise_if (version_changed (q_expected_version a) r) HostLeaseConflict "Coordinator lease version changed";;
  raise_if (negb (same_owner a r) && negb (expires_at r <=? now)%Z) HostLeaseConflict
    "Coordinator lease is held by another host";;
  raise_if (negb (same_owner a r) && negb (q_takeover a)) HostLeaseConflict
    "Expired coordinator lease requires explicit reconciled takeover".

Definition acquire_body (a : acquire_args) (now : instant) (uuid : string) : tx store lease := fun s =>
  row ← match leases s !! q_task_id a with
        | None => Ok (first_lease a now uuid)
        | Some r => check_acquire a now r;; Ok (next_lease a now uuid r)
        end;
  Ok (_lease_from_row (q_task_id a) row, with_leases (<[q_task_id a := row]> (leases s)) s).

Definition acquire_coordinator_lease (a : acquire_args) (now : instant) (uuid : string) s : result lease * store :=
  transaction (acquire_body a now uuid) s.

Definition assert_coordinator_lease (task user instance : string) (expected : option Z) (now : instant) s : result lease :=
  match leases s !! task with
  | None => lease_conflict "Coordinator lease is not available"
  | Some r =>
      raise_if (negb (String.eqb (user_subject r) user)) HostLeaseConflict "Coordinator lease is not available";;
      raise_if (negb (bool_decide (row_state r = LActive)) || (expires_at r <=? now)%Z) HostLeaseConflict
        "Coordinator lease expired";;
      raise_if (negb (String.eqb (host_instance_id r) instance)) HostLeaseConflict
        "Coordinator lease is held by another host";;
      raise_if (version_changed expected r) HostLeaseConflict "Coordinator lease version changed";;
      Ok (_lease_from_row task r)
  end.

Definition released_row (now : instant) (r : lease_row) : lease_row :=
  LeaseRow (user_subject r) (host_instance_id r) (agent_host r) (lease_id r) (version r) LReleased (acquired_at r) now
    (expires_at r) (Some now).

(** [seen] is what the assertion read, before the update starts its transaction. *)
Definition release_coordinator_lease (task user instance : string) (expected : option Z) (now now' : instant)
    (seen s : store) : result lease * store :=
  match assert_coordinator_lease task user instance expected now seen with
  | Raise e => (Raise e, s)
  | Ok held =>
      let t := fst (update_key task (fun r => version r =? l_version held)%Z (released_row now') (leases s)) in
      (match t !! task with
       | Some r => Ok (_lease_from_row task r)
       | None => raise TypeError "'NoneType' object is not subscriptable"
       end, with_leases t s)
  end.

Definition get_coordinator_lease (task user : string) s : option lease :=
  match leases s !! task with
  | Some r => if String.eqb (user_subject r) user then Some (_lease_from_row task r) else None
  | None => None
  end.

(** ** Overview *)

Record runtime_view : Type := RuntimeView { v_status : string; v_observedAt : instant; v_recordedAt : instant; v_snapshot : runtime_snapshot }.

Definition latest_first (a b : string * snapshot_row) : bool :=
  (observed_at (snd b) <? observed_at (snd a))%Z
  || (observed_at (snd a) =? observed_at (snd b))%Z && (recorded_at (snd b) <=? recorded_at (snd a))%Z.

(** The latest snapshot of a registration; [_runtime_snapshot_from_row] *)
Definition runtime_of s (r : registration_row) : option runtime_view :=
  match sort_by latest_first (select_where (fun n => String.eqb (s_user_subject n) (g_user_subject r)
          && String.eqb (s_host_instance_id n) (g_host_instance_id r)) (snapshots s)) with
  | (_, n) :: _ =>
      if truthy (s_status n) then Some (RuntimeView (s_status n) (observed_at n) (recorded_at n) (snapshot_json n)) else None
  | [] => None
  end.

Definition lately_seen (a b : string * registration_row) : bool := (last_seen_at (snd b) <=? last_seen_at (snd a))%Z.
Definition lately_renewed (a b : string * lease_row) : bool := (renewed_at (snd b) <=? renewed_at (snd a))%Z.

Definition limit_of (limit : Z) : nat := Z.to_nat (Z.min (Z.max limit 1) 500).

Definition effectiveState (now : instant) (l : lease) : string :=
  if bool_decide (state l = LActive) && (expiresAt l <=? now)%Z then "expired" else lease_state_text (state l).

Record overview : Type := Overview {
  w_generatedAt : instant;
  w_compatibilityVersions : nat;
  w_registrations : list (registration * option runtime_view);
  w_hostInstances : nat;
  w_healthyRegistrations : nat;
  w_leases : list (lease * string);
  w_activeLeases : nat;
  w_expiredLeases : nat;
  w_compatibility : list ((string * string) * compatibility_row);
}.

Definition version_order (a b : (string * string) * compatibility_row) : bool :=
  if String.eqb (fst (fst a)) (fst (fst b)) then str_leb (snd (fst a)) (snd (fst b)) else str_leb (fst (fst a)) (fst (fst b)).

Definition runtime_overview (registration_limit lease_limit : Z) (now : instant) s : overview :=
  let registrations := map (fun kr => (_registration_from_row (fst kr) (snd kr), runtime_of s (snd kr)))
    (take (limit_of registration_limit) (sort_by lately_seen (map_to_list (registrations s)))) in
  let leases := map (fun kr => let l := _lease_from_row (fst kr) (snd kr) in (l, effectiveState now l))
    (take (limit_of lease_limit) (sort_by lately_renewed (map_to_list (leases s)))) in
  let compatibility := sort_by version_order (map_to_list (compatibility s)) in
  let with_state st := length (List.filter (fun l => String.eqb (snd l) st) leases) in
  Overview now (length compatibility) registrations
    (length (remove_dups (map (fun g => r_hostInstanceId (fst g)) registrations)))
    (length (List.filter (fun g => match snd g with Some v => String.eqb (v_status v) "healthy" | None => false end) registrations))
    leases (with_state "active") (with_state "expired") compatibility.
End Operations.
