(* ===== verification/HostContractFacts.v ===== *)
(** * Hosts: fencing and exclusion of coordinator leases, and the level of a host *)

From S2P Require Import Prelude PyStr Json Store InputValidation InputValidationFacts HostContract.

#[local] Open Scope list_scope.

Section Leases.
Context {tables : UnicodeTables}.
Implicit Types (s : store) (r : lease_row) (a : acquire_args).

(** ** Steps *)

(** One call of a method of the store, by any host, with whatever clocks and snapshots *)
Inductive step s : store -> Prop :=
  | acquires a now uuid x s' : acquire_coordinator_lease a now uuid s = (x, s') -> step s s'
  | releases task user instance expected now now' seen x s' :
      release_coordinator_lease task user instance expected now now' seen s = (x, s') -> step s s'
  | negotiates user token declared now uuid x s' : negotiate user token declared now uuid s = (x, s') -> step s s'
  | requires user host instance v level now seen x s' :
      require_registration user host instance v level now seen s = (x, s') -> step s s'
  | records parse user g value uuid now x s' :
      record_runtime_snapshot parse user g value uuid now s = (x, s') -> step s s'
  | bootstraps now : step s (_bootstrap_compatibility now s).

(** The lease of a task later on: the version does not go back, and while it stays, so do the host and the lease. *)
Definition later r r' : Prop :=
  user_subject r' = user_subject r /\ (version r <= version r')%Z /\
  (version r' = version r -> host_instance_id r' = host_instance_id r /\ lease_id r' = lease_id r).

#[export] Instance later_preorder : PreOrder later.
Proof.
  split.
  - intros r. unfold later. split_and!; [done|lia|done].
  - intros r1 r2 r3 (Hu & Hv & He) (Hu' & Hv' & He'). unfold later. split_and!; [congruence|lia|].
    intros Heq. destruct He; [lia|]. destruct He'; [lia|]. split; congruence.
Qed.

Lemma next_later a now uuid r : later r (next_lease a now uuid r).
Proof.
  unfold later, next_lease, same_owner. cbn. destruct (String.eqb_spec (host_instance_id r) (q_host_instance_id a)) as [He|He].
  - split_and!; [done|lia|done].
  - split_and!; [done|lia|lia].
Qed.

Lemma acquire_cases a now uuid s x s' : acquire_coordinator_lease a now uuid s = (x, s') ->
  (s' = s /\ exists e, x = Raise e) \/
  (exists row, x = Ok (_lease_from_row (q_task_id a) row) /\ s' = with_leases (<[q_task_id a := row]> (leases s)) s /\
    match leases s !! q_task_id a with
    | None => row = first_lease a now uuid
    | Some r => check_acquire a now r = Ok tt /\ row = next_lease a now uuid r
    end).
Proof.
  unfold acquire_coordinator_lease, transaction, acquire_body. destruct (leases s !! q_task_id a) as [r|].
  - destruct (check_acquire a now r) as [[]|e]; intros [= <- <-]; [right|left; eauto]. by eexists.
  - intros [= <- <-]. right. by eexists.
Qed.

(** Every step leaves a lease where it is, or moves it to a later one of the same task. *)
Lemma step_lease s s' task r : step s s' -> leases s !! task = Some r ->
  exists r', leases s' !! task = Some r' /\ later r r'.
Proof.
  intros Hs Hr. destruct Hs as [a now uuid x s' H|t user instance expected now now' seen x s' H|user token declared now uuid x s' H
    |user host instance v level now seen x s' H|parse user g value uuid now x s' H|now].
  - apply acquire_cases in H as [[-> _]|(row & _ & -> & Hrow)]; [by exists r|]. cbn.
    destruct (decide (q_task_id a = task)) as [<-|Hne].
    + rewrite Hr in Hrow. destruct Hrow as [_ ->]. eexists. rewrite lookup_insert_eq. split; [done|apply next_later].
    + exists r. by rewrite lookup_insert_ne.
  - unfold release_coordinator_lease in H. destruct (assert_coordinator_lease _ _ _ _ _ _) as [held|e]; [|injection H as _ <-; by exists r].
    injection H as _ <-. cbn. unfold update_key. destruct (leases s !! t) as [q|] eqn:Hq; [|by exists r].
    destruct (version q =? l_version held)%Z; [|by exists r]. cbn. destruct (decide (t = task)) as [->|Hne].
    + eexists. rewrite lookup_insert_eq. split; [done|]. rewrite Hr in Hq. injection Hq as <-.
      unfold later. cbn. split_and!; [done|lia|done].
    + exists r. by rewrite lookup_insert_ne.
  - unfold negotiate in H. destruct (normalize_host_profile declared) as [p|e]; [|injection H as _ <-; by exists r].
    apply (f_equal snd) in H. rewrite method_state in H. cbn in H. subst s'. exists r. split; [|done].
    destruct (after_cases (negotiate_body user token p now uuid) s) as [->|[y Hb]]; [done|].
    revert Hb. generalize (after (negotiate_body user token p now uuid) s). intros s1 Hb. unfold negotiate_body in Hb.
    destruct (approved_level_of p s) as [approved status]. apply result_bind_Ok in Hb as (accepted & _ & Hb).
    destruct (select_one _ _) as [[id existing]|]; [by injection Hb as _ <-|].
    by apply result_bind_Ok in Hb as (t & _ & [= _ <-]).
  - unfold require_registration in H. destruct (check_registration _ _ _ _ _ _) as [[id q]|e]; injection H as _ <-; by exists r.
  - unfold record_runtime_snapshot in H. destruct (check_snapshot parse value) as [snapshot|e]; [|injection H as _ <-; by exists r].
    unfold transaction in H. destruct (insert_row _ _ _ _) as [t|e]; injection H as _ <-; by exists r.
  - by exists r.
Qed.

Lemma steps_lease s s' task r : rtc step s s' -> leases s !! task = Some r ->
  exists r', leases s' !! task = Some r' /\ later r r'.
Proof.
  intros Hs. revert r. induction Hs as [s|s s1 s' Hstep _ IH]; intros r Hr; [by exists r|].
  destruct (step_lease _ _ _ _ Hstep Hr) as (r1 & Hr1 & Hl1). destruct (IH r1 Hr1) as (r' & Hr' & Hl').
  exists r'. split; [done|]. by etrans.
Qed.

(** ** Fencing *)

Definition refused {A} (x : result A) : Prop := exists message, x = Raise (Exn HostLeaseConflict message).

(** C31. A host that has lost a lease is out.  Once the lease of a task has been seen with another host, then whatever
    calls follow, under the version that the first host held nothing is granted: the assertion, the renewal and the
    release with this version are refused as conflicts, to whichever host asks, and nothing changes. *)
Theorem stale_coordinator_is_out s s1 s2 task r r1 :
  leases s !! task = Some r -> rtc step s s1 -> leases s1 !! task = Some r1 ->
  host_instance_id r1 <> host_instance_id r -> rtc step s1 s2 ->
  (forall user instance now,
    refused (assert_coordinator_lease task user instance (Some (version r)) now s2)) /\
  (forall a now uuid, q_task_id a = task -> q_expected_version a = Some (version r) ->
    exists message, acquire_coordinator_lease a now uuid s2 = (Raise (Exn HostLeaseConflict message), s2)) /\
  (forall user instance now now' s3, exists message,
    release_coordinator_lease task user instance (Some (version r)) now now' s2 s3
      = (Raise (Exn HostLeaseConflict message), s3)).
Proof.
  intros Hr Hss1 Hr1 Hhost Hss2.
  destruct (steps_lease _ _ _ _ Hss1 Hr) as (q1 & Hq1 & _ & Hv1 & Hsame1).
  assert (q1 = r1) as -> by congruence.
  destruct (steps_lease _ _ _ _ Hss2 Hr1) as (r2 & Hr2 & _ & Hv2 & _).
  assert (version r < version r2)%Z as Hlt.
  { destruct (Z.eq_dec (version r1) (version r)) as [He|He]; [by destruct (Hsame1 He)|lia]. }
  assert (version_changed (Some (version r)) r2 = true) as Hch.
  { cbn. destruct (Z.eqb_spec (version r2) (version r)); [lia|done]. }
  assert (forall user instance now,
    refused (assert_coordinator_lease task user instance (Some (version r)) now s2)) as Hassert.
  { intros user instance now. unfold assert_coordinator_lease, refused. rewrite Hr2, Hch.
    destruct (negb (String.eqb _ user)); [by eexists|]. destruct (_ || _); [by eexists|].
    destruct (negb (String.eqb _ instance)); by eexists. }
  split_and!; [done| |].
  - intros a now uuid Ht Hexp. unfold acquire_coordinator_lease, transaction, acquire_body, check_acquire.
    rewrite Ht, Hr2, Hexp, Hch. destruct (negb (String.eqb _ _)); by eexists.
  - intros user instance now now' s3. unfold release_coordinator_lease.
    destruct (Hassert user instance now) as [message ->]. by eexists.
Qed.

(** ** Exclusion *)

(** A call by another host than [host], whose clock is before [limit]; a release has asserted its lease in the past. *)
Inductive foreign_step (host : string) (limit : instant) s : store -> Prop :=
  | foreign_acquire a now uuid x s' : q_host_instance_id a <> host -> (now < limit)%Z ->
      acquire_coordinator_lease a now uuid s = (x, s') -> foreign_step host limit s s'
  | foreign_release task user instance expected now now' seen x s' : instance <> host -> rtc step seen s ->
      release_coordinator_lease task user instance expected now now' seen s = (x, s') -> foreign_step host limit s s'.

(** A lease excludes the others until it runs out.  As long as the clocks of the other hosts are before the end of
    a lease, nothing that they do, takeovers included, changes it: neither its holder, nor its version, nor its end. *)
Theorem lease_excludes_others s s' task r :
  leases s !! task = Some r -> rtc (foreign_step (host_instance_id r) (expires_at r)) s s' ->
  leases s' !! task = Some r.
Proof.
  intros Hr Hss. induction Hss as [s|s s1 s' Hstep _ IH]; [done|]. apply IH. clear IH.
  destruct Hstep as [a now uuid x s1 Hhost Hnow Ha|t user instance expected now now' seen x s1 Hhost Hpast Hrel].
  - apply acquire_cases in Ha as [[-> _]|(row & _ & -> & Hrow)]; [done|]. cbn.
    destruct (decide (q_task_id a = task)) as [<-|Hne]; [|by rewrite lookup_insert_ne]. exfalso.
    rewrite Hr in Hrow. destruct Hrow as [Hc _]. unfold check_acquire in Hc. rewrite !result_raise_if_bind in Hc.
    destruct Hc as (_ & _ & Hc & _). unfold same_owner in Hc.
    destruct (String.eqb_spec (host_instance_id r) (q_host_instance_id a)); [congruence|]. cbn in Hc.
    apply negb_false_iff, Z.leb_le in Hc. lia.
  - unfold release_coordinator_lease in Hrel.
    destruct (assert_coordinator_lease t user instance expected now seen) as [held|e] eqn:Hassert; [|by injection Hrel as _ <-].
    injection Hrel as _ <-. cbn. unfold update_key. destruct (leases s !! t) as [q|] eqn:Hq; [|done].
    destruct (Z.eqb_spec (version q) (l_version held)) as [Hv|]; [|done]. cbn.
    destruct (decide (t = task)) as [->|Hne]; [|by rewrite lookup_insert_ne]. exfalso.
    unfold assert_coordinator_lease in Hassert. destruct (leases seen !! task) as [r0|] eqn:Hr0; [|discriminate].
    rewrite !result_raise_if_bind in Hassert. destruct Hassert as (_ & _ & Hi & _ & [= <-]).
    apply negb_false_iff, String.eqb_eq in Hi. cbn in Hv.
    destruct (steps_lease _ _ _ _ Hpast Hr0) as (q' & Hq' & _ & _ & Hsame).
    assert (q' = q) as -> by congruence. assert (q = r) as -> by congruence.
    destruct (Hsame Hv) as [Hh _]. congruence.
Qed.
End Leases.
