(* ===== verification/HostProfileFacts.v ===== *)
(** * Host profiles: what normalization gives is canonical, and the level that a host gets *)

From S2P Require Import Prelude PyStr Json JsonFacts Store InputValidation InputValidationFacts HostContract HostContractFacts.

#[local] Open Scope list_scope.

Section Profiles.
Context {tables : UnicodeTables}.
Implicit Types (p : profile) (s : store).

(** [str.upper] leaves the names of the levels as they are. *)
Hypothesis upper_levels : forall level, In level HOST_LEVELS -> str_upper level = level.

(** ** Canonical profiles *)

Definition canonical_text (maximum : Z) (t : string) : Prop :=
  py_strip t = t /\ truthy t = true /\ (py_len t <= maximum)%Z.

Record canonical p : Prop := {
  can_instance : canonical_text 160 (hostInstanceId p);
  can_name : canonical_text 80 (implementation_name p);
  can_version : canonical_text 80 (implementation_version p);
  can_levels : exists n, (n <= 2)%nat /\ levels p = take (S n) HOST_LEVELS;
  can_capabilities : map fst (capabilities p) = HOST_CAPABILITIES;
  can_requirements : forall names, requirements (List.last (levels p) "L1") = Ok names ->
    forall name, In name names -> has_capability (capabilities p) name = true;
  can_endpoints : endpointTypes p <> [] /\ List.NoDup (endpointTypes p) /\ Forall (canonical_text 80) (endpointTypes p);
}.

Lemma required_text_Ok value name maximum t :
  _required_text value name maximum = Ok t -> canonical_text maximum t.
Proof.
  assert (forall v, (raise_if (negb (truthy (py_strip v)) || (maximum <? py_len (py_strip v))%Z) HostContractError
      (name +:+ " is invalid");; Ok (py_strip v)) = Ok t -> canonical_text maximum t) as Hcase.
  { intros v. rewrite result_raise_if_bind. intros [Hc [= <-]]. apply orb_false_iff in Hc as [Ht Hl].
    apply negb_false_iff in Ht. apply Z.ltb_ge in Hl. split_and!; [apply py_strip_strip|done|done]. }
  destruct value; try discriminate; apply Hcase.
Qed.

Lemma required_text_canonical name maximum t :
  canonical_text maximum t -> _required_text (JStr t) name maximum = Ok t.
Proof.
  intros (Hs & Ht & Hl). cbn [_required_text py_str]. rewrite Hs, Ht.
  destruct (Z.ltb_spec maximum (py_len t)); [lia|done].
Qed.

Lemma highest_le l : (highest l <= 2)%nat.
Proof. unfold highest. destruct (str_in "L3" l); [lia|]. destruct (str_in "L2" l); lia. Qed.

Lemma check_levels_Ok value l : check_levels value = Ok l -> exists n, (n <= 2)%nat /\ l = take (S n) HOST_LEVELS.
Proof.
  destruct value as [| | | | |[|v items]|]; try discriminate. cbn [check_levels]. intros Hl.
  apply result_bind_Ok in Hl as (seen & _ & Hl). rewrite !result_raise_if_bind in Hl. destruct Hl as (_ & _ & [= <-]).
  exists (highest seen). split; [apply highest_le|done].
Qed.

Lemma normalize_level level seen rest : In level HOST_LEVELS ->
  normalize_levels seen (JStr level :: rest) = normalize_levels (if str_in level seen then seen else seen ++ [level]) rest.
Proof.
  intros Hin. cbn [normalize_levels].
  assert (str_upper (py_strip (str_or_empty (JStr level))) = level) as ->.
  { rewrite <- (upper_levels level Hin) at 2. f_equal. by destruct Hin as [<-|[<-|[<-|[]]]]. }
  rewrite (proj2 (str_in_spec level HOST_LEVELS) Hin). done.
Qed.

Lemma check_levels_canonical n : (n <= 2)%nat ->
  check_levels (JArr (map JStr (take (S n) HOST_LEVELS))) = Ok (take (S n) HOST_LEVELS).
Proof.
  intros Hn. assert (n = 0 \/ n = 1 \/ n = 2)%nat as [->|[->| ->]] by lia;
    cbn [take HOST_LEVELS map check_levels]; rewrite !normalize_level by (cbn; tauto); reflexivity.
Qed.

Lemma map_result_bools (kvs : list (string * json)) names l :
  map_result (fun name => b ← _required_bool (field kvs name) ("capabilities." +:+ name); Ok (name, b)) names = Ok l ->
  map fst l = names.
Proof.
  revert l. induction names as [|name names IH]; cbn [map_result]; intros l Hl; [by injection Hl as <-|].
  apply result_bind_Ok in Hl as (nb & Hb & Hl). apply result_bind_Ok in Hb as (b & _ & [= <-]).
  apply result_bind_Ok in Hl as (l' & Hl & [= <-]). cbn. f_equal. by apply IH.
Qed.

Lemma missing_none names capabilities : missing_of names capabilities = [] <->
  forall name, In name names -> has_capability capabilities name = true.
Proof.
  unfold missing_of. split.
  - intros Hm name Hin. destruct (has_capability capabilities name) eqn:E; [done|]. exfalso.
    assert (In name (sorted_set (List.filter (fun name => negb (has_capability capabilities name)) names))) as Hx.
    { apply sorted_set_In, filter_In. by rewrite E. }
    by rewrite Hm in Hx.
  - intros Hall. destruct (sorted_set _) as [|x l] eqn:E; [done|]. exfalso.
    assert (In x (List.filter (fun name => negb (has_capability capabilities name)) names)) as [Hx Hf]%filter_In.
    { apply sorted_set_In. rewrite E. by left. }
    by rewrite (Hall x Hx) in Hf.
Qed.

Lemma check_capabilities_Ok value level caps : check_capabilities value level = Ok caps ->
  map fst caps = HOST_CAPABILITIES /\
  forall names, requirements level = Ok names -> forall name, In name names -> has_capability caps name = true.
Proof.
  destruct value as [| | | | | |kvs]; try discriminate. cbn [check_capabilities]. intros Hc.
  apply result_bind_Ok in Hc as (_ & _ & Hc). apply result_bind_Ok in Hc as (l & Hl%map_result_bools & Hc).
  apply result_bind_Ok in Hc as (names & Hn & Hc). destruct (missing_of names l) as [|x xs] eqn:Hm; [|discriminate].
  injection Hc as <-. split; [done|]. intros names' Hn'. rewrite Hn in Hn'. injection Hn' as <-. by apply missing_none.
Qed.

Lemma map_result_known caps l : (forall name b, In (name, b) l -> assoc name caps = Some b) ->
  map_result (fun name => b ← _required_bool (field (map (fun nb => (fst nb, JBool (snd nb))) caps) name)
    ("capabilities." +:+ name); Ok (name, b)) (map fst l) = Ok l.
Proof.
  induction l as [|[name b] l IH]; intros Hl; [done|]. cbn [map map_result fst].
  assert (field (map (fun nb => (fst nb, JBool (snd nb))) caps) name = JBool b) as ->.
  { assert (assoc name caps = Some b) as Ha by (apply Hl; by left). unfold field, dict_get.
    clear -Ha. induction caps as [|[k c] caps IH]; [done|]. cbn in Ha |- *. destruct (String.eqb name k); [congruence|by apply IH]. }
  cbn [_required_bool]. rewrite IH; [done|]. intros k c Hin. apply Hl. by right.
Qed.

Lemma check_capabilities_canonical caps level names : map fst caps = HOST_CAPABILITIES ->
  requirements level = Ok names -> (forall name, In name names -> has_capability caps name = true) ->
  check_capabilities (JObj (map (fun nb => (fst nb, JBool (snd nb))) caps)) level = Ok caps.
Proof.
  intros Hk Hn Hreq.
  assert (map_result (fun name => b ← _required_bool (field (map (fun nb => (fst nb, JBool (snd nb))) caps) name)
    ("capabilities." +:+ name); Ok (name, b)) HOST_CAPABILITIES = Ok caps) as Hcaps.
  { rewrite <- Hk. apply map_result_known. intros name b Hin. apply In_assoc; [|done]. rewrite Hk.
    apply (bool_decide_unpack _). vm_compute. exact I. }
  cbn [check_capabilities]. unfold refuse_unknown. rewrite map_map. cbn [fst].
  replace (map (fun x => x.1) caps) with HOST_CAPABILITIES by done.
  replace (minus HOST_CAPABILITIES HOST_CAPABILITIES) with (@nil string) by (vm_compute; reflexivity).
  rewrite Hcaps, Hn. apply missing_none in Hreq. cbn [pbind mbind result_bind]. by rewrite Hreq.
Qed.

Lemma normalize_endpoints_Ok items seen l : normalize_endpoints seen items = Ok l ->
  List.NoDup seen -> Forall (canonical_text 80) seen ->
  List.NoDup l /\ Forall (canonical_text 80) l /\ (seen <> [] \/ items <> [] -> l <> []).
Proof.
  revert seen. induction items as [|item items IH]; cbn [normalize_endpoints]; intros seen Hl Hn Hf.
  - injection Hl as <-. split_and!; [done|done|]. intros [?|?]; done.
  - apply result_bind_Ok in Hl as (t & Ht%required_text_Ok & Hl).
    destruct (str_in t seen) eqn:E.
    + apply IH in Hl as (H1 & H2 & H3); [|done..]. split_and!; [done|done|]. intros _. apply H3. left.
      intros ->. discriminate.
    + apply IH in Hl as (H1 & H2 & H3).
      * split_and!; [done|done|]. intros _. apply H3. left. by destruct seen.
      * apply NoDup_ListNoDup, NoDup_app. split_and!; [by apply NoDup_ListNoDup| |apply NoDup_singleton].
        intros x Hx ->%list_elem_of_singleton. apply str_in_false in E. by apply E, list_elem_of_In.
      * apply Forall_app. split; [done|]. by apply Forall_singleton.
Qed.

Lemma normalize_endpoints_canonical l seen : List.NoDup (seen ++ l) -> Forall (canonical_text 80) l ->
  normalize_endpoints seen (map JStr l) = Ok (seen ++ l).
Proof.
  revert seen. induction l as [|t l IH]; intros seen Hn Hf; cbn [map normalize_endpoints]; [by rewrite app_nil_r|].
  apply Forall_cons in Hf as [Ht Hf]. rewrite (required_text_canonical _ _ _ Ht). cbn [pbind mbind result_bind].
  assert (str_in t seen = false) as ->.
  { apply str_in_false. intros Hin. apply NoDup_remove_2 in Hn. apply Hn, in_or_app. by left. }
  rewrite IH; rewrite <- ?app_assoc; done.
Qed.

Lemma check_endpoints_canonical l : l <> [] -> List.NoDup l -> Forall (canonical_text 80) l ->
  check_endpoints (JArr (map JStr l)) = Ok l.
Proof.
  intros Hne Hn Hf. pose proof (normalize_endpoints_canonical l [] Hn Hf) as He. cbn [app] in He.
  destruct l; [done|]. exact He.
Qed.

Lemma check_implementation_canonical name v : canonical_text 80 name -> canonical_text 80 v ->
  check_implementation (JObj [("name", JStr name); ("version", JStr v)]) = Ok (name, v).
Proof.
  intros Hn Hv. unfold check_implementation. cbn [map fst].
  replace (minus ["name"; "version"] ["name"; "version"]) with (@nil string) by (vm_compute; reflexivity).
  assert (forall x y, field [("name", JStr x); ("version", JStr y)] "name" = JStr x) as -> by reflexivity.
  assert (forall x y, field [("name", JStr x); ("version", JStr y)] "version" = JStr y) as -> by reflexivity.
  by rewrite (required_text_canonical _ _ _ Hn), (required_text_canonical _ _ _ Hv).
Qed.

Lemma requirements_known n : (n <= 2)%nat ->
  exists names, requirements (List.last (take (S n) HOST_LEVELS) "L1") = Ok names.
Proof. intros Hn. assert (n = 0 \/ n = 1 \/ n = 2)%nat as [->|[->| ->]] by lia; by eexists. Qed.

Lemma normalize_canonical value p : normalize_host_profile value = Ok p -> canonical p.
Proof.
  destruct value as [| | | | | |kvs]; try discriminate. cbn [normalize_host_profile]. intros Hp.
  apply result_bind_Ok in Hp as (_ & _ & Hp). rewrite result_raise_if_bind in Hp. destruct Hp as [_ Hp].
  apply result_bind_Ok in Hp as (instance & Hi%required_text_Ok & Hp).
  apply result_bind_Ok in Hp as ([name v] & Himp & Hp).
  apply result_bind_Ok in Hp as (lv & Hl & Hp). pose proof (check_levels_Ok _ _ Hl) as Hlv.
  apply result_bind_Ok in Hp as (caps & [Hk Hreq]%check_capabilities_Ok & Hp).
  apply result_bind_Ok in Hp as (eps & He & [= <-]).
  unfold check_implementation in Himp. destruct (field kvs "implementation") as [| | | | | |ikvs]; try discriminate.
  destruct (minus _ _); [|discriminate]. apply result_bind_Ok in Himp as (name' & Hname%required_text_Ok & Himp).
  apply result_bind_Ok in Himp as (v' & Hv%required_text_Ok & [= <- <-]).
  unfold check_endpoints in He. destruct (field kvs "endpointTypes") as [| | | | |[|item items]|]; try discriminate.
  apply normalize_endpoints_Ok in He as (He1 & He2 & He3); [|constructor|constructor].
  split; cbn; try done. split_and!; [|done|done]. apply He3. by right.
Qed.

Lemma canonical_normalizes p : canonical p -> normalize_host_profile (profile_json p) = Ok p.
Proof.
  intros [Hi Hn Hv (n & Hle & Hl) Hk Hreq (He1 & He2 & He3)]. unfold profile_json. cbn [normalize_host_profile].
  set (kvs := [_; _; _; _; _; _]).
  assert (refuse_unknown "host capability profile contains unsupported fields: " kvs
    ["schema"; "hostInstanceId"; "implementation"; "levels"; "capabilities"; "endpointTypes"] = Ok tt) as ->
    by (vm_compute; reflexivity).
  assert (field kvs "schema" = JStr HOST_CONTRACT_SCHEMA) as -> by reflexivity.
  assert (field kvs "hostInstanceId" = JStr (hostInstanceId p)) as -> by reflexivity.
  assert (field kvs "implementation" = JObj [("name", JStr (implementation_name p)); ("version", JStr (implementation_version p))])
    as -> by reflexivity.
  assert (field kvs "levels" = JArr (map JStr (levels p))) as -> by reflexivity.
  assert (field kvs "capabilities" = JObj (map (fun nb => (fst nb, JBool (snd nb))) (capabilities p))) as -> by reflexivity.
  assert (field kvs "endpointTypes" = JArr (map JStr (endpointTypes p))) as -> by reflexivity. clear kvs.
  rewrite (required_text_canonical _ _ _ Hi), (check_implementation_canonical _ _ Hn Hv), Hl, (check_levels_canonical n Hle).
  destruct (requirements_known n Hle) as [names Hnames].
  rewrite Hl in Hreq. specialize (Hreq names Hnames).
  cbn [pbind mbind result_bind]. rewrite (check_capabilities_canonical _ _ names Hk Hnames Hreq).
  rewrite (check_endpoints_canonical _ He1 He2 He3). rewrite <- Hl. by destruct p.
Qed.

(** ** The level of a host *)

Definition rank (level : string) : nat := highest [level].

Lemma index_of_rank level : In level HOST_LEVELS -> index_of level = Ok (rank level).
Proof. by intros [<-|[<-|[<-|[]]]]. Qed.

Lemma rank_nth n : (n <= 2)%nat -> rank (nth n HOST_LEVELS "L1") = n /\ In (nth n HOST_LEVELS "L1") HOST_LEVELS.
Proof. intros Hn. assert (n = 0 \/ n = 1 \/ n = 2)%nat as [->|[->| ->]] by lia; cbn; tauto. Qed.

Lemma highest_take n : (n <= 2)%nat -> highest (take (S n) HOST_LEVELS) = n.
Proof. intros Hn. by assert (n = 0 \/ n = 1 \/ n = 2)%nat as [->|[->| ->]] by lia. Qed.

Lemma nth_take_levels k n : (k <= n)%nat -> (n <= 2)%nat -> In (nth k HOST_LEVELS "L1") (take (S n) HOST_LEVELS).
Proof.
  intros Hk Hn. assert (n = 0 \/ n = 1 \/ n = 2)%nat as [->|[->| ->]] by lia;
    assert (k = 0 \/ k = 1 \/ k = 2)%nat as [->|[->| ->]] by lia; try lia; cbn; tauto.
Qed.

(** A higher level asks for all that a lower one does. *)
Lemma requirements_grow k n names names' : (k <= n)%nat -> (n <= 2)%nat ->
  requirements (nth k HOST_LEVELS "L1") = Ok names -> requirements (nth n HOST_LEVELS "L1") = Ok names' ->
  incl names names'.
Proof.
  intros Hk Hn. assert (n = 0 \/ n = 1 \/ n = 2)%nat as [->|[->| ->]] by lia;
    assert (k = 0 \/ k = 1 \/ k = 2)%nat as [->|[->| ->]] by lia; try lia;
    intros [= <-] [= <-] name; cbn; tauto.
Qed.

Lemma last_level n : (n <= 2)%nat -> List.last (take (S n) HOST_LEVELS) "L1" = nth n HOST_LEVELS "L1".
Proof. intros Hn. by assert (n = 0 \/ n = 1 \/ n = 2)%nat as [->|[->| ->]] by lia. Qed.

(** A canonical profile has what every level below its highest asks for. *)
Lemma declared_has p k names : canonical p -> (k <= highest (levels p))%nat ->
  requirements (nth k HOST_LEVELS "L1") = Ok names -> forallb (has_capability (capabilities p)) names = true.
Proof.
  intros [_ _ _ (n & Hle & Hl) _ Hreq _] Hk Hnames. rewrite Hl, (highest_take n Hle) in Hk.
  rewrite Hl, (last_level n Hle) in Hreq.
  destruct (requirements_known n Hle) as [names' Hn']. rewrite (last_level n Hle) in Hn'.
  apply forallb_forall. intros name Hin. apply (Hreq names' Hn').
  exact (requirements_grow k n names names' Hk Hle Hnames Hn' name Hin).
Qed.

Lemma accepted_declared p k : canonical p -> (k <= highest (levels p))%nat ->
  accepted_index (capabilities p) k = Ok k.
Proof.
  intros Hp Hk. destruct k as [|k]; [done|]. cbn [accepted_index].
  destruct (requirements (nth (S k) HOST_LEVELS "L1")) as [names|e] eqn:Hn.
  - cbn [pbind mbind result_bind]. by rewrite (declared_has p (S k) names Hp Hk Hn).
  - pose proof (highest_le (levels p)) as Hle. exfalso.
    assert (S k = 1 \/ S k = 2)%nat as [E|E] by lia; rewrite E in Hn; discriminate.
Qed.

(** What a canonical profile gets: the highest level that is both declared and approved *)
Lemma accepted_exact p approved : canonical p -> In approved HOST_LEVELS ->
  highest_accepted_level (profile_json p) approved
    = Ok (nth (Nat.min (highest (levels p)) (rank approved)) HOST_LEVELS "L1").
Proof.
  intros Hp Ha. unfold highest_accepted_level. rewrite (canonical_normalizes p Hp). cbn [pbind mbind result_bind].
  assert (truthy approved = true) as -> by (by destruct Ha as [<-|[<-|[<-|[]]]]).
  rewrite (upper_levels approved Ha), (proj2 (str_in_spec approved HOST_LEVELS) Ha), (index_of_rank approved Ha).
  cbn [pbind mbind result_bind]. rewrite (accepted_declared p _ Hp); [done|lia].
Qed.

(** ** Registration *)

Definition approved_table s : Prop := forall v c, compatibility s !! v = Some c -> In (accepted_level c) HOST_LEVELS.

(** UNIQUE(user_subject, host_instance_id) *)
Definition registered_once s : Prop := forall id id' r r',
  registrations s !! id = Some r -> registrations s !! id' = Some r' ->
  g_user_subject r = g_user_subject r' -> g_host_instance_id r = g_host_instance_id r' -> id = id'.

Lemma registered_as_spec user instance r :
  registered_as user instance r = true <-> g_user_subject r = user /\ g_host_instance_id r = instance.
Proof. unfold registered_as. by rewrite andb_true_iff, !String.eqb_eq. Qed.

Lemma approved_is_level p s : approved_table s -> In (fst (approved_level_of p s)) HOST_LEVELS.
Proof.
  intros Ht. unfold approved_level_of. destruct (compatibility s !! _) as [c|] eqn:E; [by apply (Ht _ _ E)|by left].
Qed.

(** What a registration writes: the one row of the user's instance *)
Lemma negotiated_row user token declared now uuid s o s' :
  approved_table s -> registered_once s -> negotiate user token declared now uuid s = (Ok o, s') ->
  exists p r, normalize_host_profile declared = Ok p /\
    o_acceptedLevel o = nth (Nat.min (highest (levels p)) (rank (fst (approved_level_of p s)))) HOST_LEVELS "L1" /\
    compatibility s' = compatibility s /\ registered_once s' /\
    select_one (registered_as user (hostInstanceId p)) (registrations s') = Some (o_registrationId o, r) /\
    g_agent_host r = implementation_name p /\ g_host_version r = implementation_version p /\
    g_accepted_level r = o_acceptedLevel o /\ declared_profile_json r = dumps (profile_json p).
Proof.
  intros Ht Hu Hn. unfold negotiate in Hn. destruct (normalize_host_profile declared) as [p|e] eqn:Hp; [|discriminate].
  apply method_Ok in Hn as ([[[id accepted] status] approved] & Hb & Hk).
  apply result_bind_Ok in Hk as (names & _ & [= <-]). cbn.
  unfold negotiate_body in Hb. pose proof (approved_is_level p s Ht) as Ha.
  destruct (approved_level_of p s) as [approved' status'] eqn:Happ. cbn [fst] in Ha.
  rewrite (accepted_exact p approved' (normalize_canonical _ _ Hp) Ha) in Hb. cbn [pbind mbind result_bind] in Hb.
  set (row := RegistrationRow user token _ _ _ _ _ _ _ _) in Hb.
  destruct (select_one _ (registrations s)) as [[id' old]|] eqn:Hold.
  - injection Hb as <- <- <- <- <-. apply select_one_Some in Hold as [Hold [Ho1 Ho2]%registered_as_spec].
    assert (registered_once (with_registrations (<[id' := renewed_registration row old]> (registrations s)) s)) as Hu'.
    { intros i j ri rj Hi Hj Hs1 Hs2. cbn in Hi, Hj.
      apply lookup_insert_Some in Hi as [[<- <-]|[Hni Hi]]; apply lookup_insert_Some in Hj as [[<- <-]|[Hnj Hj]].
      - done.
      - exact (Hu id' j old rj Hold Hj Hs1 Hs2).
      - exact (Hu i id' ri old Hi Hold Hs1 Hs2).
      - exact (Hu i j ri rj Hi Hj Hs1 Hs2). }
    exists p, (renewed_registration row old). rewrite Happ. split_and!; try done.
    apply select_one_unique; [apply lookup_insert_eq|by apply registered_as_spec|].
    intros j rj Hj [Hj1 Hj2]%registered_as_spec. symmetry.
    apply (Hu' id' j (renewed_registration row old) rj); [apply lookup_insert_eq|exact Hj|by cbn; rewrite Ho1, Hj1|by cbn; rewrite Ho2, Hj2].
  - apply result_bind_Ok in Hb as (t & [Hfree [Hno ->]]%insert_row_Ok & [= <- <- <- <- <-]).
    assert (registered_once (with_registrations (<[uuid := row]> (registrations s)) s)) as Hu'.
    { intros i j ri rj Hi Hj Hs1 Hs2. cbn in Hi, Hj.
      apply lookup_insert_Some in Hi as [[<- <-]|[Hni Hi]]; apply lookup_insert_Some in Hj as [[<- <-]|[Hnj Hj]].
      - done.
      - pose proof (select_one_None _ _ Hold _ _ Hj) as Hx. exfalso. apply not_true_iff_false in Hx. apply Hx.
        by apply registered_as_spec.
      - pose proof (select_one_None _ _ Hold _ _ Hi) as Hx. exfalso. apply not_true_iff_false in Hx. apply Hx.
        by apply registered_as_spec.
      - exact (Hu i j ri rj Hi Hj Hs1 Hs2). }
    exists p, row. rewrite Happ. split_and!; try done.
    apply select_one_unique; [apply lookup_insert_eq|by apply registered_as_spec|].
    intros j rj Hj [Hj1 Hj2]%registered_as_spec. symmetry.
    apply (Hu' uuid j row rj); [apply lookup_insert_eq|exact Hj|done|done].
Qed.

(** A host gets the level that it is good for.  When a registration succeeds, the declared profile normalizes to
    one that normalizes to itself; the level that the host gets is exactly the lower of the highest that it declares
    and the one that the project has approved for this very version (L1 for a version that it does not know); the
    host has declared that level and all the capabilities that it takes.  From then on, with the same host and
    version, every level up to this one is granted and every higher one is refused, and another host or version in
    its place is refused at every level. *)
Theorem negotiated_level user token declared now uuid s o s' :
  approved_table s -> registered_once s -> negotiate user token declared now uuid s = (Ok o, s') ->
  exists p, normalize_host_profile declared = Ok p /\ normalize_host_profile (profile_json p) = Ok p /\
    rank (o_acceptedLevel o) = Nat.min (highest (levels p)) (rank (fst (approved_level_of p s))) /\
    In (o_acceptedLevel o) (levels p) /\
    (exists names, requirements (o_acceptedLevel o) = Ok names /\
       forallb (has_capability (capabilities p)) names = true) /\
    (forall minimum, In minimum HOST_LEVELS ->
       let check agent_host version :=
         check_registration user agent_host (hostInstanceId p) version minimum (registrations s') in
       ((rank minimum <= rank (o_acceptedLevel o))%nat ->
          exists r, check (implementation_name p) (implementation_version p) = Ok (o_registrationId o, r)) /\
       ((rank (o_acceptedLevel o) < rank minimum)%nat ->
          check (implementation_name p) (implementation_version p)
            = Raise (Exn HostRegistrationRequired ("Agent host requires compatibility level " +:+ minimum))) /\
       (forall agent_host version, (agent_host, version) <> (implementation_name p, implementation_version p) ->
          check agent_host version
            = Raise (Exn HostRegistrationRequired "Agent host registration does not match the current runtime"))).
Proof.
  intros Ht Hu Hn. destruct (negotiated_row _ _ _ _ _ _ _ _ Ht Hu Hn) as (p & r & Hp & Hl & _ & _ & Hr & Hhost & Hver & Hacc & _).
  pose proof (normalize_canonical _ _ Hp) as Hc. exists p. set (k := Nat.min _ _) in Hl.
  assert (k <= highest (levels p))%nat as Hk by (unfold k; lia).
  pose proof (highest_le (levels p)) as Hh. assert (k <= 2)%nat as Hk2 by lia. destruct (rank_nth k Hk2) as [Hrank Hin].
  rewrite Hl in Hacc |- *. rewrite Hrank. split_and!; [done|exact (canonical_normalizes p Hc)|done| | |].
  - destruct (can_levels p Hc) as (n & Hle & Hlv). rewrite Hlv, (highest_take n Hle) in Hk. rewrite Hlv.
    by apply nth_take_levels.
  - destruct (requirements_known k Hk2) as [names Hnames]. rewrite (last_level k Hk2) in Hnames. exists names.
    split; [done|]. exact (declared_has p k names Hc Hk Hnames).
  - intros minimum Hm. cbn zeta. unfold check_registration.
    assert (truthy minimum = true) as -> by (by destruct Hm as [<-|[<-|[<-|[]]]]).
    rewrite (upper_levels minimum Hm), (proj2 (str_in_spec minimum HOST_LEVELS) Hm), Hr, Hhost, Hver, Hacc,
      (index_of_rank minimum Hm), (index_of_rank _ Hin), Hrank, !String.eqb_refl. cbn [negb andb raise_if pbind mbind result_bind].
    split_and!.
    + intros Hle. destruct (Nat.ltb_spec k (rank minimum)); [lia|]. by eexists.
    + intros Hlt. destruct (Nat.ltb_spec k (rank minimum)); [done|lia].
    + intros agent version Hne.
      replace (String.eqb (implementation_name p) agent && String.eqb (implementation_version p) version) with false; [done|].
      symmetry. apply andb_false_iff. rewrite !String.eqb_neq.
      destruct (base.decide (implementation_name p = agent)) as [He|]; [|by left]. right. intros He'.
      by apply Hne; rewrite He, He'.
Qed.

(** The versions that the project has approved *)
Lemma bootstrap_approved now s : approved_table s -> approved_table (_bootstrap_compatibility now s).
Proof.
  unfold approved_table, _bootstrap_compatibility. cbn [compatibility]. generalize (compatibility s). clear s.
  assert (forallb (fun b => str_in (snd (fst b)) HOST_LEVELS) builtins = true) as Hb by (vm_compute; reflexivity).
  revert Hb. generalize builtins. induction l as [|[[[name v] level] evidence] l IH]; intros Hb t Ht; cbn [fold_left]; [done|].
  cbn [forallb fst snd] in Hb. apply andb_true_iff in Hb as [Hl%str_in_spec Hb]. apply (IH Hb). destruct (t !! (name, v)) eqn:E; [done|].
  intros k c. destruct (base.decide ((name, v) = k)) as [<-|Hne].
  - rewrite lookup_insert_eq. by intros [= <-].
  - rewrite lookup_insert_ne by done. apply Ht.
Qed.
End Profiles.

(** ** Concrete inputs

    The properties of hosts, applied to one host that registers and to two that coordinate the same task. *)

#[local] Open Scope list_scope.
#[local] Open Scope Z_scope.
#[local] Existing Instance ascii_tables.

Module HostDemo.

(** ** Registration *)

Definition capable : list string := ["privateResultMeta"; "interactionPollResume"].

Definition declared : json := JObj [
  ("schema", JStr HOST_CONTRACT_SCHEMA);
  ("hostInstanceId", JStr " host-a ");
  ("implementation", JObj [("version", JStr "0.4.92"); ("name", JStr "openclaw")]);
  ("levels", JArr [JStr "l2"; JStr "L1"]);
  ("capabilities", JObj (map (fun name => (name, JBool (str_in name capable))) HOST_CAPABILITIES));
  ("endpointTypes", JArr [JStr "chat"])].

Definition start : store := _bootstrap_compatibility 0 (MkStore ∅ ∅ ∅ ∅).

Lemma approved_start : approved_table start.
Proof. apply bootstrap_approved. intros v c. cbn. rewrite lookup_empty. discriminate. Qed.

Lemma once_start : registered_once start.
Proof. intros id id' r r'. cbn. rewrite lookup_empty. discriminate. Qed.

Lemma ascii_levels level : In level HOST_LEVELS -> str_upper level = level.
Proof. by intros [<-|[<-|[<-|[]]]]. Qed.

(** A version that is approved for L3, and a host that declares L2: it gets L2. *)
Lemma negotiated_level_witness :
  exists o s' p, negotiate "u1" "tok-1" declared 10 "g1" start = (Ok o, s') /\ o_acceptedLevel o = "L2" /\
    check_registration "u1" "openclaw" "host-a" "0.4.92" "L3" (registrations s')
      = Raise (Exn HostRegistrationRequired "Agent host requires compatibility level L3") /\
    normalize_host_profile (profile_json p) = Ok p.
Proof.
  destruct (negotiate "u1" "tok-1" declared 10 "g1" start) as [[o|e] s'] eqn:E; [|vm_compute in E; discriminate E].
  destruct (negotiated_level ascii_levels "u1" "tok-1" declared 10 "g1" start o s' approved_start once_start E)
    as (p & Hp & Hcanon & _ & _ & _ & Hlevels).
  assert (Ho : o_acceptedLevel o = "L2").
  { apply (f_equal (fun x => match fst x with Ok o => o_acceptedLevel o | Raise _ => "" end)) in E.
    cbn [fst] in E. rewrite <- E. vm_compute. reflexivity. }
  destruct (Hlevels "L3") as (_ & Hno & _); [right; right; left; reflexivity|].
  exists o, s', p. split; [reflexivity|]. split; [exact Ho|]. split; [|exact Hcanon].
  assert (Hd : normalize_host_profile declared = Ok (Profile "host-a" "openclaw" "0.4.92" ["L1"; "L2"]
    (map (fun name => (name, str_in name capable)) HOST_CAPABILITIES) ["chat"])) by (vm_compute; reflexivity).
  rewrite Hd in Hp. injection Hp as <-. apply Hno. rewrite Ho. vm_compute. lia.
Defined.

(** ** Leases: a host holds a task, its lease runs out, and another takes over *)

Definition taking (host : string) (takeover : bool) (expected : option Z) : acquire_args :=
  AcquireArgs "t1" "u1" host "openclaw" 30 takeover expected.

Definition held : store := snd (acquire_coordinator_lease (taking "host-a" false None) 0 "l1" start).
Definition taken : store := snd (acquire_coordinator_lease (taking "host-b" true (Some 1)) 40000000 "l2" held).

Definition lease_a : lease_row := LeaseRow "u1" "host-a" "openclaw" "l1" 1 LActive 0 0 30000000 None.
Definition lease_b : lease_row := LeaseRow "u1" "host-b" "openclaw" "l2" 2 LActive 0 40000000 70000000 None.

Lemma stale_coordinator_is_out_witness :
  exists m, acquire_coordinator_lease (taking "host-a" true (Some 1)) 50000000 "l3" taken
    = (Raise (Exn HostLeaseConflict m), taken).
Proof.
  destruct (stale_coordinator_is_out held taken taken "t1" lease_a lease_b) as (_ & Hacquire & _).
  - vm_compute. reflexivity.
  - apply rtc_once. eapply acquires. unfold taken. apply surjective_pairing.
  - vm_compute. reflexivity.
  - vm_compute. discriminate.
  - apply rtc_refl.
  - exact (Hacquire (taking "host-a" true (Some 1)) 50000000 "l3" eq_refl eq_refl).
Defined.

Definition tried : store := snd (acquire_coordinator_lease (taking "host-b" true None) 20000000 "l2" held).

Lemma lease_excludes_others_witness : leases tried !! "t1" = Some lease_a.
Proof.
  apply (lease_excludes_others held tried "t1" lease_a).
  - vm_compute. reflexivity.
  - apply rtc_once. eapply (foreign_acquire _ _ _ (taking "host-b" true None) 20000000 "l2").
    + vm_compute. discriminate.
    + vm_compute. reflexivity.
    + unfold tried. apply surjective_pairing.
Defined.
End HostDemo.
