(* ===== verification/Sessions.v ===== *)
(** * The registry of downstream sessions (agentbridge/core/sessions.py)

    A user has one session with each system, bound to the principal that the user is expected to be there.
    Most methods are several transactions one after the other: what such a method has read before its last
    transaction is an argument, a snapshot that other calls may have overtaken. *)

From Stdlib Require Import Ascii.
From S2P Require Import Prelude PyStr Json Sha256 Store InputValidation.

#[local] Open Scope list_scope.

(** ** Tables *)

Inductive state : Type := New | AwaitingLogin | Active | Expired | Quarantined.

#[export] Instance state_eq_dec : EqDecision state.
Proof. solve_decision. Defined.

Definition state_text (st : state) : string :=
  match st with
  | New => "new" | AwaitingLogin => "awaiting_login" | Active => "active" | Expired => "expired"
  | Quarantined => "quarantined"
  end.

Record session_row : Type := SessionRow {
  user_subject : string;
  system_id : string;
  expected_principal_ref : option string;
  downstream_principal_ref : option string;
  profile_path : string;
  row_state : state;
  last_error : option string;
  created_at : instant;
  updated_at : instant;
  last_verified_at : option instant;
  last_user_activity_at : option instant;
  last_keepalive_at : option instant;
  expired_at : option instant;
  authority_generation : Z;
}.

Record event_row : Type := EventRow {
  ev_session_id : string;
  ev_user_subject : string;
  ev_system_id : string;
  event_type : string;
  source : string;
  previous_state : option state;
  new_state : option state;
  reason : option string;
  ev_created_at : instant;
}.

Record store : Type := MkStore { sessions : gmap string session_row; session_events : gmap string event_row }.

(** A session as the methods return it: the row with its identifier *)
Definition session : Type := string * session_row.

(** ** Rows that the updates write *)

Definition maintained_row (r : session_row) : session_row :=
  SessionRow (user_subject r) (system_id r) (expected_principal_ref r) (downstream_principal_ref r) (profile_path r)
    (row_state r) (last_error r) (created_at r) (updated_at r) (last_verified_at r)
    (match last_user_activity_at r with
     | None => if bool_decide (row_state r = Active) then Some (updated_at r) else None
     | some => some
     end)
    (last_keepalive_at r)
    (match expired_at r with
     | None => if bool_decide (row_state r = Expired) then Some (updated_at r) else None
     | some => some
     end)
    (authority_generation r).

Definition new_row (user system : string) (expected : option string) (path : string) (now : instant) : session_row :=
  SessionRow user system expected None path New None now now None None None None 1.

Definition expecting_row (expected : option string) (now : instant) (r : session_row) : session_row :=
  SessionRow (user_subject r) (system_id r) expected (downstream_principal_ref r) (profile_path r) (row_state r)
    (last_error r) (created_at r) now (last_verified_at r) (last_user_activity_at r) (last_keepalive_at r) (expired_at r)
    (authority_generation r).

Definition touched_row (now : instant) (r : session_row) : session_row :=
  SessionRow (user_subject r) (system_id r) (expected_principal_ref r) (downstream_principal_ref r) (profile_path r)
    (row_state r) (last_error r) (created_at r) now (last_verified_at r) (Some now) (last_keepalive_at r) (expired_at r)
    (authority_generation r).

Definition kept_row (now : instant) (r : session_row) : session_row :=
  SessionRow (user_subject r) (system_id r) (expected_principal_ref r) (downstream_principal_ref r) (profile_path r)
    (row_state r) (last_error r) (created_at r) (updated_at r) (last_verified_at r) (last_user_activity_at r) (Some now)
    (expired_at r) (authority_generation r).

Definition rebound_row (expected message : string) (now : instant) (r : session_row) : session_row :=
  SessionRow (user_subject r) (system_id r) (Some expected) None (profile_path r) Expired (Some message) (created_at r)
    now None None None (Some now) (authority_generation r + 1)%Z.

(** The arguments of [_set_state] *)
Record change : Type := Change {
  to_state : state;
  observed : option string;
  error : option string;
  verified : bool;
  from_source : string;
}.

(** Both updates of [_set_state]; [moved] when the state that was read is another one *)
Definition changed_row (moved : bool) (c : change) (now : instant) (r : session_row) : session_row :=
  let st := to_state c in
  SessionRow (user_subject r) (system_id r) (expected_principal_ref r)
    (match observed c with Some p => Some p | None => downstream_principal_ref r end) (profile_path r) st (error c)
    (created_at r) now
    (if verified c then Some now else last_verified_at r)
    (if verified c then Some now else last_user_activity_at r)
    (if verified c && negb (bool_decide (row_state r = Active)) then None else last_keepalive_at r)
    (match st with Expired => Some now | Active => None | _ => expired_at r end)
    (if moved then authority_generation r + 1 else authority_generation r)%Z.

Section Registry.
Context `{UnicodeTables}.
Implicit Types (s : store).

Definition with_sessions (t : gmap string session_row) s : store := MkStore t (session_events s).

(** ** Events *)

(** [str(event_type or 'unknown')[:128]] *)
Definition or_unknown (text : string) (n : nat) : string := py_take n (if truthy text then text else "unknown").

Definition _insert_event (uuid : string) (e : event_row) : tx store unit := fun s =>
  t ← insert_row uuid (fun _ => false)
        (EventRow (ev_session_id e) (ev_user_subject e) (ev_system_id e) (or_unknown (event_type e) 128)
           (or_unknown (source e) 256) (previous_state e) (new_state e) (option_map (py_take 2000) (reason e))
           (ev_created_at e)) (session_events s);
  Ok (tt, MkStore (sessions s) t).

Definition state_event (id : string) (r : session_row) (source : string) (st : state) (reason : option string)
    (now : instant) : event_row :=
  EventRow id (user_subject r) (system_id r) "state_changed" source (Some (row_state r)) (Some st) reason now.

(** ** Reading *)

Definition get (id : string) s : result session :=
  match sessions s !! id with Some r => Ok (id, r) | None => raise KeyError ("session not found: " +:+ id) end.

Definition of_user (user system : string) (r : session_row) : bool :=
  String.eqb (user_subject r) user && String.eqb (system_id r) system.

Definition find (user system : string) s : option session := select_one (of_user user system) (sessions s).

(** A method that ends with [return self.get(session_id)] *)
Definition then_get {A} (id : string) (x : result A * store) : result session * store :=
  match x with (Raise e, s) => (Raise e, s) | (Ok _, s) => (get id s, s) end.

Definition by_update (a b : session) : bool :=
  (updated_at (snd b) <? updated_at (snd a))%Z
  || (updated_at (snd a) =? updated_at (snd b))%Z && str_leb (fst a) (fst b).

Definition list_sessions (user system : option string) (limit : Z) s : result (list session) :=
  raise_if ((limit <? 1)%Z || (1000 <? limit)%Z) ValueError "session list limit must be between 1 and 1000";;
  Ok (take (Z.to_nat limit) (sort_by by_update (select_where (fun r =>
        match user with Some u => String.eqb (user_subject r) u | None => true end
        && match system with Some y => String.eqb (system_id r) y | None => true end) (sessions s)))).

(** [COALESCE(last_user_activity_at, updated_at)] *)
Definition activity (r : session_row) : instant :=
  match last_user_activity_at r with Some t => t | None => updated_at r end.

Definition by_activity (a b : session) : bool :=
  (activity (snd a) <? activity (snd b))%Z
  || (activity (snd a) =? activity (snd b))%Z && str_leb (fst a) (fst b).

Definition list_active (system : option string) s : list session :=
  sort_by by_activity (select_where (fun r => bool_decide (row_state r = Active)
    && match system with Some y => String.eqb (system_id r) y | None => true end) (sessions s)).

Definition by_creation (a b : string * event_row) : bool :=
  (ev_created_at (snd b) <? ev_created_at (snd a))%Z
  || (ev_created_at (snd a) =? ev_created_at (snd b))%Z && str_leb (fst b) (fst a).

Definition list_events (id : string) (limit : Z) s : result (list (string * event_row)) :=
  raise_if ((limit <? 1)%Z || (500 <? limit)%Z) ValueError "session event limit must be between 1 and 500";;
  Ok (take (Z.to_nat limit) (sort_by by_creation (select_where (fun e => String.eqb (ev_session_id e) id) (session_events s)))).

Definition latest_event (id : string) s : result (option (string * event_row)) :=
  events ← list_events id 1 s; Ok (head events).

(** ** Changes of state *)

(** [seen] is what the SELECT read, which opens no transaction; likewise below. *)
Definition set_state_body (id : string) (c : change) (now : instant) (uuid : string) (seen : store) : tx store unit := fun s =>
  match sessions seen !! id, sessions s !! id with
  | Some before, Some r =>
      let moved := negb (bool_decide (row_state before = to_state c)) in
      let s' := with_sessions (<[id := changed_row moved c now r]> (sessions s)) s in
      if moved then _insert_event uuid (state_event id before (from_source c) (to_state c) (error c) now) s' else Ok (tt, s')
  | _, _ => raise KeyError ("session not found: " +:+ id)
  end.

Definition _set_state (id : string) (c : change) (now : instant) (uuid : string) (seen s : store) : result session * store :=
  then_get id (transaction (set_state_body id c now uuid seen) s).

Definition mark_awaiting_login (id source : string) : instant -> string -> store -> store -> result session * store :=
  _set_state id (Change AwaitingLogin None None false source).

Definition mark_expired (id message source : string) : instant -> string -> store -> store -> result session * store :=
  _set_state id (Change Expired None (Some message) false source).

Definition quarantine (id message source : string) : instant -> string -> store -> store -> result session * store :=
  _set_state id (Change Quarantined None (Some message) false source).

Definition run_startup_maintenance s : store := with_sessions (maintained_row <$> sessions s) s.

Definition touch_body (f : session_row -> session_row) (message id : string) : tx store unit := fun s =>
  let '(t, rowcount) := update_key id (fun r => bool_decide (row_state r = Active)) f (sessions s) in
  raise_if (negb (Nat.eqb rowcount 1)) ValueError message;;
  Ok (tt, with_sessions t s).

Definition touch_activity (id : string) (now : instant) s : result session * store :=
  then_get id (transaction (touch_body (touched_row now) "only an active session can record activity" id) s).

Definition record_keepalive (id : string) (now : instant) s : result session * store :=
  then_get id (transaction (touch_body (kept_row now) "only an active session can record keepalive" id) s).

(** [seen] is what [self.get] read. *)
Definition record_event (id event_type source : string) (reason : option string) (now : instant) (uuid : string)
    (seen : store) s : result unit * store :=
  match get id seen with
  | Raise e => (Raise e, s)
  | Ok (_, r) =>
      transaction (_insert_event uuid
        (EventRow id (user_subject r) (system_id r) event_type source (Some (row_state r)) (Some (row_state r)) reason now)) s
  end.

(** ** Creation and binding *)

Definition _validate_principal_ref (value : option string) : result string :=
  let normalized := py_strip (or_empty value) in
  raise_if (negb (truthy normalized) || (256 <? py_len normalized)%Z
            || existsb (fun c => N.ltb (codepoint c) 32) (chars normalized)) ValueError
    "expected_principal_ref is invalid";;
  Ok normalized.

Definition is_safe (c : ascii) : bool := is_alpha c || is_digit c || Ascii.eqb c "_" || Ascii.eqb c "-".

(** [re.sub(r'[^a-zA-Z0-9_-]', '_', text)] *)
Definition safe_text (text : string) : string :=
  join_chars (map (fun c => match c with String a "" => if is_safe a then c else "_" | _ => "_" end) (chars text)).

(** [resolve] is what [Path.resolve] makes of the path under the root of the profiles. *)
Definition _profile_path (resolve : string -> string -> string) (user system : string) : string :=
  let safe := py_take 64 (safe_text system) in
  resolve (if truthy safe then safe else "system") (py_take 24 (sha256_hex user)).

Definition stripped (o : option string) : string := py_strip (or_empty o).

Definition mismatch {A} (message : string) : result A := raise SessionPrincipalMismatch message.

Definition _update_expected (id : string) (expected : option string) (now : instant) s : result session * store :=
  then_get id (Ok tt, with_sessions (fst (update_key id (fun _ => true) (expecting_row expected now) (sessions s))) s).

(** The identifiers and readings that [get_or_create] draws *)
Record create_draw : Type := CreateDraw { d_now : instant; d_session_id : string; d_event_id : string }.

Definition insert_session (user system : string) (expected : option string) (path : string) (d : create_draw)
  : tx store unit := fun s =>
  t ← insert_row (d_session_id d) (of_user user system) (new_row user system expected path (d_now d)) (sessions s);
  _insert_event (d_event_id d)
    (EventRow (d_session_id d) user system "session_created" "registry" None (Some New) None (d_now d))
    (with_sessions t s).

Definition bound_message : string := "session is already bound to a different expected principal".

(** [seen] is what the first [find] read, and [seen'] what [quarantine] read. *)
Definition get_or_create (resolve : string -> string -> string) (user system : string) (expected : option string)
    (d : create_draw) (seen seen' : store) s : result session * store :=
  if negb (truthy user) || negb (truthy system) then (raise ValueError "user_subject and system_id are required", s)
  else
    match find user system seen with
    | Some (id, existing) =>
        let bound := stripped (expected_principal_ref existing) in
        let requested := stripped expected in
        if truthy bound && truthy requested && negb (String.eqb bound requested) then
          match quarantine id bound_message "identity_validation" (d_now d) (d_event_id d) seen' s with
          | (Ok _, s') => (mismatch bound_message, s')
          | (Raise e, s') => (Raise e, s')
          end
        else if truthy requested && negb (truthy bound) then _update_expected id expected (d_now d) s
        else (Ok (id, existing), s)
    | None =>
        match insert_session user system expected (_profile_path resolve user system) d s with
        | Ok (_, s') => (get (d_session_id d) s', s')
        | Raise e =>
            if bool_decide (exn_class e = SqliteIntegrityError)
            then match find user system s with Some existing => (Ok existing, s) | None => (Raise e, s) end
            else (Raise e, s)
        end
    end.

Definition rebind_body (id expected message : string) (now : instant) (uuid : string) (seen : store) : tx store unit := fun s =>
  match sessions seen !! id, sessions s !! id with
  | Some before, Some r =>
      _insert_event uuid (state_event id before "admin_rebind" Expired (Some message) now)
        (with_sessions (<[id := rebound_row expected message now r]> (sessions s)) s)
  | _, _ => raise KeyError ("session not found: " +:+ id)
  end.

Definition rebind_expected_principal (id : string) (expected reason : option string) (now : instant) (uuid : string)
    (seen s : store) : result session * store :=
  match _validate_principal_ref expected with
  | Raise e => (Raise e, s)
  | Ok expected =>
      let reason := stripped reason in
      if negb (truthy reason) then (raise ValueError "reason is required", s)
      else
        let message := "Downstream principal binding changed; login required. Reason: " +:+ reason in
        then_get id (transaction (rebind_body id expected message now uuid seen) s)
  end.

(** ** Activation *)

(** Another user's active session with the same principal *)
Definition conflicting (user system observed : string) (r : session_row) : bool :=
  String.eqb (system_id r) system
  && match downstream_principal_ref r with Some p => String.eqb p observed | None => false end
  && negb (String.eqb (user_subject r) user) && bool_decide (row_state r = Active).

Definition quarantine_change (observed : option string) (message source : string) : change :=
  Change Quarantined observed (Some message) false source.

(** What [activate] decides before its last transaction: the change that it makes, and the message of the exception
    that follows when it is a quarantine, from the row that it has read and the sessions [seen'] among which it
    looked for a conflicting one. *)
Definition activation (r : session_row) (observed_principal_ref : option string) (source : string) (seen' : store)
  : change * option string :=
  let expected := stripped (expected_principal_ref r) in
  let observed := stripped observed_principal_ref in
  let refuse o message source := (quarantine_change o message source, Some message) in
  if negb (truthy expected) then refuse None "expected downstream principal is not configured" "identity_validation"
  else if negb (truthy observed) then refuse None "downstream principal could not be verified" "runtime"
  else if negb (String.eqb expected observed) then
    refuse (Some observed) "observed downstream principal does not match the expected principal" "identity_validation"
  else if exists_where (conflicting (user_subject r) (system_id r) observed) (sessions seen') then
    refuse (Some observed) "downstream principal is already bound to another active user" "identity_validation"
  else (Change Active (Some observed) None true source, None).

Definition activate (id : string) (observed_principal_ref : option string) (source : string) (now : instant) (uuid : string)
    (seen seen' seen'' s : store) : result session * store :=
  match get id seen with
  | Raise e => (Raise e, s)
  | Ok (_, r) =>
      let '(c, refused) := activation r observed_principal_ref source seen' in
      match _set_state id c now uuid seen'' s, refused with
      | (Ok _, s'), Some message => (mismatch message, s')
      | x, _ => x
      end
  end.

(** ** Bindings of a token *)

(** [{str(k).strip(): ... for k, v in (principal_bindings or {}).items() if ...}]: later keys win. *)
Fixpoint requested_bindings (bindings : list (string * string)) (acc : list (string * string)) : result (list (string * string)) :=
  match bindings with
  | [] => Ok acc
  | (system, principal) :: rest =>
      if truthy (py_strip system) && truthy (py_strip principal) then
        p ← _validate_principal_ref (Some principal);
        requested_bindings rest (dict_set (py_strip system) p acc)
      else requested_bindings rest acc
  end.

Definition expected_of (found : option session) : string :=
  match found with Some (_, r) => stripped (expected_principal_ref r) | None => "" end.

(** The first loop: every system gets the principal that it is bound to, that is asked for, or the fallback. *)
Fixpoint resolve_bindings (user : string) (requested : list (string * string)) (fallback : option string) (seen : store)
    (systems : list string) : result (list (string * string)) :=
  match systems with
  | [] => Ok []
  | system :: rest =>
      let bound := expected_of (find user system seen) in
      let candidate := or_empty (assoc system requested) in
      raise_if (truthy bound && truthy candidate && negb (String.eqb bound candidate)) SessionPrincipalMismatch
        (system +:+ " is already bound to a different expected principal");;
      let principal := if truthy bound then bound else if truthy candidate then candidate else or_empty fallback in
      raise_if (negb (truthy principal)) ValueError
        ("expected downstream principal is required for new " +:+ system +:+ " binding");;
      resolved ← resolve_bindings user requested fallback seen rest;
      Ok ((system, principal) :: resolved)
  end.

(** The second loop; every round draws and reads anew. *)
Fixpoint create_bindings (resolve : string -> string -> string) (user : string) (seen : store)
    (draws : string -> create_draw) (resolved : list (string * string)) s : result unit * store :=
  match resolved with
  | [] => (Ok tt, s)
  | (system, principal) :: rest =>
      if truthy (expected_of (find user system seen)) then create_bindings resolve user seen draws rest s
      else
        match get_or_create resolve user system (Some principal) (draws system) s s s with
        | (Ok _, s') => create_bindings resolve user seen draws rest s'
        | (Raise e, s') => (Raise e, s')
        end
  end.

Definition ensure_principal_bindings (resolve : string -> string -> string) (user : string) (system_ids : list string)
    (bindings : list (string * string)) (fallback : option string) (draws : string -> create_draw) (seen : store) s
  : result (list (string * string)) * store :=
  let plan :=
    raise_if (negb (truthy user)) ValueError "user_subject is required";;
    let normalized := sorted_set (List.filter truthy (map py_strip system_ids)) in
    raise_if match normalized with [] => true | _ => false end ValueError
      "at least one system identity binding is required";;
    requested ← requested_bindings bindings [];
    raise_if match minus (keys requested) normalized with [] => false | _ => true end ValueError
      ("principal binding contains systems outside the token scopes: "
       +:+ py_join ", " (minus (keys requested) normalized));;
    fallback ← (if truthy (stripped fallback) then p ← _validate_principal_ref fallback; Ok (Some p) else Ok None);
    resolve_bindings user requested fallback seen normalized in
  match plan with
  | Raise e => (Raise e, s)
  | Ok resolved =>
      match create_bindings resolve user seen draws resolved s with
      | (Ok _, s') => (Ok resolved, s')
      | (Raise e, s') => (Raise e, s')
      end
  end.
End Registry.
