(* ===== verification/SessionFacts.v ===== *)
(** * Sessions: who is active as whom, what an activation does, and how a rebinding can be overtaken *)

From S2P Require Import Prelude PyStr Json Store InputValidation InputValidationFacts Sessions.

#[local] Open Scope list_scope.

Section Registry.
Context {tables : UnicodeTables}.
Implicit Types (s : store) (r : session_row) (c : change).

(** ** Sound registries *)

(** UNIQUE(user_subject, system_id) *)
Definition one_each s : Prop := forall id id' r r', sessions s !! id = Some r -> sessions s !! id' = Some r' ->
  user_subject r = user_subject r' -> system_id r = system_id r' -> id = id'.

Definition active_as r (p : string) : Prop := row_state r = Active /\ downstream_principal_ref r = Some p.

(** An active session is the expected principal. *)
Definition bound_row r : Prop := row_state r = Active ->
  exists p, downstream_principal_ref r = Some p /\ truthy p = true /\ stripped (expected_principal_ref r) = p.

(** A principal of a system is active for one session at most. *)
Definition exclusive s : Prop := forall id id' r r' p, sessions s !! id = Some r -> sessions s !! id' = Some r' ->
  system_id r = system_id r' -> active_as r p -> active_as r' p -> id = id'.

Record sound s : Prop := {
  sound_unique : one_each s;
  sound_bound : forall id r, sessions s !! id = Some r -> bound_row r;
  sound_exclusive : exclusive s;
}.

(** The update of one row that keeps whose session it is, and that may activate it only as the expected principal,
    which then no other session of the system is *)
Definition safe_update s (id : string) r r' : Prop :=
  user_subject r' = user_subject r /\ system_id r' = system_id r /\ bound_row r' /\
  forall p, active_as r' p -> active_as r p \/
    forall id' q, sessions s !! id' = Some q -> id' <> id -> system_id q = system_id r -> ~ active_as q p.

Lemma safe_idle s id r r' : user_subject r' = user_subject r -> system_id r' = system_id r -> row_state r' <> Active ->
  safe_update s id r r'.
Proof. intros Hu Hs Ha. split_and!; [done|done| |]; by intros ? *; try intros [? _]. Qed.

Lemma safe_same s id r r' : user_subject r' = user_subject r -> system_id r' = system_id r ->
  row_state r' = row_state r -> downstream_principal_ref r' = downstream_principal_ref r ->
  expected_principal_ref r' = expected_principal_ref r -> bound_row r -> safe_update s id r r'.
Proof.
  intros Hu Hs Ha Hd He Hb. unfold safe_update, bound_row, active_as in *. rewrite Ha, Hd, He.
  split_and!; [done|done|done|]. intros p Hp. by left.
Qed.

Lemma sound_update s id r r' : sound s -> sessions s !! id = Some r -> safe_update s id r r' ->
  sound (with_sessions (<[id := r']> (sessions s)) s).
Proof.
  intros [Hu Hb Hx] Hr (Hus & Hsy & Hbr & Hsafe).
  assert (forall i q, <[id := r']> (sessions s) !! i = Some q -> exists q0, sessions s !! i = Some q0 /\
    user_subject q0 = user_subject q /\ system_id q0 = system_id q) as Hback.
  { intros i q. destruct (base.decide (id = i)) as [<-|Hne].
    - rewrite lookup_insert_eq. intros [= <-]. by exists r.
    - rewrite lookup_insert_ne by done. intros Hq. by exists q. }
  split; unfold one_each, exclusive; cbn [sessions with_sessions].
  - intros i j qi qj Hi Hj H1 H2. apply Hback in Hi as (a & Ha & Ha1 & Ha2). apply Hback in Hj as (b & Hbj & Hb1 & Hb2).
    apply (Hu i j a b Ha Hbj); congruence.
  - intros i q. destruct (base.decide (id = i)) as [<-|Hne].
    + rewrite lookup_insert_eq. by intros [= <-].
    + rewrite lookup_insert_ne by done. apply Hb.
  - intros i j qi qj p Hi Hj Hsys Hpi Hpj.
    apply lookup_insert_Some in Hi as [[<- <-]|[Hni Hi]]; apply lookup_insert_Some in Hj as [[<- <-]|[Hnj Hj]].
    + done.
    + destruct (Hsafe p Hpi) as [Hold|Hno]; [apply (Hx id j r qj p Hr Hj); [congruence|done|done]|].
      exfalso. apply (Hno j qj Hj); [done|congruence|done].
    + destruct (Hsafe p Hpj) as [Hold|Hno]; [apply (Hx i id qi r p Hi Hr); [congruence|done|done]|].
      exfalso. apply (Hno i qi Hi); [done|congruence|done].
    + apply (Hx i j qi qj p Hi Hj Hsys Hpi Hpj).
Qed.

Lemma sound_sessions s s' : sessions s' = sessions s -> sound s -> sound s'.
Proof. intros He [Hu Hb Hx]. split; unfold one_each, exclusive in *; rewrite He; done. Qed.

(** ** The transactions *)

Lemma insert_event_sessions uuid e s x s' : _insert_event uuid e s = Ok (x, s') -> sessions s' = sessions s.
Proof. unfold _insert_event. intros H. by apply result_bind_Ok in H as (t & _ & [= _ <-]). Qed.

Lemma ss_then_get_state {A} id (x : result A * store) : snd (then_get id x) = snd x.
Proof. by destruct x as [[a|e] s]. Qed.

(** A change of state that is run alone *)
Lemma set_state_cases id c now uuid seen s : sessions (snd (_set_state id c now uuid seen s)) = sessions s \/
  exists before r, sessions seen !! id = Some before /\ sessions s !! id = Some r /\
    sessions (snd (_set_state id c now uuid seen s))
      = <[id := changed_row (negb (bool_decide (row_state before = to_state c))) c now r]> (sessions s).
Proof.
  unfold _set_state. rewrite ss_then_get_state. unfold transaction.
  destruct (set_state_body id c now uuid seen s) as [[[] s']|e] eqn:E; [right|by left].
  unfold set_state_body in E. destruct (sessions seen !! id) as [before|] eqn:Hb; [|discriminate].
  destruct (sessions s !! id) as [r|] eqn:Hr; [|discriminate]. exists before, r. split_and!; [done|done|]. cbn [snd].
  destruct (negb _); [by apply insert_event_sessions in E|by injection E as <-].
Qed.

Lemma set_state_sound id c now uuid seen s : sound s ->
  (forall r moved, sessions s !! id = Some r -> safe_update s id r (changed_row moved c now r)) ->
  sound (snd (_set_state id c now uuid seen s)).
Proof.
  intros Hs Hsafe. destruct (set_state_cases id c now uuid seen s) as [He|(before & r & _ & Hr & He)].
  - by apply (sound_sessions s).
  - apply (sound_sessions (with_sessions (<[id := changed_row (negb (bool_decide (row_state before = to_state c))) c now r]>
      (sessions s)) s)); [done|]. apply (sound_update s id r); [done|done|by apply Hsafe].
Qed.

Lemma set_idle_sound id c now uuid seen s : sound s -> to_state c <> Active -> sound (snd (_set_state id c now uuid seen s)).
Proof. intros Hs Hc. apply set_state_sound; [done|]. intros r moved _. by apply safe_idle. Qed.

Lemma conflicting_spec user system p r : conflicting user system p r = true <->
  system_id r = system /\ user_subject r <> user /\ active_as r p.
Proof.
  unfold conflicting, active_as. rewrite !andb_true_iff, negb_true_iff, bool_decide_eq_true, String.eqb_eq, String.eqb_neq.
  destruct (downstream_principal_ref r) as [q|]; [rewrite String.eqb_eq|]; naive_solver.
Qed.

(** What [activate] decides about a row that is the current one *)
Lemma activation_safe s id r o source now moved : sound s -> sessions s !! id = Some r ->
  safe_update s id r (changed_row moved (fst (activation r o source s)) now r).
Proof.
  intros [Hu Hb Hx] Hr. unfold activation.
  destruct (negb (truthy _)) eqn:He; [by apply safe_idle|]. destruct (negb (truthy (stripped o))); [by apply safe_idle|].
  destruct (negb (String.eqb _ _)) eqn:Heq; [by apply safe_idle|]. destruct (exists_where _ _) eqn:Hc; [by apply safe_idle|].
  apply negb_false_iff in He. apply negb_false_iff, String.eqb_eq in Heq. cbn [fst].
  split_and!; [done|done| |].
  - intros _. exists (stripped o). cbn. rewrite <- Heq. done.
  - intros p [_ [= <-]]. right. intros i q Hq Hne Hsys Hact.
    apply (exists_where_false _ _) with (k := i) (r := q) in Hc; [|done]. apply not_true_iff_false in Hc. apply Hc.
    apply conflicting_spec. split_and!; [done| |done]. intros Hus. apply Hne. by apply (Hu i id q r).
Qed.

(** ** Calls, each of them alone *)

Lemma activate_sound id o source now uuid s : sound s -> sound (snd (activate id o source now uuid s s s s)).
Proof.
  intros Hs. unfold activate. destruct (get id s) as [[i r]|e] eqn:Hg; [|done].
  unfold get in Hg. destruct (sessions s !! id) as [q|] eqn:Hr; [|discriminate]. injection Hg as <- ->.
  destruct (activation r o source s) as [c refused] eqn:Ha.
  assert (sound (snd (_set_state id c now uuid s s))) as Hsound.
  { apply set_state_sound; [done|]. intros r0 moved Hr0. assert (r0 = r) as -> by congruence.
    change c with (fst (c, refused)). rewrite <- Ha. by apply activation_safe. }
  destruct (_set_state id c now uuid s s) as [[x|e] s']; [destruct refused|]; exact Hsound.
Qed.

Lemma touch_sound (f : session_row -> session_row) message id s :
  (forall r, sessions s !! id = Some r -> safe_update s id r (f r)) -> sound s ->
  sound (snd (transaction (touch_body f message id) s)).
Proof.
  intros Hf Hs. unfold transaction, touch_body, update_key. destruct (sessions s !! id) as [r|] eqn:Hr; [|done].
  destruct (bool_decide _); [|done]. apply (sound_update s id r); [done|done|by apply Hf].
Qed.

Lemma sound_map s (f : session_row -> session_row) : sound s -> (forall id r, sessions s !! id = Some r ->
    user_subject (f r) = user_subject r /\ system_id (f r) = system_id r /\ row_state (f r) = row_state r /\
    downstream_principal_ref (f r) = downstream_principal_ref r /\ expected_principal_ref (f r) = expected_principal_ref r) ->
  sound (with_sessions (f <$> sessions s) s).
Proof.
  intros [Hu Hb Hx] Hf. split; unfold one_each, exclusive; cbn [sessions with_sessions].
  - intros i j qi qj Hi Hj. apply lookup_fmap_Some in Hi as (a & <- & Hi). apply lookup_fmap_Some in Hj as (b & <- & Hj).
    destruct (Hf i a Hi) as (-> & -> & _). destruct (Hf j b Hj) as (-> & -> & _). by apply Hu.
  - intros i q Hi. apply lookup_fmap_Some in Hi as (a & <- & Hi). destruct (Hf i a Hi) as (_ & _ & Ha & Hd & He).
    specialize (Hb i a Hi). unfold bound_row in *. by rewrite Ha, Hd, He.
  - intros i j qi qj p Hi Hj. apply lookup_fmap_Some in Hi as (a & <- & Hi). apply lookup_fmap_Some in Hj as (b & <- & Hj).
    destruct (Hf i a Hi) as (_ & -> & Ha & Hd & _). destruct (Hf j b Hj) as (_ & -> & Ha' & Hd' & _).
    unfold active_as. rewrite Ha, Hd, Ha', Hd'. by apply Hx.
Qed.

Lemma insert_session_sound user system expected path d s x s' : sound s ->
  insert_session user system expected path d s = Ok (x, s') -> sound s'.
Proof.
  intros [Hu Hb Hx] Hi. unfold insert_session in Hi. apply result_bind_Ok in Hi as (t & [Hfree [Hno ->]]%insert_row_Ok & Hi).
  apply insert_event_sessions in Hi. cbn in Hi. set (row := new_row user system expected path (d_now d)) in Hi.
  assert (forall i q, sessions s !! i = Some q -> user_subject q = user -> system_id q <> system) as Hother.
  { intros i q Hq <- <-. apply (exists_where_false _ _) with (k := i) (r := q) in Hno; [|done]. unfold of_user in Hno.
    by rewrite !String.eqb_refl in Hno. }
  split; unfold one_each, exclusive; rewrite Hi.
  - intros i j qi qj Hqi Hqj H1 H2.
    apply lookup_insert_Some in Hqi as [[<- <-]|[Hni Hqi]]; apply lookup_insert_Some in Hqj as [[<- <-]|[Hnj Hqj]]; [done| | |].
    + by destruct (Hother j qj Hqj).
    + by destruct (Hother i qi Hqi).
    + by apply (Hu i j qi qj).
  - intros i q Hq. apply lookup_insert_Some in Hq as [[<- <-]|[_ Hq]]; [done|by apply (Hb i)].
  - intros i j qi qj p Hqi Hqj Hsys Hpi Hpj.
    apply lookup_insert_Some in Hqi as [[<- <-]|[_ Hqi]]; [by destruct Hpi|].
    apply lookup_insert_Some in Hqj as [[<- <-]|[_ Hqj]]; [by destruct Hpj|]. by apply (Hx i j qi qj p).
Qed.

Lemma update_expected_sound id r expected now s : sound s -> sessions s !! id = Some r ->
  truthy (stripped (expected_principal_ref r)) = false -> sound (snd (_update_expected id expected now s)).
Proof.
  intros Hs Hr He. unfold _update_expected. rewrite ss_then_get_state. cbn [snd]. unfold update_key. rewrite Hr. cbn [fst].
  assert (row_state r <> Active) as Hidle.
  { intros Ha. destruct (sound_bound s Hs id r Hr Ha) as (p & _ & Ht & Hp). congruence. }
  apply (sound_update s id r); [done|done|]. by apply safe_idle.
Qed.

Lemma get_or_create_sound resolve user system expected d s : sound s ->
  sound (snd (get_or_create resolve user system expected d s s s)).
Proof.
  intros Hs. unfold get_or_create. destruct (_ || _); [done|]. destruct (find user system s) as [[id r]|] eqn:Hf.
  - apply select_one_Some in Hf as [Hr _].
    destruct (truthy (stripped (expected_principal_ref r))) eqn:Hb; cbn [andb negb]; rewrite ?andb_false_r.
    + destruct (truthy (stripped expected) && _); [|done].
      pose proof (set_idle_sound id (Change Quarantined None (Some bound_message) false "identity_validation") (d_now d)
        (d_event_id d) s s Hs) as Hq. unfold quarantine.
      destruct (_set_state _ _ _ _ _ _) as [[x|e] s']; by apply Hq.
    + rewrite andb_true_r. destruct (truthy (stripped expected)); [|done]. by apply (update_expected_sound id r).
  - destruct (insert_session _ _ _ _ _ s) as [[[] s']|e] eqn:Hi; [by apply insert_session_sound in Hi|].
    by destruct (bool_decide _).
Qed.

Lemma create_bindings_sound resolve user seen draws resolved s : sound s ->
  sound (snd (create_bindings resolve user seen draws resolved s)).
Proof.
  revert s. induction resolved as [|[system p] rest IH]; intros s Hs; cbn [create_bindings]; [done|].
  destruct (truthy _); [by apply IH|]. pose proof (get_or_create_sound resolve user system (Some p) (draws system) s Hs) as Hg.
  destruct (get_or_create _ _ _ _ _ _ _ _) as [[x|e] s']; [by apply IH|done].
Qed.

(** One call of a method, which no other call overtakes *)
Inductive call s : store -> Prop :=
  | creates resolve user system expected d : call s (snd (get_or_create resolve user system expected d s s s))
  | ensures resolve user systems bindings fallback draws :
      call s (snd (ensure_principal_bindings resolve user systems bindings fallback draws s s))
  | rebinds id expected reason now uuid : call s (snd (rebind_expected_principal id expected reason now uuid s s))
  | activates id observed source now uuid : call s (snd (activate id observed source now uuid s s s s))
  | awaits id source now uuid : call s (snd (mark_awaiting_login id source now uuid s s))
  | expires id message source now uuid : call s (snd (mark_expired id message source now uuid s s))
  | quarantines id message source now uuid : call s (snd (quarantine id message source now uuid s s))
  | touches id now : call s (snd (touch_activity id now s))
  | keeps id now : call s (snd (record_keepalive id now s))
  | records id event source reason now uuid : call s (snd (record_event id event source reason now uuid s s))
  | maintains : call s (run_startup_maintenance s).

Lemma call_sound s s' : sound s -> call s s' -> sound s'.
Proof.
  intros Hs Hc. destruct Hc.
  - by apply get_or_create_sound.
  - unfold ensure_principal_bindings. match goal with |- context [match ?plan with Ok _ => _ | Raise _ => _ end] =>
      destruct plan as [resolved|e] end; [|done].
    pose proof (create_bindings_sound resolve user s draws resolved s Hs) as Hb.
    by destruct (create_bindings _ _ _ _ _ _) as [[x|e] s'].
  - unfold rebind_expected_principal. destruct (_validate_principal_ref expected) as [p|e]; [|done].
    destruct (negb _); [done|]. rewrite ss_then_get_state. unfold transaction.
    destruct (rebind_body _ _ _ _ _ _ _) as [[[] s']|e] eqn:E; [|done]. unfold rebind_body in E.
    destruct (sessions s !! id) as [r|] eqn:Hr; [|discriminate]. apply insert_event_sessions in E. cbn [snd].
    apply (sound_sessions _ _ E). apply (sound_update s id r); [done|done|]. by apply safe_idle.
  - by apply activate_sound.
  - by apply set_idle_sound.
  - by apply set_idle_sound.
  - by apply set_idle_sound.
  - unfold touch_activity. rewrite ss_then_get_state. apply touch_sound; [|done]. intros r Hr.
    apply safe_same; try done. by apply (sound_bound s Hs id).
  - unfold record_keepalive. rewrite ss_then_get_state. apply touch_sound; [|done]. intros r Hr.
    apply safe_same; try done. by apply (sound_bound s Hs id).
  - unfold record_event. destruct (get id s) as [[i r]|e]; [|done]. unfold transaction.
    destruct (_insert_event _ _ _) as [[[] s']|e] eqn:E; [|done]. apply insert_event_sessions in E.
    by apply (sound_sessions s).
  - by apply sound_map.
Qed.

Lemma calls_sound s s' : rtc call s s' -> sound s -> sound s'.
Proof. induction 1 as [s|s s1 s2 Hstep _ IH]; intros Hs; [done|]. by apply IH, (call_sound s). Qed.

Lemma empty_sound : sound (MkStore ∅ ∅).
Proof. split; unfold one_each, exclusive; cbn; intros *; rewrite lookup_empty; discriminate. Qed.

(** C32. The registry keeps its promise.  After any calls that do not overtake one another, on a registry that starts
    empty, a user has one session per system at most; whatever session is active belongs to the principal that it is
    expected to, and no two sessions of a system are active as the same principal. *)
Theorem sessions_invariant s : rtc call (MkStore ∅ ∅) s ->
  one_each s /\ (forall id r, sessions s !! id = Some r -> row_state r = Active ->
    exists p, truthy p = true /\ stripped (expected_principal_ref r) = p /\ downstream_principal_ref r = Some p) /\
  (forall id id' r r' p, sessions s !! id = Some r -> sessions s !! id' = Some r' -> system_id r = system_id r' ->
    active_as r p -> active_as r' p -> id = id').
Proof.
  intros Hss. destruct (calls_sound _ _ Hss empty_sound) as [Hu Hb Hx].
  split_and!; [done| |done]. intros id r Hr Ha. destruct (Hb id r Hr Ha) as (p & Hd & Ht & He). by exists p.
Qed.

(** ** Activation *)

Lemma set_state_done id c now uuid seen s before r :
  sessions seen !! id = Some before -> sessions s !! id = Some r -> session_events s !! uuid = None ->
  exists s', let r' := changed_row (negb (bool_decide (row_state before = to_state c))) c now r in
    _set_state id c now uuid seen s = (Ok (id, r'), s') /\ sessions s' = <[id := r']> (sessions s).
Proof.
  intros Hb Hr Hev. cbn zeta. set (moved := negb _). set (r' := changed_row moved c now r).
  assert (exists s', set_state_body id c now uuid seen s = Ok (tt, s') /\ sessions s' = <[id := r']> (sessions s)) as (s' & Hs & He).
  { unfold set_state_body. rewrite Hb, Hr. fold moved. fold r'. destruct moved; [|by eexists].
    unfold _insert_event. cbn [sessions session_events with_sessions].
    match goal with |- context [insert_row uuid _ ?e _] => assert (insert_row uuid (fun _ => false) e (session_events s)
      = Ok (<[uuid := e]> (session_events s))) as -> end; [|by eexists].
    apply insert_row_Ok. split_and!; [done| |done]. by apply exists_where_false. }
  exists s'. split; [|done]. unfold _set_state, transaction. rewrite Hs. cbn [then_get]. unfold get. by rewrite He, lookup_insert_eq.
Qed.

Lemma no_conflict user system p s : exists_where (conflicting user system p) (sessions s) = false <->
  forall id q, sessions s !! id = Some q -> user_subject q <> user -> system_id q = system -> ~ active_as q p.
Proof.
  rewrite exists_where_false. split.
  - intros Hc id q Hq Hu Hs Ha. specialize (Hc id q Hq). apply not_true_iff_false in Hc. apply Hc.
    by apply conflicting_spec.
  - intros Hc id q Hq. apply not_true_iff_false. intros (Hs & Hu & Ha)%conflicting_spec. by apply (Hc id q).
Qed.

(** What it takes for a session to be activated as [p] *)
Definition may_activate s r (p : string) : Prop :=
  truthy p = true /\ stripped (expected_principal_ref r) = p /\
  forall id q, sessions s !! id = Some q -> user_subject q <> user_subject r -> system_id q = system_id r -> ~ active_as q p.

Lemma activation_spec s r o source :
  (may_activate s r (stripped o) /\ activation r o source s = (Change Active (Some (stripped o)) None true source, None)) \/
  (~ may_activate s r (stripped o) /\ exists observed message source',
     activation r o source s = (quarantine_change observed message source', Some message)).
Proof.
  unfold activation, may_activate. destruct (truthy (stripped (expected_principal_ref r))) eqn:Ht; cbn [negb].
  2:{ right. split; [intros (Hp & He & _); congruence|by do 3 eexists]. }
  destruct (truthy (stripped o)) eqn:Ho; cbn [negb].
  2:{ right. split; [by intros [? _]|by do 3 eexists]. }
  destruct (String.eqb_spec (stripped (expected_principal_ref r)) (stripped o)) as [He|He]; cbn [negb].
  2:{ right. split; [by intros (_ & ? & _)|by do 3 eexists]. }
  destruct (exists_where _ (sessions s)) eqn:Hc.
  - right. split; [|by do 3 eexists]. intros (_ & _ & Hno). apply no_conflict in Hno. congruence.
  - left. split; [|done]. split_and!; [done|done|by apply no_conflict].
Qed.

(** Activation does all that it says.  A session that is there is activated as the observed principal if and only
    if the principal is not blank, is the expected one, and is not active for another user of the system; otherwise
    the call raises SessionPrincipalMismatch and leaves the session quarantined with the same message.  Either way the
    expected principal stays and no other session changes. *)
Theorem activate_exact id observed source now uuid s r :
  sessions s !! id = Some r -> session_events s !! uuid = None ->
  exists x s' r', activate id observed source now uuid s s s s = (x, s') /\
    sessions s' = <[id := r']> (sessions s) /\ expected_principal_ref r' = expected_principal_ref r /\
    ((may_activate s r (stripped observed) /\ x = Ok (id, r') /\ active_as r' (stripped observed) /\ Sessions.last_error r' = None) \/
     (~ may_activate s r (stripped observed) /\ exists message, x = Raise (Exn SessionPrincipalMismatch message) /\
        row_state r' = Quarantined /\ Sessions.last_error r' = Some message)).
Proof.
  intros Hr Hev. unfold activate, get. rewrite Hr.
  destruct (activation_spec s r observed source) as [[Hmay ->]|(Hnot & o & message & source' & ->)].
  - destruct (set_state_done id (Change Active (Some (stripped observed)) None true source) now uuid s s r r Hr Hr Hev)
      as (s' & -> & He). do 3 eexists. split_and!; [done|exact He|done|]. left. by split_and!.
  - destruct (set_state_done id (quarantine_change o message source') now uuid s s r r Hr Hr Hev) as (s' & -> & He).
    do 3 eexists. split_and!; [done|exact He|done|]. right. split; [done|]. by exists message.
Qed.

(** C33. A rebinding can be overtaken.  [activate] reads the expected principal in one transaction and writes in another.
    When an administrator rebinds the session to another principal in between, the activation as the former principal
    still succeeds: the session ends active as a principal that is not the expected one. *)
Theorem rebind_overtaken id q reason now uuid source now' uuid' s r x s1 :
  sessions s !! id = Some r -> may_activate s r (stripped (expected_principal_ref r)) ->
  rebind_expected_principal id (Some q) reason now uuid s s = (Ok x, s1) -> session_events s1 !! uuid' = None ->
  exists s2 r2, activate id (expected_principal_ref r) source now' uuid' s s s1 s1 = (Ok (id, r2), s2) /\
    sessions s2 !! id = Some r2 /\ active_as r2 (stripped (expected_principal_ref r)) /\
    expected_principal_ref r2 = Some (py_strip q).
Proof.
  intros Hr Hmay Hreb Hev. unfold rebind_expected_principal in Hreb.
  destruct (_validate_principal_ref (Some q)) as [q'|e] eqn:Hq; [|discriminate].
  assert (q' = py_strip q) as ->.
  { unfold _validate_principal_ref in Hq. rewrite result_raise_if_bind in Hq. destruct Hq as [_ [= <-]].
    unfold or_empty. destruct (truthy q) eqn:E; [done|]. unfold truthy in E. by destruct q. }
  destruct (negb _) in Hreb; [discriminate|].
  assert (exists r1, sessions s1 !! id = Some r1 /\ expected_principal_ref r1 = Some (py_strip q)) as (r1 & Hr1 & He1).
  { apply (f_equal snd) in Hreb as Hs1. rewrite ss_then_get_state in Hs1. cbn [snd] in Hs1. unfold transaction in Hs1, Hreb.
    destruct (rebind_body _ _ _ _ _ _ _) as [[[] s']|e] eqn:E; [|discriminate]. cbn in Hs1. subst s'. unfold rebind_body in E.
    rewrite Hr in E. apply insert_event_sessions in E. eexists. rewrite E. cbn [sessions with_sessions].
    rewrite lookup_insert_eq. by split. }
  unfold activate, get. rewrite Hr.
  destruct (activation_spec s r (expected_principal_ref r) source) as [[_ ->]|[Hnot _]]; [|by destruct Hnot].
  destruct (set_state_done id (Change Active (Some (stripped (expected_principal_ref r))) None true source) now' uuid' s1 s1 r1 r1
    Hr1 Hr1 Hev) as (s2 & -> & Hs2).
  do 2 eexists. split_and!; [done|by rewrite Hs2, lookup_insert_eq|done|done].
Qed.
End Registry.

(** ** Concrete inputs

    The properties of sessions, applied to one user's session with one system. *)

#[local] Open Scope list_scope.
#[local] Open Scope Z_scope.
#[local] Existing Instance ascii_tables.

Module SessionDemo.

Definition resolved (system key : string) : string := "/profiles/" +:+ system +:+ "/" +:+ key.

Definition nothing : store := MkStore ∅ ∅.
Definition created : store :=
  snd (get_or_create resolved "u1" "oa" (Some "alice ") (CreateDraw 0 "s1" "e1") nothing nothing nothing).
Definition activated : store := snd (activate "s1" (Some "alice") "authentication" 10 "e2" created created created created).

Lemma calls_activated : rtc call nothing activated.
Proof.
  apply (rtc_l _ _ created); [apply creates|]. apply rtc_once. apply activates.
Qed.

Lemma sessions_invariant_witness : exists r, sessions activated !! "s1" = Some r /\ row_state r = Active /\
  exists p, truthy p = true /\ stripped (expected_principal_ref r) = p /\ downstream_principal_ref r = Some p.
Proof.
  destruct (sessions_invariant activated calls_activated) as (_ & Hbound & _).
  destruct (sessions activated !! "s1") as [r|] eqn:Hr; [|vm_compute in Hr; discriminate Hr].
  assert (Ha : row_state r = Active) by (vm_compute in Hr; injection Hr as <-; reflexivity).
  exists r. split; [reflexivity|]. split; [exact Ha|]. exact (Hbound "s1" r Hr Ha).
Defined.

(** Somebody else than the expected principal logs in. *)
Lemma activate_exact_witness : exists m s' r', 
  activate "s1" (Some "mallory") "authentication" 10 "e2" created created created created
    = (Raise (Exn SessionPrincipalMismatch m), s') /\ sessions s' = <["s1" := r']> (sessions created) /\
  row_state r' = Quarantined.
Proof.
  destruct (sessions created !! "s1") as [r|] eqn:Hr; [|vm_compute in Hr; discriminate Hr].
  destruct (activate_exact "s1" (Some "mallory") "authentication" 10 "e2" created r Hr) as (x & s' & r' & Hx & Hs & _ & Hcases).
  - vm_compute. reflexivity.
  - vm_compute in Hr. injection Hr as <-. destruct Hcases as [[(_ & He & _) _]|(_ & m & -> & Hq & _)].
    + vm_compute in He. discriminate He.
    + exists m, s', r'. split; [exact Hx|]. split; [exact Hs|exact Hq].
Defined.

(** The session is bound anew between the two transactions of an activation. *)
Lemma rebind_overtaken_witness : exists x s1 s2 r2,
  rebind_expected_principal "s1" (Some "bob") (Some "leaves") 20 "e3" created created = (Ok x, s1) /\
  activate "s1" (Some "alice ") "authentication" 30 "e4" created created s1 s1 = (Ok ("s1", r2), s2) /\
  active_as r2 "alice" /\ expected_principal_ref r2 = Some "bob".
Proof.
  destruct (rebind_expected_principal "s1" (Some "bob") (Some "leaves") 20 "e3" created created) as [[x|e] s1] eqn:E;
    [|vm_compute in E; discriminate E].
  destruct (sessions created !! "s1") as [r|] eqn:Hr; [|vm_compute in Hr; discriminate Hr].
  destruct (rebind_overtaken "s1" "bob" (Some "leaves") 20 "e3" "authentication" 30 "e4" created r x s1 Hr)
    as (s2 & r2 & Ha & _ & Hact & He).
  - vm_compute in Hr. injection Hr as <-. split; [reflexivity|]. split; [reflexivity|].
    intros i q Hq Hne. exfalso. apply Hne. destruct (base.decide (i = "s1")) as [->|Hi].
    + vm_compute in Hq. injection Hq as <-. reflexivity.
    + replace (sessions created) with (<["s1" := new_row "u1" "oa" (Some "alice ") (_profile_path resolved "u1" "oa") 0]> ∅
        : gmap string session_row) in Hq by (vm_compute; reflexivity).
      rewrite lookup_insert_ne in Hq by congruence. rewrite lookup_empty in Hq. discriminate Hq.
  - exact E.
  - apply (f_equal snd) in E. cbn [snd] in E. rewrite <- E. vm_compute. reflexivity.
  - exists x, s1, s2, r2. split; [reflexivity|].
    assert (Hexp : expected_principal_ref r = Some "alice ") by (vm_compute in Hr; injection Hr as <-; reflexivity).
    rewrite Hexp in Ha, Hact. split; [exact Ha|]. split; [exact Hact|exact He].
Defined.
End SessionDemo.
