(* ===== verification/TaskTables.v ===== *)
(** * The tables of the task hub and what its methods share (agentbridge/core/tasks.py)

    The hub keeps, for every user, the tasks that an agent works on, what has become of them, and what is still to be
    told to which endpoint.  The rows of the tables whose order matters (the events, the deliveries and the timeline) are
    lists in the order of their rowid; the others are maps from their key.  JSON columns hold the values that they
    encode.  States are the strings of the code, as in [TaskStateRules]. *)

From Stdlib Require Import Ascii.
From S2P Require Import Prelude PyStr Json Store InputValidation TaskStateRules.

#[local] Open Scope list_scope.

(** ** Rows *)

Definition payload : Type := list (string * json).

Record endpoint_row : Type := EndpointRow {
  e_user_subject : string;
  e_token_id : string;
  e_agent_host : string;
  e_endpoint_key : string;
  e_client_type : string;
  e_external_subject : string;
  e_account_id : option string;
  e_conversation_ref : string;
  e_label : option string;
  e_capabilities : list string;
  e_route : payload;
  e_state : string;
  e_created_at : instant;
  e_updated_at : instant;
  e_last_seen_at : instant;
}.

Record task_row : Type := TaskRow {
  t_user_subject : string;
  t_agent_host : string;
  t_host_task_key : string;
  t_origin_endpoint_id : string;
  t_title : string;
  t_status : string;
  t_summary : payload;
  t_current_operation_id : option string;
  t_current_interaction_id : option string;
  t_active_conversation_ref : string;
  t_version : Z;
  t_created_at : instant;
  t_updated_at : instant;
  t_finished_at : option instant;
}.

Record event_row : Type := EventRow {
  v_task_id : string;
  v_user_subject : string;
  v_event_type : string;
  v_payload : payload;
  v_causation_ref : option string;
  v_created_at : instant;
}.

(** [task_operations], by the operation *)
Record operation_link : Type := OperationLink { l_task_id : string; l_user_subject : string; l_linked_at : instant }.

(** [task_interactions], by the interaction *)
Record interaction_link : Type := InteractionLink {
  i_task_id : string;
  i_user_subject : string;
  i_linked_at : instant;
  i_last_state : option string;
  i_last_observed_at : option instant;
}.

Record artifact_row : Type := ArtifactRow {
  a_task_id : string;
  a_user_subject : string;
  a_artifact_type : string;
  a_source_ref : string;
  a_filename : string;
  a_content_type : string;
  a_byte_size : Z;
  a_download_url : string;
  a_state : string;
  a_created_at : instant;
  a_updated_at : instant;
  a_expires_at : instant;
}.

Record subscription_row : Type := SubscriptionRow {
  s_task_id : string;
  s_endpoint_id : string;
  s_user_subject : string;
  s_event_filters : list string;
  s_state : string;
  s_created_at : instant;
  s_updated_at : instant;
}.

Record delivery_row : Type := DeliveryRow {
  o_event_id : string;
  o_task_id : string;
  o_endpoint_id : string;
  o_user_subject : string;
  o_payload_type : string;
  o_payload : payload;
  o_state : string;
  o_attempt_count : Z;
  o_next_attempt_at : instant;
  o_created_at : instant;
  o_updated_at : instant;
  o_acknowledged_at : option instant;
}.

Record timeline_row : Type := TimelineRow {
  m_sequence : Z;
  m_user_subject : string;
  m_entry_type : string;
  m_dedupe_key : string;
  m_source_endpoint_id : option string;
  m_task_id : option string;
  m_role : option string;
  m_text : option string;
  m_payload : payload;
  m_created_at : instant;
}.

Record continuation_row : Type := ContinuationRow {
  c_user_subject : string;
  c_agent_host : string;
  c_selected_task_id : option string;
  c_candidate_task_ids : list string;
  c_state : string;
  c_execution_mode : string;
  c_reason : option string;
  c_expires_at : instant;
  c_version : Z;
  c_created_at : instant;
  c_updated_at : instant;
}.

Record batch_row : Type := BatchRow {
  b_parent_task_id : string;
  b_user_subject : string;
  b_system_id : string;
  b_capability_name : string;
  b_selection_summary : payload;
  b_source_snapshot_hash : string;
  b_failure_policy : string;
  b_state : string;
  b_current_ordinal : Z;
  b_total_count : Z;
  b_succeeded_count : Z;
  b_failed_count : Z;
  b_skipped_count : Z;
  b_version : Z;
  b_created_at : instant;
  b_updated_at : instant;
  b_finished_at : option instant;
}.

Record item_row : Type := ItemRow {
  x_batch_id : string;
  x_ordinal : Z;
  x_resource_ref : string;
  x_resource_ref_hash : string;
  x_display_summary : payload;
  x_source_fingerprint : string;
  x_state : string;
  x_operation_id : option string;
  x_interaction_id : option string;
  x_result_summary : payload;
  x_error_code : option string;
  x_created_at : instant;
  x_updated_at : instant;
  x_finished_at : option instant;
}.

Record hub : Type := Hub {
  endpoints : gmap string endpoint_row;
  tasks : gmap string task_row;
  events : list (string * event_row);
  operation_links : gmap string operation_link;
  interaction_links : gmap string interaction_link;
  artifacts : gmap string artifact_row;
  subscriptions : gmap string subscription_row;
  outbox : list (string * delivery_row);
  timeline : list (string * timeline_row);
  continuations : gmap string continuation_row;
  batches : gmap string batch_row;
  items : gmap string item_row;
}.

Definition with_endpoints t s : hub :=
  Hub t (tasks s) (events s) (operation_links s) (interaction_links s) (artifacts s) (subscriptions s) (outbox s)
    (timeline s) (continuations s) (batches s) (items s).
Definition with_tasks t s : hub :=
  Hub (endpoints s) t (events s) (operation_links s) (interaction_links s) (artifacts s) (subscriptions s) (outbox s)
    (timeline s) (continuations s) (batches s) (items s).
Definition with_operation_links t s : hub :=
  Hub (endpoints s) (tasks s) (events s) t (interaction_links s) (artifacts s) (subscriptions s) (outbox s)
    (timeline s) (continuations s) (batches s) (items s).
Definition with_interaction_links t s : hub :=
  Hub (endpoints s) (tasks s) (events s) (operation_links s) t (artifacts s) (subscriptions s) (outbox s)
    (timeline s) (continuations s) (batches s) (items s).
Definition with_artifacts t s : hub :=
  Hub (endpoints s) (tasks s) (events s) (operation_links s) (interaction_links s) t (subscriptions s) (outbox s)
    (timeline s) (continuations s) (batches s) (items s).
Definition with_subscriptions t s : hub :=
  Hub (endpoints s) (tasks s) (events s) (operation_links s) (interaction_links s) (artifacts s) t (outbox s)
    (timeline s) (continuations s) (batches s) (items s).
Definition with_outbox t s : hub :=
  Hub (endpoints s) (tasks s) (events s) (operation_links s) (interaction_links s) (artifacts s) (subscriptions s) t
    (timeline s) (continuations s) (batches s) (items s).
Definition with_continuations t s : hub :=
  Hub (endpoints s) (tasks s) (events s) (operation_links s) (interaction_links s) (artifacts s) (subscriptions s)
    (outbox s) (timeline s) t (batches s) (items s).
Definition with_batches t s : hub :=
  Hub (endpoints s) (tasks s) (events s) (operation_links s) (interaction_links s) (artifacts s) (subscriptions s)
    (outbox s) (timeline s) (continuations s) t (items s).
Definition with_items t s : hub :=
  Hub (endpoints s) (tasks s) (events s) (operation_links s) (interaction_links s) (artifacts s) (subscriptions s)
    (outbox s) (timeline s) (continuations s) (batches s) t.

(** What an event is: its row, its entry in the timeline and its deliveries *)
Definition with_told evs entries deliveries s : hub :=
  Hub (endpoints s) (tasks s) evs (operation_links s) (interaction_links s) (artifacts s) (subscriptions s) deliveries
    entries (continuations s) (batches s) (items s).

(** ** Tables in the order of their rowid *)

Section Lists.
Context {R : Type}.
Implicit Types (l : list (string * R)) (p : R -> bool) (f : R -> R).

Definition rows_where p l : list (string * R) := List.filter (fun kr => p (snd kr)) l.

Definition row_by_key (k : string) l : option R := assoc k l.

(** [UPDATE .. WHERE p] *)
Definition update_rows p f l : list (string * R) :=
  map (fun kr => if p (snd kr) then (fst kr, f (snd kr)) else kr) l.

Definition update_row (k : string) p f l : list (string * R) :=
  map (fun kr => if String.eqb (fst kr) k && p (snd kr) then (fst kr, f (snd kr)) else kr) l.

Definition taken (k : string) (clash : R -> bool) l : bool :=
  existsb (fun kr => String.eqb (fst kr) k || clash (snd kr)) l.

(** [INSERT] and [INSERT OR IGNORE] *)
Definition append_row (k : string) (clash : R -> bool) (r : R) l : result (list (string * R)) :=
  if taken k clash l then raise SqliteIntegrityError "UNIQUE constraint failed" else Ok (l ++ [(k, r)]).

Definition append_or_ignore (k : string) (clash : R -> bool) (r : R) l : list (string * R) :=
  if taken k clash l then l else l ++ [(k, r)].
End Lists.

Section Helpers.
Context `{UnicodeTables}.
Implicit Types (s : hub).

(** ** Checks of arguments *)

Definition has_control (text : string) : bool := existsb (fun c => N.ltb (codepoint c) 32) (chars text).

(** [str(value or '').strip()] *)
Definition text_of (value : json) : string := py_strip (if json_truthy value then py_str value else "").

Definition _required_text (value : json) (name : string) (maximum : Z) : result string :=
  let normalized := text_of value in
  raise_if (negb (truthy normalized) || (maximum <? py_len normalized)%Z || has_control normalized) ValueError
    (name +:+ " is invalid");;
  Ok normalized.

Definition _optional_text (value : option string) (name : string) (maximum : Z) : result (option string) :=
  match value with
  | None => Ok None
  | Some text =>
      if truthy (py_strip text) then normalized ← _required_text (JStr (py_strip text)) name maximum; Ok (Some normalized)
      else Ok None
  end.

(** [_safe_object], of a value that is a dict or None *)
Definition _safe_object (value : option payload) : payload := match value with Some kvs => kvs | None => [] end.

(** [d.get(key)] *)
Definition field (kvs : payload) (key : string) : json := dict_get kvs key JNull.

Definition same_text (value : json) (text : string) : bool := match value with JStr t => String.eqb t text | _ => false end.

Definition opt_text (o : option string) : json := match o with Some t => JStr t | None => JNull end.

(** ** Reading *)

Definition not_found {A} (message : string) : result A := raise TaskNotFound message.
Definition violates {A} (message : string) : result A := raise TaskIntegrityError message.

Definition _select_endpoint (endpoint_id : string) s : result endpoint_row :=
  match endpoints s !! endpoint_id with
  | Some r => Ok r
  | None => not_found ("client endpoint not found: " +:+ endpoint_id)
  end.

Definition _select_task (task_id : string) s : result task_row :=
  match tasks s !! task_id with Some r => Ok r | None => not_found ("task not found: " +:+ task_id) end.

Definition _select_owned_task (task_id user : string) s : result task_row :=
  row ← _select_task task_id s;
  raise_if (negb (String.eqb (t_user_subject row) user)) TaskNotFound ("task not found: " +:+ task_id);;
  Ok row.

Definition batch_of_task (task_id : string) s : option (string * batch_row) :=
  select_one (fun b => String.eqb (b_parent_task_id b) task_id) (batches s).

Definition _is_pull_based_endpoint (client_type : string) : bool := str_in (str_lower client_type) ["web"; "webchat"].

(** An endpoint of the user that may be told something *)
Definition reachable_endpoint (user : string) (e : endpoint_row) : bool :=
  String.eqb (e_user_subject e) user && String.eqb (e_state e) "active".

(** ** Events and what they tell *)

(** The identifier of an event and those of its deliveries, by their endpoint *)
Record event_draw : Type := EventDraw { d_event_id : string; d_delivery_id : string -> string }.

Definition next_sequence (entries : list (string * timeline_row)) : Z :=
  match List.last (map (fun kr => Some (m_sequence (snd kr))) entries) None with Some n => (n + 1)%Z | None => 1%Z end.

Definition same_entry (user dedupe_key : string) (m : timeline_row) : bool :=
  String.eqb (m_user_subject m) user && String.eqb (m_dedupe_key m) dedupe_key.

Definition same_delivery (event endpoint payload_type : string) (o : delivery_row) : bool :=
  String.eqb (o_event_id o) event && String.eqb (o_endpoint_id o) endpoint && String.eqb (o_payload_type o) payload_type.

Definition event_entry (event_id event_type : string) (p : payload) : payload :=
  [("eventId", JStr event_id); ("eventType", JStr event_type); ("payload", JObj p)].

Definition event_delivery (event_id event_type task : string) (p : payload) : payload :=
  [("eventId", JStr event_id); ("taskId", JStr task); ("eventType", JStr event_type); ("payload", JObj p)].

Definition wants (event_type : string) (sub : subscription_row) : bool :=
  str_in "*" (s_event_filters sub) || str_in event_type (s_event_filters sub).

Definition new_delivery (event task endpoint user payload_type : string) (p : payload) (now : instant) : delivery_row :=
  DeliveryRow event task endpoint user payload_type p "pending" 0 now now now None.

Definition subscribed (task user : string) (sub : subscription_row) : bool :=
  String.eqb (s_task_id sub) task && String.eqb (s_user_subject sub) user && String.eqb (s_state sub) "active".

Definition _append_event (d : event_draw) (task user event_type : string) (p : payload) (causation : option string)
    (now : instant) : tx hub string := fun s =>
  let event_id := d_event_id d in
  evs ← append_row event_id (fun _ => false) (EventRow task user event_type p causation now) (events s);
  let dedupe_key := "task-event:" +:+ event_id in
  let entries := append_or_ignore event_id (same_entry user dedupe_key)
    (TimelineRow (next_sequence (timeline s)) user "task_event" dedupe_key None (Some task) None None
       (event_entry event_id event_type p) now) (timeline s) in
  let deliveries := fold_left (fun l sub =>
      let endpoint := s_endpoint_id (snd sub) in
      if wants event_type (snd sub)
      then append_or_ignore (d_delivery_id d endpoint) (same_delivery event_id endpoint "task_event")
             (new_delivery event_id task endpoint user "task_event" (event_delivery event_id event_type task p) now) l
      else l) (select_where (subscribed task user) (subscriptions s)) (outbox s) in
  Ok (event_id, with_told evs entries deliveries s).

Definition COMPANION_EVENTS : list string :=
  ["task.created"; "task.operation.linked"; "task.operation.running"; "task.interaction.waiting";
   "task.interaction.completed"; "task.interaction.expired"; "task.interaction.failed"; "task.interaction.superseded";
   "task.canceled"; "task.artifact.ready"; "task.completed"; "task.operation.succeeded"; "task.operation.failed";
   "task.failed"; "task.operation.outcome_unknown"; "plan.result.ready"; "plan.step.waiting";
   "plan.authorization.waiting"; "plan.completed"; "plan.canceled"; "plan.step.failed"; "plan.outcome_unknown"].

Definition companion (user : string) (e : endpoint_row) : bool :=
  reachable_endpoint user e && negb (_is_pull_based_endpoint (e_client_type e))
  && existsb (fun c => str_in c ["direct_status"; "trusted_interaction"; "workspace.task.read"]) (e_capabilities e).

Definition subscription_of (task endpoint : string) (sub : subscription_row) : bool :=
  String.eqb (s_task_id sub) task && String.eqb (s_endpoint_id sub) endpoint.

Definition renewed_subscription (now : instant) (sub : subscription_row) : subscription_row :=
  SubscriptionRow (s_task_id sub) (s_endpoint_id sub) (s_user_subject sub) COMPANION_EVENTS "active" (s_created_at sub) now.

(** [INSERT .. ON CONFLICT(task_id, endpoint_id) DO UPDATE], for each endpoint; [fresh] gives new identifiers. *)
Fixpoint subscribe_each (fresh : string -> string) (task user : string) (now : instant) (ids : list string)
    (t : gmap string subscription_row) : result (gmap string subscription_row) :=
  match ids with
  | [] => Ok t
  | endpoint :: rest =>
      match select_one (subscription_of task endpoint) t with
      | Some (id, sub) => subscribe_each fresh task user now rest (<[id := renewed_subscription now sub]> t)
      | None =>
          t' ← insert_row (fresh endpoint) (subscription_of task endpoint)
                 (SubscriptionRow task endpoint user COMPANION_EVENTS "active" now now) t;
          subscribe_each fresh task user now rest t'
      end
  end.

Definition _subscribe_companion_endpoints (fresh : string -> string) (task user : string) (now : instant) : tx hub unit := fun s =>
  t ← subscribe_each fresh task user now (map fst (select_where (companion user) (endpoints s))) (subscriptions s);
  Ok (tt, with_subscriptions t s).

(** ** The state of a task *)

Definition moved_task (status : string) (operation interaction : option string) (now : instant) (finished : option instant)
    (r : task_row) : task_row :=
  TaskRow (t_user_subject r) (t_agent_host r) (t_host_task_key r) (t_origin_endpoint_id r) (t_title r) status
    (t_summary r) operation interaction (t_active_conversation_ref r) (t_version r + 1)%Z (t_created_at r) now finished.

Definition summarized_task (summary : payload) (r : task_row) : task_row :=
  TaskRow (t_user_subject r) (t_agent_host r) (t_host_task_key r) (t_origin_endpoint_id r) (t_title r) (t_status r)
    summary (t_current_operation_id r) (t_current_interaction_id r) (t_active_conversation_ref r) (t_version r)
    (t_created_at r) (t_updated_at r) (t_finished_at r).

(** [UPDATE agent_tasks SET .. WHERE task_id = ?] *)
Definition set_task (task : string) (f : task_row -> task_row) (s : hub) : hub :=
  with_tasks (fst (update_key task (fun _ => true) f (tasks s))) s.

Definition _update_task_state (task status : string) (operation interaction : option string) (now : instant) : tx hub unit := fun s =>
  finished ← task_finished_at status now;
  Ok (tt, set_task task (moved_task status operation interaction now finished) s).

(** The columns that the rules read *)
Definition facts_of (r : task_row) : task_facts := TaskFacts (t_status r) (t_current_operation_id r) (t_current_interaction_id r).
End Helpers.
