(* ===== verification/TaskBatches.v ===== *)
(** * Batches of the task hub (agentbridge/core/tasks.py)

    A batch freezes a selection of targets under one task and works through them one after the other: the item at the
    current ordinal is prepared, waits for the user and succeeds; the first failure ends the batch. *)

From S2P Require Import Prelude PyStr Json Sha256 Store InputValidation TaskStateRules TaskTables.

#[local] Open Scope list_scope.

(** ** Rows that the updates write *)

Definition coalesced {A} (new old : option A) : option A := match new with Some a => Some a | None => old end.

Definition worked_item (state : string) (operation interaction : option string) (now : instant) (x : item_row) : item_row :=
  ItemRow (x_batch_id x) (x_ordinal x) (x_resource_ref x) (x_resource_ref_hash x) (x_display_summary x)
    (x_source_fingerprint x) state (coalesced operation (x_operation_id x)) (coalesced interaction (x_interaction_id x))
    (x_result_summary x) (x_error_code x) (x_created_at x) now (x_finished_at x).

Definition succeeded_item (operation : string) (summary : payload) (now : instant) (x : item_row) : item_row :=
  ItemRow (x_batch_id x) (x_ordinal x) (x_resource_ref x) (x_resource_ref_hash x) (x_display_summary x)
    (x_source_fingerprint x) "succeeded" (Some operation) (x_interaction_id x) summary None (x_created_at x) now (Some now).

Definition prepared_item (now : instant) (x : item_row) : item_row :=
  ItemRow (x_batch_id x) (x_ordinal x) (x_resource_ref x) (x_resource_ref_hash x) (x_display_summary x)
    (x_source_fingerprint x) "preparing" (x_operation_id x) (x_interaction_id x) (x_result_summary x) (x_error_code x)
    (x_created_at x) now (x_finished_at x).

Definition failed_item (state : string) (operation : option string) (code : string) (now : instant) (x : item_row) : item_row :=
  ItemRow (x_batch_id x) (x_ordinal x) (x_resource_ref x) (x_resource_ref_hash x) (x_display_summary x)
    (x_source_fingerprint x) state (coalesced operation (x_operation_id x)) (x_interaction_id x) (x_result_summary x)
    (Some code) (x_created_at x) now (Some now).

Definition canceled_item (now : instant) (x : item_row) : item_row :=
  ItemRow (x_batch_id x) (x_ordinal x) (x_resource_ref x) (x_resource_ref_hash x) (x_display_summary x)
    (x_source_fingerprint x) "canceled" (x_operation_id x) (x_interaction_id x) (x_result_summary x) (x_error_code x)
    (x_created_at x) now (Some now).

(** Every update of a batch is one of these columns. *)
Definition moved_batch (state : string) (ordinal succeeded failed : Z) (now : instant) (finished : option instant)
    (b : batch_row) : batch_row :=
  BatchRow (b_parent_task_id b) (b_user_subject b) (b_system_id b) (b_capability_name b) (b_selection_summary b)
    (b_source_snapshot_hash b) (b_failure_policy b) state ordinal (b_total_count b) succeeded failed (b_skipped_count b)
    (b_version b + 1)%Z (b_created_at b) now finished.

Section Batches.
Context `{UnicodeTables}.
Implicit Types (s : hub) (b : batch_row).

Definition set_batch (id : string) (f : batch_row -> batch_row) s : hub :=
  with_batches (fst (update_key id (fun _ => true) f (batches s))) s.

Definition set_item (id : string) (f : item_row -> item_row) s : hub :=
  with_items (fst (update_key id (fun _ => true) f (items s))) s.

(** ** Reading *)

(** [_batch_item_from_row]: the row, with its reference only when asked for *)
Record item_view : Type := ItemView { iv_item_id : string; iv_row : item_row; iv_resource_ref : option string }.

Definition hide_ref (x : item_row) : item_row :=
  ItemRow (x_batch_id x) (x_ordinal x) "" (x_resource_ref_hash x) (x_display_summary x) (x_source_fingerprint x) (x_state x)
    (x_operation_id x) (x_interaction_id x) (x_result_summary x) (x_error_code x) (x_created_at x) (x_updated_at x)
    (x_finished_at x).

Definition _batch_item_from_row (include_resource_ref : bool) (kx : string * item_row) : item_view :=
  ItemView (fst kx) (hide_ref (snd kx)) (if include_resource_ref then Some (x_resource_ref (snd kx)) else None).

Record batch_view : Type := BatchView { bv_batch_id : string; bv_row : batch_row; bv_items : list item_view }.

Definition by_ordinal (x y : string * item_row) : bool := (x_ordinal (snd x) <=? x_ordinal (snd y))%Z.

Definition items_of (batch : string) s : list (string * item_row) :=
  sort_by by_ordinal (select_where (fun x => String.eqb (x_batch_id x) batch) (items s)).

Definition _batch_snapshot (include_resource_refs : bool) (id : string) b s : batch_view :=
  BatchView id b (map (_batch_item_from_row include_resource_refs) (items_of id s)).

Definition item_at (batch : string) (ordinal : Z) s : option (string * item_row) :=
  select_one (fun x => String.eqb (x_batch_id x) batch && (x_ordinal x =? ordinal)%Z) (items s).

Definition _select_current_batch_item (id : string) b s : result (string * item_row) :=
  match item_at id (b_current_ordinal b) s with Some x => Ok x | None => violates "batch current item is missing" end.

Definition _select_owned_batch_for_task (task user : string) s : result (string * batch_row) :=
  match select_one (fun b => String.eqb (b_parent_task_id b) task && String.eqb (b_user_subject b) user) (batches s) with
  | Some x => Ok x
  | None => not_found "batch task not found"
  end.

(** A row that has just been written is read again. *)
Definition stored_batch (id : string) s : result batch_row :=
  match batches s !! id with Some b => Ok b | None => raise TypeError "'NoneType' object is not subscriptable" end.

Definition active_batch b : bool := str_in (b_state b) ACTIVE_BATCH_STATES.

Definition get_batch_for_task (task user : string) (include_resource_refs : bool) s : result (option batch_view) :=
  _ ← _select_owned_task task user s;
  Ok (match batch_of_task task s with
      | None => None
      | Some (id, b) => Some (_batch_snapshot include_resource_refs id b s)
      end).

(** ** The summary of the task *)

Definition batch_task_summary (task : task_row) (id : string) b (current_item : item_row) : payload :=
  dict_set "batch" (JObj
    [("batchId", JStr id); ("systemId", JStr (b_system_id b)); ("capability", JStr (b_capability_name b));
     ("state", JStr (b_state b)); ("currentOrdinal", JInt (b_current_ordinal b)); ("totalCount", JInt (b_total_count b));
     ("succeededCount", JInt (b_succeeded_count b)); ("failedCount", JInt (b_failed_count b));
     ("skippedCount", JInt (b_skipped_count b)); ("failurePolicy", JStr (b_failure_policy b));
     ("currentItem", JObj [("ordinal", JInt (x_ordinal current_item)); ("state", JStr (x_state current_item));
                           ("display", JObj (x_display_summary current_item))])]) (t_summary task).

(** [task] is the row that the method has read at its start. *)
Definition _sync_batch_task_summary (task_id : string) (task : task_row) (id : string) b (now : instant)
    (task_status operation interaction : option string) : tx hub unit := fun s =>
  current ← _select_current_batch_item id b s;
  let s := set_task task_id (summarized_task (batch_task_summary task id b (snd current))) s in
  let status := match task_status with Some st => st | None => batch_task_status (b_state b) end in
  _update_task_state task_id status (coalesced operation (t_current_operation_id task))
    (coalesced interaction (t_current_interaction_id task)) now s.

(** ** Creation *)

Record new_item : Type := NewItem {
  n_ordinal : Z;
  n_resource_ref : string;
  n_resource_ref_hash : string;
  n_display_summary : payload;
  n_source_fingerprint : string;
}.

Definition safe_dict (value : json) : result payload :=
  match value with JNull => Ok [] | JObj kvs => Ok kvs | _ => raise TypeError "value must be an object" end.

Fixpoint normalize_items (ordinal : Z) (seen_refs : list string) (sources : list payload) : result (list new_item) :=
  match sources with
  | [] => Ok []
  | source :: rest =>
      resource_ref ← _required_text (field source "resource_ref") "resource_ref" 512;
      let resource_ref_hash := sha256_hex resource_ref in
      raise_if (str_in resource_ref_hash seen_refs) ValueError "batch contains a duplicate target";;
      display ← safe_dict (field source "display_summary");
      let fingerprint := text_of (field source "source_fingerprint") in
      let fingerprint := if truthy fingerprint then fingerprint else sha256_hex (dumps (JObj display)) in
      others ← normalize_items (ordinal + 1) (resource_ref_hash :: seen_refs) rest;
      Ok (NewItem ordinal resource_ref resource_ref_hash display (py_take 256 fingerprint) :: others)
  end.

Definition snapshot_hash_of (l : list new_item) : string :=
  sha256_hex (dumps (JArr (map (fun n => JObj
    [("ordinal", JInt (n_ordinal n)); ("resourceRefHash", JStr (n_resource_ref_hash n));
     ("sourceFingerprint", JStr (n_source_fingerprint n))]) l))).

Record batch_args : Type := BatchArgs {
  ba_parent_task_id : string;
  ba_user_subject : string;
  ba_system_id : string;
  ba_capability_name : string;
  ba_selection_summary : option payload;
  ba_failure_policy : string;
  ba_items : list payload;
}.

(** What [create_batch] checks before its transaction: the normalized arguments and items *)
Definition check_batch (a : batch_args) : result (string * string * string * string * list new_item) :=
  raise_if match ba_items a with [] => true | _ => false end ValueError "batch items are required";;
  raise_if (100 <? length (ba_items a))%nat ValueError "batch item count exceeds 100";;
  policy ← _required_text (JStr (ba_failure_policy a)) "failure_policy" 80;
  raise_if (negb (String.eqb policy "stop_on_failure")) ValueError "unsupported batch failure policy";;
  user ← _required_text (JStr (ba_user_subject a)) "user_subject" 256;
  system ← _required_text (JStr (ba_system_id a)) "system_id" 80;
  capability ← _required_text (JStr (ba_capability_name a)) "capability_name" 200;
  l ← normalize_items 1 [] (ba_items a);
  Ok (policy, user, system, capability, l).

(** An item of an active batch of the user and system with the same target *)
Definition overlapping (user system hash : string) (bs : gmap string batch_row) (x : item_row) : bool :=
  match bs !! x_batch_id x with
  | Some b => String.eqb (b_user_subject b) user && String.eqb (b_system_id b) system && active_batch b
  | None => false
  end && String.eqb (x_resource_ref_hash x) hash && negb (str_in (x_state x) ["succeeded"; "skipped"; "canceled"]).

Definition fresh_batch (task user system capability policy hash : string) (selection : payload) (total : Z) (now : instant) : batch_row :=
  BatchRow task user system capability selection hash policy "running" 1 total 0 0 0 1 now now None.

Definition fresh_item (batch : string) (n : new_item) (now : instant) : item_row :=
  ItemRow batch (n_ordinal n) (n_resource_ref n) (n_resource_ref_hash n) (n_display_summary n) (n_source_fingerprint n)
    "queued" None None [] None now now None.

Definition same_item (batch : string) (n : new_item) (x : item_row) : bool :=
  String.eqb (x_batch_id x) batch
  && ((x_ordinal x =? n_ordinal n)%Z || String.eqb (x_resource_ref_hash x) (n_resource_ref_hash n)).

(** The identifiers of the items are drawn by their ordinal. *)
Fixpoint insert_items (batch : string) (fresh : Z -> string) (now : instant) (l : list new_item) (t : gmap string item_row)
  : result (gmap string item_row) :=
  match l with
  | [] => Ok t
  | n :: rest =>
      t' ← insert_row (fresh (n_ordinal n)) (same_item batch n) (fresh_item batch n now) t;
      insert_items batch fresh now rest t'
  end.

Record batch_draw : Type := BatchDraw { bd_batch_id : string; bd_item_id : Z -> string; bd_created : event_draw; bd_frozen : event_draw }.

Definition create_batch_body (task policy user system capability : string) (selection : payload) (l : list new_item)
    (now : instant) (d : batch_draw) : tx hub (batch_view * bool) := fun s =>
  row ← _select_owned_task task user s;
  match batch_of_task task s with
  | Some (id, existing) => Ok ((_batch_snapshot true id existing s, true), s)
  | None =>
      raise_if (exists_where (fun b => String.eqb (b_user_subject b) user && String.eqb (b_system_id b) system
          && String.eqb (b_capability_name b) capability && active_batch b) (batches s)) TaskIntegrityError
        "an active batch already exists for this user and capability";;
      raise_if (existsb (fun n => exists_where (overlapping user system (n_resource_ref_hash n) (batches s)) (items s)) l)
        TaskIntegrityError "a selected target is already owned by another active batch";;
      let id := bd_batch_id d in
      let hash := snapshot_hash_of l in
      let total := Z.of_nat (length l) in
      let b := fresh_batch task user system capability policy hash selection total now in
      bs ← insert_row id (fun b => String.eqb (b_parent_task_id b) task) b (batches s);
      xs ← insert_items id (bd_item_id d) now l (items s);
      (_sync_batch_task_summary task row id b now None None None;;
       _append_event (bd_created d) task user "batch.created"
         [("batchId", JStr id); ("systemId", JStr system); ("capability", JStr capability); ("totalCount", JInt total);
          ("failurePolicy", JStr policy)] (Some id) now;;
       _append_event (bd_frozen d) task user "batch.candidates.frozen"
         [("batchId", JStr id); ("totalCount", JInt total); ("sourceSnapshotHash", JStr hash)] (Some id) now;;
       (fun s' => Ok ((_batch_snapshot true id b s', false), s')))
        (with_items xs (with_batches bs s))
  end.

Definition create_batch (a : batch_args) (now : instant) (d : batch_draw) s : result (batch_view * bool) * hub :=
  match check_batch a with
  | Raise e => (Raise e, s)
  | Ok (policy, user, system, capability, l) =>
      transaction (create_batch_body (ba_parent_task_id a) policy user system capability
        (_safe_object (ba_selection_summary a)) l now d) s
  end.

(** ** Activity *)

Definition or_none (o o' : option string) : option string := if opt_truthy o then o else o'.

(** An item that has the operation already and is not the current one *)
Definition earlier_item (id operation : string) (current : item_row) s : bool :=
  match sort_by by_ordinal (select_where (fun x => String.eqb (x_batch_id x) id
          && match x_operation_id x with Some o => String.eqb o operation | None => false end) (items s)) with
  | (_, x) :: _ => negb (x_ordinal x =? x_ordinal current)%Z
  | [] => false
  end.

Definition record_batch_item_activity_body (task user : string) (operation interaction : option string) (now : instant)
    (d : event_draw) : tx hub (option batch_view) := fun s =>
  row ← _select_owned_task task user s;
  match batch_of_task task s with
  | None => Ok (None, s)
  | Some (id, b) =>
      if negb (active_batch b) then Ok (None, s)
      else
        '(item_id, x) ← _select_current_batch_item id b s;
        if opt_truthy operation && earlier_item id (or_empty operation) x s then Ok (Some (_batch_snapshot true id b s), s)
        else
          let waiting := opt_truthy interaction in
          let s1 := set_item item_id (worked_item (if waiting then "waiting_user" else "preparing") operation interaction now) s in
          let batch_state := if waiting then "waiting_user" else "running" in
          let s2 := set_batch id (fun b => moved_batch batch_state (b_current_ordinal b) (b_succeeded_count b)
                                             (b_failed_count b) now (b_finished_at b) b) s1 in
          refreshed ← stored_batch id s2;
          (_sync_batch_task_summary task row id refreshed now (Some batch_state) operation interaction;;
           (if String.eqb (x_state x) "queued"
            then _append_event d task user "batch.item.started"
                   [("batchId", JStr id); ("ordinal", JInt (b_current_ordinal b)); ("totalCount", JInt (b_total_count b))]
                   (or_none operation interaction) now
            else mret "");;
           (fun s' => Ok (Some (_batch_snapshot true id refreshed s'), s'))) s2
  end.

Definition record_batch_item_activity (task user : string) (operation interaction : option string) (now : instant)
    (d : event_draw) s : result (option batch_view) * hub :=
  transaction (record_batch_item_activity_body task user operation interaction now d) s.

(** ** Completion *)

Record completion : Type := Completion { cm_batch : batch_view; cm_next_item : option item_view; cm_reused : bool }.

Definition next_queued (id : string) (after : Z) s : option (string * item_row) :=
  head (sort_by by_ordinal (select_where (fun x => String.eqb (x_batch_id x) id && (after <? x_ordinal x)%Z
    && String.eqb (x_state x) "queued") (items s))).

Record completion_draw : Type := CompletionDraw { cd_item : event_draw; cd_batch : event_draw; cd_task : event_draw }.

Definition batch_counts (id status : string) b (succeeded failed : Z) : payload :=
  [("batchId", JStr id); ("status", JStr status); ("totalCount", JInt (b_total_count b)); ("succeededCount", JInt succeeded);
   ("failedCount", JInt failed); ("skippedCount", JInt (b_skipped_count b))].

(** What a completion writes, once its checks have passed *)
Definition complete_item (task user operation : string) (result_summary : payload) (row : task_row) (id : string) b
    (item : string * item_row) (now : instant) (d : completion_draw) : tx hub completion := fun s =>
  let s1 := set_item (fst item) (succeeded_item operation result_summary now) s in
  let succeeded := (b_succeeded_count b + 1)%Z in
  let next := next_queued id (b_current_ordinal b) s1 in
  let terminal := match next with None => true | Some _ => false end in
  let ordinal := match next with Some (_, x) => x_ordinal x | None => b_current_ordinal b end in
  let s2 := set_batch id (fun b => moved_batch (if terminal then "succeeded" else "running") ordinal succeeded
                                     (b_failed_count b) now (if terminal then Some now else None) b) s1 in
  let s3 := match next with Some (next_id, _) => set_item next_id (prepared_item now) s2 | None => s2 end in
  refreshed ← stored_batch id s3;
  (_sync_batch_task_summary task row id refreshed now (Some (if terminal then "succeeded" else "running")) (Some operation)
     (if terminal then t_current_interaction_id row else None);;
   _append_event (cd_item d) task user "batch.item.succeeded"
     [("batchId", JStr id); ("ordinal", JInt (x_ordinal (snd item))); ("totalCount", JInt (b_total_count b));
      ("succeededCount", JInt succeeded)] (Some operation) now;;
   (if terminal
    then _append_event (cd_batch d) task user "batch.completed"
           (batch_counts id "succeeded" b succeeded (b_failed_count b)) (Some operation) now;;
         _append_event (cd_task d) task user "task.completed"
           [("status", JStr "succeeded"); ("reason", JStr "batch_completed")] (Some operation) now
    else mret "");;
   (fun s' => Ok (Completion (_batch_snapshot true id refreshed s')
      (match next with
       | Some (next_id, _) => option_map (fun x => _batch_item_from_row true (next_id, x)) (items s' !! next_id)
       | None => None
       end) false, s'))) s3.

Definition complete_current_batch_item_body (task user operation : string) (expected_ordinal : Z) (result_summary : payload)
    (now : instant) (d : completion_draw) : tx hub completion := fun s =>
  row ← _select_owned_task task user s;
  '(id, b) ← _select_owned_batch_for_task task user s;
  match item_at id expected_ordinal s with
  | None => violates "expected batch item is missing"
  | Some item =>
      if String.eqb (x_state (snd item)) "succeeded" then
        next ← (if active_batch b && (expected_ordinal <? b_current_ordinal b)%Z
                then x ← _select_current_batch_item id b s; Ok (Some (_batch_item_from_row true x))
                else Ok None);
        Ok (Completion (_batch_snapshot true id b s) next true, s)
      else
        raise_if (negb (active_batch b)) TaskIntegrityError "batch is already terminal";;
        raise_if (negb (b_current_ordinal b =? expected_ordinal)%Z) TaskIntegrityError "batch item is no longer current";;
        complete_item task user operation result_summary row id b item now d s
  end.

Definition complete_current_batch_item (task user operation : string) (expected_ordinal : Z) (result_summary : option payload)
    (now : instant) (d : completion_draw) s : result completion * hub :=
  transaction (complete_current_batch_item_body task user operation expected_ordinal (_safe_object result_summary) now d) s.

(** ** Failure *)

(** What a failure writes, once its checks have passed *)
Definition fail_item (task user : string) (operation : option string) (item_state error_code : string) (row : task_row)
    (id : string) b (item : string * item_row) (now : instant) (d d' : event_draw) : tx hub batch_view := fun s =>
  code ← _required_text (JStr error_code) "error_code" 120;
  let s1 := set_item (fst item) (failed_item item_state operation code now) s in
  let failed := (b_failed_count b + 1)%Z in
  let batch_state := batch_failure_status item_state (b_succeeded_count b) in
  let s2 := set_batch id (fun b => moved_batch batch_state (b_current_ordinal b) (b_succeeded_count b) failed now
                                     (Some now) b) s1 in
  refreshed ← stored_batch id s2;
  (_sync_batch_task_summary task row id refreshed now (Some batch_state) operation (t_current_interaction_id row);;
   _append_event d task user
     ("batch.item." +:+ if String.eqb item_state "outcome_unknown" then "outcome_unknown" else "failed")
     [("batchId", JStr id); ("ordinal", JInt (x_ordinal (snd item))); ("totalCount", JInt (b_total_count b));
      ("errorCode", JStr error_code)] operation now;;
   _append_event d' task user "batch.completed"
     (batch_counts id batch_state b (b_succeeded_count b) failed ++ [("errorCode", JStr error_code)]) operation now;;
   (fun s' => Ok (_batch_snapshot true id refreshed s', s'))) s2.

Definition fail_current_batch_item_body (task user : string) (operation : option string) (expected_ordinal : Z)
    (item_state error_code : string) (now : instant) (d d' : event_draw) : tx hub batch_view := fun s =>
  row ← _select_owned_task task user s;
  '(id, b) ← _select_owned_batch_for_task task user s;
  if negb (active_batch b) then Ok (_batch_snapshot true id b s, s)
  else
    match item_at id expected_ordinal s with
    | None => violates "expected batch item is missing"
    | Some item =>
        if (b_current_ordinal b =? expected_ordinal)%Z
        then fail_item task user operation item_state error_code row id b item now d d' s
        else if str_in (x_state (snd item)) ["queued"; "preparing"; "waiting_user"]
        then violates "batch item is no longer current"
        else Ok (_batch_snapshot true id b s, s)
    end.

Definition fail_current_batch_item (task user : string) (operation : option string) (expected_ordinal : Z)
    (item_state error_code : string) (now : instant) (d d' : event_draw) s : result batch_view * hub :=
  if negb (str_in item_state ["failed"; "outcome_unknown"; "canceled"; "expired"; "superseded"])
  then (raise ValueError "unsupported terminal batch item state", s)
  else transaction (fail_current_batch_item_body task user operation expected_ordinal item_state error_code now d d') s.

(** ** Cancellation, which [cancel_task] calls in its transaction *)

Definition open_item (id : string) (x : item_row) : bool :=
  String.eqb (x_batch_id x) id && str_in (x_state x) ["queued"; "preparing"; "waiting_user"].

Definition cancel_batch (task user : string) (row : task_row) (now : instant) : tx hub unit := fun s =>
  match select_one (fun b => String.eqb (b_parent_task_id b) task && String.eqb (b_user_subject b) user) (batches s) with
  | None => Ok (tt, s)
  | Some (id, b) =>
      if negb (active_batch b) then Ok (tt, s)
      else
        let s1 := with_items (update_where (open_item id) (canceled_item now) (items s)) s in
        let s2 := set_batch id (fun b => moved_batch "canceled" (b_current_ordinal b) (b_succeeded_count b)
                                           (b_failed_count b) now (Some now) b) s1 in
        '(id, b) ← _select_owned_batch_for_task task user s2;
        _sync_batch_task_summary task row id b now (Some "canceled") (t_current_operation_id row)
          (t_current_interaction_id row) s2
  end.
End Batches.
