(* ===== verification/TaskLedger.v ===== *)
(** * Endpoints and tasks of the task hub (agentbridge/core/tasks.py)

    An endpoint is where a user meets an agent host; a task belongs to a user, and what is observed of its operations,
    interactions and plans moves its status by the rules of [TaskStateRules]. *)

From S2P Require Import Prelude PyStr Json Store InputValidation TaskStateRules TaskTables TaskBatches.

#[local] Open Scope list_scope.

Section Ledger.
Context `{UnicodeTables}.
Implicit Types (s : hub).

(** A row with its identifier, as the methods return it *)
Definition keyed (R : Type) : Type := string * R.

(** ** Endpoints *)

Record endpoint_args : Type := EndpointArgs {
  ea_user_subject : string;
  ea_token_id : string;
  ea_agent_host : string;
  ea_endpoint_key : string;
  ea_client_type : string;
  ea_external_subject : string;
  ea_conversation_ref : string;
  ea_account_id : option string;
  ea_label : option string;
  ea_capabilities : list string;
  ea_route : option payload;
}.

(** The row that the normalized arguments make for a new endpoint *)
Definition check_endpoint (a : endpoint_args) (now : instant) : result endpoint_row :=
  user ← _required_text (JStr (ea_user_subject a)) "user_subject" 256;
  token ← _required_text (JStr (ea_token_id a)) "token_id" 256;
  host ← _required_text (JStr (ea_agent_host a)) "agent_host" 80;
  key ← _required_text (JStr (ea_endpoint_key a)) "endpoint_key" 768;
  client ← _required_text (JStr (ea_client_type a)) "client_type" 80;
  external ← _required_text (JStr (ea_external_subject a)) "external_subject" 768;
  conversation ← _required_text (JStr (ea_conversation_ref a)) "conversation_ref" 1024;
  account ← _optional_text (ea_account_id a) "account_id" 512;
  label ← _optional_text (ea_label a) "label" 120;
  capabilities ← map_result (fun c => _required_text (JStr c) "capability" 120) (ea_capabilities a);
  Ok (EndpointRow user token host key client external account conversation label (sorted_set capabilities)
        (_safe_object (ea_route a)) "active" now now now).

Definition same_endpoint (host key : string) (e : endpoint_row) : bool :=
  String.eqb (e_agent_host e) host && String.eqb (e_endpoint_key e) key.

Definition renewed_endpoint (new old : endpoint_row) : endpoint_row :=
  EndpointRow (e_user_subject old) (e_token_id new) (e_agent_host old) (e_endpoint_key old) (e_client_type new)
    (e_external_subject new) (e_account_id new) (e_conversation_ref new) (e_label new)
    (sorted_set (e_capabilities old ++ e_capabilities new)) (e_route new) "active" (e_created_at old) (e_updated_at new)
    (e_last_seen_at new).

Definition ensure_endpoint_body (new : endpoint_row) (uuid : string) : tx hub (keyed endpoint_row * bool) := fun s =>
  match select_one (same_endpoint (e_agent_host new) (e_endpoint_key new)) (endpoints s) with
  | Some (id, old) =>
      raise_if (negb (String.eqb (e_user_subject old) (e_user_subject new))) TaskIntegrityError
        "client endpoint is already bound to another user";;
      let row := renewed_endpoint new old in
      Ok (((id, row), true), with_endpoints (<[id := row]> (endpoints s)) s)
  | None =>
      t ← insert_row uuid (same_endpoint (e_agent_host new) (e_endpoint_key new)) new (endpoints s);
      Ok (((uuid, new), false), with_endpoints t s)
  end.

Definition ensure_endpoint (a : endpoint_args) (now : instant) (uuid : string) s : result (keyed endpoint_row * bool) * hub :=
  match check_endpoint a now with
  | Raise e => (Raise e, s)
  | Ok new => transaction (ensure_endpoint_body new uuid) s
  end.

Definition seen_endpoint (now : instant) (e : endpoint_row) : endpoint_row :=
  EndpointRow (e_user_subject e) (e_token_id e) (e_agent_host e) (e_endpoint_key e) (e_client_type e)
    (e_external_subject e) (e_account_id e) (e_conversation_ref e) (e_label e) (e_capabilities e) (e_route e) (e_state e)
    (e_created_at e) now now.

Definition touch_endpoint (endpoint_id user : string) (now : instant) s : result (keyed endpoint_row) * hub :=
  transaction (fun s =>
    id ← _required_text (JStr endpoint_id) "endpoint_id" 256;
    user ← _required_text (JStr user) "user_subject" 256;
    let '(t, rowcount) := update_key id (reachable_endpoint user) (seen_endpoint now) (endpoints s) in
    raise_if (negb (Nat.eqb rowcount 1)) TaskNotFound "client endpoint not found";;
    let s' := with_endpoints t s in
    row ← _select_endpoint id s';
    Ok ((id, row), s')) s.

Definition get_endpoint (endpoint_id user : string) s : result (keyed endpoint_row) :=
  id ← _required_text (JStr endpoint_id) "endpoint_id" 256;
  user ← _required_text (JStr user) "user_subject" 256;
  match endpoints s !! id with
  | Some e => if reachable_endpoint user e then Ok (id, e) else not_found "client endpoint not found"
  | None => not_found "client endpoint not found"
  end.

Definition endpoint_for_key (user host key : string) s : result (keyed endpoint_row) :=
  match select_one (fun e => reachable_endpoint user e && same_endpoint host key e) (endpoints s) with
  | Some x => Ok x
  | None => not_found "client endpoint not found"
  end.

(** ** Tasks *)

Record task_args : Type := TaskArgs {
  ta_user_subject : string;
  ta_agent_host : string;
  ta_host_task_key : string;
  ta_origin_endpoint_id : string;
  ta_active_conversation_ref : string;
  ta_title : string;
  ta_summary : option payload;
}.

Definition check_task (a : task_args) (now : instant) : result task_row :=
  user ← _required_text (JStr (ta_user_subject a)) "user_subject" 256;
  host ← _required_text (JStr (ta_agent_host a)) "agent_host" 80;
  key ← _required_text (JStr (ta_host_task_key a)) "host_task_key" 1024;
  conversation ← _required_text (JStr (ta_active_conversation_ref a)) "active_conversation_ref" 1024;
  title ← _required_text (JStr (ta_title a)) "title" 240;
  Ok (TaskRow user host key (ta_origin_endpoint_id a) title "active" (_safe_object (ta_summary a)) None None conversation 1
        now now None).

Definition same_task (user host key : string) (t : task_row) : bool :=
  String.eqb (t_user_subject t) user && String.eqb (t_agent_host t) host && String.eqb (t_host_task_key t) key.

Definition met_task (conversation : string) (now : instant) (t : task_row) : task_row :=
  TaskRow (t_user_subject t) (t_agent_host t) (t_host_task_key t) (t_origin_endpoint_id t) (t_title t) (t_status t)
    (t_summary t) (t_current_operation_id t) (t_current_interaction_id t) conversation (t_version t) (t_created_at t) now
    (t_finished_at t).

(** The identifiers of a new task, of its subscriptions and of its event *)
Record task_draw : Type := TaskDraw {
  td_task_id : string;
  td_subscription_id : string;
  td_companion_id : string -> string;
  td_event : event_draw;
}.

Definition subscribe_origin (task endpoint user client_type id : string) (now : instant) : tx hub unit := fun s =>
  if _is_pull_based_endpoint client_type then Ok (tt, s)
  else
    t ← insert_row id (subscription_of task endpoint) (SubscriptionRow task endpoint user ["*"] "active" now now)
          (subscriptions s);
    Ok (tt, with_subscriptions t s).

Definition ensure_task_body (new : task_row) (now : instant) (d : task_draw) : tx hub (keyed task_row * bool) := fun s =>
  let user := t_user_subject new in
  let origin := t_origin_endpoint_id new in
  endpoint ← _select_endpoint origin s;
  raise_if (negb (String.eqb (e_user_subject endpoint) user)) TaskIntegrityError "task endpoint belongs to another user";;
  raise_if (negb (String.eqb (e_agent_host endpoint) (t_agent_host new))) TaskIntegrityError
    "task endpoint belongs to another agent host";;
  match select_one (same_task user (t_agent_host new) (t_host_task_key new)) (tasks s) with
  | Some (id, old) =>
      raise_if (negb (String.eqb (t_origin_endpoint_id old) origin)) TaskIntegrityError
        "host task key is already bound to another endpoint";;
      let row := met_task (t_active_conversation_ref new) now old in
      Ok (((id, row), true), with_tasks (<[id := row]> (tasks s)) s)
  | None =>
      let id := td_task_id d in
      t ← insert_row id (same_task user (t_agent_host new) (t_host_task_key new)) new (tasks s);
      (subscribe_origin id origin user (e_client_type endpoint) (td_subscription_id d) now;;
       _subscribe_companion_endpoints (td_companion_id d) id user now;;
       _append_event (td_event d) id user "task.created" [("status", JStr "active"); ("title", JStr (t_title new))]
         (Some (t_host_task_key new)) now;;
       (fun s' => row ← _select_task id s'; Ok (((id, row), false), s'))) (with_tasks t s)
  end.

Definition ensure_task (a : task_args) (now : instant) (d : task_draw) s : result (keyed task_row * bool) * hub :=
  match check_task a now with
  | Raise e => (Raise e, s)
  | Ok new => transaction (ensure_task_body new now d) s
  end.

Definition find_host_task (user host key : string) s : option (keyed task_row) := select_one (same_task user host key) (tasks s).

Definition get_task (task user : string) s : result (keyed task_row) :=
  row ← _select_owned_task task user s; Ok (task, row).

(** A method that ends with the row of the task *)
Definition selected_task (task : string) : tx hub (keyed task_row) := fun s => row ← _select_task task s; Ok ((task, row), s).

(** ** Observations *)

Definition link_of (operation task : string) s : result bool :=
  match operation_links s !! operation with
  | None => Ok false
  | Some l =>
      raise_if (negb (String.eqb (l_task_id l) task)) TaskIntegrityError "operation is already linked to another task";;
      Ok true
  end.

(** [INSERT INTO task_operations], of an operation that has no link *)
Definition add_operation_link (operation task user : string) (now : instant) s : hub :=
  with_operation_links (<[operation := OperationLink task user now]> (operation_links s)) s.

(** The first observation of an operation links it and tells so. *)
Definition link_once (linked : bool) (link : hub -> hub) (tell : tx hub string) : tx hub string := fun s =>
  if linked then Ok ("", s) else tell (link s).

(** What the events tell of an operation *)
Definition operation_payload (id : string) (operation : payload) : payload :=
  [("operationId", JStr id); ("capability", field operation "capability_name")]
  ++ (if json_truthy (field operation "capability_effect") then [("capabilityEffect", field operation "capability_effect")] else []).

(** [(operation.get('error') or {}).get('code')] *)
Definition error_code_of (operation : payload) : result json :=
  match field operation "error" with
  | JObj error => Ok (field error "code")
  | v => if json_truthy v then raise AttributeError "object has no attribute 'get'" else Ok JNull
  end.

Record link_draw : Type := LinkDraw { ld_linked : event_draw; ld_moved : event_draw }.

Definition link_operation_body (task user : string) (operation : payload) (id status : string) (now : instant)
    (d : link_draw) : tx hub (keyed task_row) := fun s =>
  row ← _select_owned_task task user s;
  linked ← link_of id task s;
  let decision := operation_observation (t_status row) status (option_map (fun b => b_state (snd b)) (batch_of_task task s))
                    (negb linked) in
  (link_once linked (add_operation_link id task user now)
     (_append_event (ld_linked d) task user "task.operation.linked" (operation_payload id operation) (Some id) now);;
   (if update_task decision
    then _update_task_state task (TaskStateRules.status decision) (Some id) (t_current_interaction_id row) now
    else mret tt);;
   (if emit_event decision
    then code ← lift (error_code_of operation);
         _append_event (ld_moved d) task user (event_type decision)
           (operation_payload id operation ++ [("status", JStr status); ("errorCode", code)]) (Some id) now
    else mret "");;
   selected_task task) s.

Definition link_operation (task user : string) (operation : payload) (now : instant) (d : link_draw) s
  : result (keyed task_row) * hub :=
  match (id ← _required_text (field operation "operation_id") "operation_id" 256;
         raise_if (negb (same_text (field operation "user_subject") user)) TaskIntegrityError
           "operation belongs to another user";;
         Ok id) with
  | Raise e => (Raise e, s)
  | Ok id =>
      let status := field operation "status" in
      transaction (link_operation_body task user operation id (if json_truthy status then py_str status else "") now d) s
  end.

Definition link_plan_operation_body (task user : string) (operation : payload) (id plan_id step_key : string) (now : instant)
    (d : event_draw) : tx hub (keyed task_row) := fun s =>
  row ← _select_owned_task task user s;
  linked ← link_of id task s;
  (link_once linked (add_operation_link id task user now)
     (_append_event d task user "task.operation.linked"
        [("operationId", JStr id); ("capability", field operation "capability_name"); ("planId", JStr plan_id);
         ("stepKey", JStr step_key)] (Some id) now);;
   match plan_task_status (t_status row) None with
   | Some status => _update_task_state task status (Some id) (t_current_interaction_id row) now
   | None => mret tt
   end;;
   selected_task task) s.

Definition link_plan_operation (task user : string) (operation : payload) (plan_id step_key : string) (now : instant)
    (d : event_draw) s : result (keyed task_row) * hub :=
  match (id ← _required_text (field operation "operation_id") "operation_id" 256;
         raise_if (negb (same_text (field operation "user_subject") user)) TaskIntegrityError
           "operation belongs to another user";;
         plan_id ← _required_text (JStr plan_id) "plan_id" 128;
         step_key ← _required_text (JStr step_key) "step_key" 80;
         Ok (id, plan_id, step_key)) with
  | Raise e => (Raise e, s)
  | Ok (id, plan_id, step_key) => transaction (link_plan_operation_body task user operation id plan_id step_key now d) s
  end.

Definition operation_ids_for_task (task user : string) s : result (list string) :=
  _ ← _select_owned_task task user s;
  Ok (map fst (select_where (fun l => String.eqb (l_task_id l) task && String.eqb (l_user_subject l) user) (operation_links s))).

Definition record_plan_event_body (task user event_type : string) (p : payload) (causation : option string) (now : instant)
    (d : event_draw) : tx hub (keyed task_row) := fun s =>
  row ← _select_owned_task task user s;
  (_append_event d task user event_type p causation now;;
   match plan_task_status (t_status row) (Some event_type) with
   | Some status => _update_task_state task status (t_current_operation_id row) (t_current_interaction_id row) now
   | None => mret tt
   end;;
   selected_task task) s.

Definition record_plan_event (task user event_type : string) (p : payload) (causation : option string) (now : instant)
    (d : event_draw) s : result (keyed task_row) * hub :=
  if negb (startswith "plan." event_type) then (raise ValueError "plan event type must start with plan.", s)
  else transaction (record_plan_event_body task user event_type p causation now d) s.

Definition record_analysis_phase (task user phase request_id : string) (now : instant) (d : event_draw) s : result unit * hub :=
  if negb (str_in phase ["identity"; "visibility"; "query"; "verify"; "deliver"])
  then (raise ValueError "unknown analysis phase", s)
  else
    transaction (fun s =>
      row ← _select_owned_task task user s;
      raise_if (negb (str_in (t_status row) ACTIVE_TASK_STATUSES)) TaskIntegrityError "analysis task is no longer active";;
      (_append_event d task user "task.analysis.progress" [("phase", JStr phase)] (Some (request_id +:+ ":" +:+ phase)) now;;
       mret tt) s) s.

(** The fields of [interaction_record] and [interaction] that are read; [state] and [type] are texts or missing. *)
Record interaction_args : Type := InteractionArgs {
  ia_interaction_id : json;
  ia_user_subject : string;
  ia_scoped_task : option string;
  ia_state : option string;
  ia_type : option string;
}.

Definition link_interaction_body (task user id : string) (a : interaction_args) (now : instant) (fresh : string -> string)
    (d : event_draw) : tx hub (keyed task_row) := fun s =>
  let state := or_empty (ia_state a) in
  row ← _select_owned_task task user s;
  let linked := interaction_links s !! id in
  raise_if match linked with Some l => negb (String.eqb (i_task_id l) task) | None => false end TaskIntegrityError
    "interaction is already linked to another task";;
  let decision := interaction_observation (facts_of row) id state (or_empty (ia_type a))
                    match linked with None => true | Some _ => false end
                    match linked with Some l => i_last_state l | None => None end in
  let s1 := match linked with
            | None => with_interaction_links (<[id := InteractionLink task user now (Some state) (Some now)]> (interaction_links s)) s
            | Some l =>
                if observation_changed decision
                then with_interaction_links (<[id := InteractionLink (i_task_id l) (i_user_subject l) (i_linked_at l)
                                                       (Some state) (Some now)]> (interaction_links s)) s
                else s
            end in
  ((if update_task decision
    then _update_task_state task (TaskStateRules.status decision) (t_current_operation_id row) (Some id) now
    else mret tt);;
   (if emit_event decision
    then (if String.eqb (event_type decision) "task.interaction.waiting"
          then _subscribe_companion_endpoints fresh task user now else mret tt);;
         _append_event d task user (event_type decision)
           [("interactionId", JStr id); ("interactionType", opt_text (ia_type a)); ("state", JStr state)] (Some id) now
    else mret "");;
   selected_task task) s1.

Definition link_interaction (task user : string) (a : interaction_args) (now : instant) (fresh : string -> string)
    (d : event_draw) s : result (keyed task_row) * hub :=
  match (id ← _required_text (ia_interaction_id a) "interaction_id" 256;
         raise_if (negb (String.eqb (ia_user_subject a) user)) TaskIntegrityError "interaction belongs to another user";;
         raise_if (opt_truthy (ia_scoped_task a) && negb (String.eqb (or_empty (ia_scoped_task a)) task)) TaskIntegrityError
           "interaction belongs to another task";;
         Ok id) with
  | Raise e => (Raise e, s)
  | Ok id => transaction (link_interaction_body task user id a now fresh d) s
  end.

(** ** Ends *)

(** [complete_task], [fail_task], [mark_task_outcome_unknown] and [cancel_task] differ in the status that they lead to,
    in what they write before ([before]) and after ([beyond]) it, and in their event. *)
Definition end_task (task user status verb event_type : string) (p : payload) (causation : option string)
    (before beyond : task_row -> tx hub unit) (now : instant) (fresh : string -> string) (d : event_draw)
  : tx hub (keyed task_row) := fun s =>
  row ← _select_owned_task task user s;
  match terminal_transition (t_status row) status with
  | Reuse => Ok ((task, row), s)
  | Reject => violates ("terminal task cannot " +:+ verb +:+ ": " +:+ t_status row)
  | Apply =>
      (before row;;
       _subscribe_companion_endpoints fresh task user now;;
       _update_task_state task status (t_current_operation_id row) (t_current_interaction_id row) now;;
       beyond row;;
       _append_event d task user event_type p causation now;;
       selected_task task) s
  end.

Definition nothing_more (row : task_row) : tx hub unit := mret tt.

Definition complete_task (task user reason : string) (causation : option string) (now : instant) (fresh : string -> string)
    (d : event_draw) s : result (keyed task_row) * hub :=
  transaction (fun s =>
    reason ← _required_text (JStr reason) "reason" 120;
    end_task task user "succeeded" "be completed" "task.completed" [("status", JStr "succeeded"); ("reason", JStr reason)]
      causation nothing_more nothing_more now fresh d s) s.

Definition failure_noted (task code message : string) (row : task_row) : tx hub unit := fun s =>
  Ok (tt, set_task task (summarized_task (dict_set "failure" (JObj [("code", JStr code); ("message", JStr message)])
                                            (t_summary row))) s).

Definition fail_task (task user error_code message : string) (causation : option string) (now : instant)
    (fresh : string -> string) (d : event_draw) s : result (keyed task_row) * hub :=
  transaction (fun s =>
    code ← _required_text (JStr error_code) "error_code" 120;
    message ← _required_text (JStr message) "message" 500;
    end_task task user "failed" "be failed" "task.failed" [("status", JStr "failed"); ("errorCode", JStr code)]
      causation (failure_noted task code message) nothing_more now fresh d s) s.

Definition mark_task_outcome_unknown (task user error_code : string) (causation : option string) (now : instant)
    (fresh : string -> string) (d : event_draw) s : result (keyed task_row) * hub :=
  transaction (fun s =>
    code ← _required_text (JStr error_code) "error_code" 120;
    end_task task user "outcome_unknown" "become outcome_unknown" "task.operation.outcome_unknown"
      [("status", JStr "outcome_unknown"); ("errorCode", JStr code)] causation nothing_more nothing_more now fresh d s) s.

(** The body alone when the caller hands its connection over *)
Definition cancel_task_body (task user reason : string) (causation : option string) (now : instant)
    (fresh : string -> string) (d : event_draw) : tx hub (keyed task_row) := fun s =>
  reason ← _required_text (JStr reason) "reason" 120;
  end_task task user "canceled" "be canceled" "task.canceled" [("status", JStr "canceled"); ("reason", JStr reason)]
    causation nothing_more (fun row => cancel_batch task user row now) now fresh d s.

Definition cancel_task (task user reason : string) (causation : option string) (now : instant) (fresh : string -> string)
    (d : event_draw) s : result (keyed task_row) * hub :=
  transaction (cancel_task_body task user reason causation now fresh d) s.

(** ** Reading *)

Definition limit_of (limit : Z) (maximum : Z) : nat := Z.to_nat (Z.min (Z.max limit 1) maximum).

Definition owned_link (user : string) {R} (owner task : R -> string) (r : option R) : option string :=
  match r with Some r => if String.eqb (owner r) user then Some (task r) else None | None => None end.

Definition task_id_for_operation (operation user : string) s : option string :=
  owned_link user l_user_subject l_task_id (operation_links s !! operation).

Definition task_id_for_interaction (interaction user : string) s : option string :=
  owned_link user i_user_subject i_task_id (interaction_links s !! interaction).

Definition linked_earlier (x y : keyed interaction_link) : bool := (i_linked_at (snd x) <=? i_linked_at (snd y))%Z.

Definition list_task_interactions (task user : string) (limit : Z) s : result (list (keyed interaction_link)) :=
  _ ← _select_owned_task task user s;
  Ok (take (limit_of limit 500) (sort_by linked_earlier (select_where (fun l =>
        String.eqb (i_task_id l) task && String.eqb (i_user_subject l) user) (interaction_links s)))).

Definition lately_moved (x y : keyed task_row) : bool := (t_updated_at (snd y) <=? t_updated_at (snd x))%Z.

Definition active_task (t : task_row) : bool := str_in (t_status t) ACTIVE_TASK_STATUSES.

Definition lately_used (x y : keyed endpoint_row) : bool := (e_updated_at (snd y) <=? e_updated_at (snd x))%Z.

Definition list_endpoints (user : string) (active_only : bool) (limit : Z) s : list (keyed endpoint_row) :=
  take (limit_of limit 500) (sort_by lately_used (select_where (fun e =>
    String.eqb (e_user_subject e) user && (negb active_only || String.eqb (e_state e) "active")) (endpoints s))).

(** The operation store's rows, by their identifier *)
Definition task_has_succeeded_capability (operation_rows : string -> option (string * string)) (task user : string)
    (capability_names : list string) s : result bool :=
  match capability_names with
  | [] => Ok false
  | _ =>
      _ ← _select_owned_task task user s;
      Ok (existsb (fun l => String.eqb (l_task_id (snd l)) task && String.eqb (l_user_subject (snd l)) user
            && match operation_rows (fst l) with
               | Some (status, capability) => String.eqb status "succeeded" && str_in capability capability_names
               | None => false
               end) (map_to_list (operation_links s)))
  end.
End Ledger.
