(* ===== verification/TaskOutbox.v ===== *)
(** * Deliveries and the timeline of the task hub (agentbridge/core/tasks.py)

    What a user's endpoints are to be told waits in the outbox: a host claims the deliveries of an endpoint for a short
    lease, tries to deliver them, and reports what came of it. *)

From S2P Require Import Prelude PyStr Json Store InputValidation TaskStateRules TaskTables TaskLedger.

#[local] Open Scope list_scope.

(** ** Rows that the updates write *)

Definition moved_delivery (state : string) (attempts : Z) (next now : instant) (acknowledged : option instant)
    (o : delivery_row) : delivery_row :=
  DeliveryRow (o_event_id o) (o_task_id o) (o_endpoint_id o) (o_user_subject o) (o_payload_type o) (o_payload o) state
    attempts next (o_created_at o) now acknowledged.

Definition claimed_delivery (lease now : instant) (o : delivery_row) : delivery_row :=
  moved_delivery "delivering" (o_attempt_count o + 1)%Z lease now (o_acknowledged_at o) o.

Definition closed_delivery (state : string) (now : instant) (o : delivery_row) : delivery_row :=
  moved_delivery state (o_attempt_count o) (o_next_attempt_at o) now (o_acknowledged_at o) o.

(** [state = 'pending', attempt_count = 0, next_attempt_at = ?, acknowledged_at = NULL] *)
Definition requeued_delivery (next now : instant) (o : delivery_row) : delivery_row :=
  moved_delivery "pending" 0 next now None o.

Section Outbox.
Context `{UnicodeTables}.
Implicit Types (s : hub) (o : delivery_row).

Definition delivery : Type := string * delivery_row.

Definition bound (n low high : Z) : Z := Z.min (Z.max n low) high.

Definition addressed (user endpoint : string) o : bool :=
  String.eqb (o_user_subject o) user && String.eqb (o_endpoint_id o) endpoint.

(** A delivery that may be claimed, and one whose last attempt has run out *)
Definition due (user endpoint : string) (now : instant) o : bool :=
  addressed user endpoint o && (o_attempt_count o <? 5)%Z && str_in (o_state o) ["pending"; "delivering"]
  && (o_next_attempt_at o <=? now)%Z.

Definition exhausted (user endpoint : string) (now : instant) o : bool :=
  addressed user endpoint o && String.eqb (o_state o) "delivering" && (5 <=? o_attempt_count o)%Z
  && (o_next_attempt_at o <=? now)%Z.

(** [ORDER BY created_at, rowid] *)
Definition earlier (x y : delivery) : bool := (o_created_at (snd x) <=? o_created_at (snd y))%Z.
Definition later_first (x y : delivery) : bool := (o_created_at (snd y) <=? o_created_at (snd x))%Z.

Definition open_endpoint (user endpoint : string) s : result endpoint_row :=
  e ← _select_endpoint endpoint s;
  raise_if (negb (String.eqb (e_user_subject e) user) || negb (String.eqb (e_state e) "active")) TaskNotFound
    "client endpoint not found";;
  Ok e.

(** *** Claims *)

(** The loop over the candidates: each is claimed and read again. *)
Fixpoint claim_each (user endpoint : string) (lease now : instant) (ids : list string) (l : list delivery)
  : list delivery * list delivery :=
  match ids with
  | [] => ([], l)
  | id :: rest =>
      match row_by_key id l with
      | Some o =>
          if due user endpoint now o then
            let '(claimed, l') := claim_each user endpoint lease now rest
                (update_row id (due user endpoint now) (claimed_delivery lease now) l) in
            ((id, claimed_delivery lease now o) :: claimed, l')
          else claim_each user endpoint lease now rest l
      | None => claim_each user endpoint lease now rest l
      end
  end.

Definition claim_body (user endpoint : string) (limit : nat) (lease now : instant) : tx hub (list delivery) := fun s =>
  _ ← open_endpoint user endpoint s;
  let l := update_rows (exhausted user endpoint now) (closed_delivery "failed" now) (outbox s) in
  let ids := map fst (take limit (sort_by earlier (rows_where (due user endpoint now) l))) in
  let '(claimed, l') := claim_each user endpoint lease now ids l in
  Ok (claimed, with_outbox l' s).

(** [seen] is what the first reads see, before the transaction begins; [now'] is the reading of [_utc_after]. *)
Definition claim_outbox (user endpoint : string) (limit lease_seconds : Z) (now now' : instant) (seen s : hub)
  : result (list delivery) * hub :=
  match open_endpoint user endpoint seen with
  | Raise e => (Raise e, s)
  | Ok _ =>
      if existsb (fun kr => due user endpoint now (snd kr) || exhausted user endpoint now (snd kr)) (outbox seen)
      then transaction (claim_body user endpoint (Z.to_nat (bound limit 1 100)) (now' + seconds (bound lease_seconds 5 300))%Z now) s
      else (Ok [], s)
  end.

(** *** Reports *)

Record report : Type := Report { rp_succeeded : bool; rp_retry_after_seconds : Z; rp_defer_until_activity : bool }.

(** The row that a report writes; [now'] is the reading of [_utc_after]. *)
Definition reported_delivery (r : report) (now now' : instant) o : delivery_row :=
  if rp_succeeded r then moved_delivery "acknowledged" (o_attempt_count o) (o_next_attempt_at o) now (Some now) o
  else if rp_defer_until_activity r then moved_delivery "deferred" (o_attempt_count o) now now None o
  else if (5 <=? o_attempt_count o)%Z then moved_delivery "failed" (o_attempt_count o) (o_next_attempt_at o) now None o
  else moved_delivery "pending" (o_attempt_count o) (now' + seconds (bound (rp_retry_after_seconds r) 1 300))%Z now None o.

Definition all_rows o : bool := true.

(** An update of the delivery and the row that is read after it *)
Definition write_delivery (id : string) (o : delivery_row) : tx hub delivery := fun s =>
  Ok ((id, o), with_outbox (update_row id all_rows (fun _ => o) (outbox s)) s).

Definition acknowledge_outbox (user endpoint id : string) (r : report) (now now' : instant) s : result delivery * hub :=
  if rp_succeeded r && rp_defer_until_activity r
  then (raise ValueError "successful delivery cannot be deferred until endpoint activity", s)
  else
    transaction (fun s =>
      match row_by_key id (outbox s) with
      | Some o =>
          if addressed user endpoint o then write_delivery id (reported_delivery r now now' o) s
          else not_found "notification delivery not found"
      | None => not_found "notification delivery not found"
      end) s.

(** *** Activity of an endpoint *)

Definition closing_event_types : list string :=
  ["task.operation.failed"; "task.operation.succeeded"; "task.completed"; "task.canceled"; "plan.completed"].

Definition old_message (user endpoint : string) o : bool :=
  addressed user endpoint o && String.eqb (o_state o) "deferred" && String.eqb (o_payload_type o) "timeline_message".

Definition old_notice (user endpoint : string) (ts : gmap string task_row) o : bool :=
  addressed user endpoint o && String.eqb (o_state o) "deferred" && String.eqb (o_payload_type o) "task_event"
  && match field (o_payload o) "eventType" with JStr e => str_in e closing_event_types | _ => false end
  && match ts !! o_task_id o with
     | Some t => String.eqb (t_user_subject t) user && str_in (t_status t) TERMINAL_TASK_STATUSES
     | None => false
     end.

Definition deferred (user endpoint : string) o : bool := addressed user endpoint o && String.eqb (o_state o) "deferred".

Definition reactivate_deferred_outbox (user endpoint : string) (delay_seconds : Z) (now now' : instant) s : result Z * hub :=
  transaction (fun s =>
    e ← open_endpoint user endpoint s;
    let l := if str_in (str_lower (e_client_type e)) ["openclaw-weixin"; "wechat"; "weixin"]
             then update_rows (old_notice user endpoint (tasks s)) (closed_delivery "archived" now)
                    (update_rows (old_message user endpoint) (closed_delivery "archived" now) (outbox s))
             else outbox s in
    let next := (now' + seconds (bound delay_seconds 0 300))%Z in
    Ok (Z.of_nat (length (rows_where (deferred user endpoint) l)),
        with_outbox (update_rows (deferred user endpoint) (requeued_delivery next now) l) s)) s.

(** *** Administration *)

Definition get_delivery (id : string) s : result delivery :=
  match row_by_key id (outbox s) with Some o => Ok (id, o) | None => not_found "notification delivery not found" end.

Definition administer (id : string) (states : list string) (message : string) (f : delivery_row -> delivery_row)
  : tx hub delivery := fun s =>
  '(id, o) ← get_delivery id s;
  raise_if (negb (str_in (o_state o) states)) TaskIntegrityError message;;
  write_delivery id (f o) s.

Definition requeue_delivery (id : string) (now : instant) s : result delivery * hub :=
  transaction (administer id ["failed"; "deferred"; "archived"]
    "only failed, deferred, or archived delivery can be requeued" (requeued_delivery now now)) s.

Definition archive_delivery (id : string) (now : instant) s : result delivery * hub :=
  transaction (administer id ["failed"; "acknowledged"] "only failed or acknowledged delivery can be archived"
    (closed_delivery "archived" now)) s.

Definition list_outbox (user : string) (endpoint : option string) (limit : Z) (newest_first : bool) s : list delivery :=
  let l := rows_where (fun o => String.eqb (o_user_subject o) user
             && (negb (opt_truthy endpoint) || String.eqb (o_endpoint_id o) (or_empty endpoint))) (outbox s) in
  take (limit_of limit 500) (if newest_first then sort_by later_first (rev l) else sort_by earlier l).

(** ** The timeline *)

Definition _timeline_text (text : string) : result string :=
  let normalized := py_strip (join_chars (List.filter (fun c => negb (codepoint c =? 0)%N) (chars text))) in
  raise_if (negb (truthy normalized) || (50000 <? py_len normalized)%Z) ValueError "timeline text is invalid";;
  Ok normalized.

(** [list(value or [])] *)
Definition list_of (value : json) : result (list json) :=
  if negb (json_truthy value) then Ok []
  else match value with
       | JArr l => Ok l
       | JObj kvs => Ok (map (fun kv => JStr (fst kv)) kvs)
       | JStr t => Ok (map JStr (chars t))
       | _ => raise TypeError "object is not iterable"
       end.

(** An endpoint that is told of a message *)
Definition hears (user source : string) (notify_source : bool) (ke : string * endpoint_row) : bool :=
  reachable_endpoint user (snd ke) && (negb (String.eqb (fst ke) source) || notify_source)
  && negb (str_in (e_client_type (snd ke)) ["web"; "webchat"])
  && existsb (fun c => str_in c ["direct_status"; "timeline_message"]) (e_capabilities (snd ke)).

Definition message_payload (isoformat : instant -> string) (entry : string) (m : timeline_row) (attachments : list json) (source_id : string)
    (source : option endpoint_row) : payload :=
  [("entryId", JStr entry); ("sequence", JInt (m_sequence m)); ("role", opt_text (m_role m)); ("text", opt_text (m_text m));
   ("attachments", JArr attachments); ("createdAt", JStr (isoformat (m_created_at m)));
   ("source", JObj [("endpointId", JStr source_id);
                    ("clientType", JStr (match source with Some e => e_client_type e | None => "unknown" end));
                    ("label", match source with Some e => opt_text (e_label e) | None => JNull end)])].

(** [isoformat] is the text of a time. *)
Definition _enqueue_timeline_message (isoformat : instant -> string) (fresh : string -> string) (entry : string) (m : timeline_row) (source_id : string)
    (notify_source : bool) : tx hub unit := fun s =>
  attachments ← list_of (field (m_payload m) "attachments");
  let p := message_payload isoformat entry m attachments source_id (endpoints s !! source_id) in
  let user := m_user_subject m in
  Ok (tt, with_outbox (fold_left (fun l ke =>
        append_or_ignore (fresh (fst ke)) (same_delivery entry (fst ke) "timeline_message")
          (new_delivery entry (or_empty (m_task_id m)) (fst ke) user "timeline_message" p (m_created_at m)) l)
      (List.filter (hears user source_id notify_source) (map_to_list (endpoints s))) (outbox s)) s).

Record message_args : Type := MessageArgs {
  ma_user_subject : string;
  ma_source_endpoint_id : string;
  ma_message_key : string;
  ma_role : string;
  ma_text : string;
  ma_task_id : option string;
  ma_payload : option payload;
  ma_notify_source : bool;
}.

Definition append_entry (entry : string) (m : timeline_row) : tx hub unit := fun s =>
  t ← append_row entry (same_entry (m_user_subject m) (m_dedupe_key m)) m (timeline s);
  Ok (tt, with_told (events s) t (outbox s) s).

(** [fresh] draws the deliveries, by their endpoint. *)
Definition _append_timeline_message_in_connection (isoformat : instant -> string) (a : message_args) (now : instant) (entry : string) (fresh : string -> string)
  : tx hub ((string * timeline_row) * bool) := fun s =>
  user ← _required_text (JStr (ma_user_subject a)) "user_subject" 256;
  key ← _required_text (JStr (ma_message_key a)) "message_key" 768;
  raise_if (negb (str_in (ma_role a) ["user"; "assistant"])) ValueError "timeline role is invalid";;
  text ← _timeline_text (ma_text a);
  task ← (if opt_truthy (ma_task_id a)
          then t ← _required_text (JStr (or_empty (ma_task_id a))) "task_id" 128; Ok (Some t) else Ok None);
  let source := ma_source_endpoint_id a in
  let dedupe_key := "message:" +:+ key in
  _ ← open_endpoint user source s;
  _ ← match task with Some t => (_ ← _select_owned_task t user s; Ok tt) | None => Ok tt end;
  match List.find (fun kr => same_entry user dedupe_key (snd kr)) (timeline s) with
  | Some existing => Ok ((existing, true), s)
  | None =>
      let m := TimelineRow (next_sequence (timeline s)) user "chat_message" dedupe_key (Some source) task (Some (ma_role a))
                 (Some text) (_safe_object (ma_payload a)) now in
      (append_entry entry m;;
       _enqueue_timeline_message isoformat fresh entry m source (ma_notify_source a);;
       mret ((entry, m), false)) s
  end.

Definition append_timeline_message (isoformat : instant -> string) (a : message_args) (now : instant) (entry : string) (fresh : string -> string) s
  : result ((string * timeline_row) * bool) * hub :=
  transaction (_append_timeline_message_in_connection isoformat a now entry fresh) s.

Definition get_timeline_message (user message_key : string) s : result (string * timeline_row) :=
  user ← _required_text (JStr user) "user_subject" 256;
  key ← _required_text (JStr message_key) "message_key" 768;
  match List.find (fun kr => same_entry user ("message:" +:+ key) (snd kr)
                     && String.eqb (m_entry_type (snd kr)) "chat_message") (timeline s) with
  | Some x => Ok x
  | None => not_found "timeline message not found"
  end.

Definition last_of {A} (n : nat) (l : list A) : list A := rev (take n (rev l)).

(** The rows are in the order of their sequence. *)
Definition list_timeline (user : string) (after_sequence before_sequence : option Z) (entry_type : option string) (limit : Z) s
  : result (list (string * timeline_row)) :=
  raise_if match after_sequence, before_sequence with Some _, Some _ => true | _, _ => false end ValueError
    "after_sequence and before_sequence are mutually exclusive";;
  raise_if match entry_type with Some t => negb (str_in t ["chat_message"; "task_event"]) | None => false end ValueError
    "entry_type must be chat_message or task_event";;
  let limit := limit_of limit 1000 in
  let l := rows_where (fun m => String.eqb (m_user_subject m) user
             && match entry_type with Some t => String.eqb (m_entry_type m) t | None => true end) (timeline s) in
  Ok match after_sequence, before_sequence with
     | Some n, _ => take limit (rows_where (fun m => Z.max n 0 <? m_sequence m)%Z l)
     | None, Some n => last_of limit (rows_where (fun m => m_sequence m <? Z.max n 1)%Z l)
     | None, None => last_of limit l
     end.

Definition latest_timeline_sequence (user : string) s : Z :=
  fold_left Z.max (map (fun kr => m_sequence (snd kr)) (rows_where (fun m => String.eqb (m_user_subject m) user) (timeline s))) 0%Z.

(** [ORDER BY COALESCE(timeline.sequence, 0), created_at, rowid] *)
Definition in_sequence (entries : list (string * timeline_row)) (x y : string * event_row) : bool :=
  let at_ k := match assoc k entries with Some m => m_sequence m | None => 0%Z end in
  (at_ (fst x) <? at_ (fst y))%Z
  || (at_ (fst x) =? at_ (fst y))%Z && (v_created_at (snd x) <=? v_created_at (snd y))%Z.

Definition list_events (task user : string) (limit : Z) s : result (list (string * event_row)) :=
  _ ← _select_owned_task task user s;
  Ok (take (limit_of limit 500) (sort_by (in_sequence (timeline s))
        (rows_where (fun v => String.eqb (v_task_id v) task && String.eqb (v_user_subject v) user) (events s)))).
End Outbox.
