(* ===== verification/TaskContinuations.v ===== *)
(** * Maintenance and continuations of the task hub (agentbridge/core/tasks.py)

    Maintenance repairs the rows that earlier versions or lost hosts have left behind.  A continuation is how an endpoint
    takes up a task again: it holds the candidates that a user was offered, or the task that was selected, for a while. *)

From S2P Require Import Prelude PyStr Json Store InputValidation TaskStateRules TaskTables TaskLedger.

#[local] Open Scope list_scope.

(** The rows of the sibling stores in the same database file, when their tables are there: the type of an interaction,
    and the status and the end of an operation *)
Record siblings : Type := Siblings {
  interaction_rows : option (string -> option string);
  operation_rows : option (string -> option (string * option instant));
}.

Section Maintenance.
Context `{UnicodeTables}.
Implicit Types (s : hub) (t : task_row).

(** [UPDATE agent_tasks SET .. WHERE ..], of each row with its identifier *)
Definition update_tasks (p : string -> task_row -> bool) (f : string -> task_row -> task_row) s : hub :=
  with_tasks (map_imap (fun id t => Some (if p id t then f id t else t)) (tasks s)) s.

(** ** Orphans *)

Definition ORPHAN_TASK_MAX_AGE_MINUTES : Z := 15.
Definition minutes (n : Z) : Z := (n * 60000000)%Z.

Definition expired_task t : task_row :=
  TaskRow (t_user_subject t) (t_agent_host t) (t_host_task_key t) (t_origin_endpoint_id t) (t_title t) "expired"
    (t_summary t) (t_current_operation_id t) (t_current_interaction_id t) (t_active_conversation_ref t)
    (t_version t + 1)%Z (t_created_at t) (t_updated_at t)
    (match t_finished_at t with Some f => Some f | None => Some (t_updated_at t) end).

Definition is_none {A} (o : option A) : bool := match o with None => true | Some _ => false end.

(** An old shell that nothing but its creation has touched *)
Definition orphan_shell s (cutoff : instant) (id : string) t : bool :=
  active_task t && (t_created_at t <=? cutoff)%Z && is_none (t_current_operation_id t) && is_none (t_current_interaction_id t)
  && negb (exists_where (fun l => String.eqb (l_task_id l) id) (operation_links s))
  && negb (exists_where (fun l => String.eqb (i_task_id l) id) (interaction_links s))
  && negb (exists_where (fun a => String.eqb (a_task_id a) id) (artifacts s))
  && negb (existsb (fun v => String.eqb (v_task_id (snd v)) id && negb (String.eqb (v_event_type (snd v)) "task.created")) (events s)).

(** A task that waits for a user whose card was never made *)
Definition orphan_wait s (operations : string -> option (string * option instant)) (cutoff : instant) (id : string) t : bool :=
  String.eqb (t_status t) "waiting_user" && (t_updated_at t <=? cutoff)%Z && is_none (t_current_interaction_id t)
  && match t_current_operation_id t with
     | Some o => match operations o with
                 | Some (status, Some _) => String.eqb status "requires_user_action"
                 | _ => false
                 end
     | None => false
     end
  && negb (exists_where (fun l => String.eqb (i_task_id l) id) (interaction_links s))
  && negb (exists_where (fun b => String.eqb (b_parent_task_id b) id) (batches s)).

Definition count_tasks (p : string -> task_row -> bool) s : nat :=
  length (List.filter (fun kt => p (fst kt) (snd kt)) (map_to_list (tasks s))).

Definition _expire_orphan_task_shells (g : siblings) (now : instant) : tx hub nat := fun s =>
  let cutoff := (now - minutes ORPHAN_TASK_MAX_AGE_MINUTES)%Z in
  let s1 := update_tasks (orphan_shell s cutoff) (fun _ => expired_task) s in
  let n := count_tasks (orphan_shell s cutoff) s in
  match operation_rows g with
  | None => Ok (n, s1)
  | Some operations =>
      Ok ((n + count_tasks (orphan_wait s1 operations cutoff) s1)%nat,
          update_tasks (orphan_wait s1 operations cutoff) (fun _ => expired_task) s1)
  end.

(** ** Repairs at startup *)

Definition event_states : list (string * string) :=
  [("task.interaction.waiting", "pending"); ("task.interaction.completed", "completed"); ("task.canceled", "declined");
   ("task.interaction.expired", "expired"); ("task.interaction.failed", "failed"); ("task.interaction.superseded", "superseded")].

(** The last event of an interaction; the rows are in the order of their rowid. [LIKE] ignores the case of ASCII letters. *)
Definition last_event (interaction : string) s : option (string * event_row) :=
  head (sort_by (fun x y => v_created_at (snd y) <=? v_created_at (snd x))%Z
    (rev (rows_where (fun v => bool_decide (v_causation_ref v = Some interaction)
       && (startswith "task.interaction." (ascii_lower (v_event_type v)) || String.eqb (v_event_type v) "task.canceled")) (events s)))).

Definition backfilled s (id : string) (l : interaction_link) : interaction_link :=
  match i_last_state l, last_event id s with
  | None, Some (_, v) =>
      match assoc (v_event_type v) event_states with
      | Some state => InteractionLink (i_task_id l) (i_user_subject l) (i_linked_at l) (Some state) (Some (v_created_at v))
      | None => l
      end
  | _, _ => l
  end.

Definition _backfill_task_interaction_observations s : hub :=
  with_interaction_links (map_imap (fun id l => Some (backfilled s id l)) (interaction_links s)) s.

(** The columns that the repairs set *)
Definition repaired_task (status : string) (interaction : option string) (updated finished : instant) t : task_row :=
  TaskRow (t_user_subject t) (t_agent_host t) (t_host_task_key t) (t_origin_endpoint_id t) (t_title t) status (t_summary t)
    (t_current_operation_id t) interaction (t_active_conversation_ref t) (t_version t + 1)%Z (t_created_at t) updated
    (Some finished).

Definition or_updated (o : option instant) t : instant := match o with Some i => i | None => t_updated_at t end.

Definition scan_of (id : string) (a : artifact_row) : bool :=
  String.eqb (a_task_id a) id && String.eqb (a_artifact_type a) "certificate_scan".

Definition latest_scan s (id : string) : option instant :=
  match map (fun a => a_created_at (snd a)) (select_where (scan_of id) (artifacts s)) with
  | [] => None
  | x :: l => Some (fold_left Z.max l x)
  end.

Definition delivered_scan s (id : string) t : bool :=
  active_task t && String.eqb (t_title t) "Prepare and Deliver One OA Certificate Scan" && exists_where (scan_of id) (artifacts s).

Definition current_link s t : option interaction_link :=
  match t_current_interaction_id t with Some i => interaction_links s !! i | None => None end.

Definition observed_at s t : option instant :=
  match current_link s t with Some l => i_last_observed_at l | None => None end.

Definition last_state_is (state : string) s t : bool :=
  match current_link s t with Some l => bool_decide (i_last_state l = Some state) | None => false end.

Definition login_done (types : string -> option string) s (_ : string) t : bool :=
  active_task t && is_none (t_current_operation_id t) && last_state_is "completed" s t
  && match t_current_interaction_id t with
     | Some i => bool_decide (types i = Some "credential")
     | None => false
     end.

Definition operation_done (operations : string -> option (string * option instant)) (_ : string) t : bool :=
  active_task t && match t_current_operation_id t with
                   | Some o => match operations o with Some (status, _) => String.eqb status "succeeded" | None => false end
                   | None => false
                   end.

Definition operation_end (operations : string -> option (string * option instant)) t : option instant :=
  match t_current_operation_id t with
  | Some o => match operations o with Some (_, finished) => finished | None => None end
  | None => None
  end.

(** The interaction of the task that was linked last and is not open *)
Definition settled_interaction s (id : string) : option string :=
  option_map fst (head (sort_by (fun x y => i_linked_at (snd y) <=? i_linked_at (snd x))%Z
    (select_where (fun l => String.eqb (i_task_id l) id
       && match i_last_state l with Some state => negb (str_in state ["pending"; "processing"]) | None => true end)
       (interaction_links s)))).

Definition superseded_task s (_ : string) t : bool := active_task t && last_state_is "superseded" s t.

Definition at_once (status : string) (when : string -> task_row -> option instant) (id : string) t : task_row :=
  repaired_task status (t_current_interaction_id t) (or_updated (when id t) t) (or_updated (when id t) t) t.

Definition _repair_terminal_task_statuses (g : siblings) s : hub :=
  let s1 := update_tasks (delivered_scan s) (at_once "succeeded" (fun id _ => latest_scan s id)) s in
  let s2 := match interaction_rows g with
            | Some types => update_tasks (login_done types s1) (at_once "succeeded" (fun _ => observed_at s1)) s1
            | None => s1
            end in
  match operation_rows g with
  | None => s2
  | Some operations =>
      let s3 := update_tasks (operation_done operations) (fun id t =>
                  repaired_task "succeeded"
                    (match settled_interaction s2 id with Some i => Some i | None => t_current_interaction_id t end)
                    (t_updated_at t) (or_updated (operation_end operations t) t) t) s2 in
      update_tasks (superseded_task s3) (at_once "superseded" (fun _ => observed_at s3)) s3
  end.

Definition pull_based s (endpoint : string) : bool :=
  match endpoints s !! endpoint with Some e => str_in (ascii_lower (e_client_type e)) ["web"; "webchat"] | None => false end.

Definition inactive_subscription (now : instant) (sub : subscription_row) : subscription_row :=
  SubscriptionRow (s_task_id sub) (s_endpoint_id sub) (s_user_subject sub) (s_event_filters sub) "inactive"
    (s_created_at sub) now.

Definition settled_delivery (now : instant) (o : delivery_row) : delivery_row :=
  DeliveryRow (o_event_id o) (o_task_id o) (o_endpoint_id o) (o_user_subject o) (o_payload_type o) (o_payload o)
    "acknowledged" (o_attempt_count o) (o_next_attempt_at o) (o_created_at o) now
    (match o_acknowledged_at o with Some a => Some a | None => Some now end).

Definition _reconcile_pull_based_deliveries (now : instant) s : hub :=
  with_outbox (update_rows (fun o => String.eqb (o_payload_type o) "task_event"
      && str_in (o_state o) ["pending"; "delivering"; "failed"] && pull_based s (o_endpoint_id o)) (settled_delivery now) (outbox s))
    (with_subscriptions (update_where (fun sub => String.eqb (s_state sub) "active" && pull_based s (s_endpoint_id sub))
       (inactive_subscription now) (subscriptions s)) s).

(** [now] and [now'] are the readings of the clock. *)
Definition run_startup_maintenance (g : siblings) (now now' : instant) s : result unit * hub :=
  transaction (fun s =>
    let s := _repair_terminal_task_statuses g (_backfill_task_interaction_observations s) in
    '(_, s) ← _expire_orphan_task_shells g now s;
    Ok (tt, _reconcile_pull_based_deliveries now' s)) s.

(** ** Lists of tasks *)

Definition list_tasks (g : siblings) (user : string) (endpoint : option string) (active_only : bool) (limit : Z) (now : instant) s
  : result (list (keyed task_row)) * hub :=
  transaction (fun s =>
    '(_, s) ← _expire_orphan_task_shells g now s;
    Ok (take (limit_of limit 500) (sort_by lately_moved (select_where (fun t => String.eqb (t_user_subject t) user
          && (negb (opt_truthy endpoint) || String.eqb (t_origin_endpoint_id t) (or_empty endpoint))
          && (negb active_only || active_task t)) (tasks s))), s)) s.

Definition recovery_candidates (g : siblings) (user endpoint : string) (limit : Z) (now : instant) s
  : result (list (keyed task_row) * keyed endpoint_row) * hub :=
  transaction (fun s =>
    '(_, s) ← _expire_orphan_task_shells g now s;
    e ← _select_endpoint endpoint s;
    raise_if (negb (String.eqb (e_user_subject e) user)) TaskNotFound "client endpoint not found";;
    Ok ((take (limit_of limit 500) (sort_by lately_moved (select_where (fun t => String.eqb (t_user_subject t) user
           && String.eqb (t_origin_endpoint_id t) endpoint && negb (is_none (t_current_interaction_id t)) && active_task t)
           (tasks s))), (endpoint, e)), s)) s.
End Maintenance.

(** ** Continuations *)

Section Continuations.
Context `{UnicodeTables}.
Implicit Types (s : hub) (c : continuation_row).

(** The endpoint of the caller: of the user and the host, and active *)
Definition own_endpoint (user host endpoint : string) s : result endpoint_row :=
  e ← _select_endpoint endpoint s;
  raise_if (negb (String.eqb (e_user_subject e) user) || negb (String.eqb (e_agent_host e) host)
            || negb (String.eqb (e_state e) "active")) TaskNotFound "client endpoint not found";;
  Ok e.

Definition own_task (task user host : string) s : result task_row :=
  t ← _select_owned_task task user s;
  raise_if (negb (String.eqb (t_agent_host t) host)) TaskNotFound ("task not found: " +:+ task);;
  Ok t.

Definition _client_type_family (value : option string) : list string :=
  let normalized := str_lower (py_strip (or_empty value)) in
  if str_in normalized ["web"; "webchat"] then ["web"; "webchat"]
  else if str_in normalized ["wechat"; "weixin"; "openclaw-weixin"] then ["wechat"; "weixin"; "openclaw-weixin"]
  else if truthy normalized then [normalized] else [].

Record candidate_args : Type := CandidateArgs {
  ca_user_subject : string;
  ca_agent_host : string;
  ca_endpoint_id : string;
  ca_active_only : bool;
  ca_cross_endpoint_only : bool;
  ca_source_client_type : option string;
  ca_max_age_minutes : Z;
  ca_limit : Z;
}.

Definition is_candidate (a : candidate_args) (types : list string) (cutoff : instant) (es : gmap string endpoint_row) (t : task_row) : bool :=
  String.eqb (t_user_subject t) (ca_user_subject a) && String.eqb (t_agent_host t) (ca_agent_host a) && (cutoff <=? t_updated_at t)%Z
  && (negb (ca_active_only a) || active_task t)
  && (negb (ca_cross_endpoint_only a) || negb (String.eqb (t_origin_endpoint_id t) (ca_endpoint_id a)))
  && match es !! t_origin_endpoint_id t with
     | Some origin => match types with [] => true | _ => str_in (ascii_lower (e_client_type origin)) types end
     | None => false
     end.

Definition latest_task (x y : keyed task_row) : bool :=
  (t_updated_at (snd y) <? t_updated_at (snd x))%Z
  || (t_updated_at (snd x) =? t_updated_at (snd y))%Z && (t_created_at (snd y) <=? t_created_at (snd x))%Z.

Definition continuation_candidates (g : siblings) (a : candidate_args) (now now' : instant) s
  : result (list (keyed task_row * keyed endpoint_row)) * hub :=
  let limit := Z.to_nat (Z.min (Z.max (ca_limit a) 1) 20) in
  let cutoff := (now - minutes (Z.min (Z.max (ca_max_age_minutes a) 1) 10080))%Z in
  match _optional_text (ca_source_client_type a) "source_client_type" 80 with
  | Raise e => (Raise e, s)
  | Ok source =>
      let types := _client_type_family source in
      transaction (fun s =>
        '(_, s) ← _expire_orphan_task_shells g now' s;
        _ ← own_endpoint (ca_user_subject a) (ca_agent_host a) (ca_endpoint_id a) s;
        l ← map_result (fun kt => origin ← _select_endpoint (t_origin_endpoint_id (snd kt)) s;
                                  Ok (kt, (t_origin_endpoint_id (snd kt), origin)))
              (take limit (sort_by latest_task (select_where (is_candidate a types cutoff (endpoints s)) (tasks s))));
        Ok (l, s)) s
  end.

(** The row that the choices and the selections write; [version] grows unless nothing has changed. *)
Definition renewed_continuation (selected : option string) (candidates : list string) (state mode : string)
    (reason : option string) (expires now : instant) (reused : bool) c : continuation_row :=
  ContinuationRow (c_user_subject c) (c_agent_host c) selected candidates state mode reason expires
    (c_version c + if reused then 0 else 1)%Z (c_created_at c) now.

Definition put_continuation (endpoint user host : string) (selected : option string) (candidates : list string)
    (state mode : string) (reason : option string) (expires now : instant) (reused : bool) s : continuation_row :=
  match continuations s !! endpoint with
  | None => ContinuationRow user host selected candidates state mode reason expires 1 now now
  | Some c => renewed_continuation selected candidates state mode reason expires now reused c
  end.

Record choice_args : Type := ChoiceArgs {
  ch_user_subject : string;
  ch_agent_host : string;
  ch_endpoint_id : string;
  ch_reason : option string;
  ch_ttl_seconds : Z;
}.

Definition clamped (n low high : Z) : Z := Z.min (Z.max n low) high.

(** The first occurrence of each: [list(dict.fromkeys(l))] *)
Definition once_each (l : list string) : list string :=
  fold_left (fun acc x => if str_in x acc then acc else acc ++ [x]) l [].

Definition set_candidates_body (a : choice_args) (ids : list string) (reason : option string) (now expires : instant)
  : tx hub (continuation_row * bool) := fun s =>
  _ ← own_endpoint (ch_user_subject a) (ch_agent_host a) (ch_endpoint_id a) s;
  _ ← map_result (fun id => own_task id (ch_user_subject a) (ch_agent_host a) s) ids;
  let reused := match continuations s !! ch_endpoint_id a with
                | Some c => String.eqb (c_state c) "awaiting_selection" && bool_decide (c_candidate_task_ids c = ids)
                            && bool_decide (c_reason c = reason) && (now <? c_expires_at c)%Z
                | None => false
                end in
  let row := put_continuation (ch_endpoint_id a) (ch_user_subject a) (ch_agent_host a) None ids "awaiting_selection"
               "observe_only" reason expires now reused s in
  Ok ((row, reused), with_continuations (<[ch_endpoint_id a := row]> (continuations s)) s).

Definition set_continuation_candidates (a : choice_args) (candidate_task_ids : list string) (now now' : instant) s
  : result (continuation_row * bool) * hub :=
  match (ids ← map_result (fun v => _required_text (JStr v) "candidate_task_id" 128) candidate_task_ids;
         let ids := once_each ids in
         raise_if match ids with [] => true | _ => (20 <? length ids)%nat end ValueError "candidate_task_ids are invalid";;
         reason ← _optional_text (ch_reason a) "reason" 120;
         Ok (ids, reason)) with
  | Raise e => (Raise e, s)
  | Ok (ids, reason) =>
      transaction (set_candidates_body a ids reason now (now' + seconds (clamped (ch_ttl_seconds a) 60 3600))%Z) s
  end.

Definition CONTINUATION_EXECUTION_MODES : list string := ["observe_only"; "resume"; "follow_up"].

Definition rejoined_task (conversation : string) (now : instant) (t : task_row) : task_row :=
  TaskRow (t_user_subject t) (t_agent_host t) (t_host_task_key t) (t_origin_endpoint_id t) (t_title t) (t_status t)
    (t_summary t) (t_current_operation_id t) (t_current_interaction_id t) conversation (t_version t + 1)%Z (t_created_at t)
    now (t_finished_at t).

Record selection : Type := Selection { sel_continuation : continuation_row; sel_task : keyed task_row; sel_endpoint : keyed endpoint_row; sel_reused : bool }.

Definition select_body (a : choice_args) (task mode : string) (reason : option string) (now expires : instant) (d : event_draw)
  : tx hub selection := fun s =>
  let endpoint := ch_endpoint_id a in
  e ← own_endpoint (ch_user_subject a) (ch_agent_host a) endpoint s;
  t ← own_task task (ch_user_subject a) (ch_agent_host a) s;
  let reused := match continuations s !! endpoint with
                | Some c => String.eqb (c_state c) "selected" && bool_decide (c_selected_task_id c = Some task)
                            && String.eqb (c_execution_mode c) mode && bool_decide (c_reason c = reason) && (now <? c_expires_at c)%Z
                | None => false
                end in
  let row := put_continuation endpoint (ch_user_subject a) (ch_agent_host a) (Some task) [] "selected" mode reason expires
               now reused s in
  let s1 := with_continuations (<[endpoint := row]> (continuations s)) s in
  let s2 := if String.eqb (t_active_conversation_ref t) (e_conversation_ref e) then s1
            else set_task task (rejoined_task (e_conversation_ref e) now) s1 in
  ((if reused then mret ""
    else _append_event d task (ch_user_subject a) "task.continuation.selected"
           [("endpointId", JStr endpoint); ("executionMode", JStr mode)] (Some endpoint) now);;
   (fun s' => selected ← _select_task task s'; Ok (Selection row (task, selected) (endpoint, e) reused, s'))) s2.

Definition select_continuation (a : choice_args) (task_id mode : string) (now now' : instant) (d : event_draw) s
  : result selection * hub :=
  match (task ← _required_text (JStr task_id) "task_id" 128;
         raise_if (negb (str_in mode CONTINUATION_EXECUTION_MODES)) ValueError "execution_mode is invalid";;
         reason ← _optional_text (ch_reason a) "reason" 120;
         Ok (task, reason)) with
  | Raise e => (Raise e, s)
  | Ok (task, reason) =>
      transaction (select_body a task mode reason now (now' + seconds (clamped (ch_ttl_seconds a) 300 86400))%Z d) s
  end.

Definition expired_continuation (now : instant) c : continuation_row :=
  ContinuationRow (c_user_subject c) (c_agent_host c) None [] "expired" (c_execution_mode c) (c_reason c) (c_expires_at c)
    (c_version c + 1)%Z (c_created_at c) now.

Definition run_out (now : instant) c : bool :=
  str_in (c_state c) ["awaiting_selection"; "selected"] && (c_expires_at c <=? now)%Z.

Definition get_continuation (user host endpoint : string) (now : instant) s : result (option continuation_row) * hub :=
  transaction (fun s =>
    _ ← own_endpoint user host endpoint s;
    match continuations s !! endpoint with
    | None => Ok (None, s)
    | Some c =>
        if run_out now c
        then Ok (Some (expired_continuation now c),
                 with_continuations (<[endpoint := expired_continuation now c]> (continuations s)) s)
        else Ok (Some c, s)
    end) s.

(** The candidates are read in one transaction and the selection is made in another, which finds [s']. *)
Definition select_continuation_candidate (a : choice_args) (ordinal : Z) (mode : string) (now now' now'' : instant)
    (d : event_draw) (between : hub -> hub) s : result selection * hub :=
  match get_continuation (ch_user_subject a) (ch_agent_host a) (ch_endpoint_id a) now s with
  | (Raise e, s1) => (Raise e, s1)
  | (Ok None, s1) => (not_found "task continuation choices not found", s1)
  | (Ok (Some c), s1) =>
      if negb (String.eqb (c_state c) "awaiting_selection") then (not_found "task continuation choices not found", s1)
      else if (ordinal <? 1)%Z then (not_found "task continuation choice not found", s1)
      else
        match c_candidate_task_ids c !! Z.to_nat (ordinal - 1) with
        | None => (not_found "task continuation choice not found", s1)
        | Some task => select_continuation a task mode now' now'' d (between s1)
        end
  end.

Definition lately_chosen (x y : keyed continuation_row) : bool := (c_updated_at (snd y) <=? c_updated_at (snd x))%Z.

Definition list_continuations (user : string) (limit : Z) (now : instant) s : result (list (keyed continuation_row)) * hub :=
  transaction (fun s =>
    let t := update_where (fun c => String.eqb (c_user_subject c) user && run_out now c) (expired_continuation now)
               (continuations s) in
    Ok (take (limit_of limit 500) (sort_by lately_chosen (select_where (fun c => String.eqb (c_user_subject c) user) t)),
        with_continuations t s)) s.
End Continuations.
