(* ===== verification/TaskArtifacts.v ===== *)
(** * Artifacts of the task hub (agentbridge/core/tasks.py, task_projections.py)

    An artifact is a file that a task has produced, with a download that runs out; a host reports how it has delivered
    the artifacts of a task on its channel. *)

From Stdlib Require Import Ascii.
From S2P Require Import Prelude PyStr Json Store InputValidation TaskStateRules TaskTables TaskLedger.

#[local] Open Scope list_scope.

Section Artifacts.
Context `{UnicodeTables} `{UnicodeDigits} `{UrlTables}.
Variable fromisoformat : string -> result datetime.
Variable isoformat : instant -> string.
Implicit Types (s : hub) (a : artifact_row).

(** ** Arguments *)

(** [int(value or 0)]; a float is cut off, and a text is read as decimal digits. *)
Definition int_or_zero (value : json) : result Z :=
  if negb (json_truthy value) then Ok 0%Z
  else match value with
       | JInt n => Ok n
       | JBool _ => Ok 1%Z
       | JFloat m e => Ok (if (0 <=? e)%Z then m * 10 ^ e else Z.quot m (10 ^ (- e)))%Z
       | JStr t => if str_isdigit (py_strip t) then int_of_digits (py_strip t)
                   else raise ValueError "invalid literal for int() with base 10"
       | _ => raise TypeError "int() argument must be a string, a bytes-like object or a real number"
       end.

Definition _required_future_time (value : json) (name : string) (now : instant) : result instant :=
  normalized ← _required_text value name 80;
  match fromisoformat normalized with
  | Ok (Aware t) => raise_if (t <=? now)%Z ValueError (name +:+ " is expired");; Ok t
  | Ok (Naive _) => raise ValueError (name +:+ " is invalid")
  | Raise e => if bool_decide (exn_class e = ValueError) then raise ValueError (name +:+ " is invalid") else Raise e
  end.

Definition _artifact_download_url (value : json) : result string :=
  normalized ← _required_text value "download_url" 2048;
  parsed ← urlparse normalized;
  raise_if (negb (str_in (url_scheme parsed) ["http"; "https"]) || negb (truthy (url_netloc parsed)) || has_userinfo (url_netloc parsed)
            || truthy (url_fragment parsed)) ValueError "download_url is invalid";;
  Ok normalized.

Definition is_lower (c : ascii) : bool := let n := N_of_ascii c in ((97 <=? n) && (n <=? 122))%N.
Definition is_hex (c : ascii) : bool := is_digit c || (let n := N_of_ascii c in ((97 <=? n) && (n <=? 102))%N).

(** [[a-z][a-z0-9_-]{0,63}] *)
Definition report_name (t : string) : bool :=
  match t with
  | String c rest => is_lower c && (String.length rest <=? 63)%nat
      && str_forallb (fun c => is_lower c || is_digit c || Ascii.eqb c "_" || Ascii.eqb c "-") rest
  | EmptyString => false
  end.

(** The download of a report: its path names the report that the source refers to. *)
Definition is_report_url (url report_id : string) : bool :=
  let tail := "/" +:+ report_id +:+ "/download" in
  match strip_prefix "/api/database/reports/" url with
  | Some rest =>
      endswith tail rest && report_name (String.substring 0 (String.length rest - String.length tail) rest)
  | None => false
  end && (String.length report_id =? 32)%nat && str_forallb is_hex report_id.

Definition max_size : Z := 33554432.

(** What an artifact's arguments say of its file, and its download *)
Record file : Type := File {
  f_source_ref : string;
  f_filename : string;
  f_content_type : string;
  f_byte_size : Z;
}.

Definition check_file (artifact : payload) : result file :=
  source_ref ← _required_text (field artifact "source_ref") "source_ref" 256;
  filename ← _required_text (field artifact "filename") "filename" 240;
  content_type ← _required_text (field artifact "content_type") "content_type" 120;
  byte_size ← int_or_zero (field artifact "byte_size");
  raise_if ((byte_size <=? 0)%Z || (max_size <? byte_size)%Z) ValueError "artifact byte_size is invalid";;
  Ok (File source_ref filename content_type byte_size).

Definition check_download (artifact_type : string) (f : file) (artifact : payload) : result string :=
  if String.eqb artifact_type "database_csv" then
    match field artifact "download_url" with
    | JStr url => raise_if (negb (is_report_url url (split1_head ":" (f_source_ref f)))) ValueError
                    "database CSV download reference is invalid";; Ok url
    | _ => raise ValueError "database CSV download reference is invalid"
    end
  else if String.eqb artifact_type "taihua_personal_csv" then raise ValueError "legacy database CSV delivery is retired"
  else _artifact_download_url (field artifact "download_url").

Definition new_artifact (task user artifact_type : string) (f : file) (url : string) (now expires : instant) : artifact_row :=
  ArtifactRow task user artifact_type (f_source_ref f) (f_filename f) (f_content_type f) (f_byte_size f) url "ready" now now
    expires.

(** What an event tells of an artifact *)
Definition artifact_payload (id artifact_type : string) (f : file) (url : string) (expires : instant) : payload :=
  [("artifactId", JStr id); ("artifactType", JStr artifact_type); ("filename", JStr (f_filename f));
   ("contentType", JStr (f_content_type f)); ("size", JInt (f_byte_size f)); ("downloadUrl", JStr url);
   ("expiresAt", JStr (isoformat expires))].

(** ** Links *)

Definition of_source (source_ref : string) a : bool := String.eqb (a_source_ref a) source_ref.

Definition insert_artifact (id : string) (row : artifact_row) : tx hub unit := fun s =>
  t ← insert_row id (of_source (a_source_ref row)) row (artifacts s); Ok (tt, with_artifacts t s).

Definition link_artifact_body (task user artifact_type : string) (f : file) (url : string) (expires now : instant)
    (id : string) (fresh : string -> string) (d : event_draw) : tx hub (keyed artifact_row * bool) := fun s =>
  _ ← _select_owned_task task user s;
  match select_one (of_source (f_source_ref f)) (artifacts s) with
  | Some (existing_id, a) =>
      raise_if (negb (String.eqb (a_task_id a) task) || negb (String.eqb (a_user_subject a) user)) TaskIntegrityError
        "artifact is already linked to another task or user";;
      Ok (((existing_id, a), true), s)
  | None =>
      let row := new_artifact task user artifact_type f url now expires in
      (_subscribe_companion_endpoints fresh task user now;;
       insert_artifact id row;;
       _append_event d task user "task.artifact.ready" (artifact_payload id artifact_type f url expires)
         (Some (f_source_ref f)) now;;
       mret ((id, row), false) : tx hub (keyed artifact_row * bool)) s
  end.

(** [clock] is the reading that the expiry is compared with. *)
Definition link_artifact (task user : string) (artifact : payload) (clock now : instant) (id : string)
    (fresh : string -> string) (d : event_draw) s : result (keyed artifact_row * bool) * hub :=
  match (let kind := field artifact "artifact_type" in
         artifact_type ← _required_text (if json_truthy kind then kind else JStr "file") "artifact_type" 80;
         f ← check_file artifact;
         url ← check_download artifact_type f artifact;
         expires ← _required_future_time (field artifact "expires_at") "expires_at" clock;
         Ok (artifact_type, f, url, expires)) with
  | Raise e => (Raise e, s)
  | Ok (artifact_type, f, url, expires) => transaction (link_artifact_body task user artifact_type f url expires now id fresh d) s
  end.

(** ** Expiry and refreshing *)

Definition expired_artifact (now : instant) a : artifact_row :=
  ArtifactRow (a_task_id a) (a_user_subject a) (a_artifact_type a) (a_source_ref a) (a_filename a) (a_content_type a)
    (a_byte_size a) (a_download_url a) "expired" (a_created_at a) now (a_expires_at a).

Definition run_out_artifact (now : instant) a : bool := String.eqb (a_state a) "ready" && (a_expires_at a <=? now)%Z.

Definition owned_artifact (task user : string) a : bool := String.eqb (a_task_id a) task && String.eqb (a_user_subject a) user.

Definition get_artifact (task id user : string) (now : instant) s : result (keyed artifact_row) * hub :=
  method (fun s =>
    _ ← _select_owned_task task user s;
    let t := fst (update_key id (fun a => owned_artifact task user a && run_out_artifact now a) (expired_artifact now) (artifacts s)) in
    Ok (t !! id, with_artifacts t s))
    (fun row => match row with
                | Some a => if owned_artifact task user a then Ok (id, a) else not_found ("artifact not found: " +:+ id)
                | None => not_found ("artifact not found: " +:+ id)
                end) s.

Definition lately_created (x y : keyed artifact_row) : bool := (a_created_at (snd y) <=? a_created_at (snd x))%Z.

Definition list_artifacts (task user : string) (limit : Z) (now : instant) s : result (list (keyed artifact_row)) * hub :=
  transaction (fun s =>
    _ ← _select_owned_task task user s;
    let t := update_where (fun a => owned_artifact task user a && run_out_artifact now a) (expired_artifact now) (artifacts s) in
    Ok (take (limit_of limit 500) (sort_by lately_created (select_where (owned_artifact task user) t)), with_artifacts t s)) s.

Definition list_user_artifacts (user : string) (limit : Z) (now : instant) s : result (list (keyed artifact_row)) * hub :=
  transaction (fun s =>
    let t := update_where (fun a => String.eqb (a_user_subject a) user && run_out_artifact now a) (expired_artifact now) (artifacts s) in
    Ok (take (limit_of limit 500) (sort_by lately_created (select_where (fun a => String.eqb (a_user_subject a) user) t)),
        with_artifacts t s)) s.

Definition REFRESHABLE_ARTIFACT_TYPES : list string := ["certificate_scan"; "oa_addressbook_report"; "smartlight_report"].

Definition refreshed_artifact (f : file) (url : string) (now expires : instant) a : artifact_row :=
  ArtifactRow (a_task_id a) (a_user_subject a) (a_artifact_type a) (f_source_ref f) (f_filename f) (f_content_type f)
    (f_byte_size f) url "ready" (a_created_at a) now expires.

Definition counted_task (now : instant) (t : task_row) : task_row :=
  TaskRow (t_user_subject t) (t_agent_host t) (t_host_task_key t) (t_origin_endpoint_id t) (t_title t) (t_status t)
    (t_summary t) (t_current_operation_id t) (t_current_interaction_id t) (t_active_conversation_ref t) (t_version t + 1)%Z
    (t_created_at t) now (t_finished_at t).

Definition refresh_artifact_body (task id user expected_source_ref : string) (f : file) (url : string) (expires now : instant)
    (d : event_draw) : tx hub (keyed artifact_row) := fun s =>
  _ ← _select_owned_task task user s;
  match artifacts s !! id with
  | Some a =>
      raise_if (negb (owned_artifact task user a)) TaskNotFound ("artifact not found: " +:+ id);;
      raise_if (negb (String.eqb (a_source_ref a) expected_source_ref)) TaskIntegrityError
        "artifact source changed while the download was being refreshed";;
      raise_if (negb (str_in (a_artifact_type a) REFRESHABLE_ARTIFACT_TYPES)) TaskIntegrityError
        "artifact type cannot be refreshed";;
      raise_if (negb (String.eqb (a_state a) "expired")) TaskIntegrityError "only an expired artifact can be refreshed";;
      raise_if (existsb (fun ka => of_source (f_source_ref f) (snd ka) && negb (String.eqb (fst ka) id)) (map_to_list (artifacts s)))
        TaskIntegrityError "replacement download is already linked to another artifact";;
      let row := refreshed_artifact f url now expires a in
      (_append_event d task user "task.artifact.refreshed" (artifact_payload id (a_artifact_type a) f url expires)
         (Some (f_source_ref f)) now;;
       mret (id, row)) (set_task task (counted_task now) (with_artifacts (<[id := row]> (artifacts s)) s))
  | None => not_found ("artifact not found: " +:+ id)
  end.

Definition refresh_artifact (task id user expected_source_ref : string) (artifact : payload) (clock now : instant)
    (d : event_draw) s : result (keyed artifact_row) * hub :=
  match (f ← check_file artifact;
         url ← _artifact_download_url (field artifact "download_url");
         expires ← _required_future_time (field artifact "expires_at") "expires_at" clock;
         expected ← _required_text (JStr expected_source_ref) "expected_source_ref" 256;
         Ok (f, url, expires, expected)) with
  | Raise e => (Raise e, s)
  | Ok (f, url, expires, expected) => transaction (refresh_artifact_body task id user expected f url expires now d) s
  end.

(** ** Reports of delivery *)

Definition ARTIFACT_DELIVERY_STATES : list string := ["attachment_sent"; "fallback_link_sent"; "failed"].

Record outcome : Type := Outcome { oc_artifact_id : string; oc_state : string; oc_attempt_count : Z; oc_error_code : option string }.

Fixpoint normalize_files (seen : list string) (files : list json) : result (list outcome) :=
  match files with
  | [] => Ok []
  | JObj item :: rest =>
      id ← _required_text (field item "artifact_id") "artifact_id" 128;
      raise_if (str_in id seen) ValueError "artifact delivery contains duplicate IDs";;
      state ← _required_text (field item "state") "state" 40;
      raise_if (negb (str_in state ARTIFACT_DELIVERY_STATES)) ValueError "artifact delivery state is invalid";;
      attempts ← int_or_zero (field item "attempt_count");
      raise_if ((attempts <? 0)%Z || (3 <? attempts)%Z) ValueError "artifact delivery attempt_count is invalid";;
      code ← (if json_truthy (field item "error_code")
              then c ← _required_text (field item "error_code") "error_code" 80; Ok (Some c) else Ok None);
      others ← normalize_files (id :: seen) rest;
      Ok (Outcome id state attempts code :: others)
  | _ => raise TypeError "artifact delivery item must be an object"
  end.

Definition outcome_json (filename : string) (o : outcome) : json :=
  JObj [("artifactId", JStr (oc_artifact_id o)); ("state", JStr (oc_state o)); ("attemptCount", JInt (oc_attempt_count o));
        ("errorCode", opt_text (oc_error_code o)); ("filename", JStr filename)].

(** The artifacts that a report names are all there, and of the task. *)
Definition named_outcomes (task user : string) (l : list outcome) s : result (list (string * json)) :=
  raise_if (negb (forallb (fun o => match artifacts s !! oc_artifact_id o with Some _ => true | None => false end) l)) TaskNotFound
    "artifact delivery contains an unknown artifact";;
  map_result (fun o => match artifacts s !! oc_artifact_id o with
                       | Some a => raise_if (negb (owned_artifact task user a)) TaskNotFound
                                     "artifact delivery contains an unknown artifact";;
                                   Ok (oc_artifact_id o, outcome_json (a_filename a) o)
                       | None => not_found "artifact delivery contains an unknown artifact"
                       end) l.

(** A dict whose keys are JSON values; a list or a dict cannot be a key. *)
Fixpoint put_key (k v : json) (l : list (json * json)) : list (json * json) :=
  match l with
  | [] => [(k, v)]
  | (k', v') :: rest => if py_eqb k' k then (k', v) :: rest else (k', v') :: put_key k v rest
  end.

Definition hashable (k : json) : bool := match k with JArr _ | JObj _ => false | _ => true end.

(** The files of the channel's previous report, by their artifact *)
Fixpoint previous_files (items : list json) (acc : list (json * json)) : result (list (json * json)) :=
  match items with
  | [] => Ok acc
  | (JObj item as v) :: rest =>
      let k := field item "artifactId" in
      if json_truthy k then
        raise_if (negb (hashable k)) TypeError "unhashable type";;
        previous_files rest (put_key k v acc)
      else previous_files rest acc
  | _ :: rest => previous_files rest acc
  end.

(** Iterating over a value that may be missing *)
Definition iterate (value : json) : result (list json) :=
  match value with
  | JArr l => Ok l
  | JObj kvs => Ok (map (fun kv => JStr (fst kv)) kvs)
  | JStr t => Ok (map JStr (chars t))
  | _ => raise TypeError "object is not iterable"
  end.

Definition has_state (state : string) (item : json) : result bool :=
  match item with
  | JObj kvs => match assoc "state" kvs with Some v => Ok (same_text v state) | None => raise KeyError "'state'" end
  | _ => raise TypeError "item is not an object"
  end.

Definition count_state (state : string) (items : list json) : result Z :=
  l ← map_result (has_state state) items; Ok (Z.of_nat (length (List.filter id l))).

Definition parts_of (total sent fallback failed : Z) : list string :=
  [str_of_Z total +:+ " 份文件已准备"; str_of_Z sent +:+ " 份已作为附件发送"]
  ++ (if (fallback =? 0)%Z then [] else [str_of_Z fallback +:+ " 份已改发下载链接"])
  ++ (if (failed =? 0)%Z then [] else [str_of_Z failed +:+ " 份未能送达"]).

Definition delivery_report (delivery_ref channel : string) (outcomes : list json) (sent fallback failed : Z) (now : instant) : payload :=
  let state := if (failed =? 0)%Z then "delivered" else if (sent + fallback =? 0)%Z then "failed" else "partial" in
  [("deliveryRef", JStr delivery_ref); ("channel", JStr channel); ("state", JStr state);
   ("completionMeaning", JStr "endpoint_delivery_reported"); ("preparedCount", JInt (Z.of_nat (length outcomes)));
   ("attachmentSentCount", JInt sent); ("fallbackLinkSentCount", JInt fallback); ("failedCount", JInt failed);
   ("files", JArr outcomes);
   ("userMessage", JStr (py_join "，" (parts_of (Z.of_nat (length outcomes)) sent fallback failed) +:+ "。"));
   ("reportedAt", JStr (isoformat now))].

(** *** The aggregate over the channels *)

Definition channel_label (channel : string) : string :=
  dict_get [("telegram", "Telegram"); ("openclaw-weixin", "微信"); ("weixin", "微信"); ("wechat", "微信"); ("web", "网页端");
            ("webchat", "网页端"); ("agentbridge-workspace", "网页端")] (str_casefold channel) channel.

Definition reported_artifacts (report : payload) : list string :=
  match field report "files" with
  | JArr items => flat_map (fun item => match item with
      | JObj kvs => if json_truthy (field kvs "artifactId") then [py_str (field kvs "artifactId")] else []
      | _ => []
      end) items
  | _ => []
  end.

(** A channel's text, and whether it is delivered or failed *)
Definition channel_part (channel : string) (report : payload) : result (list string) :=
  attachments ← int_or_zero (field report "attachmentSentCount");
  fallback ← int_or_zero (field report "fallbackLinkSentCount");
  failed ← int_or_zero (field report "failedCount");
  let label := channel_label channel in
  let parts := (if (attachments <=? 0)%Z then [] else [str_of_Z attachments +:+ " 份附件已送达"])
    ++ (if (fallback <=? 0)%Z then []
        else [str_of_Z fallback +:+ if String.eqb label "网页端" then " 个下载入口可用" else " 份已通过下载链接送达"])
    ++ (if (failed <=? 0)%Z then [] else [str_of_Z failed +:+ " 份未送达"]) in
  Ok (match parts with [] => [] | _ => [label +:+ "：" +:+ py_join "，" parts] end).

Definition report_of (kv : string * json) : result (string * payload) :=
  match snd kv with JObj kvs => Ok (fst kv, kvs) | _ => raise AttributeError "object has no attribute 'get'" end.

Definition channel_order (x y : string * json) : bool := str_leb (fst x) (fst y).

Definition _artifact_delivery_aggregate (by_channel : payload) : result payload :=
  reports ← map_result report_of (sort_by channel_order by_channel);
  parts ← map_result (fun r => channel_part (fst r) (snd r)) reports;
  let parts := List.concat parts in
  let prepared := Z.of_nat (length (sorted_set (flat_map (fun r => reported_artifacts (snd r)) reports))) in
  let state_in states r := match field (snd r) "state" with JStr t => str_in t states | _ => false end in
  let count states := Z.of_nat (length (List.filter (state_in states) reports)) in
  let failed := count ["partial"; "failed"] in
  let prefix := if (prepared =? 0)%Z then "文件已准备" else str_of_Z prepared +:+ " 份文件已准备" in
  Ok [("state", JStr (if (failed =? 0)%Z then "delivered" else "partial"));
      ("completionMeaning", JStr "cross_endpoint_delivery_reported"); ("preparedCount", JInt prepared);
      ("channelCount", JInt (Z.of_nat (length by_channel))); ("deliveredChannelCount", JInt (count ["delivered"]));
      ("failedChannelCount", JInt failed); ("channels", JObj by_channel);
      ("userMessage", JStr match parts with [] => prefix +:+ "。" | _ => prefix +:+ "；" +:+ py_join "；" parts +:+ "。" end)].

(** *** Recording *)

(** The last event of a report: the rows are in the order of their rowid. *)
Definition reported_before (task user event_type delivery_ref : string) s : option (string * event_row) :=
  head (sort_by (fun x y => v_created_at (snd y) <=? v_created_at (snd x))%Z
    (rev (rows_where (fun v => String.eqb (v_task_id v) task && String.eqb (v_user_subject v) user
       && String.eqb (v_event_type v) event_type && bool_decide (v_causation_ref v = Some delivery_ref)) (events s)))).

(** The report that the outcomes make together with the channel's previous ones *)
Definition merge_report (by_channel : payload) (channel delivery_ref : string) (named : list (string * json)) (now : instant)
  : result payload :=
  items ← match field by_channel channel with JObj previous => iterate (field previous "files") | _ => Ok [] end;
  merged ← previous_files items [];
  let outcomes := map snd (fold_left (fun acc kv => put_key (JStr (fst kv)) (snd kv) acc) named merged) in
  sent ← count_state "attachment_sent" outcomes;
  fallback ← count_state "fallback_link_sent" outcomes;
  failed ← count_state "failed" outcomes;
  Ok (delivery_report delivery_ref channel outcomes sent fallback failed now).

Definition record_delivery_body (task user host delivery_ref channel : string) (l : list outcome) (now : instant) (d : event_draw)
  : tx hub (keyed task_row * (string * event_row) * bool) := fun s =>
  t ← _select_owned_task task user s;
  raise_if (negb (String.eqb (t_agent_host t) host)) TaskIntegrityError "artifact delivery belongs to another agent host";;
  match reported_before task user "task.artifact.delivery" delivery_ref s with
  | Some v => Ok (((task, t), v, true), s)
  | None =>
      named ← named_outcomes task user l s;
      let by_channel := match field (t_summary t) "artifactDeliveryByChannel" with JObj kvs => kvs | _ => [] end in
      report ← merge_report by_channel channel delivery_ref named now;
      let by_channel := dict_set channel (JObj report) by_channel in
      aggregate ← _artifact_delivery_aggregate by_channel;
      let summary := dict_set "artifactDeliveryAggregate" (JObj aggregate)
        (dict_set "artifactDelivery" (JObj report) (dict_set "artifactDeliveryByChannel" (JObj by_channel) (t_summary t))) in
      (event_id ← _append_event d task user "task.artifact.delivery" report (Some delivery_ref) now;
       (fun s' => row ← _select_task task s';
                  Ok (((task, row), (event_id, EventRow task user "task.artifact.delivery" report (Some delivery_ref) now), false), s')))
        (set_task task (fun t => counted_task now (summarized_task summary t)) s)
  end.

Definition record_artifact_delivery (task user agent_host delivery_ref channel : string) (files : list json) (now : instant)
    (d : event_draw) s : result (keyed task_row * (string * event_row) * bool) * hub :=
  match (host ← _required_text (JStr agent_host) "agent_host" 80;
         ref ← _required_text (JStr delivery_ref) "delivery_ref" 512;
         channel ← _required_text (JStr channel) "channel" 80;
         raise_if match files with [] => true | _ => (20 <? length files)%nat end ValueError
           "files must contain between 1 and 20 items";;
         l ← normalize_files [] files;
         Ok (host, ref, channel, l)) with
  | Raise e => (Raise e, s)
  | Ok (host, ref, channel, l) => transaction (record_delivery_body task user host ref channel l now d) s
  end.
End Artifacts.
