(* ===== verification/TaskFrames.v ===== *)
(** * What the methods of the task hub leave alone

    The steps of the hub, and for the tables of batches and of deliveries: which methods do not touch them, and that
    an event only adds deliveries. *)

From S2P Require Import Prelude PyStr Json Store InputValidation TaskStateRules TaskTables TaskBatches TaskLedger TaskOutbox TaskContinuations TaskArtifacts.

#[local] Open Scope list_scope.

(** [hub_inv H] takes "this body returned" apart: binds, guards, matches and the final return. *)
Ltac hub_inv H :=
  cbv beta zeta in H;
  lazymatch type of H with
  | pbind (raise_if _ _ _) _ = Ok _ =>
      let G := fresh "G" in rewrite result_raise_if_bind in H; destruct H as [G H]; hub_inv H
  | @pbind result _ _ _ _ _ = Ok _ =>
      let a := fresh "a" in let G := fresh "E" in apply result_bind_Ok in H; destruct H as (a & G & H); hub_inv H
  | pbind (raise_if _ _ _) _ _ = Ok _ =>
      let G := fresh "G" in rewrite tx_raise_if_bind in H; destruct H as [G H]; hub_inv H
  | pbind (mret _) _ _ = Ok _ => rewrite tx_ret_bind in H; hub_inv H
  | pbind (lift _) _ _ = Ok _ =>
      let a := fresh "a" in let G := fresh "E" in rewrite tx_lift_bind in H; destruct H as (a & G & H); hub_inv H
  | pbind _ _ _ = Ok _ =>
      let a := fresh "a" in let t := fresh "s" in let G := fresh "E" in
      apply tx_bind_Ok in H; destruct H as (a & t & G & H); hub_inv G; hub_inv H
  | raise _ _ = Ok _ => discriminate H
  | raise _ _ _ = Ok _ => discriminate H
  | not_found _ = Ok _ => discriminate H
  | violates _ = Ok _ => discriminate H
  | (if ?b then _ else _) = Ok _ => let E := fresh "E" in destruct b eqn:E; hub_inv H
  | (if ?b then _ else _) _ = Ok _ => let E := fresh "E" in destruct b eqn:E; hub_inv H
  | (match ?x with _ => _ end) = Ok _ => let E := fresh "E" in destruct x eqn:E; hub_inv H
  | (match ?x with _ => _ end) _ = Ok _ => let E := fresh "E" in destruct x eqn:E; hub_inv H
  | mret _ _ = Ok _ => injection H; clear H; intros; subst
  | Ok _ = Ok _ => injection H; clear H; intros; subst
  | _ => idtac
  end.

Section Frames.
Context {tables : UnicodeTables}.
Implicit Types (s : hub).

(** ** Relations between hubs *)

Definition same_batches s s' : Prop := batches s' = batches s /\ items s' = items s.

(** A delivery as an event or a message makes it *)
Definition fresh_delivery (o : delivery_row) : Prop :=
  o_state o = "pending" /\ o_attempt_count o = 0%Z /\ o_acknowledged_at o = None.

(** No two deliveries have an identifier, or tell the same endpoint of the same thing. *)
Definition distinct (l : list delivery) : Prop := forall i j x y, l !! i = Some x -> l !! j = Some y ->
  fst x = fst y \/ same_delivery (o_event_id (snd x)) (o_endpoint_id (snd x)) (o_payload_type (snd x)) (snd y) = true -> i = j.

(** The outbox has grown by fresh deliveries, which are not there yet. *)
Definition grown (l l' : list delivery) : Prop :=
  exists more, l' = l ++ more /\ Forall (fun kr => fresh_delivery (snd kr)) more /\ (distinct l -> distinct l').

Definition told s s' : Prop := grown (outbox s) (outbox s').

#[export] Instance same_batches_preorder : PreOrder same_batches.
Proof. split; [by split|]. intros s1 s2 s3 [H1 H2] [H3 H4]. split; congruence. Qed.

#[export] Instance grown_preorder : PreOrder grown.
Proof.
  split.
  - intros l. exists []. by rewrite app_nil_r.
  - intros l1 l2 l3 (m & -> & Hm & Hd) (m' & -> & Hm' & Hd'). exists (m ++ m'). rewrite app_assoc.
    split_and!; [done|by apply Forall_app|auto].
Qed.

#[export] Instance told_preorder : PreOrder told.
Proof. split; [by intros s; unfold told|]. intros s1 s2 s3. unfold told. by intros H1 H2; etrans. Qed.

Lemma new_delivery_fresh event task endpoint user kind p now : fresh_delivery (new_delivery event task endpoint user kind p now).
Proof. by split_and!. Qed.

Lemma told_same s s' : outbox s' = outbox s -> told s s'.
Proof. unfold told. intros ->. reflexivity. Qed.

(** ** The parts that the methods are made of *)

Lemma append_or_ignore_grown k event endpoint kind (o : delivery_row) (l : list delivery) :
  o_event_id o = event -> o_endpoint_id o = endpoint -> o_payload_type o = kind -> fresh_delivery o ->
  grown l (append_or_ignore k (same_delivery event endpoint kind) o l).
Proof.
  intros <- <- <- Ho. unfold append_or_ignore. destruct (taken k _ l) eqn:Ht; [done|].
  exists [(k, o)]. split_and!; [done|by apply Forall_singleton|]. intros Hd.
  assert (forall i x, l !! i = Some x -> fst x <> k /\
    same_delivery (o_event_id o) (o_endpoint_id o) (o_payload_type o) (snd x) = false) as Hfree.
  { intros i x Hx. apply list_elem_of_lookup_2, list_elem_of_In in Hx. unfold taken in Ht.
    apply not_true_iff_false in Ht. split.
    - intros <-. apply Ht, existsb_exists. exists x. by rewrite String.eqb_refl.
    - apply not_true_iff_false. intros Hs. apply Ht, existsb_exists. exists x. by rewrite Hs, orb_true_r. }
  assert (forall a b, same_delivery (o_event_id a) (o_endpoint_id a) (o_payload_type a) b = true ->
    same_delivery (o_event_id b) (o_endpoint_id b) (o_payload_type b) a = true) as Hsym.
  { intros a b. unfold same_delivery. rewrite !andb_true_iff, !String.eqb_eq. naive_solver. }
  intros i j x y Hi Hj Hsame. apply lookup_app_Some in Hi as [Hi|[Hi1 Hi2]]; apply lookup_app_Some in Hj as [Hj|[Hj1 Hj2]].
  - by apply (Hd i j x y).
  - apply list_lookup_singleton_Some in Hj2 as [Hj2 <-]. destruct (Hfree i x Hi) as [Hk Hs]. exfalso.
    destruct Hsame as [?|Hs']; [done|]. apply Hsym in Hs'. cbn in Hs'. congruence.
  - apply list_lookup_singleton_Some in Hi2 as [Hi2 <-]. destruct (Hfree j y Hj) as [Hk Hs]. exfalso.
    destruct Hsame as [?|Hs']; [by symmetry in H|]. cbn in Hs'. congruence.
  - apply list_lookup_singleton_Some in Hi2 as [Hi2 <-]. apply list_lookup_singleton_Some in Hj2 as [Hj2 <-]. lia.
Qed.

Lemma fold_grown {A} (f : list delivery -> A -> list delivery) (xs : list A) :
  (forall l x, grown l (f l x)) -> forall l, grown l (fold_left f xs l).
Proof. intros Hf. induction xs as [|x xs IH]; intros l; cbn; [done|]. etrans; [apply Hf|apply IH]. Qed.

Lemma append_event_spec d task user event_type p causation now s x s' :
  _append_event d task user event_type p causation now s = Ok (x, s') ->
  exists entries deliveries, x = d_event_id d /\ grown (outbox s) deliveries /\
    s' = with_told (events s ++ [(d_event_id d, EventRow task user event_type p causation now)]) entries deliveries s.
Proof.
  unfold _append_event. intros H. hub_inv H. unfold append_row in E. destruct (taken _ _ _); [discriminate|]. injection E as <-.
  do 2 eexists. split_and!; [done| |done]. apply fold_grown. intros l sub. destruct (wants _ _); [|done].
  apply append_or_ignore_grown; [done..|apply new_delivery_fresh].
Qed.

Lemma append_event_batches d task user event_type p causation now s x s' :
  _append_event d task user event_type p causation now s = Ok (x, s') -> same_batches s s'.
Proof. intros (entries & ds & _ & _ & ->)%append_event_spec. done. Qed.

Lemma append_event_told d task user event_type p causation now s x s' :
  _append_event d task user event_type p causation now s = Ok (x, s') -> told s s'.
Proof. intros (entries & ds & _ & Hg & ->)%append_event_spec. done. Qed.

Lemma subscribe_spec fresh task user now s x s' :
  _subscribe_companion_endpoints fresh task user now s = Ok (x, s') -> exists t, s' = with_subscriptions t s.
Proof. unfold _subscribe_companion_endpoints. intros H. hub_inv H. by eexists. Qed.

Lemma subscribe_batches fresh task user now s x s' :
  _subscribe_companion_endpoints fresh task user now s = Ok (x, s') -> same_batches s s'.
Proof. by intros [t ->]%subscribe_spec. Qed.

Lemma subscribe_told fresh task user now s x s' :
  _subscribe_companion_endpoints fresh task user now s = Ok (x, s') -> told s s'.
Proof. intros [t ->]%subscribe_spec. by apply told_same. Qed.

Lemma update_task_state_spec task status operation interaction now s x s' :
  _update_task_state task status operation interaction now s = Ok (x, s') ->
  exists finished, task_finished_at status now = Ok finished /\
    s' = set_task task (moved_task status operation interaction now finished) s.
Proof. unfold _update_task_state. intros H. hub_inv H. by eexists. Qed.

Lemma update_task_state_batches task status operation interaction now s x s' :
  _update_task_state task status operation interaction now s = Ok (x, s') -> same_batches s s'.
Proof. by intros (f & _ & ->)%update_task_state_spec. Qed.

Lemma update_task_state_told task status operation interaction now s x s' :
  _update_task_state task status operation interaction now s = Ok (x, s') -> told s s'.
Proof. intros (f & _ & ->)%update_task_state_spec. by apply told_same. Qed.

Lemma sync_spec task_id task id b now status operation interaction s x s' :
  _sync_batch_task_summary task_id task id b now status operation interaction s = Ok (x, s') ->
  exists current finished,
    _select_current_batch_item id b s = Ok current /\
    task_finished_at (match status with Some st => st | None => batch_task_status (b_state b) end) now = Ok finished /\
    s' = set_task task_id (moved_task (match status with Some st => st | None => batch_task_status (b_state b) end)
           (coalesced operation (t_current_operation_id task)) (coalesced interaction (t_current_interaction_id task)) now finished)
           (set_task task_id (summarized_task (batch_task_summary task id b (snd current))) s).
Proof.
  unfold _sync_batch_task_summary. intros H. hub_inv H. apply update_task_state_spec in H as (f & Hf & ->).
  do 2 eexists. split_and!; [exact E|exact Hf|done].
Qed.

Lemma sync_batches task_id task id b now status operation interaction s x s' :
  _sync_batch_task_summary task_id task id b now status operation interaction s = Ok (x, s') -> same_batches s s'.
Proof. by intros (c & f & _ & _ & ->)%sync_spec. Qed.

Lemma sync_told task_id task id b now status operation interaction s x s' :
  _sync_batch_task_summary task_id task id b now status operation interaction s = Ok (x, s') -> told s s'.
Proof. intros (c & f & _ & _ & ->)%sync_spec. by apply told_same. Qed.

Lemma selected_task_same task s x s' : selected_task task s = Ok (x, s') -> s' = s.
Proof. unfold selected_task. intros H. by hub_inv H. Qed.

Lemma enqueue_told iso fresh entry m source notify s x s' :
  _enqueue_timeline_message iso fresh entry m source notify s = Ok (x, s') -> told s s'.
Proof.
  unfold _enqueue_timeline_message. intros H. hub_inv H. unfold told. cbn. apply fold_grown. intros l ke.
  apply append_or_ignore_grown; [done..|apply new_delivery_fresh].
Qed.

Lemma enqueue_batches iso fresh entry m source notify s x s' :
  _enqueue_timeline_message iso fresh entry m source notify s = Ok (x, s') -> same_batches s s'.
Proof. unfold _enqueue_timeline_message. intros H. by hub_inv H. Qed.
End Frames.
