(* ===== verification/TaskSteps.v ===== *)
(** * The steps of the task hub

    One constructor per method; whatever the arguments, the clocks and the fresh identifiers. *)

From S2P Require Import Prelude PyStr Json Store InputValidation TaskStateRules TaskTables TaskBatches TaskLedger TaskOutbox TaskContinuations TaskArtifacts TaskFrames.

#[local] Open Scope list_scope.

Section Steps.
Context {tables : UnicodeTables} {digits : UnicodeDigits} {urls : UrlTables}.
Implicit Types (s : hub).

Definition empty_hub : hub := Hub ∅ ∅ [] ∅ ∅ ∅ ∅ [] [] ∅ ∅ ∅.

(** *** The methods of the ledger *)

Inductive ledger_step s : hub -> Prop :=
  | ensures_endpoint a now uuid : ledger_step s (snd (ensure_endpoint a now uuid s))
  | touches_endpoint id user now : ledger_step s (snd (touch_endpoint id user now s))
  | ensures_task a now d : ledger_step s (snd (ensure_task a now d s))
  | links_plan_operation task user o plan key now d : ledger_step s (snd (link_plan_operation task user o plan key now d s))
  | records_plan_event task user kind p cause now d : ledger_step s (snd (record_plan_event task user kind p cause now d s))
  | records_phase task user phase request now d : ledger_step s (snd (record_analysis_phase task user phase request now d s))
  | links_interaction task user a now fresh d : ledger_step s (snd (link_interaction task user a now fresh d s))
  | completes_task task user reason cause now fresh d : ledger_step s (snd (complete_task task user reason cause now fresh d s))
  | fails_task task user code message cause now fresh d :
      ledger_step s (snd (fail_task task user code message cause now fresh d s))
  | marks_unknown task user code cause now fresh d :
      ledger_step s (snd (mark_task_outcome_unknown task user code cause now fresh d s))
  | lists_tasks g user endpoint active limit now : ledger_step s (snd (list_tasks g user endpoint active limit now s))
  | recovers g user endpoint limit now : ledger_step s (snd (recovery_candidates g user endpoint limit now s))
  | finds_candidates g a now now' : ledger_step s (snd (continuation_candidates g a now now' s))
  | offers a ids now now' : ledger_step s (snd (set_continuation_candidates a ids now now' s))
  | selects a task mode now now' d : ledger_step s (snd (select_continuation a task mode now now' d s))
  | gets_continuation user host endpoint now : ledger_step s (snd (get_continuation user host endpoint now s))
  | lists_continuations user limit now : ledger_step s (snd (list_continuations user limit now s))
  | links_artifact parse iso task user a clock now id fresh d :
      ledger_step s (snd (link_artifact parse iso task user a clock now id fresh d s))
  | gets_artifact task id user now : ledger_step s (snd (get_artifact task id user now s))
  | lists_artifacts task user limit now : ledger_step s (snd (list_artifacts task user limit now s))
  | lists_user_artifacts user limit now : ledger_step s (snd (list_user_artifacts user limit now s))
  | refreshes_artifact parse iso task id user source a clock now d :
      ledger_step s (snd (refresh_artifact parse iso task id user source a clock now d s))
  | reports_artifacts iso task user host ref channel files now d :
      ledger_step s (snd (record_artifact_delivery iso task user host ref channel files now d s))
  | appends_message iso a now entry fresh : ledger_step s (snd (append_timeline_message iso a now entry fresh s)).

(** *** The methods of batches and the cancellation of a task *)

Inductive batch_step s : hub -> Prop :=
  | creates_batch a now d : batch_step s (snd (create_batch a now d s))
  | records_activity task user o i now d : batch_step s (snd (record_batch_item_activity task user o i now d s))
  | completes_item task user o n summary now d : batch_step s (snd (complete_current_batch_item task user o n summary now d s))
  | fails_item task user o n state code now d d' :
      batch_step s (snd (fail_current_batch_item task user o n state code now d d' s))
  | cancels_task task user reason cause now fresh d : batch_step s (snd (cancel_task task user reason cause now fresh d s)).

(** *** The methods of the outbox; a claim has looked at some hub before *)

Inductive outbox_step s : hub -> Prop :=
  | claims user endpoint limit lease now now' seen : outbox_step s (snd (claim_outbox user endpoint limit lease now now' seen s))
  | reports user endpoint id r now now' : outbox_step s (snd (acknowledge_outbox user endpoint id r now now' s))
  | reactivates user endpoint delay now now' : outbox_step s (snd (reactivate_deferred_outbox user endpoint delay now now' s))
  | requeues id now : outbox_step s (snd (requeue_delivery id now s))
  | archives id now : outbox_step s (snd (archive_delivery id now s)).

Inductive hub_step s : hub -> Prop :=
  | observes_operation task user o now d : hub_step s (snd (link_operation task user o now d s))
  | in_ledger s' : ledger_step s s' -> hub_step s s'
  | in_batches s' : batch_step s s' -> hub_step s s'
  | in_outbox s' : outbox_step s s' -> hub_step s s'
  | starts_up g now now' : hub_step s (snd (run_startup_maintenance g now now' s)).

Definition reachable_hub : hub -> Prop := reachable (fun s => s = empty_hub) hub_step.

(** ** What they leave alone *)

Lemma transaction_rel {A} (R : hub -> hub -> Prop) (m : tx hub A) s :
  (forall x, R x x) -> (forall a s', m s = Ok (a, s') -> R s s') -> R s (snd (transaction m s)).
Proof. intros HR Hm. unfold transaction. destruct (m s) as [[a s']|e] eqn:E; [by apply (Hm a)|apply HR]. Qed.

Lemma orphans_frame g now s x s' : _expire_orphan_task_shells g now s = Ok (x, s') -> same_batches s s' /\ outbox s' = outbox s.
Proof. unfold _expire_orphan_task_shells. destruct (operation_rows g); by intros [= <- <-]. Qed.
End Steps.

(** Goes through the checks before the transaction of a method, for a reflexive relation. *)
Ltac enter :=
  repeat (match goal with |- context [snd (match ?c with _ => _ end)] => destruct c eqn:? end; try reflexivity);
  try (rewrite method_state; unfold after); apply transaction_rel; [by intros ?|].

(** Opens a method: what is left is each way in which its body returns. *)
Ltac open_step :=
  enter; let H := fresh "H" in intros ? ? H; cbv beta in H;
  unfold ensure_endpoint_body, ensure_task_body, subscribe_origin, link_operation_body, link_plan_operation_body,
    link_once, record_plan_event_body, link_interaction_body, end_task, nothing_more, failure_noted, set_candidates_body,
    select_body, link_artifact_body, insert_artifact, refresh_artifact_body, record_delivery_body,
    _append_timeline_message_in_connection, append_entry in H;
  hub_inv H.

(** The same for the methods of batches *)
Ltac open_batch :=
  enter; let H := fresh "H" in intros ? ? H; cbv beta in H;
  unfold create_batch_body, record_batch_item_activity_body, complete_current_batch_item_body, complete_item,
    fail_current_batch_item_body, fail_item, cancel_task_body, end_task, nothing_more, cancel_batch in H;
  hub_inv H.

(** Turns every step of a body into what it leaves alone. *)
Ltac frames :=
  repeat match goal with
  | H : _append_event _ _ _ _ _ _ _ _ = Ok _ |- _ =>
      let T := fresh "T" in pose proof (append_event_told _ _ _ _ _ _ _ _ _ _ H) as T; apply append_event_batches in H
  | H : _update_task_state _ _ _ _ _ _ = Ok _ |- _ =>
      let T := fresh "T" in pose proof (update_task_state_told _ _ _ _ _ _ _ _ H) as T; apply update_task_state_batches in H
  | H : _subscribe_companion_endpoints _ _ _ _ _ = Ok _ |- _ =>
      let T := fresh "T" in pose proof (subscribe_told _ _ _ _ _ _ _ H) as T; apply subscribe_batches in H
  | H : _sync_batch_task_summary _ _ _ _ _ _ _ _ _ = Ok _ |- _ =>
      let T := fresh "T" in pose proof (sync_told _ _ _ _ _ _ _ _ _ _ _ H) as T; apply sync_batches in H
  | H : _enqueue_timeline_message _ _ _ _ _ _ _ = Ok _ |- _ =>
      let T := fresh "T" in pose proof (enqueue_told _ _ _ _ _ _ _ _ _ H) as T; apply enqueue_batches in H
  | H : _expire_orphan_task_shells _ _ _ = Ok _ |- _ => apply orphans_frame in H as [? ?%told_same]
  | H : selected_task _ _ = Ok _ |- _ => apply selected_task_same in H; subst
  end.

(** Follows the steps back from the state after to the state before. *)
Ltac told_chain :=
  repeat match goal with
  | H : told _ ?s |- told _ ?s => etrans; [|exact H]; clear H
  | H : told _ ?s |- told _ ?t => match t with context [s] => trans s; [|by apply told_same] end
  end; try (apply told_same; repeat case_match; reflexivity).
Ltac batches_chain :=
  repeat match goal with
  | H : same_batches _ ?s |- same_batches _ ?s => etrans; [|exact H]; clear H
  | H : same_batches _ ?s |- same_batches _ ?t => match t with context [s] => trans s; [|by split] end
  end; try (split; repeat case_match; reflexivity).

Section StepFrames.
Context {tables : UnicodeTables} {digits : UnicodeDigits} {urls : UrlTables}.
Implicit Types (s : hub).

Definition quiet s s' : Prop := same_batches s s' /\ told s s'.

#[export] Instance quiet_preorder : PreOrder quiet.
Proof. split; [by split|]. intros s1 s2 s3 [] []. split; by etrans. Qed.

Lemma quiet_same s s' : batches s' = batches s -> items s' = items s -> outbox s' = outbox s -> quiet s s'.
Proof. intros H1 H2 H3. split; [by split|by apply told_same]. Qed.

#[local] Ltac settle := open_step; frames; (split; [batches_chain|told_chain]).

#[local] Ltac batch_open :=
  open_batch; frames; told_chain.

Lemma observation_quiet task user o now d s : quiet s (snd (link_operation task user o now d s)).
Proof. unfold link_operation. settle. Qed.

Lemma batch_told s s' : batch_step s s' -> told s s'.
Proof.
  intros [].
  - unfold create_batch. batch_open.
  - unfold record_batch_item_activity. batch_open.
  - unfold complete_current_batch_item. batch_open.
  - unfold fail_current_batch_item. batch_open.
  - unfold cancel_task. batch_open.
Qed.

Lemma ledger_quiet s s' : ledger_step s s' -> quiet s s'.
Proof.
  intros [].
  - unfold ensure_endpoint. settle.
  - unfold touch_endpoint. settle.
  - unfold ensure_task. settle.
  - unfold link_plan_operation. settle.
  - unfold record_plan_event. settle.
  - unfold record_analysis_phase. settle.
  - unfold link_interaction. settle.
  - unfold complete_task. settle.
  - unfold fail_task. settle.
  - unfold mark_task_outcome_unknown. settle.
  - unfold list_tasks. settle.
  - unfold recovery_candidates. settle.
  - unfold continuation_candidates. settle.
  - unfold set_continuation_candidates. settle.
  - unfold select_continuation. settle.
  - unfold get_continuation. settle.
  - unfold list_continuations. settle.
  - unfold link_artifact. settle.
  - unfold get_artifact. settle.
  - unfold list_artifacts. settle.
  - unfold list_user_artifacts. settle.
  - unfold refresh_artifact. settle.
  - unfold record_artifact_delivery. settle.
  - unfold append_timeline_message. settle.
Qed.
End StepFrames.
