(* ===== verification/TaskDemo.v ===== *)
(** * The task hub on the recorded sequence of a batch

    The steps of [batch-success-and-duplicate-completion] of src/tests/fixtures/task_state_sequences.json: the states,
    versions, digests and numbers of deliveries that the code has been recorded with are those of the model. *)

From S2P Require Import Prelude PyStr Json Store InputValidation TaskStateRules TaskTables TaskBatches TaskLedger TaskOutbox TaskContinuations TaskArtifacts TaskFrames TaskSteps.

#[local] Open Scope list_scope.
#[local] Open Scope Z_scope.
#[local] Open Scope string_scope.

Module TaskDemo.
#[local] Existing Instance ascii_tables.
#[local] Existing Instance ascii_digits.
#[local] Existing Instance plain_urls.

Definition draw (n : string) : event_draw := EventDraw n (fun endpoint => n +:+ ":" +:+ endpoint).

Definition telegram : endpoint_args :=
  EndpointArgs "alice" "fixture-token" "fixture-host" "telegram:alice" "telegram" "alice" "conversation" None None
    ["direct_status"; "trusted_interaction"] None.

Definition fixture_task : task_args := TaskArgs "alice" "fixture-host" "task" "e1" "conversation" "Synthetic" None.

Definition target (n : string) : payload :=
  [("resource_ref", JStr ("private-" +:+ n)); ("display_summary", JObj [("title", JStr ("item " +:+ n))])].

Definition fixture_batch : batch_args :=
  BatchArgs "t1" "alice" "oa" "synthetic.batch.prepare" (Some [("synthetic", JBool true)]) "stop_on_failure"
    [target "1"; target "2"].

Definition commit_1 : payload :=
  [("operation_id", JStr "commit-1"); ("user_subject", JStr "alice"); ("capability_name", JStr "synthetic.commit");
   ("status", JStr "succeeded")].

Definition with_endpoint : hub := snd (ensure_endpoint telegram 0 "e1" empty_hub).
Definition with_task : hub :=
  snd (ensure_task fixture_task 0 (TaskDraw "t1" "s1" (fun e => "c-" +:+ e) (draw "v1")) with_endpoint).
Definition with_batch : hub :=
  snd (create_batch fixture_batch 0 (BatchDraw "b1" (fun n => "x" +:+ str_of_Z n) (draw "v2") (draw "v3")) with_task).
Definition with_activity : hub :=
  snd (record_batch_item_activity "t1" "alice" (Some "prepare-1") (Some "auth-1") 0 (draw "v4") with_batch).
Definition one_done : hub :=
  snd (complete_current_batch_item "t1" "alice" "commit-1" 1 None 0 (CompletionDraw (draw "v5") (draw "v6") (draw "v7")) with_activity).
Definition observed : hub :=
  snd (link_operation "t1" "alice" commit_1 0 (LinkDraw (draw "v8") (draw "v9")) one_done).
Definition again : hub :=
  snd (complete_current_batch_item "t1" "alice" "commit-1" 1 None 0 (CompletionDraw (draw "w1") (draw "w2") (draw "w3")) observed).
Definition two_done : hub :=
  snd (complete_current_batch_item "t1" "alice" "commit-2" 2 None 0 (CompletionDraw (draw "w4") (draw "w5") (draw "w6")) again).

(** What the fixture records of a state: the status, version, operation and interaction of the task, the state of the
    batch, those of its items and the number of deliveries. *)
Definition recorded (s : hub) :=
  (option_map (fun t => (t_status t, t_version t, t_current_operation_id t, t_current_interaction_id t)) (tasks s !! "t1"),
   option_map b_state (batches s !! "b1"),
   map (fun x => x_state (snd x)) (items_of "b1" s),
   length (outbox s)).

Example recorded_batch : recorded with_batch =
  (Some ("running", 2%Z, None, None), Some "running", ["queued"; "queued"], 1%nat).
Proof. vm_compute. reflexivity. Qed.
Example recorded_snapshot : option_map b_source_snapshot_hash (batches with_batch !! "b1") =
  Some "1ffcbe3a2f418155fb40a4a53a4f9fca95188c6f298945c8bb12ce7cfa18a602".
Proof. vm_compute. reflexivity. Qed.
Example recorded_activity : recorded with_activity =
  (Some ("waiting_user", 3%Z, Some "prepare-1", Some "auth-1"), Some "waiting_user", ["waiting_user"; "queued"], 1%nat).
Proof. vm_compute. reflexivity. Qed.
Example recorded_first : recorded one_done =
  (Some ("running", 4%Z, Some "commit-1", Some "auth-1"), Some "running", ["succeeded"; "preparing"], 1%nat).
Proof. vm_compute. reflexivity. Qed.
Example recorded_observation : recorded observed =
  (Some ("running", 5%Z, Some "commit-1", Some "auth-1"), Some "running", ["succeeded"; "preparing"], 3%nat).
Proof. vm_compute. reflexivity. Qed.
Example recorded_duplicate : recorded again = recorded observed.
Proof. vm_compute. reflexivity. Qed.
Example recorded_end : recorded two_done =
  (Some ("succeeded", 6%Z, Some "commit-2", Some "auth-1"), Some "succeeded", ["succeeded"; "succeeded"], 4%nat).
Proof. vm_compute. reflexivity. Qed.

(** These hubs are reachable. *)

Lemma reach_empty : reachable_hub empty_hub.
Proof. by apply reachable_init. Qed.

Lemma reach_endpoint : reachable_hub with_endpoint.
Proof. unfold with_endpoint. eapply reachable_step; [exact reach_empty|]. apply in_ledger, ensures_endpoint. Qed.

Lemma reach_task : reachable_hub with_task.
Proof. unfold with_task. eapply reachable_step; [exact reach_endpoint|]. apply in_ledger, ensures_task. Qed.

Lemma reach_batch : reachable_hub with_batch.
Proof. unfold with_batch. eapply reachable_step; [exact reach_task|]. apply in_batches, creates_batch. Qed.

Lemma reach_activity : reachable_hub with_activity.
Proof. unfold with_activity. eapply reachable_step; [exact reach_batch|]. apply in_batches, records_activity. Qed.

Lemma reach_one_done : reachable_hub one_done.
Proof. unfold one_done. eapply reachable_step; [exact reach_activity|]. apply in_batches, completes_item. Qed.

Lemma reach_observed : reachable_hub observed.
Proof. unfold observed. eapply reachable_step; [exact reach_one_done|]. apply observes_operation. Qed.

Lemma reach_again : reachable_hub again.
Proof. unfold again. eapply reachable_step; [exact reach_observed|]. apply in_batches, completes_item. Qed.

Lemma reach_two_done : reachable_hub two_done.
Proof. unfold two_done. eapply reachable_step; [exact reach_again|]. apply in_batches, completes_item. Qed.

End TaskDemo.
