(* ===== verification/RuntimeGovernance.v ===== *)
(** * The runtime ledger (agentbridge/core/runtime_governance.py)

    What runs in the service leaves a trace: a trace per request with its stages (spans), signals, incidents that rules
    detect and people close, and the recovery actions that were taken.  Each trace carries the furthest side effect that
    its stages have reached.  Tables are lists in the order of their rowid, JSON columns hold the values they encode, and
    a time is its instant.  Metadata are JSON values. *)

From Stdlib Require Import Ascii SpecFloat.
From S2P Require Import Prelude PyStr Json Store Procedures TaskTables.
From S2P Require Operations.

#[local] Open Scope list_scope.

(** ** Floating point numbers, correctly rounded as Python has them *)

Abbreviation float := spec_float (only parsing).

Definition float_of_Z (n : Z) : float := binary_normalize 53 1024 n 0 false.
Definition float_mul (x y : float) : float := SFmul 53 1024 x y.

(** [n / d] of two integers, [0 <= n] and [0 < d], and the literal that is the decimal fraction [n / d] *)
Definition float_ratio (n d : Z) : float :=
  match n, d with
  | Zpos p, Zpos q => SFdiv 53 1024 (S754_finite false p 0) (S754_finite false q 0)
  | _, _ => S754_zero false
  end.

Definition float_leb (x y : float) : bool := SFleb x y.

(** [m / d] to the nearest integer, and to the even one of two *)
Definition nearest_even (m d : Z) : Z :=
  let q := (m / d)%Z in
  match (2 * (m mod d) ?= d)%Z with
  | Lt => q
  | Gt => q + 1
  | Eq => if Z.even q then q else q + 1
  end.

(** [round(x)] of a finite float *)
Definition float_round (x : float) : Z :=
  match x with
  | S754_finite negative m e =>
      let n := if (0 <=? e)%Z then (Zpos m * 2 ^ e)%Z else nearest_even (Zpos m) (2 ^ (- e)) in
      if negative then (- n)%Z else n
  | _ => 0%Z
  end.

(** ** Vocabulary *)

Definition SIDE_EFFECT_BOUNDARIES : list string :=
  ["B0_NO_EFFECT"; "B1_READ_ONLY"; "B2_INTERACTION_CREATED"; "B3_PREPARED_AUTHORIZED"; "B4_COMMIT_ATTEMPTED";
   "B5_VERIFIED"].
Definition TRACE_STATUSES : list string := ["active"; "waiting"; "succeeded"; "failed"; "unknown"; "cancelled"].
Definition INCIDENT_STATES : list string := ["open"; "acknowledged"; "investigating"; "resolved"; "suppressed"].
Definition INCIDENT_SEVERITIES : list string := ["P0"; "P1"; "P2"; "P3"].
Definition OBSERVATION_STATES : list string := ["active"; "completed"; "cancelled"].
Definition _ACTIVE_INCIDENT_STATES : list string := ["open"; "acknowledged"; "investigating"].

(** [SIDE_EFFECT_BOUNDARIES.index(value)] of a value that is there *)
Fixpoint index_of (x : string) (l : list string) : nat :=
  match l with [] => 0 | y :: rest => if String.eqb x y then 0 else S (index_of x rest) end.

Definition boundary_index (b : string) : nat := index_of b SIDE_EFFECT_BOUNDARIES.

Definition _validate_boundary (value : string) : result unit :=
  raise_if (negb (str_in value SIDE_EFFECT_BOUNDARIES)) ValueError ("unsupported side effect boundary: " +:+ value).

Definition _max_boundary (left right : string) : result string :=
  _validate_boundary left;;
  _validate_boundary right;;
  Ok (List.nth (Nat.max (boundary_index left) (boundary_index right)) SIDE_EFFECT_BOUNDARIES "").

(** [_bounded_text], and with [required=True] *)
Definition _bounded_text (maximum : nat) (value : option string) : option string :=
  match value with
  | None => None
  | Some v => let normalized := py_strip v in if truthy normalized then Some (py_take maximum normalized) else None
  end.

Definition required_text (maximum : nat) (value : option string) : result string :=
  match value with
  | None => raise ValueError "required text is missing"
  | Some v => match _bounded_text maximum (Some v) with Some t => Ok t | None => raise ValueError "required text is empty" end
  end.

(** [max(round((finish - start).total_seconds() * 1000), 0)] *)
Definition _duration_ms (started_at finished_at : instant) : Z :=
  Z.max (float_round (float_mul (float_ratio (finished_at - started_at) 1000000) (float_of_Z 1000))) 0.

Section Metadata.
Context `{UnicodeTables}.

Definition SENSITIVE : list string :=
  ["password"; "secret"; "bearer"; "cookie"; "authorization"; "cardurl"; "downloadurl"; "fieldvalue"; "formvalue"].

(** [name.lower().replace("_", "")] *)
Definition lowered (name : string) : string := str_filter (fun a => negb (Ascii.eqb a "_"%char)) (str_lower name).

Definition sensitive (name : string) : bool := existsb (fun marker => contains marker (lowered name)) SENSITIVE.

(** A candidate in a list of metadata *)
Definition safe_candidate (v : json) : json :=
  match v with
  | JNull | JBool _ | JInt _ | JFloat _ _ => v
  | _ => JStr (py_take 160 (py_str v))
  end.

Fixpoint safe_value (v : json) : json :=
  match v with
  | JStr t => JStr (py_take 500 t)
  | JArr l => JArr (take 30 (map safe_candidate l))
  | JObj kvs => JObj (dict_of_pairs (take 50 (map (fun kv => let name := py_take 80 (fst kv) in
      (name, if sensitive name then JStr "[redacted]" else safe_value (snd kv))) kvs)))
  | _ => v
  end.

Definition _safe_metadata (value : option payload) : payload :=
  match value with Some kvs => match safe_value (JObj kvs) with JObj kvs' => kvs' | _ => [] end | None => [] end.

(** What [_decode_object] reads from [_canonical_json] of an object *)
Definition canonical_object (kvs : payload) : payload := match canon (JObj kvs) with JObj kvs' => kvs' | _ => [] end.

Definition safe_object (value : option payload) : payload := canonical_object (_safe_metadata value).

(** [d.update(e)] *)
Definition dict_update (d e : payload) : payload := fold_left (fun d kv => dict_set (fst kv) (snd kv) d) e d.
End Metadata.

(** ** Tables *)

Record trace_row : Type := TraceRow {
  tr_request_id : option string;
  tr_user_subject : string;
  tr_task_id : option string;
  tr_origin_endpoint_id : option string;
  tr_host_type : string;
  tr_host_instance_id : option string;
  tr_host_run_id : option string;
  tr_request_kind : string;
  tr_system_id : option string;
  tr_capability_name : option string;
  tr_status : string;
  tr_boundary : string;
  tr_release_id : string;
  tr_started_at : instant;
  tr_updated_at : instant;
  tr_finished_at : option instant;
}.

Record span_row : Type := SpanRow {
  sp_trace_id : string;
  sp_parent_span_id : option string;
  sp_stage : string;
  sp_status : string;
  sp_user_subject : string;
  sp_task_id : option string;
  sp_operation_id : option string;
  sp_interaction_id : option string;
  sp_artifact_id : option string;
  sp_delivery_id : option string;
  sp_system_id : option string;
  sp_capability_name : option string;
  sp_attempt : Z;
  sp_boundary : string;
  sp_error_code : option string;
  sp_started_at : instant;
  sp_finished_at : option instant;
  sp_duration_ms : option Z;
  sp_metadata : payload;
}.

Record signal_row : Type := SignalRow {
  sg_signal_type : string;
  sg_source : string;
  sg_status : string;
  sg_system_id : option string;
  sg_user_subject : option string;
  sg_host_type : option string;
  sg_host_instance_id : option string;
  sg_trace_id : option string;
  sg_value : payload;
  sg_observed_at : instant;
}.

Record incident_row : Type := IncidentRow {
  in_fingerprint : string;
  in_rule_id : string;
  in_severity : string;
  in_state : string;
  in_symptom_code : string;
  in_root_cause_code : option string;
  in_actionability : string;
  in_title : string;
  in_trace_id : option string;
  in_user_subject : option string;
  in_system_id : option string;
  in_host_type : option string;
  in_object_type : option string;
  in_object_id : option string;
  in_evidence : payload;
  in_recommended_action : option string;
  in_occurrence_count : Z;
  in_first_seen_at : instant;
  in_last_seen_at : instant;
  in_updated_at : instant;
  in_resolved_at : option instant;
}.

Record incident_event : Type := IncidentEvent {
  ie_incident_id : string;
  ie_event_type : string;
  ie_actor : string;
  ie_reason : option string;
  ie_before_state : option string;
  ie_after_state : option string;
  ie_created_at : instant;
}.

Record recovery_row : Type := RecoveryRow {
  rc_action_type : string;
  rc_target_type : string;
  rc_target_id : string;
  rc_actor : string;
  rc_reason : string;
  rc_idempotency_key : string;
  rc_status : string;
  rc_boundary : string;
  rc_before : payload;
  rc_after : payload;
  rc_error_code : option string;
  rc_created_at : instant;
  rc_finished_at : option instant;
}.

(** What a report says of a metric, and of all of them over a window *)
Record metric : Type := Metric {
  me_key : string;
  me_sample_count : Z;
  me_success_count : option Z;
  me_value : option float;
  me_target : option float;
  me_status : string;
}.

Record slo_report : Type := SloReport {
  sl_window_start : instant;
  sl_window_end : instant;
  sl_window_hours : Z;
  sl_metrics : list metric;
}.

(** [runtime_slo_rollups]; the dimension is the number of hours of the window. *)
Record rollup_row : Type := RollupRow {
  ro_metric : metric;
  ro_window_hours : Z;
  ro_window_start : instant;
  ro_window_end : instant;
  ro_created_at : instant;
}.

Record totals : Type := Totals {
  to_active_traces : nat;
  to_open_incidents : nat;
  to_critical_incidents : nat;
  to_running_recoveries : nat;
  to_span_count : nat;
  to_last_signal_at : option instant;
  to_active_observations : nat;
  to_last_observation_at : option instant;
}.

Record incident_counts : Type := IncidentCounts {
  ic_active : Z;
  ic_by_severity : list (string * Z);
  ic_by_state : list (string * Z);
}.

Record baseline : Type := Baseline { ba_summary : totals; ba_slo : slo_report; ba_incident_counts : incident_counts }.

(** [runtime_observation_snapshots], by the snapshot *)
Record snapshot_row : Type := SnapshotRow {
  ss_observation_id : string;
  ss_observed_at : instant;
  ss_measured : baseline;
  ss_collection : payload;
}.

Record observation_row : Type := ObservationRow {
  ob_name : string;
  ob_state : string;
  ob_duration_hours : Z;
  ob_created_by : string;
  ob_policy : payload;
  ob_baseline : baseline;
  ob_latest_snapshot : option (string * snapshot_row);
  ob_snapshot_count : Z;
  ob_started_at : instant;
  ob_ends_at : instant;
  ob_last_snapshot_at : option instant;
  ob_completed_at : option instant;
}.

Record ledger : Type := Ledger {
  traces : list (string * trace_row);
  spans : list (string * span_row);
  signals : list (string * signal_row);
  incidents : list (string * incident_row);
  incident_log : list (string * incident_event);
  recoveries : list (string * recovery_row);
  rollups : list (string * rollup_row);
  observations : list (string * observation_row);
  snapshots : list (string * snapshot_row);
}.

Definition with_traces l s : ledger :=
  Ledger l (spans s) (signals s) (incidents s) (incident_log s) (recoveries s) (rollups s) (observations s) (snapshots s).
Definition with_spans l s : ledger :=
  Ledger (traces s) l (signals s) (incidents s) (incident_log s) (recoveries s) (rollups s) (observations s) (snapshots s).
Definition with_signals l s : ledger :=
  Ledger (traces s) (spans s) l (incidents s) (incident_log s) (recoveries s) (rollups s) (observations s) (snapshots s).
Definition with_incidents l events s : ledger :=
  Ledger (traces s) (spans s) (signals s) l events (recoveries s) (rollups s) (observations s) (snapshots s).
Definition with_recoveries l s : ledger :=
  Ledger (traces s) (spans s) (signals s) (incidents s) (incident_log s) l (rollups s) (observations s) (snapshots s).
Definition with_rollups l s : ledger :=
  Ledger (traces s) (spans s) (signals s) (incidents s) (incident_log s) (recoveries s) l (observations s) (snapshots s).
Definition with_observations l taken s : ledger :=
  Ledger (traces s) (spans s) (signals s) (incidents s) (incident_log s) (recoveries s) (rollups s) l taken.

(** [ORDER BY column DESC] *)
Definition descending {R} (column : R -> instant) (x y : string * R) : bool := (column (snd y) <=? column (snd x))%Z.

(** [SELECT .. WHERE p ORDER BY column DESC LIMIT 1] *)
Definition latest {R} (column : R -> instant) (p : R -> bool) (l : list (string * R)) : option (string * R) :=
  head (sort_by (descending column) (rows_where p l)).

Definition is_text (value : option string) (text : string) : bool :=
  match value with Some t => String.eqb t text | None => false end.

Definition missing {A} (message : string) : result A := raise KeyError message.

Definition no_clash {R} (r : R) : bool := false.

(** [min(max(int(limit), 1), 1000)] *)
Definition page (limit : Z) : nat := Z.to_nat (Z.min (Z.max limit 1) 1000).

(** A method that is one transaction *)
Definition atomic {A} (m : tx ledger A) : proc ledger A := transaction m.

Section Traces.
Context `{UnicodeTables}.
Implicit Types (s : ledger) (x : trace_row) (y : span_row).

(** ** Traces *)

Record trace_args : Type := TraceArgs {
  ta_user_subject : string;
  ta_request_id : option string;
  ta_task_id : option string;
  ta_origin_endpoint_id : option string;
  ta_host_type : string;
  ta_host_instance_id : option string;
  ta_host_run_id : option string;
  ta_request_kind : string;
  ta_system_id : option string;
  ta_capability_name : option string;
}.

Definition trace : Type := string * trace_row.

Definition open_trace_of (user task : string) x : bool :=
  String.eqb (tr_user_subject x) user && is_text (tr_task_id x) task && str_in (tr_status x) ["active"; "waiting"].

Definition requested_by (user request : string) x : bool :=
  String.eqb (tr_user_subject x) user && is_text (tr_request_id x) request.

Definition belongs (user task : string) x : bool :=
  is_text (tr_task_id x) task && String.eqb (tr_user_subject x) user.

(** The trace that a request continues *)
Definition continued_trace (user : string) (task request : option string) s : option trace :=
  match task with
  | Some t => latest tr_started_at (open_trace_of user t) (traces s)
  | None =>
      match request with
      | Some r => latest tr_started_at (requested_by user r) (traces s)
      | None => None
      end
  end.

Definition coalesced {A} (new old : option A) : option A := match new with Some a => Some a | None => old end.

Definition touched_trace (a : trace_args) (host : string) (now : instant) x : trace_row :=
  TraceRow (tr_request_id x) (tr_user_subject x) (tr_task_id x)
    (coalesced (_bounded_text 128 (ta_origin_endpoint_id a)) (tr_origin_endpoint_id x))
    (if String.eqb (ta_host_type a) "unknown" then tr_host_type x else host)
    (coalesced (_bounded_text 160 (ta_host_instance_id a)) (tr_host_instance_id x))
    (coalesced (_bounded_text 256 (ta_host_run_id a)) (tr_host_run_id x)) (tr_request_kind x)
    (coalesced (_bounded_text 80 (ta_system_id a)) (tr_system_id x))
    (coalesced (_bounded_text 200 (ta_capability_name a)) (tr_capability_name x)) (tr_status x) (tr_boundary x)
    (tr_release_id x) (tr_started_at x) now (tr_finished_at x).

Definition row_with {R} (id message : string) (l : list (string * R)) : result (string * R) :=
  match row_by_key id l with Some r => Ok (id, r) | None => missing message end.

Definition every_row {R} (r : R) : bool := true.

(** An update of one row and the row that is read after it *)
Definition update_by_key {R} (id : string) (f : R -> R) (l : list (string * R)) : list (string * R) :=
  update_row id every_row f l.

Definition ensure_trace (release : string) (a : trace_args) (now : instant) (trace_id : string)
  : proc ledger (trace * bool) :=
  atomic (fun s =>
    user ← required_text 256 (Some (ta_user_subject a));
    let task := _bounded_text 128 (ta_task_id a) in
    let request := _bounded_text 256 (ta_request_id a) in
    match continued_trace user task request s with
    | Some (id, x) =>
        host ← required_text 80 (Some (ta_host_type a));
        Ok (((id, touched_trace a host now x), true), with_traces (update_by_key id (touched_trace a host now) (traces s)) s)
    | None =>
        host ← required_text 80 (Some (ta_host_type a));
        kind ← required_text 40 (Some (ta_request_kind a));
        let x := TraceRow request user task (_bounded_text 128 (ta_origin_endpoint_id a)) host
          (_bounded_text 160 (ta_host_instance_id a)) (_bounded_text 256 (ta_host_run_id a)) kind
          (_bounded_text 80 (ta_system_id a)) (_bounded_text 200 (ta_capability_name a)) "active" "B0_NO_EFFECT" release
          now now None in
        l ← append_row trace_id no_clash x (traces s);
        Ok (((trace_id, x), false), with_traces l s)
    end).

Definition get_trace (trace_id : string) s : result trace :=
  row_with trace_id ("runtime trace not found: " +:+ trace_id) (traces s).

Definition trace_for_task (task user : string) s : option trace := latest tr_started_at (belongs user task) (traces s).

Definition trace_for_request (request user : string) s : option trace :=
  latest tr_started_at (requested_by user request) (traces s).

(** The trace of the latest span of the operation whose trace is there *)
Definition trace_for_operation (operation : string) s : option trace :=
  match latest sp_started_at (fun y => is_text (sp_operation_id y) operation
          && bool_decide (is_Some (row_by_key (sp_trace_id y) (traces s)))) (spans s) with
  | Some (_, y) => match row_by_key (sp_trace_id y) (traces s) with Some x => Some (sp_trace_id y, x) | None => None end
  | None => None
  end.

Definition ended_statuses : list string := ["succeeded"; "failed"; "unknown"; "cancelled"].

Definition moved_trace (status boundary : string) (now : instant) (finished : option instant) x : trace_row :=
  TraceRow (tr_request_id x) (tr_user_subject x) (tr_task_id x) (tr_origin_endpoint_id x) (tr_host_type x)
    (tr_host_instance_id x) (tr_host_run_id x) (tr_request_kind x) (tr_system_id x) (tr_capability_name x) status boundary
    (tr_release_id x) (tr_started_at x) now finished.

Definition finished_trace_at (status : option string) (finished : option bool) (now : instant) x : option instant :=
  let terminal := match finished with
                  | Some b => b
                  | None => str_in (match status with Some t => or_default (Some t) (tr_status x) | None => tr_status x end)
                              ended_statuses
                  end in
  if terminal then Some now
  else match tr_finished_at x, status with Some t, None => Some t | _, _ => None end.

(** A call that writes the row that it has read: its clock, and the row that its SELECT, which opens no transaction, has
    read when another call has written the row since. *)
Record write_draw (R : Type) : Type := WriteDraw { wd_now : instant; wd_seen : option R }.
#[global] Arguments WriteDraw {_} _ _.
#[global] Arguments wd_now {_} _.
#[global] Arguments wd_seen {_} _.

Definition as_read {R} (d : write_draw R) (row : R) : R := default row (wd_seen d).

Definition update_trace (trace_id : string) (status boundary : option string) (finished : option bool)
    (d : write_draw trace_row) : proc ledger trace :=
  atomic (fun s =>
    _ ← match status with
        | Some t => raise_if (negb (str_in t TRACE_STATUSES)) ValueError ("unsupported runtime trace status: " +:+ t)
        | None => Ok tt
        end;
    _ ← match boundary with Some b => _validate_boundary b | None => Ok tt end;
    '(id, x) ← get_trace trace_id s;
    let x0 := as_read d x in
    reached ← _max_boundary (tr_boundary x0) (or_default boundary (tr_boundary x0));
    let x' := moved_trace (or_default status (tr_status x0)) reached (wd_now d) (finished_trace_at status finished (wd_now d) x0) x in
    Ok ((id, x'), with_traces (update_by_key id (fun _ => x') (traces s)) s)).

(** ** Spans *)

Definition span : Type := string * span_row.

Record span_args : Type := SpanArgs {
  sa_trace_id : string;
  sa_stage : string;
  sa_parent_span_id : option string;
  sa_operation_id : option string;
  sa_interaction_id : option string;
  sa_artifact_id : option string;
  sa_delivery_id : option string;
  sa_system_id : option string;
  sa_capability_name : option string;
  sa_attempt : Z;
  sa_boundary : string;
  sa_metadata : option payload;
  sa_started_at : option instant;
}.

(** [a or b] on optional texts *)
Definition either (a b : option string) : option string := if opt_truthy a then a else b.

(** The partial index [runtime_spans_operation_stage] *)
Definition same_stage (y0 y : span_row) : bool :=
  match sp_operation_id y0, sp_operation_id y with
  | Some o, Some o' =>
      String.eqb (sp_trace_id y) (sp_trace_id y0) && String.eqb (sp_stage y) (sp_stage y0) && String.eqb o' o
      && (sp_attempt y =? sp_attempt y0)%Z
  | _, _ => false
  end.

(** [x] is the trace as [get_trace] has just read it. *)
Definition new_span (a : span_args) (x : trace_row) (now : instant) : result span_row :=
  stage ← required_text 120 (Some (sa_stage a));
  Ok (SpanRow (sa_trace_id a) (_bounded_text 128 (sa_parent_span_id a)) stage "running" (tr_user_subject x) (tr_task_id x)
        (_bounded_text 256 (sa_operation_id a)) (_bounded_text 256 (sa_interaction_id a))
        (_bounded_text 256 (sa_artifact_id a)) (_bounded_text 256 (sa_delivery_id a))
        (_bounded_text 80 (either (sa_system_id a) (tr_system_id x)))
        (_bounded_text 200 (either (sa_capability_name a) (tr_capability_name x))) (Z.max (sa_attempt a) 1) (sa_boundary a)
        None (default now (sa_started_at a)) None None (safe_object (sa_metadata a))).

Definition insert_span (a : span_args) (x : trace_row) (now : instant) (span_id : string) : tx ledger span := fun s =>
  y ← new_span a x now;
  l ← append_row span_id (same_stage y) y (spans s);
  Ok ((span_id, y), with_spans l s).

Definition now_trace (trace_id : string) : proc ledger trace := fun s => (get_trace trace_id s, s).

Record span_draw : Type := SpanDraw { sd_span_id : string; sd_inserted_at : instant; sd_update : write_draw trace_row }.

Definition start_span (a : span_args) (d : span_draw) : proc ledger span :=
  _ ← of_result (_validate_boundary (sa_boundary a));
  x ← now_trace (sa_trace_id a);
  y ← atomic (insert_span a (snd x) (sd_inserted_at d) (sd_span_id d));
  _ ← update_trace (sa_trace_id a) None (Some (sa_boundary a)) (Some false) (sd_update d);
  mret y.

Record finish_args : Type := FinishArgs {
  fa_status : string;
  fa_error_code : option string;
  fa_boundary : option string;
  fa_metadata : option payload;
  fa_finished_at : option instant;
  fa_duration_ms : option Z;
}.

(** [y0] is the row that has been read, and [y] the one that is written. *)
Definition finished_span (a : finish_args) (status boundary : string) (now : instant) (y0 y : span_row) : span_row :=
  SpanRow (sp_trace_id y) (sp_parent_span_id y) (sp_stage y) status (sp_user_subject y) (sp_task_id y) (sp_operation_id y)
    (sp_interaction_id y) (sp_artifact_id y) (sp_delivery_id y) (sp_system_id y) (sp_capability_name y) (sp_attempt y)
    boundary (_bounded_text 120 (fa_error_code a)) (sp_started_at y) (Some now)
    (Some (Z.max (match fa_duration_ms a with Some n => n | None => _duration_ms (sp_started_at y0) now end) 0))
    (canonical_object (dict_update (sp_metadata y0) (_safe_metadata (fa_metadata a)))).

Definition finish_span_body (span_id : string) (a : finish_args) (d : write_draw span_row) : tx ledger span := fun s =>
  '(id, y) ← row_with span_id ("runtime span not found: " +:+ span_id) (spans s);
  let y0 := as_read d y in
  let boundary := or_default (fa_boundary a) (sp_boundary y0) in
  _validate_boundary boundary;;
  status ← required_text 40 (Some (fa_status a));
  let y' := finished_span a status boundary (default (wd_now d) (fa_finished_at a)) y0 y in
  Ok ((id, y'), with_spans (update_by_key id (fun _ => y') (spans s)) s).

Record finish_draw : Type := FinishDraw { fd_finish : write_draw span_row; fd_update : write_draw trace_row }.

Definition finish_span (span_id : string) (a : finish_args) (d : finish_draw) : proc ledger span :=
  y ← atomic (finish_span_body span_id a (fd_finish d));
  _ ← update_trace (sp_trace_id (snd y)) None (Some (sp_boundary (snd y))) (Some false) (fd_update d);
  mret y.
End Traces.

(** ** Failures *)

(** The attribute [code] of an exception, [""] when it has none *)
Definition exn_code (c : exc_class) : string :=
  match c with
  | HostContractError => "HOST_CONTRACT_INVALID"
  | HostRegistrationRequired => "HOST_REGISTRATION_REQUIRED"
  | HostLeaseConflict => "HOST_COORDINATOR_LEASE_CONFLICT"
  | TransformRejected code => code
  | PlanValidationError code _ => code
  | _ => ""
  end.

Section Stages.
Context `{UnicodeTables}.
Implicit Types (s : ledger) (y : span_row).

(** [classify_runtime_error(error)["code"]], of what it reads of the error *)
Definition classified (source_code class message : string) : string :=
  let source := str_upper source_code in
  let combined := source +:+ " " +:+ str_upper class +:+ " " +:+ str_upper message in
  let says marker := contains marker combined in
  if says "RESULT_UNKNOWN" || says "OUTCOMEUNKNOWN" then "RESULT_UNKNOWN"
  else if says "LOGIN_REQUIRED" || says "ADAPTERLOGINREQUIRED" then "SESSION_EXPIRED"
  else if says "PERMISSION" || says "FORBIDDEN" then "PERMISSION_DENIED"
  else if says "WRITE_PAUSED" then "WRITE_PAUSED"
  else if says "BUSINESS" && says "REJECT" then "BUSINESS_REJECTED"
  else if says "TIMEOUT" || says "TIMED OUT" then "DOWNSTREAM_TIMEOUT"
  else if says "CONNECTION" || says "UNREACHABLE" then "DOWNSTREAM_UNAVAILABLE"
  else if says "SQLITE" || says "DATABASE" then "DATABASE_BUSY"
  else if truthy source then py_take 120 source
  else "RUNTIME_FAILURE".

Definition classify_runtime_error (e : exn) : string := classified (exn_code (exn_class e)) (class_name (exn_class e)) (exn_str e).

(** ** Stages *)

(** [with store.span(..) as record: body]; [elapsed] is what the counter has measured, in milliseconds. *)
Definition in_span {A} (a : span_args) (body : span -> proc ledger A) (elapsed : Z) (d : span_draw) (d' : finish_draw)
  : proc ledger A :=
  y ← start_span a d;
  fun s =>
    match body y s with
    | (Ok r, s') => (_ ← finish_span (fst y) (FinishArgs "succeeded" None None None None (Some elapsed)) d'; mret r) s'
    | (Raise e, s') =>
        (_ ← finish_span (fst y) (FinishArgs "failed" (Some (classify_runtime_error e)) None None None (Some elapsed)) d';
         mthrow e) s'
    end.

Record stage_args : Type := StageArgs {
  ga_trace_id : string;
  ga_stage : string;
  ga_status : string;
  ga_operation_id : option string;
  ga_interaction_id : option string;
  ga_artifact_id : option string;
  ga_delivery_id : option string;
  ga_system_id : option string;
  ga_capability_name : option string;
  ga_error_code : option string;
  ga_boundary : string;
  ga_metadata : option payload;
  ga_started_at : option instant;
  ga_finished_at : option instant;
  ga_duration_ms : option Z;
}.

(** [column = ?], when a value is given *)
Definition column_is (value column : option string) : bool := negb (opt_truthy value) || is_text column (or_empty value).

Definition recorded_as (a : stage_args) y : bool :=
  String.eqb (sp_trace_id y) (ga_trace_id a) && String.eqb (sp_stage y) (ga_stage a)
  && column_is (ga_operation_id a) (sp_operation_id y) && column_is (ga_interaction_id a) (sp_interaction_id y)
  && column_is (ga_artifact_id a) (sp_artifact_id y) && column_is (ga_delivery_id a) (sp_delivery_id y).

Definition stage_span (a : stage_args) : span_args :=
  SpanArgs (ga_trace_id a) (ga_stage a) None (ga_operation_id a) (ga_interaction_id a) (ga_artifact_id a) (ga_delivery_id a)
    (ga_system_id a) (ga_capability_name a) 1 (ga_boundary a) (ga_metadata a) (ga_started_at a).

Definition stage_finish (a : stage_args) : finish_args :=
  FinishArgs (ga_status a) (ga_error_code a) (Some (ga_boundary a)) (ga_metadata a) (ga_finished_at a) (ga_duration_ms a).

Record stage_draw : Type := StageDraw { gd_start : span_draw; gd_finish : finish_draw }.

Definition record_stage_once (a : stage_args) (d : stage_draw) : proc ledger span :=
  existing ← reading (fun s => latest sp_started_at (recorded_as a) (spans s));
  match existing with
  | Some y => mret y
  | None =>
      y ← start_span (stage_span a) (gd_start d);
      finish_span (fst y) (stage_finish a) (gd_finish d)
  end.

(** ** Signals *)

Record signal_args : Type := SignalArgs {
  na_signal_type : string;
  na_source : string;
  na_status : string;
  na_value : option payload;
  na_system_id : option string;
  na_user_subject : option string;
  na_host_type : option string;
  na_host_instance_id : option string;
  na_trace_id : option string;
  na_observed_at : option instant;
}.

Definition record_signal (a : signal_args) (now : instant) (signal_id : string) : proc ledger (string * signal_row) :=
  atomic (fun s =>
    kind ← required_text 120 (Some (na_signal_type a));
    source ← required_text 160 (Some (na_source a));
    status ← required_text 40 (Some (na_status a));
    let g := SignalRow kind source status (_bounded_text 80 (na_system_id a)) (_bounded_text 256 (na_user_subject a))
      (_bounded_text 80 (na_host_type a)) (_bounded_text 160 (na_host_instance_id a)) (_bounded_text 128 (na_trace_id a))
      (safe_object (na_value a)) (default now (na_observed_at a)) in
    l ← append_row signal_id no_clash g (signals s);
    Ok ((signal_id, g), with_signals l s)).

Definition list_signals (signal_type : option string) (limit : Z) s : list (string * signal_row) :=
  take (page limit) (sort_by (descending sg_observed_at)
    (rows_where (fun g => negb (opt_truthy signal_type) || String.eqb (sg_signal_type g) (or_empty signal_type)) (signals s))).
End Stages.

Section Incidents.
Context `{UnicodeTables}.
Implicit Types (s : ledger) (i : incident_row).

(** ** Incidents *)

Definition incident : Type := string * incident_row.

Record incident_args : Type := IncidentArgs {
  ia_rule_id : string;
  ia_severity : string;
  ia_symptom_code : string;
  ia_actionability : string;
  ia_title : string;
  ia_root_cause_code : option string;
  ia_trace_id : option string;
  ia_user_subject : option string;
  ia_system_id : option string;
  ia_host_type : option string;
  ia_object_type : option string;
  ia_object_id : option string;
  ia_evidence : option payload;
  ia_recommended_action : option string;
}.

Definition fingerprint (a : incident_args) : string :=
  py_take 900 (py_join ":" (map (fun value => or_default value "-")
    [Some (ia_rule_id a); ia_system_id a; ia_host_type a; ia_object_type a; ia_object_id a])).

Definition active_incident i : bool := str_in (in_state i) _ACTIVE_INCIDENT_STATES.

(** An unknown outcome of the operation that somebody has settled *)
Definition unknown_of (operation : string) i : bool :=
  String.eqb (in_rule_id i) "write_outcome_unknown" && is_text (in_object_type i) "operation"
  && is_text (in_object_id i) operation.

Definition settled_unknown (operation : string) i : bool :=
  unknown_of operation i && str_in (in_state i) ["resolved"; "suppressed"].

(** The attempt that the detection is about, when the rule is for unknown outcomes *)
Definition unknown_write (a : incident_args) : option string :=
  if String.eqb (ia_rule_id a) "write_outcome_unknown" && is_text (ia_object_type a) "operation" && opt_truthy (ia_object_id a)
  then ia_object_id a else None.

Definition settled_before (a : incident_args) s : option incident :=
  match unknown_write a with
  | Some operation => latest in_updated_at (settled_unknown operation) (incidents s)
  | None => None
  end.

Definition open_with (print : string) i : bool := String.eqb (in_fingerprint i) print && active_incident i.

(** The texts of an incident, checked in the order of the statement *)
Record incident_texts : Type := IncidentTexts { it_symptom_code : string; it_actionability : string; it_title : string }.

Definition incident_texts_of (a : incident_args) : result incident_texts :=
  symptom ← required_text 120 (Some (ia_symptom_code a));
  actionability ← required_text 40 (Some (ia_actionability a));
  title ← required_text 240 (Some (ia_title a));
  Ok (IncidentTexts symptom actionability title).

Definition seen_again (a : incident_args) (x : incident_texts) (now : instant) i : incident_row :=
  IncidentRow (in_fingerprint i) (in_rule_id i) (ia_severity a) (in_state i) (it_symptom_code x)
    (_bounded_text 120 (ia_root_cause_code a)) (it_actionability x) (it_title x)
    (coalesced (_bounded_text 128 (ia_trace_id a)) (in_trace_id i))
    (coalesced (_bounded_text 256 (ia_user_subject a)) (in_user_subject i))
    (coalesced (_bounded_text 80 (ia_system_id a)) (in_system_id i))
    (coalesced (_bounded_text 80 (ia_host_type a)) (in_host_type i)) (in_object_type i) (in_object_id i)
    (safe_object (ia_evidence a)) (_bounded_text 500 (ia_recommended_action a)) (in_occurrence_count i + 1)%Z
    (in_first_seen_at i) now now (in_resolved_at i).

Definition first_seen (a : incident_args) (rule : string) (x : incident_texts) (now : instant) : incident_row :=
  IncidentRow (fingerprint a) rule (ia_severity a) "open" (it_symptom_code x) (_bounded_text 120 (ia_root_cause_code a))
    (it_actionability x) (it_title x) (_bounded_text 128 (ia_trace_id a)) (_bounded_text 256 (ia_user_subject a))
    (_bounded_text 80 (ia_system_id a)) (_bounded_text 80 (ia_host_type a)) (_bounded_text 80 (ia_object_type a))
    (_bounded_text 256 (ia_object_id a)) (safe_object (ia_evidence a)) (_bounded_text 500 (ia_recommended_action a)) 1 now now
    now None.

(** The identifiers that a detection draws, and its reading of the clock *)
Record incident_draw : Type := IncidentDraw { id_incident_id : string; id_event_id : string; id_now : instant }.

Definition upsert_body (a : incident_args) (d : incident_draw) : tx ledger incident := fun s =>
  let now := id_now d in
  match settled_before a s with
  | Some i => Ok (i, s)
  | None =>
      match latest in_last_seen_at (open_with (fingerprint a)) (incidents s) with
      | Some (id, i) =>
          x ← incident_texts_of a;
          Ok ((id, seen_again a x now i),
              with_incidents (update_by_key id (seen_again a x now) (incidents s)) (incident_log s) s)
      | None =>
          rule ← required_text 120 (Some (ia_rule_id a));
          x ← incident_texts_of a;
          let i := first_seen a rule x now in
          l ← append_row (id_incident_id d) no_clash i (incidents s);
          log ← append_row (id_event_id d) no_clash
                  (IncidentEvent (id_incident_id d) "detected" "agentbridge" None None (Some "open") now) (incident_log s);
          Ok ((id_incident_id d, i), with_incidents l log s)
      end
  end.

Definition upsert_incident (a : incident_args) (d : incident_draw) : proc ledger incident :=
  _ ← of_result (raise_if (negb (str_in (ia_severity a) INCIDENT_SEVERITIES)) ValueError
        ("unsupported incident severity: " +:+ ia_severity a));
  atomic (upsert_body a d).

Definition transitioned (state : string) (now : instant) i : incident_row :=
  IncidentRow (in_fingerprint i) (in_rule_id i) (in_severity i) state (in_symptom_code i) (in_root_cause_code i)
    (in_actionability i) (in_title i) (in_trace_id i) (in_user_subject i) (in_system_id i) (in_host_type i)
    (in_object_type i) (in_object_id i) (in_evidence i) (in_recommended_action i) (in_occurrence_count i)
    (in_first_seen_at i) (in_last_seen_at i) now (if String.eqb state "resolved" then Some now else None).

Definition transition_body (incident_id state actor reason : string) (now : instant) (event_id : string) : tx ledger incident :=
  fun s =>
    '(id, i) ← row_with incident_id ("runtime incident not found: " +:+ incident_id) (incidents s);
    who ← required_text 120 (Some actor);
    why ← required_text 500 (Some reason);
    log ← append_row event_id no_clash
            (IncidentEvent id state who (Some why) (Some (in_state i)) (Some state) now) (incident_log s);
    Ok ((id, transitioned state now i), with_incidents (update_by_key id (transitioned state now) (incidents s)) log s).

Definition transition_incident (incident_id state actor reason : string) (now : instant) (event_id : string)
  : proc ledger incident :=
  _ ← of_result (raise_if (negb (str_in state INCIDENT_STATES)) ValueError ("unsupported incident state: " +:+ state));
  atomic (transition_body incident_id state actor reason now event_id).

Definition incident_events (incident_id : string) s : list (string * incident_event) :=
  sort_by (fun x y => (ie_created_at (snd x) <=? ie_created_at (snd y))%Z)
    (rows_where (fun e => String.eqb (ie_incident_id e) incident_id) (incident_log s)).

(** *** Lists *)

Record incident_view : Type := IncidentView {
  iv_incident : incident;
  iv_operation_created_at : option instant;
  iv_disposition_reason : option string;
  iv_disposition_actor : option string;
}.

Definition disposition (incident_id : string) s : option (string * incident_event) :=
  latest ie_created_at (fun e => String.eqb (ie_incident_id e) incident_id
    && match ie_after_state e with Some t => str_in t ["resolved"; "suppressed"] | None => false end) (incident_log s).

(** [operations] is the table of operations, when it exists. *)
Definition view_incident (operations : option (gmap string Operations.row)) s (x : incident) : incident_view :=
  IncidentView x
    (if is_text (in_object_type (snd x)) "operation"
     then match operations, in_object_id (snd x) with
          | Some t, Some id => match t !! id with Some r => Some (Operations.created_at (Operations.row_identity r)) | None => None end
          | _, _ => None
          end
     else None)
    match disposition (fst x) s with Some e => ie_reason (snd e) | None => None end
    match disposition (fst x) s with Some e => Some (ie_actor (snd e)) | None => None end.

Definition severity_rank (severity : string) : nat :=
  if String.eqb severity "P0" then 0 else if String.eqb severity "P1" then 1 else if String.eqb severity "P2" then 2 else 3.

Definition more_urgent (x y : incident) : bool :=
  (severity_rank (in_severity (snd x)) <? severity_rank (in_severity (snd y)))%nat
  || (severity_rank (in_severity (snd x)) =? severity_rank (in_severity (snd y)))%nat
     && (in_last_seen_at (snd y) <=? in_last_seen_at (snd x))%Z.

Definition list_incidents (operations : option (gmap string Operations.row)) (state severity : option string) (limit : Z) s
  : list incident_view :=
  map (view_incident operations s) (take (page limit) (sort_by more_urgent
    (rows_where (fun i => (negb (opt_truthy state) || String.eqb (in_state i) (or_empty state))
                          && (negb (opt_truthy severity) || String.eqb (in_severity i) (or_empty severity))) (incidents s)))).
End Incidents.

Section Observers.
Context `{UnicodeTables}.
Implicit Types (s : ledger).

(** ** What the service observes *)

Definition unknown_title : string := "业务写操作结果未知".
Definition unknown_advice : string := "到权威业务系统核对实际结果，禁止自动再次提交。".

Definition operation_boundary (effect : string) (commit : bool) (status : string) : string :=
  if String.eqb effect "read" then "B1_READ_ONLY"
  else if commit then if String.eqb status "succeeded" then "B5_VERIFIED" else "B4_COMMIT_ATTEMPTED"
  else if String.eqb status "requires_user_action" then "B2_INTERACTION_CREATED"
  else "B3_PREPARED_AUTHORIZED".

Definition observed_status (status : string) : string :=
  dict_get [("succeeded", "succeeded"); ("requires_user_action", "waiting"); ("unknown", "unknown")] status "failed".

(** [str(value or "") or None] *)
Definition text_or_none (value : string) : option string := if truthy value then Some value else None.

Definition error_code_of (op : Operations.view) : option string :=
  match Operations.v_error op with Some e => text_or_none (Operations.e_code e) | None => None end.

Definition operation_stage (trace_id : string) (op : Operations.view) (boundary : string) : stage_args :=
  StageArgs trace_id "capability.invoke" (observed_status (Operations.status_text (Operations.v_status op)))
    (text_or_none (Operations.v_operation_id op)) None None None None (text_or_none (Operations.v_capability_name op))
    (error_code_of op) boundary None (Some (Operations.v_created_at op))
    (Some (default (Operations.v_updated_at op) (Operations.v_finished_at op))) None.

(** An incident of an unknown outcome *)
Definition unknown_outcome (symptom trace_id user operation : option string) (evidence : payload) : incident_args :=
  IncidentArgs "write_outcome_unknown" "P1" (or_default symptom "RESULT_UNKNOWN") "manual_reconciliation" unknown_title None
    trace_id user None None (Some "operation") operation (Some evidence) (Some unknown_advice).

Definition observed_unknown (trace_id : string) (op : Operations.view) (boundary : string) : incident_args :=
  unknown_outcome None (Some trace_id) (text_or_none (Operations.v_user_subject op)) (text_or_none (Operations.v_operation_id op))
    [("errorCode", opt_text (error_code_of op)); ("boundary", JStr boundary)].

Record observe_draw : Type := ObserveDraw { od_stage : stage_draw; od_update : write_draw trace_row; od_incident : incident_draw }.

Definition observe_operation (trace_id : string) (op : Operations.view) (effect : string) (commit : bool) (d : observe_draw)
  : proc ledger span :=
  let status := Operations.status_text (Operations.v_status op) in
  let boundary := operation_boundary effect commit status in
  let trace_status := observed_status status in
  recorded ← record_stage_once (operation_stage trace_id op boundary) (od_stage d);
  _ ← update_trace trace_id (Some trace_status) (Some boundary) (Some (negb (str_in trace_status ["waiting"; "active"])))
        (od_update d);
  _ ← (if String.eqb status "unknown"
       then _ ← upsert_incident (observed_unknown trace_id op boundary) (od_incident d); mret tt
       else mret tt);
  mret recorded.

Definition closed_interaction (state : string) : bool :=
  str_in state ["completed"; "declined"; "expired"; "failed"; "superseded"].

Definition interaction_boundary (interaction_type state : string) : string :=
  if String.eqb interaction_type "execution_authorization" && String.eqb state "completed"
  then "B3_PREPARED_AUTHORIZED" else "B2_INTERACTION_CREATED".

Definition interaction_stage (trace_id interaction_id interaction_type state : string) (system : option string) : stage_args :=
  StageArgs trace_id (if closed_interaction state then "interaction.resume" else "interaction.wait")
    (if String.eqb state "completed" then "succeeded" else if closed_interaction state then "failed" else "waiting")
    None (Some interaction_id) None None system None None (interaction_boundary interaction_type state)
    (Some [("interactionType", JStr interaction_type); ("state", JStr state)]) None None None.

Definition observe_interaction (trace_id interaction_id interaction_type state : string) (system : option string) (d : stage_draw)
    (update : write_draw trace_row) : proc ledger span :=
  y ← record_stage_once (interaction_stage trace_id interaction_id interaction_type state system) d;
  _ ← (if closed_interaction state then mret tt
       else _ ← update_trace trace_id (Some "waiting") (Some (interaction_boundary interaction_type state)) (Some false) update;
            mret tt);
  mret y.

(** ** Recovery actions *)

Definition recovery : Type := string * recovery_row.

Record recovery_args : Type := RecoveryArgs {
  va_action_type : string;
  va_target_type : string;
  va_target_id : string;
  va_actor : string;
  va_reason : string;
  va_idempotency_key : string;
  va_boundary : string;
  va_before : option payload;
}.

Definition keyed (key : string) (r : recovery_row) : bool := String.eqb (rc_idempotency_key r) key.

Definition new_recovery (a : recovery_args) (now : instant) : result recovery_row :=
  action ← required_text 120 (Some (va_action_type a));
  kind ← required_text 80 (Some (va_target_type a));
  target ← required_text 256 (Some (va_target_id a));
  actor ← required_text 120 (Some (va_actor a));
  reason ← required_text 500 (Some (va_reason a));
  key ← required_text 500 (Some (va_idempotency_key a));
  Ok (RecoveryRow action kind target actor reason key "running" (va_boundary a) (safe_object (va_before a)) [] None now None).

Definition start_recovery_body (a : recovery_args) (now : instant) (action_id : string) : tx ledger (recovery * bool) := fun s =>
  match List.find (fun kr => keyed (va_idempotency_key a) (snd kr)) (recoveries s) with
  | Some r => Ok ((r, true), s)
  | None =>
      r ← new_recovery a now;
      l ← append_row action_id (keyed (rc_idempotency_key r)) r (recoveries s);
      Ok (((action_id, r), false), with_recoveries l s)
  end.

Definition start_recovery_action (a : recovery_args) (now : instant) (action_id : string) : proc ledger (recovery * bool) :=
  _ ← of_result (_validate_boundary (va_boundary a));
  atomic (start_recovery_body a now action_id).

Definition finished_recovery (status : string) (after : option payload) (error : option string) (now : instant) (r : recovery_row)
  : recovery_row :=
  RecoveryRow (rc_action_type r) (rc_target_type r) (rc_target_id r) (rc_actor r) (rc_reason r) (rc_idempotency_key r) status
    (rc_boundary r) (rc_before r) (safe_object after) (_bounded_text 120 error) (rc_created_at r) (Some now).

Definition finish_recovery_action (action_id status : string) (after : option payload) (error : option string) (now : instant)
  : proc ledger recovery :=
  atomic (fun s =>
    state ← required_text 40 (Some status);
    '(id, r) ← row_with action_id ("runtime recovery action not found: " +:+ action_id) (recoveries s);
    let r' := finished_recovery state after error now r in
    Ok ((id, r'), with_recoveries (update_by_key id (fun _ => r') (recoveries s)) s)).

Definition list_recovery_actions (limit : Z) s : list recovery := take (page limit) (sort_by (descending rc_created_at) (recoveries s)).

(** ** Traces with their stages *)

Record trace_view : Type := TraceView {
  tv_trace : trace;
  tv_stage_count : Z;
  tv_last_stage_at : option instant;
  tv_recorded_duration_ms : Z;
}.

Definition later_of (a b : option instant) : option instant :=
  match a, b with Some x, Some y => Some (Z.max x y) | Some x, None => Some x | None, y => y end.

Definition view_trace s (x : trace) : trace_view :=
  let stages := rows_where (fun y => String.eqb (sp_trace_id y) (fst x)) (spans s) in
  TraceView x (Z.of_nat (length stages)) (fold_left later_of (map (fun y => sp_finished_at (snd y)) stages) None)
    (fold_left Z.add (map (fun y => default 0%Z (sp_duration_ms (snd y))) stages) 0%Z).

Definition list_traces (user status : option string) (limit : Z) s : list trace_view :=
  map (view_trace s) (take (page limit) (sort_by (descending tr_started_at)
    (rows_where (fun x => (negb (opt_truthy user) || String.eqb (tr_user_subject x) (or_empty user))
                          && (negb (opt_truthy status) || String.eqb (tr_status x) (or_empty status))) (traces s)))).

Record trace_story : Type := TraceStory { ts_trace : trace; ts_spans : list span; ts_incidents : list incident }.

Definition trace_detail (trace_id : string) s : result trace_story :=
  x ← get_trace trace_id s;
  Ok (TraceStory x
    (sort_by (fun y z => (sp_started_at (snd y) <=? sp_started_at (snd z))%Z)
      (rows_where (fun y => String.eqb (sp_trace_id y) trace_id) (spans s)))
    (sort_by (descending in_last_seen_at) (rows_where (fun i => is_text (in_trace_id i) trace_id) (incidents s)))).
End Observers.

(** ** Detection *)

Section Detection.
Context `{UnicodeTables} (isoformat : instant -> string).
Implicit Types (s : ledger).

(** The tables of other stores in the same database, as far as they have been created, and the trace that the grouped
    join gives for an operation: the one of a span of the operation, of whichever SQLite picks *)
Record surroundings : Type := Surroundings {
  su_operations : option (gmap string Operations.row);
  su_hub : option hub;
  su_joined : string -> option string;
}.

Record limits : Type := Limits { lm_task : Z; lm_operation : Z; lm_delivery : Z }.

Definition by_key {R} (x y : string * R) : bool := str_leb (fst x) (fst y).

(** The rows of a table in the order of its groups *)
Definition grouped {R} (p : R -> bool) (t : option (gmap string R)) : list (string * R) :=
  match t with Some rows => sort_by by_key (select_where p rows) | None => [] end.

Definition op_progress (r : Operations.row) : Operations.progress := Operations.row_progress r.
Definition op_user (r : Operations.row) : string := Operations.user_subject (Operations.row_identity r).
Definition op_status_in (r : Operations.row) (l : list string) : bool :=
  str_in (Operations.status_text (Operations.op_state (op_progress r))) l.

Definition unknown_detections (w : surroundings) : list incident_args :=
  map (fun kr =>
      unknown_outcome (Operations.error_code (op_progress (snd kr))) (su_joined w (fst kr)) (Some (op_user (snd kr)))
        (Some (fst kr))
        [("updatedAt", JStr (isoformat (Operations.updated_at (op_progress (snd kr)))));
         ("boundary", JStr "B4_COMMIT_ATTEMPTED")])
    (grouped (fun r => op_status_in r ["unknown"]) (su_operations w)).

(** A detection that is not one of an unknown outcome *)
Definition stalled (rule symptom title : string) (trace_id user host : option string) (object_type object_id : string)
    (evidence : payload) (advice : string) : incident_args :=
  IncidentArgs rule "P2" symptom "current" title None trace_id user None host (Some object_type) (Some object_id)
    (Some evidence) (Some advice).

Definition operation_stalled (w : surroundings) (kr : string * Operations.row) : incident_args :=
  stalled "operation_stalled" "OPERATION_STALLED" "Operation 长时间没有推进" (su_joined w (fst kr)) (Some (op_user (snd kr))) None
    "operation" (fst kr)
    [("status", JStr (Operations.status_text (Operations.op_state (op_progress (snd kr)))));
     ("updatedAt", JStr (isoformat (Operations.updated_at (op_progress (snd kr)))))]
    "查看执行轨迹，确认是否仍在下游调用；不要盲目重放写操作。".

(** Operations that nobody traces are forgotten after a day. *)
Definition stalled_operations (l : limits) (now : instant) (w : surroundings) : list incident_args :=
  map (operation_stalled w)
    (List.filter (fun kr => negb (match su_joined w (fst kr) with
                                  | None => (Operations.updated_at (op_progress (snd kr)) <=? now - seconds 86400)%Z
                                  | Some _ => false
                                  end))
      (grouped (fun r => op_status_in r ["pending"; "running"]
                  && (Operations.updated_at (op_progress r) <=? now - seconds (lm_operation l))%Z) (su_operations w))).

Definition task_stalled (s : ledger) (kr : string * task_row) : incident_args :=
  stalled "task_stalled" "TASK_STALLED" "任务长时间没有新进展"
    match latest tr_started_at (fun x => is_text (tr_task_id x) (fst kr)) (traces s) with Some x => Some (fst x) | None => None end
    (Some (t_user_subject (snd kr))) (Some (t_agent_host (snd kr))) "task" (fst kr)
    [("status", JStr (t_status (snd kr))); ("updatedAt", JStr (isoformat (t_updated_at (snd kr))))]
    "查看最后阶段；只有尚未进入业务能力时才允许恢复宿主运行。".

Definition stalled_tasks (l : limits) (now : instant) (w : surroundings) s : list incident_args :=
  match su_hub w with
  | Some h => map (task_stalled s)
      (select_where (fun t => str_in (t_status t) ["active"; "running"] && (t_updated_at t <=? now - seconds (lm_task l))%Z) (tasks h))
  | None => []
  end.

Definition delivery_stalled (kr : string * delivery_row) : incident_args :=
  stalled "delivery_stalled" "OUTBOX_BACKLOG" "活动任务的结果投递积压" None (Some (o_user_subject (snd kr))) None "delivery" (fst kr)
    [("state", JStr (o_state (snd kr))); ("attemptCount", JInt (o_attempt_count (snd kr)));
     ("updatedAt", JStr (isoformat (o_updated_at (snd kr))))]
    "确认端点状态；只重投已确定的通知，不重做业务操作。".

(** [not row["task_status"] or row["task_status"] in _TERMINAL_TASK_STATUSES] *)
Definition _TERMINAL_TASK_STATUSES : list string :=
  ["succeeded"; "partially_succeeded"; "failed"; "outcome_unknown"; "canceled"; "expired"; "superseded"].

Definition historical (h : hub) (task : string) : bool :=
  match tasks h !! task with
  | Some t => negb (truthy (t_status t)) || str_in (t_status t) _TERMINAL_TASK_STATUSES
  | None => true
  end.

Definition stalled_deliveries (l : limits) (now : instant) (w : surroundings) : list incident_args :=
  match su_hub w with
  | Some h => map delivery_stalled
      (List.filter (fun kr => negb (historical h (o_task_id (snd kr))))
        (rows_where (fun o => str_in (o_state o) ["pending"; "delivering"; "failed"]
                     && (o_updated_at o <=? now - seconds (lm_delivery l))%Z) (outbox h)))
  | None => []
  end.

Definition isolation_violated (nc : string * Z) : incident_args :=
  IncidentArgs "identity_isolation_violation" "P0" "IDENTITY_ISOLATION_VIOLATION" "current" "检测到跨用户运行数据关联" None None None
    None None (Some "isolation_check") (Some (fst nc)) (Some [("count", JInt (snd nc))])
    (Some "立即暂停相关写能力并检查身份、任务和端点关联。").

Definition violations (counts : list (string * Z)) : list incident_args :=
  map isolation_violated (List.filter (fun nc => (0 <? snd nc)%Z) counts).

(** What the run detects, in its order; no detection changes what the later ones read. *)
Definition detections (l : limits) (now : instant) (w : surroundings) (counts : list (string * Z)) s : list incident_args :=
  unknown_detections w ++ stalled_operations l now w ++ stalled_tasks l now w s ++ stalled_deliveries l now w ++ violations counts.

(** [detect] for each; the result is the set of fingerprints [observed]. *)
Fixpoint detect_each (draw : incident_args -> incident_draw) (l : list incident_args) (observed : list string)
  : proc ledger (list string) :=
  match l with
  | [] => mret observed
  | a :: rest =>
      x ← upsert_incident a (draw a);
      let print := in_fingerprint (snd x) in
      detect_each draw rest (if active_incident (snd x) && negb (str_in print observed) then observed ++ [print] else observed)
  end.

Definition self_closing : list string :=
  ["operation_stalled"; "task_stalled"; "delivery_stalled"; "identity_isolation_violation"].

Definition closes_itself (i : incident_row) : bool := active_incident i && str_in (in_rule_id i) self_closing.

(** What an automatic transition draws: its reading of the clock and its event *)
Record closing_draw : Type := ClosingDraw { cd_now : instant; cd_event_id : string }.

Fixpoint resolve_each (draw : string -> closing_draw) (observed : list string) (l : list incident) (resolved : nat)
  : proc ledger nat :=
  match l with
  | [] => mret resolved
  | x :: rest =>
      if str_in (in_fingerprint (snd x)) observed then resolve_each draw observed rest resolved
      else
        _ ← transition_incident (fst x) "resolved" "agentbridge" "The runtime condition is no longer present."
              (cd_now (draw (fst x))) (cd_event_id (draw (fst x)));
        resolve_each draw observed rest (S resolved)
  end.

Record evaluation : Type := Evaluation { ev_evaluated_at : instant; ev_observed : nat; ev_resolved : nat; ev_open : nat }.

Definition open_count (w : surroundings) s : nat :=
  length (List.filter (fun v => active_incident (snd (iv_incident v))) (list_incidents (su_operations w) None None 1000 s)).

Record evaluation_draw : Type := EvaluationDraw {
  ed_now : instant;
  ed_detection : incident_args -> incident_draw;
  ed_closing : string -> closing_draw;
}.

Definition evaluate_incidents (l : limits) (counts : list (string * Z)) (w : surroundings) (d : evaluation_draw)
  : proc ledger evaluation :=
  found ← reading (detections l (ed_now d) w counts);
  observed ← detect_each (ed_detection d) found [];
  active ← reading (fun s => rows_where closes_itself (incidents s));
  resolved ← resolve_each (ed_closing d) observed active 0;
  opened ← reading (open_count w);
  mret (Evaluation (ed_now d) (length observed) resolved opened).
End Detection.
