(* ===== verification/RuntimeReports.v ===== *)
(** * Reports over the runtime ledger (agentbridge/core/runtime_governance.py, agentbridge/core/runtime_diagnostics.py)

    Service levels over a window of time, their history, observations that take snapshots of them for some hours, the
    retention of raw rows, and the latency counters of host calls.  Ratios and percentiles are floats, rounded as Python
    rounds them. *)

From Stdlib Require Import SpecFloat.
From S2P Require Import Prelude PyStr Json Store Procedures TaskTables RuntimeGovernance.
From S2P Require Operations.

#[local] Open Scope list_scope.

(** ** Metrics *)

(** [_slo_metric] *)
Definition _slo_metric (key : string) (samples : Z) (successes : option Z) (value target : option float) (higher_is_better : bool)
  : metric :=
  Metric key samples successes value target
    match value, target with
    | Some v, Some t =>
        if (samples <? 1)%Z then "insufficient_data"
        else if (if higher_is_better then float_leb t v else float_leb v t) then "meeting" else "breached"
    | _, _ => "insufficient_data"
    end.

(** The index of a percentile, [round((n - 1) * percentile)] between the bounds *)
Definition percentile_index (n : Z) (percentile : float) : Z :=
  Z.max 0 (Z.min (n - 1) (float_round (float_mul (float_of_Z (n - 1)) percentile))).

Definition _percentile (values : list Z) (percentile : float) : Z :=
  match values with
  | [] => 0
  | _ => List.nth (Z.to_nat (percentile_index (Z.of_nat (length values)) percentile)) (sort_by Z.leb values) 0%Z
  end.

(** [start <= t < end] *)
Definition within (first last t : instant) : bool := (first <=? t)%Z && (t <? last)%Z.

Definition count_rows {R} (p : R -> bool) (l : list (string * R)) : Z := Z.of_nat (length (rows_where p l)).

Definition distinct_traces (p : span_row -> bool) (l : list (string * span_row)) : Z :=
  Z.of_nat (length (remove_dups (map (fun y => sp_trace_id (snd y)) (rows_where p l)))).

Definition measured_stages : list string := ["host.first_progress"; "mcp.request"; "capability.invoke"].

Definition durations (first last : instant) (stage : string) s : list Z :=
  omap (fun y => if within first last (sp_started_at (snd y)) && String.eqb (sp_stage (snd y)) stage then sp_duration_ms (snd y) else None)
    (spans s).

(** The unknown outcomes of the window: incidents joined to their operation *)
Definition unknown_in_window (operations : option (gmap string Operations.row)) (first last : instant) s : Z :=
  match operations with
  | Some t => count_rows (fun i => String.eqb (in_rule_id i) "write_outcome_unknown" && is_text (in_object_type i) "operation"
      && match in_object_id i with
         | Some id => match t !! id with
                      | Some r => within first last (Operations.updated_at (Operations.row_progress r))
                      | None => false
                      end
         | None => false
         end) (incidents s)
  | None => 0%Z
  end.

Definition ratio (n d : Z) : option float := if (d =? 0)%Z then None else Some (float_ratio n d).

Definition latency_target (stage : string) : option float :=
  dict_get [("host.first_progress", Some (float_of_Z 15000)); ("mcp.request", Some (float_of_Z 1000));
            ("capability.invoke", None)] stage None.

(** One metric per stage with a recorded duration; the rows come in the order of their stage. *)
Definition latency_metrics (first last : instant) s : list metric :=
  omap (fun stage =>
      match durations first last stage s with
      | [] => None
      | values => Some (_slo_metric (stage +:+ ".p95_ms") (Z.of_nat (length values)) None
                          (Some (float_of_Z (_percentile values (float_ratio 95 100)))) (latency_target stage) false)
      end)
    ["capability.invoke"; "host.first_progress"; "mcp.request"].

Definition metrics_of (operations : option (gmap string Operations.row)) (first last : instant) s : list metric :=
  let ended x := within first last (tr_started_at x) && str_in (tr_status x) ended_statuses in
  let samples := count_rows ended (traces s) in
  let successes := count_rows (fun x => ended x && String.eqb (tr_status x) "succeeded") (traces s) in
  let here y := within first last (sp_started_at y) in
  let committed := distinct_traces (fun y => here y && str_in (sp_boundary y) ["B4_COMMIT_ATTEMPTED"; "B5_VERIFIED"]) (spans s) in
  let verified := distinct_traces (fun y => here y && String.eqb (sp_boundary y) "B5_VERIFIED") (spans s) in
  let isolation := count_rows (fun i => String.eqb (in_rule_id i) "identity_isolation_violation"
                                && within first last (in_first_seen_at i)) (incidents s) in
  let unknown := unknown_in_window operations first last s in
  [_slo_metric "trace_success_rate" samples (Some successes) (ratio successes samples) (Some (float_ratio 99 100)) true;
   _slo_metric "write_verify_coverage" committed (Some verified) (ratio verified committed) (Some (float_of_Z 1)) true;
   _slo_metric "identity_isolation_violations" isolation None (Some (float_of_Z isolation)) (Some (float_of_Z 0)) false;
   _slo_metric "write_outcome_unknown" unknown None (Some (float_of_Z unknown)) (Some (float_of_Z 0)) false]
  ++ latency_metrics first last s.

Definition same_window (key : string) (hours : Z) (first last : instant) (r : rollup_row) : bool :=
  String.eqb (me_key (ro_metric r)) key && (ro_window_hours r =? hours)%Z && (ro_window_start r =? first)%Z
  && (ro_window_end r =? last)%Z.

Definition renewed_rollup (m : metric) (created : instant) (r : rollup_row) : rollup_row :=
  RollupRow m (ro_window_hours r) (ro_window_start r) (ro_window_end r) created.

(** [INSERT .. ON CONFLICT .. DO UPDATE], for each metric; [fresh] gives the identifier of a metric's row. *)
Fixpoint store_metrics (fresh : string -> string) (hours : Z) (first last created : instant) (ms : list metric)
    (l : list (string * rollup_row)) : result (list (string * rollup_row)) :=
  match ms with
  | [] => Ok l
  | m :: rest =>
      let clash := same_window (me_key m) hours first last in
      if existsb (fun kr => clash (snd kr)) l
      then store_metrics fresh hours first last created rest (update_rows clash (renewed_rollup m created) l)
      else
        l' ← append_row (fresh (me_key m)) no_clash (RollupRow m hours first last created) l;
        store_metrics fresh hours first last created rest l'
  end.

Definition window_hours (hours : Z) : Z := Z.min (Z.max hours 1) (24 * 31).

Record rollup_draw : Type := RollupDraw { rd_end : instant; rd_created_at : instant; rd_fresh : string -> string }.

Definition refresh_slo_rollups (operations : option (gmap string Operations.row)) (hours : Z) (d : rollup_draw)
  : proc ledger slo_report :=
  let hours := window_hours hours in
  let first := (rd_end d - seconds (3600 * hours))%Z in
  ms ← reading (metrics_of operations first (rd_end d));
  _ ← atomic (fun s => l ← store_metrics (rd_fresh d) hours first (rd_end d) (rd_created_at d) ms (rollups s);
                       Ok (tt, with_rollups l s));
  mret (SloReport first (rd_end d) hours ms).

Definition rollup_order (x y : string * rollup_row) : bool :=
  (ro_window_end (snd y) <? ro_window_end (snd x))%Z
  || (ro_window_end (snd x) =? ro_window_end (snd y))%Z && str_leb (me_key (ro_metric (snd x))) (me_key (ro_metric (snd y))).

Definition slo_history (limit : Z) s : list (string * rollup_row) := take (page limit) (sort_by rollup_order (rollups s)).

(** ** Totals *)

Definition max_instant {R} (column : R -> option instant) (l : list (string * R)) : option instant :=
  fold_left later_of (map (fun kr => column (snd kr)) l) None.

Definition summary s : totals :=
  Totals (length (rows_where (fun x => str_in (tr_status x) ["active"; "waiting"]) (traces s)))
    (length (rows_where active_incident (incidents s)))
    (length (rows_where (fun i => active_incident i && str_in (in_severity i) ["P0"; "P1"]) (incidents s)))
    (length (rows_where (fun r => String.eqb (rc_status r) "running") (recoveries s)))
    (length (spans s))
    (max_instant (fun g => Some (sg_observed_at g)) (signals s))
    (length (rows_where (fun o => String.eqb (ob_state o) "active") (observations s)))
    (max_instant ob_last_snapshot_at (observations s)).

(** [d[key] = d.get(key, 0) + 1] for each row, as the sum of the groups *)
Definition tally (key : incident_row -> string) (l : list incident) : list (string * Z) :=
  fold_left (fun d x => dict_set (key (snd x)) (dict_get d (key (snd x)) 0 + 1)%Z d) l [].

(** The groups come in the order of severity and state. *)
Definition group_order (x y : incident) : bool :=
  (negb (String.eqb (in_severity (snd x)) (in_severity (snd y))) && str_leb (in_severity (snd x)) (in_severity (snd y)))
  || (String.eqb (in_severity (snd x)) (in_severity (snd y)) && str_leb (in_state (snd x)) (in_state (snd y))).

Definition _incident_counts s : incident_counts :=
  let l := sort_by group_order (incidents s) in
  IncidentCounts (count_rows active_incident l) (tally in_severity l) (tally in_state l).

(** ** Observations *)

Definition observation : Type := string * observation_row.

Section Observations.
Context `{UnicodeTables}.
Implicit Types (s : ledger) (o : observation_row).

Record observation_args : Type := ObservationArgs {
  ba_name : string;
  ba_duration_hours : Z;
  ba_created_by : string;
  ba_policy : option payload;
}.

Definition observing (name : string) o : bool := String.eqb (ob_name o) name && String.eqb (ob_state o) "active".

Definition take_baseline (operations : option (gmap string Operations.row)) (d : rollup_draw) : proc ledger baseline :=
  before ← reading summary;
  slo ← refresh_slo_rollups operations 24 d;
  counts ← reading _incident_counts;
  mret (Baseline before slo counts).

Definition insert_observation (name actor : string) (duration : Z) (policy : option payload) (now : instant) (b : baseline)
    (id : string) : tx ledger (observation * bool) := fun s =>
  match latest ob_started_at (observing name) (observations s) with
  | Some o => Ok ((o, true), s)
  | None =>
      let o := ObservationRow name "active" duration actor (safe_object policy) b None 0 now
                 (now + seconds (3600 * duration))%Z None None in
      l ← append_row id (observing name) o (observations s);
      Ok (((id, o), false), with_observations l (snapshots s) s)
  end.

Definition start_observation (operations : option (gmap string Operations.row)) (a : observation_args) (now : instant)
    (d : rollup_draw) (id : string) : proc ledger (observation * bool) :=
  name ← of_result (required_text 160 (Some (ba_name a)));
  actor ← of_result (required_text 160 (Some (ba_created_by a)));
  b ← take_baseline operations d;
  atomic (insert_observation name actor (window_hours (ba_duration_hours a)) (ba_policy a) now b id).

Definition collection : payload :=
  [("mode", JStr "shadow"); ("businessCalls", JInt 0); ("businessListReads", JInt 0); ("businessWrites", JInt 0);
   ("automaticBusinessRecovery", JBool false)].

(** [force or is_complete or last_at is None or now - last_at >= interval] *)
Definition due_snapshot (force : bool) (interval : Z) (now : instant) o : bool :=
  force || (ob_ends_at o <=? now)%Z
  || match ob_last_snapshot_at o with Some t => (interval <=? now - t)%Z | None => true end.

Definition with_snapshot (id : string) (n : snapshot_row) (complete : bool) (now : instant) o : observation_row :=
  ObservationRow (ob_name o) (if complete then "completed" else "active") (ob_duration_hours o) (ob_created_by o)
    (ob_policy o) (ob_baseline o) (Some (id, n)) (ob_snapshot_count o + 1)%Z (ob_started_at o) (ob_ends_at o) (Some now)
    (if complete then Some now else None).

Definition is_active o : bool := String.eqb (ob_state o) "active".

Definition store_snapshot (observation_id id : string) (n : snapshot_row) (complete : bool) (now : instant) : tx ledger unit :=
  fun s =>
    taken ← append_row id no_clash n (snapshots s);
    Ok (tt, with_observations
              (update_row observation_id is_active (with_snapshot id n complete now) (observations s)) taken s).

(** [canonical_collection] is what the column gives back of [collection]. *)
Definition canonical_collection : payload := canonical_object collection.

(** [slo] is the report that the caller has, if any.  [draw] gives the draws of each observation. *)
Fixpoint capture_each (operations : option (gmap string Operations.row)) (slo : option slo_report) (force : bool) (interval : Z)
    (now : instant) (draw : string -> rollup_draw * string) (l : list observation) : proc ledger (list (string * snapshot_row) * nat) :=
  match l with
  | [] => mret ([], 0)
  | (observation_id, o) :: rest =>
      if due_snapshot force interval now o then
        let '(d, id) := draw observation_id in
        let complete := (ob_ends_at o <=? now)%Z in
        now_totals ← reading summary;
        report ← match slo with Some r => mret r | None => refresh_slo_rollups operations 24 d end;
        counts ← reading _incident_counts;
        let n := SnapshotRow observation_id now (Baseline now_totals report counts) canonical_collection in
        _ ← atomic (store_snapshot observation_id id n complete now);
        '(captured, completed) ← capture_each operations slo force interval now draw rest;
        mret ((id, n) :: captured, (if complete then 1 else 0) + completed)%nat
      else capture_each operations slo force interval now draw rest
  end.

Definition capture_observation_snapshots (operations : option (gmap string Operations.row)) (slo : option slo_report)
    (minimum_interval_minutes : Z) (force : bool) (now : instant) (draw : string -> rollup_draw * string)
  : proc ledger (list (string * snapshot_row) * nat) :=
  let interval := seconds (60 * Z.min (Z.max minimum_interval_minutes 1) (24 * 60)) in
  rows ← reading (fun s => sort_by (fun x y => (ob_started_at (snd x) <=? ob_started_at (snd y))%Z)
                             (rows_where is_active (observations s)));
  capture_each operations slo force interval now draw rows.

Definition list_observations (state : option string) (limit : Z) s : result (list observation) :=
  raise_if match state with Some t => negb (str_in t OBSERVATION_STATES) | None => false end ValueError
    ("unsupported observation state: " +:+ or_empty state);;
  Ok (take (Z.to_nat (Z.min (Z.max limit 1) 500)) (sort_by (descending ob_started_at)
        (rows_where (fun o => match state with Some t => String.eqb (ob_state o) t | None => true end) (observations s)))).

(** *** Days of an observation *)

Record daily_summary : Type := DailySummary {
  ds_date : string;
  ds_snapshot_count : nat;
  ds_first_observed_at : instant;
  ds_last_observed_at : instant;
  ds_max_active_incidents : Z;
  ds_latest_active_incidents : Z;
  ds_breached_metrics : list string;
}.

(** [sorted({..})] of texts *)
Definition sorted_set (l : list string) : list string := sort_by str_leb (remove_dups l).

Definition breached_metrics (l : list (string * snapshot_row)) : list string :=
  sorted_set (flat_map (fun n => names_where (fun m => String.eqb (me_status m) "breached" && truthy (me_key m))
    (map (fun m => (me_key m, m)) (sl_metrics (ba_slo (ss_measured (snd n)))))) l).

Definition active_in (n : string * snapshot_row) : Z := ic_active (ba_incident_counts (ss_measured (snd n))).

(** [day] is the date of an instant in UTC. *)
Definition summarize_day (date : string) (l : list (string * snapshot_row)) : option daily_summary :=
  match l with
  | [] => None
  | n :: rest =>
      let latest_one := List.last l n in
      Some (DailySummary date (length l) (ss_observed_at (snd n)) (ss_observed_at (snd latest_one))
              (fold_left Z.max (map active_in rest) (active_in n)) (active_in latest_one) (breached_metrics l))
  end.

Definition _observation_daily_summaries (day : instant -> string) (l : list (string * snapshot_row)) : list daily_summary :=
  omap (fun date => summarize_day date (List.filter (fun n => String.eqb (day (ss_observed_at (snd n))) date) l))
    (sorted_set (map (fun n => day (ss_observed_at (snd n))) l)).

Record observation_story : Type := ObservationStory {
  os_observation : observation;
  os_snapshots : list (string * snapshot_row);
  os_days : list daily_summary;
}.

Definition observation_detail (day : instant -> string) (id : string) s : result observation_story :=
  let taken := sort_by (fun x y => (ss_observed_at (snd x) <=? ss_observed_at (snd y))%Z)
                 (rows_where (fun n => String.eqb (ss_observation_id n) id) (snapshots s)) in
  o ← row_with id ("runtime observation not found: " +:+ id) (observations s);
  Ok (ObservationStory o taken (_observation_daily_summaries day taken)).
End Observations.

(** ** Readiness and retention *)

Record check_result : Type := CheckResult { ck_name : string; ck_status : string; ck_error_code : option string }.

(** [quick_check] is what the database says of itself and [tables] the count of the expected tables, or the class of the
    exception that the connection raised. *)
Definition readiness (answer : string + (string * Z)) : string * list check_result :=
  let checks := match answer with
                | inl class => [CheckResult "database" "unavailable" (Some class)]
                | inr (quick_check, tables) =>
                    [CheckResult "database" (if String.eqb quick_check "ok" then "healthy" else "unavailable") None;
                     CheckResult "schema" (if (tables =? 7)%Z then "healthy" else "unavailable") None]
                end in
  (if forallb (fun c => String.eqb (ck_status c) "healthy") checks then "ready" else "not_ready", checks).

Definition keep_from {R} (column : R -> instant) (cutoff : instant) (l : list (string * R)) : list (string * R) :=
  rows_where (fun r => negb (column r <? cutoff)%Z) l.

Definition deleted {R} (column : R -> instant) (cutoff : instant) (l : list (string * R)) : Z :=
  count_rows (fun r => column r <? cutoff)%Z l.

(** [raw_now] and [rollup_now] are the two readings of the clock. *)
Definition prune (raw_days rollup_days : Z) (raw_now rollup_now : instant) : proc ledger (list (string * Z)) :=
  let raw := (raw_now - seconds (86400 * Z.max raw_days 1))%Z in
  let old := (rollup_now - seconds (86400 * Z.max rollup_days 1))%Z in
  atomic (fun s =>
    Ok ([("runtime_spans", deleted sp_started_at raw (spans s)); ("runtime_signals", deleted sg_observed_at raw (signals s));
         ("runtime_slo_rollups", deleted ro_window_end old (rollups s));
         ("runtime_observation_snapshots", deleted ss_observed_at old (snapshots s))],
        with_observations (observations s) (keep_from ss_observed_at old (snapshots s))
          (with_rollups (keep_from ro_window_end old (rollups s))
            (with_signals (keep_from sg_observed_at raw (signals s)) (with_spans (keep_from sp_started_at raw (spans s)) s))))).

(** ** Latency counters of host calls *)

Module HostControl.

Record counters : Type := Counters {
  call_count : Z;
  slow_count : Z;
  error_count : Z;
  total_elapsed_ms : Z;
  max_elapsed_ms : Z;
  last_elapsed_ms : Z;
  last_called_at : option instant;
}.

Definition no_calls : counters := Counters 0 0 0 0 0 0 None.

Record slow_call : Type := SlowCall {
  sc_operation_name : string;
  sc_user_subject : string;
  sc_elapsed_ms : Z;
  sc_error_code : option string;
  sc_called_at : instant;
}.

(** The latest slow calls come last. *)
Record diagnostics : Type := Diagnostics {
  slow_after_ms : Z;
  recent_limit : nat;
  calls : gmap string counters;
  recent_slow_calls : list slow_call;
}.

Definition make (slow_after : Z) (limit : Z) : diagnostics :=
  Diagnostics (Z.max slow_after 1) (Z.to_nat (Z.max limit 1)) ∅ [].

(** [deque.append] of a bounded deque *)
Definition push {A} (limit : nat) (x : A) (l : list A) : list A := drop (S (length l) - limit) (l ++ [x]).

Definition counted (slow failed : bool) (elapsed : Z) (now : instant) (c : counters) : counters :=
  Counters (call_count c + 1)%Z (slow_count c + Z.b2z slow)%Z (error_count c + Z.b2z failed)%Z
    (total_elapsed_ms c + elapsed)%Z (Z.max (max_elapsed_ms c) elapsed) elapsed (Some now).

Definition record (operation user : string) (elapsed : Z) (error : option string) (now : instant) (d : diagnostics) : diagnostics :=
  let operation := py_take 160 (or_default (Some operation) "unknown") in
  let user := py_take 256 (or_default (Some user) "unknown") in
  let elapsed := Z.max elapsed 0 in
  let slow := (slow_after_ms d <=? elapsed)%Z in
  Diagnostics (slow_after_ms d) (recent_limit d)
    (<[operation := counted slow (opt_truthy error) elapsed now (default no_calls (calls d !! operation))]> (calls d))
    (if slow
     then push (recent_limit d) (SlowCall operation user elapsed (if opt_truthy error then Some (py_take 120 (or_empty error)) else None) now)
            (recent_slow_calls d)
     else recent_slow_calls d).

Definition reset (d : diagnostics) : diagnostics := Diagnostics (slow_after_ms d) (recent_limit d) ∅ [].

(** A row of the snapshot: the average is [round(total / calls)]. *)
Definition averaged (c : counters) : Z :=
  if (call_count c =? 0)%Z then 0%Z else float_round (float_ratio (total_elapsed_ms c) (call_count c)).

Definition snapshot (d : diagnostics) : list (string * (counters * Z)) * list slow_call :=
  (map (fun kc => (fst kc, (snd kc, averaged (snd kc)))) (sort_by (fun x y => str_leb (fst x) (fst y)) (map_to_list (calls d))),
   rev (recent_slow_calls d)).
End HostControl.

(** ** A round of the governance worker *)

Section Cycle.
Context `{UnicodeTables} (isoformat : instant -> string).

Record cycle_draw : Type := CycleDraw {
  yd_evaluation : evaluation_draw;
  yd_rollup : rollup_draw;
  yd_captured_at : instant;
  yd_capture : string -> rollup_draw * string;
  yd_raw_now : instant;
  yd_rollup_now : instant;
}.

Definition default_limits : limits := Limits 120 180 300.

(** The part of [run_cycle] that concerns the ledger; [w] and [counts] are what the other stores hold and their diagnostics
    count. *)
Definition run_cycle (counts : list (string * Z)) (w : surroundings) (d : cycle_draw)
  : proc ledger (evaluation * slo_report * nat * list (string * Z)) :=
  ev ← evaluate_incidents isoformat default_limits counts w (yd_evaluation d);
  slo ← refresh_slo_rollups (su_operations w) 24 (yd_rollup d);
  '(captured, _) ← capture_observation_snapshots (su_operations w) (Some slo) 60 false (yd_captured_at d) (yd_capture d);
  retention ← prune 30 180 (yd_raw_now d) (yd_rollup_now d);
  mret (ev, slo, length captured, retention).
End Cycle.
