(* ===== verification/AdminStores.v ===== *)
(** * The administration (agentbridge/admin/stores.py, agentbridge/admin/application.py, agentbridge/admin/server.py)

    Accounts of administrators with their sessions, the audit of what they do, the policies that pause writes, and the
    handlers over these stores, the runtime ledger and the task hub.  Tables are lists in the order of their rowid.  The
    column of a password holds the salt and the digest that its text encodes; [scrypt] is a parameter, as are the classes
    of a character. *)

From Stdlib Require Import Ascii.
From S2P Require Import Prelude PyStr Json Sha256 Store Procedures TaskTables TaskOutbox RuntimeGovernance.

#[local] Open Scope list_scope.

Class PasswordTables : Type := {
  scrypt : string -> string -> string;
  is_lower_char : string -> bool;
  is_upper_char : string -> bool;
  is_digit_class : string -> bool;
  is_alnum_char : string -> bool;
}.

(** ** Rows *)

Record password_hash : Type := PasswordHash { ph_salt : string; ph_digest : string }.

Record account_row : Type := AccountRow {
  ac_username : string;
  ac_password_hash : password_hash;
  ac_role : string;
  ac_state : string;
  ac_must_change_password : bool;
  ac_created_at : instant;
  ac_updated_at : instant;
  ac_password_changed_at : option instant;
  ac_last_login_at : option instant;
}.

Record admin_session_row : Type := AdminSessionRow {
  as_account_id : string;
  as_token_hash : string;
  as_csrf_hash : string;
  as_created_at : instant;
  as_expires_at : instant;
  as_last_seen_at : instant;
  as_revoked_at : option instant;
  as_request_ip : string;
  as_user_agent : string;
}.

Record policy_row : Type := PolicyRow {
  po_scope_type : string;
  po_scope_value : string;
  po_capability_version : string;
  po_state : string;
  po_reason : string;
  po_created_by : string;
  po_created_at : instant;
  po_updated_by : string;
  po_updated_at : instant;
}.

Definition account : Type := string * account_row.
Definition policy : Type := string * policy_row.

(** What the JSON columns of the audit encode *)
Inductive audited : Type :=
  | AuditedAccount (a : account)
  | AuditedPasswordChange (changed_at : option instant)
  | AuditedPolicy (p : policy)
  | AuditedIncident (i : incident_view)
  | AuditedMoved (i : incident)
  | AuditedDelivery (d : delivery)
  | AuditedRecovery (r : recovery)
  | AuditedRequest
  | AuditedEvaluation (e : evaluation).

Record actor : Type := Actor { at_account_id : string; at_username : string; at_role : string }.

Record audit_row : Type := AuditRow {
  ad_actor : option actor;
  ad_action : string;
  ad_target_type : option string;
  ad_target_id : option string;
  ad_request_ip : string;
  ad_reason : option string;
  ad_before : option audited;
  ad_after : option audited;
  ad_result : string;
  ad_error : option string;
  ad_created_at : instant;
}.

Record world : Type := World {
  accounts : list account;
  admin_sessions : list (string * admin_session_row);
  audit : list (string * audit_row);
  policies : list policy;
  runtime : ledger;
  task_hub : hub;
}.

Definition with_accounts l w : world := World l (admin_sessions w) (audit w) (policies w) (runtime w) (task_hub w).
Definition with_admin_sessions l w : world := World (accounts w) l (audit w) (policies w) (runtime w) (task_hub w).
Definition with_audit l w : world := World (accounts w) (admin_sessions w) l (policies w) (runtime w) (task_hub w).
Definition with_policies l w : world := World (accounts w) (admin_sessions w) (audit w) l (runtime w) (task_hub w).
Definition with_runtime s w : world := World (accounts w) (admin_sessions w) (audit w) (policies w) s (task_hub w).
Definition with_task_hub h w : world := World (accounts w) (admin_sessions w) (audit w) (policies w) (runtime w) h.

(** A method of a store that is one transaction, and the methods of the ledger and the hub *)
Definition stored {A} (m : tx world A) : proc world A := transaction m.
Definition on_runtime {A} (m : proc ledger A) : proc world A := fun w => let '(r, s) := m (runtime w) in (r, with_runtime s w).
Definition on_hub {A} (m : proc hub A) : proc world A := fun w => let '(r, h) := m (task_hub w) in (r, with_task_hub h w).

(** ** Checks *)

Definition _secret_hash (value : string) : string := sha256_hex value.

Section Checks.
Context `{UnicodeTables} `{PasswordTables}.

Definition is_name_start (a : ascii) : bool := is_alpha a.
Definition is_name_char (a : ascii) : bool := is_alpha a || is_digit a || Ascii.eqb a "_" || Ascii.eqb a "." || Ascii.eqb a "-".

(** [^[A-Za-z][A-Za-z0-9_.-]{2,63}$], matched on the whole text *)
Definition username_ok (value : string) : bool :=
  match value with
  | String a rest => is_name_start a && str_forallb is_name_char rest
                     && (2 <=? String.length rest)%nat && (String.length rest <=? 63)%nat
  | EmptyString => false
  end.

Definition _validate_username (value : string) : result string :=
  let value := py_strip value in
  raise_if (negb (username_ok value)) ValueError "admin username must be 3-64 characters and start with a letter";;
  Ok value.

Definition _validate_role (value : string) : result string :=
  let value := str_lower (py_strip value) in
  raise_if (negb (str_in value ["admin"; "auditor"])) ValueError "admin role must be admin or auditor";;
  Ok value.

Definition _validate_password (value : string) : result unit :=
  raise_if (py_len value <? 12)%Z ValueError "admin password must contain at least 12 characters";;
  raise_if ((1024 <? py_len value)%Z || has_control value) ValueError "admin password is invalid";;
  let some p := Z.b2z (existsb p (chars value)) in
  raise_if (some is_lower_char + some is_upper_char + some is_digit_class + some (fun c => negb (is_alnum_char c)) <? 3)%Z
    ValueError "admin password must use at least three character classes".

Definition hash_admin_password (password salt : string) : result password_hash :=
  _validate_password password;;
  Ok (PasswordHash salt (scrypt password salt)).

Definition verify_admin_password (password : string) (encoded : password_hash) : bool :=
  String.eqb (scrypt password (ph_salt encoded)) (ph_digest encoded).

(** [_normalize_reason], with [required] *)
Definition _normalize_reason (value : option string) (required : bool) : result (option string) :=
  let normalized := py_strip (or_empty value) in
  raise_if (required && (py_len normalized <? 3)%Z) ValueError "a reason of at least 3 characters is required";;
  raise_if ((500 <? py_len normalized)%Z || has_control normalized) ValueError "reason is invalid";;
  Ok (if truthy normalized then Some normalized else None).

Definition _validate_policy_scope (scope_type scope_value capability_version : string) : result (string * string * string) :=
  let kind := str_lower (py_strip scope_type) in
  raise_if (negb (str_in kind ["global"; "system"; "user"; "capability"])) ValueError "unsupported governance policy scope";;
  let value := if String.eqb kind "global" then "*" else py_strip scope_value in
  raise_if (negb (truthy value) || (256 <? py_len value)%Z) ValueError "governance policy scope value is invalid";;
  let version := or_default (Some (py_strip (or_default (Some capability_version) "*"))) "*" in
  let version := if String.eqb kind "capability" then version else "*" in
  raise_if (64 <? py_len version)%Z ValueError "governance policy capability version is invalid";;
  Ok (kind, value, version).
End Checks.

Section Stores.
Context `{UnicodeTables} `{PasswordTables}.
Implicit Types (w : world).

(** ** Accounts *)

(** [COLLATE NOCASE]: letters of the ASCII range are compared without their case. *)
Definition named (username : string) (a : account_row) : bool := String.eqb (ascii_lower (ac_username a)) (ascii_lower username).

Definition get_account (id : string) w : result account := row_with id ("admin account not found: " +:+ id) (accounts w).

Definition reading_account (id : string) : proc world account := fun w => (get_account id w, w).

Definition create_account (username password role : string) (must_change : bool) (salt : string) (now : instant) (id : string)
  : proc world account :=
  name ← of_result (_validate_username username);
  kind ← of_result (_validate_role role);
  hash ← of_result (hash_admin_password password salt);
  _ ← stored (fun w =>
        l ← append_row id (named name) (AccountRow name hash kind "active" must_change now now None None) (accounts w);
        Ok (tt, with_accounts l w));
  reading_account id.

(** An unknown name costs a hash too; its result is not used. *)
Definition authenticate (username password : string) w : option account :=
  match List.find (fun kr => named (py_strip username) (snd kr)) (accounts w) with
  | None => None
  | Some a =>
      if negb (String.eqb (ac_state (snd a)) "active") then None
      else if verify_admin_password password (ac_password_hash (snd a)) then Some a else None
  end.

Definition logged_in (now : instant) (a : account_row) : account_row :=
  AccountRow (ac_username a) (ac_password_hash a) (ac_role a) (ac_state a) (ac_must_change_password a) (ac_created_at a) now
    (ac_password_changed_at a) (Some now).

Definition active_account (a : account_row) : bool := String.eqb (ac_state a) "active".

Definition record_login (id : string) (now : instant) : proc world account :=
  _ ← stored (fun w =>
        match row_by_key id (accounts w) with
        | Some a => if active_account a then Ok (tt, with_accounts (update_by_key id (logged_in now) (accounts w)) w)
                    else missing ("admin account not found: " +:+ id)
        | None => missing ("admin account not found: " +:+ id)
        end);
  reading_account id.

Definition with_password (hash : password_hash) (now : instant) (a : account_row) : account_row :=
  AccountRow (ac_username a) hash (ac_role a) (ac_state a) false (ac_created_at a) now (Some now) (ac_last_login_at a).

Definition change_password (id current new salt : string) (now : instant) : proc world account :=
  _ ← stored (fun w =>
        match row_by_key id (accounts w) with
        | Some a =>
            raise_if (negb (active_account a)) KeyError ("admin account not found: " +:+ id);;
            raise_if (negb (verify_admin_password current (ac_password_hash a))) PermissionError "current password is incorrect";;
            raise_if (verify_admin_password new (ac_password_hash a)) ValueError "new password must be different";;
            hash ← hash_admin_password new salt;
            Ok (tt, with_accounts (update_by_key id (with_password hash now) (accounts w)) w)
        | None => missing ("admin account not found: " +:+ id)
        end);
  reading_account id.

Definition list_accounts w : list account :=
  sort_by (fun x y => (ac_created_at (snd x) <=? ac_created_at (snd y))%Z) (accounts w).

(** ** Sessions *)

Definition ADMIN_SESSION_TTL_SECONDS : Z := 7 * 24 * 60 * 60.
Definition ADMIN_SESSION_IDLE_SECONDS : Z := 24 * 60 * 60.

Record lifetime : Type := Lifetime { ttl_seconds : Z; idle_seconds : Z }.

(** [__init__] of the store *)
Definition lifetime_of (ttl idle : Z) : result lifetime :=
  raise_if ((ttl <? 300)%Z || (idle <? 60)%Z || (ttl <? idle)%Z) ValueError "invalid admin session lifetime";;
  Ok (Lifetime ttl idle).

(** The secrets of a new session *)
Record session_draw : Type := SessionDraw { nd_session_id : string; nd_token_secret : string; nd_csrf_token : string }.

Definition session_token (d : session_draw) : string := "abadmin_" +:+ nd_token_secret d.

Definition create_session (l : lifetime) (account_id request_ip user_agent : string) (now : instant) (d : session_draw)
  : proc world (session_draw * instant) :=
  stored (fun w =>
    let expires := (now + seconds (ttl_seconds l))%Z in
    let r := AdminSessionRow account_id (_secret_hash (session_token d)) (_secret_hash (nd_csrf_token d)) now expires now None
               (py_take 128 request_ip) (py_take 512 user_agent) in
    rows ← append_row (nd_session_id d) (fun r' => String.eqb (as_token_hash r') (as_token_hash r)) r (admin_sessions w);
    Ok ((d, expires), with_admin_sessions rows w)).

Record admin : Type := Admin {
  am_session_id : string;
  am_account : account;
  am_must_change_password : bool;
  am_expires_at : instant;
}.

Definition with_token (token : string) (r : admin_session_row) : bool := String.eqb (as_token_hash r) (_secret_hash token).

(** What a session must be to be used *)
Definition usable (l : lifetime) (csrf : option string) (now : instant) (r : admin_session_row) (a : account_row) : bool :=
  match as_revoked_at r with Some _ => false | None => true end
  && active_account a && (now <? as_expires_at r)%Z && (now <? as_last_seen_at r + seconds (idle_seconds l))%Z
  && match csrf with Some t => String.eqb (as_csrf_hash r) (_secret_hash t) | None => true end.

Definition seen (now : instant) (r : admin_session_row) : admin_session_row :=
  AdminSessionRow (as_account_id r) (as_token_hash r) (as_csrf_hash r) (as_created_at r) (as_expires_at r) now (as_revoked_at r)
    (as_request_ip r) (as_user_agent r).

Definition verify (l : lifetime) (token : string) (csrf : option string) (now : instant) : proc world (option admin) :=
  if negb (startswith "abadmin_" token) then mret None
  else stored (fun w =>
    match List.find (fun kr => with_token token (snd kr)) (admin_sessions w) with
    | Some (id, r) =>
        match row_by_key (as_account_id r) (accounts w) with
        | Some a =>
            if usable l csrf now r a
            then Ok (Some (Admin id (as_account_id r, a) (ac_must_change_password a) (as_expires_at r)),
                     with_admin_sessions (update_by_key id (seen now) (admin_sessions w)) w)
            else Ok (None, w)
        | None => Ok (None, w)
        end
    | None => Ok (None, w)
    end).

Definition revoked_at (now : instant) (r : admin_session_row) : admin_session_row :=
  AdminSessionRow (as_account_id r) (as_token_hash r) (as_csrf_hash r) (as_created_at r) (as_expires_at r) (as_last_seen_at r)
    (match as_revoked_at r with Some t => Some t | None => Some now end) (as_request_ip r) (as_user_agent r).

Definition revoke (token : string) (now : instant) : proc world unit :=
  if negb (truthy token) then mret tt
  else stored (fun w => Ok (tt, with_admin_sessions (update_rows (with_token token) (revoked_at now) (admin_sessions w)) w)).

(** [except_session_id] is left alone, if given. *)
Definition of_account (id : string) (but : option string) (kr : string * admin_session_row) : bool :=
  String.eqb (as_account_id (snd kr)) id && match as_revoked_at (snd kr) with None => true | Some _ => false end
  && match but with Some s => negb (truthy s) || negb (String.eqb (fst kr) s) | None => true end.

Definition revoke_account_sessions (id : string) (but : option string) (now : instant) : proc world nat :=
  stored (fun w =>
    Ok (length (List.filter (of_account id but) (admin_sessions w)),
        with_admin_sessions (map (fun kr => if of_account id but kr then (fst kr, revoked_at now (snd kr)) else kr) (admin_sessions w)) w)).

(** ** Audit *)

Record entry : Type := Entry {
  en_actor : option actor;
  en_action : string;
  en_result : string;
  en_request_ip : string;
  en_target_type : option string;
  en_target_id : option string;
  en_reason : option string;
  en_before : option audited;
  en_after : option audited;
  en_error : option string;
}.

(** [str(value)[:n] if value else None] *)
Definition cut (n : nat) (value : option string) : option string := if opt_truthy value then Some (py_take n (or_empty value)) else None.

Definition append_audit (e : entry) (now : instant) (id : string) : proc world (string * audit_row) :=
  stored (fun w =>
    reason ← _normalize_reason (en_reason e) false;
    let r := AuditRow (en_actor e) (py_take 128 (en_action e)) (cut 64 (en_target_type e)) (cut 256 (en_target_id e))
      (py_take 128 (en_request_ip e)) reason (en_before e) (en_after e) (py_take 32 (en_result e)) (cut 1000 (en_error e)) now in
    l ← append_row id no_clash r (audit w);
    Ok ((id, r), with_audit l w)).

Definition get_audit (id : string) w : result (string * audit_row) := row_with id ("admin audit event not found: " +:+ id) (audit w).

Definition list_audit (limit : Z) w : list (string * audit_row) := take (page limit) (sort_by (descending ad_created_at) (audit w)).

(** ** Policies *)

Definition same_scope (scope_type scope_value version : string) (p : policy_row) : bool :=
  String.eqb (po_scope_type p) scope_type && String.eqb (po_scope_value p) scope_value
  && String.eqb (po_capability_version p) version.

Definition moved_policy (state reason who : string) (now : instant) (p : policy_row) : policy_row :=
  PolicyRow (po_scope_type p) (po_scope_value p) (po_capability_version p) state reason (po_created_by p) (po_created_at p) who now.

Definition get_policy (id : string) w : result policy := row_with id ("governance policy not found: " +:+ id) (policies w).

Definition reading_policy (id : string) : proc world policy := fun w => (get_policy id w, w).

(** The reason and the actor of a change *)
Definition checked_reason (reason who : string) : result (string * string) :=
  why ← _normalize_reason (Some reason) true;
  raise_if (negb (truthy (py_strip who))) ValueError "policy actor is required";;
  Ok (or_empty why, py_strip who).

Definition pause_body (kind value version why who : string) (now : instant) (id : string) : tx world string := fun w =>
  match List.find (fun kr => same_scope kind value version (snd kr)) (policies w) with
  | None =>
      l ← append_row id (same_scope kind value version) (PolicyRow kind value version "paused" why who now who now) (policies w);
      Ok (id, with_policies l w)
  | Some (k, _) => Ok (k, with_policies (update_by_key k (moved_policy "paused" why who now) (policies w)) w)
  end.

Definition pause (scope_type scope_value reason who version : string) (now : instant) (id : string) : proc world policy :=
  '(kind, value, version) ← of_result (_validate_policy_scope scope_type scope_value version);
  '(why, who) ← of_result (checked_reason reason who);
  k ← stored (pause_body kind value version why who now id);
  reading_policy k.

Definition resume (id reason who : string) (now : instant) : proc world policy :=
  '(why, who) ← of_result (checked_reason reason who);
  _ ← stored (fun w =>
        match row_by_key id (policies w) with
        | Some _ => Ok (tt, with_policies (update_by_key id (moved_policy "active" why who now) (policies w)) w)
        | None => missing ("governance policy not found: " +:+ id)
        end);
  reading_policy id.

Definition policy_order (x y : policy) : bool :=
  let rank p := if String.eqb (po_state (snd p)) "paused" then 0 else 1 in
  (rank x <? rank y)%nat || (rank x =? rank y)%nat && (po_updated_at (snd y) <=? po_updated_at (snd x))%Z.

Definition list_policies (state : option string) w : list policy :=
  sort_by policy_order (rows_where (fun p => negb (opt_truthy state) || String.eqb (po_state p) (or_empty state)) (policies w)).

(** A paused policy that covers the write *)
Definition covers (system user capability version : string) (p : policy_row) : bool :=
  String.eqb (po_state p) "paused"
  && (String.eqb (po_scope_type p) "global" && String.eqb (po_scope_value p) "*"
      || String.eqb (po_scope_type p) "system" && String.eqb (po_scope_value p) system
      || String.eqb (po_scope_type p) "user" && String.eqb (po_scope_value p) user
      || String.eqb (po_scope_type p) "capability" && String.eqb (po_scope_value p) capability
         && str_in (po_capability_version p) ["*"; version]).

Definition scope_rank (scope : string) : nat :=
  if String.eqb scope "capability" then 0 else if String.eqb scope "user" then 1 else if String.eqb scope "system" then 2 else 3.

Definition closest (x y : policy) : bool :=
  (scope_rank (po_scope_type (snd x)) <? scope_rank (po_scope_type (snd y)))%nat
  || (scope_rank (po_scope_type (snd x)) =? scope_rank (po_scope_type (snd y)))%nat
     && (po_updated_at (snd y) <=? po_updated_at (snd x))%Z.

Definition matching_pause (system user capability version : string) w : option policy :=
  head (sort_by closest (rows_where (covers system user capability version) (policies w))).

(** [inl] is the exception with its policy. *)
Definition assert_write_allowed (system user capability version : string) w : policy + unit :=
  match matching_pause system user capability version w with Some p => inl p | None => inr tt end.

(** ** Handlers *)

Definition _require_admin (who : actor) : result unit :=
  raise_if (negb (String.eqb (at_role who) "admin")) PermissionError "administrator role is required".

Definition note (who : actor) (action kind target request_ip : string) (reason : option string) (before after : option audited)
    (result : string) (error : option string) : entry :=
  Entry (Some who) action result request_ip (Some kind) (Some target) reason before after error.

(** The time and the identifier of an audit event *)
Record audit_draw : Type := AuditDraw { xd_now : instant; xd_event_id : string }.

Definition audit_of (e : entry) (d : audit_draw) : proc world unit := _ ← append_audit e (xd_now d) (xd_event_id d); mret tt.

Record account_draw : Type := AccountDraw {
  cd_password_secret : string;
  cd_salt : string;
  cd_created_at : instant;
  cd_account_id : string;
  cd_audit : audit_draw;
}.

(** The account and its first password *)
Definition create_admin_account (who : actor) (request_ip username role reason : string) (d : account_draw) : proc world (account * string) :=
  _ ← of_result (_require_admin who);
  let password := "Ab9!" +:+ cd_password_secret d in
  a ← create_account username password role true (cd_salt d) (cd_created_at d) (cd_account_id d);
  _ ← audit_of (note who "admin.account.create" "admin_account" (fst a) request_ip (Some reason) None (Some (AuditedAccount a))
                  "succeeded" None) (cd_audit d);
  mret (a, password).

Definition transition_runtime_incident (operations : option (gmap string Operations.row)) (who : actor)
    (request_ip incident_id state reason : string) (now : instant) (event_id : string) (d : audit_draw) : proc world incident :=
  _ ← of_result (_require_admin who);
  before ← reading (fun w => List.find (fun v => String.eqb (fst (iv_incident v)) incident_id)
                               (list_incidents operations None None 1000 (runtime w)));
  after ← on_runtime (transition_incident incident_id state (at_username who) reason now event_id);
  _ ← audit_of (note who ("runtime.incident." +:+ state) "runtime_incident" incident_id request_ip (Some reason)
                  match before with Some v => Some (AuditedIncident v) | None => None end
                  (Some (AuditedMoved after)) "succeeded" None) d;
  mret after.

(** What a recovery action does, with its result for the audit *)
Record recovery_tools : Type := RecoveryTools {
  rt_limits : limits;
  rt_counts : list (string * Z);
  rt_operations : option (gmap string Operations.row);
  rt_joined : string -> option string;
  rt_evaluation : evaluation_draw;
  rt_hub_now : instant;
}.

(** What the columns of the action keep of a delivery, of a run and of a request, before their redaction *)
Definition delivery_document (isoformat : instant -> string) (x : delivery) : payload :=
  let o := snd x in
  [("delivery_id", JStr (fst x)); ("event_id", JStr (o_event_id o)); ("task_id", JStr (o_task_id o));
   ("endpoint_id", JStr (o_endpoint_id o)); ("user_subject", JStr (o_user_subject o)); ("payload_type", JStr (o_payload_type o));
   ("state", JStr (o_state o)); ("attempt_count", JInt (o_attempt_count o));
   ("next_attempt_at", JStr (isoformat (o_next_attempt_at o))); ("created_at", JStr (isoformat (o_created_at o)));
   ("updated_at", JStr (isoformat (o_updated_at o)));
   ("acknowledged_at", match o_acknowledged_at o with Some t => JStr (isoformat t) | None => JNull end);
   ("payload", JObj (o_payload o))].

Definition evaluation_document (isoformat : instant -> string) (e : evaluation) : payload :=
  [("evaluatedAt", JStr (isoformat (ev_evaluated_at e))); ("observed", JInt (Z.of_nat (ev_observed e)));
   ("resolved", JInt (Z.of_nat (ev_resolved e))); ("open", JInt (Z.of_nat (ev_open e)))].

Definition document (isoformat : instant -> string) (x : audited) : payload :=
  match x with
  | AuditedDelivery d => delivery_document isoformat d
  | AuditedEvaluation e => evaluation_document isoformat e
  | AuditedRequest => [("status", JStr "requested")]
  | _ => []
  end.

Definition recovery_body (isoformat : instant -> string) (t : recovery_tools) (action target : string) : proc world audited :=
  if String.eqb action "retry_delivery" then d ← on_hub (requeue_delivery target (rt_hub_now t)); mret (AuditedDelivery d)
  else if String.eqb action "archive_delivery" then d ← on_hub (archive_delivery target (rt_hub_now t)); mret (AuditedDelivery d)
  else fun w =>
    (e ← on_runtime (evaluate_incidents isoformat (rt_limits t) (rt_counts t)
           (Surroundings (rt_operations t) (Some (task_hub w)) (rt_joined t)) (rt_evaluation t));
     mret (AuditedEvaluation e)) w.

Record recovery_draw : Type := RecoveryDraw {
  vd_started_at : instant;
  vd_action_id : string;
  vd_finished_at : instant;
  vd_audit : audit_draw;
}.

Definition recovery_request (who : actor) (action kind target reason key : string) (before : payload) : recovery_args :=
  RecoveryArgs action kind target (at_username who) reason key "B0_NO_EFFECT" (Some before).

(** What the action is about, as it is before *)
Definition recovery_target (kind target : string) : proc world audited := fun w =>
  if String.eqb kind "runtime" then (Ok AuditedRequest, w)
  else match get_delivery target (task_hub w) with Ok d => (Ok (AuditedDelivery d), w) | Raise e => (Raise e, w) end.

Definition runtime_recovery_action (isoformat : instant -> string) (t : recovery_tools) (who : actor)
    (request_ip action target reason key : string) (d : recovery_draw) : proc world recovery :=
  _ ← of_result (_require_admin who);
  _ ← of_result (raise_if (negb (str_in action ["retry_delivery"; "archive_delivery"; "evaluate_runtime"])) ValueError
                   "runtime recovery action is not allowed");
  let kind := if String.eqb action "evaluate_runtime" then "runtime" else "delivery" in
  before ← recovery_target kind target;
  '(r, reused) ← on_runtime (start_recovery_action
                   (recovery_request who action kind target reason key (document isoformat before)) (vd_started_at d) (vd_action_id d));
  if (reused : bool) then mret r
  else
    fun w =>
      match recovery_body isoformat t action target w with
      | (Raise e, w) =>
          (finished ← on_runtime (finish_recovery_action (fst r) "failed" None (Some (class_name (exn_class e))) (vd_finished_at d));
           _ ← audit_of (note who ("runtime.recovery." +:+ action) kind target request_ip (Some reason) (Some before)
                           (Some (AuditedRecovery finished)) "failed" (Some (exn_str e))) (vd_audit d);
           mthrow e) w
      | (Ok after, w) =>
          (finished ← on_runtime (finish_recovery_action (fst r) "succeeded" (Some (document isoformat after)) None (vd_finished_at d));
           _ ← audit_of (note who ("runtime.recovery." +:+ action) kind target request_ip (Some reason) (Some before)
                           (Some after) "succeeded" None) (vd_audit d);
           mret finished) w
      end.

Definition raw_scope (scope_type scope_value version : string) (p : policy) : bool :=
  String.eqb (po_scope_type (snd p)) scope_type
  && String.eqb (po_scope_value (snd p)) (if String.eqb scope_type "global" then "*" else scope_value)
  && String.eqb (po_capability_version (snd p)) (if String.eqb scope_type "capability" then version else "*").

Definition pause_policy (who : actor) (request_ip scope_type scope_value version reason : string) (now : instant) (id : string)
    (d : audit_draw) : proc world policy :=
  _ ← of_result (_require_admin who);
  before ← reading (fun w => List.find (raw_scope scope_type scope_value version) (list_policies None w));
  after ← pause scope_type scope_value reason (at_username who) version now id;
  _ ← audit_of (note who "governance.write.pause" "governance_policy" (fst after) request_ip (Some reason)
                  match before with Some p => Some (AuditedPolicy p) | None => None end (Some (AuditedPolicy after)) "succeeded" None) d;
  mret after.

Definition resume_policy (who : actor) (request_ip id reason : string) (now : instant) (d : audit_draw) : proc world policy :=
  _ ← of_result (_require_admin who);
  before ← reading_policy id;
  after ← resume id reason (at_username who) now;
  _ ← audit_of (note who "governance.write.resume" "governance_policy" id request_ip (Some reason) (Some (AuditedPolicy before))
                  (Some (AuditedPolicy after)) "succeeded" None) d;
  mret after.

(** *** Signing in and out *)

(** [LoginRateLimiter]: the failures of each address, by the readings of a monotonic clock *)
Record limiter : Type := Limiter { lr_attempts : nat; lr_window_seconds : Z; lr_failures : gmap string (list instant) }.

Definition fresh_failures (x : limiter) (key : string) (now : instant) : list instant :=
  List.filter (fun t => (now - t <? seconds (lr_window_seconds x))%Z) (default [] (lr_failures x !! key)).

Definition allowed (key : string) (now : instant) (x : limiter) : bool * limiter :=
  let l := fresh_failures x key now in
  ((length l <? lr_attempts x)%nat, Limiter (lr_attempts x) (lr_window_seconds x) (<[key := l]> (lr_failures x))).

Definition fail (key : string) (now : instant) (x : limiter) : limiter :=
  Limiter (lr_attempts x) (lr_window_seconds x) (<[key := default [] (lr_failures x !! key) ++ [now]]> (lr_failures x)).

Definition success (key : string) (x : limiter) : limiter :=
  Limiter (lr_attempts x) (lr_window_seconds x) (delete key (lr_failures x)).

Record login_draw : Type := LoginDraw {
  ld_limiter_now : instant;
  ld_failed_at : instant;
  ld_login_at : instant;
  ld_session_at : instant;
  ld_session : session_draw;
  ld_audit : audit_draw;
}.

(** What the server answers *)
Inductive answer : Type :=
  | RateLimited
  | InvalidCredentials
  | SignedIn (a : account) (s : session_draw).

Definition actor_of (a : account) : actor := Actor (fst a) (ac_username (snd a)) (ac_role (snd a)).

Definition _login (l : lifetime) (address username password user_agent : string) (d : login_draw) (x : limiter)
  : limiter * proc world answer :=
  let '(ok, x) := allowed address (ld_limiter_now d) x in
  if negb ok then (x, mret RateLimited)
  else
    (x, fun w =>
      match authenticate username password w with
      | None =>
          (_ ← audit_of (Entry None "admin.login" "failed" address (Some "admin_account") (Some (py_take 64 username)) None None None
                           (Some "invalid credentials")) (ld_audit d);
           mret InvalidCredentials) w
      | Some a =>
          (a ← record_login (fst a) (ld_login_at d);
           '(s, _) ← create_session l (fst a) address user_agent (ld_session_at d) (ld_session d);
           _ ← audit_of (Entry (Some (actor_of a)) "admin.login" "succeeded" address (Some "admin_account") (Some (fst a)) None None None None)
                 (ld_audit d);
           mret (SignedIn a s)) w
      end).

(** The limiter after the attempt *)
Definition limiter_after (address username password : string) (d : login_draw) (x : limiter) w : limiter :=
  let '(ok, x) := allowed address (ld_limiter_now d) x in
  if negb ok then x
  else match authenticate username password w with None => fail address (ld_failed_at d) x | Some _ => success address x end.

(** The route of a changed password *)
Definition password_route (who : admin) (address current new salt : string) (changed revoked : instant) (d : audit_draw)
  : proc world account :=
  a ← change_password (fst (am_account who)) current new salt changed;
  _ ← revoke_account_sessions (fst (am_account who)) (Some (am_session_id who)) revoked;
  _ ← audit_of (note (actor_of (am_account who)) "admin.password.change" "admin_account" (fst (am_account who)) address None None
                  (Some (AuditedPasswordChange (ac_password_changed_at (snd a)))) "succeeded" None) d;
  mret a.

Definition logout_route (who : admin) (token address : string) (now : instant) (d : audit_draw) : proc world unit :=
  _ ← revoke token now;
  audit_of (Entry (Some (actor_of (am_account who))) "admin.logout" "succeeded" address None None None None None None) d.
End Stores.
