(* ===== verification/RuntimeGovernanceFacts.v ===== *)
(** * The runtime ledger keeps its promises

    Every call of the ledger comes down to a few changes of its rows ([change]).  Each change keeps the invariant [Inv],
    and what is said of histories is said of sequences of changes.

    [update_trace] and [finish_span] read a row before they lock the database and write it afterwards.  In a [serial]
    history no other call comes between; a history that is not serial may have them read anything.  The boundaries of
    traces are kept in serial histories only, and everything else in all of them. *)

From S2P Require Import Prelude PyStr Json JsonFacts Store Procedures TaskTables RuntimeGovernance RuntimeReports.
From S2P Require Operations.

#[local] Open Scope list_scope.

(** ** Rows *)

Section Rows.
Context {R : Type}.
Implicit Types (l : list (string * R)) (p : R -> bool) (f : R -> R).

Lemma row_In k (r : R) l : NoDup (map fst l) -> In (k, r) l -> row_by_key k l = Some r.
Proof.
  induction l as [|[k' r'] l IH]; cbn; [done|]. intros [Hk Hl]%NoDup_cons [[= -> ->]|Hin].
  - unfold row_by_key. cbn. by rewrite String.eqb_refl.
  - unfold row_by_key. cbn. destruct (String.eqb_spec k k') as [<-|_]; [|by apply IH].
    destruct Hk. apply list_elem_of_In. by apply (in_map fst _ (k, r)).
Qed.

Lemma row_spec k (r : R) l : NoDup (map fst l) -> row_by_key k l = Some r <-> In (k, r) l.
Proof. intros Hl. split; [apply assoc_In|by apply row_In]. Qed.

Lemma row_none k l : row_by_key k l = None <-> k ∉ map fst l.
Proof.
  unfold row_by_key. induction l as [|[k' r'] l IH]; cbn; [split; [set_solver|done]|].
  rewrite not_elem_of_cons, <- IH. destruct (String.eqb_spec k k'); naive_solver.
Qed.

Lemma update_by_key_fst k f l : map fst (update_by_key k f l) = map fst l.
Proof.
  unfold update_by_key, update_row, every_row. induction l as [|[k' r] l IH]; cbn; [done|]. rewrite IH.
  by destruct (String.eqb k' k && true).
Qed.

Lemma update_row_fst k p f l : map fst (update_row k p f l) = map fst l.
Proof. unfold update_row. induction l as [|[k' r] l IH]; cbn; [done|]. rewrite IH. by destruct (_ && _). Qed.

Lemma update_by_key_row k f l k' : row_by_key k' (update_by_key k f l) =
  if String.eqb k' k then f <$> row_by_key k' l else row_by_key k' l.
Proof.
  unfold update_by_key, update_row, row_by_key, every_row. induction l as [|[k2 r] l IH]; cbn; [by destruct (String.eqb k' k)|].
  rewrite andb_true_r. destruct (String.eqb_spec k2 k) as [->|Hk]; cbn.
  - destruct (String.eqb_spec k' k); [done|]. exact IH.
  - destruct (String.eqb_spec k' k2) as [->|]; [|exact IH]. by destruct (String.eqb_spec k2 k).
Qed.

Lemma update_by_key_In k f l k' r' : In (k', r') (update_by_key k f l) ->
  exists r, In (k', r) l /\ r' = if String.eqb k' k then f r else r.
Proof.
  unfold update_by_key, update_row, every_row. intros ([k2 r] & He & Hin)%in_map_iff. cbn in He. rewrite andb_true_r in He.
  destruct (String.eqb_spec k2 k) as [->|Hk]; injection He as -> <-; exists r; split; try done.
  - by rewrite String.eqb_refl.
  - by destruct (String.eqb_spec k' k).
Qed.

Lemma append_row_Ok k clash (r : R) l l' : append_row k clash r l = Ok l' <->
  (k ∉ map fst l) /\ (forall kr, In kr l -> clash (snd kr) = false) /\ l' = l ++ [(k, r)].
Proof.
  unfold append_row, taken. destruct (existsb _ l) eqn:E.
  - split; [done|]. intros (Hk & Hc & _). apply existsb_exists in E as (kr & Hin & Hkr).
    apply orb_true_iff in Hkr as [He|He].
    + apply String.eqb_eq in He. destruct Hk. rewrite <- He. apply list_elem_of_In. by apply in_map.
    + by rewrite (Hc kr Hin) in He.
  - assert (forall kr, In kr l -> String.eqb (fst kr) k = false /\ clash (snd kr) = false) as Hno.
    { intros kr Hin. apply orb_false_iff. apply not_true_iff_false. intros Ht. apply not_true_iff_false in E. apply E.
      apply existsb_exists. by exists kr. }
    split.
    + intros [= <-]. split_and!; [|by intros kr [_ ?]%Hno|done]. intros Hk. apply list_elem_of_In, in_map_iff in Hk as (kr & He & Hin).
      apply Hno in Hin as [Hf _]. by rewrite He, String.eqb_refl in Hf.
    + by intros (_ & _ & ->).
Qed.

Lemma row_by_key_snoc k (r : R) l k' : row_by_key k' (l ++ [(k, r)]) =
  match row_by_key k' l with Some r' => Some r' | None => if String.eqb k' k then Some r else None end.
Proof.
  unfold row_by_key. induction l as [|[k2 r2] l IH]; cbn; [done|]. by destruct (String.eqb k' k2).
Qed.

Lemma snoc_keys k (r : R) l : k ∉ map fst l -> NoDup (map fst l) -> NoDup (map fst (l ++ [(k, r)])).
Proof. intros Hk Hl. rewrite map_app. cbn. apply NoDup_app. split; [done|]. split; [set_solver|]. repeat constructor. set_solver. Qed.

Lemma rows_where_In p l kr : In kr (rows_where p l) <-> In kr l /\ p (snd kr) = true.
Proof. apply filter_In. Qed.

Lemma rows_where_keys p l : NoDup (map fst l) -> NoDup (map fst (rows_where p l)).
Proof. apply filter_keys_NoDup. Qed.

Lemma latest_Some column p l kr : latest column p l = Some kr -> In kr l /\ p (snd kr) = true.
Proof.
  unfold latest. intros H. apply rows_where_In. apply (Permutation_in _ (sort_by_perm (descending column) (rows_where p l))).
  destruct (sort_by _ _); [done|]. injection H as ->. by left.
Qed.

Lemma latest_None column p l : latest column p l = None -> forall kr, In kr l -> p (snd kr) = false.
Proof.
  unfold latest. intros H kr Hin. destruct (p (snd kr)) eqn:E; [|done].
  assert (In kr (sort_by (descending column) (rows_where p l))) as Hs.
  { apply (Permutation_in _ (symmetry (sort_by_perm _ _))). by apply rows_where_In. }
  destruct (sort_by _ _); done.
Qed.

Lemma row_with_Ok id message l kr : row_with id message l = Ok kr <-> fst kr = id /\ row_by_key id l = Some (snd kr).
Proof.
  unfold row_with. destruct kr as [k r]. destruct (row_by_key id l) as [r'|] eqn:E; cbn.
  - split; [by intros [= <- <-]|by intros [-> [= ->]]].
  - split; [done|by intros [_ ?]].
Qed.
End Rows.

(** ** Boundaries *)

Definition known_boundary (b : string) : Prop := str_in b SIDE_EFFECT_BOUNDARIES = true.
Definition reaches (b b' : string) : Prop := (boundary_index b <= boundary_index b')%nat.

Lemma validate_boundary_Ok b u : _validate_boundary b = Ok u <-> known_boundary b.
Proof. unfold _validate_boundary, known_boundary. rewrite result_raise_if_Ok. by destruct (str_in b _). Qed.

Lemma known_cases b : known_boundary b -> In b SIDE_EFFECT_BOUNDARIES.
Proof. apply str_in_spec. Qed.

(** The greater of two boundaries, and that it is one of them *)
Lemma max_boundary_Ok a b c : _max_boundary a b = Ok c <->
  known_boundary a /\ known_boundary b /\ c = if (boundary_index a <? boundary_index b)%nat then b else a.
Proof.
  unfold _max_boundary. rewrite result_bind_Ok. setoid_rewrite result_bind_Ok. split.
  - intros (u & Ha%validate_boundary_Ok & v & Hb%validate_boundary_Ok & [= <-]). split_and!; [done..|].
    apply known_cases in Ha, Hb. cbn in Ha, Hb.
    repeat (destruct Ha as [<-|Ha]; [repeat (destruct Hb as [<-|Hb]; [done|]); done|]). done.
  - intros (Ha & Hb & ->). exists tt. split; [by apply validate_boundary_Ok|]. exists tt. split; [by apply validate_boundary_Ok|]. f_equal.
    apply known_cases in Ha, Hb. cbn in Ha, Hb.
    repeat (destruct Ha as [<-|Ha]; [repeat (destruct Hb as [<-|Hb]; [done|]); done|]). done.
Qed.

Lemma max_boundary_reaches a b c : _max_boundary a b = Ok c -> known_boundary c /\ reaches a c /\ reaches b c.
Proof.
  intros (Ha & Hb & ->)%max_boundary_Ok. unfold reaches. destruct (Nat.ltb_spec (boundary_index a) (boundary_index b)); split_and!; done || lia.
Qed.

Lemma committed_boundary b : known_boundary b -> (4 <= boundary_index b)%nat -> In b ["B4_COMMIT_ATTEMPTED"; "B5_VERIFIED"].
Proof.
  intros Hk%known_cases Hb. cbn in Hk. repeat (destruct Hk as [<-|Hk]; [by (vm_compute in Hb; lia) || (cbn; tauto)|]). done.
Qed.

Lemma known_below b : known_boundary b -> (boundary_index b < 6)%nat.
Proof. intros Hk%known_cases. cbn in Hk. repeat (destruct Hk as [<-|Hk]; [vm_compute; lia|]). done. Qed.

Lemma reaches_trans a b c : reaches a b -> reaches b c -> reaches a c.
Proof. unfold reaches. lia. Qed.

(** ** Metadata *)

Section Metadata.
Context `{UnicodeTables}.

Definition short_candidate (v : json) : bool :=
  match v with JStr t => (py_len t <=? 160)%Z | JArr _ | JObj _ => false | _ => true end.

(** Short texts, short lists of scalars, and objects of at most fifty members whose sensitive ones are blanked *)
Fixpoint redacted (v : json) : bool :=
  match v with
  | JStr t => (py_len t <=? 500)%Z
  | JArr l => (length l <=? 30)%nat && forallb short_candidate l
  | JObj kvs => (length kvs <=? 50)%nat && forallb (fun kv => (py_len (fst kv) <=? 80)%Z
      && (if sensitive (fst kv) then match snd kv with JStr t => String.eqb t "[redacted]" | _ => false end else redacted (snd kv))) kvs
  | _ => true
  end.

Definition redacted_member (kv : string * json) : bool :=
  (py_len (fst kv) <=? 80)%Z
  && (if sensitive (fst kv) then match snd kv with JStr t => String.eqb t "[redacted]" | _ => false end else redacted (snd kv)).

Lemma redacted_object kvs : redacted (JObj kvs) = (length kvs <=? 50)%nat && forallb redacted_member kvs.
Proof. done. Qed.

Lemma dict_set_In {A} k (a : A) l kv : In kv (dict_set k a l) -> kv = (k, a) \/ In kv l.
Proof.
  induction l as [|[k' b] l IH]; cbn; [intros [<-|[]]; by left|].
  destruct (String.eqb_spec k k') as [->|Hne]; cbn.
  - intros [<-|Hin]; [by left|by right; right].
  - intros [<-|Hin]; [by right; left|]. apply IH in Hin as [->|Hin]; [by left|by right; right].
Qed.

Lemma dict_set_length {A} k (a : A) l : (length (dict_set k a l) <= S (length l))%nat.
Proof. induction l as [|[k' b] l IH]; cbn; [lia|]. destruct (String.eqb k k'); cbn; lia. Qed.

Lemma fold_dict_set {A} (e d : list (string * A)) :
  (forall kv, In kv (fold_left (fun d kv => dict_set (fst kv) (snd kv) d) e d) -> In kv e \/ In kv d) /\
  (length (fold_left (fun d kv => dict_set (fst kv) (snd kv) d) e d) <= length e + length d)%nat.
Proof.
  revert d. induction e as [|[k a] e IH]; intros d; cbn; [split; [by right|lia]|].
  destruct (IH (dict_set k a d)) as [Hin Hlen]. split.
  - intros kv [He|Hd]%Hin; [by left; right|]. apply dict_set_In in Hd as [->|Hd]; [by left; left|by right].
  - pose proof (dict_set_length k a d). lia.
Qed.

Lemma dict_of_pairs_In {A} (l : list (string * A)) kv : In kv (dict_of_pairs l) -> In kv l.
Proof. intros [Hin|[]]%(proj1 (fold_dict_set l [])). done. Qed.

Lemma dict_of_pairs_length {A} (l : list (string * A)) : (length (dict_of_pairs l) <= length l)%nat.
Proof. pose proof (proj2 (fold_dict_set l [])). cbn in *. unfold dict_of_pairs. lia. Qed.

Lemma take_In {A} n (l : list A) x : In x (take n l) -> In x l.
Proof. revert n. induction l as [|y l IH]; intros [|n]; cbn; try done. intros [->|Hin]; [by left|right; by apply (IH n)]. Qed.

Lemma safe_candidate_short v : short_candidate (safe_candidate v) = true.
Proof.
  assert (forall w, short_candidate (JStr (py_take 160 (py_str w))) = true) as Ht by (intros w; apply Z.leb_le, (py_len_take 160)).
  destruct v; try done; apply Ht.
Qed.

Lemma safe_redacted v : redacted (safe_value v) = true.
Proof.
  induction v as [|b|z|m e|t|l _|kvs IH] using json_rect'; try done.
  - cbn. apply Z.leb_le. apply (py_len_take 500).
  - cbn [safe_value redacted]. apply andb_true_iff. split; [apply Nat.leb_le; rewrite length_take; lia|].
    apply forallb_forall. intros x Hx%take_In. apply in_map_iff in Hx as (y & <- & _). apply safe_candidate_short.
  - cbn [safe_value]. rewrite redacted_object. apply andb_true_iff. split.
    + apply Nat.leb_le. etrans; [apply dict_of_pairs_length|]. rewrite length_take. lia.
    + apply forallb_forall. intros x Hx%dict_of_pairs_In%take_In. apply in_map_iff in Hx as ([k v] & <- & Hin).
      unfold redacted_member. cbn [fst snd]. apply andb_true_iff. split; [apply Z.leb_le; apply (py_len_take 80)|].
      destruct (sensitive (py_take 80 k)) eqn:Es; [done|]. rewrite List.Forall_forall in IH. apply (IH (k, v) Hin).
Qed.

(** The columns hold the members in the order of their keys. *)
Lemma canon_redacted v : redacted v = true -> redacted (canon v) = true.
Proof.
  induction v as [|b|z|m e|t|l IH|kvs IH] using json_rect'; try done.
  - cbn [redacted canon]. rewrite length_map. intros [Hl Hall]%andb_true_iff. apply andb_true_iff. split; [done|].
    rewrite forallb_forall in *. intros x (y & <- & Hy)%in_map_iff. specialize (Hall y Hy). by destruct y.
  - cbn [canon]. rewrite !redacted_object. intros [Hl Hall]%andb_true_iff. rewrite forallb_forall in Hall.
    rewrite List.Forall_forall in IH. apply andb_true_iff. split; [by rewrite sort_by_length, length_map|].
    apply forallb_forall. intros x Hx%(Permutation_in _ (sort_by_perm key_leb _)). apply in_map_iff in Hx as ([k w] & <- & Hin).
    specialize (Hall _ Hin). unfold redacted_member in *. cbn [fst snd] in *. apply andb_true_iff in Hall as [Hk Hw].
    rewrite Hk. cbn [andb]. destruct (sensitive k); [by destruct w|]. by apply (IH (k, w) Hin).
Qed.

Definition redacted_members (kvs : payload) : bool := forallb redacted_member kvs.

Lemma canonical_members kvs : redacted_members kvs = true -> redacted_members (canonical_object kvs) = true.
Proof.
  unfold redacted_members, canonical_object. rewrite !forallb_forall. intros Hall x Hx. cbn [canon] in Hx.
  apply (Permutation_in _ (sort_by_perm key_leb _)), in_map_iff in Hx as ([k w] & <- & Hin). specialize (Hall _ Hin).
  unfold redacted_member in *. cbn [fst snd] in *. apply andb_true_iff in Hall as [Hk Hw]. rewrite Hk. cbn [andb].
  destruct (sensitive k); [by destruct w|]. by apply canon_redacted.
Qed.

Lemma safe_members value : redacted_members (_safe_metadata value) = true /\ (length (_safe_metadata value) <= 50)%nat.
Proof.
  destruct value as [kvs|]; [|split; [done|cbn; lia]]. pose proof (safe_redacted (JObj kvs)) as Hr. unfold _safe_metadata.
  destruct (safe_value (JObj kvs)) as [| | | | | |kvs'] eqn:E; try (split; [done|cbn; lia]).
  rewrite redacted_object in Hr. apply andb_true_iff in Hr as [Hl Hall]. split; [done|by apply Nat.leb_le].
Qed.

Lemma merged_members d e : redacted_members d = true -> redacted_members e = true -> redacted_members (dict_update d e) = true.
Proof.
  unfold redacted_members, dict_update. rewrite !forallb_forall. intros Hd He kv [Hin|Hin]%(proj1 (fold_dict_set e d)); auto.
Qed.
End Metadata.

(** ** The invariant *)

Section Invariant.
Context `{UnicodeTables} (serial : bool).

(** What a trace keeps from its first request to its last stage *)
Definition same_trace (x x' : trace_row) : Prop :=
  tr_request_id x' = tr_request_id x /\ tr_user_subject x' = tr_user_subject x /\ tr_task_id x' = tr_task_id x /\
  tr_request_kind x' = tr_request_kind x /\ tr_release_id x' = tr_release_id x /\ tr_started_at x' = tr_started_at x.

Definition trace_ok (x : trace_row) : Prop := known_boundary (tr_boundary x).

(** A span is of a trace that is there, of its user and task; in a serial history its boundary is not beyond that of the
    trace, and its metadata are redacted. *)
Definition span_ok s (y : span_row) : Prop :=
  (serial = true -> redacted_members (sp_metadata y) = true) /\
  exists x, row_by_key (sp_trace_id y) (traces s) = Some x /\ sp_user_subject y = tr_user_subject x /\
    sp_task_id y = tr_task_id x /\ known_boundary (sp_boundary y) /\
    (serial = true -> reaches (sp_boundary y) (tr_boundary x)).

Definition incident_ok (i : incident_row) : Prop :=
  In (in_state i) INCIDENT_STATES /\ In (in_severity i) INCIDENT_SEVERITIES /\
  (is_Some (in_resolved_at i) <-> in_state i = "resolved") /\ (1 <= in_occurrence_count i)%Z.

(** The state that the log tells of an incident: the last one *)
Definition logged_state (id : string) (log : list (string * incident_event)) : option string :=
  match last (rows_where (fun e => String.eqb (ie_incident_id e) id) log) with
  | Some e => ie_after_state (snd e)
  | None => None
  end.

Definition observation_ok (o : observation_row) : Prop :=
  (ob_state o = "active" /\ ob_completed_at o = None) \/ (ob_state o = "completed" /\ is_Some (ob_completed_at o)).

Record Inv s : Prop := {
  inv_trace_keys : NoDup (map fst (traces s));
  inv_traces : forall id x, In (id, x) (traces s) -> trace_ok x;
  inv_spans : forall id y, In (id, y) (spans s) -> span_ok s y;
  inv_incident_keys : NoDup (map fst (incidents s));
  inv_incidents : forall id i, In (id, i) (incidents s) -> incident_ok i /\ logged_state id (incident_log s) = Some (in_state i);
  inv_recovery_keys : NoDup (map fst (recoveries s));
  inv_recoveries : NoDup (map (fun kr => rc_idempotency_key (snd kr)) (recoveries s));
  inv_observation_keys : NoDup (map fst (observations s));
  inv_observations : forall id o, In (id, o) (observations s) -> observation_ok o;
  inv_one_observing : forall id o id' o', In (id, o) (observations s) -> In (id', o') (observations s) ->
    ob_name o = ob_name o' -> ob_state o = "active" -> ob_state o' = "active" -> id = id';
}.

Definition empty_ledger : ledger := Ledger [] [] [] [] [] [] [] [] [].

Lemma empty_Inv : Inv empty_ledger.
Proof. split; cbn; try (by intros); constructor. Qed.

Lemma logged_state_snoc id e log k :
  logged_state id (log ++ [(k, e)]) = if String.eqb (ie_incident_id e) id then ie_after_state e else logged_state id log.
Proof.
  unfold logged_state, rows_where. rewrite List.filter_app. cbn. destruct (String.eqb (ie_incident_id e) id).
  - by rewrite last_snoc.
  - by rewrite app_nil_r.
Qed.

End Invariant.
#[global] Arguments inv_trace_keys {H serial} s _.
#[global] Arguments inv_traces {H serial} s _.
#[global] Arguments inv_spans {H serial} s _.
#[global] Arguments inv_incident_keys {H serial} s _.
#[global] Arguments inv_incidents {H serial} s _.
#[global] Arguments inv_recovery_keys {H serial} s _.
#[global] Arguments inv_recoveries {H serial} s _.
#[global] Arguments inv_observation_keys {H serial} s _.
#[global] Arguments inv_observations {H serial} s _.
#[global] Arguments inv_one_observing {H serial} s _.

(** ** Changes

    [D] limits what is detected and [T] which incidents people transition. *)

Section Changes.
Context `{UnicodeTables} (serial : bool) (D : incident_args -> Prop) (T : string -> Prop).
Implicit Types (s : ledger) (x : trace_row) (y : span_row) (i : incident_row).

Inductive change : ledger -> ledger -> Prop :=
  | change_trace_new s id x : (id ∉ map fst (traces s)) -> tr_boundary x = "B0_NO_EFFECT" ->
      change s (with_traces (traces s ++ [(id, x)]) s)
  | change_trace s id x x' : row_by_key id (traces s) = Some x -> same_trace x x' -> trace_ok x' ->
      (serial = true -> reaches (tr_boundary x) (tr_boundary x')) ->
      change s (with_traces (update_by_key id (fun _ => x') (traces s)) s)
  | change_span_new s id y : span_ok serial s y -> change s (with_spans (spans s ++ [(id, y)]) s)
  | change_span s id y : span_ok serial s y -> change s (with_spans (update_by_key id (fun _ => y) (spans s)) s)
  | change_spans_pruned s p : change s (with_spans (rows_where p (spans s)) s)
  | change_signals s l : change s (with_signals l s)
  | change_detected s a d r s' : In (ia_severity a) INCIDENT_SEVERITIES -> D a -> upsert_body a d s = Ok (r, s') -> change s s'
  | change_transition s id state actor reason now e r s' : In state INCIDENT_STATES -> T id ->
      transition_body id state actor reason now e s = Ok (r, s') -> change s s'
  | change_recovery_new s a now id r s' : start_recovery_body a now id s = Ok (r, s') -> change s s'
  | change_recovery_end s id r r' : row_by_key id (recoveries s) = Some r -> rc_idempotency_key r' = rc_idempotency_key r ->
      change s (with_recoveries (update_by_key id (fun _ => r') (recoveries s)) s)
  | change_rollups s l : change s (with_rollups l s)
  | change_observation_new s name actor duration policy now b id r s' :
      insert_observation name actor duration policy now b id s = Ok (r, s') -> change s s'
  | change_snapshot s id k n complete now u s' : store_snapshot id k n complete now s = Ok (u, s') -> change s s'
  | change_snapshots_pruned s l : change s (with_observations (observations s) l s).

Lemma span_ok_same s s' y : traces s' = traces s -> span_ok serial s y -> span_ok serial s' y.
Proof. unfold span_ok. by intros ->. Qed.

(** Traces stay what they are, and in serial histories they move on. *)
Definition traces_go_on s s' : Prop := forall id x, row_by_key id (traces s) = Some x ->
  exists x', row_by_key id (traces s') = Some x' /\ same_trace x x' /\ (serial = true -> reaches (tr_boundary x) (tr_boundary x')).

Lemma same_trace_refl x : same_trace x x.
Proof. done. Qed.

Lemma same_trace_trans x1 x2 x3 : same_trace x1 x2 -> same_trace x2 x3 -> same_trace x1 x3.
Proof. unfold same_trace. intros (?&?&?&?&?&?) (?&?&?&?&?&?). split_and!; congruence. Qed.

#[export] Instance traces_go_on_preorder : PreOrder traces_go_on.
Proof.
  split.
  - intros s id x Hx. exists x. split_and!; [done|apply same_trace_refl|unfold reaches; lia].
  - intros s1 s2 s3 H12 H23 id x (x2 & H2 & Hs & Hr)%H12. apply H23 in H2 as (x3 & H3 & Hs' & Hr'). exists x3.
    split_and!; [done|by eapply same_trace_trans|intros Hc; eapply reaches_trans; [by apply Hr|by apply Hr']].
Qed.

Lemma go_on_same s s' : traces s' = traces s -> traces_go_on s s'.
Proof. intros He id x Hx. rewrite He. exists x. split_and!; [done|apply same_trace_refl|unfold reaches; lia]. Qed.

Lemma span_ok_go_on s s' y : traces_go_on s s' -> span_ok serial s y -> span_ok serial s' y.
Proof.
  intros Hs (Hm & x & Hx & Hu & Ht & Hk & Hr). split; [done|]. apply Hs in Hx as (x' & Hx' & (_ & Hu' & Ht' & _) & Hr'). exists x'.
  split_and!; [done|congruence|congruence|done|intros Hc; eapply reaches_trans; [by apply Hr|by apply Hr']].
Qed.

Lemma upsert_cases a d s r s' : upsert_body a d s = Ok (r, s') ->
  (s' = s /\ settled_before a s = Some r) \/
  (settled_before a s = None /\ exists id i words, In (id, i) (incidents s) /\ open_with (fingerprint a) i = true /\
     r = (id, seen_again a words (id_now d) i) /\
     s' = with_incidents (update_by_key id (seen_again a words (id_now d)) (incidents s)) (incident_log s) s) \/
  (settled_before a s = None /\ (forall id i, In (id, i) (incidents s) -> open_with (fingerprint a) i = false) /\
   exists rule words e, required_text 120 (Some (ia_rule_id a)) = Ok rule /\ r = (id_incident_id d, first_seen a rule words (id_now d)) /\
     (id_incident_id d ∉ map fst (incidents s)) /\
     e = IncidentEvent (id_incident_id d) "detected" "agentbridge" None None (Some "open") (id_now d) /\
     s' = with_incidents (incidents s ++ [r]) (incident_log s ++ [(id_event_id d, e)]) s).
Proof.
  unfold upsert_body. destruct (settled_before a s) as [r0|] eqn:E0; [intros [= <- <-]; by left|]. intros Hrest. right.
  destruct (latest _ _ _) as [[id i]|] eqn:E.
  - apply latest_Some in E as [Hin Ho]. apply result_bind_Ok in Hrest as (x & _ & [= <- <-]). left. split; [done|].
    by exists id, i, x.
  - right. split; [done|]. split; [intros id i Hin; by apply (latest_None _ _ _ E (id, i))|].
    apply result_bind_Ok in Hrest as (rule & Hrule & (x & _ & (l & (Hk & _ & ->)%append_row_Ok &
      (log & (_ & _ & ->)%append_row_Ok & [= <- <-])%result_bind_Ok)%result_bind_Ok)%result_bind_Ok).
    by do 3 eexists.
Qed.

Lemma transition_cases id state actor reason now e s r s' : transition_body id state actor reason now e s = Ok (r, s') ->
  exists i who why, row_by_key id (incidents s) = Some i /\ r = (id, transitioned state now i) /\
    s' = with_incidents (update_by_key id (transitioned state now) (incidents s))
           (incident_log s ++ [(e, IncidentEvent id state who (Some why) (Some (in_state i)) (Some state) now)]) s.
Proof.
  unfold transition_body. intros ([k i] & [Hk Hrow]%row_with_Ok & Hrest)%result_bind_Ok. cbn in Hk, Hrow. subst k.
  apply result_bind_Ok in Hrest as (who & _ & (why & _ & (log & (_ & _ & ->)%append_row_Ok & [= <- <-])%result_bind_Ok)%result_bind_Ok).
  by exists i, who, why.
Qed.
Lemma change_go_on s s' : change s s' -> traces_go_on s s'.
Proof.
  destruct 1 as [s id x Hk _|s id x x' Hx Hs Hok Hr|s id y _|s id y _|s p|s l|s a d r s' _ _ E|s id state actor reason now e r s' _ _ E
    |s a now id r s' E|s id r r' _ _|s l|s name actor duration policy now b id r s' E|s id k n complete now u s' E|s l];
    try (by apply go_on_same).
  - intros k z Hz. exists z. cbn. rewrite row_by_key_snoc, Hz. split_and!; [done|apply same_trace_refl|unfold reaches; lia].
  - intros k z Hz. cbn. rewrite update_by_key_row. destruct (String.eqb_spec k id) as [->|_].
    + exists x'. rewrite Hz. cbn. assert (z = x) as -> by congruence. by split_and!.
    + exists z. split_and!; [done|apply same_trace_refl|unfold reaches; lia].
  - apply go_on_same. by apply upsert_cases in E as [[-> _]|[(_ & ? & ? & ? & _ & _ & _ & ->)|(_ & _ & ? & ? & ? & _ & _ & _ & _ & ->)]].
  - apply go_on_same. by apply transition_cases in E as (? & ? & ? & _ & _ & ->).
  - apply go_on_same. unfold start_recovery_body in E. destruct (List.find _ _); [by injection E as <- <-|].
    by apply result_bind_Ok in E as (? & _ & (? & _ & [= _ <-])%result_bind_Ok).
  - apply go_on_same. unfold insert_observation in E. destruct (latest _ _ _); [by injection E as <- <-|].
    by apply result_bind_Ok in E as (? & _ & [= _ <-]).
  - apply go_on_same. unfold store_snapshot in E. by apply result_bind_Ok in E as (? & _ & [= _ <-]).
Qed.

(** *** What each part of the invariant asks of a change of its table *)

Lemma Inv_traces s l : Inv serial s -> traces_go_on s (with_traces l s) -> NoDup (map fst l) ->
  (forall id x, In (id, x) l -> trace_ok x) -> Inv serial (with_traces l s).
Proof. intros [? ? Hsp ? ? ? ? ? ? ?] Hgo Hl Hok. split; try done. intros id y Hy. apply (span_ok_go_on s); [done|]. by apply (Hsp id). Qed.

Lemma Inv_spans s l : Inv serial s -> (forall id y, In (id, y) l -> span_ok serial s y) -> Inv serial (with_spans l s).
Proof. intros [] Hl. by split. Qed.

Lemma Inv_incidents s l log : Inv serial s -> NoDup (map fst l) ->
  (forall id i, In (id, i) l -> incident_ok i /\ logged_state id log = Some (in_state i)) -> Inv serial (with_incidents l log s).
Proof. intros [] Hl Hok. by split. Qed.

Lemma Inv_recoveries s l : Inv serial s -> NoDup (map fst l) -> NoDup (map (fun kr => rc_idempotency_key (snd kr)) l) ->
  Inv serial (with_recoveries l s).
Proof. intros [] ? ?. by split. Qed.

Lemma Inv_observations s l taken : Inv serial s -> NoDup (map fst l) -> (forall id o, In (id, o) l -> observation_ok o) ->
  (forall id o id' o', In (id, o) l -> In (id', o') l -> ob_name o = ob_name o' -> ob_state o = "active" ->
     ob_state o' = "active" -> id = id') -> Inv serial (with_observations l taken s).
Proof. intros [] ? ? ?. by split. Qed.

Lemma active_unresolved i : incident_ok i -> active_incident i = true -> in_resolved_at i = None.
Proof.
  intros (_ & _ & Hr & _) Ha. destruct (in_resolved_at i) as [t|] eqn:E; [|done]. exfalso.
  assert (in_state i = "resolved") as Hs by (apply Hr; by eexists). unfold active_incident in Ha. by rewrite Hs in Ha.
Qed.

Lemma seen_again_ok a words now i : In (ia_severity a) INCIDENT_SEVERITIES -> incident_ok i -> active_incident i = true ->
  incident_ok (seen_again a words now i).
Proof.
  intros Hsev Hok Ha. pose proof (active_unresolved i Hok Ha) as Hn. destruct Hok as (Hs & _ & Hr & Hc).
  split_and!; cbn; [done|done|exact Hr|lia].
Qed.

Lemma first_seen_ok a rule words now : In (ia_severity a) INCIDENT_SEVERITIES -> incident_ok (first_seen a rule words now).
Proof. intros Hsev. split_and!; cbn; [by left|done|split; [by intros [? ?]|done]|lia]. Qed.

Lemma transitioned_ok state now i : In state INCIDENT_STATES -> incident_ok i -> incident_ok (transitioned state now i).
Proof.
  intros Hs (_ & Hsev & _ & Hc). split_and!; cbn; [done|done| |done].
  destruct (String.eqb_spec state "resolved") as [->|Hne]; split; done || (by exists now) || by intros [? ?].
Qed.

Lemma detected_Inv s a d r s' : In (ia_severity a) INCIDENT_SEVERITIES -> upsert_body a d s = Ok (r, s') -> Inv serial s -> Inv serial s'.
Proof.
  intros Hsev E Hs. pose proof (inv_incidents s Hs) as Hall. pose proof (inv_incident_keys s Hs) as Hkeys.
  apply upsert_cases in E as [[-> _]|[(_ & id & i & words & Hin & Ho & -> & ->)|(_ & _ & rule & words & e & _ & -> & Hk & -> & ->)]].
  - done.
  - apply Inv_incidents; [done|by rewrite update_by_key_fst|]. intros k j (j0 & Hj & ->)%update_by_key_In.
    destruct (Hall k j0 Hj) as [Hok Hlog]. destruct (String.eqb_spec k id) as [->|_]; [|done].
    split; [|exact Hlog]. assert (j0 = i) as ->.
    { apply (row_In _ _ _ Hkeys) in Hj, Hin. congruence. }
    apply andb_true_iff in Ho as [_ Ho]. by apply seen_again_ok.
  - apply Inv_incidents; [done|by apply snoc_keys|]. intros k j [Hj|[[= <- <-]|[]]]%in_app_or.
    + rewrite logged_state_snoc. cbn. destruct (String.eqb_spec (id_incident_id d) k) as [<-|_]; [|by apply Hall].
      destruct Hk. apply list_elem_of_In. by apply (in_map fst _ (id_incident_id d, j)).
    + split; [by apply first_seen_ok|]. rewrite logged_state_snoc. cbn. by rewrite String.eqb_refl.
Qed.

Lemma transition_Inv s id state actor reason now e r s' : In state INCIDENT_STATES ->
  transition_body id state actor reason now e s = Ok (r, s') -> Inv serial s -> Inv serial s'.
Proof.
  intros Hst (i & who & why & Hi & -> & ->)%transition_cases Hs.
  apply Inv_incidents; [done|rewrite update_by_key_fst; apply (inv_incident_keys s Hs)|].
  intros k j (j0 & Hj & ->)%update_by_key_In. destruct (inv_incidents s Hs k j0 Hj) as [Hok Hlog].
  rewrite logged_state_snoc. cbn. rewrite (String.eqb_sym id k). destruct (String.eqb k id); [|done].
  split; [by apply transitioned_ok|done].
Qed.

Lemma start_recovery_cases a now id s r s' : start_recovery_body a now id s = Ok (r, s') ->
  (s' = s /\ snd r = true /\ In (fst r) (recoveries s) /\ rc_idempotency_key (snd (fst r)) = va_idempotency_key a) \/
  (snd r = false /\ (forall kr, In kr (recoveries s) -> rc_idempotency_key (snd kr) <> va_idempotency_key a) /\
   exists row, new_recovery a now = Ok row /\ fst r = (id, row) /\ (id ∉ map fst (recoveries s)) /\
     (forall kr, In kr (recoveries s) -> rc_idempotency_key (snd kr) <> rc_idempotency_key row) /\
     s' = with_recoveries (recoveries s ++ [(id, row)]) s).
Proof.
  unfold start_recovery_body. destruct (List.find _ _) as [kr|] eqn:E.
  - intros [= <- <-]. left. apply find_some in E as [Hin He%String.eqb_eq]. by split_and!.
  - intros (row & Hrow & (l & (Hk & Hc & ->)%append_row_Ok & [= <- <-])%result_bind_Ok)%result_bind_Ok. right.
    split_and!; [done| |].
    + intros kr Hin. apply (find_none _ _ E) in Hin. by apply String.eqb_neq in Hin.
    + exists row. split_and!; [done|done|done| |done]. intros kr Hin. apply Hc in Hin. by apply String.eqb_neq in Hin.
Qed.

Lemma recovery_Inv s a now id r s' : start_recovery_body a now id s = Ok (r, s') -> Inv serial s -> Inv serial s'.
Proof.
  intros [(-> & _)|(_ & _ & row & _ & _ & Hk & Hno & ->)]%start_recovery_cases Hs; [done|].
  apply Inv_recoveries; [done|apply snoc_keys; [done|apply (inv_recovery_keys s Hs)]|].
  rewrite map_app. apply NoDup_app. split; [apply (inv_recoveries s Hs)|]. split; [|repeat constructor; set_solver].
  intros k (kr & Heq & Hin)%list_elem_of_In%in_map_iff [->|[]%elem_of_nil]%elem_of_cons. by apply (Hno kr Hin).
Qed.

Lemma observation_Inv s name actor duration policy now b id r s' :
  insert_observation name actor duration policy now b id s = Ok (r, s') -> Inv serial s -> Inv serial s'.
Proof.
  unfold insert_observation. destruct (latest _ _ _) as [o|] eqn:E; [by intros [= <- <-]|].
  intros (l & (Hk & Hc & ->)%append_row_Ok & [= <- <-])%result_bind_Ok Hs.
  pose proof (inv_observation_keys s Hs) as Hkeys. assert (forall id o, In (id, o) (observations s) -> ob_name o = name -> ob_state o <> "active") as Hno.
  { intros k o Ho Hn Ha. specialize (Hc (k, o) Ho). cbn in Hc. unfold observing in Hc. rewrite Hn, Ha, !String.eqb_refl in Hc. done. }
  apply Inv_observations; [done|by apply snoc_keys| |].
  - intros k o [Ho|[[= <- <-]|[]]]%in_app_or; [by apply (inv_observations s Hs k)|by left].
  - intros k o k' o' [Ho|[[= <- <-]|[]]]%in_app_or [Ho'|[[= <- <-]|[]]]%in_app_or Hn Ha Ha'; try done.
    + by apply (inv_one_observing s Hs k o k' o').
    + by destruct (Hno k o Ho Hn).
    + by destruct (Hno k' o' Ho' (eq_sym Hn)).
Qed.

Lemma snapshot_In k id n complete now kr l : In kr (update_row id is_active (with_snapshot k n complete now) l) ->
  exists o, In (fst kr, o) l /\ (snd kr = o \/ (is_active o = true /\ snd kr = with_snapshot k n complete now o)).
Proof.
  unfold update_row. intros ([k0 o] & He & Hin)%in_map_iff. cbn in He. exists o.
  destruct (String.eqb k0 id && is_active o) eqn:E; rewrite <- He; cbn; split; try done; [|by left].
  right. by apply andb_true_iff in E as [_ ?].
Qed.

Lemma snapshot_Inv s id k n complete now u s' : store_snapshot id k n complete now s = Ok (u, s') -> Inv serial s -> Inv serial s'.
Proof.
  unfold store_snapshot. intros (l & _ & [= _ <-])%result_bind_Ok Hs.
  apply Inv_observations; [done|rewrite update_row_fst; apply (inv_observation_keys s Hs)| |].
  - intros j o Ho. apply snapshot_In in Ho as (o0 & Ho & Hcase). cbn in Ho, Hcase. destruct Hcase as [->|[_ ->]]; [by apply (inv_observations s Hs j)|].
    unfold observation_ok, with_snapshot. cbn. destruct complete; [right; split; [done|by eexists]|by left].
  - intros j o j' o' Ho Ho' Hn Ha Ha'. apply snapshot_In in Ho as (o0 & Ho & Hc), Ho' as (o0' & Ho' & Hc'). cbn in Ho, Ho', Hc, Hc'.
    apply (inv_one_observing s Hs j o0 j' o0'); try done.
    + destruct Hc as [->|[_ ->]], Hc' as [->|[_ ->]]; exact Hn.
    + destruct Hc as [->|[Hact ->]]; [done|]. by apply String.eqb_eq in Hact.
    + destruct Hc' as [->|[Hact ->]]; [done|]. by apply String.eqb_eq in Hact.
Qed.

Lemma change_Inv s s' : change s s' -> Inv serial s -> Inv serial s'.
Proof.
  intros Hc Hs. pose proof (change_go_on s s' Hc) as Hgo.
  destruct Hc as [s id x Hk Hb|s id x x' Hx Hsame Hok Hr|s id y Hy|s id y Hy|s p|s l|s a d r s' Hsev _ E|s id state actor reason now e r s' Hst _ E
    |s a now id r s' E|s id r r' Hrow Hkey|s l|s name actor duration policy now b id r s' E|s id k n complete now u s' E|s l].
  - apply Inv_traces; [done|done|by apply snoc_keys; [|apply (inv_trace_keys s Hs)]|].
    intros j z [Hz|[[= <- <-]|[]]]%in_app_or; [by apply (inv_traces s Hs j)|]. unfold trace_ok. by rewrite Hb.
  - apply Inv_traces; [done|done|rewrite update_by_key_fst; apply (inv_trace_keys s Hs)|].
    intros j z (z0 & Hz & ->)%update_by_key_In. destruct (String.eqb j id); [done|]. by apply (inv_traces s Hs j).
  - apply Inv_spans; [done|]. intros j z [Hz|[[= <- <-]|[]]]%in_app_or; [by apply (inv_spans s Hs j)|done].
  - apply Inv_spans; [done|]. intros j z (z0 & Hz & ->)%update_by_key_In. destruct (String.eqb j id); [done|]. by apply (inv_spans s Hs j).
  - apply Inv_spans; [done|]. intros j z [Hz _]%rows_where_In. by apply (inv_spans s Hs j).
  - by destruct Hs; split.
  - by eapply detected_Inv.
  - by eapply transition_Inv.
  - by eapply recovery_Inv.
  - apply Inv_recoveries; [done|rewrite update_by_key_fst; apply (inv_recovery_keys s Hs)|].
    replace (map (fun kr => rc_idempotency_key (snd kr)) (update_by_key id (fun _ => r') (recoveries s)))
      with (map (fun kr => rc_idempotency_key (snd kr)) (recoveries s)); [apply (inv_recoveries s Hs)|].
    unfold update_by_key, update_row, every_row. rewrite map_map. apply map_ext_in. intros [k r0] Hin. cbn. rewrite andb_true_r.
    destruct (String.eqb_spec k id) as [->|_]; [|done]. cbn. apply (row_In _ _ _ (inv_recovery_keys s Hs)) in Hin. congruence.
  - by destruct Hs; split.
  - by eapply observation_Inv.
  - by eapply snapshot_Inv.
  - destruct Hs. by split.
Qed.

Lemma changes_Inv s s' : rtc change s s' -> Inv serial s -> Inv serial s'.
Proof. induction 1; [done|]. intros Hs. apply IHrtc. by eapply change_Inv. Qed.

Lemma changes_go_on s s' : rtc change s s' -> traces_go_on s s'.
Proof. induction 1; [reflexivity|]. etrans; [by apply change_go_on|done]. Qed.
End Changes.

(** ** What the methods do to traces and spans *)

(** No other call has written between the reads of a call and its writes. *)
Class Draw (A : Type) : Type := in_time : A -> Prop.
#[export] Instance write_drawn {R} : Draw (write_draw R) := fun d => wd_seen d = None.
#[export] Instance span_drawn : Draw span_draw := fun d => in_time (sd_update d).
#[export] Instance finish_drawn : Draw finish_draw := fun d => in_time (fd_finish d) /\ in_time (fd_update d).
#[export] Instance stage_drawn : Draw stage_draw := fun d => in_time (gd_start d) /\ in_time (gd_finish d).
#[export] Instance observe_drawn : Draw observe_draw := fun d => in_time (od_stage d) /\ in_time (od_update d).

Lemma in_time_read {R} (d : write_draw R) row : in_time d -> as_read d row = row.
Proof. unfold as_read. by intros ->. Qed.

Section Effects.
Context `{UnicodeTables}.
Implicit Types (s : ledger) (x : trace_row) (y : span_row).

Lemma update_trace_spec id st b fin (d : write_draw trace_row) s :
  (exists e, update_trace id st b fin d s = (Raise e, s)) \/
  (exists x x', row_by_key id (traces s) = Some x /\
     update_trace id st b fin d s = (Ok (id, x'), with_traces (update_by_key id (fun _ => x') (traces s)) s) /\
     same_trace x x' /\ known_boundary (tr_boundary x') /\ reaches (tr_boundary (as_read d x)) (tr_boundary x') /\
     (forall b', b = Some b' -> reaches b' (tr_boundary x'))).
Proof.
  destruct (update_trace id st b fin d s) as [[r|e] s'] eqn:E.
  2:{ left. exists e. unfold update_trace, atomic in E. apply transaction_Raise in E as [_ ->]. done. }
  right. unfold update_trace, atomic in E. apply transaction_Ok in E.
  apply result_bind_Ok in E as (u & Hst & (v & Hb & ([k x] & [Hk Hx]%row_with_Ok & Hrest)%result_bind_Ok)%result_bind_Ok).
  cbn in Hk, Hx. subst k. apply result_bind_Ok in Hrest as (c & Hc & Hend). injection Hend as <- <-.
  pose proof (max_boundary_reaches _ _ _ Hc) as (Hk & Hl & Hr).
  eexists x, _. split_and!; [done|done|done|exact Hk|exact Hl|].
  intros b' ->. cbn in Hb. apply validate_boundary_Ok in Hb. cbn [or_default] in Hr. destruct (truthy b') eqn:Et; [done|].
  apply truthy_false in Et. by subst b'.
Qed.

(** With a known boundary, the trace of a span is updated. *)
Lemma update_trace_run id x b (d : write_draw trace_row) s : in_time d -> row_by_key id (traces s) = Some x ->
  known_boundary (tr_boundary x) -> known_boundary b ->
  exists x', update_trace id None (Some b) (Some false) d s
      = (Ok (id, x'), with_traces (update_by_key id (fun _ => x') (traces s)) s) /\
    same_trace x x' /\ known_boundary (tr_boundary x') /\ reaches (tr_boundary x) (tr_boundary x') /\ reaches b (tr_boundary x').
Proof.
  intros Ht Hx Hk Hb. unfold update_trace, atomic. set (c := if (boundary_index (tr_boundary x) <? boundary_index b)%nat then b else tr_boundary x).
  assert (Hd : or_default (Some b) (tr_boundary x) = b).
  { cbn. destruct (truthy b) eqn:E; [done|]. apply truthy_false in E. by subst b. }
  assert (_max_boundary (tr_boundary x) b = Ok c) as Hc by by apply max_boundary_Ok.
  exists (moved_trace (tr_status x) c (wd_now d) (finished_trace_at None (Some false) (wd_now d) x) x).
  pose proof (max_boundary_reaches _ _ _ Hc) as (Hkc & Hl & Hr). split_and!; try done.
  apply transaction_Ok. apply result_bind_Ok. exists tt. split; [done|]. apply result_bind_Ok. exists tt.
  split; [by apply validate_boundary_Ok|]. apply result_bind_Ok. exists (id, x). split; [by apply row_with_Ok|].
  rewrite (in_time_read _ _ Ht). apply result_bind_Ok. exists c. by rewrite Hd.
Qed.

Lemma insert_span_cases a x now id s r s' : insert_span a x now id s = Ok (r, s') ->
  exists y, r = (id, y) /\ s' = with_spans (spans s ++ [(id, y)]) s /\ sp_trace_id y = sa_trace_id a /\
    sp_user_subject y = tr_user_subject x /\ sp_task_id y = tr_task_id x /\ sp_boundary y = sa_boundary a /\
    redacted_members (sp_metadata y) = true.
Proof.
  unfold insert_span. intros (y & Hy & (l & (_ & _ & ->)%append_row_Ok & [= <- <-])%result_bind_Ok)%result_bind_Ok.
  apply result_bind_Ok in Hy as (stage & _ & [= <-]). eexists. split_and!; try done. apply canonical_members, safe_members.
Qed.

Lemma finish_span_cases id a d s r s' : finish_span_body id a d s = Ok (r, s') ->
  exists y y', row_by_key id (spans s) = Some y /\ r = (id, y') /\ s' = with_spans (update_by_key id (fun _ => y') (spans s)) s /\
    sp_trace_id y' = sp_trace_id y /\ sp_user_subject y' = sp_user_subject y /\ sp_task_id y' = sp_task_id y /\
    known_boundary (sp_boundary y') /\
    (in_time d -> redacted_members (sp_metadata y) = true -> redacted_members (sp_metadata y') = true).
Proof.
  unfold finish_span_body. intros ([k y] & [Hk Hy]%row_with_Ok & Hrest)%result_bind_Ok. cbn in Hk, Hy. subst k.
  apply result_bind_Ok in Hrest as (u & Hb%validate_boundary_Ok & (status & _ & [= <- <-])%result_bind_Ok).
  do 2 eexists. split_and!; try done. intros Ht Hm. cbn [sp_metadata finished_span]. rewrite (in_time_read _ _ Ht).
  apply canonical_members, merged_members; [done|apply safe_members].
Qed.
End Effects.

(** ** Calls *)

Section Calls.
Context `{UnicodeTables} (serial : bool) (D : incident_args -> Prop) (T : string -> Prop) (Q : ledger -> Prop).
Hypothesis Q_kept : forall s s', Inv serial s -> change serial D T s s' -> Q s -> Q s'.
Hypothesis Q_closing : forall s id i, Inv serial s -> Q s -> In (id, i) (incidents s) -> closes_itself i = true -> T id.
Implicit Types (s : ledger).

Definition moves s s' : Prop := Inv serial s -> Q s -> rtc (change serial D T) s s'.

Lemma changes_Q s s' : rtc (change serial D T) s s' -> Inv serial s -> Q s -> Q s'.
Proof. induction 1; [done|]. intros Hs Hq. apply IHrtc; [by eapply change_Inv|by eapply Q_kept]. Qed.

#[local] Instance moves_preorder : PreOrder moves.
Proof.
  split; [by intros s _ _|]. intros s1 s2 s3 H1 H2 Hs Hq. specialize (H1 Hs Hq). etrans; [exact H1|].
  apply H2; [by eapply changes_Inv|by eapply changes_Q].
Qed.

Lemma keeps_atomic {A} (m : tx ledger A) :
  (forall s a s', Inv serial s -> m s = Ok (a, s') -> rtc (change serial D T) s s') -> keeps moves (atomic m).
Proof.
  intros Hm s Hs _. unfold atomic, transaction. destruct (m s) as [[a s']|e] eqn:E; [by eapply Hm|done].
Qed.

Lemma ensure_moves release a now id : keeps moves (ensure_trace release a now id).
Proof.
  apply keeps_atomic. intros s r s' Hs (user & _ & E)%result_bind_Ok.
  destruct (continued_trace _ _ _ s) as [[k x]|] eqn:Ec.
  - apply result_bind_Ok in E as (host & _ & [= <- <-]). apply rtc_once.
    assert (Hx : row_by_key k (traces s) = Some x).
    { apply row_In; [apply (inv_trace_keys s Hs)|]. unfold continued_trace in Ec.
      destruct (_bounded_text _ (ta_task_id a)); [by apply latest_Some in Ec as [? _]|].
      destruct (_bounded_text _ (ta_request_id a)); [by apply latest_Some in Ec as [? _]|done]. }
    replace (update_by_key k (touched_trace a host now) (traces s))
      with (update_by_key k (fun _ => touched_trace a host now x) (traces s)).
    + apply (change_trace _ _ _ _ _ x); [done|unfold same_trace; by split_and!| |unfold reaches; cbn; lia].
      assert (Hok : trace_ok x) by (apply (inv_traces s Hs k); by apply assoc_In). exact Hok.
    + unfold update_by_key, update_row, every_row. apply map_ext_in. intros [j z] Hin. cbn. rewrite andb_true_r.
      destruct (String.eqb_spec j k) as [->|_]; [|done]. apply (row_In _ _ _ (inv_trace_keys s Hs)) in Hin. congruence.
  - apply result_bind_Ok in E as (host & _ & (kind & _ & (l & (Hk & _ & ->)%append_row_Ok & [= <- <-])%result_bind_Ok)%result_bind_Ok).
    apply rtc_once. by apply change_trace_new.
Qed.

Lemma update_moves id st b fin (d : write_draw trace_row) : (serial = true -> in_time d) -> keeps moves (update_trace id st b fin d).
Proof.
  intros Ht s Hs _. destruct (update_trace_spec id st b fin d s) as [[e ->]|(x & x' & Hx & -> & Hsame & Hk & Hr & _)]; [done|].
  apply rtc_once. apply (change_trace _ _ _ _ _ x); try done. intros Hc. by rewrite (in_time_read _ _ (Ht Hc)) in Hr.
Qed.

(** The trace moves first, then the span comes under it; where it does not matter, the other way round. *)
Lemma trace_then_span s id x b (d : write_draw trace_row) (y : string * span_row)
    (f : list (string * span_row) -> list (string * span_row)) :
  (serial = true -> in_time d) -> Inv serial s -> row_by_key id (traces s) = Some x -> known_boundary b ->
  sp_trace_id (snd y) = id -> sp_user_subject (snd y) = tr_user_subject x -> sp_task_id (snd y) = tr_task_id x ->
  sp_boundary (snd y) = b -> (serial = true -> redacted_members (sp_metadata (snd y)) = true) ->
  (forall s1, span_ok serial s1 (snd y) -> change serial D T s1 (with_spans (f (spans s1)) s1)) ->
  rtc (change serial D T) s (snd (update_trace id None (Some b) (Some false) d (with_spans (f (spans s)) s))).
Proof.
  intros Htime Hs Hx Hb Ht Hu Hta Hyb Hm Hf. assert (Hok : trace_ok x) by (apply (inv_traces s Hs id); by apply assoc_In).
  destruct (Bool.bool_dec serial true) as [Hser|Hser].
  - destruct (update_trace_run id x b d (with_spans (f (spans s)) s) (Htime Hser) Hx Hok Hb) as (x' & -> & Hsame & Hk & Hr & Hrb).
    apply (rtc_l _ _ (with_traces (update_by_key id (fun _ => x') (traces s)) s)); [by apply (change_trace _ _ _ _ _ x)|].
    apply rtc_once. refine (Hf (with_traces (update_by_key id (fun _ => x') (traces s)) s) _). split; [done|]. exists x'. cbn.
    rewrite Ht, update_by_key_row, String.eqb_refl, Hx. destruct Hsame as (_ & Hu' & Ht' & _).
    split_and!; [done|congruence|congruence|congruence|by rewrite Hyb].
  - assert (span_ok serial s (snd y)) as Hy.
    { split; [done|]. exists x. split_and!; [by rewrite Ht|done|done|by rewrite Hyb|done]. }
    apply (rtc_l _ _ (with_spans (f (spans s)) s)); [by apply Hf|].
    destruct (update_trace_spec id None (Some b) (Some false) d (with_spans (f (spans s)) s))
      as [[e ->]|(z & z' & Hz & -> & Hsame & Hk & _ & _)]; [done|]. apply rtc_once. by apply (change_trace _ _ _ _ _ z).
Qed.

Lemma proc_bind_snd {A B} (m : proc ledger A) (b : B) s : snd ((_ ← m; mret b) s) = snd (m s).
Proof. rewrite proc_bind_eq. by destruct (m s) as [[?|?] ?]. Qed.

Lemma start_span_moves a (d : span_draw) : (serial = true -> in_time d) -> keeps moves (start_span a d).
Proof.
  intros Htime s Hs _. unfold start_span. rewrite proc_bind_eq. unfold of_result.
  destruct (_validate_boundary (sa_boundary a)) as [u|e] eqn:Hb; [|done]. apply validate_boundary_Ok in Hb.
  rewrite proc_bind_eq. unfold now_trace. destruct (get_trace (sa_trace_id a) s) as [[k x]|e] eqn:Hx; [|done].
  apply row_with_Ok in Hx as [Hk Hx]. cbn in Hk, Hx. subst k. rewrite proc_bind_eq. unfold atomic, transaction.
  destruct (insert_span _ _ _ _ s) as [[r s1]|e] eqn:E; [|done].
  apply insert_span_cases in E as (y & -> & -> & Ht & Hu & Hta & Hyb & Hm). rewrite proc_bind_snd. rewrite <- Ht at 1.
  apply (trace_then_span s (sp_trace_id y) x (sa_boundary a) _ (sd_span_id d, y) (fun l => l ++ [(sd_span_id d, y)])); try done.
  - by rewrite Ht.
  - intros s1 Hok. by apply change_span_new.
Qed.

Lemma finish_span_moves id a (d : finish_draw) : (serial = true -> in_time d) -> keeps moves (finish_span id a d).
Proof.
  intros Htime s Hs _. unfold finish_span. rewrite proc_bind_eq. unfold atomic, transaction.
  destruct (finish_span_body _ _ _ s) as [[r s1]|e] eqn:E; [|done].
  apply finish_span_cases in E as (y & y' & Hy & -> & -> & Ht & Hu & Hta & Hk & Hmeta). rewrite proc_bind_snd.
  destruct (inv_spans s Hs id y) as (Hm & x & Hx & Hxu & Hxt & _ & _); [by apply assoc_In|].
  apply (trace_then_span s (sp_trace_id y') x (sp_boundary y') _ (id, y') (update_by_key id (fun _ => y'))); cbn; try done; try congruence.
  - intros Hc. by apply Htime.
  - intros Hc. apply Hmeta; [by apply Htime|by apply Hm].
  - intros s1 Hok. by apply change_span.
Qed.
Lemma signal_moves a now id : keeps moves (record_signal a now id).
Proof.
  apply keeps_atomic. intros s r s' _ (? & _ & (? & _ & (? & _ & (l & _ & [= _ <-])%result_bind_Ok)%result_bind_Ok)%result_bind_Ok)%result_bind_Ok.
  apply rtc_once, change_signals.
Qed.

Lemma upsert_moves a d : D a -> keeps moves (upsert_incident a d).
Proof.
  intros Ha s Hs Hq. unfold upsert_incident. rewrite proc_bind_eq. unfold of_result.
  destruct (str_in (ia_severity a) INCIDENT_SEVERITIES) eqn:Hsev; [|done]. apply str_in_spec in Hsev. cbn [negb raise_if].
  apply (keeps_atomic (upsert_body a d)); [|done|done]. intros s1 r s2 _ E. apply rtc_once. by apply (change_detected serial D T s1 a d r).
Qed.

Lemma transition_moves id state actor reason now e : T id -> keeps moves (transition_incident id state actor reason now e).
Proof.
  intros Ht s Hs Hq. unfold transition_incident. rewrite proc_bind_eq. unfold of_result.
  destruct (str_in state INCIDENT_STATES) eqn:Hst; [|done]. apply str_in_spec in Hst. cbn [negb raise_if].
  apply (keeps_atomic (transition_body id state actor reason now e)); [|done|done]. intros s1 r s2 _ E. apply rtc_once.
  by apply (change_transition serial D T s1 id state actor reason now e r).
Qed.

Lemma stage_moves a (d : stage_draw) : (serial = true -> in_time d) -> keeps moves (record_stage_once a d).
Proof.
  intros Htime.
  unfold record_stage_once. apply (keeps_bind moves); [apply (keeps_reading moves)|]. intros [y|]; [apply (keeps_ret moves)|].
  apply (keeps_bind moves); [apply start_span_moves; intros Hc; by apply Htime|].
  intros y. apply finish_span_moves. intros Hc. by apply Htime.
Qed.

Lemma span_moves {A} a (body : span -> proc ledger A) elapsed (d : span_draw) (d' : finish_draw) :
  (serial = true -> in_time d /\ in_time d') -> (forall y, keeps moves (body y)) ->
  keeps moves (in_span a body elapsed d d').
Proof.
  intros Htime Hbody. unfold in_span. apply (keeps_bind moves); [apply start_span_moves; intros Hc; by apply Htime|]. intros y s. specialize (Hbody y s).
  destruct (body y s) as [[r|e] s1]; (etrans; [exact Hbody|]); apply (keeps_bind moves);
    [|intros ?; apply (keeps_ret moves)| |intros ?; apply (keeps_throw moves)]; apply finish_span_moves; intros Hc; by apply Htime.
Qed.

Lemma observe_operation_moves id op effect commit (d : observe_draw) : (serial = true -> in_time d) ->
  D (observed_unknown id op (operation_boundary effect commit (Operations.status_text (Operations.v_status op)))) ->
  keeps moves (observe_operation id op effect commit d).
Proof.
  intros Htime Hd. unfold observe_operation. apply (keeps_bind moves); [apply stage_moves; intros Hc; by apply Htime|]. intros y.
  apply (keeps_bind moves); [apply update_moves; intros Hc; by apply Htime|]. intros _. apply (keeps_bind moves); [|intros _; apply (keeps_ret moves)].
  destruct (String.eqb _ _); [|apply (keeps_ret moves)]. apply (keeps_bind moves); [by apply upsert_moves|]. intros _. apply (keeps_ret moves).
Qed.

Lemma observe_interaction_moves id interaction kind state system (d : stage_draw) (u : write_draw trace_row) :
  (serial = true -> in_time d /\ in_time u) -> keeps moves (observe_interaction id interaction kind state system d u).
Proof.
  intros Htime. unfold observe_interaction. apply (keeps_bind moves); [apply stage_moves; intros Hc; by apply Htime|]. intros y. apply (keeps_bind moves); [|intros _; apply (keeps_ret moves)].
  destruct (closed_interaction state); [apply (keeps_ret moves)|]. apply (keeps_bind moves); [apply update_moves; intros Hc; by apply Htime|]. intros _. apply (keeps_ret moves).
Qed.

Lemma detect_each_moves draw l observed : List.Forall D l -> keeps moves (detect_each draw l observed).
Proof.
  intros Hl. revert observed. induction Hl as [|a l Ha Hl IH]; intros observed; [apply (keeps_ret moves)|].
  apply (keeps_bind moves); [by apply upsert_moves|]. intros x. apply IH.
Qed.

Lemma resolve_each_moves draw observed l n : (forall x, In x l -> T (fst x)) -> keeps moves (resolve_each draw observed l n).
Proof.
  revert n. induction l as [|x l IH]; intros n Hl; [apply (keeps_ret moves)|]. cbn [resolve_each].
  destruct (str_in _ observed); [apply IH; intros ? ?; apply Hl; by right|].
  apply (keeps_bind moves); [apply transition_moves, Hl; by left|]. intros _. apply IH. intros ? ?. apply Hl. by right.
Qed.

Lemma evaluate_moves iso l counts w d s : List.Forall D (detections iso l (ed_now d) w counts s) ->
  moves s (snd (evaluate_incidents iso l counts w d s)).
Proof.
  intros Hd Hs Hq. unfold evaluate_incidents. rewrite proc_bind_eq. unfold reading at 1. rewrite proc_bind_eq.
  pose proof (detect_each_moves (ed_detection d) _ [] Hd s Hs Hq) as H1.
  destruct (detect_each _ _ _ s) as [[observed|e] s1]; [|done]. cbn [snd] in H1. etrans; [exact H1|].
  assert (Hs1 : Inv serial s1) by by eapply changes_Inv. assert (Hq1 : Q s1) by by eapply changes_Q.
  rewrite proc_bind_eq. unfold reading at 1. apply (keeps_bind moves); [|intros n; apply (keeps_bind moves); [apply (keeps_reading moves)|intros ?; apply (keeps_ret moves)]|done|done].
  apply resolve_each_moves. intros [id i] [Hin Hc]%rows_where_In. by apply (Q_closing s1 id i).
Qed.

Lemma start_recovery_moves a now id : keeps moves (start_recovery_action a now id).
Proof.
  unfold start_recovery_action. apply (keeps_bind moves); [apply (keeps_of_result moves)|]. intros _. apply keeps_atomic. intros s r s' _ E.
  apply rtc_once. by apply (change_recovery_new serial D T s a now id r).
Qed.

Lemma finish_recovery_moves id status after error now : keeps moves (finish_recovery_action id status after error now).
Proof.
  apply keeps_atomic. intros s r s' _ (state & _ & ([k r0] & [Hk Hr]%row_with_Ok & [= _ <-])%result_bind_Ok)%result_bind_Ok.
  cbn in Hk, Hr. subst k. apply rtc_once. by apply (change_recovery_end serial D T s id r0).
Qed.

Lemma refresh_moves operations hours d : keeps moves (refresh_slo_rollups operations hours d).
Proof.
  unfold refresh_slo_rollups. apply (keeps_bind moves); [apply (keeps_reading moves)|]. intros ms. apply (keeps_bind moves); [|intros _; apply (keeps_ret moves)].
  apply keeps_atomic. intros s u s' _ (l & _ & [= _ <-])%result_bind_Ok. apply rtc_once, change_rollups.
Qed.

Lemma start_observation_moves operations a now d id : keeps moves (start_observation operations a now d id).
Proof.
  unfold start_observation, take_baseline. apply (keeps_bind moves); [apply (keeps_of_result moves)|]. intros name.
  apply (keeps_bind moves); [apply (keeps_of_result moves)|]. intros actor. apply (keeps_bind moves).
  - apply (keeps_bind moves); [apply (keeps_reading moves)|]. intros before. apply (keeps_bind moves); [apply refresh_moves|]. intros slo.
    apply (keeps_bind moves); [apply (keeps_reading moves)|]. intros counts. apply (keeps_ret moves).
  - intros b. apply keeps_atomic. intros s r s' _ E. apply rtc_once. by eapply change_observation_new.
Qed.

Lemma capture_each_moves operations slo force interval now draw l :
  keeps moves (capture_each operations slo force interval now draw l).
Proof.
  induction l as [|[k o] l IH]; [apply (keeps_ret moves)|]. cbn [capture_each]. destruct (due_snapshot _ _ _ _); [|exact IH].
  destruct (draw k) as [d id]. apply (keeps_bind moves); [apply (keeps_reading moves)|]. intros sums.
  apply (keeps_bind moves); [destruct slo; [apply (keeps_ret moves)|apply refresh_moves]|]. intros report.
  apply (keeps_bind moves); [apply (keeps_reading moves)|]. intros counts. apply (keeps_bind moves).
  - apply keeps_atomic. intros s u s' _ E. apply rtc_once. by eapply change_snapshot.
  - intros _. apply (keeps_bind moves); [exact IH|]. intros [captured completed]. apply (keeps_ret moves).
Qed.

Lemma capture_moves operations slo minutes force now draw :
  keeps moves (capture_observation_snapshots operations slo minutes force now draw).
Proof.
  unfold capture_observation_snapshots. apply (keeps_bind moves); [apply (keeps_reading moves)|]. intros rows. apply capture_each_moves.
Qed.

Lemma prune_moves raw_days rollup_days now now' : keeps moves (prune raw_days rollup_days now now').
Proof.
  apply keeps_atomic. intros s r s' _ [= _ <-]. unfold keep_from.
  set (cut := (now - seconds (86400 * Z.max raw_days 1))%Z). set (old := (now' - seconds (86400 * Z.max rollup_days 1))%Z).
  eapply rtc_l; [apply (change_spans_pruned serial D T s (fun y => negb (sp_started_at y <? cut)%Z))|].
  eapply rtc_l; [apply (change_signals serial D T _ (rows_where (fun g => negb (sg_observed_at g <? cut)%Z) (signals s)))|].
  eapply rtc_l; [apply (change_rollups serial D T _ (rows_where (fun r => negb (ro_window_end r <? old)%Z) (rollups s)))|].
  apply rtc_once. lazymatch goal with |- change _ _ _ ?s1 _ => pose proof (change_snapshots_pruned serial D T s1 (rows_where (fun n => negb (ss_observed_at n <? old)%Z) (snapshots s))) as Hc end.
  exact Hc.
Qed.

(** The calls of the ledger, and what they may detect and transition *)
Inductive call : ledger -> ledger -> Prop :=
  | ensures release a now id s : call s (snd (ensure_trace release a now id s))
  | updates id st b fin (d : write_draw trace_row) s : (serial = true -> in_time d) -> call s (snd (update_trace id st b fin d s))
  | starts a (d : span_draw) s : (serial = true -> in_time d) -> call s (snd (start_span a d s))
  | finishes id a (d : finish_draw) s : (serial = true -> in_time d) -> call s (snd (finish_span id a d s))
  | records_stage a (d : stage_draw) s : (serial = true -> in_time d) -> call s (snd (record_stage_once a d s))
  | records_signal a now id s : call s (snd (record_signal a now id s))
  | upserts a d s : D a -> call s (snd (upsert_incident a d s))
  | transitions id state actor reason now e s : T id -> call s (snd (transition_incident id state actor reason now e s))
  | observes id op effect commit (d : observe_draw) s : (serial = true -> in_time d) ->
      D (observed_unknown id op (operation_boundary effect commit (Operations.status_text (Operations.v_status op)))) ->
      call s (snd (observe_operation id op effect commit d s))
  | observes_interaction id interaction kind state system (d : stage_draw) (u : write_draw trace_row) s :
      (serial = true -> in_time d /\ in_time u) -> call s (snd (observe_interaction id interaction kind state system d u s))
  | evaluates iso l counts w d s : List.Forall D (detections iso l (ed_now d) w counts s) ->
      call s (snd (evaluate_incidents iso l counts w d s))
  | starts_recovery a now id s : call s (snd (start_recovery_action a now id s))
  | ends_recovery id status after error now s : call s (snd (finish_recovery_action id status after error now s))
  | refreshes operations hours d s : call s (snd (refresh_slo_rollups operations hours d s))
  | starts_observation operations a now d id s : call s (snd (start_observation operations a now d id s))
  | captures operations slo minutes force now draw s :
      call s (snd (capture_observation_snapshots operations slo minutes force now draw s))
  | prunes raw_days rollup_days now now' s : call s (snd (prune raw_days rollup_days now now' s)).

Lemma call_moves s s' : call s s' -> moves s s'.
Proof.
  destruct 1; [apply ensure_moves|by apply update_moves|by apply start_span_moves|by apply finish_span_moves|by apply stage_moves
    |apply signal_moves|by apply upsert_moves|by apply transition_moves|by apply observe_operation_moves
    |by apply observe_interaction_moves|by apply evaluate_moves|apply start_recovery_moves|apply finish_recovery_moves
    |apply refresh_moves|apply start_observation_moves|apply capture_moves|apply prune_moves].
Qed.

Lemma calls_move s s' : rtc call s s' -> moves s s'.
Proof. induction 1 as [s|s s1 s2 Hc _ IH]; [reflexivity|]. etrans; [by apply call_moves|done]. Qed.
End Calls.

(** ** Any calls *)

Section Any.
Context `{UnicodeTables}.
Implicit Types (s : ledger).

Definition any_incident (_ : incident_args) : Prop := True.
Definition any_id (_ : string) : Prop := True.
Definition any_state (_ : ledger) : Prop := True.

(** A call, which may have been overtaken by others, and one that has not *)
Definition ledger_call : ledger -> ledger -> Prop := call false any_incident any_id.
Definition serial_call : ledger -> ledger -> Prop := call true any_incident any_id.

Lemma serial_is_call s s' : serial_call s s' -> ledger_call s s'.
Proof.
  destruct 1; [apply ensures|by apply updates|by apply starts|by apply finishes|by apply records_stage|apply records_signal
    |by apply upserts|by apply transitions|by apply observes|by apply observes_interaction|by apply evaluates
    |apply starts_recovery|apply ends_recovery|apply refreshes|apply starts_observation|apply captures|apply prunes].
Qed.

Lemma calls_changes serial s s' : rtc (call serial any_incident any_id) s s' -> Inv serial s ->
  rtc (change serial any_incident any_id) s s'.
Proof. intros Hc Hs. by apply (calls_move serial any_incident any_id any_state). Qed.

Lemma calls_Inv serial s s' : rtc (call serial any_incident any_id) s s' -> Inv serial s -> Inv serial s'.
Proof. intros Hc Hs. by eapply changes_Inv; [apply calls_changes|]. Qed.

Definition reachable_ledger s : Prop := rtc ledger_call empty_ledger s.
Definition serial_ledger s : Prop := rtc serial_call empty_ledger s.

Lemma serial_reachable s : serial_ledger s -> reachable_ledger s.
Proof. apply rtc_subrel. exact serial_is_call. Qed.

Lemma reachable_Inv s : reachable_ledger s -> Inv false s.
Proof. intros Hs. by eapply calls_Inv; [exact Hs|apply empty_Inv]. Qed.

Lemma serial_Inv s : serial_ledger s -> Inv true s.
Proof. intros Hs. by eapply calls_Inv; [exact Hs|apply empty_Inv]. Qed.

Lemma NoDup_fst_recovery s : NoDup (map (fun kr => rc_idempotency_key (snd kr)) (recoveries s)) -> NoDup (map fst (recoveries s)) ->
  forall id id' r r', In (id, r) (recoveries s) -> In (id', r') (recoveries s) -> rc_idempotency_key r = rc_idempotency_key r' -> id = id'.
Proof.
  intros Hn _. induction (recoveries s) as [|[k r0] l IH]; cbn in *; [done|]. apply NoDup_cons in Hn as [Hk Hn].
  intros id id' r r' [[= -> ->]|Hr] [[= -> ->]|Hr'] He; [done| | |by eapply IH].
  - destruct Hk. rewrite He. apply list_elem_of_In. by apply (in_map (fun kr : recovery => rc_idempotency_key (snd kr)) _ (id', r')).
  - destruct Hk. rewrite <- He. apply list_elem_of_In. by apply (in_map (fun kr : recovery => rc_idempotency_key (snd kr)) _ (id, r)).
Qed.

(** What an update writes that has read the row before others wrote it: it goes by the row that it has read. *)
Lemma update_overtaken id st b fin now (x0 : trace_row) s r s' :
  update_trace id st (Some b) fin (WriteDraw now (Some x0)) s = (Ok r, s') ->
  exists x', row_by_key id (traces s') = Some x' /\
    _max_boundary (tr_boundary x0) (or_default (Some b) (tr_boundary x0)) = Ok (tr_boundary x').
Proof.
  unfold update_trace, atomic. intros E%transaction_Ok.
  apply result_bind_Ok in E as (u & _ & (v & _ & ([k x] & [Hk Hx]%row_with_Ok & Hrest)%result_bind_Ok)%result_bind_Ok).
  cbn in Hk, Hx. subst k. apply result_bind_Ok in Hrest as (c & Hc & Hend). injection Hend as _ <-.
  eexists. split; [cbn; by rewrite update_by_key_row, String.eqb_refl, Hx|exact Hc].
Qed.

(** C12. The ledger is coherent.  After any calls on an empty ledger, even when updates of traces and stages go by rows that
    other calls have overtaken, every stage belongs to a trace of the same user and task; the state of an incident is the
    last one of its log, and it has a time of resolution exactly when it is resolved; an idempotency key has one recovery
    action; and a name has one active observation at most.  When no call has been overtaken, no stage exceeds the
    boundary of its trace. *)
Theorem ledger_invariant s : reachable_ledger s ->
  (forall id y, In (id, y) (spans s) -> exists x, row_by_key (sp_trace_id y) (traces s) = Some x /\
     sp_user_subject y = tr_user_subject x /\ sp_task_id y = tr_task_id x /\
     (boundary_index (sp_boundary y) < 6 /\ boundary_index (tr_boundary x) < 6)%nat /\
     (serial_ledger s -> boundary_index (sp_boundary y) <= boundary_index (tr_boundary x))%nat) /\
  (forall id i, In (id, i) (incidents s) -> logged_state id (incident_log s) = Some (in_state i) /\
     (is_Some (in_resolved_at i) <-> in_state i = "resolved")) /\
  (forall id id' r r', In (id, r) (recoveries s) -> In (id', r') (recoveries s) ->
     rc_idempotency_key r = rc_idempotency_key r' -> id = id') /\
  (forall id id' o o', In (id, o) (observations s) -> In (id', o') (observations s) -> ob_name o = ob_name o' ->
     ob_state o = "active" -> ob_state o' = "active" -> id = id').
Proof.
  intros Hs%reachable_Inv. split_and!.
  - intros id y Hy. destruct (inv_spans s Hs id y Hy) as (_ & x & Hx & Hu & Ht & Hk & _). exists x. split_and!; try done.
    + by apply known_below.
    + apply known_below, (inv_traces s Hs (sp_trace_id y)). by apply assoc_In.
    + intros Hser%serial_Inv. destruct (inv_spans s Hser id y Hy) as (_ & x' & Hx' & _ & _ & _ & Hr).
      rewrite Hx in Hx'. injection Hx' as <-. by apply Hr.
  - intros id i Hi. destruct (inv_incidents s Hs id i Hi) as [(_ & _ & Hr & _) Hlog]. by split.
  - apply NoDup_fst_recovery; [apply (inv_recoveries s Hs)|apply (inv_recovery_keys s Hs)].
  - intros id id' o o' Ho Ho'. by apply (inv_one_observing s Hs id o id' o').
Qed.

(** The trace of a write whose commit was attempted, as soon as it has been observed *)
Lemma observed_commit id op effect d s y s1 : effect <> "read" -> observe_operation id op effect true d s = (Ok y, s1) ->
  exists x, row_by_key id (traces s1) = Some x /\ (4 <= boundary_index (tr_boundary x))%nat.
Proof.
  intros Heff E. unfold observe_operation in E.
  apply proc_bind_Ok in E as (y0 & sa & _ & (r & sb & Hu & (v & sc & Hi & [= _ ->])%proc_bind_Ok)%proc_bind_Ok).
  lazymatch type of Hu with update_trace ?id ?st ?b ?fin ?u ?s = _ => destruct (update_trace_spec id st b fin u s)
    as [[e He]|(x & x' & Hx & He & _ & _ & _ & Hr)] end; rewrite He in Hu; [done|]. injection Hu as <- <-.
  specialize (Hr _ eq_refl). assert (Hb : (4 <= boundary_index (tr_boundary x'))%nat).
  { eapply Nat.le_trans; [|exact Hr]. unfold operation_boundary. destruct (String.eqb_spec effect "read"); [done|].
    destruct (String.eqb _ "succeeded"); vm_compute; lia. }
  assert (Hrow : row_by_key id (traces (with_traces (update_by_key id (fun _ => x') (traces sa)) sa)) = Some x').
  { cbn. by rewrite update_by_key_row, String.eqb_refl, Hx. }
  assert (Hgo : traces s1 = traces (with_traces (update_by_key id (fun _ => x') (traces sa)) sa)).
  { destruct (String.eqb _ "unknown"); [|by injection Hi as _ ->]. apply proc_bind_Ok in Hi as (i & sd & Hi & [= _ ->]).
    unfold upsert_incident in Hi. apply proc_of_result_bind in Hi as (u & _ & Hi). unfold atomic in Hi. apply transaction_Ok in Hi.
    by apply upsert_cases in Hi as [[-> _]|[(_ & ? & ? & ? & _ & _ & _ & ->)|(_ & _ & ? & ? & ? & _ & _ & _ & _ & ->)]]. }
  rewrite Hgo. by exists x'.
Qed.

(** C10. A commit is remembered.  Once a write has been observed whose commit was attempted, the trace says so after any
    further calls that do not overtake one another: its boundary is that of an attempted or verified commit for good, so
    that whoever decides by it whether work may be started again never takes it for untouched. *)
Theorem commit_is_remembered id op effect (d : observe_draw) s y s1 s2 : serial_ledger s -> effect <> "read" -> in_time d ->
  observe_operation id op effect true d s = (Ok y, s1) -> rtc serial_call s1 s2 ->
  exists x, row_by_key id (traces s2) = Some x /\ In (tr_boundary x) ["B4_COMMIT_ATTEMPTED"; "B5_VERIFIED"].
Proof.
  intros Hs0 Heff Htime E Hcalls.
  assert (Hs1 : serial_ledger s1).
  { eapply rtc_r; [exact Hs0|]. rewrite <- (f_equal snd E : snd (observe_operation id op effect true d s) = s1). by apply observes. }
  destruct (observed_commit id op effect d s y s1 Heff E) as (x & Hx & Hb). apply serial_Inv in Hs1.
  assert (Hgo : traces_go_on true s1 s2) by (eapply changes_go_on, calls_changes; [exact Hcalls|exact Hs1]).
  assert (Hs2 : Inv true s2) by (eapply calls_Inv; [exact Hcalls|exact Hs1]).
  apply Hgo in Hx as (x2 & Hx2 & _ & Hr). exists x2. split; [done|]. specialize (Hr eq_refl).
  apply committed_boundary; [apply (inv_traces s2 Hs2 id); by apply assoc_In|]. unfold reaches in Hr. lia.
Qed.
End Any.
