(* ===== verification/RuntimeEvaluationFacts.v ===== *)
(** * Detection, redaction and recovery in the runtime ledger

    What a detection run finds and closes, that a settled unknown outcome is not opened again, what metadata keep of what
    they are given, and how recovery actions are told apart. *)

From S2P Require Import Prelude PyStr Json JsonFacts Store Procedures TaskTables RuntimeGovernance RuntimeReports RuntimeGovernanceFacts.
From S2P Require Operations.

#[local] Open Scope list_scope.

(** ** Settled outcomes *)

Section Settled.
Context `{UnicodeTables}.
Implicit Types (s : ledger) (i : incident_row).

(** What the detection would file under the operation, it detects as an unknown outcome of the operation.  All that the
    service detects does so, when identifiers of operations are short and without blanks around them. *)
Definition plain (o : string) (a : incident_args) : Prop := forall rule words now,
  required_text 120 (Some (ia_rule_id a)) = Ok rule -> unknown_of o (first_seen a rule words now) = true -> unknown_write a = Some o.

Definition own_text (o k : string) : Prop := _bounded_text 256 (Some k) = Some o -> k = o.

Lemma plain_unknown_outcome o symptom trace user k evidence : own_text o k -> truthy k = true ->
  plain o (unknown_outcome symptom trace user (Some k) evidence).
Proof.
  intros Hk Ht rule words now _ Hu. unfold unknown_write. cbn. rewrite Ht. cbn. f_equal. apply Hk.
  unfold unknown_of in Hu. cbn [in_object_id first_seen unknown_outcome ia_object_id] in Hu. bool_simpl.
  destruct (_bounded_text 256 (Some k)) as [t|]; [|done]. cbn in *. bool_simpl. by subst.
Qed.

Lemma plain_other o a : ia_rule_id a <> "write_outcome_unknown" -> py_strip (ia_rule_id a) = ia_rule_id a ->
  (py_len (ia_rule_id a) <= 120)%Z -> plain o a.
Proof.
  intros Hr Hs Hl rule words now Hrule Hu. exfalso. unfold required_text, _bounded_text in Hrule. rewrite Hs in Hrule.
  destruct (truthy (ia_rule_id a)); [|done]. injection Hrule as <-. unfold unknown_of in Hu. cbn in Hu. bool_simpl.
  apply Hr. rewrite <- (join_chars_chars (ia_rule_id a)), <- H0. unfold py_take.
  rewrite firstn_all2; [by rewrite join_chars_chars|]. unfold py_len in Hl. lia.
Qed.

(** What a run of the detection finds among operations with such identifiers *)
Lemma detections_plain o iso l now w counts s :
  (forall t k r, su_operations w = Some t -> t !! k = Some r -> own_text o k /\ truthy k = true) ->
  List.Forall (plain o) (detections iso l now w counts s).
Proof.
  intros Hw. apply List.Forall_forall. intros a Ha. unfold detections in Ha.
  assert (forall p kr, In kr (grouped p (su_operations w)) -> own_text o (fst kr) /\ truthy (fst kr) = true) as Hg.
  { intros p [k r] Hin. unfold grouped in Hin. destruct (su_operations w) as [t|] eqn:E; [|done].
    apply (Permutation_in _ (sort_by_perm by_key (select_where p t))), select_where_In in Hin as [Hk _]. by apply (Hw t k r). }
  apply in_app_or in Ha as [Ha|Ha]; [|apply in_app_or in Ha as [Ha|Ha]; [|apply in_app_or in Ha as [Ha|Ha]; [|apply in_app_or in Ha as [Ha|Ha]]]].
  - apply in_map_iff in Ha as (kr & <- & Hin). apply Hg in Hin as [Hk Ht]. by apply plain_unknown_outcome.
  - apply in_map_iff in Ha as (kr & <- & Hin). by apply plain_other.
  - unfold stalled_tasks in Ha. destruct (su_hub w); [|done]. apply in_map_iff in Ha as (kr & <- & Hin). by apply plain_other.
  - unfold stalled_deliveries in Ha. destruct (su_hub w); [|done]. apply in_map_iff in Ha as (kr & <- & Hin). by apply plain_other.
  - apply in_map_iff in Ha as (kr & <- & Hin). by apply plain_other.
Qed.

Lemma rows_where_update (p : incident_row -> bool) k f (l : list incident) : (forall i, p (f i) = p i) ->
  map fst (rows_where p (update_by_key k f l)) = map fst (rows_where p l).
Proof.
  intros Hp. unfold rows_where, update_by_key, update_row, every_row. induction l as [|[k' i] l IH]; cbn; [done|].
  rewrite andb_true_r. destruct (String.eqb k' k); cbn; rewrite ?Hp; destruct (p i); cbn; by rewrite IH.
Qed.

(** The settled incident is there, and the incidents of the operation are those of [ids]. *)
Definition settled_here (o id : string) i (ids : list string) s : Prop :=
  row_by_key id (incidents s) = Some i /\ settled_unknown o i = true /\
  map fst (rows_where (unknown_of o) (incidents s)) = ids.

Lemma settled_not_active o i : settled_unknown o i = true -> active_incident i = false.
Proof.
  unfold settled_unknown, active_incident. intros [_ Hs]%andb_true_iff. apply str_in_spec in Hs.
  by destruct Hs as [<-|[<-|[]]].
Qed.

Lemma settled_kept o id i ids s s' : Inv false s -> change false (plain o) (fun k => k <> id) s s' ->
  settled_here o id i ids s -> settled_here o id i ids s'.
Proof.
  intros Hs Hc (Hrow & Hset & Hids). pose proof (inv_incident_keys s Hs) as Hkeys.
  destruct Hc as [s k x Hk Hb|s k x x' Hx Hsame Hok Hr|s k y Hy|s k y Hy|s p|s l|s a d r s' Hsev Ha E|s k state actor reason now e r s' Hst Hk E
    |s a now k r s' E|s k r r' Hr Hkey|s l|s name actor duration policy now b k r s' E|s k k' n complete now u s' E|s l]; try done.
  - apply upsert_cases in E as [[-> _]|[(_ & k & j & words & Hin & Ho & -> & ->)|(Hno & _ & rule & words & e & Hrule & -> & Hk & -> & ->)]]; [done| |].
    + apply andb_true_iff in Ho as [_ Ho]. split_and!; cbn.
      * rewrite update_by_key_row. destruct (String.eqb_spec id k) as [<-|_]; [|done].
        apply (row_In _ _ _ Hkeys) in Hin. rewrite Hrow in Hin. injection Hin as <-.
        by rewrite (settled_not_active o i Hset) in Ho.
      * done.
      * rewrite <- Hids. by apply rows_where_update.
    + split_and!; cbn [incidents with_incidents]; [etrans; [apply row_by_key_snoc|by rewrite Hrow]|done|]. unfold rows_where. rewrite List.filter_app. cbn.
      destruct (unknown_of o _) eqn:Eu; [|by rewrite app_nil_r]. exfalso. specialize (Ha rule words (id_now d) Hrule Eu).
      unfold settled_before in Hno. rewrite Ha in Hno. apply assoc_In in Hrow. apply (latest_None _ _ _ Hno) in Hrow.
      cbn in Hrow. congruence.
  - apply transition_cases in E as (j & who & why & Hj & -> & ->). split_and!; cbn; [|done|].
    + rewrite update_by_key_row. by destruct (String.eqb_spec id k) as [->|_].
    + rewrite <- Hids. by apply rows_where_update.
  - by apply start_recovery_cases in E as [(-> & _)|(_ & _ & row & _ & _ & _ & _ & ->)].
  - unfold insert_observation in E. destruct (latest _ _ _); [by injection E as <- <-|].
    by apply result_bind_Ok in E as (? & _ & [= _ <-]).
  - unfold store_snapshot in E. by apply result_bind_Ok in E as (? & _ & [= _ <-]).
Qed.

(** C11. What a person has settled stays settled.  When an incident of an unknown outcome of an operation has been resolved
    or suppressed, no observation and no run of the detection changes it or files another one for the operation, whatever
    else is called, as long as nobody moves this incident again. *)
Theorem settled_unknown_stays o id i s s' : reachable_ledger s -> In (id, i) (incidents s) -> settled_unknown o i = true ->
  rtc (call false (plain o) (fun k => k <> id)) s s' ->
  row_by_key id (incidents s') = Some i /\
  map fst (rows_where (unknown_of o) (incidents s')) = map fst (rows_where (unknown_of o) (incidents s)).
Proof.
  intros Hs%reachable_Inv Hin Hset Hcalls. set (ids := map fst (rows_where (unknown_of o) (incidents s))).
  pose (Q := settled_here o id i ids). assert (Hq : Q s) by (split_and!; [by apply row_In; [apply (inv_incident_keys s Hs)|]|done|done]).
  assert (Hkept : forall s s', Inv false s -> change false (plain o) (fun k => k <> id) s s' -> Q s -> Q s') by (intros ? ? ? ?; by apply settled_kept).
  assert (Hmoves : rtc (change false (plain o) (fun k => k <> id)) s s').
  { apply (calls_move false (plain o) (fun k => k <> id) Q Hkept); [|done|done|done].
    intros s1 k j Hs1 (Hrow & _) Hj Hcl ->. apply (row_In _ _ _ (inv_incident_keys s1 Hs1)) in Hj.
    rewrite Hrow in Hj. injection Hj as <-. apply andb_true_iff in Hcl as [Ha _]. by rewrite (settled_not_active o i Hset) in Ha. }
  destruct (changes_Q false (plain o) (fun k => k <> id) Q Hkept s s' Hmoves Hs Hq) as (Hrow & _ & Hids). by split.
Qed.
End Settled.

(** ** A run of the detection *)

Section Evaluation.
Context `{UnicodeTables}.
Implicit Types (s : ledger) (i : incident_row).

(** An incident with the fingerprint is open. *)
Definition open_here (print : string) s : Prop :=
  exists id i, In (id, i) (incidents s) /\ active_incident i = true /\ in_fingerprint i = print.

Lemma update_In_self k f (l : list incident) i : In (k, i) l -> In (k, f i) (update_by_key k f l).
Proof.
  intros Hin. unfold update_by_key, update_row, every_row. apply in_map_iff. exists (k, i). cbn. by rewrite String.eqb_refl.
Qed.

Lemma update_In_other k f (l : list incident) k' i : k' <> k -> In (k', i) l -> In (k', i) (update_by_key k f l).
Proof.
  intros Hne Hin. unfold update_by_key, update_row, every_row. apply in_map_iff. exists (k', i). cbn.
  by destruct (String.eqb_spec k' k).
Qed.

Lemma upsert_open print a d s r s' : upsert_body a d s = Ok (r, s') -> open_here print s -> open_here print s'.
Proof.
  intros [[-> _]|[(_ & k & j & words & Hin & Ho & -> & ->)|(_ & _ & rule & words & e & _ & -> & Hk & -> & ->)]]%upsert_cases
    (id & i & Hi & Ha & Hp); [by exists id, i| |].
  - destruct (base.decide (id = k)) as [->|Hne].
    + exists k, (seen_again a words (id_now d) i). split_and!; [by apply update_In_self|done|done].
    + exists id, i. split_and!; [by apply update_In_other|done|done].
  - exists id, i. split_and!; [|done|done]. apply in_or_app. by left.
Qed.

(** What a detection comes to: a settled outcome, or an open incident with its fingerprint *)
Lemma upsert_result a d s r s' : upsert_body a d s = Ok (r, s') ->
  (s' = s /\ active_incident (snd r) = false /\ is_Some (unknown_write a)) \/
  (active_incident (snd r) = true /\ in_fingerprint (snd r) = fingerprint a /\ In r (incidents s')).
Proof.
  intros [[-> Hs]|[(_ & k & j & words & Hin & Ho & -> & ->)|(_ & _ & rule & words & e & _ & -> & Hk & -> & ->)]]%upsert_cases.
  - left. unfold settled_before in Hs. destruct (unknown_write a) as [o|]; [|done]. apply latest_Some in Hs as [_ Hset].
    split_and!; [done|by eapply settled_not_active|by eexists].
  - right. apply andb_true_iff in Ho as [Hf%String.eqb_eq Ha]. split_and!; [done|done|by apply update_In_self].
  - right. split_and!; [done|done|]. apply in_or_app. right. by left.
Qed.

Lemma upsert_incident_Ok a d s r s' : upsert_incident a d s = (Ok r, s') -> upsert_body a d s = Ok (r, s').
Proof. unfold upsert_incident. intros (u & _ & E)%proc_of_result_bind. unfold atomic in E. by apply transaction_Ok in E. Qed.

Lemma detect_each_spec draw l observed s found s' : detect_each draw l observed s = (Ok found, s') ->
  (forall print, open_here print s -> open_here print s') /\
  (forall print, In print found -> In print observed \/ (open_here print s' /\ exists a, In a l /\ fingerprint a = print)) /\
  (forall print, In print observed -> In print found) /\
  (forall a, In a l -> unknown_write a = None -> In (fingerprint a) found).
Proof.
  revert observed s. induction l as [|a l IH]; intros observed s.
  { intros [= <- <-]. split_and!; try done. intros print Hp. by left. }
  cbn [detect_each]. intros (r & s1 & E%upsert_incident_Ok & Hrest)%proc_bind_Ok.
  set (next := if active_incident (snd r) && negb (str_in (in_fingerprint (snd r)) observed)
               then observed ++ [in_fingerprint (snd r)] else observed) in *.
  apply IH in Hrest as (Hopen & Hfound & Hold & Hall). pose proof (upsert_result _ _ _ _ _ E) as Hr.
  assert (Hnext : forall print, In print next <-> In print observed \/ (active_incident (snd r) = true /\ print = in_fingerprint (snd r))).
  { intros print. unfold next. destruct (active_incident (snd r)); cbn [andb]; [|naive_solver].
    destruct (str_in (in_fingerprint (snd r)) observed) eqn:Ei; cbn [negb].
    - apply str_in_spec in Ei. naive_solver.
    - rewrite in_app_iff. cbn. naive_solver. }
  split_and!.
  - intros print Hp. apply Hopen. by eapply upsert_open.
  - intros print [Hp|(Ho & a' & Ha' & Hf)]%Hfound.
    + apply Hnext in Hp as [Hp|[Ha ->]]; [by left|]. right. destruct Hr as [(_ & Hn & _)|(_ & Hf & Hin)]; [congruence|].
      split; [|exists a; by split; [left|]]. apply Hopen. exists (fst r), (snd r). by rewrite <- surjective_pairing.
    + right. split; [done|]. exists a'. by split; [right|].
  - intros print Hp. apply Hold, Hnext. by left.
  - intros a' [<-|Ha'] Hu; [|by apply Hall]. apply Hold, Hnext. right.
    destruct Hr as [(_ & _ & [o Ho])|(Ha & Hf & _)]; [congruence|done].
Qed.

(** What is closed: the listed incidents whose fingerprint has not been observed *)
Lemma transition_incident_Ok id state actor reason now e s r s' : transition_incident id state actor reason now e s = (Ok r, s') ->
  incidents s' = update_by_key id (transitioned state now) (incidents s).
Proof.
  unfold transition_incident. intros (u & _ & E)%proc_of_result_bind. unfold atomic in E. apply transaction_Ok in E.
  by apply transition_cases in E as (i & who & why & _ & _ & ->).
Qed.

Lemma resolve_each_spec draw observed l n s m s' : resolve_each draw observed l n s = (Ok m, s') ->
  (forall k j, In (k, j) (incidents s) -> (forall x, In x l -> fst x = k -> In (in_fingerprint (snd x)) observed) -> In (k, j) (incidents s')) /\
  (forall k j', In (k, j') (incidents s') -> active_incident j' = true ->
     In (k, j') (incidents s) /\ forall x, In x l -> fst x = k -> In (in_fingerprint (snd x)) observed).
Proof.
  revert n s. induction l as [|x l IH]; intros n s; [by intros [= _ <-]|]. cbn [resolve_each].
  destruct (str_in (in_fingerprint (snd x)) observed) eqn:Ei.
  - apply str_in_spec in Ei. intros [Hkeep Hact]%IH. split.
    + intros k j Hj Hx. apply Hkeep; [done|]. intros y Hy. apply Hx. by right.
    + intros k j' Hj' Ha. destruct (Hact k j' Hj' Ha) as [Hin Hl]. split; [done|]. intros y [<-|Hy] Hk; [done|by apply Hl].
  - apply str_in_false in Ei. intros (r & s1 & E%transition_incident_Ok & Hrest)%proc_bind_Ok. apply IH in Hrest as [Hkeep Hact]. split.
    + intros k j Hj Hx. apply Hkeep; [|intros y Hy; apply Hx; by right]. rewrite E. apply update_In_other; [|done].
      intros Hk. apply Ei, Hx; [by left|done].
    + intros k j' Hj' Ha. destruct (Hact k j' Hj' Ha) as [Hin Hl]. rewrite E in Hin. apply update_by_key_In in Hin as (j & Hj & ->).
      destruct (String.eqb_spec k (fst x)) as [->|Hne]; [by cbv in Ha|]. split; [done|].
      intros y [<-|Hy] Hk; [done|by apply Hl].
Qed.

(** C13. A run tells what is the matter now.  After [evaluate_incidents], an incident of a rule that closes itself is open
    only if the run has detected its condition, and every condition it has detected has an open incident, except an unknown
    outcome that somebody has settled. *)
Theorem evaluation_exact iso l counts w d s ev s' : reachable_ledger s -> evaluate_incidents iso l counts w d s = (Ok ev, s') ->
  let found := detections iso l (ed_now d) w counts s in
  (forall id i, In (id, i) (incidents s') -> closes_itself i = true -> exists a, In a found /\ fingerprint a = in_fingerprint i) /\
  (forall a, In a found -> unknown_write a = None -> open_here (fingerprint a) s').
Proof.
  intros Hs0 E found. unfold evaluate_incidents in E. rewrite proc_bind_eq in E. unfold reading at 1 in E.
  apply proc_bind_Ok in E as (observed & s1 & Hd & E). rewrite proc_bind_eq in E. unfold reading at 1 in E.
  apply proc_bind_Ok in E as (m & s2 & Hr & E). rewrite proc_bind_eq in E. unfold reading, mret, proc_ret in E. injection E as _ ->.
  fold found in Hd. pose proof (detect_each_spec _ _ _ _ _ _ Hd) as (_ & Hfound & _ & Hall).
  apply resolve_each_spec in Hr as [Hkeep Hact].
  assert (Hs1 : Inv false s1).
  { eapply changes_Inv; [|exact (reachable_Inv s Hs0)].
    apply (f_equal snd) in Hd. cbn in Hd. rewrite <- Hd.
    apply (detect_each_moves false any_incident any_id any_state); [done| |by apply reachable_Inv|done]. by apply List.Forall_forall. }
  split.
  - intros id i Hi Hc. pose proof (proj1 (andb_true_iff _ _) Hc) as [Ha _]. destruct (Hact id i Hi Ha) as [Hin Hl].
    assert (Hp : In (in_fingerprint i) observed).
    { apply (Hl (id, i)); [|done]. by apply rows_where_In. }
    apply Hfound in Hp as [[]|(_ & a & Hain & Hf)]. by exists a.
  - intros a Ha Hu. apply (Hall a Ha) in Hu as Hp. apply Hfound in Hp as [[]|((id & i & Hi & Hact' & Hf) & _)].
    exists id, i. split_and!; [|done|done]. apply Hkeep; [done|]. intros [k j] Hx Hk. cbn in Hk. subst k.
    apply rows_where_In in Hx as [Hx _]. apply (row_In _ _ _ (inv_incident_keys s1 Hs1)) in Hx, Hi. cbn in Hx.
    assert (j = i) as -> by congruence. cbn [snd]. rewrite Hf. by apply (Hall a).
Qed.
End Evaluation.


(** ** Metadata *)

Section MetadataOfStages.
Context `{UnicodeTables}.
Implicit Types (s : ledger).

(** Stages hold no sensitive fields.  After calls that do not overtake one another, whatever metadata they were given, the stored metadata of every
    stage have names of at most 80 characters, texts of at most 500 and lists of at most 30 scalars, and a member whose
    name says password, secret, bearer, cookie, authorization or the like is blanked, at any depth of nested objects. *)
Theorem metadata_redacted s id y : serial_ledger s -> In (id, y) (spans s) -> redacted_members (sp_metadata y) = true.
Proof. intros Hs%serial_Inv Hy. destruct (inv_spans s Hs id y Hy) as [Hm _]. by apply Hm. Qed.

(** A sensitive member is blanked whatever it holds. *)
Lemma sensitive_blanked kvs name v : redacted_members kvs = true -> In (name, v) kvs -> sensitive name = true -> v = JStr "[redacted]".
Proof.
  unfold redacted_members. rewrite forallb_forall. intros Hall Hin Hs. specialize (Hall _ Hin). unfold redacted_member in Hall.
  cbn [fst snd] in Hall. rewrite Hs in Hall. apply andb_true_iff in Hall as [_ Hv]. destruct v; try done.
  by apply String.eqb_eq in Hv as ->.
Qed.
End MetadataOfStages.

(** ** Recovery actions *)

Section Recovery.
Context `{UnicodeTables}.
Implicit Types (s : ledger).

Lemma start_recovery_Ok a now id s r s' : start_recovery_action a now id s = (Ok r, s') ->
  known_boundary (va_boundary a) /\ start_recovery_body a now id s = Ok (r, s').
Proof.
  unfold start_recovery_action. intros (u & Hb%validate_boundary_Ok & E)%proc_of_result_bind. split; [done|].
  unfold atomic in E. by apply transaction_Ok in E.
Qed.

Lemma new_recovery_key a now r : new_recovery a now = Ok r ->
  required_text 500 (Some (va_idempotency_key a)) = Ok (rc_idempotency_key r).
Proof.
  unfold new_recovery. intros (? & _ & (? & _ & (? & _ & (? & _ & (? & _ & (key & Hk & [= <-])%result_bind_Ok)%result_bind_Ok)%result_bind_Ok)
    %result_bind_Ok)%result_bind_Ok)%result_bind_Ok. exact Hk.
Qed.

(** The time of the request is all that a second one changes. *)
Lemma new_recovery_at a now now' r : new_recovery a now = Ok r ->
  exists r', new_recovery a now' = Ok r' /\ rc_idempotency_key r' = rc_idempotency_key r.
Proof.
  unfold new_recovery. intros (? & E1 & (? & E2 & (? & E3 & (? & E4 & (? & E5 & (key & E6 & [= <-])%result_bind_Ok)%result_bind_Ok)%result_bind_Ok)
    %result_bind_Ok)%result_bind_Ok)%result_bind_Ok. eexists.
  rewrite (result_bind_run _ _ _ E1), (result_bind_run _ _ _ E2), (result_bind_run _ _ _ E3), (result_bind_run _ _ _ E4),
    (result_bind_run _ _ _ E5), (result_bind_run _ _ _ E6). by split.
Qed.

(** A key that is its own text *)
Definition own_key (key : string) : Prop := required_text 500 (Some key) = Ok key.

(** Recovery actions are kept, with their keys, whatever is called. *)
Definition key_known (key : string) s : Prop := exists id r, In (id, r) (recoveries s) /\ rc_idempotency_key r = key.

Lemma key_known_change false D T key s s' : Inv false s -> change false D T s s' -> key_known key s -> key_known key s'.
Proof.
  intros Hs Hc (id & r0 & Hin & Hk).
  destruct Hc as [s k x Hx Hb|s k x x' Hx Hsame Hok Hr|s k y Hy|s k y Hy|s p|s l|s a d r s' Hsev Ha E|s k state actor reason now e r s' Hst Ht E
    |s a now k r s' E|s k r r' Hr Hkey|s l|s name actor duration policy now b k r s' E|s k k' n complete now u s' E|s l]; try (by exists id, r0).
  - exists id, r0. by apply upsert_cases in E as [[-> _]|[(_ & ? & ? & ? & _ & _ & _ & ->)|(_ & _ & ? & ? & ? & _ & _ & _ & _ & ->)]].
  - exists id, r0. by apply transition_cases in E as (? & ? & ? & _ & _ & ->).
  - exists id, r0. split; [|done]. apply start_recovery_cases in E as [(-> & _)|(_ & _ & row & _ & _ & _ & _ & ->)]; [done|].
    apply in_or_app. by left.
  - exists id, (if String.eqb id k then r' else r0). split.
    + cbn. unfold update_by_key, update_row, every_row. apply in_map_iff. exists (id, r0). cbn. rewrite andb_true_r.
      by destruct (String.eqb id k).
    + destruct (String.eqb_spec id k) as [->|_]; [|done]. apply (row_In _ _ _ (inv_recovery_keys s Hs)) in Hin. congruence.
  - exists id, r0. unfold insert_observation in E. destruct (latest _ _ _); [by injection E as <- <-|].
    by apply result_bind_Ok in E as (? & _ & [= _ <-]).
  - exists id, r0. unfold store_snapshot in E. by apply result_bind_Ok in E as (? & _ & [= _ <-]).
Qed.

Lemma key_known_calls key s s' : rtc ledger_call s s' -> Inv false s -> key_known key s -> key_known key s'.
Proof.
  intros Hc Hs. apply calls_changes in Hc; [|done]. revert Hs. induction Hc as [|s s1 s2 H1 _ IH]; [done|]. intros Hs Hk.
  apply IH; [by eapply change_Inv|by eapply key_known_change].
Qed.

(** A known key starts nothing. *)
Lemma known_key_reused a now id s r s' : key_known (va_idempotency_key a) s -> start_recovery_action a now id s = (Ok r, s') ->
  s' = s /\ snd r = true.
Proof.
  intros (k & r0 & Hin & Hk) [_ E]%start_recovery_Ok.
  apply start_recovery_cases in E as [(-> & Hr & _)|(_ & Hno & _)]; [done|]. by destruct (Hno (k, r0) Hin).
Qed.

Lemma started_key_known a now id s r s' : own_key (va_idempotency_key a) -> start_recovery_action a now id s = (Ok r, s') ->
  key_known (va_idempotency_key a) s'.
Proof.
  intros Hown [_ E]%start_recovery_Ok.
  apply start_recovery_cases in E as [(-> & _ & Hin & Hk)|(_ & _ & row & Hrow & _ & _ & _ & ->)].
  - exists (fst (fst r)), (snd (fst r)). split; [by rewrite <- surjective_pairing|done].
  - exists id, row. split; [apply in_or_app; right; by left|]. apply new_recovery_key in Hrow. unfold own_key in Hown. congruence.
Qed.

(** A key with blanks around it is not recognized.  The key of an action is stored as its bounded text but looked up as
    it was sent.  When these differ, the same request sent again is not answered with the action it has started: it fails
    on the unique index. *)
Theorem key_does_not_replay a now id s r s' now' id' : start_recovery_action a now id s = (Ok (r, false), s') ->
  rc_idempotency_key (snd r) <> va_idempotency_key a ->
  start_recovery_action a now' id' s' = (raise SqliteIntegrityError "UNIQUE constraint failed", s').
Proof.
  intros [Hb E]%start_recovery_Ok Hne. apply start_recovery_cases in E as [(_ & Hr & _)|(_ & Hno & row & Hrow & Hr & Hk & Hnk & ->)]; [done|].
  cbn in Hr. subst r. cbn in Hne.
  assert (exists row', new_recovery a now' = Ok row' /\ rc_idempotency_key row' = rc_idempotency_key row) as (row' & Hrow' & Hkey).
  { by apply new_recovery_at with now. }
  unfold start_recovery_action. rewrite proc_bind_eq. unfold of_result. rewrite (proj2 (validate_boundary_Ok _ tt) Hb).
  unfold atomic, transaction. assert (start_recovery_body a now' id' (with_recoveries (recoveries s ++ [(id, row)]) s)
    = raise SqliteIntegrityError "UNIQUE constraint failed") as ->; [|done].
  unfold start_recovery_body. cbn [recoveries with_recoveries].
  assert (List.find (fun kr => keyed (va_idempotency_key a) (snd kr)) (recoveries s ++ [(id, row)]) = None) as ->.
  { destruct (List.find _ _) as [kr|] eqn:Ef; [|done]. apply find_some in Ef as [Hin He%String.eqb_eq]. exfalso.
    apply in_app_or in Hin as [Hin|[<-|[]]]; [by apply (Hno kr)|done]. }
  rewrite (result_bind_run _ _ _ Hrow'). unfold append_row, taken.
  assert (existsb (fun kr => String.eqb (fst kr) id' || keyed (rc_idempotency_key row') (snd kr)) (recoveries s ++ [(id, row)]) = true) as ->; [|done].
  apply existsb_exists. exists (id, row). split; [apply in_or_app; right; by left|]. apply orb_true_iff. right.
  cbn. rewrite Hkey. unfold keyed. by apply String.eqb_eq.
Qed.
End Recovery.

(** ** Concrete inputs

    A submission whose outcome is unknown, settled by an administrator and met again by a run of the detection. *)

#[local] Open Scope Z_scope.
#[local] Existing Instance ascii_tables.

Module GovernanceDemo.

Definition request : trace_args :=
  TraceArgs "u1" (Some "q1") (Some "t1") None "codex" None None "task" (Some "oa") None.

Definition begun : ledger := snd (ensure_trace "r1" request 0 "tr1" empty_ledger).

(** The submission, as the service has recorded it *)
Definition submitted : Operations.view :=
  Operations.View "op1" "q1" "u1" "leave_submit" "1.0" "h" None Operations.Unknown (Some "RESULT_UNKNOWN") None 0 10 None
    JNull JNull JNull None.

Definition drawn : observe_draw :=
  ObserveDraw (StageDraw (SpanDraw "sp1" 11 (WriteDraw 12 None)) (FinishDraw (WriteDraw 13 None) (WriteDraw 14 None)))
    (WriteDraw 15 None) (IncidentDraw "i1" "e1" 16).

Definition observed : ledger := snd (observe_operation "tr1" submitted "write" true drawn begun).

Lemma drawn_in_time : in_time drawn.
Proof. by repeat split. Qed.

Lemma calls_observed : serial_ledger observed.
Proof. apply (rtc_l _ _ begun); [apply ensures|]. apply rtc_once. apply observes; [intros _; apply drawn_in_time|done]. Qed.

(** A recovery, twice, and an observation *)
Definition retry : recovery_args := RecoveryArgs "retry_delivery" "delivery" "d1" "root" "again" "k1" "B0_NO_EFFECT" None.
Definition recovering : ledger := snd (start_recovery_action retry 20 "v1" observed).

Lemma calls_recovering : serial_ledger recovering.
Proof. eapply rtc_r; [exact calls_observed|]. apply starts_recovery. Qed.

Lemma ledger_invariant_witness :
  (exists y x, In ("sp1", y) (spans recovering) /\ row_by_key (sp_trace_id y) (traces recovering) = Some x /\
     sp_task_id y = Some "t1" /\ tr_boundary x = "B4_COMMIT_ATTEMPTED" /\ sp_user_subject y = tr_user_subject x /\
     (boundary_index (sp_boundary y) <= boundary_index (tr_boundary x))%nat) /\
  (exists i, In ("i1", i) (incidents recovering) /\ logged_state "i1" (incident_log recovering) = Some "open").
Proof.
  destruct (ledger_invariant recovering (serial_reachable _ calls_recovering)) as (Hspans & Hincidents & _ & _). split.
  - destruct (spans recovering) as [|[k y] l] eqn:E; vm_compute in E; [discriminate E|]. injection E as <- <- _.
    eexists. edestruct (Hspans "sp1") as (x & Hx & Hu & _ & _ & Hb); [by left|]. exists x. split; [by left|]. split; [exact Hx|].
    split; [reflexivity|]. split; [vm_compute in Hx; injection Hx as <-; reflexivity|].
    split; [exact Hu|exact (Hb calls_recovering)].
  - destruct (incidents recovering) as [|[k i] l] eqn:E; vm_compute in E; [discriminate E|]. injection E as <- <- _.
    eexists. split; [by left|]. edestruct (Hincidents "i1") as [Hlog _]; [by left|]. exact Hlog.
Defined.

(** A read of the same request, afterwards, does not hide the submission. *)
Definition read_after : ledger :=
  snd (update_trace "tr1" (Some "succeeded") (Some "B1_READ_ONLY") (Some true) (WriteDraw 30 None) observed).

Lemma commit_is_remembered_witness : exists x, row_by_key "tr1" (traces read_after) = Some x /\
  In (tr_boundary x) ["B4_COMMIT_ATTEMPTED"; "B5_VERIFIED"].
Proof.
  destruct (observe_operation "tr1" submitted "write" true drawn begun) as [[y|e] s1] eqn:E; [|vm_compute in E; discriminate E].
  assert (Hs1 : s1 = observed) by (unfold observed; rewrite E; reflexivity).
  apply (commit_is_remembered "tr1" submitted "write" drawn begun y s1 read_after).
  - apply rtc_once. apply ensures.
  - discriminate.
  - apply drawn_in_time.
  - exact E.
  - rewrite Hs1. apply rtc_once. apply updates. intros _. reflexivity.
Defined.

(** The same read hides it when it has read the trace before the submission was observed and writes it afterwards. *)
Lemma commit_forgotten : exists x0 x, row_by_key "tr1" (traces begun) = Some x0 /\
  row_by_key "tr1" (traces (snd (update_trace "tr1" (Some "succeeded") (Some "B1_READ_ONLY") (Some true) (WriteDraw 30 (Some x0)) observed)))
    = Some x /\ tr_boundary x = "B1_READ_ONLY".
Proof.
  destruct (row_by_key "tr1" (traces begun)) as [x0|] eqn:E; [|vm_compute in E; discriminate E].
  destruct (update_trace "tr1" (Some "succeeded") (Some "B1_READ_ONLY") (Some true) (WriteDraw 30 (Some x0)) observed)
    as [[r|e] s'] eqn:Eu; vm_compute in E; injection E as <-; [|vm_compute in Eu; discriminate Eu].
  eexists. destruct (update_overtaken _ _ _ _ _ _ _ _ _ Eu) as (x & Hx & Hb). exists x. split; [reflexivity|]. split; [rewrite Eu; exact Hx|].
  assert (Hc : Ok "B1_READ_ONLY" = Ok (tr_boundary x)) by (rewrite <- Hb; vm_compute; reflexivity).
  injection Hc as Hc. symmetry. exact Hc.
Qed.

(** An administrator suppresses the incident; the operation is still unknown in the table that the detection reads. *)
Definition settled : ledger := snd (transition_incident "i1" "suppressed" "root" "checked in the system" 40 "e2" observed).

Definition stored_operation : Operations.row :=
  Operations.Row (Operations.Identity "q1" "u1" "leave_submit" "1.0" "{}" "h" None 0)
    (Operations.Progress Operations.Unknown None (Some "RESULT_UNKNOWN") None None 10 None).

Definition around : surroundings := Surroundings (Some {["op1" := stored_operation]}) None (fun _ => Some "tr1").
Definition thresholds : limits := Limits 600 600 600.
Definition run_draw : evaluation_draw :=
  EvaluationDraw 50 (fun _ => IncidentDraw "i2" "e3" 51) (fun _ => ClosingDraw 52 "e4").
Definition evaluated : ledger := snd (evaluate_incidents (fun _ => "") thresholds [] around run_draw settled).

Lemma settled_unknown_stays_witness : exists i, row_by_key "i1" (incidents evaluated) = Some i /\
  in_state i = "suppressed" /\ map fst (rows_where (unknown_of "op1") (incidents evaluated)) = ["i1"].
Proof.
  destruct (incidents settled) as [|[k i] l] eqn:E; [vm_compute in E; discriminate E|].
  assert (Hi : k = "i1" /\ settled_unknown "op1" i = true /\ in_state i = "suppressed")
    by (vm_compute in E; injection E as <- <- _; split; [reflexivity|split; reflexivity]).
  destruct Hi as (-> & Hset & Hst).
  destruct (settled_unknown_stays "op1" "i1" i settled evaluated) as [Hrow Hids].
  - eapply rtc_r; [exact (serial_reachable _ calls_observed)|]. by apply transitions.
  - rewrite E. by left.
  - exact Hset.
  - apply rtc_once. apply evaluates. apply detections_plain. intros t key r [= <-] Hkey.
    apply lookup_singleton_Some in Hkey as [<- _]. split; [|reflexivity]. unfold own_text. vm_compute. congruence.
  - exists i. split; [exact Hrow|]. split; [exact Hst|]. rewrite Hids. vm_compute. reflexivity.
Defined.

(** The operation is unknown and nobody has settled it; then it is over. *)
Definition evaluated_open : ledger :=
  snd (evaluate_incidents (fun _ => "") thresholds [("cross_user_tasks", 2)] around run_draw observed).

Lemma evaluation_exact_witness :
  open_here "identity_isolation_violation:-:-:isolation_check:cross_user_tasks" evaluated_open.
Proof.
  destruct (evaluate_incidents (fun _ => "") thresholds [("cross_user_tasks", 2)] around run_draw observed) as [[ev|e] s'] eqn:E;
    [|vm_compute in E; discriminate E].
  destruct (evaluation_exact (fun _ => "") thresholds [("cross_user_tasks", 2)] around run_draw observed ev s' (serial_reachable _ calls_observed) E) as [_ Hopen].
  assert (Hs : s' = evaluated_open) by (unfold evaluated_open; rewrite E; reflexivity). rewrite <- Hs.
  apply (Hopen (isolation_violated ("cross_user_tasks", 2))); [|reflexivity].
  vm_compute. right. left. reflexivity.
Defined.

Lemma key_does_not_replay_witness : exists s',
  start_recovery_action (RecoveryArgs "retry_delivery" "delivery" "d1" "root" "again" " k1" "B0_NO_EFFECT" None) 60 "v2" s'
    = (raise SqliteIntegrityError "UNIQUE constraint failed", s').
Proof.
  set (a := RecoveryArgs "retry_delivery" "delivery" "d1" "root" "again" " k1" "B0_NO_EFFECT" None).
  destruct (start_recovery_action a 20 "v1" observed) as [[[r []]|e] s'] eqn:E; [vm_compute in E; discriminate E| |vm_compute in E; discriminate E].
  exists s'. apply (key_does_not_replay a 20 "v1" observed r s' 60 "v2" E). vm_compute in E. injection E as <- _. discriminate.
Defined.
End GovernanceDemo.
