(* ===== verification/TaskOutboxFacts.v ===== *)
(** * Theorems about the outbox of the task hub

    What a claim takes, how long it keeps the others out, the invariant of the deliveries, and what a late report does. *)

From S2P Require Import Prelude PyStr Json JsonFacts Store InputValidation TaskStateRules TaskTables TaskBatches TaskLedger TaskOutbox TaskContinuations TaskArtifacts TaskFrames TaskSteps TaskDemo.

#[local] Open Scope list_scope.

Definition DELIVERY_STATES : list string := ["pending"; "delivering"; "acknowledged"; "deferred"; "failed"; "archived"].

Record delivery_ok (o : delivery_row) : Prop := DeliveryOk {
  ok_attempts : (0 <= o_attempt_count o <= 5)%Z;
  ok_state : In (o_state o) DELIVERY_STATES;
  ok_delivering : o_state o = "delivering" -> (1 <= o_attempt_count o)%Z;
  ok_receipt : o_acknowledged_at o <> None -> In (o_state o) ["acknowledged"; "archived"];
  ok_acknowledged : o_state o = "acknowledged" -> o_acknowledged_at o <> None;
}.

Section OutboxFacts.
Context {tables : UnicodeTables} {digits : UnicodeDigits} {urls : UrlTables}.
Implicit Types (s : hub) (l : list delivery) (o : delivery_row).

Definition outbox_ok l : Prop := distinct l /\ Forall (fun kr => delivery_ok (snd kr)) l.

(** ** Updates of rows *)

(** An update keeps the key and the columns that a UNIQUE constraint names. *)
Definition same_columns (x y : delivery) : Prop :=
  fst y = fst x /\ o_event_id (snd y) = o_event_id (snd x) /\ o_endpoint_id (snd y) = o_endpoint_id (snd x)
  /\ o_payload_type (snd y) = o_payload_type (snd x).

Lemma same_columns_refl x : same_columns x x.
Proof. by split_and!. Qed.

Lemma moved_columns id state attempts next now acknowledged o :
  same_columns (id, o) (id, moved_delivery state attempts next now acknowledged o).
Proof. by split_and!. Qed.

Lemma map_distinct (g : delivery -> delivery) l :
  (forall x, In x l -> same_columns x (g x)) -> distinct l -> distinct (map g l).
Proof.
  intros Hg Hd i j x y Hi Hj Hsame. rewrite list_lookup_fmap in Hi, Hj.
  destruct (l !! i) as [x0|] eqn:Ei; [|done]. destruct (l !! j) as [y0|] eqn:Ej; [|done]. injection Hi as <-. injection Hj as <-.
  destruct (Hg x0) as (Hk & He & Hp & Ht); [by eapply list_elem_of_In, list_elem_of_lookup_2|].
  destruct (Hg y0) as (Hk' & He' & Hp' & Ht'); [by eapply list_elem_of_In, list_elem_of_lookup_2|].
  apply (Hd i j x0 y0); [done..|]. destruct Hsame as [H|H]; [left; congruence|right].
  unfold same_delivery in *. by rewrite He, Hp, Ht, He', Hp', Ht' in H.
Qed.

Lemma map_outbox_ok (g : delivery -> delivery) l :
  (forall x, In x l -> same_columns x (g x) /\ (delivery_ok (snd x) -> delivery_ok (snd (g x)))) ->
  outbox_ok l -> outbox_ok (map g l).
Proof.
  intros Hg [Hd Hf]. split; [apply map_distinct; [|done]; intros x Hx; by apply Hg|].
  rewrite List.Forall_forall in *. intros y (x & <- & Hx)%in_map_iff. apply Hg; auto.
Qed.

Lemma distinct_row l id o x : distinct l -> row_by_key id l = Some o -> In x l -> fst x = id -> x = (id, o).
Proof.
  intros Hd Hrow Hx <-. apply assoc_In in Hrow. apply list_elem_of_In, list_elem_of_lookup in Hx as [i Hi].
  apply list_elem_of_In, list_elem_of_lookup in Hrow as [j Hj].
  pose proof (Hd i j _ _ Hi Hj (or_introl eq_refl)) as <-.
  assert (Some x = Some (fst x, o)) as H; [etrans; [symmetry; exact Hi|exact Hj]|by injection H].
Qed.

Lemma distinct_found l x : distinct l -> In x l -> row_by_key (fst x) l = Some (snd x).
Proof.
  intros Hd Hx. destruct (row_by_key (fst x) l) as [o|] eqn:E.
  - by rewrite (distinct_row _ _ _ _ Hd E Hx eq_refl).
  - destruct (proj1 (assoc_keys (fst x) l) (in_map fst _ _ Hx)) as [o Ho]. by unfold row_by_key in E; rewrite Ho in E.
Qed.

Lemma update_rows_ok p f l :
  (forall id o, p o = true -> same_columns (id, o) (id, f o) /\ (delivery_ok o -> delivery_ok (f o))) ->
  outbox_ok l -> outbox_ok (update_rows p f l).
Proof.
  intros Hf. apply map_outbox_ok. intros [id o] _. cbn. destruct (p o) eqn:E; [by apply Hf|].
  split; [apply same_columns_refl|done].
Qed.

(** ** Rows that the updates write *)

Lemma closed_ok state now o :
  In state ["failed"; "archived"] -> (state = "failed" -> o_acknowledged_at o = None) -> delivery_ok o ->
  delivery_ok (closed_delivery state now o).
Proof.
  intros Hs Hf [Ha _ _ Hr _]. split; cbn; [done| | |intros Hn|].
  - destruct Hs as [<-|[<-|[]]]; cbn; tauto.
  - by destruct Hs as [<-|[<-|[]]].
  - destruct Hs as [<-|[<-|[]]]; [by rewrite Hf in Hn|tauto].
  - by destruct Hs as [<-|[<-|[]]].
Qed.

Lemma unreceived o : delivery_ok o -> In (o_state o) ["pending"; "delivering"; "deferred"; "failed"] -> o_acknowledged_at o = None.
Proof.
  intros Ho Hs. destruct (o_acknowledged_at o) eqn:E; [|done]. destruct (ok_receipt _ Ho) as [H|[H|[]]]; [by rewrite E|..];
  rewrite <- H in Hs; cbn in Hs; naive_solver.
Qed.

Lemma requeued_ok next now o : delivery_ok (requeued_delivery next now o).
Proof. split; cbn; [lia|tauto|done|done|done]. Qed.

Lemma claimed_ok user endpoint now lease o :
  due user endpoint now o = true -> delivery_ok o -> delivery_ok (claimed_delivery lease now o).
Proof.
  unfold due. rewrite !andb_true_iff, Z.ltb_lt. intros [[[_ Ha] Hs] _] Ho.
  assert (o_acknowledged_at o = None) as Hn.
  { apply unreceived; [done|]. apply str_in_spec in Hs. cbn in *. tauto. }
  destruct Ho as [H0 _ _ _ _]. split; cbn; [lia|tauto|lia|by rewrite Hn|done].
Qed.

Lemma reported_ok r now now' o : delivery_ok o -> delivery_ok (reported_delivery r now now' o).
Proof.
  intros [Ha _ _ _ _]. unfold reported_delivery.
  destruct (rp_succeeded r); [|destruct (rp_defer_until_activity r); [|destruct (5 <=? _)%Z]];
    split; cbn; (done || tauto || lia).
Qed.

Lemma settled_ok now o : delivery_ok o -> delivery_ok (settled_delivery now o).
Proof. intros [Ha _ _ _ _]. split; cbn; [lia|tauto|done|tauto|by destruct (o_acknowledged_at o)]. Qed.

Lemma fresh_ok o : fresh_delivery o -> delivery_ok o.
Proof. intros (Hs & Ha & Hn). split; rewrite ?Hs, ?Ha, ?Hn; cbn; (done || lia || tauto). Qed.

Lemma grown_ok l l' : grown l l' -> outbox_ok l -> outbox_ok l'.
Proof.
  intros (more & -> & Hm & Hd') [Hd Hf]. split; [auto|]. apply Forall_app. split; [done|].
  eapply Forall_impl; [exact Hm|]. intros x. apply fresh_ok.
Qed.

(** ** The invariant *)

Lemma write_ok id o o' l :
  row_by_key id l = Some o -> same_columns (id, o) (id, o') -> (delivery_ok o -> delivery_ok o') -> outbox_ok l ->
  outbox_ok (update_row id all_rows (fun _ => o') l).
Proof.
  intros Hrow Hc Ho Hl. apply map_outbox_ok; [|done]. intros x Hx. cbn. rewrite andb_true_r.
  destruct (String.eqb_spec (fst x) id) as [E|_]; [|split; [apply same_columns_refl|done]].
  rewrite (distinct_row _ _ _ _ (proj1 Hl) Hrow Hx E). by split.
Qed.

Lemma claim_each_ok user endpoint lease now ids l :
  outbox_ok l -> outbox_ok (snd (claim_each user endpoint lease now ids l)).
Proof.
  revert l. induction ids as [|id ids IH]; intros l Hl; cbn; [done|].
  destruct (row_by_key id l) as [o|]; [|by apply IH]. destruct (due user endpoint now o); [|by apply IH].
  match goal with |- context [claim_each ?a ?b ?c ?d ?e ?f] => specialize (IH f); destruct (claim_each a b c d e f) end.
  cbn in *. apply IH. apply map_outbox_ok; [|done]. intros [k o'] _. cbn.
  destruct (String.eqb k id && due user endpoint now o') eqn:E; [|split; [apply same_columns_refl|done]].
  apply andb_true_iff in E as [_ E]. split; [apply moved_columns|by apply (claimed_ok user endpoint)].
Qed.

Lemma exhausted_ok user endpoint now l :
  outbox_ok l -> outbox_ok (update_rows (exhausted user endpoint now) (closed_delivery "failed" now) l).
Proof.
  apply update_rows_ok. intros id o Hx. split; [apply moved_columns|]. intros Ho. apply closed_ok; [cbn; tauto| |done].
  intros _. apply unreceived; [done|]. unfold exhausted in Hx. rewrite !andb_true_iff, String.eqb_eq in Hx.
  destruct Hx as [[[_ ->] _] _]. cbn. tauto.
Qed.

(** The deliveries that a claim goes through *)
Definition claim_candidates (user endpoint : string) (limit : nat) (now : instant) l : list delivery :=
  take limit (sort_by earlier (rows_where (due user endpoint now) l)).

Lemma claim_body_spec user endpoint limit lease now s claimed s' :
  claim_body user endpoint limit lease now s = Ok (claimed, s') ->
  exists l', claim_each user endpoint lease now
      (map fst (claim_candidates user endpoint limit now
        (update_rows (exhausted user endpoint now) (closed_delivery "failed" now) (outbox s))))
      (update_rows (exhausted user endpoint now) (closed_delivery "failed" now) (outbox s)) = (claimed, l')
    /\ s' = with_outbox l' s.
Proof. unfold claim_body, claim_candidates. intros H. hub_inv H. by eexists. Qed.

Lemma write_delivery_spec id o s x s' :
  write_delivery id o s = Ok (x, s') -> x = (id, o) /\ s' = with_outbox (update_row id all_rows (fun _ => o) (outbox s)) s.
Proof. unfold write_delivery. by intros [= <- <-]. Qed.

Lemma administer_ok id states message f s x s' :
  (forall o, In (o_state o) states -> same_columns (id, o) (id, f o) /\ (delivery_ok o -> delivery_ok (f o))) ->
  administer id states message f s = Ok (x, s') -> outbox_ok (outbox s) -> outbox_ok (outbox s').
Proof.
  intros Hf H. unfold administer, get_delivery in H. hub_inv H.
  destruct (row_by_key id (outbox s)) as [o|] eqn:Erow; [|done]. injection E as -> ->.
  apply write_delivery_spec in H as [_ ->]. apply negb_false_iff, str_in_spec in G. apply (write_ok _ _ _ _ Erow); by apply Hf.
Qed.

Lemma outbox_step_ok s s' : outbox_step s s' -> outbox_ok (outbox s) -> outbox_ok (outbox s').
Proof.
  intros [user endpoint limit lease now now' seen|user endpoint id r now now'|user endpoint delay now now'|id now|id now].
  - unfold claim_outbox. destruct (open_endpoint _ _ seen) as [found|]; [|done]. destruct (existsb _ _); [|done].
    apply (transaction_rel (fun s s' => outbox_ok (outbox s) -> outbox_ok (outbox s'))); [done|].
    intros a t (l' & E & ->)%claim_body_spec Hs. cbn.
    replace l' with (snd (a, l')) by done. rewrite <- E. by apply claim_each_ok, exhausted_ok.
  - unfold acknowledge_outbox. destruct (_ && _); [done|].
    apply (transaction_rel (fun s s' => outbox_ok (outbox s) -> outbox_ok (outbox s'))); [done|].
    intros a t H. cbv beta in H. destruct (row_by_key id (outbox s)) as [o|] eqn:E; [|done].
    destruct (addressed user endpoint o); [|done]. apply write_delivery_spec in H as [_ ->].
    apply (write_ok _ _ _ _ E); [|by apply reported_ok]. unfold reported_delivery. repeat case_match; by split_and!.
  - unfold reactivate_deferred_outbox.
    apply (transaction_rel (fun s s' => outbox_ok (outbox s) -> outbox_ok (outbox s'))); [done|].
    intros a t H Hs. cbv beta in H. hub_inv H. cbn. apply update_rows_ok; [intros ? ? _; split; [apply moved_columns|intros _; apply requeued_ok]|].
    case_match; [|done].
    assert (forall p, (forall o, p o = true -> o_state o = "deferred") -> forall l, outbox_ok l ->
      outbox_ok (update_rows p (closed_delivery "archived" now) l)) as Harch.
    { intros p Hp l. apply update_rows_ok. intros k o Ho. split; [apply moved_columns|]. intros Hok.
      apply closed_ok; [cbn; tauto|done|done]. }
    apply Harch; [|apply Harch; [|done]]; intros o; unfold old_notice, old_message; rewrite !andb_true_iff, !String.eqb_eq; tauto.
  - unfold requeue_delivery. apply (transaction_rel (fun s s' => outbox_ok (outbox s) -> outbox_ok (outbox s'))); [done|].
    intros a t. apply administer_ok. intros o _. split; [apply moved_columns|intros _; apply requeued_ok].
  - unfold archive_delivery. apply (transaction_rel (fun s s' => outbox_ok (outbox s) -> outbox_ok (outbox s'))); [done|].
    intros a t. apply administer_ok. intros o _. split; [apply moved_columns|].
    intros Ho. apply closed_ok; [cbn; tauto|done|done].
Qed.

Lemma repairs_outbox g s : outbox (_repair_terminal_task_statuses g (_backfill_task_interaction_observations s)) = outbox s.
Proof. unfold _repair_terminal_task_statuses. by destruct (interaction_rows g), (operation_rows g). Qed.

Lemma startup_ok g now now' s : outbox_ok (outbox s) -> outbox_ok (outbox (snd (run_startup_maintenance g now now' s))).
Proof.
  unfold run_startup_maintenance. apply (transaction_rel (fun s s' => outbox_ok (outbox s) -> outbox_ok (outbox s'))); [done|].
  intros a t H Hs. cbv beta zeta in H. hub_inv H. apply orphans_frame in E as [_ E]. cbn.
  apply update_rows_ok; [intros ? ? _; split; [by split_and!|apply settled_ok]|]. rewrite E. by rewrite repairs_outbox.
Qed.

Lemma hub_outbox_ok s : reachable_hub s -> outbox_ok (outbox s).
Proof.
  revert s. apply reachable_invariant; [intros s ->; split; [by intros [|]|constructor]|].
  intros s s' Hs [task user o now d|t Ht|t Ht|t Ht|g now now'].
  - eapply grown_ok; [|exact Hs]. by apply observation_quiet.
  - eapply grown_ok; [|exact Hs]. by apply ledger_quiet.
  - eapply grown_ok; [|exact Hs]. by apply batch_told.
  - by apply (outbox_step_ok s).
  - by apply startup_ok.
Qed.

(** ** What a claim takes *)

Definition claimed_row (lease now : instant) (x : delivery) : delivery := (fst x, claimed_delivery lease now (snd x)).

Lemma claim_each_spec user endpoint lease now (L : list delivery) l :
  distinct l -> NoDup (map fst L) -> (forall x, In x L -> In x l /\ due user endpoint now (snd x) = true) ->
  claim_each user endpoint lease now (map fst L) l =
    (map (claimed_row lease now) L,
     map (fun x => if str_in (fst x) (map fst L) then claimed_row lease now x else x) l).
Proof.
  revert l. induction L as [|x L IH]; intros l Hd Hn HL; cbn [map claim_each].
  - f_equal. symmetry. etrans; [|apply map_id]. by apply map_ext_in.
  - apply NoDup_cons in Hn as [Hx Hn]. destruct (HL x (or_introl eq_refl)) as [Hin Hdue].
    rewrite (distinct_found _ _ Hd Hin), Hdue. unfold update_row. rewrite IH; [|apply map_distinct; [|done]|done|].
    + f_equal. rewrite map_map. apply map_ext_in. intros y Hy.
      destruct (String.eqb_spec (fst y) (fst x)) as [E|E].
      * rewrite (distinct_row _ _ _ _ Hd (distinct_found _ _ Hd Hin) Hy E) in *. cbn. rewrite Hdue. cbn.
        rewrite String.eqb_refl. cbn.
        by destruct (str_in (fst x) (map fst L)) eqn:F; [rewrite str_in_spec, <- list_elem_of_In in F|].
      * cbn. by rewrite (proj2 (String.eqb_neq _ _) E).
    + intros y Hy. destruct (_ && _); [by split_and!|apply same_columns_refl].
    + intros y Hy. destruct (HL y (or_intror Hy)) as [Hyl Hyd]. split; [|done]. apply in_map_iff. exists y. split; [|done].
      destruct (String.eqb_spec (fst y) (fst x)) as [E|E]; [|done]. destruct Hx. rewrite <- E. by apply list_elem_of_In, in_map.
Qed.

Lemma exhausted_not_due user endpoint now o : exhausted user endpoint now o = true -> due user endpoint now o = false.
Proof.
  unfold exhausted, due. rewrite !andb_true_iff, Z.leb_le. intros [[_ H] _].
  rewrite (proj2 (Z.ltb_ge _ _) H). by rewrite andb_false_r.
Qed.

Lemma closed_not_due user endpoint now o : due user endpoint now (closed_delivery "failed" now o) = false.
Proof. unfold due. cbn. by rewrite andb_false_r. Qed.

Lemma candidates_same user endpoint limit now l :
  claim_candidates user endpoint limit now (update_rows (exhausted user endpoint now) (closed_delivery "failed" now) l)
  = claim_candidates user endpoint limit now l.
Proof.
  unfold claim_candidates. do 2 f_equal. unfold rows_where, update_rows. induction l as [|x l IH]; [done|]. cbn.
  destruct (exhausted user endpoint now (snd x)) eqn:E; cbn [snd]; rewrite IH; [|done].
  by rewrite closed_not_due, exhausted_not_due.
Qed.

Lemma distinct_keys l : distinct l -> NoDup (map fst l).
Proof.
  intros Hd. apply NoDup_alt. intros i j k Hi Hj. rewrite list_lookup_fmap in Hi, Hj.
  apply fmap_Some in Hi as (x & Ei & ->). apply fmap_Some in Hj as (y & Ej & Hj).
  apply (Hd i j x y); [exact Ei|exact Ej|by left].
Qed.

Lemma candidates_due user endpoint limit now l x :
  In x (claim_candidates user endpoint limit now l) -> In x l /\ due user endpoint now (snd x) = true.
Proof.
  intros Hx. unfold claim_candidates in Hx. apply list_elem_of_In, elem_of_take in Hx as (i & Hi & _).
  apply list_elem_of_lookup_2 in Hi. rewrite sort_by_perm in Hi. by apply list_elem_of_In, filter_In in Hi.
Qed.

Lemma candidates_NoDup user endpoint limit now l : distinct l -> NoDup (map fst (claim_candidates user endpoint limit now l)).
Proof.
  intros Hd. unfold claim_candidates. rewrite <- firstn_map. eapply sublist_NoDup; [|apply sublist_take].
  rewrite sort_by_perm. apply filter_keys_NoDup. by apply distinct_keys.
Qed.

(** What becomes of a delivery when a claim takes [taken] *)
Definition after_claim (user endpoint : string) (until now : instant) (taken : list delivery) (x : delivery) : delivery :=
  if str_in (fst x) (map fst taken) then claimed_row until now x
  else if exhausted user endpoint now (snd x) then (fst x, closed_delivery "failed" now (snd x)) else x.

Lemma claim_body_exact user endpoint limit until now s e :
  distinct (outbox s) -> open_endpoint user endpoint s = Ok e ->
  let taken := claim_candidates user endpoint limit now (outbox s) in
  claim_body user endpoint limit until now s =
    Ok (map (claimed_row until now) taken, with_outbox (map (after_claim user endpoint until now taken) (outbox s)) s).
Proof.
  intros Hd He taken. unfold claim_body. rewrite He.
  cbv beta iota zeta delta [pbind mbind result_bind].
  pose proof (candidates_same user endpoint limit now (outbox s)) as Ht. unfold claim_candidates at 1 in Ht. rewrite Ht.
  fold taken. rewrite claim_each_spec.
  - do 3 f_equal. unfold update_rows. rewrite map_map. apply map_ext_in. intros x Hx. unfold after_claim.
    destruct (exhausted user endpoint now (snd x)) eqn:E; cbn [fst snd]; [|done].
    destruct (str_in (fst x) (map fst taken)) eqn:F; [|done].
    apply str_in_spec, in_map_iff in F as (y & Hy & [Hyl Hdue]%candidates_due).
    rewrite (distinct_row _ _ _ _ Hd (distinct_found _ _ Hd Hx) Hyl Hy) in Hdue. cbn in Hdue. by rewrite exhausted_not_due in Hdue.
  - apply map_distinct; [|done]. intros x _. destruct (exhausted _ _ _ _); [by split_and!|apply same_columns_refl].
  - by apply candidates_NoDup.
  - intros x [Hx Hdue]%candidates_due. split; [|done]. apply in_map_iff. exists x. split; [|done].
    destruct (exhausted user endpoint now (snd x)) eqn:E; [|done]. by rewrite exhausted_not_due in Hdue.
Qed.

(** ** The exclusion *)

(** A delivery that no claim takes before [until] *)
Definition kept (until : instant) o : Prop :=
  o_state o = "acknowledged" \/ o_state o = "delivering" /\ (until <= o_next_attempt_at o)%Z.

Definition held (id : string) (until : instant) l : Prop := exists o, row_by_key id l = Some o /\ kept until o.

(** A step that no report on the delivery makes, no administration of it, and no claim after the lease has ended *)
Inductive undisturbed (id : string) (until : instant) s : hub -> Prop :=
  | stays_observation task user operation now d :
      undisturbed id until s (snd (link_operation task user operation now d s))
  | stays_ledger t : ledger_step s t -> undisturbed id until s t
  | stays_batches t : batch_step s t -> undisturbed id until s t
  | stays_claim user endpoint limit lease now now' seen :
      (now < until)%Z -> undisturbed id until s (snd (claim_outbox user endpoint limit lease now now' seen s))
  | stays_report user endpoint other r now now' :
      other <> id -> undisturbed id until s (snd (acknowledge_outbox user endpoint other r now now' s))
  | stays_reactivation user endpoint delay now now' :
      undisturbed id until s (snd (reactivate_deferred_outbox user endpoint delay now now' s))
  | stays_requeue other now : other <> id -> undisturbed id until s (snd (requeue_delivery other now s))
  | stays_archive other now : other <> id -> undisturbed id until s (snd (archive_delivery other now s))
  | stays_startup g now now' : undisturbed id until s (snd (run_startup_maintenance g now now' s)).

(** Every step of the hub is one of these, but for the reports on the delivery, its administration and late claims. *)
Lemma disturbances id until s t : hub_step s t -> undisturbed id until s t \/
  (exists user endpoint r now now', t = snd (acknowledge_outbox user endpoint id r now now' s)) \/
  (exists now, t = snd (requeue_delivery id now s) \/ t = snd (archive_delivery id now s)) \/
  exists user endpoint limit lease now now' seen, (until <= now)%Z /\
    t = snd (claim_outbox user endpoint limit lease now now' seen s).
Proof.
  intros [task user o now d|t' Ht|t' Ht|t' [user endpoint limit lease now now' seen|user endpoint k r now now'
    |user endpoint delay now now'|k now|k now]|g now now']; try (left; by constructor).
  - destruct (Z.lt_ge_cases now until); [left; by constructor|]. do 3 right. by exists user, endpoint, limit, lease, now, now', seen.
  - destruct (base.decide (k = id)) as [->|]; [|left; by constructor]. right. left. by exists user, endpoint, r, now, now'.
  - destruct (base.decide (k = id)) as [->|]; [|left; by constructor]. right. right. left. exists now. by left.
  - destruct (base.decide (k = id)) as [->|]; [|left; by constructor]. right. right. left. exists now. by right.
Qed.

Lemma row_by_key_app id l l' o : row_by_key id l = Some o -> row_by_key id (l ++ l') = Some o.
Proof. unfold row_by_key. induction l as [|[k r] l IH]; [done|]. cbn. by destruct (String.eqb id k). Qed.

Lemma held_grown id until l l' : grown l l' -> held id until l -> held id until l'.
Proof. intros (more & -> & _) (o & Ho & H). exists o. split; [|done]. by apply row_by_key_app. Qed.

Lemma row_by_key_map id (g : delivery -> delivery) l :
  (forall x, fst (g x) = fst x) -> row_by_key id (map g l) = option_map (fun o => snd (g (id, o))) (row_by_key id l).
Proof.
  intros Hg. unfold row_by_key. induction l as [|[k o] l IH]; [done|]. cbn. pose proof (Hg (k, o)) as E.
  destruct (g (k, o)) as [k' o'] eqn:F. cbn in E. subst k'. destruct (String.eqb_spec id k) as [->|_]; [|exact IH].
  cbn. by rewrite F.
Qed.

Lemma held_map id until (g : delivery -> delivery) l :
  (forall x, fst (g x) = fst x) -> (forall o, kept until o -> kept until (snd (g (id, o)))) ->
  held id until l -> held id until (map g l).
Proof. intros Hg Hk (o & Ho & H). exists (snd (g (id, o))). split; [by rewrite row_by_key_map, Ho|by apply Hk]. Qed.

(** An update that leaves the delivery alone, or keeps it from being claimed *)
Lemma held_rows id until p f l :
  (forall o, p o = true -> kept until o -> kept until (f o)) -> held id until l -> held id until (update_rows p f l).
Proof.
  intros Hf. apply held_map; [intros x; by destruct (p (snd x))|]. intros o Ho. cbn.
  destruct (p o) eqn:E; [by apply Hf|done].
Qed.

Lemma held_row id until other p f l : other <> id -> held id until l -> held id until (update_row other p f l).
Proof.
  intros Hne. apply held_map; [intros x; by destruct (_ && _)|]. intros o Ho. cbn.
  apply String.eqb_neq in Hne. by rewrite String.eqb_sym, Hne.
Qed.

Lemma kept_states until o : kept until o -> o_state o = "acknowledged" \/ o_state o = "delivering".
Proof. intros [H|[H _]]; auto. Qed.

Lemma kept_not_due user endpoint until now o : (now < until)%Z -> kept until o ->
  due user endpoint now o = false /\ exhausted user endpoint now o = false.
Proof.
  intros Hnow [Hs|[Hs Hu]]; unfold due, exhausted; rewrite Hs; cbn [str_in existsb String.eqb Ascii.eqb Bool.eqb orb andb].
  - by rewrite !andb_false_r.
  - rewrite (proj2 (Z.leb_gt _ _)) by lia. by rewrite !andb_false_r.
Qed.

Lemma held_claim_each id until user endpoint lease now ids l :
  (now < until)%Z -> held id until l ->
  held id until (snd (claim_each user endpoint lease now ids l)) /\ ~ In id (map fst (fst (claim_each user endpoint lease now ids l))).
Proof.
  intros Hnow. revert l. induction ids as [|k ids IH]; intros l Hl; cbn; [by split; [|intros []]|].
  destruct (row_by_key k l) as [o|] eqn:E; [|by apply IH]. destruct (due user endpoint now o) eqn:Hdue; [|by apply IH].
  destruct (String.eqb_spec k id) as [->|Hk].
  { destruct Hl as (o' & Ho' & Hkept). rewrite Ho' in E. injection E as ->.
    destruct (kept_not_due user endpoint _ _ _ Hnow Hkept). congruence. }
  match goal with |- context [claim_each ?a ?b ?c ?d ?e ?f] => specialize (IH f); destruct (claim_each a b c d e f) end.
  cbn in *. destruct IH as [IH1 IH2]; [by apply held_row|split; [done|by intros [?|?]]].
Qed.

Lemma held_claim id until user endpoint limit lease now s claimed s' :
  claim_body user endpoint limit lease now s = Ok (claimed, s') -> (now < until)%Z -> held id until (outbox s) ->
  held id until (outbox s') /\ ~ In id (map fst claimed).
Proof.
  intros (l' & E & ->)%claim_body_spec Hnow Hheld. cbn.
  replace claimed with (fst (claimed, l')) by done. replace l' with (snd (claimed, l')) at 1 by done. rewrite <- E.
  apply held_claim_each; [done|]. apply held_rows; [|done]. intros o Hx Hk.
  destruct (kept_not_due user endpoint _ _ _ Hnow Hk). congruence.
Qed.

Lemma held_administer id until other states message f s x s' : other <> id ->
  administer other states message f s = Ok (x, s') -> held id until (outbox s) -> held id until (outbox s').
Proof.
  intros Hne H. unfold administer, get_delivery in H. hub_inv H.
  destruct (row_by_key other (outbox s)) as [o|]; [|done]. injection E as -> _.
  apply write_delivery_spec in H as [_ ->]. by apply held_row.
Qed.

Lemma deferred_not_kept until o : kept until o -> o_state o = "deferred" -> False.
Proof. intros [H|H]%kept_states; by rewrite H. Qed.

Lemma held_reactivation id until user endpoint delay now now' s :
  held id until (outbox s) -> held id until (outbox (snd (reactivate_deferred_outbox user endpoint delay now now' s))).
Proof.
  unfold reactivate_deferred_outbox.
  apply (transaction_rel (fun s s' => held id until (outbox s) -> held id until (outbox s'))); [done|].
  intros a t H Hs. cbv beta in H. hub_inv H. cbn.
  assert (Hno : forall (p : delivery_row -> bool) f l, (forall o, p o = true -> o_state o = "deferred") ->
    held id until l -> held id until (update_rows p f l)).
  { intros p f l Hp. apply held_rows. intros o Ho Hk. destruct (deferred_not_kept _ _ Hk (Hp _ Ho)). }
  apply Hno; [|case_match; [apply Hno; [|apply Hno; [|done]]|done]]; intros o;
    unfold deferred, old_notice, old_message; rewrite ?andb_true_iff, ?String.eqb_eq; tauto.
Qed.

Lemma held_startup id until g now now' s :
  held id until (outbox s) -> held id until (outbox (snd (run_startup_maintenance g now now' s))).
Proof.
  unfold run_startup_maintenance. apply (transaction_rel (fun s s' => held id until (outbox s) -> held id until (outbox s'))); [done|].
  intros a t H Hs. cbv beta zeta in H. hub_inv H. apply orphans_frame in E as [_ E]. cbn.
  apply held_rows; [intros o _ _; by left|]. by rewrite E, repairs_outbox.
Qed.

Lemma held_undisturbed id until s s' : undisturbed id until s s' -> held id until (outbox s) -> held id until (outbox s').
Proof.
  intros [task user operation now d|t Ht|t Ht|user endpoint limit lease now now' seen Hnow|user endpoint other r now now' Hne
    |user endpoint delay now now'|other now Hne|other now Hne|g now now'].
  - apply held_grown. by apply observation_quiet.
  - apply held_grown. by apply ledger_quiet.
  - apply held_grown. by apply batch_told.
  - unfold claim_outbox. destruct (open_endpoint _ _ seen) as [found|]; [|done]. destruct (existsb _ _); [|done].
    apply (transaction_rel (fun s s' => held id until (outbox s) -> held id until (outbox s'))); [done|].
    intros a t H Hs. by apply (held_claim id until) in H as [H _].
  - unfold acknowledge_outbox. destruct (_ && _); [done|].
    apply (transaction_rel (fun s s' => held id until (outbox s) -> held id until (outbox s'))); [done|].
    intros a t H. cbv beta in H. destruct (row_by_key other (outbox s)) as [o'|] eqn:E; [|done].
    destruct (addressed user endpoint o'); [|done]. apply write_delivery_spec in H as [_ ->]. by apply held_row.
  - apply held_reactivation.
  - unfold requeue_delivery. apply (transaction_rel (fun s s' => held id until (outbox s) -> held id until (outbox s'))); [done|].
    intros a t. by apply held_administer.
  - unfold archive_delivery. apply (transaction_rel (fun s s' => held id until (outbox s) -> held id until (outbox s'))); [done|].
    intros a t. by apply held_administer.
  - apply held_startup.
Qed.

Lemma with_outbox_same s : with_outbox (outbox s) s = s.
Proof. by destruct s. Qed.

(** ** Properties *)

(** In every reachable hub the identifiers of the deliveries are unique and no endpoint is told the same thing
    twice; a delivery has been attempted at most five times since it was last put back, at least once while it is being
    delivered; and it has a receipt exactly when it is acknowledged, unless it was archived afterwards. *)
Theorem deliveries_invariant s : reachable_hub s ->
  distinct (outbox s) /\ forall id o, row_by_key id (outbox s) = Some o -> delivery_ok o.
Proof.
  intros [Hd Hf]%hub_outbox_ok. split; [done|]. intros id o Ho%assoc_In.
  by apply (proj1 (List.Forall_forall _ _) Hf) in Ho.
Qed.

(** A claim takes exactly the first deliveries, by creation, that are due at the endpoint: pending ones, and ones whose
    lease has run out before their fifth attempt.  Each gets the lease and one more attempt; a delivery whose fifth
    attempt has run out becomes failed, and every other delivery stays as it is. *)
Theorem claim_exact user endpoint limit lease now now' s e :
  reachable_hub s -> open_endpoint user endpoint s = Ok e ->
  let until := (now' + seconds (bound lease 5 300))%Z in
  let taken := claim_candidates user endpoint (Z.to_nat (bound limit 1 100)) now (outbox s) in
  claim_outbox user endpoint limit lease now now' s s =
    (Ok (map (claimed_row until now) taken), with_outbox (map (after_claim user endpoint until now taken) (outbox s)) s).
Proof.
  intros [Hd _]%hub_outbox_ok He until taken. unfold claim_outbox. rewrite He.
  destruct (existsb _ (outbox s)) eqn:E.
  - unfold transaction. by rewrite (claim_body_exact _ _ _ _ _ _ _ Hd He).
  - assert (forall x, In x (outbox s) -> due user endpoint now (snd x) = false /\ exhausted user endpoint now (snd x) = false) as Hno.
    { intros x Hx. apply orb_false_iff. apply not_true_iff_false. intros Ht. apply not_true_iff_false in E.
      apply E, existsb_exists. by exists x. }
    assert (taken = []) as ->.
    { destruct taken as [|x l] eqn:F; [done|]. assert (In x taken) as [Hx Hdue]%candidates_due by (rewrite F; by left).
      by rewrite (proj1 (Hno x Hx)) in Hdue. }
    cbn. rewrite (map_ext_in _ id), map_id, with_outbox_same; [done|].
    intros x Hx. unfold after_claim. cbn. by rewrite (proj2 (Hno x Hx)).
Qed.

(** C34. Whoever has claimed a delivery has it alone until the lease ends: whatever the methods of the hub do meanwhile
    (operations, interactions, batches and messages that are recorded, other claims, reports on other deliveries, the
    activity of endpoints, the administration of other deliveries, a restart), no other claim returns it, unless
    somebody reports on that delivery or an administrator moves it. *)
Theorem claim_excludes user endpoint limit lease now now' seen s claimed s1 id s2 user' endpoint' limit' lease' t t' seen' claimed' s3 :
  reachable_hub s -> claim_outbox user endpoint limit lease now now' seen s = (Ok claimed, s1) -> In id (map fst claimed) ->
  let until := (now' + seconds (bound lease 5 300))%Z in
  rtc (undisturbed id until) s1 s2 -> (t < until)%Z ->
  claim_outbox user' endpoint' limit' lease' t t' seen' s2 = (Ok claimed', s3) -> ~ In id (map fst claimed').
Proof.
  intros [Hd _]%hub_outbox_ok H Hid until Hsteps Ht H'.
  assert (held id until (outbox s1)) as Hheld.
  { unfold claim_outbox in H. destruct (open_endpoint _ _ seen); [|done]. destruct (existsb _ _); [|injection H as <- <-; destruct Hid].
    unfold transaction in H. destruct (claim_body _ _ _ _ _ s) as [[c s']|] eqn:E; [|done]. injection H as -> ->.
    assert (exists e, open_endpoint user endpoint s = Ok e) as [e He].
    { unfold claim_body in E. hub_inv E. by eexists. }
    rewrite (claim_body_exact _ _ _ _ _ _ _ Hd He) in E. injection E as <- <-. cbn.
    rewrite map_map in Hid. apply in_map_iff in Hid as (x & Hx & Hin). cbn in Hx. subst id.
    pose proof (candidates_due _ _ _ _ _ _ Hin) as [Hxl _].
    eexists. rewrite row_by_key_map, (distinct_found _ _ Hd Hxl).
    - cbn. unfold after_claim. cbn [fst snd]. rewrite (proj2 (str_in_spec _ _) (in_map fst _ _ Hin)).
      split; [done|]. right. split; [done|]. apply Z.le_refl.
    - intros y. unfold after_claim. by repeat case_match. }
  assert (held id until (outbox s2)) as Hheld2.
  { clear H' H Hid Hd. induction Hsteps as [|x y z Hxy _ IH]; [done|]. apply IH. by apply (held_undisturbed id until x). }
  unfold claim_outbox in H'. destruct (open_endpoint _ _ seen'); [|done]. destruct (existsb _ _); [|injection H' as <- _; intros []].
  unfold transaction in H'. destruct (claim_body _ _ _ _ _ s2) as [[c s']|] eqn:E; [|done]. injection H' as -> ->.
  exact (proj2 (held_claim id until _ _ _ _ _ _ _ _ E Ht Hheld2)).
Qed.

(** C35. A report does not ask who holds the delivery, nor whether it is settled already: the failure that a host reports
    late, after another one has delivered and acknowledged, takes the receipt away and puts the delivery back, and it is
    due again when the retry time has passed. *)
Theorem late_report_redelivers user endpoint id o r now now' t s :
  row_by_key id (outbox s) = Some o -> addressed user endpoint o = true ->
  o_state o = "acknowledged" -> (o_attempt_count o < 5)%Z ->
  rp_succeeded r = false -> rp_defer_until_activity r = false ->
  (now' + seconds (bound (rp_retry_after_seconds r) 1 300) <= t)%Z ->
  exists o' s', acknowledge_outbox user endpoint id r now now' s = (Ok (id, o'), s') /\
    row_by_key id (outbox s') = Some o' /\ o_state o' = "pending" /\ o_acknowledged_at o' = None /\
    due user endpoint t o' = true.
Proof.
  intros Hrow Ha Hs Hn Hf Hdefer Ht. unfold acknowledge_outbox. rewrite Hf. cbn [andb]. unfold transaction.
  rewrite Hrow, Ha. do 2 eexists. split; [done|]. cbn. unfold update_row. rewrite row_by_key_map, Hrow.
  - cbn. rewrite String.eqb_refl. cbn. unfold reported_delivery. rewrite Hf, Hdefer, (proj2 (Z.leb_gt _ _) Hn). cbn.
    split_and!; [done..|]. unfold due, addressed. cbn. unfold addressed in Ha. rewrite Ha, (proj2 (Z.ltb_lt _ _) Hn). cbn.
    by apply Z.leb_le.
  - intros x. by destruct (_ && _).
Qed.
End OutboxFacts.

(** ** Evaluation *)

Module OutboxDemo.
Import TaskDemo.
#[local] Open Scope Z_scope.
#[local] Open Scope string_scope.
#[local] Existing Instance ascii_tables.
#[local] Existing Instance ascii_digits.
#[local] Existing Instance plain_urls.

(** The delivery of the task's creation, and the hub after a claim of a minute *)
Definition creation : string := "v1:e1".
Definition claiming : result (list delivery) * hub := claim_outbox "alice" "e1" 10 60 100 100 with_task with_task.
Definition with_claim : hub := snd claiming.
Definition delivered : hub := snd (acknowledge_outbox "alice" "e1" creation (Report true 5 false) 200 200 with_claim).

Lemma deliveries_invariant_witness : exists o, row_by_key creation (outbox with_claim) = Some o /\
  o_state o = "delivering" /\ 1 <= o_attempt_count o <= 5.
Proof.
  destruct (row_by_key creation (outbox with_claim)) as [o|] eqn:E; [|vm_compute in E; discriminate E].
  assert (o_state o = "delivering") as Hs by (vm_compute in E; injection E as <-; reflexivity).
  assert (reachable_hub with_claim) as Hr.
  { unfold with_claim. eapply reachable_step; [exact reach_task|]. apply in_outbox, claims. }
  destruct (deliveries_invariant with_claim Hr) as [_ Hok].
  pose proof (Hok creation o E) as Ho. exists o. split; [reflexivity|]. split; [exact Hs|].
  split; [exact (ok_delivering _ Ho Hs)|exact (proj2 (ok_attempts _ Ho))].
Defined.

Lemma claim_exact_witness : exists l, fst claiming = Ok l /\ map fst l = [creation] /\ map (fun x => o_attempt_count (snd x)) l = [1].
Proof.
  destruct (open_endpoint "alice" "e1" with_task) as [e|] eqn:E; [|vm_compute in E; discriminate E].
  pose proof (claim_exact "alice" "e1" 10 60 100 100 with_task e reach_task E) as H. unfold claiming. rewrite H. clear H.
  eexists. split; [reflexivity|]. split; vm_compute; reflexivity.
Defined.

(** Another claim, long before the minute is over *)
Lemma claim_excludes_witness : exists claimed', 
  fst (claim_outbox "alice" "e1" 10 60 2000000 2000000 with_claim (snd (touch_endpoint "e1" "alice" 1000000 with_claim))) = Ok claimed' /\
  ~ In creation (map fst claimed').
Proof.
  destruct claiming as [[l|] s1] eqn:E; [|vm_compute in E; discriminate E].
  assert (In creation (map fst l)) as Hin.
  { apply (f_equal fst) in E. vm_compute in E. injection E as <-. left. reflexivity. }
  assert (s1 = with_claim) as -> by exact (eq_sym (f_equal snd E)).
  destruct (claim_outbox "alice" "e1" 10 60 2000000 2000000 with_claim (snd (touch_endpoint "e1" "alice" 1000000 with_claim)))
    as [[l'|] s3] eqn:E'; [|vm_compute in E'; discriminate E'].
  exists l'. split; [reflexivity|].
  refine (claim_excludes "alice" "e1" 10 60 100 100 with_task with_task l with_claim creation _ _ _ _ _ _ _ _ l' s3 reach_task E Hin _ _ E').
  - apply rtc_once. apply stays_ledger. apply touches_endpoint.
  - vm_compute. reflexivity.
Defined.

(** A report of failure after the acknowledgement: the delivery is claimed once more. *)
Lemma late_report_redelivers_witness : exists s', 
  snd (acknowledge_outbox "alice" "e1" creation (Report false 5 false) 300 300 delivered) = s' /\
  option_map o_state (row_by_key creation (outbox delivered)) = Some "acknowledged" /\
  option_map o_state (row_by_key creation (outbox s')) = Some "pending" /\
  exists l, fst (claim_outbox "alice" "e1" 10 60 6000000 6000000 s' s') = Ok l /\ map fst l = [creation].
Proof.
  destruct (row_by_key creation (outbox delivered)) as [o|] eqn:E; [|vm_compute in E; discriminate E].
  destruct (late_report_redelivers "alice" "e1" creation o (Report false 5 false) 300 300 6000000 delivered E)
    as (o' & s' & H & Hrow & Hs & _).
  1-3: vm_compute in E; injection E as <-; vm_compute; reflexivity.
  1-2: reflexivity.
  1: vm_compute; discriminate.
  exists s'. rewrite H, Hrow. cbn [snd option_map]. rewrite Hs. split; [reflexivity|].
  split; [vm_compute in E; injection E as <-; vm_compute; reflexivity|]. split; [reflexivity|].
  apply (f_equal snd) in H. cbn [snd] in H. rewrite <- H. eexists. split; vm_compute; reflexivity.
Defined.
End OutboxDemo.
