(* ===== verification/TaskLedgerFacts.v ===== *)
(** * Theorems about the tasks of the hub

    The invariant of the tasks and of what is linked to them, and what moves the status of a task that has ended. *)

From S2P Require Import Prelude PyStr Json Store InputValidation TaskStateRules TaskTables TaskBatches TaskLedger TaskOutbox TaskContinuations TaskArtifacts TaskFrames TaskSteps TaskDemo.

#[local] Open Scope list_scope.

(** ** The invariant *)

Record task_ok (t : task_row) : Prop := TaskOk {
  ok_status : In (t_status t) TASK_STATUSES;
  ok_finished : t_finished_at t = None <-> In (t_status t) ACTIVE_TASK_STATUSES;
  ok_version : (1 <= t_version t)%Z;
}.

(** The columns that no update touches, and the version that none takes back *)
Definition same_identity (t t' : task_row) : Prop :=
  t_user_subject t' = t_user_subject t /\ t_agent_host t' = t_agent_host t /\ t_host_task_key t' = t_host_task_key t
  /\ t_origin_endpoint_id t' = t_origin_endpoint_id t /\ (t_version t <= t_version t')%Z.

Section LedgerFacts.
Context {tables : UnicodeTables} {digits : UnicodeDigits} {urls : UrlTables}.
Implicit Types (s : hub) (t : task_row).

(** One task for a key of a host *)
Definition keys_unique s : Prop := forall i j t u, tasks s !! i = Some t -> tasks s !! j = Some u ->
  same_task (t_user_subject t) (t_agent_host t) (t_host_task_key t) u = true -> i = j.

(** A link leads to a task of the same user. *)
Definition links_ok s : Prop :=
  (forall o l, operation_links s !! o = Some l -> exists t, tasks s !! l_task_id l = Some t /\ t_user_subject t = l_user_subject l) /\
  (forall i l, interaction_links s !! i = Some l -> exists t, tasks s !! i_task_id l = Some t /\ t_user_subject t = i_user_subject l).

Definition tasks_ok s : Prop := (forall id t, tasks s !! id = Some t -> task_ok t) /\ keys_unique s /\ links_ok s.

(** Every task is still there, and the invariant is kept. *)
Definition tasks_stay s s' : Prop := forall id t, tasks s !! id = Some t -> exists t', tasks s' !! id = Some t' /\ same_identity t t'.

Definition sound s s' : Prop := tasks_stay s s' /\ (tasks_ok s -> tasks_ok s').

Lemma same_identity_refl t : same_identity t t.
Proof. split_and!; (done || lia). Qed.

Lemma same_identity_trans t u v : same_identity t u -> same_identity u v -> same_identity t v.
Proof. intros (? & ? & ? & ? & ?) (? & ? & ? & ? & ?). split_and!; (congruence || lia). Qed.

#[export] Instance sound_preorder : PreOrder sound.
Proof.
  split.
  - intros s. split; [|done]. intros id t H. exists t. split; [done|apply same_identity_refl].
  - intros s1 s2 s3 [H1 H1'] [H2 H2']. split; [|auto]. intros id t Ht. destruct (H1 id t Ht) as (t' & Ht' & Hi).
    destruct (H2 id t' Ht') as (t'' & Ht'' & Hi'). exists t''. split; [done|]. by eapply same_identity_trans.
Qed.

(** ** Updates of tasks *)

Definition good_update (f : task_row -> task_row) : Prop := forall t, same_identity t (f t) /\ (task_ok t -> task_ok (f t)).

Lemma sound_same s s' : tasks s' = tasks s -> operation_links s' = operation_links s ->
  interaction_links s' = interaction_links s -> sound s s'.
Proof.
  intros H1 H2 H3. unfold sound, tasks_stay, tasks_ok, keys_unique, links_ok. rewrite H1, H2, H3. split; [|done].
  intros id t H. exists t. split; [done|apply same_identity_refl].
Qed.

Lemma same_task_of t u t' u' : same_identity t t' -> same_identity u u' ->
  same_task (t_user_subject t') (t_agent_host t') (t_host_task_key t') u'
  = same_task (t_user_subject t) (t_agent_host t) (t_host_task_key t) u.
Proof. intros (-> & -> & -> & _) (Hu & Hh & Hk & _). unfold same_task. by rewrite Hu, Hh, Hk. Qed.

(** Each task is updated in its own way. *)
Lemma tl_sound_update (g : string -> task_row -> task_row) s s' :
  (forall id t, tasks s !! id = Some t -> same_identity t (g id t) /\ (task_ok t -> task_ok (g id t))) ->
  (forall id, tasks s' !! id = g id <$> tasks s !! id) -> operation_links s' = operation_links s ->
  (forall i l', interaction_links s' !! i = Some l' -> exists l, interaction_links s !! i = Some l
     /\ i_task_id l' = i_task_id l /\ i_user_subject l' = i_user_subject l) ->
  sound s s'.
Proof.
  intros Hg Ht Ho Hi. assert (tasks_stay s s') as Hstay.
  { intros id t H. exists (g id t). split; [by rewrite Ht, H|]. by apply (Hg id t). }
  split; [done|]. intros (Hrow & Hkeys & Hl1 & Hl2). split; [|split; [|split]].
  - intros id t. rewrite Ht. intros (t0 & H & ->)%fmap_Some_1. apply (Hg id t0 H). by apply (Hrow id).
  - intros i j t u. rewrite !Ht. intros (t0 & Hti & ->)%fmap_Some_1 (u0 & Huj & ->)%fmap_Some_1 Hsame.
    apply (Hkeys i j t0 u0 Hti Huj). rewrite <- (same_task_of t0 u0 (g i t0) (g j u0)); [done|..]; by apply Hg.
  - intros o l. rewrite Ho. intros H. destruct (Hl1 o l H) as (t & Hti & Hu). destruct (Hstay _ _ Hti) as (t' & Ht' & Hid).
    exists t'. split; [done|]. destruct Hid as (-> & _). done.
  - intros i l' H. destruct (Hi i l' H) as (l & Hl & -> & ->). destruct (Hl2 i l Hl) as (t & Hti & Hu).
    destruct (Hstay _ _ Hti) as (t' & Ht' & Hid). exists t'. split; [done|]. destruct Hid as (-> & _). done.
Qed.

Lemma set_task_lookup id f s k : tasks (set_task id f s) !! k = (fun t => if String.eqb k id then f t else t) <$> tasks s !! k.
Proof.
  unfold set_task, update_key. cbn. destruct (tasks s !! id) as [t|] eqn:E; cbn.
  - destruct (String.eqb_spec k id) as [->|Hne]; [by rewrite lookup_insert_eq, E|].
    rewrite lookup_insert_ne by done. by destruct (tasks s !! k).
  - destruct (String.eqb_spec k id) as [->|Hne]; [by rewrite E|]. by destruct (tasks s !! k).
Qed.

Lemma sound_set_task id f s : (forall t, tasks s !! id = Some t -> same_identity t (f t) /\ (task_ok t -> task_ok (f t))) ->
  sound s (set_task id f s).
Proof.
  intros Hf. apply (tl_sound_update (fun k t => if String.eqb k id then f t else t)); [|apply set_task_lookup|done|].
  - intros k t Hk. destruct (String.eqb_spec k id) as [->|_]; [by apply Hf|]. split; [apply same_identity_refl|done].
  - intros i l Hl. by exists l.
Qed.

Lemma moved_good status operation interaction now finished t :
  task_finished_at status now = Ok finished ->
  same_identity t (moved_task status operation interaction now finished t)
  /\ (task_ok t -> task_ok (moved_task status operation interaction now finished t)).
Proof.
  unfold task_finished_at. rewrite result_raise_if_bind. intros [G [= <-]]. apply negb_false_iff, str_in_spec in G.
  split; [split_and!; (done || cbn; lia)|]. intros [_ _ Hv]. split; [done| |cbn; lia]. cbn [t_finished_at t_status moved_task].
  destruct G as [<-|[<-|[<-|[<-|[<-|[<-|[<-|[<-|[<-|[<-|[]]]]]]]]]]]; vm_compute; intuition congruence.
Qed.

Ltac row_good := split; [split_and!; cbn; (done || lia)|intros []; split; cbn; (done || lia)].

Lemma summarized_good summary t : same_identity t (summarized_task summary t) /\ (task_ok t -> task_ok (summarized_task summary t)).
Proof. row_good. Qed.

Lemma met_good conversation now t : same_identity t (met_task conversation now t) /\ (task_ok t -> task_ok (met_task conversation now t)).
Proof. row_good. Qed.

Lemma counted_good now t : same_identity t (counted_task now t) /\ (task_ok t -> task_ok (counted_task now t)).
Proof. row_good. Qed.

Lemma reported_good now summary t :
  same_identity t (counted_task now (summarized_task summary t)) /\ (task_ok t -> task_ok (counted_task now (summarized_task summary t))).
Proof. row_good. Qed.

Lemma rejoined_good conversation now t :
  same_identity t (rejoined_task conversation now t) /\ (task_ok t -> task_ok (rejoined_task conversation now t)).
Proof. row_good. Qed.

Lemma ended_good status t f : In status ["expired"; "succeeded"; "superseded"] ->
  t_status f = status -> t_finished_at f <> None -> same_identity t f -> same_identity t f /\ (task_ok t -> task_ok f).
Proof.
  intros Hs <- Hf Hi. split; [done|]. intros [_ _ Hv]. split; [|split; [done|]|destruct Hi as (_ & _ & _ & _ & Hle); lia].
  - cbn. cbn in Hs. tauto.
  - cbn in Hs. destruct Hs as [<-|[<-|[<-|[]]]]; vm_compute; intuition congruence.
Qed.

Lemma expired_good t : same_identity t (expired_task t) /\ (task_ok t -> task_ok (expired_task t)).
Proof. apply (ended_good "expired"); [cbn; tauto|done|cbn; by destruct (t_finished_at t)|split_and!; cbn; (done || lia)]. Qed.

Lemma repaired_good status interaction updated finished t : In status ["expired"; "succeeded"; "superseded"] ->
  same_identity t (repaired_task status interaction updated finished t)
  /\ (task_ok t -> task_ok (repaired_task status interaction updated finished t)).
Proof. intros Hs. apply (ended_good status); [done..|split_and!; cbn; (done || lia)]. Qed.

(** ** The parts that the methods are made of *)

Lemma append_event_sound d task user event_type p causation now s x s' :
  _append_event d task user event_type p causation now s = Ok (x, s') -> sound s s'.
Proof. intros (entries & ds & _ & _ & ->)%append_event_spec. by apply sound_same. Qed.

Lemma subscribe_sound fresh task user now s x s' : _subscribe_companion_endpoints fresh task user now s = Ok (x, s') -> sound s s'.
Proof. intros [t ->]%subscribe_spec. by apply sound_same. Qed.

Lemma update_task_state_sound task status operation interaction now s x s' :
  _update_task_state task status operation interaction now s = Ok (x, s') -> sound s s'.
Proof. intros (f & Hf & ->)%update_task_state_spec. apply sound_set_task. intros t _. by apply moved_good. Qed.

Lemma sync_sound task_id task id b now status operation interaction s x s' :
  _sync_batch_task_summary task_id task id b now status operation interaction s = Ok (x, s') -> sound s s'.
Proof.
  intros (c & f & _ & Hf & ->)%sync_spec. etrans; apply sound_set_task; intros t _; [apply summarized_good|by apply moved_good].
Qed.

Lemma enqueue_sound iso fresh entry m source notify s x s' :
  _enqueue_timeline_message iso fresh entry m source notify s = Ok (x, s') -> sound s s'.
Proof. unfold _enqueue_timeline_message. intros H. hub_inv H. by apply sound_same. Qed.

Lemma sound_update_tasks p f s : (forall id t, tasks s !! id = Some t -> p id t = true -> same_identity t (f id t) /\ (task_ok t -> task_ok (f id t))) ->
  sound s (update_tasks p f s).
Proof.
  intros Hf. apply (tl_sound_update (fun id t => if p id t then f id t else t)); [| |done|].
  - intros id t Ht. destruct (p id t) eqn:E; [by apply Hf|]. split; [apply same_identity_refl|done].
  - intros id. cbn. rewrite map_lookup_imap. by destruct (tasks s !! id).
  - intros i l Hl. by exists l.
Qed.

Lemma orphans_sound g now s x s' : _expire_orphan_task_shells g now s = Ok (x, s') -> sound s s'.
Proof.
  assert (forall p s, sound s (update_tasks p (fun _ => expired_task) s)) as Hexp.
  { intros p s0. apply sound_update_tasks. intros id t _ _. apply expired_good. }
  unfold _expire_orphan_task_shells. destruct (operation_rows g); intros [= <- <-]; [etrans|]; apply Hexp.
Qed.

Lemma backfill_sound s : sound s (_backfill_task_interaction_observations s).
Proof.
  apply (tl_sound_update (fun _ t => t)); [intros id t _; split; [apply same_identity_refl|done]| |done|].
  - intros id. cbn. by destruct (tasks s !! id).
  - intros i l'. cbn. rewrite map_lookup_imap. intros (l & Hl & [= <-])%bind_Some. exists l. split; [done|].
    unfold backfilled. by repeat case_match.
Qed.

Lemma repair_sound g s : sound s (_repair_terminal_task_statuses g s).
Proof.
  assert (forall p f s, sound s (update_tasks p (at_once "succeeded" f) s)) as Hdone.
  { intros p f s0. apply sound_update_tasks. intros id t _ _. apply repaired_good. cbn. tauto. }
  assert (forall p f s, sound s (update_tasks p (at_once "superseded" f) s)) as Hsuperseded.
  { intros p f s0. apply sound_update_tasks. intros id t _ _. apply repaired_good. cbn. tauto. }
  unfold _repair_terminal_task_statuses.
  assert (forall s1 s2 : hub, sound s s1 -> sound s1 s2 -> sound s s2) as Htrans by (intros; by etrans).
  destruct (interaction_rows g) as [types|], (operation_rows g) as [operations|].
  - eapply Htrans; [|apply Hsuperseded]. eapply Htrans; [eapply Htrans; [apply Hdone|apply Hdone]|].
    apply sound_update_tasks. intros id t _ _. apply repaired_good. cbn. tauto.
  - eapply Htrans; [apply Hdone|apply Hdone].
  - eapply Htrans; [|apply Hsuperseded]. eapply Htrans; [apply Hdone|].
    apply sound_update_tasks. intros id t _ _. apply repaired_good. cbn. tauto.
  - apply Hdone.
Qed.

(** *** New rows *)

Lemma sound_insert_task id new s rows :
  insert_row id (same_task (t_user_subject new) (t_agent_host new) (t_host_task_key new)) new (tasks s) = Ok rows -> task_ok new ->
  sound s (with_tasks rows s).
Proof.
  intros (Hid & Hclash & ->)%insert_row_Ok Hnew. rewrite exists_where_false in Hclash.
  assert (tasks_stay s (with_tasks (<[id := new]> (tasks s)) s)) as Hstay.
  { intros k u Hk. exists u. split; [|apply same_identity_refl]. cbn. rewrite lookup_insert_ne; [done|]. intros ->. congruence. }
  split; [done|]. intros (Hrow & Hkeys & Hl1 & Hl2). split; [|split; [|split]]; unfold keys_unique; cbn.
  - intros k u [[<- <-]|[_ Hk]]%lookup_insert_Some; [done|by apply (Hrow k)].
  - intros i j u v [[<- <-]|[Hi Hu]]%lookup_insert_Some [[<- <-]|[Hj Hv]]%lookup_insert_Some Hsame; [done| | |by apply (Hkeys i j u v)].
    + by rewrite (Hclash j v Hv) in Hsame.
    + assert (same_task (t_user_subject new) (t_agent_host new) (t_host_task_key new) u = true) as Hc; [|by rewrite (Hclash i u Hu) in Hc].
      unfold same_task in *. rewrite !andb_true_iff, !String.eqb_eq in *. naive_solver.
  - intros o l H. destruct (Hl1 o l H) as (u & Hu & E). destruct (Hstay _ _ Hu) as (u' & Hu' & Eu & _). exists u'. split; [done|congruence].
  - intros o l H. destruct (Hl2 o l H) as (u & Hu & E). destruct (Hstay _ _ Hu) as (u' & Hu' & Eu & _). exists u'. split; [done|congruence].
Qed.

Lemma select_owned_Ok task user s t : _select_owned_task task user s = Ok t <-> tasks s !! task = Some t /\ t_user_subject t = user.
Proof.
  unfold _select_owned_task, _select_task. destruct (tasks s !! task) as [u|]; split; try done.
  - intros H. hub_inv H. injection E as ->. split; [done|]. by apply negb_false_iff, String.eqb_eq in G.
  - intros [[= ->] <-]. cbn. by rewrite String.eqb_refl.
  - by intros [? _].
Qed.

Lemma sound_link_operation id task user now s t : _select_owned_task task user s = Ok t -> sound s (add_operation_link id task user now s).
Proof.
  intros [Ht Hu]%select_owned_Ok. split; [intros k u Hk; exists u; split; [done|apply same_identity_refl]|].
  intros (Hrow & Hkeys & Hl1 & Hl2). split; [|split; [|split]]; cbn; [done..| |done].
  intros o l [[<- <-]|[_ Hl]]%lookup_insert_Some; [by exists t|by apply (Hl1 o)].
Qed.

Lemma sound_link_interaction id task user l s t :
  _select_owned_task task user s = Ok t ->
  (i_task_id l = task /\ i_user_subject l = user) \/
  (exists l0, interaction_links s !! id = Some l0 /\ i_task_id l = i_task_id l0 /\ i_user_subject l = i_user_subject l0) ->
  sound s (with_interaction_links (<[id := l]> (interaction_links s)) s).
Proof.
  intros [Ht Hu]%select_owned_Ok Hcase. split; [intros k u Hk; exists u; split; [done|apply same_identity_refl]|].
  intros (Hrow & Hkeys & Hl1 & Hl2). split; [|split; [|split]]; cbn; [done..|].
  intros o l' [[<- <-]|[_ Hl]]%lookup_insert_Some; [|by apply (Hl2 o)].
  destruct Hcase as [[-> ->]|(l0 & H0 & -> & ->)]; [by exists t|by apply (Hl2 id)].
Qed.

Lemma sound_put_task id old new s : tasks s !! id = Some old -> same_identity old new /\ (task_ok old -> task_ok new) ->
  sound s (with_tasks (<[id := new]> (tasks s)) s).
Proof.
  intros Hid Hnew. apply (tl_sound_update (fun k t => if String.eqb k id then new else t)); cbn; [| |done|by intros i l Hl; exists l].
  - intros k t Hk. destruct (String.eqb_spec k id) as [->|_]; [congruence|]. split; [apply same_identity_refl|done].
  - intros k. destruct (String.eqb_spec k id) as [->|Hne]; [by rewrite lookup_insert_eq, Hid|].
    rewrite lookup_insert_ne by done. by destruct (tasks s !! k).
Qed.

(** Turns every step of a body into soundness. *)
Ltac sounds :=
  repeat match goal with
  | H : _append_event _ _ _ _ _ _ _ _ = Ok _ |- _ => apply append_event_sound in H
  | H : _update_task_state _ _ _ _ _ _ = Ok _ |- _ => apply update_task_state_sound in H
  | H : _subscribe_companion_endpoints _ _ _ _ _ = Ok _ |- _ => apply subscribe_sound in H
  | H : _sync_batch_task_summary _ _ _ _ _ _ _ _ _ = Ok _ |- _ => apply sync_sound in H
  | H : _enqueue_timeline_message _ _ _ _ _ _ _ = Ok _ |- _ => apply enqueue_sound in H
  | H : _expire_orphan_task_shells _ _ _ = Ok _ |- _ => apply orphans_sound in H
  | H : selected_task _ _ = Ok _ |- _ => apply selected_task_same in H; subst
  end.

Ltac task_good := first [apply summarized_good|apply counted_good|apply rejoined_good|apply reported_good].

Ltac sound_here :=
  repeat case_match;
  first [ by apply sound_same
        | by (etrans; [|apply sound_set_task; intros ? _; task_good]; apply sound_same)
        | by (eapply sound_link_operation; eassumption)
        | by (apply sound_set_task; intros ? _; task_good) ].

(** Follows the steps back from the state after to the state before. *)
Ltac sound_chain :=
  repeat match goal with
  | H : sound _ ?s |- sound _ ?s => etrans; [|exact H]; clear H
  | H : sound _ ?s |- sound _ ?t => match t with context [s] => trans s; [|sound_here] end
  end; try sound_here.

Lemma check_task_ok a now t : check_task a now = Ok t -> task_ok t.
Proof. unfold check_task. intros H. hub_inv H. split; cbn; [tauto|tauto|lia]. Qed.

Lemma interaction_linked_sound task user id s t (changed : bool) state now :
  _select_owned_task task user s = Ok t ->
  sound s match interaction_links s !! id with
          | None => with_interaction_links (<[id := InteractionLink task user now (Some state) (Some now)]> (interaction_links s)) s
          | Some l =>
              if changed
              then with_interaction_links (<[id := InteractionLink (i_task_id l) (i_user_subject l) (i_linked_at l)
                                                     (Some state) (Some now)]> (interaction_links s)) s
              else s
          end.
Proof.
  intros Ht. destruct (interaction_links s !! id) as [l0|] eqn:E; [destruct changed; [|done]|];
    apply (sound_link_interaction id task user _ s t Ht); [right; by exists l0|by left].
Qed.

Lemma observation_sound task user o now d s : sound s (snd (link_operation task user o now d s)).
Proof. unfold link_operation. open_step; sounds; sound_chain. Qed.

Lemma ledger_sound s s' : ledger_step s s' -> sound s s'.
Proof.
  intros [].
  - unfold ensure_endpoint. open_step; sounds; sound_chain.
  - unfold touch_endpoint. open_step; sounds; sound_chain.
  - unfold ensure_task. open_step; sounds; sound_chain.
    + match goal with H : select_one _ _ = Some _ |- _ => apply select_one_Some in H as [H _]; apply (sound_put_task _ _ _ _ H) end.
      apply met_good.
    + eapply sound_insert_task; [eassumption|by eapply check_task_ok].
    + match goal with |- sound _ (with_subscriptions _ ?t) => trans t; [|sound_here] end.
      eapply sound_insert_task; [eassumption|by eapply check_task_ok].
  - unfold link_plan_operation. open_step; sounds; sound_chain.
  - unfold record_plan_event. open_step; sounds; sound_chain.
  - unfold record_analysis_phase. open_step; sounds; sound_chain.
  - unfold link_interaction. open_step; sounds; sound_chain; by eapply interaction_linked_sound.
  - unfold complete_task. open_step; sounds; sound_chain.
  - unfold fail_task. open_step; sounds; sound_chain.
  - unfold mark_task_outcome_unknown. open_step; sounds; sound_chain.
  - unfold list_tasks. open_step; sounds; sound_chain.
  - unfold recovery_candidates. open_step; sounds; sound_chain.
  - unfold continuation_candidates. open_step; sounds; sound_chain.
  - unfold set_continuation_candidates. open_step; sounds; sound_chain.
  - unfold select_continuation. open_step; sounds; sound_chain.
  - unfold get_continuation. open_step; sounds; sound_chain.
  - unfold list_continuations. open_step; sounds; sound_chain.
  - unfold link_artifact. open_step; sounds; sound_chain.
  - unfold get_artifact. open_step; sounds; sound_chain.
  - unfold list_artifacts. open_step; sounds; sound_chain.
  - unfold list_user_artifacts. open_step; sounds; sound_chain.
  - unfold refresh_artifact. open_step; sounds; sound_chain.
  - unfold record_artifact_delivery. open_step; sounds; sound_chain.
  - unfold append_timeline_message. open_step; sounds; sound_chain.
Qed.

Lemma batch_sound s s' : batch_step s s' -> sound s s'.
Proof.
  intros [].
  - unfold create_batch. open_batch; sounds; sound_chain.
  - unfold record_batch_item_activity. open_batch; sounds; sound_chain.
  - unfold complete_current_batch_item. open_batch; sounds; sound_chain.
  - unfold fail_current_batch_item. open_batch; sounds; sound_chain.
  - unfold cancel_task. open_batch; sounds; sound_chain.
Qed.

Lemma startup_sound g now now' s : sound s (snd (run_startup_maintenance g now now' s)).
Proof.
  unfold run_startup_maintenance. open_step; sounds.
  eapply (PreOrder_Transitive s); [apply backfill_sound|]. eapply (PreOrder_Transitive (_ s)); [apply repair_sound|].
  etrans; [eassumption|]. by apply sound_same.
Qed.

Lemma outbox_step_tasks s s' : outbox_step s s' -> tasks s' = tasks s /\ operation_links s' = operation_links s
  /\ interaction_links s' = interaction_links s.
Proof.
  set (R := fun s s' : hub => tasks s' = tasks s /\ operation_links s' = operation_links s /\ interaction_links s' = interaction_links s).
  assert (forall s, R s s) as Hr by done. intros []; change (R s s') || idtac.
  - unfold claim_outbox. destruct (open_endpoint _ _ seen); [|done]. destruct (existsb _ _); [|done].
    apply (transaction_rel R); [done|]. intros x t H. unfold claim_body in H. by hub_inv H.
  - unfold acknowledge_outbox. destruct (_ && _); [done|]. apply (transaction_rel R); [done|]. intros x t H. cbv beta in H.
    unfold write_delivery in H. by hub_inv H.
  - apply (transaction_rel R); [done|]. intros x t H. cbv beta in H. by hub_inv H.
  - apply (transaction_rel R); [done|]. intros x t H. unfold administer, write_delivery in H. by hub_inv H.
  - apply (transaction_rel R); [done|]. intros x t H. unfold administer, write_delivery in H. by hub_inv H.
Qed.

Lemma hub_step_sound s s' : hub_step s s' -> sound s s'.
Proof.
  intros [task user o now d|t Ht|t Ht|t Ht|g now now'].
  - apply observation_sound.
  - by apply ledger_sound.
  - by apply batch_sound.
  - apply outbox_step_tasks in Ht as (H1 & H2 & H3). by apply sound_same.
  - apply startup_sound.
Qed.

(** ** Where links come from *)

(** The call that links [o] to a task: it is handed a record of this operation, which names the user of the link. *)
Inductive operation_linked s (o : string) (l : operation_link) : hub -> Prop :=
  | linked_by_observation operation now d :
      _required_text (field operation "operation_id") "operation_id" 256 = Ok o ->
      field operation "user_subject" = JStr (l_user_subject l) ->
      operation_linked s o l (snd (link_operation (l_task_id l) (l_user_subject l) operation now d s))
  | linked_by_plan operation plan key now d :
      _required_text (field operation "operation_id") "operation_id" 256 = Ok o ->
      field operation "user_subject" = JStr (l_user_subject l) ->
      operation_linked s o l (snd (link_plan_operation (l_task_id l) (l_user_subject l) operation plan key now d s)).

Inductive interaction_linked s (i : string) (l : interaction_link) : hub -> Prop :=
  | linked_by_record a now fresh d :
      _required_text (ia_interaction_id a) "interaction_id" 256 = Ok i -> ia_user_subject a = i_user_subject l ->
      or_empty (ia_scoped_task a) = "" \/ or_empty (ia_scoped_task a) = i_task_id l ->
      interaction_linked s i l (snd (link_interaction (i_task_id l) (i_user_subject l) a now fresh d s)).

Definition same_link (l l' : interaction_link) : Prop := i_task_id l' = i_task_id l /\ i_user_subject l' = i_user_subject l.

(** Links stay, and of interactions at least their task and user. *)
Definition links_stay s s' : Prop := operation_links s' = operation_links s /\
  forall i l', interaction_links s' !! i = Some l' -> exists l, interaction_links s !! i = Some l /\ same_link l l'.

#[export] Instance links_stay_preorder : PreOrder links_stay.
Proof.
  split; [intros s; split; [done|]; intros i l Hl; by exists l|].
  intros s1 s2 s3 [H1 H1'] [H2 H2']. split; [congruence|]. intros i l3 H3.
  destruct (H2' i l3 H3) as (l2 & Hl2 & []). destruct (H1' i l2 Hl2) as (l1 & Hl1 & []). exists l1. split; [done|].
  split; congruence.
Qed.

Lemma links_same s s' : operation_links s' = operation_links s -> interaction_links s' = interaction_links s -> links_stay s s'.
Proof. intros H1 H2. split; [done|]. rewrite H2. intros i l Hl. by exists l. Qed.

(** A link that is new has been made by this step. *)
Definition links_traced s s' : Prop :=
  (forall o l, operation_links s' !! o = Some l -> operation_links s !! o = Some l \/ operation_linked s o l s') /\
  (forall i l', interaction_links s' !! i = Some l' ->
     (exists l, interaction_links s !! i = Some l /\ same_link l l') \/ interaction_linked s i l' s').

Lemma stay_traced s s' : links_stay s s' -> links_traced s s'.
Proof. intros [H1 H2]. split; [rewrite H1; by left|]. intros i l Hl. left. by apply H2. Qed.

Lemma orphans_links g now s x s' : _expire_orphan_task_shells g now s = Ok (x, s') -> links_stay s s'.
Proof. unfold _expire_orphan_task_shells. destruct (operation_rows g); intros [= _ <-]; by apply links_same. Qed.

Ltac traces :=
  repeat match goal with
  | H : _append_event _ _ _ _ _ _ _ _ = Ok _ |- _ => apply append_event_spec in H as (? & ? & _ & _ & ->)
  | H : _subscribe_companion_endpoints _ _ _ _ _ = Ok _ |- _ => apply subscribe_spec in H as [? ->]
  | H : _update_task_state _ _ _ _ _ _ = Ok _ |- _ => apply update_task_state_spec in H as (? & _ & ->)
  | H : _sync_batch_task_summary _ _ _ _ _ _ _ _ _ = Ok _ |- _ => apply sync_spec in H as (? & ? & _ & _ & ->)
  | H : _enqueue_timeline_message _ _ _ _ _ _ _ = Ok _ |- _ => unfold _enqueue_timeline_message in H; hub_inv H
  | H : selected_task _ _ = Ok _ |- _ => apply selected_task_same in H; subst
  end.

Ltac links_same_here := repeat case_match; by apply links_same.
Ltac stays :=
  traces; first
  [ links_same_here
  | match goal with H : _expire_orphan_task_shells _ _ _ = Ok _ |- _ => etrans; [by eapply orphans_links|links_same_here] end ].

(** At most the link of this operation is new. *)
Definition links_grow (o : string) (l : operation_link) s s' : Prop :=
  (forall o' l', operation_links s' !! o' = Some l' -> operation_links s !! o' = Some l' \/ o' = o /\ l' = l) /\
  (forall i l', interaction_links s' !! i = Some l' -> exists l, interaction_links s !! i = Some l /\ same_link l l').

Lemma stay_grow o l s s' : links_stay s s' -> links_grow o l s s'.
Proof. intros [H1 H2]. split; [rewrite H1; by left|exact H2]. Qed.

Lemma grow_stay o l s1 s2 s3 : links_grow o l s1 s2 -> links_stay s2 s3 -> links_grow o l s1 s3.
Proof.
  intros [H1 H1'] [H2 H2']. split; [by rewrite H2|]. intros i l3 H3.
  destruct (H2' i l3 H3) as (l2 & Hl2 & Ht & Hu). destruct (H1' i l2 Hl2) as (l1 & Hl1 & ? & ?). exists l1. split; [done|].
  split; congruence.
Qed.

Lemma link_once_links id task user now linked (tell : tx hub string) s x s' :
  (forall s x s', tell s = Ok (x, s') -> links_stay s s') ->
  link_once linked (add_operation_link id task user now) tell s = Ok (x, s') ->
  links_grow id (OperationLink task user now) s s'.
Proof.
  intros Htell. unfold link_once. destruct linked; [intros [= _ <-]; by apply stay_grow|].
  intros H%Htell. eapply grow_stay; [|exact H]. split; cbn; [|intros i l Hl; by exists l].
  intros o l [[<- <-]|[_ Hl]]%lookup_insert_Some; [by right|by left].
Qed.

Lemma told_links d task user kind p cause now s x s' :
  _append_event d task user kind p cause now s = Ok (x, s') -> links_stay s s'.
Proof. intros (? & ? & _ & _ & ->)%append_event_spec. by apply links_same. Qed.

Lemma same_text_spec v user : same_text v user = true <-> v = JStr user.
Proof. destruct v; cbn; try (split; discriminate). rewrite String.eqb_eq. split; [by intros ->|by intros [= ->]]. Qed.

Lemma link_operation_links task user operation id status now d s x s' :
  link_operation_body task user operation id status now d s = Ok (x, s') -> links_grow id (OperationLink task user now) s s'.
Proof.
  intros H. unfold link_operation_body in H. hub_inv H;
    match goal with L : link_once _ _ _ _ = Ok _ |- _ => apply link_once_links in L; [|intros ???; apply told_links] end.
  all: eapply grow_stay; [eassumption|]; stays.
Qed.

Lemma link_plan_operation_links task user operation id plan key now d s x s' :
  link_plan_operation_body task user operation id plan key now d s = Ok (x, s') ->
  links_grow id (OperationLink task user now) s s'.
Proof.
  intros H. unfold link_plan_operation_body in H. hub_inv H;
    match goal with L : link_once _ _ _ _ = Ok _ |- _ => apply link_once_links in L; [|intros ???; apply told_links] end.
  all: eapply grow_stay; [eassumption|]; stays.
Qed.

Lemma grow_traced o l s s' : links_grow o l s s' -> operation_linked s o l s' -> links_traced s s'.
Proof. intros [H1 H2] Hl. split; [intros o' l' [?|[-> ->]]%H1; [by left|by right]|]. intros i l' H%H2. by left. Qed.

Lemma observation_links task user operation now d s : links_traced s (snd (link_operation task user operation now d s)).
Proof.
  destruct (link_operation task user operation now d s) as [r s'] eqn:Hrun. cbn. pose proof Hrun as Hcall.
  unfold link_operation in Hrun.
  destruct (_required_text (field operation "operation_id") "operation_id" 256) as [id|e] eqn:Hreq; cbn in Hrun;
    [|injection Hrun as _ <-; by apply stay_traced].
  destruct (same_text (field operation "user_subject") user) eqn:Huser; cbn in Hrun; [|injection Hrun as _ <-; by apply stay_traced].
  apply same_text_spec in Huser. unfold transaction in Hrun.
  destruct (link_operation_body _ _ _ _ _ _ _ s) as [[x t]|e] eqn:H; injection Hrun as _ <-; [|by apply stay_traced].
  apply link_operation_links in H. eapply grow_traced; [exact H|].
  pose proof (linked_by_observation s id (OperationLink task user now) operation now d Hreq Huser) as Hl. cbn in Hl.
  by rewrite Hcall in Hl.
Qed.

Lemma plan_observation_links task user operation plan key now d s :
  links_traced s (snd (link_plan_operation task user operation plan key now d s)).
Proof.
  destruct (link_plan_operation task user operation plan key now d s) as [r s'] eqn:Hrun. cbn. pose proof Hrun as Hcall.
  unfold link_plan_operation in Hrun.
  destruct (_required_text (field operation "operation_id") "operation_id" 256) as [id|e] eqn:Hreq; cbn in Hrun;
    [|injection Hrun as _ <-; by apply stay_traced].
  destruct (same_text (field operation "user_subject") user) eqn:Huser; cbn in Hrun; [|injection Hrun as _ <-; by apply stay_traced].
  apply same_text_spec in Huser.
  destruct (_required_text (JStr plan) _ _) as [p|]; cbn in Hrun; [|injection Hrun as _ <-; by apply stay_traced].
  destruct (_required_text (JStr key) _ _) as [k|]; cbn in Hrun; [|injection Hrun as _ <-; by apply stay_traced].
  unfold transaction in Hrun.
  destruct (link_plan_operation_body _ _ _ _ _ _ _ _ s) as [[x t]|e] eqn:H; injection Hrun as _ <-; [|by apply stay_traced].
  apply link_plan_operation_links in H. eapply grow_traced; [exact H|].
  pose proof (linked_by_plan s id (OperationLink task user now) operation plan key now d Hreq Huser) as Hl. cbn in Hl.
  by rewrite Hcall in Hl.
Qed.

(** At most the link of this interaction is new. *)
Definition cards_grow (id task user : string) s s' : Prop := operation_links s' = operation_links s /\
  forall i l', interaction_links s' !! i = Some l' -> (exists l, interaction_links s !! i = Some l /\ same_link l l') \/
    i = id /\ i_task_id l' = task /\ i_user_subject l' = user.

Lemma card_links task user id s state now (changed : bool) :
  cards_grow id task user s
    match interaction_links s !! id with
    | None => with_interaction_links (<[id := InteractionLink task user now (Some state) (Some now)]> (interaction_links s)) s
    | Some l =>
        if changed
        then with_interaction_links (<[id := InteractionLink (i_task_id l) (i_user_subject l) (i_linked_at l)
                                               (Some state) (Some now)]> (interaction_links s)) s
        else s
    end.
Proof.
  assert (cards_grow id task user s s) as Hs by (split; [done|]; intros i l Hl; left; by exists l).
  destruct (interaction_links s !! id) as [l0|] eqn:E; [destruct changed; [|done]|]; (split; [done|]); cbn;
    intros i l [[<- <-]|[_ Hl]]%lookup_insert_Some; try (left; by exists l); [left; by exists l0|by right].
Qed.

Lemma link_interaction_links task user id a now fresh d s x s' :
  link_interaction_body task user id a now fresh d s = Ok (x, s') -> cards_grow id task user s s'.
Proof.
  intros H. unfold link_interaction_body in H. hub_inv H; traces; exact (card_links _ _ _ _ _ _ _).
Qed.

Lemma card_observation_links task user a now fresh d s : links_traced s (snd (link_interaction task user a now fresh d s)).
Proof.
  destruct (link_interaction task user a now fresh d s) as [r s'] eqn:Hrun. cbn. pose proof Hrun as Hcall.
  unfold link_interaction in Hrun.
  destruct (_required_text (ia_interaction_id a) "interaction_id" 256) as [id|e] eqn:Hreq; cbn in Hrun;
    [|injection Hrun as _ <-; by apply stay_traced].
  destruct (String.eqb (ia_user_subject a) user) eqn:Huser; cbn in Hrun; [|injection Hrun as _ <-; by apply stay_traced].
  apply String.eqb_eq in Huser.
  destruct (_ && _) eqn:Htask; cbn in Hrun; [injection Hrun as _ <-; by apply stay_traced|].
  assert (or_empty (ia_scoped_task a) = "" \/ or_empty (ia_scoped_task a) = task) as Hscope.
  { destruct (ia_scoped_task a) as [t|]; [|by left]. cbn in *. destruct (String.eqb_spec t ""); [by left|].
    destruct (String.eqb_spec t task); [by right|]. destruct t; [by left|discriminate Htask]. }
  unfold transaction in Hrun.
  destruct (link_interaction_body _ _ _ _ _ _ _ s) as [[x t]|e] eqn:H; injection Hrun as _ <-; [|by apply stay_traced].
  apply link_interaction_links in H as [H1 H2]. split; [rewrite H1; by left|].
  intros i l [?|(-> & <- & <-)]%H2; [by left|right].
  pose proof (linked_by_record s id l a now fresh d Hreq Huser Hscope) as Hl. by rewrite Hcall in Hl.
Qed.

Ltac stay_all := apply stay_traced; open_step; stays.

Lemma ledger_links s s' : ledger_step s s' -> links_traced s s'.
Proof.
  intros [];
    [ unfold ensure_endpoint; stay_all | unfold touch_endpoint; stay_all | unfold ensure_task; stay_all
    | apply plan_observation_links | unfold record_plan_event; stay_all | unfold record_analysis_phase; stay_all
    | apply card_observation_links | unfold complete_task; stay_all | unfold fail_task; stay_all
    | unfold mark_task_outcome_unknown; stay_all | unfold list_tasks; stay_all | unfold recovery_candidates; stay_all
    | unfold continuation_candidates; stay_all | unfold set_continuation_candidates; stay_all | unfold select_continuation; stay_all
    | unfold get_continuation; stay_all | unfold list_continuations; stay_all | unfold link_artifact; stay_all
    | unfold get_artifact; stay_all | unfold list_artifacts; stay_all | unfold list_user_artifacts; stay_all
    | unfold refresh_artifact; stay_all | unfold record_artifact_delivery; stay_all | unfold append_timeline_message; stay_all ].
Qed.

Ltac stay_in_batch := apply stay_traced; open_batch; stays.

Lemma batch_links s s' : batch_step s s' -> links_traced s s'.
Proof.
  intros [];
    [ unfold create_batch; stay_in_batch | unfold record_batch_item_activity; stay_in_batch | unfold complete_current_batch_item; stay_in_batch
    | unfold fail_current_batch_item; stay_in_batch | unfold cancel_task; stay_in_batch ].
Qed.

Lemma backfill_links s : links_stay s (_backfill_task_interaction_observations s).
Proof.
  split; [done|]. intros i l'. cbn. rewrite map_lookup_imap. destruct (interaction_links s !! i) as [l|]; [|done].
  intros [= <-]. exists l. split; [done|]. unfold backfilled. by repeat case_match.
Qed.

Lemma startup_links g now now' s : links_traced s (snd (run_startup_maintenance g now now' s)).
Proof.
  apply stay_traced. unfold run_startup_maintenance. open_step.
  eapply (PreOrder_Transitive s); [apply backfill_links|]. eapply (PreOrder_Transitive _ (_repair_terminal_task_statuses g _)).
  - unfold _repair_terminal_task_statuses. links_same_here.
  - etrans; [by eapply orphans_links|]. by apply links_same.
Qed.

Lemma hub_links s s' : hub_step s s' -> links_traced s s'.
Proof.
  intros [task user o now d|t Ht|t Ht|t Ht|g now now'].
  - apply observation_links.
  - by apply ledger_links.
  - by apply batch_links.
  - apply outbox_step_tasks in Ht as (_ & H2 & H3). by apply stay_traced, links_same.
  - apply startup_links.
Qed.

(** Every link has been made by some call, with the record of the operation or the interaction. *)
Definition operations_traced s : Prop := forall o l, operation_links s !! o = Some l ->
  exists s0 s1, reachable_hub s0 /\ operation_linked s0 o l s1 /\ rtc hub_step s1 s.

Definition interactions_traced s : Prop := forall i l, interaction_links s !! i = Some l ->
  exists s0 s1 l0, reachable_hub s0 /\ interaction_linked s0 i l0 s1 /\ same_link l0 l /\ rtc hub_step s1 s.

Lemma traced_back s s' : reachable_hub s -> hub_step s s' -> operations_traced s /\ interactions_traced s ->
  operations_traced s' /\ interactions_traced s'.
Proof.
  intros Hr Hs [Ho Hi]. pose proof (hub_links _ _ Hs) as [H1 H2]. split.
  - intros o l [Hl|Hl]%H1; [|by exists s, s'].
    destruct (Ho o l Hl) as (s0 & s1 & ? & ? & Hrun). exists s0, s1. do 2 (split; [done|]). by eapply rtc_r.
  - intros i l' [(l & Hl & Ht & Hu)|Hl]%H2; [|by exists s, s', l'].
    destruct (Hi i l Hl) as (s0 & s1 & l0 & ? & ? & [] & Hrun). exists s0, s1, l0. do 2 (split; [done|]).
    split; [split; congruence|]. by eapply rtc_r.
Qed.

(** ** Tasks that have ended *)

Definition ended t : bool := str_in (t_status t) TERMINAL_TASK_STATUSES.

(** What ended stays as it ended. *)
Definition calm s s' : Prop := forall id t, tasks s !! id = Some t -> ended t = true ->
  exists t', tasks s' !! id = Some t' /\ t_status t' = t_status t /\ t_finished_at t' = t_finished_at t.

(** Nothing moves. *)
Definition steady s s' : Prop := forall id t, tasks s !! id = Some t ->
  exists t', tasks s' !! id = Some t' /\ t_status t' = t_status t /\ t_finished_at t' = t_finished_at t.

Definition open_at (task : string) s : Prop := exists t, tasks s !! task = Some t /\ ended t = false.

#[export] Instance calm_preorder : PreOrder calm.
Proof.
  split; [intros s id t H _; by exists t|]. intros s1 s2 s3 H1 H2 id t Ht He. destruct (H1 id t Ht He) as (u & Hu & Es & Ef).
  destruct (H2 id u Hu) as (v & Hv & Es' & Ef'); [unfold ended in *; congruence|]. exists v. split_and!; [done|congruence..].
Qed.

Lemma steady_calm s s' : steady s s' -> calm s s'.
Proof. intros H id t Ht _. by apply H. Qed.

Lemma steady_open task s s' : steady s s' -> open_at task s -> open_at task s'.
Proof. intros H (t & Ht & He). destruct (H task t Ht) as (u & Hu & Es & _). exists u. split; [done|]. unfold ended in *. congruence. Qed.

Lemma steady_same s s' : tasks s' = tasks s -> steady s s'.
Proof. intros H id t Ht. rewrite H. by exists t. Qed.

Lemma steady_set_task id f s : (forall t, t_status (f t) = t_status t /\ t_finished_at (f t) = t_finished_at t) -> steady s (set_task id f s).
Proof.
  intros Hf k t Ht. rewrite set_task_lookup, Ht. cbn. eexists. split; [done|]. destruct (String.eqb k id); [apply Hf|done].
Qed.

Lemma steady_as id f s s' : (forall t, t_status (f t) = t_status t /\ t_finished_at (f t) = t_finished_at t) ->
  tasks s' = tasks (set_task id f s) -> steady s s'.
Proof. intros Hf Hs k t Ht. rewrite Hs. by apply steady_set_task. Qed.

Lemma steady_put id old new s : tasks s !! id = Some old -> t_status new = t_status old -> t_finished_at new = t_finished_at old ->
  steady s (with_tasks (<[id := new]> (tasks s)) s).
Proof.
  intros Hid Hs Hf k t Ht. cbn. destruct (String.eqb_spec k id) as [->|Hne]; [|by rewrite lookup_insert_ne; [exists t|done]].
  rewrite Hid in Ht. injection Ht as <-. rewrite lookup_insert_eq. by exists new.
Qed.

Lemma steady_insert id s s' clash new rows : insert_row id clash new (tasks s) = Ok rows -> tasks s' = rows -> steady s s'.
Proof.
  intros (Hid & _ & ->)%insert_row_Ok Hs k t Ht. rewrite Hs. exists t. split; [|done].
  rewrite lookup_insert_ne; [done|]. intros ->. congruence.
Qed.

Lemma active_open t : str_in (t_status t) ACTIVE_TASK_STATUSES = true -> ended t = false.
Proof. unfold ended. intros H%str_in_spec. cbn in H. by destruct H as [<-|[<-|[<-|[]]]]. Qed.

Lemma update_calm task status operation interaction now s x s' :
  _update_task_state task status operation interaction now s = Ok (x, s') -> open_at task s -> calm s s'.
Proof.
  intros (f & _ & ->)%update_task_state_spec (t & Ht & He) k u Hu Hended. rewrite set_task_lookup, Hu. cbn.
  eexists. split; [done|]. destruct (String.eqb_spec k task) as [->|_]; [congruence|done].
Qed.

Lemma update_tasks_calm p f s : (forall id t, p id t = true -> ended t = false) -> calm s (update_tasks p f s).
Proof.
  intros Hp id t Ht He. cbn. rewrite map_lookup_imap, Ht. cbn. eexists. split; [done|]. destruct (p id t) eqn:E; [|done].
  apply Hp in E. congruence.
Qed.

Lemma orphans_calm g now s x s' : _expire_orphan_task_shells g now s = Ok (x, s') -> calm s s'.
Proof.
  assert (forall p s, (forall id t, p id t = true -> active_task t = true) -> calm s (update_tasks p (fun _ => expired_task) s)) as Hexp.
  { intros p s0 Hp. apply update_tasks_calm. intros id t H. by apply active_open, (Hp id). }
  unfold _expire_orphan_task_shells. destruct (operation_rows g); intros [= <- <-]; [etrans|]; apply Hexp; intros id t;
    unfold orphan_shell, orphan_wait; rewrite !andb_true_iff; try tauto.
  intros [[[[[H _] _] _] _] _]. apply String.eqb_eq in H. unfold active_task. by rewrite H.
Qed.

Lemma repair_calm g s : calm s (_repair_terminal_task_statuses g s).
Proof.
  assert (forall p f s, (forall id t, p id t = true -> active_task t = true) -> calm s (update_tasks p f s)) as Hrep.
  { intros p f s0 Hp. apply update_tasks_calm. intros id t H. by apply active_open, (Hp id). }
  assert (forall s1 s2 : hub, calm s s1 -> calm s1 s2 -> calm s s2) as Htrans by (intros; by etrans).
  unfold _repair_terminal_task_statuses.
  destruct (interaction_rows g) as [types|], (operation_rows g) as [operations|];
    repeat first [apply Hrep | eapply Htrans; [|apply Hrep]]; intros id t;
    unfold delivered_scan, login_done, operation_done, superseded_task; rewrite !andb_true_iff; tauto.
Qed.

(** Turns every step of a body into steadiness, or keeps it as the update of a task. *)
Ltac steadies :=
  repeat match goal with
  | H : _append_event _ _ _ _ _ _ _ _ = Ok _ |- _ => apply append_event_spec in H as (? & ? & _ & _ & ->)
  | H : _subscribe_companion_endpoints _ _ _ _ _ = Ok _ |- _ => apply subscribe_spec in H as [? ->]
  | H : _enqueue_timeline_message _ _ _ _ _ _ _ = Ok _ |- _ => unfold _enqueue_timeline_message in H; hub_inv H
  | H : _expire_orphan_task_shells _ _ _ = Ok _ |- _ => apply orphans_calm in H
  | H : selected_task _ _ = Ok _ |- _ => apply selected_task_same in H; subst
  end.

Ltac steady_here :=
  repeat case_match;
  first [ by apply steady_same
        | match goal with |- context [set_task ?id ?f _] => apply (steady_as id f); [done|reflexivity] end ].

Lemma plan_open t e status : plan_task_status (t_status t) e = Some status -> ended t = false.
Proof. unfold plan_task_status. destruct (str_in _ _) eqn:E; [|done]. intros _. by apply active_open. Qed.

Lemma transition_open t status : terminal_transition (t_status t) status = Apply -> ended t = false.
Proof. unfold terminal_transition. repeat case_match; [done| |done]. intros _. by apply active_open. Qed.

Lemma interaction_open t id state kind linked previous :
  update_task (interaction_observation (facts_of t) id state kind linked previous) = true -> ended t = false.
Proof.
  cbn [interaction_observation update_task]. intros [H _]%andb_true_iff. unfold _interaction_may_update_task in H.
  unfold ended. cbn [facts_of task_status] in H. by destruct (str_in (t_status t) TERMINAL_TASK_STATUSES).
Qed.

(** The task that was read at the start is open, and still is. *)
Ltac opened :=
  match goal with E : _select_owned_task ?task _ ?s = Ok ?row |- open_at ?task ?x =>
    apply (steady_open task s x); [steady_here|apply select_owned_Ok in E as [E _]; exists row; split; [exact E|]]
  end;
  match goal with
  | H : plan_task_status _ _ = Some _ |- _ => by apply plan_open in H
  | H : terminal_transition _ _ = Apply |- _ => by apply transition_open in H
  | H : update_task _ = true |- _ => by apply interaction_open in H
  end.

Ltac calm_chain :=
  repeat match goal with
  | H : calm _ ?s |- calm _ ?s => etrans; [|exact H]; clear H
  | H : _update_task_state _ _ _ _ _ _ = Ok (_, ?s) |- calm _ ?s => etrans; [|apply (update_calm _ _ _ _ _ _ _ _ H)]; clear H
  | H : _ = Ok (_, ?s) |- calm _ ?t => match t with context [s] => trans s; [|apply steady_calm; steady_here] end
  end; try opened; try (apply steady_calm; steady_here).

Lemma ledger_calm s s' : ledger_step s s' -> calm s s'.
Proof.
  intros [].
  - unfold ensure_endpoint. open_step; steadies; calm_chain.
  - unfold touch_endpoint. open_step; steadies; calm_chain.
  - unfold ensure_task. open_step; steadies; calm_chain.
    + match goal with H : select_one _ _ = Some _ |- _ => apply select_one_Some in H as [H _] end.
      apply steady_calm. by eapply steady_put.
    + eapply steady_calm, (steady_insert _ s); [eassumption|reflexivity].
    + eapply steady_calm, (steady_insert _ s); [eassumption|reflexivity].
  - unfold link_plan_operation. open_step; steadies; calm_chain.
  - unfold record_plan_event. open_step; steadies; calm_chain.
  - unfold record_analysis_phase. open_step; steadies; calm_chain.
  - unfold link_interaction. open_step; steadies; calm_chain.
  - unfold complete_task. open_step; steadies; calm_chain.
  - unfold fail_task. open_step; steadies; calm_chain.
  - unfold mark_task_outcome_unknown. open_step; steadies; calm_chain.
  - unfold list_tasks. open_step; steadies; calm_chain.
  - unfold recovery_candidates. open_step; steadies; calm_chain.
  - unfold continuation_candidates. open_step; steadies; calm_chain.
  - unfold set_continuation_candidates. open_step; steadies; calm_chain.
  - unfold select_continuation. open_step; steadies; calm_chain.
  - unfold get_continuation. open_step; steadies; calm_chain.
  - unfold list_continuations. open_step; steadies; calm_chain.
  - unfold link_artifact. open_step; steadies; calm_chain.
  - unfold get_artifact. open_step; steadies; calm_chain.
  - unfold list_artifacts. open_step; steadies; calm_chain.
  - unfold list_user_artifacts. open_step; steadies; calm_chain.
  - unfold refresh_artifact. open_step; steadies; calm_chain.
  - unfold record_artifact_delivery. open_step; steadies; calm_chain.
  - unfold append_timeline_message. open_step; steadies; calm_chain.
Qed.

(** Only one task is touched. *)
Definition elsewhere (task : string) s s' : Prop := forall id t, id <> task -> tasks s !! id = Some t -> tasks s' !! id = Some t.

#[export] Instance elsewhere_preorder task : PreOrder (elsewhere task).
Proof. split; [by intros s id t|]. intros s1 s2 s3 H1 H2 id t Hne Ht. by apply H2, H1. Qed.

Lemma elsewhere_same task s s' : tasks s' = tasks s -> elsewhere task s s'.
Proof. intros H id t _ Ht. by rewrite H. Qed.

Lemma elsewhere_set_task task f s : elsewhere task s (set_task task f s).
Proof. intros id t Hne Ht. rewrite set_task_lookup, Ht. cbn. by rewrite (proj2 (String.eqb_neq _ _) Hne). Qed.

Lemma elsewhere_calm task s s' : elsewhere task s s' -> open_at task s -> calm s s'.
Proof.
  intros H (u & Hu & Hopen) id t Ht He. exists t. split; [|done]. apply H; [|done]. intros ->. congruence.
Qed.

Lemma sync_elsewhere task row id b now status operation interaction s x s' :
  _sync_batch_task_summary task row id b now status operation interaction s = Ok (x, s') -> elsewhere task s s'.
Proof. intros (c & f & _ & _ & ->)%sync_spec. etrans; apply elsewhere_set_task. Qed.

Lemma cancel_batch_elsewhere task user row now s x s' : cancel_batch task user row now s = Ok (x, s') -> elsewhere task s s'.
Proof.
  unfold cancel_batch. intros H. hub_inv H; try reflexivity. etrans; [|by eapply sync_elsewhere]. by apply elsewhere_same.
Qed.

Lemma cancel_calm task user reason cause now fresh d s : calm s (snd (cancel_task task user reason cause now fresh d s)).
Proof.
  unfold cancel_task. apply transaction_rel; [by intros ?|]. intros x s' H. unfold cancel_task_body, end_task, nothing_more in H.
  hub_inv H; [|reflexivity]. apply (elsewhere_calm task).
  - repeat match goal with
    | H : _append_event _ _ _ _ _ _ _ _ = Ok _ |- _ => apply append_event_spec in H as (? & ? & _ & _ & ->)
    | H : _subscribe_companion_endpoints _ _ _ _ _ = Ok _ |- _ => apply subscribe_spec in H as [? ->]
    | H : selected_task _ _ = Ok _ |- _ => apply selected_task_same in H; subst
    | H : cancel_batch _ _ _ _ _ = Ok _ |- _ => apply cancel_batch_elsewhere in H
    | H : _update_task_state _ _ _ _ _ _ = Ok _ |- _ => apply update_task_state_spec in H as (? & _ & ->)
    end.
    etrans; [|by apply elsewhere_same]. etrans; [|eassumption].
    etrans; [|apply elsewhere_set_task]. by apply elsewhere_same.
  - apply select_owned_Ok in E0 as [E0 _]. exists a0. split; [exact E0|by eapply transition_open].
Qed.

Lemma startup_calm g now now' s : calm s (snd (run_startup_maintenance g now now' s)).
Proof.
  unfold run_startup_maintenance. open_step. apply orphans_calm in E.
  trans (_backfill_task_interaction_observations s); [by apply steady_calm, steady_same|]. etrans; [apply repair_calm|].
  etrans; [exact E|]. by apply steady_calm, steady_same.
Qed.

Definition unknown_at (id : string) s : Prop := exists t, tasks s !! id = Some t /\ t_status t = "outcome_unknown".

Lemma steady_unknown id s s' : steady s s' -> unknown_at id s -> unknown_at id s'.
Proof. intros H (t & Ht & Hs). destruct (H id t Ht) as (u & Hu & Es & _). exists u. split; [done|congruence]. Qed.

Lemma update_unknown id task status operation interaction now s x s' :
  _update_task_state task status operation interaction now s = Ok (x, s') -> (id = task -> status = "outcome_unknown") ->
  unknown_at id s -> unknown_at id s'.
Proof.
  intros (f & _ & ->)%update_task_state_spec Hst (t & Ht & Hs). unfold unknown_at. rewrite set_task_lookup, Ht. cbn.
  eexists. split; [done|]. destruct (String.eqb_spec id task) as [E|_]; [by apply Hst|done].
Qed.

Lemma unknown_decision status observed batch linked : status = "outcome_unknown" ->
  update_task (operation_observation status observed batch linked) = true ->
  TaskStateRules.status (operation_observation status observed batch linked) = "outcome_unknown".
Proof. intros ->. cbn [operation_observation update_task TaskStateRules.status]. by intros H%String.eqb_eq. Qed.

Lemma observation_unknown task user o now d s id : unknown_at id s -> unknown_at id (snd (link_operation task user o now d s)).
Proof.
  unfold link_operation. intros Hu.
  repeat (match goal with |- context [snd (match ?c with _ => _ end)] => destruct c end; [|done]).
  unfold transaction. destruct (link_operation_body _ _ _ _ _ _ _ _) as [[x s']|] eqn:H; [|done].
  unfold link_operation_body, link_once in H. hub_inv H; steadies; cbn [snd];
  repeat match goal with
  | H : _update_task_state _ _ _ _ _ _ = Ok (_, ?s) |- unknown_at _ ?s => apply (update_unknown _ _ _ _ _ _ _ _ _ H); clear H
  | H : _update_task_state _ _ _ _ _ _ = Ok (_, ?s) |- unknown_at _ ?t =>
      match t with context [s] => apply (steady_unknown _ s); [steady_here|] end
  end; try done.
  all: intros ->; destruct Hu as (t & Ht & Hs); apply select_owned_Ok in E as [E _]; rewrite Ht in E; injection E as ->;
    by eapply unknown_decision.
Qed.

(** ** Properties *)

(** C39. In every reachable hub: every task has one of the known statuses, has its end exactly when the status is not an
    active one, and is the only task of its user for the host's key.  The row that links an operation or an interaction
    to a task names the task, which is still there, and its user; and it goes back to a call that was handed a record
    of that operation or interaction, a record which names the same user and, where an interaction is scoped, the same
    task. *)
Theorem tasks_invariant s : reachable_hub s -> tasks_ok s /\ operations_traced s /\ interactions_traced s.
Proof.
  intros Hs. induction Hs as [s ->|s s' Hs [Hok Htraced] Hstep].
  - split; [split; [done|]; split; [done|]; by split|]. split; intros ?? H; cbn in H; by rewrite lookup_empty in H.
  - split; [|by eapply traced_back]. by apply hub_step_sound in Hstep as [_ H]; apply H.
Qed.

(** C38. A task that has ended stays as it ended, with the same status and the same end, whatever the ledger, the outbox,
    the maintenance at startup and its own cancellation do: events of plans, interactions, further ends, artifacts,
    selections and repairs.  Only the observation of an operation and the work on a batch can move it, and an
    observation never takes an unknown outcome back. *)
Theorem ended_task_stays s s' id t :
  tasks s !! id = Some t -> ended t = true ->
  (ledger_step s s' \/ outbox_step s s' \/ (exists g now now', s' = snd (run_startup_maintenance g now now' s)) \/
   (exists task user reason cause now fresh d, s' = snd (cancel_task task user reason cause now fresh d s)) ->
   exists t', tasks s' !! id = Some t' /\ t_status t' = t_status t /\ t_finished_at t' = t_finished_at t) /\
  (t_status t = "outcome_unknown" -> (exists task user o now d, s' = snd (link_operation task user o now d s)) ->
   exists t', tasks s' !! id = Some t' /\ t_status t' = "outcome_unknown").
Proof.
  intros Ht He. split.
  - intros [H|[H|[(g & now & now' & ->)|(task & user & reason & cause & now & fresh & d & ->)]]].
    + by apply (ledger_calm s).
    + apply outbox_step_tasks in H as [H _]. rewrite H. by exists t.
    + by apply startup_calm.
    + by apply cancel_calm.
  - intros Hs (task & user & o & now & d & ->). apply observation_unknown. by exists t.
Qed.
End LedgerFacts.

(** ** Evaluation *)

Module LedgerDemo.
Import TaskDemo.
#[local] Open Scope Z_scope.
#[local] Open Scope string_scope.
#[local] Existing Instance ascii_tables.
#[local] Existing Instance ascii_digits.
#[local] Existing Instance plain_urls.

Lemma tasks_invariant_witness :
  (exists t, tasks two_done !! "t1" = Some t /\ t_status t = "succeeded" /\ t_finished_at t <> None) /\
  (exists o l s0 s1, operation_links two_done !! o = Some l /\ reachable_hub s0 /\ operation_linked s0 o l s1 /\
     rtc hub_step s1 two_done).
Proof.
  destruct (tasks_invariant two_done reach_two_done) as ((Hok & _ & _) & Ho & _). split.
  - destruct (tasks two_done !! "t1") as [t|] eqn:E; [|vm_compute in E; discriminate E]. pose proof (Hok "t1" t E) as Ht.
    assert (t_status t = "succeeded") as Hs by (vm_compute in E; injection E as <-; reflexivity).
    exists t. split; [reflexivity|]. split; [exact Hs|]. intros Hn. apply (proj1 (ok_finished _ Ht)) in Hn. rewrite Hs in Hn.
    destruct Hn as [Hn|[Hn|[Hn|[]]]]; discriminate Hn.
  - exists "commit-1". destruct (operation_links two_done !! "commit-1") as [l|] eqn:E; [|vm_compute in E; discriminate E].
    destruct (Ho "commit-1" l E) as (s0 & s1 & H). exists l, s0, s1. split; [reflexivity|exact H].
Defined.

(** A card that opens late, after its task has succeeded *)
Definition late_card : interaction_args := InteractionArgs (JStr "auth-9") "alice" None (Some "pending") (Some "authorization").
Definition after_card : hub := snd (link_interaction "t1" "alice" late_card 50 (fun e => "c-" +:+ e) (draw "v10") two_done).

Lemma ended_task_stays_witness : exists t t', tasks two_done !! "t1" = Some t /\ tasks after_card !! "t1" = Some t' /\
  t_status t' = "succeeded" /\ t_finished_at t' = t_finished_at t /\
  option_map i_last_state (interaction_links after_card !! "auth-9") = Some (Some "pending").
Proof.
  destruct (tasks two_done !! "t1") as [t|] eqn:E; [|vm_compute in E; discriminate E].
  assert (t_status t = "succeeded") as Hs by (vm_compute in E; injection E as <-; reflexivity).
  destruct (ended_task_stays two_done after_card "t1" t E) as [H _]; [unfold ended; rewrite Hs; reflexivity|].
  destruct H as (t' & Ht' & Hs' & Hf); [left; unfold after_card; apply links_interaction|].
  exists t, t'. split; [reflexivity|]. split; [exact Ht'|]. split; [rewrite Hs'; exact Hs|]. split; [exact Hf|].
  vm_compute. reflexivity.
Defined.
End LedgerDemo.
