(* ===== verification/TaskBatchFacts.v ===== *)
(** * Theorems about the batches of the task hub

    The invariant that ties the items of a batch to its counters, and what the completion of an item does when it is
    repeated. *)

From S2P Require Import Prelude PyStr Json Sha256 Store InputValidation TaskStateRules TaskTables TaskBatches TaskLedger TaskOutbox TaskContinuations TaskArtifacts TaskFrames TaskSteps TaskDemo TaskLedgerFacts.

#[local] Open Scope list_scope.

Definition OPEN_ITEM_STATES : list string := ["queued"; "preparing"; "waiting_user"].
Definition LOST_ITEM_STATES : list string := ["failed"; "outcome_unknown"; "canceled"; "expired"; "superseded"].
Definition REACHED_BATCH_STATES : list string :=
  ["running"; "waiting_user"; "succeeded"; "partially_succeeded"; "failed"; "outcome_unknown"; "canceled"; "expired"].

Section BatchFacts.
Context {tables : UnicodeTables} {digits : UnicodeDigits} {urls : UrlTables}.
Implicit Types (s : hub) (b : batch_row) (x : item_row).

(** ** The invariant *)

Definition all_done b : bool := String.eqb (b_state b) "succeeded".

(** Below the current ordinal everything has succeeded, at it the batch is at work, has ended or has failed, and above it
    nothing has been begun. *)
Definition fits b x : Prop :=
  if (x_ordinal x <? b_current_ordinal b)%Z then x_state x = "succeeded"
  else if (x_ordinal x =? b_current_ordinal b)%Z then
    if active_batch b then In (x_state x) OPEN_ITEM_STATES
    else if all_done b then x_state x = "succeeded" else In (x_state x) LOST_ITEM_STATES
  else if active_batch b then x_state x = "queued" else In (x_state x) ["queued"; "canceled"].

Record counted b : Prop := Counted {
  ct_ordinal : (1 <= b_current_ordinal b <= b_total_count b)%Z;
  ct_state : In (b_state b) REACHED_BATCH_STATES;
  ct_finished : b_finished_at b = None <-> active_batch b = true;
  ct_succeeded : b_succeeded_count b = (b_current_ordinal b - 1 + if all_done b then 1 else 0)%Z;
  ct_failed : (0 <= b_failed_count b <= if active_batch b then 0 else 1)%Z;
  ct_end : all_done b = true -> b_current_ordinal b = b_total_count b;
}.

Record batches_ok s : Prop := BatchesOk {
  bk_counted : forall id b, batches s !! id = Some b -> counted b;
  bk_slots : forall id b n, batches s !! id = Some b -> (1 <= n <= b_total_count b)%Z ->
    exists k x, items s !! k = Some x /\ x_batch_id x = id /\ x_ordinal x = n;
  bk_items : forall k x, items s !! k = Some x ->
    exists b, batches s !! x_batch_id x = Some b /\ (1 <= x_ordinal x <= b_total_count b)%Z /\ fits b x;
  bk_unique : forall k k' x x', items s !! k = Some x -> items s !! k' = Some x' ->
    x_batch_id x = x_batch_id x' -> x_ordinal x = x_ordinal x' -> k = k';
  bk_parent : forall id id' b b', batches s !! id = Some b -> batches s !! id' = Some b' ->
    b_parent_task_id b = b_parent_task_id b' -> id = id';
}.

Lemma batches_ok_same s s' : same_batches s s' -> batches_ok s -> batches_ok s'.
Proof. intros [H1 H2] []. split; rewrite ?H1, ?H2; done. Qed.

(** ** Updates of one batch *)

Lemma update_batch_ok s s' id b b' (g : string -> item_row -> item_row) :
  batches_ok s -> batches s !! id = Some b ->
  batches s' = <[id := b']> (batches s) -> (forall k, items s' !! k = g k <$> items s !! k) ->
  b_parent_task_id b' = b_parent_task_id b -> b_total_count b' = b_total_count b -> counted b' ->
  (forall k x, x_batch_id (g k x) = x_batch_id x /\ x_ordinal (g k x) = x_ordinal x) ->
  (forall k x, items s !! k = Some x -> x_batch_id x <> id -> g k x = x) ->
  (forall k x, items s !! k = Some x -> x_batch_id x = id -> (1 <= x_ordinal x <= b_total_count b)%Z -> fits b x -> fits b' (g k x)) ->
  batches_ok s'.
Proof.
  intros [Hc Hsl Hit Hun Hpa] Hb Hbs Hxs Hp Ht Hc' Hcol Hother Hown.
  assert (forall k y, items s' !! k = Some y -> exists x, items s !! k = Some x /\ y = g k x) as Hback.
  { intros k y. rewrite Hxs. intros (x & Hx & ->)%fmap_Some_1. by exists x. }
  split; rewrite ?Hbs.
  - intros i c [[<- <-]|[_ Hi]]%lookup_insert_Some; [done|by apply (Hc i)].
  - intros i c n Hi Hn. assert (exists c0, batches s !! i = Some c0 /\ (1 <= n <= b_total_count c0)%Z) as (c0 & Hc0 & Hn0).
    { apply lookup_insert_Some in Hi as [[<- <-]|[_ Hi]]; [exists b; split; [done|lia]|by exists c]. }
    destruct (Hsl i c0 n Hc0 Hn0) as (k & x & Hx & Hbi & Ho). exists k, (g k x). rewrite Hxs, Hx. cbn.
    destruct (Hcol k x) as [-> ->]. done.
  - intros k y Hy. destruct (Hback k y Hy) as (x & Hx & ->). destruct (Hcol k x) as [-> ->].
    destruct (Hit k x Hx) as (c & Hcx & Hr & Hf). destruct (base.decide (x_batch_id x = id)) as [E|E].
    + exists b'. rewrite E, lookup_insert_eq. assert (c = b) as -> by congruence. rewrite Ht. split_and!; [done|lia|lia|].
      by apply Hown.
    + exists c. rewrite lookup_insert_ne by done. by rewrite (Hother k x Hx E).
  - intros k k' y y' Hy Hy'. destruct (Hback k y Hy) as (x & Hx & ->). destruct (Hback k' y' Hy') as (x' & Hx' & ->).
    destruct (Hcol k x) as [-> ->]. destruct (Hcol k' x') as [-> ->]. by apply Hun.
  - intros i i' c c' [[<- <-]|[Hi Hc0]]%lookup_insert_Some [[<- <-]|[Hi' Hc0']]%lookup_insert_Some Hpar; [done| | |].
    + rewrite Hp in Hpar. by apply (Hpa id i' b c').
    + rewrite Hp in Hpar. by apply (Hpa i id c b).
    + by apply (Hpa i i' c c').
Qed.

Lemma set_batch_batches id f b s : batches s !! id = Some b -> batches (set_batch id f s) = <[id := f b]> (batches s).
Proof. intros H. unfold set_batch, update_key. cbn. by rewrite H. Qed.

Lemma set_both_batches id f b k g s : batches s !! id = Some b -> batches (set_batch id f (set_item k g s)) = <[id := f b]> (batches s).
Proof. intros H. by apply (set_batch_batches id f b (set_item k g s)). Qed.

Lemma set_item_lookup id f s k : items (set_item id f s) !! k = (fun x => if String.eqb k id then f x else x) <$> items s !! k.
Proof.
  unfold set_item, update_key. cbn. destruct (items s !! id) as [x|] eqn:E; cbn.
  - destruct (String.eqb_spec k id) as [->|Hne]; [by rewrite lookup_insert_eq, E|].
    rewrite lookup_insert_ne by done. by destruct (items s !! k).
  - destruct (String.eqb_spec k id) as [->|Hne]; [by rewrite E|]. by destruct (items s !! k).
Qed.

Lemma item_at_Some id n s k x : item_at id n s = Some (k, x) -> items s !! k = Some x /\ x_batch_id x = id /\ x_ordinal x = n.
Proof.
  unfold item_at. intros [H E]%select_one_Some. apply andb_true_iff in E as [E1 E2]. apply String.eqb_eq in E1.
  apply Z.eqb_eq in E2. done.
Qed.

Lemma current_item_Ok id b s k x : _select_current_batch_item id b s = Ok (k, x) ->
  items s !! k = Some x /\ x_batch_id x = id /\ x_ordinal x = b_current_ordinal b.
Proof.
  unfold _select_current_batch_item. destruct (item_at _ _ s) as [[k' x']|] eqn:E; [|done]. intros [= -> ->]. by apply item_at_Some.
Qed.

(** *** The next item *)

Lemma by_ordinal_least l y rest : sort_by by_ordinal l = y :: rest -> forall z, In z l -> (x_ordinal (snd y) <= x_ordinal (snd z))%Z.
Proof.
  intros H z Hz. assert (sorted_by by_ordinal (sort_by by_ordinal l)) as Hs.
  { apply sort_by_sorted; unfold by_ordinal.
    - intros u v. rewrite !Z.leb_le. lia.
    - intros u v w. rewrite !Z.leb_le. lia. }
  rewrite H in Hs. apply StronglySorted_inv in Hs as [_ Hall].
  assert (In z (y :: rest)) as [<-|Hin] by (rewrite <- H, <- list_elem_of_In, sort_by_perm; by apply list_elem_of_In); [lia|].
  rewrite List.Forall_forall in Hall. apply Hall in Hin. by apply Z.leb_le in Hin.
Qed.

Definition waits_after (id : string) (after : Z) x : bool :=
  String.eqb (x_batch_id x) id && (after <? x_ordinal x)%Z && String.eqb (x_state x) "queued".

Lemma next_queued_Some id after s k x : next_queued id after s = Some (k, x) ->
  items s !! k = Some x /\ x_batch_id x = id /\ (after < x_ordinal x)%Z /\ x_state x = "queued" /\
  forall k' x', items s !! k' = Some x' -> x_batch_id x' = id -> (after < x_ordinal x')%Z -> x_state x' = "queued" ->
    (x_ordinal x <= x_ordinal x')%Z.
Proof.
  unfold next_queued. change (select_where _ (items s)) with (select_where (waits_after id after) (items s)).
  destruct (sort_by by_ordinal _) as [|y rest] eqn:E; [done|]. intros [= ->].
  assert (In (k, x) (select_where (waits_after id after) (items s))) as [Hx Hw]%select_where_In.
  { rewrite <- list_elem_of_In, <- (sort_by_perm by_ordinal), E. by left. }
  unfold waits_after in Hw. rewrite !andb_true_iff, !String.eqb_eq, Z.ltb_lt in Hw. destruct Hw as [[H1 H2] H3].
  split_and!; [done..|]. intros k' x' Hx' H1' H2' H3'. apply (by_ordinal_least _ _ _ E (k', x')), select_where_In.
  split; [done|]. unfold waits_after. by rewrite H1', H3', String.eqb_refl, (proj2 (Z.ltb_lt _ _) H2').
Qed.

Lemma next_queued_None id after s : next_queued id after s = None ->
  forall k x, items s !! k = Some x -> x_batch_id x = id -> (after < x_ordinal x)%Z -> x_state x <> "queued".
Proof.
  unfold next_queued. change (select_where _ (items s)) with (select_where (waits_after id after) (items s)).
  destruct (sort_by by_ordinal _) as [|y rest] eqn:E; [|done]. intros _ k x Hx H1 H2 H3.
  assert (In (k, x) (select_where (waits_after id after) (items s))) as Hin.
  { apply select_where_In. split; [done|]. unfold waits_after. by rewrite H1, H3, String.eqb_refl, (proj2 (Z.ltb_lt _ _) H2). }
  apply list_elem_of_In in Hin. rewrite <- (sort_by_perm by_ordinal), E in Hin. by apply elem_of_nil in Hin.
Qed.

(** In an active batch the next queued item is the one after the current one; at the end there is none. *)
Lemma next_of_active s id b k item f :
  batches_ok s -> batches s !! id = Some b -> active_batch b = true ->
  items s !! k = Some item -> x_batch_id item = id -> x_ordinal item = b_current_ordinal b ->
  (forall x, x_batch_id (f x) = x_batch_id x /\ x_ordinal (f x) = x_ordinal x) ->
  match next_queued id (b_current_ordinal b) (set_item k f s) with
  | Some (k', x') => items s !! k' = Some x' /\ x_batch_id x' = id /\ x_ordinal x' = (b_current_ordinal b + 1)%Z
      /\ (b_current_ordinal b + 1 <= b_total_count b)%Z
  | None => b_current_ordinal b = b_total_count b
  end.
Proof.
  intros Hok Hb Ha Hk Hid Hord Hf. pose proof (ct_ordinal _ (bk_counted _ Hok _ _ Hb)) as Hr.
  assert (forall k' x', items s !! k' = Some x' -> x_batch_id x' = id -> (b_current_ordinal b < x_ordinal x')%Z ->
    x_state x' = "queued" /\ items (set_item k f s) !! k' = Some x') as Hlater.
  { intros k' x' Hx Hi Ho. destruct (bk_items _ Hok _ _ Hx) as (c & Hc & _ & Hfit). assert (c = b) as -> by congruence.
    unfold fits in Hfit. rewrite (proj2 (Z.ltb_ge _ _)), (proj2 (Z.eqb_neq _ _)), Ha in Hfit by lia. split; [done|].
    rewrite set_item_lookup, Hx. cbn. destruct (String.eqb_spec k' k) as [->|_]; [|done]. assert (x' = item) as -> by congruence. lia. }
  destruct (next_queued _ _ _) as [[k' x']|] eqn:E.
  - apply next_queued_Some in E as (Hx & Hi & Ho & _ & Hleast). rewrite set_item_lookup in Hx.
    apply fmap_Some_1 in Hx as (x0 & Hx0 & Ex).
    assert (x_ordinal x' = x_ordinal x0 /\ x_batch_id x' = x_batch_id x0) as [Eo Ei]
      by (subst x'; destruct (String.eqb k' k); [destruct (Hf x0) as [-> ->]|]; done).
    destruct (Hlater k' x0 Hx0) as [_ Hsame]; [congruence|lia|]. rewrite set_item_lookup, Hx0 in Hsame. cbn in Hsame.
    assert (x' = x0) as -> by congruence. destruct (bk_items _ Hok _ _ Hx0) as (c & Hc & Hrc & _). assert (c = b) as -> by congruence.
    destruct (bk_slots _ Hok id b (b_current_ordinal b + 1)%Z Hb) as (k2 & x2 & Hx2 & Hi2 & Ho2); [lia|].
    destruct (Hlater k2 x2 Hx2 Hi2) as [Hq2 Hs2]; [lia|]. pose proof (Hleast k2 x2 Hs2 Hi2 ltac:(lia) Hq2).
    split_and!; [done|congruence|lia|lia].
  - destruct (base.decide (b_current_ordinal b = b_total_count b)) as [|Hne]; [done|]. exfalso.
    destruct (bk_slots _ Hok id b (b_current_ordinal b + 1)%Z Hb) as (k2 & x2 & Hx2 & Hi2 & Ho2); [lia|].
    destruct (Hlater k2 x2 Hx2 Hi2) as [Hq2 Hs2]; [lia|]. by apply (next_queued_None _ _ _ E k2 x2 Hs2 Hi2); [lia|].
Qed.

(** ** The operations keep the invariant *)

(** An update of the current item and of its batch *)
Lemma work_ok s s' id b k item f b' :
  batches_ok s -> batches s !! id = Some b -> items s !! k = Some item -> x_batch_id item = id ->
  x_ordinal item = b_current_ordinal b -> batches s' = <[id := b']> (batches s) -> items s' = items (set_item k f s) ->
  b_parent_task_id b' = b_parent_task_id b -> b_total_count b' = b_total_count b ->
  b_current_ordinal b' = b_current_ordinal b -> counted b' ->
  (forall x, x_batch_id (f x) = x_batch_id x /\ x_ordinal (f x) = x_ordinal x) ->
  fits b' (f item) ->
  (forall x, (b_current_ordinal b < x_ordinal x)%Z -> (x_ordinal x <= b_total_count b)%Z -> fits b x -> fits b' x) ->
  batches_ok s'.
Proof.
  intros Hok Hb Hk Hid Hord Hbs Hxs Hp Ht Hc Hcount Hf Hfit Hlater.
  apply (update_batch_ok s s' id b b' (fun j x => if String.eqb j k then f x else x)); try done.
  - intros j. rewrite Hxs. apply set_item_lookup.
  - intros j x. destruct (String.eqb j k); [apply Hf|done].
  - intros j x Hx Hne. destruct (String.eqb_spec j k) as [->|_]; [|done]. congruence.
  - intros j x Hx Hbi Hr Hx0. destruct (String.eqb_spec j k) as [->|Hne]; [by assert (x = item) as -> by congruence|].
    destruct (Z.lt_total (x_ordinal x) (b_current_ordinal b)) as [Hlt|[Heq|Hgt]].
    + unfold fits in *. rewrite Hc. by rewrite (proj2 (Z.ltb_lt _ _) Hlt) in *.
    + destruct Hne. apply (bk_unique _ Hok j k x item Hx Hk); congruence.
    + apply Hlater; [done|lia|done].
Qed.

Lemma counted_active b : counted b -> active_batch b = true ->
  all_done b = false /\ b_finished_at b = None /\ b_failed_count b = 0%Z /\ b_succeeded_count b = (b_current_ordinal b - 1)%Z.
Proof.
  intros Hc Ha. assert (all_done b = false) as Hd.
  { unfold all_done, active_batch in *. apply str_in_spec in Ha. cbn in Ha. by destruct Ha as [<-|[<-|[<-|[]]]]. }
  destruct Hc as [_ _ Hf Hs Hn _]. rewrite Hd in Hs. rewrite Ha in Hn. split_and!; [done|by apply Hf|lia|lia].
Qed.

Lemma fits_later b b' x : (b_current_ordinal b < x_ordinal x)%Z -> b_current_ordinal b' = b_current_ordinal b ->
  active_batch b = true -> fits b x -> fits b' x.
Proof.
  intros Hlt Hc Ha. unfold fits. rewrite Hc, Ha, (proj2 (Z.ltb_ge _ _)), (proj2 (Z.eqb_neq _ _)) by lia.
  intros ->. destruct (active_batch b'); [done|cbn; tauto].
Qed.

Lemma stored_batch_Ok id s b : stored_batch id s = Ok b -> batches s !! id = Some b.
Proof. unfold stored_batch. by destruct (batches s !! id) as [c|]; [intros [= ->]|]. Qed.

Lemma batch_of_task_Some task s id b : batch_of_task task s = Some (id, b) -> batches s !! id = Some b /\ b_parent_task_id b = task.
Proof. unfold batch_of_task. by intros [H E%String.eqb_eq]%select_one_Some. Qed.

Lemma owned_batch_Ok task user s id b : _select_owned_batch_for_task task user s = Ok (id, b) ->
  batches s !! id = Some b /\ b_parent_task_id b = task /\ b_user_subject b = user.
Proof.
  unfold _select_owned_batch_for_task. destruct (select_one _ _) as [[i c]|] eqn:E; [|done]. intros [= -> ->].
  apply select_one_Some in E as [H E]. apply andb_true_iff in E as [E1 E2]. apply String.eqb_eq in E1, E2. done.
Qed.

(** *** Activity *)

Lemma activity_rows_ok s id b k item (waiting : bool) operation interaction now :
  batches_ok s -> batches s !! id = Some b -> active_batch b = true ->
  items s !! k = Some item -> x_batch_id item = id -> x_ordinal item = b_current_ordinal b ->
  batches_ok (set_batch id (fun b => moved_batch (if waiting then "waiting_user" else "running") (b_current_ordinal b)
                                      (b_succeeded_count b) (b_failed_count b) now (b_finished_at b) b)
    (set_item k (worked_item (if waiting then "waiting_user" else "preparing") operation interaction now) s)).
Proof.
  intros Hok Hb Ha Hk Hid Hord. pose proof (bk_counted _ Hok _ _ Hb) as Hc. destruct (counted_active b Hc Ha) as (_ & Hf & Hn & Hs).
  eapply work_ok; [exact Hok|exact Hb|exact Hk|exact Hid|exact Hord|by apply set_both_batches|done..| |done| |].
  - destruct (ct_ordinal b Hc). split; cbn; [lia| |rewrite Hf| | |]; destruct waiting; cbn; (done || lia || tauto).
  - unfold fits. cbn. rewrite Hord, Z.ltb_irrefl, Z.eqb_refl. destruct waiting; cbn; tauto.
  - intros x Hlt _. by apply fits_later.
Qed.

Lemma activity_ok task user operation interaction now d s r s' :
  record_batch_item_activity_body task user operation interaction now d s = Ok (r, s') -> batches_ok s -> batches_ok s'.
Proof.
  unfold record_batch_item_activity_body. intros H Hok. hub_inv H; try done; frames;
    match goal with E : _select_current_batch_item _ _ _ = _ |- _ => apply current_item_Ok in E as (Hk & Hid & Hord) end;
    match goal with E : batch_of_task _ _ = _ |- _ => apply batch_of_task_Some in E as [Hb _] end;
    match goal with E : negb (active_batch _) = false |- _ => apply negb_false_iff in E as Ha end;
    (eapply batches_ok_same; [|by apply (activity_rows_ok s _ _ _ _ (opt_truthy interaction) operation interaction now Hok Hb Ha Hk)]);
    batches_chain.
Qed.

(** *** Completion *)

Lemma completion_last_ok s id b k item operation summary now :
  batches_ok s -> batches s !! id = Some b -> active_batch b = true -> b_current_ordinal b = b_total_count b ->
  items s !! k = Some item -> x_batch_id item = id -> x_ordinal item = b_current_ordinal b ->
  batches_ok (set_batch id (fun c => moved_batch "succeeded" (b_current_ordinal b) (b_succeeded_count b + 1) (b_failed_count c)
                                      now (Some now) c)
    (set_item k (succeeded_item operation summary now) s)).
Proof.
  intros Hok Hb Ha Hlast Hk Hid Hord. pose proof (bk_counted _ Hok _ _ Hb) as Hc. destruct (counted_active b Hc Ha) as (_ & Hf & Hn & Hs).
  eapply work_ok; [exact Hok|exact Hb|exact Hk|exact Hid|exact Hord|by apply set_both_batches|done..| |done| |].
  - destruct (ct_ordinal b Hc). split; cbn; try (done || lia || tauto).
  - unfold fits. cbn. by rewrite Hord, Z.ltb_irrefl, Z.eqb_refl.
  - intros x Hlt Hle. lia.
Qed.

Lemma completion_next_ok s id b k item k' x' operation summary now :
  batches_ok s -> batches s !! id = Some b -> active_batch b = true -> (b_current_ordinal b + 1 <= b_total_count b)%Z ->
  items s !! k = Some item -> x_batch_id item = id -> x_ordinal item = b_current_ordinal b ->
  items s !! k' = Some x' -> x_batch_id x' = id -> x_ordinal x' = (b_current_ordinal b + 1)%Z ->
  batches_ok (set_item k' (prepared_item now)
    (set_batch id (fun c => moved_batch "running" (x_ordinal x') (b_succeeded_count b + 1) (b_failed_count c) now None c)
      (set_item k (succeeded_item operation summary now) s))).
Proof.
  intros Hok Hb Ha Hmore Hk Hid Hord Hk' Hid' Hord'. pose proof (bk_counted _ Hok _ _ Hb) as Hc.
  destruct (counted_active b Hc Ha) as (_ & Hf & Hn & Hs).
  eapply (update_batch_ok s _ id b _ (fun j x => if String.eqb j k' then prepared_item now x
      else if String.eqb j k then succeeded_item operation summary now x else x));
    [done|done|by apply set_both_batches| |done|done| | | |].
  - intros j. rewrite set_item_lookup. change (items (set_batch ?i ?f ?t)) with (items t). rewrite set_item_lookup.
    destruct (items s !! j) as [x|] eqn:E; [|done]. cbn. f_equal. destruct (String.eqb_spec j k') as [->|_]; [|done].
    destruct (String.eqb_spec k' k) as [->|_]; [|done]. assert (x' = item) as -> by congruence. lia.
  - destruct (ct_ordinal b Hc). rewrite Hord'. split; cbn; (done || lia || tauto).
  - intros j x. by destruct (String.eqb j k'), (String.eqb j k).
  - intros j x Hx Hne. destruct (String.eqb_spec j k') as [->|_]; [congruence|]. destruct (String.eqb_spec j k) as [->|_]; [congruence|done].
  - intros j x Hx Hi Hr Hfit. destruct (String.eqb_spec j k') as [->|Hne'].
    { assert (x = x') as -> by congruence. unfold fits. cbn. rewrite Z.ltb_irrefl, Z.eqb_refl. cbn. tauto. }
    destruct (String.eqb_spec j k) as [->|Hne].
    { assert (x = item) as -> by congruence. unfold fits. cbn. by rewrite (proj2 (Z.ltb_lt _ _)) by lia. }
    destruct (Z.lt_total (x_ordinal x) (b_current_ordinal b)) as [Hlt|[Heq|Hgt]].
    + unfold fits in *. cbn. rewrite (proj2 (Z.ltb_lt _ _)) in Hfit by lia. by rewrite (proj2 (Z.ltb_lt _ _)) by lia.
    + destruct Hne. apply (bk_unique _ Hok j k x item Hx Hk); congruence.
    + unfold fits in *. rewrite (proj2 (Z.ltb_ge _ _)), (proj2 (Z.eqb_neq _ _)), Ha in Hfit by lia. cbn.
      rewrite (proj2 (Z.ltb_ge _ _)) by lia. rewrite Hfit. by destruct (_ =? _)%Z; cbn; [left|].
Qed.

Lemma complete_item_ok task user operation summary row id b k item now d s r s' :
  complete_item task user operation summary row id b (k, item) now d s = Ok (r, s') ->
  batches_ok s -> batches s !! id = Some b -> active_batch b = true ->
  items s !! k = Some item -> x_batch_id item = id -> x_ordinal item = b_current_ordinal b -> batches_ok s'.
Proof.
  unfold complete_item. intros H Hok Hb Ha Hk Hid Hord. cbn [fst snd] in H.
  pose proof (next_of_active s id b k item (succeeded_item operation summary now) Hok Hb Ha Hk Hid Hord) as Hnext.
  specialize (Hnext ltac:(done)). cbv zeta in H.
  destruct (next_queued id (b_current_ordinal b) (set_item k (succeeded_item operation summary now) s)) as [[k' x']|].
  - destruct Hnext as (Hk' & Hid' & Hord' & Hmore). hub_inv H; frames.
    eapply batches_ok_same; [|by apply (completion_next_ok s _ b k item k' x' operation summary now Hok Hb Ha)]. batches_chain.
  - hub_inv H; frames. eapply batches_ok_same; [|by apply (completion_last_ok s _ b k item operation summary now Hok Hb Ha)].
    batches_chain.
Qed.

Lemma completion_ok task user operation n summary now d s r s' :
  complete_current_batch_item_body task user operation n summary now d s = Ok (r, s') -> batches_ok s -> batches_ok s'.
Proof.
  unfold complete_current_batch_item_body. intros H Hok. hub_inv H; try done.
  apply owned_batch_Ok in E0 as (Hb & _). destruct p as [k item]. apply item_at_Some in E2 as (Hk & Hid & Hord).
  apply negb_false_iff in G, G0. apply Z.eqb_eq in G0.
  apply (complete_item_ok _ _ _ _ _ _ _ _ _ _ _ _ _ _ H); (done || congruence).
Qed.

(** *** Failure and cancellation *)

Lemma failure_state item_state succeeded :
  In item_state LOST_ITEM_STATES -> In (batch_failure_status item_state succeeded) ["outcome_unknown"; "partially_succeeded"; "canceled"; "expired"; "failed"].
Proof.
  unfold batch_failure_status. intros Hin. destruct (String.eqb item_state "outcome_unknown"); [cbn; tauto|].
  destruct (negb _); [cbn; tauto|]. destruct (str_in item_state ["canceled"; "expired"]) eqn:E; [|cbn; tauto].
  apply str_in_spec in E. cbn in *. tauto.
Qed.

Lemma lost_batch_ok s id b k item state next_state operation code failed now :
  batches_ok s -> batches s !! id = Some b -> active_batch b = true ->
  items s !! k = Some item -> x_batch_id item = id -> x_ordinal item = b_current_ordinal b ->
  In state LOST_ITEM_STATES -> In next_state ["outcome_unknown"; "partially_succeeded"; "canceled"; "expired"; "failed"] ->
  failed = (b_failed_count b + 1)%Z ->
  batches_ok (set_batch id (fun c => moved_batch next_state (b_current_ordinal c) (b_succeeded_count c) failed now (Some now) c)
    (set_item k (failed_item state operation code now) s)).
Proof.
  intros Hok Hb Ha Hk Hid Hord Hst Hnext ->. pose proof (bk_counted _ Hok _ _ Hb) as Hc.
  destruct (counted_active b Hc Ha) as (_ & Hf & Hn & Hs).
  assert (forall c, b_state c = next_state -> active_batch c = false /\ all_done c = false) as Hend.
  { intros c Hcs. unfold active_batch, all_done. rewrite Hcs. cbn in Hnext.
    by destruct Hnext as [<-|[<-|[<-|[<-|[<-|[]]]]]]. }
  eapply work_ok; [exact Hok|exact Hb|exact Hk|exact Hid|exact Hord|by apply set_both_batches|done..| |done| |].
  - match goal with |- counted ?c => destruct (Hend c eq_refl) as [E1 E2] end. destruct (ct_ordinal b Hc).
    split; rewrite ?E1, ?E2; cbn; try (done || lia). cbn in Hnext. tauto.
  - unfold fits. match goal with |- context [active_batch ?c] => destruct (Hend c eq_refl) as [-> ->] end. cbn.
    by rewrite Hord, Z.ltb_irrefl, Z.eqb_refl.
  - intros x Hlt _. by apply fits_later.
Qed.

Lemma failure_ok task user operation n item_state code now d d' s r s' :
  In item_state LOST_ITEM_STATES ->
  fail_current_batch_item_body task user operation n item_state code now d d' s = Ok (r, s') -> batches_ok s -> batches_ok s'.
Proof.
  unfold fail_current_batch_item_body, fail_item. intros Hst H Hok. hub_inv H; try done; frames.
  all: apply owned_batch_Ok in E0 as (Hb & _); destruct p as [k item]; cbn [fst snd] in *; apply item_at_Some in E3 as (Hk & Hid & Hord).
  apply negb_false_iff in E2. apply Z.eqb_eq in E4.
  eapply batches_ok_same; [|apply (lost_batch_ok s _ b k item item_state (batch_failure_status item_state (b_succeeded_count b))
    operation a1 (b_failed_count b + 1)%Z now Hok Hb E2 Hk Hid)]; [batches_chain|congruence|done|by apply failure_state|done].
Qed.

Lemma cancel_rows_ok s id b now :
  batches_ok s -> batches s !! id = Some b -> active_batch b = true ->
  batches_ok (set_batch id (fun c => moved_batch "canceled" (b_current_ordinal c) (b_succeeded_count c) (b_failed_count c) now (Some now) c)
    (with_items (update_where (open_item id) (canceled_item now) (items s)) s)).
Proof.
  intros Hok Hb Ha. pose proof (bk_counted _ Hok _ _ Hb) as Hc. destruct (counted_active b Hc Ha) as (_ & Hf & Hn & Hs).
  match goal with |- batches_ok (set_batch _ ?f ?t) =>
    eapply (update_batch_ok s _ id b (f b) (fun _ x => if open_item id x then canceled_item now x else x));
      [done|done|by apply (set_batch_batches id f b t)| |done|done| | | |] end.
  - intros k. apply lookup_update_where.
  - destruct (ct_ordinal b Hc). split; cbn; (done || lia || tauto).
  - intros _ x. by destruct (open_item id x).
  - intros _ x _ Hne. unfold open_item. by rewrite (proj2 (String.eqb_neq _ _) Hne).
  - intros _ x _ Hi Hr Hfit. unfold fits in *. rewrite Ha in Hfit. unfold open_item. rewrite Hi, String.eqb_refl. cbn [andb].
    change OPEN_ITEM_STATES with ["queued"; "preparing"; "waiting_user"] in Hfit. cbn [b_current_ordinal moved_batch].
    destruct (Z.ltb_spec (x_ordinal x) (b_current_ordinal b)) as [Hlt|Hge].
    + rewrite Hfit. cbn. by rewrite (proj2 (Z.ltb_lt _ _) Hlt).
    + assert (str_in (x_state x) ["queued"; "preparing"; "waiting_user"] = true) as ->.
      { apply str_in_spec. destruct (_ =? _)%Z; [done|]. rewrite Hfit. by left. }
      cbn. rewrite (proj2 (Z.ltb_ge _ _) Hge). destruct (_ =? _)%Z; cbn; tauto.
Qed.

Lemma cancel_batch_ok task user row now s r s' : cancel_batch task user row now s = Ok (r, s') -> batches_ok s -> batches_ok s'.
Proof.
  unfold cancel_batch. intros H Hok. hub_inv H; try done. frames. apply negb_false_iff in E1.
  apply select_one_Some in E as [Hb _]. eapply batches_ok_same; [exact H|]. by apply (cancel_rows_ok s _ b).
Qed.

(** *** Creation *)

Lemma normalize_ordinals ordinal seen sources l : normalize_items ordinal seen sources = Ok l ->
  length l = length sources /\ forall i n, l !! i = Some n -> n_ordinal n = (ordinal + Z.of_nat i)%Z.
Proof.
  revert ordinal seen l. induction sources as [|source sources IH]; intros ordinal seen l H; cbn in H.
  - injection H as <-. by split; [|intros []].
  - hub_inv H. apply IH in E1 as [Hlen Hord]. split; [cbn; lia|]. intros [|i] n; cbn; [intros [= <-]; cbn; lia|].
    intros Hi. rewrite (Hord i n Hi). lia.
Qed.

(** The rows of the new items, beside the others *)
Lemma insert_items_spec batch fresh now l rows rows' :
  insert_items batch fresh now l rows = Ok rows' ->
  (forall k x, rows !! k = Some x -> rows' !! k = Some x) /\
  (forall k x, rows' !! k = Some x -> rows !! k = Some x \/ exists n, In n l /\ x = fresh_item batch n now) /\
  (forall n, In n l -> exists k, rows' !! k = Some (fresh_item batch n now)) /\
  ((forall k k' x x', rows !! k = Some x -> rows !! k' = Some x' -> x_batch_id x = x_batch_id x' -> x_ordinal x = x_ordinal x' -> k = k') ->
   forall k k' x x', rows' !! k = Some x -> rows' !! k' = Some x' -> x_batch_id x = x_batch_id x' -> x_ordinal x = x_ordinal x' -> k = k').
Proof.
  revert rows. induction l as [|n l IH]; intros rows H; cbn in H.
  - injection H as <-. split; [done|]. split; [by left|]. by split.
  - hub_inv H. apply insert_row_Ok in E as (Hfree & Hclash & ->). rewrite exists_where_false in Hclash.
    destruct (IH _ H) as (Hkeep & Hnew & Hall & Hun). split; [|split; [|split]].
    + intros k x Hk. apply Hkeep. rewrite lookup_insert_ne; [done|]. intros <-. congruence.
    + intros k x [Hk|(m & Hm & ->)]%Hnew; [|right; exists m; split; [by right|done]].
      apply lookup_insert_Some in Hk as [[_ <-]|[_ Hk]]; [right; exists n; split; [by left|done]|by left].
    + intros m [<-|Hm]; [|by apply Hall]. exists (fresh (n_ordinal n)). apply Hkeep. by rewrite lookup_insert_eq.
    + intros Hold. apply Hun. intros k k' x x' [[<- <-]|[_ Hk]]%lookup_insert_Some [[<- <-]|[_ Hk']]%lookup_insert_Some Hb Ho;
        [done|exfalso|exfalso|by apply (Hold k k' x x')].
      * specialize (Hclash k' x' Hk'). unfold same_item in Hclash. cbn in Hb, Ho.
        by rewrite <- Hb, <- Ho, String.eqb_refl, Z.eqb_refl in Hclash.
      * specialize (Hclash k x Hk). unfold same_item in Hclash. cbn in Hb, Ho.
        by rewrite Hb, Ho, String.eqb_refl, Z.eqb_refl in Hclash.
Qed.

Lemma check_batch_Ok a policy user system capability l : check_batch a = Ok (policy, user, system, capability, l) ->
  (1 <= length l)%nat /\ forall i n, l !! i = Some n -> n_ordinal n = (1 + Z.of_nat i)%Z.
Proof.
  unfold check_batch. intros H. hub_inv H.
  match goal with E : normalize_items _ _ _ = _ |- _ => apply normalize_ordinals in E as [Hlen Hord] end.
  split; [|done]. rewrite Hlen. destruct (ba_items a); cbn; [done|lia].
Qed.

Lemma ordinals_in l : (forall i n, l !! i = Some n -> n_ordinal n = (1 + Z.of_nat i)%Z) ->
  (forall n, In n l -> (1 <= n_ordinal n <= Z.of_nat (length l))%Z) /\
  (forall o, (1 <= o <= Z.of_nat (length l))%Z -> exists n, In n l /\ n_ordinal n = o).
Proof.
  intros Hord. split.
  - intros n Hn. apply list_elem_of_In, list_elem_of_lookup in Hn as [i Hi]. rewrite (Hord i n Hi).
    apply lookup_lt_Some in Hi. lia.
  - intros o Ho. destruct (lookup_lt_is_Some_2 l (Z.to_nat (o - 1))) as [n Hn]; [lia|]. exists n.
    split; [by eapply list_elem_of_In, list_elem_of_lookup_2|]. rewrite (Hord _ _ Hn). lia.
Qed.

Lemma new_batch_ok s id b l fresh now rows rows' :
  batches_ok s -> (1 <= length l)%nat -> (forall i n, l !! i = Some n -> n_ordinal n = (1 + Z.of_nat i)%Z) ->
  insert_row id (fun c => String.eqb (b_parent_task_id c) (b_parent_task_id b)) b (batches s) = Ok rows ->
  insert_items id fresh now l (items s) = Ok rows' ->
  b_state b = "running" -> b_current_ordinal b = 1%Z -> b_total_count b = Z.of_nat (length l) ->
  b_succeeded_count b = 0%Z -> b_failed_count b = 0%Z -> b_finished_at b = None ->
  batches_ok (with_items rows' (with_batches rows s)).
Proof.
  intros [Hc Hsl Hit Hun Hpa] Hlen Hord (Hid & Hclash & ->)%insert_row_Ok Hins Hst Hcur Htot Hsuc Hfail Hfin.
  rewrite exists_where_false in Hclash. destruct (insert_items_spec _ _ _ _ _ _ Hins) as (Hkeep & Hnew & Hall & Hun').
  destruct (ordinals_in l Hord) as [Hrange Hslot].
  assert (active_batch b = true) as Ha by (unfold active_batch; by rewrite Hst).
  assert (all_done b = false) as Hd by (unfold all_done; by rewrite Hst).
  split; cbn.
  - intros i c [[<- <-]|[_ Hi]]%lookup_insert_Some; [|by apply (Hc i)].
    split; rewrite ?Ha, ?Hd, ?Hcur, ?Htot, ?Hsuc, ?Hfail, ?Hfin, ?Hst; (done || lia || (cbn; tauto)).
  - intros i c n [[<- <-]|[_ Hi]]%lookup_insert_Some Hn.
    + rewrite Htot in Hn. destruct (Hslot n Hn) as (m & Hm & <-). destruct (Hall m Hm) as [k Hk]. by exists k, (fresh_item id m now).
    + destruct (Hsl i c n Hi Hn) as (k & x & Hx & H). exists k, x. split; [by apply Hkeep|done].
  - intros k x [Hx|(m & Hm & ->)]%Hnew.
    + destruct (Hit k x Hx) as (c & Hcx & H). exists c. split; [|done]. rewrite lookup_insert_ne; [done|]. intros E. congruence.
    + exists b. cbn. rewrite lookup_insert_eq. specialize (Hrange m Hm). split; [done|]. split; [lia|].
      unfold fits. cbn [x_ordinal x_state fresh_item]. rewrite Hcur, Ha, (proj2 (Z.ltb_ge _ _)) by lia. destruct (_ =? _)%Z; [by left|done].
  - by apply Hun'.
  - intros i i' c c' [[<- <-]|[_ Hi]]%lookup_insert_Some [[<- <-]|[_ Hi']]%lookup_insert_Some Hp; [done|exfalso|exfalso|by apply (Hpa i i' c c')].
    + specialize (Hclash i' c' Hi'). cbn in Hclash. by rewrite Hp, String.eqb_refl in Hclash.
    + specialize (Hclash i c Hi). cbn in Hclash. by rewrite Hp, String.eqb_refl in Hclash.
Qed.

Lemma create_ok task policy user system capability selection l now d s r s' :
  (1 <= length l)%nat -> (forall i n, l !! i = Some n -> n_ordinal n = (1 + Z.of_nat i)%Z) ->
  create_batch_body task policy user system capability selection l now d s = Ok (r, s') -> batches_ok s -> batches_ok s'.
Proof.
  unfold create_batch_body. intros Hlen Hord H Hok. hub_inv H; try done. frames.
  match goal with Hb : insert_row ?id _ ?b _ = Ok _, Hx : insert_items _ _ _ _ _ = Ok _ |- _ =>
    eapply batches_ok_same; [|apply (new_batch_ok s id b _ _ _ _ _ Hok Hlen Hord Hb Hx); done] end. batches_chain.
Qed.

(** ** The invariant *)

Lemma batch_step_ok s s' : batch_step s s' -> batches_ok s -> batches_ok s'.
Proof.
  intros [a now d|task user o i now d|task user o n summary now d|task user o n st code now d d'|task user reason cause now fresh d].
  - unfold create_batch. destruct (check_batch a) as [[[[[policy user] system] capability] l]|] eqn:E; [|done].
    apply check_batch_Ok in E as [Hlen Hord].
    apply (transaction_rel (fun s s' => batches_ok s -> batches_ok s')); [done|]. intros r t H. by apply (create_ok _ _ _ _ _ _ _ _ _ _ _ _ Hlen Hord H).
  - apply (transaction_rel (fun s s' => batches_ok s -> batches_ok s')); [done|]. intros r t. apply activity_ok.
  - apply (transaction_rel (fun s s' => batches_ok s -> batches_ok s')); [done|]. intros r t. apply completion_ok.
  - unfold fail_current_batch_item. destruct (negb _) eqn:E; [done|]. apply negb_false_iff, str_in_spec in E.
    apply (transaction_rel (fun s s' => batches_ok s -> batches_ok s')); [done|]. intros r t. by apply failure_ok.
  - unfold cancel_task. apply (transaction_rel (fun s s' => batches_ok s -> batches_ok s')); [done|].
    intros r t H Hok. unfold cancel_task_body, end_task, nothing_more in H. hub_inv H; [|done]. frames.
    match goal with E : cancel_batch _ _ _ _ _ = Ok _ |- _ => apply cancel_batch_ok in E end.
    { eapply batches_ok_same; [eassumption|done]. }
    eapply batches_ok_same; [|exact Hok]. batches_chain.
Qed.

Lemma outbox_step_batches s s' : outbox_step s s' -> same_batches s s'.
Proof.
  assert (forall s, same_batches s s) as Hr by done. intros [].
  - unfold claim_outbox. destruct (open_endpoint _ _ seen); [|done]. destruct (existsb _ _); [|done].
    apply (transaction_rel same_batches); [done|]. intros x t H. unfold claim_body in H. by hub_inv H.
  - unfold acknowledge_outbox. destruct (_ && _); [done|]. apply (transaction_rel same_batches); [done|]. intros x t H. cbv beta in H.
    unfold write_delivery in H. by hub_inv H.
  - apply (transaction_rel same_batches); [done|]. intros x t H. cbv beta in H. by hub_inv H.
  - apply (transaction_rel same_batches); [done|]. intros x t H. unfold administer, write_delivery in H. by hub_inv H.
  - apply (transaction_rel same_batches); [done|]. intros x t H. unfold administer, write_delivery in H. by hub_inv H.
Qed.

Lemma startup_batches g now now' s : same_batches s (snd (run_startup_maintenance g now now' s)).
Proof.
  unfold run_startup_maintenance. apply (transaction_rel same_batches); [done|]. intros x t H. cbv beta zeta in H. hub_inv H.
  apply orphans_frame in E as [E _]. destruct E as [E1 E2]. split; cbn; rewrite ?E1, ?E2;
    unfold _repair_terminal_task_statuses; by destruct (interaction_rows g), (operation_rows g).
Qed.

Lemma hub_batches_ok s : reachable_hub s -> batches_ok s.
Proof.
  revert s. apply reachable_invariant; [intros s ->; by split|].
  intros s s' Hs [task user o now d|t Ht|t Ht|t Ht|g now now']; [| | by apply (batch_step_ok s)| |];
    eapply batches_ok_same; try exact Hs; [by apply observation_quiet|by apply ledger_quiet|by apply outbox_step_batches|apply startup_batches].
Qed.

(** ** What is done stays done *)

(** Batches keep their task and user, and items that have succeeded keep their place and their state. *)
Definition keeps_done s s' : Prop :=
  (forall id b, batches s !! id = Some b -> exists b', batches s' !! id = Some b' /\
     b_parent_task_id b' = b_parent_task_id b /\ b_user_subject b' = b_user_subject b) /\
  (forall k x, items s !! k = Some x -> x_state x = "succeeded" -> exists x', items s' !! k = Some x' /\
     x_batch_id x' = x_batch_id x /\ x_ordinal x' = x_ordinal x /\ x_state x' = "succeeded").

#[export] Instance keeps_done_preorder : PreOrder keeps_done.
Proof.
  split; [intros s; split; [intros id b H; by exists b|intros k x H Hs; by exists x]|].
  intros s1 s2 s3 [H1 H2] [H3 H4]. split.
  - intros id b H. destruct (H1 id b H) as (b' & Hb' & E1 & E2). destruct (H3 id b' Hb') as (b'' & Hb'' & E3 & E4).
    exists b''. split_and!; [done|congruence..].
  - intros k x H Hs. destruct (H2 k x H Hs) as (y & Hy & E1 & E2 & E3). destruct (H4 k y Hy E3) as (z & Hz & E4 & E5 & E6).
    exists z. split_and!; [done|congruence..].
Qed.

Lemma keeps_same s s' : same_batches s s' -> keeps_done s s'.
Proof. intros [H1 H2]. split; rewrite ?H1, ?H2; [intros id b H; by exists b|intros k x H Hs; by exists x]. Qed.

Lemma keeps_set_batch id f s : (forall b, b_parent_task_id (f b) = b_parent_task_id b /\ b_user_subject (f b) = b_user_subject b) ->
  keeps_done s (set_batch id f s).
Proof.
  intros Hf. split; [|intros k x H Hs; by exists x]. intros i b Hi. unfold set_batch, update_key. cbn.
  destruct (batches s !! id) as [c|] eqn:E; cbn; [|by exists b]. destruct (String.eqb_spec i id) as [->|Hne].
  - assert (c = b) as -> by congruence. exists (f b). by rewrite lookup_insert_eq.
  - exists b. by rewrite lookup_insert_ne.
Qed.

Lemma keeps_set_item k f s :
  (forall x, items s !! k = Some x -> x_state x = "succeeded" -> x_state (f x) = "succeeded") ->
  (forall x, x_batch_id (f x) = x_batch_id x /\ x_ordinal (f x) = x_ordinal x) -> keeps_done s (set_item k f s).
Proof.
  intros Hf Hcol. split; [intros i b H; by exists b|]. intros j x Hx Hs. rewrite set_item_lookup, Hx. cbn.
  eexists. split; [done|]. destruct (String.eqb_spec j k) as [->|_]; [|done]. destruct (Hcol x). split_and!; auto.
Qed.

(** The current item of an active batch has not succeeded. *)
Lemma current_not_done s id b k x : batches_ok s -> batches s !! id = Some b -> active_batch b = true ->
  items s !! k = Some x -> x_batch_id x = id -> x_ordinal x = b_current_ordinal b -> x_state x <> "succeeded".
Proof.
  intros Hok Hb Ha Hk Hid Hord. destruct (bk_items _ Hok _ _ Hk) as (c & Hc & _ & Hfit). assert (c = b) as -> by congruence.
  unfold fits in Hfit. rewrite Hord, Z.ltb_irrefl, Z.eqb_refl, Ha in Hfit. intros E. rewrite E in Hfit. cbn in Hfit. naive_solver.
Qed.

Lemma keeps_current s id b k x f g : batches_ok s -> batches s !! id = Some b -> active_batch b = true ->
  items s !! k = Some x -> x_batch_id x = id -> x_ordinal x = b_current_ordinal b ->
  (forall x, x_batch_id (f x) = x_batch_id x /\ x_ordinal (f x) = x_ordinal x) ->
  (forall b, b_parent_task_id (g b) = b_parent_task_id b /\ b_user_subject (g b) = b_user_subject b) ->
  keeps_done s (set_batch id g (set_item k f s)).
Proof.
  intros Hok Hb Ha Hk Hid Hord Hf Hg. trans (set_item k f s); [|by apply keeps_set_batch].
  apply keeps_set_item; [|done]. intros y Hy Hs. assert (y = x) as -> by congruence.
  by destruct (current_not_done s id b k x Hok Hb Ha Hk Hid Hord).
Qed.

Lemma create_keeps task policy user system capability selection l now d s r s' :
  create_batch_body task policy user system capability selection l now d s = Ok (r, s') -> keeps_done s s'.
Proof.
  unfold create_batch_body. intros H. hub_inv H; [reflexivity|]. frames.
  match goal with Hb : insert_row _ _ _ _ = Ok ?bs, Hx : insert_items _ _ _ _ _ = Ok ?xs |- _ =>
    apply insert_row_Ok in Hb as (Hid & _ & ->); apply insert_items_spec in Hx as (Hkeep & _);
    trans (with_items xs (with_batches (<[bd_batch_id d := fresh_batch task user system capability policy (snapshot_hash_of l) selection
             (Z.of_nat (length l)) now]> (batches s)) s)) end; [|apply keeps_same; batches_chain].
  split; cbn.
  - intros i b Hi. exists b. rewrite lookup_insert_ne; [done|]. intros <-. congruence.
  - intros k x Hk Hs. exists x. split; [by apply Hkeep|done].
Qed.

Lemma activity_keeps task user operation interaction now d s r s' :
  record_batch_item_activity_body task user operation interaction now d s = Ok (r, s') -> batches_ok s -> keeps_done s s'.
Proof.
  unfold record_batch_item_activity_body. intros H Hok. hub_inv H; try reflexivity; frames;
    match goal with E : _select_current_batch_item _ _ _ = _ |- _ => apply current_item_Ok in E as (Hk & Hid & Hord) end;
    match goal with E : batch_of_task _ _ = _ |- _ => apply batch_of_task_Some in E as [Hb _] end;
    match goal with E : negb (active_batch _) = false |- _ => apply negb_false_iff in E as Ha end;
    pose proof (keeps_current s _ _ _ _ (worked_item (if opt_truthy interaction then "waiting_user" else "preparing") operation interaction now)
      (fun b => moved_batch (if opt_truthy interaction then "waiting_user" else "running") (b_current_ordinal b)
                  (b_succeeded_count b) (b_failed_count b) now (b_finished_at b) b) Hok Hb Ha Hk Hid Hord) as Hkeep;
    (etrans; [by apply Hkeep|apply keeps_same; batches_chain]).
Qed.

Lemma complete_item_keeps task user operation summary row id b k item now d s r s' :
  complete_item task user operation summary row id b (k, item) now d s = Ok (r, s') ->
  keeps_done (set_item k (succeeded_item operation summary now) s) s'.
Proof.
  unfold complete_item. intros H. cbn [fst snd] in H. cbv zeta in H.
  destruct (next_queued id (b_current_ordinal b) (set_item k (succeeded_item operation summary now) s)) as [[k' x']|] eqn:E.
  - apply next_queued_Some in E as (Hk' & _ & _ & Hq & _). hub_inv H; frames.
    match goal with H1 : same_batches (set_item k' (prepared_item now) ?t) _ |- _ => trans t; [by apply keeps_set_batch|];
      trans (set_item k' (prepared_item now) t); [|apply keeps_same; batches_chain] end.
    apply keeps_set_item; [|done]. intros x Hx Hs. assert (x = x') as -> by (cbn in Hx, Hk'; congruence). congruence.
  - hub_inv H; frames.
    match goal with H1 : same_batches (set_batch ?i ?f ?t) _ |- _ => trans (set_batch i f t); [by apply keeps_set_batch|] end.
    apply keeps_same. batches_chain.
Qed.

(** A completion leaves its item succeeded, whether it has just been completed or was before. *)
Definition done_at (task user : string) (n : Z) s : Prop :=
  exists id b k x, batches s !! id = Some b /\ b_parent_task_id b = task /\ b_user_subject b = user /\
    items s !! k = Some x /\ x_batch_id x = id /\ x_ordinal x = n /\ x_state x = "succeeded".

Lemma keeps_done_at task user n s s' : keeps_done s s' -> done_at task user n s -> done_at task user n s'.
Proof.
  intros [Hb Hx] (id & b & k & x & H1 & H2 & H3 & H4 & H5 & H6 & H7). destruct (Hb id b H1) as (b' & Hb' & E1 & E2).
  destruct (Hx k x H4 H7) as (x' & Hx' & E3 & E4 & E5). exists id, b', k, x'. split_and!; congruence.
Qed.

Lemma completion_keeps task user operation n summary now d s r s' :
  complete_current_batch_item_body task user operation n summary now d s = Ok (r, s') -> batches_ok s ->
  keeps_done s s' /\ done_at task user n s'.
Proof.
  unfold complete_current_batch_item_body. intros H Hok. hub_inv H.
  all: apply owned_batch_Ok in E0 as (Hb & Hp & Hu); destruct p as [k x]; cbn [fst snd] in *;
    apply item_at_Some in E2 as (Hk & Hid & Hord).
  - split; [reflexivity|]. apply String.eqb_eq in E3. by exists s0, b, k, x.
  - apply negb_false_iff in G, G0. apply Z.eqb_eq in G0. apply complete_item_keeps in H.
    assert (keeps_done s (set_item k (succeeded_item operation summary now) s)) as H0.
    { apply keeps_set_item; [|done]. intros y Hy Hs. done. }
    split; [by etrans|]. apply (keeps_done_at _ _ _ _ _ H). exists s0, b, k, (succeeded_item operation summary now x).
    rewrite set_item_lookup, Hk. cbn. by rewrite String.eqb_refl.
Qed.

Lemma failure_keeps task user operation n item_state code now d d' s r s' :
  fail_current_batch_item_body task user operation n item_state code now d d' s = Ok (r, s') -> batches_ok s -> keeps_done s s'.
Proof.
  unfold fail_current_batch_item_body, fail_item. intros H Hok. hub_inv H; try reflexivity; frames.
  all: apply owned_batch_Ok in E0 as (Hb & _); destruct p as [k item]; cbn [fst snd] in *; apply item_at_Some in E3 as (Hk & Hid & Hord).
  apply negb_false_iff in E2. apply Z.eqb_eq in E4.
  match goal with H1 : same_batches (set_batch ?i ?g (set_item k ?f s)) _ |- _ =>
    trans (set_batch i g (set_item k f s)); [apply (keeps_current s i b k item); (done || congruence)|] end.
  apply keeps_same. batches_chain.
Qed.

Lemma cancel_keeps task user row now s r s' : cancel_batch task user row now s = Ok (r, s') -> keeps_done s s'.
Proof.
  unfold cancel_batch. intros H. hub_inv H; try reflexivity. frames.
  match goal with H1 : same_batches (set_batch ?i ?g ?t) _ |- _ => trans t; [|trans (set_batch i g t)] end.
  - split; cbn; [intros i c Hi; by exists c|]. intros k x Hk Hs. rewrite lookup_update_where, Hk. cbn. eexists. split; [done|].
    unfold open_item. by rewrite Hs, andb_false_r.
  - by apply keeps_set_batch.
  - by apply keeps_same.
Qed.

Lemma hub_step_keeps s s' : hub_step s s' -> batches_ok s -> keeps_done s s'.
Proof.
  intros [task user o now d|t Ht|t Ht|t Ht|g now now'] Hok; [| | | |].
  - apply keeps_same. by apply observation_quiet.
  - apply keeps_same. by apply ledger_quiet.
  - destruct Ht as [a now d|task user o i now d|task user o n summary now d|task user o n st code now d d'|task user reason cause now fresh d].
    + unfold create_batch. destruct (check_batch a) as [[[[[policy user] system] capability] l]|]; [|reflexivity].
      apply transaction_rel; [by intros ?|]. intros r t. apply create_keeps.
    + apply (transaction_rel keeps_done); [by intros ?|]. intros r t H. by apply (activity_keeps _ _ _ _ _ _ _ _ _ H).
    + apply (transaction_rel keeps_done); [by intros ?|]. intros r t H. by apply (completion_keeps _ _ _ _ _ _ _ _ _ _ H).
    + unfold fail_current_batch_item. destruct (negb _); [reflexivity|].
      apply (transaction_rel keeps_done); [by intros ?|]. intros r t H. by apply (failure_keeps _ _ _ _ _ _ _ _ _ _ _ _ H).
    + unfold cancel_task. apply (transaction_rel keeps_done); [by intros ?|].
      intros r t H. unfold cancel_task_body, end_task, nothing_more in H. hub_inv H; [|reflexivity]. frames.
      match goal with E : cancel_batch _ _ _ _ ?t = Ok _ |- _ => apply cancel_keeps in E; trans t; [apply keeps_same; batches_chain|] end.
      etrans; [eassumption|]. by apply keeps_same.
  - apply keeps_same. by apply outbox_step_batches.
  - apply keeps_same, startup_batches.
Qed.

Definition owned_by (task user : string) s : Prop := exists t, tasks s !! task = Some t /\ t_user_subject t = user.

Lemma owner_stays s s' task user : tasks_stay s s' -> owned_by task user s -> owned_by task user s'.
Proof. intros H (t & Ht & Hu). destruct (H task t Ht) as (t' & Ht' & Hi & _). exists t'. split; [done|congruence]. Qed.

Lemma repeated_completion s task user operation n summary now d :
  batches_ok s -> done_at task user n s -> owned_by task user s ->
  exists c, complete_current_batch_item task user operation n summary now d s = (Ok c, s) /\ cm_reused c = true.
Proof.
  intros Hok (id & b & k & x & Hb & Hp & Hu & Hk & Hid & Hn & Hx) (t & Ht & Htu).
  unfold complete_current_batch_item, transaction, complete_current_batch_item_body.
  rewrite (proj2 (select_owned_Ok _ _ _ _) (conj Ht Htu)). cbv beta iota zeta delta [pbind mbind result_bind].
  assert (_select_owned_batch_for_task task user s = Ok (id, b)) as ->.
  { unfold _select_owned_batch_for_task. rewrite (select_one_unique _ _ id b Hb); [done| |].
    - by rewrite Hp, Hu, !String.eqb_refl.
    - intros id' b' Hb' [E%String.eqb_eq _]%andb_true_iff. apply (bk_parent _ Hok id' id b' b Hb' Hb). congruence. }
  assert (forall m, (1 <= m <= b_total_count b)%Z -> exists k' x', item_at id m s = Some (k', x')) as Hslot.
  { intros m Hm. destruct (bk_slots _ Hok id b m Hb Hm) as (k' & x' & Hk' & Hi & Ho).
    unfold item_at. rewrite (select_one_unique _ _ k' x' Hk'); [by exists k', x'|by rewrite Hi, Ho, String.eqb_refl, Z.eqb_refl|].
    intros j y Hy [E1%String.eqb_eq E2%Z.eqb_eq]%andb_true_iff. apply (bk_unique _ Hok j k' y x'); congruence. }
  assert (item_at id n s = Some (k, x)) as ->.
  { unfold item_at. apply select_one_unique; [done|by rewrite Hid, Hn, String.eqb_refl, Z.eqb_refl|].
    intros j y Hy [E1%String.eqb_eq E2%Z.eqb_eq]%andb_true_iff. apply (bk_unique _ Hok j k y x); congruence. }
  cbn [snd]. rewrite Hx, String.eqb_refl. destruct (active_batch b && (n <? b_current_ordinal b)%Z) eqn:E.
  - destruct (Hslot _ (ct_ordinal _ (bk_counted _ Hok _ _ Hb))) as (k' & x' & Hcur).
    unfold _select_current_batch_item. rewrite Hcur. by eexists.
  - by eexists.
Qed.

(** ** Properties *)

(** C36. In every reachable hub, every batch has one item for each of its ordinals and no other.  The items below the
    current ordinal have succeeded and are as many as the counter says; the one at it is open while the batch is active,
    has succeeded when the batch has, and is lost otherwise; none above it has been begun.  A batch ends when it stops
    being active, at most one of its items is counted as failed, and a task has at most one batch. *)
Theorem batches_invariant s : reachable_hub s -> batches_ok s.
Proof. apply hub_batches_ok. Qed.

(** C37. Once the completion of an item has returned, it may be repeated at any later time, whatever has happened in
    between and whatever operation and result the repetition names: it says so, and it changes nothing. *)
Theorem completion_repeats task user operation n summary now d s c s1 s2 operation' summary' now' d' :
  reachable_hub s -> complete_current_batch_item task user operation n summary now d s = (Ok c, s1) -> rtc hub_step s1 s2 ->
  exists c', complete_current_batch_item task user operation' n summary' now' d' s2 = (Ok c', s2) /\ cm_reused c' = true.
Proof.
  intros Hr H Hsteps. unfold complete_current_batch_item, transaction in H.
  destruct (complete_current_batch_item_body _ _ _ _ _ _ _ s) as [[x t]|] eqn:E; [|done]. injection H as -> ->.
  assert (reachable_hub s1) as Hr1.
  { apply (reachable_step _ _ s); [done|]. apply in_batches.
    replace s1 with (snd (complete_current_batch_item task user operation n summary now d s)); [apply completes_item|].
    unfold complete_current_batch_item, transaction. by rewrite E. }
  pose proof (hub_batches_ok s Hr) as Hok. destruct (completion_keeps _ _ _ _ _ _ _ _ _ _ E Hok) as [_ Hdone].
  assert (owned_by task user s1) as Htask.
  { assert (sound s s1) as Hs.
    { replace s1 with (snd (complete_current_batch_item task user operation n summary now d s)); [apply batch_sound, completes_item|].
      unfold complete_current_batch_item, transaction. by rewrite E. }
    apply (owner_stays s); [by apply Hs|]. unfold complete_current_batch_item_body in E. hub_inv E.
    all: match goal with E : _select_owned_task _ _ _ = Ok ?t |- _ => apply select_owned_Ok in E; by exists t end. }
  clear E. induction Hsteps as [s1|s1 u s2 Hstep _ IH].
  - apply repeated_completion; [by apply hub_batches_ok|exact Hdone|exact Htask].
  - pose proof (hub_step_keeps s1 u Hstep (hub_batches_ok s1 Hr1)) as Hk. apply IH; [by apply (reachable_step _ _ s1)| |].
    + by apply (keeps_done_at _ _ _ _ _ Hk).
    + apply (owner_stays s1); [by apply hub_step_sound|done].
Qed.
End BatchFacts.

(** ** Evaluation *)

Module BatchDemo.
Import TaskDemo.
#[local] Open Scope Z_scope.
#[local] Open Scope string_scope.
#[local] Existing Instance ascii_tables.
#[local] Existing Instance ascii_digits.
#[local] Existing Instance plain_urls.

Lemma batches_invariant_witness : exists b, batches one_done !! "b1" = Some b /\ active_batch b = true /\
  b_current_ordinal b = 2 /\ b_succeeded_count b = 1 /\ b_finished_at b = None.
Proof.
  destruct (batches one_done !! "b1") as [b|] eqn:E; [|vm_compute in E; discriminate E].
  pose proof (bk_counted _ (batches_invariant one_done reach_one_done) "b1" b E) as Hc.
  assert (active_batch b = true) as Ha by (vm_compute in E; injection E as <-; reflexivity).
  assert (b_current_ordinal b = 2) as Hn by (vm_compute in E; injection E as <-; reflexivity).
  destruct (counted_active b Hc Ha) as (_ & Hf & _ & Hs).
  exists b. split; [reflexivity|]. split; [exact Ha|]. split; [exact Hn|]. split; [rewrite Hs, Hn; reflexivity|exact Hf].
Defined.

(** The first item is completed, its operation is observed, and the completion is reported again, under another name. *)
Lemma completion_repeats_witness : exists c', 
  complete_current_batch_item "t1" "alice" "commit-x" 1 None 9 (CompletionDraw (draw "w1") (draw "w2") (draw "w3")) observed
  = (Ok c', observed) /\ cm_reused c' = true.
Proof.
  destruct (complete_current_batch_item "t1" "alice" "commit-1" 1 None 0 (CompletionDraw (draw "v5") (draw "v6") (draw "v7")) with_activity)
    as [[c|] s1] eqn:E; [|vm_compute in E; discriminate E].
  assert (s1 = one_done) as -> by exact (eq_sym (f_equal snd E)).
  exact (completion_repeats "t1" "alice" "commit-1" 1 None 0 _ with_activity c one_done observed "commit-x" None 9 _
    reach_activity E (rtc_once _ _ (observes_operation one_done "t1" "alice" commit_1 0 _))).
Defined.
End BatchDemo.
