(* ===== verification/AdminFacts.v ===== *)
(** * What the administration guarantees

    A pause holds until it is resumed, and the executor of writes obeys it; sessions that were signed out stay out; a
    recovery action runs once; and an action may go through without its audit. *)

From Stdlib Require Import Ascii.
From S2P Require Import Prelude PyStr Json JsonFacts Sha256 Store Procedures TaskTables TaskOutbox RuntimeGovernance RuntimeGovernanceFacts.
From S2P Require Import RuntimeEvaluationFacts AdminStores.
From S2P Require ControlledWrites ControlledWriteFacts CapabilityEngine Capabilities WriteAuthorizations.

#[local] Open Scope list_scope.

(** ** Pauses *)

Section Pauses.
Context `{UnicodeTables} `{PasswordTables}.
Implicit Types (w : world) (p : policy_row).

(** What may be called without resuming the policy: pauses, resumptions of others, and whatever concerns other stores *)
Inductive while_paused (id : string) : world -> world -> Prop :=
  | pauses who ip kind value version reason now k d w :
      while_paused id w (snd (pause_policy who ip kind value version reason now k d w))
  | resumes_other who ip k reason now d w : k <> id -> while_paused id w (snd (resume_policy who ip k reason now d w))
  | elsewhere w w' : policies w' = policies w -> while_paused id w w'.

Lemma audit_policies e d w : policies (snd (audit_of e d w)) = policies w.
Proof.
  unfold audit_of. rewrite proc_bind_eq. unfold append_audit, stored, transaction.
  destruct (_normalize_reason _ _) as [why|e0]; [|done]. cbn. destruct (append_row _ _ _ (audit w)); done.
Qed.

Lemma snd_bind {A B} (m : proc world A) (k : A -> proc world B) w : snd ((x ← m; k x) w) =
  match m w with (Ok a, w') => snd (k a w') | (Raise _, w') => w' end.
Proof. rewrite proc_bind_eq. by destruct (m w) as [[a|e] w']. Qed.

Lemma after_audit_policies {A} e d (a : A) w : policies (snd ((_ ← audit_of e d; mret a) w)) = policies w.
Proof. rewrite snd_bind. pose proof (audit_policies e d w) as Hp. by destruct (audit_of e d w) as [[[]|e0] w']. Qed.

(** A pause leaves a policy of its scope paused, and the others as they are. *)
Lemma pause_effect kind value reason who version now k w :
  let w' := snd (pause kind value reason who version now k w) in
  policies w' = policies w \/
  exists t v n why name, (exists j p, row_by_key j (policies w) = Some p /\
      policies w' = update_by_key j (moved_policy "paused" why name now) (policies w)) \/
    policies w' = policies w ++ [(k, PolicyRow t v n "paused" why name now name now)].
Proof.
  unfold pause. rewrite snd_bind. unfold of_result. destruct (_validate_policy_scope kind value version) as [[[t v] n]|e]; [|by left].
  rewrite snd_bind. destruct (checked_reason reason who) as [[why name]|e]; [|by left]. rewrite snd_bind.
  unfold stored, transaction. destruct (pause_body t v n why name now k w) as [[j w1]|e] eqn:E; [|by left].
  unfold pause_body in E. right. exists t, v, n, why, name. destruct (List.find _ _) as [[j' p]|] eqn:Ef.
  - injection E as -> <-. left. apply find_some in Ef as [Hin _].
    destruct (proj1 (assoc_keys j (policies w)) (in_map fst _ _ Hin)) as [p' Hp']. by exists j, p'.
  - apply result_bind_Ok in E as (l & (_ & _ & ->)%append_row_Ok & [= _ <-]). by right.
Qed.

Lemma resume_effect k reason who now w :
  let w' := snd (resume k reason who now w) in
  policies w' = policies w \/ exists why name, policies w' = update_by_key k (moved_policy "active" why name now) (policies w).
Proof.
  unfold resume. rewrite snd_bind. unfold of_result. destruct (checked_reason reason who) as [[why name]|e]; [|by left].
  rewrite snd_bind. unfold stored, transaction. destruct (row_by_key k (policies w)); cbn; [right; by exists why, name|by left].
Qed.

Definition paused_here (system user capability version id : string) w : Prop :=
  exists p, row_by_key id (policies w) = Some p /\ covers system user capability version p = true.

Lemma covers_moved system user capability version why name now p : covers system user capability version p = true ->
  covers system user capability version (moved_policy "paused" why name now p) = true.
Proof. unfold covers. cbn. by intros [_ ->]%andb_true_iff. Qed.

Lemma pause_policies who ip kind value version reason now k d w :
  policies (snd (pause_policy who ip kind value version reason now k d w)) = policies w \/
  policies (snd (pause_policy who ip kind value version reason now k d w))
    = policies (snd (pause kind value reason (at_username who) version now k w)).
Proof.
  unfold pause_policy. rewrite snd_bind. unfold of_result. destruct (_require_admin who); [|by left]. rewrite snd_bind.
  unfold reading. rewrite snd_bind. destruct (pause _ _ _ _ _ _ _ w) as [[p|e] w1] eqn:E; right; [|done]. by rewrite after_audit_policies.
Qed.

Lemma resume_policies who ip k reason now d w :
  policies (snd (resume_policy who ip k reason now d w)) = policies w \/
  policies (snd (resume_policy who ip k reason now d w)) = policies (snd (resume k reason (at_username who) now w)).
Proof.
  unfold resume_policy. rewrite snd_bind. unfold of_result. destruct (_require_admin who); [|by left]. rewrite snd_bind.
  change (reading_policy k w) with (get_policy k w, w). destruct (get_policy k w) as [q|e]; [|by left]. rewrite snd_bind.
  destruct (resume _ _ _ _ w) as [[p|e] w1] eqn:E; right; [|done]. by rewrite after_audit_policies.
Qed.

Lemma paused_kept system user capability version id w w' : while_paused id w w' ->
  paused_here system user capability version id w -> paused_here system user capability version id w'.
Proof.
  unfold paused_here. intros Hstep (p & Hp & Hc).
  destruct Hstep as [who ip kind value version' reason now k d w|who ip k reason now d w Hk|w w' He].
  - destruct (pause_policies who ip kind value version' reason now k d w) as [-> | ->]; [by exists p|].
    destruct (pause_effect kind value reason (at_username who) version' now k w)
      as [-> |(t & v & n & why & name & [(j & q & Hq & ->)| ->])]; [by exists p| |].
    + rewrite update_by_key_row. destruct (String.eqb_spec id j) as [->|_]; [|by exists p].
      rewrite Hp. eexists. split; [done|]. by apply covers_moved.
    + exists p. split; [|done]. etrans; [apply row_by_key_snoc|by rewrite Hp].
  - destruct (resume_policies who ip k reason now d w) as [-> | ->]; [by exists p|].
    destruct (resume_effect k reason (at_username who) now w) as [-> |(why & name & ->)]; [by exists p|].
    rewrite update_by_key_row. destruct (String.eqb_spec id k) as [->|_]; [done|by exists p].
  - rewrite He. by exists p.
Qed.

Lemma matching_covered system user capability version id w :
  paused_here system user capability version id w -> exists q, matching_pause system user capability version w = Some q.
Proof.
  intros (p & Hp & Hc). unfold matching_pause. apply assoc_In in Hp.
  assert (In (id, p) (sort_by closest (rows_where (covers system user capability version) (policies w)))) as Hin.
  { apply (Permutation_in _ (symmetry (sort_by_perm _ _))). by apply rows_where_In. }
  destruct (sort_by _ _) as [|q l]; [done|]. by exists q.
Qed.

(** What a denial tells the executor of writes *)
Definition denial w (system user capability version : string) : option (string * string * string) :=
  match assert_write_allowed system user capability version w with
  | inl (_, p) => Some (po_scope_type p, po_scope_value p, po_reason p)
  | inr _ => None
  end.

(** C6. Paused writes do nothing.  From the pause of a policy that covers a write until this policy is resumed, whatever else
    the administrators and the stores do, a commit of such a write that asks the policies never enters the commit boundary
    and writes nothing, even with an approved authorization: it fails, for want of the permission or of something that it
    checks before. *)
Theorem paused_writes_do_nothing `{UrlTables} {K} (deps : ControlledWrites.dependencies (K := K)) ctx ses arguments prepare_capability def at_ db
    who ip kind value version reason now k d w id p w1 w2 :
  pause_policy who ip kind value version reason now k d w = (Ok (id, p), w1) ->
  covers (ControlledWrites.s_system_id ses) (CapabilityEngine.user_subject ctx) (Capabilities.name (CapabilityEngine.spec ctx))
    (Capabilities.version (CapabilityEngine.spec ctx)) p = true ->
  rtc (while_paused id) w1 w2 -> ControlledWrites.write_policy deps = denial w2 ->
  Capabilities.effect (CapabilityEngine.spec ctx) <> "read" ->
  exists failure db', ControlledWrites.commit deps ctx ses arguments prepare_capability def at_ db
    = ControlledWrites.Run _ (inl failure) false [] db'.
Proof.
  intros Hpause Hc Hcalls Hdeps Heff. set (system := ControlledWrites.s_system_id ses) in *.
  set (user := CapabilityEngine.user_subject ctx) in *. set (cap := Capabilities.name (CapabilityEngine.spec ctx)) in *.
  set (ver := Capabilities.version (CapabilityEngine.spec ctx)) in *.
  assert (Hhere : paused_here system user cap ver id w1).
  { exists p. split; [|done]. unfold pause_policy in Hpause.
    apply proc_of_result_bind in Hpause as (u & _ & Hpause). rewrite proc_bind_eq in Hpause. unfold reading in Hpause.
    apply proc_bind_Ok in Hpause as (q & wa & Hp & Hpause). apply proc_bind_Ok in Hpause as (v & wb & Ha & Hpause).
    injection Hpause as -> <-. assert (policies wb = policies wa) as ->.
    { pose proof (audit_policies (note who "governance.write.pause" "governance_policy" (fst (id, p)) ip (Some reason)
        match List.find (raw_scope kind value version) (list_policies None w) with Some p0 => Some (AuditedPolicy p0) | None => None end
        (Some (AuditedPolicy (id, p))) "succeeded" None) d wa) as Hpol. by rewrite Ha in Hpol. }
    unfold pause in Hp. apply proc_bind_Ok in Hp as ([[t v'] n] & wc & _ & Hp).
    apply proc_bind_Ok in Hp as ([why name] & wd & _ & Hp). apply proc_bind_Ok in Hp as (j & we & _ & Hp).
    unfold reading_policy in Hp. injection Hp as Hg ->. by apply row_with_Ok in Hg as [Hid Hrow]; cbn in Hid; subst j. }
  assert (Hhere2 : paused_here system user cap ver id w2).
  { clear Hpause Hdeps. induction Hcalls as [|wa wb wc Hstep _ IH]; [done|]. apply IH. by eapply paused_kept. }
  apply matching_covered in Hhere2 as [q Hq].
  assert (Hdenied : forall prepare authorization plan, exists e, ControlledWrites.admitted deps ctx ses prepare authorization plan = inl e).
  { intros prepare authorization plan. unfold ControlledWrites.admitted.
    assert (exists e, ControlledWrites.assert_write_allowed deps ctx (ControlledWrites.s_system_id ses) = inl e) as [e He].
    { unfold ControlledWrites.assert_write_allowed. destruct (String.eqb_spec (Capabilities.effect (CapabilityEngine.spec ctx)) "read"); [done|].
      rewrite Hdeps. unfold denial, AdminStores.assert_write_allowed. fold system user cap ver. rewrite Hq. destruct q. by eexists. }
    rewrite He. repeat match goal with |- context [match ?x with _ => _ end] => lazymatch x with context [match _ with _ => _ end] => fail | _ => destruct x end end;
      by eexists. }
  unfold ControlledWrites.commit.
  destruct (negb _); [by do 2 eexists|]. destruct (WriteAuthorizations.get _ _ _ db) as [[authorization|e] db']; [|by do 2 eexists].
  destruct (negb _); [by do 2 eexists|].
  match goal with |- context [ControlledWrites.admitted deps ctx ses ?a ?b ?c] => destruct (Hdenied a b c) as [e He] end. rewrite He.
  by do 2 eexists.
Qed.
End Pauses.

(** ** Sessions *)

Section Sessions.
Context `{UnicodeTables} `{PasswordTables}.
Implicit Types (w : world) (r : admin_session_row) (l : list (string * admin_session_row)).

(** The methods of the session store, and whatever leaves its table alone *)
Inductive session_call : world -> world -> Prop :=
  | creates_session x account ip agent now d w : session_call w (snd (create_session x account ip agent now d w))
  | verifies x token csrf now w : session_call w (snd (verify x token csrf now w))
  | revokes token now w : session_call w (snd (revoke token now w))
  | revokes_account id but now w : session_call w (snd (revoke_account_sessions id but now w))
  | leaves_sessions w w' : admin_sessions w' = admin_sessions w -> session_call w w'.

(** What a call does to the table: a new row with its own token, or rows that keep their token and do not come back *)
Definition lasting (g : string * admin_session_row -> admin_session_row) : Prop := forall kr,
  as_token_hash (g kr) = as_token_hash (snd kr) /\ (is_Some (as_revoked_at (snd kr)) -> is_Some (as_revoked_at (g kr))).

Definition sessions_move l l' : Prop :=
  (exists k r, l' = l ++ [(k, r)] /\ (k ∉ map fst l) /\ forall kr, In kr l -> as_token_hash (snd kr) <> as_token_hash r) \/
  (exists g, l' = map (fun kr => (fst kr, g kr)) l /\ lasting g).

Lemma sessions_same l : sessions_move l l.
Proof.
  right. exists snd. split; [|by intros kr]. rewrite <- (map_id l) at 1. apply map_ext. by intros [k r].
Qed.

Lemma sessions_updated p (f : admin_session_row -> admin_session_row) l :
  (forall r, as_token_hash (f r) = as_token_hash r /\ (is_Some (as_revoked_at r) -> is_Some (as_revoked_at (f r)))) ->
  sessions_move l (map (fun kr => if p kr : bool then (fst kr, f (snd kr)) else kr) l).
Proof.
  intros Hf. right. exists (fun kr => if p kr then f (snd kr) else snd kr). split.
  - apply map_ext. intros [k r]. by destruct (p (k, r)).
  - intros kr. destruct (p kr); [apply Hf|done].
Qed.

Lemma revoked_lasts now r : as_token_hash (revoked_at now r) = as_token_hash r /\
  (is_Some (as_revoked_at r) -> is_Some (as_revoked_at (revoked_at now r))).
Proof. split; [done|]. intros _. unfold revoked_at. cbn. destruct (as_revoked_at r); by eexists. Qed.

Lemma session_step w w' : session_call w w' -> sessions_move (admin_sessions w) (admin_sessions w').
Proof.
  destruct 1 as [x account ip agent now d w|x token csrf now w|token now w|id but now w|w w' ->]; [| | | |apply sessions_same].
  - unfold create_session, stored, transaction. destruct (append_row _ _ _ _) as [l|e] eqn:E; [|apply sessions_same].
    apply append_row_Ok in E as (Hk & Hc & ->). left. do 2 eexists. split_and!; [done|done|].
    intros kr Hin. apply Hc in Hin. by apply String.eqb_neq in Hin.
  - unfold verify. destruct (negb _); [apply sessions_same|]. unfold stored, transaction.
    destruct (List.find _ _) as [[k r]|]; [|apply sessions_same]. destruct (row_by_key _ _) as [a|]; [|apply sessions_same].
    destruct (usable _ _ _ _ _); [|apply sessions_same]. cbn. unfold update_by_key, update_row, every_row.
    by apply (sessions_updated (fun kr => String.eqb (fst kr) k && true)).
  - unfold revoke. destruct (negb _); [apply sessions_same|]. cbn. unfold update_rows.
    apply (sessions_updated (fun kr => with_token token (snd kr))). apply revoked_lasts.
  - cbn. apply (sessions_updated (of_account id but)). apply revoked_lasts.
Qed.

(** Keys and tokens are unique. *)
Definition tokens_unique l : Prop := NoDup (map fst l) /\
  forall kr kr', In kr l -> In kr' l -> as_token_hash (snd kr) = as_token_hash (snd kr') -> fst kr = fst kr'.

Lemma move_unique l l' : sessions_move l l' -> tokens_unique l -> tokens_unique l'.
Proof.
  intros [(k & r & -> & Hk & Hno)|(g & -> & Hg)] [Hn Hu].
  - split; [by apply snoc_keys|]. intros kr kr' [Hin|[<-|[]]]%in_app_or [Hin'|[<-|[]]]%in_app_or He; cbn in He; [by apply Hu| | |done].
    + by destruct (Hno kr Hin).
    + by destruct (Hno kr' Hin').
  - split; [rewrite map_map; exact Hn|]. intros x x' (kr & <- & Hin)%in_map_iff (kr' & <- & Hin')%in_map_iff He. cbn in He |- *.
    rewrite (proj1 (Hg kr)), (proj1 (Hg kr')) in He. by apply Hu.
Qed.

(** A session with this token is revoked. *)
Definition revoked_here (id hash : string) l : Prop :=
  exists r, row_by_key id l = Some r /\ as_token_hash r = hash /\ is_Some (as_revoked_at r).

Lemma move_revoked id hash l l' : sessions_move l l' -> revoked_here id hash l -> revoked_here id hash l'.
Proof.
  intros [(k & r & -> & Hk & Hno)|(g & -> & Hg)] (q & Hq & Hh & Hr).
  - exists q. split_and!; [|done|done]. by rewrite row_by_key_snoc, Hq.
  - exists (g (id, q)). split_and!; [|by rewrite (proj1 (Hg (id, q)))|by apply (proj2 (Hg (id, q)))].
    clear Hh Hr. unfold row_by_key in *. induction l as [|[k r] l IH]; cbn in *; [done|].
    destruct (String.eqb_spec id k) as [->|_]; [by injection Hq as ->|by apply IH].
Qed.

Lemma calls_unique w w' : rtc session_call w w' -> tokens_unique (admin_sessions w) -> tokens_unique (admin_sessions w').
Proof. induction 1 as [|w1 w2 w3 H1 _ IH]; [done|]. intros Hu. apply IH. by eapply move_unique; [apply session_step|]. Qed.

Lemma calls_revoked id hash w w' : rtc session_call w w' -> revoked_here id hash (admin_sessions w) -> revoked_here id hash (admin_sessions w').
Proof. induction 1 as [|w1 w2 w3 H1 _ IH]; [done|]. intros Hu. apply IH. by eapply move_revoked; [apply session_step|]. Qed.

Lemma revoked_not_verified x token csrf now id w : tokens_unique (admin_sessions w) ->
  revoked_here id (_secret_hash token) (admin_sessions w) -> verify x token csrf now w = (Ok None, w).
Proof.
  intros [Hn Hu] (q & Hq & Hh & Hr). unfold verify. destruct (negb _); [done|]. unfold stored, transaction.
  destruct (List.find _ _) as [[k r]|] eqn:Ef; [|done]. apply find_some in Ef as [Hin Ht%String.eqb_eq]. cbn in Ht.
  assert (k = id) as -> by (apply (Hu (k, r) (id, q)); [done|by apply assoc_In|cbn; congruence]).
  apply (row_In _ _ _ Hn) in Hin. assert (r = q) as -> by congruence.
  destruct (row_by_key (as_account_id q) (accounts w)) as [a|]; [|done].
  destruct Hr as [t Hr]. assert (usable x csrf now q a = false) as ->; [|done]. unfold usable. by rewrite Hr.
Qed.

Lemma change_password_sessions id current new salt now w : admin_sessions (snd (change_password id current new salt now w)) = admin_sessions w.
Proof.
  unfold change_password. rewrite snd_bind. unfold stored, transaction. destruct (row_by_key id (accounts w)) as [a|]; [|done].
  destruct (negb (active_account a)); [done|]. destruct (negb (verify_admin_password _ _)); [done|].
  destruct (verify_admin_password new _); [done|]. by destruct (hash_admin_password new salt).
Qed.

Lemma audit_sessions e d w : admin_sessions (snd (audit_of e d w)) = admin_sessions w.
Proof.
  unfold audit_of. rewrite proc_bind_eq. unfold append_audit, stored, transaction.
  destruct (_normalize_reason _ _) as [why|e0]; [|done]. cbn. by destruct (append_row _ _ _ (audit w)).
Qed.

(** A changed password signs the others out.  Once an administrator has changed the password, every other session of
    the account that was there is refused for good, whatever is called afterwards. *)
Theorem password_change_signs_out x token csrf now who address current new salt changed revoked d w0 w a w1 w2 id r :
  admin_sessions w0 = [] -> rtc session_call w0 w -> password_route who address current new salt changed revoked d w = (Ok a, w1) ->
  row_by_key id (admin_sessions w) = Some r -> as_account_id r = fst (am_account who) -> id <> am_session_id who ->
  as_token_hash r = _secret_hash token -> rtc session_call w1 w2 ->
  verify x token csrf now w2 = (Ok None, w2).
Proof.
  intros Hempty Hbefore E Hr Ha Hid Ht Hafter.
  assert (Hu : tokens_unique (admin_sessions w)).
  { eapply calls_unique; [exact Hbefore|]. rewrite Hempty. split; [constructor|by intros]. }
  unfold password_route in E. apply proc_bind_Ok in E as (a0 & wa & Hc & E). apply proc_bind_Ok in E as (n & wb & Hv & E).
  apply proc_bind_Ok in E as (u & wc & He & E). injection E as -> <-.
  apply (f_equal snd) in Hc. apply (f_equal (fun p => admin_sessions p)) in Hc. rewrite change_password_sessions in Hc. cbn in Hc.
  assert (Hsb : admin_sessions wc = admin_sessions wb).
  { apply (f_equal snd) in He. cbn in He. rewrite <- He. apply audit_sessions. }
  assert (Hstep : session_call wa wb) by (rewrite <- (f_equal snd Hv : snd (revoke_account_sessions _ _ _ wa) = wb); apply revokes_account).
  apply (revoked_not_verified x token csrf now id).
  - eapply calls_unique; [exact Hafter|]. rewrite Hsb. eapply move_unique; [by apply session_step|]. by rewrite <- Hc.
  - eapply calls_revoked; [exact Hafter|]. rewrite Hsb. unfold revoke_account_sessions, stored, transaction in Hv.
    injection Hv as _ <-. cbn. rewrite <- Hc.
    set (g := fun kr => if of_account (fst (am_account who)) (Some (am_session_id who)) kr then revoked_at revoked (snd kr) else snd kr).
    exists (g (id, r)). assert (Hof : of_account (fst (am_account who)) (Some (am_session_id who)) (id, r)
      = match as_revoked_at r with None => true | Some _ => false end).
    { unfold of_account. cbn. rewrite Ha, String.eqb_refl. rewrite (proj2 (String.eqb_neq _ _) Hid), orb_true_r, andb_true_r. done. }
    split_and!.
    + clear Hof. unfold row_by_key in *. clear Hu Hc. induction (admin_sessions w) as [|[k q] l IH]; cbn in *; [done|].
      destruct (String.eqb_spec id k) as [->|Hne].
      * injection Hr as ->. unfold g. cbn. destruct (of_account _ _ (k, r)); cbn; by rewrite String.eqb_refl.
      * destruct (of_account _ _ (k, q)); cbn; (destruct (String.eqb_spec id k); [done|by apply IH]).
    + unfold g. cbn. rewrite Hof. by destruct (as_revoked_at r).
    + unfold g. cbn. rewrite Hof. destruct (as_revoked_at r) as [t|] eqn:Er; [by rewrite Er; eexists|].
      unfold revoked_at. cbn. rewrite Er. by eexists.
Qed.
End Sessions.

(** ** Recovery actions *)

Section Recovery.
Context `{UnicodeTables} `{PasswordTables}.
Implicit Types (w : world).

(** The ledger of the one world comes from that of the other by calls of the ledger. *)
Definition ledger_moves w w' : Prop := rtc ledger_call (runtime w) (runtime w').

#[local] Instance ledger_moves_preorder : PreOrder ledger_moves.
Proof. split; [intros w; apply rtc_refl|]. intros w1 w2 w3 H1 H2. by apply (rtc_trans _ (runtime w2)). Qed.

Lemma same_runtime w w' : runtime w' = runtime w -> ledger_moves w w'.
Proof. unfold ledger_moves. by intros ->. Qed.

Lemma runtime_moves {A} (m : proc ledger A) : (forall s, rtc ledger_call s (snd (m s))) -> keeps ledger_moves (on_runtime m).
Proof. intros Hm w. unfold on_runtime, ledger_moves. specialize (Hm (runtime w)). by destruct (m (runtime w)). Qed.

Lemma hub_moves {A} (m : proc hub A) : keeps ledger_moves (on_hub m).
Proof. intros w. unfold on_hub. destruct (m (task_hub w)). by apply same_runtime. Qed.

Lemma audit_moves e d : keeps ledger_moves (audit_of e d).
Proof.
  intros w. apply same_runtime. unfold audit_of. rewrite proc_bind_eq. unfold append_audit, stored, transaction.
  destruct (_normalize_reason _ _) as [why|e0]; [|done]. cbn. by destruct (append_row _ _ _ (audit w)).
Qed.

Lemma body_moves iso t action target : keeps ledger_moves (recovery_body iso t action target).
Proof.
  unfold recovery_body. destruct (String.eqb action "retry_delivery"); [apply (keeps_bind ledger_moves); [apply hub_moves|intros ?; apply (keeps_ret ledger_moves)]|].
  destruct (String.eqb action "archive_delivery"); [apply (keeps_bind ledger_moves); [apply hub_moves|intros ?; apply (keeps_ret ledger_moves)]|].
  intros w. apply (keeps_bind ledger_moves); [|intros ?; apply (keeps_ret ledger_moves)].
  apply runtime_moves. intros s. apply rtc_once, evaluates. by apply List.Forall_forall.
Qed.

Lemma finish_moves id status after error now : keeps ledger_moves (on_runtime (finish_recovery_action id status after error now)).
Proof. apply runtime_moves. intros s. apply rtc_once, ends_recovery. Qed.

Lemma with_runtime_same w : with_runtime (runtime w) w = w.
Proof. by destruct w. Qed.

(** A request that changes anything has started its action. *)
Lemma request_started iso t who ip action target reason key d w x w1 : own_key key ->
  runtime_recovery_action iso t who ip action target reason key d w = (x, w1) -> w1 <> w ->
  exists s1, key_known key s1 /\ rtc ledger_call (runtime w) s1 /\ rtc ledger_call s1 (runtime w1).
Proof.
  intros Hown E Hne. unfold runtime_recovery_action in E. rewrite proc_bind_eq in E. unfold of_result in E.
  destruct (_require_admin who); [|by injection E as _ <-]. rewrite proc_bind_eq in E.
  destruct (raise_if _ _ _ : result unit); [|by injection E as _ <-]. cbv zeta in E. rewrite proc_bind_eq in E.
  set (kind := if String.eqb action "evaluate_runtime" then "runtime" else "delivery") in E.
  assert (exists y, recovery_target kind target w = (y, w)) as [y Hy].
  { unfold recovery_target. destruct (String.eqb kind "runtime"); [by eexists|]. destruct (get_delivery _ _); by eexists. }
  rewrite Hy in E. destruct y as [before|e]; [|by injection E as _ <-]. rewrite proc_bind_eq in E. unfold on_runtime at 1 in E.
  set (req := recovery_request who action kind target reason key (document iso before)) in E.
  destruct (start_recovery_action req (vd_started_at d) (vd_action_id d) (runtime w)) as [[[r reused]|e] s1] eqn:Es.
  2:{ assert (s1 = runtime w) as ->; [|rewrite with_runtime_same in E; by injection E as _ <-].
      unfold start_recovery_action in Es. rewrite proc_bind_eq in Es. unfold of_result in Es.
      destruct (_validate_boundary _); [|by injection Es as _ <-]. unfold atomic in Es. by apply transaction_Raise in Es as [_ ->]. }
  assert (Hstart : rtc ledger_call (runtime w) s1).
  { rewrite <- (f_equal snd Es : snd (start_recovery_action _ _ _ (runtime w)) = s1). apply rtc_once, starts_recovery. }
  destruct reused.
  { pose proof Es as Es'. apply start_recovery_Ok in Es' as [_ Es']. apply start_recovery_cases in Es' as [(-> & _)|(Hr & _)]; [|done].
    rewrite with_runtime_same in E. by injection E as _ <-. }
  exists s1. split_and!; [by apply (started_key_known req (vd_started_at d) (vd_action_id d) (runtime w) (r, false))|done|].
  change s1 with (runtime (with_runtime s1 w)). set (wa := with_runtime s1 w) in *.
  rewrite <- (f_equal snd E : snd _ = w1). pose proof (body_moves iso t action target wa) as Hb.
  destruct (recovery_body iso t action target wa) as [[after|e] wb]; (etrans; [exact Hb|]); cbn [snd];
    (apply (keeps_bind ledger_moves); [apply finish_moves|]; intros finished; apply (keeps_bind ledger_moves); [apply audit_moves|]; intros _;
     apply (keeps_ret ledger_moves) || apply (keeps_throw ledger_moves)).
Qed.

(** C14. A recovery action runs once.  When a request to the administration has changed anything, later requests with the
    same idempotency key change nothing at all, whatever they ask for and however the first one ended. *)
Theorem recovery_runs_once iso t t' who who' ip ip' action action' target target' reason reason' key d d' w x w1 w2 x' w3 :
  reachable_ledger (runtime w) -> own_key key ->
  runtime_recovery_action iso t who ip action target reason key d w = (x, w1) -> w1 <> w ->
  rtc ledger_call (runtime w1) (runtime w2) ->
  runtime_recovery_action iso t' who' ip' action' target' reason' key d' w2 = (x', w3) -> w3 = w2.
Proof.
  intros Hreach Hown E1 Hne Hcalls E2. destruct (request_started _ _ _ _ _ _ _ _ _ _ _ _ Hown E1 Hne) as (s1 & Hk & H1 & H2).
  assert (Hs1 : Inv false s1) by (eapply calls_Inv; [exact H1|by apply reachable_Inv]).
  assert (Hk2 : key_known key (runtime w2)) by (eapply key_known_calls; [by apply (rtc_trans _ (runtime w1))|done|done]).
  unfold runtime_recovery_action in E2. rewrite proc_bind_eq in E2. unfold of_result in E2.
  destruct (_require_admin who'); [|by injection E2 as _ <-]. rewrite proc_bind_eq in E2.
  destruct (raise_if _ _ _ : result unit); [|by injection E2 as _ <-]. cbv zeta in E2. rewrite proc_bind_eq in E2.
  set (kind := if String.eqb action' "evaluate_runtime" then "runtime" else "delivery") in E2.
  assert (exists y, recovery_target kind target' w2 = (y, w2)) as [y Hy].
  { unfold recovery_target. destruct (String.eqb kind "runtime"); [by eexists|]. destruct (get_delivery _ _); by eexists. }
  rewrite Hy in E2. destruct y as [before|e]; [|by injection E2 as _ <-]. rewrite proc_bind_eq in E2. unfold on_runtime at 1 in E2.
  set (req := recovery_request who' action' kind target' reason' key (document iso before)) in E2.
  destruct (start_recovery_action req (vd_started_at d') (vd_action_id d') (runtime w2)) as [[[r reused]|e] s2] eqn:Es.
  - destruct (known_key_reused req (vd_started_at d') (vd_action_id d') (runtime w2) (r, reused) s2 Hk2 Es) as [-> Hr].
    cbn in Hr. subst reused. rewrite with_runtime_same in E2. by injection E2 as _ <-.
  - assert (s2 = runtime w2) as ->; [|rewrite with_runtime_same in E2; by injection E2 as _ <-].
    unfold start_recovery_action in Es. rewrite proc_bind_eq in Es. unfold of_result in Es.
    destruct (_validate_boundary _); [|by injection Es as _ <-]. unfold atomic in Es. by apply transaction_Raise in Es as [_ ->].
Qed.
End Recovery.

(** ** Actions without their audit *)

Section Audit.
Context `{UnicodeTables} `{PasswordTables}.
Implicit Types (w : world).

(** C40. An account can be made without an audit.  The account is stored before the audit looks at the reason: with a reason
    that the audit refuses, of more than 500 characters or with a line break in it, the call fails, the account is there all
    the same, nothing is audited, and nobody has been told its password. *)
Theorem account_without_audit who ip username role reason d w name kind e :
  _require_admin who = Ok tt -> _validate_username username = Ok name -> _validate_role role = Ok kind ->
  _validate_password ("Ab9!" +:+ cd_password_secret d) = Ok tt -> (cd_account_id d ∉ map fst (accounts w)) ->
  (forall a, In a (accounts w) -> named name (snd a) = false) -> _normalize_reason (Some reason) false = Raise e ->
  exists a w', create_admin_account who ip username role reason d w = (Raise e, w') /\
    accounts w' = accounts w ++ [(cd_account_id d, a)] /\ ac_username a = name /\ ac_role a = kind /\ audit w' = audit w.
Proof.
  intros Hadmin Hname Hkind Hpw Hid Hfree Hreason.
  set (hash := PasswordHash (cd_salt d) (scrypt ("Ab9!" +:+ cd_password_secret d) (cd_salt d))).
  set (a := AccountRow name hash kind "active" true (cd_created_at d) (cd_created_at d) None None).
  set (w1 := with_accounts (accounts w ++ [(cd_account_id d, a)]) w).
  assert (Hcreate : create_account username ("Ab9!" +:+ cd_password_secret d) role true (cd_salt d) (cd_created_at d) (cd_account_id d) w
      = (Ok (cd_account_id d, a), w1)).
  { unfold create_account. rewrite proc_bind_eq. unfold of_result. rewrite Hname, proc_bind_eq, Hkind, proc_bind_eq.
    unfold hash_admin_password. rewrite (result_bind_run _ _ _ Hpw), proc_bind_eq. unfold stored, transaction.
    assert (append_row (cd_account_id d) (named name) a (accounts w) = Ok (accounts w ++ [(cd_account_id d, a)])) as Happ.
    { apply append_row_Ok. split_and!; [done|done|done]. }
    fold hash. fold a. rewrite (result_bind_run _ _ _ Happ). unfold reading_account, get_account. f_equal.
    apply row_with_Ok. split; [done|]. cbn [snd]. etrans; [apply row_by_key_snoc|]. rewrite (proj2 (row_none _ _) Hid).
    by rewrite String.eqb_refl. }
  exists a, w1. split_and!; try done.
  unfold create_admin_account. rewrite proc_bind_eq. unfold of_result. rewrite Hadmin. cbv zeta. rewrite proc_bind_eq, Hcreate, proc_bind_eq.
  unfold audit_of. rewrite proc_bind_eq. unfold append_audit, stored, transaction, note. cbn [en_reason]. rewrite Hreason. done.
Qed.
End Audit.

(** ** Concrete inputs

    Two administrators of an empty service *)

#[local] Open Scope Z_scope.
#[local] Existing Instance ascii_tables.
#[local] Existing Instance plain_urls.

Module AdminDemo.

Definition some_char (p : ascii -> bool) (c : string) : bool := match c with String a _ => p a | EmptyString => false end.
Definition between (low high : nat) (a : ascii) : bool := (low <=? nat_of_ascii a)%nat && (nat_of_ascii a <=? high)%nat.

#[local] Instance tables : PasswordTables := {|
  scrypt := fun password salt => salt +:+ password;
  is_lower_char := some_char (between 97 122);
  is_upper_char := some_char (between 65 90);
  is_digit_class := some_char (between 48 57);
  is_alnum_char := some_char (fun a => between 97 122 a || between 65 90 a || between 48 57 a);
|}.

Definition root : actor := Actor "a0" "root" "admin".
Definition empty_world : world := World [] [] [] [] empty_ledger (Hub ∅ ∅ [] ∅ ∅ ∅ ∅ [] [] ∅ ∅ ∅).
Definition audit_at (id : string) : audit_draw := AuditDraw 1 id.

(** The leave that was authorized for [u1] is committed while writes of [u1] are paused. *)
Definition paused_by_root : world :=
  snd (pause_policy root "::1" "user" "u1" "" "night shift" 5 "p1" (audit_at "x1") empty_world).
Definition resumed_other : world := snd (resume_policy root "::1" "p2" "not this one" 6 (audit_at "x2") paused_by_root).

Import ControlledWriteFacts.ControlledWriteDemo.

Definition guarded_deps : ControlledWrites.dependencies (K := unit) := {|
  ControlledWrites.registry := leave_registry;
  ControlledWrites.trusted_card_base_url := "https://agent.example/cards";
  ControlledWrites.business_input_interaction := fun v => Ok (JObj [("interactionId", JStr "i0")]);
  ControlledWrites.execution_authorization_interaction := fun v => Ok (JObj [("interactionId", JStr "i1")]);
  ControlledWrites.pending_batch_definition := fun _ _ _ => raise KeyError "batch";
  ControlledWrites.task_id_for_operation := fun _ _ => raise KeyError "task";
  ControlledWrites.get_batch_for_task := fun _ _ => raise KeyError "batch";
  ControlledWrites.require_capability := fun _ _ _ => Ok tt;
  ControlledWrites.write_policy := denial resumed_other;
  ControlledWrites.guard_skill_authorization := fun _ _ => mret tt;
  ControlledWrites.validate_task_plan_execution := fun _ => Ok tt;
  ControlledWrites.isoformat := str_of_Z;
|}.

Lemma paused_writes_do_nothing_witness : exists failure db',
  ControlledWrites.commit guarded_deps (context "oa.leave.commit" "op2") leave_session request "oa.leave.prepare"
    (leave_definition leave_commit) at_time s3 = ControlledWrites.Run _ (inl failure) false [] db'.
Proof.
  destruct (pause_policy root "::1" "user" "u1" "" "night shift" 5 "p1" (audit_at "x1") empty_world) as [[[id p]|e] w1] eqn:E;
    [|vm_compute in E; discriminate E].
  assert (Hid : id = "p1") by (vm_compute in E; injection E as <- _ _; reflexivity). subst id.
  assert (Hw : w1 = paused_by_root) by (unfold paused_by_root; rewrite E; reflexivity).
  apply (paused_writes_do_nothing guarded_deps (context "oa.leave.commit" "op2") leave_session request "oa.leave.prepare"
    (leave_definition leave_commit) at_time s3 root "::1" "user" "u1" "" "night shift" 5 "p1" (audit_at "x1") empty_world "p1" p w1
    resumed_other E).
  - vm_compute in E. injection E as <- _. vm_compute. reflexivity.
  - rewrite Hw. apply rtc_once. apply resumes_other. discriminate.
  - reflexivity.
  - discriminate.
Defined.

(** Two sessions of one account; the password is changed in the first. *)
Definition draw_of (name : string) : session_draw := SessionDraw name (name +:+ "-secret") (name +:+ "-csrf").
Definition account_of_alice : account_row :=
  AccountRow "alice" (PasswordHash "s" (scrypt "Old-password-1" "s")) "admin" "active" false 0 0 None None.
Definition with_alice : world := with_accounts [("a1", account_of_alice)] empty_world.
Definition week : lifetime := Lifetime ADMIN_SESSION_TTL_SECONDS ADMIN_SESSION_IDLE_SECONDS.
Definition one_session : world := snd (create_session week "a1" "::1" "browser" 10 (draw_of "first") with_alice).
Definition two_sessions : world := snd (create_session week "a1" "::2" "browser" 11 (draw_of "second") one_session).
Definition alice : admin := Admin "first" ("a1", account_of_alice) false 0.

Example second_works : snd (verify week "abadmin_second-secret" None 12 two_sessions) <> two_sessions.
Proof. vm_compute. discriminate. Qed.

Lemma password_change_signs_out_witness : exists a w1,
  password_route alice "::1" "Old-password-1" "New-password-2" "t" 13 14 (audit_at "x3") two_sessions = (Ok a, w1) /\
  verify week "abadmin_second-secret" None 15 w1 = (Ok None, w1).
Proof.
  destruct (password_route alice "::1" "Old-password-1" "New-password-2" "t" 13 14 (audit_at "x3") two_sessions) as [[a|e] w1] eqn:E;
    [|vm_compute in E; discriminate E].
  exists a, w1. split; [reflexivity|].
  destruct (row_by_key "second" (admin_sessions two_sessions)) as [r|] eqn:Hr; [|vm_compute in Hr; discriminate Hr].
  apply (password_change_signs_out week "abadmin_second-secret" None 15 alice "::1" "Old-password-1" "New-password-2" "t" 13 14
    (audit_at "x3") with_alice two_sessions a w1 w1 "second" r).
  - reflexivity.
  - apply (rtc_l _ _ one_session); [apply creates_session|]. apply rtc_once. apply creates_session.
  - exact E.
  - exact Hr.
  - vm_compute in Hr. injection Hr as <-. reflexivity.
  - discriminate.
  - vm_compute in Hr. injection Hr as <-. vm_compute. reflexivity.
  - apply rtc_refl.
Defined.

(** The runtime is evaluated; the same request a second time changes nothing. *)
Definition tools : recovery_tools :=
  RecoveryTools (Limits 600 600 600) [] None (fun _ => None)
    (EvaluationDraw 30 (fun _ => IncidentDraw "i1" "e1" 31) (fun _ => ClosingDraw 32 "e2")) 33.
Definition recovery_at (id event : string) : recovery_draw := RecoveryDraw 34 id 35 (AuditDraw 36 event).
#[local] Abbreviation ask id event w :=
  (runtime_recovery_action (fun _ => "") tools root "::1" "evaluate_runtime" "runtime" "check it" "k1" (recovery_at id event) w).
Definition recovered : world := snd (ask "v1" "x4" empty_world).

Lemma recovery_runs_once_witness : recovered <> empty_world /\ snd (ask "v2" "x5" recovered) = recovered.
Proof.
  assert (Hne : recovered <> empty_world) by (vm_compute; discriminate). split; [exact Hne|].
  apply (recovery_runs_once (fun _ => "") tools tools root root "::1" "::1" "evaluate_runtime" "evaluate_runtime" "runtime" "runtime"
    "check it" "check it" "k1" (recovery_at "v1" "x4") (recovery_at "v2" "x5") empty_world (fst (ask "v1" "x4" empty_world)) recovered
    recovered (fst (ask "v2" "x5" recovered))).
  - apply rtc_refl.
  - reflexivity.
  - unfold recovered. apply surjective_pairing.
  - exact Hne.
  - apply rtc_refl.
  - apply surjective_pairing.
Defined.

(** A reason with a line break in it *)
Definition two_lines : string := "new colleague" +:+ String (ascii_of_nat 10) "see the ticket".

Lemma account_without_audit_witness : exists a w' e,
  create_admin_account root "::1" "bob" "auditor" two_lines (AccountDraw "xyz-random-1" "s" 20 "a2" (audit_at "x6")) with_alice = (Raise e, w') /\
  accounts w' = [("a1", account_of_alice); ("a2", a)] /\ ac_username a = "bob" /\ audit w' = [].
Proof.
  destruct (_normalize_reason (Some two_lines) false) as [why|e] eqn:He; [vm_compute in He; discriminate He|].
  destruct (account_without_audit root "::1" "bob" "auditor" two_lines (AccountDraw "xyz-random-1" "s" 20 "a2" (audit_at "x6"))
    with_alice "bob" "auditor" e) as (a & w' & E & Hacc & Hname & _ & Haud).
  - reflexivity.
  - vm_compute. reflexivity.
  - vm_compute. reflexivity.
  - vm_compute. reflexivity.
  - intros Hin. apply list_elem_of_In in Hin as [Hin|[]]. discriminate Hin.
  - intros a [<-|[]]. vm_compute. reflexivity.
  - exact He.
  - exists a, w', e. split; [exact E|]. split; [exact Hacc|]. split; [exact Hname|exact Haud].
Defined.
End AdminDemo.
